(* ===== verification/_CoqProject ===== *)
-Q . S2P
Prelude.v
PyStr.v
PyValue.v
Logging.v
Models.v
Cache.v
Url.v
Codec.v
Json.v
Sha2.v
Policy.v
HttpRetry.v
Discovery.v
Jwks.v
JwkText.v
Jwt.v
TokenValidation.v
Coro.v
Cancel.v
Rely.v
CacheMetrics.v
Aio.v
AioSafety.v
AioAlone.v
Threads.v
ThreadSafety.v
AioFlight.v
ThreadFlight.v
Claims.v
IdToken.v
Callback.v
UrlQuery.v
Logout.v
AuthorizeUrl.v
Responses.v
ClientAuth.v
Dpop.v
Grants.v
Replies.v
Registration.v
Clients.v
Lifecycle.v
Config.v
ConfigSpec.v
ConfigTyped.v
Jar.v
Jarm.v
Fapi.v
Identity.v
Bearer.v
AioJarm.v
AioClients.v
Rp.v
TokenManager.v
Constants.v
Harness.v
HarnessSafety.v
Relay.v
RelaySafety.v
