(* ===== verification/Prelude.v ===== *)
(** * identity-model, the Python library: a verification development

    The library (src/py/src/py_identity_model) is an OpenID Connect and OAuth 2.0 client: it
    fetches a provider's discovery document and key set, validates the JWTs the provider
    signs, and runs the browser side of an authorization request.  A package on top of it
    (src/py/packages/fastapi-identity-model) puts it behind a web framework.  This development
    translates their decision-making code into executable definitions and proves what makes it correct.

    ** The parts of the program and how they interact

    A call of [validate_token] (sync/token_validation.py) looks the discovery document up in a
    process-wide cache, or fetches it through the HTTP layer, whose retry loop
    (sync/http_client.py, core/http_utils.py) may send several requests.  The document is parsed
    and vetted against a policy (core/discovery_logic.py, core/response_processors.py,
    core/validators.py, core/discovery_policy.py).  The key set at its [jwks_uri] goes through a
    second cache (core/jwks_cache.py) and its own parser (core/jwks_logic.py,
    core/response_processors.py, core/models.py).  A key is chosen for the token's header
    (core/parsers.py); when none matches, or when the signature does not verify, the key set is
    fetched again, at most once per cooldown.  PyJWT decodes the token (core/jwt_helpers.py)
    under the resolved configuration (core/token_validation_logic.py), and the application's
    claims validator (core/claims_validation.py) has the last word.  [validate_id_token]
    (sync/id_token.py, core/id_token_logic.py) adds the ID token profile and
    [validate_logout_token] (sync/logout.py, core/logout_logic.py) that of back-channel logout.
    The asynchronous surface (aio/) makes the same decisions in coroutines that one event loop
    interleaves, with a single-flight lock around every upstream fetch.

    Independently, core/authorize_url.py and core/pkce.py build an authorization request, and
    core/authorize_response.py and core/state_validation.py check the callback; core/jar.py signs
    the request, core/jarm.py verifies a signed callback, core/fapi.py checks both against the FAPI
    2.0 profile.  core/config.py resolves the settings.  The OAuth
    endpoints (token, introspection, revocation, pushed and device authorization, token exchange,
    userinfo, registration) share one shape: a request record (core/models.py) is prepared into a
    form with a client authentication (core/*_logic.py, core/client_auth.py,
    core/client_assertion.py), sent through a client the call owns or borrows
    (sync/http_client.py, sync/managed_client.py, core/mtls.py), and the reply is parsed into a
    guarded response (core/response_processors.py, core/error_handlers.py), with one retry when
    the server asks for a DPoP nonce (core/dpop.py).

    The FastAPI package guards a resource server with [validate_token] (middleware.py, ws.py,
    dependencies.py, over the claims principal of identity.py), logs users in through a router
    that keeps its state in the session (rp.py, config.py), and keeps an access token fresh
    (token_manager.py).

    The conformance relying party (src/conformance/app.py) is the application the OpenID
    Foundation's suite drives: a web server that calls the library's synchronous functions to
    discover, register, log in, verify signed callbacks and receive logouts, with its flows,
    results and contexts in globals of its own.  A second application (src/conformance/app_fastapi.py)
    has the same routes and leaves every login to the router of rp.py.

    ** The files

    - Prelude: results, the state-and-exception monad with its triples, shared tactics
      ([split_tests], [bool_prop], [peel_ok]) and hint databases ([stm], [errors]).
    - PyStr, PyValue: the Python the code is written in: strings, [int] and [float] of a string,
      dynamic values, dictionaries, the exception classes of exceptions.py and [isinstance].
    - Models: core/models.py: the guarded responses, JSON Web Keys, the two response types.
    - Cache: core/jwks_cache.py: lifetimes, the LRU dictionaries, the cooldown stamps.  The module
      globals are the records [EnvMemo] and, in TokenValidation, [TVState].
    - Url: [urlparse], [ipaddress] and [inet_aton] of the standard library.
    - Codec: UTF-8, percent- and form-encoding, base64url, [hmac.compare_digest].
    - Json: the standard library's [json.dumps] and [json.loads], as a scanner with its errors, within
      the interpreter's room for nesting.
    - Sha2: [hashlib]'s SHA-256, SHA-384 and SHA-512.
    - Policy: core/discovery_policy.py and the issuer, URL and parameter validators of
      core/validators.py.
    - HttpRetry: core/http_utils.py and the retry loop of sync/http_client.py.
    - Discovery: sync/discovery.py and the discovery half of core/response_processors.py,
      core/discovery_logic.py and core/error_handlers.py.
    - Jwks: sync/jwks.py, core/jwks_logic.py, core/parsers.py and the key-set half of
      core/response_processors.py.
    - JwkText: [from_json], [to_json] and [key_size] of core/models.py, over the module [base64].
    - Jwt: core/jwt_helpers.py, core/token_validation_logic.py, [TokenValidationConfig].
    - TokenValidation: sync/token_validation.py as a state machine: [TVState] is the module's
      globals, [tv_step] what a client can do, [reachable] the states it can bring about.
    - Claims: core/claims_validation.py.
    - IdToken: core/id_token_logic.py and sync/id_token.py.
    - Callback: core/authorize_response.py and core/state_validation.py.
    - UrlQuery, AuthorizeUrl: query strings and the splitting and joining of a URL; then
      core/authorize_url.py and core/pkce.py.
    - CacheMetrics: core/cache_metrics.py.
    - Coro: coroutines as trees of atomic steps, locks, pools of running calls and their
      interleavings ([pstep]), with the generic safety and progress arguments.
    - Cancel: schedules in which a call may also be cancelled ([Interrupt]) between two steps: it
      runs on from there only to give back the locks it holds.
    - Rely: the rely-guarantee rule for invariants that several locks share, over Coro.
    - Aio: aio/discovery.py, aio/jwks.py, the retry loop of aio/http_client.py and
      aio/token_validation.py as such coroutines.  AioSafety proves what every interleaving
      keeps, AioAlone that a call alone is the synchronous function, AioFlight that concurrent
      callers share one fetch.
    - Threads: sync/token_validation.py once more, as coroutines with its thread locks.
      ThreadSafety proves what every interleaving of threads keeps, that the one-shot warning is
      logged once and that a call alone is that of TokenValidation; ThreadFlight that concurrent
      threads share one fetch.
    - Logout: core/logout_logic.py and the id-token and logout-token functions of both surfaces.
    - Responses: the response dataclasses of core/models.py, with the guards of their fields,
      [repr] and equality.
    - ClientAuth: core/client_auth.py, core/jwt_signing.py, core/client_assertion.py and
      core/mtls.py.
    - Dpop: core/dpop.py.
    - Grants: the request records of core/models.py and the functions that turn them into
      forms (core/token_client_logic.py, core/introspection_logic.py, core/revocation_logic.py,
      core/par_logic.py, core/device_auth_logic.py, core/token_exchange_logic.py).
    - Replies: the parsers and error handlers of core/response_processors.py,
      core/error_handlers.py and the same logic files, and core/userinfo_logic.py.
    - Registration: core/registration_logic.py.
    - Clients: the shared and owned clients of sync/http_client.py, sync/managed_client.py,
      ssl_config.py and the client functions of sync/.
    - Lifecycle: the making and closing of the shared client of aio/http_client.py, under its thread
      lock and the [asyncio.Lock] of one event loop.
    - Logging: logging_utils.py and logging_config.py.
    - Config: core/config.py: the registry of settings, the sources and their precedence, the
      parsing and the group rules.  ConfigSpec proves it equal to a direct reading of the
      registry, which says what a text means apart from the parsers; ConfigTyped proves that what is built is typed and that the secret does not show.
    - Jar, Jarm, Fapi: core/jar.py, core/jarm.py with sync/jarm.py, core/fapi.py.
    - Constants: oidc_constants.py and jwt_claim_types.py, with the lookups of Python's [Enum].
    - Identity: identity.py over a store of claim lists, in which lists are shared as Python's are.
    - Bearer: the package's middleware.py, ws.py and dependencies.py.
    - AioJarm, AioClients: aio/jarm.py; the clients of aio/http_client.py and
      aio/managed_client.py and the client functions of aio/, over the state [AppState].
    - Rp: the package's rp.py and config.py: the four routes as coroutines over [AppState], with
      the session of the request as argument and result, and the sessions a browser can come by
      ([issued]).
    - TokenManager: the package's token_manager.py: a state and a lock around [AppState]'s.
    - Harness: src/conformance/app.py: its routes in a monad in which a route may answer early,
      over the library's state and the application's globals ([Stores]); [serve] is one request,
      [reached] the states a sequence of requests can bring about.  HarnessSafety proves it.
    - Relay: src/conformance/app_fastapi.py: its routes as coroutines that call those of Rp, over the
      open flows and the results; RelaySafety proves it.

    Definitions carry the names of the source, less a leading underscore.  A Python exception is
    the error of a [result]; it does not undo what was written before it, so stateful code runs
    in [stM], which returns the state either way.

    ** What the theorems show

    - Soundness of validation: [validate_token_sound], [validate_id_token_sound],
      [validate_logout_token_sound], [process_jarm_sound], [issuer_pinning],
      [decode_and_validate_contract], [id_token_claims_spec].  These tell which key, algorithm, issuer and profile an accepted
      token went through, from any reachable state.
    - The state of the process: [reachable_caches], [lru_refinement] (the ordered dictionaries
      refine an abstract recency list), [ttl_resolution], [cooldown_suppresses_requests],
      [kid_miss_rotation], and [jwks_cache_not_partitioned], a sharing of keys between policies.
    - Concurrency: [aio_validate_token_sound] and [aio_caches_safe] hold of every interleaving of
      asynchronous calls, [aio_calls_end] says that no schedule blocks or runs for ever,
      [jwks_single_flight] that concurrent callers send one request, and one more at most for each
      that is cancelled, [aio_alone_is_sync] that
      a call alone refines the synchronous function, and [clear_jwks_cache_races] shows what
      clearing the cache under a refresh does.  The first four allow the cancellation of any call at
      any point, and so does [bearer_admission]; [interrupted_refreshes_unstamped] shows what
      cancellation costs the cooldown.  [aio_clients_total] and [aio_client_alone] say
      the same of the client functions: no schedule blocks, every call ends, with a response but for one case, and
      alone it is the synchronous call.
    - Threads: [thread_validate_token_sound], [thread_caches_safe] and [thread_calls_end] hold of
      every interleaving of threads with no condition on the environment;
      [thread_alone_is_sequential] ties the threaded module to the sequential one;
      [thread_warning_once]; [thread_single_flight], beside [thread_refreshes_not_coalesced], which
      shows what the forced refresh does not share.  [client_lifecycle] and [client_singleton] say
      that no shared client leaks where all closes are on one event loop, and that all callers get the
      same one, [close_races] what a close under way does.
    - The web package: [bearer_admission] (what reaches the application, over HTTP and WebSockets)
      and [transports_agree]; [session_identity_sound] (an identity in a session goes back to a
      login of this router, its state, its verifier and its nonce) and [site_answers] (what each
      route does, and that it ends); [refresh_chain] (concurrent callers renew tokens one after
      the other, and once when once is enough); [principal_of_token], [principals_share_claims].
    - The conformance relying party: [callback_outcomes] (how a callback ends, what it changes and
      what a reported login rests on), [one_login_per_flow], [pages_show_text] (its pages have no
      markup but their templates'), [backchannel_sound].  [relay_answers]: the application over the
      router reports nothing but what the router decided, in every interleaving.
    - Settings: [config_build_spec], [issues_out_of_order] (the order is not the documented one),
      [config_typed], [config_errors_catalogued],
      [config_keeps_secret].
    - Server-side request forgery and policy: [discovery_success_safe],
      [reject_internal_spellings].
    - Parsers and key selection: [jwks_response_spec], [find_key_by_kid_sound],
      [jwk_text_roundtrip] (writing a key and reading it back), [from_json_errors], [key_size_spec].
    - HTTP: [retry_loop_spec].
    - Claims policies: [policy_refinement] gives the validators an application can build a boolean
      meaning and proves they implement it.
    - The browser side: [authorize_url_roundtrip], [pkce_spec], [callback_parse_spec],
      [state_check_spec], [mixup_check_spec], [end_session_url_roundtrip], [request_object_spec],
      [jarm_detection_agrees], [fapi_checks_decide].
    - The endpoints: [client_authentication] (what each request carries, field by field), [oauth_requests_total]
      (the client functions, end to end), [oauth_reply_spec], [device_poll_spec],
      [userinfo_sub_checked], [registration_repr_leaks].
    - What is logged: [redact_sensitive_spec], [redact_token_spec].  Constants:
      [constants_roundtrip], [constants_used].
    - Proof of possession and client credentials: [client_assertion_spec],
      [certificate_binding_spec], [dpop_proof_spec], [thumbprint_identifies].

    ** Third-party code

    PyJWT's [PyJWK], [decode], [encode] and [get_unverified_header], httpx's sending of a request
    and the text of a response, the parsing of a certificate and of a private key, the environment
    variables, the clock, the parsing of an HTTP date, and the entropy source are arguments of the
    definitions that use them.  A call that may answer differently each time takes the number of
    the call.  Theorems hold for every such function, except where a hypothesis states a
    documented behaviour (of the entropy source, in [pkce_spec]).  A source of settings an
    application writes is such a function too; [Supplies] is the class of those that answer with
    what they hold.  Of Starlette the model has what the code reads and writes: parts of a request,
    the session dictionary, the reply.

    ** The concurrent model

    Every access of a coroutine or a thread to the state it shares, and every lock operation, is a step of its
    own, so the model has more interleavings than one event loop: what holds of all of them holds
    of the loop's.  A lock is named by the dictionary stripe and the loop it belongs to; the hash
    that picks the stripe is a parameter.  An infinite back-off delay is a coroutine that never
    goes on, which [aio_calls_end] excludes by hypothesis.  A cancelled task
    leaves its body at the point it has reached, as an exception no handler of this code catches
    does, and its [async with] blocks release their locks.  A call on a part of the state runs on the whole by [embed], under more locks by
    [relock]; the token manager's lock ranks below the library's, which it is held across.

    ** Bounds and fuel

    Recursion is structural but for four fuels.  [json_loads] has the length of its text, which
    is enough ([json_loads_fuel]).  [issubclass] climbs at most six base classes,
    and six reach the root from every class ([subclass_root]).  The retry loop has fuel one more
    than the configured retries, which is its number of iterations ([retry_loop_spec]).
    [str_of_int] has fuel for as many digits as the number has bits ([str_of_int_nonneg]).

    ** What is not modelled

    - A [string] holds code points below 256, so the inputs of URL and header parsing are Latin-1
      text; what percent-decoding produces is unrestricted ([ustr]).  A character beyond Latin-1
      in the text of a message stands as its UTF-8 bytes.
    - The upper-casing of a DPoP method is that of ASCII, and [urlunparse] is defined for URLs
      with an authority, which are the ones the code passes it.
    - Floats are exact rationals with the infinities and the not-a-number apart: rounding is not
      modelled.  The digits of a non-integral float, and the order in which Python iterates over
      a set, are not modelled; both show in messages only, as does the text of an IPv6 address.
    - Threads of the synchronous client functions other than [validate_token] (each thread has a
      client of its own, and the functions share nothing else).  In Threads a reading or a writing
      of a dictionary is one step, as it is in CPython.
    - The cancellation of a call of AioClients, Rp or TokenManager, where the exception would also
      close a client the call owns.  In AioClients, unlike in Lifecycle, the shared client is never
      closed under way.
    - The printed digits of a finite float in [json.dumps], and a text whose escapes name a character
      beyond Latin-1, of which [from_json] says nothing.  How much room for nesting the interpreter
      has left at a call is an argument.
    - The closing of the shared asynchronous client from several event loops: its [asyncio.Lock] is
      a lock among the tasks of one loop, and raises where it is waited for on a second one.
    - The process-wide structure lock of the caches, as a step of its own: what it makes atomic (a
      write of an entry with its evictions, a touch, a clear) is one step.
    - In Rp a route that raises still counts the session it leaves as sent, which Starlette would not
      do; the sessions a browser can come by are then more, not fewer.
    - PyJWT is handed text; how a token beyond ASCII is encoded for it is its own affair.  The
      upper-casing of an algorithm name is that of ASCII.
    - In Rp the code of a callback reaches the token request through the parameter [code_text], a
      flow's members are read as the strings a login put there, and the body of a POST is its
      decoded text.  In TokenManager a refresh token that is no string is presented as its text.
    - In Harness two requests served at the same time, the routing of log records to a test's file
      (but for the choice of the path, [rp_log_path]), the keys and the certificate made at import
      and the parsing of a POST body, whose items are a part of the request.  The code of a JARM
      response that is no string is presented as its text.
    - In Relay the client in front of the router: its cookies, its closing, the header of a redirect
      and the address the router reads (both parameters), the JSON of the page [/session].
    - The log calls, which have no effect on what is modelled, but for the one-shot warning.
    - The components the manifest lists as not modelled. *)

From Stdlib Require Import QArith Lqa.
From stdpp Require Export base tactics option list strings numbers gmap.

#[global] Set Default Proof Using "Type".

Declare Scope py_scope.
Delimit Scope py_scope with py.
#[global] Open Scope py_scope.
#[global] Close Scope Q_scope.

(** Decidable equality as a boolean test, for strings, numbers and enumerations alike. *)
Notation "x ≟ y" := (bool_decide (x = y)) (at level 70, no associativity) : py_scope.
Notation "x ≠? y" := (negb (bool_decide (x = y))) (at level 70, no associativity) : py_scope.

(** ** Results: a value, or the exception that was raised *)

Inductive result (E A : Type) : Type :=
  | Ok (a : A)
  | Err (e : E).
Arguments Ok {E A} a.
Arguments Err {E A} e.

#[global] Instance result_ret {E} : MRet (result E) := λ A a, Ok a.
#[global] Instance result_bind {E} : MBind (result E) := λ A B f r,
  match r with Ok a => f a | Err e => Err e end.
#[global] Instance result_fmap {E} : FMap (result E) := λ A B f r,
  match r with Ok a => Ok (f a) | Err e => Err e end.
#[global] Instance result_throw {E} : MThrow E (result E) := λ A e, Err e.

#[global] Instance result_eq_dec {E A} `{EqDecision E, EqDecision A} : EqDecision (result E A).
Proof. solve_decision. Defined.

Definition is_ok {E A} (r : result E A) : bool :=
  match r with Ok _ => true | Err _ => false end.

(** Python's [if cond: raise e], as a statement. *)
Definition raise_if {E} (b : bool) (e : E) : result E unit := if b then Err e else Ok ().

(** [for x in l: f(x)] where [f] returns nothing and may raise: stops at the first raise. *)
Fixpoint for_each {E A} (f : A → result E unit) (l : list A) : result E unit :=
  match l with
  | [] => Ok ()
  | x :: l' => f x ≫= λ _, for_each f l'
  end.

(** The first [Some] of [f] along a list, Python's early [return] from a loop. *)
Fixpoint find_map {A B} (f : A → option B) (l : list A) : option B :=
  match l with
  | [] => None
  | x :: l' => match f x with Some y => Some y | None => find_map f l' end
  end.

(** ** State and exceptions

    A Python exception does not roll back the state mutated before it, so the state comes out
    of a computation whether it returned or raised. *)

Definition stM (S E A : Type) : Type := S → result E A * S.

Section StM.
Context {S E : Type}.

#[global] Instance stM_ret : MRet (stM S E) := λ A a s, (Ok a, s).
#[global] Instance stM_bind : MBind (stM S E) := λ A B f m s,
  match m s with
  | (Ok a, s') => f a s'
  | (Err e, s') => (Err e, s')
  end.
#[global] Instance stM_throw : MThrow E (stM S E) := λ A e s, (Err e, s).

Definition gets {A} (f : S → A) : stM S E A := λ s, (Ok (f s), s).
Definition modify (f : S → S) : stM S E unit := λ s, (Ok (), f s).
Definition lift {A} (r : result E A) : stM S E A := λ s, (r, s).

(** [try: m except e: h e], where the handler re-raises what it does not catch. *)
Definition try_except {A} (m : stM S E A) (h : E → stM S E A) : stM S E A := λ s,
  match m s with
  | (Ok a, s') => (Ok a, s')
  | (Err e, s') => h e s'
  end.

(** [m] keeps the invariant [I], whether it returns or raises, and what it returns satisfies
    [P]. *)
Definition triple {A} (I : S → Prop) (m : stM S E A) (P : A → Prop) : Prop := ∀ s, I s →
  match m s with (Ok a, s') => I s' ∧ P a | (Err _, s') => I s' end.
End StM.

(** Runs a computation on a component [T] of the state. *)
Definition zoom {S T E A} (get : S → T) (set : T → S → S) (m : stM T E A) : stM S E A := λ s,
  let '(r, t) := m (get s) in (r, set t s).

Create HintDb stm.

Section StMLaws.
Context {S E : Type}.
Implicit Types (I : S → Prop).

Lemma triple_ret {A} I (a : A) (P : A → Prop) : P a → triple (E:=E) I (mret a) P.
Proof. by intros HP s Hs. Qed.
Lemma triple_throw {A} I (e : E) (P : A → Prop) : triple I (mthrow e) P.
Proof. by intros s Hs. Qed.
Lemma triple_gets {A} I (f : S → A) (P : A → Prop) :
  (∀ s, I s → P (f s)) → triple (E:=E) I (gets f) P.
Proof. intros HP s Hs. split; [done|by apply HP]. Qed.
Lemma triple_modify I (f : S → S) : (∀ s, I s → I (f s)) → triple (E:=E) I (modify f) (λ _, True).
Proof. intros HI s Hs. split; [by apply HI|done]. Qed.
Lemma triple_lift {A} I (r : result E A) (P : A → Prop) :
  (∀ a, r = Ok a → P a) → triple I (lift r) P.
Proof. intros HP s Hs. unfold lift. destruct r; [split; [done|by apply HP]|done]. Qed.
Lemma triple_bind {A B} I (m : stM S E A) (k : A → stM S E B) (P : A → Prop) (Q : B → Prop) :
  triple I m P → (∀ a, P a → triple I (k a) Q) → triple I (m ≫= k) Q.
Proof.
  intros Hm Hk s Hs. specialize (Hm s Hs). unfold mbind, stM_bind.
  destruct (m s) as [[a|e] s']; [destruct Hm; by apply Hk|done].
Qed.
Lemma triple_try {A} I (m : stM S E A) h (P : A → Prop) :
  triple I m P → (∀ e, triple I (h e) P) → triple I (try_except m h) P.
Proof.
  intros Hm Hh s Hs. specialize (Hm s Hs). unfold try_except.
  destruct (m s) as [[a|e] s']; [done|by apply Hh].
Qed.
Lemma triple_if {A} I (b : bool) (m1 m2 : stM S E A) (P : A → Prop) :
  (b = true → triple I m1 P) → (b = false → triple I m2 P) → triple I (if b then m1 else m2) P.
Proof. destruct b; auto. Qed.
Lemma triple_post {A} I (m : stM S E A) (P Q : A → Prop) :
  triple I m P → (∀ a, P a → Q a) → triple I m Q.
Proof.
  intros Hm HQ s Hs. specialize (Hm s Hs). destruct (m s) as [[a|e] s']; [|done].
  destruct Hm. auto.
Qed.
Lemma triple_true {A} I (m : stM S E A) (P : A → Prop) : triple I m P → triple I m (λ _, True).
Proof. intros H. by apply (triple_post _ _ _ _ H). Qed.
End StMLaws.

#[export] Hint Resolve triple_ret triple_throw triple_lift : stm.

(** ** Lemmas and tactics shared by the components *)

(** Rewrites the reflexive tests of the goal to [true]. *)
Ltac bd_refl :=
  repeat match goal with
    | |- context [@bool_decide (?a = ?a) ?D] =>
        rewrite (@bool_decide_eq_true_2 (a = a) D eq_refl); simpl
    end.

Lemma result_bind_ok {E A B} (r : result E A) (k : A → result E B) b :
  r ≫= k = Ok b ↔ ∃ a, r = Ok a ∧ k a = Ok b.
Proof. destruct r; simpl; naive_solver. Qed.

Lemma result_bind_err {E A B} (r : result E A) (k : A → result E B) e :
  r ≫= k = Err e ↔ r = Err e ∨ ∃ a, r = Ok a ∧ k a = Err e.
Proof. destruct r; simpl; naive_solver. Qed.

Lemma raise_if_ok {E} b (e : E) u : raise_if b e = Ok u ↔ b = false.
Proof. destruct b, u; naive_solver. Qed.

Lemma raise_if_err {E} b (e e' : E) : raise_if b e = Err e' ↔ b = true ∧ e = e'.
Proof. destruct b; naive_solver. Qed.

(** Statements in sequence. *)
Lemma result_seq_ok {E B} (r : result E unit) (k : result E B) b :
  (r ≫= λ _, k) = Ok b ↔ r = Ok () ∧ k = Ok b.
Proof. destruct r as [[]|]; simpl; naive_solver. Qed.

Lemma raise_if_seq_ok {E B} c (e : E) (k : result E B) b :
  (raise_if c e ≫= λ _, k) = Ok b ↔ c = false ∧ k = Ok b.
Proof. destruct c; simpl; naive_solver. Qed.

(** Every exception [r] can raise satisfies [P]. *)
(** A stateful computation that returned: what its first step returned, and where. *)
Lemma stM_bind_ok {S E A B} (m : stM S E A) (k : A → stM S E B) s b s' :
  (m ≫= k) s = (Ok b, s') ↔ ∃ a s1, m s = (Ok a, s1) ∧ k a s1 = (Ok b, s').
Proof.
  unfold mbind, stM_bind. split.
  - destruct (m s) as [[a|e] s1]; [by exists a, s1|done].
  - by intros (a & s1 & -> & H).
Qed.
Lemma lift_ok {S E A} (r : result E A) (s : S) a s' : lift r s = (Ok a, s') ↔ r = Ok a ∧ s' = s.
Proof. unfold lift. split; [by intros [= -> ->]|by intros [-> ->]]. Qed.

Definition errors_in {E A} (P : E → Prop) (r : result E A) : Prop :=
  ∀ e, r = Err e → P e.

Lemma errors_in_ok {E A} (P : E → Prop) (a : A) : errors_in P (Ok a).
Proof. by intros e [=]. Qed.
Lemma errors_in_err {E A} (P : E → Prop) e : P e → errors_in (A:=A) P (Err e).
Proof. by intros He e' [= <-]. Qed.
Lemma errors_in_raise_if {E} (P : E → Prop) b e : P e → errors_in P (raise_if b e).
Proof. destruct b; [apply errors_in_err|intros _; apply errors_in_ok]. Qed.
Lemma errors_in_bind {E A B} (P : E → Prop) (r : result E A) (k : A → result E B) :
  errors_in P r → (∀ a, r = Ok a → errors_in P (k a)) → errors_in P (r ≫= k).
Proof.
  intros Hr Hk e [He|(a & Ha & He)]%result_bind_err; [by apply Hr|by apply (Hk a)].
Qed.

Lemma is_ok_raise_if {E} b (e : E) : is_ok (raise_if b e) = negb b.
Proof. by destruct b. Qed.

Lemma for_each_ok {E A} (f : A → result E unit) l u :
  for_each f l = Ok u ↔ ∀ x, x ∈ l → f x = Ok ().
Proof.
  induction l as [|x l IH]; simpl.
  - destruct u. split; [intros _ y Hy; by apply not_elem_of_nil in Hy|done].
  - rewrite result_bind_ok. setoid_rewrite elem_of_cons. split.
    + intros ([] & Hx & Hl) y [->|Hy]; [done|]. by apply IH.
    + intros H. exists (). split; [by auto|]. apply IH. auto.
Qed.

(** The first element on which [f] raises decides the exception. *)
Lemma for_each_err {E A} (f : A → result E unit) l e :
  for_each f l = Err e ↔
  ∃ l1 x l2, l = l1 ++ x :: l2 ∧ (∀ y, y ∈ l1 → f y = Ok ()) ∧ f x = Err e.
Proof.
  induction l as [|x l IH]; simpl.
  - split; [done|]. by intros ([] & ? & ? & ? & _).
  - rewrite result_bind_err. split.
    + intros [Hx|([] & Hx & Hl)].
      * exists [], x, l. split_and!; [done|intros y Hy; by apply not_elem_of_nil in Hy|done].
      * apply IH in Hl as (l1 & z & l2 & -> & H1 & H2). exists (x :: l1), z, l2.
        split_and!; [done| |done]. intros y [->|Hy]%elem_of_cons; auto.
    + intros ([|y l1] & z & l2 & Heq & H1 & H2); simplify_eq/=.
      * by left.
      * right. exists (). split; [apply H1; by left|]. apply IH.
        exists l1, z, l2. split_and!; [done| |done]. intros w Hw. apply H1. by right.
Qed.

Lemma find_map_some {A B} (f : A → option B) l b :
  find_map f l = Some b → ∃ a, a ∈ l ∧ f a = Some b.
Proof.
  induction l as [|x l IH]; simpl; [done|].
  destruct (f x) eqn:Hx; intros; simplify_eq.
  - exists x. split; [by left|done].
  - destruct IH as (a & ? & ?); [done|]. exists a. split; [by right|done].
Qed.

Create HintDb errors.
#[export] Hint Resolve errors_in_ok errors_in_err errors_in_raise_if errors_in_bind : errors.

(** Case analysis on the tests and matches of an unfolded definition. *)
Ltac split_tests :=
  repeat (match goal with
          | H : context [bool_decide _] |- _ => case_bool_decide
          | |- context [bool_decide _] => case_bool_decide
          | H : context [if ?b then _ else _] |- _ => let E := fresh "Eb" in destruct b eqn:E
          | |- context [if ?b then _ else _] => let E := fresh "Eb" in destruct b eqn:E
          end; simplify_eq/=).

Ltac bool_prop :=
  repeat match goal with
    | H : _ && _ = true |- _ => apply andb_true_iff in H; destruct H
    | H : _ || _ = false |- _ => apply orb_false_iff in H; destruct H
    | H : negb _ = true |- _ => apply negb_true_iff in H
    | H : negb _ = false |- _ => apply negb_false_iff in H
    | H : bool_decide _ = true |- _ => apply bool_decide_eq_true in H
    | H : bool_decide _ = false |- _ => apply bool_decide_eq_false in H
    end.

(** Peel the binds of a [result] computation known to return normally. *)
Ltac peel_ok :=
  repeat match goal with
    | H : (_ ≫= _) = Ok _ |- _ =>
        let a := fresh "v" in let Ha := fresh "Hv" in
        apply result_bind_ok in H as (a & Ha & H); simpl in *
    | H : raise_if _ _ = Ok _ |- _ => apply raise_if_ok in H
    end.
