(* ===== verification/PyStr.v ===== *)
(** * Python's [str], and the string operations the library uses

    A Python string is a sequence of Unicode code points.  The model keeps the code points
    below 256: a Rocq [ascii] is one of them, so "ASCII" is "below 128", and the branches of the
    code that depend on non-ASCII input ([str.encode("ascii")], [str.isdigit] on a superscript
    digit, [hmac.compare_digest] on a non-ASCII operand) are all reachable in the model.
    Character classes ([str.isspace], [str.isdigit], the [\w] and [\d] of [re]) are those of
    Python on that range. *)

From S2P Require Import Prelude.
From Stdlib Require Import QArith Ascii.
From stdpp Require Import strings.
#[global] Close Scope Q_scope.
Open Scope char_scope.
Open Scope string_scope.
Open Scope list_scope.
Open Scope nat_scope.

Open Scope py_scope.

Definition code (c : ascii) : nat := nat_of_ascii c.
Definition char_of (n : nat) : ascii := ascii_of_nat n.

Definition code_in (lo hi : nat) (c : ascii) : bool := (lo <=? code c) && (code c <=? hi).
Definition is_ascii (c : ascii) : bool := code c <? 128.

(** [str.isspace] on one character. *)
Definition is_space (c : ascii) : bool :=
  code_in 9 13 c || code_in 28 32 c || (code c =? 133) || (code c =? 160).
Definition is_dec_digit (c : ascii) : bool := code_in 48 57 c.
(** [str.isdigit] also accepts the superscripts two, three and one. *)
Definition is_digit (c : ascii) : bool :=
  is_dec_digit c || (code c =? 178) || (code c =? 179) || (code c =? 185).
Definition is_ascii_alpha (c : ascii) : bool := code_in 65 90 c || code_in 97 122 c.
(** [\w] of a [str] pattern: alphanumeric in Unicode's sense, or an underscore. *)
Definition is_word (c : ascii) : bool :=
  is_ascii_alpha c || is_digit c || (code c =? 95) ||
  (code c =? 170) || (code c =? 181) || (code c =? 186) || code_in 188 190 c ||
  (code_in 192 255 c && negb (code c =? 215) && negb (code c =? 247)).

Definition lower_char (c : ascii) : ascii :=
  if code_in 65 90 c || (code_in 192 222 c && negb (code c =? 215))
  then char_of (code c + 32) else c.

Fixpoint smap (f : ascii → ascii) (s : string) : string :=
  match s with EmptyString => EmptyString | String c s' => String (f c) (smap f s') end.
Fixpoint sforall (p : ascii → bool) (s : string) : bool :=
  match s with EmptyString => true | String c s' => p c && sforall p s' end.
Fixpoint sfilter (p : ascii → bool) (s : string) : string :=
  match s with
  | EmptyString => EmptyString
  | String c s' => if p c then String c (sfilter p s') else sfilter p s'
  end.

(** [not s] for a string: Python's truth value of a [str]. *)
Definition nonempty (s : string) : bool := match s with EmptyString => false | _ => true end.

Definition lower : string → string := smap lower_char.
Definition isascii : string → bool := sforall is_ascii.
Definition isdigit (s : string) : bool := nonempty s && sforall is_digit s.

Fixpoint lstrip_p (p : ascii → bool) (s : string) : string :=
  match s with
  | EmptyString => EmptyString
  | String c s' => if p c then lstrip_p p s' else s
  end.
Fixpoint rstrip_p (p : ascii → bool) (s : string) : string :=
  match s with
  | EmptyString => EmptyString
  | String c s' =>
      match rstrip_p p s' with
      | EmptyString => if p c then EmptyString else String c EmptyString
      | r => String c r
      end
  end.
Definition strip (s : string) : string := rstrip_p is_space (lstrip_p is_space s).
Definition rstrip_char (c : ascii) (s : string) : string := rstrip_p (λ d, bool_decide (d = c)) s.

Fixpoint startswith (s p : string) : bool :=
  match p, s with
  | EmptyString, _ => true
  | String c p', String d s' => (c ≟ d) && startswith s' p'
  | String _ _, EmptyString => false
  end.

(** [p in s]: a substring test. *)
Fixpoint contains (s p : string) : bool :=
  startswith s p ||
  match s with EmptyString => false | String _ s' => contains s' p end.

(** Suffix test: some suffix of [s] is [p]. *)
Fixpoint endswith (s p : string) : bool :=
  (s ≟ p) || match s with EmptyString => false | String _ s' => endswith s' p end.

Definition char_in (c : ascii) (s : string) : bool := negb (sforall (λ d, negb (d ≟ c)) s).

(** [s.split(c, 1)] when [c] occurs, [s] and no second part otherwise. *)
Fixpoint split_once (c : ascii) (s : string) : string * option string :=
  match s with
  | EmptyString => (EmptyString, None)
  | String d s' =>
      if d ≟ c then (EmptyString, Some s')
      else let '(a, b) := split_once c s' in (String d a, b)
  end.

(** [s.split(c)] on a one-character separator: never empty, keeps empty fields. *)
Fixpoint split_char (c : ascii) (s : string) : list string :=
  match s with
  | EmptyString => [EmptyString]
  | String d s' =>
      if d ≟ c then EmptyString :: split_char c s'
      else match split_char c s' with
           | [] => [String d EmptyString]
           | w :: ws => String d w :: ws
           end
  end.

(** [s.split()]: maximal runs of non-whitespace. *)
Fixpoint words_from (acc : string) (s : string) : list string :=
  match s with
  | EmptyString => if nonempty acc then [String.rev acc] else []
  | String c s' =>
      if is_space c then
        (if nonempty acc then [String.rev acc] else []) ++ words_from EmptyString s'
      else words_from (String c acc) s'
  end.
Definition split_ws (s : string) : list string := words_from EmptyString s.

Fixpoint str_join (sep : string) (l : list string) : string :=
  match l with
  | [] => EmptyString
  | [x] => x
  | x :: l' => (x +:+ sep) +:+ str_join sep l'
  end.

Fixpoint take_while (p : ascii → bool) (s : string) : string :=
  match s with
  | EmptyString => EmptyString
  | String c s' => if p c then String c (take_while p s') else EmptyString
  end.

(** ** Numerals *)

Definition digit_val (c : ascii) : Z := Z.of_nat (code c) - 48.

Fixpoint dec_value (acc : Z) (s : string) : Z :=
  match s with
  | EmptyString => acc
  | String c s' => dec_value (10 * acc + digit_val c) s'
  end.

(** Digit groups joined by single underscores, as [int] and [float] accept them.  [after] says
    whether an underscore may come next. *)
Fixpoint digits_us (after : bool) (s : string) : option string :=
  match s with
  | EmptyString => if after then Some EmptyString else None
  | String c s' =>
      if is_dec_digit c then String c <$> digits_us true s'
      else if (code c =? 95) && after then digits_us false s' else None
  end.

Definition signed (s : string) : bool * string :=
  match s with
  | String c s' =>
      if c ≟ "-"%char then (true, s') else if c ≟ "+"%char then (false, s') else (false, s)
  | EmptyString => (false, s)
  end.

(** The blanks [int] and [float] drop around a numeral: not the separators 28 to 31, which
    [str.strip] does drop. *)
Definition is_num_space (c : ascii) : bool := is_space c && negb (code_in 28 31 c).
Definition num_strip (s : string) : string := rstrip_p is_num_space (lstrip_p is_num_space s).

(** The interpreter's default bound on the digits [int] converts. *)
Definition int_max_str_digits : nat := 4300.

(** [int(s)]: [None] is the [ValueError]. *)
Definition int_of_string (s : string) : option Z :=
  let '(neg, body) := signed (num_strip s) in
  ds ← digits_us false body;
  if int_max_str_digits <? String.length ds then None
  else let v := dec_value 0 ds in Some (if neg then - v else v)%Z.

(** A Python float: the model computes with the exact rational value of a finite one, and keeps
    the infinities and the not-a-number apart. *)
Inductive pyfloat : Type := FNan | FInf (neg : bool) | FFin (q : Q).

Definition isfinite (f : pyfloat) : bool := match f with FFin _ => true | _ => false end.

Definition pow10 (e : Z) : Q := if (0 <=? e)%Z then inject_Z (10 ^ e) else / inject_Z (10 ^ (- e)).

(** The largest magnitude that does not round to an infinity. *)
Definition float_overflow : Q := inject_Z (2 ^ 1024 - 2 ^ 970).

(** Splits [s] at its first character satisfying [p], which is dropped. *)
Fixpoint split_at (p : ascii → bool) (s : string) : string * option string :=
  match s with
  | EmptyString => (EmptyString, None)
  | String c s' =>
      if p c then (EmptyString, Some s') else let '(a, b) := split_at p s' in (String c a, b)
  end.

Definition exponent_of (o : option string) : option Z :=
  match o with
  | None => Some 0%Z
  | Some t => let '(neg, body) := signed t in
      ds ← digits_us false body; let v := dec_value 0 ds in Some (if neg then - v else v)%Z
  end.

Definition digits_opt (s : string) : option string :=
  if nonempty s then digits_us false s else Some EmptyString.

(** [float(s)]: [None] is the [ValueError]. *)
Definition float_of_string (s : string) : option pyfloat :=
  let '(neg, body) := signed (num_strip s) in
  let l := lower body in
  if (l ≟ "nan") then Some FNan
  else if (l ≟ "inf") || (l ≟ "infinity") then Some (FInf neg)
  else
    let '(mant, ex) := split_at (λ c, (c ≟ "e"%char) || (c ≟ "E"%char)) body in
    let '(ip, fp) := split_once "."%char mant in
    let f := default EmptyString fp in
    if negb (nonempty ip || nonempty f) then None
    else
      i ← digits_opt ip; g ← digits_opt f; e ← exponent_of ex;
      let m := inject_Z (dec_value 0 (i +:+ g)) in
      let q := Qred (m * pow10 (e - Z.of_nat (String.length g)))%Q in
      if Qle_bool float_overflow q then Some (FInf neg)
      else Some (FFin (if neg then (- q)%Q else q)).

(** ** Rendering of integers, for messages *)

Fixpoint pos_digits (fuel : nat) (n : Z) (acc : string) : string :=
  match fuel with
  | 0 => acc
  | S fuel' =>
      let acc' := String (char_of (48 + Z.to_nat (n mod 10))) acc in
      if (n <? 10)%Z then acc' else pos_digits fuel' (n / 10) acc'
  end.
Definition str_of_int (z : Z) : string :=
  let n := Z.abs z in
  let ds := pos_digits (S (Z.to_nat (Z.log2 (Z.max 1 n)))) n EmptyString in
  if (z <? 0)%Z then String "-"%char ds else ds.

(** [repr] of a [bytes] object, one character per byte: printable ASCII as itself, the quote
    chosen so as not to need escaping where possible. *)
Definition hex_digit (n : nat) : ascii := char_of (if n <? 10 then 48 + n else 87 + n).
Definition byte_repr (quote c : ascii) : string :=
  if (c ≟ quote) || (c ≟ "\"%char) then String "\" (String c "")
  else if code c =? 9 then "\t" else if code c =? 10 then "\n" else if code c =? 13 then "\r"
  else if code_in 32 126 c then String c ""
  else "\x" +:+ String (hex_digit (code c / 16)) (String (hex_digit (code c mod 16)) "").
(** [repr] of a [str]: the printable characters beyond ASCII stay as they are. *)
Definition char_repr (quote c : ascii) : string :=
  if (c ≟ quote) || (c ≟ "\"%char) then String "\" (String c "")
  else if code c =? 9 then "\t" else if code c =? 10 then "\n" else if code c =? 13 then "\r"
  else if (code c <? 32) || code_in 127 160 c || (code c =? 173) then
    "\x" +:+ String (hex_digit (code c / 16)) (String (hex_digit (code c mod 16)) "")
  else String c "".
Definition quote_for (s : string) : ascii :=
  if char_in "'" s && negb (char_in (char_of 34) s) then char_of 34 else "'"%char.
Definition str_repr (s : string) : string :=
  let quote := quote_for s in
  String quote
    (String.concat "" (map (char_repr quote) (String.list_ascii_of_string s)) +:+ String quote "").

Definition bytes_repr (s : string) : string :=
  let quote := quote_for s in
  String "b" (String quote
    (String.concat "" (map (byte_repr quote) (String.list_ascii_of_string s)) +:+ String quote "")).

(** [sorted(set(l))], for messages. *)
Fixpoint set_insert (s : string) (l : list string) : list string :=
  match l with
  | [] => [s]
  | t :: l' => match String.compare s t with
               | Lt => s :: l | Eq => l | Gt => t :: set_insert s l'
               end
  end.
Definition sorted_set (l : list string) : list string := foldr set_insert [] l.

(** ** Tests on concrete inputs *)

Example bytes_repr_1 : bytes_repr (String "a" (String "'" (String (char_of 255) (String (char_of 10) ""))))
  = String "b" (String (char_of 34) ("a'\xff\n" +:+ String (char_of 34) "")).
Proof. vm_compute. reflexivity. Qed.
Example sorted_set_1 : sorted_set ["b"; "a"; "b"] = ["a"; "b"]. Proof. reflexivity. Qed.

Example lower_1 : lower "NoNe" = "none". Proof. reflexivity. Qed.
Example strip_1 : strip "  a b " = "a b". Proof. reflexivity. Qed.
Example split_ws_1 : split_ws " code  id_token" = ["code"; "id_token"]. Proof. reflexivity. Qed.
Example split_char_1 : split_char ";" "a;;b" = ["a"; ""; "b"]. Proof. reflexivity. Qed.
Example endswith_1 : endswith "RS256" "256" = true. Proof. reflexivity. Qed.
Example int_1 : int_of_string " -1_000 " = Some (-1000)%Z. Proof. reflexivity. Qed.
Example int_3 : int_of_string (String (char_of 28) "5") = None. Proof. reflexivity. Qed.
Example int_2 : int_of_string "1__0" = None. Proof. reflexivity. Qed.
Example float_1 : float_of_string "2.5e1" = Some (FFin 25). Proof. reflexivity. Qed.
Example float_2 : float_of_string "60s" = None. Proof. reflexivity. Qed.
Example float_3 : float_of_string "NaN" = Some FNan. Proof. reflexivity. Qed.
Example float_4 : float_of_string "1e400" = Some (FInf false). Proof. vm_compute. reflexivity. Qed.
Example str_of_int_1 : str_of_int (-120) = "-120". Proof. reflexivity. Qed.

(** ** Lemmas *)

Lemma nonempty_true s : nonempty s = true ↔ s ≠ "".
Proof. by destruct s. Qed.
Lemma nonempty_false s : nonempty s = false ↔ s = "".
Proof. by destruct s. Qed.

Lemma startswith_app s t : startswith (s +:+ t) s = true.
Proof. induction s; simpl; [by destruct t|]. by bd_refl. Qed.

Lemma startswith_spec s p : startswith s p = true ↔ ∃ t, s = p +:+ t.
Proof.
  split; [|intros [t ->]; apply startswith_app].
  revert s; induction p as [|c p IH]; intros s; simpl; [by exists s|].
  destruct s as [|d s]; [done|]. intros [->%bool_decide_eq_true H]%andb_true_iff.
  apply IH in H as [t ->]. by exists t.
Qed.

Lemma endswith_spec s p : endswith s p = true ↔ ∃ t, s = t +:+ p.
Proof.
  split.
  - induction s as [|c s IH]; simpl; intros H.
    + rewrite orb_false_r in H. apply bool_decide_eq_true in H as <-. by exists "".
    + apply orb_true_iff in H as [->%bool_decide_eq_true|H]; [by exists ""|].
      apply IH in H as [t ->]. by exists (String c t).
  - intros [t ->]. induction t as [|c t IH]; simpl.
    + destruct p; simpl; by bd_refl.
    + by rewrite IH, orb_true_r.
Qed.

Lemma contains_cons c s p :
  contains (String c s) p = startswith (String c s) p || contains s p.
Proof. done. Qed.

Lemma contains_spec s p : contains s p = true ↔ ∃ a b, s = a +:+ (p +:+ b).
Proof.
  split.
  - induction s as [|c s IH]; intros H.
    + simpl in H. rewrite orb_false_r in H. destruct p; [by exists "", ""|done].
    + rewrite contains_cons in H. apply orb_true_iff in H as [H|H].
      * apply startswith_spec in H as [t Ht]. by exists "", t.
      * apply IH in H as (a & b & ->). by exists (String c a), b.
  - intros (a & b & ->). induction a as [|c a IH]; simpl.
    + assert (H : startswith (p +:+ b) p = true) by apply startswith_app.
      destruct (p +:+ b); simpl in *; by rewrite H.
    + by rewrite IH, orb_true_r.
Qed.

Lemma sforall_smap p f s : (∀ c, p (f c) = true) → sforall p (smap f s) = true.
Proof. intros H. induction s; simpl; by rewrite ?H. Qed.

Lemma lower_char_idem c : lower_char (lower_char c) = lower_char c.
Proof. by destruct c as [[] [] [] [] [] [] [] []]. Qed.

Lemma lower_idem s : lower (lower s) = lower s.
Proof. induction s as [|c s IH]; [done|]. unfold lower in *; simpl. by rewrite lower_char_idem, IH. Qed.

(** *** Numerals made of digits *)

Lemma is_digit_not_space c : is_digit c = true → is_space c = false.
Proof. by destruct c as [[] [] [] [] [] [] [] []]. Qed.
Lemma is_digit_lower c : is_digit c = true → lower_char c = c.
Proof. by destruct c as [[] [] [] [] [] [] [] []]. Qed.
Lemma is_digit_plain c :
  is_digit c = true →
  c ≠ "-"%char ∧ c ≠ "+"%char ∧ c ≠ "."%char ∧ c ≠ "e"%char ∧ c ≠ "E"%char ∧
  c ≠ "n"%char ∧ c ≠ "i"%char ∧ (code c =? 95) = false.
Proof.
  intros H. split_and!; try (intros ->; discriminate H).
  apply Nat.eqb_neq. intros Hc. unfold is_digit, is_dec_digit, code_in in H.
  by rewrite Hc in H.
Qed.

Lemma lstrip_none p s : sforall (λ c, negb (p c)) s = true → lstrip_p p s = s.
Proof. destruct s as [|c s]; simpl; [done|]. by destruct (p c). Qed.
Lemma rstrip_none p s : sforall (λ c, negb (p c)) s = true → rstrip_p p s = s.
Proof.
  induction s as [|c s IH]; simpl; [done|]. intros [Hc Hs]%andb_true_iff.
  rewrite IH by done. destruct s; [|done]. by destruct (p c).
Qed.
Lemma sforall_impl (p q : ascii → bool) s :
  (∀ c, p c = true → q c = true) → sforall p s = true → sforall q s = true.
Proof.
  intros H. induction s as [|c s IH]; simpl; [done|].
  intros [Hc Hs]%andb_true_iff. by rewrite H, IH.
Qed.

Lemma num_strip_digits s : sforall is_digit s = true → num_strip s = s.
Proof.
  intros H. assert (Hns : sforall (λ c, negb (is_num_space c)) s = true).
  { eapply sforall_impl; [|exact H]. intros c Hc. unfold is_num_space.
    by rewrite is_digit_not_space. }
  unfold num_strip. by rewrite lstrip_none, rstrip_none.
Qed.

Lemma digits_us_spec s b :
  sforall is_digit s = true → nonempty s || b = true →
  digits_us b s = if sforall is_dec_digit s then Some s else None.
Proof.
  revert b. induction s as [|c s IH]; intros b; simpl; [by intros _ ->|].
  intros [Hc Hs]%andb_true_iff _. destruct (is_dec_digit c) eqn:Ed; simpl.
  - rewrite IH by (done || apply orb_true_r). by destruct (sforall is_dec_digit s).
  - destruct (is_digit_plain c Hc) as (_ & _ & _ & _ & _ & _ & _ & ->). done.
Qed.

Lemma split_once_none c s : sforall (λ d, negb (d ≟ c)) s = true → split_once c s = (s, None).
Proof.
  induction s as [|d s IH]; simpl; [done|]. intros [Hd Hs]%andb_true_iff.
  apply negb_true_iff in Hd. by rewrite Hd, IH.
Qed.
Lemma split_at_none p s : sforall (λ d, negb (p d)) s = true → split_at p s = (s, None).
Proof.
  induction s as [|d s IH]; simpl; [done|]. intros [Hd Hs]%andb_true_iff.
  apply negb_true_iff in Hd. by rewrite Hd, IH.
Qed.

Lemma append_nil_r s : s +:+ "" = s.
Proof.
  induction s as [|a s IH]; [done|]. change (String a (s +:+ "") = String a s). by rewrite IH.
Qed.

(** On a nonempty string of digits, [float] fails exactly on the superscripts. *)
Lemma float_of_digits s :
  isdigit s = true →
  float_of_string s =
    if sforall is_dec_digit s then
      (let q := Qred (inject_Z (dec_value 0 s) * pow10 0) in
       Some (if Qle_bool float_overflow q then FInf false else FFin q))
    else None.
Proof.
  unfold isdigit. intros [Hne Hd]%andb_true_iff. unfold float_of_string. rewrite num_strip_digits by done.
  destruct s as [|c s]; [done|].
  pose proof Hd as [Hc _]%andb_true_iff. pose proof (is_digit_plain c Hc) as Hp.
  destruct Hp as (H1 & H2 & H3 & H4 & H5 & H6 & H7 & _).
  unfold signed. rewrite bool_decide_eq_false_2, bool_decide_eq_false_2 by done.
  assert (Hl : ∀ t u, (lower (String c t) ≟ String "n" u) = false ∧ (lower (String c t) ≟ String "i" u) = false).
  { intros t u. unfold lower. simpl. rewrite is_digit_lower by done.
    split; apply bool_decide_eq_false_2; congruence. }
  rewrite (proj1 (Hl s _)), (proj2 (Hl s _)), (proj2 (Hl s _)). cbn [orb].
  rewrite split_at_none.
  2: { eapply sforall_impl; [|exact Hd]. intros d Hdd.
       destruct (is_digit_plain d Hdd) as (_ & _ & _ & ? & ? & _).
       by rewrite !bool_decide_eq_false_2. }
  rewrite split_once_none.
  2: { eapply sforall_impl; [|exact Hd]. intros d Hdd.
       destruct (is_digit_plain d Hdd) as (_ & _ & ? & _).
       by rewrite !bool_decide_eq_false_2. }
  cbn [default nonempty orb negb digits_opt].
  rewrite digits_us_spec by done.
  destruct (sforall is_dec_digit (String c s)); [|done].
  cbn [exponent_of mbind option_bind]. cbn [digits_opt nonempty].
  rewrite append_nil_r.
  cbn [mbind option_bind String.length Z.of_nat]. change (0 - 0)%Z with 0%Z.
  by destruct (Qle_bool _ _).
Qed.

(** *** Numerals written by [str] *)

Lemma dec_digit_char n :
  (0 ≤ n < 10)%Z → let c := char_of (48 + Z.to_nat n) in is_dec_digit c = true ∧ digit_val c = n.
Proof.
  intros H. assert (Hn : n ∈ [0; 1; 2; 3; 4; 5; 6; 7; 8; 9]%Z).
  { rewrite !elem_of_cons. lia. }
  repeat (apply elem_of_cons in Hn as [->|Hn]; [split; vm_compute; reflexivity|]).
  by apply not_elem_of_nil in Hn.
Qed.

Lemma pos_digits_value fuel n acc :
  (0 ≤ n < 10 ^ Z.of_nat fuel)%Z → dec_value 0 (pos_digits fuel n acc) = dec_value n acc.
Proof.
  revert n acc. induction fuel as [|fuel IH]; intros n acc Hn; [simpl in *; f_equal; lia|].
  cbn [pos_digits].
  destruct (dec_digit_char (n mod 10)) as [_ Hd]; [apply Z.mod_pos_bound; lia|].
  destruct (Z.ltb_spec n 10) as [Hlt|Hge].
  - cbn [dec_value]. rewrite Hd. rewrite Z.mod_small by lia. f_equal; lia.
  - rewrite IH.
    + cbn [dec_value]. rewrite Hd. f_equal. pose proof (Z.div_mod n 10). lia.
    + rewrite Nat2Z.inj_succ, Z.pow_succ_r in Hn by lia.
      split; [apply Z.div_pos; lia|]. apply Z.div_lt_upper_bound; lia.
Qed.

Lemma pos_digits_digits fuel n acc :
  (0 ≤ n)%Z → sforall is_dec_digit acc = true → sforall is_dec_digit (pos_digits fuel n acc) = true.
Proof.
  revert n acc. induction fuel as [|fuel IH]; intros n acc Hn Ha; [done|]. cbn [pos_digits].
  destruct (dec_digit_char (n mod 10)) as [Hd _]; [apply Z.mod_pos_bound; lia|].
  assert (sforall is_dec_digit (String (char_of (48 + Z.to_nat (n mod 10))) acc) = true)
    by (cbn [sforall]; by rewrite Hd, Ha).
  destruct (n <? 10)%Z; [done|]. apply IH; [|done]. apply Z.div_pos; lia.
Qed.

Lemma pos_digits_head fuel n acc :
  (0 < n < 10 ^ Z.of_nat fuel)%Z →
  ∃ c s, pos_digits fuel n acc = String c s ∧ c ≠ "0"%char.
Proof.
  revert n acc. induction fuel as [|fuel IH]; intros n acc Hn; [simpl in *; lia|]. cbn [pos_digits].
  destruct (dec_digit_char (n mod 10)) as [_ Hd]; [apply Z.mod_pos_bound; lia|].
  destruct (Z.ltb_spec n 10) as [Hlt|Hge].
  - eexists _, _. split; [done|]. intros Hc. rewrite Hc, Z.mod_small in Hd by lia.
    vm_compute in Hd. lia.
  - apply IH. rewrite Nat2Z.inj_succ, Z.pow_succ_r in Hn by lia.
    split; [apply Z.div_str_pos; lia|]. apply Z.div_lt_upper_bound; lia.
Qed.

Lemma str_of_int_fuel n :
  (0 ≤ n)%Z → (n < 10 ^ Z.of_nat (S (Z.to_nat (Z.log2 (Z.max 1 n)))))%Z.
Proof.
  intros Hn. rewrite Nat2Z.inj_succ, Z2Nat.id by apply Z.log2_nonneg.
  eapply Z.le_lt_trans; [apply Z.le_max_r with (n:=1%Z)|].
  eapply Z.lt_le_trans; [apply Z.log2_spec; lia|].
  apply Z.pow_le_mono_l. lia.
Qed.

Lemma str_of_int_nonneg n :
  (0 ≤ n)%Z → dec_value 0 (str_of_int n) = n ∧ sforall is_dec_digit (str_of_int n) = true ∧
    nonempty (str_of_int n) = true.
Proof.
  intros Hn. unfold str_of_int. replace (n <? 0)%Z with false by lia. rewrite Z.abs_eq by done.
  pose proof (str_of_int_fuel n Hn). split_and!.
  - rewrite pos_digits_value by lia. done.
  - by apply pos_digits_digits.
  - destruct (Z.eq_dec n 0%Z) as [->|]; [done|].
    destruct (pos_digits_head (S (Z.to_nat (Z.log2 (Z.max 1 n)))) n "") as (c & s & -> & _);
      [lia|done].
Qed.

Lemma str_of_int_head n :
  (0 < n)%Z → ∃ c s, str_of_int n = String c s ∧ c ≠ "0"%char.
Proof.
  intros Hn. unfold str_of_int. replace (n <? 0)%Z with false by lia. rewrite Z.abs_eq by lia.
  apply pos_digits_head. pose proof (str_of_int_fuel n). lia.
Qed.

(** *** Splitting on a character *)

Lemma char_in_app c s t : char_in c (s +:+ t) = char_in c s || char_in c t.
Proof.
  induction s as [|d s IH]; [done|].
  change (char_in c (String d (s +:+ t)) = char_in c (String d s) || char_in c t).
  unfold char_in in *. simpl. destruct (d ≟ c); simpl; [done|]. apply IH.
Qed.

Lemma split_char_none c s : char_in c s = false → split_char c s = [s].
Proof.
  unfold char_in. induction s as [|d s IH]; simpl; [done|].
  destruct (d ≟ c); simpl; [done|]. intros H. by rewrite IH.
Qed.

Lemma split_char_app c s t :
  char_in c s = false → split_char c (s +:+ String c t) = s :: split_char c t.
Proof.
  unfold char_in. induction s as [|d s IH]; intros H.
  - simpl. by bd_refl.
  - change (split_char c (String d (s +:+ String c t)) = String d s :: split_char c t).
    simpl in H |- *. destruct (d ≟ c); simpl in *; [done|]. by rewrite IH.
Qed.

Lemma length_append s t : String.length (s +:+ t) = String.length s + String.length t.
Proof. induction s as [|c s IH]; [done|]. exact (f_equal S IH). Qed.
Lemma str_app_nil s : s +:+ "" = s.
Proof. induction s as [|c s IH]; [done|]. change (String c (s +:+ "") = String c s). by rewrite IH. Qed.
Lemma str_app_assoc (s t u : string) : (s +:+ t) +:+ u = s +:+ (t +:+ u).
Proof.
  induction s as [|a s IH]; [done|].
  change (String a ((s +:+ t) +:+ u) = String a (s +:+ (t +:+ u))). by rewrite IH.
Qed.

Lemma split_char_join c l :
  l ≠ [] → Forall (λ s, char_in c s = false) l →
  split_char c (str_join (String c "") l) = l.
Proof.
  intros Hl H. induction H as [|s l Hs H IH]; [done|].
  destruct l as [|t l]; [by apply split_char_none|].
  change (split_char c ((s +:+ String c "") +:+ str_join (String c "") (t :: l)) = s :: t :: l).
  rewrite str_app_assoc.
  change (String c "" +:+ str_join (String c "") (t :: l)) with
    (String c (str_join (String c "") (t :: l))).
  rewrite split_char_app by done. by rewrite IH.
Qed.

Lemma char_in_forall p c s :
  sforall p s = true → p c = false → char_in c s = false.
Proof.
  intros H Hc. unfold char_in. apply negb_false_iff. eapply sforall_impl; [|exact H].
  intros d Hd. apply negb_true_iff, bool_decide_eq_false_2. congruence.
Qed.
