(* ===== verification/PyValue.v ===== *)
(** * Python's dynamic values, dictionaries and exceptions

    [pyval] is the type of what [json.loads] returns and of a decoded claim set.  A dictionary
    is an association list in insertion order, as in Python.  [exc] is the class hierarchy of
    [exceptions.py] together with the built-in, PyJWT and httpx classes the library catches,
    and [isinstance] follows the parents, which is what an [except] clause tests. *)

From S2P Require Import Prelude PyStr.
From Stdlib Require Import QArith Ascii.
From stdpp Require Import strings.
#[global] Close Scope Q_scope.
Open Scope string_scope.
Open Scope list_scope.
Open Scope nat_scope.
Open Scope py_scope.

(** ** Values *)

Inductive pyval : Type :=
  | VNone
  | VBool (b : bool)
  | VInt (z : Z)
  | VFloat (f : pyfloat)
  | VStr (s : string)
  | VList (l : list pyval)
  | VDict (d : list (string * pyval)).

Abbreviation pydict := (list (string * pyval)).

(** Python's truth value. *)
Definition truthy (v : pyval) : bool :=
  match v with
  | VNone => false
  | VBool b => b
  | VInt z => negb (z =? 0)%Z
  | VFloat (FFin q) => negb (Qeq_bool q 0)
  | VFloat _ => true
  | VStr s => nonempty s
  | VList l => match l with [] => false | _ => true end
  | VDict d => match d with [] => false | _ => true end
  end.

Definition is_none (v : pyval) : bool := match v with VNone => true | _ => false end.
Definition is_str (v : pyval) : bool := match v with VStr _ => true | _ => false end.
Definition as_str (v : pyval) : option string := match v with VStr s => Some s | _ => None end.

(** [type(v).__name__]. *)
Definition type_name (v : pyval) : string :=
  match v with
  | VNone => "NoneType" | VBool _ => "bool" | VInt _ => "int" | VFloat _ => "float"
  | VStr _ => "str" | VList _ => "list" | VDict _ => "dict"
  end.

(** The number a [bool], [int] or [float] stands for, which is what [==] and [<] compare. *)
Definition as_num (v : pyval) : option pyfloat :=
  match v with
  | VBool b => Some (FFin (if b then 1 else 0)%Q)
  | VInt z => Some (FFin (inject_Z z))
  | VFloat f => Some f
  | _ => None
  end.

Definition float_eq (a b : pyfloat) : bool :=
  match a, b with
  | FFin p, FFin q => Qeq_bool p q
  | FInf s, FInf t => eqb s t
  | _, _ => false
  end.

(** [a < b] and [a <= b] on floats: every comparison with a not-a-number is false. *)
Definition float_lt (a b : pyfloat) : bool :=
  match a, b with
  | FFin p, FFin q => negb (Qle_bool q p)
  | FInf s, FInf t => s && negb t
  | FInf s, FFin _ => s
  | FFin _, FInf t => negb t
  | _, _ => false
  end.
Definition float_le (a b : pyfloat) : bool := float_lt a b || float_eq a b.

Definition float_neg (a : pyfloat) : pyfloat :=
  match a with FNan => FNan | FInf s => FInf (negb s) | FFin q => FFin (- q)%Q end.
Definition float_add (a b : pyfloat) : pyfloat :=
  match a, b with
  | FFin p, FFin q => FFin (p + q)%Q
  | FInf s, FInf t => if eqb s t then FInf s else FNan
  | FInf s, FFin _ | FFin _, FInf s => FInf s
  | _, _ => FNan
  end.
Definition float_sub (a b : pyfloat) : pyfloat := float_add a (float_neg b).

(** ** Dictionaries *)

Fixpoint dict_get (k : string) (d : pydict) : option pyval :=
  match d with
  | [] => None
  | (k', v) :: d' => if k ≟ k' then Some v else dict_get k d'
  end.
(** [d.get(k)], with Python's default [None]. *)
Definition dget (k : string) (d : pydict) : pyval := default VNone (dict_get k d).
Definition has_key (k : string) (d : pydict) : bool :=
  match dict_get k d with Some _ => true | None => false end.

(** [d[k] = v]: in place when the key is there, at the end otherwise. *)
Fixpoint dict_set (k : string) (v : pyval) (d : pydict) : pydict :=
  match d with
  | [] => [(k, v)]
  | (k', w) :: d' => if k ≟ k' then (k', v) :: d' else (k', w) :: dict_set k v d'
  end.
Definition dict_del (k : string) (d : pydict) : pydict :=
  List.filter (λ kv, kv.1 ≠? k) d.

(** Python's [==]: numbers by value across [bool], [int] and [float], dictionaries up to the
    order of their keys. *)
Fixpoint py_eq (a b : pyval) {struct a} : bool :=
  match a, b with
  | VNone, VNone => true
  | VStr s, VStr t => s ≟ t
  | VList l, VList m =>
      (fix go (l m : list pyval) : bool :=
         match l, m with
         | [], [] => true
         | x :: l', y :: m' => py_eq x y && go l' m'
         | _, _ => false
         end) l m
  | VDict d, VDict e =>
      (length d =? length e)%nat &&
      (fix go (d : pydict) : bool :=
         match d with
         | [] => true
         | (k, v) :: d' =>
             match dict_get k e with Some w => py_eq v w | None => false end && go d'
         end) d
  | (VBool _ | VInt _ | VFloat _), (VBool _ | VInt _ | VFloat _) =>
      match as_num a, as_num b with Some x, Some y => float_eq x y | _, _ => false end
  | _, _ => false
  end.

(** [repr] and [str] of a value, used in messages only.  The digits Python prints for a
    non-integral float are not modelled: such a float shows as its exact fraction. *)
Definition show_float (f : pyfloat) : string :=
  match f with
  | FNan => "nan" | FInf false => "inf" | FInf true => "-inf"
  | FFin q => let r := Qred q in
      str_of_int (Qnum r) +:+ (if (Z.pos (Qden r) =? 1)%Z then ".0" else "/" +:+ str_of_int (Z.pos (Qden r)))
  end.
Fixpoint py_repr (v : pyval) : string :=
  match v with
  | VNone => "None"
  | VBool true => "True" | VBool false => "False"
  | VInt z => str_of_int z
  | VFloat f => show_float f
  | VStr s => str_repr s
  | VList l => "[" +:+ str_join ", " (map py_repr l) +:+ "]"
  | VDict d => "{" +:+ str_join ", " (map (λ kv, str_repr kv.1 +:+ ": " +:+ py_repr kv.2) d) +:+ "}"
  end.
Definition py_str (v : pyval) : string := match v with VStr s => s | _ => py_repr v end.

(** ** Exception classes *)

Inductive exc : Type :=
  (* built-in *)
  | BException | BValueError | BUnicodeEncodeError | BTypeError | BKeyError | BAttributeError
  | BRuntimeError | BOther
  (* py_identity_model.exceptions *)
  | PyIdentityModelException | ValidationException | TokenValidationException
  | SignatureVerificationException | TokenExpiredException | InvalidAudienceException
  | InvalidIssuerException | LogoutTokenValidationException | IdTokenValidationException
  | LogoutStateValidationException | AuthorizeCallbackException | JarmValidationException
  | CertificateBindingError | NetworkException | DiscoveryException | DiscoveryParseError
  | DiscoveryMissingFieldsError | JwksException | TokenRequestException | UserInfoException
  | ConfigurationException | DiscoveryHTTPSRequiredError | FailedResponseAccessError
  | SuccessfulResponseAccessError
  (* py_identity_model.core.claims_validation *)
  | ClaimsValidationError
  (* jwt.exceptions *)
  | JwtPyJWTError | JwtInvalidTokenError | JwtDecodeError | JwtInvalidSignatureError
  | JwtExpiredSignatureError | JwtInvalidAudienceError | JwtInvalidIssuerError
  | JwtInvalidKeyError
  (* httpx *)
  | HttpxRequestError.

#[global] Instance exc_eq_dec : EqDecision exc.
Proof. solve_decision. Defined.

(** The base class in the [class] statement; [None] for the root [Exception]. *)
Definition base_class (c : exc) : option exc :=
  match c with
  | BException => None
  | BUnicodeEncodeError => Some BValueError
  | BValueError | BTypeError | BKeyError | BAttributeError | BRuntimeError | BOther =>
      Some BException
  | PyIdentityModelException => Some BException
  | ValidationException | NetworkException | ConfigurationException
  | FailedResponseAccessError | SuccessfulResponseAccessError => Some PyIdentityModelException
  | TokenValidationException | LogoutStateValidationException | AuthorizeCallbackException =>
      Some ValidationException
  | SignatureVerificationException | TokenExpiredException | InvalidAudienceException
  | InvalidIssuerException | LogoutTokenValidationException | IdTokenValidationException
  | CertificateBindingError | ClaimsValidationError => Some TokenValidationException
  | JarmValidationException => Some AuthorizeCallbackException
  | DiscoveryException | JwksException | TokenRequestException | UserInfoException =>
      Some NetworkException
  | DiscoveryParseError | DiscoveryMissingFieldsError => Some DiscoveryException
  | DiscoveryHTTPSRequiredError => Some ConfigurationException
  | JwtPyJWTError => Some BException
  | JwtInvalidTokenError | JwtInvalidKeyError => Some JwtPyJWTError
  | JwtDecodeError | JwtExpiredSignatureError | JwtInvalidAudienceError
  | JwtInvalidIssuerError => Some JwtInvalidTokenError
  | JwtInvalidSignatureError => Some JwtDecodeError
  | HttpxRequestError => Some BException
  end.

Fixpoint subclass_fuel (n : nat) (c d : exc) : bool :=
  (c ≟ d) ||
  match n, base_class c with
  | S n', Some b => subclass_fuel n' b d
  | _, _ => false
  end.
(** Six steps reach the root from every class ([subclass_root] below). *)
Definition issubclass (c d : exc) : bool := subclass_fuel 6 c d.

(** An exception object: its class, its message ([str(e)]), and the structured attributes the
    library sets on it. *)
Record exn : Type := Exn {
  exn_class : exc;
  message : string;
  token_part : option string;
  details : pydict;
  fields : list string;
}.

Definition isinstance (e : exn) (c : exc) : bool := issubclass (exn_class e) c.

(** Constructors, one per [__init__] of [exceptions.py]. *)
Definition mk_exn (c : exc) (msg : string) : exn := Exn c msg None [] [].
Definition TokenValidation (msg : string) (part : option string) (d : pydict) : exn :=
  Exn TokenValidationException msg part d [].
Definition SignatureVerification (msg : string) (d : pydict) : exn :=
  Exn SignatureVerificationException msg (Some "signature") d [].
Definition TokenExpired (msg : string) (d : pydict) : exn :=
  Exn TokenExpiredException msg (Some "payload") d [].
Definition InvalidAudience (msg : string) (d : pydict) : exn :=
  Exn InvalidAudienceException msg (Some "payload") d [].
Definition InvalidIssuer (msg : string) (d : pydict) : exn :=
  Exn InvalidIssuerException msg (Some "payload") d [].
Definition CertificateBinding (msg : string) (d : pydict) : exn :=
  Exn CertificateBindingError msg (Some "payload") d [].
Definition Configuration (msg : string) : exn := mk_exn ConfigurationException msg.
Definition HTTPSRequired (msg : string) : exn := mk_exn DiscoveryHTTPSRequiredError msg.
Definition Discovery (msg : string) : exn := mk_exn DiscoveryException msg.
Definition MissingFields (msg : string) (fs : list string) : exn :=
  Exn DiscoveryMissingFieldsError msg None [] fs.
Definition FailedResponseAccess (field_name : string) (error : option string) : exn :=
  mk_exn FailedResponseAccessError
    ("Cannot access '" +:+ field_name +:+ "' on a failed response" +:+
     (match error with
      | Some err => if nonempty err then ": " +:+ err else ""
      | None => "" end) +:+
     ". Check 'is_successful' before accessing response data.").
Definition SuccessfulResponseAccess (field_name : string) : exn :=
  mk_exn SuccessfulResponseAccessError
    ("Cannot access '" +:+ field_name +:+ "' on a successful response. " +:+
     "Check 'is_successful' before accessing error details.").

Abbreviation outcome := (result exn).

(** ** Lemmas *)

Lemma subclass_refl c : issubclass c c = true.
Proof. unfold issubclass. simpl. by bd_refl. Qed.

Lemma subclass_root c : issubclass c BException = true.
Proof. by destruct c. Qed.

Lemma dict_get_app k d e :
  dict_get k (d ++ e) = match dict_get k d with Some v => Some v | None => dict_get k e end.
Proof. induction d as [|[k' v] d IH]; [done|]. cbn [app dict_get]. by destruct (k ≟ k'). Qed.
Lemma dict_get_set_eq k v d : dict_get k (dict_set k v d) = Some v.
Proof.
  induction d as [|[k' w] d IH]; simpl; [by bd_refl|].
  case_bool_decide; subst; simpl; [by bd_refl|]. by rewrite bool_decide_eq_false_2.
Qed.

Lemma dict_get_set_ne k k' v d : k ≠ k' → dict_get k (dict_set k' v d) = dict_get k d.
Proof.
  intros Hne. induction d as [|[j w] d IH]; simpl; [by rewrite bool_decide_eq_false_2|].
  case_bool_decide; subst; simpl; [by rewrite !bool_decide_eq_false_2|]. by rewrite IH.
Qed.

Lemma dict_get_elem k v d : dict_get k d = Some v → (k, v) ∈ d.
Proof.
  induction d as [|[j w] d IH]; simpl; [done|].
  case_bool_decide; intros; simplify_eq; [by left|right; auto].
Qed.

Lemma dict_get_NoDup k v d : NoDup d.*1 → (k, v) ∈ d → dict_get k d = Some v.
Proof.
  induction d as [|[j w] d IH]; simpl; [by intros _ ?%not_elem_of_nil|].
  intros [Hj Hd]%NoDup_cons [Heq|Hin]%elem_of_cons; simplify_eq; [by bd_refl|].
  rewrite bool_decide_eq_false_2; [by apply IH|].
  intros ->. apply Hj. apply list_elem_of_fmap. by exists (j, v).
Qed.

Lemma has_key_spec k d : has_key k d = true ↔ ∃ v, dict_get k d = Some v.
Proof. unfold has_key. destruct (dict_get k d); naive_solver. Qed.

Lemma float_lt_fin p q : float_lt (FFin p) (FFin q) = true ↔ (p < q)%Q.
Proof.
  simpl. rewrite negb_true_iff. rewrite <- not_true_iff_false, Qle_bool_iff.
  split; [apply Qnot_le_lt|apply Qlt_not_le].
Qed.
