(* ===== verification/Logging.v ===== *)
(** * What may be logged ([logging_utils.py], [logging_config.py])

    The redaction of dictionaries, tokens and URLs before they are logged, and the configuration
    of the library's logger. *)

From S2P Require Import Prelude PyStr PyValue.
From Stdlib Require Import Ascii.
From stdpp Require Import strings.
Open Scope string_scope.
Open Scope list_scope.
Open Scope nat_scope.
Open Scope py_scope.

(** ** [logging_utils.py] *)

Definition REDACTION_LENGTH_THRESHOLD : nat := 100.
Definition MIN_TOKEN_DISPLAY_LENGTH : nat := 20.
Definition REDACTED : string := "***REDACTED***".

Definition sensitive_keys : list string :=
  ["client_secret"; "password"; "access_token"; "refresh_token"; "id_token"; "token"; "authorization";
   "secret"; "api_key"; "apikey"; "private_key"; "client_assertion"].

(** [key.lower().replace("-", "_") in sensitive_keys]. *)
Definition is_sensitive (key : string) : bool :=
  bool_decide (smap (λ c, if c ≟ "-"%char then "_"%char else c) (lower key) ∈ sensitive_keys).

Definition redact_value (key : string) (v : pyval) : pyval :=
  if is_sensitive key then VStr REDACTED
  else match v with
       | VStr s => if REDACTION_LENGTH_THRESHOLD <? String.length s
                   then VStr (String.substring 0 MIN_TOKEN_DISPLAY_LENGTH s +:+ "..." +:+ REDACTED)
                   else v
       | _ => v
       end.

(** The copy, with each entry rewritten. *)
Definition redact_sensitive (data : pydict) : pydict := map (λ kv, (kv.1, redact_value kv.1 kv.2)) data.

Definition redact_token (token : string) : string :=
  if String.length token <? MIN_TOKEN_DISPLAY_LENGTH then REDACTED
  else String.substring 0 4 token +:+ "..." +:+ String.substring (String.length token - 4) 4 token.

Definition redact_url (url : string) : string := url.

(** ** [logging_config.py] *)

(** A handler, which the caller may share, and the format its formatter has. *)
Record LogHandler : Type := Handler { handler_id : nat; log_format : option string }.
Record Logger : Type := LoggerState { handlers : list LogHandler; level : Z }.

Definition default_format : string := "%(asctime)s - %(name)s - %(levelname)s - %(message)s".

(** [fresh] is the [StreamHandler] made when none is given. *)
Definition configure_logging (fresh : nat) (lvl : Z) (fmt : option string) (handler : option LogHandler)
    (l : Logger) : Logger :=
  let h := default (Handler fresh None) handler in
  LoggerState [Handler (handler_id h) (Some (default default_format fmt))] lvl.

Example redact_1 :
  redact_sensitive [("client_id", VStr "my-client"); ("Client-Secret", VStr "secret123")] =
    [("client_id", VStr "my-client"); ("Client-Secret", VStr "***REDACTED***")].
Proof. reflexivity. Qed.
Example redact_2 : redact_token "eyJhbGciOiJSUzI1NiIsInR5cCI6IkpXVCJ9" = "eyJh...VCJ9".
Proof. reflexivity. Qed.
Example redact_3 : redact_sensitive [("nested", VDict [("password", VStr "p")])] =
    [("nested", VDict [("password", VStr "p")])].
Proof. reflexivity. Qed.

(** ** Lemmas *)

Lemma substring_short n m s : String.length (String.substring n m s) ≤ m.
Proof.
  revert n m. induction s as [|c s IH]; intros n m; [destruct n, m; cbn; lia|].
  destruct n, m; cbn; [lia| |apply IH|apply IH]. specialize (IH 0 m). lia.
Qed.

Lemma redact_value_idemp k v : redact_value k (redact_value k v) = redact_value k v.
Proof.
  unfold redact_value. destruct (is_sensitive k); [done|]. destruct v as [| | | |s| |]; try done.
  destruct (REDACTION_LENGTH_THRESHOLD <? String.length s) eqn:E; [|by rewrite E].
  assert ((REDACTION_LENGTH_THRESHOLD <?
    String.length (String.substring 0 MIN_TOKEN_DISPLAY_LENGTH s +:+ "..." +:+ REDACTED)) = false) as ->; [|done].
  apply Nat.ltb_ge. rewrite !length_append. pose proof (substring_short 0 MIN_TOKEN_DISPLAY_LENGTH s) as H.
  unfold REDACTION_LENGTH_THRESHOLD, MIN_TOKEN_DISPLAY_LENGTH in *. change (String.length "...") with 3.
  change (String.length REDACTED) with 14. lia.
Qed.

(** ** Properties *)

(** What a reader of the log cannot tell apart: the values under a sensitive key, and two long
    texts with the same first twenty characters. *)
Inductive same_when_logged (k : string) : pyval → pyval → Prop :=
  | same_value v : same_when_logged k v v
  | same_sensitive v w : is_sensitive k = true → same_when_logged k v w
  | same_prefix s t :
      REDACTION_LENGTH_THRESHOLD < String.length s → REDACTION_LENGTH_THRESHOLD < String.length t →
      String.substring 0 MIN_TOKEN_DISPLAY_LENGTH s = String.substring 0 MIN_TOKEN_DISPLAY_LENGTH t →
      same_when_logged k (VStr s) (VStr t).

(** Redaction of a dictionary hides exactly that: two dictionaries with the same keys that differ
    there only are logged alike; the keys, and every other value, are logged as they are; and
    redacting twice is redacting once. *)
Theorem redact_sensitive_spec data :
  (∀ data', Forall2 (λ kv kv', kv.1 = kv'.1 ∧ same_when_logged kv.1 kv.2 kv'.2) data data' →
     redact_sensitive data = redact_sensitive data') ∧
  map fst (redact_sensitive data) = map fst data ∧
  (∀ k v, (k, v) ∈ data → is_sensitive k = false →
     (∀ s, v = VStr s → String.length s ≤ REDACTION_LENGTH_THRESHOLD) → (k, v) ∈ redact_sensitive data) ∧
  redact_sensitive (redact_sensitive data) = redact_sensitive data.
Proof.
  split_and!.
  - intros data' HF. induction HF as [|[k v] [k' w] l l' [Hk Hv] _ IH]; [done|]. cbn in *. subst k'.
    f_equal; [|exact IH]. f_equal. unfold redact_value. destruct Hv as [v|v w Hs|s t Hs Ht He]; [done|by rewrite Hs|].
    destruct (is_sensitive k); [done|]. rewrite (proj2 (Nat.ltb_lt _ _) Hs), (proj2 (Nat.ltb_lt _ _) Ht). by rewrite He.
  - unfold redact_sensitive. rewrite map_map. by apply map_ext.
  - intros k v Hin Hk Hv. apply list_elem_of_fmap. exists (k, v). split; [|done]. cbn. f_equal.
    unfold redact_value. rewrite Hk. destruct v as [| | | |s| |]; try done.
    specialize (Hv s eq_refl). apply Nat.ltb_ge in Hv. by rewrite Hv.
  - unfold redact_sensitive. rewrite map_map. apply map_ext. intros [k v]. cbn. by rewrite redact_value_idemp.
Qed.

(** A redacted token is at most eight characters of it around three dots, or a constant: tokens
    that agree in their first and last four characters are logged alike. *)
Theorem redact_token_spec t :
  String.length (redact_token t) ≤ 14 ∧
  (String.length t < MIN_TOKEN_DISPLAY_LENGTH → redact_token t = REDACTED) ∧
  (∀ t', MIN_TOKEN_DISPLAY_LENGTH ≤ String.length t → MIN_TOKEN_DISPLAY_LENGTH ≤ String.length t' →
     String.substring 0 4 t = String.substring 0 4 t' →
     String.substring (String.length t - 4) 4 t = String.substring (String.length t' - 4) 4 t' →
     redact_token t = redact_token t').
Proof.
  unfold redact_token. split_and!.
  - destruct (_ <? _); [cbn; lia|]. rewrite !length_append. change (String.length "...") with 3.
    pose proof (substring_short 0 4 t). pose proof (substring_short (String.length t - 4) 4 t). lia.
  - intros H. by rewrite (proj2 (Nat.ltb_lt _ _) H).
  - intros t' H H' H1 H2. rewrite (proj2 (Nat.ltb_ge _ _) H), (proj2 (Nat.ltb_ge _ _) H'). by rewrite H1, H2.
Qed.
