(* ===== verification/Models.v ===== *)
(** * Data models ([core/models.py])

    The guarded-response mixin, the JSON Web Key with its construction-time validation and its
    dictionary form, and the two responses the token-validation pipeline passes around.
    Attributes that come out of JSON keep their dynamic type: nothing in the source checks the
    annotations, and the validators run on whatever the provider sent. *)

From S2P Require Import Prelude PyStr PyValue.
From stdpp Require Import strings.
Open Scope string_scope.
Open Scope list_scope.
Open Scope nat_scope.
Open Scope py_scope.

(** ** Guarded attribute access *)

Definition error_fields : list string := ["error"; "error_description"].

(** [_GuardedResponseMixin.__getattribute__]: [guarded] is the subclass's [_guarded_fields],
    [attr] the attribute as [object.__getattribute__] finds it. *)
Definition getattribute {A} (guarded : list string) (is_successful : bool)
    (error : option string) (name : string) (attr : A) : outcome A :=
  if bool_decide (name ∈ guarded) then
    if negb is_successful then Err (FailedResponseAccess name error) else Ok attr
  else if bool_decide (name ∈ error_fields) then
    if is_successful then Err (SuccessfulResponseAccess name) else Ok attr
  else Ok attr.

(** ** JSON Web Keys *)

Record JsonWebKey : Type := JWK {
  kty : pyval;
  use : pyval; key_ops : pyval; alg : pyval; kid : pyval;
  x5u : pyval; x5c : pyval; x5t : pyval; x5t_s256 : pyval;
  crv : pyval; x : pyval; y : pyval; d : pyval;
  n : pyval; e : pyval; p : pyval; q : pyval; dp : pyval; dq : pyval; qi : pyval; oth : pyval;
  k : pyval;
}.

(** [self.__dict__]: the attributes in field order. *)
Definition jwk_attrs (w : JsonWebKey) : pydict :=
  [("kty", kty w); ("use", use w); ("key_ops", key_ops w); ("alg", alg w); ("kid", kid w);
   ("x5u", x5u w); ("x5c", x5c w); ("x5t", x5t w); ("x5t_s256", x5t_s256 w);
   ("crv", crv w); ("x", x w); ("y", y w); ("d", d w); ("n", n w); ("e", e w); ("p", p w);
   ("q", q w); ("dp", dp w); ("dq", dq w); ("qi", qi w); ("oth", oth w); ("k", k w)].

Definition member_name (attr : string) : string :=
  if attr ≟ "x5t_s256" then "x5t#S256" else attr.

(** [JsonWebKey.as_dict]: absent members are omitted, names go back to RFC 7517's. *)
Definition json_members (attrs : pydict) : pydict :=
  omap (λ kv, if is_none kv.2 then None else Some (member_name kv.1, kv.2)) attrs.
Definition as_dict (w : JsonWebKey) : pydict := json_members (jwk_attrs w).

Definition all_truthy (l : list pyval) : bool := forallb truthy l.
Definition py_mem (v : pyval) (l : list pyval) : bool := existsb (py_eq v) l.
Definition strs (l : list string) : list pyval := map VStr l.

Definition validate_ec_key (w : JsonWebKey) : outcome unit :=
  if negb (all_truthy [crv w; x w; y w]) then
    Err (Configuration "EC keys require 'crv', 'x', and 'y' parameters")
  else if negb (py_mem (crv w) (strs ["P-256"; "P-384"; "P-521"; "secp256k1"])) then
    Err (Configuration ("Unsupported curve: " +:+ py_str (crv w) +:+ ". Supported curves: " +:+
      py_repr (VList (strs ["P-256"; "P-384"; "P-521"; "secp256k1"]))))
  else Ok ().

Definition validate_rsa_key (w : JsonWebKey) : outcome unit :=
  raise_if (negb (all_truthy [n w; e w]))
    (Configuration "RSA keys require 'n' and 'e' parameters").

Definition validate_symmetric_key (w : JsonWebKey) : outcome unit :=
  raise_if (is_none (k w)) (Configuration "Symmetric keys require 'k' parameter").

Definition AttributeError (v : pyval) (attr : string) : exn :=
  mk_exn BAttributeError ("'" +:+ type_name v +:+ "' object has no attribute '" +:+ attr +:+ "'").
Definition TypeErr (msg : string) : exn := mk_exn BTypeError msg.

(** [v.startswith(p)]. *)
Definition py_startswith (v : pyval) (p : string) : outcome bool :=
  match v with
  | VStr s => Ok (startswith s p)
  | _ => Err (AttributeError v "startswith")
  end.

(** [iter(v)]: the values a [for] loop takes from [v]. *)
Definition py_iter (v : pyval) : outcome (list pyval) :=
  match v with
  | VList l => Ok l
  | VStr s => Ok (map (λ c, VStr (String c "")) (String.list_ascii_of_string s))
  | VDict dd => Ok (strs dd.*1)
  | _ => Err (TypeErr ("'" +:+ type_name v +:+ "' object is not iterable"))
  end.

(** [v in container]. *)
Definition py_contains (container v : pyval) : outcome bool :=
  match container with
  | VList l => Ok (py_mem v l)
  | VStr s =>
      match v with
      | VStr t => Ok (contains s t)
      | _ => Err (TypeErr ("'in <string>' requires string as left operand, not " +:+ type_name v))
      end
  | VDict d => Ok (py_mem v (strs d.*1))
  | _ => Err (TypeErr ("argument of type '" +:+ type_name container +:+ "' is not iterable"))
  end.

Definition validate_use_parameter (w : JsonWebKey) : outcome unit :=
  if is_none (use w) then Ok ()
  else if py_mem (use w) (strs ["sig"; "enc"]) then Ok ()
  else
    b ← py_startswith (use w) "https://";
    raise_if (negb b)
      (Configuration ("Invalid 'use' parameter: " +:+ py_str (use w) +:+
                      ". Must be 'sig', 'enc', or a URI")).

Definition valid_key_ops : list pyval :=
  strs ["sign"; "verify"; "encrypt"; "decrypt"; "wrapKey"; "unwrapKey"; "deriveKey"; "deriveBits"].

Definition validate_key_ops_parameter (w : JsonWebKey) : outcome unit :=
  if is_none (key_ops w) then Ok ()
  else
    ops ← py_iter (key_ops w);
    for_each (λ op, raise_if (negb (py_mem op valid_key_ops))
      (Configuration ("Invalid key operation: " +:+ py_str op +:+ ". Valid operations: " +:+
                      py_repr (VList valid_key_ops)))) ops.

Definition validate_key_parameters (w : JsonWebKey) : outcome unit :=
  (if py_eq (kty w) (VStr "EC") then validate_ec_key w
   else if py_eq (kty w) (VStr "RSA") then validate_rsa_key w
   else if py_eq (kty w) (VStr "oct") then validate_symmetric_key w
   else Ok ()) ≫= λ _,
  validate_use_parameter w ≫= λ _,
  validate_key_ops_parameter w ≫= λ _,
  raise_if (negb (is_none (use w)) && negb (is_none (key_ops w)))
    (Configuration "The 'use' and 'key_ops' parameters are mutually exclusive").

(** The constructor: the dataclass fields, then [__post_init__]. *)
Definition post_init (w : JsonWebKey) : outcome unit :=
  if negb (truthy (kty w)) then
    Err (Configuration "The 'kty' (Key Type) parameter is required")
  else validate_key_parameters w.
Definition new_jwk (w : JsonWebKey) : outcome JsonWebKey := post_init w ≫= λ _, Ok w.

Definition has_private_key (w : JsonWebKey) : bool :=
  if py_eq (kty w) (VStr "RSA") then all_truthy [d w; p w; q w; dp w; dq w; qi w]
  else if py_eq (kty w) (VStr "EC") then negb (is_none (d w))
  else false.

(** ** Responses *)

Inductive DiscoveryErrorKind : Type :=
  | UNEXPECTED_STATUS | INVALID_JSON | MISSING_FIELDS | HTTPS_REQUIRED
  | INVALID_CONFIGURATION | INVALID_DOCUMENT | NETWORK_ERROR | UNEXPECTED_ERROR.

#[global] Instance DiscoveryErrorKind_eq_dec : EqDecision DiscoveryErrorKind.
Proof. solve_decision. Defined.

Definition disco_guarded_fields : list string :=
  ["issuer"; "jwks_uri"; "authorization_endpoint"; "token_endpoint"; "response_types_supported";
   "subject_types_supported"; "id_token_signing_alg_values_supported"; "userinfo_endpoint";
   "registration_endpoint"; "scopes_supported"; "response_modes_supported";
   "grant_types_supported"; "acr_values_supported"; "id_token_encryption_alg_values_supported";
   "id_token_encryption_enc_values_supported"; "userinfo_signing_alg_values_supported";
   "userinfo_encryption_alg_values_supported"; "userinfo_encryption_enc_values_supported";
   "request_object_signing_alg_values_supported";
   "request_object_encryption_alg_values_supported";
   "request_object_encryption_enc_values_supported"; "token_endpoint_auth_methods_supported";
   "token_endpoint_auth_signing_alg_values_supported"; "display_values_supported";
   "claim_types_supported"; "claims_supported"; "claims_locales_supported";
   "ui_locales_supported"; "claims_parameter_supported"; "request_parameter_supported";
   "request_uri_parameter_supported"; "require_request_uri_registration";
   "service_documentation"; "op_policy_uri"; "op_tos_uri"; "introspection_endpoint";
   "code_challenge_methods_supported"; "pushed_authorization_request_endpoint";
   "require_pushed_authorization_requests"; "end_session_endpoint";
   "backchannel_logout_supported"; "backchannel_logout_session_supported";
   "authorization_response_iss_parameter_supported";
   "authorization_signing_alg_values_supported"; "authorization_encryption_alg_values_supported";
   "authorization_encryption_enc_values_supported"; "mtls_endpoint_aliases";
   "tls_client_certificate_bound_access_tokens"].

(** The data attributes of the dataclass, all of which hold a JSON value or [None], are kept in
    [disco_attrs] by name; the response metadata are fields of their own. *)
Record DiscoveryDocumentResponse : Type := DiscoResponse {
  disco_is_successful : bool;
  disco_error : option string;
  error_kind : option DiscoveryErrorKind;
  status_code : option Z;
  missing_fields : list string;
  disco_attrs : pydict;
  disco_cache_control : option string;
}.

Definition disco_attr (r : DiscoveryDocumentResponse) (name : string) : outcome pyval :=
  getattribute disco_guarded_fields (disco_is_successful r) (disco_error r) name
    (dget name (disco_attrs r)).
Definition disco_get_error (r : DiscoveryDocumentResponse) : outcome (option string) :=
  getattribute disco_guarded_fields (disco_is_successful r) (disco_error r) "error"
    (disco_error r).

Definition disco_failure (msg : string) (kind : DiscoveryErrorKind) : DiscoveryDocumentResponse :=
  DiscoResponse false (Some msg) (Some kind) None [] [] None.

Record JwksResponse : Type := JwksResp {
  jwks_is_successful : bool;
  jwks_error : option string;
  jwks_keys : option (list JsonWebKey);
  jwks_cache_control : option string;
}.

Definition jwks_guarded_fields : list string := ["keys"].
Definition jwks_get_keys (r : JwksResponse) : outcome (option (list JsonWebKey)) :=
  getattribute jwks_guarded_fields (jwks_is_successful r) (jwks_error r) "keys" (jwks_keys r).
Definition jwks_get_error (r : JwksResponse) : outcome (option string) :=
  getattribute jwks_guarded_fields (jwks_is_successful r) (jwks_error r) "error" (jwks_error r).
Definition jwks_failure (msg : string) : JwksResponse := JwksResp false (Some msg) None None.

(** [not response.keys] and [response.keys or []] on the raw attribute. *)
Definition has_keys (o : option (list JsonWebKey)) : bool :=
  match o with Some (_ :: _) => true | _ => false end.
Definition keys_or_nil (o : option (list JsonWebKey)) : list JsonWebKey := default [] o.

(** ** Lemmas *)

Section Guards.
Context {A : Type} (guarded : list string) (err : option string) (attr : A).
Context (Hdisj : ∀ name, name ∈ guarded → name ∉ error_fields).

(** The guard is a complete case analysis: data attributes are readable exactly on success,
    error attributes exactly on failure, everything else always. *)
Lemma getattribute_spec ok name :
  getattribute guarded ok err name attr =
    if bool_decide (name ∈ guarded) && negb ok then Err (FailedResponseAccess name err)
    else if bool_decide (name ∈ error_fields) && ok then Err (SuccessfulResponseAccess name)
    else Ok attr.
Proof using Hdisj.
  unfold getattribute. destruct (decide (name ∈ guarded)) as [Hg|Hg].
  - rewrite (bool_decide_eq_true_2 (name ∈ guarded)) by done.
    rewrite (bool_decide_eq_false_2 (name ∈ error_fields)) by (by apply Hdisj).
    by destruct ok.
  - rewrite (bool_decide_eq_false_2 (name ∈ guarded)) by done. simpl.
    by destruct (bool_decide _), ok.
Qed.
End Guards.

Lemma getattribute_ok {A} guarded err name (attr : A) :
  name ∉ error_fields → getattribute guarded true err name attr = Ok attr.
Proof.
  intros H. unfold getattribute. rewrite (bool_decide_eq_false_2 (name ∈ error_fields)) by done.
  by destruct (bool_decide _).
Qed.

Lemma jwks_get_keys_ok r : jwks_is_successful r = true → jwks_get_keys r = Ok (jwks_keys r).
Proof. intros H. unfold jwks_get_keys. rewrite H. by apply getattribute_ok; compute_done. Qed.

Lemma disco_attr_ok r name :
  disco_is_successful r = true → name ∉ error_fields →
  disco_attr r name = Ok (dget name (disco_attrs r)).
Proof. intros H Hn. unfold disco_attr. rewrite H. by apply getattribute_ok. Qed.

Lemma has_keys_true o : has_keys o = true ↔ ∃ w ws, o = Some (w :: ws).
Proof. destruct o as [[]|]; naive_solver. Qed.

Lemma member_name_inj a b :
  a ≠ "x5t#S256" → b ≠ "x5t#S256" → member_name a = member_name b → a = b.
Proof. unfold member_name. repeat case_bool_decide; intros; by subst. Qed.
