(* ===== verification/Cache.v ===== *)
(** * TTL and LRU caches ([core/jwks_cache.py])

    [OrderedDict]s as association lists, least recently used entry first; the environment knobs
    with their memoisation; the [Cache-Control] parsing; the write/invalidate/retain decision of
    [apply_jwks_cache_outcome] and [apply_disco_cache_outcome]; the kid-miss cooldown gate.

    Times are exact rationals (seconds of the monotonic clock). *)

From S2P Require Import Prelude PyStr PyValue Models.
From Stdlib Require Import QArith Lqa.
From stdpp Require Import gmap strings.
#[global] Close Scope Q_scope.
Open Scope string_scope.
Open Scope list_scope.
Open Scope nat_scope.
Open Scope py_scope.

(** ** Ordered dictionaries *)

Section OrderedDict.
Context {K V : Type} `{EqDecision K}.
Implicit Types (c : list (K * V)).

Fixpoint od_get (key : K) c : option V :=
  match c with
  | [] => None
  | (k', v) :: c' => if key ≟ k' then Some v else od_get key c'
  end.
(** [c.pop(key, None)]. *)
Definition od_pop (key : K) c : list (K * V) := List.filter (λ kv, kv.1 ≠? key) c.
(** [c.pop(key, None); c[key] = v]: the entry lands at the most-recently-used end. *)
Definition od_reinsert (key : K) (v : V) c : list (K * V) := od_pop key c ++ [(key, v)].

Definition touch_cache_entry c (key : K) : list (K * V) :=
  match od_get key c with
  | Some v => od_reinsert key v c
  | None => c
  end.

Definition clear_cache_locked c : list (K * V) := [].

(** The eviction loop: pops from the front while the cache is too big; returns the cache and
    the evicted keys in eviction order. *)
Fixpoint enforce_size_limit (max_size : Z) c : list (K * V) * list K :=
  match c with
  | [] => ([], [])
  | (oldest, _) :: c' =>
      if (max_size <? Z.of_nat (length c))%Z then
        let '(c'', evicted) := enforce_size_limit max_size c' in (c'', oldest :: evicted)
      else (c, [])
  end.
End OrderedDict.

(** ** Environment knobs *)

Definition DEFAULT_JWKS_CACHE_TTL_SECONDS : Q := 86400.
Definition DEFAULT_DISCO_CACHE_TTL_SECONDS : Q := 3600.
Definition MIN_CACHE_TTL_SECONDS : Q := 60.
Definition MAX_CACHE_TTL_SECONDS : Q := 86400.
Definition MIN_KID_MISS_COOLDOWN_SECONDS : Q := 0.
Definition MAX_KID_MISS_COOLDOWN_SECONDS : Q := 3600.
Definition DEFAULT_KID_MISS_REFRESH_COOLDOWN_SECONDS : Q := 5.
Definition DEFAULT_MAX_CACHE_ENTRIES : Z := 64.

Definition Qltb (a b : Q) : bool := negb (Qle_bool b a).
(** Python's two-argument [max] and [min]: the first operand wins a tie. *)
Definition py_max (a b : Q) : Q := if Qltb a b then b else a.
Definition py_min (a b : Q) : Q := if Qltb b a then b else a.

Definition safe_env_float (raw : option string) (dflt min_value max_value : Q) : Q :=
  match raw with
  | None | Some "" => dflt
  | Some s =>
      match float_of_string s with
      | Some (FFin value) => py_max min_value (py_min value max_value)
      | Some FNan | Some (FInf _) => dflt
      | None => dflt
      end
  end.

Definition safe_env_ttl (raw : option string) (dflt : Q) : Q :=
  safe_env_float raw dflt MIN_CACHE_TTL_SECONDS MAX_CACHE_TTL_SECONDS.

(** The module globals that memoise the knobs. *)
Record EnvMemo : Type := Memo {
  env_ttl : option Q;
  disco_env_ttl : option Q;
  kid_miss_cooldown : option Q;
  max_cache_entries : option Z;
}.
(** [_reset_env_for_testing], and the state at import. *)
Definition reset_env_for_testing : EnvMemo := Memo None None None None.

(** [os.environ] at the time of the call. *)
Definition Environ : Type := string → option string.

Definition get_env_ttl (env : Environ) (m : EnvMemo) : Q * EnvMemo :=
  match env_ttl m with
  | Some v => (v, m)
  | None =>
      let v := safe_env_ttl (env "JWKS_CACHE_TTL") DEFAULT_JWKS_CACHE_TTL_SECONDS in
      (v, Memo (Some v) (disco_env_ttl m) (kid_miss_cooldown m) (max_cache_entries m))
  end.

Definition get_disco_env_ttl (env : Environ) (m : EnvMemo) : Q * EnvMemo :=
  match disco_env_ttl m with
  | Some v => (v, m)
  | None =>
      let v := safe_env_ttl (env "DISCO_CACHE_TTL") DEFAULT_DISCO_CACHE_TTL_SECONDS in
      (v, Memo (env_ttl m) (Some v) (kid_miss_cooldown m) (max_cache_entries m))
  end.

Definition get_kid_miss_cooldown (env : Environ) (m : EnvMemo) : Q * EnvMemo :=
  match kid_miss_cooldown m with
  | Some v => (v, m)
  | None =>
      let v := safe_env_float (env "KID_MISS_REFRESH_COOLDOWN")
        DEFAULT_KID_MISS_REFRESH_COOLDOWN_SECONDS
        MIN_KID_MISS_COOLDOWN_SECONDS MAX_KID_MISS_COOLDOWN_SECONDS in
      (v, Memo (env_ttl m) (disco_env_ttl m) (Some v) (max_cache_entries m))
  end.

Definition parse_max_entries (raw : option string) : Z :=
  match raw with
  | None | Some "" => DEFAULT_MAX_CACHE_ENTRIES
  | Some s =>
      match int_of_string s with
      | Some value => if (value <? 1)%Z then DEFAULT_MAX_CACHE_ENTRIES else value
      | None => DEFAULT_MAX_CACHE_ENTRIES
      end
  end.

Definition get_max_cache_entries (env : Environ) (m : EnvMemo) : Z * EnvMemo :=
  match max_cache_entries m with
  | Some v => (v, m)
  | None =>
      let v := parse_max_entries (env "JWKS_CACHE_MAX_ENTRIES") in
      (v, Memo (env_ttl m) (disco_env_ttl m) (kid_miss_cooldown m) (Some v))
  end.

(** ** Cache-Control *)

(** [\bword\b] searched case-insensitively: [prev] says whether the character before [s] is a
    word character. *)
Fixpoint search_word (word : string) (prev : bool) (s : string) : bool :=
  (negb prev && startswith s word &&
   match String.substring (String.length word) 1 s with
   | String c _ => negb (is_word c)
   | EmptyString => true
   end) ||
  match s with
  | EmptyString => false
  | String c s' => search_word word (is_word c) s'
  end.

Definition is_uncacheable (cache_control : option string) : bool :=
  match cache_control with
  | None | Some "" => false
  | Some s => search_word "no-store" false (lower s) || search_word "no-cache" false (lower s)
  end.

Definition is_uncacheable_for_jwks (cache_control : option string) : bool := false.

(** [re.search(r"max-age=(\d+)")]: the digits of the first occurrence followed by at least one. *)
Fixpoint search_max_age (s : string) : option string :=
  match (if startswith s "max-age=" then
           let ds := take_while is_dec_digit (String.substring 8 (String.length s) s) in
           if nonempty ds then Some ds else None
         else None) with
  | Some ds => Some ds
  | None => match s with EmptyString => None | String _ s' => search_max_age s' end
  end.

(** The header's [float] can overflow to an infinity. *)
Definition parse_max_age (cache_control : option string) : option pyfloat :=
  match cache_control with
  | None | Some "" => None
  | Some s => ds ← search_max_age (lower s); float_of_string ds
  end.

(** [max(MIN, min(max_age, MAX))] on the floats [parse_max_age] can return. *)
Definition clamp_ttl (max_age : pyfloat) : Q :=
  match max_age with
  | FFin v => py_max MIN_CACHE_TTL_SECONDS (py_min v MAX_CACHE_TTL_SECONDS)
  | FInf true => MIN_CACHE_TTL_SECONDS
  | FInf false | FNan => MAX_CACHE_TTL_SECONDS
  end.

Definition resolve_ttl (env : Environ) (m : EnvMemo) (cache_control : option string) : Q * EnvMemo :=
  match parse_max_age cache_control with
  | Some max_age => (clamp_ttl max_age, m)
  | None => get_env_ttl env m
  end.

Definition resolve_disco_ttl (env : Environ) (m : EnvMemo) (cache_control : option string)
    : Q * EnvMemo :=
  match parse_max_age cache_control with
  | Some max_age => (clamp_ttl max_age, m)
  | None => get_disco_env_ttl env m
  end.

(** ** Entries and their lifetime *)

Record CacheEntry (R : Type) : Type := Entry { response : R; cached_at : Q; ttl : Q }.
Arguments Entry {R} _ _ _.
Arguments response {R} _.
Arguments cached_at {R} _.
Arguments ttl {R} _.
Abbreviation JwksCacheEntry := (CacheEntry JwksResponse).
Abbreviation DiscoCacheEntry := (CacheEntry DiscoveryDocumentResponse).

(** [is_cache_expired], with the clock reading as an argument. *)
Definition is_cache_expired {R} (now : Q) (entry : CacheEntry R) : bool :=
  Qle_bool (ttl entry) (now - cached_at entry).

(** ** Writing *)

(** [for key in evicted: cooldown.pop(key, None)]. *)
Definition pop_all {V} (keys : list string) (m : gmap string V) : gmap string V :=
  foldl (λ acc key, delete key acc) m keys.

Definition apply_jwks_cache_outcome (env : Environ) (m : EnvMemo)
    (cache : list (string * JwksCacheEntry)) (jwks_uri : string) (resp : JwksResponse) (now : Q)
    (cooldown : option (gmap string Q))
    : EnvMemo * list (string * JwksCacheEntry) * option (gmap string Q) :=
  if negb (jwks_is_successful resp) then (m, cache, cooldown)
  else if negb (has_keys (jwks_keys resp)) then (m, cache, cooldown)
  else if is_uncacheable_for_jwks (jwks_cache_control resp) then
    (m, od_pop jwks_uri cache, delete jwks_uri <$> cooldown)
  else
    let '(t, m) := resolve_ttl env m (jwks_cache_control resp) in
    let cache := od_reinsert jwks_uri (Entry resp now t) cache in
    let '(max_size, m) := get_max_cache_entries env m in
    let '(cache, evicted) := enforce_size_limit max_size cache in
    (m, cache, pop_all evicted <$> cooldown).

Definition apply_disco_cache_outcome {K} `{EqDecision K} (env : Environ) (m : EnvMemo)
    (cache : list (K * DiscoCacheEntry)) (cache_key : K) (resp : DiscoveryDocumentResponse)
    (now : Q) : EnvMemo * list (K * DiscoCacheEntry) :=
  if negb (disco_is_successful resp) then (m, cache)
  else if is_uncacheable (disco_cache_control resp) then (m, od_pop cache_key cache)
  else
    let '(t, m) := resolve_disco_ttl env m (disco_cache_control resp) in
    let cache := od_reinsert cache_key (Entry resp now t) cache in
    let '(max_size, m) := get_max_cache_entries env m in
    let '(cache, _) := enforce_size_limit max_size cache in
    (m, cache).

(** ** The kid-miss cooldown gate *)

Definition should_attempt_kid_miss_refresh (env : Environ) (m : EnvMemo)
    (last_attempts : gmap string Q) (jwks_uri : string) (has_cached_keys : bool) (now : Q)
    : bool * EnvMemo :=
  if negb has_cached_keys then (true, m)
  else match last_attempts !! jwks_uri with
       | None => (true, m)
       | Some last =>
           let '(cd, m) := get_kid_miss_cooldown env m in (Qle_bool cd (now - last), m)
       end.

(** ** Tests on concrete inputs *)

Example touch_1 : touch_cache_entry [("a", 1); ("b", 2); ("c", 3)] "a" = [("b", 2); ("c", 3); ("a", 1)].
Proof. reflexivity. Qed.
Example evict_1 : enforce_size_limit 2 [("a", 1); ("b", 2); ("c", 3)] = ([("b", 2); ("c", 3)], ["a"]).
Proof. reflexivity. Qed.
Example max_age_1 : parse_max_age (Some "public, MAX-AGE=19800") = Some (FFin 19800).
Proof. reflexivity. Qed.
Example uncacheable_1 : is_uncacheable (Some "private, No-Store") = true. Proof. reflexivity. Qed.
Example uncacheable_2 : is_uncacheable (Some "x-no-storex") = false. Proof. reflexivity. Qed.
Example safe_env_1 : safe_env_ttl (Some "nan") 3600 = 3600%Q. Proof. reflexivity. Qed.
Example safe_env_2 : safe_env_ttl (Some "0") 3600 = 60%Q. Proof. reflexivity. Qed.

(** ** Ordered dictionaries: lemmas *)

Section OrderedDictLemmas.
Context {K V : Type} `{EqDecision K}.
Implicit Types (c : list (K * V)) (key : K).

Lemma od_get_elem key v c : od_get key c = Some v → (key, v) ∈ c.
Proof.
  induction c as [|[k' w] c IH]; simpl; [done|].
  case_bool_decide; intros; simplify_eq; [by left|right; auto].
Qed.

Lemma od_get_None key c : od_get key c = None ↔ key ∉ c.*1.
Proof.
  induction c as [|[k' w] c IH]; simpl; [split; [by intros _ ?%not_elem_of_nil|done]|].
  rewrite not_elem_of_cons. case_bool_decide; naive_solver.
Qed.

Lemma od_get_app key c1 c2 :
  od_get key (c1 ++ c2) = match od_get key c1 with Some v => Some v | None => od_get key c2 end.
Proof. induction c1 as [|[k' w] c1 IH]; simpl; [done|]. by case_bool_decide. Qed.

Lemma od_get_pop key key' c :
  od_get key (od_pop key' c) = if key ≟ key' then None else od_get key c.
Proof.
  induction c as [|[k' w] c IH]; simpl; [by case_bool_decide|].
  repeat (case_bool_decide; subst; simpl); naive_solver.
Qed.

Lemma od_get_reinsert key key' v c :
  od_get key (od_reinsert key' v c) = if key ≟ key' then Some v else od_get key c.
Proof.
  unfold od_reinsert. rewrite od_get_app, od_get_pop. simpl.
  case_bool_decide; subst; [done|]. by destruct (od_get key c).
Qed.

Lemma od_pop_keys key c : (od_pop key c).*1 = List.filter (λ k', k' ≠? key) c.*1.
Proof.
  unfold od_pop. induction c as [|[k' w] c IH]; simpl; [done|].
  case_bool_decide; simpl; [done|by f_equal].
Qed.

Lemma elem_of_list_filter_b (f : K → bool) (l : list K) z :
  z ∈ List.filter f l ↔ f z = true ∧ z ∈ l.
Proof. rewrite !list_elem_of_In, List.filter_In. naive_solver. Qed.

Lemma elem_of_pop_keys key key' c : key ∈ (od_pop key' c).*1 ↔ key ≠ key' ∧ key ∈ c.*1.
Proof.
  rewrite od_pop_keys, elem_of_list_filter_b, negb_true_iff, bool_decide_eq_false. done.
Qed.

Lemma elem_of_reinsert_keys key key' v c :
  key ∈ (od_reinsert key' v c).*1 ↔ key = key' ∨ key ∈ c.*1.
Proof.
  unfold od_reinsert. rewrite fmap_app, elem_of_app, elem_of_pop_keys. simpl.
  rewrite elem_of_cons. split; [|destruct (decide (key = key'))]; set_solver.
Qed.

Lemma od_pop_NoDup key c : NoDup c.*1 → NoDup (od_pop key c).*1.
Proof.
  rewrite od_pop_keys. rewrite !NoDup_ListNoDup. apply List.NoDup_filter.
Qed.

Lemma od_reinsert_NoDup key v c : NoDup c.*1 → NoDup (od_reinsert key v c).*1.
Proof.
  intros H. unfold od_reinsert. rewrite fmap_app, NoDup_app. split_and!.
  - by apply od_pop_NoDup.
  - intros z [Hz _]%elem_of_pop_keys. simpl. set_solver.
  - simpl. apply NoDup_singleton.
Qed.

Lemma od_pop_notin key c : key ∉ c.*1 → od_pop key c = c.
Proof.
  induction c as [|[k' w] c IH]; simpl; [done|]. rewrite not_elem_of_cons. intros [? ?].
  rewrite bool_decide_eq_false_2 by done. simpl. by rewrite IH.
Qed.

Lemma od_pop_length key c :
  NoDup c.*1 → key ∈ c.*1 → S (length (od_pop key c)) = length c.
Proof.
  induction c as [|[k' w] c IH]; simpl; [by intros _ ?%not_elem_of_nil|].
  rewrite NoDup_cons, elem_of_cons. intros [Hk Hc] [->|Hin].
  - bd_refl. by rewrite od_pop_notin.
  - rewrite bool_decide_eq_false_2 by (by intros ->). simpl. by rewrite IH.
Qed.

Lemma touch_get key key' c : od_get key (touch_cache_entry c key') = od_get key c.
Proof.
  unfold touch_cache_entry. destruct (od_get key' c) eqn:E; [|done].
  rewrite od_get_reinsert. case_bool_decide; by subst.
Qed.

Lemma touch_keys key key' c : key ∈ (touch_cache_entry c key').*1 ↔ key ∈ c.*1.
Proof.
  unfold touch_cache_entry. destruct (od_get key' c) as [v|] eqn:E; [|done].
  rewrite elem_of_reinsert_keys. split; [|by right]. intros [->|?]; [|done].
  apply od_get_elem in E. apply list_elem_of_fmap. by exists (key', v).
Qed.

Lemma touch_NoDup key c : NoDup c.*1 → NoDup (touch_cache_entry c key).*1.
Proof. unfold touch_cache_entry. destruct (od_get key c); [by apply od_reinsert_NoDup|done]. Qed.

Lemma touch_length key c : NoDup c.*1 → length (touch_cache_entry c key) = length c.
Proof.
  intros H. unfold touch_cache_entry. destruct (od_get key c) eqn:E; [|done].
  unfold od_reinsert. rewrite length_app. simpl.
  rewrite <- (od_pop_length key c H); [lia|].
  apply od_get_elem in E. apply list_elem_of_fmap. by exists (key, v).
Qed.

(** The eviction loop removes exactly the overflow, from the least recently used end. *)
Lemma enforce_spec (max_size : Z) c :
  (0 ≤ max_size)%Z →
  let o := length c - Z.to_nat max_size in
  enforce_size_limit max_size c = (drop o c, (take o c).*1).
Proof.
  intros Hm. induction c as [|[k' w] c IH]; [done|]. cbn [enforce_size_limit].
  destruct (Z.ltb_spec max_size (Z.of_nat (length ((k', w) :: c)))) as [Hlt|Hge]; simpl length in *.
  - rewrite IH. by replace (S (length c) - Z.to_nat max_size)
      with (S (length c - Z.to_nat max_size)) by lia.
  - by replace (S (length c) - Z.to_nat max_size) with 0 by lia.
Qed.

Lemma enforce_length (max_size : Z) c :
  (0 ≤ max_size)%Z → (Z.of_nat (length (enforce_size_limit max_size c).1) ≤ max_size)%Z.
Proof. intros H. rewrite enforce_spec by done. simpl. rewrite length_drop. lia. Qed.

Lemma enforce_partition (max_size : Z) c :
  (0 ≤ max_size)%Z → c.*1 = (enforce_size_limit max_size c).2 ++ (enforce_size_limit max_size c).1.*1.
Proof. intros H. rewrite enforce_spec by done. simpl. by rewrite <- fmap_app, take_drop. Qed.

(** The entry just written survives the eviction that follows it. *)
Lemma enforce_keeps_last (max_size : Z) c key v :
  (1 ≤ max_size)%Z → ∃ c', (enforce_size_limit max_size (c ++ [(key, v)])).1 = c' ++ [(key, v)].
Proof.
  intros H. rewrite enforce_spec by lia. simpl. eexists.
  apply drop_app_le. rewrite length_app. simpl. lia.
Qed.

Lemma enforce_get (max_size : Z) c key v :
  (0 ≤ max_size)%Z → NoDup c.*1 →
  od_get key (enforce_size_limit max_size c).1 = Some v → od_get key c = Some v.
Proof.
  intros H Hnd. rewrite enforce_spec by done. simpl. set (o := length c - _).
  rewrite <- (take_drop o c) at 2. rewrite od_get_app. intros Hg.
  assert (od_get key (take o c) = None) as ->; [|done].
  apply od_get_None. intros Hin. rewrite <- (take_drop o c), fmap_app, NoDup_app in Hnd.
  destruct Hnd as (_ & Hd & _). apply (Hd key Hin).
  apply od_get_elem in Hg. apply list_elem_of_fmap. by exists (key, v).
Qed.
(** A write followed by the size enforcement. *)
Lemma write_spec (z : Z) c key v :
  (1 ≤ z)%Z → NoDup c.*1 →
  let c' := (enforce_size_limit z (od_reinsert key v c)).1 in
  NoDup c'.*1 ∧ (Z.of_nat (length c') ≤ z)%Z ∧ od_get key c' = Some v ∧
  (∀ key' w, od_get key' c' = Some w → key' ≠ key → od_get key' c = Some w).
Proof.
  intros Hz Hnd. pose proof (od_reinsert_NoDup key v c Hnd) as Hnd1.
  pose proof (enforce_partition z (od_reinsert key v c) ltac:(lia)) as Hpart.
  pose proof (λ key' w, enforce_get z _ key' w ltac:(lia) Hnd1) as Hget.
  assert (key ∈ (enforce_size_limit z (od_reinsert key v c)).1.*1) as Hin.
  { destruct (enforce_keeps_last z (od_pop key c) key v Hz) as [c' Hc'].
    unfold od_reinsert. rewrite Hc', fmap_app. set_solver. }
  cbn zeta. split_and!.
  - rewrite Hpart, NoDup_app in Hnd1. by destruct Hnd1 as (_ & _ & ?).
  - apply enforce_length. lia.
  - destruct (od_get key (enforce_size_limit z _).1) as [w|] eqn:Eg.
    + apply Hget in Eg. rewrite od_get_reinsert, bool_decide_eq_true_2 in Eg by done. done.
    + by apply od_get_None in Eg.
  - intros key' w Hg Hne. apply Hget in Hg.
    by rewrite od_get_reinsert, bool_decide_eq_false_2 in Hg.
Qed.
End OrderedDictLemmas.

(** ** Bounds of the knobs *)

Lemma Qltb_true a b : Qltb a b = true ↔ (a < b)%Q.
Proof.
  unfold Qltb. rewrite negb_true_iff. rewrite <- not_true_iff_false, Qle_bool_iff.
  split; [apply Qnot_le_lt|apply Qlt_not_le].
Qed.
Lemma Qltb_false a b : Qltb a b = false ↔ (b <= a)%Q.
Proof. unfold Qltb. by rewrite negb_false_iff, Qle_bool_iff. Qed.

Lemma clamp_bounds lo hi v : (lo <= hi)%Q → (lo <= py_max lo (py_min v hi) <= hi)%Q.
Proof.
  intros H. unfold py_max, py_min. destruct (Qltb hi v) eqn:E1.
  - destruct (Qltb lo hi) eqn:E2; [apply Qltb_true in E2|apply Qltb_false in E2]; split; lra.
  - apply Qltb_false in E1.
    destruct (Qltb lo v) eqn:E2; [apply Qltb_true in E2|apply Qltb_false in E2]; split; lra.
Qed.

Lemma clamp_id lo hi v : (lo <= v)%Q → (v <= hi)%Q → (py_max lo (py_min v hi) == v)%Q.
Proof.
  intros H1 H2. unfold py_max, py_min.
  destruct (Qltb hi v) eqn:E1; [apply Qltb_true in E1; lra|].
  destruct (Qltb lo v) eqn:E2; [reflexivity|]. apply Qltb_false in E2. lra.
Qed.

Lemma safe_env_float_bounds raw dflt lo hi :
  (lo <= dflt)%Q → (dflt <= hi)%Q → (lo <= safe_env_float raw dflt lo hi <= hi)%Q.
Proof.
  intros H1 H2. assert (lo <= hi)%Q by lra. unfold safe_env_float.
  destruct raw as [[|ch s]|]; [lra| |lra].
  destruct (float_of_string _) as [[| |v]|]; [lra|lra| |lra]. by apply clamp_bounds.
Qed.

Definition ttl_ok (t : Q) : Prop := (MIN_CACHE_TTL_SECONDS <= t <= MAX_CACHE_TTL_SECONDS)%Q.
Definition cooldown_ok (t : Q) : Prop :=
  (MIN_KID_MISS_COOLDOWN_SECONDS <= t <= MAX_KID_MISS_COOLDOWN_SECONDS)%Q.

(** What every memo the knobs ever produce satisfies. *)
Definition memo_ok (m : EnvMemo) : Prop :=
  (∀ t, env_ttl m = Some t → ttl_ok t) ∧ (∀ t, disco_env_ttl m = Some t → ttl_ok t) ∧
  (∀ t, kid_miss_cooldown m = Some t → cooldown_ok t) ∧
  (∀ z, max_cache_entries m = Some z → (1 ≤ z)%Z).

Lemma reset_memo_ok : memo_ok reset_env_for_testing.
Proof. unfold memo_ok; simpl. split_and!; intros; discriminate. Qed.

Ltac solve_memo :=
  repeat match goal with
    | H : memo_ok _ |- _ => destruct H as (? & ? & ? & ?)
    | |- memo_ok _ => unfold memo_ok; simpl
    | |- _ ∧ _ => split
    | |- ∀ _, _ → _ => intros
    end; simplify_eq; eauto.

Lemma clamp_ttl_ok v : ttl_ok (clamp_ttl v).
Proof.
  unfold clamp_ttl, ttl_ok. destruct v as [|[]|v].
  - unfold MIN_CACHE_TTL_SECONDS, MAX_CACHE_TTL_SECONDS. lra.
  - unfold MIN_CACHE_TTL_SECONDS, MAX_CACHE_TTL_SECONDS. lra.
  - unfold MIN_CACHE_TTL_SECONDS, MAX_CACHE_TTL_SECONDS. lra.
  - apply clamp_bounds. unfold MIN_CACHE_TTL_SECONDS, MAX_CACHE_TTL_SECONDS. lra.
Qed.

Lemma safe_env_ttl_ok raw dflt : ttl_ok dflt → ttl_ok (safe_env_ttl raw dflt).
Proof. intros [? ?]. by apply safe_env_float_bounds. Qed.

Lemma get_env_ttl_ok env m :
  memo_ok m → ttl_ok (get_env_ttl env m).1 ∧ memo_ok (get_env_ttl env m).2.
Proof.
  intros H. unfold get_env_ttl.
  assert (ttl_ok (safe_env_ttl (env "JWKS_CACHE_TTL") DEFAULT_JWKS_CACHE_TTL_SECONDS)).
  { apply safe_env_ttl_ok. split; compute; done. }
  destruct (env_ttl m) eqn:E; simpl; [|by solve_memo].
  split; [by solve_memo|done].
Qed.

Lemma get_disco_env_ttl_ok env m :
  memo_ok m → ttl_ok (get_disco_env_ttl env m).1 ∧ memo_ok (get_disco_env_ttl env m).2.
Proof.
  intros H. unfold get_disco_env_ttl.
  assert (ttl_ok (safe_env_ttl (env "DISCO_CACHE_TTL") DEFAULT_DISCO_CACHE_TTL_SECONDS)).
  { apply safe_env_ttl_ok. split; compute; done. }
  destruct (disco_env_ttl m) eqn:E; simpl; [|by solve_memo].
  split; [by solve_memo|done].
Qed.

Lemma get_kid_miss_cooldown_ok env m :
  memo_ok m → cooldown_ok (get_kid_miss_cooldown env m).1 ∧ memo_ok (get_kid_miss_cooldown env m).2.
Proof.
  intros H. unfold get_kid_miss_cooldown.
  assert (cooldown_ok (safe_env_float (env "KID_MISS_REFRESH_COOLDOWN")
    DEFAULT_KID_MISS_REFRESH_COOLDOWN_SECONDS
    MIN_KID_MISS_COOLDOWN_SECONDS MAX_KID_MISS_COOLDOWN_SECONDS)).
  { apply safe_env_float_bounds; compute; done. }
  destruct (kid_miss_cooldown m) eqn:E; simpl; [|by solve_memo].
  split; [by solve_memo|done].
Qed.

Lemma parse_max_entries_pos raw : (1 ≤ parse_max_entries raw)%Z.
Proof.
  unfold parse_max_entries. destruct raw as [[|ch s]|]; [done| |done].
  destruct (int_of_string _) as [z|]; [|done]. destruct (Z.ltb_spec z 1); [done|lia].
Qed.

Lemma get_max_cache_entries_ok env m :
  memo_ok m → (1 ≤ (get_max_cache_entries env m).1)%Z ∧ memo_ok (get_max_cache_entries env m).2.
Proof.
  intros H. unfold get_max_cache_entries.
  pose proof (parse_max_entries_pos (env "JWKS_CACHE_MAX_ENTRIES")).
  destruct (max_cache_entries m) eqn:E; simpl; [|by solve_memo].
  split; [by solve_memo|done].
Qed.

Lemma resolve_ttl_ok env m cc :
  memo_ok m → ttl_ok (resolve_ttl env m cc).1 ∧ memo_ok (resolve_ttl env m cc).2.
Proof.
  intros H. unfold resolve_ttl. destruct (parse_max_age cc); simpl.
  - split; [apply clamp_ttl_ok|done].
  - by apply get_env_ttl_ok.
Qed.

Lemma resolve_disco_ttl_ok env m cc :
  memo_ok m → ttl_ok (resolve_disco_ttl env m cc).1 ∧ memo_ok (resolve_disco_ttl env m cc).2.
Proof.
  intros H. unfold resolve_disco_ttl. destruct (parse_max_age cc); simpl.
  - split; [apply clamp_ttl_ok|done].
  - by apply get_disco_env_ttl_ok.
Qed.

(** ** The cache refines a recency list

    The abstract specification of an LRU cache of capacity [cap] is a list of the distinct keys
    in the order of their last use; the cache holds exactly the last [cap] of them.  A hit on
    an absent key is not a use ([touch_cache_entry] is a no-op then). *)

Section Lru.
Context {K V : Type} `{EqDecision K}.

Inductive cache_op : Type := OpHit (key : K) | OpWrite (key : K) (v : V) | OpClear.

Definition run_op (cap : Z) (c : list (K * V)) (op : cache_op) : list (K * V) :=
  match op with
  | OpHit key => touch_cache_entry c key
  | OpWrite key v => (enforce_size_limit cap (od_reinsert key v c)).1
  | OpClear => clear_cache_locked c
  end.

Definition remove_key (key : K) (r : list K) : list K := List.filter (λ k', k' ≠? key) r.

(** [held] is what the capacity allows of a recency list. *)
Definition held (cap : nat) (r : list K) : list K := drop (length r - cap) r.

Definition run_spec (cap : nat) (r : list K) (op : cache_op) : list K :=
  match op with
  | OpHit key => if bool_decide (key ∈ held cap r) then remove_key key r ++ [key] else r
  | OpWrite key _ => remove_key key r ++ [key]
  | OpClear => []
  end.

Lemma held_app cap (r1 r2 : list K) : cap ≤ length r2 → held cap (r1 ++ r2) = held cap r2.
Proof.
  intros H. unfold held. rewrite length_app, drop_app_ge by lia. f_equal. lia.
Qed.

Lemma remove_key_app key (r1 r2 : list K) :
  remove_key key (r1 ++ r2) = remove_key key r1 ++ remove_key key r2.
Proof. apply List.filter_app. Qed.

Lemma remove_key_notin key (r : list K) : key ∉ r → remove_key key r = r.
Proof.
  unfold remove_key. induction r as [|z r IH]; simpl; [done|].
  rewrite not_elem_of_cons. intros [? ?]. rewrite bool_decide_eq_false_2 by congruence.
  simpl. by rewrite IH.
Qed.

Lemma remove_key_length key (r : list K) : NoDup r → length r ≤ S (length (remove_key key r)).
Proof.
  unfold remove_key. induction r as [|z r IH]; simpl; [lia|].
  intros [Hz Hr]%NoDup_cons. case_bool_decide; simpl.
  - subst. fold (remove_key key r). rewrite remove_key_notin by done. lia.
  - specialize (IH Hr). lia.
Qed.

Lemma remove_key_NoDup key (r : list K) : NoDup r → NoDup (remove_key key r ++ [key]).
Proof.
  intros H. rewrite NoDup_app. split_and!; [| |apply NoDup_singleton].
  - unfold remove_key. rewrite NoDup_ListNoDup in *. by apply List.NoDup_filter.
  - intros z Hz. unfold remove_key in Hz. apply elem_of_list_filter_b in Hz as [Hz _].
    apply negb_true_iff, bool_decide_eq_false in Hz. set_solver.
Qed.

Lemma held_use cap key (r : list K) :
  1 ≤ cap → NoDup r →
  held cap (remove_key key (held cap r) ++ [key]) = held cap (remove_key key r ++ [key]).
Proof.
  intros Hcap Hr. remember (length r - cap) as o eqn:Ho.
  assert (held cap r = drop o r) as -> by (by rewrite Ho).
  assert (remove_key key r = remove_key key (take o r) ++ remove_key key (drop o r)) as ->
    by (by rewrite <- remove_key_app, take_drop).
  rewrite <- app_assoc. destruct (decide (o = 0)) as [->|Ho0]; [by rewrite take_0|].
  rewrite (held_app cap (remove_key key (take o r))); [done|]. rewrite length_app. simpl.
  assert (NoDup (drop o r)) as Hd by (eapply sublist_NoDup; [exact Hr|apply sublist_drop]).
  pose proof (remove_key_length key _ Hd) as Hl. rewrite length_drop in Hl. lia.
Qed.

Lemma run_spec_NoDup cap r op : NoDup r → NoDup (run_spec cap r op).
Proof.
  intros H. destruct op; simpl; [case_bool_decide|..]; auto using remove_key_NoDup.
  apply NoDup_nil_2.
Qed.

Lemma enforce_keys cap (c : list (K * V)) :
  (0 ≤ cap)%Z → (enforce_size_limit cap c).1.*1 = held (Z.to_nat cap) c.*1.
Proof. intros H. rewrite enforce_spec by done. simpl. unfold held. by rewrite fmap_drop, length_fmap. Qed.

Lemma reinsert_keys key (v : V) (c : list (K * V)) :
  (od_reinsert key v c).*1 = remove_key key c.*1 ++ [key].
Proof. unfold od_reinsert. by rewrite fmap_app, od_pop_keys. Qed.

Lemma held_held cap (r : list K) : length r ≤ cap → held cap r = r.
Proof. intros H. unfold held. by replace (length r - cap) with 0 by lia. Qed.

Lemma held_length cap (r : list K) : length (held cap r) ≤ cap.
Proof. unfold held. rewrite length_drop. lia. Qed.

Lemma run_op_refines cap (c : list (K * V)) r op :
  (1 ≤ cap)%Z → NoDup r → c.*1 = held (Z.to_nat cap) r →
  (run_op cap c op).*1 = held (Z.to_nat cap) (run_spec (Z.to_nat cap) r op).
Proof.
  intros Hcap Hr Hc. destruct op as [key|key v|]; simpl.
  - rewrite <- Hc. unfold touch_cache_entry.
    destruct (od_get key c) as [v|] eqn:E.
    + apply od_get_elem in E. rewrite bool_decide_eq_true_2
        by (apply list_elem_of_fmap; by exists (key, v)).
      rewrite reinsert_keys, Hc, <- held_use by (done || lia).
      symmetry. apply held_held. rewrite length_app. simpl.
      assert (key ∈ held (Z.to_nat cap) r) as Hin.
      { rewrite <- Hc. apply list_elem_of_fmap. by exists (key, v). }
      unfold remove_key. rewrite <- Hc in *.
      rewrite <- (od_pop_keys key c), length_fmap.
      assert (NoDup c.*1) as Hn
        by (rewrite Hc; eapply sublist_NoDup; [exact Hr|apply sublist_drop]).
      pose proof (od_pop_length key c Hn Hin). pose proof (held_length (Z.to_nat cap) r) as Hl.
      rewrite <- Hc, length_fmap in Hl. lia.
    + apply od_get_None in E. by rewrite bool_decide_eq_false_2.
  - rewrite enforce_keys, reinsert_keys, Hc by lia. apply held_use; [lia|done].
  - done.
Qed.

(** Any sequence of hits, writes and clears. *)
Lemma run_ops_refines cap (ops : list cache_op) (c : list (K * V)) r :
  (1 ≤ cap)%Z → NoDup r → c.*1 = held (Z.to_nat cap) r →
  (foldl (run_op cap) c ops).*1 = held (Z.to_nat cap) (foldl (run_spec (Z.to_nat cap)) r ops).
Proof.
  intros Hcap. revert c r. induction ops as [|op ops IH]; intros c r Hr Hc; simpl; [done|].
  apply IH; [by apply run_spec_NoDup|by apply run_op_refines].
Qed.
End Lru.

(** ** The state invariant of the JWKS cache *)

(** The capacity memo is written together with the first entry. *)
Definition size_ok (m : EnvMemo) (len : nat) : Prop :=
  match max_cache_entries m with Some z => (Z.of_nat len ≤ z)%Z | None => len = 0 end.

Definition jwks_entry_ok (en : JwksCacheEntry) : Prop :=
  jwks_is_successful (response en) = true ∧ has_keys (jwks_keys (response en)) = true ∧
  ttl_ok (ttl en).

Record jwks_inv (m : EnvMemo) (cache : list (string * JwksCacheEntry))
    (cooldown : gmap string Q) : Prop := {
  inv_memo : memo_ok m;
  inv_nodup : NoDup cache.*1;
  inv_size : size_ok m (length cache);
  inv_entries : ∀ uri en, od_get uri cache = Some en → jwks_entry_ok en;
  inv_cooldown : ∀ uri, is_Some (cooldown !! uri) → uri ∈ cache.*1;
}.

Lemma lookup_pop_all {V} keys (m : gmap string V) key :
  pop_all keys m !! key = if bool_decide (key ∈ keys) then None else m !! key.
Proof.
  unfold pop_all. revert m. induction keys as [|k' keys IH]; intros m; simpl; [done|].
  rewrite IH, lookup_delete. repeat case_bool_decide; repeat case_decide; set_solver.
Qed.

Lemma get_max_memo env m :
  max_cache_entries (get_max_cache_entries env m).2 = Some (get_max_cache_entries env m).1.
Proof. unfold get_max_cache_entries. by destruct (max_cache_entries m) eqn:E. Qed.

Lemma resolve_ttl_max env m cc : max_cache_entries (resolve_ttl env m cc).2 = max_cache_entries m.
Proof.
  unfold resolve_ttl, get_env_ttl.
  destruct (parse_max_age cc); [done|]. by destruct (env_ttl m).
Qed.

(** What a write of a usable response does, in one statement: the fresh entry is there with a
    clamped lifetime, other entries are unchanged or evicted, the size bound holds, and the
    cooldown stamps of evicted entries are gone. *)
Lemma apply_jwks_write env m cache uri resp now cooldown :
  memo_ok m → NoDup cache.*1 →
  jwks_is_successful resp = true → has_keys (jwks_keys resp) = true →
  let '(m', cache', cooldown') :=
    apply_jwks_cache_outcome env m cache uri resp now (Some cooldown) in
  memo_ok m' ∧ NoDup cache'.*1 ∧
  (∃ z, max_cache_entries m' = Some z ∧ (Z.of_nat (length cache') ≤ z)%Z) ∧
  (∃ t, od_get uri cache' = Some (Entry resp now t) ∧ ttl_ok t) ∧
  (∀ uri' en, uri' ≠ uri → od_get uri' cache' = Some en → od_get uri' cache = Some en) ∧
  (∃ cd, cooldown' = Some cd ∧ ∀ uri', cd !! uri' = cooldown !! uri' ∨
     (cd !! uri' = None ∧ uri' ∉ cache'.*1)) ∧
  (∀ uri', uri' ∈ cache.*1 → uri' ∈ cache'.*1 ∨
     ∃ cd, cooldown' = Some cd ∧ cd !! uri' = None).
Proof.
  intros Hm Hnd Hs Hk. unfold apply_jwks_cache_outcome. rewrite Hs, Hk. simpl.
  destruct (resolve_ttl env m _) as [t m1] eqn:Et.
  destruct (resolve_ttl_ok env m (jwks_cache_control resp) Hm) as [Ht Hm1].
  rewrite Et in Ht, Hm1. simpl in Ht, Hm1.
  destruct (get_max_cache_entries env m1) as [z m2] eqn:Ez.
  destruct (get_max_cache_entries_ok env m1 Hm1) as [Hz Hm2].
  pose proof (get_max_memo env m1) as Hmax. rewrite Ez in Hz, Hm2, Hmax. simpl in Hz, Hm2, Hmax.
  set (c1 := od_reinsert uri (Entry resp now t) cache).
  assert (NoDup c1.*1) as Hnd1 by by apply od_reinsert_NoDup.
  destruct (enforce_size_limit z c1) as [c2 ev] eqn:Eev.
  pose proof (enforce_partition z c1 ltac:(lia)) as Hpart.
  pose proof (enforce_length z c1 ltac:(lia)) as Hlen.
  pose proof (λ key v, enforce_get z c1 key v ltac:(lia) Hnd1) as Hget.
  assert (∃ c', (enforce_size_limit z c1).1 = c' ++ [(uri, Entry resp now t)]) as [c' Hlast]
    by by apply enforce_keeps_last.
  rewrite Eev in Hpart, Hlen, Hget, Hlast. simpl in Hpart, Hlen, Hget, Hlast.
  assert (NoDup (ev ++ c2.*1)) as Hnd2 by (rewrite <- Hpart; exact Hnd1).
  apply NoDup_app in Hnd2 as (_ & Hdisj & Hnd2).
  split_and!.
  - done.
  - done.
  - by exists z.
  - exists t. split; [|done]. destruct (od_get uri c2) as [en|] eqn:Eg.
    + apply Hget in Eg. unfold c1 in Eg. rewrite od_get_reinsert in Eg.
      rewrite bool_decide_eq_true_2 in Eg by done. by symmetry.
    + apply od_get_None in Eg. subst c2. rewrite fmap_app in Eg. set_solver.
  - intros uri' en Hne Hg. apply Hget in Hg. unfold c1 in Hg.
    by rewrite od_get_reinsert, bool_decide_eq_false_2 in Hg.
  - exists (pop_all ev cooldown). split; [done|]. intros uri'. rewrite lookup_pop_all.
    case_bool_decide; [right|by left]. split; [done|]. by apply Hdisj.
  - intros uri' Hin. assert (uri' ∈ c1.*1) as Hin1 by (apply elem_of_reinsert_keys; by right).
    rewrite Hpart in Hin1. apply elem_of_app in Hin1 as [Hev|Hc2]; [right|by left].
    exists (pop_all ev cooldown). split; [done|]. rewrite lookup_pop_all.
    by rewrite bool_decide_eq_true_2.
Qed.

Lemma apply_jwks_unusable env m cache uri resp now cooldown :
  jwks_is_successful resp && has_keys (jwks_keys resp) = false →
  apply_jwks_cache_outcome env m cache uri resp now cooldown = (m, cache, cooldown).
Proof.
  unfold apply_jwks_cache_outcome. by destruct (jwks_is_successful resp), (has_keys _).
Qed.

Lemma apply_jwks_inv env m cache uri resp now cooldown :
  jwks_inv m cache cooldown →
  ∃ m' cache' cooldown',
    apply_jwks_cache_outcome env m cache uri resp now (Some cooldown) =
      (m', cache', Some cooldown') ∧
    jwks_inv m' cache' cooldown'.
Proof.
  intros [Hm Hnd Hsz Hen Hcd].
  destruct (jwks_is_successful resp && has_keys (jwks_keys resp)) eqn:Hu; cycle 1.
  { rewrite apply_jwks_unusable by done. by exists m, cache, cooldown. }
  apply andb_true_iff in Hu as [Hs Hk].
  pose proof (apply_jwks_write env m cache uri resp now cooldown Hm Hnd Hs Hk) as Hw.
  destruct (apply_jwks_cache_outcome _ _ _ _ _ _ _) as [[m' cache'] cooldown'].
  destruct Hw as (Hm' & Hnd' & (z & Hz & Hlen) & (t & Hg & Ht) & Hold & (cd & -> & Hcd') & Hkeep).
  exists m', cache', cd. split; [done|]. constructor; [done..| | |].
  - unfold size_ok. by rewrite Hz.
  - intros uri' en Hg'. destruct (decide (uri' = uri)) as [->|Hne].
    + rewrite Hg in Hg'. simplify_eq. by split_and!.
    + by eapply Hen, Hold.
  - intros uri' Hs'. destruct (Hcd' uri') as [Heq|[Hnone _]]; [|by rewrite Hnone in Hs'; destruct Hs'].
    rewrite Heq in Hs'. destruct (Hkeep uri' (Hcd uri' Hs')) as [|(cd0 & ? & Hnone)]; [done|].
    simplify_eq. rewrite <- Heq, Hnone in Hs'. by destruct Hs'.
Qed.

(** *** Memo growth, and the discovery cache *)

(** The knobs are only ever filled in: a decided capacity stays. *)
Definition memo_le (m m' : EnvMemo) : Prop :=
  memo_ok m' ∧ ∀ z, max_cache_entries m = Some z → max_cache_entries m' = Some z.

Lemma memo_le_refl m : memo_ok m → memo_le m m.
Proof. by split. Qed.
Lemma memo_le_trans m1 m2 m3 : memo_le m1 m2 → memo_le m2 m3 → memo_le m1 m3.
Proof. intros [_ H1] [Ho H2]. split; [done|]. intros z Hz. by apply H2, H1. Qed.

Lemma size_ok_mono m m' len : memo_le m m' → size_ok m len → size_ok m' len.
Proof.
  intros [(_ & _ & _ & Hpos) Hle]. unfold size_ok.
  destruct (max_cache_entries m) as [z|]; [by rewrite (Hle z eq_refl)|]. intros ->.
  destruct (max_cache_entries m') as [z|] eqn:Ez; [|done]. specialize (Hpos z eq_refl). lia.
Qed.

Lemma jwks_inv_mono m m' cache cd : memo_le m m' → jwks_inv m cache cd → jwks_inv m' cache cd.
Proof.
  intros Hle [Hm Hnd Hsz Hen Hcd]. constructor; try done; [by apply Hle|by eapply size_ok_mono].
Qed.

Lemma get_max_cache_entries_le env m : memo_ok m → memo_le m (get_max_cache_entries env m).2.
Proof.
  intros H. split; [by apply get_max_cache_entries_ok|]. unfold get_max_cache_entries.
  intros z Hz. by rewrite Hz.
Qed.
Lemma resolve_ttl_le env m cc : memo_ok m → memo_le m (resolve_ttl env m cc).2.
Proof. intros H. split; [by apply resolve_ttl_ok|]. by rewrite resolve_ttl_max. Qed.
Lemma resolve_disco_ttl_le env m cc : memo_ok m → memo_le m (resolve_disco_ttl env m cc).2.
Proof.
  intros H. split; [by apply resolve_disco_ttl_ok|]. unfold resolve_disco_ttl, get_disco_env_ttl.
  destruct (parse_max_age cc); [done|]. by destruct (disco_env_ttl m).
Qed.
Lemma should_attempt_le env m k uri b t :
  memo_ok m → memo_le m (should_attempt_kid_miss_refresh env m k uri b t).2.
Proof.
  intros H. unfold should_attempt_kid_miss_refresh. destruct b; [|by apply memo_le_refl].
  cbn [negb]. destruct (k !! uri); [|by apply memo_le_refl].
  pose proof (get_kid_miss_cooldown_ok env m H) as [_ Hm].
  destruct (get_kid_miss_cooldown env m) as [cd m'] eqn:E. split; [exact Hm|].
  unfold get_kid_miss_cooldown in E.
  destruct (kid_miss_cooldown m); injection E as <- <-; intros z Hz; exact Hz.
Qed.

Lemma apply_jwks_le env m cache uri resp now cooldown :
  memo_ok m → memo_le m (apply_jwks_cache_outcome env m cache uri resp now cooldown).1.1.
Proof.
  intros Hm. unfold apply_jwks_cache_outcome.
  destruct (jwks_is_successful resp); [|by apply memo_le_refl].
  destruct (has_keys _); [|by apply memo_le_refl]. cbn [negb is_uncacheable_for_jwks].
  pose proof (resolve_ttl_le env m (jwks_cache_control resp) Hm) as Hle1.
  destruct (resolve_ttl env m _) as [t m1]. cbn [snd] in Hle1.
  pose proof (get_max_cache_entries_le env m1 ltac:(apply Hle1)) as Hle2.
  destruct (get_max_cache_entries env m1) as [z m2]. cbn [snd] in Hle2.
  destruct (enforce_size_limit z _). by eapply memo_le_trans.
Qed.

(** The state invariant of the discovery cache, over what an entry may hold. *)
Record disco_inv {K} (entry_ok : K → DiscoveryDocumentResponse → Prop) (m : EnvMemo)
    `{EqDecision K} (cache : list (K * DiscoCacheEntry)) : Prop := {
  dinv_nodup : NoDup cache.*1;
  dinv_size : size_ok m (length cache);
  dinv_entries : ∀ k en, od_get k cache = Some en → entry_ok k (response en) ∧ ttl_ok (ttl en);
}.

Lemma disco_inv_mono {K} `{EqDecision K} (ok : K → DiscoveryDocumentResponse → Prop) m m' cache :
  memo_le m m' → disco_inv ok m cache → disco_inv ok m' cache.
Proof. intros Hle [Hnd Hsz Hen]. constructor; [done|by eapply size_ok_mono|done]. Qed.

Lemma disco_inv_touch {K} `{EqDecision K} (ok : K → DiscoveryDocumentResponse → Prop) m cache k :
  disco_inv ok m cache → disco_inv ok m (touch_cache_entry cache k).
Proof.
  intros [Hnd Hsz Hen]. constructor; [by apply touch_NoDup|by rewrite touch_length|].
  intros k' en. rewrite touch_get. apply Hen.
Qed.

Lemma jwks_inv_touch m cache cd uri :
  jwks_inv m cache cd → jwks_inv m (touch_cache_entry cache uri) cd.
Proof.
  intros [Hm Hnd Hsz Hen Hcd]. constructor; [done|by apply touch_NoDup|by rewrite touch_length| |].
  - intros u en. rewrite touch_get. apply Hen.
  - intros u Hu. apply touch_keys. by apply Hcd.
Qed.

Lemma apply_disco_inv {K} `{EqDecision K} (ok : K → DiscoveryDocumentResponse → Prop) env m
    (cache : list (K * DiscoCacheEntry)) k resp now :
  memo_ok m → disco_inv ok m cache → (disco_is_successful resp = true → ok k resp) →
  let '(m', cache') := apply_disco_cache_outcome env m cache k resp now in
  memo_le m m' ∧ disco_inv ok m' cache'.
Proof.
  intros Hm Hinv Hok. pose proof Hinv as [Hnd Hsz Hen]. unfold apply_disco_cache_outcome.
  destruct (disco_is_successful resp); [cbn [negb]|by split; [apply memo_le_refl|]].
  destruct (is_uncacheable _).
  { split; [by apply memo_le_refl|]. constructor; [by apply od_pop_NoDup| |].
    - unfold size_ok in *. destruct (decide (k ∈ cache.*1)) as [Hin|Hnin].
      + pose proof (od_pop_length k cache Hnd Hin). destruct (max_cache_entries m); lia.
      + by rewrite od_pop_notin.
    - intros k' en. rewrite od_get_pop. case_bool_decide; [done|apply Hen]. }
  pose proof (resolve_disco_ttl_ok env m (disco_cache_control resp) Hm) as [Ht _].
  pose proof (resolve_disco_ttl_le env m (disco_cache_control resp) Hm) as Hle1.
  destruct (resolve_disco_ttl env m _) as [t m1]. cbn [fst snd] in *.
  pose proof (get_max_cache_entries_ok env m1 ltac:(apply Hle1)) as [Hz _].
  pose proof (get_max_cache_entries_le env m1 ltac:(apply Hle1)) as Hle2.
  pose proof (get_max_memo env m1) as Hmax.
  destruct (get_max_cache_entries env m1) as [z m2]. cbn [fst snd] in *.
  pose proof (write_spec z cache k (Entry resp now t) Hz Hnd) as (Hnd' & Hlen & Hget & Hold).
  destruct (enforce_size_limit z _) as [c' ev]. cbn [fst] in *.
  split; [by eapply memo_le_trans|]. constructor; [done| |].
  - unfold size_ok. by rewrite Hmax.
  - intros k' en Hg. destruct (decide (k' = k)) as [->|Hne].
    + rewrite Hget in Hg. injection Hg as <-. split; [by apply Hok|done].
    + by eapply Hen, Hold.
Qed.

Lemma get_env_ttl_memo env env' m :
  get_env_ttl env' (get_env_ttl env m).2 = get_env_ttl env m.
Proof. unfold get_env_ttl. destruct (env_ttl m) eqn:E; simpl; by rewrite ?E. Qed.
Lemma get_disco_env_ttl_memo env env' m :
  get_disco_env_ttl env' (get_disco_env_ttl env m).2 = get_disco_env_ttl env m.
Proof. unfold get_disco_env_ttl. destruct (disco_env_ttl m) eqn:E; simpl; by rewrite ?E. Qed.

(** ** Properties *)

(** C40: the caches evict in true LRU order: after any sequence of read hits, writes (each
    followed by the size enforcement) and clears from an empty cache, the keys held are, in
    order, the [cap] most recently used distinct keys. *)
Theorem lru_refinement {K V} `{EqDecision K} (cap : Z) (ops : list (@cache_op K V)) :
  (1 ≤ cap)%Z →
  (foldl (run_op cap) [] ops).*1 =
    held (Z.to_nat cap) (foldl (run_spec (Z.to_nat cap)) [] ops).
Proof.
  intros Hcap. apply run_ops_refines; [done|apply NoDup_nil_2|].
  unfold held. by rewrite drop_nil.
Qed.

Lemma lru_refinement_witness :
  (foldl (run_op 2) [] [OpWrite "a" 1; OpWrite "b" 2; OpHit "a"; OpWrite "c" 3]).*1 = ["a"; "c"].
Proof. rewrite lru_refinement; [reflexivity|lia]. Defined.

(** A JWKS response, whatever it is, never costs a working key set: if the URI had a usable
    cached entry, it still has one afterwards; it is the new response when that one is
    successful with keys, and exactly the old entry otherwise (failure or empty body). *)
Theorem jwks_keys_never_lost env m cache cooldown uri en resp now :
  jwks_inv m cache cooldown → od_get uri cache = Some en →
  ∃ m' cache' cooldown' en',
    apply_jwks_cache_outcome env m cache uri resp now (Some cooldown) =
      (m', cache', Some cooldown') ∧
    od_get uri cache' = Some en' ∧ jwks_entry_ok en' ∧
    (if jwks_is_successful resp && has_keys (jwks_keys resp)
     then response en' = resp ∧ cached_at en' = now else en' = en).
Proof.
  intros Hinv Hg. pose proof (inv_entries _ _ _ Hinv _ _ Hg) as Hok.
  destruct (jwks_is_successful resp && has_keys (jwks_keys resp)) eqn:Hu; cycle 1.
  { rewrite apply_jwks_unusable by done. exists m, cache, cooldown, en. done. }
  destruct (apply_jwks_inv env m cache uri resp now cooldown Hinv)
    as (m' & cache' & cooldown' & Heq & Hinv').
  apply andb_true_iff in Hu as [Hs Hk].
  pose proof (apply_jwks_write env m cache uri resp now cooldown
    (inv_memo _ _ _ Hinv) (inv_nodup _ _ _ Hinv) Hs Hk) as Hw.
  rewrite Heq in Hw. destruct Hw as (_ & _ & _ & (t & Hg' & Ht) & _).
  exists m', cache', cooldown', (Entry resp now t). split_and!; try done.
Qed.

(** The JWKS cache state stays well formed under every response: memoised knobs in range,
    no duplicate URI, at most [JWKS_CACHE_MAX_ENTRIES] entries, every entry a successful
    non-empty response with a lifetime in [60 s, 24 h], and a cooldown stamp only for a URI that
    is cached, so the sidecar is bounded by the cache. *)
Theorem jwks_cache_invariant env m cache cooldown uri resp now :
  jwks_inv m cache cooldown →
  ∃ m' cache' cooldown',
    apply_jwks_cache_outcome env m cache uri resp now (Some cooldown) =
      (m', cache', Some cooldown') ∧
    jwks_inv m' cache' cooldown' ∧ size cooldown' ≤ length cache'.
Proof.
  intros H. destruct (apply_jwks_inv env m cache uri resp now cooldown H)
    as (m' & cache' & cd' & Heq & Hinv). exists m', cache', cd'. split_and!; [done..|].
  rewrite <- (length_fmap fst cache'). rewrite <- size_dom.
  rewrite <- (size_list_to_set (C:=gset string) cache'.*1) by apply Hinv.
  apply subseteq_size. intros key Hk. apply elem_of_dom in Hk.
  apply elem_of_list_to_set. by apply Hinv.
Qed.

(** C39: the resolved lifetime of an entry is always between one minute and one day, for any
    [Cache-Control] header and any environment; a provider [max-age] within those bounds is used
    as it is; and the environment is read once, so a later change of it has no effect. *)
Theorem ttl_resolution env env' m cc :
  memo_ok m →
  ttl_ok (resolve_ttl env m cc).1 ∧ ttl_ok (resolve_disco_ttl env m cc).1 ∧
  (∀ v, parse_max_age cc = Some (FFin v) → ttl_ok v →
     (resolve_ttl env m cc).1 == v ∧ (resolve_disco_ttl env m cc).1 == v)%Q ∧
  resolve_ttl env' (resolve_ttl env m cc).2 cc = resolve_ttl env m cc ∧
  resolve_disco_ttl env' (resolve_disco_ttl env m cc).2 cc = resolve_disco_ttl env m cc.
Proof.
  intros H. split_and!.
  - by apply resolve_ttl_ok.
  - by apply resolve_disco_ttl_ok.
  - intros v Hv [H1 H2]. unfold resolve_ttl, resolve_disco_ttl. rewrite Hv. simpl.
    split; by apply clamp_id.
  - unfold resolve_ttl. destruct (parse_max_age cc); [done|]. apply get_env_ttl_memo.
  - unfold resolve_disco_ttl. destruct (parse_max_age cc); [done|]. apply get_disco_env_ttl_memo.
Qed.

(** *** Witnesses *)

Definition rsa_key (name : string) : JsonWebKey :=
  JWK (VStr "RSA") (VStr "sig") VNone (VStr "RS256") (VStr name) VNone VNone VNone VNone
      VNone VNone VNone VNone (VStr "AQAB") (VStr "AQAB") VNone VNone VNone VNone VNone VNone VNone.
Definition demo_jwks (name : string) : JwksResponse := JwksResp true None (Some [rsa_key name]) None.
Definition no_env : Environ := λ _, None.
Definition demo_cache : list (string * JwksCacheEntry) :=
  [("https://a/jwks", Entry (demo_jwks "k1") 0 3600)].
Definition demo_memo : EnvMemo := Memo None None None (Some 64%Z).

Lemma demo_inv : jwks_inv demo_memo demo_cache ∅.
Proof.
  constructor.
  - unfold memo_ok; simpl; split_and!; intros; simplify_eq; lia.
  - apply NoDup_singleton.
  - unfold size_ok. simpl. lia.
  - intros uri en. unfold demo_cache. simpl. case_bool_decide; intros; simplify_eq.
    repeat split; compute; done.
  - intros uri [t Ht]. by rewrite lookup_empty in Ht.
Qed.

Lemma jwks_keys_never_lost_witness :
  jwks_inv demo_memo demo_cache ∅ ∧
  ∃ m' cache' cooldown' en',
    apply_jwks_cache_outcome no_env demo_memo demo_cache "https://a/jwks"
      (JwksResp true None (Some []) None) 10 (Some ∅) = (m', cache', Some cooldown') ∧
    od_get "https://a/jwks" cache' = Some en' ∧ jwks_entry_ok en' ∧
    en' = Entry (demo_jwks "k1") 0 3600.
Proof.
  split; [exact demo_inv|].
  exact (jwks_keys_never_lost no_env demo_memo demo_cache ∅ "https://a/jwks" _
    (JwksResp true None (Some []) None) 10 demo_inv eq_refl).
Defined.

Lemma jwks_cache_invariant_witness :
  ∃ m' cache' cooldown',
    apply_jwks_cache_outcome no_env demo_memo demo_cache "https://b/jwks" (demo_jwks "k2") 10
      (Some ∅) = (m', cache', Some cooldown') ∧
    jwks_inv m' cache' cooldown' ∧ size cooldown' ≤ length cache'.
Proof. exact (jwks_cache_invariant no_env _ _ _ "https://b/jwks" (demo_jwks "k2") 10 demo_inv). Defined.

Lemma ttl_resolution_witness : ttl_ok (resolve_ttl no_env demo_memo (Some "max-age=5")).1.
Proof.
  exact (proj1 (ttl_resolution no_env no_env demo_memo (Some "max-age=5") (inv_memo _ _ _ demo_inv))).
Defined.
