(* ===== verification/Url.v ===== *)
(** * URLs and IP literals

    What the library uses of [urllib.parse.urlparse], [ipaddress.ip_address] and
    [socket.inet_aton] (CPython 3.12, the oldest version the package supports), as executable
    functions, so that the discovery policy and the SSRF checks are proved about the parser they
    run on.  [urlparse] can raise [ValueError], and so can the address parser. *)

From S2P Require Import Prelude PyStr PyValue.
From Stdlib Require Import Ascii.
From stdpp Require Import strings.
Open Scope string_scope.
Open Scope list_scope.
Open Scope nat_scope.
Open Scope py_scope.

Definition ValueErr (msg : string) : exn := mk_exn BValueError msg.

(** ** Splitting *)

(** The longest prefix without a character of [p], and the rest (which keeps the delimiter). *)
Fixpoint span_not (p : ascii → bool) (s : string) : string * string :=
  match s with
  | EmptyString => (EmptyString, EmptyString)
  | String c s' => if p c then (EmptyString, s) else let '(a, b) := span_not p s' in (String c a, b)
  end.

(** [s.rpartition(c)[2]]: what follows the last [c], the whole string when there is none. *)
Fixpoint after_last (c : ascii) (s : string) : string :=
  match s with
  | EmptyString => EmptyString
  | String d s' =>
      if (d ≟ c) && negb (char_in c s') then s' else if char_in c s' then after_last c s' else s
  end.

Definition is_hex_digit (c : ascii) : bool := is_dec_digit c || code_in 65 70 c || code_in 97 102 c.
Definition hex_val (c : ascii) : Z :=
  let v := Z.of_nat (code c) in
  if is_dec_digit c then v - 48 else if code_in 65 70 c then v - 55 else v - 87.
Fixpoint base_value (b acc : Z) (s : string) : Z :=
  match s with
  | EmptyString => acc
  | String c s' => base_value b (b * acc + hex_val c) s'
  end.

(** ** [ipaddress.ip_address] *)

Inductive ip_addr : Type := IPv4 (a : Z) | IPv6 (a : Z).

#[global] Instance ip_addr_eq_dec : EqDecision ip_addr.
Proof. solve_decision. Defined.

Definition parse_octet (s : string) : option Z :=
  if negb (nonempty s) then None
  else if negb (isascii s && isdigit s) then None
  else if 3 <? String.length s then None
  else if (s ≠? "0") && startswith s "0" then None
  else let v := dec_value 0 s in if (255 <? v)%Z then None else Some v.

Definition ipv4_from_string (s : string) : option Z :=
  match split_char "." s with
  | [a; b; c; d] =>
      o1 ← parse_octet a; o2 ← parse_octet b; o3 ← parse_octet c; o4 ← parse_octet d;
      Some (((o1 * 256 + o2) * 256 + o3) * 256 + o4)%Z
  | _ => None
  end.

Definition parse_hextet (s : string) : option Z :=
  if negb (nonempty s && sforall is_hex_digit s) then None
  else if 4 <? String.length s then None
  else Some (base_value 16 0 s).

Fixpoint hextets (acc : Z) (l : list string) : option Z :=
  match l with
  | [] => Some acc
  | h :: l' => v ← parse_hextet h; hextets (acc * 65536 + v)%Z l'
  end.

(** The parts of an IPv6 literal once an IPv4 suffix, if any, has become two hextets: each part
    is either a hextet string or an already converted value. *)
Inductive v6part : Type := Hex (s : string) | Val (v : Z).
Definition part_empty (p : v6part) : bool := match p with Hex s => negb (nonempty s) | Val _ => false end.
Definition part_value (p : v6part) : option Z :=
  match p with Hex s => parse_hextet s | Val v => Some v end.
Fixpoint parts_value (acc : Z) (l : list v6part) : option Z :=
  match l with
  | [] => Some acc
  | h :: l' => v ← part_value h; parts_value (acc * 65536 + v)%Z l'
  end.

(** Indices of the empty parts strictly inside the list. *)
Fixpoint inner_empties (i : nat) (l : list v6part) : list nat :=
  match l with
  | [] | [_] => []
  | p :: l' => (if part_empty p && negb (i =? 0) then [i] else []) ++ inner_empties (S i) l'
  end.

Definition v6_parts (s : string) : option (list v6part) :=
  let parts := split_char ":" s in
  if length parts <? 3 then None
  else
    let last_part := List.last parts "" in
    if char_in "." last_part then
      v ← ipv4_from_string last_part;
      Some (map Hex (List.removelast parts) ++ [Val (Z.shiftr v 16); Val (v mod 65536)%Z])
    else Some (map Hex parts).

Definition ipv6_from_string (s : string) : option Z :=
  parts ← v6_parts s;
  let len := length parts in
  if 9 <? len then None
  else
    let first_empty := part_empty (List.hd (Val 0) parts) in
    let last_empty := part_empty (List.last parts (Val 0)) in
    match inner_empties 0 parts with
    | [] =>
        if negb (len =? 8) || first_empty || last_empty then None else parts_value 0 parts
    | [skip] =>
        let hi := if first_empty then skip - 1 else skip in
        let lo := if last_empty then (len - skip - 1) - 1 else len - skip - 1 in
        if (first_empty && negb (hi =? 0)) || (last_empty && negb (lo =? 0)) then None
        else if 8 <=? hi + lo then None
        else
          top ← parts_value 0 (take hi parts);
          parts_value (top * 2 ^ (16 * Z.of_nat (8 - (hi + lo))))%Z (drop (len - lo) parts)
    | _ => None
    end.

(** The [%scope] suffix of an IPv6 literal is accepted and dropped. *)
Definition split_scope_id (s : string) : option string :=
  match split_once "%" s with
  | (a, None) => Some a
  | (a, Some sc) => if negb (nonempty sc) || char_in "%" sc then None else Some a
  end.

Definition ip_address (s : string) : option ip_addr :=
  match (if char_in "/" s then None else ipv4_from_string s) with
  | Some v => Some (IPv4 v)
  | None =>
      if char_in "/" s then None
      else a ← split_scope_id s; IPv6 <$> ipv6_from_string a
  end.

(** ** Address classes *)

Definition in_net (width : Z) (net : Z * Z) (a : Z) : bool :=
  (Z.shiftr a (width - net.2) =? Z.shiftr net.1 (width - net.2))%Z.
Definition in_any (width : Z) (nets : list (Z * Z)) (a : Z) : bool :=
  existsb (λ net, in_net width net a) nets.

Definition quad (a b c d : Z) : Z := (((a * 256 + b) * 256 + c) * 256 + d)%Z.

Definition v4_private : list (Z * Z) :=
  [(quad 0 0 0 0, 8); (quad 10 0 0 0, 8); (quad 127 0 0 0, 8); (quad 169 254 0 0, 16);
   (quad 172 16 0 0, 12); (quad 192 0 0 0, 24); (quad 192 0 0 170, 31); (quad 192 0 2 0, 24);
   (quad 192 168 0 0, 16); (quad 198 18 0 0, 15); (quad 198 51 100 0, 24);
   (quad 203 0 113 0, 24); (quad 240 0 0 0, 4); (quad 255 255 255 255, 32)]%Z.
Definition v4_private_exceptions : list (Z * Z) := [(quad 192 0 0 9, 32); (quad 192 0 0 10, 32)]%Z.

(** A network given by its leading hextets. *)
Fixpoint hx (n : nat) (l : list Z) : Z :=
  match n, l with
  | O, _ | _, [] => 0%Z
  | S n', h :: l' => (h * 2 ^ (16 * Z.of_nat n') + hx n' l')%Z
  end.
Definition v6net (l : list Z) (plen : Z) : Z * Z := (hx 8 l, plen).

Definition v6_private : list (Z * Z) :=
  [v6net [0; 0; 0; 0; 0; 0; 0; 1] 128; v6net [] 128; v6net [0; 0; 0; 0; 0; 0xffff] 96;
   v6net [0x64; 0xff9b; 1] 48; v6net [0x100] 64; v6net [0x2001] 23; v6net [0x2001; 0xdb8] 32;
   v6net [0x2002] 16; v6net [0xfc00] 7; v6net [0xfe80] 10]%Z.
Definition v6_private_exceptions : list (Z * Z) :=
  [v6net [0x2001; 1; 0; 0; 0; 0; 0; 1] 128; v6net [0x2001; 1; 0; 0; 0; 0; 0; 2] 128;
   v6net [0x2001; 3] 32; v6net [0x2001; 4; 0x112] 48; v6net [0x2001; 0x20] 28;
   v6net [0x2001; 0x30] 28]%Z.
Definition v6_reserved : list (Z * Z) :=
  [v6net [] 8; v6net [0x100] 8; v6net [0x200] 7; v6net [0x400] 6; v6net [0x800] 5;
   v6net [0x1000] 4; v6net [0x4000] 3; v6net [0x6000] 3; v6net [0x8000] 3; v6net [0xa000] 3;
   v6net [0xc000] 3; v6net [0xe000] 4; v6net [0xf000] 5; v6net [0xf800] 6; v6net [0xfe00] 9]%Z.

Definition ipv4_is_private (a : Z) : bool :=
  in_any 32 v4_private a && negb (in_any 32 v4_private_exceptions a).

Definition ip_is_private (i : ip_addr) : bool :=
  match i with
  | IPv4 a => ipv4_is_private a
  | IPv6 a =>
      if (Z.shiftr a 32 =? 0xffff)%Z then ipv4_is_private (a mod 2 ^ 32)%Z
      else in_any 128 v6_private a && negb (in_any 128 v6_private_exceptions a)
  end.
Definition ip_is_loopback (i : ip_addr) : bool :=
  match i with IPv4 a => in_net 32 (quad 127 0 0 0, 8)%Z a | IPv6 a => (a =? 1)%Z end.
Definition ip_is_link_local (i : ip_addr) : bool :=
  match i with
  | IPv4 a => in_net 32 (quad 169 254 0 0, 16)%Z a
  | IPv6 a => in_net 128 (v6net [0xfe80] 10)%Z a
  end.
Definition ip_is_reserved (i : ip_addr) : bool :=
  match i with IPv4 a => in_net 32 (quad 240 0 0 0, 4)%Z a | IPv6 a => in_any 128 v6_reserved a end.
Definition ip_is_multicast (i : ip_addr) : bool :=
  match i with
  | IPv4 a => in_net 32 (quad 224 0 0 0, 4)%Z a
  | IPv6 a => in_net 128 (v6net [0xff00] 8)%Z a
  end.
Definition ip_is_unspecified (i : ip_addr) : bool :=
  match i with IPv4 a | IPv6 a => (a =? 0)%Z end.

(** ** [socket.inet_aton] *)

(** One number: decimal, octal with a leading zero, hexadecimal with [0x]. *)
Definition aton_number (s : string) : option Z :=
  match s with
  | EmptyString => None
  | String c s' =>
      if (c ≟ "0"%char) then
        match s' with
        | EmptyString => Some 0%Z
        | String d s'' =>
            if (d ≟ "x"%char) || (d ≟ "X"%char) then
              if nonempty s'' && sforall is_hex_digit s'' then Some (base_value 16 0 s'') else None
            else if sforall (code_in 48 55) s' then Some (base_value 8 0 s') else None
        end
      else if sforall is_dec_digit s then Some (dec_value 0 s) else None
  end.

(** All parts but the last are bytes; the last fills what remains.  [n] counts the parts read. *)
Fixpoint aton_parts (acc : Z) (n : nat) (l : list string) : option Z :=
  match l with
  | [] => None
  | [h] =>
      v ← aton_number h;
      let room := (2 ^ (8 * (4 - Z.of_nat n)))%Z in
      if (v <? room)%Z then Some (acc * room + v)%Z else None
  | h :: l' =>
      v ← aton_number h;
      if (255 <? v)%Z || (3 <=? n) then None else aton_parts (acc * 256 + v)%Z (S n) l'
  end.

(** A blank ends the address. *)
Definition inet_aton (s : string) : option Z :=
  aton_parts 0 0 (split_char "." (span_not (code_in 9 32) s).1).

(** ** [urllib.parse.urlparse] *)

Record ParseResult : Type := URL {
  scheme : string; netloc : string; path : string; params : string; query : string; fragment : string;
}.

Definition is_scheme_char (c : ascii) : bool :=
  is_ascii_alpha c || is_dec_digit c || (c ≟ "+"%char) || (c ≟ "-"%char) || (c ≟ "."%char).

(** The parts of a netloc after the user information. *)
Definition hostinfo (netloc : string) : string * option string :=
  let hi := after_last "@" netloc in
  match split_once "[" hi with
  | (_, Some bracketed) =>
      let '(h, p) := split_once "]" bracketed in
      (h, snd (split_once ":" (default "" p)))
  | (_, None) => split_once ":" hi
  end.

(** [ParseResult.hostname]; [None] is Python's [None]. *)
Definition hostname (u : ParseResult) : option string :=
  let h := (hostinfo (netloc u)).1 in
  if negb (nonempty h) then None
  else match split_once "%" h with
       | (a, None) => Some (lower a)
       | (a, Some zone) => Some (lower a +:+ "%" +:+ zone)
       end.

Definition ipvfuture_ok (h : string) : bool :=
  match h with
  | String _ h' =>
      match split_once "." h' with
      | (v, Some r) => nonempty v && sforall is_hex_digit v && nonempty r
      | _ => false
      end
  | EmptyString => false
  end.

Definition check_bracketed_host (h : string) : outcome unit :=
  if startswith h "v" then raise_if (negb (ipvfuture_ok h)) (ValueErr "IPvFuture address is invalid")
  else match ip_address h with
       | None => Err (ValueErr (py_repr (VStr h) +:+ " does not appear to be an IPv4 or IPv6 address"))
       | Some (IPv4 _) => Err (ValueErr "An IPv4 address cannot be in brackets")
       | Some (IPv6 _) => Ok ()
       end.

Definition check_bracketed_netloc (netloc : string) : outcome unit :=
  let hp := after_last "@" netloc in
  match split_once "[" hp with
  | (before, Some bracketed) =>
      let '(h, port) := split_once "]" bracketed in
      if nonempty before then Err (ValueErr "Invalid IPv6 URL")
      else if nonempty (default "" port) && negb (startswith (default "" port) ":")
      then Err (ValueErr "Invalid IPv6 URL")
      else check_bracketed_host h
  | (_, None) => check_bracketed_host (split_once ":" hp).1
  end.

Definition check_netloc_brackets (netloc : string) : outcome unit :=
  if negb (eqb (char_in "[" netloc) (char_in "]" netloc)) then Err (ValueErr "Invalid IPv6 URL")
  else if char_in "[" netloc then check_bracketed_netloc netloc
  else Ok ().

Definition uses_params : list string :=
  [""; "ftp"; "hdl"; "prospero"; "http"; "https"; "shttp"; "rtsp"; "rtsps"; "rtspu"; "sip";
   "sips"; "mms"; "sftp"; "tel"].

(** [_splitparams]: the parameters follow the first [;] of the last path segment. *)
Fixpoint splitparams (s : string) : string * string :=
  match s with
  | EmptyString => (EmptyString, EmptyString)
  | String c s' =>
      if (c ≟ ";"%char) && negb (char_in "/" s') then (EmptyString, s')
      else let '(a, b) := splitparams s' in (String c a, b)
  end.

Definition clean_url (url : string) : string :=
  sfilter (λ c, negb ((code c =? 9) || (code c =? 10) || (code c =? 13)))
    (lstrip_p (λ c, code c <=? 32) url).

Definition split_scheme (url : string) : string * string :=
  match url with
  | String c _ =>
      match split_once ":" url with
      | (s, Some rest) =>
          if nonempty s && is_ascii_alpha c && sforall is_scheme_char s then (lower s, rest)
          else ("", url)
      | (_, None) => ("", url)
      end
  | EmptyString => ("", url)
  end.

Definition is_netloc_delim (c : ascii) : bool :=
  (c ≟ "/"%char) || (c ≟ "?"%char) || (c ≟ "#"%char).

Definition split_netloc (url : string) : string * string :=
  match url with
  | String a (String b rest) =>
      if (a ≟ "/"%char) && (b ≟ "/"%char) then span_not is_netloc_delim rest else ("", url)
  | _ => ("", url)
  end.

Definition urlparse (url : string) : outcome ParseResult :=
  let '(sch, rest) := split_scheme (clean_url url) in
  let '(net, rest) := split_netloc rest in
  _ ← check_netloc_brackets net;
  let '(rest, frag) := split_once "#" rest in
  let '(rest, q) := split_once "?" rest in
  let '(pth, par) := if bool_decide (sch ∈ uses_params) then splitparams rest else (rest, "") in
  Ok (URL sch net pth par (default "" q) (default "" frag)).

(** ** Tests on concrete inputs *)

Example urlparse_1 :
  urlparse "HTTPS://User@Example.com:8443/a;b?x=1#f" =
    Ok (URL "https" "User@Example.com:8443" "/a" "b" "x=1" "f").
Proof. reflexivity. Qed.
Example hostname_1 : hostname <$> urlparse "https://u:p@[2001:DB8::1]:443/x" = Ok (Some "2001:db8::1").
Proof. reflexivity. Qed.
Example hostname_2 : hostname <$> urlparse "http://localhost:8080" = Ok (Some "localhost").
Proof. reflexivity. Qed.
Example urlparse_2 : urlparse "http://[127.0.0.1]/" = Err (ValueErr "An IPv4 address cannot be in brackets").
Proof. reflexivity. Qed.
Example ip_1 : ip_address "127.0.0.1" = Some (IPv4 2130706433). Proof. reflexivity. Qed.
Example ip_2 : ip_address "0177.0.0.1" = None. Proof. reflexivity. Qed.
Example ip_3 : ip_address "::ffff:169.254.169.254" = Some (IPv6 (0xffffa9fea9fe)). Proof. reflexivity. Qed.
Example ip_4 : ip_address "fe80::1%eth0" = Some (IPv6 (0xfe80 * 2 ^ 112 + 1)). Proof. reflexivity. Qed.
Example ip_5 : ip_address "1::2::3" = None. Proof. reflexivity. Qed.
Example ip_6 : ip_address "127.evil.com" = None. Proof. reflexivity. Qed.
Example aton_1 : inet_aton "0177.0.0.1" = Some 2130706433%Z. Proof. reflexivity. Qed.
Example aton_2 : inet_aton "0x7f.1" = Some 2130706433%Z. Proof. reflexivity. Qed.
Example aton_3 : inet_aton "2130706433" = Some 2130706433%Z. Proof. reflexivity. Qed.
Example aton_4 : inet_aton "1.2.3.4.5" = None. Proof. reflexivity. Qed.

(** ** Lemmas *)

(** Membership in a network is an interval. *)
Lemma in_net_range w net len a :
  (0 ≤ len ≤ w)%Z →
  in_net w (net, len) a =
    ((net / 2 ^ (w - len) * 2 ^ (w - len) <=? a) &&
     (a <? (net / 2 ^ (w - len) + 1) * 2 ^ (w - len)))%Z.
Proof.
  intros H. unfold in_net. cbn [fst snd]. rewrite !Z.shiftr_div_pow2 by lia.
  set (k := (2 ^ (w - len))%Z). assert (Hk : (0 < k)%Z) by (apply Z.pow_pos_nonneg; lia).
  clearbody k. generalize (net / k)%Z as q. intros q.
  apply eq_true_iff_eq. rewrite andb_true_iff, Z.eqb_eq, Z.leb_le, Z.ltb_lt.
  split; [intros <-|intros [Hl Hu]].
  - pose proof (Z.div_mod a k ltac:(lia)). pose proof (Z.mod_pos_bound a k Hk). lia.
  - symmetry. apply (Z.div_unique a k q (a - k * q)); lia.
Qed.

(** *** IPv4 literals in every spelling *)

Definition is_aton_char (c : ascii) : bool :=
  is_hex_digit c || (c ≟ "x"%char) || (c ≟ "X"%char).

Lemma is_dec_digit_aton c : is_dec_digit c = true → is_aton_char c = true.
Proof. unfold is_aton_char, is_hex_digit. by intros ->. Qed.

Lemma aton_number_chars s v :
  aton_number s = Some v → sforall is_aton_char s = true ∧ nonempty s = true.
Proof.
  destruct s as [|c s]; [done|]. intros H. split; [|done]. cbn [aton_number] in H.
  case_bool_decide as Hc; [subst c|].
  - destruct s as [|d s]; [done|].
    destruct ((d ≟ "x"%char) || (d ≟ "X"%char)) eqn:Ed.
    + destruct (nonempty s && sforall is_hex_digit s) eqn:Es; [|done].
      apply andb_true_iff in Es as [_ Es].
      assert (is_aton_char d = true) as Hd by (unfold is_aton_char; rewrite <- orb_assoc, Ed; apply orb_true_r).
      cbn [sforall]. rewrite Hd. cbn. eapply sforall_impl; [|exact Es].
      intros e He. unfold is_aton_char. by rewrite He.
    + destruct (sforall (code_in 48 55) (String d s)) eqn:Es; [|done].
      assert (sforall is_aton_char (String d s) = true) as Hd; [|exact Hd].
      eapply sforall_impl; [|exact Es]. intros e He. apply is_dec_digit_aton.
      unfold is_dec_digit, code_in in *. apply andb_true_iff in He as [H1 H2].
      apply andb_true_iff. split; [done|]. apply Nat.leb_le in H2. apply Nat.leb_le. lia.
  - destruct (sforall is_dec_digit (String c s)) eqn:Es; [|done].
    eapply sforall_impl; [|exact Es]. apply is_dec_digit_aton.
Qed.

Lemma span_not_none p s : sforall (λ c, negb (p c)) s = true → span_not p s = (s, EmptyString).
Proof.
  induction s as [|c s IH]; simpl; [done|]. intros [Hc Hs]%andb_true_iff.
  apply negb_true_iff in Hc. by rewrite Hc, IH.
Qed.

Lemma aton_char_cases c :
  is_aton_char c = true → code_in 9 32 c = false.
Proof.
  unfold is_aton_char, is_hex_digit, is_dec_digit, code_in. intros H.
  apply andb_false_iff. right. apply Nat.leb_gt.
  rewrite !orb_true_iff, !andb_true_iff, !Nat.leb_le, !bool_decide_eq_true in H.
  destruct H as [[H| ->]| ->]; [lia|vm_compute; lia|vm_compute; lia].
Qed.

(** A number without dots is not an address for [ipaddress], but is one for the resolver. *)
Lemma ip_address_number s : sforall is_aton_char s = true → ip_address s = None.
Proof.
  intros H.
  assert (Hc : ∀ c, is_aton_char c = false → char_in c s = false)
    by (intros c; by apply char_in_forall).
  unfold ip_address. rewrite (Hc "/"%char eq_refl).
  unfold ipv4_from_string. rewrite (split_char_none "." s (Hc "."%char eq_refl)).
  unfold split_scope_id. rewrite split_once_none.
  2: { pose proof (Hc "%"%char eq_refl) as Hp. unfold char_in in Hp. by apply negb_false_iff in Hp. }
  cbn [mbind option_bind]. unfold ipv6_from_string, v6_parts.
  by rewrite (split_char_none ":" s (Hc ":"%char eq_refl)).
Qed.

Lemma inet_aton_number s v :
  aton_number s = Some v → (0 ≤ v < 2 ^ 32)%Z → inet_aton s = Some v.
Proof.
  intros Hs Hv. destruct (aton_number_chars s v Hs) as [Hc _].
  unfold inet_aton. rewrite span_not_none.
  2: { eapply sforall_impl; [|exact Hc]. intros c H. by rewrite (aton_char_cases c H). }
  rewrite split_char_none by (by apply (char_in_forall is_aton_char)).
  cbn [fst aton_parts]. rewrite Hs. cbn [mbind option_bind].
  change (2 ^ (8 * (4 - Z.of_nat 0)))%Z with (2 ^ 32)%Z.
  assert ((v <? 2 ^ 32)%Z = true) as -> by (apply Z.ltb_lt; lia). f_equal; lia.
Qed.

Lemma aton_number_decimal n : (0 ≤ n)%Z → aton_number (str_of_int n) = Some n.
Proof.
  intros Hn. destruct (str_of_int_nonneg n Hn) as (Hv & Hd & _).
  destruct (Z.eq_dec n 0%Z) as [->|]; [done|].
  destruct (str_of_int_head n) as (c & s & Hs & Hc); [lia|]. rewrite Hs in *.
  cbn [aton_number]. rewrite bool_decide_eq_false_2 by done. by rewrite Hd, Hv.
Qed.

(** *** Dotted quads *)

Lemma parse_octet_str n : (0 ≤ n < 256)%Z → parse_octet (str_of_int n) = Some n.
Proof.
  intros H. assert (Hall : Forall (λ n, parse_octet (str_of_int n) = Some n) (seqZ 0 256)).
  { apply (bool_decide_eq_true_1 _). vm_compute. reflexivity. }
  rewrite Forall_forall in Hall. apply Hall. apply elem_of_seqZ. lia.
Qed.

Definition octets (a : Z) : list Z := map (λ k, ((a / 2 ^ k) mod 256)%Z) [24; 16; 8; 0]%Z.

Lemma octets_value a :
  (0 ≤ a < 2 ^ 32)%Z →
  ((((a / 2 ^ 24) mod 256 * 256 + (a / 2 ^ 16) mod 256) * 256 + (a / 2 ^ 8) mod 256) * 256 +
   (a / 2 ^ 0) mod 256 = a)%Z.
Proof.
  intros H. change (2 ^ 24)%Z with (256 * 256 * 256)%Z. change (2 ^ 16)%Z with (256 * 256)%Z.
  change (2 ^ 8)%Z with 256%Z. change (2 ^ 0)%Z with 1%Z. change (2 ^ 32)%Z with 4294967296%Z in H.
  rewrite <- !Z.div_div by lia. rewrite Z.div_1_r.
  rewrite (Z.mod_small (a / 256 / 256 / 256)).
  - pose proof (Z.div_mod a 256). pose proof (Z.div_mod (a / 256) 256).
    pose proof (Z.div_mod (a / 256 / 256) 256). lia.
  - split; [repeat apply Z.div_pos; lia|]. repeat (apply Z.div_lt_upper_bound; [lia|]). lia.
Qed.

Lemma ipv4_dotted a :
  (0 ≤ a < 2 ^ 32)%Z →
  ip_address (str_join "." (map str_of_int (octets a))) = Some (IPv4 a).
Proof.
  intros Ha. set (s := str_join "." (map str_of_int (octets a))).
  assert (Hoct : Forall (λ o, (0 ≤ o < 256)%Z) (octets a))
    by (repeat constructor; apply Z.mod_pos_bound; lia).
  assert (Hdig : Forall (λ t, sforall is_dec_digit t = true) (map str_of_int (octets a))).
  { rewrite Forall_map. eapply Forall_impl; [exact Hoct|]. intros o [Ho _].
    cbn. destruct (str_of_int_nonneg o Ho) as (_ & Hd & _). exact Hd. }
  assert (Hsplit : split_char "." s = map str_of_int (octets a)).
  { apply split_char_join; [done|]. eapply Forall_impl; [exact Hdig|].
    intros t Ht. by apply (char_in_forall is_dec_digit). }
  assert (Hslash : char_in "/" s = false).
  { assert (Hq : ∀ l, Forall (λ t, sforall is_dec_digit t = true) l →
      char_in "/" (str_join "." l) = false).
    { intros l Hl. induction Hl as [|t [|u l] Ht Hl IH]; [done|by apply (char_in_forall is_dec_digit)|].
      change (char_in "/" ((t +:+ ".") +:+ str_join "." (u :: l)) = false).
      by rewrite !char_in_app, IH, (char_in_forall is_dec_digit "/" t). }
    by apply Hq. }
  unfold ip_address. rewrite Hslash. unfold ipv4_from_string. rewrite Hsplit.
  unfold octets in *. cbn [map] in *. repeat (apply Forall_cons in Hoct as [?Ho Hoct]).
  rewrite !parse_octet_str by done. cbn [mbind option_bind].
  by rewrite octets_value.
Qed.

(** ** Exceptions *)

(** [urlparse] raises nothing but [ValueError]. *)
Definition is_value_error (e : exn) : Prop := exn_class e = BValueError.

Lemma value_err msg : is_value_error (ValueErr msg).
Proof. done. Qed.
#[export] Hint Resolve value_err : errors.

Lemma check_netloc_errors n : errors_in is_value_error (check_netloc_brackets n).
Proof.
  assert (Hh : ∀ h, errors_in is_value_error (check_bracketed_host h)).
  { intros h. unfold check_bracketed_host. destruct (startswith h "v"); [auto with errors|].
    destruct (ip_address h) as [[]|]; auto with errors. }
  unfold check_netloc_brackets, check_bracketed_netloc.
  destruct (negb _); [auto with errors|]. destruct (char_in "[" n); [|auto with errors].
  destruct (split_once "[" _) as [before [b|]]; [|auto with errors].
  destruct (split_once "]" b) as [h p]. destruct (nonempty before); [auto with errors|].
  destruct (_ && _); auto with errors.
Qed.

Lemma urlparse_errors url : errors_in is_value_error (urlparse url).
Proof.
  unfold urlparse. destruct (split_scheme _) as [sch rest]. destruct (split_netloc rest) as [net rest'].
  apply errors_in_bind; [apply check_netloc_errors|]. intros _ _.
  destruct (split_once "#" rest') as [r f]. destruct (split_once "?" r) as [r2 q].
  destruct (bool_decide _); [destruct (splitparams r2)|]; auto with errors.
Qed.
