(* ===== verification/Codec.v ===== *)
(** * Text encodings of the standard library

    What the library uses of [str.encode], [urllib.parse] and [base64]: UTF-8 with the
    replacement error handler, percent-encoding and form-encoding in both directions, and
    unpadded base64url.  A query string is percent-decoded into arbitrary Unicode text, so text
    on this side of the decoder is a list of code points ([ustr]), not a [string]; bytes are
    numbers below 256. *)

From S2P Require Import Prelude PyStr PyValue Url.
From Stdlib Require Import Ascii.
From stdpp Require Import strings.
Open Scope string_scope.
Open Scope list_scope.
Open Scope nat_scope.
Open Scope py_scope.

Abbreviation ustr := (list Z).
Abbreviation bytes := (list Z).

Definition byte_of (c : ascii) : Z := Z.of_nat (code c).
Definition chr (b : Z) : ascii := char_of (Z.to_nat b).
(** A [string] as the text it is; an ASCII or Latin-1 string as its bytes. *)
Definition text (s : string) : ustr := map byte_of (String.list_ascii_of_string s).
Definition is_byte (b : Z) : bool := (0 <=? b)%Z && (b <? 256)%Z.

(** [s.encode("ascii")]; [None] is the [UnicodeEncodeError]. *)
Definition encode_ascii (s : string) : option bytes := if isascii s then Some (text s) else None.
Definition u_isascii (u : ustr) : bool := forallb (λ c, c <? 128)%Z u.

(** A character beyond Latin-1 shows as a question mark in a message. *)
Definition show_text (u : ustr) : string :=
  String.string_of_list_ascii (map (λ c, if is_byte c then chr c else "?"%char) u).

(** ** UTF-8 *)

Definition is_surrogate (c : Z) : bool := (0xD800 <=? c)%Z && (c <=? 0xDFFF)%Z.
(** A code point other than a surrogate, which is what UTF-8 can encode. *)
Definition is_scalar (c : Z) : bool := (0 <=? c)%Z && (c <? 0x110000)%Z && negb (is_surrogate c).

Definition utf8_char (c : Z) : bytes :=
  (if c <? 0x80 then [c]
   else if c <? 0x800 then [0xC0 + c / 64; 0x80 + c mod 64]
   else if c <? 0x10000 then [0xE0 + c / 4096; 0x80 + c / 64 mod 64; 0x80 + c mod 64]
   else [0xF0 + c / 262144; 0x80 + c / 4096 mod 64; 0x80 + c / 64 mod 64; 0x80 + c mod 64])%Z.

(** [u.encode("utf-8")]; [None] is the [UnicodeEncodeError] of a surrogate. *)
Definition utf8_encode (u : ustr) : option bytes :=
  if forallb is_scalar u then Some (List.concat (map utf8_char u)) else None.

Definition in_range (lo hi b : Z) : bool := (lo <=? b)%Z && (b <=? hi)%Z.
Definition is_cont : Z → bool := in_range 0x80 0xBF.
(** The second byte a leading byte admits: no overlong form, no surrogate, nothing past
    U+10FFFF. *)
Definition second_ok (b0 b1 : Z) : bool :=
  (if b0 =? 0xE0 then in_range 0xA0 0xBF b1
   else if b0 =? 0xED then in_range 0x80 0x9F b1
   else if b0 =? 0xF0 then in_range 0x90 0xBF b1
   else if b0 =? 0xF4 then in_range 0x80 0x8F b1
   else is_cont b1)%Z.

Definition REPLACEMENT : Z := 0xFFFD.

(** [bs.decode("utf-8", "replace")]: each maximal ill-formed prefix becomes one U+FFFD. *)
Fixpoint utf8_decode (bs : bytes) : ustr :=
  match bs with
  | [] => []
  | b0 :: r =>
      if (b0 <? 0x80)%Z then b0 :: utf8_decode r
      else if (b0 <? 0xC2)%Z then REPLACEMENT :: utf8_decode r
      else if (b0 <? 0xE0)%Z then
        match r with
        | b1 :: r1 =>
            if is_cont b1 then ((b0 - 0xC0) * 64 + (b1 - 0x80))%Z :: utf8_decode r1
            else REPLACEMENT :: utf8_decode r
        | [] => [REPLACEMENT]
        end
      else if (b0 <? 0xF0)%Z then
        match r with
        | b1 :: r1 =>
            if second_ok b0 b1 then
              match r1 with
              | b2 :: r2 =>
                  if is_cont b2
                  then (((b0 - 0xE0) * 64 + (b1 - 0x80)) * 64 + (b2 - 0x80))%Z :: utf8_decode r2
                  else REPLACEMENT :: utf8_decode r1
              | [] => [REPLACEMENT]
              end
            else REPLACEMENT :: utf8_decode r
        | [] => [REPLACEMENT]
        end
      else if (b0 <? 0xF5)%Z then
        match r with
        | b1 :: r1 =>
            if second_ok b0 b1 then
              match r1 with
              | b2 :: r2 =>
                  if is_cont b2 then
                    match r2 with
                    | b3 :: r3 =>
                        if is_cont b3
                        then ((((b0 - 0xF0) * 64 + (b1 - 0x80)) * 64 + (b2 - 0x80)) * 64 +
                              (b3 - 0x80))%Z :: utf8_decode r3
                        else REPLACEMENT :: utf8_decode r2
                    | [] => [REPLACEMENT]
                    end
                  else REPLACEMENT :: utf8_decode r1
              | [] => [REPLACEMENT]
              end
            else REPLACEMENT :: utf8_decode r
        | [] => [REPLACEMENT]
        end
      else REPLACEMENT :: utf8_decode r
  end.

(** ** Percent-encoding *)

Definition hex_upper (n : nat) : ascii := char_of (if n <? 10 then 48 + n else 55 + n).
Definition always_safe (c : ascii) : bool :=
  is_ascii_alpha c || is_dec_digit c ||
  (c ≟ "_"%char) || (c ≟ "."%char) || (c ≟ "-"%char) || (c ≟ "~"%char).

(** One byte under [quote_plus]. *)
Definition quote_byte (c : ascii) : string :=
  if always_safe c then String c ""
  else if c ≟ " "%char then "+"
  else String "%" (String (hex_upper (code c / 16)) (String (hex_upper (code c mod 16)) "")).

Fixpoint quote_bytes (bs : bytes) : string :=
  match bs with [] => "" | b :: bs' => quote_byte (chr b) +:+ quote_bytes bs' end.

Definition UnicodeEncodeErr (msg : string) : exn := mk_exn BUnicodeEncodeError msg.

(** [urllib.parse.quote_plus(u)]. *)
Definition quote_plus (u : ustr) : outcome string :=
  match utf8_encode u with
  | Some bs => Ok (quote_bytes bs)
  | None => Err (UnicodeEncodeErr "'utf-8' codec can't encode character: surrogates not allowed")
  end.

(** [[f(x) for x in l]], where [f] may raise. *)
Section MapM.
Context {A B : Type} (f : A → outcome B).
Fixpoint mapM_ok (l : list A) : outcome (list B) :=
  match l with
  | [] => Ok []
  | x :: l' => y ← f x; ys ← mapM_ok l'; Ok (y :: ys)
  end.
End MapM.

(** [urllib.parse.urlencode(d)] on the items of a dictionary of strings. *)
Definition urlencode (d : list (ustr * ustr)) : outcome string :=
  fields ← mapM_ok (λ kv, k ← quote_plus kv.1; v ← quote_plus kv.2; Ok ((k +:+ "=") +:+ v)) d;
  Ok (str_join "&" fields).

Fixpoint unquote_to_bytes (s : string) : bytes :=
  match s with
  | EmptyString => []
  | String c s' =>
      match s' with
      | String a (String b r) =>
          if (c ≟ "%"%char) && is_hex_digit a && is_hex_digit b
          then (hex_val a * 16 + hex_val b)%Z :: unquote_to_bytes r
          else byte_of c :: unquote_to_bytes s'
      | _ => byte_of c :: unquote_to_bytes s'
      end
  end.

(** [urllib.parse.unquote]: each maximal run of ASCII is percent-decoded and read as UTF-8, the
    other characters stay.  [run] is the part of the current run already read. *)
Fixpoint unquote_runs (run s : string) : ustr :=
  match s with
  | EmptyString => utf8_decode (unquote_to_bytes run)
  | String c s' =>
      if is_ascii c then unquote_runs (run +:+ String c "") s'
      else utf8_decode (unquote_to_bytes run) ++ byte_of c :: unquote_runs "" s'
  end.
Definition unquote (s : string) : ustr := unquote_runs "" s.
Definition plus_to_space (s : string) : string :=
  smap (λ c, if c ≟ "+"%char then " "%char else c) s.

(** [urllib.parse.parse_qsl(qs, keep_blank_values=True)]. *)
Definition parse_field (nv : string) : ustr * ustr :=
  let '(n, v) := split_once "=" nv in
  (unquote (plus_to_space n), unquote (plus_to_space (default "" v))).
Definition parse_qsl (qs : string) : list (ustr * ustr) :=
  map parse_field (List.filter nonempty (split_char "&" qs)).

(** ** Dictionaries keyed by text *)

Fixpoint alist_get {V} (k : ustr) (d : list (ustr * V)) : option V :=
  match d with
  | [] => None
  | (k', v) :: d' => if k ≟ k' then Some v else alist_get k d'
  end.

(** [d.setdefault(k, []).append(v)]. *)
Fixpoint multi_add (k v : ustr) (d : list (ustr * list ustr)) : list (ustr * list ustr) :=
  match d with
  | [] => [(k, [v])]
  | (k', vs) :: d' => if k ≟ k' then (k', vs ++ [v]) :: d' else (k', vs) :: multi_add k v d'
  end.
Definition parse_qs (qs : string) : list (ustr * list ustr) :=
  foldl (λ d kv, multi_add kv.1 kv.2 d) [] (parse_qsl qs).

(** ** Unpadded base64url *)

Definition b64_char (v : Z) : ascii :=
  chr (if v <? 26 then 65 + v else if v <? 52 then 71 + v else if v <? 62 then v - 4
       else if v =? 62 then 45 else 95)%Z.

(** [base64.urlsafe_b64encode]. *)
Fixpoint urlsafe_b64encode (bs : bytes) : string :=
  match bs with
  | [] => ""
  | [a] => String (b64_char (a / 4)) (String (b64_char (a mod 4 * 16)) "==")
  | [a; b] => String (b64_char (a / 4)) (String (b64_char (a mod 4 * 16 + b / 16))
                (String (b64_char (b mod 16 * 4)) "="))
  | a :: b :: c :: r =>
      String (b64_char (a / 4)) (String (b64_char (a mod 4 * 16 + b / 16))
        (String (b64_char (b mod 16 * 4 + c / 64)) (String (b64_char (c mod 64))
          (urlsafe_b64encode r))))
  end%Z.

(** [urlsafe_b64encode(bs).rstrip(b"=").decode("ascii")]. *)
Definition b64url (bs : bytes) : string := rstrip_char "=" (urlsafe_b64encode bs).

Definition b64_val (c : ascii) : Z := (
  if code_in 65 90 c then byte_of c - 65 else if code_in 97 122 c then byte_of c - 71
  else if code_in 48 57 c then byte_of c + 4 else if c ≟ "-"%char then 62 else 63)%Z.

(** The inverse of [b64url] on its image, a reference for the lemmas below. *)
Fixpoint b64url_decode (s : string) : bytes :=
  match s with
  | String p (String q (String r (String t s'))) =>
      (b64_val p * 4 + b64_val q / 16)%Z :: (b64_val q mod 16 * 16 + b64_val r / 4)%Z ::
      (b64_val r mod 4 * 64 + b64_val t)%Z :: b64url_decode s'
  | String p (String q (String r EmptyString)) =>
      [b64_val p * 4 + b64_val q / 16; b64_val q mod 16 * 16 + b64_val r / 4]%Z
  | String p (String q EmptyString) => [b64_val p * 4 + b64_val q / 16]%Z
  | _ => []
  end.

(** ** [hmac.compare_digest] *)

(** On two strings: equality, but a [TypeError] unless both are ASCII. *)
Definition compare_digest (a b : ustr) : outcome bool :=
  if u_isascii a && u_isascii b then Ok (a ≟ b)
  else Err (mk_exn BTypeError "comparing strings with non-ASCII characters is not supported").

(** ** Tests on concrete inputs *)

Example utf8_1 : utf8_encode [0x20AC; 0xE9; 65]%Z = Some [0xE2; 0x82; 0xAC; 0xC3; 0xA9; 65]%Z.
Proof. reflexivity. Qed.
Example utf8_2 : utf8_decode [0xF0; 0x9F; 0x41; 0xED; 0xA0; 0x80]%Z
  = [REPLACEMENT; 65; REPLACEMENT; REPLACEMENT; REPLACEMENT]%Z.
Proof. reflexivity. Qed.
Example quote_1 : quote_plus (text "a b&c=~/") = Ok "a+b%26c%3D~%2F". Proof. reflexivity. Qed.
Example unquote_1 : unquote "%41%zz%C3%A9%" = text "A%zz" ++ [0xE9; 37]%Z. Proof. reflexivity. Qed.
Example parse_qsl_1 : parse_qsl "a=1&&b&a=+2%3d" =
  [(text "a", text "1"); (text "b", []); (text "a", text " 2=")].
Proof. reflexivity. Qed.
Example b64url_1 : b64url (text "foob") = "Zm9vYg". Proof. reflexivity. Qed.
Example b64url_2 : b64url_decode "-_8" = [0xFB; 0xFF]%Z. Proof. reflexivity. Qed.

(** ** Lemmas *)

Lemma text_app s t : text (s +:+ t) = text s ++ text t.
Proof.
  unfold text. induction s as [|c s IH]; [done|].
  change (byte_of c :: map byte_of (String.list_ascii_of_string (s +:+ t)) =
          byte_of c :: map byte_of (String.list_ascii_of_string s) ++
            map byte_of (String.list_ascii_of_string t)).
  by rewrite IH.
Qed.

Lemma byte_of_inj c d : byte_of c = byte_of d → c = d.
Proof.
  unfold byte_of, code. intros H%Nat2Z.inj.
  by rewrite <- (ascii_nat_embedding c), <- (ascii_nat_embedding d), H.
Qed.

Lemma text_inj s t : text s = text t → s = t.
Proof.
  revert t. induction s as [|c s IH]; intros [|d t] H; try done.
  injection H as Hc Ht. apply byte_of_inj in Hc as ->. by rewrite (IH t).
Qed.

Lemma chr_byte c : chr (byte_of c) = c.
Proof. unfold chr, byte_of, char_of, code. rewrite Nat2Z.id. apply ascii_nat_embedding. Qed.

Lemma text_inj_iff s t : text s = text t ↔ s = t.
Proof. split; [apply text_inj|congruence]. Qed.

Lemma text_isascii s : u_isascii (text s) = isascii s.
Proof.
  unfold u_isascii, text, isascii. induction s as [|c s IH]; [done|].
  cbn [String.list_ascii_of_string map forallb sforall]. rewrite IH. f_equal.
  unfold byte_of, is_ascii. apply eq_true_iff_eq. rewrite Z.ltb_lt, Nat.ltb_lt. lia.
Qed.

Lemma compare_digest_ok a b r :
  compare_digest a b = Ok r ↔ u_isascii a = true ∧ u_isascii b = true ∧ r = (a ≟ b).
Proof. unfold compare_digest. destruct (u_isascii a), (u_isascii b); simpl; naive_solver. Qed.

Lemma byte_of_is_byte c : is_byte (byte_of c) = true.
Proof.
  unfold is_byte, byte_of, code. pose proof (nat_ascii_bounded c).
  apply andb_true_iff. rewrite Z.leb_le, Z.ltb_lt. lia.
Qed.

Lemma byte_chr b : is_byte b = true → byte_of (chr b) = b.
Proof.
  unfold is_byte, chr, byte_of, char_of, code. intros [H1 H2]%andb_true_iff.
  rewrite nat_ascii_embedding by lia. lia.
Qed.

Lemma Zltb_le a b : (b <= a)%Z → (a <? b)%Z = false.
Proof. lia. Qed.

Lemma in_range_true lo hi b : in_range lo hi b = true ↔ (lo ≤ b ≤ hi)%Z.
Proof. unfold in_range. rewrite andb_true_iff, Z.leb_le, Z.leb_le. done. Qed.

(** Decides a test on numbers by [lia]. *)
Ltac ltb_case :=
  match goal with
  | |- context [(?a <? ?b)%Z] => destruct (Z.ltb_spec a b); try (exfalso; lia)
  end.

Ltac eqb_case :=
  match goal with |- context [(?a =? ?b)%Z] => destruct (Z.eqb_spec a b) end.

Lemma scalar_spec c :
  is_scalar c = true ↔ (0 ≤ c < 0x110000)%Z ∧ ¬ (0xD800 ≤ c ≤ 0xDFFF)%Z.
Proof.
  unfold is_scalar, is_surrogate. rewrite !andb_true_iff, negb_true_iff, andb_false_iff.
  rewrite Z.leb_le, Z.ltb_lt, !Z.leb_gt. lia.
Qed.

Ltac range_ok := apply in_range_true; Z.to_euclidean_division_equations; lia.

Lemma utf8_decode_char c r : is_scalar c = true → utf8_decode (utf8_char c ++ r) = c :: utf8_decode r.
Proof.
  intros [Hc Hs]%scalar_spec. unfold utf8_char.
  destruct (Z.ltb_spec c 0x80); [|destruct (Z.ltb_spec c 0x800); [|destruct (Z.ltb_spec c 0x10000)]];
    cbn [app utf8_decode].
  - ltb_case. done.
  - assert (is_cont (0x80 + c mod 64) = true) as -> by range_ok.
    pose proof (Z.div_mod c 64 ltac:(lia)). pose proof (Z.mod_pos_bound c 64 ltac:(lia)).
    repeat ltb_case. f_equal. lia.
  - assert (is_cont (0x80 + c mod 64) = true) as -> by range_ok.
    assert (second_ok (0xE0 + c / 4096) (0x80 + c / 64 mod 64) = true) as ->.
    { unfold second_ok. repeat eqb_case; range_ok. }
    repeat (ltb_case; try (exfalso; Z.to_euclidean_division_equations; lia)).
    f_equal. Z.to_euclidean_division_equations; lia.
  - assert (is_cont (0x80 + c mod 64) = true) as -> by range_ok.
    assert (is_cont (0x80 + c / 64 mod 64) = true) as -> by range_ok.
    assert (second_ok (0xF0 + c / 262144) (0x80 + c / 4096 mod 64) = true) as ->.
    { unfold second_ok. repeat eqb_case; range_ok. }
    repeat (ltb_case; try (exfalso; Z.to_euclidean_division_equations; lia)).
    f_equal. Z.to_euclidean_division_equations; lia.
Qed.

Lemma utf8_char_bytes c : is_scalar c = true → forallb is_byte (utf8_char c) = true.
Proof.
  intros [Hc Hs]%scalar_spec. unfold utf8_char.
  repeat match goal with |- context [(?a <? ?b)%Z] => destruct (Z.ltb_spec a b) end;
    apply forallb_forall; intros b Hb; cbn [List.In] in Hb; unfold is_byte;
    apply andb_true_iff; rewrite Z.leb_le, Z.ltb_lt;
    repeat destruct Hb as [Hb|Hb]; subst; try done; Z.to_euclidean_division_equations; lia.
Qed.

(** Decoding inverts encoding. *)
Lemma utf8_decode_encode u bs :
  utf8_encode u = Some bs → utf8_decode bs = u ∧ forallb is_byte bs = true.
Proof.
  unfold utf8_encode. destruct (forallb is_scalar u) eqn:E; [|done]. intros [= <-].
  induction u as [|c u IH]; [done|]. cbn [forallb] in E. apply andb_true_iff in E as [Hc Hu].
  destruct (IH Hu) as [IH1 IH2]. cbn [map List.concat].
  rewrite utf8_decode_char, IH1, forallb_app, utf8_char_bytes, IH2 by done. done.
Qed.

(** *** Percent-encoding *)

(** A property of every byte, by evaluation. *)
Ltac all_ascii c := destruct c as [[] [] [] [] [] [] [] []].

Lemma unquote_byte c r :
  unquote_to_bytes (plus_to_space (quote_byte c) +:+ r) = byte_of c :: unquote_to_bytes r.
Proof. all_ascii c; try reflexivity; destruct r as [|? [|? ?]]; reflexivity. Qed.

(** What [quote_plus] writes needs no further quoting: neither a separator of a query string nor
    anything beyond ASCII. *)
Definition is_quoted (c : ascii) : bool :=
  always_safe c || (c ≟ "%"%char) || (c ≟ "+"%char).
Lemma quote_byte_quoted c : sforall is_quoted (quote_byte c) = true.
Proof. by all_ascii c. Qed.
Lemma is_quoted_plain c :
  is_quoted c = true →
  is_ascii c = true ∧ c ≠ "&"%char ∧ c ≠ "="%char ∧ c ≠ "#"%char ∧ c ≠ "?"%char.
Proof. all_ascii c; intros H; try discriminate H; split_and!; congruence || reflexivity. Qed.

Lemma sforall_app p s t : sforall p (s +:+ t) = sforall p s && sforall p t.
Proof.
  induction s as [|c s IH]; [done|].
  change (p c && sforall p (s +:+ t) = (p c && sforall p s) && sforall p t).
  by rewrite IH, andb_assoc.
Qed.

Lemma smap_app f s t : smap f (s +:+ t) = smap f s +:+ smap f t.
Proof.
  induction s as [|c s IH]; [done|].
  change (String (f c) (smap f (s +:+ t)) = String (f c) (smap f s +:+ smap f t)). by rewrite IH.
Qed.

Lemma quote_bytes_quoted bs : sforall is_quoted (quote_bytes bs) = true.
Proof. induction bs; simpl; [done|]. by rewrite sforall_app, quote_byte_quoted. Qed.

Lemma unquote_quote_bytes bs :
  forallb is_byte bs = true → unquote_to_bytes (plus_to_space (quote_bytes bs)) = bs.
Proof.
  induction bs as [|b bs IH]; [done|]. cbn [forallb quote_bytes]. intros [Hb Hbs]%andb_true_iff.
  unfold plus_to_space in *. rewrite smap_app. change (smap _ (quote_byte (chr b))) with
    (plus_to_space (quote_byte (chr b))).
  by rewrite unquote_byte, byte_chr, IH.
Qed.

Lemma unquote_ascii run s :
  sforall is_ascii s = true → unquote_runs run s = utf8_decode (unquote_to_bytes (run +:+ s)).
Proof.
  revert run. induction s as [|c s IH]; intros run; cbn [sforall unquote_runs].
  - intros _. by rewrite append_nil_r.
  - intros [Hc Hs]%andb_true_iff. rewrite Hc, IH by done. by rewrite str_app_assoc.
Qed.

Lemma plus_to_space_ascii s : sforall is_ascii s = true → sforall is_ascii (plus_to_space s) = true.
Proof.
  unfold plus_to_space. induction s as [|c s IH]; [done|]. cbn [sforall smap].
  intros [Hc Hs]%andb_true_iff. rewrite IH by done. case_bool_decide; subst; [done|]. by rewrite Hc.
Qed.

Lemma quote_plus_ok u q :
  quote_plus u = Ok q → sforall is_quoted q = true ∧ unquote (plus_to_space q) = u.
Proof.
  unfold quote_plus. destruct (utf8_encode u) as [bs|] eqn:E; [|done]. intros [= <-].
  apply utf8_decode_encode in E as [Hd Hb]. split; [apply quote_bytes_quoted|].
  unfold unquote. rewrite unquote_ascii.
  - change ("" +:+ ?s) with s. by rewrite unquote_quote_bytes.
  - apply plus_to_space_ascii. eapply sforall_impl; [|apply quote_bytes_quoted].
    intros c Hc. by apply is_quoted_plain.
Qed.

Lemma quote_plus_scalar u : forallb is_scalar u = true → ∃ q, quote_plus u = Ok q.
Proof. intros H. unfold quote_plus, utf8_encode. rewrite H. by eexists. Qed.

Lemma split_once_app c s t :
  char_in c s = false → split_once c (s +:+ String c t) = (s, Some t).
Proof.
  unfold char_in. induction s as [|d s IH]; intros H.
  - simpl. by bd_refl.
  - change (split_once c (String d (s +:+ String c t)) = (String d s, Some t)).
    simpl in H |- *. destruct (d ≟ c); simpl in *; [done|]. by rewrite IH.
Qed.

Lemma quoted_no p s : sforall is_quoted s = true → is_quoted p = false → char_in p s = false.
Proof. apply char_in_forall. Qed.

(** One field of a form-encoded string. *)
Lemma field_ok kv f :
  (k ← quote_plus kv.1; v ← quote_plus kv.2; Ok ((k +:+ "=") +:+ v)) = Ok f →
  parse_field f = kv ∧ nonempty f = true ∧ char_in "&" f = false ∧ char_in "#" f = false.
Proof.
  intros (k & Hk & (v & Hv & [= <-])%result_bind_ok)%result_bind_ok.
  apply quote_plus_ok in Hk as [Hk1 Hk2], Hv as [Hv1 Hv2]. split_and!.
  - unfold parse_field. rewrite str_app_assoc.
    change ("=" +:+ v) with (String "=" v).
    rewrite split_once_app by (by apply quoted_no).
    cbn [default from_option id]. rewrite Hk2, Hv2. by destruct kv.
  - by destruct k.
  - by rewrite !char_in_app, (quoted_no "&" k), (quoted_no "&" v) by done.
  - by rewrite !char_in_app, (quoted_no "#" k), (quoted_no "#" v) by done.
Qed.

Lemma mapM_ok_spec {A B} (f : A → outcome B) l ys :
  mapM_ok f l = Ok ys ↔ Forall2 (λ x y, f x = Ok y) l ys.
Proof.
  revert ys. induction l as [|x l IH]; intros ys; cbn [mapM_ok].
  - split; [by intros [= <-]|]. by intros ->%Forall2_nil_inv_l.
  - rewrite result_bind_ok. setoid_rewrite result_bind_ok. setoid_rewrite IH. split.
    + intros (y & Hy & zs & Hzs & [= <-]). by constructor.
    + intros (y & zs & Hy & Hzs & ->)%Forall2_cons_inv_l. eauto.
Qed.

Lemma mapM_ok_total {A B} (f : A → outcome B) l :
  (∀ x, x ∈ l → ∃ y, f x = Ok y) → ∃ ys, mapM_ok f l = Ok ys.
Proof.
  induction l as [|x l IH]; intros H; [by eexists|].
  destruct (H x ltac:(by left)) as [y Hy]. destruct IH as [ys Hys]; [intros; apply H; by right|].
  exists (y :: ys). cbn [mapM_ok]. by rewrite Hy, Hys.
Qed.

Lemma filter_nonempty_all l : Forall (λ s, nonempty s = true) l → List.filter nonempty l = l.
Proof. induction 1 as [|s l Hs H IH]; [done|]. cbn [List.filter]. by rewrite Hs, IH. Qed.

(** Reading back a form-encoded string gives the fields it was made of, in order. *)
Lemma parse_qsl_urlencode d q : urlencode d = Ok q → parse_qsl q = d ∧ char_in "#" q = false.
Proof.
  unfold urlencode. intros (fs & Hfs & [= <-])%result_bind_ok. apply mapM_ok_spec in Hfs.
  assert (Hall : Forall2 (λ kv f, parse_field f = kv ∧ nonempty f = true ∧
    char_in "&" f = false ∧ char_in "#" f = false) d fs).
  { eapply Forall2_impl; [exact Hfs|]. intros kv f. apply field_ok. }
  clear Hfs. unfold parse_qsl. destruct fs as [|f0 fs0] eqn:Ef.
  { by apply Forall2_nil_inv_r in Hall as ->. }
  rewrite <- Ef in *. rewrite split_char_join.
  - rewrite filter_nonempty_all.
    + split.
      * clear Ef. induction Hall as [|kv f d' fs' (Hf & _) H IH]; [done|]. cbn [map].
        by rewrite Hf, IH.
      * clear Ef. induction Hall as [|kv f d' fs' (_ & _ & _ & Hf) H IH]; [done|].
        cbn [str_join]. destruct fs' as [|g fs']; [done|]. by rewrite !char_in_app, Hf, IH.
    + clear Ef. induction Hall; constructor; naive_solver.
  - by subst.
  - clear Ef. induction Hall; constructor; naive_solver.
Qed.

Lemma urlencode_total d :
  Forall (λ kv, forallb is_scalar kv.1 = true ∧ forallb is_scalar kv.2 = true) d →
  ∃ q, urlencode d = Ok q.
Proof.
  intros H. destruct (mapM_ok_total
    (λ kv, k ← quote_plus kv.1; v ← quote_plus kv.2; Ok ((k +:+ "=") +:+ v)) d) as [fs Hfs].
  - intros kv [H1 H2]%(proj1 (Forall_forall _ _) H).
    destruct (quote_plus_scalar _ H1) as [k Hk], (quote_plus_scalar _ H2) as [v Hv].
    exists ((k +:+ "=") +:+ v). by rewrite Hk; simpl; rewrite Hv.
  - exists (str_join "&" fs). unfold urlencode. by rewrite Hfs.
Qed.

(** *** Base64url *)

(** The base64url alphabet, which is within the unreserved characters of RFC 3986. *)
Definition is_b64 (c : ascii) : bool :=
  is_ascii_alpha c || is_dec_digit c || (c ≟ "-"%char) || (c ≟ "_"%char).

Lemma b64_char_ok v :
  (0 ≤ v < 64)%Z → is_b64 (b64_char v) = true ∧ b64_val (b64_char v) = v.
Proof.
  intros H.
  assert (Hall : forallb (λ n, is_b64 (b64_char (Z.of_nat n)) &&
                     (b64_val (b64_char (Z.of_nat n)) =? Z.of_nat n)%Z) (seq 0 64) = true)
    by (vm_compute; reflexivity).
  rewrite forallb_forall in Hall. specialize (Hall (Z.to_nat v)).
  rewrite Z2Nat.id in Hall by lia.
  destruct (andb_true_iff (is_b64 (b64_char v)) (b64_val (b64_char v) =? v)%Z) as [Hb _].
  destruct Hb as [H1 H2]; [apply Hall, in_seq; lia|]. split; [done|by apply Z.eqb_eq].
Qed.

Lemma b64_char_b64 v : (0 ≤ v < 64)%Z → is_b64 (b64_char v) = true.
Proof. apply b64_char_ok. Qed.
Lemma b64_val_char v : (0 ≤ v < 64)%Z → b64_val (b64_char v) = v.
Proof. apply b64_char_ok. Qed.

Lemma b64_not_pad c : is_b64 c = true → (c ≟ "="%char) = false.
Proof. all_ascii c; intros H; try discriminate H; reflexivity. Qed.

Lemma rstrip_keep p c s : p c = false → rstrip_p p (String c s) = String c (rstrip_p p s).
Proof. intros H. cbn [rstrip_p]. destruct (rstrip_p p s); by rewrite ?H. Qed.

Lemma b64_keep v s :
  (0 ≤ v < 64)%Z → rstrip_char "=" (String (b64_char v) s) = String (b64_char v) (rstrip_char "=" s).
Proof. intros H. apply rstrip_keep, b64_not_pad. by apply b64_char_ok. Qed.

Lemma list_ind3 {A} (P : list A → Prop) :
  P [] → (∀ a, P [a]) → (∀ a b, P [a; b]) → (∀ a b c l, P l → P (a :: b :: c :: l)) → ∀ l, P l.
Proof.
  intros H0 H1 H2 H3. fix IH 1.
  intros [|a [|b [|c l]]]; [exact H0|exact (H1 a)|exact (H2 a b)|exact (H3 a b c l (IH l))].
Qed.

(** Unfolds [is_byte] hypotheses to inequalities. *)
Ltac byte_bounds :=
  cbn [forallb] in *;
  repeat match goal with
    | H : _ && _ = true |- _ => apply andb_true_iff in H; destruct H
    | H : is_byte _ = true |- _ =>
        unfold is_byte in H; apply andb_true_iff in H; rewrite Z.leb_le, Z.ltb_lt in H
    end.
Ltac sextet := Z.to_euclidean_division_equations; lia.

(** The encoder without its padding. *)
Lemma b64url_step bs :
  forallb is_byte bs = true →
  b64url bs = match bs with
    | [] => ""
    | [a] => String (b64_char (a / 4)) (String (b64_char (a mod 4 * 16)) "")
    | [a; b] => String (b64_char (a / 4)) (String (b64_char (a mod 4 * 16 + b / 16))
                  (String (b64_char (b mod 16 * 4)) ""))
    | a :: b :: c :: r =>
        String (b64_char (a / 4)) (String (b64_char (a mod 4 * 16 + b / 16))
          (String (b64_char (b mod 16 * 4 + c / 64)) (String (b64_char (c mod 64)) (b64url r))))
    end%Z.
Proof.
  intros H. unfold b64url.
  destruct bs as [|a [|b [|c r]]]; [done| | |]; cbn [urlsafe_b64encode]; byte_bounds;
    repeat (rewrite b64_keep by sextet); reflexivity.
Qed.

Lemma b64url_decode_encode bs : forallb is_byte bs = true → b64url_decode (b64url bs) = bs.
Proof.
  induction bs as [|a|a b|a b c r IH] using list_ind3; intros H; [done| | |];
    rewrite b64url_step by done; cbn [b64url_decode]; byte_bounds;
    repeat (rewrite b64_val_char by sextet);
    rewrite ?IH by done; repeat (apply (f_equal2 (@cons Z)); [sextet|]); done.
Qed.

Lemma b64url_inj bs cs :
  forallb is_byte bs = true → forallb is_byte cs = true → b64url bs = b64url cs → bs = cs.
Proof.
  intros Hb Hc H. rewrite <- (b64url_decode_encode bs), <- (b64url_decode_encode cs) by done.
  by rewrite H.
Qed.

Lemma b64url_alphabet bs : forallb is_byte bs = true → sforall is_b64 (b64url bs) = true.
Proof.
  induction bs as [|a|a b|a b c r IH] using list_ind3; intros H; [done| | |];
    rewrite b64url_step by done; cbn [sforall]; byte_bounds;
    repeat (rewrite b64_char_b64 by sextet); rewrite ?IH by done; done.
Qed.

Lemma b64url_length bs :
  forallb is_byte bs = true → String.length (b64url bs) = (4 * length bs + 2) / 3.
Proof.
  induction bs as [|a|a b|a b c r IH] using list_ind3; intros H; [done|by rewrite b64url_step..|].
  rewrite b64url_step by done. byte_bounds. cbn [String.length length]. rewrite IH by done.
  replace (4 * S (S (S (length r))) + 2) with (4 * length r + 2 + 4 * 3) by lia.
  rewrite Nat.div_add by lia. lia.
Qed.

Lemma is_b64_isascii v : sforall is_b64 v = true → isascii v = true.
Proof. apply sforall_impl. intros c. by all_ascii c. Qed.
