(* ===== verification/Json.v ===== *)
(** * JSON texts

    The two functions of the standard library's [json] the package calls: [json.dumps], with its
    default separators and [ensure_ascii], and [json.loads], as the scanner of [json.decoder]
    works.  A text is a string of Latin-1 characters, so a [\u] escape of a character beyond
    them has an outcome of its own, on which the development says nothing.  The scanner recurses
    on fuel; [json_loads_fuel] shows that the length of the text is enough.  The interpreter bounds
    its recursion: [room] is how many arrays and objects inside one another it has left at the
    call, which depends on the stack, and [None] stands for more than any text needs. *)

From S2P Require Import Prelude PyStr PyValue Url.
From Stdlib Require Import QArith Ascii.
From stdpp Require Import strings.
#[global] Close Scope Q_scope.
Open Scope string_scope.
Open Scope list_scope.
Open Scope nat_scope.
Open Scope py_scope.

(** ** Writing *)

Definition dquote : ascii := char_of 34.

(** What [json.dumps] writes: non-ASCII and control characters as [\u] escapes, [", "] and [": "]. *)
Definition hex4 (n : nat) : string :=
  "00" +:+ String (hex_digit (n / 16)) (String (hex_digit (n mod 16)) "").
Definition json_escape (c : ascii) : string :=
  let n := code c in
  if n =? 34 then String "\" (String dquote "")
  else if n =? 92 then "\\"
  else if n =? 10 then "\n" else if n =? 13 then "\r" else if n =? 9 then "\t"
  else if n =? 8 then "\b" else if n =? 12 then "\f"
  else if (n <? 32) || (126 <? n) then "\u" +:+ hex4 n
  else String c "".
Fixpoint json_chars (s : string) : string :=
  match s with EmptyString => EmptyString | String c s' => json_escape c +:+ json_chars s' end.
Definition json_string (s : string) : string := String dquote (json_chars s +:+ String dquote "").
Fixpoint json_dumps (v : pyval) : string :=
  match v with
  | VNone => "null"
  | VBool b => if b then "true" else "false"
  | VInt z => str_of_int z
  | VFloat f => match f with
                | FNan => "NaN" | FInf false => "Infinity" | FInf true => "-Infinity"
                | FFin _ => show_float f
                end
  | VStr s => json_string s
  | VList l => "[" +:+ (str_join ", " (map json_dumps l) +:+ "]")
  | VDict d => "{" +:+ (str_join ", " (map (λ kv, json_string kv.1 +:+ (": " +:+ json_dumps kv.2)) d) +:+ "}")
  end.

(** *** Nesting *)

(** The room left inside one more array or object, if there is any. *)
Definition descend (room : option nat) : option (option nat) :=
  match room with None => Some None | Some 0 => None | Some (S n) => Some (Some n) end.

(** The arrays and objects of [v] fit into [room]. *)
Fixpoint fits (v : pyval) (room : option nat) : bool :=
  match v with
  | VList l => match descend room with Some room' => forallb (λ x, fits x room') l | None => false end
  | VDict d => match descend room with
               | Some room' => forallb (λ kv, fits kv.2 room') d | None => false end
  | _ => true
  end.

(** A [RecursionError], which is a [RuntimeError]; its text is the interpreter's. *)
Definition RecursionExceeded (doing : string) : exn :=
  mk_exn BRuntimeError ("maximum recursion depth exceeded while " +:+ doing).

(** [json.dumps(v)], within the interpreter's room. *)
Definition dumps (room : option nat) (v : pyval) : outcome string :=
  if fits v room then Ok (json_dumps v) else Err (RecursionExceeded "encoding a JSON object").

(** ** Reading *)

Inductive load_error : Type :=
  | JSONDecodeError
  | IntTooLong (digits : nat)   (* the [ValueError] of [int] on more digits than the limit *)
  | TooDeep (kind : string)     (* the [RecursionError] of a nesting beyond the room *)
  | BeyondLatin1                (* an escape of a character this model cannot hold *)
  | OutOfFuel.

(** What was read, and the rest of the text. *)
Abbreviation scanned A := (result load_error (A * string)).

Definition is_json_space (c : ascii) : bool :=
  (c ≟ " "%char) || (code c =? 9) || (code c =? 10) || (code c =? 13).
Definition skip_ws : string → string := lstrip_p is_json_space.

(** The text after the character [c], when it starts with [c]. *)
Definition eat (c : ascii) (s : string) : option string :=
  match s with String c' s' => if c ≟ c' then Some s' else None | EmptyString => None end.

Definition push (c : ascii) (r : scanned string) : scanned string :=
  '(t, rest) ← r; Ok (String c t, rest).

(** The characters a backslash stands before, the [u] of a code point apart. *)
Definition unescape (c : ascii) : option ascii :=
  if c ≟ dquote then Some dquote
  else if c ≟ "\"%char then Some "\"%char
  else if c ≟ "/"%char then Some "/"%char
  else if c ≟ "b"%char then Some (char_of 8)
  else if c ≟ "f"%char then Some (char_of 12)
  else if c ≟ "n"%char then Some (char_of 10)
  else if c ≟ "r"%char then Some (char_of 13)
  else if c ≟ "t"%char then Some (char_of 9)
  else None.

(** [scanstring], from after the opening quote. *)
Fixpoint scan_chars (s : string) : scanned string :=
  match s with
  | EmptyString => Err JSONDecodeError
  | String c s' =>
      if c ≟ dquote then Ok ("", s')
      else if c ≟ "\"%char then
        match s' with
        | EmptyString => Err JSONDecodeError
        | String e s'' =>
            match unescape e with
            | Some x => push x (scan_chars s'')
            | None =>
                match s'' with
                | String h1 (String h2 (String h3 (String h4 r))) =>
                    if (e ≟ "u"%char) && sforall is_hex_digit (String h1 (String h2 (String h3 (String h4 "")))) then
                      let n := (((hex_val h1 * 16 + hex_val h2) * 16 + hex_val h3) * 16 + hex_val h4)%Z in
                      if (n <? 256)%Z then push (char_of (Z.to_nat n)) (scan_chars r) else Err BeyondLatin1
                    else Err JSONDecodeError
                | _ => Err JSONDecodeError
                end
            end
        end
      else if code c <? 32 then Err JSONDecodeError
      else push c (scan_chars s')
  end.
Definition scan_string (s : string) : scanned string :=
  match eat dquote s with Some r => scan_chars r | None => Err JSONDecodeError end.

(** The longest run of digits, and what follows it. *)
Definition digits_of (s : string) : string * string :=
  (take_while is_dec_digit s, lstrip_p is_dec_digit s).

(** The fraction and the exponent, empty when absent or without digits. *)
Definition scan_fraction (s : string) : string * string :=
  match eat "."%char s with
  | Some r => let '(ds, rest) := digits_of r in
      if nonempty ds then (String "." ds, rest) else ("", s)
  | None => ("", s)
  end.
Definition scan_exponent (s : string) : string * string :=
  match s with
  | String e r =>
      if (e ≟ "e"%char) || (e ≟ "E"%char) then
        let '(sign, r') := match r with
          | String c r' => if (c ≟ "-"%char) || (c ≟ "+"%char) then (String c "", r') else ("", r)
          | EmptyString => ("", r)
          end in
        let '(ds, rest) := digits_of r' in
        if nonempty ds then (String e (sign +:+ ds), rest) else ("", s)
      else ("", s)
  | EmptyString => ("", s)
  end.

(** [_match_number]: a sign, zero or digits that do not start with one, then the two optional
    parts, which make it a float. *)
Definition scan_number (s : string) : scanned pyval :=
  let '(neg, s0) := match eat "-"%char s with Some r => (true, r) | None => (false, s) end in
  let '(ip, s1) := match eat "0"%char s0 with Some r => ("0", r) | None => digits_of s0 end in
  if negb (nonempty ip) then Err JSONDecodeError else
  let '(fp, s2) := scan_fraction s1 in
  let '(ex, s3) := scan_exponent s2 in
  if nonempty (fp +:+ ex) then
    match float_of_string ((if neg then "-" else "") +:+ (ip +:+ (fp +:+ ex))) with
    | Some f => Ok (VFloat f, s3)
    | None => Err JSONDecodeError
    end
  else if int_max_str_digits <? String.length ip then Err (IntTooLong (String.length ip))
  else let n := dec_value 0 ip in Ok (VInt (if neg then - n else n)%Z, s3).

(** A constant of the grammar. *)
Definition literals : list (string * pyval) :=
  [("null", VNone); ("true", VBool true); ("false", VBool false); ("NaN", VFloat FNan);
   ("Infinity", VFloat (FInf false)); ("-Infinity", VFloat (FInf true))].
Definition drop_str (n : nat) (s : string) : string := String.substring n (String.length s - n) s.
Definition scan_literal (s : string) : option (pyval * string) :=
  find_map (λ wv, if startswith s wv.1 then Some (wv.2, drop_str (String.length wv.1) s) else None) literals.

(** A comma-separated sequence of [item]s up to [close], after the opening bracket. *)
Section Items.
Context {A : Type} (item : string → scanned A) (close : ascii).

Fixpoint scan_items (fuel : nat) (s : string) : scanned (list A) :=
  match fuel with
  | 0 => Err OutOfFuel
  | S fuel' =>
      '(x, s1) ← item s;
      let s2 := skip_ws s1 in
      match eat ","%char s2 with
      | Some r => '(l, rest) ← scan_items fuel' (skip_ws r); Ok (x :: l, rest)
      | None => match eat close s2 with Some r => Ok ([x], r) | None => Err JSONDecodeError end
      end
  end.

Definition scan_block (fuel : nat) (s : string) : scanned (list A) :=
  let s1 := skip_ws s in
  match eat close s1 with Some r => Ok ([], r) | None => scan_items fuel s1 end.
End Items.

(** ["name": value]. *)
Definition scan_member (value : string → scanned pyval) (s : string) : scanned (string * pyval) :=
  '(name, s1) ← scan_string s;
  match eat ":"%char (skip_ws s1) with
  | Some r => '(v, rest) ← value (skip_ws r); Ok ((name, v), rest)
  | None => Err JSONDecodeError
  end.

(** [dict(pairs)]: the last value of a repeated name, at the place of the first. *)
Definition dict_of (pairs : list (string * pyval)) : pydict :=
  foldl (λ d kv, dict_set kv.1 kv.2 d) [] pairs.

(** [scan_once]: one more level of the interpreter's recursion for each array or object. *)
Fixpoint scan_once (fuel : nat) (room : option nat) (s : string) : scanned pyval :=
  match fuel with
  | 0 => Err OutOfFuel
  | S fuel' =>
      match s with
      | EmptyString => Err JSONDecodeError
      | String c r =>
          if c ≟ dquote then '(t, rest) ← scan_chars r; Ok (VStr t, rest)
          else if c ≟ "{"%char then
            match descend room with
            | None => Err (TooDeep "object")
            | Some room' =>
                '(kvs, rest) ← scan_block (scan_member (scan_once fuel' room')) "}" fuel' r;
                Ok (VDict (dict_of kvs), rest)
            end
          else if c ≟ "["%char then
            match descend room with
            | None => Err (TooDeep "array")
            | Some room' =>
                '(l, rest) ← scan_block (scan_once fuel' room') "]" fuel' r; Ok (VList l, rest)
            end
          else match scan_literal s with
               | Some vr => Ok vr
               | None => scan_number s
               end
      end
  end.

(** [json.loads(s)]. *)
Definition json_loads (room : option nat) (s : string) : result load_error pyval :=
  '(v, rest) ← scan_once (S (String.length s)) room (skip_ws s);
  if nonempty (skip_ws rest) then Err JSONDecodeError else Ok v.

(** ** Tests on concrete inputs *)

(** JSON with single quotes, for legibility. *)
Definition json_text (s : string) : string := smap (λ c, if c ≟ "'"%char then dquote else c) s.

Example dumps_1 : json_dumps (VDict [("a", VList [VNone; VInt (-3)]); ("b", VStr "x\y")]) =
  json_text "{'a': [null, -3], 'b': 'x\\y'}".
Proof. vm_compute. reflexivity. Qed.
Example loads_1 : json_loads None (json_text " {'a' : [null,-3 , 1.5e1, [ ]],'b': 'x\\\u00e9' , 'a':true} ") =
  Ok (VDict [("a", VBool true); ("b", VStr (String "x" (String "\" (String (char_of 233) ""))))]).
Proof. vm_compute. reflexivity. Qed.
Example loads_2 : json_loads None "[1.5e1, -0, -Infinity, 0.25]" =
  Ok (VList [VFloat (FFin 15); VInt 0; VFloat (FInf true); VFloat (FFin (1 # 4))]).
Proof. vm_compute. reflexivity. Qed.
Example loads_3 : json_loads None "01" = Err JSONDecodeError. Proof. vm_compute. reflexivity. Qed.
Example loads_4 : json_loads None "[1,]" = Err JSONDecodeError. Proof. vm_compute. reflexivity. Qed.
Example loads_5 : json_loads None (json_text "'\u20ac'") = Err BeyondLatin1. Proof. vm_compute. reflexivity. Qed.
Example loads_6 : json_loads None (json_text "{'a': 1} x") = Err JSONDecodeError. Proof. vm_compute. reflexivity. Qed.
Example loads_7 : json_loads None "1.e3" = Err JSONDecodeError. Proof. vm_compute. reflexivity. Qed.

(** The bracket one too many is reached before what is wrong behind it. *)
Example loads_8 : json_loads (Some 2) (json_text "{'a': [[, 1") = Err (TooDeep "array"). Proof. vm_compute. reflexivity. Qed.
Example loads_9 : json_loads (Some 2) (json_text "{'a': [1], 'b': {}}") =
  Ok (VDict [("a", VList [VInt 1]); ("b", VDict [])]).
Proof. vm_compute. reflexivity. Qed.

(** ** Lemmas *)

(** *** Values *)

(** Induction on a value and the values inside it. *)
Section PyvalInd.
Context (P : pyval → Prop).
Context (Hnone : P VNone) (Hbool : ∀ b, P (VBool b)) (Hint : ∀ z, P (VInt z))
        (Hfloat : ∀ f, P (VFloat f)) (Hstr : ∀ s, P (VStr s)).
Context (Hlist : ∀ l, Forall P l → P (VList l)).
Context (Hdict : ∀ d : pydict, Forall (λ kv, P kv.2) d → P (VDict d)).
Fixpoint pyval_nested_ind (v : pyval) : P v :=
  match v with
  | VNone => Hnone | VBool b => Hbool b | VInt z => Hint z | VFloat f => Hfloat f | VStr s => Hstr s
  | VList l => Hlist l
      ((fix go (l : list pyval) : Forall P l :=
          match l with
          | [] => Forall_nil_2 _
          | x :: l' => Forall_cons_2 _ x l' (pyval_nested_ind x) (go l')
          end) l)
  | VDict d => Hdict d
      ((fix go (d : pydict) : Forall (λ kv, P kv.2) d :=
          match d with
          | [] => Forall_nil_2 _
          | kv :: d' => Forall_cons_2 _ kv d' (pyval_nested_ind kv.2) (go d')
          end) d)
  end.
End PyvalInd.

(** What a JSON text can stand for: integers within the interpreter's digit limit, each name
    of an object once. *)
Definition int_limit : Z := 10 ^ Z.of_nat int_max_str_digits.
Fixpoint json_value (v : pyval) : bool :=
  match v with
  | VInt z => (Z.abs z <? int_limit)%Z
  | VList l => forallb json_value l
  | VDict d => bool_decide (NoDup d.*1) && forallb (λ kv, json_value kv.2) d
  | _ => true
  end.

(** No finite float, whose printed digits are not modelled. *)
Fixpoint floatless (v : pyval) : bool :=
  match v with
  | VFloat (FFin _) => false
  | VList l => forallb floatless l
  | VDict d => forallb (λ kv, floatless kv.2) d
  | _ => true
  end.

Lemma forallb_Forall' {A} (p : A → bool) l : forallb p l = true ↔ Forall (λ x, p x = true) l.
Proof. rewrite forallb_forall, Forall_forall. by setoid_rewrite list_elem_of_In. Qed.

(** *** Strings *)

Lemma str_cons_app c (s t : string) : String c s +:+ t = String c (s +:+ t).
Proof. done. Qed.

Lemma scan_chars_escape c t : scan_chars (json_escape c +:+ t) = push c (scan_chars t).
Proof. by destruct c as [[] [] [] [] [] [] [] []]. Qed.

Lemma scan_chars_json s rest : scan_chars (json_chars s +:+ String dquote rest) = Ok (s, rest).
Proof.
  induction s as [|c s IH]; [done|]. cbn [json_chars].
  by rewrite str_app_assoc, scan_chars_escape, IH.
Qed.

Lemma scan_string_json s rest : scan_string (json_string s +:+ rest) = Ok (s, rest).
Proof.
  unfold json_string, scan_string. rewrite str_cons_app, str_app_assoc. apply scan_chars_json.
Qed.

(** *** Numbers *)

(** What may follow a value inside a text. *)
Definition follows (s : string) : bool :=
  match s with EmptyString => true | String c _ => (c ≟ ","%char) || (c ≟ "]"%char) || (c ≟ "}"%char) end.

Lemma follows_inv s : follows s = true →
  skip_ws s = s ∧ (∀ p, (∀ c, c ∈ [","; "]"; "}"]%char → p c = false) →
    take_while p s = "" ∧ lstrip_p p s = s) ∧ scan_fraction s = ("", s) ∧ scan_exponent s = ("", s).
Proof.
  destruct s as [|c s]; [done|]. cbn [follows]. intros H.
  assert (Hc : c ∈ [","; "]"; "}"]%char) by (by bool_prop; rewrite !orb_true_iff, !bool_decide_eq_true in H; set_solver).
  split_and!.
  - unfold skip_ws. cbn. by repeat (apply elem_of_cons in Hc as [->|Hc]; [done|]); apply not_elem_of_nil in Hc.
  - intros p Hp. cbn. by rewrite (Hp c Hc).
  - by repeat (apply elem_of_cons in Hc as [->|Hc]; [done|]); apply not_elem_of_nil in Hc.
  - by repeat (apply elem_of_cons in Hc as [->|Hc]; [done|]); apply not_elem_of_nil in Hc.
Qed.

Lemma digits_of_app s rest :
  sforall is_dec_digit s = true → follows rest = true → digits_of (s +:+ rest) = (s, rest).
Proof.
  intros Hs Hr. unfold digits_of. induction s as [|c s IH].
  - destruct (follows_inv rest Hr) as (_ & H & _). destruct (H is_dec_digit) as [Ht Hl].
    { intros c Hc. by repeat (apply elem_of_cons in Hc as [->|Hc]; [done|]); apply not_elem_of_nil in Hc. }
    cbn [String.append]. change ("" +:+ rest) with rest. by rewrite Ht, Hl.
  - cbn [sforall] in Hs. apply andb_true_iff in Hs as [Hc Hs]. rewrite str_cons_app.
    cbn [take_while lstrip_p]. rewrite Hc. injection (IH Hs) as Ht Hl. by rewrite Ht, Hl.
Qed.

Lemma dec_value_bounds acc s :
  sforall is_dec_digit s = true →
  (acc * 10 ^ Z.of_nat (String.length s) ≤ dec_value acc s < (acc + 1) * 10 ^ Z.of_nat (String.length s))%Z.
Proof.
  revert acc. induction s as [|c s IH]; intros acc Hs; [simpl; lia|].
  cbn [sforall] in Hs. apply andb_true_iff in Hs as [Hc Hs]. cbn [dec_value String.length].
  rewrite Nat2Z.inj_succ, Z.pow_succ_r by lia. specialize (IH (10 * acc + digit_val c)%Z Hs).
  assert (0 ≤ digit_val c ≤ 9)%Z.
  { unfold is_dec_digit, code_in in Hc. unfold digit_val. apply andb_true_iff in Hc as [H1 H2].
    apply Nat.leb_le in H1, H2. lia. }
  assert (0 < 10 ^ Z.of_nat (String.length s))%Z by (apply Z.pow_pos_nonneg; lia). nia.
Qed.

(** The digits of a number within the limit are within the limit. *)
Lemma str_of_int_length n :
  (0 ≤ n < int_limit)%Z → String.length (str_of_int n) ≤ int_max_str_digits.
Proof.
  intros Hn. destruct (Z.eq_dec n 0%Z) as [->|Hnz]; [vm_compute; lia|].
  destruct (str_of_int_nonneg n) as (Hv & Hd & _); [lia|].
  destruct (str_of_int_head n) as (c & s & Hs & Hc); [lia|]. rewrite Hs in *.
  cbn [sforall dec_value] in Hv, Hd. apply andb_true_iff in Hd as [Hcd Hd].
  destruct (dec_value_bounds (10 * 0 + digit_val c) s Hd) as [Hlo _]. rewrite Hv in Hlo.
  assert (1 ≤ digit_val c)%Z.
  { unfold is_dec_digit, code_in in Hcd. unfold digit_val. apply andb_true_iff in Hcd as [H1 _].
    apply Nat.leb_le in H1. destruct (Nat.eq_dec (code c) 48) as [He|]; [|lia].
    exfalso. apply Hc. rewrite <- (ascii_nat_embedding c). unfold code in He. by rewrite He. }
  cbn [String.length]. unfold int_limit in Hn.
  assert (10 ^ Z.of_nat (String.length s) < 10 ^ Z.of_nat int_max_str_digits)%Z.
  { eapply Z.le_lt_trans; [|apply Hn]. assert (0 < 10 ^ Z.of_nat (String.length s))%Z by (apply Z.pow_pos_nonneg; lia). nia. }
  apply Z.pow_lt_mono_r_iff in H0; lia.
Qed.

Lemma dec_digit_cases c :
  is_dec_digit c = true → c ∈ ["0"; "1"; "2"; "3"; "4"; "5"; "6"; "7"; "8"; "9"]%char.
Proof.
  destruct c as [[] [] [] [] [] [] [] []]; try done; intros _; apply (bool_decide_eq_true_1 _); reflexivity.
Qed.

(** Case analysis on a character known to be in a list. *)
Ltac char_cases H := repeat (apply elem_of_cons in H as [->|H]; [|]); [..|by apply not_elem_of_nil in H].

Lemma str_of_int_neg z : (z < 0)%Z → str_of_int z = String "-" (str_of_int (- z)).
Proof.
  intros H. unfold str_of_int. rewrite Z.abs_opp. replace (z <? 0)%Z with true by lia.
  by replace (- z <? 0)%Z with false by lia.
Qed.

(** The digits of a number come back as they are, with what follows. *)
Lemma scan_digits n rest :
  (0 ≤ n)%Z → follows rest = true →
  ∃ c s, str_of_int n = String c s ∧ is_dec_digit c = true ∧
    match eat "0"%char (str_of_int n +:+ rest) with
    | Some r => ("0", r) | None => digits_of (str_of_int n +:+ rest) end = (str_of_int n, rest).
Proof.
  intros Hn Hr. destruct (str_of_int_nonneg n Hn) as (_ & Hd & Hne).
  destruct (Z.eq_dec n 0%Z) as [->|Hnz]; [by eexists _, _|].
  destruct (str_of_int_head n) as (c & s & Hs & Hc); [lia|]. exists c, s.
  rewrite <- (digits_of_app (str_of_int n) rest) by done. rewrite Hs in *. split_and!; [done| |].
  { cbn [sforall] in Hd. by apply andb_true_iff in Hd as [-> _]. }
  cbn [eat]. rewrite str_cons_app. cbn [eat]. by rewrite bool_decide_eq_false_2.
Qed.

Lemma scan_number_json z rest :
  (Z.abs z < int_limit)%Z → follows rest = true → scan_number (str_of_int z +:+ rest) = Ok (VInt z, rest).
Proof.
  intros Hz Hr. destruct (scan_digits (Z.abs z) rest) as (c & s & Hs & Hc & Hd); [lia|done|].
  destruct (str_of_int_nonneg (Z.abs z)) as (Hv & _ & Hne); [lia|].
  pose proof (str_of_int_length (Z.abs z)) as Hlen. destruct (follows_inv rest Hr) as (_ & _ & Hf & He).
  assert (Hsgn : match eat "-"%char (str_of_int z +:+ rest) with
                 | Some r => (true, r) | None => (false, str_of_int z +:+ rest) end
                 = ((z <? 0)%Z, str_of_int (Z.abs z) +:+ rest)).
  { destruct (Z.ltb_spec z 0) as [Hneg|Hpos].
    - rewrite str_of_int_neg, Z.abs_neq by lia. done.
    - rewrite Z.abs_eq in Hs |- * by lia. rewrite Hs, str_cons_app. cbn [eat].
      rewrite bool_decide_eq_false_2; [done|]. by intros <-. }
  unfold scan_number. rewrite Hsgn, Hd, Hne. cbn [negb]. rewrite Hf, He. cbn [nonempty].
  change ("" +:+ "") with "". cbn [nonempty]. rewrite (proj2 (Nat.ltb_ge _ _)) by (apply Hlen; lia).
  cbn zeta. rewrite Hv. do 3 f_equal. destruct (Z.ltb_spec z 0); lia.
Qed.

(** *** Brackets *)

(** The first character of a printed value. *)
Definition starts (s : string) : bool :=
  match s with
  | EmptyString => false
  | String c _ => negb (is_json_space c) && negb (c ≟ "]"%char) && negb (c ≟ "}"%char)
  end.

Lemma starts_ws s t : starts s = true → skip_ws (s +:+ t) = s +:+ t.
Proof.
  destruct s as [|c s]; [done|]. cbn [starts]. intros H. bool_prop. unfold skip_ws.
  rewrite str_cons_app. cbn [lstrip_p]. by rewrite H.
Qed.
Lemma starts_eat s t c : starts s = true → c ∈ ["]"; "}"]%char → eat c (s +:+ t) = None.
Proof.
  destruct s as [|a s]; [done|]. cbn [starts]. intros H Hc. bool_prop.
  rewrite str_cons_app. cbn [eat]. rewrite bool_decide_eq_false_2; [done|].
  intros ->. char_cases Hc; done.
Qed.

Lemma comma_ws t : skip_ws (", " +:+ t) = String "," (" " +:+ t).
Proof. done. Qed.
Lemma eat_eq c t : eat c (String c t) = Some t.
Proof. cbn [eat]. by bd_refl. Qed.
Lemma blank_ws t : skip_ws (" " +:+ t) = skip_ws t.
Proof. done. Qed.

Section ItemsJson.
Context {A : Type} (item : string → scanned A) (close : ascii) (print : A → string).
Context (Hclose : close ∈ ["]"; "}"]%char).

Lemma scan_items_json fuel l rest :
  l ≠ [] → length l ≤ fuel →
  (∀ x t, x ∈ l → follows t = true → item (print x +:+ t) = Ok (x, t)) →
  (∀ x, x ∈ l → starts (print x) = true) →
  scan_items item close fuel (str_join ", " (map print l) +:+ String close rest) = Ok (l, rest).
Proof using Hclose.
  revert fuel. induction l as [|x l IH]; intros fuel Hl Hfuel Hitem Hst; [done|].
  destruct fuel as [|fuel]; [simpl in Hfuel; lia|]. cbn [scan_items]. simpl in Hfuel.
  assert (Hf : follows (String close rest) = true) by (char_cases Hclose; done).
  assert (Hws : skip_ws (String close rest) = String close rest) by exact (proj1 (follows_inv _ Hf)).
  destruct l as [|y l].
  - cbn [map str_join]. rewrite Hitem by (done || by left). cbn [mbind result_bind].
    rewrite Hws. cbn [eat]. bd_refl. by rewrite bool_decide_eq_false_2 by (char_cases Hclose; done).
  - change (str_join ", " (map print (x :: y :: l))) with
      ((print x +:+ ", ") +:+ str_join ", " (map print (y :: l))).
    rewrite !str_app_assoc. rewrite Hitem by (done || by left). cbn [mbind result_bind].
    rewrite comma_ws, eat_eq. assert (Hy : starts (print y) = true) by (apply Hst; right; left).
    assert (Hj : ∀ t, skip_ws (" " +:+ (str_join ", " (map print (y :: l)) +:+ t))
                  = str_join ", " (map print (y :: l)) +:+ t).
    { intros t. rewrite blank_ws.
      destruct l; cbn [map str_join]; [by apply starts_ws|]. rewrite !str_app_assoc. by apply starts_ws. }
    rewrite Hj, IH; [done|done|simpl in *; lia|..]; intros; [apply Hitem; [by right|done]|apply Hst; by right].
Qed.

Lemma scan_block_json fuel l rest :
  length l ≤ fuel →
  (∀ x t, x ∈ l → follows t = true → item (print x +:+ t) = Ok (x, t)) →
  (∀ x, x ∈ l → starts (print x) = true) →
  scan_block item close fuel (str_join ", " (map print l) +:+ String close rest) = Ok (l, rest).
Proof using Hclose.
  intros Hfuel Hitem Hst. unfold scan_block. destruct l as [|x l].
  - cbn [map str_join]. change ("" +:+ ?t) with t.
    assert (skip_ws (String close rest) = String close rest) as ->
      by (refine (proj1 (follows_inv _ _)); char_cases Hclose; done).
    cbn [eat]. by bd_refl.
  - assert (Hx : starts (print x) = true) by (apply Hst; left).
    assert (Hj : skip_ws (str_join ", " (map print (x :: l)) +:+ String close rest)
                 = str_join ", " (map print (x :: l)) +:+ String close rest ∧
                 eat close (str_join ", " (map print (x :: l)) +:+ String close rest) = None).
    { destruct l; cbn [map str_join]; [by split; [apply starts_ws|apply starts_eat]|].
      rewrite !str_app_assoc. by split; [apply starts_ws|apply starts_eat]. }
    destruct Hj as [-> ->]. by apply scan_items_json.
Qed.
End ItemsJson.

(** *** The round trip *)

Lemma dict_set_fresh k v (d : pydict) : k ∉ d.*1 → dict_set k v d = d ++ [(k, v)].
Proof.
  induction d as [|[j w] d IH]; [done|]. intros [Hne Hk]%not_elem_of_cons. cbn in *.
  rewrite bool_decide_eq_false_2 by done. by rewrite IH.
Qed.

Lemma dict_of_NoDup d : NoDup d.*1 → dict_of d = d.
Proof.
  unfold dict_of. rewrite <- (app_nil_l d) at 1 3. generalize (@nil (string * pyval)) as acc.
  induction d as [|[k v] d IH]; intros acc Hnd; [by rewrite app_nil_r|]. cbn [foldl fst snd].
  rewrite fmap_app in Hnd. assert (Hk : k ∉ acc.*1).
  { apply NoDup_app in Hnd as (_ & Hdis & _). intros Hin. apply (Hdis k Hin). left. }
  rewrite dict_set_fresh, IH by (done || by rewrite <- app_assoc, fmap_app). by rewrite <- app_assoc.
Qed.

Lemma substring_all s : String.substring 0 (String.length s) s = s.
Proof. induction s as [|c s IH]; [done|]. cbn [String.length String.substring]. by rewrite IH. Qed.
Lemma drop_str_app w rest : drop_str (String.length w) (w +:+ rest) = rest.
Proof.
  unfold drop_str. rewrite length_append.
  replace (String.length w + String.length rest - String.length w) with (String.length rest) by lia.
  induction w as [|c w IH]; [apply substring_all|exact IH].
Qed.

Lemma str_join_length l s : s ∈ l → String.length s ≤ String.length (str_join ", " l).
Proof.
  induction l as [|t l IH]; [by intros ?%not_elem_of_nil|]. intros Hin.
  destruct l as [|u l]; [by apply list_elem_of_singleton in Hin as ->|].
  change (str_join ", " (t :: u :: l)) with ((t +:+ ", ") +:+ str_join ", " (u :: l)).
  rewrite !length_append. apply elem_of_cons in Hin as [->|Hin]; [lia|]. specialize (IH Hin). lia.
Qed.
Lemma str_join_count l : (∀ s, s ∈ l → s ≠ "") → length l ≤ String.length (str_join ", " l).
Proof.
  induction l as [|t l IH]; intros H; [simpl; lia|]. destruct l as [|u l].
  - cbn. assert (t ≠ "") by (apply H; left). destruct t; [done|simpl; lia].
  - change (str_join ", " (t :: u :: l)) with ((t +:+ ", ") +:+ str_join ", " (u :: l)).
    rewrite !length_append. specialize (IH (λ s Hs, H s (list_elem_of_further _ _ _ Hs))).
    simpl in *. lia.
Qed.

Lemma dumps_starts v : floatless v = true → starts (json_dumps v) = true.
Proof.
  destruct v as [|[]|z|[|[]|]|s|l|d]; try done. intros _. cbn [json_dumps].
  assert (Hpos : ∀ n, (0 ≤ n)%Z → starts (str_of_int n) = true).
  { intros n Hn. destruct (scan_digits n "" Hn eq_refl) as (c & s & -> & Hc & _).
    apply dec_digit_cases in Hc. char_cases Hc; reflexivity. }
  destruct (Z.ltb_spec z 0); [|by apply Hpos]. by rewrite str_of_int_neg.
Qed.

(** A constant is read before a number is tried, and no number starts like one. *)
Lemma scan_literal_number z rest : scan_literal (str_of_int z +:+ rest) = None.
Proof.
  assert (Hpos : ∀ n, (0 ≤ n)%Z → ∃ c s, str_of_int n = String c s ∧
    c ∈ ["0"; "1"; "2"; "3"; "4"; "5"; "6"; "7"; "8"; "9"]%char).
  { intros n Hn. destruct (scan_digits n "" Hn eq_refl) as (c & s & -> & Hc & _).
    exists c, s. split; [done|]. by apply dec_digit_cases. }
  destruct (Z.ltb_spec z 0).
  - rewrite str_of_int_neg by done. destruct (Hpos (- z)%Z) as (c & s & -> & Hc); [lia|].
    char_cases Hc; reflexivity.
  - destruct (Hpos z) as (c & s & -> & Hc); [lia|]. char_cases Hc; reflexivity.
Qed.

Lemma scan_once_number fuel room z rest :
  scan_once (S fuel) room (str_of_int z +:+ rest) = scan_number (str_of_int z +:+ rest).
Proof.
  pose proof (scan_literal_number z rest) as Hl.
  assert (Hc : ∃ c s, str_of_int z = String c s ∧
    c ∈ ["-"; "0"; "1"; "2"; "3"; "4"; "5"; "6"; "7"; "8"; "9"]%char).
  { destruct (Z.ltb_spec z 0); [rewrite str_of_int_neg by done; eexists _, _; split; [done|left]|].
    destruct (scan_digits z "") as (c & s & -> & Hc & _); [lia|done|].
    exists c, s. split; [done|]. right. by apply dec_digit_cases. }
  destruct Hc as (c & s & Hs & Hc). rewrite Hs in *. rewrite str_cons_app in *. cbn [scan_once]. rewrite Hl.
  char_cases Hc; reflexivity.
Qed.

Lemma scan_once_string fuel room t :
  scan_once (S fuel) room (String dquote t) = '(x, rest) ← scan_chars t; Ok (VStr x, rest).
Proof. done. Qed.
Lemma scan_once_list fuel room room' t :
  descend room = Some room' → scan_once (S fuel) room (String "[" t) =
  '(l, rest) ← scan_block (scan_once fuel room') "]" fuel t; Ok (VList l, rest).
Proof. intros H. cbn -[descend]. by rewrite H. Qed.
Lemma scan_once_dict fuel room room' t :
  descend room = Some room' → scan_once (S fuel) room (String "{" t) =
  '(kvs, rest) ← scan_block (scan_member (scan_once fuel room')) "}" fuel t; Ok (VDict (dict_of kvs), rest).
Proof. intros H. cbn -[descend]. by rewrite H. Qed.

Lemma startswith_ne c d s t p : d ≠ c → startswith (String c s +:+ t) (String d p) = false.
Proof. intros H. rewrite str_cons_app. cbn [startswith]. by rewrite bool_decide_eq_false_2. Qed.

(** The constants start with different characters. *)
Lemma scan_once_literal w v fuel room rest :
  (w, v) ∈ literals → scan_once (S fuel) room (w +:+ rest) = Ok (v, rest).
Proof.
  intros H. assert (Hl : scan_literal (w +:+ rest) = Some (v, rest)).
  { unfold scan_literal. transitivity (Some (v, drop_str (String.length w) (w +:+ rest))); [|by rewrite drop_str_app].
    unfold literals in *. cbn [find_map fst snd].
    repeat (apply elem_of_cons in H as [[= -> ->]|H];
      [by repeat (rewrite startswith_app || rewrite startswith_ne by done)|]).
    by apply not_elem_of_nil in H. }
  transitivity (match scan_literal (w +:+ rest) with Some vr => Ok vr | None => scan_number (w +:+ rest) end);
    [|by rewrite Hl].
  unfold literals in H. repeat (apply elem_of_cons in H as [[= -> ->]|H]; [reflexivity|]).
  by apply not_elem_of_nil in H.
Qed.

Definition reads_back (v : pyval) : Prop := json_value v = true → floatless v = true →
  ∀ fuel room rest, fits v room = true → follows rest = true → String.length (json_dumps v) < fuel →
    scan_once fuel room (json_dumps v +:+ rest) = Ok (v, rest).

Lemma reads_back_list l : Forall reads_back l → reads_back (VList l).
Proof.
  intros IH Hv Hf [|fuel] room rest Hroom Hr Hlen; [lia|]. cbn [json_value floatless fits] in Hv, Hf, Hroom.
  destruct (descend room) as [room'|] eqn:Ed; [|done].
  apply forallb_Forall' in Hv, Hf, Hroom. rewrite Forall_forall in IH, Hv, Hf, Hroom.
  cbn [json_dumps] in *. rewrite !length_append in Hlen. rewrite !str_app_assoc.
  change ("]" +:+ rest) with (String "]" rest). change ("[" +:+ ?t) with (String "[" t).
  rewrite (scan_once_list _ _ _ _ Ed), (scan_block_json _ _ json_dumps); [done|set_solver| | |].
  - rewrite <- (length_map json_dumps). etransitivity; [apply str_join_count|simpl in *; lia].
    intros s (x & -> & Hx)%list_elem_of_fmap Hs. pose proof (dumps_starts x (Hf x Hx)) as Hst. by rewrite Hs in Hst.
  - intros x t Hx Ht. apply IH; auto.
    pose proof (str_join_length (map json_dumps l) (json_dumps x) ltac:(apply list_elem_of_fmap; eauto)).
    simpl in *; lia.
  - intros x Hx. by apply dumps_starts, Hf.
Qed.

Definition dump_member (kv : string * pyval) : string := json_string kv.1 +:+ (": " +:+ json_dumps kv.2).

Lemma scan_member_json value kv t :
  starts (json_dumps kv.2) = true → value (json_dumps kv.2 +:+ t) = Ok (kv.2, t) →
  scan_member value (dump_member kv +:+ t) = Ok (kv, t).
Proof.
  intros Hs Hv. unfold scan_member, dump_member. rewrite str_app_assoc, scan_string_json. cbn [mbind result_bind].
  change (skip_ws ((": " +:+ json_dumps kv.2) +:+ t)) with (String ":" (" " +:+ (json_dumps kv.2 +:+ t))).
  rewrite eat_eq, blank_ws, starts_ws, Hv by done. by destruct kv.
Qed.

Lemma reads_back_dict (d : pydict) : Forall (λ kv, reads_back kv.2) d → reads_back (VDict d).
Proof.
  intros IH Hv Hf [|fuel] room rest Hroom Hr Hlen; [lia|]. cbn [json_value floatless fits] in Hv, Hf, Hroom.
  destruct (descend room) as [room'|] eqn:Ed; [|done].
  apply andb_true_iff in Hv as [Hnd Hv]. apply bool_decide_eq_true in Hnd.
  apply forallb_Forall' in Hv, Hf, Hroom. rewrite Forall_forall in IH, Hv, Hf, Hroom.
  cbn [json_dumps] in *. change (λ kv : string * pyval, _) with dump_member in *.
  rewrite !length_append in Hlen. rewrite !str_app_assoc.
  change ("}" +:+ rest) with (String "}" rest). change ("{" +:+ ?t) with (String "{" t).
  rewrite (scan_once_dict _ _ _ _ Ed), (scan_block_json _ _ dump_member); [by cbn; rewrite dict_of_NoDup|set_solver| | |].
  - rewrite <- (length_map dump_member). etransitivity; [apply str_join_count|simpl in *; lia].
    by intros s (x & -> & Hx)%list_elem_of_fmap.
  - intros x t Hx Ht. apply scan_member_json; [by apply dumps_starts, Hf|]. apply IH; auto.
    pose proof (str_join_length (map dump_member d) (dump_member x) ltac:(apply list_elem_of_fmap; eauto)) as Hj.
    unfold dump_member in Hj at 1. rewrite !length_append in Hj. simpl in *; lia.
  - done.
Qed.

Lemma reads_back_all v : reads_back v.
Proof.
  induction v as [|[]|z|[|[]|]|s|l IH|d IH] using pyval_nested_ind;
    [intros Hv Hf [|fuel] room rest _ Hr Hlen; [simpl in Hlen; lia|]..|by apply reads_back_list|by apply reads_back_dict].
  all: cbn [json_dumps].
  1-3, 5-7: by apply scan_once_literal; unfold literals; set_solver.
  2: done.
  - rewrite scan_once_number. apply scan_number_json; [|done]. by apply Z.ltb_lt.
  - unfold json_string. rewrite str_cons_app, scan_once_string, str_app_assoc.
    change (String dquote "" +:+ rest) with (String dquote rest). by rewrite scan_chars_json.
Qed.

(** A value printed and read is that value, when it holds no finite float and fits. *)
Lemma json_loads_dumps room v :
  json_value v = true → floatless v = true → fits v room = true → json_loads room (json_dumps v) = Ok v.
Proof.
  intros Hv Hf Hroom. unfold json_loads. rewrite <- (str_app_nil (json_dumps v)) at 2.
  rewrite starts_ws by by apply dumps_starts. rewrite (reads_back_all v Hv Hf); [done..|lia].
Qed.

(** *** The fuel *)

(** Reads less than all of [s], and not for want of fuel. *)
Definition consumes {A} (s : string) (r : scanned A) : Prop :=
  match r with
  | Ok (_, rest) => String.length rest < String.length s
  | Err e => e ≠ OutOfFuel
  end.

Lemma consumes_err {A} s e : e ≠ OutOfFuel → consumes s (Err e : scanned A).
Proof. done. Qed.
Lemma consumes_bind {A B} s s' (r : scanned A) (k : A * string → scanned B) :
  consumes s' r → String.length s' ≤ String.length s →
  (∀ x rest, String.length rest < String.length s' → consumes s (k (x, rest))) → consumes s (r ≫= k).
Proof. intros Hr Hs Hk. destruct r as [[x rest]|e]; [|exact Hr]. apply Hk. exact Hr. Qed.

Lemma lstrip_length p s : String.length (lstrip_p p s) ≤ String.length s.
Proof. induction s as [|c s IH]; [simpl; lia|]. cbn. destruct (p c); cbn; lia. Qed.
Lemma skip_ws_length s : String.length (skip_ws s) ≤ String.length s.
Proof. apply lstrip_length. Qed.
Lemma eat_length c s r : eat c s = Some r → String.length s = S (String.length r).
Proof. destruct s as [|d s]; [done|]. cbn. case_bool_decide; by intros [= <-]. Qed.

Lemma push_consumes c d s r : consumes s r → consumes (String d s) (push c r).
Proof. intros H. unfold push. destruct r as [[t rest]|e]; cbn in *; [lia|done]. Qed.
Lemma consumes_longer {A} s s' (r : scanned A) :
  consumes s r → String.length s ≤ String.length s' → consumes s' r.
Proof. intros H Hl. destruct r as [[t rest]|e]; cbn in *; [lia|done]. Qed.

Lemma scan_chars_consumes s : consumes s (scan_chars s).
Proof.
  induction s as [s IH] using (induction_ltof1 _ String.length). unfold ltof in IH.
  destruct s as [|c s]; [done|]. cbn [scan_chars].
  destruct (c ≟ dquote); [cbn; lia|]. destruct (c ≟ _).
  - destruct s as [|e s]; [done|]. destruct (unescape e) as [x|].
    + eapply consumes_longer; [apply (push_consumes _ c), IH; cbn; lia|cbn; lia].
    + destruct s as [|h1 [|h2 [|h3 [|h4 s]]]]; try done. destruct (_ && _); [|done].
      cbn zeta. destruct (_ <? _)%Z; [|done].
      eapply consumes_longer; [apply (push_consumes _ c), IH; cbn; lia|cbn; lia].
  - destruct (code c <? 32); [done|]. apply push_consumes, IH. cbn. lia.
Qed.

Lemma scan_string_consumes s : consumes s (scan_string s).
Proof.
  unfold scan_string. destruct (eat dquote s) as [r|] eqn:E; [|done]. apply eat_length in E.
  eapply consumes_longer; [apply scan_chars_consumes|lia].
Qed.

Lemma digits_of_length s ds rest :
  digits_of s = (ds, rest) → String.length s = String.length ds + String.length rest.
Proof.
  unfold digits_of. intros [= <- <-]. induction s as [|c s IH]; [done|]. cbn.
  destruct (is_dec_digit c); cbn; lia.
Qed.
Lemma scan_fraction_length s fp rest : scan_fraction s = (fp, rest) → String.length rest ≤ String.length s.
Proof.
  unfold scan_fraction. destruct (eat _ s) as [r|] eqn:E; [|by intros [= _ <-]]. apply eat_length in E.
  destruct (digits_of r) as [ds r'] eqn:Ed. apply digits_of_length in Ed.
  destruct (nonempty ds); intros [= _ <-]; lia.
Qed.
Lemma scan_exponent_length s ex rest : scan_exponent s = (ex, rest) → String.length rest ≤ String.length s.
Proof.
  unfold scan_exponent. destruct s as [|e r]; [by intros [= _ <-]|]. destruct (_ || _); [|by intros [= _ <-]].
  set (sr := match r with String c r' => _ | EmptyString => _ end).
  assert (Hsr : String.length sr.2 ≤ String.length r).
  { unfold sr. destruct r as [|c r']; [done|]. destruct (_ || _); cbn; lia. }
  destruct sr as [sign r'] eqn:Es. cbn in Hsr. destruct (digits_of r') as [ds r2] eqn:Ed.
  apply digits_of_length in Ed. destruct (nonempty ds); intros [= _ <-]; cbn; lia.
Qed.

Lemma scan_number_consumes s : consumes s (scan_number s).
Proof.
  unfold scan_number.
  set (ns := match eat "-"%char s with Some r => _ | None => _ end).
  assert (Hns : String.length ns.2 ≤ String.length s).
  { unfold ns. destruct (eat "-"%char s) eqn:E; [|done]. apply eat_length in E. cbn; lia. }
  destruct ns as [neg s0]. cbn [snd] in Hns.
  set (dg := match eat "0"%char s0 with Some r => _ | None => _ end).
  assert (His : String.length s0 = String.length dg.1 + String.length dg.2).
  { unfold dg. destruct (eat "0"%char s0) eqn:E; [by apply eat_length in E|].
    destruct (digits_of s0) eqn:Ed. by apply digits_of_length in Ed. }
  destruct dg as [ip s1]. cbn [fst snd] in His. destruct ip as [|c ip]; [done|]. cbn [nonempty negb].
  destruct (scan_fraction s1) as [fp s2] eqn:Ef. apply scan_fraction_length in Ef.
  destruct (scan_exponent s2) as [ex s3] eqn:Ee. apply scan_exponent_length in Ee. cbn [String.length] in His.
  destruct (nonempty _); [destruct (float_of_string _); [cbn; lia|done]|].
  destruct (_ <? _); [done|]. cbn. lia.
Qed.

Lemma startswith_length s p : startswith s p = true → String.length p ≤ String.length s.
Proof. intros [t ->]%startswith_spec. rewrite length_append. lia. Qed.

Lemma scan_literal_consumes s v rest : scan_literal s = Some (v, rest) → String.length rest < String.length s.
Proof.
  unfold scan_literal. intros ([w u] & Hin & H)%find_map_some. cbn [fst snd] in H.
  destruct (startswith s w) eqn:E; [|done]. injection H as _ <-. apply startswith_spec in E as [t ->].
  rewrite drop_str_app, length_append. unfold literals in Hin.
  repeat (apply elem_of_cons in Hin as [[= -> _]|Hin]; [cbn; lia|]). by apply not_elem_of_nil in Hin.
Qed.

Section ItemsFuel.
Context {A : Type} (item : string → scanned A) (close : ascii) (n : nat).
Context (Hitem : ∀ s, String.length s < n → consumes s (item s)).

Lemma scan_items_consumes fuel s :
  String.length s < fuel → String.length s < n → consumes s (scan_items item close fuel s).
Proof using Hitem.
  revert s. induction fuel as [|fuel IH]; intros s Hf Hn; [lia|]. cbn [scan_items].
  eapply consumes_bind; [by apply Hitem|done|]. intros x s1 Hs1. cbn beta iota zeta.
  pose proof (skip_ws_length s1) as Hw.
  destruct (eat ","%char (skip_ws s1)) as [r|] eqn:E; [|destruct (eat close (skip_ws s1)) as [r|] eqn:E2; [|done]].
  - apply eat_length in E. pose proof (skip_ws_length r).
    eapply consumes_bind; [apply IH; lia|lia|]. intros l rest Hr. cbn. lia.
  - apply eat_length in E2. cbn. lia.
Qed.

Lemma scan_block_consumes s t :
  String.length s < n → String.length s < String.length t → consumes t (scan_block item close n s).
Proof using Hitem.
  intros Hn Ht. unfold scan_block. pose proof (skip_ws_length s).
  destruct (eat close (skip_ws s)) as [r|] eqn:E; [apply eat_length in E; cbn; lia|].
  eapply consumes_longer; [apply scan_items_consumes; lia|lia].
Qed.
End ItemsFuel.

Lemma scan_member_consumes value n s :
  (∀ s, String.length s < n → consumes s (value s)) → String.length s < n →
  consumes s (scan_member value s).
Proof.
  intros Hv Hn. unfold scan_member. eapply consumes_bind; [apply scan_string_consumes|done|].
  intros name s1 Hs1. cbn beta iota. pose proof (skip_ws_length s1).
  destruct (eat _ (skip_ws s1)) as [r|] eqn:E; [|done]. apply eat_length in E. pose proof (skip_ws_length r).
  eapply consumes_bind; [apply Hv; lia|lia|]. intros v rest Hr. cbn. lia.
Qed.

Lemma scan_once_consumes fuel room s : String.length s < fuel → consumes s (scan_once fuel room s).
Proof.
  revert room s. induction fuel as [|fuel IH]; intros room s Hs; [lia|]. cbn [scan_once].
  destruct s as [|c s]; [done|]. cbn [String.length] in Hs.
  assert (Hs' : String.length s < String.length (String c s)) by (cbn; lia).
  destruct (c ≟ dquote); [|destruct (c ≟ "{"%char); [|destruct (c ≟ "["%char)]].
  - eapply consumes_bind; [apply scan_chars_consumes|cbn; lia|]. intros x rest Hr. cbn in *. lia.
  - destruct (descend room) as [room'|]; [|done]. eapply consumes_bind; [|done|].
    + apply scan_block_consumes; [|lia|done]. intros t Ht. apply (scan_member_consumes _ fuel); [intros; by apply IH|done].
    + intros x rest Hr. exact Hr.
  - destruct (descend room) as [room'|]; [|done].
    eapply consumes_bind; [by apply scan_block_consumes; [intros t Ht; by apply IH|lia|]|done|]. intros x rest Hr. exact Hr.
  - destruct (scan_literal (String c s)) as [[v rest]|] eqn:E; [by apply scan_literal_consumes in E|].
    apply scan_number_consumes.
Qed.

(** The length of the text is fuel enough. *)
Lemma json_loads_fuel room s : json_loads room s ≠ Err OutOfFuel.
Proof.
  unfold json_loads. pose proof (skip_ws_length s). pose proof (scan_once_consumes (S (String.length s)) room (skip_ws s)) as H1.
  destruct (scan_once _ _) as [[v rest]|e]; cbn [mbind result_bind]; [by destruct (nonempty _)|].
  intros [= ->]. apply H1; [lia|done].
Qed.

(** *** What is read is a JSON value *)

Definition scans_value {A} (p : A → bool) (r : scanned A) : Prop := ∀ x rest, r = Ok (x, rest) → p x = true.

Lemma dict_of_json kvs :
  forallb (λ kv, json_value kv.2) kvs = true → json_value (VDict (dict_of kvs)) = true.
Proof.
  unfold dict_of. assert (H0 : json_value (VDict []) = true) by done. revert H0.
  generalize (@nil (string * pyval)) as d. induction kvs as [|[k v] kvs IH]; intros d Hd Hk; [done|].
  cbn [forallb snd] in Hk. apply andb_true_iff in Hk as [Hv Hk]. cbn [foldl fst snd]. apply IH; [|done].
  cbn [json_value] in *. apply andb_true_iff in Hd as [Hnd Hd]. apply bool_decide_eq_true in Hnd. clear IH Hk.
  assert (Hkeys : ∀ j (e : pydict), j ∈ (dict_set k v e).*1 → j = k ∨ j ∈ e.*1).
  { intros j e. induction e as [|[i w] e IH]; cbn; [set_solver|]. case_bool_decide; cbn; set_solver. }
  apply andb_true_iff. split; [apply bool_decide_eq_true|].
  - induction d as [|[i w] d IH]; [cbn; apply NoDup_singleton|]. cbn in Hnd. apply NoDup_cons in Hnd as [Hi Hnd].
    cbn [dict_set]. case_bool_decide as Hki; [subst; cbn; by apply NoDup_cons|]. cbn. apply NoDup_cons.
    cbn in Hd. apply andb_true_iff in Hd as [_ Hd].
    split; [|by apply IH]. intros Hin%Hkeys. destruct Hin as [->|?]; done.
  - clear Hnd. induction d as [|[i w] d IH]; cbn in *; [by rewrite Hv|]. apply andb_true_iff in Hd as [Hw Hd].
    case_bool_decide; cbn; [by rewrite Hv, Hd|]. rewrite Hw. by apply IH.
Qed.

Lemma scan_items_value {A} item close (p : A → bool) fuel s :
  (∀ s, scans_value p (item s)) → scans_value (forallb p) (scan_items item close fuel s).
Proof.
  intros Hi. revert s. induction fuel as [|fuel IH]; intros s l rest H; [done|]. cbn [scan_items] in H.
  apply result_bind_ok in H as ([x s1] & Hx & H). apply Hi in Hx. cbn beta iota zeta in H.
  destruct (eat "," (skip_ws s1)) as [r|].
  - apply result_bind_ok in H as ([l' rest'] & Hl & [= <- <-]). apply IH in Hl. cbn. by rewrite Hx, Hl.
  - destruct (eat close (skip_ws s1)); [|done]. injection H as <- <-. cbn. by rewrite Hx.
Qed.
Lemma scan_block_value {A} item close (p : A → bool) fuel s :
  (∀ s, scans_value p (item s)) → scans_value (forallb p) (scan_block item close fuel s).
Proof.
  intros Hi l rest. unfold scan_block. destruct (eat close (skip_ws s)); [by intros [= <- <-]|].
  by apply scan_items_value.
Qed.

Lemma take_while_all p s : sforall p (take_while p s) = true.
Proof. induction s as [|c s IH]; [done|]. cbn. destruct (p c) eqn:E; [|done]. cbn. by rewrite E, IH. Qed.

Lemma scan_number_value s : scans_value json_value (scan_number s).
Proof.
  intros v rest. unfold scan_number.
  destruct (match eat "-"%char s with Some r => _ | None => _ end) as [neg s0].
  set (dg := match eat "0"%char s0 with Some r => _ | None => _ end).
  assert (Hd : sforall is_dec_digit dg.1 = true).
  { unfold dg. destruct (eat "0"%char s0); [done|]. apply take_while_all. }
  destruct dg as [ip s1]. cbn [fst] in Hd. destruct (negb _); [done|].
  destruct (scan_fraction s1) as [fp s2], (scan_exponent s2) as [ex s3].
  destruct (nonempty _); [destruct (float_of_string _); [by intros [= <- _]|done]|].
  destruct (int_max_str_digits <? String.length ip) eqn:El; [done|]. apply Nat.ltb_ge in El. cbn zeta.
  intros [= <- _]. cbn [json_value]. apply Z.ltb_lt. destruct (dec_value_bounds 0 ip Hd) as [Hlo Hhi].
  assert (10 ^ Z.of_nat (String.length ip) ≤ int_limit)%Z by (unfold int_limit; apply Z.pow_le_mono_r; lia).
  destruct neg; lia.
Qed.

Lemma scan_once_value fuel room s : scans_value json_value (scan_once fuel room s).
Proof.
  revert room s. induction fuel as [|fuel IH]; intros room s v rest H; [done|]. cbn [scan_once] in H.
  destruct s as [|c s]; [done|].
  destruct (c ≟ dquote); [|destruct (c ≟ "{"%char); [|destruct (c ≟ "["%char)]].
  - by apply result_bind_ok in H as ([x r] & _ & [= <- _]).
  - destruct (descend room) as [room'|]; [|done].
    apply result_bind_ok in H as ([kvs r] & Hk & [= <- _]). apply dict_of_json.
    eapply scan_block_value; [|exact Hk]. intros t [k u] r' Hm. unfold scan_member in Hm.
    apply result_bind_ok in Hm as ([name s1] & _ & Hm). cbn beta iota in Hm.
    destruct (eat ":"%char _); [|done]. apply result_bind_ok in Hm as ([w r2] & Hw & [= <- <- _]). by apply IH in Hw.
  - destruct (descend room) as [room'|]; [|done].
    apply result_bind_ok in H as ([l r] & Hl & [= <- _]). cbn [json_value].
    eapply scan_block_value; [|exact Hl]. apply IH.
  - destruct (scan_literal (String c s)) as [[u r]|] eqn:E; [|by apply scan_number_value in H].
    injection H as -> ->. unfold scan_literal in E. apply find_map_some in E as ([w x] & Hin & E). cbn [fst snd] in E.
    destruct (startswith _ w); [|done]. injection E as -> _. unfold literals in Hin.
    repeat (apply elem_of_cons in Hin as [[= _ ->]|Hin]; [done|]). by apply not_elem_of_nil in Hin.
Qed.

Lemma json_loads_value room s v : json_loads room s = Ok v → json_value v = true.
Proof.
  unfold json_loads. intros H. apply result_bind_ok in H as ([u r] & Hu & H). destruct (nonempty _); [done|].
  injection H as ->. by apply scan_once_value in Hu.
Qed.

(** *** What stops a reading *)

(** Within a text of length [n]: only integers beyond the digit limit are too long, and only a
    text longer than the room can nest beyond it. *)
Definition load_err (n : nat) (room : option nat) (e : load_error) : Prop :=
  match e with
  | IntTooLong m => int_max_str_digits < m
  | TooDeep _ => ∃ d, room = Some d ∧ d < n
  | _ => True
  end.
(** The errors of strings and numbers. *)
Definition leaf_err (e : load_error) : Prop :=
  match e with IntTooLong m => int_max_str_digits < m | TooDeep _ => False | _ => True end.

Lemma leaf_load_err n room e : leaf_err e → load_err n room e.
Proof. by destruct e. Qed.
Lemma load_err_le n n' room e : n ≤ n' → load_err n room e → load_err n' room e.
Proof. destruct e; try done. intros Hn (d & ? & ?). exists d. split; [done|lia]. Qed.
Lemma load_err_descend n room room' e :
  descend room = Some room' → load_err n room' e → load_err (S n) room e.
Proof.
  destruct e; try done. intros Hd (d & -> & ?). destruct room as [[|m]|]; try done. cbn in Hd.
  injection Hd as ->. eexists. split; [done|lia].
Qed.

Lemma scan_chars_errors s : errors_in leaf_err (scan_chars s).
Proof.
  assert (Hp : ∀ c (r : scanned string), errors_in leaf_err r → errors_in leaf_err (push c r)).
  { intros c r Hr. apply errors_in_bind; [done|]. intros [t rest] _. apply errors_in_ok. }
  induction s as [s IH] using (induction_ltof1 _ String.length). unfold ltof in IH.
  destruct s as [|c s]; [by intros e [= <-]|]. cbn [scan_chars].
  destruct (c ≟ dquote); [apply errors_in_ok|]. destruct (c ≟ _).
  - destruct s as [|e s]; [by intros ? [= <-]|]. destruct (unescape e); [apply Hp, IH; cbn; lia|].
    destruct s as [|h1 [|h2 [|h3 [|h4 s]]]]; try by intros ? [= <-]. destruct (_ && _); [|by intros ? [= <-]].
    cbn zeta. destruct (_ <? _)%Z; [apply Hp, IH; cbn; lia|by intros ? [= <-]].
  - destruct (code c <? 32); [by intros ? [= <-]|]. apply Hp, IH. cbn. lia.
Qed.

(** A number is an [int] or a [float]. *)
Definition is_number (v : pyval) : bool := match v with VInt _ | VFloat _ => true | _ => false end.
Lemma scan_number_errors s :
  errors_in leaf_err (scan_number s) ∧ scans_value is_number (scan_number s).
Proof.
  unfold scan_number, scans_value.
  destruct (match eat "-"%char s with Some r => _ | None => _ end) as [neg s0].
  destruct (match eat "0"%char s0 with Some r => _ | None => _ end) as [ip s1].
  destruct (negb _); [by split; [intros e [= <-]|]|].
  destruct (scan_fraction s1) as [fp s2], (scan_exponent s2) as [ex s3].
  destruct (nonempty _); [destruct (float_of_string _); (split; [by intros e [=]; subst|by intros v r [= <- _]])|].
  destruct (int_max_str_digits <? String.length ip) eqn:El; [|by split; [|intros v r [= <- _]]].
  apply Nat.ltb_lt in El. by split; [intros e [= <-]|].
Qed.

Section ItemsErrors.
Context {A : Type} (item : string → scanned A) (close : ascii) (n : nat) (room : option nat).
Context (Hitem : ∀ s, String.length s < n → consumes s (item s)).
Context (Herr : ∀ s, String.length s < n → errors_in (load_err (String.length s) room) (item s)).

Lemma scan_items_errors fuel s :
  String.length s < n → errors_in (load_err (String.length s) room) (scan_items item close fuel s).
Proof using Hitem Herr.
  revert s. induction fuel as [|fuel IH]; intros s Hn; [by intros e [= <-]|]. cbn [scan_items].
  apply errors_in_bind; [by apply Herr|]. intros [x s1] Hx. cbn zeta.
  pose proof (Hitem s Hn) as Hc. rewrite Hx in Hc. cbn in Hc. pose proof (skip_ws_length s1).
  destruct (eat "," (skip_ws s1)) as [r|] eqn:E.
  - apply eat_length in E. pose proof (skip_ws_length r). apply errors_in_bind.
    + intros e He. eapply load_err_le; [|eapply IH; [|exact He]]; lia.
    + intros [l r'] _. apply errors_in_ok.
  - destruct (eat close _); [apply errors_in_ok|by intros e [= <-]].
Qed.

Lemma scan_block_errors fuel s :
  String.length s < n → errors_in (load_err (String.length s) room) (scan_block item close fuel s).
Proof using Hitem Herr.
  intros Hn. unfold scan_block. destruct (eat close (skip_ws s)); [apply errors_in_ok|].
  pose proof (skip_ws_length s). intros e He.
  eapply load_err_le; [|eapply scan_items_errors; [|exact He]]; lia.
Qed.
End ItemsErrors.

Lemma scan_member_errors value n room s :
  (∀ s, String.length s < n → errors_in (load_err (String.length s) room) (value s)) → String.length s < n →
  errors_in (load_err (String.length s) room) (scan_member value s).
Proof.
  intros Hv Hn. unfold scan_member. apply errors_in_bind.
  { unfold scan_string. destruct (eat dquote s); [|by intros e [= <-]].
    intros e He. eapply leaf_load_err, scan_chars_errors, He. }
  intros [name s1] H1. pose proof (scan_string_consumes s) as Hc. rewrite H1 in Hc. cbn in Hc.
  pose proof (skip_ws_length s1).
  destruct (eat ":"%char _) as [r|] eqn:E; [|by intros e [= <-]]. apply eat_length in E. pose proof (skip_ws_length r).
  apply errors_in_bind; [|intros [v r'] _; apply errors_in_ok].
  intros e He. eapply load_err_le; [|eapply Hv; [|exact He]]; lia.
Qed.

Lemma scan_once_errors fuel room s :
  String.length s < fuel → errors_in (load_err (String.length s) room) (scan_once fuel room s).
Proof.
  revert room s. induction fuel as [|fuel IH]; intros room s Hs; [by intros e [= <-]|]. cbn [scan_once].
  destruct s as [|c s]; [by intros e [= <-]|]. cbn [String.length] in *.
  destruct (c ≟ dquote); [|destruct (c ≟ "{"%char); [|destruct (c ≟ "["%char)]].
  - apply errors_in_bind; [|intros [x r] _; apply errors_in_ok].
    intros e He. eapply leaf_load_err, scan_chars_errors, He.
  - destruct (descend room) as [room'|] eqn:Ed.
    2: { intros e [= <-]. destruct room as [[|]|]; [|done..]. exists 0. split; [done|lia]. }
    apply errors_in_bind; [|intros [x r] _; apply errors_in_ok].
    intros e He. eapply load_err_descend; [exact Ed|]. revert e He. apply (scan_block_errors _ _ fuel); [..|lia].
    + intros t Ht. apply (scan_member_consumes _ fuel); [|done]. intros. by apply scan_once_consumes.
    + intros t Ht. by apply (scan_member_errors _ fuel); [apply IH|].
  - destruct (descend room) as [room'|] eqn:Ed.
    2: { intros e [= <-]. destruct room as [[|]|]; [|done..]. exists 0. split; [done|lia]. }
    apply errors_in_bind; [|intros [x r] _; apply errors_in_ok].
    intros e He. eapply load_err_descend; [exact Ed|]. revert e He. apply (scan_block_errors _ _ fuel); [..|lia].
    + intros. by apply scan_once_consumes.
    + intros t Ht. by apply IH.
  - destruct (scan_literal _); [apply errors_in_ok|].
    intros e He. eapply leaf_load_err, (proj1 (scan_number_errors _)), He.
Qed.

Lemma json_loads_errors room s e : json_loads room s = Err e → load_err (String.length s) room e.
Proof.
  revert e. apply errors_in_bind.
  - intros e He. pose proof (skip_ws_length s).
    eapply load_err_le; [|eapply scan_once_errors; [|exact He]]; lia.
  - intros [v r] _. destruct (nonempty _); [by intros e [= <-]|apply errors_in_ok].
Qed.

(** *** Nesting *)

Lemma dict_of_values (p : pyval → bool) kvs :
  forallb (λ kv, p kv.2) kvs = true → forallb (λ kv, p kv.2) (dict_of kvs) = true.
Proof.
  unfold dict_of. assert (H0 : forallb (λ kv : string * pyval, p kv.2) [] = true) by done. revert H0.
  generalize (@nil (string * pyval)) as d. induction kvs as [|[k v] kvs IH]; intros d Hd Hk; [done|].
  cbn [forallb snd] in Hk. apply andb_true_iff in Hk as [Hv Hk]. cbn [foldl fst snd]. apply IH; [|done].
  clear IH Hk. induction d as [|[i w] d IH]; cbn in *; [by rewrite Hv|]. apply andb_true_iff in Hd as [Hw Hd].
  case_bool_decide; cbn; [by rewrite Hv, Hd|]. rewrite Hw. by apply IH.
Qed.

(** What is read fitted into the room. *)
Lemma scan_once_fits fuel room s : scans_value (λ v, fits v room) (scan_once fuel room s).
Proof.
  revert room s. induction fuel as [|fuel IH]; intros room s v rest H; [done|]. cbn [scan_once] in H.
  destruct s as [|c s]; [done|].
  destruct (c ≟ dquote); [|destruct (c ≟ "{"%char); [|destruct (c ≟ "["%char)]].
  - by apply result_bind_ok in H as ([x r] & _ & [= <- _]).
  - destruct (descend room) as [room'|] eqn:Ed; [|done].
    apply result_bind_ok in H as ([kvs r] & Hk & [= <- _]). cbn [fits]. rewrite Ed.
    apply (dict_of_values (λ v, fits v room')).
    eapply scan_block_value; [|exact Hk]. intros t [k u] r' Hm. unfold scan_member in Hm.
    apply result_bind_ok in Hm as ([name s1] & _ & Hm). cbn beta iota in Hm.
    destruct (eat ":"%char _); [|done]. apply result_bind_ok in Hm as ([w r2] & Hw & [= <- <- _]). by apply IH in Hw.
  - destruct (descend room) as [room'|] eqn:Ed; [|done].
    apply result_bind_ok in H as ([l r] & Hl & [= <- _]). cbn [fits]. rewrite Ed.
    eapply scan_block_value; [|exact Hl]. apply IH.
  - destruct (scan_literal (String c s)) as [[u r]|] eqn:E.
    + injection H as -> ->. unfold scan_literal in E. apply find_map_some in E as ([w x] & Hin & E). cbn [fst snd] in E.
      destruct (startswith _ w); [|done]. injection E as -> _. unfold literals in Hin.
      repeat (apply elem_of_cons in Hin as [[= _ ->]|Hin]; [done|]). by apply not_elem_of_nil in Hin.
    + apply (proj2 (scan_number_errors _)) in H. by destruct v.
Qed.

Lemma json_loads_fits room s v : json_loads room s = Ok v → fits v room = true.
Proof.
  unfold json_loads. intros H. apply result_bind_ok in H as ([u r] & Hu & H). destruct (nonempty _); [done|].
  injection H as ->. by apply scan_once_fits in Hu.
Qed.

(** With less room the outcome is the same, or the recursion error. *)
Definition agrees {A} (r r' : result load_error A) : Prop := r' = r ∨ ∃ k, r' = Err (TooDeep k).
Lemma agrees_refl {A} (r : result load_error A) : agrees r r.
Proof. by left. Qed.
Lemma agrees_bind {A B} (r r' : result load_error A) (k k' : A → result load_error B) :
  agrees r r' → (∀ a, agrees (k a) (k' a)) → agrees (r ≫= k) (r' ≫= k').
Proof. intros [->|[j ->]] Hk; [|by right; exists j]. destruct r as [a|e]; [apply Hk|by left]. Qed.
#[local] Hint Resolve agrees_refl agrees_bind : json.

Lemma agrees_block {A} (item item' : string → scanned A) close fuel s :
  (∀ s, agrees (item s) (item' s)) → agrees (scan_block item close fuel s) (scan_block item' close fuel s).
Proof.
  intros Hi. unfold scan_block. destruct (eat close (skip_ws s)); [auto with json|].
  generalize (skip_ws s). induction fuel as [|fuel IH]; intros t; [auto with json|]. cbn [scan_items].
  apply agrees_bind; [done|]. intros [x s1]. cbn zeta.
  destruct (eat "," (skip_ws s1)); [apply agrees_bind; [done|]; intros [l r']|destruct (eat close _)]; auto with json.
Qed.

Lemma agrees_scan_once fuel room s : agrees (scan_once fuel None s) (scan_once fuel room s).
Proof.
  revert room s. induction fuel as [|fuel IH]; intros room s; [auto with json|]. cbn [scan_once].
  destruct s as [|c s]; [auto with json|]. cbn [descend].
  destruct (c ≟ dquote); [auto with json|]. destruct (c ≟ "{"%char); [|destruct (c ≟ "["%char); [|auto with json]].
  - destruct (descend room); [|by right; eexists]. apply agrees_bind; [|intros [kvs r]; auto with json].
    apply agrees_block. intros t. unfold scan_member. apply agrees_bind; [auto with json|]. intros [name s1].
    destruct (eat ":"%char _); [|auto with json]. apply agrees_bind; [done|]. intros [v r]. auto with json.
  - destruct (descend room); [|by right; eexists]. apply agrees_bind; [by apply agrees_block|].
    intros [l r]. auto with json.
Qed.

Lemma agrees_json_loads room s : agrees (json_loads None s) (json_loads room s).
Proof. apply agrees_bind; [apply agrees_scan_once|]. intros [v r]. auto with json. Qed.

(** A document whose value does not fit gives the recursion error. *)
Lemma json_loads_deep room s v :
  json_loads None s = Ok v → fits v room = false → ∃ k, json_loads room s = Err (TooDeep k).
Proof.
  intros Hs Hf. destruct (agrees_json_loads room s) as [He|?]; [|done]. rewrite Hs in He.
  apply json_loads_fits in He. congruence.
Qed.
