(* ===== verification/Sha2.v ===== *)
(** * SHA-2

    [hashlib.sha256], [hashlib.sha384] and [hashlib.sha512] (FIPS 180-4), which the library uses
    for PKCE challenges and for the [at_hash] and [c_hash] bindings of an ID token.  Words are
    numbers below [2 ^ wbits], and every addition is reduced. *)

From S2P Require Import Prelude PyStr PyValue Url Codec.
From stdpp Require Import strings.
Open Scope string_scope.
Open Scope list_scope.
Open Scope nat_scope.
Open Scope py_scope.

(** The first 64 bits of the fractional parts of the cube roots of the first 80 primes, and of
    the square roots of the first 16.  SHA-256 uses the leading halves of the first 64 and of
    the first 8. *)
Definition cube_roots : list Z :=
  [0x428a2f98d728ae22; 0x7137449123ef65cd; 0xb5c0fbcfec4d3b2f; 0xe9b5dba58189dbbc;
   0x3956c25bf348b538; 0x59f111f1b605d019; 0x923f82a4af194f9b; 0xab1c5ed5da6d8118;
   0xd807aa98a3030242; 0x12835b0145706fbe; 0x243185be4ee4b28c; 0x550c7dc3d5ffb4e2;
   0x72be5d74f27b896f; 0x80deb1fe3b1696b1; 0x9bdc06a725c71235; 0xc19bf174cf692694;
   0xe49b69c19ef14ad2; 0xefbe4786384f25e3; 0x0fc19dc68b8cd5b5; 0x240ca1cc77ac9c65;
   0x2de92c6f592b0275; 0x4a7484aa6ea6e483; 0x5cb0a9dcbd41fbd4; 0x76f988da831153b5;
   0x983e5152ee66dfab; 0xa831c66d2db43210; 0xb00327c898fb213f; 0xbf597fc7beef0ee4;
   0xc6e00bf33da88fc2; 0xd5a79147930aa725; 0x06ca6351e003826f; 0x142929670a0e6e70;
   0x27b70a8546d22ffc; 0x2e1b21385c26c926; 0x4d2c6dfc5ac42aed; 0x53380d139d95b3df;
   0x650a73548baf63de; 0x766a0abb3c77b2a8; 0x81c2c92e47edaee6; 0x92722c851482353b;
   0xa2bfe8a14cf10364; 0xa81a664bbc423001; 0xc24b8b70d0f89791; 0xc76c51a30654be30;
   0xd192e819d6ef5218; 0xd69906245565a910; 0xf40e35855771202a; 0x106aa07032bbd1b8;
   0x19a4c116b8d2d0c8; 0x1e376c085141ab53; 0x2748774cdf8eeb99; 0x34b0bcb5e19b48a8;
   0x391c0cb3c5c95a63; 0x4ed8aa4ae3418acb; 0x5b9cca4f7763e373; 0x682e6ff3d6b2b8a3;
   0x748f82ee5defb2fc; 0x78a5636f43172f60; 0x84c87814a1f0ab72; 0x8cc702081a6439ec;
   0x90befffa23631e28; 0xa4506cebde82bde9; 0xbef9a3f7b2c67915; 0xc67178f2e372532b;
   0xca273eceea26619c; 0xd186b8c721c0c207; 0xeada7dd6cde0eb1e; 0xf57d4f7fee6ed178;
   0x06f067aa72176fba; 0x0a637dc5a2c898a6; 0x113f9804bef90dae; 0x1b710b35131c471b;
   0x28db77f523047d84; 0x32caab7b40c72493; 0x3c9ebe0a15c9bebc; 0x431d67c49c100d4c;
   0x4cc5d4becb3e42b6; 0x597f299cfc657e2a; 0x5fcb6fab3ad6faec; 0x6c44198c4a475817]%Z.
Definition square_roots : list Z :=
  [0x6a09e667f3bcc908; 0xbb67ae8584caa73b; 0x3c6ef372fe94f82b; 0xa54ff53a5f1d36f1;
   0x510e527fade682d1; 0x9b05688c2b3e6c1f; 0x1f83d9abfb41bd6b; 0x5be0cd19137e2179;
   0xcbbb9d5dc1059ed8; 0x629a292a367cd507; 0x9159015a3070dd17; 0x152fecd8f70e5939;
   0x67332667ffc00b31; 0x8eb44a8768581511; 0xdb0c2e0d64f98fa7; 0x47b5481dbefa4fa4]%Z.

(** The members of the family differ in the width of a word, the rotations, the constants and
    the number of words of the state that make the digest. *)
Record variant : Type := Variant {
  wbits : Z;
  big0 : Z * Z * Z; big1 : Z * Z * Z;      (* rotations of the state *)
  small0 : Z * Z * Z; small1 : Z * Z * Z;  (* two rotations and a shift of the schedule *)
  round_constants : list Z;
  initial : list Z;
  out_words : nat;
}.

Definition leading_half (x : Z) : Z := Z.shiftr x 32.
Definition sha256_variant : variant :=
  Variant 32 (2, 13, 22)%Z (6, 11, 25)%Z (7, 18, 3)%Z (17, 19, 10)%Z
    (map leading_half (take 64 cube_roots)) (map leading_half (take 8 square_roots)) 8.
Definition sha512_variant : variant :=
  Variant 64 (28, 34, 39)%Z (14, 18, 41)%Z (1, 8, 7)%Z (19, 61, 6)%Z cube_roots (take 8 square_roots) 8.
Definition sha384_variant : variant :=
  Variant 64 (28, 34, 39)%Z (14, 18, 41)%Z (1, 8, 7)%Z (19, 61, 6)%Z cube_roots (drop 8 square_roots) 6.

Section Compression.
Context (V : variant).
Local Open Scope Z_scope.

Definition wrap (x : Z) : Z := x mod 2 ^ wbits V.
Definition rotr (n x : Z) : Z := Z.lor (Z.shiftr x n) (wrap (Z.shiftl x (wbits V - n))).
Definition big_sigma (r : Z * Z * Z) (x : Z) : Z :=
  let '(a, b, c) := r in Z.lxor (Z.lxor (rotr a x) (rotr b x)) (rotr c x).
Definition small_sigma (r : Z * Z * Z) (x : Z) : Z :=
  let '(a, b, c) := r in Z.lxor (Z.lxor (rotr a x) (rotr b x)) (Z.shiftr x c).
Definition choose (x y z : Z) : Z := Z.lxor (Z.land x y) (Z.land (Z.lnot x) z).
Definition majority (x y z : Z) : Z :=
  Z.lxor (Z.lxor (Z.land x y) (Z.land x z)) (Z.land y z).

(** One round: the state [a .. h] under a round constant and a schedule word. *)
Definition round (k w : Z) (s : list Z) : list Z :=
  match s with
  | [a; b; c; d; e; f; g; h] =>
      let t1 := h + big_sigma (big1 V) e + choose e f g + k + w in
      let t2 := big_sigma (big0 V) a + majority a b c in
      [wrap (t1 + t2); a; b; c; wrap (d + t1); e; f; g]
  | _ => s
  end.

(** The schedule as a sliding window of sixteen words: the head is the word of this round. *)
Definition schedule_step (window : list Z) : list Z :=
  let w i := nth i window 0 in
  tail window ++
    [wrap (small_sigma (small1 V) (w 14%nat) + w 9%nat + small_sigma (small0 V) (w 1%nat) + w 0%nat)].

Fixpoint rounds (ks window s : list Z) : list Z :=
  match ks with
  | [] => s
  | k :: ks' => rounds ks' (schedule_step window) (round k (hd 0 window) s)
  end.

Definition compress (s block : list Z) : list Z :=
  zip_with (λ x y, wrap (x + y)) s (rounds (round_constants V) block s).

Fixpoint be_value (acc : Z) (bs : bytes) : Z :=
  match bs with [] => acc | b :: bs' => be_value (256 * acc + b) bs' end.
(** The big-endian bytes of a number. *)
Fixpoint be_bytes (n : nat) (x : Z) : bytes :=
  match n with O => [] | S n' => be_bytes n' (x / 256) ++ [x mod 256] end.

Definition wbytes : nat := Z.to_nat (wbits V / 8).
Fixpoint words (n : nat) (bs : bytes) : list Z :=
  match n with
  | O => []
  | S n' => be_value 0 (take wbytes bs) :: words n' (drop wbytes bs)
  end.

Definition block_bytes : nat := (16 * wbytes)%nat.
(** A one bit, zeros, and the length in bits, up to a multiple of the block. *)
Definition pad (bs : bytes) : bytes :=
  let len := length bs in
  let tail := (1 + 2 * wbytes)%nat in
  let zeros := ((block_bytes - (len + tail) mod block_bytes) mod block_bytes)%nat in
  bs ++ 0x80 :: repeat 0 zeros ++ be_bytes (2 * wbytes) (8 * Z.of_nat len).

Fixpoint blocks (n : nat) (s : list Z) (bs : bytes) : list Z :=
  match n with
  | O => s
  | S n' => blocks n' (compress s (words 16 bs)) (drop block_bytes bs)
  end.

Definition sha2 (bs : bytes) : bytes :=
  let padded := pad bs in
  let s := blocks (length padded / block_bytes) (initial V) padded in
  List.concat (map (be_bytes wbytes) (take (out_words V) s)).
End Compression.

Definition sha256 : bytes → bytes := sha2 sha256_variant.
Definition sha384 : bytes → bytes := sha2 sha384_variant.
Definition sha512 : bytes → bytes := sha2 sha512_variant.

Definition hexdigest (bs : bytes) : string :=
  String.concat "" (map (λ b, let n := Z.to_nat b in
    String (hex_digit (n / 16)) (String (hex_digit (n mod 16)) "")) bs).

(** ** Tests on concrete inputs *)

Example sha256_abc : hexdigest (sha256 (text "abc")) =
  "ba7816bf8f01cfea414140de5dae2223b00361a396177a9cb410ff61f20015ad".
Proof. vm_compute. reflexivity. Qed.
Example sha384_abc : hexdigest (sha384 (text "abc")) =
  "cb00753f45a35e8bb5a03d699ac65007272c32ab0eded1631a8b605a43ff5bed8086072ba1e7cc2358baeca134c825a7".
Proof. vm_compute. reflexivity. Qed.
Example sha512_abc : hexdigest (sha512 (text "abc")) =
  "ddaf35a193617abacc417349ae20413112e6fa4e89a97ea20a9eeee64b55d39a2192992a274fc1a836ba3c23a3feebbd454d4423643ce80e2a9ac94fa54ca49f".
Proof. vm_compute. reflexivity. Qed.
(** Two blocks: the length no longer fits in the first. *)
Example sha256_two : hexdigest (sha256 (repeat 97%Z 60)) =
  "11ee391211c6256460b6ed375957fadd8061cafbb31daf967db875aebd5aaad4".
Proof. vm_compute. reflexivity. Qed.

(** ** Lemmas: the shape of a digest *)

Lemma be_bytes_shape n x : length (be_bytes n x) = n ∧ forallb is_byte (be_bytes n x) = true.
Proof.
  revert x. induction n as [|n IH]; intros x; cbn [be_bytes]; [done|].
  destruct (IH (x / 256)%Z) as [Hl Hb]. rewrite length_app, forallb_app, Hl, Hb.
  split; [cbn; lia|]. cbn [forallb]. unfold is_byte.
  pose proof (Z.mod_pos_bound x 256 ltac:(lia)).
  rewrite (proj2 (Z.leb_le _ _)), (proj2 (Z.ltb_lt _ _)) by lia. done.
Qed.

Lemma round_length V k w s : length (round V k w s) = length s.
Proof. unfold round. do 8 (destruct s as [|? s]; [reflexivity|]). by destruct s. Qed.

Lemma rounds_length V ks window s : length (rounds V ks window s) = length s.
Proof.
  revert window s. induction ks as [|k ks IH]; intros window s; cbn [rounds]; [done|].
  by rewrite IH, round_length.
Qed.

Lemma blocks_length V n s bs : length (blocks V n s bs) = length s.
Proof.
  revert s bs. induction n as [|n IH]; intros s bs; cbn [blocks]; [done|].
  rewrite IH. unfold compress. rewrite length_zip_with, rounds_length. lia.
Qed.

Lemma concat_bytes_shape n ws :
  length (List.concat (map (be_bytes n) ws)) = n * length ws ∧
  forallb is_byte (List.concat (map (be_bytes n) ws)) = true.
Proof.
  induction ws as [|w ws [IHl IHb]]; cbn [map List.concat]; [split; [cbn; lia|done]|].
  destruct (be_bytes_shape n w) as [Hl Hb].
  rewrite length_app, forallb_app, Hl, Hb, IHl, IHb. split; [cbn; lia|done].
Qed.

Lemma sha2_shape V bs :
  length (sha2 V bs) = wbytes V * Nat.min (out_words V) (length (initial V)) ∧
  forallb is_byte (sha2 V bs) = true.
Proof.
  unfold sha2. destruct (concat_bytes_shape (wbytes V)
    (take (out_words V) (blocks V (length (pad V bs) / block_bytes V) (initial V) (pad V bs))))
    as [Hl Hb].
  rewrite Hl. split; [|done]. by rewrite length_take, blocks_length.
Qed.

Lemma shape_eval V bs n :
  wbytes V * Nat.min (out_words V) (length (initial V)) = n →
  length (sha2 V bs) = n ∧ forallb is_byte (sha2 V bs) = true.
Proof. intros <-. apply sha2_shape. Qed.

Lemma sha256_shape bs : length (sha256 bs) = 32 ∧ forallb is_byte (sha256 bs) = true.
Proof. apply (shape_eval sha256_variant bs). vm_compute. reflexivity. Qed.
Lemma sha384_shape bs : length (sha384 bs) = 48 ∧ forallb is_byte (sha384 bs) = true.
Proof. apply (shape_eval sha384_variant bs). vm_compute. reflexivity. Qed.
Lemma sha512_shape bs : length (sha512 bs) = 64 ∧ forallb is_byte (sha512 bs) = true.
Proof. apply (shape_eval sha512_variant bs). vm_compute. reflexivity. Qed.

(** The padded message is a whole number of blocks, so no byte of it is left out. *)
Lemma pad_blocks V bs :
  0 < wbytes V → length (pad V bs) mod block_bytes V = 0.
Proof.
  intros HV. unfold pad. rewrite length_app. cbn [length].
  rewrite length_app, repeat_length, (proj1 (be_bytes_shape _ _)).
  set (t := length bs + (1 + 2 * wbytes V)). set (B := block_bytes V).
  assert (HB : B ≠ 0) by (unfold B, block_bytes; lia).
  replace (length bs + S ((B - t mod B) mod B + 2 * wbytes V)) with (t + (B - t mod B) mod B)
    by (unfold t; lia).
  rewrite Nat.Div0.add_mod_idemp_r.
  pose proof (Nat.div_mod_eq t B). pose proof (Nat.mod_upper_bound t B HB).
  replace (t + (B - t mod B)) with (B * (t / B) + B) by nia.
  replace (B * (t / B) + B) with ((t / B + 1) * B) by lia. apply Nat.Div0.mod_mul.
Qed.
