(* ===== verification/Policy.v ===== *)
(** * The discovery policy and the URL validators
    ([core/discovery_policy.py], [core/validators.py])

    Which URLs the library is willing to talk to: the policy record, its cache identity, the
    loopback test, the pre-flight scheme check, and the issuer, endpoint and parameter checks a
    discovery document goes through. *)

From S2P Require Import Prelude PyStr PyValue Models Url.
From Stdlib Require Import Ascii.
From stdpp Require Import strings.
Open Scope string_scope.
Open Scope list_scope.
Open Scope nat_scope.
Open Scope py_scope.

Definition WELL_KNOWN_PATH : string := "/.well-known/openid-configuration".
Definition LOOPBACK_HOSTS : list string := ["localhost"; "127.0.0.1"; "::1"].

Record DiscoveryPolicy : Type := Policy {
  require_https : bool;
  allow_http_on_loopback : bool;
  validate_issuer_flag : bool;
  validate_endpoints : bool;
  require_key_set : bool;
  additional_endpoint_base_addresses : list string;
  authority : option string;
  allow_loopback_endpoints : bool;
}.

(** [DiscoveryPolicy()] and [DiscoveryPolicy(require_https=b)]. *)
Definition default_policy : DiscoveryPolicy := Policy true true true true true [] None false.
Definition policy_with_https (b : bool) : DiscoveryPolicy := Policy b true true true true [] None false.

Definition policy_key : Type := bool * bool * bool * bool * bool * list string * option string * bool.
Definition cache_key (p : DiscoveryPolicy) : policy_key :=
  (require_https p, allow_http_on_loopback p, validate_issuer_flag p, validate_endpoints p,
   require_key_set p, additional_endpoint_base_addresses p, authority p,
   allow_loopback_endpoints p).

#[global] Instance policy_key_eq_dec : EqDecision policy_key.
Proof. unfold policy_key. solve_decision. Defined.

Definition is_loopback (host : string) : bool :=
  if bool_decide (host ∈ LOOPBACK_HOSTS) then true
  else match ip_address host with Some i => ip_is_loopback i | None => false end.

Record DiscoveryEndpoint : Type := Endpoint { ep_url : string; ep_authority : string }.

Definition is_http_scheme (s : string) : bool := (s ≟ "http") || (s ≟ "https").
Definition rstrip_slash : string → string := rstrip_char "/".

Definition parse_discovery_url (url : string) : outcome DiscoveryEndpoint :=
  if negb (nonempty url) then Err (Configuration "Discovery URL cannot be empty")
  else
    parsed ← urlparse url;
    if negb (nonempty (scheme parsed)) then
      Err (Configuration ("Discovery URL must include a scheme: " +:+ url))
    else if negb (is_http_scheme (scheme parsed)) then
      Err (Configuration ("Discovery URL must use HTTP or HTTPS scheme, got: " +:+ scheme parsed))
    else if negb (nonempty (netloc parsed)) then
      Err (Configuration ("Discovery URL must include a host: " +:+ url))
    else if nonempty (query parsed) || nonempty (fragment parsed) then
      Err (Configuration "Discovery URL must not contain query or fragment components")
    else
      let full_url :=
        if negb (endswith (rstrip_slash (path parsed)) (rstrip_slash WELL_KNOWN_PATH))
        then rstrip_slash url +:+ WELL_KNOWN_PATH else url in
      Ok (Endpoint (rstrip_slash full_url) (scheme parsed +:+ "://" +:+ netloc parsed)).

Definition resolve_discovery_policy (policy : option DiscoveryPolicy) (https : bool)
    : DiscoveryPolicy :=
  match policy with Some p => p | None => policy_with_https https end.

Definition host_of (parsed : ParseResult) : string := default "" (hostname parsed).

Definition validate_url_scheme (url : option string) (policy : DiscoveryPolicy) : outcome unit :=
  let u := default "" url in
  if negb (nonempty u) then Err (Configuration "URL cannot be empty")
  else
    parsed ← urlparse u;
    if negb (nonempty (scheme parsed)) then
      Err (Configuration ("URL must include a scheme: " +:+ u))
    else if negb (is_http_scheme (scheme parsed)) then
      Err (Configuration ("URL must use HTTP or HTTPS scheme, got: " +:+ scheme parsed))
    else if negb (require_https policy) then Ok ()
    else if (scheme parsed ≟ "https") then Ok ()
    else if (scheme parsed ≟ "http") && allow_http_on_loopback policy && is_loopback (host_of parsed)
    then Ok ()
    else Err (HTTPSRequired ("HTTPS is required by discovery policy. Got: " +:+ u +:+
                ". Set require_https=False or use a loopback address.")).

(** ** validators.py *)

(** [urlparse] on a value out of JSON: a truthy non-string has no [decode]; a falsy one parses
    as empty. *)
Definition urlparse_val (v : pyval) : outcome ParseResult :=
  match v with
  | VStr s => urlparse s
  | _ => if truthy v then Err (AttributeError v "decode") else Ok (URL "" "" "" "" "" "")
  end.

Definition validate_issuer (issuer : pyval) (https : bool) : outcome unit :=
  if negb (truthy issuer) then Err (Configuration "Issuer parameter is required")
  else
    parsed ← urlparse_val issuer;
    _ ← (if https then
           raise_if (scheme parsed ≠? "https") (HTTPSRequired "Issuer must use HTTPS scheme")
         else
           raise_if (negb (is_http_scheme (scheme parsed)))
             (Configuration "Issuer must use HTTP or HTTPS scheme"));
    if nonempty (query parsed) || nonempty (fragment parsed) then
      Err (Configuration "Issuer must not contain query or fragment components")
    else
      raise_if (negb (nonempty (netloc parsed)))
        (Configuration "Issuer must be a valid URL with host").

Definition validate_https_url (url : pyval) (parameter_name : string) : outcome unit :=
  if negb (truthy url) then Ok ()
  else
    parsed ← urlparse_val url;
    if negb (nonempty (netloc parsed)) then
      Err (Configuration (parameter_name +:+ " must be an absolute URL with host"))
    else
      raise_if (scheme parsed ≠? "https")
        (HTTPSRequired (parameter_name +:+ " must use HTTPS scheme")).

Definition required_params : list string :=
  ["issuer"; "response_types_supported"; "subject_types_supported";
   "id_token_signing_alg_values_supported"].

(** [param not in data or data[param] is None], on whatever [response.json()] returned. *)
Definition param_missing (data : pyval) (param : string) : outcome bool :=
  match data with
  | VDict dd => Ok (is_none (dget param dd))
  | VList l => if py_mem (VStr param) l
               then Err (TypeErr "list indices must be integers or slices, not str") else Ok true
  | VStr s => if contains s param
              then Err (TypeErr "string indices must be integers, not 'str'") else Ok true
  | _ => Err (TypeErr ("argument of type '" +:+ type_name data +:+ "' is not iterable"))
  end.

Fixpoint missing_of (data : pyval) (ps : list string) : outcome (list string) :=
  match ps with
  | [] => Ok []
  | p :: ps' => m ← param_missing data p; r ← missing_of data ps'; Ok (if m : bool then p :: r else r)
  end.

Definition validate_required_parameters (data : pyval) : outcome unit :=
  missing ← missing_of data required_params;
  raise_if (match missing with [] => false | _ => true end)
    (MissingFields ("Missing required parameters: " +:+ str_join ", " missing) missing).

Definition validate_subject_types (subject_types : pyval) : outcome unit :=
  l ← py_iter subject_types;
  for_each (λ st, raise_if (negb (py_mem st (strs ["public"; "pairwise"])))
    (Discovery ("Invalid subject type: " +:+ py_str st +:+ ". Must be 'public' or 'pairwise'"))) l.

Definition valid_response_types : list string :=
  ["code"; "id_token"; "token"; "none"; "code id_token"; "code token"; "id_token token";
   "code id_token token"].

Definition validate_response_type (rt : pyval) : outcome unit :=
  if py_mem rt (strs valid_response_types) then Ok ()
  else match rt with
       | VStr s =>
           raise_if (negb (forallb (λ comp, bool_decide (comp ∈ ["code"; "id_token"; "token"]))
                                   (split_ws s)))
             (Discovery ("Invalid response type: " +:+ s))
       | _ => Err (AttributeError rt "split")
       end.

Definition validate_parameter_values (data : pydict) : outcome unit :=
  _ ← (let st := dget "subject_types_supported" data in
       if truthy st then validate_subject_types st else Ok ());
  let rts := dget "response_types_supported" data in
  if truthy rts then l ← py_iter rts; for_each validate_response_type l else Ok ().

Definition validate_issuer_with_policy (issuer : pyval) (policy : option DiscoveryPolicy)
    : outcome unit :=
  let go p https :=
    eff ← (if https && allow_http_on_loopback p then
             parsed ← urlparse_val issuer;
             Ok (if (scheme parsed ≟ "http") && is_loopback (host_of parsed) then false else https)
           else Ok https);
    validate_issuer issuer eff in
  match policy with
  | None => validate_issuer issuer true
  | Some p =>
      if validate_issuer_flag p then go p (require_https p)
      else raise_if (negb (truthy issuer)) (Configuration "Issuer parameter is required")
  end.

Definition validate_https_url_with_policy (url : pyval) (parameter_name : string)
    (policy : option DiscoveryPolicy) : outcome unit :=
  match policy with
  | None => validate_https_url url parameter_name
  | Some p =>
      if negb (validate_endpoints p) then Ok ()
      else if negb (truthy url) then Ok ()
      else
        parsed ← urlparse_val url;
        if negb (nonempty (netloc parsed)) then
          Err (Configuration (parameter_name +:+ " must be an absolute URL with host"))
        else if negb (is_http_scheme (scheme parsed)) then
          Err (Configuration (parameter_name +:+ " must use HTTP or HTTPS scheme, got: " +:+
                              scheme parsed))
        else if negb (require_https p) then Ok ()
        else if (scheme parsed ≟ "https") then Ok ()
        else if (scheme parsed ≟ "http") && allow_http_on_loopback p && is_loopback (host_of parsed)
        then Ok ()
        else Err (HTTPSRequired (parameter_name +:+ " must use HTTPS (policy: require_https=True)"))
  end.

(** ** What the checks promise

    [safe_url p u]: the URL parses with scheme [https], or with [http] where the policy allows
    it: HTTPS not required, or the host is loopback and the policy makes that exception. *)
Definition http_allowed (p : DiscoveryPolicy) (host : string) : bool :=
  negb (require_https p) || (allow_http_on_loopback p && is_loopback host).
Definition safe_url (p : DiscoveryPolicy) (u : string) : Prop :=
  ∃ r, urlparse u = Ok r ∧
    (scheme r = "https" ∨ (scheme r = "http" ∧ http_allowed p (host_of r) = true)).

(** ** Tests on concrete inputs *)

Example parse_disco_1 :
  parse_discovery_url "https://op.example.com/" =
    Ok (Endpoint "https://op.example.com/.well-known/openid-configuration" "https://op.example.com").
Proof. reflexivity. Qed.
Example scheme_1 : validate_url_scheme (Some "http://127.0.0.1:80/x") default_policy = Ok ().
Proof. reflexivity. Qed.
Example scheme_2 : is_ok (validate_url_scheme (Some "http://127.evil.com/x") default_policy) = false.
Proof. reflexivity. Qed.
Example scheme_3 : is_ok (validate_url_scheme (Some "file:///etc/passwd") (policy_with_https false)) = false.
Proof. reflexivity. Qed.
Example rt_1 : validate_response_type (VStr "token code") = Ok (). Proof. reflexivity. Qed.
Example rt_2 : is_ok (validate_response_type (VStr "code bogus")) = false. Proof. reflexivity. Qed.

(** ** Lemmas *)

Lemma is_http_scheme_spec s : is_http_scheme s = true ↔ s = "http" ∨ s = "https".
Proof. unfold is_http_scheme. by rewrite orb_true_iff, !bool_decide_eq_true. Qed.

Lemma http_allowed_default p :
  http_allowed default_policy p = is_loopback p.
Proof. done. Qed.

Lemma cache_key_inj p1 p2 : cache_key p1 = cache_key p2 → p1 = p2.
Proof. destruct p1, p2. unfold cache_key. simpl. intros. by simplify_eq. Qed.

Lemma scheme_decision p r :
  is_http_scheme (scheme r) = true →
  (if negb (require_https p) then true
   else if (scheme r ≟ "https") then true
   else (scheme r ≟ "http") && allow_http_on_loopback p && is_loopback (host_of r)) = true ↔
  scheme r = "https" ∨ (scheme r = "http" ∧ http_allowed p (host_of r) = true).
Proof.
  intros [H|H]%is_http_scheme_spec; rewrite H; unfold http_allowed; simpl.
  - destruct (require_https p), (allow_http_on_loopback p), (is_loopback _); naive_solver.
  - destruct (require_https p); naive_solver.
Qed.

Lemma validate_url_scheme_ok p u :
  validate_url_scheme u p = Ok () ↔ ∃ s, u = Some s ∧ nonempty s = true ∧ safe_url p s.
Proof.
  unfold validate_url_scheme, safe_url. split.
  - intros H. destruct u as [s|]; simpl in *; [|done].
    destruct (nonempty s) eqn:Es; [simpl in H|done].
    apply result_bind_ok in H as (r & Hr & H).
    destruct (nonempty (scheme r)); [simpl in H|done].
    destruct (is_http_scheme (scheme r)) eqn:Eh; [simpl in H|done].
    exists s. split_and!; [done..|]. exists r. split; [done|].
    apply scheme_decision; [done|].
    destruct (require_https p); [simpl in *|done].
    destruct (scheme r ≟ "https"); [done|]. by destruct (_ && _ && _).
  - intros (s & -> & Hs & r & Hr & Hsafe). simpl. rewrite Hs, Hr. simpl.
    assert (is_http_scheme (scheme r) = true) as Eh
      by (apply is_http_scheme_spec; destruct Hsafe as [|[]]; auto).
    assert (nonempty (scheme r) = true) as ->
      by (destruct Hsafe as [->|[-> _]]; done).
    rewrite Eh. simpl. apply (scheme_decision p r Eh) in Hsafe.
    destruct (require_https p); [simpl in *|done].
    destruct (scheme r ≟ "https"); [done|]. by rewrite Hsafe.
Qed.

Lemma urlparse_val_ok v r :
  truthy v = true → urlparse_val v = Ok r → ∃ s, v = VStr s ∧ urlparse s = Ok r.
Proof.
  intros Hv. unfold urlparse_val. destruct v; rewrite ?Hv; try done. intros H. by exists s.
Qed.

(** A truthy endpoint URL that passes the policy check is a safe URL with a host. *)
Lemma validate_https_url_with_policy_ok p v name :
  validate_endpoints p = true → truthy v = true →
  validate_https_url_with_policy v name (Some p) = Ok () ↔
  ∃ s, v = VStr s ∧ safe_url p s ∧ ∀ r, urlparse s = Ok r → nonempty (netloc r) = true.
Proof.
  intros Hve Hv. unfold validate_https_url_with_policy. rewrite Hve, Hv. simpl. split.
  - intros H. apply result_bind_ok in H as (r & Hr & H).
    apply urlparse_val_ok in Hr as (s & -> & Hr); [|done].
    destruct (nonempty (netloc r)) eqn:En; [simpl in H|done].
    destruct (is_http_scheme (scheme r)) eqn:Eh; [simpl in H|done].
    exists s. split; [done|]. split; [|intros r' Hr'; rewrite Hr in Hr'; by simplify_eq].
    exists r. split; [done|].
    apply scheme_decision; [done|].
    destruct (require_https p); [simpl in *|done].
    destruct (scheme r ≟ "https"); [done|]. by destruct (_ && _ && _).
  - intros (s & -> & (r & Hr & Hsafe) & Hnet). simpl. rewrite Hr. simpl.
    rewrite (Hnet r Hr). simpl.
    assert (is_http_scheme (scheme r) = true) as Eh
      by (apply is_http_scheme_spec; destruct Hsafe as [|[]]; auto).
    rewrite Eh. simpl. apply (scheme_decision p r Eh) in Hsafe.
    destruct (require_https p); [simpl in *|done].
    destruct (scheme r ≟ "https"); [done|]. by rewrite Hsafe.
Qed.

Lemma urlparse_err u e : urlparse u = Err e → exn_class e = BValueError.
Proof.
  unfold urlparse. destruct (split_scheme _) as [sch rest]. destruct (split_netloc rest) as [net rest'].
  intros H. apply result_bind_err in H as [H|(? & _ & H)].
  - unfold check_netloc_brackets, check_bracketed_netloc, check_bracketed_host in H.
    repeat case_match; try done; try (by injection H as <-); by apply raise_if_err in H as [_ <-].
  - repeat case_match; done.
Qed.

(** *** Issuers *)

(** An issuer the policy accepts: a URL with a host, no query and no fragment, and a scheme that
    is safe under the policy. *)
Definition issuer_ok (p : DiscoveryPolicy) (issuer : pyval) : Prop :=
  ∃ s r, issuer = VStr s ∧ nonempty s = true ∧ urlparse s = Ok r ∧
    (scheme r = "https" ∨ (scheme r = "http" ∧ http_allowed p (host_of r) = true)) ∧
    nonempty (netloc r) = true ∧ query r = "" ∧ fragment r = "".

Lemma validate_issuer_ok issuer https :
  validate_issuer issuer https = Ok () ↔
  ∃ s r, issuer = VStr s ∧ nonempty s = true ∧ urlparse s = Ok r ∧
    (if https then scheme r = "https" else is_http_scheme (scheme r) = true) ∧
    nonempty (netloc r) = true ∧ query r = "" ∧ fragment r = "".
Proof.
  unfold validate_issuer. split.
  - destruct (truthy issuer) eqn:Et; cbn [negb]; [|done]. intros H.
    apply result_bind_ok in H as (r & Hr & H). apply urlparse_val_ok in Hr as (s & -> & Hr); [|done].
    apply result_bind_ok in H as ([] & Hs & H).
    destruct (nonempty (query r) || nonempty (fragment r)) eqn:Eq; [done|].
    apply orb_false_iff in Eq as [Eq Ef]. apply raise_if_ok, negb_false_iff in H.
    exists s, r. split_and!; try done; try by apply nonempty_false.
    destruct https; apply raise_if_ok, negb_false_iff in Hs; [by apply bool_decide_eq_true in Hs|done].
  - intros (s & r & -> & Hs & Hr & Hsch & Hn & Hq & Hf). cbn [truthy]. rewrite Hs. cbn [negb].
    cbn [urlparse_val]. rewrite Hr. cbn [mbind result_bind].
    assert ((if https then raise_if (scheme r ≠? "https") (HTTPSRequired "Issuer must use HTTPS scheme")
      else raise_if (negb (is_http_scheme (scheme r)))
             (Configuration "Issuer must use HTTP or HTTPS scheme")) = Ok ()) as ->.
    { destruct https; [rewrite Hsch|by rewrite Hsch]. by bd_refl. }
    cbn [mbind result_bind]. by rewrite Hq, Hf, Hn.
Qed.

(** ** Properties *)

(** The pre-flight check lets through exactly the safe URLs: absolute, [https], or [http] where
    the policy does not require HTTPS or excepts the loopback host.  The HTTPS error is raised
    exactly for an [http] URL the policy does not allow; every other refusal is another error. *)
Theorem url_scheme_check p u :
  nonempty u = true →
  match validate_url_scheme (Some u) p with
  | Ok _ => safe_url p u
  | Err e => ¬ safe_url p u ∧
      (exn_class e = DiscoveryHTTPSRequiredError ↔
         ∃ r, urlparse u = Ok r ∧ scheme r = "http" ∧ http_allowed p (host_of r) = false)
  end.
Proof.
  intros Hu. destruct (validate_url_scheme (Some u) p) as [[]|e] eqn:Ev.
  { by apply validate_url_scheme_ok in Ev as (? & [= <-] & _ & ?). }
  split.
  { intros Hs. assert (validate_url_scheme (Some u) p = Ok ()) as Hok
      by (apply validate_url_scheme_ok; eauto). congruence. }
  unfold validate_url_scheme in Ev. cbn [default from_option id] in Ev. rewrite Hu in Ev. cbn [negb] in Ev.
  destruct (urlparse u) as [r|e0] eqn:Er; cbn [mbind result_bind] in Ev.
  2: { injection Ev as <-. split; [|by intros (? & ? & _)]. by apply urlparse_err in Er as ->. }
  destruct (nonempty (scheme r)) eqn:En; cbn [negb] in Ev.
  2: { injection Ev as <-. split; [done|]. intros (? & [= <-] & Hh & _). by rewrite Hh in En. }
  destruct (is_http_scheme (scheme r)) eqn:Eh; cbn [negb] in Ev.
  2: { injection Ev as <-. split; [done|]. intros (? & [= <-] & Hh & _). by rewrite Hh in Eh. }
  destruct (require_https p) eqn:Eq; cbn [negb] in Ev; [|done].
  destruct (scheme r ≟ "https") eqn:Es; [done|].
  apply is_http_scheme_spec in Eh as [Eh|Eh]; [|by rewrite Eh in Es].
  rewrite Eh in Ev. destruct (_ && is_loopback _) eqn:El in Ev; [done|]. injection Ev as <-.
  split; [|done]. intros _. exists r. split_and!; [done..|]. unfold http_allowed. rewrite Eq. exact El.
Qed.

(** The issuer check of a policy that validates issuers accepts exactly the acceptable
    issuers: strings that parse with a host, without query or fragment, and with a scheme that
    is safe under the policy. *)
Theorem issuer_check_spec p issuer :
  validate_issuer_flag p = true →
  validate_issuer_with_policy issuer (Some p) = Ok () ↔ issuer_ok p issuer.
Proof.
  intros Hp. unfold validate_issuer_with_policy, issuer_ok. rewrite Hp. split.
  - intros H. apply result_bind_ok in H as (eff & He & H).
    apply validate_issuer_ok in H as (s & r & -> & Hs & Hr & Hsch & Hrest).
    exists s, r. split_and!; try done; try apply Hrest. unfold http_allowed.
    destruct (require_https p), (allow_http_on_loopback p); cbn [andb] in He.
    + cbn [urlparse_val] in He. rewrite Hr in He. cbn [mbind result_bind] in He. injection He as <-.
      destruct (scheme r ≟ "http") eqn:Eh; cbn [andb] in Hsch; [|by left].
      apply bool_decide_eq_true in Eh. destruct (is_loopback _); [by right|by left].
    + injection He as <-. by left.
    + injection He as <-. apply is_http_scheme_spec in Hsch as [|]; [by right|by left].
    + injection He as <-. apply is_http_scheme_spec in Hsch as [|]; [by right|by left].
  - intros (s & r & -> & Hs & Hr & Hsch & Hrest).
    assert (is_http_scheme (scheme r) = true) as Hh
      by (apply is_http_scheme_spec; destruct Hsch as [|[]]; auto).
    assert (Hval : ∀ https : bool, (if https then scheme r = "https" else is_http_scheme (scheme r) = true) →
      validate_issuer (VStr s) https = Ok ()).
    { intros https Hc. apply validate_issuer_ok. exists s, r. by split_and!; try apply Hrest. }
    unfold http_allowed in Hsch.
    destruct (require_https p), (allow_http_on_loopback p); cbn [andb negb orb] in *;
      try by apply Hval.
    + cbn [urlparse_val]. rewrite Hr. cbn [mbind result_bind]. apply Hval.
      destruct Hsch as [Hsch|[Hsch Hl]]; rewrite Hsch; simpl; [done|by rewrite Hl].
    + apply Hval. by destruct Hsch as [|[]].
Qed.

(** *** Witnesses *)

Lemma url_scheme_check_witness : safe_url default_policy "http://127.0.0.1:8080/x".
Proof. exact (url_scheme_check default_policy "http://127.0.0.1:8080/x" eq_refl). Defined.

Lemma issuer_check_spec_witness : issuer_ok default_policy (VStr "https://op.example").
Proof. apply (issuer_check_spec default_policy (VStr "https://op.example") eq_refl). reflexivity. Defined.
