(* ===== verification/HttpRetry.v ===== *)
(** * HTTP retries ([core/http_utils.py], [sync/http_client.py])

    The retry configuration, the [Retry-After] parsing, the back-off, the redirect block and the
    retry loop around one HTTP call.  The network is a parameter: [http n url] is what the [n]-th
    request of the process gets, a response or an [httpx.RequestError].  The state records the
    requests sent and the time slept, newest first. *)

From S2P Require Import Prelude PyStr PyValue Models.
From Stdlib Require Import QArith Qminmax Lqa Ascii.
From stdpp Require Import strings.
#[global] Close Scope Q_scope.
Open Scope string_scope.
Open Scope list_scope.
Open Scope nat_scope.
Open Scope py_scope.

(** An [httpx.Response]: what the library reads of it.  [resp_content] is the body, a character
    per byte; [resp_json] is [response.json()], with the message of the [ValueError] for a body
    that is not JSON; [resp_url] is [None] where [response.url] raises [RuntimeError]. *)
Record HttpResponse : Type := Response {
  resp_status : Z;
  resp_headers : list (string * string);
  resp_content : string;
  resp_json : result string pyval;
  resp_url : option string;
}.

(** Header names are case-insensitive. *)
Fixpoint header_get (name : string) (hs : list (string * string)) : option string :=
  match hs with
  | [] => None
  | (k, v) :: hs' => if lower k ≟ lower name then Some v else header_get name hs'
  end.
Definition header (name : string) (r : HttpResponse) : option string :=
  header_get name (resp_headers r).
Definition is_success (r : HttpResponse) : bool :=
  (200 <=? resp_status r)%Z && (resp_status r <=? 299)%Z.

(** ** Configuration *)

Definition MAX_RETRY_DELAY_SECONDS : Q := 120.
Definition HTTP_TOO_MANY_REQUESTS : Z := 429.
Definition HTTP_INTERNAL_SERVER_ERROR : Z := 500.
Definition HTTP_REDIRECT_MIN : Z := 300.
Definition HTTP_REDIRECT_MAX : Z := 399.

(** [a or b] on strings that may be absent. *)
Definition str_or (a b : option string) : option string :=
  match a with Some s => if nonempty s then a else b | None => b end.

Definition to_int (s : string) : outcome Z :=
  match int_of_string s with
  | Some z => Ok z
  | None => Err (mk_exn BValueError ("invalid literal for int() with base 10: '" +:+ s +:+ "'"))
  end.
Definition to_float (s : string) : outcome pyfloat :=
  match float_of_string s with
  | Some f => Ok f
  | None => Err (mk_exn BValueError ("could not convert string to float: '" +:+ s +:+ "'"))
  end.

Definition get_retry_config (env : string → option string) : outcome (Z * pyfloat) :=
  max_retries ← to_int (default "3" (str_or (env "HTTP_RETRY_MAX_ATTEMPTS")
                                            (str_or (env "HTTP_RETRY_COUNT") (Some "3"))));
  base_delay ← to_float (default "1.0" (env "HTTP_RETRY_BASE_DELAY"));
  Ok (max_retries, base_delay).

Definition get_retry_params (env : string → option string) (max_retries : option Z)
    (base_delay : option pyfloat) : outcome (Z * pyfloat) :=
  '(env_max, env_base) ← get_retry_config env;
  Ok (default env_max max_retries, default env_base base_delay).

Definition should_retry_response (r : HttpResponse) (attempt : nat) (retries : Z) : bool :=
  ((resp_status r =? HTTP_TOO_MANY_REQUESTS)%Z || (HTTP_INTERNAL_SERVER_ERROR <=? resp_status r)%Z)
  && (Z.of_nat attempt <? retries)%Z.

Definition float_scale (f : pyfloat) (q : Q) : pyfloat :=
  match f with FFin v => FFin (v * q)%Q | _ => f end.
Definition calculate_delay (base_delay : pyfloat) (attempt : nat) : pyfloat :=
  float_scale base_delay (inject_Z (2 ^ Z.of_nat attempt)).

Definition float_max (a b : pyfloat) : pyfloat := if float_lt a b then b else a.
Definition float_min (a b : pyfloat) : pyfloat := if float_lt b a then b else a.

(** The stored state of the network layer. *)
Record net : Type := Net { sent : list string; slept : list Q; reads : nat }.

Section Retry.
(** [email.utils.parsedate_to_datetime(v).timestamp()]: the epoch seconds of an HTTP date, in
    UTC when it names no zone; [None] when it is not a date. *)
Context (http_date : string → option Q).

(** [time.time()] when the retry is decided. *)
Context (wall : Q).

Definition parse_retry_after (value : option string) : outcome (option pyfloat) :=
  match value with
  | None => Ok None
  | Some v =>
      let v := strip v in
      if negb (nonempty v) then Ok None
      else if isdigit v then Some <$> to_float v
      else match http_date v with
           | None => Ok None
           | Some retry_at => Ok (Some (float_max (FFin 0) (FFin (retry_at - wall)%Q)))
           end
  end.

Definition resolve_retry_delay (r : HttpResponse) (base_delay : pyfloat) (attempt : nat)
    : outcome pyfloat :=
  let backoff := calculate_delay base_delay attempt in
  retry_after ← parse_retry_after (header "Retry-After" r);
  match retry_after with
  | None => Ok backoff
  | Some ra => Ok (float_min (float_max backoff ra) (FFin MAX_RETRY_DELAY_SECONDS))
  end.

Definition check_no_redirect (r : HttpResponse) : outcome unit :=
  raise_if ((HTTP_REDIRECT_MIN <=? resp_status r)%Z && (resp_status r <=? HTTP_REDIRECT_MAX)%Z)
    (mk_exn NetworkException
      ("HTTP " +:+ str_of_int (resp_status r) +:+ " redirect blocked — target: '" +:+
       default "<not provided>" (header "location" r) +:+
       "'. Redirect following is disabled to prevent SSRF attacks.")).

(** [time.sleep] refuses a negative, infinite or not-a-number delay. *)
Definition sleep (delay : pyfloat) : stM net exn unit :=
  match delay with
  | FFin q =>
      if negb (Qle_bool 0 q) then mthrow (mk_exn BValueError "sleep length must be non-negative")
      else modify (λ s, Net (sent s) (q :: slept s) (reads s))
  | FNan => mthrow (mk_exn BValueError "Invalid value NaN (not a number)")
  | FInf true => mthrow (mk_exn BValueError "sleep length must be non-negative")
  | FInf false => mthrow (mk_exn BOther "timestamp too large to convert to C PyTime_t")
  end.

(** [time.monotonic()]: the [n]-th reading of the process's clock. *)
Definition monotonic (clock : nat → Q) : stM net exn Q := λ s,
  (Ok (clock (reads s)), Net (sent s) (slept s) (S (reads s))).

Section Loop.
(** The wrapped call, [func] in [retry_with_backoff]. *)
Context (call : stM net exn HttpResponse).

Definition no_response : exn := mk_exn BRuntimeError "No response received after retries".

(** The body of the [for attempt in range(retries + 1)] loop and the statements after it;
    [fuel] is the number of iterations left. *)
Fixpoint attempts (fuel attempt : nat) (retries : Z) (delay_base : pyfloat)
    (last_exception : option exn) : stM net exn HttpResponse :=
  match fuel with
  | O => mthrow (default no_response last_exception)
  | S fuel' => λ s,
      match call s with
      | (Ok response, s') =>
          (if should_retry_response response attempt retries then
             delay ← lift (resolve_retry_delay response delay_base attempt);
             _ ← sleep delay;
             attempts fuel' (S attempt) retries delay_base last_exception
           else
             _ ← lift (check_no_redirect response);
             mret response) s'
      | (Err e, s') =>
          (if isinstance e HttpxRequestError then
             if (Z.of_nat attempt <? retries)%Z then
               _ ← sleep (calculate_delay delay_base attempt);
               attempts fuel' (S attempt) retries delay_base (Some e)
             else mthrow e
           else mthrow e) s'
      end
  end.

(** [retry_with_backoff(max_retries, base_delay)(func)]. *)
Definition retry_with_backoff (env : string → option string) (max_retries : option Z)
    (base_delay : option pyfloat) : stM net exn HttpResponse :=
  '(retries, delay_base) ← lift (get_retry_params env max_retries base_delay);
  attempts (Z.to_nat (retries + 1)) 0 retries delay_base None.
End Loop.

(** [client.get(url)]: one request. *)
Definition client_get (http : nat → string → outcome HttpResponse) (url : string)
    : stM net exn HttpResponse := λ s,
  (http (length (sent s)) url, Net (url :: sent s) (slept s) (reads s)).
End Retry.

Definition ok_200 : HttpResponse := Response 200 [] "" (Err "no JSON") None.
Definition busy_429 (ra : list (string * string)) : HttpResponse := Response 429 ra "" (Err "no JSON") None.
Definition no_dates : string → option Q := λ _, None.

(** ** Tests on concrete inputs *)

Example retry_after_1 : parse_retry_after no_dates 0 (Some " 30 ") = Ok (Some (FFin 30)).
Proof. reflexivity. Qed.
Example resolve_1 :
  resolve_retry_delay no_dates 0 (busy_429 [("retry-after", "99999")]) (FFin 1) 0 = Ok (FFin 120).
Proof. reflexivity. Qed.
Example loop_1 :
  let m := client_get (λ n _, if n <? 2 then Ok (busy_429 []) else Ok ok_200) "u" in
  attempts no_dates 0 m 4 0 3 (FFin 1) None (Net [] [] 0) =
    (Ok ok_200, Net ["u"; "u"; "u"] [inject_Z 2; inject_Z 1] 0).
Proof. reflexivity. Qed.

(** ** Lemmas *)

Lemma subclass_request e : isinstance e HttpxRequestError = true ↔ exn_class e = HttpxRequestError.
Proof. unfold isinstance. by destruct (exn_class e). Qed.

Lemma sleep_sent d s : sent (sleep d s).2 = sent s.
Proof. unfold sleep. destruct d as [|[]|q]; simpl; [done..|]. by destruct (Qle_bool 0 q). Qed.

Section RetryFacts.
Context (http_date : string → option Q) (wall : Q).
Context (http : nat → string → outcome HttpResponse) (url : string).

Local Abbreviation get := (client_get http url).
Local Abbreviation loop := (attempts http_date wall get).

(** One iteration, with the request it sends made explicit. *)
Lemma attempts_step fuel attempt retries base last s o :
  http (length (sent s)) url = o →
  attempts http_date wall (client_get http url) (S fuel) attempt retries base last s =
    (match o with
     | Ok response =>
         if should_retry_response response attempt retries then
           delay ← lift (resolve_retry_delay http_date wall response base attempt);
           _ ← sleep delay;
           attempts http_date wall (client_get http url) fuel (S attempt) retries base last
         else
           _ ← lift (check_no_redirect response);
           mret response
     | Err e =>
         if isinstance e HttpxRequestError then
           if (Z.of_nat attempt <? retries)%Z then
             _ ← sleep (calculate_delay base attempt);
             attempts http_date wall (client_get http url) fuel (S attempt) retries base (Some e)
           else mthrow e
         else mthrow e
     end) (Net (url :: sent s) (slept s) (reads s)).
Proof. intros <-. simpl. by destruct (http _ url). Qed.

Lemma attempts_sent fuel attempt retries base last s :
  ∃ n, n ≤ fuel ∧ sent (loop fuel attempt retries base last s).2 = replicate n url ++ sent s.
Proof.
  revert attempt last s. induction fuel as [|fuel IH]; intros attempt last s; [by exists 0|].
  assert (Hone : ∀ s', sent s' = url :: sent s →
    ∃ n, n ≤ S fuel ∧ sent s' = replicate n url ++ sent s) by (exists 1; split; [lia|done]).
  assert (Hrec : ∀ att l s', sent s' = url :: sent s →
    ∃ n, n ≤ S fuel ∧ sent (loop fuel att retries base l s').2 = replicate n url ++ sent s).
  { intros att l s' Hs. destruct (IH att l s') as (n & Hn & ->). exists (S n). split; [lia|].
    by rewrite Hs, (replicate_S_end n), <- app_assoc. }
  assert (Hsleep : ∀ d att l s', sent s' = url :: sent s → ∃ n, n ≤ S fuel ∧
    sent ((_ ← sleep d; loop fuel att retries base l) s').2 = replicate n url ++ sent s).
  { intros d att l s' Hs. unfold mbind, stM_bind. pose proof (sleep_sent d s') as Hss.
    destruct (sleep d s') as [[[]|e] s'']; simpl in Hss.
    - apply Hrec. congruence.
    - apply Hone. simpl. congruence. }
  rewrite (attempts_step _ _ _ _ _ _ _ eq_refl). destruct (http _ url) as [r|e].
  - destruct (should_retry_response r attempt retries).
    + unfold lift. unfold mbind at 1, stM_bind at 1.
      destruct (resolve_retry_delay _ _ _ _ _); [by apply Hsleep|by apply Hone].
    + unfold mbind, stM_bind, lift. destruct (check_no_redirect r); by apply Hone.
  - destruct (isinstance e HttpxRequestError); [|by apply Hone].
    destruct (Z.of_nat attempt <? retries)%Z; [by apply Hsleep|by apply Hone].
Qed.

(** Whatever comes back is an answer of the network for that URL. *)
Lemma attempts_answer fuel attempt retries base last s r s' :
  loop fuel attempt retries base last s = (Ok r, s') → ∃ n, http n url = Ok r.
Proof.
  revert attempt last s. induction fuel as [|fuel IH]; intros attempt last s; [done|].
  rewrite (attempts_step _ _ _ _ _ _ _ eq_refl).
  destruct (http _ url) as [r0|e] eqn:Eh; unfold mbind, stM_bind, lift.
  - destruct (should_retry_response r0 attempt retries).
    + destruct (resolve_retry_delay _ _ _ _ _); [|done].
      destruct (sleep _ _) as [[[]|] s1]; [apply IH|done].
    + destruct (check_no_redirect r0); [|done]. intros [= <- <-]. by eexists.
  - destruct (isinstance e HttpxRequestError); [|done].
    destruct (Z.of_nat attempt <? retries)%Z; [|done].
    destruct (sleep _ _) as [[[]|] s1]; [apply IH|done].
Qed.

Lemma retry_answer env mr bd s r s' :
  retry_with_backoff http_date wall get env mr bd s = (Ok r, s') → ∃ n, http n url = Ok r.
Proof.
  unfold retry_with_backoff, mbind, stM_bind, lift.
  destruct (get_retry_params env mr bd) as [[retries base]|e]; [|done].
  apply attempts_answer.
Qed.

Lemma retry_sent env mr bd s :
  ∃ n, sent (retry_with_backoff http_date wall get env mr bd s).2 = replicate n url ++ sent s.
Proof.
  unfold retry_with_backoff, mbind, stM_bind, lift.
  destruct (get_retry_params env mr bd) as [[retries base]|e]; [|by exists 0].
  edestruct attempts_sent as (n & _ & Hn). by exists n.
Qed.
End RetryFacts.

(** ** The specification of the loop *)

(** An answer worth retrying: 429, 5xx, or a transport error. *)
Definition transient (o : outcome HttpResponse) : bool :=
  match o with
  | Ok r => (resp_status r =? HTTP_TOO_MANY_REQUESTS)%Z ||
            (HTTP_INTERNAL_SERVER_ERROR <=? resp_status r)%Z
  | Err e => isinstance e HttpxRequestError
  end.
(** What the caller gets for the last answer: redirects are blocked. *)
Definition final_answer (o : outcome HttpResponse) : outcome HttpResponse :=
  r ← o; _ ← check_no_redirect r; Ok r.

(** Sleeping is possible after every answer: the delay is a finite non-negative number. *)
Definition delays_ok (http_date : string → option Q) (wall : Q) (base : pyfloat)
    (http : nat → string → outcome HttpResponse) (url : string) : Prop :=
  (∃ q, base = FFin q ∧ (0 <= q)%Q) ∧
  ∀ n r att, http n url = Ok r →
    ∃ q, resolve_retry_delay http_date wall r base att = Ok (FFin q) ∧ (0 <= q)%Q.

Lemma sleep_ok q s : (0 <= q)%Q → sleep (FFin q) s = (Ok (), Net (sent s) (q :: slept s) (reads s)).
Proof. intros H. unfold sleep. apply Qle_bool_iff in H. by rewrite H. Qed.

Lemma backoff_ok q att : (0 <= q)%Q → (0 <= q * inject_Z (2 ^ Z.of_nat att))%Q.
Proof.
  intros H. apply Qmult_le_0_compat; [done|]. change 0%Q with (inject_Z 0).
  rewrite <- Zle_Qle. apply Z.pow_nonneg. lia.
Qed.

(** A first answer that is neither transient nor a redirect is the result, of one request. *)
Lemma retry_first http_date wall http url env retries base r s :
  get_retry_config env = Ok (retries, base) → (0 ≤ retries)%Z →
  http (length (sent s)) url = Ok r → transient (Ok r) = false → final_answer (Ok r) = Ok r →
  retry_with_backoff http_date wall (client_get http url) env None None s =
    (Ok r, Net (url :: sent s) (slept s) (reads s)).
Proof.
  intros Hcfg Hr Hh Ht Hf. unfold retry_with_backoff, get_retry_params. rewrite Hcfg.
  unfold mbind, stM_bind, lift. cbn [mbind result_bind default from_option id].
  assert (Z.to_nat (retries + 1) = S (Z.to_nat retries)) as -> by lia.
  rewrite (attempts_step _ _ _ _ _ _ _ _ _ _ _ Hh). unfold should_retry_response.
  cbn [transient] in Ht. rewrite Ht. cbn [andb]. unfold mbind, stM_bind, lift.
  unfold final_answer in Hf. cbn in Hf. by destruct (check_no_redirect r) as [[]|].
Qed.

Section RetrySpec.
Context (http_date : string → option Q) (wall : Q).
Context (http : nat → string → outcome HttpResponse) (url : string).

Lemma attempts_outcome fuel attempt retries base last s :
  delays_ok http_date wall base http url →
  (Z.of_nat attempt + Z.of_nat fuel = retries)%Z →
  ∃ j, j ≤ fuel ∧
    (∀ i, i < j → transient (http (length (sent s) + i) url) = true) ∧
    (j = fuel ∨ transient (http (length (sent s) + j) url) = false) ∧
    let m := attempts http_date wall (client_get http url) (S fuel) attempt retries base last s in
    m.1 = final_answer (http (length (sent s) + j) url) ∧
    sent m.2 = replicate (S j) url ++ sent s.
Proof.
  intros Hd. revert attempt last s.
  induction fuel as [|fuel IH]; intros attempt last s Hsum;
    remember (http (length (sent s)) url) as ans eqn:Hans.
  - exists 0. split_and!; [lia|lia|by left|]. rewrite Nat.add_0_r, <- Hans.
    cbn zeta. rewrite (attempts_step _ _ _ _ _ _ _ _ _ _ _ (eq_sym Hans)).
    assert (Hlt : (Z.of_nat attempt <? retries)%Z = false) by (apply Z.ltb_ge; lia).
    destruct ans as [r|e]; cbn [final_answer mbind result_bind].
    + unfold should_retry_response. rewrite Hlt, andb_false_r.
      unfold mbind, stM_bind, lift. by split; destruct (check_no_redirect r).
    + rewrite Hlt. by split; destruct (isinstance e _).
  - destruct (transient ans) eqn:Ht; cycle 1.
    { exists 0. split_and!; [lia|lia|right; by rewrite Nat.add_0_r, <- Hans|].
      rewrite Nat.add_0_r, <- Hans. cbn zeta.
      rewrite (attempts_step _ _ _ _ _ _ _ _ _ _ _ (eq_sym Hans)).
      destruct ans as [r|e]; cbn [transient] in Ht; cbn [final_answer mbind result_bind].
      - unfold should_retry_response. rewrite Ht, andb_false_l.
        unfold mbind, stM_bind, lift. by split; destruct (check_no_redirect r).
      - by split; rewrite Ht. }
    assert (Hlt : (Z.of_nat attempt <? retries)%Z = true) by (apply Z.ltb_lt; lia).
    assert (Hstep : ∃ q last',
      attempts http_date wall (client_get http url) (S (S fuel)) attempt retries base last s =
      attempts http_date wall (client_get http url) (S fuel) (S attempt) retries base last'
        (Net (url :: sent s) (q :: slept s) (reads s))).
    { destruct Hd as [(qb & -> & Hqb) Hd].
      destruct ans as [r|e]; cbn [transient] in Ht.
      - destruct (Hd _ r attempt (eq_sym Hans)) as (q & Hq & Hq0).
        exists q, last. rewrite (attempts_step _ _ _ _ _ _ _ _ _ _ _ (eq_sym Hans)).
        unfold should_retry_response. rewrite Ht, Hlt. cbn [andb].
        unfold mbind, stM_bind, lift. by rewrite Hq, sleep_ok.
      - exists (qb * inject_Z (2 ^ Z.of_nat attempt))%Q, (Some e).
        rewrite (attempts_step _ _ _ _ _ _ _ _ _ _ _ (eq_sym Hans)), Ht, Hlt.
        unfold mbind, stM_bind. cbn [calculate_delay float_scale].
        by rewrite sleep_ok by (by apply backoff_ok). }
    destruct Hstep as (q & last' & Hstep). rewrite Hstep.
    destruct (IH (S attempt) last' (Net (url :: sent s) (q :: slept s) (reads s)))
      as (j & Hj & Htr & Hend & Hres & Hsent); [lia|].
    cbn [sent length] in *. exists (S j). rewrite <- Nat.add_succ_comm. split_and!.
    + lia.
    + intros [|i] Hi; [by rewrite Nat.add_0_r, <- Hans|]. rewrite <- Nat.add_succ_comm.
      apply Htr. lia.
    + destruct Hend; [left; lia|by right].
    + exact Hres.
    + rewrite Hsent. rewrite (replicate_S_end (S j)), <- app_assoc. done.
Qed.
End RetrySpec.

Lemma parse_retry_after_nonneg http_date wall v f :
  parse_retry_after http_date wall v = Ok (Some f) → float_lt f (FFin 0) = false.
Proof.
  unfold parse_retry_after. destruct v as [v|]; [|done].
  destruct (nonempty (strip v)) eqn:En; [simpl|done].
  destruct (isdigit (strip v)) eqn:Ed.
  - unfold to_float. rewrite float_of_digits by done.
    destruct (sforall is_dec_digit (strip v)) eqn:Edd; [|done]. cbn zeta.
    destruct (Qle_bool float_overflow _); simpl; intros; simplify_eq/=; [done|].
    apply negb_false_iff, Qle_bool_iff. rewrite Qred_correct.
    apply Qmult_le_0_compat; [|done]. change 0%Q with (inject_Z 0). rewrite <- Zle_Qle.
    clear -Edd. revert Edd. generalize (strip v). assert (Hg : ∀ s acc, (0 ≤ acc)%Z →
      sforall is_dec_digit s = true → (0 ≤ dec_value acc s)%Z).
    { induction s as [|c s IH]; intros acc Ha; simpl; [done|].
      intros [Hc Hs]%andb_true_iff. apply IH; [|done]. unfold is_dec_digit, code_in in Hc.
      apply andb_true_iff in Hc as [Hc _]. apply Nat.leb_le in Hc. unfold digit_val. lia. }
    intros s Hs. by apply Hg.
  - destruct (http_date _); intros; simplify_eq. unfold float_max.
    destruct (float_lt (FFin 0) (FFin (q - wall))) eqn:El; [|done].
    apply float_lt_fin in El. apply negb_false_iff, Qle_bool_iff. lra.
Qed.

(** ** Properties *)

(** The retry loop does what a reader expects of "retry on 429, 5xx and transport errors":
    with a non-negative retry budget it sends [j + 1] requests where [j] is the first attempt
    whose answer is not transient (or the budget), all to the given URL, and its result is that
    last answer with redirects refused.  In particular it terminates, never exceeds the budget,
    and the statements after the loop are unreachable. *)
Theorem retry_loop_spec http_date wall http url retries base s :
  (0 ≤ retries)%Z → delays_ok http_date wall base http url →
  ∃ j, (Z.of_nat j ≤ retries)%Z ∧
    (∀ i, i < j → transient (http (length (sent s) + i) url) = true) ∧
    (Z.of_nat j = retries ∨ transient (http (length (sent s) + j) url) = false) ∧
    let m := attempts http_date wall (client_get http url)
               (Z.to_nat (retries + 1)) 0 retries base None s in
    m.1 = final_answer (http (length (sent s) + j) url) ∧
    sent m.2 = replicate (S j) url ++ sent s.
Proof.
  intros Hr Hd. replace (Z.to_nat (retries + 1)) with (S (Z.to_nat retries)) by lia.
  destruct (attempts_outcome http_date wall http url (Z.to_nat retries) 0 retries base None s Hd)
    as (j & Hj & Htr & Hend & Hres); [lia|].
  exists j. split; [lia|]. split; [done|]. split; [|exact Hres].
  destruct Hend as [->|]; [left; lia|by right].
Qed.

(** The delay before a retry.  With a parseable [Retry-After] it is the larger of that and
    the back-off, and never more than 120 seconds; without one it is the bare exponential
    back-off [base * 2^attempt], which no bound limits. *)
Theorem retry_delay_spec http_date wall r base attempt :
  match parse_retry_after http_date wall (header "Retry-After" r) with
  | Err e => resolve_retry_delay http_date wall r base attempt = Err e
  | Ok None => resolve_retry_delay http_date wall r base attempt = Ok (calculate_delay base attempt)
  | Ok (Some ra) =>
      ∃ d, resolve_retry_delay http_date wall r base attempt = Ok d ∧
        float_lt (FFin MAX_RETRY_DELAY_SECONDS) d = false ∧
        (∀ q qa qb, base = FFin q → ra = FFin qa →
           qb = (q * inject_Z (2 ^ Z.of_nat attempt))%Q →
           ∃ qd, d = FFin qd ∧ (qd == Qminmax.Qmin (Qminmax.Qmax qb qa) 120)%Q)
  end.
Proof.
  unfold resolve_retry_delay. destruct (parse_retry_after _ _ _) as [[ra|]|e] eqn:Ep; try done.
  simpl. eexists. split; [done|]. split.
  - unfold float_min. by destruct (float_lt (FFin MAX_RETRY_DELAY_SECONDS) _) eqn:El.
  - intros q qa qb -> -> Hqb. simpl. rewrite <- Hqb. unfold float_max, float_min.
    destruct (float_lt (FFin qb) (FFin qa)) eqn:E1.
    + apply float_lt_fin in E1.
      destruct (float_lt (FFin MAX_RETRY_DELAY_SECONDS) (FFin qa)) eqn:E2.
      * apply float_lt_fin in E2. eexists; split; [done|]. unfold MAX_RETRY_DELAY_SECONDS in *.
        rewrite Qminmax.Q.max_r, Qminmax.Q.min_r by lra. reflexivity.
      * apply negb_false_iff, Qle_bool_iff in E2. eexists; split; [done|].
        unfold MAX_RETRY_DELAY_SECONDS in *. rewrite Qminmax.Q.max_r, Qminmax.Q.min_l by lra.
        reflexivity.
    + apply negb_false_iff, Qle_bool_iff in E1.
      destruct (float_lt (FFin MAX_RETRY_DELAY_SECONDS) (FFin qb)) eqn:E2.
      * apply float_lt_fin in E2. eexists; split; [done|]. unfold MAX_RETRY_DELAY_SECONDS in *.
        rewrite Qminmax.Q.max_l, Qminmax.Q.min_r by lra. reflexivity.
      * apply negb_false_iff, Qle_bool_iff in E2. eexists; split; [done|].
        unfold MAX_RETRY_DELAY_SECONDS in *. rewrite Qminmax.Q.max_l, Qminmax.Q.min_l by lra.
        reflexivity.
Qed.

(** [parse_retry_after] is documented never to raise ("[None] when the header cannot be
    parsed") and never to be negative.  It raises exactly on the values [str.isdigit] accepts and
    [float] does not: digits with a superscript among them; otherwise the delay is not negative. *)
Theorem parse_retry_after_errors http_date wall v :
  (is_ok (parse_retry_after http_date wall v) = false ↔
     ∃ s, v = Some s ∧ isdigit (strip s) = true ∧ sforall is_dec_digit (strip s) = false) ∧
  (∀ f, parse_retry_after http_date wall v = Ok (Some f) → float_lt f (FFin 0) = false).
Proof.
  split; [|apply parse_retry_after_nonneg].
  unfold parse_retry_after. destruct v as [s|]; [|split; [done|by intros (? & ? & _)]].
  destruct (nonempty (strip s)) eqn:En; simpl.
  - destruct (isdigit (strip s)) eqn:Ed.
    + unfold to_float. rewrite float_of_digits by done.
      destruct (sforall is_dec_digit (strip s)) eqn:Edd; simpl.
      * split; [done|]. intros (t & [= <-] & _ & H). congruence.
      * split; [|done]. by exists s.
    + split; [by destruct (http_date _)|]. intros (t & [= <-] & H & _). congruence.
  - split; [done|]. intros (t & [= <-] & H & _). unfold isdigit in H.
    rewrite En in H. done.
Qed.

(** *** Witnesses *)

Definition flaky (n : nat) (url : string) : outcome HttpResponse :=
  if n <? 2 then Ok (busy_429 []) else Ok ok_200.

Lemma flaky_delays : delays_ok no_dates 0 (FFin 1) flaky "https://a/jwks".
Proof.
  split; [by exists 1%Q|]. intros n r att H.
  exists (1 * inject_Z (2 ^ Z.of_nat att))%Q. split; [|by apply backoff_ok].
  unfold flaky in H. destruct (n <? 2); by simplify_eq.
Qed.

Lemma retry_loop_spec_witness :
  (0 ≤ 3)%Z ∧ ∃ j, (Z.of_nat j ≤ 3)%Z ∧
    (∀ i, i < j → transient (flaky i "https://a/jwks") = true) ∧
    (Z.of_nat j = 3%Z ∨ transient (flaky j "https://a/jwks") = false) ∧
    let m := attempts no_dates 0 (client_get flaky "https://a/jwks") 4 0 3 (FFin 1) None (Net [] [] 0) in
    m.1 = final_answer (flaky j "https://a/jwks") ∧ sent m.2 = replicate (S j) "https://a/jwks" ++ [].
Proof.
  split; [lia|].
  exact (retry_loop_spec no_dates 0 flaky "https://a/jwks" 3 (FFin 1) (Net [] [] 0)
           ltac:(lia) flaky_delays).
Defined.
