(* ===== verification/Discovery.v ===== *)
(** * Discovery documents
    ([core/response_processors.py], [core/discovery_logic.py], [core/error_handlers.py],
     [sync/discovery.py])

    From the HTTP answer to a [DiscoveryDocumentResponse]: content type, JSON, required
    parameters, issuer, parameter values, key set, endpoint URLs and authorities, mTLS aliases,
    and the conversion of every exception into a failed response with an error kind. *)

From S2P Require Import Prelude PyStr PyValue Models Url Policy HttpRetry.
From Stdlib Require Import QArith Ascii.
From stdpp Require Import strings.
#[global] Close Scope Q_scope.
Open Scope string_scope.
Open Scope list_scope.
Open Scope nat_scope.
Open Scope py_scope.

(** ** IP literals that must not be routed to *)

Definition parse_ip_literal (host : string) : option ip_addr :=
  match ip_address host with
  | Some i => Some i
  | None => IPv4 <$> inet_aton host
  end.

Definition internal_ip (i : ip_addr) : bool :=
  ip_is_private i || ip_is_loopback i || ip_is_link_local i || ip_is_reserved i ||
  ip_is_multicast i || ip_is_unspecified i.

(** [str(ip)]: dotted quad for IPv4; the zero compression of IPv6 text is not modelled. *)
Definition show_ip (i : ip_addr) : string :=
  match i with
  | IPv4 a => str_join "." (map (λ k, str_of_int ((a / 2 ^ k) mod 256)) [24; 16; 8; 0]%Z)
  | IPv6 a => str_join ":" (map (λ k, str_of_int ((a / 2 ^ k) mod 65536)) [112; 96; 80; 64; 48; 32; 16; 0]%Z)
  end.

Definition reject_internal_ip_host (url parameter_name : string) (policy : option DiscoveryPolicy)
    : outcome unit :=
  parsed ← urlparse url;
  match hostname parsed with
  | None => Ok ()
  | Some host =>
      if negb (nonempty host) then Ok ()
      else match parse_ip_literal host with
           | None => Ok ()
           | Some ip =>
               if ip_is_loopback ip &&
                  match policy with Some p => allow_loopback_endpoints p | None => false end
               then Ok ()
               else raise_if (internal_ip ip)
                 (Discovery (parameter_name +:+ " host '" +:+ host +:+
                    "' is an internal/reserved IP address (" +:+ show_ip ip +:+
                    "); refusing to route a request there"))
           end
  end.

(** ** Endpoint authorities *)

Definition get_url_authority (url : pyval) : outcome string :=
  if negb (truthy url) then Ok ""
  else parsed ← urlparse_val url; Ok (lower (scheme parsed +:+ "://" +:+ netloc parsed)).

Fixpoint map_outcome {A B} (f : A → outcome B) (l : list A) : outcome (list B) :=
  match l with
  | [] => Ok []
  | a :: l' => b ← f a; bs ← map_outcome f l'; Ok (b :: bs)
  end.

(** The [allowed] set, with the empty string discarded. *)
Definition allowed_authorities (data : pydict) (policy : DiscoveryPolicy) (discovery_url : string)
    : outcome (list string) :=
  base ← (match authority policy with
          | Some a => if nonempty a then x ← get_url_authority (VStr a); Ok [x]
                      else let issuer := default (VStr "") (dict_get "issuer" data) in
                           if truthy issuer then x ← get_url_authority issuer; Ok [x] else Ok []
          | None => let issuer := default (VStr "") (dict_get "issuer" data) in
                    if truthy issuer then x ← get_url_authority issuer; Ok [x] else Ok []
          end);
  fetched ← (if nonempty discovery_url
             then x ← get_url_authority (VStr discovery_url); Ok [x] else Ok []);
  extra ← map_outcome (λ a, get_url_authority (VStr a)) (additional_endpoint_base_addresses policy);
  Ok (List.filter nonempty (base ++ fetched ++ extra)).

Definition validate_endpoint_authority (url : pyval) (parameter_name : string) (data : pydict)
    (policy : DiscoveryPolicy) (discovery_url : string) : outcome unit :=
  ep ← get_url_authority url;
  allowed ← allowed_authorities data policy discovery_url;
  if match allowed with [] => true | _ => false end then
    Err (Discovery ("Cannot validate " +:+ parameter_name +:+
      " authority: no authority constraint available (issuer is empty and no policy.authority or additional_endpoint_base_addresses set)"))
  else
    raise_if (negb (bool_decide (ep ∈ allowed)))
      (Discovery (parameter_name +:+ " authority '" +:+ ep +:+
         "' does not match expected authorities: " +:+ py_repr (VList (strs (sorted_set allowed))) +:+
         ". If this is a legitimate endpoint on a different host (RFC 8414 / RFC 9126 permit this), add its base address to DiscoveryPolicy.additional_endpoint_base_addresses.")).

(** ** The document *)

Definition media_type (r : HttpResponse) : string :=
  lower (strip (List.hd "" (split_char ";" (default "" (header "Content-Type" r))))).

Definition endpoint_names : list string :=
  ["jwks_uri"; "authorization_endpoint"; "token_endpoint"; "userinfo_endpoint";
   "registration_endpoint"; "introspection_endpoint"; "end_session_endpoint";
   "pushed_authorization_request_endpoint"].

Definition check_endpoint (data : pydict) (policy : option DiscoveryPolicy) (discovery_url : string)
    (ep_name : string) : outcome unit :=
  let effective := default default_policy policy in
  let ep := dget ep_name data in
  _ ← validate_https_url_with_policy ep ep_name policy;
  if truthy ep && validate_endpoints effective
  then validate_endpoint_authority ep ep_name data effective discovery_url
  else Ok ().

Definition check_alias (policy : option DiscoveryPolicy) (alias : string * pyval) : outcome unit :=
  let effective := default default_policy policy in
  let alias_param := "mtls_endpoint_aliases." +:+ alias.1 in
  _ ← validate_https_url_with_policy alias.2 alias_param policy;
  match alias.2 with
  | VStr u => if nonempty u then reject_internal_ip_host u alias_param (Some effective) else Ok ()
  | _ => Ok ()
  end.

(** [response_json.get(k)] on a document that passed the required-parameter check: only a
    dictionary does. *)
Definition as_document (v : pyval) : outcome pydict :=
  match v with VDict dd => Ok dd | _ => Err (AttributeError v "get") end.

Definition validate_and_parse_discovery_response (r : HttpResponse) (policy : option DiscoveryPolicy)
    : outcome pydict :=
  if media_type r ≠? "application/json" then
    Err (Discovery ("Invalid content type. Expected application/json, got: " +:+
                    default "unknown" (header "Content-Type" r)))
  else
    json ← (match resp_json r with
            | Ok v => Ok v
            | Err msg => Err (mk_exn DiscoveryParseError ("Invalid JSON response: " +:+ msg))
            end);
    _ ← validate_required_parameters json;
    data ← as_document json;
    _ ← validate_issuer_with_policy (default (VStr "") (dict_get "issuer" data)) policy;
    _ ← validate_parameter_values data;
    _ ← raise_if (match policy with None => true | Some p => require_key_set p end &&
                  negb (truthy (dget "jwks_uri" data)))
          (MissingFields "Discovery document does not contain a jwks_uri, required by policy (require_key_set=True)"
             ["jwks_uri"]);
    _ ← for_each (check_endpoint data policy (default "" (resp_url r))) endpoint_names;
    _ ← (match dget "mtls_endpoint_aliases" data with
         | VDict aliases => for_each (check_alias policy) aliases
         | _ => Ok ()
         end);
    Ok data.

Definition build_discovery_response (data : pydict) (cache_control : option string)
    : DiscoveryDocumentResponse :=
  DiscoResponse true None None None []
    (map (λ name, (name, dget name data)) disco_guarded_fields) cache_control.

(** ** Errors become responses *)

Definition handle_discovery_error (e : exn) : DiscoveryDocumentResponse :=
  let msg := message e in
  let low := lower msg in
  if isinstance e ConfigurationException then
    let error_msg :=
      if contains low "issuer" then "Invalid issuer: " +:+ msg
      else if contains low "url" then "Invalid endpoint URL: " +:+ msg
      else msg in
    disco_failure error_msg
      (if isinstance e DiscoveryHTTPSRequiredError then HTTPS_REQUIRED else INVALID_CONFIGURATION)
  else if isinstance e DiscoveryException then
    let error_msg :=
      if contains low "parameter" && negb (contains low "subject")
      then "Missing required parameters: " +:+ msg
      else if contains low "subject" || contains low "response_type"
      then "Invalid parameter values: " +:+ msg
      else msg in
    if isinstance e DiscoveryMissingFieldsError then
      DiscoResponse false (Some error_msg) (Some MISSING_FIELDS) None (fields e) [] None
    else
      disco_failure error_msg
        (if isinstance e DiscoveryParseError then INVALID_JSON else INVALID_DOCUMENT)
  else if isinstance e HttpxRequestError then
    disco_failure ("Network error during discovery document request: " +:+ msg) NETWORK_ERROR
  else disco_failure ("Unexpected error during discovery document request: " +:+ msg) UNEXPECTED_ERROR.

Definition handle_unsuccessful_response (r : HttpResponse) : DiscoveryDocumentResponse :=
  DiscoResponse false
    (Some ("Discovery document request failed with status code: " +:+ str_of_int (resp_status r) +:+
           ". Response Content: " +:+ bytes_repr (resp_content r)))
    (Some UNEXPECTED_STATUS) (Some (resp_status r)) [] [] None.

Definition process_successful_response (r : HttpResponse) (policy : option DiscoveryPolicy)
    : outcome DiscoveryDocumentResponse :=
  data ← validate_and_parse_discovery_response r policy;
  Ok (build_discovery_response data (header "cache-control" r)).

Definition process_discovery_response (r : HttpResponse) (policy : option DiscoveryPolicy)
    : DiscoveryDocumentResponse :=
  if negb (is_success r) then handle_unsuccessful_response r
  else match process_successful_response r policy with
       | Ok d => d
       | Err e => handle_discovery_error e
       end.

(** ** Fetching *)

Section Fetch.
Context (env : string → option string) (http_date : string → option Q) (wall : Q).
Context (http : nat → string → outcome HttpResponse).

(** [_fetch_discovery_document] and [_fetch_jwks]: a GET under [@retry_with_backoff()]. *)
Definition fetch (url : string) : stM net exn HttpResponse :=
  retry_with_backoff http_date wall (client_get http url) env None None.

Definition get_discovery_document (address : string) (policy : option DiscoveryPolicy)
    : stM net exn DiscoveryDocumentResponse :=
  let p := default default_policy policy in
  try_except
    (_ ← lift (validate_url_scheme (Some address) p);
     response ← fetch address;
     mret (process_discovery_response response (Some p)))
    (λ e, mret (handle_discovery_error e)).
End Fetch.

(** ** Tests on concrete inputs *)

Definition demo_doc : pydict :=
  [("issuer", VStr "https://op.example"); ("jwks_uri", VStr "https://op.example/jwks");
   ("token_endpoint", VStr "https://op.example/token");
   ("response_types_supported", VList [VStr "code"]);
   ("subject_types_supported", VList [VStr "public"]);
   ("id_token_signing_alg_values_supported", VList [VStr "RS256"])].
Definition json_response (d : pydict) : HttpResponse :=
  Response 200 [("content-type", "application/json; charset=utf-8")] "" (Ok (VDict d))
    (Some "https://op.example/.well-known/openid-configuration").

Example disco_1 :
  disco_is_successful (process_discovery_response (json_response demo_doc) None) = true.
Proof. vm_compute. reflexivity. Qed.
Example disco_2 :
  error_kind (process_discovery_response
    (json_response (dict_set "token_endpoint" (VStr "https://evil.example/token") demo_doc)) None)
  = Some INVALID_DOCUMENT.
Proof. vm_compute. reflexivity. Qed.
Example disco_3 :
  error_kind (process_discovery_response
    (json_response (dict_set "mtls_endpoint_aliases"
       (VDict [("token_endpoint", VStr "https://0xa9fea9fe/token")]) demo_doc)) None)
  = Some INVALID_DOCUMENT.
Proof. vm_compute. reflexivity. Qed.
Example disco_4 :
  missing_fields (process_discovery_response (json_response [("issuer", VStr "x")]) None) =
    ["response_types_supported"; "subject_types_supported"; "id_token_signing_alg_values_supported"].
Proof. vm_compute. reflexivity. Qed.

(** ** Lemmas *)

(** *** Internal addresses *)

(** The IPv4 ranges a request must not be routed to, as closed intervals. *)
Definition internal_v4_ranges : list (Z * Z) :=
  [(quad 0 0 0 0, quad 0 255 255 255); (quad 10 0 0 0, quad 10 255 255 255);
   (quad 127 0 0 0, quad 127 255 255 255); (quad 169 254 0 0, quad 169 254 255 255);
   (quad 172 16 0 0, quad 172 31 255 255); (quad 192 0 0 0, quad 192 0 0 8);
   (quad 192 0 0 11, quad 192 0 0 255); (quad 192 0 2 0, quad 192 0 2 255);
   (quad 192 168 0 0, quad 192 168 255 255); (quad 198 18 0 0, quad 198 19 255 255);
   (quad 198 51 100 0, quad 198 51 100 255); (quad 203 0 113 0, quad 203 0 113 255);
   (quad 224 0 0 0, quad 255 255 255 255)]%Z.
Definition internal_v4 (a : Z) : bool :=
  existsb (λ r, (r.1 <=? a) && (a <=? r.2))%Z internal_v4_ranges.

Lemma internal_ip_v4 a : internal_ip (IPv4 a) = internal_v4 a.
Proof.
  apply eq_true_iff_eq. unfold internal_ip, internal_v4, internal_v4_ranges, ip_is_private,
    ipv4_is_private, ip_is_loopback, ip_is_link_local, ip_is_reserved, ip_is_multicast,
    ip_is_unspecified, in_any, v4_private, v4_private_exceptions.
  cbn [existsb fst snd]. rewrite !in_net_range by lia.
  repeat match goal with
    | |- context [(?n / ?k * ?k)%Z] => let v := eval vm_compute in (n / k)%Z in change (n / k)%Z with v
    | |- context [((?n / ?k + 1) * ?k)%Z] => let v := eval vm_compute in (n / k)%Z in change (n / k)%Z with v
    end.
  repeat match goal with
    | |- context [(2 ^ ?e)%Z] => let v := eval vm_compute in (2 ^ e)%Z in change (2 ^ e)%Z with v
    | |- context [quad ?x ?y ?z ?t] =>
        let v := eval vm_compute in (quad x y z t) in change (quad x y z t) with v
    end.
  rewrite !orb_true_iff, !andb_true_iff, negb_true_iff, !orb_false_iff, !andb_false_iff.
  rewrite !Z.leb_le, !Z.ltb_lt, Z.eqb_eq, !Z.leb_gt, !Z.ltb_ge. lia.
Qed.

Lemma loopback_v4 a :
  ip_is_loopback (IPv4 a) = ((quad 127 0 0 0 <=? a)%Z && (a <=? quad 127 255 255 255)%Z).
Proof.
  unfold ip_is_loopback. rewrite in_net_range by lia. apply eq_true_iff_eq.
  rewrite !andb_true_iff, !Z.leb_le, Z.ltb_lt. 
  change (quad 127 0 0 0 / 2 ^ (32 - 8))%Z with 127%Z. change (2 ^ (32 - 8))%Z with 16777216%Z.
  unfold quad. lia.
Qed.

(** The spellings of the IPv4 address [a] a URL host can have: the dotted quad, or a single
    decimal, octal or hexadecimal number. *)
Definition spells (a : Z) (host : string) : Prop :=
  (0 ≤ a < 2 ^ 32)%Z ∧ (aton_number host = Some a ∨ host = show_ip (IPv4 a)).

Lemma spells_nonempty a host : spells a host → nonempty host = true.
Proof.
  intros [Ha [H| ->]]; [by apply aton_number_chars in H as []|]. unfold show_ip. cbn [map str_join].
  pose proof (Z.mod_pos_bound (a / 2 ^ 24) 256 ltac:(lia)) as [H0 _].
  destruct (str_of_int_nonneg _ H0) as (_ & _ & Hn). by destruct (str_of_int _).
Qed.

Lemma spells_literal a host : spells a host → parse_ip_literal host = Some (IPv4 a).
Proof.
  intros [Ha [H| ->]]; unfold parse_ip_literal.
  - rewrite ip_address_number by (by apply aton_number_chars in H as []).
    by rewrite (inet_aton_number host a).
  - change (show_ip (IPv4 a)) with (str_join "." (map str_of_int (octets a))).
    by rewrite ipv4_dotted.
Qed.

Lemma spells_decimal a : (0 ≤ a < 2 ^ 32)%Z → spells a (str_of_int a).
Proof. intros H. split; [done|]. left. apply aton_number_decimal. lia. Qed.

(** What the check leaves: no host, a name, a public literal, or an opted-in loopback one. *)
Definition routable (p : option DiscoveryPolicy) (host : option string) : Prop :=
  ∀ h ip, host = Some h → nonempty h = true → parse_ip_literal h = Some ip →
    internal_ip ip = false ∨
    (ip_is_loopback ip = true ∧ ∃ q, p = Some q ∧ allow_loopback_endpoints q = true).

Lemma reject_internal_ok url name p parsed :
  urlparse url = Ok parsed →
  reject_internal_ip_host url name p = Ok () ↔ routable p (hostname parsed).
Proof.
  intros Hu. unfold reject_internal_ip_host. rewrite Hu. cbn [mbind result_bind].
  unfold routable. destruct (hostname parsed) as [h|]; [|split; [intros _ ? ? [=]|done]].
  destruct (nonempty h) eqn:En; cbn [negb];
    [|split; [intros _ ? ? [= <-] ?; congruence|done]].
  destruct (parse_ip_literal h) as [ip|] eqn:Ep;
    [|split; [intros _ ? ? [= <-] _ ?; congruence|done]].
  split.
  - intros H h' ip' [= <-] _ Hip. rewrite Ep in Hip. injection Hip as <-.
    destruct (ip_is_loopback ip) eqn:El; simpl in H; [|left; by apply raise_if_ok in H].
    destruct p as [q|]; [|left; by apply raise_if_ok in H].
    destruct (allow_loopback_endpoints q) eqn:Ea; [right; eauto|left; by apply raise_if_ok in H].
  - intros H. destruct (H h ip eq_refl En Ep) as [Hi|[-> (q & -> & ->)]]; [|done].
    rewrite Hi. by destruct (_ && _).
Qed.

(** *** The endpoint checks *)

Definition endpoint_ok (data : pydict) (p : DiscoveryPolicy) (discovery_url ep_name : string) : Prop :=
  truthy (dget ep_name data) = true → ∃ u auth allowed,
    dget ep_name data = VStr u ∧ safe_url p u ∧
    get_url_authority (VStr u) = Ok auth ∧
    allowed_authorities data p discovery_url = Ok allowed ∧ auth ∈ allowed.

Lemma check_endpoint_ok data p discovery_url ep_name :
  validate_endpoints p = true →
  check_endpoint data (Some p) discovery_url ep_name = Ok () →
  endpoint_ok data p discovery_url ep_name.
Proof.
  intros Hve H Hv. unfold check_endpoint in H. cbn [default from_option id] in H.
  apply result_bind_ok in H as ([] & Hurl & H).
  apply validate_https_url_with_policy_ok in Hurl as (u & Hu & Hsafe & _); [|done..].
  rewrite Hv, Hve in H. cbn [andb] in H. unfold validate_endpoint_authority in H.
  apply result_bind_ok in H as (auth & Ha & H).
  apply result_bind_ok in H as (allowed & Hal & H).
  destruct allowed as [|x allowed]; [done|].
  apply raise_if_ok, negb_false_iff, bool_decide_eq_true in H.
  rewrite Hu in *. by exists u, auth, (x :: allowed).
Qed.

Definition alias_ok (p : DiscoveryPolicy) (url : pyval) : Prop :=
  (validate_endpoints p = true → truthy url = true → ∃ u, url = VStr u ∧ safe_url p u) ∧
  (∀ u, url = VStr u → nonempty u = true →
     ∃ parsed, urlparse u = Ok parsed ∧ routable (Some p) (hostname parsed)).

Lemma check_alias_ok p alias : check_alias (Some p) alias = Ok () → alias_ok p alias.2.
Proof.
  unfold check_alias. intros H. cbn [default from_option id] in H.
  apply result_bind_ok in H as ([] & Hurl & H). split.
  - intros Hve Hv. apply validate_https_url_with_policy_ok in Hurl as (u & Hu & Hsafe & _); eauto.
  - intros u Hu Hne. rewrite Hu, Hne in H.
    destruct (urlparse u) as [parsed|e] eqn:Ep.
    + exists parsed. split; [done|]. by apply (reject_internal_ok _ _ _ _ Ep) in H.
    + unfold reject_internal_ip_host in H. by rewrite Ep in H.
Qed.

Lemma missing_of_nil dd ps :
  missing_of (VDict dd) ps = Ok [] ↔ ∀ n, n ∈ ps → dget n dd ≠ VNone.
Proof.
  induction ps as [|n ps IH]; simpl.
  - split; [|done]. intros _ n Hn. by apply not_elem_of_nil in Hn.
  - destruct (missing_of (VDict dd) ps) as [r|e]; cbn; split.
    + destruct (is_none (dget n dd)) eqn:Ei; intros [= ->].
      intros m [->|Hm]%elem_of_cons; [by destruct (dget n dd)|by apply IH].
    + intros H. assert (Hr : Ok r = Ok (E:=exn) []).
      { apply IH. intros m Hm. apply H. by right. }
      injection Hr as ->. destruct (is_none (dget n dd)) eqn:Ei; [|done].
      destruct (H n); [by left|by destruct (dget n dd)].
    + done.
    + intros H. assert (Hr : Err e = Ok (A:=list string) []); [|done].
      apply IH. intros m Hm. apply H. by right.
Qed.

(** Only a dictionary has no missing parameter. *)
Lemma missing_of_ok v n ps :
  missing_of v (n :: ps) = Ok [] → ∃ dd, v = VDict dd ∧ ∀ m, m ∈ n :: ps → dget m dd ≠ VNone.
Proof.
  intros H. destruct (param_missing v n) as [b|e] eqn:Ep.
  - assert (b = false) as ->.
    { cbn [missing_of] in H. rewrite Ep in H. cbn in H.
      apply result_bind_ok in H as (r & _ & H). by destruct b. }
    destruct v; try (simpl in Ep; repeat case_match; congruence).
    eexists. split; [done|]. by apply missing_of_nil.
  - cbn [missing_of] in H. by rewrite Ep in H.
Qed.

(** A response carries an error and its kind exactly when it failed. *)
Definition disco_wf (d : DiscoveryDocumentResponse) : bool :=
  if disco_is_successful d
  then bool_decide (disco_error d = None) && bool_decide (error_kind d = None)
  else negb (bool_decide (disco_error d = None)) && negb (bool_decide (error_kind d = None)).

Lemma disco_failure_wf msg k : disco_wf (disco_failure msg k) = true.
Proof. done. Qed.

Lemma handle_discovery_error_wf e :
  disco_wf (handle_discovery_error e) = true ∧
  disco_is_successful (handle_discovery_error e) = false.
Proof.
  unfold handle_discovery_error. cbn zeta.
  by repeat match goal with |- context [if ?b then _ else _] => destruct b end.
Qed.

Lemma process_discovery_wf r p : disco_wf (process_discovery_response r p) = true.
Proof.
  unfold process_discovery_response. destruct (is_success r); [|done]. cbn [negb].
  destruct (process_successful_response r p) as [d|e] eqn:Ep;
    [|apply handle_discovery_error_wf].
  unfold process_successful_response in Ep. by apply result_bind_ok in Ep as (data & _ & [= <-]).
Qed.

(** *** The document of a successful response *)

Record document_ok (r : HttpResponse) (p : DiscoveryPolicy) (data : pydict) : Prop := {
  doc_body : resp_json r = Ok (VDict data);
  doc_media : media_type r = "application/json";
  doc_required : ∀ n, n ∈ required_params → dget n data ≠ VNone;
  doc_issuer : truthy (dget "issuer" data) = true;
  doc_keys : require_key_set p = true → truthy (dget "jwks_uri" data) = true;
  doc_endpoints : validate_endpoints p = true →
    ∀ n, n ∈ endpoint_names → endpoint_ok data p (default "" (resp_url r)) n;
  doc_aliases : ∀ aliases, dget "mtls_endpoint_aliases" data = VDict aliases →
    ∀ name url, (name, url) ∈ aliases → alias_ok p url;
}.

Lemma issuer_required issuer p :
  validate_issuer_with_policy issuer (Some p) = Ok () → truthy issuer = true.
Proof.
  unfold validate_issuer_with_policy. destruct (validate_issuer_flag p).
  - intros H. apply result_bind_ok in H as (eff & _ & H). unfold validate_issuer in H.
    by destruct (truthy issuer).
  - intros H. apply raise_if_ok in H. by apply negb_false_iff in H.
Qed.

Lemma validate_document_ok r p data :
  validate_and_parse_discovery_response r (Some p) = Ok data → document_ok r p data.
Proof.
  unfold validate_and_parse_discovery_response.
  destruct (media_type r ≠? "application/json") eqn:Em; [done|].
  apply negb_false_iff, bool_decide_eq_true in Em. intros H.
  apply result_bind_ok in H as (json & Hj & H).
  destruct (resp_json r) as [v|msg] eqn:Er; [|done]. injection Hj as ->.
  apply result_bind_ok in H as ([] & Hreq & H). unfold validate_required_parameters in Hreq.
  apply result_bind_ok in Hreq as (missing & Hmiss & Hreq). apply raise_if_ok in Hreq.
  destruct missing; [|done]. apply missing_of_ok in Hmiss as (dd & -> & Hdd).
  cbn [as_document mbind result_bind] in H.
  apply result_bind_ok in H as ([] & Hiss & H). apply issuer_required in Hiss.
  apply result_bind_ok in H as ([] & _ & H).
  apply result_bind_ok in H as ([] & Hks & H). apply raise_if_ok in Hks.
  apply result_bind_ok in H as ([] & Hep & H). rewrite for_each_ok in Hep.
  apply result_bind_ok in H as ([] & Hal & [= ->]).
  split; try done.
  - unfold dget. unfold dget in Hdd. specialize (Hdd "issuer" ltac:(by left)).
    destruct (dict_get "issuer" data); [done|]. by simpl in Hdd.
  - intros Hk. rewrite Hk in Hks. simpl in Hks. by apply negb_false_iff.
  - intros Hve n Hn. apply check_endpoint_ok; [done|]. by apply Hep.
  - intros aliases Ha name url Hin. rewrite Ha, for_each_ok in Hal.
    apply (check_alias_ok p (name, url)). by apply Hal.
Qed.

Lemma process_success_document r p :
  disco_is_successful (process_discovery_response r (Some p)) = true →
  is_success r = true ∧ ∃ data, document_ok r p data ∧
    disco_attrs (process_discovery_response r (Some p)) =
      map (λ name, (name, dget name data)) disco_guarded_fields.
Proof.
  unfold process_discovery_response. destruct (is_success r); [|done]. cbn [negb].
  destruct (process_successful_response r (Some p)) as [d|e] eqn:Ep.
  - intros _. split; [done|]. unfold process_successful_response in Ep.
    apply result_bind_ok in Ep as (data & Hd & [= <-]). exists data.
    split; [by apply validate_document_ok|done].
  - intros H. destruct (handle_discovery_error_wf e) as [_ He]. congruence.
Qed.

(** *** What a fetched document is *)

(** A document some answer of the network for [address] gave under the policy [p]. *)
Definition admitted_doc (http : nat → string → outcome HttpResponse) (address : string)
    (p : DiscoveryPolicy) (d : DiscoveryDocumentResponse) : Prop :=
  disco_is_successful d = true ∧ safe_url p address ∧
  ∃ n r, http n address = Ok r ∧ d = process_discovery_response r (Some p).

(** The key set an admitted document names can be fetched under the same policy. *)
Lemma admitted_doc_jwks_uri http address p d :
  admitted_doc http address p d → validate_endpoints p = true →
  truthy (dget "jwks_uri" (disco_attrs d)) = true →
  ∃ uri, dget "jwks_uri" (disco_attrs d) = VStr uri ∧ validate_url_scheme (Some uri) p = Ok ().
Proof.
  intros (Hs & _ & n & r & _ & ->) Hve Hu.
  apply process_success_document in Hs as (_ & data & Hdoc & Ha). rewrite Ha in Hu |- *.
  change (dget "jwks_uri" (map _ _)) with (dget "jwks_uri" data) in Hu |- *.
  destruct (doc_endpoints _ _ _ Hdoc Hve "jwks_uri") as (u & _ & _ & Hd & Hsafe & _).
  { compute_done. }
  { done. }
  exists u. split; [done|]. apply validate_url_scheme_ok. exists u. rewrite Hd in Hu. done.
Qed.

Lemma get_discovery_document_spec env http_date wall http address policy s :
  let p := default default_policy policy in
  ∃ d s', get_discovery_document env http_date wall http address policy s = (Ok d, s') ∧
    disco_wf d = true ∧
    (disco_is_successful d = true → admitted_doc http address p d) ∧
    ∃ n, sent s' = replicate n address ++ sent s ∧ (n ≠ 0 → safe_url p address).
Proof.
  cbn zeta. unfold get_discovery_document. cbn zeta. set (p := default default_policy policy).
  unfold try_except, mbind, stM_bind, lift, mret, stM_ret.
  destruct (validate_url_scheme (Some address) p) as [[]|e] eqn:Ev.
  - apply validate_url_scheme_ok in Ev as (? & [= <-] & _ & Hsafe).
    pose proof (retry_sent http_date wall http address env None None s) as (n & Hn).
    pose proof (retry_answer http_date wall http address env None None s) as Hans.
    unfold fetch. destruct (retry_with_backoff _ _ _ _ _ _ s) as [[r|e] s']; eexists _, s'.
    + split; [done|]. split; [apply process_discovery_wf|]. split; [|by exists n].
      intros Hd. split_and!; [done..|]. destruct (Hans r s' eq_refl) as [m Hm]. by exists m, r.
    + split; [done|]. destruct (handle_discovery_error_wf e) as [Hw Hf].
      split; [done|]. split; [by rewrite Hf|by exists n].
  - eexists _, s. split; [done|]. destruct (handle_discovery_error_wf e) as [Hw Hf].
    split; [done|]. split; [by rewrite Hf|by exists 0].
Qed.

(** ** Properties *)

(** C28: what a successful discovery response guarantees under a policy: the body was a JSON
    object served as JSON, every required parameter is present, a key set is named if the policy
    asks for one, every endpoint the document names is a safe URL whose authority is the
    issuer's, the fetched document's or one the policy lists, and no mTLS alias points at an
    internal address literal, except loopback under the explicit opt-in. *)
Theorem discovery_success_safe r p d :
  process_discovery_response r (Some p) = d → disco_is_successful d = true →
  is_success r = true ∧ ∃ data, document_ok r p data ∧
    disco_attrs d = map (λ name, (name, dget name data)) disco_guarded_fields.
Proof. intros <-. apply process_success_document. Qed.

(** [get_discovery_document] never raises: every exception becomes a failed response with an
    error and a kind.  It only talks to the address it was given, verbatim, and sends nothing at
    all unless that address passes the policy's scheme check. *)
Theorem get_discovery_document_total env http_date wall http address policy s :
  ∃ d s', get_discovery_document env http_date wall http address policy s = (Ok d, s') ∧
    disco_wf d = true ∧
    (∃ n, sent s' = replicate n address ++ sent s ∧
       (n ≠ 0 → safe_url (default default_policy policy) address)).
Proof.
  destruct (get_discovery_document_spec env http_date wall http address policy s)
    as (d & s' & Heq & Hwf & _ & Hn). by exists d, s'.
Qed.

(** The internal-address check sees through the spelling of an IPv4 host.  Whether it is
    written as a dotted quad or as one decimal, octal or hexadecimal number, the URL is refused
    exactly when the address lies in an internal range, loopback excepted under the opt-in. *)
Theorem reject_internal_spellings url name p parsed host a :
  urlparse url = Ok parsed → hostname parsed = Some host → spells a host →
  is_ok (reject_internal_ip_host url name p) =
    negb (internal_v4 a) ||
    ((quad 127 0 0 0 <=? a)%Z && (a <=? quad 127 255 255 255)%Z &&
     match p with Some q => allow_loopback_endpoints q | None => false end).
Proof.
  intros Hu Hh Hs. unfold reject_internal_ip_host. rewrite Hu. cbn [mbind result_bind].
  rewrite Hh, (spells_nonempty a host Hs), (spells_literal a host Hs). cbn [negb].
  rewrite <- internal_ip_v4.
  rewrite loopback_v4.
  destruct (_ && match p with Some _ => _ | None => _ end); [by rewrite orb_true_r|].
  rewrite orb_false_r. apply is_ok_raise_if.
Qed.

(** *** Witnesses *)

Lemma discovery_success_safe_witness :
  disco_is_successful (process_discovery_response (json_response demo_doc) (Some default_policy)) = true ∧
  ∃ data, document_ok (json_response demo_doc) default_policy data.
Proof.
  split; [vm_compute; reflexivity|].
  destruct (discovery_success_safe (json_response demo_doc) default_policy
    (process_discovery_response (json_response demo_doc) (Some default_policy)) eq_refl)
    as (_ & data & H & _); [vm_compute; reflexivity|by exists data].
Defined.

Definition metadata_url : ParseResult := URL "https" "0xa9fea9fe" "/latest" "" "" "".

Lemma reject_internal_spellings_witness :
  is_ok (reject_internal_ip_host "https://0xa9fea9fe/latest" "token_endpoint" None) = false.
Proof.
  rewrite (reject_internal_spellings "https://0xa9fea9fe/latest" "token_endpoint" None
    metadata_url "0xa9fea9fe" 2852039166); [vm_compute; reflexivity..|].
  split; [lia|]. left. vm_compute. reflexivity.
Defined.
