(* ===== verification/Jwks.v ===== *)
(** * JSON Web Key Sets
    ([core/parsers.py], [core/response_processors.py], [core/jwks_logic.py],
     [core/error_handlers.py], [sync/jwks.py])

    From the HTTP answer of a [jwks_uri] to validated keys, and from a token header to the one
    key that may verify it.  [jwt.get_unverified_header] is a parameter: it gives the header
    dictionary, or the exception PyJWT raises on a malformed token. *)

From S2P Require Import Prelude PyStr PyValue Models Url Policy HttpRetry Discovery.
From Stdlib Require Import QArith Ascii.
From stdpp Require Import strings.
#[global] Close Scope Q_scope.
Open Scope string_scope.
Open Scope list_scope.
Open Scope nat_scope.
Open Scope py_scope.

(** ** Key and algorithm consistency *)

Definition ALG_TO_KTY : list (string * string) :=
  [("RS256", "RSA"); ("RS384", "RSA"); ("RS512", "RSA"); ("PS256", "RSA"); ("PS384", "RSA");
   ("PS512", "RSA"); ("ES256", "EC"); ("ES384", "EC"); ("ES512", "EC"); ("ES256K", "EC");
   ("EdDSA", "OKP"); ("Ed25519", "OKP"); ("Ed448", "OKP"); ("HS256", "oct"); ("HS384", "oct");
   ("HS512", "oct")].

Fixpoint assoc (k : string) (l : list (string * string)) : option string :=
  match l with
  | [] => None
  | (k', v) :: l' => if k ≟ k' then Some v else assoc k l'
  end.

(** [_ALG_TO_KTY.get(jwt_alg)], where anything but a string is absent. *)
Definition alg_to_kty (jwt_alg : pyval) : option string :=
  match jwt_alg with VStr a => assoc a ALG_TO_KTY | _ => None end.

Definition reject_non_string_alg (jwt_alg : pyval) : outcome unit :=
  raise_if (negb (is_none jwt_alg) && negb (is_str jwt_alg))
    (TokenValidation "Invalid 'alg' header: expected a string" (Some "header")
       [("alg_type", VStr (type_name jwt_alg))]).

(** [jwt_alg.lower() == "none"], for the strings that reach the test. *)
Definition alg_is_none (jwt_alg : pyval) : bool :=
  match jwt_alg with VStr a => lower a ≟ "none" | _ => false end.

Definition validate_key_alg_consistency (key : JsonWebKey) (jwt_alg : pyval) : outcome unit :=
  _ ← reject_non_string_alg jwt_alg;
  if negb (truthy jwt_alg) then Ok ()
  else
    _ ← raise_if (alg_is_none jwt_alg)
          (TokenValidation "Algorithm 'none' is not permitted for signed-token validation"
             (Some "header") [("kid", kid key); ("alg", jwt_alg)]);
    _ ← (match alg_to_kty jwt_alg with
         | Some expected_kty =>
             raise_if (negb (py_eq (kty key) (VStr expected_kty)))
               (TokenValidation ("Key type '" +:+ py_str (kty key) +:+
                  "' is incompatible with algorithm '" +:+ py_str jwt_alg +:+
                  "' (expected key type '" +:+ expected_kty +:+ "')") (Some "header")
                  [("kid", kid key); ("kty", kty key); ("alg", jwt_alg)])
         | None => Ok ()
         end);
    raise_if (truthy (alg key) && negb (py_eq (alg key) jwt_alg))
      (TokenValidation ("Key algorithm '" +:+ py_str (alg key) +:+
         "' does not match JWT algorithm '" +:+ py_str jwt_alg +:+ "'") (Some "header")
         [("kid", kid key); ("key_alg", alg key); ("jwt_alg", jwt_alg)]).

Section Header.
Context (get_unverified_header : string → outcome pydict).

Definition extract_kid_from_jwt (jwt : string) : outcome pyval :=
  headers ← get_unverified_header jwt; Ok (dget "kid" headers).
Definition extract_jwt_header_fields (jwt : string) : outcome (pyval * pyval) :=
  headers ← get_unverified_header jwt; Ok (dget "kid" headers, dget "alg" headers).
End Header.

(** ** Parsing a key *)

Definition jwks_from_dict (dd : pydict) : outcome JsonWebKey :=
  let g a := dget a dd in
  new_jwk (JWK (if truthy (g "kty") then g "kty" else VStr "")
    (g "use") (g "key_ops") (g "alg") (g "kid") (g "x5u") (g "x5c") (g "x5t") (g "x5t#S256")
    (g "crv") (g "x") (g "y") (g "d") (g "n") (g "e") (g "p") (g "q") (g "dp") (g "dq") (g "qi")
    (g "oth") (g "k")).

(** ** Choosing a key *)

Definition none_or (a : pyval) (v : pyval) : bool := py_mem v [VNone; a].

(** [filtered = [k for k in keys if f(k)]; if filtered: keys = filtered]. *)
Definition narrow (f : JsonWebKey → bool) (keys : list JsonWebKey) : list JsonWebKey :=
  match List.filter f keys with [] => keys | filtered => filtered end.

Definition no_kid_candidates (keys : list JsonWebKey) (jwt_alg : pyval)
    : outcome (list JsonWebKey) :=
  _ ← reject_non_string_alg jwt_alg;
  _ ← raise_if (truthy jwt_alg && alg_is_none jwt_alg)
        (TokenValidation "Algorithm 'none' is not permitted for signed-token validation"
           (Some "header") [("alg", jwt_alg)]);
  let signing := narrow (λ w, none_or (VStr "sig") (use w)) keys in
  Ok (if (1 <? length signing) && truthy jwt_alg then
        let signing := narrow (λ w, none_or jwt_alg (alg w)) signing in
        match alg_to_kty jwt_alg with
        | Some expected => narrow (λ w, py_eq (kty w) (VStr expected)) signing
        | None => signing
        end
      else signing).

Definition available_kids (keys : list JsonWebKey) : pyval :=
  VList (List.filter truthy (map kid keys)).

(** [public_key.alg if public_key.alg else (jwt_alg or "RS256")]. *)
Definition effective_alg (key : JsonWebKey) (jwt_alg : pyval) : pyval :=
  if truthy (alg key) then alg key else if truthy jwt_alg then jwt_alg else VStr "RS256".

Definition select_key (w : JsonWebKey) (jwt_alg : pyval) : outcome (pydict * pyval) :=
  _ ← validate_key_alg_consistency w jwt_alg;
  Ok (as_dict w, effective_alg w jwt_alg).

Definition ambiguous_kid (signing_keys : list JsonWebKey) : exn :=
  TokenValidation "JWT has no kid header and JWKS contains multiple signing keys; cannot determine which key to use"
    (Some "header")
    [("available_kids", available_kids signing_keys);
     ("key_count", VInt (Z.of_nat (length signing_keys)))].
Definition no_matching_kid (k : pyval) (keys : list JsonWebKey) : exn :=
  TokenValidation ("No matching kid found: " +:+ py_str k) (Some "header")
    [("kid", k); ("available_kids", available_kids keys)].

Definition find_key_by_kid (k : pyval) (keys : list JsonWebKey) (jwt_alg : pyval)
    : outcome (pydict * pyval) :=
  match keys with
  | [] => Err (TokenValidation "No keys available in JWKS response" None [])
  | _ =>
      if is_none k then
        signing_keys ← no_kid_candidates keys jwt_alg;
        match signing_keys with
        | [w] => select_key w jwt_alg
        | _ => Err (ambiguous_kid signing_keys)
        end
      else
        match List.filter (λ w, py_eq (kid w) k) keys with
        | [] => Err (no_matching_kid k keys)
        | w :: _ => select_key w jwt_alg
        end
  end.

(** [key.alg = jwt_alg] on the copied key. *)
Definition set_alg (w : JsonWebKey) (v : pyval) : JsonWebKey :=
  JWK (kty w) (use w) (key_ops w) v (kid w) (x5u w) (x5c w) (x5t w) (x5t_s256 w) (crv w) (x w)
    (y w) (d w) (n w) (e w) (p w) (q w) (dp w) (dq w) (qi w) (oth w) (k w).

Definition get_public_key_from_jwk (get_unverified_header : string → outcome pydict)
    (jwt : string) (keys : list JsonWebKey) : outcome JsonWebKey :=
  headers ← get_unverified_header jwt;
  let k := dget "kid" headers in
  let jwt_alg := dget "alg" headers in
  let pick w :=
    _ ← validate_key_alg_consistency w jwt_alg;
    Ok (if truthy (alg w) then w else set_alg w jwt_alg) in
  if is_none k then
    signing_keys ← no_kid_candidates keys jwt_alg;
    match signing_keys with
    | [w] => pick w
    | _ => Err (ambiguous_kid signing_keys)
    end
  else
    match List.filter (λ w, py_eq (kid w) k) keys with
    | [] => Err (no_matching_kid k keys)
    | w :: _ => pick w
    end.

(** ** The JWKS response *)

Definition DEFAULT_MAX_JWKS_SIZE : Z := 524288.
Definition DEFAULT_MAX_JWKS_KEYS : Z := 100.
Definition env_int (env : string → option string) (name : string) (dflt : Z) : outcome Z :=
  to_int (default (str_of_int dflt) (env name)).
Definition get_max_jwks_size (env : string → option string) : outcome Z :=
  env_int env "MAX_JWKS_SIZE" DEFAULT_MAX_JWKS_SIZE.
Definition get_max_jwks_keys (env : string → option string) : outcome Z :=
  m ← env_int env "MAX_JWKS_KEYS" DEFAULT_MAX_JWKS_KEYS; Ok (Z.max 1 m).

Definition VALID_JWKS_CONTENT_TYPES : list string := ["application/json"; "application/jwk-set+json"].

(** The elements of the array as dictionaries, or the message for the first that is not one. *)
Fixpoint key_objects (i : Z) (l : list pyval) : result string (list pydict) :=
  match l with
  | [] => Ok []
  | VDict dd :: l' => r ← key_objects (i + 1) l'; Ok (dd :: r)
  | v :: _ => Err ("Invalid JWKS response: key at index " +:+ str_of_int i +:+
                   " is not a JSON object, got " +:+ type_name v)
  end.

(** The returned pair [(keys, error)] is a [result]: one side is always empty. *)
Definition extract_jwks_keys (env : string → option string) (json : pyval)
    : outcome (result string (list pydict)) :=
  match json with
  | VDict dd =>
      match dict_get "keys" dd with
      | None => Ok (Err "Invalid JWKS response: missing required 'keys' field")
      | Some (VList raw) =>
          max_keys ← get_max_jwks_keys env;
          if (max_keys <? Z.of_nat (length raw))%Z then
            Ok (Err ("JWKS response contains too many keys: " +:+ str_of_int (Z.of_nat (length raw)) +:+
                     " exceeds limit of " +:+ str_of_int max_keys))
          else Ok (key_objects 0 raw)
      | Some v => Ok (Err ("Invalid JWKS response: 'keys' field must be a JSON array, got " +:+ type_name v))
      end
  | _ => Ok (Err ("Invalid JWKS response: expected a JSON object, got " +:+ type_name json))
  end.

Definition JWK_STRING_MEMBERS : list string :=
  ["kty"; "kid"; "use"; "alg"; "n"; "e"; "crv"; "x"; "y"].
Definition mistyped (key : pydict) : list string :=
  List.filter (λ name, negb (is_none (dget name key)) && negb (is_str (dget name key)))
    JWK_STRING_MEMBERS.

(** The [except (ConfigurationException, TypeError, AttributeError)] clause. *)
Definition skippable (e : exn) : bool :=
  isinstance e ConfigurationException || isinstance e BTypeError || isinstance e BAttributeError.

Fixpoint build_loop (raw : list pydict) (keys : list JsonWebKey) (skipped : list string)
    : outcome (list JsonWebKey * list string) :=
  match raw with
  | [] => Ok (keys, skipped)
  | key :: raw' =>
      match mistyped key with
      | [] =>
          match jwks_from_dict key with
          | Ok w => build_loop raw' (keys ++ [w]) skipped
          | Err e => if skippable e then build_loop raw' keys (skipped ++ [message e]) else Err e
          end
      | ms => build_loop raw' keys
                (skipped ++ ["mistyped parameter(s) " +:+ py_repr (VList (strs ms)) +:+
                             ": expected a string"])
      end
  end.

Definition build_jwks_keys (raw : list pydict) : outcome (result string (list JsonWebKey)) :=
  '(keys, skipped) ← build_loop raw [] [];
  Ok (match raw, keys with
      | _ :: _, [] => Err ("JWKS has no usable keys: " +:+ str_join "; " skipped)
      | _, _ => Ok keys
      end).

(** [content_length is not None and int(content_length) > max_size], a malformed value being
    ignored; then the length of the body. *)
Definition size_excess (r : HttpResponse) (max_size : Z) : option string :=
  let cl := header "Content-Length" r in
  let cl_too_large :=
    match cl with
    | Some c => match int_of_string c with Some v => (max_size <? v)%Z | None => false end
    | None => false
    end in
  let len := Z.of_nat (String.length (resp_content r)) in
  if cl_too_large then Some ("Content-Length " +:+ default "None" cl)
  else if (max_size <? len)%Z then Some (str_of_int len +:+ " bytes")
  else None.

Definition json_of (r : HttpResponse) : outcome pyval :=
  match resp_json r with Ok v => Ok v | Err msg => Err (mk_exn BValueError msg) end.

Definition parse_jwks_response (env : string → option string) (r : HttpResponse)
    : outcome JwksResponse :=
  if is_success r then
    max_size ← get_max_jwks_size env;
    match size_excess r max_size with
    | Some size_desc =>
        Ok (jwks_failure ("JWKS response too large: " +:+ size_desc +:+ " exceeds limit of " +:+
                          str_of_int max_size +:+ " bytes"))
    | None =>
        if negb (nonempty (media_type r)) then
          Ok (jwks_failure "JWKS response missing Content-Type header")
        else if negb (bool_decide (media_type r ∈ VALID_JWKS_CONTENT_TYPES)) then
          Ok (jwks_failure ("Invalid JWKS Content-Type: expected application/json or application/jwk-set+json, got: "
                            +:+ default "" (header "Content-Type" r)))
        else
          json ← json_of r;
          raw ← extract_jwks_keys env json;
          match raw with
          | Err msg => Ok (jwks_failure msg)
          | Ok raw_keys =>
              built ← build_jwks_keys raw_keys;
              match built with
              | Err msg => Ok (jwks_failure msg)
              | Ok keys => Ok (JwksResp true None (Some keys) (header "cache-control" r))
              end
          end
    end
  else
    Ok (jwks_failure ("JSON web keys request failed with status code: " +:+
          str_of_int (resp_status r) +:+ ". Response Content: " +:+ bytes_repr (resp_content r))).

Definition handle_jwks_error (e : exn) : JwksResponse :=
  jwks_failure
    ((if isinstance e ConfigurationException then "Invalid JWKS endpoint URL: "
      else if isinstance e HttpxRequestError then "Network error during JWKS request: "
      else "Unhandled exception during JWKS request: ") +:+ message e).

Definition process_jwks_response (env : string → option string) (r : HttpResponse) : JwksResponse :=
  match parse_jwks_response env r with Ok d => d | Err e => handle_jwks_error e end.

Definition get_jwks (env : string → option string) (http_date : string → option Q) (wall : Q)
    (http : nat → string → outcome HttpResponse) (address : string)
    (policy : option DiscoveryPolicy) : stM net exn JwksResponse :=
  let p := default default_policy policy in
  try_except
    (_ ← lift (validate_url_scheme (Some address) p);
     response ← fetch env http_date wall http address;
     mret (process_jwks_response env response))
    (λ e, mret (handle_jwks_error e)).

(** ** Tests on concrete inputs *)

Definition rsa_member (k : string) (extra : pydict) : pydict :=
  [("kty", VStr "RSA"); ("kid", VStr k); ("n", VStr "AQAB"); ("e", VStr "AQAB")] ++ extra.
Definition jwks_response (keys : list pydict) : HttpResponse :=
  Response 200 [("content-type", "application/jwk-set+json")] ""
    (Ok (VDict [("keys", VList (map VDict keys))])) None.
Definition empty_env : string → option string := λ _, None.

Example jwks_1 :
  length (keys_or_nil (jwks_keys (process_jwks_response empty_env
    (jwks_response [rsa_member "a" []; [("kty", VStr "EC")]; rsa_member "b" [("use", VInt 1)]])))) = 1.
Proof. vm_compute. reflexivity. Qed.
Example jwks_2 : jwks_error (process_jwks_response empty_env (jwks_response [[("kty", VStr "EC")]])) =
  Some "JWKS has no usable keys: EC keys require 'crv', 'x', and 'y' parameters".
Proof. vm_compute. reflexivity. Qed.

Definition key_a : JsonWebKey :=
  match jwks_from_dict (rsa_member "a" []) with Ok w => w | Err _ => JWK VNone VNone VNone VNone VNone
    VNone VNone VNone VNone VNone VNone VNone VNone VNone VNone VNone VNone VNone VNone VNone VNone VNone end.
Example find_1 : snd <$> find_key_by_kid (VStr "a") [key_a] (VStr "PS256") = Ok (VStr "PS256").
Proof. vm_compute. reflexivity. Qed.
Example find_2 : is_ok (find_key_by_kid (VStr "a") [key_a] (VStr "HS256")) = false.
Proof. vm_compute. reflexivity. Qed.
Example find_3 : is_ok (find_key_by_kid VNone [key_a] (VStr "NoNe")) = false.
Proof. vm_compute. reflexivity. Qed.

(** ** Lemmas *)

(** *** Dictionary forms *)

Lemma dget_omap (l : pydict) a v :
  NoDup (member_name <$> l.*1) → (a, v) ∈ l →
  dget (member_name a) (json_members l) = v.
Proof.
  unfold dget, json_members. intros Hnd Hin.
  assert (Habs : ∀ l' : pydict, member_name a ∉ member_name <$> l'.*1 →
    dict_get (member_name a)
      (omap (λ kv, if is_none kv.2 then None else Some (member_name kv.1, kv.2)) l') = None).
  { induction l' as [|[b w] l' IH]; [done|]. cbn [fmap list_fmap fst].
    intros [Hb Hl]%not_elem_of_cons. cbn [omap list_omap snd fst].
    destruct (is_none w); [by apply IH|]. cbn [dict_get].
    rewrite bool_decide_eq_false_2 by done. by apply IH. }
  induction l as [|[b w] l IH]; [by apply not_elem_of_nil in Hin|].
  cbn [fmap list_fmap fst] in Hnd. apply NoDup_cons in Hnd as [Hb Hnd].
  cbn [omap list_omap snd fst]. apply elem_of_cons in Hin as [[= <- <-]|Hin].
  - destruct v; cbn [is_none]; [by rewrite Habs|cbn [dict_get]; by bd_refl..].
  - assert (member_name a ≠ member_name b).
    { intros Heq. apply Hb. rewrite <- Heq. apply list_elem_of_fmap. exists a. split; [done|].
      apply list_elem_of_fmap. by exists (a, v). }
    destruct (is_none w); [by apply IH|]. cbn [dict_get].
    rewrite bool_decide_eq_false_2 by done. by apply IH.
Qed.

Lemma dget_as_dict w a b v :
  (a, v) ∈ jwk_attrs w → member_name a = b → dget b (as_dict w) = v.
Proof.
  intros H <-. apply dget_omap; [|done]. cbn. apply (bool_decide_eq_true_1 _). reflexivity.
Qed.

(** Finds an attribute in [jwk_attrs]. *)
Ltac jwk_member := unfold jwk_attrs; repeat first [apply list_elem_of_here | apply list_elem_of_further].

Lemma jwk_eta w :
  JWK (kty w) (use w) (key_ops w) (alg w) (kid w) (x5u w) (x5c w) (x5t w) (x5t_s256 w) (crv w)
    (x w) (y w) (d w) (n w) (e w) (p w) (q w) (dp w) (dq w) (qi w) (oth w) (k w) = w.
Proof. by destruct w. Qed.

(** A dictionary that holds the attributes of a key parses to that key. *)
Lemma jwks_from_dict_fields w dd :
  (∀ a b v, (a, v) ∈ jwk_attrs w → member_name a = b → dget b dd = v) →
  truthy (kty w) = true → jwks_from_dict dd = new_jwk w.
Proof.
  intros Hget Hk. rewrite <- (jwk_eta w). unfold jwks_from_dict. cbn zeta.
  rewrite (Hget "kty" "kty" (kty w)), Hk by (jwk_member || reflexivity).
  f_equal. f_equal; (eapply Hget; [jwk_member|reflexivity]).
Qed.

Lemma new_jwk_inv w w' : new_jwk w = Ok w' → w' = w ∧ post_init w = Ok ().
Proof. unfold new_jwk. intros H. apply result_bind_ok in H as ([] & H & [= ->]). done. Qed.

Lemma post_init_kty w : post_init w = Ok () → truthy (kty w) = true.
Proof. unfold post_init. by destruct (truthy (kty w)). Qed.

Lemma json_members_no_none l a v : (a, v) ∈ json_members l → v ≠ VNone.
Proof.
  intros Hin ->. unfold json_members in Hin. apply list_elem_of_omap in Hin as ([b u] & _ & Hu).
  simpl in Hu. destruct (is_none u) eqn:Eu; [done|]. by simplify_eq.
Qed.

(** In a dictionary without nulls, a name is present exactly when its value is not [None]. *)
Lemma has_key_no_none dd a v :
  (∀ b u, (b, u) ∈ dd → u ≠ VNone) → dget a dd = v → has_key a dd = negb (is_none v).
Proof.
  unfold has_key, dget. intros Hnn <-. destruct (dict_get a dd) as [v|] eqn:Ed; [|done].
  apply dict_get_elem, Hnn in Ed. by destruct v.
Qed.

(** *** Building the keys *)

Definition usable (key : pydict) : option JsonWebKey :=
  match mistyped key with
  | [] => match jwks_from_dict key with Ok w => Some w | Err _ => None end
  | _ => None
  end.

Lemma py_iter_skippable v e : py_iter v = Err e → skippable e = true.
Proof. destruct v; simpl; intros H; try done; by injection H as <-. Qed.

Lemma new_jwk_skippable w e : new_jwk w = Err e → skippable e = true.
Proof.
  unfold new_jwk. intros H. apply result_bind_err in H as [H|(? & _ & [=])]. unfold post_init in H.
  destruct (truthy (kty w)); [|by injection H as <-]. cbn [negb] in H.
  unfold validate_key_parameters in H. apply result_bind_err in H as [H|(? & _ & H)].
  { unfold validate_ec_key, validate_rsa_key, validate_symmetric_key, raise_if in H.
    split_tests; done. }
  apply result_bind_err in H as [H|(? & _ & H)].
  { unfold validate_use_parameter in H. split_tests; [done..|].
    apply result_bind_err in H as [H|(b & _ & H)].
    - destruct (use w); simpl in H; try done; by injection H as <-.
    - by apply raise_if_err in H as [_ <-]. }
  apply result_bind_err in H as [H|(? & _ & H)].
  { unfold validate_key_ops_parameter in H. destruct (is_none _); [done|].
    apply result_bind_err in H as [H|(ops & _ & H)]; [by eapply py_iter_skippable|].
    apply for_each_err in H as (? & ? & ? & _ & _ & H). by apply raise_if_err in H as [_ <-]. }
  by apply raise_if_err in H as [_ <-].
Qed.

Lemma jwks_from_dict_skippable key e : jwks_from_dict key = Err e → skippable e = true.
Proof. apply new_jwk_skippable. Qed.

Lemma build_loop_spec raw keys skipped :
  ∃ sk, build_loop raw keys skipped = Ok (keys ++ omap usable raw, sk).
Proof.
  revert keys skipped. induction raw as [|key raw IH]; intros keys skipped; cbn [build_loop].
  - exists skipped. by rewrite app_nil_r.
  - cbn [omap list_omap]. unfold usable at 1. destruct (mistyped key) as [|m ms]; [|apply IH].
    destruct (jwks_from_dict key) as [w|e] eqn:Ek.
    + destruct (IH (keys ++ [w]) skipped) as [sk ->]. exists sk. by rewrite <- app_assoc.
    + rewrite (jwks_from_dict_skippable _ _ Ek). apply IH.
Qed.

Lemma key_objects_ok i l ds : key_objects i l = Ok ds ↔ l = map VDict ds.
Proof.
  revert i ds. induction l as [|v l IH]; intros i ds; cbn [key_objects].
  - destruct ds; split; intros H; simplify_eq/=; done.
  - split.
    + destruct v; try done. intros H. apply result_bind_ok in H as (r & Hr & [= <-]).
      apply IH in Hr. simpl. by f_equal.
    + destruct ds as [|dd ds]; [done|]. intros [= -> ->].
      assert (key_objects (i + 1) (map VDict ds) = Ok ds) as -> by (by apply IH). done.
Qed.

(** *** What a successful answer is *)

Record jwks_acceptable (env : string → option string) (r : HttpResponse) (raw : list pydict)
    : Prop := {
  jwks_status : is_success r = true;
  jwks_limits : ∃ max_keys max_size,
    get_max_jwks_keys env = Ok max_keys ∧ (Z.of_nat (length raw) ≤ max_keys)%Z ∧
    get_max_jwks_size env = Ok max_size ∧ size_excess r max_size = None;
  jwks_media : media_type r ∈ VALID_JWKS_CONTENT_TYPES;
  jwks_body : ∃ dd, resp_json r = Ok (VDict dd) ∧
    dict_get "keys" dd = Some (VList (map VDict raw));
  jwks_usable : raw = [] ∨ omap usable raw ≠ [];
}.

Definition jwks_success (r : HttpResponse) (raw : list pydict) : JwksResponse :=
  JwksResp true None (Some (omap usable raw)) (header "cache-control" r).

Lemma handle_jwks_error_failure e : jwks_is_successful (handle_jwks_error e) = false.
Proof. done. Qed.

Lemma build_jwks_keys_spec raw :
  ∃ sk, build_jwks_keys raw =
    Ok (match raw, omap usable raw with
        | _ :: _, [] => Err ("JWKS has no usable keys: " +:+ str_join "; " sk)
        | _, keys => Ok keys end).
Proof.
  unfold build_jwks_keys. destruct (build_loop_spec raw [] []) as [sk ->]. exists sk.
  destruct raw as [|key raw]; [done|]. generalize (omap usable (key :: raw)) as ks. by intros [].
Qed.

Lemma parse_jwks_ok env r d :
  parse_jwks_response env r = Ok d → jwks_is_successful d = true →
  ∃ raw, jwks_acceptable env r raw ∧ d = jwks_success r raw.
Proof.
  unfold parse_jwks_response. destruct (is_success r) eqn:Es; [|by intros [= <-]].
  intros H Hd. apply result_bind_ok in H as (ms & Hms & H).
  destruct (size_excess r ms) eqn:Esz; [by injection H as <-|].
  destruct (nonempty (media_type r)); [cbn [negb] in H|by injection H as <-].
  destruct (bool_decide _) eqn:Emt in H; [cbn [negb] in H|by injection H as <-].
  apply bool_decide_eq_true in Emt.
  apply result_bind_ok in H as (json & Hj & H). apply result_bind_ok in H as (raw & Hraw & H).
  destruct raw as [raw|msg]; [|by injection H as <-].
  apply result_bind_ok in H as (built & Hb & H). destruct built as [keys|msg]; [|by injection H as <-].
  injection H as <-. unfold json_of in Hj.
  destruct (resp_json r) as [j|] eqn:Ej; [injection Hj as ->|done].
  destruct json as [| | | | | |dd]; try done. unfold extract_jwks_keys in Hraw.
  destruct (dict_get "keys" dd) as [[| | | | |l|]|] eqn:Ek; try done.
  apply result_bind_ok in Hraw as (mk & Hmk & Hraw).
  destruct (Z.ltb_spec mk (Z.of_nat (length l))) as [|Hle]; [done|].
  injection Hraw as Hraw. apply key_objects_ok in Hraw as ->. rewrite length_map in Hle.
  destruct (build_jwks_keys_spec raw) as [sk Hsk]. rewrite Hsk in Hb.
  exists raw. split.
  - split; try done; [by exists mk, ms|by exists dd|].
    destruct raw; [by left|right]. intros Hnil. by rewrite Hnil in Hb.
  - unfold jwks_success. destruct raw, (omap usable _); simplify_eq; done.
Qed.

Lemma parse_jwks_wf env r d :
  parse_jwks_response env r = Ok d → jwks_is_successful d = true ↔ jwks_error d = None.
Proof.
  unfold parse_jwks_response. destruct (is_success r); [|by intros [= <-]]. intros H.
  apply result_bind_ok in H as (ms & _ & H).
  destruct (size_excess r ms); [by injection H as <-|].
  destruct (nonempty (media_type r)); [cbn [negb] in H|by injection H as <-].
  destruct (bool_decide _); [cbn [negb] in H|by injection H as <-].
  apply result_bind_ok in H as (json & _ & H). apply result_bind_ok in H as (raw & _ & H).
  destruct raw as [raw|msg]; [|by injection H as <-].
  apply result_bind_ok in H as (built & _ & H). destruct built; by injection H as <-.
Qed.

Lemma parse_jwks_accepts env r raw :
  jwks_acceptable env r raw → parse_jwks_response env r = Ok (jwks_success r raw).
Proof.
  intros [Hst (mk & ms & Hmk & Hle & Hms & Hsz) Hmt (dd & Hj & Hk) Hus].
  unfold parse_jwks_response. rewrite Hst, Hms. cbn [mbind result_bind]. rewrite Hsz.
  assert (nonempty (media_type r) = true) as ->.
  { unfold VALID_JWKS_CONTENT_TYPES in Hmt.
    rewrite !elem_of_cons in Hmt. destruct Hmt as [->|[->|Hm]]; [done..|].
    by apply not_elem_of_nil in Hm. }
  rewrite bool_decide_eq_true_2 by done. cbn [negb]. unfold json_of. rewrite Hj.
  cbn [mbind result_bind extract_jwks_keys]. rewrite Hk, Hmk. cbn [mbind result_bind].
  rewrite length_map. replace (mk <? Z.of_nat (length raw))%Z with false by lia.
  assert (key_objects 0 (map VDict raw) = Ok raw) as -> by (by apply key_objects_ok).
  cbn [mbind result_bind].
  destruct (build_jwks_keys_spec raw) as [sk ->]. cbn [mbind result_bind].
  destruct raw as [|key raw]; [done|]. destruct Hus as [|Hus]; [done|].
  unfold jwks_success. by destruct (omap usable (key :: raw)).
Qed.

Lemma usable_valid key w : usable key = Some w → post_init w = Ok () ∧ mistyped key = [].
Proof.
  unfold usable. destruct (mistyped key); [|done]. destruct (jwks_from_dict key) eqn:Ej; [|done].
  intros [= ->]. unfold jwks_from_dict in Ej. apply new_jwk_inv in Ej as [-> H]. done.
Qed.

(** *** What a fetched key set is *)

(** A key set some answer of the network for [uri] gave. *)
Definition admitted_keys (env : string → option string) (http : nat → string → outcome HttpResponse)
    (uri : string) (r : JwksResponse) : Prop :=
  jwks_is_successful r = true ∧ ∃ n resp, http n uri = Ok resp ∧ r = process_jwks_response env resp.

Lemma process_jwks_wf env r :
  jwks_is_successful (process_jwks_response env r) = true ↔
  jwks_error (process_jwks_response env r) = None.
Proof.
  unfold process_jwks_response.
  destruct (parse_jwks_response env r) as [d|e] eqn:Ep; [by eapply parse_jwks_wf|done].
Qed.

Lemma get_jwks_spec env http_date wall http address policy s :
  let p := default default_policy policy in
  ∃ d s', get_jwks env http_date wall http address policy s = (Ok d, s') ∧
    (jwks_is_successful d = true ↔ jwks_error d = None) ∧
    (jwks_is_successful d = true → admitted_keys env http address d ∧ safe_url p address) ∧
    ∃ n, sent s' = replicate n address ++ sent s ∧ (n ≠ 0 → safe_url p address).
Proof.
  cbn zeta. unfold get_jwks. cbn zeta. set (p := default default_policy policy).
  unfold try_except, mbind, stM_bind, lift, mret, stM_ret.
  destruct (validate_url_scheme (Some address) p) as [[]|e] eqn:Ev.
  - apply validate_url_scheme_ok in Ev as (? & [= <-] & _ & Hsafe).
    pose proof (retry_sent http_date wall http address env None None s) as (n & Hn).
    pose proof (retry_answer http_date wall http address env None None s) as Hans.
    unfold fetch. destruct (retry_with_backoff _ _ _ _ _ _ s) as [[r|e] s']; eexists _, s'.
    + split; [done|]. split; [apply process_jwks_wf|]. split; [|by exists n].
      intros Hd. split; [|done]. split; [done|]. destruct (Hans r s' eq_refl) as [m Hm]. by exists m, r.
    + split; [done|]. split; [done|]. split; [done|by exists n].
  - eexists _, s. split; [done|]. split; [done|]. split; [done|]. by exists 0.
Qed.

(** *** Choosing a key *)

Lemma consistency_ok w a :
  truthy a = true →
  validate_key_alg_consistency w a = Ok () ↔
  ∃ s, a = VStr s ∧ lower s ≠ "none" ∧
    (∀ t, assoc s ALG_TO_KTY = Some t → py_eq (kty w) (VStr t) = true) ∧
    (truthy (alg w) = true → py_eq (alg w) a = true).
Proof.
  intros Ha. unfold validate_key_alg_consistency. split.
  - intros H. apply result_bind_ok in H as ([] & Hs & H). apply raise_if_ok in Hs.
    destruct a as [| | | |s| |]; try done. rewrite Ha in H. cbn [negb] in H.
    apply result_bind_ok in H as ([] & Hn & H). apply raise_if_ok, bool_decide_eq_false in Hn.
    apply result_bind_ok in H as ([] & Hk & H). apply raise_if_ok in H.
    exists s. split_and!; [done..| |].
    + intros t Ht. cbn [alg_to_kty] in Hk. rewrite Ht in Hk. apply raise_if_ok in Hk.
      by apply negb_false_iff in Hk.
    + intros Hal. rewrite Hal in H. by apply negb_false_iff in H.
  - intros (s & -> & Hn & Hk & Hal). cbn [reject_non_string_alg is_none is_str negb andb].
    unfold reject_non_string_alg. cbn [is_none is_str negb andb raise_if mbind result_bind].
    rewrite Ha. cbn [negb]. cbn [alg_is_none]. rewrite bool_decide_eq_false_2 by done.
    cbn [raise_if mbind result_bind alg_to_kty].
    assert ((match assoc s ALG_TO_KTY with
       | Some t => raise_if (negb (py_eq (kty w) (VStr t))) _ | None => Ok () end) = Ok ()) as ->.
    { destruct (assoc s ALG_TO_KTY) as [t|] eqn:Et; [|done]. by rewrite Hk. }
    cbn [mbind result_bind]. destruct (truthy (alg w)); [|done]. by rewrite Hal.
Qed.

Lemma py_eq_str v s : py_eq v (VStr s) = true ↔ v = VStr s.
Proof.
  destruct v; simpl; try (split; [done|by intros [=]]). rewrite bool_decide_eq_true.
  split; congruence.
Qed.

Definition candidates_of (keys l : list JsonWebKey) : Prop :=
  (∀ w, w ∈ l → w ∈ keys) ∧ (keys ≠ [] → l ≠ []).

Lemma narrow_candidates f keys l : candidates_of keys l → candidates_of keys (narrow f l).
Proof.
  unfold candidates_of, narrow. intros [H1 H2]. destruct (List.filter f l) as [|w ws] eqn:Ef; [done|].
  split; [|done]. intros v Hv. apply H1. rewrite <- Ef in Hv.
  apply list_elem_of_In, filter_In in Hv as [Hv _]. by apply list_elem_of_In.
Qed.

Lemma no_kid_candidates_sub keys a l : no_kid_candidates keys a = Ok l → candidates_of keys l.
Proof.
  unfold no_kid_candidates. intros H. peel_ok. injection H as <-.
  repeat case_match; repeat apply narrow_candidates; done.
Qed.

Lemma find_key_inv k keys a dict al :
  find_key_by_kid k keys a = Ok (dict, al) →
  ∃ w, w ∈ keys ∧ select_key w a = Ok (dict, al) ∧
    (if is_none k then no_kid_candidates keys a = Ok [w]
     else head (List.filter (λ w, py_eq (kid w) k) keys) = Some w).
Proof.
  unfold find_key_by_kid. destruct keys as [|w0 keys0]; [done|]. revert w0 keys0.
  enough (∀ keys, (if is_none k then
        signing_keys ← no_kid_candidates keys a;
        match signing_keys with [w] => select_key w a | _ => Err (ambiguous_kid signing_keys) end
      else match List.filter (λ w, py_eq (kid w) k) keys with
        | [] => Err (no_matching_kid k keys) | w :: _ => select_key w a end) = Ok (dict, al) →
    ∃ w, w ∈ keys ∧ select_key w a = Ok (dict, al) ∧
    (if is_none k then no_kid_candidates keys a = Ok [w]
     else head (List.filter (λ w, py_eq (kid w) k) keys) = Some w)) as Hg
    by (intros; by apply Hg).
  intros keys H. destruct (is_none k).
  - apply result_bind_ok in H as (l & Hl & H).
    destruct l as [|w [|]]; try done. exists w. split_and!; [|done..].
    eapply no_kid_candidates_sub; [done|by left].
  - destruct (List.filter _ keys) as [|w ws] eqn:Ef; [done|]. exists w. split_and!; [|done..].
    assert (w ∈ w :: ws) as Hin by (by left). rewrite <- Ef in Hin.
    apply list_elem_of_In, filter_In in Hin as [Hin _]. by apply list_elem_of_In.
Qed.

(** A key set fetched with one request. *)
Lemma get_jwks_first env http_date wall http uri policy retries base r s :
  validate_url_scheme (Some uri) (default default_policy policy) = Ok () →
  get_retry_config env = Ok (retries, base) → (0 ≤ retries)%Z →
  http (length (sent s)) uri = Ok r → transient (Ok r) = false → final_answer (Ok r) = Ok r →
  get_jwks env http_date wall http uri policy s =
    (Ok (process_jwks_response env r), Net (uri :: sent s) (slept s) (reads s)).
Proof.
  intros Hu Hcfg Hr Hh Ht Hf. unfold get_jwks, try_except, fetch. rewrite Hu.
  unfold mbind, stM_bind, lift.
  by rewrite (retry_first _ _ _ _ _ _ _ _ _ Hcfg Hr Hh Ht Hf).
Qed.

(** ** Properties *)

(** A key survives the trip through its dictionary form: parsing [as_dict] of any valid key
    gives the key back, the thumbprint under its RFC 7517 name included, and the dictionary
    holds no null member, so that a library that tells private keys by the presence of [d] is
    not misled. *)
Theorem jwk_dict_roundtrip w :
  new_jwk w = Ok w →
  jwks_from_dict (as_dict w) = Ok w ∧
  (∀ a v, (a, v) ∈ as_dict w → v ≠ VNone) ∧
  (has_key "d" (as_dict w) = negb (is_none (d w))).
Proof.
  intros Hw. split_and!.
  - apply new_jwk_inv in Hw as [_ Hp].
    rewrite (jwks_from_dict_fields w (as_dict w) (dget_as_dict w) (post_init_kty w Hp)).
    unfold new_jwk. by rewrite Hp.
  - apply json_members_no_none.
  - apply has_key_no_none; [apply json_members_no_none|].
    apply (dget_as_dict w "d"); [jwk_member|reflexivity].
Qed.

(** C33: the key a token is verified with.  A successful lookup returns a key of the set: the
    first whose [kid] is the token's, or, for a token without one, the only candidate left.  If
    the token names an algorithm, it is a string other than "none" in any case, the key's type
    is the one that algorithm needs, and the algorithm returned is the token's own, so that
    neither side can steer the other to a different family. *)
Theorem find_key_by_kid_sound k keys jwt_alg dict al :
  find_key_by_kid k keys jwt_alg = Ok (dict, al) →
  ∃ w, w ∈ keys ∧ dict = as_dict w ∧ al = effective_alg w jwt_alg ∧
    (is_none k = true → no_kid_candidates keys jwt_alg = Ok [w]) ∧
    (is_none k = false → head (List.filter (λ w, py_eq (kid w) k) keys) = Some w) ∧
    (truthy jwt_alg = true → ∃ s, jwt_alg = VStr s ∧ al = VStr s ∧ lower s ≠ "none" ∧
       ∀ t, assoc s ALG_TO_KTY = Some t → kty w = VStr t).
Proof.
  intros H. apply find_key_inv in H as (w & Hw & Hsel & Hk). exists w.
  unfold select_key in Hsel. apply result_bind_ok in Hsel as ([] & Hc & Hsel).
  injection Hsel as <- <-. split_and!; [done..| | |].
  - intros Hn. by rewrite Hn in Hk.
  - intros Hn. by rewrite Hn in Hk.
  - intros Ha. apply consistency_ok in Hc as (s & -> & Hn & Hkt & Hal); [|done].
    exists s. split_and!; [done| |done|].
    + unfold effective_alg. rewrite Ha. destruct (truthy (alg w)) eqn:Et; [|done].
      by apply py_eq_str, Hal.
    + intros t Ht. by apply py_eq_str, Hkt.
Qed.

(** Exactly which answers of a [jwks_uri] are accepted, and what comes out of one: the status
    is a success, the body is within the size limit and of a JWK Set media type, it is an object
    whose [keys] array holds only objects, within the key limit.  The keys are the usable
    ones in their order, so a key with an unknown curve or a mistyped member never blocks the
    others; a set of only such keys is an error.  Everything else is a failed response. *)
Theorem jwks_response_spec env r :
  (jwks_is_successful (process_jwks_response env r) = true ↔ ∃ raw, jwks_acceptable env r raw) ∧
  (∀ raw, jwks_acceptable env r raw →
     process_jwks_response env r = jwks_success r raw ∧
     ∀ key w, key ∈ raw → usable key = Some w → post_init w = Ok ()).
Proof.
  unfold process_jwks_response. split.
  - split.
    + destruct (parse_jwks_response env r) as [d|e] eqn:Ep; [|done].
      intros Hd. destruct (parse_jwks_ok env r d Ep Hd) as (raw & Hraw & _). by exists raw.
    + intros [raw Hraw]. by rewrite (parse_jwks_accepts env r raw).
  - intros raw Hraw. rewrite (parse_jwks_accepts env r raw) by done. split; [done|].
    intros key w _ Hu. by apply (usable_valid key).
Qed.

(** [get_jwks] never raises, and requests only the address it was given, after the scheme
    check of the request's policy (the strict default when it has none). *)
Theorem get_jwks_total env http_date wall http address policy s :
  ∃ d s', get_jwks env http_date wall http address policy s = (Ok d, s') ∧
    (jwks_is_successful d = true ↔ jwks_error d = None) ∧
    ∃ n, sent s' = replicate n address ++ sent s ∧
      (n ≠ 0 → safe_url (default default_policy policy) address).
Proof.
  destruct (get_jwks_spec env http_date wall http address policy s)
    as (d & s' & Heq & Hwf & _ & Hn). by exists d, s'.
Qed.

(** *** Witnesses *)

Lemma jwk_dict_roundtrip_witness :
  new_jwk key_a = Ok key_a ∧ jwks_from_dict (as_dict key_a) = Ok key_a.
Proof.
  split; [vm_compute; reflexivity|].
  apply (jwk_dict_roundtrip key_a). vm_compute. reflexivity.
Defined.

Lemma find_key_by_kid_sound_witness :
  ∃ w, w ∈ [key_a] ∧ as_dict key_a = as_dict w.
Proof.
  destruct (find_key_by_kid_sound VNone [key_a] (VStr "RS256") (as_dict key_a) (VStr "RS256"))
    as (w & Hw & Hd & _); [vm_compute; reflexivity|by exists w].
Defined.
