(* ===== verification/JwkText.v ===== *)
(** * JSON Web Keys as texts ([core/models.py])

    [JsonWebKey.from_json] and [to_json], over the standard library's [json], and the size of a
    key, over its [base64].  Both are bounded by the interpreter's recursion, [room] (see Json), whose
    [RecursionError] no handler of theirs catches.  [from_json] says nothing ([None]) on a text that escapes a character
    beyond Latin-1, which this model's strings cannot hold. *)

From S2P Require Import Prelude PyStr PyValue Codec Json Models Jwks.
From Stdlib Require Import Ascii Wellfounded ZifyNat.
From stdpp Require Import strings.
Open Scope string_scope.
Open Scope list_scope.
Open Scope nat_scope.
Open Scope py_scope.

(** ** Reading and writing *)

(** [{field.name for field in fields(cls)}]. *)
Definition jwk_fields : list string :=
  ["kty"; "use"; "key_ops"; "alg"; "kid"; "x5u"; "x5c"; "x5t"; "x5t_s256"; "crv"; "x"; "y"; "d"; "n"; "e";
   "p"; "q"; "dp"; "dq"; "qi"; "oth"; "k"].

(** The attribute a member sets, and the value it sets it to: a lone string where a list is
    expected becomes one. *)
Definition attr_name (k : string) : string := if k ≟ "x5t#S256" then "x5t_s256" else k.
Definition attr_value (k : string) (v : pyval) : pyval :=
  if k ≟ "x5t#S256" then v
  else if (k ≟ "key_ops") && is_str v then VList [v]
  else if (k ≟ "x5c") && is_str v then VList [v]
  else if (k ≟ "oth") && is_str v then VList [VDict [("r", v)]]
  else v.
Definition mapped_data (data : pydict) : pydict :=
  foldl (λ m kv, dict_set (attr_name kv.1) (attr_value kv.1 kv.2) m) [] data.
Definition filtered_data (data : pydict) : pydict :=
  List.filter (λ kv, bool_decide (kv.1 ∈ jwk_fields)) (mapped_data data).

(** [cls( **kw)]: [kty] has no default. *)
Definition jwk_of_kwargs (kw : pydict) : outcome JsonWebKey :=
  let g a := dget a kw in
  if has_key "kty" kw then
    new_jwk (JWK (g "kty") (g "use") (g "key_ops") (g "alg") (g "kid") (g "x5u") (g "x5c") (g "x5t")
      (g "x5t_s256") (g "crv") (g "x") (g "y") (g "d") (g "n") (g "e") (g "p") (g "q") (g "dp") (g "dq")
      (g "qi") (g "oth") (g "k"))
  else Err (TypeErr "JsonWebKey.__init__() missing 1 required positional argument: 'kty'").

(** The body of the [try] once the text is read, and its handler for the construction. *)
Definition jwk_of_data (data : pyval) : outcome JsonWebKey :=
  match data with
  | VDict d => jwk_of_kwargs (filtered_data d)
  | v => Err (Configuration ("Invalid JWK format: JSON must be an object, not a " +:+ type_name v))
  end.
Definition invalid_format {A} (r : outcome A) : outcome A :=
  match r with
  | Ok a => Ok a
  | Err e => if isinstance e BTypeError || isinstance e BAttributeError
             then Err (Configuration ("Invalid JWK format: " +:+ message e)) else Err e
  end.

Definition TooManyDigits (n : nat) : exn :=
  mk_exn BValueError ("Exceeds the limit (" +:+ str_of_int (Z.of_nat int_max_str_digits) +:+
    " digits) for integer string conversion: value has " +:+ str_of_int (Z.of_nat n) +:+
    " digits; use sys.set_int_max_str_digits() to increase the limit").

(** [JsonWebKey.from_json].  The [ValueError] of an integer with too many digits is no
    [JSONDecodeError], and a [RecursionError] none of the classes named, so no handler catches
    them. *)
Definition from_json (room : option nat) (json_str : string) : option (outcome JsonWebKey) :=
  if negb (nonempty json_str) || negb (nonempty (strip json_str)) then
    Some (Err (Configuration "JSON string cannot be empty"))
  else
    match json_loads room json_str with
    | Ok data => Some (invalid_format (jwk_of_data data))
    | Err JSONDecodeError => Some (Err (Configuration "Invalid JSON format"))
    | Err (IntTooLong n) => Some (Err (TooManyDigits n))
    | Err (TooDeep kind) =>
        Some (Err (RecursionExceeded ("decoding a JSON " +:+ kind +:+ " from a unicode string")))
    | Err BeyondLatin1 | Err OutOfFuel => None
    end.

(** [JsonWebKey.to_json], whose loop is that of [as_dict]. *)
Definition to_json (room : option nat) (w : JsonWebKey) : outcome string := dumps room (VDict (as_dict w)).

(** ** The size of a key *)

(** A character of either base64 alphabet: [urlsafe_b64decode] maps ["-_"] to ["+/"] and leaves
    the rest. *)
Definition b64_data (c : ascii) : option Z :=
  if is_b64 c then Some (b64_val c)
  else if c ≟ "+"%char then Some 62%Z else if c ≟ "/"%char then Some 63%Z else None.

(** [binascii.Error], a [ValueError]. *)
Definition binascii_Error (msg : string) : exn := mk_exn BValueError msg.

(** [binascii.a2b_base64], not in strict mode: characters outside the alphabet are dropped, and
    a complete padding ends the text.  [quad] is the position in a group of four, [left] the
    bits carried over, [pads] the padding characters since the last data. *)
Fixpoint a2b_base64 (quad pads : nat) (left : Z) (out : bytes) (s : string) : outcome bytes :=
  match s with
  | EmptyString =>
      match quad with
      | 0 => Ok out
      | 1 => Err (binascii_Error ("Invalid base64-encoded string: number of data characters (" +:+
               str_of_int (Z.of_nat (length out / 3 * 4 + 1)) +:+
               ") cannot be 1 more than a multiple of 4"))
      | _ => Err (binascii_Error "Incorrect padding")
      end
  | String c s' =>
      if c ≟ "="%char then
        if 2 <=? quad then
          if 4 <=? quad + S pads then Ok out else a2b_base64 quad (S pads) left out s'
        else a2b_base64 quad pads left out s'
      else
        match b64_data c with
        | None => a2b_base64 quad pads left out s'
        | Some v =>
            match quad with
            | 0 => a2b_base64 1 0 v out s'
            | 1 => a2b_base64 2 0 (v mod 16) (out ++ [left * 4 + v / 16])%Z s'
            | 2 => a2b_base64 3 0 (v mod 4) (out ++ [left * 16 + v / 4])%Z s'
            | _ => a2b_base64 0 0 0 (out ++ [left * 64 + v])%Z s'
            end
        end
  end.

(** [base64.urlsafe_b64decode(s)]. *)
Definition urlsafe_b64decode (s : string) : outcome bytes :=
  if isascii s then a2b_base64 0 0 0 [] s
  else Err (mk_exn BValueError "string argument should contain only ASCII characters").

(** ["=" * n]. *)
Fixpoint pads_of (n : nat) : string := match n with 0 => "" | S n' => String "=" (pads_of n') end.

(** [JsonWebKey._decode_base64url]; the exceptions are those of [len] and of [+] on a value that
    is not a string. *)
Definition decode_base64url (input : pyval) : outcome bytes :=
  if negb (truthy input) then Ok []
  else match input with
  | VStr s => urlsafe_b64decode (s +:+ pads_of (4 - String.length s mod 4))
  | VList _ => Err (TypeErr (smap (λ c, if c ≟ "'"%char then dquote else c)
                 "can only concatenate list (not 'str') to list"))
  | VDict _ => Err (TypeErr "unsupported operand type(s) for +: 'dict' and 'str'")
  | v => Err (TypeErr ("object of type '" +:+ type_name v +:+ "' has no len()"))
  end.

Definition member_bits (v : pyval) : outcome Z :=
  if truthy v then bs ← decode_base64url v; Ok (Z.of_nat (length bs) * 8)%Z else Ok 0%Z.
(** [JsonWebKey.key_size]. *)
Definition key_size (w : JsonWebKey) : outcome Z :=
  if py_eq (kty w) (VStr "RSA") then member_bits (n w)
  else if py_eq (kty w) (VStr "EC") then member_bits (x w)
  else if py_eq (kty w) (VStr "oct") then member_bits (k w)
  else Ok 0%Z.

(** ** Tests on concrete inputs *)

Example from_json_1 : from_json None "  " = Some (Err (Configuration "JSON string cannot be empty")).
Proof. vm_compute. reflexivity. Qed.
Example from_json_2 : from_json None "[1]" =
  Some (Err (Configuration "Invalid JWK format: JSON must be an object, not a list")).
Proof. vm_compute. reflexivity. Qed.
Example from_json_3 : from_json None (json_text "{'kty': 'oct', 'k': 'AQAB', 'key_ops': 'sign', 'junk': 1}") =
  Some (jwks_from_dict [("kty", VStr "oct"); ("k", VStr "AQAB"); ("key_ops", VList [VStr "sign"])]).
Proof. vm_compute. reflexivity. Qed.
Example from_json_4 : from_json None (json_text "{'kid': 'a'}") = Some (Err (Configuration
  "Invalid JWK format: JsonWebKey.__init__() missing 1 required positional argument: 'kty'")).
Proof. vm_compute. reflexivity. Qed.
Example from_json_5 : from_json None (json_text "{'kty': 'oct', 'k': 'AQAB', 'use': 7}") =
  Some (Err (Configuration "Invalid JWK format: 'int' object has no attribute 'startswith'")).
Proof. vm_compute. reflexivity. Qed.
(** The second of two members for one attribute wins, under either name. *)
Example from_json_6 : option_map (λ r : outcome JsonWebKey, x5t_s256 <$> r) (from_json None (json_text "{'kty': 'A', 'x5t#S256': 'b', 'x5t_s256': 'c'}")) =
  Some (Ok (VStr "c")).
Proof. vm_compute. reflexivity. Qed.
(** A member nested too deep: not the [ConfigurationException] of the other malformed keys. *)
Example from_json_7 : from_json (Some 3) (json_text "{'kty': 'oct', 'k': 'AQAB', 'oth': [[[]]]}") =
  Some (Err (RecursionExceeded "decoding a JSON array from a unicode string")).
Proof. vm_compute. reflexivity. Qed.
Example decode_1 : decode_base64url (VStr "Zm9v") = Ok (text "foo"). Proof. vm_compute. reflexivity. Qed.
Example decode_2 : decode_base64url (VStr "Z") = Err (binascii_Error
  "Invalid base64-encoded string: number of data characters (1) cannot be 1 more than a multiple of 4").
Proof. vm_compute. reflexivity. Qed.
Example decode_3 : decode_base64url (VStr "Zg=!=Zg") = Ok (text "f"). Proof. vm_compute. reflexivity. Qed.

(** ** Lemmas *)

(** *** The keyword arguments *)

Lemma attr_name_member a : a ≠ "x5t#S256" → attr_name (member_name a) = a.
Proof. intros H. unfold attr_name, member_name. repeat case_bool_decide; by subst. Qed.

(** What a member becomes, the attribute named as the source names it. *)
Lemma mapped_get_from a (data acc : pydict) :
  NoDup data.*1 → "x5t_s256" ∉ data.*1 → a ≠ "x5t#S256" →
  dict_get a (foldl (λ m kv, dict_set (attr_name kv.1) (attr_value kv.1 kv.2) m) acc data) =
  match dict_get (member_name a) data with
  | Some v => Some (attr_value (member_name a) v)
  | None => dict_get a acc
  end.
Proof.
  intros Hnd Hx Ha. revert acc. induction data as [|[j v] data IH]; intros acc; [done|].
  cbn [fmap list_fmap fst] in Hnd, Hx. apply NoDup_cons in Hnd as [Hj Hnd].
  apply not_elem_of_cons in Hx as [Hxj Hx]. cbn [foldl fst snd dict_get]. rewrite (IH Hnd Hx).
  case_bool_decide as Hm.
  - subst j. destruct (dict_get (member_name a) data) as [u|] eqn:E.
    + exfalso. apply Hj. apply dict_get_elem in E. apply list_elem_of_fmap. by exists (member_name a, u).
    + by rewrite attr_name_member, dict_get_set_eq by done.
  - destruct (dict_get (member_name a) data); [done|]. apply dict_get_set_ne. intros ->. apply Hm.
    destruct (decide (j = "x5t#S256")) as [->|Hj']; [reflexivity|]. unfold attr_name.
    rewrite bool_decide_eq_false_2 by done. unfold member_name. by rewrite bool_decide_eq_false_2 by congruence.
Qed.

Lemma dict_get_filter (p : string → bool) a (d : pydict) :
  p a = true → dict_get a (List.filter (λ kv, p kv.1) d) = dict_get a d.
Proof.
  intros Hp. induction d as [|[j v] d IH]; [done|]. cbn [List.filter dict_get fst].
  destruct (p j) eqn:E; cbn [dict_get]; [by rewrite IH|].
  rewrite bool_decide_eq_false_2; [done|]. intros ->. congruence.
Qed.

Lemma filtered_get a (data : pydict) :
  NoDup data.*1 → "x5t_s256" ∉ data.*1 → a ∈ jwk_fields →
  dict_get a (filtered_data data) = attr_value (member_name a) <$> dict_get (member_name a) data.
Proof.
  intros Hnd Hx Ha. unfold filtered_data.
  pose proof (dict_get_filter (λ k, bool_decide (k ∈ jwk_fields)) a (mapped_data data)) as Hf.
  cbn beta in Hf. rewrite Hf by by apply bool_decide_eq_true. unfold mapped_data. rewrite mapped_get_from by (done || (intros ->; revert Ha; apply (bool_decide_eq_false_1 _); reflexivity)).
  by destruct (dict_get (member_name a) data).
Qed.

(** The members a lone string is made a list in. *)
Definition list_members (data : pydict) : bool :=
  negb (is_str (dget "key_ops" data)) && negb (is_str (dget "x5c" data)) && negb (is_str (dget "oth" data)).

Lemma filtered_dget a (data : pydict) :
  NoDup data.*1 → "x5t_s256" ∉ data.*1 → list_members data = true → a ∈ jwk_fields →
  dget a (filtered_data data) = dget (member_name a) data.
Proof.
  intros Hnd Hx Hl Ha. unfold dget. rewrite filtered_get by done.
  destruct (dict_get (member_name a) data) as [v|] eqn:E; [|done]. cbn [default from_option id fmap option_fmap option_map].
  unfold list_members, dget in Hl. bool_prop. unfold attr_value.
  assert (Hno : ∀ t, is_str (default VNone (dict_get t data)) = false → (member_name a ≟ t) && is_str v = false).
  { intros t Ht. case_bool_decide as Hm; [|done]. rewrite <- Hm, E in Ht. exact Ht. }
  rewrite !Hno by done. by destruct (_ ≟ _).
Qed.

(** *** From the text to the dictionary parser *)

(** The two ways to read a key agree on an object without a lone string for a list. *)
Lemma from_json_data room s (data : pydict) :
  json_loads room s = Ok (VDict data) → nonempty (strip s) = true →
  "x5t_s256" ∉ data.*1 → list_members data = true → truthy (dget "kty" data) = true →
  from_json room s = Some (invalid_format (jwks_from_dict data)).
Proof.
  intros Hs Hne Hx Hl Hk. unfold from_json. rewrite Hne, Hs. destruct (nonempty s) eqn:Es; [|by destruct s].
  cbn [negb orb]. do 2 f_equal. cbn [jwk_of_data]. apply json_loads_value in Hs. cbn [json_value] in Hs.
  apply andb_true_iff in Hs as [Hnd _]. apply bool_decide_eq_true in Hnd.
  unfold jwk_of_kwargs, jwks_from_dict. cbn zeta.
  assert (Hg : ∀ a, a ∈ jwk_fields → dget a (filtered_data data) = dget (member_name a) data)
    by (intros a Ha; by apply filtered_dget).
  assert (Hhas : has_key "kty" (filtered_data data) = true).
  { unfold has_key. rewrite filtered_get by (done || apply (bool_decide_eq_true_1 _); reflexivity).
    change (member_name "kty") with "kty". unfold dget in Hk. by destruct (dict_get "kty" data). }
  rewrite Hhas. rewrite !Hg by (apply (bool_decide_eq_true_1 _); reflexivity).
  change (member_name "kty") with "kty". by rewrite Hk.
Qed.

(** *** base64 *)

Lemma b64_data_val c : is_b64 c = true → b64_data c = Some (b64_val c).
Proof. unfold b64_data. by intros ->. Qed.

Lemma a2b_data quad pads left out c s :
  is_b64 c = true →
  a2b_base64 quad pads left out (String c s) =
  match quad with
  | 0 => a2b_base64 1 0 (b64_val c) out s
  | 1 => a2b_base64 2 0 (b64_val c mod 16) (out ++ [left * 4 + b64_val c / 16])%Z s
  | 2 => a2b_base64 3 0 (b64_val c mod 4) (out ++ [left * 16 + b64_val c / 4])%Z s
  | _ => a2b_base64 0 0 0 (out ++ [left * 64 + b64_val c])%Z s
  end.
Proof. intros H. cbn [a2b_base64]. by rewrite b64_not_pad, b64_data_val. Qed.

(** Padded as [_decode_base64url] pads it, a text over the alphabet decodes group by group. *)
Lemma a2b_padded s left out :
  sforall is_b64 s = true → String.length s mod 4 ≠ 1 →
  a2b_base64 0 0 left out (s +:+ pads_of (4 - String.length s mod 4)) = Ok (out ++ b64url_decode s).
Proof.
  revert left out. induction s as [s IH] using (induction_ltof1 _ String.length). unfold ltof in IH.
  intros left out Ha Hl.
  destruct s as [|c1 [|c2 [|c3 [|c4 s]]]]; cbn [sforall] in Ha; bool_prop.
  - cbn. by rewrite app_nil_r.
  - done.
  - rewrite !str_cons_app, !a2b_data by done. reflexivity.
  - rewrite !str_cons_app, !a2b_data by done. cbn. by rewrite <- app_assoc.
  - assert (Hm : String.length (String c1 (String c2 (String c3 (String c4 s)))) mod 4 = String.length s mod 4).
    { rewrite <- (Nat.Div0.mod_add (String.length s) 1 4). f_equal. cbn [String.length]. lia. }
    rewrite Hm in Hl |- *. rewrite !str_cons_app, !a2b_data by done. rewrite IH by (done || cbn; lia).
    cbn [b64url_decode]. by rewrite <- !app_assoc.
Qed.

Lemma decode_b64url bs : forallb is_byte bs = true → decode_base64url (VStr (b64url bs)) = Ok bs.
Proof.
  intros Hb. destruct (decide (bs = [])) as [->|Hne]; [done|].
  assert (Hlen : String.length (b64url bs) mod 4 ≠ 1 ∧ b64url bs ≠ "").
  { pose proof (b64url_length bs Hb) as Hl. destruct bs as [|c bs]; [done|]. cbn [length] in Hl. split.
    - rewrite Hl. clear. generalize (length bs) as m. intros m. zify. Z.to_euclidean_division_equations. lia.
    - intros He. rewrite He in Hl. cbn [String.length] in Hl. revert Hl. clear. generalize (length bs) as m.
      intros m. zify. Z.to_euclidean_division_equations. lia. }
  destruct Hlen as [Hl He]. unfold decode_base64url. cbn [truthy].
  rewrite (proj2 (nonempty_true _) He). cbn [negb]. unfold urlsafe_b64decode.
  pose proof (b64url_alphabet bs Hb) as Ha. assert (isascii (b64url bs +:+ pads_of (4 - String.length (b64url bs) mod 4)) = true) as ->.
  { unfold isascii. rewrite sforall_app. rewrite (is_b64_isascii _ Ha : sforall is_ascii _ = true).
    generalize (4 - String.length (b64url bs) mod 4) as m. intros m.
    by induction m. }
  rewrite a2b_padded by done. by rewrite b64url_decode_encode.
Qed.

(** *** The members of a key *)

Lemma json_members_keys (l : pydict) : sublist (json_members l).*1 (member_name <$> l.*1).
Proof.
  induction l as [|[a v] l IH]; [done|]. unfold json_members. cbn [omap list_omap fmap list_fmap fst snd].
  destruct (is_none v); [by apply sublist_cons|]. by apply sublist_skip.
Qed.
Lemma as_dict_keys w :
  NoDup (as_dict w).*1 ∧ "x5t_s256" ∉ (as_dict w).*1.
Proof.
  pose proof (json_members_keys (jwk_attrs w)) as Hs. split.
  - eapply sublist_NoDup; [|exact Hs]. apply (bool_decide_eq_true_1 _). reflexivity.
  - intros Hin. eapply elem_of_sublist in Hin; [|exact Hs]. revert Hin.
    apply (bool_decide_eq_false_1 _). reflexivity.
Qed.

(** A key whose text means the key: no finite float, integers within the digit limit, no lone
    string where a list is expected. *)
Definition plain_attr (kv : string * pyval) : bool :=
  json_value kv.2 && negb (bool_decide (kv.1 ∈ ["key_ops"; "x5c"; "oth"]) && is_str kv.2).
Definition floatless_jwk (w : JsonWebKey) : bool := forallb (λ kv, floatless kv.2) (jwk_attrs w).
Definition readable (w : JsonWebKey) : bool := forallb plain_attr (jwk_attrs w).

Lemma as_dict_elem w kv : kv ∈ as_dict w → ∃ a, (a, kv.2) ∈ jwk_attrs w.
Proof.
  unfold as_dict, json_members. generalize (jwk_attrs w) as l. intros l (av & Hav & Hs)%list_elem_of_omap.
  destruct (is_none av.2); [done|]. injection Hs as <-. exists av.1. by destruct av.
Qed.

Lemma as_dict_value w :
  readable w = true → floatless_jwk w = true →
  json_value (VDict (as_dict w)) = true ∧ floatless (VDict (as_dict w)) = true.
Proof.
  intros Hr Hf. apply forallb_Forall' in Hr, Hf. rewrite Forall_forall in Hr, Hf.
  cbn [json_value floatless]. split; [apply andb_true_iff; split; [apply bool_decide_eq_true, as_dict_keys|]|];
    apply forallb_Forall', Forall_forall; intros kv (a & Hkv)%as_dict_elem.
  - apply Hr in Hkv. by apply andb_true_iff in Hkv as [Hv _].
  - by apply Hf in Hkv.
Qed.

Lemma readable_lists w : readable w = true → list_members (as_dict w) = true.
Proof.
  intros Hr. apply forallb_Forall' in Hr. rewrite Forall_forall in Hr.
  assert (Hs : ∀ a v, (a, v) ∈ jwk_attrs w → a ∈ ["key_ops"; "x5c"; "oth"] → is_str v = false).
  { intros a v Hin Ha. apply Hr, andb_true_iff in Hin as [_ Hn]. cbn [fst snd] in Hn.
    rewrite bool_decide_eq_true_2 in Hn by done. by apply negb_true_iff in Hn. }
  unfold list_members.
  rewrite (dget_as_dict w "key_ops" _ (key_ops w)), (dget_as_dict w "x5c" _ (x5c w)),
    (dget_as_dict w "oth" _ (oth w)) by (jwk_member || reflexivity).
  by rewrite (Hs "key_ops" (key_ops w)), (Hs "x5c" (x5c w)), (Hs "oth" (oth w)) by (jwk_member || set_solver).
Qed.

Lemma dumps_fits room v : fits v room = true → dumps room v = Ok (json_dumps v).
Proof. unfold dumps. intros H. rewrite H. reflexivity. Qed.
Lemma to_json_dumps room w :
  fits (VDict (as_dict w)) room = true → to_json room w = Ok (json_dumps (VDict (as_dict w))).
Proof. unfold to_json. apply dumps_fits. Qed.
Lemma dumps_nonempty d : nonempty (strip (json_dumps (VDict d))) = true.
Proof.
  cbn [json_dumps]. unfold strip.
  change ("{" +:+ ?t) with (String "{" t). change (lstrip_p is_space (String "{" ?t)) with (String "{" t).
  by rewrite rstrip_keep.
Qed.

(** *** The key a text gives *)

Lemma attr_plain j v : json_value v = true → plain_attr (attr_name j, attr_value j v) = true.
Proof.
  intros Hv. unfold plain_attr. cbn [fst snd]. apply andb_true_iff. split.
  - unfold attr_value. destruct (j ≟ "x5t#S256"); [done|].
    destruct (_ && _); [cbn; by rewrite Hv|]. destruct (_ && _); [cbn; by rewrite Hv|].
    destruct (_ && _); [|done]. cbn. by rewrite Hv.
  - apply negb_true_iff. unfold attr_name, attr_value. destruct (j ≟ "x5t#S256"); [reflexivity|].
    destruct (decide (j ∈ ["key_ops"; "x5c"; "oth"])) as [Hj|Hj]; [|by rewrite bool_decide_eq_false_2].
    rewrite bool_decide_eq_true_2 by done. cbn [andb].
    repeat (apply elem_of_cons in Hj as [->|Hj]; [by destruct v|]). by apply not_elem_of_nil in Hj.
Qed.

(** What holds of every attribute set from the members of a text. *)
Lemma mapped_all (P : string * pyval → Prop) (p : pyval → bool) (data : pydict) :
  (∀ j v, p v = true → P (attr_name j, attr_value j v)) → forallb (λ kv, p kv.2) data = true →
  Forall P (mapped_data data).
Proof.
  intros HP Hd. unfold mapped_data. assert (Ha : Forall P []) by constructor. revert Ha.
  generalize (@nil (string * pyval)) as acc.
  induction data as [|[j v] data IH]; intros acc Ha; [done|]. cbn [foldl fst snd forallb] in *.
  apply andb_true_iff in Hd as [Hv Hd]. apply IH; [done|]. clear IH. pose proof (HP j v Hv) as Hp.
  induction Ha as [|[i u] acc Hu Ha IH]; [by constructor|]. cbn [dict_set].
  case_bool_decide as He; [rewrite <- He; by constructor|by constructor].
Qed.

Lemma from_json_attrs room s w :
  from_json room s = Some (Ok w) →
  post_init w = Ok () ∧ ∃ data, json_loads room s = Ok (VDict data) ∧
    ∀ av, av ∈ jwk_attrs w → av.2 = VNone ∨ av ∈ mapped_data data.
Proof.
  unfold from_json. destruct (negb _ || negb _); [done|].
  destruct (json_loads room s) as [v|[]] eqn:Hs; try done.
  unfold invalid_format. intros [= H]. destruct (jwk_of_data v) as [w'|e] eqn:Hw; [|by destruct (_ || _)].
  injection H as ->. destruct v as [| | | | | |data]; try done. cbn [jwk_of_data] in Hw. unfold jwk_of_kwargs in Hw.
  destruct (has_key _ _); [|done]. apply new_jwk_inv in Hw as [-> Hp]. split; [exact Hp|]. exists data. split; [done|].
  assert (Hg : ∀ a, dget a (filtered_data data) = VNone ∨ (a, dget a (filtered_data data)) ∈ mapped_data data).
  { intros a. unfold dget. destruct (dict_get a (filtered_data data)) as [u|] eqn:E; [|by left]. right.
    apply dict_get_elem in E. unfold filtered_data in E. by apply list_elem_of_In, filter_In in E as [E%list_elem_of_In _]. }
  intros [a v] Hav. unfold jwk_attrs in Hav.
  cbn [kty use key_ops alg kid x5u x5c x5t x5t_s256 crv x y d n e p q dp dq qi oth k] in Hav.
  repeat (apply elem_of_cons in Hav as [[= -> ->]|Hav]; [apply Hg|]). by apply not_elem_of_nil in Hav.
Qed.

Lemma from_json_inv room s w : from_json room s = Some (Ok w) → post_init w = Ok () ∧ readable w = true.
Proof.
  intros (Hp & data & Hs & Ha)%from_json_attrs. split; [exact Hp|]. apply json_loads_value in Hs.
  cbn [json_value] in Hs. apply andb_true_iff in Hs as [_ Hs].
  pose proof (mapped_all (λ kv, plain_attr kv = true) json_value data attr_plain Hs) as Hm.
  rewrite Forall_forall in Hm. apply forallb_Forall', Forall_forall. intros [a v] Hav.
  destruct (Ha _ Hav) as [Hv|Hin]; [|by apply Hm]. cbn in Hv. subst v. cbn. by rewrite andb_false_r.
Qed.

(** The key fits where its text did, if a lone [oth], which is wrapped twice, does. *)
Lemma from_json_fits room s w :
  (∀ n, room = Some n → 3 ≤ n) → from_json room s = Some (Ok w) → fits (VDict (as_dict w)) room = true.
Proof.
  intros Hroom (_ & data & Hs & Ha)%from_json_attrs. apply json_loads_fits in Hs. cbn [fits] in *.
  destruct (descend room) as [room'|] eqn:Ed; [|done].
  assert (Hwrap : ∀ v, is_str v = true → fits (VList [v]) room' = true ∧ fits (VList [VDict [("r", v)]]) room' = true).
  { intros v Hv. destruct v; try done. destruct room as [[|[|[|m]]]|]; cbn in Ed;
      [done|specialize (Hroom _ eq_refl); lia..|injection Ed as <-; done|by injection Ed as <-]. }
  pose proof (mapped_all (λ kv, fits kv.2 room' = true) (λ v, fits v room') data) as Hm.
  rewrite Forall_forall in Hm. apply forallb_Forall', Forall_forall. intros kv (a & Hkv)%as_dict_elem.
  destruct (Ha _ Hkv) as [Hv|Hin]; [cbn in Hv; by rewrite Hv|]. apply (Hm) in Hin; [exact Hin| |exact Hs].
  intros j v Hv. unfold attr_value. cbn [snd]. destruct (j ≟ "x5t#S256"); [done|].
  destruct (is_str v) eqn:Estr; [destruct (Hwrap v Estr)|]; rewrite ?andb_false_r, ?andb_true_r; [|done].
  by repeat case_bool_decide.
Qed.

(** *** The exceptions *)

Lemma jwk_of_data_raises v e : jwk_of_data v = Err e → skippable e = true ∨ isinstance e ConfigurationException = true.
Proof.
  destruct v as [| | | | | |data]; try by intros [= <-]; right. cbn [jwk_of_data].
  unfold jwk_of_kwargs. destruct (has_key _ _); [|by intros [= <-]; left].
  intros H. left. by apply new_jwk_skippable in H.
Qed.

Lemma from_json_raises room s e :
  from_json room s = Some (Err e) → isinstance e ConfigurationException = true ∨
  isinstance e ConfigurationException = false ∧
  ((∃ n, json_loads room s = Err (IntTooLong n) ∧ int_max_str_digits < n ∧ exn_class e = BValueError) ∨
   (∃ kind limit, json_loads room s = Err (TooDeep kind) ∧ room = Some limit ∧ limit < String.length s ∧
      exn_class e = BRuntimeError)).
Proof.
  unfold from_json. destruct (negb _ || negb _); [intros [= <-]; by left|].
  destruct (json_loads room s) as [v|[|n|kind| |]] eqn:Hs; try done.
  - intros [= H]. left. unfold invalid_format in H. destruct (jwk_of_data v) as [|e'] eqn:Hw; [done|].
    destruct (isinstance e' BTypeError || isinstance e' BAttributeError) eqn:Et; injection H as <-; [done|].
    apply jwk_of_data_raises in Hw as [Hsk|?]; [|done].
    unfold skippable in Hsk. by rewrite <- orb_assoc, Et, orb_false_r in Hsk.
  - intros [= <-]. by left.
  - intros [= <-]. right. split; [done|]. left. exists n. by apply json_loads_errors in Hs.
  - intros [= <-]. right. split; [done|]. right. pose proof Hs as (d & Hd & Hlt)%json_loads_errors.
    by exists kind, d.
Qed.

(** ** Properties *)

(** C34: the text of a key.  A key built by its constructor whose attributes are JSON values without
    floats, its list-valued ones not lone strings, and nested within the interpreter's room, is
    read back from what [to_json] writes; and every key [from_json] returns is one of those,
    valid, so that writing and reading it again changes nothing, unless a finite float came with
    it, or there is no room for three levels. *)
Theorem jwk_text_roundtrip room :
  (∀ w, post_init w = Ok () → readable w = true → floatless_jwk w = true →
     fits (VDict (as_dict w)) room = true →
     ∃ text, to_json room w = Ok text ∧ from_json room text = Some (Ok w) ∧
       json_loads room text = Ok (VDict (as_dict w))) ∧
  (∀ s w, from_json room s = Some (Ok w) → post_init w = Ok () ∧ readable w = true ∧
     (floatless_jwk w = true → (∀ n, room = Some n → 3 ≤ n) →
      ∃ text, to_json room w = Ok text ∧ from_json room text = Some (Ok w))).
Proof.
  assert (Hrt : ∀ w, post_init w = Ok () → readable w = true → floatless_jwk w = true →
     fits (VDict (as_dict w)) room = true → ∃ text, to_json room w = Ok text ∧
       from_json room text = Some (Ok w) ∧ json_loads room text = Ok (VDict (as_dict w))).
  { intros w Hp Hr Hf Hroom. destruct (as_dict_value w Hr Hf) as [Hv Hv'].
    eexists. split; [by apply to_json_dumps|].
    assert (Hl : json_loads room (json_dumps (VDict (as_dict w))) = Ok (VDict (as_dict w))) by by apply json_loads_dumps.
    split; [|done]. rewrite (from_json_data _ _ (as_dict w));
      [|done|apply dumps_nonempty|apply as_dict_keys|by apply readable_lists|].
    - rewrite (jwks_from_dict_fields w (as_dict w) (dget_as_dict w) (post_init_kty w Hp)).
      unfold new_jwk. by rewrite Hp.
    - rewrite (dget_as_dict w "kty" "kty" (kty w)) by (jwk_member || reflexivity). by apply post_init_kty. }
  split; [done|]. intros s w H. pose proof H as [Hp Hr]%from_json_inv. split_and!; [done..|].
  intros Hf Hroom. destruct (Hrt w Hp Hr Hf (from_json_fits _ _ _ Hroom H)) as (text & ? & ? & _). by exists text.
Qed.

(** C35: what [from_json] raises.  On a text without characters beyond Latin-1 it always ends, with a
    valid key or an exception, and the exception is a [ConfigurationException], whatever the
    text, but for two kinds of text: one with an integer of more digits than the interpreter
    converts, whose plain [ValueError] escapes, and one nested beyond the interpreter's room,
    hence longer than that, whose [RecursionError] escapes.  And it does escape: whatever follows
    from the text with unlimited room, a document whose value does not fit raises it. *)
Theorem from_json_errors room s :
  (json_loads room s ≠ Err BeyondLatin1 →
   ∃ r, from_json room s = Some r ∧
     match r with
     | Ok w => post_init w = Ok ()
     | Err e => isinstance e ConfigurationException = true ∨
         isinstance e ConfigurationException = false ∧
         ((∃ n, json_loads room s = Err (IntTooLong n) ∧ int_max_str_digits < n ∧
                exn_class e = BValueError) ∨
          (∃ kind limit, json_loads room s = Err (TooDeep kind) ∧ room = Some limit ∧
                limit < String.length s ∧ exn_class e = BRuntimeError))
     end) ∧
  (∀ v, json_loads None s = Ok v → fits v room = false → nonempty (strip s) = true →
   ∃ e, from_json room s = Some (Err e) ∧ exn_class e = BRuntimeError).
Proof.
  split.
  - intros Hb. destruct (from_json room s) as [[w|e]|] eqn:H.
    + exists (Ok w). split; [done|]. by apply from_json_inv in H as [Hp _].
    + exists (Err e). split; [done|]. by apply from_json_raises.
    + exfalso. unfold from_json in H. destruct (negb _ || negb _); [done|].
      destruct (json_loads room s) as [v|[]] eqn:Hs; try done. by apply json_loads_fuel in Hs.
  - intros v Hs Hf Hne. destruct (json_loads_deep room s v Hs Hf) as [kind Hk].
    eexists. unfold from_json. rewrite Hk, Hne. destruct (nonempty s) eqn:Es; [done|by destruct s].
Qed.

(** The size of a key.  For a key of an algorithm family whose defining member is the base64url
    form of some bytes, as RFC 7518 has it, the size is eight times their number: so a P-521 key,
    whose coordinates are 66 bytes, has 528 bits and not 521. *)
Theorem key_size_spec w bs :
  forallb is_byte bs = true →
  (kty w = VStr "RSA" → n w = VStr (b64url bs) → key_size w = Ok (8 * Z.of_nat (length bs))%Z) ∧
  (kty w = VStr "EC" → x w = VStr (b64url bs) → key_size w = Ok (8 * Z.of_nat (length bs))%Z) ∧
  (kty w = VStr "oct" → k w = VStr (b64url bs) → key_size w = Ok (8 * Z.of_nat (length bs))%Z).
Proof.
  intros Hb. assert (Hm : member_bits (VStr (b64url bs)) = Ok (8 * Z.of_nat (length bs))%Z).
  { unfold member_bits. rewrite decode_b64url by done. destruct (truthy _) eqn:Et.
    - cbn. f_equal. lia.
    - cbn [truthy] in Et. apply nonempty_false in Et. pose proof (decode_b64url bs Hb) as Hd. rewrite Et in Hd.
      by injection Hd as <-. }
  unfold key_size. split_and!; intros -> ->; exact Hm.
Qed.

(** ** Witnesses *)

Lemma jwk_text_roundtrip_witness :
  ∃ text, to_json (Some 2) key_a = Ok text ∧ from_json (Some 2) text = Some (Ok key_a) ∧
    json_loads (Some 2) text = Ok (VDict (as_dict key_a)).
Proof. apply (proj1 (jwk_text_roundtrip (Some 2)) key_a); vm_compute; reflexivity. Defined.

(** A member whose value is an integer of 4301 digits, and one nested a thousand times. *)
Definition long_number : string :=
  json_text "{'kty': 'oct', 'k': " +:+ (Nat.iter 4301 (String "9") "}").
Definition nested_member : string :=
  json_text "{'kty': 'oct', 'k': 'AQAB', 'oth': " +:+
  (Nat.iter 1000 (String "[") "" +:+ (Nat.iter 1000 (String "]") "}")).

Lemma from_json_errors_witness :
  (from_json None long_number = Some (Err (TooManyDigits 4301)) ∧
   ∃ n, json_loads None long_number = Err (IntTooLong n) ∧ int_max_str_digits < n) ∧
  (∃ e, from_json (Some 900) nested_member = Some (Err e) ∧ exn_class e = BRuntimeError).
Proof.
  split.
  - assert (Hf : from_json None long_number = Some (Err (TooManyDigits 4301))) by (vm_compute; reflexivity).
    split; [exact Hf|]. assert (Hb : json_loads None long_number ≠ Err BeyondLatin1) by (vm_compute; discriminate).
    destruct (proj1 (from_json_errors None long_number) Hb) as (r & Hr & H). rewrite Hf in Hr. injection Hr as <-.
    destruct H as [H|(_ & [(n & H1 & H2 & _)|(kind & limit & _ & H & _)])];
      [vm_compute in H; discriminate H|exists n; exact (conj H1 H2)|discriminate H].
  - destruct (json_loads None nested_member) as [v|e] eqn:Hv; [|vm_compute in Hv; discriminate Hv].
    apply (proj2 (from_json_errors (Some 900) nested_member) v Hv); [|vm_compute; reflexivity].
    vm_compute in Hv. injection Hv as <-. vm_compute. reflexivity.
Defined.

(** Both coordinates of a P-521 key are 66 bytes. *)
Definition p521_key : JsonWebKey :=
  let c := VStr (b64url (repeat 1%Z 66)) in
  JWK (VStr "EC") VNone VNone VNone VNone VNone VNone VNone VNone (VStr "P-521") c c VNone VNone VNone VNone
    VNone VNone VNone VNone VNone VNone.

Lemma key_size_spec_witness : key_size p521_key = Ok 528%Z.
Proof.
  destruct (key_size_spec p521_key (repeat 1%Z 66)) as (_ & H & _); [vm_compute; reflexivity|].
  rewrite H; vm_compute; reflexivity.
Defined.
