(* ===== verification/Jwt.v ===== *)
(** * JWT decoding and the token-validation rules
    ([core/jwt_helpers.py], [core/token_validation_logic.py], [core/validators.py],
     [TokenValidationConfig] in [core/models.py])

    PyJWT is a parameter: [new_pyjwk] is its [PyJWK(key_data, algorithm)] constructor and
    [decode] its [jwt.decode].  What the library adds around them is modelled in full: the
    option sanitiser, the key normaliser, the exception mapping, the issuer allowlist, the
    algorithm allowlist, and the claims validator hook. *)

From S2P Require Import Prelude PyStr PyValue Models Policy HttpRetry Jwks.
From Stdlib Require Import QArith Ascii.
From stdpp Require Import strings.
#[global] Close Scope Q_scope.
Open Scope string_scope.
Open Scope list_scope.
Open Scope nat_scope.
Open Scope py_scope.

(** ** Configuration *)

(** [TokenValidationConfig.key]: a typed key, a JWK mapping, or anything else ([None] included). *)
Inductive VerificationKey : Type :=
  | KeyJwk (w : JsonWebKey)
  | KeyDict (dd : pydict)
  | KeyOther (v : pyval).

Definition key_truthy (key : VerificationKey) : bool :=
  match key with
  | KeyJwk _ => true
  | KeyDict dd => truthy (VDict dd)
  | KeyOther v => truthy v
  end.

(** A claims validator gets the decoded dictionary itself and may change it: the second
    component is the dictionary afterwards. *)
Definition ClaimsValidator : Type := pydict → outcome unit * pydict.

(** PyJWT's answer to a token that is no string. *)
Definition not_a_token (_ : string) : outcome pydict :=
  Err (mk_exn JwtDecodeError "Invalid token type. Token must be a <class 'bytes'>").

Record TokenValidationConfig : Type := TVConfig {
  perform_disco : bool;
  key : VerificationKey;
  audience : pyval;
  algorithms : option (list pyval);
  issuer : pyval;
  subject : pyval;
  options : option pydict;
  claims_validator : option ClaimsValidator;
  config_require_https : bool;
  leeway : pyval;
  allowed_issuers : option (list string);
  discovery_policy : option DiscoveryPolicy;
}.

Definition no_algorithms (o : option (list pyval)) : bool :=
  match o with Some (_ :: _) => false | _ => true end.

(** [math.isinf(v) or math.isnan(v)]: an integer beyond the floats raises [OverflowError]. *)
Definition check_finite (v : pyval) : outcome unit :=
  match v with
  | VInt z => raise_if (Qle_bool float_overflow (inject_Z (Z.abs z)))
                (mk_exn BOther "int too large to convert to float")
  | VFloat f => raise_if (negb (isfinite f)) (Configuration "leeway must be a finite number")
  | _ => Ok ()
  end.

Definition negative (v : pyval) : bool :=
  match as_num v with Some f => float_lt f (FFin 0) | None => false end.

Definition validate_leeway (v : pyval) : outcome unit :=
  match v with
  | VNone => Ok ()
  | VBool _ => Err (Configuration "leeway must be a number, not a boolean")
  | VInt _ | VFloat _ =>
      _ ← raise_if (negative v) (Configuration "leeway must be non-negative"); check_finite v
  | _ => Err (Configuration "leeway must be a number")
  end.

Definition validate_token_config (c : TokenValidationConfig) : outcome unit :=
  _ ← (match issuer c with
       | VList [] => Err (Configuration "issuer must not be an empty list; omit or set to None to skip issuer validation")
       | VList l => raise_if (negb (forallb (λ i, is_str i && truthy i) l))
                      (Configuration "issuer list must contain only non-empty strings")
       | _ => Ok ()
       end);
  _ ← validate_leeway (leeway c);
  if perform_disco c then Ok ()
  else raise_if (negb (key_truthy (key c)) && no_algorithms (algorithms c))
         (Configuration "TokenValidationConfig.key and TokenValidationConfig.algorithms are required if perform_disco is False").

Definition validate_config_for_manual_validation (c : TokenValidationConfig) : outcome unit :=
  _ ← raise_if (negb (key_truthy (key c))) (Configuration "TokenValidationConfig.key is required");
  raise_if (no_algorithms (algorithms c)) (Configuration "TokenValidationConfig.algorithms is required").

(** ** Around [jwt.decode] *)

Definition ENFORCED_VERIFICATION_OPTIONS : list string :=
  ["verify_signature"; "verify_exp"; "verify_nbf"; "verify_iat"].

(** The options are examined in the order of the list above; Python's set order, which decides
    only which option the message names, is not modelled. *)
Definition sanitize_options (o : option pydict) : outcome (option pydict) :=
  match o with
  | None => Ok None
  | Some opts =>
      _ ← for_each (λ k, raise_if (has_key k opts && negb (truthy (dget k opts)))
            (Configuration ("Security option '" +:+ k +:+ "' cannot be disabled. JWT " +:+
               String.substring 7 (String.length k) k +:+ " verification is always enforced.")))
            ENFORCED_VERIFICATION_OPTIONS;
      Ok (Some opts)
  end.

Definition normalize_verification_key (key : VerificationKey) : outcome pydict :=
  match key with
  | KeyJwk w => Ok (as_dict w)
  | KeyDict dd => Ok (List.filter (λ kv, negb (is_none kv.2)) dd)
  | KeyOther v => Err (Configuration ("Verification key must be a JsonWebKey or a JWK dict, got " +:+ type_name v))
  end.

(** The [except] clauses, in order; what none of them names propagates as it is. *)
Definition map_jwt_error (e : exn) : exn :=
  let error := [("error", VStr (message e))] in
  if isinstance e TokenValidationException then e
  else if isinstance e JwtExpiredSignatureError then TokenExpired "Token has expired" error
  else if isinstance e JwtInvalidAudienceError then InvalidAudience "Invalid audience" error
  else if isinstance e JwtInvalidIssuerError then InvalidIssuer "Invalid issuer" error
  else if isinstance e JwtInvalidSignatureError then SignatureVerification "Invalid signature" error
  else if isinstance e JwtInvalidTokenError then
    TokenValidation ("Invalid token: " +:+ message e) None error
  else e.

(** The keyword arguments of [jwt.decode]. *)
Record DecodeArgs : Type := Args {
  arg_audience : pyval;
  arg_algorithms : list pyval;
  arg_issuer : pyval;
  arg_options : option pydict;
  arg_leeway : pyval;
}.

Section PyJwt.
Context {PyJWK : Type} (new_pyjwk : pydict → option pyval → outcome PyJWK).
Context (decode : string → PyJWK → DecodeArgs → outcome pydict).

Definition decode_jwt (jwt : string) (key_data : pydict) (algs : list pyval)
    (aud iss : pyval) (opts : option pydict) (lw : pyval) : outcome pydict :=
  pyjwk ← new_pyjwk key_data (head algs);
  decode jwt pyjwk (Args aud algs iss opts (if is_none lw then VInt 0 else lw)).

Definition decode_and_validate_jwt (jwt : string) (key : VerificationKey) (algs : list pyval)
    (aud iss : pyval) (opts : option pydict) (lw sub : pyval) : outcome pydict :=
  match
    (_ ← raise_if (match algs with [] => true | _ => false end)
           (Configuration "algorithms must not be empty");
     _ ← raise_if (match iss with VList [] => true | _ => false end)
           (Configuration "issuer must not be an empty list; omit or set to None to skip issuer validation");
     sanitized ← sanitize_options opts;
     normalized_key ← normalize_verification_key key;
     decoded ← decode_jwt jwt normalized_key algs aud iss sanitized lw;
     _ ← raise_if (negb (is_none sub) && negb (py_eq (dget "sub" decoded) sub))
           (TokenValidation "Invalid subject: token sub does not match expected value"
              (Some "payload") []);
     Ok decoded)
  with
  | Ok decoded => Ok decoded
  | Err e => Err (map_jwt_error e)
  end.

(** ** Issuer pinning *)

Definition hashable (v : pyval) : bool := match v with VList _ | VDict _ => false | _ => true end.
(** [v in allowed] for a set of strings. *)
Definition in_str_set (v : pyval) (allowed : list string) : outcome bool :=
  if hashable v then Ok (py_mem v (strs allowed))
  else Err (TypeErr ("unhashable type: '" +:+ type_name v +:+ "'")).

Definition issuer_candidates (effective : pyval) : outcome (list pyval) :=
  match effective with
  | VStr _ => Ok [effective]
  | _ => if truthy effective then py_iter effective else Ok []
  end.

Definition enforce_allowed_issuers (effective : pyval) (allowed : list string) : outcome unit :=
  let shown := VList (strs (sorted_set allowed)) in
  candidates ← issuer_candidates effective;
  match candidates with
  | [] => Err (InvalidIssuer "allowed_issuers is configured but no issuer was resolved to check against; refusing to validate without a pinned issuer"
                 [("allowed_issuers", shown)])
  | _ =>
      for_each (λ iss,
        member ← in_str_set iss allowed;
        raise_if (negb member)
          (InvalidIssuer ("Issuer '" +:+ py_str iss +:+ "' is not in the configured allowed_issuers")
             [("issuer", iss); ("allowed_issuers", shown)])) candidates
  end.

Definition decode_with_config (jwt : string) (c : TokenValidationConfig) (iss : pyval)
    : outcome pydict :=
  match algorithms c with
  | Some ((_ :: _) as algs) =>
      if negb (key_truthy (key c)) then
        Err (Configuration "Token validation configuration must have key and algorithms set")
      else
        let effective := if is_none iss then issuer c else iss in
        _ ← (match allowed_issuers c with
             | Some allowed => enforce_allowed_issuers effective allowed
             | None => Ok ()
             end);
        decode_and_validate_jwt jwt (key c) algs (audience c) effective (options c) (leeway c)
          (subject c)
  | _ => Err (Configuration "Token validation configuration must have key and algorithms set")
  end.
End PyJwt.

(** ** The steps around it *)

Definition validate_disco_response (d : DiscoveryDocumentResponse) : outcome unit :=
  if negb (disco_is_successful d) then
    err ← disco_get_error d;
    Err (TokenValidation (default "" (str_or err (Some "Discovery document request failed"))) None [])
  else Ok ().

Definition validate_jwks_uri (d : DiscoveryDocumentResponse) : outcome pyval :=
  uri ← disco_attr d "jwks_uri";
  if negb (truthy uri) then Err (Configuration "Discovery document missing jwks_uri") else Ok uri.

Definition validate_jwks_response (r : JwksResponse) : outcome unit :=
  if negb (jwks_is_successful r) then
    err ← jwks_get_error r;
    Err (TokenValidation (default "" (str_or err (Some "JWKS request failed"))) None [])
  else
    keys ← jwks_get_keys r;
    raise_if (negb (has_keys keys)) (TokenValidation "No keys available in JWKS response" None []).

Definition validate_claims (decoded : pydict) (c : TokenValidationConfig) : outcome pydict :=
  match claims_validator c with
  | None => Ok decoded
  | Some f =>
      match f decoded with
      | (Ok _, decoded') => Ok decoded'
      | (Err e, _) =>
          if isinstance e TokenValidationException then Err e
          else Err (TokenValidation ("Claims validation failed: " +:+ message e) (Some "payload")
                      [("error", VStr (message e))])
      end
  end.

Definition build_resolved_config (c : TokenValidationConfig) (key_dict : pydict) (al : pyval)
    : outcome TokenValidationConfig :=
  _ ← (match algorithms c with
       | Some allowed =>
           raise_if (negb (py_mem al allowed))
             (TokenValidation ("Algorithm '" +:+ py_str al +:+ "' is not in the allowed algorithms")
                (Some "header") [("alg", al); ("allowed", VList allowed)])
       | None => Ok ()
       end);
  Ok (TVConfig (perform_disco c) (KeyDict key_dict) (audience c) (Some [al]) (issuer c) (subject c)
        (options c) (claims_validator c) (config_require_https c) (leeway c) (allowed_issuers c)
        (discovery_policy c)).

(** ** Lemmas *)

Lemma py_mem_strs v l : py_mem v (strs l) = true ↔ ∃ s, v = VStr s ∧ s ∈ l.
Proof.
  unfold py_mem, strs. rewrite existsb_exists. split.
  - intros (w & Hin & Heq). apply in_map_iff in Hin as (s & <- & Hs).
    apply py_eq_str in Heq as ->. exists s. split; [done|]. by apply list_elem_of_In.
  - intros (s & -> & Hs). exists (VStr s). split; [|by apply py_eq_str].
    apply in_map_iff. exists s. split; [done|]. by apply list_elem_of_In.
Qed.

Definition options_safe (o : option pydict) : Prop :=
  ∀ opts k, o = Some opts → k ∈ ENFORCED_VERIFICATION_OPTIONS → has_key k opts = true →
    truthy (dget k opts) = true.

Lemma sanitize_options_ok o o' : sanitize_options o = Ok o' ↔ o' = o ∧ options_safe o.
Proof.
  unfold sanitize_options, options_safe. destruct o as [opts|].
  - rewrite result_bind_ok. setoid_rewrite for_each_ok. split.
    + intros ([] & H & [= <-]). split; [done|]. intros opts' k [= <-] Hk Hh.
      specialize (H k Hk). apply raise_if_ok in H. rewrite Hh in H. by apply negb_false_iff in H.
    + intros [-> H]. exists (). split; [|done]. intros k Hk. apply raise_if_ok.
      destruct (has_key k opts) eqn:Eh; [|done]. by rewrite (H opts k eq_refl Hk Eh).
  - split; [intros [= <-]; split; [done|]; by intros ? ? [=]|by intros [-> _]].
Qed.

Lemma normalize_no_none key dd a v :
  normalize_verification_key key = Ok dd → (a, v) ∈ dd → v ≠ VNone.
Proof.
  destruct key as [w|d0|u]; simpl; [intros [= <-]; apply json_members_no_none| |done].
  intros [= <-] H ->. by apply list_elem_of_In, filter_In in H as [_ H].
Qed.

Section PyJwtFacts.
Context {PyJWK : Type} (new_pyjwk : pydict → option pyval → outcome PyJWK).
Context (decode : string → PyJWK → DecodeArgs → outcome pydict).

(** PyJWT was asked to verify [jwt] with exactly this key, algorithm list, audience and
    issuer, and answered [claims]. *)
Definition verified_by (jwt : string) (key : VerificationKey) (algs : list pyval)
    (aud iss : pyval) (opts : option pydict) (lw : pyval) (claims : pydict) : Prop :=
  ∃ normalized pyjwk,
    normalize_verification_key key = Ok normalized ∧
    new_pyjwk normalized (head algs) = Ok pyjwk ∧
    decode jwt pyjwk (Args aud algs iss opts (if is_none lw then VInt 0 else lw)) = Ok claims.

Lemma decode_and_validate_ok jwt key algs aud iss opts lw sub claims :
  decode_and_validate_jwt new_pyjwk decode jwt key algs aud iss opts lw sub = Ok claims ↔
  algs ≠ [] ∧ iss ≠ VList [] ∧ options_safe opts ∧
  verified_by jwt key algs aud iss opts lw claims ∧
  (sub ≠ VNone → py_eq (dget "sub" claims) sub = true).
Proof.
  unfold decode_and_validate_jwt, verified_by. split.
  - intros H. destruct (_ ← raise_if _ _; _) as [c|e] eqn:E; [injection H as ->|done].
    apply result_bind_ok in E as ([] & H1 & E). apply raise_if_ok in H1.
    apply result_bind_ok in E as ([] & H2 & E). apply raise_if_ok in H2.
    apply result_bind_ok in E as (so & Hso & E). apply sanitize_options_ok in Hso as [-> Hso].
    apply result_bind_ok in E as (nk & Hnk & E). apply result_bind_ok in E as (dc & Hdc & E).
    unfold decode_jwt in Hdc. apply result_bind_ok in Hdc as (pk & Hpk & Hdc).
    apply result_bind_ok in E as ([] & Hs & [= ->]). apply raise_if_ok in Hs.
    split_and!; [by intros ->|by intros ->|done|by exists nk, pk|].
    intros Hsub. destruct (is_none sub) eqn:En; [by destruct sub|]. by apply negb_false_iff in Hs.
  - intros (Ha & Hi & Ho & (nk & pk & Hnk & Hpk & Hdc) & Hs).
    assert (sanitize_options opts = Ok opts) as -> by (by apply sanitize_options_ok).
    rewrite Hnk. unfold decode_jwt. cbn [mbind result_bind].
    destruct algs; [done|]. cbn [head raise_if] in *.
    assert (raise_if (match iss with VList [] => true | _ => false end)
      (Configuration "issuer must not be an empty list; omit or set to None to skip issuer validation")
      = Ok ()) as ->.
    { destruct iss as [| | | | |[]|]; done. }
    rewrite Hpk. cbn [mbind result_bind]. rewrite Hdc. cbn [mbind result_bind].
    destruct (is_none sub) eqn:En; [done|]. cbn [negb andb].
    rewrite Hs by (by intros ->). done.
Qed.

(** Every issuer the token may carry is an approved one. *)
Definition issuers_approved (effective : pyval) (allowed : list string) : Prop :=
  ∃ cands, issuer_candidates effective = Ok cands ∧ cands ≠ [] ∧
    ∀ v, v ∈ cands → ∃ s, v = VStr s ∧ s ∈ allowed.

Lemma enforce_allowed_issuers_ok effective allowed :
  enforce_allowed_issuers effective allowed = Ok () ↔ issuers_approved effective allowed.
Proof.
  unfold enforce_allowed_issuers, issuers_approved. cbn zeta.
  destruct (issuer_candidates effective) as [cands|e]; cbn [mbind result_bind];
    [|split; [done|by intros (? & ? & _)]].
  destruct cands as [|c0 cands]; [split; [done|intros (? & [= <-] & ? & _); done]|].
  rewrite for_each_ok. split.
  - intros H. exists (c0 :: cands). split_and!; [done..|]. intros v Hv.
    specialize (H v Hv). apply result_bind_ok in H as (b & Hb & H). apply raise_if_ok in H.
    apply negb_false_iff in H as ->. unfold in_str_set in Hb. destruct (hashable v); [|done].
    injection Hb as Hb. by apply py_mem_strs.
  - intros (? & [= <-] & _ & H) v Hv. destruct (H v Hv) as (s & -> & Hs).
    unfold in_str_set. cbn [hashable mbind result_bind].
    assert (py_mem (VStr s) (strs allowed) = true) as -> by (apply py_mem_strs; eauto). done.
Qed.

Lemma decode_with_config_ok jwt c iss claims :
  decode_with_config new_pyjwk decode jwt c iss = Ok claims →
  let effective := if is_none iss then issuer c else iss in
  ∃ algs, algorithms c = Some algs ∧ algs ≠ [] ∧ key_truthy (key c) = true ∧
    options_safe (options c) ∧ effective ≠ VList [] ∧
    (∀ allowed, allowed_issuers c = Some allowed → issuers_approved effective allowed) ∧
    verified_by jwt (key c) algs (audience c) effective (options c) (leeway c) claims ∧
    (subject c ≠ VNone → py_eq (dget "sub" claims) (subject c) = true).
Proof.
  unfold decode_with_config. cbn zeta. set (effective := if is_none iss then issuer c else iss).
  destruct (algorithms c) as [[|a algs]|]; [done| |done].
  destruct (key_truthy (key c)); [cbn [negb]|done].
  intros H. apply result_bind_ok in H as ([] & Hal & H).
  apply decode_and_validate_ok in H as (Ha & Hi & Ho & Hv & Hs).
  exists (a :: algs). split_and!; try done. intros allowed Heq. rewrite Heq in Hal.
  by apply enforce_allowed_issuers_ok.
Qed.
End PyJwtFacts.

Lemma build_resolved_config_ok c dd al c' :
  build_resolved_config c dd al = Ok c' →
  (∀ allowed, algorithms c = Some allowed → py_mem al allowed = true) ∧
  c' = TVConfig (perform_disco c) (KeyDict dd) (audience c) (Some [al]) (issuer c) (subject c)
        (options c) (claims_validator c) (config_require_https c) (leeway c) (allowed_issuers c)
        (discovery_policy c).
Proof.
  unfold build_resolved_config. intros H. apply result_bind_ok in H as ([] & Ha & [= <-]).
  split; [|done]. intros allowed Heq. rewrite Heq in Ha. apply raise_if_ok in Ha.
  by apply negb_false_iff in Ha.
Qed.

Lemma validate_claims_ok decoded c out :
  validate_claims decoded c = Ok out →
  match claims_validator c with None => out = decoded | Some f => f decoded = (Ok (), out) end.
Proof.
  unfold validate_claims. destruct (claims_validator c) as [f|]; [|congruence].
  destruct (f decoded) as [[[]|e] d'].
  - by intros [= <-].
  - by destruct (isinstance e _).
Qed.

Lemma validate_claims_err decoded c e :
  validate_claims decoded c = Err e → isinstance e TokenValidationException = true.
Proof.
  unfold validate_claims. destruct (claims_validator c) as [f|]; [|done].
  destruct (f decoded) as [[]]; [done|].
  destruct (isinstance e0 TokenValidationException) eqn:Ei; by intros [= <-].
Qed.

Lemma validate_jwks_response_ok r :
  validate_jwks_response r = Ok () ↔
  jwks_is_successful r = true ∧ has_keys (jwks_keys r) = true.
Proof.
  unfold validate_jwks_response. destruct (jwks_is_successful r) eqn:Es; cbn [negb].
  - rewrite (jwks_get_keys_ok r Es). cbn [mbind result_bind]. rewrite raise_if_ok.
    rewrite negb_false_iff. naive_solver.
  - split; [|by intros []]. unfold jwks_get_error. rewrite Es. done.
Qed.

Lemma validate_disco_response_ok d :
  validate_disco_response d = Ok () ↔ disco_is_successful d = true.
Proof.
  unfold validate_disco_response. destruct (disco_is_successful d) eqn:Es; [done|]. cbn [negb].
  unfold disco_get_error. rewrite Es. done.
Qed.

Lemma map_configuration e : exn_class e = ConfigurationException → map_jwt_error e = e.
Proof. unfold map_jwt_error, isinstance. by intros ->. Qed.

Lemma sanitize_options_err o e :
  sanitize_options o = Err e → exn_class e = ConfigurationException.
Proof.
  unfold sanitize_options. destruct o; [|done]. intros H.
  apply result_bind_err in H as [H|(? & _ & [=])].
  apply for_each_err in H as (? & k & ? & _ & _ & H). by apply raise_if_err in H as [_ <-].
Qed.

Lemma options_safe_dec o : options_safe o ∨ ∃ e, sanitize_options o = Err e.
Proof.
  destruct (sanitize_options o) as [o'|e] eqn:Es; [|by right; exists e].
  left. by apply sanitize_options_ok in Es as [_ ?].
Qed.

(** ** Properties *)

(** C36: when decoding succeeds, and when it is refused before PyJWT is even asked.  Claims come
    out exactly when the algorithm list is not empty, the issuer is not an empty list, no
    enforced verification option is switched off, PyJWT accepted the token with precisely this
    key, list, audience and issuer, and the subject matches the expected one, if any.  With an
    empty list or a switched-off check the answer is a [ConfigurationException], whatever the
    token and whatever PyJWT would say. *)
Theorem decode_and_validate_contract {PyJWK : Type} new_pyjwk decode jwt key algs aud iss opts lw sub :
  (∀ claims,
     decode_and_validate_jwt (PyJWK:=PyJWK) new_pyjwk decode jwt key algs aud iss opts lw sub = Ok claims ↔
     algs ≠ [] ∧ iss ≠ VList [] ∧ options_safe opts ∧
     verified_by new_pyjwk decode jwt key algs aud iss opts lw claims ∧
     (sub ≠ VNone → py_eq (dget "sub" claims) sub = true)) ∧
  (algs = [] ∨ iss = VList [] ∨ ¬ options_safe opts →
     ∃ e, decode_and_validate_jwt new_pyjwk decode jwt key algs aud iss opts lw sub = Err e ∧
          exn_class e = ConfigurationException).
Proof.
  split; [intros; apply decode_and_validate_ok|].
  unfold decode_and_validate_jwt. intros H.
  destruct algs as [|a algs]; [eexists; split; [done|]; reflexivity|].
  cbn [raise_if]. destruct (match iss with VList [] => true | _ => false end) eqn:Ei.
  { by eexists. }
  assert (iss ≠ VList []) as Hi by (by intros ->).
  destruct H as [H|[H|H]]; [done|done|].
  destruct (options_safe_dec opts) as [|[e He]]; [done|].
  exists e. rewrite He. pose proof (sanitize_options_err _ _ He) as Hc. split; [|done].
  change (Err (A:=pydict) (map_jwt_error e) = Err e). by rewrite map_configuration.
Qed.

(** What a caller sees of PyJWT's exceptions.  Every rejection of a token becomes a
    [TokenValidationException] of the class that matches it, with PyJWT's text as its detail;
    only exceptions that are not rejections of the token (a key PyJWT cannot build, a
    programming error) pass through unchanged. *)
Theorem jwt_error_mapping {PyJWK : Type} new_pyjwk decode jwt key algs aud iss opts lw sub
    normalized (pyjwk : PyJWK) e :
  algs ≠ [] → iss ≠ VList [] → options_safe opts →
  normalize_verification_key key = Ok normalized → new_pyjwk normalized (head algs) = Ok pyjwk →
  decode jwt pyjwk (Args aud algs iss opts (if is_none lw then VInt 0 else lw)) = Err e →
  ∃ e', decode_and_validate_jwt new_pyjwk decode jwt key algs aud iss opts lw sub = Err e' ∧
    (exn_class e = JwtExpiredSignatureError → exn_class e' = TokenExpiredException) ∧
    (exn_class e = JwtInvalidAudienceError → exn_class e' = InvalidAudienceException) ∧
    (exn_class e = JwtInvalidIssuerError → exn_class e' = InvalidIssuerException) ∧
    (exn_class e = JwtInvalidSignatureError → exn_class e' = SignatureVerificationException) ∧
    (isinstance e JwtInvalidTokenError = true →
       isinstance e' TokenValidationException = true ∧ details e' = [("error", VStr (message e))]) ∧
    (isinstance e JwtInvalidTokenError = false → e' = e).
Proof.
  intros Ha Hi Ho Hn Hk Hd. exists (map_jwt_error e). split.
  - unfold decode_and_validate_jwt, decode_jwt.
    assert (sanitize_options opts = Ok opts) as -> by (by apply sanitize_options_ok).
    rewrite Hn. destruct algs as [|a algs]; [done|]. cbn [raise_if mbind result_bind].
    destruct iss as [| | | | |[|i l]|]; try done; cbn [raise_if mbind result_bind];
      rewrite Hk; cbn [mbind result_bind]; by rewrite Hd.
  - unfold map_jwt_error, isinstance. destruct e as [c m pt ds fs]. cbn [exn_class message].
    destruct c; vm_compute issubclass; split_and!; intros; try done.
Qed.

(** Issuer pinning fails closed and comes first.  If an allowlist is configured and the
    issuer that would be used is not on it (or there is none), decoding is refused for every
    token and every behaviour of PyJWT. *)
Theorem issuer_pinning {PyJWK : Type} new_pyjwk decode jwt c iss allowed :
  allowed_issuers c = Some allowed →
  ¬ issuers_approved (if is_none iss then issuer c else iss) allowed →
  is_ok (decode_with_config (PyJWK:=PyJWK) new_pyjwk decode jwt c iss) = false ∧
  ∀ (PyJWK' : Type) new_pyjwk' decode',
    decode_with_config (PyJWK:=PyJWK') new_pyjwk' decode' jwt c iss =
    decode_with_config new_pyjwk decode jwt c iss.
Proof.
  intros Ha Hn.
  assert (∃ e, enforce_allowed_issuers (if is_none iss then issuer c else iss) allowed = Err e) as [e He].
  { destruct (enforce_allowed_issuers _ _) as [[]|e] eqn:E; [|by exists e].
    by apply enforce_allowed_issuers_ok in E. }
  unfold decode_with_config. rewrite Ha. cbn zeta. rewrite He.
  destruct (algorithms c) as [[|a algs]|]; [done| |done].
  by destruct (key_truthy (key c)).
Qed.

(** *** Witnesses *)

Definition toy_new_pyjwk (dd : pydict) (_ : option pyval) : outcome pydict := Ok dd.
Definition toy_expired (_ : string) (_ : pydict) (_ : DecodeArgs) : outcome pydict :=
  Err (mk_exn JwtExpiredSignatureError "Signature has expired").

Lemma decode_and_validate_contract_witness :
  ∃ e, decode_and_validate_jwt toy_new_pyjwk (λ _ _ _, Ok []) "t" (KeyJwk key_a) [VStr "RS256"] VNone
    VNone (Some [("verify_exp", VBool false)]) VNone VNone = Err e ∧
    exn_class e = ConfigurationException.
Proof.
  apply (decode_and_validate_contract toy_new_pyjwk (λ _ _ _, Ok []) "t" (KeyJwk key_a)
    [VStr "RS256"] VNone VNone (Some [("verify_exp", VBool false)]) VNone VNone).
  right; right. intros H.
  specialize (H [("verify_exp", VBool false)] "verify_exp" eq_refl ltac:(set_solver) eq_refl). done.
Defined.

Lemma jwt_error_mapping_witness :
  ∃ e', decode_and_validate_jwt toy_new_pyjwk toy_expired "t" (KeyJwk key_a) [VStr "RS256"] VNone
    VNone None VNone VNone = Err e' ∧ exn_class e' = TokenExpiredException.
Proof.
  destruct (jwt_error_mapping toy_new_pyjwk toy_expired "t" (KeyJwk key_a) [VStr "RS256"] VNone VNone
    None VNone VNone (as_dict key_a) (as_dict key_a) (mk_exn JwtExpiredSignatureError "Signature has expired"))
    as (e' & He & Hexp & _); [done|done|by intros ? ? [=]|reflexivity..|].
  exists e'. split; [exact He|by apply Hexp].
Defined.

Definition pinned_config : TokenValidationConfig :=
  TVConfig true (KeyJwk key_a) VNone (Some [VStr "RS256"]) VNone VNone None None true VNone
    (Some ["https://good.example"]) None.

Lemma issuer_pinning_witness :
  is_ok (decode_with_config toy_new_pyjwk (λ _ _ _, Ok []) "t" pinned_config (VStr "https://evil.example")) = false.
Proof.
  apply (issuer_pinning toy_new_pyjwk (λ _ _ _, Ok []) "t" pinned_config (VStr "https://evil.example")
    ["https://good.example"] eq_refl).
  intros (cands & [= <-] & _ & H). destruct (H (VStr "https://evil.example")) as (s & [= <-] & Hs); [set_solver|].
  set_solver.
Defined.
