(* ===== verification/TokenValidation.v ===== *)
(** * Token validation with cached discovery and keys ([sync/token_validation.py])

    The process state of the module (the two TTL caches, the refresh cooldown, the memoised
    environment knobs, the one-shot warning), and every function that reads or changes it, up to
    [validate_token].  One thread runs at a time: the locks, which change nothing then, have no
    counterpart, but the re-check under the lock has.  Threads has the locks, and ThreadSafety that
    a call alone does then what it does here.

    Parameters: the environment, the clocks, the network, PyJWT.  [decode n] is the [n]-th call
    of [jwt.decode] in the process, because its answer depends on the time of the call. *)

From S2P Require Import Prelude PyStr PyValue Models Cache Url Policy HttpRetry Discovery Jwks Jwt.
From Stdlib Require Import QArith Ascii.
From stdpp Require Import gmap strings.
#[global] Close Scope Q_scope.
Open Scope string_scope.
Open Scope list_scope.
Open Scope nat_scope.
Open Scope py_scope.

(** ** State *)

Abbreviation disco_key := (string * policy_key)%type.

Record TVState : Type := TV {
  memo : EnvMemo;
  disco_cache : list (disco_key * DiscoCacheEntry);
  jwks_cache : list (string * JwksCacheEntry);
  kid_miss_last_attempt : gmap string Q;
  warning_emitted : bool;
  network : net;
  decodes : nat;
}.

Definition set_memo (m : EnvMemo) (s : TVState) : TVState :=
  TV m (disco_cache s) (jwks_cache s) (kid_miss_last_attempt s) (warning_emitted s) (network s) (decodes s).
Definition set_disco (m : EnvMemo) (c : list (disco_key * DiscoCacheEntry)) (s : TVState) : TVState :=
  TV m c (jwks_cache s) (kid_miss_last_attempt s) (warning_emitted s) (network s) (decodes s).
Definition set_jwks (m : EnvMemo) (c : list (string * JwksCacheEntry)) (k : gmap string Q)
    (s : TVState) : TVState :=
  TV m (disco_cache s) c k (warning_emitted s) (network s) (decodes s).
Definition set_network (n : net) (s : TVState) : TVState :=
  TV (memo s) (disco_cache s) (jwks_cache s) (kid_miss_last_attempt s) (warning_emitted s) n (decodes s).
Definition set_warning (b : bool) (s : TVState) : TVState :=
  TV (memo s) (disco_cache s) (jwks_cache s) (kid_miss_last_attempt s) b (network s) (decodes s).
Definition set_decodes (n : nat) (s : TVState) : TVState :=
  TV (memo s) (disco_cache s) (jwks_cache s) (kid_miss_last_attempt s) (warning_emitted s) (network s) n.

(** The state at import. *)
Definition initial_state : TVState := TV reset_env_for_testing [] [] ∅ false (Net [] [] 0) 0.

Definition on_net {A} (m : stM net exn A) : stM TVState exn A := zoom network set_network m.

(** A [jwks_uri] is used as a dictionary key and as a URL.  A document accepted under a policy
    that skips the endpoint checks may hold another type: unhashable values stop at the key, the
    others at [urlparse], whose error [get_jwks] turns into a failed response. *)
Definition uri_key (uri : pyval) : outcome string :=
  match uri with
  | VStr s => Ok s
  | VList _ | VDict _ => Err (TypeErr ("unhashable type: '" +:+ type_name uri +:+ "'"))
  | _ => Err (TokenValidation ("Unhandled exception during JWKS request: " +:+
                message (AttributeError uri "decode")) None [])
  end.

(** [any(k.kid == kid for k in keys)]. *)
Definition kid_in (k : pyval) (keys : list JsonWebKey) : bool :=
  existsb (λ w, py_eq (kid w) k) keys.

Section Validation.
Context (env : string → option string) (http_date : string → option Q) (wall : Q).
Context (http : nat → string → outcome HttpResponse).
Context (clock : nat → Q).
Context (get_unverified_header : string → outcome pydict).
Context {PyJWK : Type} (new_pyjwk : pydict → option pyval → outcome PyJWK).
Context (decode : nat → string → PyJWK → DecodeArgs → outcome pydict).

Abbreviation M := (stM TVState exn).

Definition now : M Q := on_net (monotonic clock).
Definition fetch_document (address : string) (policy : DiscoveryPolicy) : M DiscoveryDocumentResponse :=
  on_net (get_discovery_document env http_date wall http address (Some policy)).
Definition fetch_keys (uri : string) (policy : DiscoveryPolicy) : M JwksResponse :=
  on_net (get_jwks env http_date wall http uri (Some policy)).

(** [entry is not None and not is_cache_expired(entry)]: the clock is read only for an entry. *)
Definition fresh {R} (entry : option (CacheEntry R)) : M (option R) :=
  match entry with
  | None => mret None
  | Some en => t ← now; mret (if is_cache_expired t en then None else Some (response en))
  end.

(** *** Discovery *)

Definition disco_lookup (k : disco_key) : M (option DiscoveryDocumentResponse) :=
  entry ← gets (λ s, od_get k (disco_cache s));
  hit ← fresh entry;
  match hit with
  | Some r =>
      _ ← modify (λ s, set_disco (memo s) (touch_cache_entry (disco_cache s) k) s);
      mret (Some r)
  | None => mret None
  end.

Definition no_address : exn :=
  Configuration "disco_doc_address is required when perform_disco is True".

Definition get_disco_response (disco_doc_address : option string) (policy : option DiscoveryPolicy)
    : M DiscoveryDocumentResponse :=
  match disco_doc_address with
  | None => mthrow no_address
  | Some address =>
      let policy := default default_policy policy in
      let k := (address, cache_key policy) in
      hit ← disco_lookup k;
      match hit with
      | Some r => mret r
      | None =>
          hit ← disco_lookup k;
          match hit with
          | Some r => mret r
          | None =>
              r ← fetch_document address policy;
              t ← now;
              _ ← modify (λ s,
                let '(m, c) := apply_disco_cache_outcome env (memo s) (disco_cache s) k r t in
                set_disco m c s);
              mret r
          end
      end
  end.

Definition clear_discovery_cache : M unit :=
  modify (λ s, set_disco (memo s) (clear_cache_locked (disco_cache s)) s).

(** *** Keys *)

Definition jwks_lookup (uri : string) : M (option JwksResponse) :=
  entry ← gets (λ s, od_get uri (jwks_cache s));
  hit ← fresh entry;
  match hit with
  | Some r =>
      _ ← modify (λ s, set_jwks (memo s) (touch_cache_entry (jwks_cache s) uri)
                         (kid_miss_last_attempt s) s);
      mret (Some r)
  | None => mret None
  end.

(** Under the write lock, and for the dictionary the process-wide structure lock: one step. *)
Definition write_jwks (uri : string) (r : JwksResponse) (t : Q) : M unit :=
  modify (λ s,
    let '(m, c, k) := apply_jwks_cache_outcome env (memo s) (jwks_cache s) uri r t
                        (Some (kid_miss_last_attempt s)) in
    set_jwks m c (default ∅ k) s).

Definition get_cached_jwks (uri : string) (policy : DiscoveryPolicy) : M JwksResponse :=
  hit ← jwks_lookup uri;
  match hit with
  | Some r => mret r
  | None =>
      hit ← jwks_lookup uri;
      match hit with
      | Some r => mret r
      | None =>
          r ← fetch_keys uri policy;
          t ← now;
          _ ← write_jwks uri r t;
          mret r
      end
  end.

Definition refresh_jwks (uri : string) (policy : DiscoveryPolicy) : M (JwksResponse * bool) :=
  request_time ← now;
  entry ← gets (λ s, od_get uri (jwks_cache s));
  match (match entry with
         | Some en => if Qle_bool request_time (cached_at en) then Some (response en) else None
         | None => None end) with
  | Some r => mret (r, false)
  | None =>
      r ← fetch_keys uri policy;
      t ← now;
      _ ← write_jwks uri r t;
      retained ← gets (λ s, od_get uri (jwks_cache s));
      mret (if jwks_is_successful r && negb (has_keys (jwks_keys r)) then
              match retained with
              | Some en => if has_keys (jwks_keys (response en)) then (response en, true) else (r, false)
              | None => (r, false)
              end
            else (r, false))
  end.

Definition clear_jwks_cache : M unit :=
  modify (λ s, set_jwks (memo s) (clear_cache_locked (jwks_cache s)) ∅ s).

(** *** The cooldown *)

Definition should_refresh (uri : string) (has_cached_keys : bool) : M bool :=
  t ← now;
  m ← gets memo; k ← gets kid_miss_last_attempt;
  let '(b, m') := should_attempt_kid_miss_refresh env m k uri has_cached_keys t in
  _ ← modify (set_memo m');
  mret b.

Definition stamp (uri : string) : M unit :=
  t ← now;
  modify (λ s, set_jwks (memo s) (jwks_cache s) (<[uri := t]> (kid_miss_last_attempt s)) s).
Definition unstamp (uri : string) : M unit :=
  modify (λ s, set_jwks (memo s) (jwks_cache s) (delete uri (kid_miss_last_attempt s)) s).

Definition maybe_warn_injected_http_client : M unit := modify (set_warning true).
Definition reset_injected_http_client_warning_for_testing : M unit := modify (set_warning false).

(** *** Resolving the key *)

(** The lookup that ends every path; [response.keys or []] on a validated response. *)
Definition find_in (jwt : string) (r : JwksResponse) : outcome (pydict * pyval) :=
  '(k, jwt_alg) ← extract_jwt_header_fields get_unverified_header jwt;
  find_key_by_kid k (keys_or_nil (jwks_keys r)) jwt_alg.

(** With an injected client nothing is cached. *)
Definition injected_keys (d : DiscoveryDocumentResponse) (policy : DiscoveryPolicy) : M JwksResponse :=
  uri ← lift (validate_jwks_uri d);
  r ← (match uri with
       | VStr u => fetch_keys u policy
       | _ => mret (handle_jwks_error (AttributeError uri "decode"))
       end);
  _ ← lift (validate_jwks_response r);
  mret r.

(** The kid-miss refresh of the cached path, given the response it starts from. *)
Definition kid_miss (uri : string) (policy : DiscoveryPolicy) (k : pyval) (r : JwksResponse)
    : M JwksResponse :=
  let cached_keys := keys_or_nil (jwks_keys r) in
  if negb (is_none k) && negb (kid_in k cached_keys) then
    attempt ← should_refresh uri (has_keys (jwks_keys r));
    if attempt : bool then
      '(r', from_retained) ← refresh_jwks uri policy;
      _ ← (if jwks_is_successful r' && negb from_retained then
             if kid_in k (keys_or_nil (jwks_keys r')) then unstamp uri else stamp uri
           else mret ());
      _ ← lift (validate_jwks_response r');
      mret r'
    else mret r
  else mret r.

Definition discover_and_resolve_key (jwt : string) (disco_doc_address : option string)
    (injected : bool) (policy : DiscoveryPolicy)
    : M (pydict * pyval * DiscoveryDocumentResponse) :=
  if injected then
    _ ← maybe_warn_injected_http_client;
    match disco_doc_address with
    | None => mthrow no_address
    | Some address =>
        d ← fetch_document address policy;
        _ ← lift (validate_disco_response d);
        r ← injected_keys d policy;
        '(key_dict, al) ← lift (find_in jwt r);
        mret (key_dict, al, d)
    end
  else
    d ← get_disco_response disco_doc_address (Some policy);
    _ ← lift (validate_disco_response d);
    uri ← lift (validate_jwks_uri d);
    uri ← lift (uri_key uri);
    r ← get_cached_jwks uri policy;
    _ ← lift (validate_jwks_response r);
    '(k, jwt_alg) ← lift (extract_jwt_header_fields get_unverified_header jwt);
    r ← kid_miss uri policy k r;
    '(key_dict, al) ← lift (find_key_by_kid k (keys_or_nil (jwks_keys r)) jwt_alg);
    mret (key_dict, al, d).

(** *** Decoding *)

Definition run_decode (jwt : string) (c : TokenValidationConfig) (iss : pyval) : M pydict := λ s,
  (decode_with_config new_pyjwk (decode (decodes s)) jwt c iss, set_decodes (S (decodes s)) s).

(** [find_key_by_kid], [build_resolved_config], [decode_with_config], in a row. *)
Definition decode_with_keys (jwt : string) (c : TokenValidationConfig)
    (d : DiscoveryDocumentResponse) (r : JwksResponse) : M pydict :=
  '(key_dict, al) ← lift (find_in jwt r);
  resolved ← lift (build_resolved_config c key_dict al);
  iss ← lift (disco_attr d "issuer");
  run_decode jwt resolved iss.

Definition config_policy (c : TokenValidationConfig) : DiscoveryPolicy :=
  resolve_discovery_policy (discovery_policy c) (config_require_https c).

Definition cooldown_active : exn :=
  SignatureVerification "Signature verification failed; refresh cooldown active" [].

Definition retry_with_refreshed_jwks (jwt : string) (c : TokenValidationConfig)
    (d : DiscoveryDocumentResponse) (injected : bool) : M pydict :=
  uri ← lift (validate_jwks_uri d);
  let policy := config_policy c in
  if injected then
    r ← injected_keys d policy;
    decode_with_keys jwt c d r
  else
    uri ← lift (uri_key uri);
    attempt ← should_refresh uri true;
    if negb attempt then mthrow cooldown_active
    else
      '(r, from_retained) ← refresh_jwks uri policy;
      _ ← lift (validate_jwks_response r);
      decoded ← try_except (decode_with_keys jwt c d r)
        (λ e, _ ← (if negb from_retained then stamp uri else mret ()); mthrow e);
      _ ← (if negb from_retained then unstamp uri else mret ());
      mret decoded.

Definition validate_token (jwt : string) (c : TokenValidationConfig)
    (disco_doc_address : option string) (injected : bool) : M pydict :=
  _ ← lift (validate_token_config c);
  decoded ←
    (if perform_disco c then
       '(key_dict, al, d) ← discover_and_resolve_key jwt disco_doc_address injected (config_policy c);
       resolved ← lift (build_resolved_config c key_dict al);
       iss ← lift (disco_attr d "issuer");
       try_except (run_decode jwt resolved iss)
         (λ e, if isinstance e SignatureVerificationException
               then retry_with_refreshed_jwks jwt c d injected else mthrow e)
     else
       _ ← lift (validate_config_for_manual_validation c);
       run_decode jwt c VNone);
  lift (validate_claims decoded c).
End Validation.

(** ** The state invariant

    The caches are well formed, and they hold nothing but what the network served for the key
    they hold it under: a document under its address and a policy it was admitted under, a key
    set under its URI. *)

Definition doc_entry_ok (http : nat → string → outcome HttpResponse) (k : disco_key)
    (d : DiscoveryDocumentResponse) : Prop :=
  ∃ p, cache_key p = k.2 ∧ admitted_doc http k.1 p d.

Record tv_inv (env : string → option string) (http : nat → string → outcome HttpResponse)
    (s : TVState) : Prop := {
  tv_jwks : jwks_inv (memo s) (jwks_cache s) (kid_miss_last_attempt s);
  tv_disco : disco_inv (doc_entry_ok http) (memo s) (disco_cache s);
  tv_keys : ∀ uri en, od_get uri (jwks_cache s) = Some en → admitted_keys env http uri (response en);
}.

(** The same, with a key set for [uri] in the cache. *)
Definition tv_inv_at env http (uri : string) (s : TVState) : Prop :=
  tv_inv env http s ∧ is_Some (od_get uri (jwks_cache s)).

Lemma initial_tv_inv env http : tv_inv env http initial_state.
Proof.
  constructor; [constructor|constructor|done]; simpl; try apply NoDup_nil_2; try done.
  intros uri [t Ht]. by rewrite lookup_empty in Ht.
Qed.

(** [J] looks at neither the network nor the counters. *)
Definition ignores_io (J : TVState → Prop) : Prop :=
  ∀ s n b d, J s → J (set_decodes d (set_warning b (set_network n s))).

Lemma tv_inv_io env http : ignores_io (tv_inv env http).
Proof. intros s n b d [H1 H2 H3]. by constructor. Qed.
Lemma tv_inv_at_io env http uri : ignores_io (tv_inv_at env http uri).
Proof. intros s n b d [H1 H2]. split; [by apply tv_inv_io|done]. Qed.

Definition usable_keys (r : JwksResponse) : bool := jwks_is_successful r && has_keys (jwks_keys r).

Lemma usable_keys_ok r : validate_jwks_response r = Ok () ↔ usable_keys r = true.
Proof. unfold usable_keys. by rewrite validate_jwks_response_ok, andb_true_iff. Qed.

Section Facts.
Context (env : string → option string) (http_date : string → option Q) (wall : Q).
Context (http : nat → string → outcome HttpResponse).
Context (clock : nat → Q).
Context (get_unverified_header : string → outcome pydict).
Context {PyJWK : Type} (new_pyjwk : pydict → option pyval → outcome PyJWK).
Context (decode : nat → string → PyJWK → DecodeArgs → outcome pydict).

Local Abbreviation Inv := (tv_inv env http).
Local Abbreviation InvAt := (tv_inv_at env http).

(** *** I/O steps *)

Lemma io_net {A} J (m : stM net exn A) (P : A → Prop) :
  ignores_io J → (∀ s a s', m s = (Ok a, s') → P a) → triple J (on_net m) P.
Proof.
  intros HJ HP s Hs. unfold on_net, zoom. destruct (m (network s)) as [[a|e] n] eqn:Em.
  - split; [|by eapply HP]. by apply (HJ s n (warning_emitted s) (decodes s)).
  - by apply (HJ s n (warning_emitted s) (decodes s)).
Qed.

Lemma triple_now J : ignores_io J → triple J (now clock) (λ _, True).
Proof. intros HJ. by apply io_net. Qed.

Lemma triple_fetch_document J address p :
  ignores_io J →
  triple J (fetch_document env http_date wall http address p)
    (λ d, disco_is_successful d = true → admitted_doc http address p d).
Proof.
  intros HJ. apply io_net; [done|]. intros s d s' H.
  destruct (get_discovery_document_spec env http_date wall http address (Some p) s)
    as (d' & s'' & Heq & _ & Hd & _). rewrite H in Heq. by injection Heq as <- <-.
Qed.

Lemma triple_fetch_keys J uri p :
  ignores_io J →
  triple J (fetch_keys env http_date wall http uri p)
    (λ r, jwks_is_successful r = true → admitted_keys env http uri r).
Proof.
  intros HJ. apply io_net; [done|]. intros s d s' H.
  destruct (get_jwks_spec env http_date wall http uri (Some p) s)
    as (d' & s'' & Heq & _ & Hd & _). rewrite H in Heq. injection Heq as <- <-.
  intros Hs. by apply Hd.
Qed.

Lemma triple_fresh {R} J (entry : option (CacheEntry R)) :
  ignores_io J → triple J (fresh clock entry) (λ o, ∀ r, o = Some r → ∃ en, entry = Some en ∧ response en = r).
Proof.
  intros HJ. unfold fresh. destruct entry as [en|]; [|by apply triple_ret].
  eapply triple_bind; [by apply triple_now|]. intros t _. apply triple_ret.
  intros r. destruct (is_cache_expired t en); [done|]. intros [= <-]. by exists en.
Qed.

(** *** Lookups *)

Lemma triple_disco_lookup address p :
  triple Inv (disco_lookup clock (address, cache_key p))
    (λ o, ∀ d, o = Some d → admitted_doc http address p d).
Proof.
  unfold disco_lookup. eapply triple_bind.
  { apply (triple_gets _ _ (λ o, ∀ en, o = Some en → admitted_doc http address p (response en))).
    intros s Hs en Hg. destruct (dinv_entries _ _ _ (tv_disco _ _ _ Hs) _ _ Hg) as [(q & Hq & Ha) _].
    cbn [fst snd] in *. by apply cache_key_inj in Hq as ->. }
  intros entry Hentry. eapply triple_bind; [apply triple_fresh, tv_inv_io|].
  intros hit Hhit. destruct hit as [d|]; [|by apply triple_ret].
  eapply triple_bind.
  - apply triple_modify. intros s [H1 H2 H3]. constructor; [done| |done]. by apply disco_inv_touch.
  - intros _ _. apply triple_ret. intros d' [= <-].
    destruct (Hhit d eq_refl) as (en & -> & <-). by apply Hentry.
Qed.

Lemma touch_inv uri u s :
  InvAt uri s → InvAt uri (set_jwks (memo s) (touch_cache_entry (jwks_cache s) u) (kid_miss_last_attempt s) s).
Proof.
  intros [[H1 H2 H3] H4]. split; [constructor; simpl|simpl].
  - by apply jwks_inv_touch.
  - done.
  - intros v en. rewrite touch_get. apply H3.
  - by rewrite touch_get.
Qed.

(** A hit leaves the entry in the cache. *)
Lemma jwks_lookup_spec uri s :
  Inv s →
  match jwks_lookup clock uri s with
  | (Ok (Some r), s') => InvAt uri s' ∧ admitted_keys env http uri r
  | (_, s') => Inv s'
  end.
Proof.
  intros Hs. unfold jwks_lookup, gets, fresh, mbind, stM_bind, mret, stM_ret.
  destruct (od_get uri (jwks_cache s)) as [en|] eqn:Eg; [|done].
  assert (InvAt uri s) as Hat by (split; [done|by rewrite Eg]).
  unfold now, on_net, zoom, monotonic. cbn.
  set (s1 := set_network _ s). assert (InvAt uri s1) as Hat1.
  { by apply (tv_inv_at_io env http uri s _ (warning_emitted s) (decodes s)). }
  destruct (is_cache_expired _ en); [by apply Hat1|]. unfold modify. cbn.
  split; [by apply (touch_inv uri uri s1)|]. by apply (tv_keys _ _ _ Hs).
Qed.

Lemma set_jwks_outcome uri u r t s :
  Inv s → (jwks_is_successful r = true → admitted_keys env http uri r) →
  let '(m, c, k) := apply_jwks_cache_outcome env (memo s) (jwks_cache s) uri r t
                      (Some (kid_miss_last_attempt s)) in
  Inv (set_jwks m c (default ∅ k) s) ∧
  (usable_keys r = true → is_Some (od_get uri c)) ∧
  (uri = u → is_Some (od_get u (jwks_cache s)) → is_Some (od_get u c)).
Proof.
  intros [Hj Hd Hk] Hr. destruct (usable_keys r) eqn:Hu; cycle 1.
  { rewrite apply_jwks_unusable by done. split; [by constructor|done]. }
  apply andb_true_iff in Hu as [Hs Hkeys].
  destruct (apply_jwks_inv env (memo s) (jwks_cache s) uri r t (kid_miss_last_attempt s) Hj)
    as (m & c & k & Heq & Hinv).
  pose proof (apply_jwks_write env (memo s) (jwks_cache s) uri r t (kid_miss_last_attempt s)
    (inv_memo _ _ _ Hj) (inv_nodup _ _ _ Hj) Hs Hkeys) as Hw.
  pose proof (apply_jwks_le env (memo s) (jwks_cache s) uri r t (Some (kid_miss_last_attempt s))
    (inv_memo _ _ _ Hj)) as Hle.
  rewrite Heq in Hw, Hle |- *. cbn [fst] in Hle.
  destruct Hw as (_ & _ & _ & (tt & Hg & _) & Hold & _ & _).
  split; [constructor; simpl|].
  - done.
  - by eapply disco_inv_mono.
  - intros u' en Hg'. destruct (decide (u' = uri)) as [->|Hne].
    + rewrite Hg in Hg'. injection Hg' as <-. by apply Hr.
    + by eapply Hk, Hold.
  - split; [intros _; by rewrite Hg|]. intros -> _. by rewrite Hg.
Qed.

Lemma now_eq s : ∃ t n, now clock s = (Ok t, set_network n s).
Proof. by eexists _, _. Qed.

Lemma now_run s :
  now clock s = (Ok (clock (reads (network s))),
                 set_network (Net (sent (network s)) (slept (network s)) (S (reads (network s)))) s).
Proof. done. Qed.

Lemma fetch_keys_eq uri p s :
  ∃ r n, fetch_keys env http_date wall http uri p s = (Ok r, set_network n s) ∧
    (jwks_is_successful r = true → admitted_keys env http uri r).
Proof.
  unfold fetch_keys, on_net, zoom. cbn [network set_network sent slept reads].
  destruct (get_jwks_spec env http_date wall http uri (Some p) (network s))
    as (d & s' & -> & _ & Hd & _). exists d, s'. split; [done|]. intros Hs. by apply Hd.
Qed.

Lemma inv_network s n : Inv s → Inv (set_network n s).
Proof. intros H. by apply (tv_inv_io env http s n (warning_emitted s) (decodes s)). Qed.

(** A fetch followed by the cache write. *)
Lemma fetch_write uri p s :
  Inv s →
  ∃ r t s1 s2, fetch_keys env http_date wall http uri p s = (Ok r, s1) ∧
    now clock s1 = (Ok t, s2) ∧
    ∃ s3, write_jwks env uri r t s2 = (Ok (), s3) ∧ Inv s3 ∧
    (jwks_is_successful r = true → admitted_keys env http uri r) ∧
    (usable_keys r = true → InvAt uri s3) ∧
    (is_Some (od_get uri (jwks_cache s)) → InvAt uri s3).
Proof.
  intros Hs. destruct (fetch_keys_eq uri p s) as (r & n & Hf & Hr).
  destruct (now_eq (set_network n s)) as (t & n' & Hn).
  set (s2 := set_network n' (set_network n s)) in *.
  assert (Inv s2) as Hs2 by by apply inv_network, inv_network.
  pose proof (set_jwks_outcome uri uri r t s2 Hs2 Hr) as Hw.
  exists r, t, (set_network n s), s2. split; [done|]. split; [done|].
  unfold write_jwks, modify.
  destruct (apply_jwks_cache_outcome _ _ _ _ _ _ _) as [[m c] k].
  destruct Hw as (Hi & Hu & Hold). eexists. split; [done|].
  split_and!; [done..| |].
  - intros H. split; [done|]. by apply Hu.
  - intros H. split; [done|]. by apply Hold.
Qed.

Lemma get_cached_jwks_spec uri p s :
  Inv s →
  match get_cached_jwks env http_date wall http clock uri p s with
  | (Ok r, s') => Inv s' ∧ (usable_keys r = true → InvAt uri s') ∧
                  (jwks_is_successful r = true → admitted_keys env http uri r)
  | (Err _, s') => Inv s'
  end.
Proof.
  intros Hs. unfold get_cached_jwks. unfold mbind at 1, stM_bind at 1.
  pose proof (jwks_lookup_spec uri s Hs) as H1.
  destruct (jwks_lookup clock uri s) as [[[r|]|e] s1]; [by destruct H1 as [[? ?] ?]| |done].
  unfold mbind at 1, stM_bind at 1. pose proof (jwks_lookup_spec uri s1 H1) as H2.
  destruct (jwks_lookup clock uri s1) as [[[r|]|e] s2]; [by destruct H2 as [[? ?] ?]| |done].
  destruct (fetch_write uri p s2 H2) as (r & t & s3 & s4 & Hf & Hn & s5 & Hw & Hi & Hr & Hu & _).
  unfold mbind, stM_bind. rewrite Hf, Hn, Hw. done.
Qed.

(** A refresh never raises: failures come back as failed responses. *)
Lemma refresh_jwks_total uri p s e s' :
  refresh_jwks env http_date wall http clock uri p s ≠ (Err e, s').
Proof.
  destruct (now_eq s) as (t0 & n0 & Hn0).
  unfold refresh_jwks, mbind, stM_bind, gets. rewrite Hn0.
  destruct (match od_get uri (jwks_cache (set_network n0 s)) with
            | Some en => if Qle_bool t0 (cached_at en) then Some (response en) else None
            | None => None end); [done|].
  destruct (fetch_keys_eq uri p (set_network n0 s)) as (r & n & -> & _).
  destruct (now_eq (set_network n (set_network n0 s))) as (t & n' & ->).
  unfold write_jwks, modify. by destruct (apply_jwks_cache_outcome _ _ _ _ _ _ _) as [[? ?] ?].
Qed.

Lemma refresh_jwks_spec uri p s :
  Inv s →
  match refresh_jwks env http_date wall http clock uri p s with
  | (Ok (r, retained), s') => Inv s' ∧ (usable_keys r = true → InvAt uri s') ∧
      (is_Some (od_get uri (jwks_cache s)) → InvAt uri s') ∧
      (jwks_is_successful r = true → admitted_keys env http uri r)
  | (Err _, s') => Inv s'
  end.
Proof.
  intros Hs. destruct (now_eq s) as (t0 & n0 & Hn0).
  unfold refresh_jwks, mbind, stM_bind, gets. rewrite Hn0.
  set (s0 := set_network n0 s). assert (Inv s0) as Hs0 by by apply inv_network.
  change (jwks_cache s0) with (jwks_cache s).
  destruct (match od_get uri (jwks_cache s) with
            | Some en => if Qle_bool t0 (cached_at en) then Some (response en) else None
            | None => None end) as [r|] eqn:Ehit.
  - unfold mret, stM_ret. destruct (od_get uri (jwks_cache s)) as [en|] eqn:Eg; [|done].
    assert (InvAt uri s0) as Hat by (split; [done|exists en; exact Eg]).
    destruct (Qle_bool t0 (cached_at en)); [injection Ehit as <-|done].
    split_and!; try done. intros _. by apply (tv_keys _ _ _ Hs).
  - destruct (fetch_write uri p s0 Hs0) as (r & t & s3 & s4 & Hf & Hn & s5 & Hw & Hi & Hr & Hu & Ho).
    rewrite Hf, Hn, Hw. unfold mret, stM_ret.
    assert (Hdef : Inv s5 ∧ (usable_keys r = true → InvAt uri s5) ∧
      (is_Some (od_get uri (jwks_cache s)) → InvAt uri s5) ∧
      (jwks_is_successful r = true → admitted_keys env http uri r)) by done.
    destruct (jwks_is_successful r && negb (has_keys (jwks_keys r))) eqn:Ee; [|exact Hdef].
    destruct (od_get uri (jwks_cache s5)) as [en|] eqn:Eg; [|exact Hdef].
    destruct (has_keys (jwks_keys (response en))); [|exact Hdef].
    assert (InvAt uri s5) by (split; [done|by rewrite Eg]).
    split_and!; try done. intros _. by apply (tv_keys _ _ _ Hi).
Qed.

(** *** The cooldown *)

Lemma inv_set_memo s m : Inv s → memo_le (memo s) m → Inv (set_memo m s).
Proof.
  intros [H1 H2 H3] Hle. constructor; [by eapply jwks_inv_mono|by eapply disco_inv_mono|done].
Qed.

Lemma should_refresh_inv b u s :
  Inv s → ∃ res s', should_refresh env clock u b s = (Ok res, s') ∧ Inv s' ∧
    jwks_cache s' = jwks_cache s.
Proof.
  intros Hs. unfold should_refresh. destruct (now_eq s) as (t & n & Hn).
  unfold mbind, stM_bind, gets, modify, mret, stM_ret. rewrite Hn.
  set (s1 := set_network n s). assert (Inv s1) as Hi by by apply inv_network.
  pose proof (should_attempt_le env (memo s1) (kid_miss_last_attempt s1) u b t
    (inv_memo _ _ _ (tv_jwks _ _ _ Hi))) as Hle.
  destruct (should_attempt_kid_miss_refresh _ _ _ _ _ _) as [res m]. cbn [snd] in Hle.
  exists res, (set_memo m s1). split; [done|]. split; [by apply inv_set_memo|done].
Qed.

Lemma triple_should_refresh_inv b u : triple Inv (should_refresh env clock u b) (λ _, True).
Proof. intros s Hs. by destruct (should_refresh_inv b u s Hs) as (res & s' & -> & ? & _). Qed.

Lemma triple_should_refresh uri b u :
  triple (InvAt uri) (should_refresh env clock u b) (λ _, True).
Proof.
  intros s [Hs Hg]. destruct (should_refresh_inv b u s Hs) as (res & s' & -> & ? & Hc).
  split; [|done]. split; [done|]. by rewrite Hc.
Qed.

Lemma triple_stamp uri : triple (InvAt uri) (stamp clock uri) (λ _, True).
Proof.
  unfold stamp. eapply triple_bind; [apply triple_now, tv_inv_at_io|]. intros t _.
  apply triple_modify. intros s [[H1 H2 H3] H4]. split; [constructor; simpl; [|done..]|done].
  destruct H1 as [? ? ? ? Hcd]. constructor; [done..|].
  intros u. destruct (decide (u = uri)) as [->|Hne].
  - intros _. destruct H4 as [en Hen]. apply od_get_elem in Hen.
    apply list_elem_of_fmap. by exists (uri, en).
  - rewrite lookup_insert_ne by done. apply Hcd.
Qed.

Lemma triple_unstamp uri u : triple (InvAt uri) (unstamp u) (λ _, True).
Proof.
  unfold unstamp. apply triple_modify.
  intros s [[H1 H2 H3] H4]. split; [constructor; simpl; [|done..]|done].
  destruct H1 as [? ? ? ? Hcd]. constructor; [done..|].
  intros v. rewrite lookup_delete_is_Some. intros [_ Hv]. by apply Hcd.
Qed.

(** *** Sequencing where the first step establishes a fact of the state *)

Definition keys_found (uri : string) (r : JwksResponse) (s : TVState) : Prop :=
  Inv s ∧ (usable_keys r = true → InvAt uri s) ∧
  (jwks_is_successful r = true → admitted_keys env http uri r).

(** Validating the response turns the fact into the stronger invariant. *)
Lemma validated {B} uri r (k : stM TVState exn B) (P : B → Prop) s :
  keys_found uri r s →
  (usable_keys r = true → admitted_keys env http uri r → triple (InvAt uri) k P) →
  match (_ ← lift (validate_jwks_response r); k) s with
  | (Ok b, s') => Inv s' ∧ P b
  | (Err _, s') => Inv s'
  end.
Proof.
  intros (Hi & Hu & Ha) Hk. unfold mbind, stM_bind, lift.
  destruct (validate_jwks_response r) as [[]|e] eqn:Ev; [|done].
  apply usable_keys_ok in Ev. specialize (Hu Ev).
  assert (admitted_keys env http uri r) as Had.
  { apply Ha. by apply andb_true_iff in Ev as [? _]. }
  specialize (Hk Ev Had s Hu). destruct (k s) as [[b|e] s']; by repeat destruct Hk as [Hk ?].
Qed.

Lemma triple_kid_miss uri p k r :
  usable_keys r = true → admitted_keys env http uri r →
  triple (InvAt uri) (kid_miss env http_date wall http clock uri p k r)
    (λ r', admitted_keys env http uri r').
Proof.
  intros Hu Ha. unfold kid_miss. apply triple_if; intros _; [|by apply triple_ret].
  eapply triple_bind; [apply triple_should_refresh|]. intros [] _; [|by apply triple_ret].
  eapply (triple_bind _ _ _ (λ rb, jwks_is_successful rb.1 = true → admitted_keys env http uri rb.1)).
  { intros s Hs. pose proof (refresh_jwks_spec uri p s (proj1 Hs)) as H.
    pose proof (proj2 Hs) as Hsome.
    destruct (refresh_jwks _ _ _ _ _ _ _ s) as [[[r' b]|e] s'] eqn:Er.
    - destruct H as (_ & _ & Hat & Hr). split; [by apply Hat|done].
    - by apply refresh_jwks_total in Er. }
  intros [r' b] Hr'. eapply (triple_bind _ _ _ (λ _, True)).
  { apply triple_if; intros _; [|by apply triple_ret].
    apply triple_if; intros _; [apply triple_unstamp|apply triple_stamp]. }
  intros _ _. eapply (triple_bind _ _ _ (λ _, jwks_is_successful r' = true)).
  { apply triple_lift. intros [] Hv. apply usable_keys_ok in Hv.
    by apply andb_true_iff in Hv as [? _]. }
  intros _ Hs. apply triple_ret. by apply Hr'.
Qed.

(** *** Where the key comes from *)

(** The key [kd] with algorithm [al] was selected for this token from a key set served at the
    [jwks_uri] of [d], a document served at the configured address and admitted under [p]. *)
Definition key_from (jwt : string) (addr : option string) (p : DiscoveryPolicy)
    (res : pydict * pyval * DiscoveryDocumentResponse) : Prop :=
  ∃ address uri r, addr = Some address ∧ admitted_doc http address p res.2 ∧
    dget "jwks_uri" (disco_attrs res.2) = VStr uri ∧ admitted_keys env http uri r ∧
    find_in get_unverified_header jwt r = Ok res.1.

Lemma admitted_doc_attr address p d name :
  admitted_doc http address p d → name ∉ error_fields →
  disco_attr d name = Ok (dget name (disco_attrs d)).
Proof. intros [H _] Hn. by apply disco_attr_ok. Qed.

Lemma validate_jwks_uri_ok address p d v :
  admitted_doc http address p d → validate_jwks_uri d = Ok v →
  dget "jwks_uri" (disco_attrs d) = v.
Proof.
  intros Hd. unfold validate_jwks_uri.
  rewrite (admitted_doc_attr address p d) by (done || compute_done). cbn [mbind result_bind].
  destruct (truthy _); [by intros [= <-]|done].
Qed.

Lemma triple_get_disco_response addr p :
  triple Inv (get_disco_response env http_date wall http clock addr (Some p))
    (λ d, ∃ address, addr = Some address ∧
            (disco_is_successful d = true → admitted_doc http address p d)).
Proof.
  unfold get_disco_response. destruct addr as [address|]; [|apply triple_throw].
  cbn [default from_option id]. set (k := (address, cache_key p)).
  assert (Hlook : ∀ (m : stM TVState exn DiscoveryDocumentResponse) P,
    (∀ d, admitted_doc http address p d → P d) → triple Inv m P →
    triple Inv (hit ← disco_lookup clock k; match hit with Some r => mret r | None => m end) P).
  { intros m P HP Hm. eapply triple_bind; [apply triple_disco_lookup|].
    intros [d|] Hd; [|done]. apply triple_ret, HP, Hd. done. }
  apply Hlook; [by exists address|]. apply Hlook; [by exists address|].
  eapply triple_bind; [apply triple_fetch_document, tv_inv_io|]. intros d Hd.
  eapply triple_bind; [apply triple_now, tv_inv_io|]. intros t _.
  eapply triple_bind; [|intros _ _; apply triple_ret; by exists address].
  apply triple_modify. intros s [H1 H2 H3].
  pose proof (apply_disco_inv (doc_entry_ok http) env (memo s) (disco_cache s) k d t
    (inv_memo _ _ _ H1) H2) as Hw.
  destruct (apply_disco_cache_outcome env (memo s) (disco_cache s) k d t) as [m c].
  destruct Hw as [Hle Hinv]; [intros Hs; exists p; split; [done|by apply Hd]|].
  constructor; [by eapply jwks_inv_mono|done|done].
Qed.

Lemma triple_injected_keys address p d :
  admitted_doc http address p d →
  triple Inv (injected_keys env http_date wall http d p)
    (λ r, ∃ uri, dget "jwks_uri" (disco_attrs d) = VStr uri ∧ admitted_keys env http uri r).
Proof.
  intros Hd. unfold injected_keys.
  eapply (triple_bind _ _ _ (λ v, dget "jwks_uri" (disco_attrs d) = v)).
  { apply triple_lift. intros v. by eapply validate_jwks_uri_ok. }
  intros v Hv.
  eapply (triple_bind _ _ _ (λ r, jwks_is_successful r = true →
    ∃ uri, v = VStr uri ∧ admitted_keys env http uri r)).
  { destruct v; try by apply triple_ret.
    eapply triple_post; [apply triple_fetch_keys, tv_inv_io|]. intros r Hr Hs. eauto. }
  intros r Hr. eapply (triple_bind _ _ _ (λ _, jwks_is_successful r = true)).
  { apply triple_lift. intros [] Hu. by apply validate_jwks_response_ok in Hu as [? _]. }
  intros _ Hs. apply triple_ret. destruct (Hr Hs) as (uri & -> & ?). by exists uri.
Qed.

Lemma triple_discover jwt addr injected p :
  triple Inv (discover_and_resolve_key env http_date wall http clock get_unverified_header
                jwt addr injected p) (key_from jwt addr p).
Proof.
  unfold discover_and_resolve_key. apply triple_if; intros _.
  - eapply (triple_bind _ _ _ (λ _, True)).
    { apply triple_modify. intros s Hs. by apply (tv_inv_io env http s (network s) true (decodes s)). }
    intros _ _. destruct addr as [address|]; [|apply triple_throw].
    eapply triple_bind; [apply triple_fetch_document, tv_inv_io|]. intros d Hd.
    eapply (triple_bind _ _ _ (λ _, admitted_doc http address p d)).
    { apply triple_lift. intros [] Hv. by apply Hd, validate_disco_response_ok. }
    intros _ Had. eapply triple_bind; [by eapply triple_injected_keys|].
    intros r (uri & Huri & Hr).
    eapply (triple_bind _ _ _ (λ kv, find_in get_unverified_header jwt r = Ok kv));
      [by apply triple_lift|]. intros [kd al] Hf. apply triple_ret. by exists address, uri, r.
  - eapply triple_bind; [apply triple_get_disco_response|]. intros d (address & -> & Hd).
    eapply (triple_bind _ _ _ (λ _, admitted_doc http address p d)).
    { apply triple_lift. intros [] Hv. by apply Hd, validate_disco_response_ok. }
    intros _ Had. eapply (triple_bind _ _ _ (λ v, dget "jwks_uri" (disco_attrs d) = v)).
    { apply triple_lift. intros v. by eapply validate_jwks_uri_ok. }
    intros v Hv. eapply (triple_bind _ _ _ (λ uri, v = VStr uri)).
    { apply triple_lift. intros uri. destruct v; simpl; try done. by intros [= ->]. }
    intros uri ->. intros s Hs. unfold mbind at 1, stM_bind at 1.
    pose proof (get_cached_jwks_spec uri p s Hs) as Hc.
    destruct (get_cached_jwks _ _ _ _ _ _ _ s) as [[r|e] s1]; [|done].
    destruct Hc as (Hi & Hu & Ha). eapply (validated uri r); [done|]. intros Hus Had'.
    eapply (triple_bind _ _ _ (λ ka, extract_jwt_header_fields get_unverified_header jwt = Ok ka));
      [by apply triple_lift|]. intros [k al] Hx.
    eapply triple_bind; [by apply triple_kid_miss|]. intros r' Hr'.
    eapply (triple_bind _ _ _ (λ kv, find_in get_unverified_header jwt r' = Ok kv)).
    { apply triple_lift. intros kv Hkv. unfold find_in. by rewrite Hx. }
    intros [kd al'] Hf. apply triple_ret. by exists address, uri, r'.
Qed.

(** *** Decoding *)

(** Some call of PyJWT accepted the token under the configuration [c] and the issuer [iss]. *)
Definition decoded_with (jwt : string) (c : TokenValidationConfig) (iss : pyval) (claims : pydict)
    : Prop := ∃ n, decode_with_config new_pyjwk (decode n) jwt c iss = Ok claims.

Lemma triple_run_decode J jwt c iss :
  ignores_io J → triple J (run_decode new_pyjwk decode jwt c iss) (decoded_with jwt c iss).
Proof.
  intros HJ s Hs. unfold run_decode.
  assert (J (set_decodes (S (decodes s)) s))
    by by apply (HJ s (network s) (warning_emitted s) (S (decodes s))).
  destruct (decode_with_config _ _ _ _ _) eqn:Ed; [|done]. split; [done|]. by exists (decodes s).
Qed.

(** What [validate_token] has established in discovery mode when it has decoded the claims. *)
Definition disco_decoded (jwt : string) (c : TokenValidationConfig) (addr : option string)
    (claims : pydict) : Prop :=
  ∃ kd al d c', key_from jwt addr (config_policy c) (kd, al, d) ∧
    build_resolved_config c kd al = Ok c' ∧
    decoded_with jwt c' (dget "issuer" (disco_attrs d)) claims.

Lemma triple_decode_with_keys J jwt c addr d r uri address :
  ignores_io J → addr = Some address → admitted_doc http address (config_policy c) d →
  dget "jwks_uri" (disco_attrs d) = VStr uri → admitted_keys env http uri r →
  triple J (decode_with_keys get_unverified_header new_pyjwk decode jwt c d r)
    (disco_decoded jwt c addr).
Proof.
  intros HJ -> Hd Huri Hr. unfold decode_with_keys.
  eapply (triple_bind _ _ _ (λ kv, find_in get_unverified_header jwt r = Ok kv));
    [by apply triple_lift|]. intros [kd al] Hf.
  eapply (triple_bind _ _ _ (λ c', build_resolved_config c kd al = Ok c')); [by apply triple_lift|].
  intros c' Hc'. eapply (triple_bind _ _ _ (λ iss, dget "issuer" (disco_attrs d) = iss)).
  { apply triple_lift. intros iss.
    rewrite (admitted_doc_attr address (config_policy c) d) by (done || compute_done). by intros [= ->]. }
  intros iss <-. eapply triple_post; [by apply triple_run_decode|]. intros claims Hcl.
  exists kd, al, d, c'. split_and!; [|done..]. by exists address, uri, r.
Qed.

Lemma triple_retry jwt c addr address d injected :
  addr = Some address → admitted_doc http address (config_policy c) d →
  triple Inv (retry_with_refreshed_jwks env http_date wall http clock get_unverified_header
                new_pyjwk decode jwt c d injected) (disco_decoded jwt c addr).
Proof.
  intros Ha Hd. unfold retry_with_refreshed_jwks.
  eapply (triple_bind _ _ _ (λ v, dget "jwks_uri" (disco_attrs d) = v)).
  { apply triple_lift. intros v. by eapply validate_jwks_uri_ok. }
  intros v Hv. cbn zeta. apply triple_if; intros _.
  - eapply triple_bind; [by eapply triple_injected_keys|]. intros r (uri & Huri & Hr).
    eapply triple_decode_with_keys; [apply tv_inv_io|done..].
  - eapply (triple_bind _ _ _ (λ uri, v = VStr uri)).
    { apply triple_lift. intros uri. destruct v; simpl; try done. by intros [= ->]. }
    intros uri ->. eapply triple_bind; [apply triple_should_refresh_inv|]. intros b _.
    apply triple_if; intros _; [apply triple_throw|].
    intros s Hs. unfold mbind at 1, stM_bind at 1.
    pose proof (refresh_jwks_spec uri (config_policy c) s Hs) as H.
    destruct (refresh_jwks _ _ _ _ _ _ _ s) as [[[r retained]|e] s1]; [|done].
    destruct H as (Hi & Hu & _ & Hr). eapply (validated uri r); [done|]. intros Hus Had.
    eapply triple_bind.
    { apply triple_try; [eapply triple_decode_with_keys; [apply tv_inv_at_io|done..]|].
      intros e. eapply (triple_bind _ _ _ (λ _, True)); [|intros; apply triple_throw].
      apply triple_if; intros _; [apply triple_stamp|by apply triple_ret]. }
    intros claims Hcl. eapply (triple_bind _ _ _ (λ _, True)); [|intros; by apply triple_ret].
    apply triple_if; intros _; [apply triple_unstamp|by apply triple_ret].
Qed.

(** The claims [validate_token] returns, by mode. *)
Definition token_accepted (jwt : string) (c : TokenValidationConfig) (addr : option string)
    (claims : pydict) : Prop :=
  if perform_disco c then disco_decoded jwt c addr claims else decoded_with jwt c VNone claims.

Lemma triple_validate_token jwt c addr injected :
  triple Inv (validate_token env http_date wall http clock get_unverified_header new_pyjwk decode
                jwt c addr injected)
    (λ out, ∃ claims, token_accepted jwt c addr claims ∧ validate_claims claims c = Ok out).
Proof.
  unfold validate_token. eapply (triple_bind _ _ _ (λ _, True)); [by apply triple_lift|].
  intros _ _. eapply (triple_bind _ _ _ (token_accepted jwt c addr)).
  - unfold token_accepted. destruct (perform_disco c).
    + eapply triple_bind; [apply triple_discover|].
      intros [[kd al] d] (address & uri & r & -> & Hd & Huri & Hr & Hf). cbn [fst snd] in *.
      eapply (triple_bind _ _ _ (λ c', build_resolved_config c kd al = Ok c')); [by apply triple_lift|].
      intros c' Hc'. eapply (triple_bind _ _ _ (λ iss, dget "issuer" (disco_attrs d) = iss)).
      { apply triple_lift. intros iss.
        rewrite (admitted_doc_attr address (config_policy c) d) by (done || compute_done).
        by intros [= ->]. }
      intros iss <-. apply triple_try.
      * eapply triple_post; [apply triple_run_decode, tv_inv_io|]. intros claims Hcl.
        exists kd, al, d, c'. split_and!; [|done..]. by exists address, uri, r.
      * intros e. apply triple_if; intros _; [by eapply triple_retry|apply triple_throw].
    + eapply (triple_bind _ _ _ (λ _, True)); [by apply triple_lift|].
      intros _ _. apply triple_run_decode, tv_inv_io.
  - intros claims Hcl. apply triple_lift. intros out Hout. by exists claims.
Qed.
End Facts.

(** ** Reachable states *)

Section Reach.
Context (env : string → option string) (http_date : string → option Q) (wall : Q).
Context (http : nat → string → outcome HttpResponse).
Context (clock : nat → Q).
Context (get_unverified_header : string → outcome pydict).
Context {PyJWK : Type} (new_pyjwk : pydict → option pyval → outcome PyJWK).
Context (decode : nat → string → PyJWK → DecodeArgs → outcome pydict).

(** Everything a client can do with the module, whatever comes back. *)
Inductive tv_step : TVState → TVState → Prop :=
  | step_validate jwt c addr injected s :
      tv_step s (validate_token env http_date wall http clock get_unverified_header new_pyjwk
                   decode jwt c addr injected s).2
  | step_clear_discovery s : tv_step s (clear_discovery_cache s).2
  | step_clear_jwks s : tv_step s (clear_jwks_cache s).2
  | step_reset_warning s : tv_step s (reset_injected_http_client_warning_for_testing s).2.

Inductive reachable : TVState → Prop :=
  | reach_init : reachable initial_state
  | reach_step s s' : reachable s → tv_step s s' → reachable s'.

Lemma tv_step_inv s s' : tv_step s s' → tv_inv env http s → tv_inv env http s'.
Proof.
  intros [jwt c addr injected s0|s0|s0|s0] Hs.
  - pose proof (triple_validate_token env http_date wall http clock get_unverified_header
      new_pyjwk decode jwt c addr injected s0 Hs) as H.
    destruct (validate_token _ _ _ _ _ _ _ _ _ _ _ _ s0) as [[out|e] s1]; [by destruct H|done].
  - destruct Hs as [H1 H2 H3]. constructor; simpl; [done| |done].
    constructor; [apply NoDup_nil_2| |done]. unfold size_ok. simpl.
    destruct (inv_memo _ _ _ H1) as (_ & _ & _ & Hpos).
    destruct (max_cache_entries (memo s0)) as [z|]; [|done]. specialize (Hpos z eq_refl). lia.
  - destruct Hs as [H1 H2 H3]. constructor; simpl; [|done|done].
    destruct (inv_memo _ _ _ H1) as (_ & _ & _ & Hpos).
    constructor; [by apply H1|apply NoDup_nil_2| |done|].
    + unfold size_ok. simpl.
      destruct (max_cache_entries (memo s0)) as [z|]; [|done]. specialize (Hpos z eq_refl). lia.
    + intros uri [t Ht]. by rewrite lookup_empty in Ht.
  - destruct Hs as [H1 H2 H3]. by constructor.
Qed.

Lemma reachable_inv s : reachable s → tv_inv env http s.
Proof. induction 1; [apply initial_tv_inv|by eapply tv_step_inv]. Qed.
End Reach.

(** ** The cooldown and the rotation *)

Lemma cooldown_memo env m :
  (get_kid_miss_cooldown env (get_kid_miss_cooldown env m).2).1 = (get_kid_miss_cooldown env m).1.
Proof. unfold get_kid_miss_cooldown. destruct (kid_miss_cooldown m) eqn:E; simpl; by rewrite ?E. Qed.

Section Quiet.
Context (env : string → option string) (http_date : string → option Q) (wall : Q).
Context (http : nat → string → outcome HttpResponse).
Context (clock : nat → Q).
Context (get_unverified_header : string → outcome pydict).
Context {PyJWK : Type} (new_pyjwk : pydict → option pyval → outcome PyJWK).
Context (decode : nat → string → PyJWK → DecodeArgs → outcome pydict).
Context (k : disco_key) (doc : DiscoCacheEntry) (uri : string) (en : JwksCacheEntry).
Context (last cooldown : Q) (requests : list string).

(** The caches are warm for [k] and [uri], and the cooldown of [uri] was stamped at [last]. *)
Record quiet (s : TVState) : Prop := {
  q_sent : sent (network s) = requests;
  q_doc : od_get k (disco_cache s) = Some doc;
  q_keys : od_get uri (jwks_cache s) = Some en;
  q_stamp : kid_miss_last_attempt s !! uri = Some last;
  q_cooldown : (get_kid_miss_cooldown env (memo s)).1 = cooldown;
}.

(** Every reading of the clock falls in the lifetime of both entries and in the window. *)
Context (Hdoc : ∀ n, is_cache_expired (clock n) doc = false).
Context (Hen : ∀ n, is_cache_expired (clock n) en = false).
Context (Hwindow : ∀ n, Qle_bool cooldown (clock n - last) = false).
Context (Huri : validate_jwks_uri (response doc) = Ok (VStr uri)).

Lemma quiet_now : triple quiet (now clock) (λ t, ∃ n, t = clock n).
Proof.
  intros s [H1 H2 H3 H4 H5]. unfold now, on_net, zoom, monotonic.
  split; [by constructor|by exists (reads (network s))].
Qed.

Lemma quiet_disco : triple quiet (disco_lookup clock k) (λ o, o = Some (response doc)).
Proof using Hdoc.
  unfold disco_lookup. eapply triple_bind.
  { apply (triple_gets _ _ (λ o, o = Some doc)). intros s Hs. apply Hs. }
  intros entry ->. unfold fresh. eapply (triple_bind _ _ _ (λ o, o = Some (response doc))).
  { eapply triple_bind; [apply quiet_now|]. intros t [n ->]. rewrite Hdoc. by apply triple_ret. }
  intros hit ->. eapply (triple_bind _ _ _ (λ _, True)); [|by intros; apply triple_ret].
  apply triple_modify. intros s [H1 H2 H3 H4 H5]. constructor; try done. simpl.
  by rewrite touch_get.
Qed.

Lemma quiet_jwks : triple quiet (jwks_lookup clock uri) (λ o, o = Some (response en)).
Proof using Hen.
  unfold jwks_lookup. eapply triple_bind.
  { apply (triple_gets _ _ (λ o, o = Some en)). intros s Hs. apply Hs. }
  intros entry ->. unfold fresh. eapply (triple_bind _ _ _ (λ o, o = Some (response en))).
  { eapply triple_bind; [apply quiet_now|]. intros t [n ->]. rewrite Hen. by apply triple_ret. }
  intros hit ->. eapply (triple_bind _ _ _ (λ _, True)); [|by intros; apply triple_ret].
  apply triple_modify. intros s [H1 H2 H3 H4 H5]. constructor; try done. simpl.
  by rewrite touch_get.
Qed.

Lemma quiet_should_refresh : triple quiet (should_refresh env clock uri true) (λ b, b = false).
Proof using Hwindow.
  intros s Hs. unfold should_refresh. unfold mbind at 1, stM_bind at 1.
  pose proof (quiet_now s Hs) as Hn. destruct (now clock s) as [[t|e] s1]; [|done].
  destruct Hn as [[H1 H2 H3 H4 H5] [n ->]].
  unfold mbind, stM_bind, gets, modify, mret, stM_ret, should_attempt_kid_miss_refresh. simpl.
  rewrite H4. pose proof (cooldown_memo env (memo s1)) as Hm.
  destruct (get_kid_miss_cooldown env (memo s1)) as [cd m'] eqn:Ec. simpl in *. subst cd.
  split; [by constructor|apply Hwindow].
Qed.

Lemma quiet_get_disco address p :
  k = (address, cache_key p) →
  triple quiet (get_disco_response env http_date wall http clock (Some address) (Some p))
    (λ d, d = response doc).
Proof using Hdoc.
  intros Hk. unfold get_disco_response. cbn [default from_option id]. rewrite <- Hk.
  eapply triple_bind; [apply quiet_disco|]. intros o ->. by apply triple_ret.
Qed.

Lemma quiet_get_jwks p :
  triple quiet (get_cached_jwks env http_date wall http clock uri p) (λ r, r = response en).
Proof using Hen.
  unfold get_cached_jwks. eapply triple_bind; [apply quiet_jwks|]. intros o ->. by apply triple_ret.
Qed.

Lemma quiet_kid_miss p kd r :
  has_keys (jwks_keys r) = true →
  triple quiet (kid_miss env http_date wall http clock uri p kd r) (λ r', r' = r).
Proof using Hwindow.
  intros Hk. unfold kid_miss. apply triple_if; intros _; [|by apply triple_ret]. rewrite Hk.
  eapply triple_bind; [apply quiet_should_refresh|]. intros b ->. by apply triple_ret.
Qed.

Lemma quiet_retry jwt c :
  triple quiet (retry_with_refreshed_jwks env http_date wall http clock get_unverified_header
                  new_pyjwk decode jwt c (response doc) false) (λ _, True).
Proof using Hwindow Huri.
  unfold retry_with_refreshed_jwks. rewrite Huri.
  eapply (triple_bind _ _ _ (λ v, v = VStr uri)); [by apply triple_lift; intros ? [= <-]|].
  intros v ->. cbn zeta. cbn [uri_key].
  eapply (triple_bind _ _ _ (λ v, v = uri)); [by apply triple_lift; intros ? [= <-]|].
  intros v ->. eapply triple_bind; [apply quiet_should_refresh|]. intros b ->. apply triple_throw.
Qed.

Lemma quiet_run_decode jwt c iss : triple quiet (run_decode new_pyjwk decode jwt c iss) (λ _, True).
Proof.
  intros s [H1 H2 H3 H4 H5]. unfold run_decode. destruct (decode_with_config _ _ _ _ _);
    [split; [by constructor|done]|by constructor].
Qed.

Lemma quiet_validate jwt c address :
  k = (address, cache_key (config_policy c)) →
  triple quiet (validate_token env http_date wall http clock get_unverified_header new_pyjwk decode
                  jwt c (Some address) false) (λ _, True).
Proof using Hdoc Hen Hwindow Huri.
  intros Hk. unfold validate_token. eapply (triple_bind _ _ _ (λ _, True)); [by apply triple_lift|].
  intros _ _. eapply (triple_bind _ _ _ (λ _, True)); [|by intros; apply triple_lift].
  destruct (perform_disco c).
  - eapply (triple_bind _ _ _ (λ res, res.2 = response doc)).
    { unfold discover_and_resolve_key.
      eapply triple_bind; [by apply quiet_get_disco|]. intros d ->.
      eapply (triple_bind _ _ _ (λ _, True)); [by apply triple_lift|]. intros _ _. rewrite Huri.
      eapply (triple_bind _ _ _ (λ v, v = VStr uri)); [by apply triple_lift; intros ? [= <-]|].
      intros v ->. eapply (triple_bind _ _ _ (λ v, v = uri)); [by apply triple_lift; intros ? [= <-]|].
      intros v ->. eapply triple_bind; [apply quiet_get_jwks|]. intros r ->.
      eapply (triple_bind _ _ _ (λ _, has_keys (jwks_keys (response en)) = true)).
      { apply triple_lift. intros [] Hv. by apply validate_jwks_response_ok in Hv as [_ ?]. }
      intros _ Hkeys. eapply (triple_bind _ _ _ (λ _, True)); [by apply triple_lift|].
      intros [kd al] _. eapply triple_bind; [by apply quiet_kid_miss|]. intros r ->.
      eapply (triple_bind _ _ _ (λ _, True)); [by apply triple_lift|].
      intros [kd' al'] _. by apply triple_ret. }
    intros [[kd al] d] Hd. cbn [snd] in Hd. subst d.
    eapply (triple_bind _ _ _ (λ _, True)); [by apply triple_lift|]. intros c' _.
    eapply (triple_bind _ _ _ (λ _, True)); [by apply triple_lift|]. intros iss _.
    apply triple_try; [apply quiet_run_decode|].
    intros e. apply triple_if; intros _; [apply quiet_retry|apply triple_throw].
  - eapply (triple_bind _ _ _ (λ _, True)); [by apply triple_lift|].
    intros _ _. apply quiet_run_decode.
Qed.
End Quiet.

(** What the invariant says of the caches. *)
Lemma caches_safe env http s :
  tv_inv env http s →
  (match max_cache_entries (memo s) with
   | Some z => (Z.of_nat (length (jwks_cache s)) ≤ z ∧ Z.of_nat (length (disco_cache s)) ≤ z)%Z
   | None => jwks_cache s = [] ∧ disco_cache s = []
   end) ∧
  size (kid_miss_last_attempt s) ≤ length (jwks_cache s) ∧
  (∀ uri en, od_get uri (jwks_cache s) = Some en →
     admitted_keys env http uri (response en) ∧ usable_keys (response en) = true ∧ ttl_ok (ttl en)) ∧
  (∀ address p en, od_get (address, cache_key p) (disco_cache s) = Some en →
     admitted_doc http address p (response en) ∧ ttl_ok (ttl en)).
Proof.
  intros [H1 H2 H3]. split_and!.
  - pose proof (inv_size _ _ _ H1) as Hsz1. pose proof (dinv_size _ _ _ H2) as Hsz2.
    unfold size_ok in *. destruct (max_cache_entries (memo s)); [done|].
    by apply length_zero_iff_nil in Hsz1, Hsz2.
  - rewrite <- (length_fmap fst (jwks_cache s)), <- size_dom.
    rewrite <- (size_list_to_set (C:=gset string) (jwks_cache s).*1) by apply H1.
    apply subseteq_size. intros k Hk. apply elem_of_dom in Hk.
    apply elem_of_list_to_set. by apply H1.
  - intros uri en Hg. destruct (inv_entries _ _ _ H1 uri en Hg) as (Hs & Hk & Ht).
    split; [by apply H3|]. split; [|done]. unfold usable_keys. by rewrite Hs, Hk.
  - intros address p en Hg. destruct (dinv_entries _ _ _ H2 _ _ Hg) as [(q & Hq & Hd) Ht].
    simpl in *. by apply cache_key_inj in Hq as ->.
Qed.

(** ** What acceptance means *)

(** The claims [out] come from a call of PyJWT that accepted the token on inputs that are pinned
    down, see [validate_token_sound]. *)
Definition token_sound env http header {PyJWK : Type}
    (new_pyjwk : pydict → option pyval → outcome PyJWK)
    (decode : nat → string → PyJWK → DecodeArgs → outcome pydict)
    (jwt : string) (c : TokenValidationConfig) (addr : option string) (out : pydict) : Prop :=
  ∃ claims n, options_safe (options c) ∧
    (subject c ≠ VNone → py_eq (dget "sub" claims) (subject c) = true) ∧
    match claims_validator c with None => out = claims | Some f => f claims = (Ok (), out) end ∧
    if perform_disco c then
      ∃ address d uri r kd al, addr = Some address ∧
        admitted_doc http address (config_policy c) d ∧
        dget "jwks_uri" (disco_attrs d) = VStr uri ∧ admitted_keys env http uri r ∧
        find_in header jwt r = Ok (kd, al) ∧
        (∀ allowed, algorithms c = Some allowed → py_mem al allowed = true) ∧
        let iss := dget "issuer" (disco_attrs d) in
        let effective := if is_none iss then issuer c else iss in
        (∀ allowed, allowed_issuers c = Some allowed → issuers_approved effective allowed) ∧
        verified_by new_pyjwk (decode n) jwt (KeyDict kd) [al] (audience c) effective (options c)
          (leeway c) claims
    else
      ∃ algs, algorithms c = Some algs ∧
        (∀ allowed, allowed_issuers c = Some allowed → issuers_approved (issuer c) allowed) ∧
        verified_by new_pyjwk (decode n) jwt (key c) algs (audience c) (issuer c) (options c)
          (leeway c) claims.

Lemma token_accepted_sound env http header {PyJWK : Type} new_pyjwk decode jwt c addr claims out :
  token_accepted env http header (PyJWK:=PyJWK) new_pyjwk decode jwt c addr claims →
  validate_claims claims c = Ok out →
  token_sound env http header new_pyjwk decode jwt c addr out.
Proof.
  intros Hcl Hout. apply validate_claims_ok in Hout. unfold token_accepted in Hcl. unfold token_sound.
  destruct (perform_disco c).
  - destruct Hcl as (kd & al & d & c' & (address & uri & r & -> & Hd & Huri & Hr & Hf) & Hc' & n & Hn).
    apply build_resolved_config_ok in Hc' as [Hal ->].
    apply decode_with_config_ok in Hn as (algs & [= <-] & _ & _ & Ho & _ & Hi & Hv & Hs).
    exists claims, n. split; [done|]. split; [done|]. split; [done|].
    exists address, d, uri, r, kd, al. done.
  - destruct Hcl as [n Hn].
    apply decode_with_config_ok in Hn as (algs & Ha & _ & _ & Ho & _ & Hi & Hv & Hs).
    exists claims, n. split; [done|]. split; [done|]. split; [done|]. by exists algs.
Qed.

(** What is no token is never accepted. *)
Lemma no_token_sound env http {PyJWK : Type} (new_pyjwk : pydict → option pyval → outcome PyJWK) decode
    jwt c addr claims :
  perform_disco c = true → ¬ token_sound env http not_a_token new_pyjwk decode jwt c addr claims.
Proof.
  intros Hp (cl & n & _ & _ & _ & H). rewrite Hp in H.
  destruct H as (a & d & uri & r & kd & al & _ & _ & _ & _ & H & _). done.
Qed.

(** *** A refresh that is due *)

(** Without a running cooldown the gate is open; the network is only asked the time. *)
Lemma should_refresh_due env clock uri b s :
  memo_ok (memo s) →
  (∀ last n, kid_miss_last_attempt s !! uri = Some last →
     Qle_bool (get_kid_miss_cooldown env (memo s)).1 (clock n - last) = true) →
  ∃ m n, memo_ok m ∧ should_refresh env clock uri b s = (Ok true, set_memo m (set_network n s)) ∧
    sent n = sent (network s).
Proof.
  intros Hm Hcool. unfold should_refresh, mbind, stM_bind, gets, modify, mret, stM_ret. rewrite now_run.
  unfold should_attempt_kid_miss_refresh. cbn [memo kid_miss_last_attempt set_network].
  pose proof (get_kid_miss_cooldown_ok env (memo s) Hm) as [_ Hm'].
  destruct b; cbn [negb]; [|by eexists (memo s), (Net _ _ _)].
  destruct (kid_miss_last_attempt s !! uri) as [last|] eqn:El; [|by eexists (memo s), (Net _ _ _)].
  specialize (Hcool last (reads (network s)) eq_refl).
  destruct (get_kid_miss_cooldown env (memo s)) as [cd m']. cbn [fst snd] in *. rewrite Hcool.
  by eexists m', (Net _ _ _).
Qed.

(** A refresh of an older entry with one request: its answer, when usable, is filed. *)
Lemma refresh_jwks_first env http_date wall http clock uri p en resp retries base s :
  (∀ n, (cached_at en < clock n)%Q) →
  get_retry_config env = Ok (retries, base) → (0 ≤ retries)%Z →
  validate_url_scheme (Some uri) p = Ok () →
  http (length (sent (network s))) uri = Ok resp →
  transient (Ok resp) = false → final_answer (Ok resp) = Ok resp →
  memo_ok (memo s) → NoDup (jwks_cache s).*1 → od_get uri (jwks_cache s) = Some en →
  let r' := process_jwks_response env resp in
  usable_keys r' = true →
  ∃ s' en', refresh_jwks env http_date wall http clock uri p s = (Ok (r', false), s') ∧
    sent (network s') = uri :: sent (network s) ∧
    od_get uri (jwks_cache s') = Some en' ∧ response en' = r'.
Proof.
  intros Hclock Hcfg Hret Hurl Hhttp Htr Hfin Hm Hnd Hen r' Hu. pose proof Hu as [Hs Hk]%andb_true_iff.
  unfold refresh_jwks, mbind, stM_bind, gets, mret, stM_ret. rewrite now_run.
  change (jwks_cache (set_network _ s)) with (jwks_cache s). rewrite Hen.
  assert (Qle_bool (clock (reads (network s))) (cached_at en) = false) as ->.
  { apply not_true_iff_false. rewrite Qle_bool_iff. apply Qlt_not_le, Hclock. }
  unfold fetch_keys, on_net, zoom. cbn [network set_network sent slept reads].
  pose proof (λ k, get_jwks_first env http_date wall http uri (Some p) retries base resp
    (Net (sent (network s)) (slept (network s)) k) Hurl Hcfg Hret Hhttp Htr Hfin) as ->.
  fold r'. rewrite now_run. unfold write_jwks, modify. cbn [memo jwks_cache kid_miss_last_attempt set_network].
  match goal with |- context [apply_jwks_cache_outcome env _ _ _ _ ?t _] =>
    pose proof (apply_jwks_write env (memo s) (jwks_cache s) uri r' t (kid_miss_last_attempt s)
      Hm Hnd Hs Hk) as Hw end.
  destruct (apply_jwks_cache_outcome _ _ _ _ _ _ _) as [[m c] cd].
  destruct Hw as (_ & _ & _ & (tt & Hg & _) & _). rewrite Hs, Hk. cbn [negb andb].
  by eexists _, _.
Qed.

(** ** Properties *)

(** C1: [validate_token] is sound.  From any reachable state, claims it returns were accepted by
    PyJWT in some call whose inputs are pinned down.  In discovery mode the key is one the
    lookup selected for this token among the keys served at the [jwks_uri] of a document that
    was served at the configured address and passes the configured policy; the only algorithm
    allowed is that key's, and is on the configured list, if any; the issuer is the document's,
    and on the configured allowlist, if any.  In manual mode key, algorithms and issuer are the
    configured ones.  In both, no enforced check is off, the subject matches, and the claims
    validator accepted. *)
Theorem validate_token_sound env http_date wall http clock header {PyJWK : Type} new_pyjwk decode
    jwt c addr injected s out s' :
  reachable env http_date wall http clock header (PyJWK:=PyJWK) new_pyjwk decode s →
  validate_token env http_date wall http clock header new_pyjwk decode jwt c addr injected s
    = (Ok out, s') →
  ∃ claims n, options_safe (options c) ∧
    (subject c ≠ VNone → py_eq (dget "sub" claims) (subject c) = true) ∧
    match claims_validator c with None => out = claims | Some f => f claims = (Ok (), out) end ∧
    if perform_disco c then
      ∃ address d uri r kd al, addr = Some address ∧
        admitted_doc http address (config_policy c) d ∧
        dget "jwks_uri" (disco_attrs d) = VStr uri ∧ admitted_keys env http uri r ∧
        find_in header jwt r = Ok (kd, al) ∧
        (∀ allowed, algorithms c = Some allowed → py_mem al allowed = true) ∧
        let iss := dget "issuer" (disco_attrs d) in
        let effective := if is_none iss then issuer c else iss in
        (∀ allowed, allowed_issuers c = Some allowed → issuers_approved effective allowed) ∧
        verified_by new_pyjwk (decode n) jwt (KeyDict kd) [al] (audience c) effective (options c)
          (leeway c) claims
    else
      ∃ algs, algorithms c = Some algs ∧
        (∀ allowed, allowed_issuers c = Some allowed → issuers_approved (issuer c) allowed) ∧
        verified_by new_pyjwk (decode n) jwt (key c) algs (audience c) (issuer c) (options c)
          (leeway c) claims.
Proof.
  intros Hreach Hrun. apply reachable_inv in Hreach.
  pose proof (triple_validate_token env http_date wall http clock header new_pyjwk decode
    jwt c addr injected s Hreach) as H. rewrite Hrun in H. destruct H as (_ & claims & Hcl & Hout).
  by eapply token_accepted_sound.
Qed.

(** C7: the caches stay bounded and honest in every reachable state: at most the configured number
    of entries each, one cooldown stamp at most per cached key set, lifetimes within one minute
    and one day, and every cached document was served at its address and admitted under a policy
    with the cached policy's key, that is, under that very policy. *)
Theorem reachable_caches env http_date wall http clock header {PyJWK : Type} new_pyjwk decode s :
  reachable env http_date wall http clock header (PyJWK:=PyJWK) new_pyjwk decode s →
  (match max_cache_entries (memo s) with
   | Some z => (Z.of_nat (length (jwks_cache s)) ≤ z ∧ Z.of_nat (length (disco_cache s)) ≤ z)%Z
   | None => jwks_cache s = [] ∧ disco_cache s = []
   end) ∧
  size (kid_miss_last_attempt s) ≤ length (jwks_cache s) ∧
  (∀ uri en, od_get uri (jwks_cache s) = Some en →
     admitted_keys env http uri (response en) ∧ usable_keys (response en) = true ∧ ttl_ok (ttl en)) ∧
  (∀ address p en, od_get (address, cache_key p) (disco_cache s) = Some en →
     admitted_doc http address p (response en) ∧ ttl_ok (ttl en)).
Proof. intros Hs. by apply (caches_safe env http s (reachable_inv _ _ _ _ _ _ _ _ _ Hs)). Qed.

(** C20: the refresh cooldown holds.  While the document and the key set are fresh and the cooldown
    of the key set's URI is running, no token whatsoever, whatever [kid] or signature it has and
    whatever PyJWT says of it, makes the library send a single request; and the stamp stays. *)
Theorem cooldown_suppresses_requests env http_date wall http clock header {PyJWK : Type} new_pyjwk
    decode jwt c address doc uri en last cd s :
  (∀ n, is_cache_expired (clock n) doc = false) → (∀ n, is_cache_expired (clock n) en = false) →
  (∀ n, Qle_bool cd (clock n - last) = false) →
  validate_jwks_uri (response doc) = Ok (VStr uri) →
  quiet env (address, cache_key (config_policy c)) doc uri en last cd (sent (network s)) s →
  let s' := (validate_token env http_date wall http clock header (PyJWK:=PyJWK) new_pyjwk decode
               jwt c (Some address) false s).2 in
  sent (network s') = sent (network s) ∧ kid_miss_last_attempt s' !! uri = Some last.
Proof.
  intros H1 H2 H3 H4 Hq. cbn zeta.
  pose proof (quiet_validate env http_date wall http clock header new_pyjwk decode _ doc uri en
    last cd (sent (network s)) H1 H2 H3 H4 jwt c address eq_refl s Hq) as H.
  destruct (validate_token _ _ _ _ _ _ _ _ _ _ _ _ s) as [[out|e] s']; simpl.
  - destruct H as [[] _]. done.
  - by destruct H.
Qed.


(** *** A demonstration environment *)

Definition op_address : string := "https://op.example/.well-known/openid-configuration".
Definition demo_http (jwks_uri : string) (n : nat) (url : string) : outcome HttpResponse :=
  if url ≟ op_address then Ok (json_response (dict_set "jwks_uri" (VStr jwks_uri) demo_doc))
  else if url ≟ jwks_uri then Ok (jwks_response [rsa_member "a" []])
  else Err (mk_exn HttpxRequestError "connection refused").
Definition demo_header (jwt : string) : outcome pydict :=
  Ok [("kid", VStr "a"); ("alg", VStr "RS256")].
Definition demo_claims : pydict := [("sub", VStr "alice")].
Definition demo_decode (n : nat) (jwt : string) (k : pydict) (a : DecodeArgs) : outcome pydict :=
  Ok demo_claims.
Definition demo_clock (n : nat) : Q := 10.
Definition demo_config (p : option DiscoveryPolicy) : TokenValidationConfig :=
  TVConfig true (KeyOther VNone) VNone (Some [VStr "RS256"]) VNone VNone None None true VNone
    (Some ["https://op.example"]) p.
Definition demo_validate (jwks_uri : string) (p : option DiscoveryPolicy) : stM TVState exn pydict :=
  validate_token empty_env no_dates 0 (demo_http jwks_uri) demo_clock demo_header toy_new_pyjwk
    demo_decode "token" (demo_config p) (Some op_address) false.

Lemma run_pair {A B} (m : A * B) r : m.1 = r → m = (r, m.2).
Proof. intros <-. by destruct m. Qed.

(** The key-set cache is not partitioned by policy, unlike the document cache.  A caller whose
    policy requires HTTPS but skips the endpoint checks is refused a document whose [jwks_uri] is
    plain HTTP; after another caller of the same process, with a policy that does not require
    HTTPS, has validated a token, the strict caller is served the keys that came over plain
    HTTP, without a request or a check of its own. *)
Theorem jwks_cache_not_partitioned :
  let uri := "http://op.example/jwks" in
  let strict := Policy true true true false true [] None false in
  let lax := Policy false true true false true [] None false in
  (∃ e, (demo_validate uri (Some strict) initial_state).1 = Err e) ∧
  (demo_validate uri (Some lax) initial_state).1 = Ok demo_claims ∧
  let s := (demo_validate uri (Some lax) initial_state).2 in
  (demo_validate uri (Some strict) s).1 = Ok demo_claims ∧
  sent (network (demo_validate uri (Some strict) s).2) = op_address :: sent (network s) ∧
  is_ok (validate_url_scheme (Some uri) strict) = false.
Proof.
  cbn zeta. split; [eexists; vm_compute; reflexivity|].
  split; [vm_compute; reflexivity|]. split; [vm_compute; reflexivity|].
  split; vm_compute; reflexivity.
Qed.

(** *** Witnesses *)

Lemma validate_token_sound_witness :
  ∃ claims n kd al iss, py_mem al [VStr "RS256"] = true ∧
    verified_by toy_new_pyjwk (demo_decode n) "token" (KeyDict kd) [al] VNone iss None VNone claims.
Proof.
  destruct (validate_token_sound empty_env no_dates 0 (demo_http "https://op.example/jwks") demo_clock
    demo_header toy_new_pyjwk demo_decode "token" (demo_config None) (Some op_address) false
    initial_state demo_claims (demo_validate "https://op.example/jwks" None initial_state).2)
    as (claims & n & _ & _ & _ & address & d & uri & r & kd & al & _ & _ & _ & _ & _ & Hal & _ & Hv).
  - apply reach_init.
  - apply run_pair. vm_compute. reflexivity.
  - eexists claims, n, kd, al, _. split; [by apply Hal|exact Hv].
Defined.

Lemma reachable_caches_witness :
  size (kid_miss_last_attempt (demo_validate "https://op.example/jwks" None initial_state).2) ≤
  length (jwks_cache (demo_validate "https://op.example/jwks" None initial_state).2).
Proof.
  destruct (reachable_caches empty_env no_dates 0 (demo_http "https://op.example/jwks") demo_clock
    demo_header toy_new_pyjwk demo_decode
    (demo_validate "https://op.example/jwks" None initial_state).2) as (_ & H & _); [|exact H].
  eapply reach_step; [apply reach_init|apply step_validate].
Defined.

Definition warm_doc : DiscoCacheEntry :=
  Entry (process_discovery_response (json_response demo_doc) (Some default_policy)) 0 3600.
Definition warm_keys : JwksCacheEntry :=
  Entry (process_jwks_response empty_env (jwks_response [rsa_member "b" []])) 0 3600.
Definition warm_state (stamps : gmap string Q) : TVState :=
  TV demo_memo [((op_address, cache_key default_policy), warm_doc)]
    [("https://op.example/jwks", warm_keys)] stamps false (Net [] [] 0) 0.

Lemma cooldown_suppresses_requests_witness :
  sent (network (validate_token empty_env no_dates 0 (demo_http "https://op.example/jwks") demo_clock
    demo_header toy_new_pyjwk demo_decode "token" (demo_config None) (Some op_address) false
    (warm_state {["https://op.example/jwks" := 8%Q]})).2) = [].
Proof.
  refine (proj1 (cooldown_suppresses_requests empty_env no_dates 0 (demo_http "https://op.example/jwks")
    demo_clock demo_header toy_new_pyjwk demo_decode "token" (demo_config None) op_address warm_doc
    "https://op.example/jwks" warm_keys 8%Q 5%Q (warm_state {["https://op.example/jwks" := 8%Q]})
    _ _ _ _ _)); [intros n; vm_compute; reflexivity..|vm_compute; reflexivity|].
  constructor; vm_compute; reflexivity.
Defined.

Definition old_stamp : TVState := warm_state {["https://op.example/jwks" := (-1000)%Q]}.
Definition rotated (n : nat) (url : string) : outcome HttpResponse := Ok (jwks_response [rsa_member "a" []]).

