(* ===== verification/Coro.v ===== *)
(** * Cooperating calls: coroutines, locks and their interleavings

    What the asynchronous modules (aio/) are made of, kept apart from what they do.  A [coro] is a
    call in progress: a tree of uninterrupted steps on the shared state, and of acquisitions and
    releases of locks ([asyncio.Lock], whose names are a parameter); [Hang] is an [await] that never
    resumes.  [run] is one call alone;
    [pstep] is one step of a pool of calls, any of which may move unless it waits for a lock.
    Since every step is one access to the shared state, a pool has more interleavings than one
    event loop, and as many as several loops in several threads.

    The rules: [runs] relates a call alone to a computation in the state monad of the synchronous
    modules; [safe] is an invariant kept by every step, hence by every interleaving; [ordered]
    calls take locks in order, hence a pool of them always ends, every call with a result. *)

From S2P Require Import Prelude PyValue.
From stdpp Require Import relations.
From Stdlib Require Import Wellfounded.
Open Scope list_scope.
Open Scope nat_scope.

Section Coro.
Context {L : Type} `{EqDecision L} {S : Type}.

Inductive coro (A : Type) : Type :=
  | Ret (r : outcome A)
  | Step (upd : S → S) (k : S → coro A)
  | Acquire (l : L) (k : coro A)
  | Release (l : L) (k : coro A)
  | Hang.
Arguments Ret {A} _.
Arguments Step {A} _ _.
Arguments Acquire {A} _ _.
Arguments Release {A} _ _.
Arguments Hang {A}.

(** What follows a call, whether it returned or raised. *)
Fixpoint finish {A B} (h : outcome A → coro B) (c : coro A) : coro B :=
  match c with
  | Ret r => h r
  | Step u k => Step u (λ s, finish h (k s))
  | Acquire l k => Acquire l (finish h k)
  | Release l k => Release l (finish h k)
  | Hang => Hang
  end.

#[export] Instance coro_ret : MRet coro := λ A a, Ret (Ok a).
#[export] Instance coro_bind : MBind coro := λ A B f c,
  finish (λ r, match r with Ok a => f a | Err e => Ret (Err e) end) c.
#[export] Instance coro_throw : MThrow exn coro := λ A e, Ret (Err e).

Definition pure {A} (r : outcome A) : coro A := Ret r.

(** [try: c except Exception as e: h e]. *)
Definition attempt {A} (c : coro A) (h : exn → coro A) : coro A :=
  finish (λ r, match r with Ok a => Ret (Ok a) | Err e => h e end) c.

(** [async with l: c]: the lock is released on the way out of an exception too. *)
Definition with_lock {A} (l : L) (c : coro A) : coro A :=
  Acquire l (finish (λ r, Release l (Ret r)) c).

(** One uninterrupted computation. *)
Definition atom {A} (m : stM S exn A) : coro A := Step (λ s, (m s).2) (λ s, Ret (m s).1).

Definition drop_lock (l : L) (held : list L) : list L := List.filter (λ l', l' ≠? l) held.

(** ** A call alone

    [None]: the call waits for a lock it holds itself. *)
Fixpoint run {A} (held : list L) (c : coro A) (s : S) : option (outcome A * list L * S) :=
  match c with
  | Ret r => Some (r, held, s)
  | Step u k => run held (k s) (u s)
  | Acquire l k => if bool_decide (l ∈ held) then None else run (l :: held) k s
  | Release l k => run (drop_lock l held) k s
  | Hang => None
  end.

Lemma run_finish {A B} (h : outcome A → coro B) (c : coro A) held s :
  run held (finish h c) s =
  match run held c s with Some (r, held', s') => run held' (h r) s' | None => None end.
Proof.
  revert held s. induction c as [r|u k IH|l c IH|l c IH|]; intros held s; simpl; [done|apply IH| |done..].
  by case_bool_decide.
Qed.

Lemma drop_lock_fresh l held : l ∉ held → drop_lock l (l :: held) = held.
Proof.
  unfold drop_lock. cbn [List.filter]. bd_refl. induction held as [|l' held IH]; [done|].
  rewrite not_elem_of_cons. intros [Hne Hl]. cbn [List.filter].
  rewrite bool_decide_eq_false_2 by done. cbn [negb]. by rewrite IH.
Qed.

Section Runs.
Context {T : Type} (proj : S → T).

(** From every state that satisfies [I], and with none of the locks [U] held, the call alone ends
    with the outcome of [m] and in the state of [m]: it never waits for itself, and it gives back
    the locks it took. *)
Definition runs {A} (U : L → Prop) (I : T → Prop) (c : coro A) (m : stM T exn A) : Prop :=
  ∀ held s, (∀ l, U l → l ∉ held) → I (proj s) →
    ∃ s', run held c s = Some ((m (proj s)).1, held, s') ∧ proj s' = (m (proj s)).2.

Lemma runs_ret {A} U I (a : A) : runs U I (mret a) (mret a).
Proof. intros held s _ _. by exists s. Qed.
Lemma runs_throw {A} U I (e : exn) : runs U I (mthrow e : coro A) (mthrow e).
Proof. intros held s _ _. by exists s. Qed.
Lemma runs_pure {A} U I (r : outcome A) : runs U I (pure r) (lift r).
Proof. intros held s _ _. by exists s. Qed.

Lemma runs_weaken {A} (U U' : L → Prop) (I I' : T → Prop) (c : coro A) m :
  runs U I c m → (∀ l, U l → U' l) → (∀ t, I' t → I t) → runs U' I' c m.
Proof. intros H HU HI held s Hf Hs. apply H; eauto. Qed.

Lemma runs_ext {A} U I (c : coro A) m m' : runs U I c m → (∀ t, I t → m t = m' t) → runs U I c m'.
Proof. intros H He held s Hf Hs. rewrite <- He by done. by apply H. Qed.

Lemma runs_bind {A B} U (I J : T → Prop) (c : coro A) m (P : A → Prop) (k : A → coro B) k' :
  runs U I c m →
  (∀ t, I t → match m t with (Ok a, t') => J t' ∧ P a | (Err _, _) => True end) →
  (∀ a, P a → runs U J (k a) (k' a)) →
  runs U I (c ≫= k) (m ≫= k').
Proof.
  intros Hc Hm Hk held s Hf Hs. unfold mbind, coro_bind, stM_bind. rewrite run_finish.
  destruct (Hc held s Hf Hs) as (s1 & -> & Hp). specialize (Hm _ Hs).
  destruct (m (proj s)) as [[a|e] t]; cbn [fst snd] in *.
  - destruct Hm as [HJ HP]. destruct (Hk a HP held s1 Hf) as (s2 & -> & Hp2); [by rewrite Hp|].
    rewrite Hp in *. by exists s2.
  - by exists s1.
Qed.

(** The form for calls that agree from every state. *)
Lemma runs_seq {A B} U (c : coro A) m (k : A → coro B) k' :
  runs U (λ _, True) c m → (∀ a, runs U (λ _, True) (k a) (k' a)) →
  runs U (λ _, True) (c ≫= k) (m ≫= k').
Proof.
  intros Hc Hk. eapply (runs_bind _ _ (λ _, True) _ _ (λ _, True)); [done| |by intros a _].
  intros t _. by destruct (m t) as [[] ?].
Qed.

Lemma runs_finish {A B} U (c : coro A) m (h : outcome A → coro B) h' :
  runs U (λ _, True) c m → (∀ r, runs U (λ _, True) (h r) (h' r)) →
  runs U (λ _, True) (finish h c) (λ t, h' (m t).1 (m t).2).
Proof.
  intros Hc Hh held s Hf Hs. rewrite run_finish.
  destruct (Hc held s Hf Hs) as (s1 & -> & Hp).
  destruct (Hh (m (proj s)).1 held s1 Hf I) as (s2 & -> & Hp2). rewrite Hp in *. by exists s2.
Qed.

Lemma runs_attempt {A} U (c : coro A) m h h' :
  runs U (λ _, True) c m → (∀ e, runs U (λ _, True) (h e) (h' e)) →
  runs U (λ _, True) (attempt c h) (try_except m h').
Proof.
  intros Hc Hh held s Hf Hs. unfold attempt, try_except. rewrite run_finish.
  destruct (Hc held s Hf Hs) as (s1 & -> & Hp).
  destruct (m (proj s)) as [[a|e] t]; cbn [fst snd] in *; [by exists s1|].
  destruct (Hh e held s1 Hf I) as (s2 & -> & Hp2). rewrite Hp in *. by exists s2.
Qed.

Lemma runs_with_lock {A} (U : L → Prop) l (I : T → Prop) (c : coro A) m :
  runs (λ l', U l' ∧ l' ≠ l) I c m → U l → runs U I (with_lock l c) m.
Proof.
  intros Hc Hl held s Hf Hs. unfold with_lock. cbn [run].
  rewrite bool_decide_eq_false_2 by by apply Hf. rewrite run_finish.
  destruct (Hc (l :: held) s) as (s' & -> & Hp); [|done|].
  { intros l' [HU Hne]. rewrite not_elem_of_cons. split; [done|by apply Hf]. }
  cbn [run]. rewrite drop_lock_fresh by by apply Hf. by exists s'.
Qed.

(** A step that [proj] sees as the step [m]. *)
Lemma runs_atom {A} U I (m : stM S exn A) m' :
  (∀ s, (m s).1 = (m' (proj s)).1 ∧ proj (m s).2 = (m' (proj s)).2) → runs U I (atom m) m'.
Proof. intros H held s _ _. cbn. destruct (H s) as [-> ?]. by eexists. Qed.

(** A step that [proj] does not see. *)
Lemma runs_skip {A B} U I (m : stM S exn A) (a : A) (k : A → coro B) m' :
  (∀ s, (m s).1 = Ok a ∧ proj (m s).2 = proj s) → runs U I (k a) m' →
  runs U I (atom m ≫= k) m'.
Proof.
  intros H Hk held s Hf Hs. unfold mbind, coro_bind. cbn. destruct (H s) as [-> Hp].
  destruct (Hk held (m s).2 Hf) as (s' & -> & Hp'); [by rewrite Hp|].
  rewrite Hp in *. by exists s'.
Qed.
End Runs.
(** ** Pools of calls

    The calls in progress, each with the locks it holds, and the shared state. *)

Record pool (A : Type) : Type := Pool {
  tasks : list (coro A * list L);
  shared : S;
}.
Arguments Pool {A} _ _.
Arguments tasks {A} _.
Arguments shared {A} _.

Definition start {A} (cs : list (coro A)) (s : S) : pool A := Pool (map (λ c, (c, [])) cs) s.

Definition lock_free {A} (l : L) (p : pool A) : bool :=
  forallb (λ t, negb (bool_decide (l ∈ t.2))) (tasks p).

(** The call at place [i] moves: not if it has ended, nor if it waits for a lock. *)
Definition pstep {A} (i : nat) (p : pool A) : option (pool A) :=
  match tasks p !! i with
  | None => None
  | Some (Ret _, _) | Some (Hang, _) => None
  | Some (Step u k, h) => Some (Pool (<[i := (k (shared p), h)]> (tasks p)) (u (shared p)))
  | Some (Acquire l k, h) =>
      if lock_free l p then Some (Pool (<[i := (k, l :: h)]> (tasks p)) (shared p)) else None
  | Some (Release l k, h) => Some (Pool (<[i := (k, drop_lock l h)]> (tasks p)) (shared p))
  end.

Definition moves {A} (p p' : pool A) : Prop := ∃ i, pstep i p = Some p'.

(** A schedule: who moves, in order; a call that cannot move loses its turn. *)
Fixpoint schedule {A} (order : list nat) (p : pool A) : pool A :=
  match order with
  | [] => p
  | i :: order' => schedule order' (default p (pstep i p))
  end.

Definition ended {A} (c : coro A) : option (outcome A) :=
  match c with Ret r => Some r | _ => None end.
Definition results {A} (p : pool A) : list (option (outcome A)) := map (λ t, ended t.1) (tasks p).
Definition finished {A} (p : pool A) : Prop := ∀ i t, tasks p !! i = Some t → is_Some (ended t.1).

Definition all_ended {A} (p : pool A) : bool :=
  forallb (λ t, match ended t.1 with Some _ => true | None => false end) (tasks p).
Lemma all_ended_finished {A} (p : pool A) : all_ended p = true → finished p.
Proof.
  unfold all_ended. rewrite forallb_forall. intros H i t Ht.
  specialize (H t). rewrite <- list_elem_of_In in H. destruct (ended t.1); [by eexists|].
  by specialize (H (list_elem_of_lookup_2 _ _ _ Ht)).
Qed.

Lemma schedule_moves {A} order (p : pool A) : rtc moves p (schedule order p).
Proof.
  revert p. induction order as [|i order IH]; intros p; simpl; [done|].
  destruct (pstep i p) as [p'|] eqn:E; simpl; [|done].
  eapply rtc_l; [by exists i|]. apply IH.
Qed.

Lemma schedule_app {A} order order' (p : pool A) :
  schedule (order ++ order') p = schedule order' (schedule order p).
Proof. revert p. induction order as [|i order IH]; intros p; cbn; [done|apply IH]. Qed.

(** A step changes one call, which was not ended, and maybe the state. *)
Lemma pstep_inv {A} i (p p' : pool A) :
  pstep i p = Some p' →
  ∃ c h c' h', tasks p !! i = Some (c, h) ∧ tasks p' = <[i := (c', h')]> (tasks p) ∧
    match c with
    | Ret _ | Hang => False
    | Step u k => c' = k (shared p) ∧ h' = h ∧ shared p' = u (shared p)
    | Acquire l k => c' = k ∧ h' = l :: h ∧ shared p' = shared p ∧ lock_free l p = true
    | Release l k => c' = k ∧ h' = drop_lock l h ∧ shared p' = shared p
    end.
Proof.
  unfold pstep. destruct (tasks p !! i) as [[c h]|] eqn:Et; [|done].
  destruct c as [r|u k|l k|l k|]; [done| |destruct (lock_free l p) eqn:El; [|done]| |done];
    intros [= <-]; eexists _, _, _, _; by split_and!.
Qed.

(** A call that has had no turn is where it was. *)
Lemma schedule_still {A} order n (p : pool A) :
  n ∉ order → tasks (schedule order p) !! n = tasks p !! n.
Proof.
  revert p. induction order as [|i order IH]; intros p Hn; [done|]. apply not_elem_of_cons in Hn as [Hne Hn].
  cbn [schedule]. rewrite IH by done. destruct (pstep i p) as [p'|] eqn:E; [|done]. cbn [default from_option id].
  apply pstep_inv in E as (? & ? & ? & ? & _ & -> & _). by rewrite list_lookup_insert_ne.
Qed.

(** The calls keep their places. *)
Lemma finished_result {A} (cs : list (coro A)) s p i c :
  rtc moves (start cs s) p → finished p → cs !! i = Some c → ∃ r, results p !! i = Some (Some r).
Proof.
  intros Hr Hf Hi. assert (Hlen : length (tasks p) = length cs).
  { transitivity (length (tasks (start cs s))); [|apply length_map].
    induction Hr as [|p0 p1 p2 [j Hj] _ IH]; [done|]. rewrite IH by done.
    apply pstep_inv in Hj as (? & ? & ? & ? & _ & -> & _). apply length_insert. }
  destruct (lookup_lt_is_Some_2 (tasks p) i) as [[d h] Hd]; [rewrite Hlen; by eapply lookup_lt_Some|].
  destruct (Hf _ _ Hd) as [r Hr']. exists r. unfold results. apply list_lookup_fmap_Some. by exists (d, h).
Qed.

(** *** Invariants *)

(** Every step of [c] keeps [J], and what it ends with satisfies [Q]. *)
Fixpoint safe {A} (J : S → Prop) (Q : outcome A → Prop) (c : coro A) : Prop :=
  match c with
  | Ret r => Q r
  | Step u k => ∀ s, J s → J (u s) ∧ safe J Q (k s)
  | Acquire _ k | Release _ k => safe J Q k
  | Hang => True
  end.

(** The same, where the outcome matters if the call returns. *)
Definition keeps {A} (J : S → Prop) (c : coro A) (P : A → Prop) : Prop :=
  safe J (λ r, ∀ a, r = Ok a → P a) c.

Lemma safe_finish {A B} J (Q : outcome A → Prop) (Q' : outcome B → Prop) h c :
  safe J Q c → (∀ r, Q r → safe J Q' (h r)) → safe J Q' (finish h c).
Proof.
  intros Hc Hh. induction c as [r|u k IH|l c IH|l c IH|]; simpl in *; [by apply Hh| |by apply IH|by apply IH|done].
  intros s Hs. destruct (Hc s Hs) as [? Hk]. split; [done|]. by apply IH.
Qed.

Lemma keeps_ret {A} J (a : A) (P : A → Prop) : P a → keeps J (mret a) P.
Proof. by intros HP ? [= <-]. Qed.
Lemma keeps_throw {A} J (e : exn) (P : A → Prop) : keeps J (mthrow e) P.
Proof. by intros ? [=]. Qed.
Lemma keeps_pure {A} J (r : outcome A) (P : A → Prop) : (∀ a, r = Ok a → P a) → keeps J (pure r) P.
Proof. done. Qed.

Lemma keeps_bind {A B} J (c : coro A) (k : A → coro B) (P : A → Prop) (Q : B → Prop) :
  keeps J c P → (∀ a, P a → keeps J (k a) Q) → keeps J (c ≫= k) Q.
Proof.
  intros Hc Hk. eapply safe_finish; [exact Hc|]. intros [a|e] Hr; [|by intros ? [=]].
  by apply Hk, Hr.
Qed.

Lemma keeps_pure_bind {A B} J (r : outcome A) (k : A → coro B) (Q : B → Prop) :
  (∀ a, r = Ok a → keeps J (k a) Q) → keeps J (pure r ≫= k) Q.
Proof. intros Hk. eapply keeps_bind; [by apply (keeps_pure _ _ (λ a, r = Ok a))|done]. Qed.

Lemma keeps_attempt {A} J (c : coro A) h (P : A → Prop) :
  keeps J c P → (∀ e, keeps J (h e) P) → keeps J (attempt c h) P.
Proof.
  intros Hc Hh. eapply safe_finish; [exact Hc|]. intros [a|e] Hr; [|apply Hh].
  intros ? [= <-]. by apply Hr.
Qed.

Lemma keeps_with_lock {A} J l (c : coro A) (P : A → Prop) : keeps J c P → keeps J (with_lock l c) P.
Proof. intros Hc. cbn. eapply safe_finish; [exact Hc|]. done. Qed.

Lemma safe_post {A} J (c : coro A) (Q Q' : outcome A → Prop) : safe J Q c → (∀ r, Q r → Q' r) → safe J Q' c.
Proof.
  intros Hc HQ. induction c as [r|u k IH|l c IH|l c IH|]; cbn in *; [by apply HQ| |by apply IH|by apply IH|done].
  intros s Hs. destruct (Hc s Hs) as [? Hk]. split; [done|]. by apply IH.
Qed.
Lemma keeps_post {A} J (c : coro A) (P Q : A → Prop) :
  keeps J c P → (∀ a, P a → Q a) → keeps J c Q.
Proof. intros Hc HQ. eapply safe_post; [exact Hc|]. intros r Hr a ->. by apply HQ, Hr. Qed.

Lemma keeps_if {A} J (b : bool) (c1 c2 : coro A) (P : A → Prop) :
  (b = true → keeps J c1 P) → (b = false → keeps J c2 P) → keeps J (if b then c1 else c2) P.
Proof. destruct b; auto. Qed.

Lemma keeps_atom {A} J (m : stM S exn A) (P : A → Prop) : triple J m P → keeps J (atom m) P.
Proof.
  intros Hm s Hs. specialize (Hm s Hs). destruct (m s) as [[a|e] s']; cbn.
  - destruct Hm. split; [done|]. by intros ? [= <-].
  - split; [done|]. by intros ? [=].
Qed.

(** [Q] for each call. *)
Definition pool_safe {A} (J : S → Prop) (Qs : list (outcome A → Prop)) (p : pool A) : Prop :=
  J (shared p) ∧ Forall2 (λ t Q, safe J Q t.1) (tasks p) Qs.

Lemma pool_safe_step {A} J Qs (p p' : pool A) : moves p p' → pool_safe J Qs p → pool_safe J Qs p'.
Proof.
  intros [i Hi] [HJ HQ]. apply pstep_inv in Hi as (c & h & c' & h' & Et & Ht & Hc).
  destruct (Forall2_lookup_l _ _ _ _ _ HQ Et) as (Q & EQ & Hsafe). cbn in Hsafe.
  assert (J (shared p') ∧ safe J Q c') as [HJ' Hs'].
  { destruct c as [r|u k|l k|l k|]; [done|..].
    - destruct Hc as (-> & _ & ->). by apply Hsafe.
    - by destruct Hc as (-> & _ & -> & _).
    - by destruct Hc as (-> & _ & ->).
    - done. }
  split; [done|]. rewrite Ht, <- (list_insert_id Qs i Q) by done. by apply Forall2_insert.
Qed.

Lemma pool_safe_reach {A} J Qs (p p' : pool A) :
  rtc moves p p' → pool_safe J Qs p → pool_safe J Qs p'.
Proof. induction 1 as [|p p1 p' H _ IH]; [done|]. intros Hs. apply IH. by eapply pool_safe_step. Qed.

Lemma pool_safe_start {A} J Qs (cs : list (coro A)) s :
  J s → Forall2 (safe J) Qs cs → pool_safe J Qs (start cs s).
Proof.
  intros HJ HF. split; [done|]. cbn. induction HF as [|Q c Qs cs Hc _ IH]; by constructor.
Qed.

(** The outcome of every ended call, under every schedule. *)
Lemma pool_safe_result {A} J Qs (p : pool A) i r :
  pool_safe J Qs p → results p !! i = Some (Some r) → ∃ Q, Qs !! i = Some Q ∧ Q r.
Proof.
  intros [_ HQ] Hr. apply list_lookup_fmap_Some in Hr as ([c h] & Hend & Et).
  destruct (Forall2_lookup_l _ _ _ _ _ HQ Et) as (Q & EQ & Hsafe). exists Q. split; [done|].
  destruct c; simplify_eq/=. done.
Qed.
(** *** What a lock protects

    [proj] is the part of the state that only the holder of [l] changes; [R] is what it satisfies
    while nobody holds [l], [V] what it always satisfies. *)

Section Guarded.
Context {X : Type} (J : S → Prop) (l : L) (proj : S → X) (R V : X → Prop).

(** [own] is [Some x] while the call holds [l], with the protected part equal to [x]. *)
Fixpoint guarded {A} (own : option X) (Q : option X → outcome A → Prop) (c : coro A) : Prop :=
  match c with
  | Ret r => Q own r
  | Step u k => ∀ s, J s → V (proj s) →
      match own with
      | None => proj (u s) = proj s ∧ guarded None Q (k s)
      | Some x => proj s = x → V (proj (u s)) ∧ guarded (Some (proj (u s))) Q (k s)
      end
  | Acquire l' k =>
      if bool_decide (l' = l) then own = None ∧ ∀ x, R x → guarded (Some x) Q k else guarded own Q k
  | Release l' k =>
      if bool_decide (l' = l) then (∃ x, own = Some x ∧ R x) ∧ guarded None Q k else guarded own Q k
  | Hang => True
  end.

Lemma guarded_finish {A B} own (Q : option X → outcome A → Prop) (Q' : option X → outcome B → Prop) h c :
  guarded own Q c → (∀ own' r, Q own' r → guarded own' Q' (h r)) → guarded own Q' (finish h c).
Proof.
  intros Hc Hh. revert own Hc.
  induction c as [r|u k IH|l' c IH|l' c IH|]; intros own Hc; cbn [guarded finish] in *; [by apply Hh|..|done].
  - intros s Hs HV. specialize (Hc s Hs HV). destruct own as [x|].
    + intros Hx. destruct (Hc Hx). split; [done|]. by apply IH.
    + destruct Hc as [? Hk]. split; [done|]. by apply IH.
  - case_bool_decide; [|by apply IH]. destruct Hc as [Ho Hk]. split; [done|]. intros x Hx. by apply IH, Hk.
  - case_bool_decide; [|by apply IH]. destruct Hc as [Ho Hk]. split; [done|]. by apply IH.
Qed.

Lemma guarded_post {A} own (Q Q' : option X → outcome A → Prop) c :
  guarded own Q c → (∀ own' r, Q own' r → Q' own' r) → guarded own Q' c.
Proof.
  intros Hc HQ. revert own Hc.
  induction c as [r|u k IH|l' c IH|l' c IH|]; intros own Hc; cbn [guarded] in *; [by apply HQ|..|done].
  - intros s Hs HV. specialize (Hc s Hs HV). destruct own as [x|].
    + intros Hx. destruct (Hc Hx). split; [done|]. by apply IH.
    + destruct Hc as [? Hk]. split; [done|]. by apply IH.
  - case_bool_decide; [|by apply IH]. destruct Hc as [Ho Hk]. split; [done|]. intros x Hx. by apply IH, Hk.
  - case_bool_decide; [|by apply IH]. destruct Hc as [Ho Hk]. split; [done|]. by apply IH.
Qed.

(** Another lock makes no difference. *)
Lemma guarded_other_lock {A} own (Q : option X → outcome A → Prop) l' c :
  l' ≠ l → guarded own Q c → guarded own Q (with_lock l' c).
Proof.
  intros Hl Hc. cbn [with_lock guarded]. rewrite bool_decide_eq_false_2 by done.
  eapply guarded_finish; [exact Hc|]. intros own' r HQ. cbn [guarded]. by rewrite bool_decide_eq_false_2.
Qed.

(** A critical section: from [R], back to [R]. *)
Lemma guarded_with_lock {A} (c : coro A) :
  (∀ x, R x → guarded (Some x) (λ own _, ∃ y, own = Some y ∧ R y) c) →
  guarded None (λ own _, own = None) (with_lock l c).
Proof.
  intros Hc. cbn [with_lock guarded]. rewrite bool_decide_eq_true_2 by done. split; [done|].
  intros x Hx. eapply guarded_finish; [by apply Hc|]. intros own r (y & -> & Hy). cbn [guarded].
  rewrite bool_decide_eq_true_2 by done. split; [by exists y|done].
Qed.

(** A call ends without the lock, and with [Q]. *)
Definition guarded_end {A} (Q : outcome A → Prop) (own : option X) (r : outcome A) : Prop := own = None ∧ Q r.

Definition guarded_pool {A} (Q : outcome A → Prop) (p : pool A) : Prop :=
  V (proj (shared p)) ∧
  (∀ i c h, tasks p !! i = Some (c, h) →
     guarded (if bool_decide (l ∈ h) then Some (proj (shared p)) else None) (guarded_end Q) c) ∧
  (∀ i j c h c' h', tasks p !! i = Some (c, h) → tasks p !! j = Some (c', h') → l ∈ h → l ∈ h' → i = j) ∧
  ((∀ i c h, tasks p !! i = Some (c, h) → l ∉ h) → R (proj (shared p))).

Lemma elem_drop_lock l1 l2 h : l1 ∈ drop_lock l2 h ↔ l1 ∈ h ∧ l1 ≠ l2.
Proof.
  unfold drop_lock. rewrite !list_elem_of_In, List.filter_In, negb_true_iff, bool_decide_eq_false. done.
Qed.

Lemma lock_free_spec {A} l' (p : pool A) i c h :
  lock_free l' p = true → tasks p !! i = Some (c, h) → l' ∉ h.
Proof.
  unfold lock_free. rewrite forallb_forall. intros Hf Hi.
  apply list_elem_of_lookup_2, list_elem_of_In, Hf in Hi. by apply negb_true_iff, bool_decide_eq_false in Hi.
Qed.
(** One task moves: what it owes the others. *)
Lemma guarded_update {A} Q (p p' : pool A) i c h c' h' :
  guarded_pool Q p → tasks p !! i = Some (c, h) → tasks p' = <[i := (c', h')]> (tasks p) →
  guarded (if bool_decide (l ∈ h') then Some (proj (shared p')) else None) (guarded_end Q) c' →
  V (proj (shared p')) →
  (l ∉ h → l ∈ h' → ∀ j d g, tasks p !! j = Some (d, g) → l ∉ g) →
  (l ∉ h → proj (shared p') = proj (shared p)) →
  (l ∈ h → l ∉ h' → R (proj (shared p'))) →
  guarded_pool Q p'.
Proof.
  intros (_ & H1 & H2 & H3) Hi Ht Hc HV Hacq Hsame Hrel.
  assert (Hlook : ∀ j d g, tasks p' !! j = Some (d, g) →
    (j = i ∧ d = c' ∧ g = h') ∨ (j ≠ i ∧ tasks p !! j = Some (d, g))).
  { intros j d g Hj. rewrite Ht in Hj. destruct (decide (i = j)) as [<-|Hne].
    - rewrite list_lookup_insert_eq in Hj by by eapply lookup_lt_Some. left. by injection Hj as <- <-.
    - rewrite list_lookup_insert_ne in Hj by done. by right. }
  split_and!; [done|..].
  - intros j d g [(-> & -> & ->)|[Hne Hj]]%Hlook; [done|]. specialize (H1 _ _ _ Hj).
    destruct (bool_decide (l ∈ g)) eqn:Hg; [|done]. apply bool_decide_eq_true in Hg.
    rewrite Hsame; [done|]. intros Hh. apply Hne. by eapply H2.
  - intros j k d g d' g' [(-> & -> & ->)|[Hne Hj]]%Hlook [(-> & -> & ->)|[Hne' Hk]]%Hlook Hg Hg'.
    + done.
    + destruct (decide (l ∈ h)) as [Hh|Hh]; [by eapply H2|]. by destruct (Hacq Hh Hg _ _ _ Hk).
    + destruct (decide (l ∈ h)) as [Hh|Hh]; [by eapply H2|]. by destruct (Hacq Hh Hg' _ _ _ Hj).
    + by eapply H2.
  - intros Hno. assert (l ∉ h') as Hh'.
    { eapply (Hno i c'). rewrite Ht. apply list_lookup_insert_eq. by eapply lookup_lt_Some. }
    destruct (decide (l ∈ h)) as [Hh|Hh]; [by apply Hrel|]. rewrite Hsame by done.
    apply H3. intros j d g Hj. destruct (decide (j = i)) as [->|Hne].
    + rewrite Hi in Hj. by injection Hj as <- <-.
    + apply (Hno j d). by rewrite Ht, list_lookup_insert_ne.
Qed.

Lemma guarded_step {A} Q (p p' : pool A) :
  J (shared p) → moves p p' → guarded_pool Q p → guarded_pool Q p'.
Proof.
  intros HJ [i Hi] Hp. apply pstep_inv in Hi as (c & h & c' & h' & Et & Ht & Hc).
  pose proof Hp as (HV & H1 & _ & H3). specialize (H1 _ _ _ Et).
  destruct c as [r|u k|l' k|l' k|]; try done; cbn [guarded] in H1.
  - destruct Hc as (-> & -> & Hs). specialize (H1 _ HJ HV). rewrite <- Hs in H1.
    destruct (bool_decide (l ∈ h)) eqn:Eh; bool_prop.
    + destruct (H1 eq_refl) as [HV' H1']. eapply guarded_update; try done. by rewrite bool_decide_eq_true_2 by done.
    + destruct H1 as [Hproj H1]. eapply guarded_update; try done; [by rewrite bool_decide_eq_false_2|by rewrite Hproj].
  - destruct Hc as (-> & -> & Hs & Hfree). case_bool_decide as Hl.
    + subst l'. destruct H1 as [Hno H1]. assert (Hfree' : ∀ j d g, tasks p !! j = Some (d, g) → l ∉ g).
      { intros j d g Hj. by eapply lock_free_spec. }
      eapply guarded_update; try done; [|by rewrite Hs..|].
      * rewrite bool_decide_eq_true_2 by by left. rewrite Hs. apply H1, H3, Hfree'.
      * intros _ []. by left.
    + assert (Hin : l ∈ l' :: h ↔ l ∈ h).
      { rewrite elem_of_cons. split; [intros [->|]; done|by right]. }
      eapply guarded_update; try done; rewrite ?Hin; [|by rewrite Hs|done|by rewrite Hs|done].
      by rewrite (bool_decide_ext _ _ Hin), Hs.
  - destruct Hc as (-> & -> & Hs). pose proof (elem_drop_lock l l' h) as Hin. case_bool_decide as Hl.
    + subst l'. destruct H1 as [(x & Hx & HR) H1]. case_bool_decide as Hh; [|done]. injection Hx as <-.
      eapply guarded_update; try done; [|by rewrite Hs..].
      by rewrite bool_decide_eq_false_2 by by intros [_ []]%Hin.
    + assert (Hin' : l ∈ drop_lock l' h ↔ l ∈ h).
      { rewrite Hin. split; [by intros [? _]|by split]. }
      eapply guarded_update; try done; rewrite ?Hin'; [|by rewrite Hs|done|by rewrite Hs|done].
      by rewrite (bool_decide_ext _ _ Hin'), Hs.
Qed.

Lemma guarded_reach {A} Qs Q (p p' : pool A) :
  rtc moves p p' → pool_safe J Qs p → guarded_pool Q p → guarded_pool Q p'.
Proof.
  induction 1 as [|p p1 p' H _ IH]; [done|]. intros Hs Hg.
  apply IH; [by eapply pool_safe_step|]. eapply guarded_step; [apply Hs|done|done].
Qed.

Lemma guarded_start {A} Q (cs : list (coro A)) s :
  R (proj s) → V (proj s) → Forall (guarded None (guarded_end Q)) cs → guarded_pool Q (start cs s).
Proof.
  intros HR HV Hcs.
  assert (Hno : ∀ i c h, tasks (start cs s) !! i = Some (c, h) →
    h = [] ∧ guarded None (guarded_end Q) c).
  { intros i c h Ht. apply list_lookup_fmap_Some in Ht as (c' & Heq & Hi). injection Heq as -> ->.
    split; [done|]. rewrite Forall_lookup in Hcs. by eapply Hcs. }
  split_and!; [done|..].
  - intros i c h [-> Hc]%Hno. rewrite bool_decide_eq_false_2; [done|apply not_elem_of_nil].
  - intros i j c h c' h' [-> _]%Hno _ Hl. by apply not_elem_of_nil in Hl.
  - done.
Qed.

(** When every call has ended, nobody holds the lock. *)
Lemma guarded_finished {A} Q (p : pool A) : guarded_pool Q p → finished p → R (proj (shared p)).
Proof.
  intros (_ & H1 & _ & H3) Hf. apply H3. intros i c h Hi Hl. specialize (H1 _ _ _ Hi).
  destruct (Hf _ _ Hi) as [r Hr]. destruct c; try done. cbn in H1.
  rewrite bool_decide_eq_true_2 in H1 by done. by destruct H1.
Qed.

(** A call that ended, ended with [Q]. *)
Lemma guarded_result {A} Q (p : pool A) i r : guarded_pool Q p → results p !! i = Some (Some r) → Q r.
Proof.
  intros (_ & H1 & _) Hr. apply list_lookup_fmap_Some in Hr as ([c h] & Hend & Et). specialize (H1 _ _ _ Et).
  destruct c; simplify_eq/=. by destruct H1.
Qed.
End Guarded.

(** *** What a call leaves alone, and what it passes *)

Section Untouched.
Context {X : Type} (l : L) (proj : S → X).

(** [c] neither takes [l] nor changes the part [proj]. *)
Fixpoint untouched {A} (c : coro A) : Prop :=
  match c with
  | Ret _ => True
  | Step u k => ∀ s, proj (u s) = proj s ∧ untouched (k s)
  | Acquire l' k | Release l' k => l' ≠ l ∧ untouched k
  | Hang => True
  end.

Lemma untouched_finish {A B} (h : outcome A → coro B) c :
  untouched c → (∀ r, untouched (h r)) → untouched (finish h c).
Proof.
  intros Hc Hh. induction c as [r|u k IH|l' c IH|l' c IH|]; cbn in *; [by apply Hh| | | |done].
  - intros s. destruct (Hc s). split; [done|]. by apply IH.
  - destruct Hc. split; [done|]. by apply IH.
  - destruct Hc. split; [done|]. by apply IH.
Qed.
Lemma untouched_ret {A} (a : A) : untouched (mret a : coro A).
Proof. done. Qed.
Lemma untouched_throw {A} (e : exn) : untouched (mthrow e : coro A).
Proof. done. Qed.
Lemma untouched_pure {A} (r : outcome A) : untouched (pure r).
Proof. done. Qed.
Lemma untouched_bind {A B} (c : coro A) (k : A → coro B) :
  untouched c → (∀ a, untouched (k a)) → untouched (c ≫= k).
Proof. intros Hc Hk. apply untouched_finish; [done|]. by intros [a|e]; [apply Hk|]. Qed.
Lemma untouched_attempt {A} (c : coro A) h :
  untouched c → (∀ e, untouched (h e)) → untouched (attempt c h).
Proof. intros Hc Hh. apply untouched_finish; [done|]. by intros [a|e]; [|apply Hh]. Qed.
Lemma untouched_if {A} (b : bool) (c1 c2 : coro A) :
  untouched c1 → untouched c2 → untouched (if b then c1 else c2).
Proof. by destruct b. Qed.
Lemma untouched_with_lock {A} l' (c : coro A) : l' ≠ l → untouched c → untouched (with_lock l' c).
Proof. intros Hl Hc. split; [done|]. apply untouched_finish; [done|]. intros r. by split. Qed.
Lemma untouched_atom {A} (m : stM S exn A) : (∀ s, proj (m s).2 = proj s) → untouched (atom m).
Proof. intros H s. by split. Qed.

Lemma untouched_guarded {A} J R V own (c : coro A) :
  untouched c → guarded J l proj R V own (λ o _, o = own) c.
Proof.
  induction c as [r|u k IH|l' c IH|l' c IH|]; cbn [untouched guarded]; [done| | | |done].
  - intros H s _ HV. destruct (H s) as [Hp Hk]. rewrite Hp.
    destruct own as [x|]; [intros <-|]; (split; [done|by apply IH]).
  - intros [Hl Hc]. rewrite bool_decide_eq_false_2 by done. by apply IH.
  - intros [Hl Hc]. rewrite bool_decide_eq_false_2 by done. by apply IH.
Qed.
End Untouched.

Section Passing.
Context (M : S → Prop).

(** No step of [c] leaves [M]. *)
Fixpoint steady {A} (c : coro A) : Prop :=
  match c with
  | Ret _ | Hang => True
  | Step u k => ∀ s, (M s → M (u s)) ∧ steady (k s)
  | Acquire _ k | Release _ k => steady k
  end.

(** [c] does not end without a step from or into [M]. *)
Fixpoint passing {A} (c : coro A) : Prop :=
  match c with
  | Ret _ => False
  | Step u k => ∀ s, M s ∨ M (u s) ∨ passing (k s)
  | Acquire _ k | Release _ k => passing k
  | Hang => True
  end.

Lemma steady_finish {A B} (h : outcome A → coro B) c :
  steady c → (∀ r, steady (h r)) → steady (finish h c).
Proof.
  intros Hc Hh. induction c as [r|u k IH|l c IH|l c IH|]; cbn in *; [by apply Hh| |by apply IH|by apply IH|done].
  intros s. destruct (Hc s). split; [done|]. by apply IH.
Qed.

Lemma untouched_steady {X A} l (proj : S → X) (c : coro A) :
  (∀ s s', proj s = proj s' → M s → M s') → untouched l proj c → steady c.
Proof.
  intros HM. induction c as [r|u k IH|l' c IH|l' c IH|]; cbn; [done| | | |done].
  - intros H s. destruct (H s) as [Hp Hk]. split; [by apply HM|by apply IH].
  - intros []. by apply IH.
  - intros []. by apply IH.
Qed.

Lemma passing_finish {A B} (h : outcome A → coro B) c : passing c → passing (finish h c).
Proof.
  induction c as [r|u k IH|l c IH|l c IH|]; cbn; [done| |done..].
  intros H s. destruct (H s) as [?|[?|?]]; [by left|by right; left|]. right. right. by apply IH.
Qed.

Definition passing_pool {A} (i : nat) (p : pool A) : Prop :=
  (∀ j c h, tasks p !! j = Some (c, h) → steady c) ∧
  (M (shared p) ∨ ∀ c h, tasks p !! i = Some (c, h) → passing c).

Lemma passing_step {A} i (p p' : pool A) : moves p p' → passing_pool i p → passing_pool i p'.
Proof.
  intros [j Hj] [Hs Hp]. apply pstep_inv in Hj as (c & h & c' & h' & Et & Ht & Hc).
  assert (Hlook : ∀ n d g, tasks p' !! n = Some (d, g) →
    (n = j ∧ d = c') ∨ (n ≠ j ∧ tasks p !! n = Some (d, g))).
  { intros n d g Hn. rewrite Ht in Hn. destruct (decide (j = n)) as [<-|Hne].
    - rewrite list_lookup_insert_eq in Hn by by eapply lookup_lt_Some. left. by injection Hn as <- <-.
    - rewrite list_lookup_insert_ne in Hn by done. by right. }
  specialize (Hs _ _ _ Et) as Hsc.
  assert (Hc' : steady c' ∧ (M (shared p) → M (shared p'))).
  { destruct c as [r|u k|l k|l k|]; cbn in Hsc; try done; [destruct Hc as (-> & _ & ->)| |];
      [|destruct Hc as (-> & _ & -> & _); done|destruct Hc as (-> & _ & ->); done].
    destruct (Hsc (shared p)). done. }
  destruct Hc' as [Hsc' Hmono]. split.
  { intros n d g [[-> ->]|[_ Hn]]%Hlook; [done|by eapply Hs]. }
  destruct Hp as [HM|Hp]; [left; by apply Hmono|].
  destruct (decide (i = j)) as [<-|Hne].
  - specialize (Hp _ _ Et). destruct c as [r|u k|l k|l k|]; cbn in Hp; try done.
    + destruct Hc as (-> & _ & Hsh). destruct (Hp (shared p)) as [HM|[HM|Hk]].
      * left. by apply Hmono.
      * left. by rewrite Hsh.
      * right. by intros d g [[_ ->]|[? _]]%Hlook.
    + destruct Hc as (-> & _). right. by intros d g [[_ ->]|[? _]]%Hlook.
    + destruct Hc as (-> & _). right. by intros d g [[_ ->]|[? _]]%Hlook.
  - right. intros d g [[-> _]|[_ Hd]]%Hlook; [done|by eapply Hp].
Qed.

(** Once the call at [i] has ended, [M] holds, and will. *)
Lemma passing_ended {A} (cs : list (coro A)) s p i c r :
  Forall steady cs → cs !! i = Some c → passing c →
  rtc moves (start cs s) p → results p !! i = Some (Some r) → M (shared p).
Proof.
  intros Hs Hi Hc Hr Hend. assert (H0 : passing_pool i (start cs s)).
  { split.
    - intros j d h Hj. apply list_lookup_fmap_Some in Hj as (d' & [= -> ->] & Hj).
      rewrite Forall_lookup in Hs. by eapply Hs.
    - right. intros d h Hd. apply list_lookup_fmap_Some in Hd as (d' & [= -> ->] & Hd). by simplify_eq. }
  assert (Hp : passing_pool i p) by (induction Hr; eauto using passing_step).
  destruct Hp as [_ [?|Hp]]; [done|].
  apply list_lookup_fmap_Some in Hend as ([d h] & Hd & Et). specialize (Hp _ _ Et).
  by destruct d; simplify_eq/=.
Qed.
End Passing.

(** *** Ending

    Each call is a finite tree, and a step of the pool moves one of them down its tree. *)

Definition child {A} (c' c : coro A) : Prop :=
  match c with
  | Ret _ | Hang => False
  | Step _ k => ∃ s, c' = k s
  | Acquire _ k | Release _ k => c' = k
  end.

Lemma child_wf {A} : well_founded (child (A:=A)).
Proof.
  intros c. induction c as [r|u k IH|l c IH|l c IH|]; constructor; cbn; [done| |by intros ? ->|by intros ? ->|done].
  by intros ? [s ->].
Qed.

Definition child_at {A} (ts' ts : list (coro A * list L)) : Prop :=
  ∃ i t t', ts !! i = Some t ∧ ts' = <[i := t']> ts ∧ child t'.1 t.1.

Lemma child_at_wf {A} : well_founded (child_at (A:=A)).
Proof.
  intros ts. induction ts as [|[c h] ts IH]; [constructor; by intros ? (? & ? & ? & ? & _)|].
  revert h ts IH. induction (child_wf c) as [c _ IHc]. intros h ts Hts.
  revert h. induction Hts as [ts Hts IHts]. intros h. constructor.
  intros ts' ([|i] & t & [c' h'] & Ht & -> & Hc); simpl in *.
  - injection Ht as <-. apply IHc; [done|by constructor].
  - apply IHts. by exists i, t, (c', h').
Qed.

Lemma moves_wf {A} : well_founded (λ p' p : pool A, moves p p').
Proof.
  eapply (wf_incl _ _ (λ p' p, child_at (tasks p') (tasks p))); [|apply wf_inverse_image, child_at_wf].
  intros p' p [i Hi]. apply pstep_inv in Hi as (c & h & c' & h' & Et & Ht & Hc).
  exists i, (c, h), (c', h'). split_and!; [done..|].
  destruct c; try done; destruct Hc as [-> _]; cbn; [by eexists|done..].
Qed.

(** There is no infinite schedule. *)
Lemma no_infinite_schedule {A} (f : nat → pool A) : ¬ ∀ n, moves (f n) (f (Datatypes.S n)).
Proof.
  intros Hf. cut (∀ p n, p = f n → False); [intros H; by apply (H (f 0) 0)|].
  intros p. induction (moves_wf p) as [p _ IH]. intros n ->. by eapply (IH (f (Datatypes.S n))).
Qed.

(** *** No deadlock, when locks are taken in order *)

Section Ordered.
Context (rank : L → nat) (bound : nat).

(** Taken from [held], locks are acquired in increasing rank, and [c] ends with [final] held. *)
Fixpoint ordered {A} (held final : list L) (c : coro A) : Prop :=
  match c with
  | Ret _ => held = final
  | Step _ k => ∀ s, ordered held final (k s)
  | Acquire l k => (∀ l', l' ∈ held → rank l' < rank l) ∧ rank l < bound ∧ ordered (l :: held) final k
  | Release l k => ordered (drop_lock l held) final k
  | Hang => False
  end.

(** [c] takes locks of rank [n] and more, and gives them back. *)
Definition balanced {A} (n : nat) (c : coro A) : Prop :=
  ∀ held, (∀ l, l ∈ held → rank l < n) → ordered held held c.

Lemma ordered_finish {A B} held mid final (h : outcome A → coro B) c :
  ordered held mid c → (∀ r, ordered mid final (h r)) → ordered held final (finish h c).
Proof.
  intros Hc Hh. revert held Hc. induction c as [r|u k IH|l c IH|l c IH|]; intros held Hc; simpl in *.
  - subst. apply Hh.
  - intros s. by apply IH.
  - destruct Hc as (H1 & H2 & H3). split_and!; [done..|]. by apply IH.
  - by apply IH.
  - done.
Qed.

Lemma balanced_ret {A} n (a : A) : balanced n (mret a).
Proof. by intros held _. Qed.
Lemma balanced_throw {A} n (e : exn) : balanced n (mthrow e : coro A).
Proof. by intros held _. Qed.
Lemma balanced_pure {A} n (r : outcome A) : balanced n (pure r).
Proof. by intros held _. Qed.
Lemma balanced_atom {A} n (m : stM S exn A) : balanced n (atom m).
Proof. by intros held _ s. Qed.
Lemma balanced_if {A} n (b : bool) (c1 c2 : coro A) :
  balanced n c1 → balanced n c2 → balanced n (if b then c1 else c2).
Proof. by destruct b. Qed.
Lemma balanced_finish {A B} n (c : coro A) (h : outcome A → coro B) :
  balanced n c → (∀ r, balanced n (h r)) → balanced n (finish h c).
Proof. intros Hc Hh' held Hh. apply (ordered_finish _ held); [by apply Hc|]. intros r. by apply Hh'. Qed.
Lemma balanced_bind {A B} n (c : coro A) (k : A → coro B) :
  balanced n c → (∀ a, balanced n (k a)) → balanced n (c ≫= k).
Proof. intros Hc Hk. apply balanced_finish; [done|]. by intros [a|e]; [apply Hk|]. Qed.
Lemma balanced_pure_bind {A B} n (r : outcome A) (k : A → coro B) :
  (∀ a, r = Ok a → balanced n (k a)) → balanced n (pure r ≫= k).
Proof. intros Hk. destruct r as [a|e]; [by apply Hk|by intros held _]. Qed.
Lemma balanced_attempt {A} n (c : coro A) h :
  balanced n c → (∀ e, balanced n (h e)) → balanced n (attempt c h).
Proof. intros Hc Hh. apply balanced_finish; [done|]. by intros [a|e]; [|apply Hh]. Qed.
Lemma balanced_with_lock {A} n l (c : coro A) :
  n ≤ rank l → rank l < bound → balanced (Datatypes.S (rank l)) c → balanced n (with_lock l c).
Proof.
  intros Hn Hb Hc held Hh. split_and!; [|done|].
  { intros l' Hl'. specialize (Hh l' Hl'). lia. }
  apply (ordered_finish _ (l :: held)).
  - apply Hc. intros l' [->|Hl']%elem_of_cons; [lia|]. specialize (Hh l' Hl'). lia.
  - intros r. cbn. apply drop_lock_fresh. intros Hin. specialize (Hh l Hin). lia.
Qed.

Definition pool_ordered {A} (p : pool A) : Prop :=
  ∀ i c h, tasks p !! i = Some (c, h) → ordered h [] c.

Lemma pool_ordered_start {A} (cs : list (coro A)) s :
  Forall (balanced 0) cs → pool_ordered (start cs s).
Proof.
  intros Hcs i c h Ht. apply list_lookup_fmap_Some in Ht as (c' & Heq & Hi).
  injection Heq as -> ->. rewrite Forall_lookup in Hcs. apply (Hcs _ _ Hi). by intros l ?%not_elem_of_nil.
Qed.

Lemma pool_ordered_step {A} (p p' : pool A) : moves p p' → pool_ordered p → pool_ordered p'.
Proof.
  intros [i Hi] Hp. apply pstep_inv in Hi as (c & h & c' & h' & Et & Ht & Hc).
  intros j d g Hj. rewrite Ht in Hj. destruct (decide (i = j)) as [<-|Hne]; cycle 1.
  { rewrite list_lookup_insert_ne in Hj by done. by eapply Hp. }
  rewrite list_lookup_insert_eq in Hj by by eapply lookup_lt_Some. injection Hj as <- <-.
  specialize (Hp _ _ _ Et). destruct c; cbn in Hp; try done.
  - by destruct Hc as (-> & -> & _).
  - destruct Hp as (_ & _ & Hp). by destruct Hc as (-> & -> & _ & _).
  - by destruct Hc as (-> & -> & _).
Qed.

Lemma lock_taken {A} l (p : pool A) :
  lock_free l p = false → ∃ i c h, tasks p !! i = Some (c, h) ∧ l ∈ h.
Proof.
  unfold lock_free. intros Hl. induction (tasks p) as [|[c h] ts IH]; cbn in *; [done|].
  apply andb_false_iff in Hl as [Hl|Hl].
  - apply negb_false_iff, bool_decide_eq_true in Hl. by exists 0, c, h.
  - destruct (IH Hl) as (i & c' & h' & ? & ?). by exists (Datatypes.S i), c', h'.
Qed.

(** Someone can move as long as someone waits: follow the holders, whose ranks increase. *)
Lemma waiting_moves {A} n (p : pool A) i l k h :
  pool_ordered p → tasks p !! i = Some (Acquire l k, h) → bound - rank l ≤ n → ∃ p', moves p p'.
Proof.
  intros Hp. revert i l k h. induction n as [|n IH]; intros i l k h Ht Hn.
  { pose proof (Hp _ _ _ Ht) as (_ & ? & _). lia. }
  destruct (lock_free l p) eqn:El.
  { eexists. exists i. unfold pstep. by rewrite Ht, El. }
  apply lock_taken in El as (j & c & g & Hj & Hl). pose proof (Hp _ _ _ Hj) as Ho.
  destruct c as [r|u k'|l' k'|l' k'|]; cbn in Ho.
  - subst. by apply not_elem_of_nil in Hl.
  - eexists. exists j. unfold pstep. by rewrite Hj.
  - destruct Ho as (Hlt & Hb & _). specialize (Hlt l Hl). eapply (IH j l'); [done|lia].
  - eexists. exists j. unfold pstep. by rewrite Hj.
  - done.
Qed.

Lemma progress {A} (p : pool A) : pool_ordered p → (∃ p', moves p p') ∨ finished p.
Proof.
  intros Hp. destruct (decide (Forall (λ t, is_Some (ended t.1)) (tasks p))) as [Hf|Hf].
  { right. intros i t Ht. by rewrite Forall_lookup in Hf; eapply Hf. }
  left. apply not_Forall_Exists in Hf; [|apply _].
  apply Exists_exists in Hf as ([c h] & [i Ht]%list_elem_of_lookup & Hc). cbn in Hc.
  destruct c as [r|u k|l k|l k|]; [by contradict Hc| |by eapply waiting_moves| |by specialize (Hp _ _ _ Ht)];
    eexists; exists i; unfold pstep; by rewrite Ht.
Qed.

(** Every maximal schedule of calls that take locks in order ends, with all calls ended, and there
    is one. *)
Lemma ordered_pool_ends {A} (p : pool A) :
  pool_ordered p → ((¬ ∃ p', moves p p') → finished p) ∧ ∃ p', rtc moves p p' ∧ finished p'.
Proof.
  intros Hp. split.
  { intros Hn. by destruct (progress p Hp). }
  induction (moves_wf p) as [p _ IH]. destruct (progress p Hp) as [[p1 H1]|Hf]; [|by exists p].
  destruct (IH p1 H1) as (p' & ? & ?); [by eapply pool_ordered_step|].
  exists p'. split; [by eapply rtc_l|done].
Qed.

Lemma balanced_pool_ends {A} (cs : list (coro A)) s p :
  Forall (balanced 0) cs → rtc moves (start cs s) p →
  ((¬ ∃ p', moves p p') → finished p) ∧ ∃ p', rtc moves p p' ∧ finished p'.
Proof.
  intros Hcs Hr. apply ordered_pool_ends. pose proof (pool_ordered_start cs s Hcs) as H0.
  induction Hr as [|p0 p1 p2 H _ IH]; [done|]. apply IH. by eapply pool_ordered_step.
Qed.
End Ordered.
End Coro.

Arguments coro : clear implicits.
Arguments Ret {L S A} _.
Arguments Step {L S A} _ _.
Arguments Acquire {L S A} _ _.
Arguments Release {L S A} _ _.
Arguments Hang {L S A}.
Arguments pool : clear implicits.
Arguments Pool {L S A} _ _.
Arguments tasks {L S A} _.
Arguments shared {L S A} _.

(** ** Calls on a larger state

    A call that works on a part of the state, run where the whole is shared. *)

Section Embed.
Context {L : Type} `{EqDecision L} {S T : Type} (get : T → S) (set : S → T → T).
Context (get_set : ∀ s t, get (set s t) = s) (set_get : ∀ t, set (get t) t = t)
  (set_set : ∀ s s' t, set s (set s' t) = set s t).

Fixpoint embed {A} (c : coro L S A) : coro L T A :=
  match c with
  | Ret r => Ret r
  | Step u k => Step (λ t, set (u (get t)) t) (λ t, embed (k (get t)))
  | Acquire l k => Acquire l (embed k)
  | Release l k => Release l (embed k)
  | Hang => Hang
  end.

(** It runs as it does on its part, and leaves the rest alone. *)
Lemma run_embed {A} (c : coro L S A) held t :
  run held (embed c) t =
  match run held c (get t) with Some (r, held', s) => Some (r, held', set s t) | None => None end.
Proof using get_set set_get set_set.
  revert held t. induction c as [r|u k IH|l c IH|l c IH|]; intros held t; cbn [embed run].
  - by rewrite set_get.
  - rewrite IH, get_set. destruct (run held (k (get t)) (u (get t))) as [[[r h] s]|]; [|done]. by rewrite set_set.
  - case_bool_decide; [done|apply IH].
  - apply IH.
  - done.
Qed.

Lemma safe_embed {A} (J : S → Prop) (Q : outcome A → Prop) (c : coro L S A) :
  safe J Q c → safe (λ t, J (get t)) Q (embed c).
Proof using get_set.
  induction c as [r|u k IH|l c IH|l c IH|]; cbn; [done| |done..].
  intros H t Ht. destruct (H (get t) Ht) as [Hu Hk]. rewrite get_set. split; [done|]. by apply IH.
Qed.

Lemma ordered_embed {A} rank bound held final (c : coro L S A) :
  ordered rank bound held final c → ordered rank bound held final (embed c).
Proof.
  revert held. induction c as [r|u k IH|l c IH|l c IH|]; intros held; cbn; [done| | |by apply IH|done].
  - intros H t. apply IH, H.
  - intros (? & ? & ?). split_and!; [done..|]. by apply IH.
Qed.
Lemma balanced_embed {A} rank bound n (c : coro L S A) :
  balanced rank bound n c → balanced rank bound n (embed c).
Proof. intros H held Hh. by apply ordered_embed, H. Qed.
End Embed.

(** ** Calls under more locks

    A call whose locks are some of those of the whole. *)

Section Relock.
Context {L M : Type} `{EqDecision L} `{EqDecision M} {S : Type} (f : L → M).

Fixpoint relock {A} (c : coro L S A) : coro M S A :=
  match c with
  | Ret r => Ret r
  | Step u k => Step u (λ s, relock (k s))
  | Acquire l k => Acquire (f l) (relock k)
  | Release l k => Release (f l) (relock k)
  | Hang => Hang
  end.

Lemma safe_relock {A} (J : S → Prop) (Q : outcome A → Prop) (c : coro L S A) :
  safe J Q c → safe J Q (relock c).
Proof.
  induction c as [r|u k IH|l c IH|l c IH|]; cbn; [done| |done..].
  intros H s Hs. destruct (H s Hs). split; [done|]. by apply IH.
Qed.

(** Locks keep their order, above those of the whole. *)
Lemma ordered_relock {A} (rank : L → nat) (rank' : M → nat) bound k held final extra (c : coro L S A) :
  (∀ l l', f l = f l' → l = l') → (∀ l, rank' (f l) = k + rank l) → (∀ m, m ∈ extra → rank' m < k) →
  ordered rank bound held final c →
  ordered rank' (k + bound) (map f held ++ extra) (map f final ++ extra) (relock c).
Proof.
  intros Hinj Hk Hx. revert held. induction c as [r|u c IH|l c IH|l c IH|]; intros held; cbn [ordered relock].
  - by intros ->.
  - intros H s. by apply IH.
  - intros (H1 & H2 & H3). rewrite Hk. split_and!; [|lia|by apply (IH (l :: held))].
    intros m [Hm|Hm]%elem_of_app; [|specialize (Hx m Hm); lia].
    apply list_elem_of_fmap in Hm as (l' & -> & Hl'). rewrite Hk. specialize (H1 l' Hl'). lia.
  - intros H. assert (drop_lock (f l) (map f held ++ extra) = map f (drop_lock l held) ++ extra) as ->; [|by apply IH].
    unfold drop_lock. rewrite List.filter_app. f_equal.
    + clear -Hinj. induction held as [|l' held IH]; [done|]. cbn [List.filter map].
      rewrite (bool_decide_ext (f l' = f l) (l' = l)) by (split; [apply Hinj|by intros ->]).
      destruct (negb _); cbn; by rewrite IH.
    + apply forallb_filter_id, forallb_forall. intros m Hm%list_elem_of_In. apply negb_true_iff, bool_decide_eq_false.
      intros ->. specialize (Hx _ Hm). rewrite Hk in Hx. lia.
  - done.
Qed.

Lemma balanced_relock {A} (rank : L → nat) (rank' : M → nat) bound k n (c : coro L S A) :
  (∀ l l', f l = f l' → l = l') → (∀ l, rank' (f l) = k + rank l) → n ≤ k →
  balanced rank bound 0 c → balanced rank' (k + bound) n (relock c).
Proof.
  intros Hinj Hk Hn Hc held Hh. apply (ordered_relock rank rank' bound k [] [] held); [done..| |].
  - intros m Hm. specialize (Hh m Hm). lia.
  - apply Hc. by intros l ?%not_elem_of_nil.
Qed.
End Relock.

(** A call on a part of the state, under locks of its own, takes no part in what another lock
    protects in the rest. *)
Lemma guarded_lift {L M S T A X : Type} `{EqDecision M} (f : L → M) (get : T → S) (set : S → T → T) (J : S → Prop)
    (m : M) (proj : T → X) (R V : X → Prop) own (Q : outcome A → Prop) (c : coro L S A) :
  (∀ l, f l ≠ m) → (∀ s t, proj (set s t) = proj t) → safe J Q c →
  guarded (λ t, J (get t)) m proj R V own (λ o r, o = own ∧ Q r) (relock f (embed get set c)).
Proof.
  intros Hf Hproj. induction c as [r|u k IH|l c IH|l c IH|]; cbn [safe embed relock guarded]; [done|..|done].
  - intros H t Ht HV. destruct (H (get t) Ht) as [_ Hk]. rewrite Hproj. destruct own as [x|].
    + intros <-. split; [done|]. by apply IH.
    + split; [done|]. by apply IH.
  - intros H. rewrite bool_decide_eq_false_2 by apply Hf. by apply IH.
  - intros H. rewrite bool_decide_eq_false_2 by apply Hf. by apply IH.
Qed.
