(* ===== verification/Cancel.v ===== *)
(** * Cancelled calls

    [task.cancel()] makes the [await] a call is suspended at raise [CancelledError], which no
    [except Exception] of the package catches: what still runs of the call is what an [async with]
    does on the way out, giving back its locks.  Here a call may be cancelled between any two of
    its steps, so at every [await] and more.  [cancelled] stands for the [CancelledError]; what a
    cancelled call does to a response it had received ([aclose]) is no step on the shared state.

    A [history] is a schedule with cancellations.  The rules of Coro hold along histories: an
    invariant kept by every step is kept, no lock is ever lost, and what a lock protects is, after
    [n] cancellations, where the rule of [guarded] has it for [n]. *)

From S2P Require Import Prelude PyValue Coro.
From stdpp Require Import relations.
Open Scope list_scope.
Open Scope nat_scope.

Inductive event : Type :=
  | Turn (i : nat)
  | Interrupt (i : nat).

#[global] Instance event_eq_dec : EqDecision event.
Proof. solve_decision. Defined.

Definition is_cancel (e : event) : bool := match e with Interrupt _ => true | Turn _ => false end.
Definition cancels (es : list event) : nat := length (List.filter is_cancel es).

Lemma cancels_turns order : cancels (map Turn order) = 0.
Proof. induction order as [|i order IH]; [done|exact IH]. Qed.

Section Cancel.
Context {L : Type} `{EqDecision L} {S : Type} (cancelled : exn).

(** What is left of a call that held [h]. *)
Definition unwind {A} (h : list L) : coro L S A := foldr Release (Ret (Err cancelled)) h.

(** [tasks[i].cancel()]: nothing happens to a call that has ended. *)
Definition cancel {A} (i : nat) (p : pool L S A) : option (pool L S A) :=
  match tasks p !! i with
  | None => None
  | Some (c, h) =>
      match ended c with
      | Some _ => None
      | None => Some (Pool (<[i := (unwind h, h)]> (tasks p)) (shared p))
      end
  end.

Definition happen {A} (e : event) (p : pool L S A) : option (pool L S A) :=
  match e with Turn i => pstep i p | Interrupt i => cancel i p end.

Fixpoint history {A} (es : list event) (p : pool L S A) : pool L S A :=
  match es with
  | [] => p
  | e :: es' => history es' (default p (happen e p))
  end.

(** A schedule is a history. *)
Lemma history_turns {A} order (p : pool L S A) : history (map Turn order) p = schedule order p.
Proof. revert p. induction order as [|i order IH]; intros p; cbn; [done|apply IH]. Qed.

Lemma cancel_inv {A} i (p p' : pool L S A) :
  cancel i p = Some p' → ∃ c h, tasks p !! i = Some (c, h) ∧ ended c = None ∧
    tasks p' = <[i := (unwind h, h)]> (tasks p) ∧ shared p' = shared p.
Proof.
  unfold cancel. destruct (tasks p !! i) as [[c h]|] eqn:Et; [|done].
  destruct (ended c) eqn:Ee; [done|]. intros [= <-]. by eexists _, _.
Qed.

(** What one event can do keeps [I], hence a history does. *)
Lemma history_keeps {A} (I : pool L S A → Prop) es p :
  (∀ p p', moves p p' → I p → I p') → (∀ i p p', Interrupt i ∈ es → cancel i p = Some p' → I p → I p') →
  I p → I (history es p).
Proof.
  intros Hm. revert p. induction es as [|e es IH]; intros p Hc Hp; [done|]. cbn [history].
  apply IH; [intros i p0 p1 Hin; apply Hc; by right|].
  destruct (happen e p) as [p'|] eqn:E; [|done]. cbn [default from_option id].
  destruct e as [i|i]; [eapply Hm; [by exists i|done]|]. eapply Hc; [left|exact E|done].
Qed.

(** ** Invariants *)

Lemma safe_unwind {A} J (Q : outcome A → Prop) h : Q (Err cancelled) → safe J Q (unwind h).
Proof. intros HQ. by induction h. Qed.

Lemma pool_safe_interrupted {A} J Qs es (p : pool L S A) :
  (∀ i (Q : outcome A → Prop), Interrupt i ∈ es → Qs !! i = Some Q → Q (Err cancelled)) →
  pool_safe J Qs p → pool_safe J Qs (history es p).
Proof.
  intros HQs. apply history_keeps; [intros; by eapply pool_safe_step|].
  intros i p0 p1 Hin (c & h & Et & _ & Ht & Hs)%cancel_inv [HJ HQ]. split; [by rewrite Hs|].
  destruct (Forall2_lookup_l _ _ _ _ _ HQ Et) as (Q & EQ & _). rewrite Ht, <- (list_insert_id Qs i Q) by done.
  apply Forall2_insert; [done|]. by eapply safe_unwind, HQs.
Qed.

(** When every postcondition allows for the cancellation. *)
Lemma pool_safe_history {A} J Qs es (p : pool L S A) :
  Forall (λ Q : outcome A → Prop, Q (Err cancelled)) Qs → pool_safe J Qs p → pool_safe J Qs (history es p).
Proof. intros HQs. apply pool_safe_interrupted. intros i Q _. rewrite Forall_lookup in HQs. by apply HQs. Qed.

(** ** No lock is lost *)

Lemma unwind_ordered {A} rank bound (h held : list L) :
  (∀ l, l ∈ held → l ∈ h) → ordered rank bound held [] (unwind (A:=A) h).
Proof.
  revert held. induction h as [|l h IH]; intros held Hh; cbn.
  - destruct held as [|l held]; [done|]. by specialize (Hh l (list_elem_of_here _ _)) as ?%not_elem_of_nil.
  - apply IH. intros l' [Hl' Hne]%elem_drop_lock. by apply Hh, elem_of_cons in Hl' as [->|].
Qed.

Lemma pool_ordered_history {A} rank bound es (p : pool L S A) :
  pool_ordered rank bound p → pool_ordered rank bound (history es p).
Proof.
  apply history_keeps; [intros; by eapply pool_ordered_step|].
  intros i p0 p1 _ (c & h & Et & _ & Ht & _)%cancel_inv Hp j d g Hj. rewrite Ht in Hj.
  destruct (decide (i = j)) as [<-|Hne]; [|rewrite list_lookup_insert_ne in Hj by done; by eapply Hp].
  rewrite list_lookup_insert_eq in Hj by by eapply lookup_lt_Some. injection Hj as <- <-. by apply unwind_ordered.
Qed.

(** After any history, the calls that are left end. *)
Lemma balanced_history_ends {A} rank bound (cs : list (coro L S A)) s es :
  Forall (balanced rank bound 0) cs →
  let p := history es (start cs s) in
  ((¬ ∃ p', moves p p') → finished p) ∧ ∃ p', rtc moves p p' ∧ finished p'.
Proof. intros Hcs. by apply (ordered_pool_ends rank bound), pool_ordered_history, pool_ordered_start. Qed.

(** Along any history, a call that has ended holds no lock. *)
Lemma balanced_history_frees {A} rank bound (cs : list (coro L S A)) s es i c h :
  Forall (balanced rank bound 0) cs →
  tasks (history es (start cs s)) !! i = Some (c, h) → is_Some (ended c) → h = [].
Proof.
  intros Hcs%(pool_ordered_start _ _ _ s)%(pool_ordered_history _ _ es) Hi [r Hr].
  specialize (Hcs i c h Hi). by destruct c.
Qed.

(** ** What a lock protects

    A call cancelled inside a critical section leaves the protected part where it was, which
    [V b] knows; that is [R (S b)], what the next holder can start from. *)

Section Guarded.
Context {X : Type} (J : S → Prop) (l : L) (proj : S → X) (R V : nat → X → Prop).
Context (HV : ∀ b x, V b x → R (Datatypes.S b) x).

(** A call never holds a lock twice. *)
Definition pool_nodup {A} (p : pool L S A) : Prop := ∀ i c h, tasks p !! i = Some (c, h) → NoDup h.

Lemma pool_nodup_step {A} (p p' : pool L S A) : moves p p' → pool_nodup p → pool_nodup p'.
Proof.
  intros [i Hi] Hp. apply pstep_inv in Hi as (c & h & c' & h' & Et & Ht & Hc). intros j d g Hj. rewrite Ht in Hj.
  destruct (decide (i = j)) as [<-|Hne]; [|rewrite list_lookup_insert_ne in Hj by done; by eapply Hp].
  rewrite list_lookup_insert_eq in Hj by by eapply lookup_lt_Some. injection Hj as <- <-.
  specialize (Hp _ _ _ Et). destruct c as [r|u k|l' k|l' k|]; try done.
  - by destruct Hc as (_ & -> & _).
  - destruct Hc as (_ & -> & _ & Hf). apply NoDup_cons. split; [by eapply lock_free_spec|done].
  - destruct Hc as (_ & -> & _). unfold drop_lock. apply NoDup_ListNoDup, List.NoDup_filter. by apply NoDup_ListNoDup.
Qed.

Lemma unwind_outside {A} b (Q : outcome A → Prop) h :
  Q (Err cancelled) → l ∉ h → guarded J l proj (R b) (V b) None (guarded_end Q) (unwind h).
Proof.
  intros HQ. induction h as [|l' h IH]; [done|]. intros [Hne Hh]%not_elem_of_cons. cbn.
  rewrite bool_decide_eq_false_2 by done. by apply IH.
Qed.
Lemma unwind_inside {A} b (Q : outcome A → Prop) x h :
  Q (Err cancelled) → NoDup h → l ∈ h → R b x → guarded J l proj (R b) (V b) (Some x) (guarded_end Q) (unwind h).
Proof.
  intros HQ Hnd Hl HR. induction Hnd as [|l' h Hl' Hnd IH]; [by apply not_elem_of_nil in Hl|]. cbn.
  case_bool_decide as He.
  - subst l'. split; [by exists x|]. by apply unwind_outside.
  - apply IH. by apply elem_of_cons in Hl as [->|].
Qed.

Lemma guarded_cancel {A} b (Q : outcome A → Prop) i (p p' : pool L S A) :
  Q (Err cancelled) → pool_nodup p → cancel i p = Some p' →
  guarded_pool J l proj (R b) (V b) Q p → guarded_pool J l proj (R (Datatypes.S b)) (V (Datatypes.S b)) Q p →
  guarded_pool J l proj (R (Datatypes.S b)) (V (Datatypes.S b)) Q p'.
Proof using HV.
  intros HQ Hnd (c & h & Et & _ & Ht & Hs)%cancel_inv Hb Hb'. pose proof Hb' as (HVb & _).
  eapply guarded_update; [exact Hb'|exact Et|exact Ht|..]; rewrite ?Hs; try done.
  case_bool_decide as Hl; [|by apply unwind_outside]. apply unwind_inside; [done|by eapply Hnd|done|].
  apply HV. by destruct Hb.
Qed.

(** [n] cancellations after a start that follows the rule for every count from [b] on. *)
Lemma guarded_history {A} b Qs (Q : outcome A → Prop) es cs s :
  Q (Err cancelled) → Forall (λ Q : outcome A → Prop, Q (Err cancelled)) Qs →
  pool_safe J Qs (start cs s) →
  (∀ b', b ≤ b' → R b' (proj s) ∧ V b' (proj s) ∧ Forall (guarded J l proj (R b') (V b') None (guarded_end Q)) cs) →
  guarded_pool J l proj (R (b + cancels es)) (V (b + cancels es)) Q (history es (start cs s)).
Proof using HV.
  intros HQ HQs Hsafe Hcs.
  assert (Hgen : ∀ es n p, pool_nodup p → pool_safe J Qs p →
    (∀ b', n ≤ b' → guarded_pool J l proj (R b') (V b') Q p) →
    ∀ b', n + cancels es ≤ b' → guarded_pool J l proj (R b') (V b') Q (history es p)).
  { clear es. induction es as [|e es IH]; intros n p Hnd Hs Hg b' Hb.
    { cbn in *. apply Hg. lia. }
    cbn [history]. destruct (happen e p) as [p'|] eqn:He; cbn [default from_option id];
      [|eapply (IH n); [done..|]; unfold cancels in *; cbn [List.filter] in Hb; destruct (is_cancel e); cbn in Hb; lia].
    destruct e as [i|i]; cbn [happen] in He.
    - assert (Hm : moves p p') by by exists i.
      apply (IH n); [by eapply pool_nodup_step|by eapply pool_safe_step| |exact Hb].
      intros b'' Hb''. eapply guarded_step; [apply Hs|exact Hm|by apply Hg].
    - change (cancels (Interrupt i :: es)) with (Datatypes.S (cancels es)) in Hb.
      apply (IH (Datatypes.S n)); [| | |lia].
      + apply cancel_inv in He as (c & h & Et & _ & Ht & _). intros j d g Hj. rewrite Ht in Hj.
        destruct (decide (i = j)) as [<-|Hne]; [|rewrite list_lookup_insert_ne in Hj by done; by eapply Hnd].
        rewrite list_lookup_insert_eq in Hj by by eapply lookup_lt_Some. injection Hj as _ <-. by eapply Hnd.
      + assert (history [Interrupt i] p = p') as <- by (cbn; by rewrite He). by apply pool_safe_history.
      + intros b'' Hb''. destruct b'' as [|b'']; [lia|]. eapply guarded_cancel; [done|exact Hnd|exact He|..]; apply Hg; lia. }
  eapply (Hgen es b); [| |intros b' Hb'|done].
  - intros i c h Ht. apply list_lookup_fmap_Some in Ht as (c' & [= -> ->] & _). by apply NoDup_nil.
  - done.
  - destruct (Hcs b' Hb') as (H1 & H2 & H3). by apply guarded_start.
Qed.
End Guarded.
End Cancel.
