(* ===== verification/Rely.v ===== *)
(** * Rely and guarantee: invariants that several locks share

    [guarded] of Coro is for a part of the state that one lock protects entirely.  Here a lock [l]
    comes with what others may still do while it is held, [rely l]; every step of every call is
    within [G]; and [V] is an invariant that a step may need the knowledge of held locks to keep.
    A call is checked alone, against every state the others may have made of the last one it saw. *)

From S2P Require Import Prelude PyValue Coro.
From stdpp Require Import relations.
Open Scope list_scope.
Open Scope nat_scope.

Section Rely.
Context {L : Type} `{EqDecision L} {S : Type}.
Context (V : S → Prop) (G : S → S → Prop) (rely : L → S → S → Prop).

(** The locks held, each with a state since which only [rely] steps have happened; one's own steps
    refresh it. *)
Abbreviation snapshots := (list (L * S)).
Definition up_to_date (own : snapshots) (s : S) : Prop := ∀ l x, (l, x) ∈ own → rely l x s.
Definition refresh (s : S) (own : snapshots) : snapshots := map (λ lx, (lx.1, s)) own.
Definition forget_lock (l : L) (own : snapshots) : snapshots := List.filter (λ lx, (lx.1 ≠? l)) own.

(** [last] is the last state the call saw. *)
Fixpoint relied {A} (own : snapshots) (last : S) (Q : snapshots → S → outcome A → Prop)
    (c : coro L S A) : Prop :=
  match c with
  | Ret r => Q own last r
  | Step u k => ∀ s, V s → G last s → up_to_date own s →
      V (u s) ∧ G s (u s) ∧ (∀ l, (l ∉ own.*1) → rely l s (u s)) ∧ relied (refresh (u s) own) (u s) Q (k s)
  | Acquire l k => (l ∉ own.*1) ∧ ∀ s, V s → G last s → up_to_date own s → relied ((l, s) :: own) s Q k
  | Release l k => relied (forget_lock l own) last Q k
  | Hang => True
  end.

Lemma relied_finish {A B} own last (Q : snapshots → S → outcome A → Prop)
    (Q' : snapshots → S → outcome B → Prop) h c :
  relied own last Q c → (∀ own' last' r, Q own' last' r → relied own' last' Q' (h r)) →
  relied own last Q' (finish h c).
Proof.
  intros Hc Hh. revert own last Hc.
  induction c as [r|u k IH|l c IH|l c IH|]; intros own last Hc; cbn [relied finish] in *;
    [by apply Hh| | |by apply IH|done].
  - intros s HV HG Hr. destruct (Hc s HV HG Hr) as (? & ? & ? & ?). split_and!; [done..|]. by apply IH.
  - destruct Hc as [Hl Hc]. split; [done|]. intros s HV HG Hr. by apply IH, Hc.
Qed.

Lemma relied_bind {A B} own last (P : snapshots → S → A → Prop) (Q : snapshots → S → outcome B → Prop)
    (c : coro L S A) k :
  relied own last (λ own' last' r, match r with Ok a => P own' last' a | Err e => Q own' last' (Err e) end) c →
  (∀ own' last' a, P own' last' a → relied own' last' Q (k a)) → relied own last Q (c ≫= k).
Proof. intros Hc Hk. eapply relied_finish; [exact Hc|]. intros own' last' [a|e] H; [by apply Hk|exact H]. Qed.

Lemma relied_post {A} own last (Q Q' : snapshots → S → outcome A → Prop) c :
  relied own last Q c → (∀ own' last' r, Q own' last' r → Q' own' last' r) → relied own last Q' c.
Proof.
  intros Hc HQ. revert own last Hc.
  induction c as [r|u k IH|l c IH|l c IH|]; intros own last Hc; cbn [relied] in *; [by apply HQ| | |by apply IH|done].
  - intros s HV HG Hr. destruct (Hc s HV HG Hr) as (? & ? & ? & ?). split_and!; [done..|]. by apply IH.
  - destruct Hc as [Hl Hc]. split; [done|]. intros s HV HG Hr. by apply IH, Hc.
Qed.

Lemma refresh_locks s own : (refresh s own).*1 = own.*1.
Proof. unfold refresh. rewrite <- list_fmap_compose. by apply list_fmap_ext. Qed.

Lemma forget_locks l own : (forget_lock l own).*1 = drop_lock l own.*1.
Proof.
  unfold forget_lock, drop_lock. induction own as [|[l' x] own IH]; [done|]. cbn.
  destruct (negb _); cbn; by rewrite IH.
Qed.

(** A critical section gives its lock back. *)
Lemma relied_with_lock {A} l own last (Q : S → outcome A → Prop) c :
  l ∉ own.*1 →
  (∀ s, V s → G last s → up_to_date own s →
     relied ((l, s) :: own) s (λ own' last' r, own'.*1 = l :: own.*1 ∧ Q last' r) c) →
  relied own last (λ own' last' r, own'.*1 = own.*1 ∧ Q last' r) (with_lock l c).
Proof.
  intros Hl Hc. split; [done|]. intros s HV HG Hu. eapply relied_finish; [by apply Hc|].
  intros own' last' r [Hown HQ]. cbn [relied]. rewrite forget_locks, Hown, drop_lock_fresh by done. done.
Qed.

(** ** Pools *)

Context {G_pre : PreOrder G} {rely_pre : ∀ l, PreOrder (rely l)}.
#[local] Set Default Proof Using "Type G_pre rely_pre".

(** What a call knows: the locks it holds, and the last state it saw. *)
Definition knows {A} (Q : S → outcome A → Prop) (s : S) (c : coro L S A) (h : list L) : Prop :=
  ∃ own last, own.*1 = h ∧ up_to_date own s ∧ G last s ∧
    relied own last (λ own last r, own.*1 = [] ∧ Q last r) c.

Definition relied_pool {A} (Qs : list (S → outcome A → Prop)) (p : pool L S A) : Prop :=
  V (shared p) ∧ Forall2 (λ t Q, knows Q (shared p) t.1 t.2) (tasks p) Qs ∧
  (∀ i j c h c' h' l, tasks p !! i = Some (c, h) → tasks p !! j = Some (c', h') → l ∈ h → l ∈ h' → i = j).

Lemma up_to_date_trans own s s' :
  up_to_date own s → (∀ l, l ∈ own.*1 → rely l s s') → up_to_date own s'.
Proof.
  intros Hu Hs l x Hin. transitivity s; [by apply Hu|]. apply Hs, list_elem_of_fmap. by exists (l, x).
Qed.

Lemma up_to_date_refresh own s : up_to_date (refresh s own) s.
Proof. intros l x Hin. unfold refresh in Hin. apply list_elem_of_fmap in Hin as ([l' y] & [= -> ->] & _). reflexivity. Qed.

(** What a call ends with, it ends with in a state since its first. *)
Lemma relied_since {A} own last (Q : snapshots → S → outcome A → Prop) c s0 :
  G s0 last → relied own last Q c → relied own last (λ own' last' r, Q own' last' r ∧ G s0 last') c.
Proof.
  revert own last. induction c as [r|u k IH|l c IH|l c IH|]; intros own last H0 Hc; cbn [relied] in *;
    [done| | |by apply IH|done].
  - intros s HV HG Hr. destruct (Hc s HV HG Hr) as (? & ? & ? & ?). split_and!; [done..|].
    apply IH; [|done]. transitivity last; [done|]. by transitivity s.
  - destruct Hc as [Hl Hc]. split; [done|]. intros s HV HG Hr. apply IH; [by transitivity last|by apply Hc].
Qed.

(** Others' steps leave what a call knows true. *)
Lemma knows_stable {A} Q s s' (c : coro L S A) h :
  knows Q s c h → G s s' → (∀ l, l ∈ h → rely l s s') → knows Q s' c h.
Proof.
  intros (own & last & <- & Hu & HG & Hc) Hs Hr. exists own, last. split_and!; [done| | |done].
  - by eapply up_to_date_trans.
  - by transitivity s.
Qed.

Lemma lookup_updated {A} i j (t t' : A) (l : list A) x : l !! i = Some x → <[i := t]> l !! j = Some t' →
  (j = i ∧ t' = t) ∨ (j ≠ i ∧ l !! j = Some t').
Proof.
  intros Hi Hj. destruct (decide (i = j)) as [<-|Hne].
  - rewrite list_lookup_insert_eq in Hj by by eapply lookup_lt_Some. left. by injection Hj.
  - rewrite list_lookup_insert_ne in Hj by done. by right.
Qed.

Lemma relied_update {A} Qs (p p' : pool L S A) i c h c' h' Q :
  relied_pool Qs p → tasks p !! i = Some (c, h) → Qs !! i = Some Q →
  tasks p' = <[i := (c', h')]> (tasks p) →
  V (shared p') → knows Q (shared p') c' h' → G (shared p) (shared p') →
  (∀ l, l ∉ h → rely l (shared p) (shared p')) →
  (∀ l, l ∈ h' → l ∈ h ∨ ∀ j d g, tasks p !! j = Some (d, g) → l ∉ g) →
  relied_pool Qs p'.
Proof.
  intros (HV & Hk & Hex) Hi HQ Ht HV' Hknows HG Hrely Hacq. split_and!; [done| |].
  - rewrite Ht. apply Forall2_same_length_lookup. split.
    { rewrite length_insert. by eapply Forall2_length. }
    intros j [d g] Qj Hj HQj. destruct (lookup_updated _ _ _ _ _ _ Hi Hj) as [[-> [= -> ->]]|[Hne Hj']]; [by simplify_eq|].
    pose proof (Forall2_lookup_lr _ _ _ _ _ _ Hk Hj' HQj) as Hd. cbn in *.
    eapply knows_stable; [exact Hd|done|]. intros l Hl. apply Hrely. intros Hlh. apply Hne.
    by eapply Hex.
  - intros j n d g d' g' l Hj Hn Hl Hl'. rewrite Ht in Hj, Hn.
    destruct (lookup_updated _ _ _ _ _ _ Hi Hj) as [[-> [= -> ->]]|[Hne Hj']];
      destruct (lookup_updated _ _ _ _ _ _ Hi Hn) as [[-> [= -> ->]]|[Hne' Hn']]; [done| | |by eapply Hex].
    + destruct (Hacq l Hl) as [Hh|Hno]; [by eapply Hex|]. by destruct (Hno _ _ _ Hn').
    + destruct (Hacq l Hl') as [Hh|Hno]; [by eapply Hex|]. by destruct (Hno _ _ _ Hj').
Qed.

Lemma relied_step {A} Qs (p p' : pool L S A) : moves p p' → relied_pool Qs p → relied_pool Qs p'.
Proof.
  intros [i Hi] Hp. apply pstep_inv in Hi as (c & h & c' & h' & Et & Ht & Hc).
  pose proof Hp as (HV & Hk & _). destruct (Forall2_lookup_l _ _ _ _ _ Hk Et) as (Q & HQ & Hkn).
  destruct Hkn as (own & last & Hown & Hu & HG & Hrel). cbn [fst snd] in *.
  destruct c as [r|u k|l k|l k|]; try done; cbn [relied] in Hrel.
  - destruct Hc as (-> & -> & Hs). destruct (Hrel _ HV HG Hu) as (HV' & HG' & Hr & Hk').
    rewrite <- Hs in *. eapply relied_update; try done; [|rewrite <- Hown; done|by left].
    exists (refresh (shared p') own), (shared p'). split_and!; [by rewrite refresh_locks| |done|done].
    apply up_to_date_refresh.
  - destruct Hc as (-> & -> & Hs & Hfree). destruct Hrel as [Hl Hrel]. rewrite <- Hs in *.
    eapply relied_update; try done; rewrite ?Hs in *; try done.
    + exists ((l, shared p) :: own), (shared p). split_and!; [by rewrite <- Hown| |done|by apply Hrel].
      intros l' x [[= -> ->]|Hin]%elem_of_cons; [done|by apply Hu].
    + intros l' [->|Hl']%elem_of_cons; [|by left]. right. intros j d g Hj. by eapply lock_free_spec.
  - destruct Hc as (-> & -> & Hs). eapply relied_update; try done; rewrite ?Hs; try done.
    + exists (forget_lock l own), last. split_and!; [by rewrite forget_locks, Hown| |done|done].
      intros l' x Hin. apply Hu. unfold forget_lock in Hin.
      by rewrite list_elem_of_In, List.filter_In, <- list_elem_of_In in Hin; destruct Hin.
    + intros l' [Hl' _]%elem_drop_lock. by left.
Qed.

Lemma relied_reach {A} Qs (p p' : pool L S A) : rtc moves p p' → relied_pool Qs p → relied_pool Qs p'.
Proof. induction 1 as [|p p1 p' H _ IH]; [done|]. intros Hp. apply IH. by eapply relied_step. Qed.

Lemma relied_start {A} Qs (cs : list (coro L S A)) s :
  V s → Forall2 (λ c Q, relied [] s (λ own last r, own.*1 = [] ∧ Q last r) c) cs Qs → relied_pool Qs (start cs s).
Proof.
  intros HV HF. split_and!; [done| |].
  - cbn. apply Forall2_fmap_l. eapply Forall2_impl; [exact HF|]. intros c Q Hc.
    exists [], s. split_and!; [done| |done|done]. by intros l x ?%not_elem_of_nil.
  - intros i j c h c' h' l Hi _ Hl. apply list_lookup_fmap_Some in Hi as (d & [= -> ->] & _).
    by apply not_elem_of_nil in Hl.
Qed.

(** A call that has not moved may be taken to start now. *)
Lemma relied_restart {A} Qs (p : pool L S A) n c Q :
  relied_pool Qs p → tasks p !! n = Some (c, []) →
  relied [] (shared p) (λ own last r, own.*1 = [] ∧ Q last r) c →
  relied_pool (<[n := λ last r, Q last r ∧ G (shared p) last]> Qs) p.
Proof.
  intros (HV & Hk & Hex) Hn Hc. split_and!; [done| |done].
  rewrite <- (list_insert_id (tasks p) n (c, [])) by done. apply Forall2_insert; [exact Hk|].
  cbn [fst snd]. exists [], (shared p). split_and!; [done|by intros l x ?%not_elem_of_nil|done|].
  eapply relied_post; [eapply relied_since; [reflexivity|exact Hc]|]. by intros own last r [[? ?] ?].
Qed.

(** A call that has ended, ended with [Q] of a state that only [G] steps separate from this one. *)
Lemma relied_result {A} Qs (p : pool L S A) i r :
  relied_pool Qs p → results p !! i = Some (Some r) →
  ∃ Q last, Qs !! i = Some Q ∧ Q last r ∧ G last (shared p).
Proof.
  intros (_ & Hk & _) Hr. apply list_lookup_fmap_Some in Hr as ([c h] & Hend & Et).
  destruct (Forall2_lookup_l _ _ _ _ _ Hk Et) as (Q & HQ & own & last & _ & _ & HG & Hrel).
  exists Q, last. destruct c; simplify_eq/=. by destruct Hrel.
Qed.
End Rely.
