(* ===== verification/CacheMetrics.v ===== *)
(** * Cache counters ([core/cache_metrics.py])

    The hit, miss and refresh tallies of the two caches.  Each [record_*] holds the counters' own
    lock for one increment, so it is one step. *)

From S2P Require Import Prelude PyStr PyValue.
Open Scope string_scope.
Open Scope list_scope.
Open Scope Z_scope.

Record CacheCounters : Type := Counters {
  disco_hits : Z;
  disco_misses : Z;
  jwks_hits : Z;
  jwks_misses : Z;
  jwks_refreshes : Z;
}.

Definition zero_counters : CacheCounters := Counters 0 0 0 0 0.

Definition record_disco_hit (c : CacheCounters) : CacheCounters :=
  Counters (disco_hits c + 1) (disco_misses c) (jwks_hits c) (jwks_misses c) (jwks_refreshes c).
Definition record_disco_miss (c : CacheCounters) : CacheCounters :=
  Counters (disco_hits c) (disco_misses c + 1) (jwks_hits c) (jwks_misses c) (jwks_refreshes c).
Definition record_jwks_hit (c : CacheCounters) : CacheCounters :=
  Counters (disco_hits c) (disco_misses c) (jwks_hits c + 1) (jwks_misses c) (jwks_refreshes c).
Definition record_jwks_miss (c : CacheCounters) : CacheCounters :=
  Counters (disco_hits c) (disco_misses c) (jwks_hits c) (jwks_misses c + 1) (jwks_refreshes c).
Definition record_jwks_refresh (c : CacheCounters) : CacheCounters :=
  Counters (disco_hits c) (disco_misses c) (jwks_hits c) (jwks_misses c) (jwks_refreshes c + 1).

Definition snapshot (c : CacheCounters) : pydict :=
  [("disco_hits", VInt (disco_hits c)); ("disco_misses", VInt (disco_misses c));
   ("jwks_hits", VInt (jwks_hits c)); ("jwks_misses", VInt (jwks_misses c));
   ("jwks_refreshes", VInt (jwks_refreshes c))].

Definition reset (c : CacheCounters) : CacheCounters := zero_counters.

(** The upstream fetches counted so far. *)
Definition upstream (c : CacheCounters) : Z := disco_misses c + jwks_misses c + jwks_refreshes c.
