(* ===== verification/Aio.v ===== *)
(** * The asynchronous surface ([aio/token_validation.py], [aio/http_client.py], [aio/jwks.py],
      [aio/discovery.py])

    The same validation as in TokenValidation, cut where another call may move: every access to
    the module's state, every reading of the clock, every request and every sleep is one step of a
    [coro].  The locks are named by the event loop that owns them and, for the fetch locks, by
    their stripe.  [aio_validate_token] and the other operations take the loop they run on.

    Parameters, beyond those of TokenValidation: [hash_key] and [hash_uri] are Python's [hash] of
    a cache key, and [nan_sleep] is what [asyncio.sleep] does with a not-a-number delay, on which
    the supported interpreters differ. *)

From S2P Require Import Prelude PyStr PyValue Models Cache Url Policy HttpRetry Discovery Jwks Jwt TokenValidation Coro CacheMetrics.
From Stdlib Require Import QArith Ascii.
From stdpp Require Import gmap strings relations.
#[global] Close Scope Q_scope.
Open Scope string_scope.
Open Scope list_scope.
Open Scope nat_scope.
Open Scope py_scope.

(** ** State and locks *)

Record AioState : Type := Aio { tv : TVState; counters : CacheCounters }.

Definition set_tv (t : TVState) (s : AioState) : AioState := Aio t (counters s).
Definition set_counters (c : CacheCounters) (s : AioState) : AioState := Aio (tv s) c.

Inductive lock : Type :=
  | DiscoFetch (loop : nat) (stripe : Z)
  | JwksFetch (loop : nat) (stripe : Z)
  | DiscoWrite (loop : nat)
  | JwksWrite (loop : nat).

#[global] Instance lock_eq_dec : EqDecision lock.
Proof. solve_decision. Defined.

Definition DISCO_LOCK_STRIPES : Z := 32.
Definition JWKS_LOCK_STRIPES : Z := 32.

Abbreviation C := (coro lock AioState).

(** What the module exports. *)
Inductive aio_op : Type :=
  | OpValidate (jwt : string) (c : TokenValidationConfig) (addr : option string) (injected : bool)
  | OpClearDisco
  | OpClearJwks.

Section Async.
Context (env : string → option string) (http_date : string → option Q) (wall : Q).
Context (http : nat → string → outcome HttpResponse).
Context (clock : nat → Q).
Context (get_unverified_header : string → outcome pydict).
Context {PyJWK : Type} (new_pyjwk : pydict → option pyval → outcome PyJWK).
Context (decode : nat → string → PyJWK → DecodeArgs → outcome pydict).
Context (hash_key : disco_key → Z) (hash_uri : string → Z) (nan_sleep : outcome unit).

(** A step on the caches, and one on the counters. *)
Definition on_tv {A} (m : stM TVState exn A) : C A := atom (zoom tv set_tv m).
Definition count (f : CacheCounters → CacheCounters) : C unit :=
  atom (modify (λ s, set_counters (f (counters s)) s)).
Definition on_aio_net {A} (m : stM net exn A) : C A := on_tv (on_net m).

(** *** The retry loop *)

(** [asyncio.sleep]: a negative delay yields once, an infinite one never ends. *)
Definition asyncio_sleep (delay : pyfloat) : C unit :=
  match delay with
  | FFin q => if negb (Qle_bool 0 q) then mret ()
              else on_aio_net (modify (λ s, Net (sent s) (q :: slept s) (reads s)))
  | FNan => pure nan_sleep
  | FInf true => mret ()
  | FInf false => Hang
  end.

Section AsyncLoop.
Context (call : C HttpResponse).

Fixpoint aio_attempts (fuel attempt : nat) (retries : Z) (delay_base : pyfloat)
    (last_exception : option exn) : C HttpResponse :=
  match fuel with
  | O => mthrow (default no_response last_exception)
  | S fuel' =>
      finish (λ r,
        match r with
        | Ok response =>
            if should_retry_response response attempt retries then
              delay ← pure (resolve_retry_delay http_date wall response delay_base attempt);
              _ ← asyncio_sleep delay;
              aio_attempts fuel' (S attempt) retries delay_base last_exception
            else
              _ ← pure (check_no_redirect response);
              mret response
        | Err e =>
            if isinstance e HttpxRequestError then
              if (Z.of_nat attempt <? retries)%Z then
                _ ← asyncio_sleep (calculate_delay delay_base attempt);
                aio_attempts fuel' (S attempt) retries delay_base (Some e)
              else mthrow e
            else mthrow e
        end) call
  end.

(** [retry_with_backoff_async(max_retries, base_delay)(func)]. *)
Definition retry_with_backoff_async (max_retries : option Z) (base_delay : option pyfloat)
    : C HttpResponse :=
  '(retries, delay_base) ← pure (get_retry_params env max_retries base_delay);
  aio_attempts (Z.to_nat (retries + 1)) 0 retries delay_base None.
End AsyncLoop.

Definition aio_fetch (url : string) : C HttpResponse :=
  retry_with_backoff_async (on_aio_net (client_get http url)) None None.

Definition aio_get_discovery_document (address : string) (p : DiscoveryPolicy)
    : C DiscoveryDocumentResponse :=
  attempt
    (_ ← pure (validate_url_scheme (Some address) p);
     response ← aio_fetch address;
     mret (process_discovery_response response (Some p)))
    (λ e, mret (handle_discovery_error e)).

Definition aio_get_jwks (address : string) (p : DiscoveryPolicy) : C JwksResponse :=
  attempt
    (_ ← pure (validate_url_scheme (Some address) p);
     response ← aio_fetch address;
     mret (process_jwks_response env response))
    (λ e, mret (handle_jwks_error e)).

(** *** Steps on the caches *)

Definition upstream_fetch_attempted (address : string) (p : DiscoveryPolicy) : outcome bool :=
  match validate_url_scheme (Some address) p with
  | Ok _ => Ok true
  | Err e => if isinstance e ConfigurationException then Ok false else Err e
  end.

(** [if _upstream_fetch_attempted(address, policy): counters.record_...()]. *)
Definition count_fetch (address : string) (p : DiscoveryPolicy) (f : CacheCounters → CacheCounters)
    : C unit :=
  attempted ← pure (upstream_fetch_attempted address p);
  if attempted : bool then count f else mret ().

Definition aio_now : C Q := on_tv (now clock).

Definition aio_fresh {R} (entry : option (CacheEntry R)) : C (option R) :=
  match entry with
  | None => mret None
  | Some en => t ← aio_now; mret (if is_cache_expired t en then None else Some (response en))
  end.

Definition disco_fetch_lock (loop : nat) (k : disco_key) : lock :=
  DiscoFetch loop (hash_key k mod DISCO_LOCK_STRIPES).
Definition jwks_fetch_lock (loop : nat) (uri : string) : lock :=
  JwksFetch loop (hash_uri uri mod JWKS_LOCK_STRIPES).

Definition aio_disco_lookup (k : disco_key) : C (option DiscoveryDocumentResponse) :=
  entry ← on_tv (gets (λ s, od_get k (disco_cache s)));
  hit ← aio_fresh entry;
  match hit with
  | Some r =>
      _ ← on_tv (modify (λ s, set_disco (memo s) (touch_cache_entry (disco_cache s) k) s));
      _ ← count record_disco_hit;
      mret (Some r)
  | None => mret None
  end.

Definition write_disco (k : disco_key) (r : DiscoveryDocumentResponse) (t : Q)
    : stM TVState exn unit :=
  modify (λ s,
    let '(m, c) := apply_disco_cache_outcome env (memo s) (disco_cache s) k r t in
    set_disco m c s).

Definition aio_get_disco_response (loop : nat) (disco_doc_address : option string)
    (policy : option DiscoveryPolicy) : C DiscoveryDocumentResponse :=
  match disco_doc_address with
  | None => mthrow no_address
  | Some address =>
      let policy := default default_policy policy in
      let k := (address, cache_key policy) in
      hit ← aio_disco_lookup k;
      match hit with
      | Some r => mret r
      | None =>
          with_lock (disco_fetch_lock loop k)
            (hit ← aio_disco_lookup k;
             match hit with
             | Some r => mret r
             | None =>
                 r ← aio_get_discovery_document address policy;
                 _ ← count_fetch address policy record_disco_miss;
                 with_lock (DiscoWrite loop)
                   (t ← aio_now;
                    _ ← on_tv (write_disco k r t);
                    mret r)
             end)
      end
  end.

Definition aio_clear_discovery_cache (loop : nat) : C unit :=
  with_lock (DiscoWrite loop) (on_tv clear_discovery_cache).

Definition aio_jwks_lookup (uri : string) : C (option JwksResponse) :=
  entry ← on_tv (gets (λ s, od_get uri (jwks_cache s)));
  hit ← aio_fresh entry;
  match hit with
  | Some r =>
      _ ← on_tv (modify (λ s, set_jwks (memo s) (touch_cache_entry (jwks_cache s) uri)
                                (kid_miss_last_attempt s) s));
      _ ← count record_jwks_hit;
      mret (Some r)
  | None => mret None
  end.

Definition aio_get_cached_jwks (loop : nat) (uri : string) (policy : DiscoveryPolicy)
    : C JwksResponse :=
  hit ← aio_jwks_lookup uri;
  match hit with
  | Some r => mret r
  | None =>
      with_lock (jwks_fetch_lock loop uri)
        (hit ← aio_jwks_lookup uri;
         match hit with
         | Some r => mret r
         | None =>
             r ← aio_get_jwks uri policy;
             _ ← count_fetch uri policy record_jwks_miss;
             with_lock (JwksWrite loop)
               (t ← aio_now;
                _ ← on_tv (write_jwks env uri r t);
                mret r)
         end)
  end.

Definition aio_refresh_jwks (loop : nat) (uri : string) (policy : DiscoveryPolicy)
    : C (JwksResponse * bool) :=
  with_lock (jwks_fetch_lock loop uri)
    (request_time ← aio_now;
     entry ← on_tv (gets (λ s, od_get uri (jwks_cache s)));
     match (match entry with
            | Some en => if Qle_bool request_time (cached_at en) then Some (response en) else None
            | None => None end) with
     | Some r => mret (r, false)
     | None =>
         r ← aio_get_jwks uri policy;
         _ ← count_fetch uri policy record_jwks_refresh;
         with_lock (JwksWrite loop)
           (t ← aio_now;
            _ ← on_tv (write_jwks env uri r t);
            if jwks_is_successful r && negb (has_keys (jwks_keys r)) then
              retained ← on_tv (gets (λ s, od_get uri (jwks_cache s)));
              mret (match retained with
                    | Some en => if has_keys (jwks_keys (response en)) then (response en, true)
                                 else (r, false)
                    | None => (r, false)
                    end)
            else mret (r, false))
     end).

(** Under the write lock: the entries, then the cooldown. *)
Definition aio_clear_jwks_cache (loop : nat) : C unit :=
  with_lock (JwksWrite loop)
    (_ ← on_tv (modify (λ s, set_jwks (memo s) (clear_cache_locked (jwks_cache s))
                               (kid_miss_last_attempt s) s));
     on_tv (modify (λ s, set_jwks (memo s) (jwks_cache s) ∅ s))).

(** [should_attempt_kid_miss_refresh(..., now=time.monotonic())]. *)
Definition aio_should_refresh (uri : string) (has_cached_keys : bool) : C bool :=
  t ← aio_now;
  on_tv (λ s,
    let '(b, m) := should_attempt_kid_miss_refresh env (memo s) (kid_miss_last_attempt s) uri
                     has_cached_keys t in
    (Ok b, set_memo m s)).

Definition aio_stamp (loop : nat) (uri : string) : C unit :=
  with_lock (JwksWrite loop)
    (t ← aio_now;
     on_tv (modify (λ s, set_jwks (memo s) (jwks_cache s) (<[uri := t]> (kid_miss_last_attempt s)) s))).
Definition aio_unstamp (loop : nat) (uri : string) : C unit :=
  with_lock (JwksWrite loop) (on_tv (unstamp uri)).

(** *** Resolving the key *)

(** A [jwks_uri] of another type than text passes the handler of [get_jwks] and stops at the URL
    check of the counters, which has none. *)
Definition aio_uri_key (uri : pyval) : outcome string :=
  match uri with
  | VStr s => Ok s
  | VList _ | VDict _ => Err (TypeErr ("unhashable type: '" +:+ type_name uri +:+ "'"))
  | _ => Err (AttributeError uri "decode")
  end.

Definition aio_injected_keys (d : DiscoveryDocumentResponse) (policy : DiscoveryPolicy)
    : C JwksResponse :=
  uri ← pure (validate_jwks_uri d);
  r ← (match uri with
       | VStr u => aio_get_jwks u policy
       | _ => mret (handle_jwks_error (AttributeError uri "decode"))
       end);
  _ ← pure (validate_jwks_response r);
  mret r.

Definition aio_kid_miss (loop : nat) (uri : string) (policy : DiscoveryPolicy) (k : pyval)
    (r : JwksResponse) : C JwksResponse :=
  let cached_keys := keys_or_nil (jwks_keys r) in
  if negb (is_none k) && negb (kid_in k cached_keys) then
    attempt ← aio_should_refresh uri (has_keys (jwks_keys r));
    if attempt : bool then
      '(r', from_retained) ← aio_refresh_jwks loop uri policy;
      _ ← (if jwks_is_successful r' && negb from_retained then
             if kid_in k (keys_or_nil (jwks_keys r')) then aio_unstamp loop uri
             else aio_stamp loop uri
           else mret ());
      _ ← pure (validate_jwks_response r');
      mret r'
    else mret r
  else mret r.

Definition aio_discover_and_resolve_key (loop : nat) (jwt : string)
    (disco_doc_address : option string) (injected : bool) (policy : DiscoveryPolicy)
    : C (pydict * pyval * DiscoveryDocumentResponse) :=
  if injected then
    _ ← on_tv maybe_warn_injected_http_client;
    match disco_doc_address with
    | None => mthrow no_address
    | Some address =>
        d ← aio_get_discovery_document address policy;
        _ ← pure (validate_disco_response d);
        r ← aio_injected_keys d policy;
        '(key_dict, al) ← pure (find_in get_unverified_header jwt r);
        mret (key_dict, al, d)
    end
  else
    d ← aio_get_disco_response loop disco_doc_address (Some policy);
    _ ← pure (validate_disco_response d);
    uri ← pure (validate_jwks_uri d);
    uri ← pure (aio_uri_key uri);
    r ← aio_get_cached_jwks loop uri policy;
    _ ← pure (validate_jwks_response r);
    '(k, jwt_alg) ← pure (extract_jwt_header_fields get_unverified_header jwt);
    r ← aio_kid_miss loop uri policy k r;
    '(key_dict, al) ← pure (find_key_by_kid k (keys_or_nil (jwks_keys r)) jwt_alg);
    mret (key_dict, al, d).

Definition aio_run_decode (jwt : string) (c : TokenValidationConfig) (iss : pyval) : C pydict :=
  on_tv (run_decode new_pyjwk decode jwt c iss).

Definition aio_decode_with_keys (jwt : string) (c : TokenValidationConfig)
    (d : DiscoveryDocumentResponse) (r : JwksResponse) : C pydict :=
  '(key_dict, al) ← pure (find_in get_unverified_header jwt r);
  resolved ← pure (build_resolved_config c key_dict al);
  iss ← pure (disco_attr d "issuer");
  aio_run_decode jwt resolved iss.

Definition aio_retry_with_refreshed_jwks (loop : nat) (jwt : string) (c : TokenValidationConfig)
    (d : DiscoveryDocumentResponse) (injected : bool) : C pydict :=
  uri ← pure (validate_jwks_uri d);
  let policy := config_policy c in
  if injected then
    r ← aio_injected_keys d policy;
    aio_decode_with_keys jwt c d r
  else
    uri ← pure (aio_uri_key uri);
    attempt ← aio_should_refresh uri true;
    if negb attempt then mthrow cooldown_active
    else
      '(r, from_retained) ← aio_refresh_jwks loop uri policy;
      _ ← pure (validate_jwks_response r);
      decoded ← Coro.attempt (aio_decode_with_keys jwt c d r)
        (λ e, _ ← (if negb from_retained then aio_stamp loop uri else mret ()); mthrow e);
      _ ← (if negb from_retained then aio_unstamp loop uri else mret ());
      mret decoded.

Definition aio_validate_token (loop : nat) (jwt : string) (c : TokenValidationConfig)
    (disco_doc_address : option string) (injected : bool) : C pydict :=
  _ ← pure (validate_token_config c);
  decoded ←
    (if perform_disco c then
       '(key_dict, al, d) ←
         aio_discover_and_resolve_key loop jwt disco_doc_address injected (config_policy c);
       resolved ← pure (build_resolved_config c key_dict al);
       iss ← pure (disco_attr d "issuer");
       attempt (aio_run_decode jwt resolved iss)
         (λ e, if isinstance e SignatureVerificationException
               then aio_retry_with_refreshed_jwks loop jwt c d injected else mthrow e)
     else
       _ ← pure (validate_config_for_manual_validation c);
       aio_run_decode jwt c VNone);
  pure (validate_claims decoded c).

(** A call, made on a loop. *)
Definition aio_call (call : nat * aio_op) : C pydict :=
  match call.2 with
  | OpValidate jwt c addr injected => aio_validate_token call.1 jwt c addr injected
  | OpClearDisco => _ ← aio_clear_discovery_cache call.1; mret []
  | OpClearJwks => _ ← aio_clear_jwks_cache call.1; mret []
  end.

(** Any number of calls, on any number of loops, from the state at import. *)
Definition aio_pool (calls : list (nat * aio_op)) : pool lock AioState pydict :=
  start (map aio_call calls) (Aio initial_state zero_counters).
End Async.

(** ** Every schedule ends *)

(** Write locks are taken inside fetch locks, never the other way round. *)
Definition rank (l : lock) : nat :=
  match l with DiscoFetch _ _ | JwksFetch _ _ => 0 | DiscoWrite _ | JwksWrite _ => 1 end.

Abbreviation tidy := (balanced rank 2).

(** The retries' base delay, when the environment can be read at all, is not infinite. *)
Definition finite_backoff (env : string → option string) : Prop :=
  ∀ retries base, get_retry_params env None None = Ok (retries, base) → base ≠ FInf false.

Lemma tidy_on_tv {A} n (m : stM TVState exn A) : tidy n (on_tv m).
Proof. apply balanced_atom. Qed.
Lemma tidy_on_net {A} n (m : stM net exn A) : tidy n (on_aio_net m).
Proof. apply balanced_atom. Qed.
Lemma tidy_count n f : tidy n (count f).
Proof. apply balanced_atom. Qed.
Lemma tidy_now clock n : tidy n (aio_now clock).
Proof. apply balanced_atom. Qed.

Create HintDb tidy.
#[export] Hint Resolve balanced_ret balanced_throw balanced_pure balanced_atom balanced_if : tidy.
#[export] Hint Resolve tidy_on_tv tidy_on_net tidy_count tidy_now : tidy.

(** Follows the shape of the call; [auto] knows the operations done so far. *)
Ltac tidy_step :=
  first
    [ progress auto with tidy
    | apply balanced_bind; [|intros ?]
    | apply balanced_attempt; [|intros ?]
    | apply balanced_with_lock; [cbn; lia..|]
    | match goal with
      | |- balanced _ _ _ (match ?x with _ => _ end) => destruct x
      end ].
Ltac tidy := repeat tidy_step.

Section Tidy.
Context (env : string → option string) (http_date : string → option Q) (wall : Q).
Context (http : nat → string → outcome HttpResponse).
Context (clock : nat → Q).
Context (get_unverified_header : string → outcome pydict).
Context {PyJWK : Type} (new_pyjwk : pydict → option pyval → outcome PyJWK).
Context (decode : nat → string → PyJWK → DecodeArgs → outcome pydict).
Context (hash_key : disco_key → Z) (hash_uri : string → Z) (nan_sleep : outcome unit).
Context (Hbackoff : finite_backoff env).
#[local] Set Default Proof Using "Type Hbackoff".

Lemma delay_finite base att : base ≠ FInf false → calculate_delay base att ≠ FInf false.
Proof. unfold calculate_delay, float_scale. by destruct base as [|[]|]. Qed.

Lemma resolve_finite r base att d :
  base ≠ FInf false → resolve_retry_delay http_date wall r base att = Ok d → d ≠ FInf false.
Proof.
  intros Hb. unfold resolve_retry_delay. cbn zeta.
  destruct (parse_retry_after _ _ _) as [[ra|]|e]; cbn [mbind result_bind]; [|intros [= <-]; by apply delay_finite|done].
  intros [= <-]. unfold float_min. destruct (float_max _ ra) as [|[]|]; cbn; try done.
  by destruct (negb _).
Qed.

Lemma tidy_sleep n d : d ≠ FInf false → tidy n (asyncio_sleep nan_sleep d).
Proof. intros Hd. unfold asyncio_sleep. destruct d as [|[]|q]; [| |done|]; tidy. Qed.

Lemma tidy_attempts n call fuel att retries base last :
  tidy n call → base ≠ FInf false →
  tidy n (aio_attempts http_date wall nan_sleep call fuel att retries base last).
Proof.
  intros Hcall Hb. revert att last. induction fuel as [|fuel IH]; intros att last; cbn [aio_attempts]; [tidy|].
  apply balanced_finish; [done|]. intros [r|e].
  - destruct (should_retry_response r att retries); [|tidy].
    apply balanced_pure_bind. intros d Hd. apply balanced_bind; [|auto].
    apply tidy_sleep. by eapply resolve_finite.
  - destruct (isinstance e HttpxRequestError), (Z.of_nat att <? retries)%Z; [|tidy..].
    apply balanced_bind; [|auto]. by apply tidy_sleep, delay_finite.
Qed.

Lemma tidy_fetch n url : tidy n (aio_fetch env http_date wall http nan_sleep url).
Proof.
  unfold aio_fetch, retry_with_backoff_async. apply balanced_pure_bind. intros [retries base] Hp.
  apply tidy_attempts; [tidy|by eapply Hbackoff].
Qed.
#[local] Hint Resolve tidy_fetch : tidy.

Lemma tidy_get_discovery_document n a p :
  tidy n (aio_get_discovery_document env http_date wall http nan_sleep a p).
Proof. unfold aio_get_discovery_document. tidy. Qed.
Lemma tidy_get_jwks n a p : tidy n (aio_get_jwks env http_date wall http nan_sleep a p).
Proof. unfold aio_get_jwks. tidy. Qed.
#[local] Hint Resolve tidy_get_discovery_document tidy_get_jwks : tidy.

Lemma tidy_count_fetch n a p f : tidy n (count_fetch a p f).
Proof. unfold count_fetch. tidy. Qed.
Lemma tidy_fresh {R} n (e : option (CacheEntry R)) : tidy n (aio_fresh clock e).
Proof. unfold aio_fresh. tidy. Qed.
#[local] Hint Resolve tidy_count_fetch tidy_fresh : tidy.
Lemma tidy_disco_lookup n k : tidy n (aio_disco_lookup clock k).
Proof. unfold aio_disco_lookup. tidy. Qed.
Lemma tidy_jwks_lookup n k : tidy n (aio_jwks_lookup clock k).
Proof. unfold aio_jwks_lookup. tidy. Qed.
#[local] Hint Resolve tidy_disco_lookup tidy_jwks_lookup : tidy.

Lemma tidy_get_disco_response loop a p :
  tidy 0 (aio_get_disco_response env http_date wall http clock hash_key nan_sleep loop a p).
Proof. unfold aio_get_disco_response. tidy. Qed.
Lemma tidy_get_cached_jwks loop a p :
  tidy 0 (aio_get_cached_jwks env http_date wall http clock hash_uri nan_sleep loop a p).
Proof. unfold aio_get_cached_jwks. tidy. Qed.
Lemma tidy_refresh_jwks loop a p :
  tidy 0 (aio_refresh_jwks env http_date wall http clock hash_uri nan_sleep loop a p).
Proof. unfold aio_refresh_jwks. tidy. Qed.
#[local] Hint Resolve tidy_get_disco_response tidy_get_cached_jwks tidy_refresh_jwks : tidy.

Lemma tidy_should_refresh n u b : tidy n (aio_should_refresh env clock u b).
Proof. unfold aio_should_refresh. tidy. Qed.
Lemma tidy_stamp loop u : tidy 0 (aio_stamp clock loop u).
Proof. unfold aio_stamp. tidy. Qed.
Lemma tidy_unstamp loop u : tidy 0 (aio_unstamp loop u).
Proof. unfold aio_unstamp. tidy. Qed.
Lemma tidy_injected_keys n d p : tidy n (aio_injected_keys env http_date wall http nan_sleep d p).
Proof. unfold aio_injected_keys. tidy. Qed.
#[local] Hint Resolve tidy_should_refresh tidy_stamp tidy_unstamp tidy_injected_keys : tidy.

Lemma tidy_kid_miss loop u p k r :
  tidy 0 (aio_kid_miss env http_date wall http clock hash_uri nan_sleep loop u p k r).
Proof. unfold aio_kid_miss. tidy. Qed.
#[local] Hint Resolve tidy_kid_miss : tidy.
Lemma tidy_discover loop jwt a i p :
  tidy 0 (aio_discover_and_resolve_key env http_date wall http clock get_unverified_header
            hash_key hash_uri nan_sleep loop jwt a i p).
Proof. unfold aio_discover_and_resolve_key. tidy. Qed.
Lemma tidy_run_decode n jwt c i : tidy n (aio_run_decode new_pyjwk decode jwt c i).
Proof. unfold aio_run_decode. tidy. Qed.
#[local] Hint Resolve tidy_discover tidy_run_decode : tidy.
Lemma tidy_decode_with_keys n jwt c d r :
  tidy n (aio_decode_with_keys get_unverified_header new_pyjwk decode jwt c d r).
Proof. unfold aio_decode_with_keys. tidy. Qed.
#[local] Hint Resolve tidy_decode_with_keys : tidy.
Lemma tidy_retry loop jwt c d i :
  tidy 0 (aio_retry_with_refreshed_jwks env http_date wall http clock get_unverified_header
            new_pyjwk decode hash_uri nan_sleep loop jwt c d i).
Proof. unfold aio_retry_with_refreshed_jwks. tidy. Qed.
#[local] Hint Resolve tidy_retry : tidy.
Lemma tidy_validate_token loop jwt c a i :
  tidy 0 (aio_validate_token env http_date wall http clock get_unverified_header new_pyjwk decode
            hash_key hash_uri nan_sleep loop jwt c a i).
Proof. unfold aio_validate_token. tidy. Qed.
#[local] Hint Resolve tidy_validate_token : tidy.
Lemma tidy_call call :
  tidy 0 (aio_call env http_date wall http clock get_unverified_header new_pyjwk decode
            hash_key hash_uri nan_sleep call).
Proof.
  unfold aio_call, aio_clear_discovery_cache, aio_clear_jwks_cache. destruct call as [loop []]; tidy.
Qed.
End Tidy.
