(* ===== verification/AioSafety.v ===== *)
(** * The asynchronous surface under every schedule

    What holds however the calls of [Aio] interleave: the caches hold nothing but what the network
    served, within bounds; a returned token is one PyJWT accepted on inputs that are pinned down;
    every call ends.  And what a call does when it runs alone: what the synchronous function
    does.

    The synchronous invariant does not survive interleaving whole: a call may stamp the cooldown
    of a URI whose entry another call has just cleared.  [forget] drops the cooldown, and the rest
    does survive. *)

From S2P Require Import Prelude PyStr PyValue Models Cache Url Policy HttpRetry Discovery Jwks Jwt TokenValidation Coro Cancel CacheMetrics Aio.
From Stdlib Require Import QArith Ascii.
From stdpp Require Import gmap strings relations.
#[global] Close Scope Q_scope.
Open Scope string_scope.
Open Scope list_scope.
Open Scope nat_scope.
Open Scope py_scope.

(** ** The invariant *)

Definition forget (t : TVState) : TVState := set_jwks (memo t) (jwks_cache t) ∅ t.

Definition shared_inv env http (t : TVState) : Prop := tv_inv env http (forget t).
Definition aio_inv env http (s : AioState) : Prop := shared_inv env http (tv s).

Lemma shared_inv_io env http : ignores_io (shared_inv env http).
Proof. intros t n b d H. by apply (tv_inv_io env http (forget t) n b d). Qed.

Lemma tv_inv_forget env http t : tv_inv env http t → shared_inv env http t.
Proof.
  intros [[H1 H2 H3 H4 H5] Hd Hk]. constructor; [constructor; try done|done..].
  intros uri [? Hu]. cbn in Hu. by rewrite lookup_empty in Hu.
Qed.

(** ** Checks on the way

    What a call knows once a check of the shared rules has let it pass. *)

Section Checks.
Context {L St : Type} (I : St → Prop) {B : Type} (Q : B → Prop) (http : nat → string → outcome HttpResponse).

Lemma past_disco d (k : unit → coro L St B) :
  (disco_is_successful d = true → keeps I (k ()) Q) → keeps I (pure (validate_disco_response d) ≫= k) Q.
Proof. intros H. apply keeps_pure_bind. intros [] Hv. by apply H, validate_disco_response_ok. Qed.

Lemma past_keys r (k : unit → coro L St B) :
  (jwks_is_successful r = true → keeps I (k ()) Q) → keeps I (pure (validate_jwks_response r) ≫= k) Q.
Proof. intros H. apply keeps_pure_bind. intros [] [? _]%validate_jwks_response_ok. by apply H. Qed.

Lemma past_scheme address p (k : unit → coro L St B) :
  (safe_url p address → keeps I (k ()) Q) →
  keeps I (pure (validate_url_scheme (Some address) p) ≫= k) Q.
Proof.
  intros H. apply keeps_pure_bind. intros [] (? & [= <-] & _ & ?)%validate_url_scheme_ok. by apply H.
Qed.

Lemma past_jwks_uri address p d (k : pyval → coro L St B) :
  admitted_doc http address p d → (∀ v, dget "jwks_uri" (disco_attrs d) = v → keeps I (k v) Q) →
  keeps I (pure (validate_jwks_uri d) ≫= k) Q.
Proof. intros Hd H. apply keeps_pure_bind. intros v Hv. apply H. by eapply validate_jwks_uri_ok. Qed.

Lemma past_uri_key v (o : outcome string) (k : string → coro L St B) :
  (∀ uri, o = Ok uri → v = VStr uri) → (∀ uri, v = VStr uri → keeps I (k uri) Q) →
  keeps I (pure o ≫= k) Q.
Proof. intros Hv H. apply keeps_pure_bind. intros uri Ho. by apply H, Hv. Qed.

Lemma past_issuer address p d (k : pyval → coro L St B) :
  admitted_doc http address p d → (∀ iss, dget "issuer" (disco_attrs d) = iss → keeps I (k iss) Q) →
  keeps I (pure (disco_attr d "issuer") ≫= k) Q.
Proof.
  intros Hd H. apply keeps_pure_bind. intros iss.
  rewrite (admitted_doc_attr http address p d) by (done || compute_done). intros [= <-]. by apply H.
Qed.
End Checks.

Lemma aio_uri_key_ok v uri : aio_uri_key v = Ok uri → v = VStr uri.
Proof. destruct v; simpl; try done. by intros [= ->]. Qed.

Section Safety.
Context (env : string → option string) (http_date : string → option Q) (wall : Q).
Context (http : nat → string → outcome HttpResponse).
Context (clock : nat → Q).
Context (get_unverified_header : string → outcome pydict).
Context {PyJWK : Type} (new_pyjwk : pydict → option pyval → outcome PyJWK).
Context (decode : nat → string → PyJWK → DecodeArgs → outcome pydict).
Context (hash_key : disco_key → Z) (hash_uri : string → Z) (nan_sleep : outcome unit).

Local Abbreviation J := (shared_inv env http).
Local Abbreviation kept := (keeps (aio_inv env http)).

(** *** What steps on the caches keep *)

Lemma inv_set_disco t m c :
  J t → memo_le (memo t) m → disco_inv (doc_entry_ok http) m c → J (set_disco m c t).
Proof. intros [H1 H2 H3] Hle Hc. constructor; [by eapply jwks_inv_mono|done|done]. Qed.

Lemma shared_memo t : J t → memo_le (memo t) (memo t).
Proof. intros H. apply memo_le_refl, (inv_memo _ _ _ (tv_jwks _ _ _ H)). Qed.

Lemma inv_disco_empty t : J t → J (set_disco (memo t) [] t).
Proof.
  intros H. apply inv_set_disco; [done|by apply shared_memo|]. destruct H as [H1 _ _].
  destruct (inv_memo _ _ _ H1) as (_ & _ & _ & Hpos).
  constructor; [apply NoDup_nil_2| |done]. unfold size_ok. cbn in *.
  destruct (max_cache_entries (memo t)) as [z|]; [|done]. specialize (Hpos z eq_refl). lia.
Qed.

Lemma inv_jwks_empty t k : J t → J (set_jwks (memo t) [] k t).
Proof.
  intros [H1 H2 H3]. constructor; cbn in *; [|done|done].
  destruct (inv_memo _ _ _ H1) as (_ & _ & _ & Hpos).
  constructor; [by apply H1|apply NoDup_nil_2| |done|].
  - unfold size_ok. cbn. destruct (max_cache_entries (memo t)) as [z|]; [|done].
    specialize (Hpos z eq_refl). lia.
  - intros uri [x Hx]. by rewrite lookup_empty in Hx.
Qed.

(** The cooldown has no part in what is cached. *)
Lemma apply_jwks_cooldown m c uri r t k :
  (apply_jwks_cache_outcome env m c uri r t (Some k)).1 =
  (apply_jwks_cache_outcome env m c uri r t (Some ∅)).1.
Proof.
  unfold apply_jwks_cache_outcome. destruct (negb _); [done|]. destruct (negb _); [done|].
  destruct (is_uncacheable_for_jwks _); [done|]. destruct (resolve_ttl _ _ _) as [ttl m1].
  cbn zeta. destruct (get_max_cache_entries env m1) as [z m2].
  by destruct (enforce_size_limit z _).
Qed.

Lemma shared_entry_disco address p :
  triple (E:=exn) J (gets (λ s, od_get (address, cache_key p) (disco_cache s)))
    (λ o, ∀ en, o = Some en → admitted_doc http address p (response en)).
Proof.
  apply triple_gets. intros t Ht en Hg.
  destruct (dinv_entries _ _ _ (tv_disco _ _ _ Ht) _ _ Hg) as [(q & Hq & Ha) _].
  cbn [fst snd] in *. by apply cache_key_inj in Hq as ->.
Qed.

(** The entry of a URI, when there is one, was served for it. *)
Lemma shared_entry_jwks uri :
  triple (E:=exn) J (gets (λ s, od_get uri (jwks_cache s)))
    (λ o, ∀ en, o = Some en → admitted_keys env http uri (response en)).
Proof. apply triple_gets. intros t Ht en Hg. by apply (tv_keys _ _ _ Ht). Qed.

Lemma shared_touch_disco t k : J t → J (set_disco (memo t) (touch_cache_entry (disco_cache t) k) t).
Proof.
  intros Ht. apply inv_set_disco; [done|by apply shared_memo|]. apply disco_inv_touch. by apply Ht.
Qed.

Lemma shared_touch_jwks t uri :
  J t → J (set_jwks (memo t) (touch_cache_entry (jwks_cache t) uri) (kid_miss_last_attempt t) t).
Proof.
  intros [H1 H2 H3]. constructor; [by apply jwks_inv_touch|done|].
  intros v en. cbn. rewrite touch_get. apply H3.
Qed.

Lemma shared_write_disco address p d t :
  (disco_is_successful d = true → admitted_doc http address p d) →
  triple J (write_disco env (address, cache_key p) d t) (λ _, True).
Proof.
  intros Hd. apply triple_modify. intros s Hs.
  pose proof (apply_disco_inv (doc_entry_ok http) env (memo s) (disco_cache s) (address, cache_key p)
    d t (inv_memo _ _ _ (tv_jwks _ _ _ Hs)) (tv_disco _ _ _ Hs)) as Hw.
  destruct (apply_disco_cache_outcome env (memo s) (disco_cache s) (address, cache_key p) d t) as [m c].
  destruct Hw as [Hle Hinv]; [intros Hok; exists p; split; [done|by apply Hd]|].
  by apply inv_set_disco.
Qed.

Lemma shared_write_jwks uri r t :
  (jwks_is_successful r = true → admitted_keys env http uri r) →
  triple J (write_jwks env uri r t) (λ _, True).
Proof.
  intros Hr. apply triple_modify. intros s Hs.
  pose proof (set_jwks_outcome env http uri uri r t (forget s) Hs Hr) as Hw. cbn in Hw.
  pose proof (apply_jwks_cooldown (memo s) (jwks_cache s) uri r t (kid_miss_last_attempt s)) as He.
  destruct (apply_jwks_cache_outcome env (memo s) (jwks_cache s) uri r t
    (Some (kid_miss_last_attempt s))) as [[m c] k].
  destruct (apply_jwks_cache_outcome env (memo s) (jwks_cache s) uri r t (Some ∅)) as [[m' c'] k'].
  injection He as -> ->. destruct Hw as [Hw _]. by apply (tv_inv_forget env http _ Hw).
Qed.

Lemma shared_should_attempt uri b t :
  triple (E:=exn) J (λ s,
    let '(res, m) := should_attempt_kid_miss_refresh env (memo s) (kid_miss_last_attempt s) uri b t in
    (Ok res, set_memo m s)) (λ _, True).
Proof.
  intros s Hs. pose proof (should_attempt_le env (memo s) (kid_miss_last_attempt s) uri b t
    (inv_memo _ _ _ (tv_jwks _ _ _ Hs))) as Hle.
  destruct (should_attempt_kid_miss_refresh _ _ _ _ _ _) as [res m]. split; [|done].
  by apply (inv_set_memo env http (forget s) m).
Qed.

(** *** Steps *)

Lemma kept_on_tv {A} (m : stM TVState exn A) (P : A → Prop) : triple J m P → kept (on_tv m) P.
Proof.
  intros Hm. apply keeps_atom. intros s Hs. specialize (Hm (tv s) Hs). unfold zoom.
  by destruct (m (tv s)) as [[a|e] t].
Qed.

Lemma kept_count f : kept (count f) (λ _, True).
Proof. apply keeps_atom, triple_modify. by intros s Hs. Qed.

Lemma kept_now : kept (aio_now clock) (λ _, True).
Proof. apply kept_on_tv, triple_now, shared_inv_io. Qed.

(** A step that writes the caches or the cooldown. *)
Lemma kept_modify f : (∀ t, J t → J (f t)) → kept (on_tv (modify f)) (λ _, True).
Proof. intros H. by apply kept_on_tv, triple_modify. Qed.

Lemma kept_fresh {R} (entry : option (CacheEntry R)) :
  kept (aio_fresh clock entry) (λ o, ∀ r, o = Some r → ∃ en, entry = Some en ∧ response en = r).
Proof.
  unfold aio_fresh. destruct entry as [en|]; [|by apply keeps_ret].
  eapply keeps_bind; [apply kept_now|]. intros t _. apply keeps_ret. intros r.
  destruct (is_cache_expired t en); [done|]. intros [= <-]. by exists en.
Qed.

(** *** Fetches *)

(** What a fetch returns, some request got; the steps in between touch the network only. *)
Lemma kept_net {A} (m : stM net exn A) (P : A → Prop) :
  (∀ s a s', m s = (Ok a, s') → P a) → kept (on_aio_net m) P.
Proof. intros HP. apply kept_on_tv, io_net; [apply shared_inv_io|done]. Qed.

Lemma kept_sleep d : kept (asyncio_sleep nan_sleep d) (λ _, True).
Proof.
  unfold asyncio_sleep. destruct d as [|[]|q]; [by apply keeps_pure|by apply keeps_ret|done|].
  apply keeps_if; intros _; [by apply keeps_ret|by apply kept_net].
Qed.

Lemma kept_attempts call (P : HttpResponse → Prop) fuel att retries base last :
  kept call P → kept (aio_attempts http_date wall nan_sleep call fuel att retries base last) P.
Proof.
  intros Hcall. revert att last. induction fuel as [|fuel IH]; intros att last; cbn [aio_attempts];
    [apply keeps_throw|].
  eapply (safe_finish _ (λ r, ∀ a, r = Ok a → P a)); [exact Hcall|].
  intros [r|e] Hr.
  - apply keeps_if; intros _.
    + eapply (keeps_bind _ _ _ (λ _, True)); [by apply keeps_pure|]. intros d _.
      eapply keeps_bind; [apply kept_sleep|]. intros _ _. apply IH.
    + eapply (keeps_bind _ _ _ (λ _, True)); [by apply keeps_pure|]. intros _ _.
      apply keeps_ret. by apply Hr.
  - apply keeps_if; intros _; [|apply keeps_throw]. apply keeps_if; intros _; [|apply keeps_throw].
    eapply keeps_bind; [apply kept_sleep|]. intros _ _. apply IH.
Qed.

Lemma kept_aio_fetch url :
  kept (aio_fetch env http_date wall http nan_sleep url) (λ r, ∃ n, http n url = Ok r).
Proof.
  unfold aio_fetch, retry_with_backoff_async.
  eapply (keeps_bind _ _ _ (λ _, True)); [by apply keeps_pure|]. intros [retries base] _.
  apply kept_attempts, kept_net. intros s a s' [= <- _]. by eexists.
Qed.

Lemma kept_get_discovery_document address p :
  kept (aio_get_discovery_document env http_date wall http nan_sleep address p)
    (λ d, disco_is_successful d = true → admitted_doc http address p d).
Proof.
  unfold aio_get_discovery_document. apply keeps_attempt.
  - apply past_scheme. intros Hsafe. eapply keeps_bind; [apply kept_aio_fetch|]. intros r [n Hn].
    apply keeps_ret. intros Hs. split_and!; [done..|]. by exists n, r.
  - intros e. apply keeps_ret. destruct (handle_discovery_error_wf e) as [_ ->]. done.
Qed.

Lemma kept_get_jwks_safe uri p :
  kept (aio_get_jwks env http_date wall http nan_sleep uri p)
    (λ r, jwks_is_successful r = true → admitted_keys env http uri r ∧ safe_url p uri).
Proof.
  unfold aio_get_jwks. apply keeps_attempt.
  - apply past_scheme. intros Hsafe. eapply keeps_bind; [apply kept_aio_fetch|]. intros r [n Hn].
    apply keeps_ret. intros Hs. split; [|done]. split; [done|]. by exists n, r.
  - intros e. apply keeps_ret. by rewrite handle_jwks_error_failure.
Qed.

Lemma kept_get_jwks uri p :
  kept (aio_get_jwks env http_date wall http nan_sleep uri p)
    (λ r, jwks_is_successful r = true → admitted_keys env http uri r).
Proof. eapply keeps_post; [apply kept_get_jwks_safe|]. intros r Hr Hs. by apply Hr. Qed.

(** *** Lookups and writes *)

Lemma kept_disco_lookup address p :
  kept (aio_disco_lookup clock (address, cache_key p))
    (λ o, ∀ d, o = Some d → admitted_doc http address p d).
Proof.
  unfold aio_disco_lookup. eapply keeps_bind; [apply kept_on_tv, shared_entry_disco|].
  intros entry Hentry. eapply keeps_bind; [apply kept_fresh|].
  intros [d|] Hhit; [|by apply keeps_ret].
  eapply keeps_bind; [apply kept_modify; intros t; apply shared_touch_disco|].
  intros _ _. eapply keeps_bind; [apply kept_count|]. intros _ _. apply keeps_ret.
  intros d' [= <-]. destruct (Hhit d eq_refl) as (en & -> & <-). by apply Hentry.
Qed.

Lemma kept_jwks_lookup uri :
  kept (aio_jwks_lookup clock uri) (λ o, ∀ r, o = Some r → admitted_keys env http uri r).
Proof.
  unfold aio_jwks_lookup. eapply keeps_bind; [apply kept_on_tv, shared_entry_jwks|].
  intros entry Hentry. eapply keeps_bind; [apply kept_fresh|].
  intros [r|] Hhit; [|by apply keeps_ret].
  eapply keeps_bind; [apply kept_modify; intros t; apply shared_touch_jwks|].
  intros _ _. eapply keeps_bind; [apply kept_count|]. intros _ _. apply keeps_ret.
  intros r' [= <-]. destruct (Hhit r eq_refl) as (en & -> & <-). by apply Hentry.
Qed.

Lemma kept_write_disco address p d t :
  (disco_is_successful d = true → admitted_doc http address p d) →
  kept (on_tv (write_disco env (address, cache_key p) d t)) (λ _, True).
Proof. intros Hd. by apply kept_on_tv, shared_write_disco. Qed.

Lemma kept_write_jwks uri r t :
  (jwks_is_successful r = true → admitted_keys env http uri r) →
  kept (on_tv (write_jwks env uri r t)) (λ _, True).
Proof. intros Hr. by apply kept_on_tv, shared_write_jwks. Qed.

Lemma kept_cooldown f :
  kept (on_tv (modify (λ s, set_jwks (memo s) (jwks_cache s) (f (kid_miss_last_attempt s)) s)))
    (λ _, True).
Proof. by apply kept_modify. Qed.

Lemma kept_stamp loop uri : kept (aio_stamp clock loop uri) (λ _, True).
Proof.
  apply keeps_with_lock. eapply keeps_bind; [apply kept_now|]. intros t _.
  apply (kept_cooldown (λ k, <[uri := t]> k)).
Qed.
Lemma kept_unstamp loop uri : kept (aio_unstamp loop uri) (λ _, True).
Proof. apply keeps_with_lock, (kept_cooldown (λ k, delete uri k)). Qed.

Lemma kept_should_refresh uri b : kept (aio_should_refresh env clock uri b) (λ _, True).
Proof.
  eapply keeps_bind; [apply kept_now|]. intros t _. apply kept_on_tv, shared_should_attempt.
Qed.

Lemma kept_count_fetch a p f : kept (count_fetch a p f) (λ _, True).
Proof.
  eapply (keeps_bind _ _ _ (λ _, True)); [by apply keeps_pure|]. intros [] _;
    [apply kept_count|by apply keeps_ret].
Qed.

(** *** The calls *)

Lemma kept_get_disco_response loop addr p :
  kept (aio_get_disco_response env http_date wall http clock hash_key nan_sleep loop addr (Some p))
    (λ d, ∃ address, addr = Some address ∧
            (disco_is_successful d = true → admitted_doc http address p d)).
Proof.
  unfold aio_get_disco_response. destruct addr as [address|]; [|apply keeps_throw].
  cbn [default from_option id].
  eapply keeps_bind; [apply kept_disco_lookup|]. intros [d|] Hd.
  { apply keeps_ret. exists address. split; [done|]. intros _. by apply Hd. }
  apply keeps_with_lock. eapply keeps_bind; [apply kept_disco_lookup|]. intros [d|] Hd'.
  { apply keeps_ret. exists address. split; [done|]. intros _. by apply Hd'. }
  eapply keeps_bind; [apply kept_get_discovery_document|]. intros d Hdoc.
  eapply keeps_bind; [apply kept_count_fetch|]. intros _ _. apply keeps_with_lock.
  eapply keeps_bind; [apply kept_now|]. intros t _.
  eapply keeps_bind; [by apply kept_write_disco|]. intros _ _. apply keeps_ret. by exists address.
Qed.

Lemma kept_get_cached_jwks loop uri p :
  kept (aio_get_cached_jwks env http_date wall http clock hash_uri nan_sleep loop uri p)
    (λ r, jwks_is_successful r = true → admitted_keys env http uri r).
Proof.
  unfold aio_get_cached_jwks.
  eapply keeps_bind; [apply kept_jwks_lookup|]. intros [r|] Hr.
  { apply keeps_ret. intros _. by apply Hr. }
  apply keeps_with_lock. eapply keeps_bind; [apply kept_jwks_lookup|]. intros [r|] Hr'.
  { apply keeps_ret. intros _. by apply Hr'. }
  eapply keeps_bind; [apply kept_get_jwks|]. intros r Hkeys.
  eapply keeps_bind; [apply kept_count_fetch|]. intros _ _. apply keeps_with_lock.
  eapply keeps_bind; [apply kept_now|]. intros t _.
  eapply keeps_bind; [by apply kept_write_jwks|]. intros _ _. by apply keeps_ret.
Qed.

Lemma kept_get_entry uri :
  kept (on_tv (gets (λ s, od_get uri (jwks_cache s))))
    (λ o, ∀ en, o = Some en → admitted_keys env http uri (response en)).
Proof. apply kept_on_tv, shared_entry_jwks. Qed.

Lemma kept_refresh_jwks loop uri p :
  kept (aio_refresh_jwks env http_date wall http clock hash_uri nan_sleep loop uri p)
    (λ rb, jwks_is_successful rb.1 = true → admitted_keys env http uri rb.1).
Proof.
  unfold aio_refresh_jwks. apply keeps_with_lock.
  eapply keeps_bind; [apply kept_now|]. intros t0 _.
  eapply keeps_bind; [apply kept_get_entry|]. intros entry Hentry.
  destruct (match entry with Some en => _ | None => _ end) as [r|] eqn:Ehit.
  { apply keeps_ret. intros _. destruct entry as [en|]; [|done].
    destruct (Qle_bool t0 (cached_at en)); [injection Ehit as <-|done]. by apply Hentry. }
  eapply keeps_bind; [apply kept_get_jwks|]. intros r Hr.
  eapply keeps_bind; [apply kept_count_fetch|]. intros _ _. apply keeps_with_lock.
  eapply keeps_bind; [apply kept_now|]. intros t _.
  eapply keeps_bind; [by apply kept_write_jwks|]. intros _ _.
  apply keeps_if; intros _; [|by apply keeps_ret].
  eapply keeps_bind; [apply kept_get_entry|]. intros retained Hret. apply keeps_ret.
  destruct retained as [en|]; [|done]. destruct (has_keys _); [|done].
  intros _. by apply Hret.
Qed.

Lemma kept_kid_miss loop uri p k r :
  admitted_keys env http uri r →
  kept (aio_kid_miss env http_date wall http clock hash_uri nan_sleep loop uri p k r)
    (admitted_keys env http uri).
Proof.
  intros Ha. unfold aio_kid_miss. apply keeps_if; intros _; [|by apply keeps_ret].
  eapply keeps_bind; [apply kept_should_refresh|]. intros b _.
  apply keeps_if; intros _; [|by apply keeps_ret].
  eapply keeps_bind; [apply kept_refresh_jwks|]. intros [r' retained] Hr'.
  eapply (keeps_bind _ _ _ (λ _, True)).
  { apply keeps_if; intros _; [|by apply keeps_ret].
    apply keeps_if; intros _; [apply kept_unstamp|apply kept_stamp]. }
  intros _ _. apply past_keys. intros Hs. by apply keeps_ret, Hr'.
Qed.

Lemma kept_injected_keys address p d :
  admitted_doc http address p d →
  kept (aio_injected_keys env http_date wall http nan_sleep d p)
    (λ r, ∃ uri, dget "jwks_uri" (disco_attrs d) = VStr uri ∧ admitted_keys env http uri r).
Proof.
  intros Hd. unfold aio_injected_keys. eapply past_jwks_uri; [done|]. intros v Hv.
  eapply (keeps_bind _ _ _ (λ r, jwks_is_successful r = true →
    ∃ uri, v = VStr uri ∧ admitted_keys env http uri r)).
  { destruct v; try by apply keeps_ret.
    eapply keeps_post; [apply kept_get_jwks|]. intros r Hr Hs. eauto. }
  intros r Hr. apply past_keys. intros Hs. apply keeps_ret.
  destruct (Hr Hs) as (uri & -> & ?). by exists uri.
Qed.

Lemma kept_discover loop jwt addr injected p :
  kept (aio_discover_and_resolve_key env http_date wall http clock get_unverified_header hash_key
          hash_uri nan_sleep loop jwt addr injected p)
    (key_from env http get_unverified_header jwt addr p).
Proof.
  unfold aio_discover_and_resolve_key. apply keeps_if; intros _.
  - eapply (keeps_bind _ _ _ (λ _, True)).
    { apply kept_modify. intros t Ht. by apply (shared_inv_io env http t (network t) true (decodes t)). }
    intros _ _. destruct addr as [address|]; [|apply keeps_throw].
    eapply keeps_bind; [apply kept_get_discovery_document|]. intros d Hd.
    apply past_disco. intros Had%Hd. eapply keeps_bind; [by eapply kept_injected_keys|].
    intros r (uri & Huri & Hr). apply keeps_pure_bind. intros [kd al] Hf. apply keeps_ret.
    by exists address, uri, r.
  - eapply keeps_bind; [apply kept_get_disco_response|]. intros d (address & -> & Hd).
    apply past_disco. intros Had%Hd. eapply past_jwks_uri; [done|]. intros v Hv.
    eapply past_uri_key; [apply aio_uri_key_ok|]. intros uri ->.
    eapply keeps_bind; [apply kept_get_cached_jwks|]. intros r Hr.
    apply past_keys. intros Hkeys%Hr. apply keeps_pure_bind. intros [k al] Hx.
    eapply keeps_bind; [by apply kept_kid_miss|]. intros r' Hr'.
    apply keeps_pure_bind. intros [kd al'] Hf. apply keeps_ret. exists address, uri, r'.
    split_and!; [done..|]. unfold find_in. by rewrite Hx.
Qed.

Local Abbreviation accepted_disco := (disco_decoded env http get_unverified_header new_pyjwk decode).

Lemma kept_run_decode jwt c iss :
  kept (aio_run_decode new_pyjwk decode jwt c iss) (decoded_with new_pyjwk decode jwt c iss).
Proof. apply kept_on_tv, triple_run_decode, shared_inv_io. Qed.

Lemma kept_decode_with_keys jwt c addr d r uri address :
  addr = Some address → admitted_doc http address (config_policy c) d →
  dget "jwks_uri" (disco_attrs d) = VStr uri → admitted_keys env http uri r →
  kept (aio_decode_with_keys get_unverified_header new_pyjwk decode jwt c d r)
    (accepted_disco jwt c addr).
Proof.
  intros -> Hd Huri Hr. unfold aio_decode_with_keys. apply keeps_pure_bind. intros [kd al] Hf.
  apply keeps_pure_bind. intros c' Hc'. eapply past_issuer; [done|].
  intros iss <-. eapply keeps_post; [apply kept_run_decode|]. intros claims Hcl.
  exists kd, al, d, c'. split_and!; [|done..]. by exists address, uri, r.
Qed.

Lemma kept_retry loop jwt c addr address d injected :
  addr = Some address → admitted_doc http address (config_policy c) d →
  kept (aio_retry_with_refreshed_jwks env http_date wall http clock get_unverified_header
          new_pyjwk decode hash_uri nan_sleep loop jwt c d injected) (accepted_disco jwt c addr).
Proof.
  intros Ha Hd. unfold aio_retry_with_refreshed_jwks. eapply past_jwks_uri; [done|].
  intros v Hv. cbn zeta. apply keeps_if; intros _.
  - eapply keeps_bind; [by eapply kept_injected_keys|]. intros r (uri & Huri & Hr).
    by eapply kept_decode_with_keys.
  - eapply past_uri_key; [apply aio_uri_key_ok|]. intros uri ->.
    eapply keeps_bind; [apply kept_should_refresh|]. intros b _.
    apply keeps_if; intros _; [apply keeps_throw|].
    eapply keeps_bind; [apply kept_refresh_jwks|]. intros [r retained] Hr.
    apply past_keys. intros Hkeys%Hr. eapply keeps_bind.
    { apply keeps_attempt; [by eapply kept_decode_with_keys|].
      intros e. eapply (keeps_bind _ _ _ (λ _, True)); [|intros; apply keeps_throw].
      apply keeps_if; intros _; [apply kept_stamp|by apply keeps_ret]. }
    intros claims Hcl. eapply (keeps_bind _ _ _ (λ _, True)); [|intros; by apply keeps_ret].
    apply keeps_if; intros _; [apply kept_unstamp|by apply keeps_ret].
Qed.

Lemma kept_validate_token loop jwt c addr injected :
  kept (aio_validate_token env http_date wall http clock get_unverified_header new_pyjwk decode
          hash_key hash_uri nan_sleep loop jwt c addr injected)
    (token_sound env http get_unverified_header new_pyjwk decode jwt c addr).
Proof.
  unfold aio_validate_token. apply keeps_pure_bind. intros _ _. eapply (keeps_bind _ _ _
    (token_accepted env http get_unverified_header new_pyjwk decode jwt c addr)).
  - unfold token_accepted. destruct (perform_disco c).
    + eapply keeps_bind; [apply kept_discover|].
      intros [[kd al] d] (address & uri & r & -> & Hd & Huri & Hr & Hf). cbn [fst snd] in *.
      apply keeps_pure_bind. intros c' Hc'. eapply past_issuer; [done|].
      intros iss <-. apply keeps_attempt.
      * eapply keeps_post; [apply kept_run_decode|]. intros claims Hcl.
        exists kd, al, d, c'. split_and!; [|done..]. by exists address, uri, r.
      * intros e. apply keeps_if; intros _; [by eapply kept_retry|apply keeps_throw].
    + apply keeps_pure_bind. intros _ _. apply kept_run_decode.
  - intros claims Hcl. apply keeps_pure. intros out Hout. by eapply token_accepted_sound.
Qed.

(** What a call promises about its result. *)
Definition call_post (call : nat * aio_op) (r : outcome pydict) : Prop :=
  match call.2 with
  | OpValidate jwt c addr _ => ∀ out, r = Ok out →
      token_sound env http get_unverified_header new_pyjwk decode jwt c addr out
  | _ => True
  end.

Lemma safe_call call :
  safe (aio_inv env http) (call_post call)
    (aio_call env http_date wall http clock get_unverified_header new_pyjwk decode
       hash_key hash_uri nan_sleep call).
Proof.
  destruct call as [loop [jwt c addr injected| |]]; cbn [aio_call fst snd call_post].
  - apply kept_validate_token.
  - eapply safe_finish; [|by intros [?|?] _].
    apply (keeps_with_lock _ _ _ (λ _, True)), kept_modify. intros t Ht. by apply inv_disco_empty.
  - eapply safe_finish; [|by intros [?|?] _]. apply (keeps_with_lock _ _ _ (λ _, True)).
    eapply keeps_bind; [|intros _ _; apply (kept_cooldown (λ _, ∅))].
    apply kept_modify. intros t Ht. by apply inv_jwks_empty.
Qed.

Abbreviation any_pool := (aio_pool env http_date wall http clock get_unverified_header new_pyjwk
  decode hash_key hash_uri nan_sleep).

Lemma pool_kept calls p :
  rtc moves (any_pool calls) p → pool_safe (aio_inv env http) (map call_post calls) p.
Proof.
  intros Hp. eapply pool_safe_reach; [exact Hp|]. apply pool_safe_start.
  - apply tv_inv_forget, initial_tv_inv.
  - clear. induction calls as [|call calls IH]; constructor; [apply safe_call|apply IH].
Qed.

Lemma pool_kept_history cancelled calls es :
  pool_safe (aio_inv env http) (map call_post calls) (history cancelled es (any_pool calls)).
Proof.
  apply pool_safe_history; [|by apply pool_kept].
  apply Forall_fmap, Forall_true. intros [loop []]; [by intros ? [=]|done..].
Qed.
End Safety.

(** ** Properties *)

(** C3: soundness of the asynchronous [validate_token] under every history.  However many calls
    run, on however many loops, and in whatever order their steps interleave, with the caches
    cleared and calls cancelled at any moment, claims that a call returns were accepted by PyJWT
    for that call's token: under a key served at the [jwks_uri] of a document that passes that
    call's policy, with that key's algorithm only, for an approved issuer, with no enforced check
    off, and by the call's claims validator. *)
Theorem aio_validate_token_sound env http_date wall http clock header {PyJWK : Type} new_pyjwk
    decode hash_key hash_uri nan_sleep calls cancelled events i loop jwt c addr injected out :
  calls !! i = Some (loop, OpValidate jwt c addr injected) →
  results (history cancelled events (aio_pool env http_date wall http clock header (PyJWK:=PyJWK) new_pyjwk
             decode hash_key hash_uri nan_sleep calls)) !! i = Some (Some (Ok out)) →
  token_sound env http header new_pyjwk decode jwt c addr out.
Proof.
  intros Hi Hr. destruct (pool_safe_result _ _ _ _ _ (pool_kept_history env http_date wall http clock header
    new_pyjwk decode hash_key hash_uri nan_sleep cancelled calls events) Hr) as (Q & HQ & Hpost).
  apply list_lookup_fmap_Some in HQ as (call & -> & Hcall). rewrite Hi in Hcall.
  injection Hcall as <-. by apply Hpost.
Qed.

(** C8: the shared caches under every history: after any number of steps of any calls, and any
    cancellations, at most the configured number of entries each, every key set one the network served under its URI,
    and usable, every document one the network served at its address and that passes the policy
    it is filed under, every lifetime between 60 and 86400 seconds.  And unless the environment
    sets an infinite retry delay, a call that has ended, by a result, an exception or its
    cancellation, holds no lock: what blocks the others is always a call still in progress. *)
Theorem aio_caches_safe env http_date wall http clock header {PyJWK : Type} new_pyjwk
    decode hash_key hash_uri nan_sleep calls cancelled events :
  let p := history cancelled events (aio_pool env http_date wall http clock header (PyJWK:=PyJWK)
             new_pyjwk decode hash_key hash_uri nan_sleep calls) in
  let s := tv (shared p) in
  (match max_cache_entries (memo s) with
   | Some z => (Z.of_nat (length (jwks_cache s)) ≤ z ∧ Z.of_nat (length (disco_cache s)) ≤ z)%Z
   | None => jwks_cache s = [] ∧ disco_cache s = []
   end) ∧
  (∀ uri en, od_get uri (jwks_cache s) = Some en →
     admitted_keys env http uri (response en) ∧ usable_keys (response en) = true ∧ ttl_ok (ttl en)) ∧
  (∀ address p en, od_get (address, cache_key p) (disco_cache s) = Some en →
     admitted_doc http address p (response en) ∧ ttl_ok (ttl en)) ∧
  (finite_backoff env →
   ∀ i call held, tasks p !! i = Some (call, held) → is_Some (ended call) → held = []).
Proof.
  cbn zeta. set (p := history cancelled events _).
  assert (finite_backoff env →
    ∀ i call held, tasks p !! i = Some (call, held) → is_Some (ended call) → held = []) as Hlocks.
  { intros Henv i call held. apply (balanced_history_frees cancelled rank 2).
    apply Forall_fmap, Forall_true. intros c. by apply tidy_call. }
  assert (tv_inv env http (forget (tv (shared p)))) as Hs.
  { by destruct (pool_kept_history env http_date wall http clock header new_pyjwk decode hash_key hash_uri
      nan_sleep cancelled calls events). }
  apply caches_safe in Hs as (H1 & _ & H2 & H3). done.
Qed.

(** C9: every call ends.  Unless the environment sets an infinite retry delay, any number of calls
    on any loops, some of them cancelled at any moment, admits no infinite schedule and no
    deadlock: when nothing can move any more every call has its result, so no cancelled call took
    a lock with it, and from every point some schedule gets there. *)
Theorem aio_calls_end env http_date wall http clock header {PyJWK : Type} new_pyjwk
    decode hash_key hash_uri nan_sleep calls cancelled events :
  finite_backoff env →
  let p := history cancelled events (aio_pool env http_date wall http clock header (PyJWK:=PyJWK) new_pyjwk
             decode hash_key hash_uri nan_sleep calls) in
  (¬ ∃ f : nat → pool lock AioState pydict, f 0 = p ∧ ∀ n, moves (f n) (f (S n))) ∧
  ((¬ ∃ p', moves p p') → finished p) ∧
  ∃ p', rtc moves p p' ∧ finished p'.
Proof.
  intros Henv. cbn zeta. split.
  { intros (f & _ & Hf). exact (no_infinite_schedule f Hf). }
  apply (balanced_history_ends cancelled rank 2).
  apply Forall_fmap, Forall_true. intros call. by apply tidy_call.
Qed.

(** *** A demonstration pool *)

Definition ticking (n : nat) : Q := inject_Z (Z.of_nat n).
Definition demo_pool (header : string → outcome pydict) : list (nat * aio_op) → pool lock AioState pydict :=
  aio_pool empty_env no_dates 0 (demo_http "https://op.example/jwks") ticking header toy_new_pyjwk
    demo_decode (λ _, 0%Z) (λ _, 0%Z) (Ok ()).
Definition demo_call : aio_op := OpValidate "token" (demo_config None) (Some op_address) false.
Definition unknown_kid (jwt : string) : outcome pydict :=
  Ok [("kid", VStr "z"); ("alg", VStr "RS256")].
Definition keys_cached (p : pool lock AioState pydict) : nat := length (jwks_cache (tv (shared p))).
Definition requests (p : pool lock AioState pydict) : nat := length (sent (network (tv (shared p)))).

(** [asyncio.CancelledError] is no [Exception]; nothing here looks at its class. *)
Definition CancelledError : exn := mk_exn BOther "".

(** A cancelled call gives its lock back: the other one then fetches for itself. *)
Example pool_cancelled :
  let p := history CancelledError (replicate 5 (Turn 0) ++ [Interrupt 0] ++ concat (replicate 60 [Turn 0; Turn 1]))
             (demo_pool demo_header [(0, demo_call); (0, demo_call)]) in
  results p = [Some (Err CancelledError); Some (Ok demo_claims)] ∧ requests p = 3.
Proof. vm_compute. done. Qed.

(** On one loop two cold calls share their fetches, on two loops they do not. *)
Example pool_one_loop :
  let p := schedule (concat (replicate 60 [0; 1])) (demo_pool demo_header [(0, demo_call); (0, demo_call)]) in
  results p = [Some (Ok demo_claims); Some (Ok demo_claims)] ∧ requests p = 2.
Proof. vm_compute. done. Qed.
Example pool_two_loops :
  let p := schedule (concat (replicate 60 [0; 1])) (demo_pool demo_header [(0, demo_call); (1, demo_call)]) in
  results p = [Some (Ok demo_claims); Some (Ok demo_claims)] ∧ requests p = 4.
Proof. vm_compute. done. Qed.

(** Awaiting [clear_jwks_cache] does not stop what is in flight.  On one loop, with a token of
    unknown [kid] being validated: there is a schedule in which the clear ends, with the cache
    empty, after the refresh has had its answer, and without another request the refresh then
    files its key set in the cleared cache; and there is one in which the clear falls between
    the refresh and its stamp, and leaves a cooldown for a URI that is not cached. *)
Theorem clear_jwks_cache_races :
  let start := demo_pool unknown_kid [(0, demo_call); (0, OpClearJwks)] in
  (let cleared := schedule (replicate 26 0 ++ replicate 10 1) start in
   results cleared = [None; Some (Ok [])] ∧ keys_cached cleared = 0 ∧
   let after := schedule (replicate 60 0) cleared in
   requests after = requests cleared ∧ keys_cached after = 1) ∧
  (let after := schedule (replicate 31 0 ++ replicate 10 1 ++ replicate 60 0) start in
   keys_cached after = 0 ∧ size (kid_miss_last_attempt (tv (shared after))) = 1).
Proof. vm_compute. done. Qed.

(** [n] validations of tokens with a [kid] the key set does not have, one after the other, while
    the clock moves by a hundredth of a second or so. *)
Definition slow_clock (n : nat) : Q := (Z.of_nat n # 10000)%Q.
Definition unknown_kids (n : nat) : pool lock AioState pydict :=
  aio_pool empty_env no_dates 0 (demo_http "https://op.example/jwks") slow_clock unknown_kid toy_new_pyjwk
    demo_decode (λ _, 0%Z) (λ _, 0%Z) (Ok ()) (replicate n (0, demo_call)).
Definition stamps (p : pool lock AioState pydict) : nat := size (kid_miss_last_attempt (tv (shared p))).
(** Call [i] takes [k] turns, is cancelled and gives back its locks. *)
Definition interrupted (k i : nat) : list event := replicate k (Turn i) ++ [Interrupt i] ++ replicate 2 (Turn i).

(** The cooldown does not bound the refreshes of cancelled calls.  Of twenty validations that run
    to their end only the first refreshes the key set: its stamp stops the others.  When each is
    cancelled after its refresh has sent its request, and before the stamp, each sends one and no
    stamp is ever set. *)
Theorem interrupted_refreshes_unstamped :
  (let p := schedule (concat (map (replicate 60) (seq 0 20))) (unknown_kids 20) in
   all_ended p = true ∧ requests p = 3 ∧ stamps p = 1) ∧
  (let p := history CancelledError (interrupted 29 0 ++ concat (map (interrupted 16) (seq 1 19))) (unknown_kids 20) in
   all_ended p = true ∧ requests p = 3 + 19 ∧ stamps p = 0).
Proof. vm_compute. done. Qed.

(** *** Witnesses *)

Lemma aio_validate_token_sound_witness :
  token_sound empty_env (demo_http "https://op.example/jwks") demo_header toy_new_pyjwk demo_decode
    "token" (demo_config None) (Some op_address) demo_claims.
Proof.
  apply (aio_validate_token_sound empty_env no_dates 0 (demo_http "https://op.example/jwks") ticking
    demo_header toy_new_pyjwk demo_decode (λ _, 0%Z) (λ _, 0%Z) (Ok ())
    [(0, OpClearJwks); (1, demo_call); (0, demo_call)] CancelledError
    (replicate 12 (Turn 2) ++ [Interrupt 2] ++ concat (replicate 60 [Turn 0; Turn 1; Turn 2])) 1 1
    "token" (demo_config None) (Some op_address) false demo_claims); [reflexivity|].
  vm_compute. reflexivity.
Defined.

Lemma empty_env_backoff : finite_backoff empty_env.
Proof. intros r b. vm_compute. by intros [= _ <-]. Qed.

(** A call cancelled while it held its fetch lock, with another one waiting for it. *)
Lemma aio_caches_safe_witness :
  let p := history CancelledError (replicate 5 (Turn 0) ++ [Interrupt 0] ++ replicate 3 (Turn 0))
             (demo_pool demo_header [(0, demo_call); (0, demo_call)]) in
  results p !! 0 = Some (Some (Err CancelledError)) ∧
  ∀ call held, tasks p !! 0 = Some (call, held) → held = [].
Proof.
  split; [vm_compute; reflexivity|]. intros call held Ht.
  refine (proj2 (proj2 (proj2 (aio_caches_safe empty_env no_dates 0 (demo_http "https://op.example/jwks")
    ticking demo_header toy_new_pyjwk demo_decode (λ _, 0%Z) (λ _, 0%Z) (Ok ())
    [(0, demo_call); (0, demo_call)] CancelledError
    (replicate 5 (Turn 0) ++ [Interrupt 0] ++ replicate 3 (Turn 0))))) empty_env_backoff 0 call held Ht _).
  vm_compute in Ht. injection Ht as <- _. by eexists.
Defined.

Lemma aio_calls_end_witness :
  ∃ p', rtc moves (history CancelledError (replicate 8 (Turn 0) ++ [Interrupt 0])
      (demo_pool demo_header [(0, demo_call); (1, OpClearJwks); (0, demo_call)])) p' ∧ finished p'.
Proof.
  apply (aio_calls_end empty_env no_dates 0 (demo_http "https://op.example/jwks") ticking
    demo_header toy_new_pyjwk demo_decode (λ _, 0%Z) (λ _, 0%Z) (Ok ())
    [(0, demo_call); (1, OpClearJwks); (0, demo_call)] CancelledError
    (replicate 8 (Turn 0) ++ [Interrupt 0]) empty_env_backoff).
Defined.
