(* ===== verification/AioAlone.v ===== *)
(** * An asynchronous call alone

    With no other call in progress, [aio_validate_token] does step for step what the synchronous
    [validate_token] does: same outcome, same caches, cooldown, requests and sleeps.  Two
    differences bound the statement.  The retry delay from the environment must be a finite
    number that is not negative: [time.sleep] raises on the others, [asyncio.sleep] does not.  And
    the URLs must parse: [_upstream_fetch_attempted] parses them again, outside the handler that
    catches what [urlparse] raises. *)

From S2P Require Import Prelude PyStr PyValue Models Cache Url Policy HttpRetry Discovery Jwks Jwt TokenValidation Coro CacheMetrics Aio AioSafety.
From Stdlib Require Import QArith Ascii Lqa.
From stdpp Require Import gmap strings.
#[global] Close Scope Q_scope.
Open Scope string_scope.
Open Scope list_scope.
Open Scope nat_scope.
Open Scope py_scope.

(** The retry delay can be slept. *)
Definition sane_backoff (env : string → option string) : Prop :=
  ∀ retries base, get_retry_params env None None = Ok (retries, base) → ∃ q, base = FFin q ∧ (0 <= q)%Q.

Lemma sane_finite env : sane_backoff env → finite_backoff env.
Proof. intros H r b Hp. by destruct (H r b Hp) as (q & -> & _). Qed.

(** The counter's URL check does not raise. *)
Definition countable (address : string) (p : DiscoveryPolicy) : Prop :=
  ∃ b, upstream_fetch_attempted address p = Ok b.

Lemma on_net_bind {A B} (m : stM net exn A) (k : A → stM net exn B) t :
  on_net (m ≫= k) t = (on_net m ≫= λ a, on_net (k a)) t.
Proof. unfold on_net, zoom, mbind, stM_bind. by destruct (m (network t)) as [[a|e] n]. Qed.

Lemma any_outcome {A} (m : stM TVState exn A) t :
  match m t with (Ok _, _) => True ∧ True | (Err _, _) => True end.
Proof. by destruct (m t) as [[a|e] t']. Qed.

(** ** On the wire alone

    A call that touches nothing but the wire, run alone. *)

Abbreviation no_lock := (λ _ : lock, False).
Abbreviation same_net c m := (runs tv no_lock (λ _, True) c (on_net m)).

Lemma same_net_bind {A B} (c : C A) m (k : A → C B) k' :
  same_net c m → (∀ a, same_net (k a) (k' a)) → same_net (c ≫= k) (m ≫= k').
Proof.
  intros Hc Hk. eapply runs_ext; [apply runs_seq; [exact Hc|exact Hk]|].
  intros t _. symmetry. apply on_net_bind.
Qed.
Lemma same_net_pure {A} (r : outcome A) : same_net (pure r) (lift r).
Proof. eapply runs_ext; [apply runs_pure|]. intros t _. unfold on_net, zoom, lift. by destruct t. Qed.
Lemma same_net_ret {A} (a : A) : same_net (mret a) (mret a).
Proof. apply (same_net_pure (Ok a)). Qed.
Lemma same_net_throw {A} (e : exn) : same_net (mthrow e : C A) (mthrow e).
Proof. apply (same_net_pure (Err e)). Qed.
Lemma same_net_step {A} (m : stM net exn A) : same_net (on_aio_net m) m.
Proof. apply runs_atom. intros s. unfold on_net, zoom. by destruct (m (network (tv s))). Qed.

(** What the retry loop does with the outcome of one request, on the module's state. *)
Section LoopAnswer.
Context (http_date : string → option Q) (wall : Q) (call : stM net exn HttpResponse).

Definition loop_answer (fuel att : nat) (retries : Z) (base : pyfloat) (last : option exn)
    (r : outcome HttpResponse) : stM TVState exn HttpResponse :=
  match r with
  | Ok response =>
      if should_retry_response response att retries then
        delay ← lift (resolve_retry_delay http_date wall response base att);
        _ ← on_net (sleep delay);
        on_net (attempts http_date wall call fuel (S att) retries base last)
      else _ ← lift (check_no_redirect response); mret response
  | Err e =>
      if isinstance e HttpxRequestError then
        if (Z.of_nat att <? retries)%Z then
          _ ← on_net (sleep (calculate_delay base att));
          on_net (attempts http_date wall call fuel (S att) retries base (Some e))
        else mthrow e
      else mthrow e
  end.

Lemma on_net_attempts fuel att retries base last t :
  on_net (attempts http_date wall call (S fuel) att retries base last) t =
  loop_answer fuel att retries base last (on_net call t).1 (on_net call t).2.
Proof.
  unfold on_net, zoom. cbn [attempts].
  destruct (call (network t)) as [[r|e] n]; cbn [loop_answer fst snd].
  - destruct (should_retry_response r att retries).
    + unfold lift. unfold mbind at 1 3, stM_bind at 1 3.
      destruct (resolve_retry_delay _ _ _ _ _) as [d|e]; [|done].
      unfold mbind, stM_bind, on_net, zoom. cbn [network set_network].
      destruct (sleep d n) as [[[]|] n']; [|done]. cbn [network set_network].
      by destruct (attempts _ _ _ _ _ _ _ _ n').
    + unfold lift, mbind, stM_bind. by destruct (check_no_redirect r).
  - destruct (isinstance e HttpxRequestError); [|done].
    destruct (Z.of_nat att <? retries)%Z; [|done].
    unfold mbind, stM_bind, on_net, zoom. cbn [network set_network].
    destruct (sleep _ n) as [[[]|] n']; [|done]. cbn [network set_network].
    by destruct (attempts _ _ _ _ _ _ _ _ n').
Qed.
End LoopAnswer.

Lemma on_net_handled {A} (v : outcome unit) (m : stM net exn HttpResponse) (f : HttpResponse → A)
    (g : exn → A) t :
  True →
  try_except (_ ← lift v; response ← on_net m; mret (f response)) (λ e, mret (g e)) t =
  on_net (try_except (_ ← lift v; response ← m; mret (f response)) (λ e, mret (g e))) t.
Proof.
  intros _. unfold try_except, mbind, stM_bind, lift, on_net, zoom, mret, stM_ret.
  destruct v; [|by destruct t]. by destruct (m (network t)) as [[r|e] n].
Qed.

Section Alone.
Context (env : string → option string) (http_date : string → option Q) (wall : Q).
Context (http : nat → string → outcome HttpResponse).
Context (clock : nat → Q).
Context (get_unverified_header : string → outcome pydict).
Context {PyJWK : Type} (new_pyjwk : pydict → option pyval → outcome PyJWK).
Context (decode : nat → string → PyJWK → DecodeArgs → outcome pydict).
Context (hash_key : disco_key → Z) (hash_uri : string → Z) (nan_sleep : outcome unit).
Context (Hbackoff : sane_backoff env).
#[local] Set Default Proof Using "Type Hbackoff".

(** From every state. *)
Local Abbreviation same U := (runs tv U (λ _, True)).

Lemma same_on_tv {A} U (m : stM TVState exn A) : same U (on_tv m) m.
Proof. apply runs_atom. intros s. unfold zoom. by destruct (m (tv s)). Qed.

Lemma same_on_net {A} U (m : stM net exn A) : same U (on_aio_net m) (on_net m).
Proof. apply same_on_tv. Qed.

(** Counting is not seen. *)
Lemma same_count {B} U f (k : unit → C B) m : same U (k ()) m → same U (count f ≫= k) m.
Proof. intros H. by apply (runs_skip _ _ _ _ ()). Qed.

Lemma same_count_fetch {B} U a p f (k : unit → C B) m :
  countable a p → same U (k ()) m → same U (count_fetch a p f ≫= k) m.
Proof. intros [b Hb] Hk. unfold count_fetch. rewrite Hb. by destruct b; [apply same_count|]. Qed.

(** *** The retry loop *)

Lemma resolve_sane r q att d :
  (0 <= q)%Q → resolve_retry_delay http_date wall r (FFin q) att = Ok d →
  ∃ q', d = FFin q' ∧ (0 <= q')%Q.
Proof.
  intros Hq. unfold resolve_retry_delay. cbn zeta. cbn [calculate_delay float_scale].
  pose proof (backoff_ok q att Hq) as Hb. set (b := (q * _)%Q) in *.
  destruct (parse_retry_after _ _ _) as [[ra|]|e] eqn:Ep; cbn [mbind result_bind];
    [|intros [= <-]; by exists b|done].
  apply parse_retry_after_nonneg in Ep. intros [= <-]. unfold float_max, float_min.
  destruct ra as [|[]|x]; cbn in *; [|done|by exists MAX_RETRY_DELAY_SECONDS|].
  - destruct (negb _); [by exists MAX_RETRY_DELAY_SECONDS|by exists b].
  - apply negb_false_iff, Qle_bool_iff in Ep.
    destruct (negb (Qle_bool x b)); cbn; destruct (negb _);
      first [by exists MAX_RETRY_DELAY_SECONDS|by eexists].
Qed.

Lemma same_sleep U q : (0 <= q)%Q → same U (asyncio_sleep nan_sleep (FFin q)) (on_net (sleep (FFin q))).
Proof.
  intros Hq. unfold asyncio_sleep, sleep. apply Qle_bool_iff in Hq. rewrite Hq. apply same_on_net.
Qed.

Lemma same_attempts U call fuel att retries q last :
  (0 <= q)%Q →
  same U (aio_attempts http_date wall nan_sleep (on_aio_net call) fuel att retries (FFin q) last)
    (on_net (attempts http_date wall call fuel att retries (FFin q) last)).
Proof.
  intros Hq. revert att last. induction fuel as [|fuel IH]; intros att last.
  { eapply runs_ext; [apply runs_throw|]. by intros [] _. }
  cbn [aio_attempts].
  eapply runs_ext; [|intros t _; symmetry; apply on_net_attempts].
  apply (runs_finish _ _ _ (on_net call) _ (loop_answer http_date wall call fuel att retries (FFin q) last));
    [apply same_on_net|]. intros [r|e]; cbn [loop_answer].
  - destruct (should_retry_response r att retries); cycle 1.
    { apply runs_seq; [apply runs_pure|]. intros _. apply runs_ret. }
    eapply (runs_bind _ _ _ (λ _, True) _ _ (λ d, ∃ q', d = FFin q' ∧ (0 <= q')%Q)).
    + apply runs_pure.
    + intros t _. unfold lift. destruct (resolve_retry_delay _ _ _ _ _) eqn:Ed; [|done].
      split; [done|]. by eapply resolve_sane.
    + intros d (q' & -> & Hq'). apply runs_seq; [by apply same_sleep|]. intros _. apply IH.
  - destruct (isinstance e HttpxRequestError); [|apply runs_throw].
    destruct (Z.of_nat att <? retries)%Z; [|apply runs_throw].
    apply runs_seq; [by apply same_sleep, backoff_ok|]. intros _. apply IH.
Qed.

Lemma same_fetch U url :
  same U (aio_fetch env http_date wall http nan_sleep url) (on_net (fetch env http_date wall http url)).
Proof.
  unfold aio_fetch, retry_with_backoff_async, fetch, retry_with_backoff.
  eapply runs_ext; [|intros t _; symmetry; apply on_net_bind].
  eapply (runs_bind _ _ _ (λ _, True) _ _ (λ rb, ∃ q, rb.2 = FFin q ∧ (0 <= q)%Q)).
  - eapply runs_ext; [apply runs_pure|]. by intros [] _.
  - intros t _. unfold on_net, zoom, lift. destruct (get_retry_params env None None) as [[r b]|e] eqn:Ep; [|done].
    split; [done|]. by eapply Hbackoff.
  - intros [retries base] (q & Hq & Hpos). cbn [snd] in Hq. subst base. by apply same_attempts.
Qed.

(** The two fetches, whose handlers catch everything. *)
Lemma same_guarded {A} U address p (f : HttpResponse → A) (g : exn → A) :
  same U
    (attempt (_ ← pure (validate_url_scheme (Some address) p);
              response ← aio_fetch env http_date wall http nan_sleep address; mret (f response))
       (λ e, mret (g e)))
    (on_net (try_except (_ ← lift (validate_url_scheme (Some address) p);
                         response ← fetch env http_date wall http address; mret (f response))
       (λ e, mret (g e)))).
Proof.
  eapply runs_ext; [|apply on_net_handled].
  apply (runs_attempt _ _ _ (_ ← lift (validate_url_scheme (Some address) p);
    response ← on_net (fetch env http_date wall http address); mret (f response))
    _ (λ e, mret (g e))); [|intros e; apply runs_ret].
  apply runs_seq; [apply runs_pure|]. intros _. apply runs_seq; [apply same_fetch|]. intros r.
  apply runs_ret.
Qed.

Lemma same_get_discovery_document U address p :
  same U (aio_get_discovery_document env http_date wall http nan_sleep address p)
    (fetch_document env http_date wall http address p).
Proof. apply same_guarded. Qed.
Lemma same_get_jwks U address p :
  same U (aio_get_jwks env http_date wall http nan_sleep address p)
    (fetch_keys env http_date wall http address p).
Proof. apply same_guarded. Qed.

(** *** Lookups *)

Lemma same_now U : same U (aio_now clock) (now clock).
Proof. apply same_on_tv. Qed.

Lemma same_fresh {R} U (entry : option (CacheEntry R)) : same U (aio_fresh clock entry) (TokenValidation.fresh clock entry).
Proof.
  unfold aio_fresh, TokenValidation.fresh. destruct entry; [|apply runs_ret].
  apply runs_seq; [apply same_now|]. intros t. apply runs_ret.
Qed.

Lemma same_disco_lookup U k : same U (aio_disco_lookup clock k) (disco_lookup clock k).
Proof.
  apply runs_seq; [apply same_on_tv|]. intros entry. apply runs_seq; [apply same_fresh|].
  intros [r|]; [|apply runs_ret]. apply runs_seq; [apply same_on_tv|]. intros _.
  apply same_count, runs_ret.
Qed.

Lemma same_jwks_lookup U uri : same U (aio_jwks_lookup clock uri) (jwks_lookup clock uri).
Proof.
  apply runs_seq; [apply same_on_tv|]. intros entry. apply runs_seq; [apply same_fresh|].
  intros [r|]; [|apply runs_ret]. apply runs_seq; [apply same_on_tv|]. intros _.
  apply same_count, runs_ret.
Qed.

(** None of the locks is held. *)
Local Abbreviation all := (λ _ : lock, True).

Lemma same_get_disco_response loop addr p :
  (∀ address, addr = Some address → countable address p) →
  same all (aio_get_disco_response env http_date wall http clock hash_key nan_sleep loop addr (Some p))
    (get_disco_response env http_date wall http clock addr (Some p)).
Proof.
  intros Hc. unfold aio_get_disco_response, get_disco_response.
  destruct addr as [address|]; [|apply runs_throw]. specialize (Hc address eq_refl).
  cbn [default from_option id].
  apply runs_seq; [apply same_disco_lookup|]. intros [d|]; [apply runs_ret|].
  apply runs_with_lock; [|done]. apply runs_seq; [apply same_disco_lookup|].
  intros [d|]; [apply runs_ret|]. apply runs_seq; [apply same_get_discovery_document|]. intros d.
  apply same_count_fetch; [done|]. apply runs_with_lock; [|done].
  apply runs_seq; [apply same_now|]. intros t. apply runs_seq; [apply same_on_tv|]. intros _.
  apply runs_ret.
Qed.

Lemma same_get_cached_jwks loop uri p :
  countable uri p →
  same all (aio_get_cached_jwks env http_date wall http clock hash_uri nan_sleep loop uri p)
    (get_cached_jwks env http_date wall http clock uri p).
Proof.
  intros Hc. unfold aio_get_cached_jwks, get_cached_jwks.
  apply runs_seq; [apply same_jwks_lookup|]. intros [r|]; [apply runs_ret|].
  apply runs_with_lock; [|done]. apply runs_seq; [apply same_jwks_lookup|].
  intros [r|]; [apply runs_ret|]. apply runs_seq; [apply same_get_jwks|]. intros r.
  apply same_count_fetch; [done|]. apply runs_with_lock; [|done].
  apply runs_seq; [apply same_now|]. intros t. apply runs_seq; [apply same_on_tv|]. intros _.
  apply runs_ret.
Qed.

Lemma same_refresh_jwks loop uri p :
  countable uri p →
  same all (aio_refresh_jwks env http_date wall http clock hash_uri nan_sleep loop uri p)
    (refresh_jwks env http_date wall http clock uri p).
Proof.
  intros Hc. unfold aio_refresh_jwks, refresh_jwks. apply runs_with_lock; [|done].
  apply runs_seq; [apply same_now|]. intros t0. apply runs_seq; [apply same_on_tv|]. intros entry.
  destruct (match entry with Some en => _ | None => _ end); [apply runs_ret|].
  apply runs_seq; [apply same_get_jwks|]. intros r. apply same_count_fetch; [done|].
  apply runs_with_lock; [|done]. apply runs_seq; [apply same_now|]. intros t.
  apply runs_seq; [apply same_on_tv|]. intros _.
  destruct (jwks_is_successful r && negb (has_keys (jwks_keys r))).
  - apply runs_seq; [apply same_on_tv|]. intros retained. apply runs_ret.
  - eapply runs_ext; [apply runs_ret|]. done.
Qed.

Lemma same_should_refresh U uri b : same U (aio_should_refresh env clock uri b) (should_refresh env clock uri b).
Proof.
  unfold aio_should_refresh, should_refresh. apply runs_seq; [apply same_now|]. intros t.
  eapply runs_ext; [apply same_on_tv|]. intros s _. unfold mbind, stM_bind, gets, modify, mret, stM_ret.
  by destruct (should_attempt_kid_miss_refresh _ _ _ _ _ _).
Qed.
Lemma same_stamp loop uri : same all (aio_stamp clock loop uri) (stamp clock uri).
Proof.
  apply runs_with_lock; [|done]. apply runs_seq; [apply same_now|]. intros t. apply same_on_tv.
Qed.
Lemma same_unstamp loop uri : same all (aio_unstamp loop uri) (unstamp uri).
Proof. apply runs_with_lock; [|done]. apply same_on_tv. Qed.

Lemma same_injected_keys U d p :
  same U (aio_injected_keys env http_date wall http nan_sleep d p)
    (injected_keys env http_date wall http d p).
Proof.
  apply runs_seq; [apply runs_pure|]. intros uri. apply runs_seq.
  { destruct uri; try apply runs_ret. apply same_get_jwks. }
  intros r. apply runs_seq; [apply runs_pure|]. intros _. apply runs_ret.
Qed.

Lemma same_kid_miss loop uri p k r :
  countable uri p →
  same all (aio_kid_miss env http_date wall http clock hash_uri nan_sleep loop uri p k r)
    (kid_miss env http_date wall http clock uri p k r).
Proof.
  intros Hc. unfold aio_kid_miss, kid_miss. destruct (negb _ && negb _); [|apply runs_ret].
  apply runs_seq; [apply same_should_refresh|]. intros []; [|apply runs_ret].
  apply runs_seq; [by apply same_refresh_jwks|]. intros [r' retained]. apply runs_seq.
  { destruct (_ && _); [|apply runs_ret]. destruct (kid_in _ _); [apply same_unstamp|apply same_stamp]. }
  intros _. apply runs_seq; [apply runs_pure|]. intros _. apply runs_ret.
Qed.

(** *** The whole call

    From here on the state matters: a cached document is one that passed the policy, so its
    [jwks_uri] parses. *)

Local Abbreviation Inv := (tv_inv env http).
Local Abbreviation accepted_disco := (disco_decoded env http get_unverified_header new_pyjwk decode).

Lemma admitted_uri address p d v :
  admitted_doc http address p d → validate_endpoints p = true → validate_jwks_uri d = Ok v →
  ∃ uri, v = VStr uri ∧ countable uri p.
Proof.
  intros Hd Hve Hv. assert (truthy (dget "jwks_uri" (disco_attrs d)) = true) as Ht.
  { revert Hv. unfold validate_jwks_uri.
    rewrite (admitted_doc_attr http address p d) by (done || compute_done). cbn [mbind result_bind].
    by destruct (truthy (dget "jwks_uri" (disco_attrs d))). }
  destruct (admitted_doc_jwks_uri _ _ _ _ Hd Hve Ht) as (uri & Hu & Hok). exists uri.
  split.
  - pose proof (validate_jwks_uri_ok http address p d v Hd Hv). congruence.
  - exists true. unfold upstream_fetch_attempted. by rewrite Hok.
Qed.

Lemma same_runs {A} U (I : TVState → Prop) (c : C A) m : same U c m → runs tv U I c m.
Proof. intros H. by eapply runs_weaken. Qed.

(** A step whose outcome is known to satisfy [P]. *)
Lemma runs_fact {A B} U (I : TVState → Prop) (c : C A) m (P : A → Prop) (k : A → C B) k' :
  same U c m → triple I m P → (∀ a, P a → same U (k a) (k' a)) → runs tv U I (c ≫= k) (m ≫= k').
Proof.
  intros Hc Hm Hk. eapply runs_bind; [by apply same_runs| |].
  - intros t Ht. specialize (Hm t Ht). destruct (m t) as [[a|e] t']; [exact Hm|done].
  - intros a Ha. by apply same_runs, Hk.
Qed.

Lemma triple_lift_eq {A} (r : outcome A) : triple (λ _ : TVState, True) (lift r) (λ a, r = Ok a).
Proof. by apply triple_lift. Qed.

Section Call.
Context (c : TokenValidationConfig) (Hve : validate_endpoints (config_policy c) = true).
#[local] Set Default Proof Using "Type Hbackoff Hve".

Lemma same_discover loop jwt addr injected :
  (∀ address, addr = Some address → countable address (config_policy c)) →
  runs tv all Inv
    (aio_discover_and_resolve_key env http_date wall http clock get_unverified_header hash_key
       hash_uri nan_sleep loop jwt addr injected (config_policy c))
    (discover_and_resolve_key env http_date wall http clock get_unverified_header
       jwt addr injected (config_policy c)).
Proof.
  intros Hc. unfold aio_discover_and_resolve_key, discover_and_resolve_key. destruct injected.
  { apply same_runs. apply runs_seq; [apply same_on_tv|]. intros _.
    destruct addr as [address|]; [|apply runs_throw].
    apply runs_seq; [apply same_get_discovery_document|]. intros d.
    apply runs_seq; [apply runs_pure|]. intros _. apply runs_seq; [apply same_injected_keys|]. intros r.
    apply runs_seq; [apply runs_pure|]. intros [kd al]. apply runs_ret. }
  eapply runs_fact; [by apply same_get_disco_response|apply triple_get_disco_response|].
  intros d (address & -> & Hd).
  eapply runs_fact; [apply runs_pure|apply triple_lift_eq|]. intros [] Hv.
  apply validate_disco_response_ok in Hv. specialize (Hd Hv).
  eapply runs_fact; [apply runs_pure|apply triple_lift_eq|]. intros v Hjwks.
  destruct (admitted_uri _ _ _ _ Hd Hve Hjwks) as (uri & -> & Hcount).
  apply (runs_fact _ _ _ (lift (Ok uri)) (λ u, u = uri));
    [apply (runs_pure _ _ _ (Ok uri))|by apply triple_lift; intros ? [= <-]|intros ? ->].
  apply runs_seq; [by apply same_get_cached_jwks|]. intros r.
  apply runs_seq; [apply runs_pure|]. intros _. apply runs_seq; [apply runs_pure|]. intros [k al].
  apply runs_seq; [by apply same_kid_miss|]. intros r'.
  apply runs_seq; [apply runs_pure|]. intros [kd al']. apply runs_ret.
Qed.

Lemma same_decode_with_keys U jwt d r :
  same U (aio_decode_with_keys get_unverified_header new_pyjwk decode jwt c d r)
    (decode_with_keys get_unverified_header new_pyjwk decode jwt c d r).
Proof.
  apply runs_seq; [apply runs_pure|]. intros [kd al]. apply runs_seq; [apply runs_pure|]. intros c'.
  apply runs_seq; [apply runs_pure|]. intros iss. apply same_on_tv.
Qed.

Lemma same_retry loop jwt address d injected :
  admitted_doc http address (config_policy c) d →
  same all (aio_retry_with_refreshed_jwks env http_date wall http clock get_unverified_header
              new_pyjwk decode hash_uri nan_sleep loop jwt c d injected)
    (retry_with_refreshed_jwks env http_date wall http clock get_unverified_header
       new_pyjwk decode jwt c d injected).
Proof.
  intros Hd. unfold aio_retry_with_refreshed_jwks, retry_with_refreshed_jwks.
  eapply runs_fact; [apply runs_pure|apply triple_lift_eq|]. intros v Hv. cbn zeta.
  destruct injected.
  { apply runs_seq; [apply same_injected_keys|]. intros r. apply same_decode_with_keys. }
  destruct (admitted_uri _ _ _ _ Hd Hve Hv) as (uri & -> & Hcount).
  apply (runs_fact _ _ _ (lift (Ok uri)) (λ u, u = uri));
    [apply (runs_pure _ _ _ (Ok uri))|by apply triple_lift; intros ? [= <-]|intros ? ->].
  apply runs_seq; [apply same_should_refresh|]. intros [|]; [|apply runs_throw].
  apply runs_seq; [by apply same_refresh_jwks|]. intros [r retained].
  apply runs_seq; [apply runs_pure|]. intros _. apply runs_seq.
  { apply runs_attempt; [apply same_decode_with_keys|]. intros e.
    apply runs_seq; [|intros _; apply runs_throw].
    destruct retained; [apply runs_ret|apply same_stamp]. }
  intros claims. apply runs_seq; [|intros _; apply runs_ret].
  destruct retained; [apply runs_ret|apply same_unstamp].
Qed.

Lemma same_validate_token loop jwt addr injected :
  (∀ address, addr = Some address → countable address (config_policy c)) →
  runs tv all Inv
    (aio_validate_token env http_date wall http clock get_unverified_header new_pyjwk decode
       hash_key hash_uri nan_sleep loop jwt c addr injected)
    (validate_token env http_date wall http clock get_unverified_header new_pyjwk decode
       jwt c addr injected).
Proof.
  intros Hc. unfold aio_validate_token, validate_token.
  eapply (runs_bind _ _ _ Inv _ _ (λ _, True)); [apply runs_pure| |].
  { intros t Ht. unfold lift. by destruct (validate_token_config c). }
  intros _ _. eapply (runs_bind _ _ _ (λ _, True) _ _ (λ _, True)); [| |intros claims _; apply runs_pure].
  - destruct (perform_disco c).
    + eapply (runs_bind _ _ _ (λ _, True)); [by apply same_discover| |].
      * intros t Ht. pose proof (triple_discover env http_date wall http clock get_unverified_header
          jwt addr injected (config_policy c) t Ht) as H.
        destruct (discover_and_resolve_key _ _ _ _ _ _ _ _ _ _ t) as [[a|e] t']; [|done].
        split; [done|]. apply H.
      * intros [[kd al] d] (address & uri & r & _ & Hd & _).
        apply runs_seq; [apply runs_pure|]. intros c'. apply runs_seq; [apply runs_pure|]. intros iss.
        apply runs_attempt; [apply same_on_tv|]. intros e.
        destruct (isinstance e SignatureVerificationException); [by eapply same_retry|apply runs_throw].
    + apply same_runs, runs_seq; [apply runs_pure|]. intros _. apply same_on_tv.
  - intros t _. exact (any_outcome _ t).
Qed.
End Call.
End Alone.

(** ** URLs that do not parse *)

(** A URL that does not parse has no entry under any policy. *)
Lemma unparsable_not_cached env http t a p e :
  tv_inv env http t → urlparse a = Err e → od_get (a, cache_key p) (disco_cache t) = None.
Proof.
  intros Ht He. destruct (od_get _ (disco_cache t)) as [en|] eqn:Eg; [|done].
  destruct (dinv_entries _ _ _ (tv_disco _ _ _ Ht) _ _ Eg) as [(q & _ & _ & (r & Hr & _) & _) _].
  cbn in Hr. congruence.
Qed.

Lemma unparsable_attempted a p e :
  urlparse a = Err e → upstream_fetch_attempted a p = Err e ∧ validate_url_scheme (Some a) p = Err e.
Proof.
  intros He. assert (validate_url_scheme (Some a) p = Err e) as Hv.
  { unfold validate_url_scheme. cbn [default from_option id].
    destruct (nonempty a) eqn:En; [|destruct a; done]. cbn [negb]. by rewrite He. }
  split; [|done]. unfold upstream_fetch_attempted. rewrite Hv.
  apply urlparse_errors in He. unfold isinstance. by rewrite He.
Qed.

Lemma lookup_miss clock k t : od_get k (disco_cache t) = None → disco_lookup clock k t = (Ok None, t).
Proof. intros H. unfold disco_lookup, gets, mbind, stM_bind. by rewrite H. Qed.

Lemma run_lookup_miss clock k held s :
  od_get k (disco_cache (tv s)) = None → run held (aio_disco_lookup clock k) s = Some (Ok None, held, s).
Proof. intros H. unfold aio_disco_lookup. destruct s as [t cs]. cbn in *. by rewrite H. Qed.

(** ** Properties *)

(** C11: the asynchronous [validate_token] refines the synchronous one.  Called while no other call
    holds a lock, in any state whose caches satisfy the invariant, it runs to the end without
    waiting, gives its locks back, and has the outcome and the effect on the caches, the
    cooldown, the network and the memoised environment of the synchronous function; provided the
    retry delay can be slept, the endpoint checks are on (the default) and the discovery address
    parses. *)
Theorem aio_alone_is_sync env http_date wall http clock header {PyJWK : Type} new_pyjwk
    decode hash_key hash_uri nan_sleep loop jwt c addr injected s :
  sane_backoff env → validate_endpoints (config_policy c) = true →
  (∀ address, addr = Some address → countable address (config_policy c)) →
  tv_inv env http (tv s) →
  let sync := validate_token env http_date wall http clock header (PyJWK:=PyJWK) new_pyjwk decode
                jwt c addr injected (tv s) in
  ∃ s', run [] (aio_validate_token env http_date wall http clock header new_pyjwk decode hash_key
                  hash_uri nan_sleep loop jwt c addr injected) s = Some (sync.1, [], s') ∧
    tv s' = sync.2.
Proof.
  intros Henv Hve Hc Hs. eapply same_validate_token; [done..| |done].
  intros l _. apply not_elem_of_nil.
Qed.

(** The URL check of the counters lets an exception out.  For a discovery address that
    [urlparse] refuses, the synchronous lookup returns a failed response, which [validate_token]
    reports as a library error; the asynchronous one makes the same failed response and then
    raises the bare [ValueError], from every state and under every policy. *)
Theorem aio_unparsable_address env http_date wall http clock (hash_key : disco_key → Z) nan_sleep loop
    (address : string) p s e :
  tv_inv env http (tv s) → urlparse address = Err e →
  (∃ s', run [] (aio_get_disco_response env http_date wall http clock hash_key nan_sleep loop
                   (Some address) (Some p)) s = Some (Err e, [], s')) ∧
  ∃ t', get_disco_response env http_date wall http clock (Some address) (Some p) (tv s) =
    (Ok (handle_discovery_error e), t').
Proof.
  intros Hs He. destruct (unparsable_attempted address p e He) as [Hup Hv].
  assert (Hmiss : od_get (address, cache_key p) (disco_cache (tv s)) = None)
    by by eapply unparsable_not_cached.
  unfold aio_get_disco_response, get_disco_response. cbn [default from_option id]. split.
  - unfold mbind at 1, coro_bind at 1. rewrite run_finish, run_lookup_miss by done.
    unfold with_lock. cbn [run]. rewrite bool_decide_eq_false_2 by apply not_elem_of_nil.
    rewrite run_finish. unfold mbind at 1, coro_bind at 1. rewrite run_finish, run_lookup_miss by done.
    unfold aio_get_discovery_document. rewrite Hv. unfold count_fetch. rewrite Hup.
    cbn. bd_refl. by exists s.
  - unfold mbind, stM_bind. rewrite !lookup_miss by done.
    unfold fetch_document, on_net, zoom, get_discovery_document, try_except, mbind, stM_bind, lift.
    cbn [default from_option id]. rewrite Hv. unfold mret, stM_ret. rewrite now_run. unfold modify.
    by eexists.
Qed.

(** *** Witnesses *)

Lemma empty_env_sane : sane_backoff empty_env.
Proof. intros r b. vm_compute. intros [= _ <-]. by exists 1%Q. Qed.

Lemma aio_alone_is_sync_witness :
  ∃ s', run [] (aio_validate_token empty_env no_dates 0 (demo_http "https://op.example/jwks") demo_clock
    demo_header toy_new_pyjwk demo_decode (λ _, 0%Z) (λ _, 0%Z) (Ok ()) 0 "token" (demo_config None)
    (Some op_address) false) (Aio initial_state zero_counters) = Some (Ok demo_claims, [], s').
Proof.
  destruct (aio_alone_is_sync empty_env no_dates 0 (demo_http "https://op.example/jwks") demo_clock
    demo_header toy_new_pyjwk demo_decode (λ _, 0%Z) (λ _, 0%Z) (Ok ()) 0 "token" (demo_config None)
    (Some op_address) false (Aio initial_state zero_counters)) as (s' & H & _).
  - apply empty_env_sane.
  - reflexivity.
  - intros address [= <-]. exists true. vm_compute. reflexivity.
  - apply initial_tv_inv.
  - exists s'. rewrite H. vm_compute. reflexivity.
Defined.

Lemma aio_unparsable_address_witness :
  ∃ s', run [] (aio_get_disco_response empty_env no_dates 0 (demo_http "https://op.example/jwks") demo_clock
    (λ _, 0%Z) (Ok ()) 0 (Some "https://[op.example/") (Some default_policy))
    (Aio initial_state zero_counters) = Some (Err (ValueErr "Invalid IPv6 URL"), [], s').
Proof.
  refine (proj1 (aio_unparsable_address empty_env no_dates 0 (demo_http "https://op.example/jwks") demo_clock
    (λ _, 0%Z) (Ok ()) 0 "https://[op.example/" default_policy (Aio initial_state zero_counters)
    (ValueErr "Invalid IPv6 URL") _ _)).
  - apply initial_tv_inv.
  - vm_compute. reflexivity.
Defined.
