(* ===== verification/Threads.v ===== *)
(** * Token validation by several threads ([sync/token_validation.py])

    The module of TokenValidation again, with its locks: any number of threads call
    [validate_token] and clear the caches, and every access to the module's state, every reading of
    the clock, every request and every sleep of one of them is a step between which the others
    may move.  The fetch locks are named by their stripe; the structure lock of the caches is not
    a step of its own, its critical sections being single accesses here.  The names are those of
    TokenValidation with the prefix [thread_].

    Calls take locks in order, so every schedule ends; the rest is in ThreadSafety. *)

From S2P Require Import Prelude PyStr PyValue Models Cache Url Policy HttpRetry Discovery Jwks Jwt TokenValidation Coro CacheMetrics Aio.
From Stdlib Require Import QArith Ascii.
From stdpp Require Import gmap strings relations.
#[global] Close Scope Q_scope.
Open Scope string_scope.
Open Scope list_scope.
Open Scope nat_scope.
Open Scope py_scope.

(** ** State and locks *)

(** The module's state, and how often the injected-client warning was logged. *)
Record ThState : Type := Th { caches : TVState; warnings : nat }.

Definition set_caches (t : TVState) (s : ThState) : ThState := Th t (warnings s).

Definition thread_DISCO_LOCK_STRIPES : Z := 32.
Definition thread_JWKS_LOCK_STRIPES : Z := 32.

Inductive thread_lock : Type :=
  | disco_fetch_locks (stripe : Z)
  | jwks_fetch_locks (stripe : Z)
  | disco_cache_write_lock
  | jwks_cache_write_lock
  | injected_http_client_warning_lock.

#[global] Instance thread_lock_eq_dec : EqDecision thread_lock.
Proof. solve_decision. Defined.

Abbreviation T := (coro thread_lock ThState).

(** What the module exports. *)
Inductive thread_op : Type :=
  | ThValidate (jwt : string) (c : TokenValidationConfig) (addr : option string) (injected : bool)
  | ThClearDisco
  | ThClearJwks.

Section Threads.
Context (env : string → option string) (http_date : string → option Q) (wall : Q).
Context (http : nat → string → outcome HttpResponse).
Context (clock : nat → Q).
Context (get_unverified_header : string → outcome pydict).
Context {PyJWK : Type} (new_pyjwk : pydict → option pyval → outcome PyJWK).
Context (decode : nat → string → PyJWK → DecodeArgs → outcome pydict).
Context (hash_key : disco_key → Z) (hash_uri : string → Z).

Definition on_caches {A} (m : stM TVState exn A) : T A := atom (zoom caches set_caches m).
Definition thread_net {A} (m : stM net exn A) : T A := on_caches (on_net m).

(** *** Requests: the thread's own client, the shared wire *)

Section ThreadLoop.
Context (call : T HttpResponse).

Fixpoint thread_attempts (fuel attempt : nat) (retries : Z) (delay_base : pyfloat)
    (last_exception : option exn) : T HttpResponse :=
  match fuel with
  | O => mthrow (default no_response last_exception)
  | S fuel' =>
      finish (λ r,
        match r with
        | Ok response =>
            if should_retry_response response attempt retries then
              delay ← pure (resolve_retry_delay http_date wall response delay_base attempt);
              _ ← thread_net (sleep delay);
              thread_attempts fuel' (S attempt) retries delay_base last_exception
            else
              _ ← pure (check_no_redirect response);
              mret response
        | Err e =>
            if isinstance e HttpxRequestError then
              if (Z.of_nat attempt <? retries)%Z then
                _ ← thread_net (sleep (calculate_delay delay_base attempt));
                thread_attempts fuel' (S attempt) retries delay_base (Some e)
              else mthrow e
            else mthrow e
        end) call
  end.

Definition thread_retry_with_backoff (max_retries : option Z) (base_delay : option pyfloat)
    : T HttpResponse :=
  '(retries, delay_base) ← pure (get_retry_params env max_retries base_delay);
  thread_attempts (Z.to_nat (retries + 1)) 0 retries delay_base None.
End ThreadLoop.

Definition thread_fetch (url : string) : T HttpResponse :=
  thread_retry_with_backoff (thread_net (client_get http url)) None None.

Definition thread_get_discovery_document (address : string) (p : DiscoveryPolicy)
    : T DiscoveryDocumentResponse :=
  attempt
    (_ ← pure (validate_url_scheme (Some address) p);
     response ← thread_fetch address;
     mret (process_discovery_response response (Some p)))
    (λ e, mret (handle_discovery_error e)).

Definition thread_get_jwks (address : string) (p : DiscoveryPolicy) : T JwksResponse :=
  attempt
    (_ ← pure (validate_url_scheme (Some address) p);
     response ← thread_fetch address;
     mret (process_jwks_response env response))
    (λ e, mret (handle_jwks_error e)).

(** *** Steps on the caches *)

Definition thread_now : T Q := on_caches (now clock).

Definition thread_fresh {R} (entry : option (CacheEntry R)) : T (option R) :=
  match entry with
  | None => mret None
  | Some en => t ← thread_now; mret (if is_cache_expired t en then None else Some (response en))
  end.

Definition get_disco_fetch_lock (k : disco_key) : thread_lock :=
  disco_fetch_locks (hash_key k mod thread_DISCO_LOCK_STRIPES).
Definition get_jwks_fetch_lock (uri : string) : thread_lock :=
  jwks_fetch_locks (hash_uri uri mod thread_JWKS_LOCK_STRIPES).

Definition thread_disco_lookup (k : disco_key) : T (option DiscoveryDocumentResponse) :=
  entry ← on_caches (gets (λ s, od_get k (disco_cache s)));
  hit ← thread_fresh entry;
  match hit with
  | Some r =>
      _ ← on_caches (modify (λ s, set_disco (memo s) (touch_cache_entry (disco_cache s) k) s));
      mret (Some r)
  | None => mret None
  end.

Definition thread_get_disco_response (disco_doc_address : option string)
    (policy : option DiscoveryPolicy) : T DiscoveryDocumentResponse :=
  match disco_doc_address with
  | None => mthrow no_address
  | Some address =>
      let policy := default default_policy policy in
      let k := (address, cache_key policy) in
      hit ← thread_disco_lookup k;
      match hit with
      | Some r => mret r
      | None =>
          with_lock (get_disco_fetch_lock k)
            (hit ← thread_disco_lookup k;
             match hit with
             | Some r => mret r
             | None =>
                 r ← thread_get_discovery_document address policy;
                 _ ← with_lock disco_cache_write_lock
                       (t ← thread_now; on_caches (write_disco env k r t));
                 mret r
             end)
      end
  end.

Definition thread_clear_discovery_cache : T unit :=
  with_lock disco_cache_write_lock (on_caches clear_discovery_cache).

Definition thread_jwks_lookup (uri : string) : T (option JwksResponse) :=
  entry ← on_caches (gets (λ s, od_get uri (jwks_cache s)));
  hit ← thread_fresh entry;
  match hit with
  | Some r =>
      _ ← on_caches (modify (λ s, set_jwks (memo s) (touch_cache_entry (jwks_cache s) uri)
                                    (kid_miss_last_attempt s) s));
      mret (Some r)
  | None => mret None
  end.

Definition thread_get_cached_jwks (uri : string) (policy : DiscoveryPolicy) : T JwksResponse :=
  hit ← thread_jwks_lookup uri;
  match hit with
  | Some r => mret r
  | None =>
      with_lock (get_jwks_fetch_lock uri)
        (hit ← thread_jwks_lookup uri;
         match hit with
         | Some r => mret r
         | None =>
             r ← thread_get_jwks uri policy;
             _ ← with_lock jwks_cache_write_lock
                   (t ← thread_now; on_caches (write_jwks env uri r t));
             mret r
         end)
  end.

Definition thread_refresh_jwks (uri : string) (policy : DiscoveryPolicy) : T (JwksResponse * bool) :=
  with_lock (get_jwks_fetch_lock uri)
    (request_time ← thread_now;
     entry ← on_caches (gets (λ s, od_get uri (jwks_cache s)));
     match (match entry with
            | Some en => if Qle_bool request_time (cached_at en) then Some (response en) else None
            | None => None end) with
     | Some r => mret (r, false)
     | None =>
         r ← thread_get_jwks uri policy;
         with_lock jwks_cache_write_lock
           (t ← thread_now;
            _ ← on_caches (write_jwks env uri r t);
            if jwks_is_successful r && negb (has_keys (jwks_keys r)) then
              retained ← on_caches (gets (λ s, od_get uri (jwks_cache s)));
              mret (match retained with
                    | Some en => if has_keys (jwks_keys (response en)) then (response en, true)
                                 else (r, false)
                    | None => (r, false)
                    end)
            else mret (r, false))
     end).

Definition thread_clear_jwks_cache : T unit :=
  with_lock jwks_cache_write_lock
    (_ ← on_caches (modify (λ s, set_jwks (memo s) (clear_cache_locked (jwks_cache s))
                                   (kid_miss_last_attempt s) s));
     on_caches (modify (λ s, set_jwks (memo s) (jwks_cache s) ∅ s))).

(** [should_attempt_kid_miss_refresh(..., now=time.monotonic())]: no lock. *)
Definition thread_should_refresh (uri : string) (has_cached_keys : bool) : T bool :=
  t ← thread_now;
  on_caches (λ s,
    let '(b, m) := should_attempt_kid_miss_refresh env (memo s) (kid_miss_last_attempt s) uri
                     has_cached_keys t in
    (Ok b, set_memo m s)).

Definition thread_stamp (uri : string) : T unit :=
  with_lock jwks_cache_write_lock
    (t ← thread_now;
     on_caches (modify (λ s, set_jwks (memo s) (jwks_cache s)
                               (<[uri := t]> (kid_miss_last_attempt s)) s))).
Definition thread_unstamp (uri : string) : T unit :=
  with_lock jwks_cache_write_lock (on_caches (unstamp uri)).

(** The flag is read without the lock, and again under it. *)
Definition thread_maybe_warn_injected_http_client : T unit :=
  emitted ← on_caches (gets warning_emitted);
  if emitted : bool then mret ()
  else
    with_lock injected_http_client_warning_lock
      (emitted ← on_caches (gets warning_emitted);
       if emitted : bool then mret ()
       else
         _ ← on_caches (modify (set_warning true));
         atom (modify (λ s, Th (caches s) (S (warnings s))))).

(** *** Resolving the key *)

Definition thread_injected_keys (d : DiscoveryDocumentResponse) (policy : DiscoveryPolicy)
    : T JwksResponse :=
  uri ← pure (validate_jwks_uri d);
  r ← (match uri with
       | VStr u => thread_get_jwks u policy
       | _ => mret (handle_jwks_error (AttributeError uri "decode"))
       end);
  _ ← pure (validate_jwks_response r);
  mret r.

Definition thread_kid_miss (uri : string) (policy : DiscoveryPolicy) (k : pyval) (r : JwksResponse)
    : T JwksResponse :=
  let cached_keys := keys_or_nil (jwks_keys r) in
  if negb (is_none k) && negb (kid_in k cached_keys) then
    attempt ← thread_should_refresh uri (has_keys (jwks_keys r));
    if attempt : bool then
      '(r', from_retained) ← thread_refresh_jwks uri policy;
      _ ← (if jwks_is_successful r' && negb from_retained then
             if kid_in k (keys_or_nil (jwks_keys r')) then thread_unstamp uri
             else thread_stamp uri
           else mret ());
      _ ← pure (validate_jwks_response r');
      mret r'
    else mret r
  else mret r.

Definition thread_discover_and_resolve_key (jwt : string) (disco_doc_address : option string)
    (injected : bool) (policy : DiscoveryPolicy) : T (pydict * pyval * DiscoveryDocumentResponse) :=
  if injected then
    _ ← thread_maybe_warn_injected_http_client;
    match disco_doc_address with
    | None => mthrow no_address
    | Some address =>
        d ← thread_get_discovery_document address policy;
        _ ← pure (validate_disco_response d);
        r ← thread_injected_keys d policy;
        '(key_dict, al) ← pure (find_in get_unverified_header jwt r);
        mret (key_dict, al, d)
    end
  else
    d ← thread_get_disco_response disco_doc_address (Some policy);
    _ ← pure (validate_disco_response d);
    uri ← pure (validate_jwks_uri d);
    uri ← pure (uri_key uri);
    r ← thread_get_cached_jwks uri policy;
    _ ← pure (validate_jwks_response r);
    '(k, jwt_alg) ← pure (extract_jwt_header_fields get_unverified_header jwt);
    r ← thread_kid_miss uri policy k r;
    '(key_dict, al) ← pure (find_key_by_kid k (keys_or_nil (jwks_keys r)) jwt_alg);
    mret (key_dict, al, d).

Definition thread_run_decode (jwt : string) (c : TokenValidationConfig) (iss : pyval) : T pydict :=
  on_caches (run_decode new_pyjwk decode jwt c iss).

Definition thread_decode_with_keys (jwt : string) (c : TokenValidationConfig)
    (d : DiscoveryDocumentResponse) (r : JwksResponse) : T pydict :=
  '(key_dict, al) ← pure (find_in get_unverified_header jwt r);
  resolved ← pure (build_resolved_config c key_dict al);
  iss ← pure (disco_attr d "issuer");
  thread_run_decode jwt resolved iss.

Definition thread_retry_with_refreshed_jwks (jwt : string) (c : TokenValidationConfig)
    (d : DiscoveryDocumentResponse) (injected : bool) : T pydict :=
  uri ← pure (validate_jwks_uri d);
  let policy := config_policy c in
  if injected then
    r ← thread_injected_keys d policy;
    thread_decode_with_keys jwt c d r
  else
    uri ← pure (uri_key uri);
    attempt ← thread_should_refresh uri true;
    if negb attempt then mthrow cooldown_active
    else
      '(r, from_retained) ← thread_refresh_jwks uri policy;
      _ ← pure (validate_jwks_response r);
      decoded ← Coro.attempt (thread_decode_with_keys jwt c d r)
        (λ e, _ ← (if negb from_retained then thread_stamp uri else mret ()); mthrow e);
      _ ← (if negb from_retained then thread_unstamp uri else mret ());
      mret decoded.

Definition thread_validate_token (jwt : string) (c : TokenValidationConfig)
    (disco_doc_address : option string) (injected : bool) : T pydict :=
  _ ← pure (validate_token_config c);
  decoded ←
    (if perform_disco c then
       '(key_dict, al, d) ←
         thread_discover_and_resolve_key jwt disco_doc_address injected (config_policy c);
       resolved ← pure (build_resolved_config c key_dict al);
       iss ← pure (disco_attr d "issuer");
       attempt (thread_run_decode jwt resolved iss)
         (λ e, if isinstance e SignatureVerificationException
               then thread_retry_with_refreshed_jwks jwt c d injected else mthrow e)
     else
       _ ← pure (validate_config_for_manual_validation c);
       thread_run_decode jwt c VNone);
  pure (validate_claims decoded c).

Definition thread_call (op : thread_op) : T pydict :=
  match op with
  | ThValidate jwt c addr injected => thread_validate_token jwt c addr injected
  | ThClearDisco => _ ← thread_clear_discovery_cache; mret []
  | ThClearJwks => _ ← thread_clear_jwks_cache; mret []
  end.

(** Any number of threads, from the state at import. *)
Definition thread_pool (ops : list thread_op) : pool thread_lock ThState pydict :=
  start (map thread_call ops) (Th initial_state 0).
End Threads.

(** ** Every schedule ends

    Write locks are taken inside fetch locks; the lock of the warning is taken alone. *)

Definition thread_rank (l : thread_lock) : nat :=
  match l with
  | disco_fetch_locks _ | jwks_fetch_locks _ | injected_http_client_warning_lock => 0
  | disco_cache_write_lock | jwks_cache_write_lock => 1
  end.

Section ThreadTidy.
Context (env : string → option string) (http_date : string → option Q) (wall : Q).
Context (http : nat → string → outcome HttpResponse).
Context (clock : nat → Q).
Context (get_unverified_header : string → outcome pydict).
Context {PyJWK : Type} (new_pyjwk : pydict → option pyval → outcome PyJWK).
Context (decode : nat → string → PyJWK → DecodeArgs → outcome pydict).
Context (hash_key : disco_key → Z) (hash_uri : string → Z).

Local Abbreviation ends n c := (balanced thread_rank 2 n c).

Lemma ends_on_caches {A} n (m : stM TVState exn A) : ends n (on_caches m).
Proof. apply balanced_atom. Qed.
Lemma ends_net {A} n (m : stM net exn A) : ends n (thread_net m).
Proof. apply balanced_atom. Qed.
Lemma ends_now n : ends n (thread_now clock).
Proof. apply balanced_atom. Qed.
#[local] Hint Resolve ends_on_caches ends_net ends_now : tidy.

Lemma ends_attempts n call fuel att retries base last :
  ends n call → ends n (thread_attempts http_date wall call fuel att retries base last).
Proof.
  intros Hcall. revert att last. induction fuel as [|fuel IH]; intros att last; cbn [thread_attempts]; [tidy|].
  apply balanced_finish; [done|]. intros [r|e]; tidy.
Qed.
Lemma ends_fetch n url : ends n (thread_fetch env http_date wall http url).
Proof.
  unfold thread_fetch, thread_retry_with_backoff. apply balanced_bind; [tidy|]. intros [retries base].
  apply ends_attempts. tidy.
Qed.
#[local] Hint Resolve ends_fetch : tidy.
Lemma ends_get_discovery_document n a p : ends n (thread_get_discovery_document env http_date wall http a p).
Proof. unfold thread_get_discovery_document. tidy. Qed.
Lemma ends_get_jwks n a p : ends n (thread_get_jwks env http_date wall http a p).
Proof. unfold thread_get_jwks. tidy. Qed.
Lemma ends_fresh {R} n (e : option (CacheEntry R)) : ends n (thread_fresh clock e).
Proof. unfold thread_fresh. tidy. Qed.
#[local] Hint Resolve ends_get_discovery_document ends_get_jwks ends_fresh : tidy.
Lemma ends_disco_lookup n k : ends n (thread_disco_lookup clock k).
Proof. unfold thread_disco_lookup. tidy. Qed.
Lemma ends_jwks_lookup n k : ends n (thread_jwks_lookup clock k).
Proof. unfold thread_jwks_lookup. tidy. Qed.
#[local] Hint Resolve ends_disco_lookup ends_jwks_lookup : tidy.
Lemma ends_get_disco_response a p :
  ends 0 (thread_get_disco_response env http_date wall http clock hash_key a p).
Proof. unfold thread_get_disco_response. tidy. Qed.
Lemma ends_get_cached_jwks a p :
  ends 0 (thread_get_cached_jwks env http_date wall http clock hash_uri a p).
Proof. unfold thread_get_cached_jwks. tidy. Qed.
Lemma ends_refresh_jwks a p : ends 0 (thread_refresh_jwks env http_date wall http clock hash_uri a p).
Proof. unfold thread_refresh_jwks. tidy. Qed.
Lemma ends_should_refresh n u b : ends n (thread_should_refresh env clock u b).
Proof. unfold thread_should_refresh. tidy. Qed.
Lemma ends_stamp u : ends 0 (thread_stamp clock u).
Proof. unfold thread_stamp. tidy. Qed.
Lemma ends_unstamp u : ends 0 (thread_unstamp u).
Proof. unfold thread_unstamp. tidy. Qed.
Lemma ends_maybe_warn : ends 0 thread_maybe_warn_injected_http_client.
Proof. unfold thread_maybe_warn_injected_http_client. tidy. Qed.
Lemma ends_injected_keys n d p : ends n (thread_injected_keys env http_date wall http d p).
Proof. unfold thread_injected_keys. tidy. Qed.
#[local] Hint Resolve ends_get_disco_response ends_get_cached_jwks ends_refresh_jwks ends_should_refresh : tidy.
#[local] Hint Resolve ends_stamp ends_unstamp ends_maybe_warn ends_injected_keys : tidy.
Lemma ends_kid_miss u p k r : ends 0 (thread_kid_miss env http_date wall http clock hash_uri u p k r).
Proof. unfold thread_kid_miss. tidy. Qed.
#[local] Hint Resolve ends_kid_miss : tidy.
Lemma ends_discover jwt a i p :
  ends 0 (thread_discover_and_resolve_key env http_date wall http clock get_unverified_header
            hash_key hash_uri jwt a i p).
Proof. unfold thread_discover_and_resolve_key. tidy. Qed.
Lemma ends_run_decode n jwt c i : ends n (thread_run_decode new_pyjwk decode jwt c i).
Proof. unfold thread_run_decode. tidy. Qed.
#[local] Hint Resolve ends_discover ends_run_decode : tidy.
Lemma ends_decode_with_keys n jwt c d r :
  ends n (thread_decode_with_keys get_unverified_header new_pyjwk decode jwt c d r).
Proof. unfold thread_decode_with_keys. tidy. Qed.
#[local] Hint Resolve ends_decode_with_keys : tidy.
Lemma ends_retry jwt c d i :
  ends 0 (thread_retry_with_refreshed_jwks env http_date wall http clock get_unverified_header
            new_pyjwk decode hash_uri jwt c d i).
Proof. unfold thread_retry_with_refreshed_jwks. tidy. Qed.
#[local] Hint Resolve ends_retry : tidy.
Lemma ends_call op :
  ends 0 (thread_call env http_date wall http clock get_unverified_header new_pyjwk decode
            hash_key hash_uri op).
Proof.
  destruct op; cbn [thread_call];
    unfold thread_validate_token, thread_clear_discovery_cache, thread_clear_jwks_cache; tidy.
Qed.
End ThreadTidy.
