(* ===== verification/ThreadSafety.v ===== *)
(** * The synchronous module under every schedule of its threads

    What holds of [Threads] however the threads interleave: soundness, the caches, termination,
    all without a condition on the environment; that the one-shot warning is logged once; and that
    a call alone does what TokenValidation says, from every state. *)

From S2P Require Import Prelude PyStr PyValue Models Cache Url Policy HttpRetry Discovery Jwks Jwt TokenValidation Coro CacheMetrics Aio AioSafety AioAlone Threads.
From Stdlib Require Import QArith Ascii.
From stdpp Require Import gmap strings relations.
#[global] Close Scope Q_scope.
Open Scope string_scope.
Open Scope list_scope.
Open Scope nat_scope.
Open Scope py_scope.

(** ** Safety *)

Definition thread_inv env http (s : ThState) : Prop := shared_inv env http (caches s).

Lemma uri_key_ok v uri : uri_key v = Ok uri → v = VStr uri.
Proof. destruct v; simpl; try done. by intros [= ->]. Qed.

Section ThreadSafety.
Context (env : string → option string) (http_date : string → option Q) (wall : Q).
Context (http : nat → string → outcome HttpResponse).
Context (clock : nat → Q).
Context (get_unverified_header : string → outcome pydict).
Context {PyJWK : Type} (new_pyjwk : pydict → option pyval → outcome PyJWK).
Context (decode : nat → string → PyJWK → DecodeArgs → outcome pydict).
Context (hash_key : disco_key → Z) (hash_uri : string → Z).

Local Abbreviation J := (shared_inv env http).
Local Abbreviation kept := (keeps (thread_inv env http)).

(** *** Steps *)

Lemma kept_on_caches {A} (m : stM TVState exn A) (P : A → Prop) : triple J m P → kept (on_caches m) P.
Proof.
  intros Hm. apply keeps_atom. intros s Hs. specialize (Hm (caches s) Hs). unfold zoom.
  by destruct (m (caches s)) as [[a|e] t].
Qed.

Lemma thread_kept_now : kept (thread_now clock) (λ _, True).
Proof. apply kept_on_caches, triple_now, shared_inv_io. Qed.

(** A step that writes the caches or the cooldown. *)
Lemma thread_kept_modify f : (∀ t, J t → J (f t)) → kept (on_caches (modify f)) (λ _, True).
Proof. intros H. by apply kept_on_caches, triple_modify. Qed.

Lemma thread_kept_fresh {R} (entry : option (CacheEntry R)) :
  kept (thread_fresh clock entry) (λ o, ∀ r, o = Some r → ∃ en, entry = Some en ∧ response en = r).
Proof.
  unfold thread_fresh. destruct entry as [en|]; [|by apply keeps_ret].
  eapply keeps_bind; [apply thread_kept_now|]. intros t _. apply keeps_ret. intros r.
  destruct (is_cache_expired t en); [done|]. intros [= <-]. by exists en.
Qed.

(** *** Fetches *)

(** What a fetch returns, some request got; the steps in between touch the network only. *)
Lemma thread_kept_net {A} (m : stM net exn A) (P : A → Prop) :
  (∀ s a s', m s = (Ok a, s') → P a) → kept (thread_net m) P.
Proof. intros HP. apply kept_on_caches, io_net; [apply shared_inv_io|done]. Qed.

Lemma thread_kept_attempts call (P : HttpResponse → Prop) fuel att retries base last :
  kept call P → kept (thread_attempts http_date wall call fuel att retries base last) P.
Proof.
  intros Hcall. revert att last. induction fuel as [|fuel IH]; intros att last; cbn [thread_attempts];
    [apply keeps_throw|].
  eapply (safe_finish _ (λ r, ∀ a, r = Ok a → P a)); [exact Hcall|].
  intros [r|e] Hr.
  - apply keeps_if; intros _.
    + eapply (keeps_bind _ _ _ (λ _, True)); [by apply keeps_pure|]. intros d _.
      eapply keeps_bind; [by apply (thread_kept_net _ (λ _, True))|]. intros _ _. apply IH.
    + eapply (keeps_bind _ _ _ (λ _, True)); [by apply keeps_pure|]. intros _ _.
      apply keeps_ret. by apply Hr.
  - apply keeps_if; intros _; [|apply keeps_throw]. apply keeps_if; intros _; [|apply keeps_throw].
    eapply keeps_bind; [by apply (thread_kept_net _ (λ _, True))|]. intros _ _. apply IH.
Qed.

Lemma thread_kept_fetch url :
  kept (thread_fetch env http_date wall http url) (λ r, ∃ n, http n url = Ok r).
Proof.
  unfold thread_fetch, thread_retry_with_backoff.
  eapply (keeps_bind _ _ _ (λ _, True)); [by apply keeps_pure|]. intros [retries base] _.
  apply thread_kept_attempts, thread_kept_net. intros s a s' [= <- _]. by eexists.
Qed.

Lemma thread_kept_get_discovery_document address p :
  kept (thread_get_discovery_document env http_date wall http address p)
    (λ d, disco_is_successful d = true → admitted_doc http address p d).
Proof.
  unfold thread_get_discovery_document. apply keeps_attempt.
  - apply past_scheme. intros Hsafe. eapply keeps_bind; [apply thread_kept_fetch|]. intros r [n Hn].
    apply keeps_ret. intros Hs. split_and!; [done..|]. by exists n, r.
  - intros e. apply keeps_ret. destruct (handle_discovery_error_wf e) as [_ ->]. done.
Qed.

Lemma thread_kept_get_jwks uri p :
  kept (thread_get_jwks env http_date wall http uri p)
    (λ r, jwks_is_successful r = true → admitted_keys env http uri r).
Proof.
  unfold thread_get_jwks. apply keeps_attempt.
  - apply past_scheme. intros _. eapply keeps_bind; [apply thread_kept_fetch|]. intros r [n Hn].
    apply keeps_ret. intros Hs. split; [done|]. by exists n, r.
  - intros e. apply keeps_ret. by rewrite handle_jwks_error_failure.
Qed.

(** *** Lookups and writes *)

Lemma thread_kept_disco_lookup address p :
  kept (thread_disco_lookup clock (address, cache_key p))
    (λ o, ∀ d, o = Some d → admitted_doc http address p d).
Proof.
  unfold thread_disco_lookup. eapply keeps_bind; [apply kept_on_caches, shared_entry_disco|].
  intros entry Hentry. eapply keeps_bind; [apply thread_kept_fresh|].
  intros [d|] Hhit; [|by apply keeps_ret].
  eapply keeps_bind; [apply thread_kept_modify; intros t; apply shared_touch_disco|].
  intros _ _. apply keeps_ret.
  intros d' [= <-]. destruct (Hhit d eq_refl) as (en & -> & <-). by apply Hentry.
Qed.

Lemma thread_kept_jwks_lookup uri :
  kept (thread_jwks_lookup clock uri) (λ o, ∀ r, o = Some r → admitted_keys env http uri r).
Proof.
  unfold thread_jwks_lookup. eapply keeps_bind; [apply kept_on_caches, shared_entry_jwks|].
  intros entry Hentry. eapply keeps_bind; [apply thread_kept_fresh|].
  intros [r|] Hhit; [|by apply keeps_ret].
  eapply keeps_bind; [apply thread_kept_modify; intros t; apply shared_touch_jwks|].
  intros _ _. apply keeps_ret.
  intros r' [= <-]. destruct (Hhit r eq_refl) as (en & -> & <-). by apply Hentry.
Qed.

Lemma thread_kept_write_disco address p d t :
  (disco_is_successful d = true → admitted_doc http address p d) →
  kept (on_caches (write_disco env (address, cache_key p) d t)) (λ _, True).
Proof. intros Hd. by apply kept_on_caches, shared_write_disco. Qed.

Lemma thread_kept_write_jwks uri r t :
  (jwks_is_successful r = true → admitted_keys env http uri r) →
  kept (on_caches (write_jwks env uri r t)) (λ _, True).
Proof. intros Hr. by apply kept_on_caches, shared_write_jwks. Qed.

Lemma thread_kept_cooldown f :
  kept (on_caches (modify (λ s, set_jwks (memo s) (jwks_cache s) (f (kid_miss_last_attempt s)) s)))
    (λ _, True).
Proof. by apply thread_kept_modify. Qed.

Lemma thread_kept_stamp uri : kept (thread_stamp clock uri) (λ _, True).
Proof.
  apply keeps_with_lock. eapply keeps_bind; [apply thread_kept_now|]. intros t _.
  apply (thread_kept_cooldown (λ k, <[uri := t]> k)).
Qed.
Lemma thread_kept_unstamp uri : kept (thread_unstamp uri) (λ _, True).
Proof. apply keeps_with_lock, (thread_kept_cooldown (λ k, delete uri k)). Qed.

Lemma thread_kept_should_refresh uri b : kept (thread_should_refresh env clock uri b) (λ _, True).
Proof.
  eapply keeps_bind; [apply thread_kept_now|]. intros t _. apply kept_on_caches, shared_should_attempt.
Qed.

(** *** The calls *)

Lemma thread_kept_get_disco_response addr p :
  kept (thread_get_disco_response env http_date wall http clock hash_key addr (Some p))
    (λ d, ∃ address, addr = Some address ∧
            (disco_is_successful d = true → admitted_doc http address p d)).
Proof.
  unfold thread_get_disco_response. destruct addr as [address|]; [|apply keeps_throw].
  cbn [default from_option id].
  eapply keeps_bind; [apply thread_kept_disco_lookup|]. intros [d|] Hd.
  { apply keeps_ret. exists address. split; [done|]. intros _. by apply Hd. }
  apply keeps_with_lock. eapply keeps_bind; [apply thread_kept_disco_lookup|]. intros [d|] Hd'.
  { apply keeps_ret. exists address. split; [done|]. intros _. by apply Hd'. }
  eapply keeps_bind; [apply thread_kept_get_discovery_document|]. intros d Hdoc.
  eapply (keeps_bind _ _ _ (λ _, True)).
  { apply keeps_with_lock. eapply keeps_bind; [apply thread_kept_now|]. intros t _.
    by apply thread_kept_write_disco. }
  intros _ _. apply keeps_ret. by exists address.
Qed.

Lemma thread_kept_get_cached_jwks uri p :
  kept (thread_get_cached_jwks env http_date wall http clock hash_uri uri p)
    (λ r, jwks_is_successful r = true → admitted_keys env http uri r).
Proof.
  unfold thread_get_cached_jwks.
  eapply keeps_bind; [apply thread_kept_jwks_lookup|]. intros [r|] Hr.
  { apply keeps_ret. intros _. by apply Hr. }
  apply keeps_with_lock. eapply keeps_bind; [apply thread_kept_jwks_lookup|]. intros [r|] Hr'.
  { apply keeps_ret. intros _. by apply Hr'. }
  eapply keeps_bind; [apply thread_kept_get_jwks|]. intros r Hkeys.
  eapply (keeps_bind _ _ _ (λ _, True)).
  { apply keeps_with_lock. eapply keeps_bind; [apply thread_kept_now|]. intros t _.
    by apply thread_kept_write_jwks. }
  intros _ _. by apply keeps_ret.
Qed.

Lemma thread_kept_get_entry uri :
  kept (on_caches (gets (λ s, od_get uri (jwks_cache s))))
    (λ o, ∀ en, o = Some en → admitted_keys env http uri (response en)).
Proof. apply kept_on_caches, shared_entry_jwks. Qed.

Lemma thread_kept_refresh_jwks uri p :
  kept (thread_refresh_jwks env http_date wall http clock hash_uri uri p)
    (λ rb, jwks_is_successful rb.1 = true → admitted_keys env http uri rb.1).
Proof.
  unfold thread_refresh_jwks. apply keeps_with_lock.
  eapply keeps_bind; [apply thread_kept_now|]. intros t0 _.
  eapply keeps_bind; [apply thread_kept_get_entry|]. intros entry Hentry.
  destruct (match entry with Some en => _ | None => _ end) as [r|] eqn:Ehit.
  { apply keeps_ret. intros _. destruct entry as [en|]; [|done].
    destruct (Qle_bool t0 (cached_at en)); [injection Ehit as <-|done]. by apply Hentry. }
  eapply keeps_bind; [apply thread_kept_get_jwks|]. intros r Hr.
  apply keeps_with_lock.
  eapply keeps_bind; [apply thread_kept_now|]. intros t _.
  eapply keeps_bind; [by apply thread_kept_write_jwks|]. intros _ _.
  apply keeps_if; intros _; [|by apply keeps_ret].
  eapply keeps_bind; [apply thread_kept_get_entry|]. intros retained Hret. apply keeps_ret.
  destruct retained as [en|]; [|done]. destruct (has_keys _); [|done].
  intros _. by apply Hret.
Qed.

Lemma thread_kept_kid_miss uri p k r :
  admitted_keys env http uri r →
  kept (thread_kid_miss env http_date wall http clock hash_uri uri p k r)
    (admitted_keys env http uri).
Proof.
  intros Ha. unfold thread_kid_miss. apply keeps_if; intros _; [|by apply keeps_ret].
  eapply keeps_bind; [apply thread_kept_should_refresh|]. intros b _.
  apply keeps_if; intros _; [|by apply keeps_ret].
  eapply keeps_bind; [apply thread_kept_refresh_jwks|]. intros [r' retained] Hr'.
  eapply (keeps_bind _ _ _ (λ _, True)).
  { apply keeps_if; intros _; [|by apply keeps_ret].
    apply keeps_if; intros _; [apply thread_kept_unstamp|apply thread_kept_stamp]. }
  intros _ _. apply past_keys. intros Hs. by apply keeps_ret, Hr'.
Qed.

Lemma thread_kept_maybe_warn : kept thread_maybe_warn_injected_http_client (λ _, True).
Proof.
  eapply (keeps_bind _ _ _ (λ _, True)); [by apply kept_on_caches, triple_gets|]. intros b _.
  apply keeps_if; intros _; [by apply keeps_ret|]. apply keeps_with_lock.
  eapply (keeps_bind _ _ _ (λ _, True)); [by apply kept_on_caches, triple_gets|]. intros b' _.
  apply keeps_if; intros _; [by apply keeps_ret|].
  eapply keeps_bind.
  { apply thread_kept_modify. intros t Ht. by apply (shared_inv_io env http t (network t) true (decodes t)). }
  intros _ _. by apply keeps_atom, triple_modify.
Qed.

Lemma thread_kept_injected_keys address p d :
  admitted_doc http address p d →
  kept (thread_injected_keys env http_date wall http d p)
    (λ r, ∃ uri, dget "jwks_uri" (disco_attrs d) = VStr uri ∧ admitted_keys env http uri r).
Proof.
  intros Hd. unfold thread_injected_keys. eapply past_jwks_uri; [done|]. intros v Hv.
  eapply (keeps_bind _ _ _ (λ r, jwks_is_successful r = true →
    ∃ uri, v = VStr uri ∧ admitted_keys env http uri r)).
  { destruct v; try by apply keeps_ret.
    eapply keeps_post; [apply thread_kept_get_jwks|]. intros r Hr Hs. eauto. }
  intros r Hr. apply past_keys. intros Hs. apply keeps_ret.
  destruct (Hr Hs) as (uri & -> & ?). by exists uri.
Qed.

Lemma thread_kept_discover jwt addr injected p :
  kept (thread_discover_and_resolve_key env http_date wall http clock get_unverified_header hash_key
          hash_uri jwt addr injected p)
    (key_from env http get_unverified_header jwt addr p).
Proof.
  unfold thread_discover_and_resolve_key. apply keeps_if; intros _.
  - eapply keeps_bind; [apply thread_kept_maybe_warn|]. intros _ _. destruct addr as [address|]; [|apply keeps_throw].
    eapply keeps_bind; [apply thread_kept_get_discovery_document|]. intros d Hd.
    apply past_disco. intros Had%Hd. eapply keeps_bind; [by eapply thread_kept_injected_keys|].
    intros r (uri & Huri & Hr). apply keeps_pure_bind. intros [kd al] Hf. apply keeps_ret.
    by exists address, uri, r.
  - eapply keeps_bind; [apply thread_kept_get_disco_response|]. intros d (address & -> & Hd).
    apply past_disco. intros Had%Hd. eapply past_jwks_uri; [done|]. intros v Hv.
    eapply past_uri_key; [apply uri_key_ok|]. intros uri ->.
    eapply keeps_bind; [apply thread_kept_get_cached_jwks|]. intros r Hr.
    apply past_keys. intros Hkeys%Hr. apply keeps_pure_bind. intros [k al] Hx.
    eapply keeps_bind; [by apply thread_kept_kid_miss|]. intros r' Hr'.
    apply keeps_pure_bind. intros [kd al'] Hf. apply keeps_ret. exists address, uri, r'.
    split_and!; [done..|]. unfold find_in. by rewrite Hx.
Qed.

Local Abbreviation accepted_disco := (disco_decoded env http get_unverified_header new_pyjwk decode).

Lemma thread_kept_run_decode jwt c iss :
  kept (thread_run_decode new_pyjwk decode jwt c iss) (decoded_with new_pyjwk decode jwt c iss).
Proof. apply kept_on_caches, triple_run_decode, shared_inv_io. Qed.

Lemma thread_kept_decode_with_keys jwt c addr d r uri address :
  addr = Some address → admitted_doc http address (config_policy c) d →
  dget "jwks_uri" (disco_attrs d) = VStr uri → admitted_keys env http uri r →
  kept (thread_decode_with_keys get_unverified_header new_pyjwk decode jwt c d r)
    (accepted_disco jwt c addr).
Proof.
  intros -> Hd Huri Hr. unfold thread_decode_with_keys. apply keeps_pure_bind. intros [kd al] Hf.
  apply keeps_pure_bind. intros c' Hc'. eapply past_issuer; [done|].
  intros iss <-. eapply keeps_post; [apply thread_kept_run_decode|]. intros claims Hcl.
  exists kd, al, d, c'. split_and!; [|done..]. by exists address, uri, r.
Qed.

Lemma thread_kept_retry jwt c addr address d injected :
  addr = Some address → admitted_doc http address (config_policy c) d →
  kept (thread_retry_with_refreshed_jwks env http_date wall http clock get_unverified_header
          new_pyjwk decode hash_uri jwt c d injected) (accepted_disco jwt c addr).
Proof.
  intros Ha Hd. unfold thread_retry_with_refreshed_jwks. eapply past_jwks_uri; [done|].
  intros v Hv. cbn zeta. apply keeps_if; intros _.
  - eapply keeps_bind; [by eapply thread_kept_injected_keys|]. intros r (uri & Huri & Hr).
    by eapply thread_kept_decode_with_keys.
  - eapply past_uri_key; [apply uri_key_ok|]. intros uri ->.
    eapply keeps_bind; [apply thread_kept_should_refresh|]. intros b _.
    apply keeps_if; intros _; [apply keeps_throw|].
    eapply keeps_bind; [apply thread_kept_refresh_jwks|]. intros [r retained] Hr.
    apply past_keys. intros Hkeys%Hr. eapply keeps_bind.
    { apply keeps_attempt; [by eapply thread_kept_decode_with_keys|].
      intros e. eapply (keeps_bind _ _ _ (λ _, True)); [|intros; apply keeps_throw].
      apply keeps_if; intros _; [apply thread_kept_stamp|by apply keeps_ret]. }
    intros claims Hcl. eapply (keeps_bind _ _ _ (λ _, True)); [|intros; by apply keeps_ret].
    apply keeps_if; intros _; [apply thread_kept_unstamp|by apply keeps_ret].
Qed.

Lemma thread_kept_validate_token jwt c addr injected :
  kept (thread_validate_token env http_date wall http clock get_unverified_header new_pyjwk decode
          hash_key hash_uri jwt c addr injected)
    (token_sound env http get_unverified_header new_pyjwk decode jwt c addr).
Proof.
  unfold thread_validate_token. apply keeps_pure_bind. intros _ _. eapply (keeps_bind _ _ _
    (token_accepted env http get_unverified_header new_pyjwk decode jwt c addr)).
  - unfold token_accepted. destruct (perform_disco c).
    + eapply keeps_bind; [apply thread_kept_discover|].
      intros [[kd al] d] (address & uri & r & -> & Hd & Huri & Hr & Hf). cbn [fst snd] in *.
      apply keeps_pure_bind. intros c' Hc'. eapply past_issuer; [done|].
      intros iss <-. apply keeps_attempt.
      * eapply keeps_post; [apply thread_kept_run_decode|]. intros claims Hcl.
        exists kd, al, d, c'. split_and!; [|done..]. by exists address, uri, r.
      * intros e. apply keeps_if; intros _; [by eapply thread_kept_retry|apply keeps_throw].
    + apply keeps_pure_bind. intros _ _. apply thread_kept_run_decode.
  - intros claims Hcl. apply keeps_pure. intros out Hout. by eapply token_accepted_sound.
Qed.

(** What a call promises about its result. *)
Definition thread_post (op : thread_op) (r : outcome pydict) : Prop :=
  match op with
  | ThValidate jwt c addr _ => ∀ out, r = Ok out →
      token_sound env http get_unverified_header new_pyjwk decode jwt c addr out
  | _ => True
  end.

Lemma thread_safe_call op :
  safe (thread_inv env http) (thread_post op)
    (thread_call env http_date wall http clock get_unverified_header new_pyjwk decode
       hash_key hash_uri op).
Proof.
  destruct op as [jwt c addr injected| |]; cbn [thread_call thread_post].
  - apply thread_kept_validate_token.
  - eapply safe_finish; [|by intros [?|?] _].
    apply (keeps_with_lock _ _ _ (λ _, True)), thread_kept_modify. intros t Ht. by apply inv_disco_empty.
  - eapply safe_finish; [|by intros [?|?] _]. apply (keeps_with_lock _ _ _ (λ _, True)).
    eapply keeps_bind; [|intros _ _; apply (thread_kept_cooldown (λ _, ∅))].
    apply thread_kept_modify. intros t Ht. by apply inv_jwks_empty.
Qed.

Lemma thread_pool_kept ops p :
  rtc moves (thread_pool env http_date wall http clock get_unverified_header new_pyjwk decode
    hash_key hash_uri ops) p → pool_safe (thread_inv env http) (map thread_post ops) p.
Proof.
  intros Hp. eapply pool_safe_reach; [exact Hp|]. apply pool_safe_start.
  - apply tv_inv_forget, initial_tv_inv.
  - clear. induction ops as [|op ops IH]; constructor; [apply thread_safe_call|apply IH].
Qed.
End ThreadSafety.

(** ** A thread alone

    Nothing bounds the statement here: with no other thread holding a lock, every call does from
    every state what TokenValidation says of it. *)

Section ThreadAlone.
Context (env : string → option string) (http_date : string → option Q) (wall : Q).
Context (http : nat → string → outcome HttpResponse).
Context (clock : nat → Q).
Context (get_unverified_header : string → outcome pydict).
Context {PyJWK : Type} (new_pyjwk : pydict → option pyval → outcome PyJWK).
Context (decode : nat → string → PyJWK → DecodeArgs → outcome pydict).
Context (hash_key : disco_key → Z) (hash_uri : string → Z).

Local Abbreviation same U c m := (runs caches U (λ _, True) c m).
Local Abbreviation all := (λ _ : thread_lock, True).

Lemma same_on_caches {A} U (m : stM TVState exn A) : same U (on_caches m) m.
Proof. apply runs_atom. intros s. unfold zoom. by destruct (m (caches s)). Qed.

(** The loop, whose steps are on the wire. *)
Lemma same_thread_attempts U call fuel att retries base last :
  same U (thread_attempts http_date wall (thread_net call) fuel att retries base last)
    (on_net (attempts http_date wall call fuel att retries base last)).
Proof.
  revert att last. induction fuel as [|fuel IH]; intros att last.
  { eapply runs_ext; [apply runs_throw|]. by intros [] _. }
  cbn [thread_attempts].
  eapply runs_ext; [|intros t _; symmetry; apply on_net_attempts].
  apply (runs_finish _ _ _ (on_net call) _ (loop_answer http_date wall call fuel att retries base last));
    [apply same_on_caches|]. intros [r|e]; cbn [loop_answer].
  - destruct (should_retry_response r att retries); apply runs_seq; try apply runs_pure; intros d; [|apply runs_ret].
    apply runs_seq; [apply same_on_caches|]. intros _. apply IH.
  - destruct (isinstance e HttpxRequestError); [|apply runs_throw].
    destruct (Z.of_nat att <? retries)%Z; [|apply runs_throw].
    apply runs_seq; [apply same_on_caches|]. intros _. apply IH.
Qed.

Lemma same_thread_fetch U url :
  same U (thread_fetch env http_date wall http url) (on_net (fetch env http_date wall http url)).
Proof.
  unfold thread_fetch, thread_retry_with_backoff, fetch, retry_with_backoff.
  eapply runs_ext; [|intros t _; symmetry; apply on_net_bind]. apply runs_seq.
  - eapply runs_ext; [apply runs_pure|]. by intros [] _.
  - intros [retries base]. apply same_thread_attempts.
Qed.

(** The two fetches, whose handlers catch everything. *)
Lemma same_thread_guarded {A} U address p (f : HttpResponse → A) (g : exn → A) :
  same U
    (attempt (_ ← pure (validate_url_scheme (Some address) p);
              response ← thread_fetch env http_date wall http address; mret (f response))
       (λ e, mret (g e)))
    (on_net (try_except (_ ← lift (validate_url_scheme (Some address) p);
                         response ← fetch env http_date wall http address; mret (f response))
       (λ e, mret (g e)))).
Proof.
  eapply runs_ext; [|apply on_net_handled].
  apply (runs_attempt _ _ _ (_ ← lift (validate_url_scheme (Some address) p);
    response ← on_net (fetch env http_date wall http address); mret (f response))
    _ (λ e, mret (g e))); [|intros e; apply runs_ret].
  apply runs_seq; [apply runs_pure|]. intros _. apply runs_seq; [apply same_thread_fetch|]. intros r.
  apply runs_ret.
Qed.

Lemma same_thread_get_discovery_document U address p :
  same U (thread_get_discovery_document env http_date wall http address p)
    (fetch_document env http_date wall http address p).
Proof. apply same_thread_guarded. Qed.
Lemma same_thread_get_jwks U address p :
  same U (thread_get_jwks env http_date wall http address p) (fetch_keys env http_date wall http address p).
Proof. apply same_thread_guarded. Qed.

Lemma same_thread_now U : same U (thread_now clock) (now clock).
Proof. apply same_on_caches. Qed.

(** [runs], following the shape of the call. *)
Ltac same_step :=
  first
    [ apply runs_ret | apply runs_throw | apply runs_pure | apply same_on_caches | apply same_thread_now
    | apply same_thread_get_discovery_document | apply same_thread_get_jwks
    | apply runs_seq; [|intros ?]
    | apply runs_with_lock; [|done]
    | apply runs_attempt; [|intros ?]
    | match goal with
      | |- runs _ _ _ (match ?x with _ => _ end) _ => destruct x
      end ].
Ltac same := repeat same_step.

Lemma same_thread_fresh {R} U (entry : option (CacheEntry R)) :
  same U (thread_fresh clock entry) (TokenValidation.fresh clock entry).
Proof. unfold thread_fresh, TokenValidation.fresh. same. Qed.

Lemma same_thread_disco_lookup U k : same U (thread_disco_lookup clock k) (disco_lookup clock k).
Proof.
  apply runs_seq; [same|]. intros entry. apply runs_seq; [apply same_thread_fresh|]. intros [r|]; same.
Qed.
Lemma same_thread_jwks_lookup U uri : same U (thread_jwks_lookup clock uri) (jwks_lookup clock uri).
Proof.
  apply runs_seq; [same|]. intros entry. apply runs_seq; [apply same_thread_fresh|]. intros [r|]; same.
Qed.

(** A computation in two parts, whose first part is one critical section. *)
Lemma runs_assoc {A B D} U (c : T A) (m : stM TVState exn B) (n : B → stM TVState exn A)
    (k : A → T D) (k' : A → stM TVState exn D) :
  same U c (m ≫= n) → (∀ a, same U (k a) (k' a)) → same U (c ≫= k) (m ≫= λ b, n b ≫= k').
Proof.
  intros Hc Hk. eapply runs_ext; [apply runs_seq; [exact Hc|exact Hk]|]. intros s _.
  unfold mbind, stM_bind. by destruct (m s) as [[b|e] s'].
Qed.

Lemma same_thread_get_disco_response addr p :
  same all (thread_get_disco_response env http_date wall http clock hash_key addr p)
    (get_disco_response env http_date wall http clock addr p).
Proof.
  unfold thread_get_disco_response, get_disco_response. destruct addr as [address|]; [|same].
  apply runs_seq; [apply same_thread_disco_lookup|]. intros [d|]; [same|].
  apply runs_with_lock; [|done]. apply runs_seq; [apply same_thread_disco_lookup|].
  intros [d|]; [same|]. apply runs_seq; [same|]. intros d. apply runs_assoc; [|intros _; same].
  apply runs_with_lock; [|done]. apply runs_seq; [same|]. intros t. apply same_on_caches.
Qed.

Lemma same_thread_get_cached_jwks uri p :
  same all (thread_get_cached_jwks env http_date wall http clock hash_uri uri p)
    (get_cached_jwks env http_date wall http clock uri p).
Proof.
  unfold thread_get_cached_jwks, get_cached_jwks.
  apply runs_seq; [apply same_thread_jwks_lookup|]. intros [r|]; [same|].
  apply runs_with_lock; [|done]. apply runs_seq; [apply same_thread_jwks_lookup|].
  intros [r|]; [same|]. apply runs_seq; [same|]. intros r. apply runs_assoc; [|intros _; same].
  apply runs_with_lock; [|done]. apply runs_seq; [same|]. intros t. apply same_on_caches.
Qed.

Lemma same_thread_refresh_jwks uri p :
  same all (thread_refresh_jwks env http_date wall http clock hash_uri uri p)
    (refresh_jwks env http_date wall http clock uri p).
Proof.
  unfold thread_refresh_jwks, refresh_jwks. apply runs_with_lock; [|done].
  apply runs_seq; [same|]. intros t0. apply runs_seq; [same|]. intros entry.
  destruct (match entry with Some en => _ | None => _ end); [same|].
  apply runs_seq; [same|]. intros r. apply runs_with_lock; [|done].
  apply runs_seq; [same|]. intros t. apply runs_seq; [same|]. intros _.
  destruct (jwks_is_successful r && negb (has_keys (jwks_keys r))); [same|].
  eapply runs_ext; [apply runs_ret|]. done.
Qed.

Lemma same_thread_should_refresh U uri b :
  same U (thread_should_refresh env clock uri b) (should_refresh env clock uri b).
Proof.
  unfold thread_should_refresh, should_refresh. apply runs_seq; [same|]. intros t.
  eapply runs_ext; [apply same_on_caches|]. intros s _. unfold mbind, stM_bind, gets, modify, mret, stM_ret.
  by destruct (should_attempt_kid_miss_refresh _ _ _ _ _ _).
Qed.
Lemma same_thread_stamp uri : same all (thread_stamp clock uri) (stamp clock uri).
Proof. apply runs_with_lock; [|done]. apply runs_seq; [same|]. intros t. apply same_on_caches. Qed.
Lemma same_thread_unstamp uri : same all (thread_unstamp uri) (unstamp uri).
Proof. apply runs_with_lock; [|done]. apply same_on_caches. Qed.

(** The flag ends up set, whatever it was. *)
Lemma same_thread_maybe_warn :
  same all thread_maybe_warn_injected_http_client maybe_warn_injected_http_client.
Proof.
  intros held [t n] Hf _. unfold thread_maybe_warn_injected_http_client. cbn.
  destruct (warning_emitted t) eqn:Ew; cbn.
  - exists (Th t n). split; [done|]. cbn. destruct t; cbn in *. by rewrite Ew.
  - rewrite bool_decide_eq_false_2 by by apply Hf. rewrite Ew. cbn -[drop_lock].
    rewrite drop_lock_fresh by by apply Hf. by eexists.
Qed.

Lemma same_thread_injected_keys U d p :
  same U (thread_injected_keys env http_date wall http d p) (injected_keys env http_date wall http d p).
Proof. unfold thread_injected_keys, injected_keys. same. Qed.

Lemma same_thread_kid_miss uri p k r :
  same all (thread_kid_miss env http_date wall http clock hash_uri uri p k r)
    (kid_miss env http_date wall http clock uri p k r).
Proof.
  unfold thread_kid_miss, kid_miss. destruct (negb _ && negb _); [|same].
  apply runs_seq; [apply same_thread_should_refresh|]. intros []; [|same].
  apply runs_seq; [apply same_thread_refresh_jwks|]. intros [r' retained].
  apply runs_seq; [|intros _; same]. destruct (_ && _); [|same].
  destruct (kid_in _ _); [apply same_thread_unstamp|apply same_thread_stamp].
Qed.

Lemma same_thread_discover jwt addr injected p :
  same all (thread_discover_and_resolve_key env http_date wall http clock get_unverified_header
              hash_key hash_uri jwt addr injected p)
    (discover_and_resolve_key env http_date wall http clock get_unverified_header jwt addr injected p).
Proof.
  unfold thread_discover_and_resolve_key, discover_and_resolve_key. destruct injected.
  - apply runs_seq; [apply same_thread_maybe_warn|]. intros _. destruct addr as [address|]; [|same].
    apply runs_seq; [same|]. intros d. apply runs_seq; [same|]. intros _.
    apply runs_seq; [apply same_thread_injected_keys|]. intros r. same.
  - apply runs_seq; [apply same_thread_get_disco_response|]. intros d.
    apply runs_seq; [same|]. intros _. apply runs_seq; [same|]. intros v. apply runs_seq; [same|].
    intros uri. apply runs_seq; [apply same_thread_get_cached_jwks|]. intros r.
    apply runs_seq; [same|]. intros _. apply runs_seq; [same|]. intros [k al].
    apply runs_seq; [apply same_thread_kid_miss|]. intros r'. same.
Qed.

Lemma same_thread_decode_with_keys U jwt c d r :
  same U (thread_decode_with_keys get_unverified_header new_pyjwk decode jwt c d r)
    (decode_with_keys get_unverified_header new_pyjwk decode jwt c d r).
Proof. unfold thread_decode_with_keys, decode_with_keys. same. Qed.

Lemma same_thread_retry jwt c d injected :
  same all (thread_retry_with_refreshed_jwks env http_date wall http clock get_unverified_header
              new_pyjwk decode hash_uri jwt c d injected)
    (retry_with_refreshed_jwks env http_date wall http clock get_unverified_header
       new_pyjwk decode jwt c d injected).
Proof.
  unfold thread_retry_with_refreshed_jwks, retry_with_refreshed_jwks. apply runs_seq; [same|]. intros v.
  cbn zeta. destruct injected.
  { apply runs_seq; [apply same_thread_injected_keys|]. intros r. apply same_thread_decode_with_keys. }
  apply runs_seq; [same|]. intros uri. apply runs_seq; [apply same_thread_should_refresh|].
  intros [|]; [|same]. apply runs_seq; [apply same_thread_refresh_jwks|]. intros [r retained].
  apply runs_seq; [same|]. intros _. apply runs_seq.
  - apply runs_attempt; [apply same_thread_decode_with_keys|]. intros e.
    apply runs_seq; [|intros _; same]. destruct retained; [same|apply same_thread_stamp].
  - intros claims. apply runs_seq; [|intros _; same]. destruct retained; [same|apply same_thread_unstamp].
Qed.

Lemma same_thread_validate_token jwt c addr injected :
  same all (thread_validate_token env http_date wall http clock get_unverified_header new_pyjwk decode
              hash_key hash_uri jwt c addr injected)
    (validate_token env http_date wall http clock get_unverified_header new_pyjwk decode jwt c addr injected).
Proof.
  unfold thread_validate_token, validate_token. apply runs_seq; [same|]. intros _.
  apply runs_seq; [|intros claims; same]. destruct (perform_disco c).
  - apply runs_seq; [apply same_thread_discover|]. intros [[kd al] d].
    apply runs_seq; [same|]. intros c'. apply runs_seq; [same|]. intros iss.
    apply runs_attempt; [same|]. intros e.
    destruct (isinstance e SignatureVerificationException); [apply same_thread_retry|same].
  - same.
Qed.
End ThreadAlone.

(** ** The one-shot warning *)

(** What the lock of the warning protects. *)
Definition warning_part (s : ThState) : bool * nat := (warning_emitted (caches s), warnings s).

(** The calls that use an injected client, past the configuration check. *)
Definition warns (op : thread_op) : bool :=
  match op with
  | ThValidate _ c _ injected =>
      injected && perform_disco c && match validate_token_config c with Ok _ => true | Err _ => false end
  | _ => false
  end.

Local Abbreviation silent c := (untouched injected_http_client_warning_lock warning_part c).

Lemma silent_on_caches {A} (m : stM TVState exn A) :
  (∀ t, warning_emitted (m t).2 = warning_emitted t) → silent (on_caches m).
Proof.
  intros H. apply untouched_atom. intros [t n]. unfold zoom, warning_part. specialize (H t). cbn.
  destruct (m t) as [r t']. cbn in *. by rewrite H.
Qed.
Lemma silent_net {A} (m : stM net exn A) : silent (thread_net m).
Proof. apply silent_on_caches. intros t. unfold on_net, zoom. by destruct (m (network t)). Qed.
Lemma silent_now clock : silent (thread_now clock).
Proof. apply silent_net. Qed.

Section ThreadWarning.
Context (env : string → option string) (http_date : string → option Q) (wall : Q).
Context (http : nat → string → outcome HttpResponse).
Context (clock : nat → Q).
Context (get_unverified_header : string → outcome pydict).
Context {PyJWK : Type} (new_pyjwk : pydict → option pyval → outcome PyJWK).
Context (decode : nat → string → PyJWK → DecodeArgs → outcome pydict).
Context (hash_key : disco_key → Z) (hash_uri : string → Z).

Create HintDb silent.
#[local] Hint Resolve untouched_ret untouched_throw untouched_pure untouched_if silent_net silent_now : silent.
Ltac silent_step :=
  first
    [ progress auto with silent
    | apply untouched_bind; [|intros ?]
    | apply untouched_attempt; [|intros ?]
    | apply untouched_with_lock; [done|]
    | apply silent_on_caches; intros ?; done
    | match goal with
      | |- untouched _ _ (match ?x with _ => _ end) => destruct x
      end ].
Ltac silent := repeat silent_step.

Lemma silent_attempts call fuel att retries base last :
  silent call → silent (thread_attempts http_date wall call fuel att retries base last).
Proof.
  intros Hcall. revert att last. induction fuel as [|fuel IH]; intros att last; cbn [thread_attempts]; [silent|].
  apply untouched_finish; [done|]. intros [r|e]; silent.
Qed.
Lemma silent_fetch url : silent (thread_fetch env http_date wall http url).
Proof.
  unfold thread_fetch, thread_retry_with_backoff. apply untouched_bind; [silent|]. intros [retries base].
  apply silent_attempts. silent.
Qed.
#[local] Hint Resolve silent_fetch : silent.
Lemma silent_get_discovery_document a p : silent (thread_get_discovery_document env http_date wall http a p).
Proof. unfold thread_get_discovery_document. silent. Qed.
Lemma silent_get_jwks a p : silent (thread_get_jwks env http_date wall http a p).
Proof. unfold thread_get_jwks. silent. Qed.
Lemma silent_fresh {R} (e : option (CacheEntry R)) : silent (thread_fresh clock e).
Proof. unfold thread_fresh. silent. Qed.
#[local] Hint Resolve silent_get_discovery_document silent_get_jwks silent_fresh : silent.
Lemma silent_disco_lookup k : silent (thread_disco_lookup clock k).
Proof. unfold thread_disco_lookup. silent. Qed.
Lemma silent_jwks_lookup k : silent (thread_jwks_lookup clock k).
Proof. unfold thread_jwks_lookup. silent. Qed.
Lemma silent_write_disco k r t : silent (on_caches (write_disco env k r t)).
Proof.
  apply silent_on_caches. intros s. cbn. by destruct (apply_disco_cache_outcome _ _ _ _ _ _).
Qed.
Lemma silent_write_jwks u r t : silent (on_caches (write_jwks env u r t)).
Proof.
  apply silent_on_caches. intros s. cbn. by destruct (apply_jwks_cache_outcome _ _ _ _ _ _ _) as [[? ?] ?].
Qed.
#[local] Hint Resolve silent_disco_lookup silent_jwks_lookup silent_write_disco silent_write_jwks : silent.
Lemma silent_get_disco_response a p :
  silent (thread_get_disco_response env http_date wall http clock hash_key a p).
Proof. unfold thread_get_disco_response. silent. Qed.
Lemma silent_get_cached_jwks a p :
  silent (thread_get_cached_jwks env http_date wall http clock hash_uri a p).
Proof. unfold thread_get_cached_jwks. silent. Qed.
Lemma silent_refresh_jwks a p : silent (thread_refresh_jwks env http_date wall http clock hash_uri a p).
Proof. unfold thread_refresh_jwks. silent. Qed.
Lemma silent_should_refresh u b : silent (thread_should_refresh env clock u b).
Proof.
  unfold thread_should_refresh. silent. apply silent_on_caches. intros s.
  by destruct (should_attempt_kid_miss_refresh _ _ _ _ _ _).
Qed.
Lemma silent_stamp u : silent (thread_stamp clock u).
Proof. unfold thread_stamp. silent. Qed.
Lemma silent_unstamp u : silent (thread_unstamp u).
Proof. unfold thread_unstamp. silent. Qed.
Lemma silent_injected_keys d p : silent (thread_injected_keys env http_date wall http d p).
Proof. unfold thread_injected_keys. silent. Qed.
#[local] Hint Resolve silent_get_disco_response silent_get_cached_jwks silent_refresh_jwks : silent.
#[local] Hint Resolve silent_should_refresh silent_stamp silent_unstamp silent_injected_keys : silent.
Lemma silent_kid_miss u p k r : silent (thread_kid_miss env http_date wall http clock hash_uri u p k r).
Proof. unfold thread_kid_miss. silent. Qed.
Lemma silent_run_decode jwt c i : silent (thread_run_decode new_pyjwk decode jwt c i).
Proof. unfold thread_run_decode. silent. Qed.
#[local] Hint Resolve silent_kid_miss silent_run_decode : silent.
Lemma silent_decode_with_keys jwt c d r :
  silent (thread_decode_with_keys get_unverified_header new_pyjwk decode jwt c d r).
Proof. unfold thread_decode_with_keys. silent. Qed.
#[local] Hint Resolve silent_decode_with_keys : silent.
Lemma silent_retry jwt c d i :
  silent (thread_retry_with_refreshed_jwks env http_date wall http clock get_unverified_header
            new_pyjwk decode hash_uri jwt c d i).
Proof. unfold thread_retry_with_refreshed_jwks. silent. Qed.
#[local] Hint Resolve silent_retry : silent.

Lemma silent_discover jwt a p :
  silent (thread_discover_and_resolve_key env http_date wall http clock get_unverified_header
            hash_key hash_uri jwt a false p).
Proof. unfold thread_discover_and_resolve_key. silent. Qed.
#[local] Hint Resolve silent_discover : silent.

Local Abbreviation call := (thread_call env http_date wall http clock get_unverified_header new_pyjwk
  decode hash_key hash_uri).

(** The calls that do not warn. *)
Lemma silent_call op : warns op = false → silent (call op).
Proof.
  intros Hw. destruct op as [jwt c addr injected| |]; cbn [thread_call].
  - unfold thread_validate_token. cbn in Hw.
    destruct (validate_token_config c) as [[]|e]; [|done].
    rewrite andb_true_r in Hw. apply untouched_bind; [done|]. intros _.
    destruct (perform_disco c); [rewrite andb_true_r in Hw; subst injected|]; silent.
  - unfold thread_clear_discovery_cache. silent.
  - unfold thread_clear_jwks_cache. silent.
Qed.

(** What the lock protects while it is free: one warning if the flag is set, none otherwise. *)
Definition warning_ok (x : bool * nat) : Prop := x.2 = if x.1 then 1 else 0.
Definition at_most_once (x : bool * nat) : Prop := x.2 ≤ 1.

Local Abbreviation once c := (guarded (λ _, True) injected_http_client_warning_lock warning_part
  warning_ok at_most_once None (λ o _, o = None) c).
Local Abbreviation flagged := (λ s : ThState, warning_emitted (caches s) = true).

Lemma once_warn : once thread_maybe_warn_injected_http_client.
Proof.
  intros s _ _. split; [by destruct s|]. cbn. destruct (warning_emitted (caches s)); [done|].
  cbn. split; [done|]. intros [b n] Hx. unfold warning_ok in Hx. cbn in Hx. subst n. intros s1 _ _ Hs1.
  assert (warning_part (set_caches (caches s1) s1) = warning_part s1) as Hsame by by destruct s1.
  cbn. rewrite Hsame, Hs1. split; [unfold at_most_once; destruct b; cbn; lia|].
  assert (warning_emitted (caches s1) = b) as -> by (unfold warning_part in Hs1; congruence).
  destruct b; cbn.
  - split; [by exists (true, 1)|done].
  - intros s2 _ _ Hs2. unfold warning_part in *. cbn. injection Hs2 as _ Hn. rewrite Hn. split; [unfold at_most_once; cbn; lia|].
    intros s3 _ _ Hs3. cbn. injection Hs3 as Hf Hn3. rewrite Hf, Hn3. split; [unfold at_most_once; cbn; lia|].
    by split; [eexists|].
Qed.

Lemma steady_warn : steady flagged thread_maybe_warn_injected_http_client.
Proof.
  intros s. split; [by destruct s|]. cbn. destruct (warning_emitted (caches s)); [done|].
  intros s1. split; [by destruct s1|]. cbn. destruct (warning_emitted (caches s1)); [done|].
  intros s2. by split.
Qed.

Lemma passing_warn : passing flagged thread_maybe_warn_injected_http_client.
Proof.
  intros s. destruct (warning_emitted (caches s)) eqn:E1; [by left|]. right. right. cbn. rewrite E1.
  intros s1. destruct (warning_emitted (caches s1)) eqn:E2; [by left|]. right. right. cbn.
  intros s2. right. by left.
Qed.

(** A call that warns does so first. *)
Lemma warns_first (P : ∀ A, coro thread_lock ThState A → Prop) op :
  (∀ A B (c : coro thread_lock ThState A) (k : A → coro thread_lock ThState B),
     P A c → (∀ a, silent (k a)) → P B (c ≫= k)) →
  P unit thread_maybe_warn_injected_http_client → warns op = true → P pydict (call op).
Proof.
  intros Hbind Hwarn. destruct op as [jwt c addr injected| |]; cbn [warns]; [|done..].
  intros [[-> Hd]%andb_true_iff Hc]%andb_true_iff. cbn [thread_call]. unfold thread_validate_token.
  destruct (validate_token_config c) as [[]|e]; [|done]. rewrite Hd.
  change (P pydict ((thread_discover_and_resolve_key env http_date wall http clock get_unverified_header
    hash_key hash_uri jwt addr true (config_policy c) ≫= λ '(key_dict, al, d),
      resolved ← pure (build_resolved_config c key_dict al); iss ← pure (disco_attr d "issuer");
      attempt (thread_run_decode new_pyjwk decode jwt resolved iss) (λ e,
        if isinstance e SignatureVerificationException
        then thread_retry_with_refreshed_jwks env http_date wall http clock get_unverified_header new_pyjwk
          decode hash_uri jwt c d true else mthrow e)) ≫= λ decoded, pure (validate_claims decoded c))).
  apply Hbind; [|intros claims; silent]. apply Hbind; [|intros [[kd al] d]; silent].
  unfold thread_discover_and_resolve_key. apply Hbind; [done|]. intros _. silent.
Qed.

Lemma once_call op : once (call op).
Proof.
  destruct (warns op) eqn:Hw; [|by apply untouched_guarded, silent_call].
  apply (warns_first (λ A c, once c)); [|apply once_warn|done]. intros A B c k Hc Hk.
  eapply guarded_finish; [exact Hc|]. intros own [a|e] ->; [by apply untouched_guarded, Hk|done].
Qed.

Lemma steady_call op : steady flagged (call op).
Proof.
  assert (Hs : ∀ A (c : coro thread_lock ThState A), silent c → steady flagged c).
  { intros A c. apply untouched_steady. unfold warning_part. by intros s s' [= ->]. }
  destruct (warns op) eqn:Hw; [|by apply Hs, silent_call].
  apply (warns_first (λ A c, steady flagged c)); [|apply steady_warn|done]. intros A B c k Hc Hk.
  apply steady_finish; [done|]. intros [a|e]; [by apply Hs, Hk|done].
Qed.

Lemma passing_call op : warns op = true → passing flagged (call op).
Proof.
  apply (warns_first (λ A c, passing flagged c)); [|apply passing_warn].
  intros A B c k Hc _. by apply passing_finish.
Qed.
End ThreadWarning.

(** ** Properties *)

(** C2: soundness of the synchronous [validate_token] in a program of several threads.  However
    many threads call it, with or without clients of their own, and in whatever order their steps
    interleave, with the caches cleared at any moment, claims that a call returns were accepted by
    PyJWT for that call's token: under a key served at the [jwks_uri] of a document that passes
    that call's policy, with that key's algorithm only, for an approved issuer, with no enforced
    check off, and by the call's claims validator. *)
Theorem thread_validate_token_sound env http_date wall http clock header {PyJWK : Type} new_pyjwk
    decode hash_key hash_uri ops order i jwt c addr injected out :
  ops !! i = Some (ThValidate jwt c addr injected) →
  results (schedule order (thread_pool env http_date wall http clock header (PyJWK:=PyJWK) new_pyjwk
             decode hash_key hash_uri ops)) !! i = Some (Some (Ok out)) →
  token_sound env http header new_pyjwk decode jwt c addr out.
Proof.
  intros Hi Hr. destruct (pool_safe_result _ _ _ _ _ (thread_pool_kept env http_date wall http clock header
    new_pyjwk decode hash_key hash_uri ops _ (schedule_moves order _)) Hr) as (Q & HQ & Hpost).
  apply list_lookup_fmap_Some in HQ as (op & -> & Hop). rewrite Hi in Hop.
  injection Hop as <-. by apply Hpost.
Qed.

(** The shared caches, after any number of steps of any threads. *)
Theorem thread_caches_safe env http_date wall http clock header {PyJWK : Type} new_pyjwk
    decode hash_key hash_uri ops order :
  let s := caches (shared (schedule order (thread_pool env http_date wall http clock header (PyJWK:=PyJWK)
             new_pyjwk decode hash_key hash_uri ops))) in
  (match max_cache_entries (memo s) with
   | Some z => (Z.of_nat (length (jwks_cache s)) ≤ z ∧ Z.of_nat (length (disco_cache s)) ≤ z)%Z
   | None => jwks_cache s = [] ∧ disco_cache s = []
   end) ∧
  (∀ uri en, od_get uri (jwks_cache s) = Some en →
     admitted_keys env http uri (response en) ∧ usable_keys (response en) = true ∧ ttl_ok (ttl en)) ∧
  (∀ address p en, od_get (address, cache_key p) (disco_cache s) = Some en →
     admitted_doc http address p (response en) ∧ ttl_ok (ttl en)).
Proof.
  cbn zeta. set (p := schedule order _).
  assert (tv_inv env http (forget (caches (shared p)))) as Hs.
  { by destruct (thread_pool_kept env http_date wall http clock header new_pyjwk decode hash_key hash_uri
      ops p (schedule_moves _ _)). }
  apply caches_safe in Hs as (H1 & _ & H2). done.
Qed.

(** Every call ends, whatever the environment says about retries: an infinite or negative delay
    is an error of [time.sleep]. *)
Theorem thread_calls_end env http_date wall http clock header {PyJWK : Type} new_pyjwk
    decode hash_key hash_uri ops order :
  let p := schedule order (thread_pool env http_date wall http clock header (PyJWK:=PyJWK) new_pyjwk
             decode hash_key hash_uri ops) in
  (¬ ∃ f : nat → pool thread_lock ThState pydict, f 0 = p ∧ ∀ n, moves (f n) (f (S n))) ∧
  ((¬ ∃ p', moves p p') → finished p) ∧
  ∃ p', rtc moves p p' ∧ finished p'.
Proof.
  cbn zeta. split.
  { intros (f & _ & Hf). exact (no_infinite_schedule f Hf). }
  eapply (balanced_pool_ends thread_rank 2); [|apply schedule_moves].
  apply Forall_fmap, Forall_true. intros op. apply ends_call.
Qed.

(** C10: the threaded module refines the sequential one.  Called while no other thread holds a
    lock, from any state, [validate_token] runs to the end without waiting, gives its locks back,
    and has the outcome and the effect on the caches, the cooldown, the network, the warning
    flag and the memoised environment of TokenValidation's; no condition is needed. *)
Theorem thread_alone_is_sequential env http_date wall http clock header {PyJWK : Type} new_pyjwk
    decode hash_key hash_uri jwt c addr injected s :
  let sequential := validate_token env http_date wall http clock header (PyJWK:=PyJWK) new_pyjwk decode
                      jwt c addr injected (caches s) in
  ∃ s', run [] (thread_validate_token env http_date wall http clock header new_pyjwk decode hash_key
                  hash_uri jwt c addr injected) s = Some (sequential.1, [], s') ∧
    caches s' = sequential.2.
Proof.
  eapply same_thread_validate_token; [|done]. intros l _. apply not_elem_of_nil.
Qed.

(** The warning about injected clients is logged once.  Under every schedule of any calls it is
    logged at most once; and when all have ended it has been logged, exactly if one of them used
    an injected client (past the check of its configuration). *)
Theorem thread_warning_once env http_date wall http clock header {PyJWK : Type} new_pyjwk
    decode hash_key hash_uri ops order :
  let p := schedule order (thread_pool env http_date wall http clock header (PyJWK:=PyJWK) new_pyjwk
             decode hash_key hash_uri ops) in
  warnings (shared p) ≤ 1 ∧
  (finished p → warnings (shared p) = if existsb warns ops then 1 else 0).
Proof.
  cbn zeta. set (calls := thread_call env http_date wall http clock header new_pyjwk decode hash_key hash_uri).
  set (p0 := thread_pool _ _ _ _ _ _ _ _ _ _ ops). set (p := schedule order p0).
  assert (Hsteady : ∀ l, Forall (steady (λ s : ThState, warning_emitted (caches s) = true)) (map calls l)).
  { intros l. apply Forall_fmap, Forall_true. intros op. apply steady_call. }
  pose proof (schedule_moves order p0 : rtc moves p0 p) as Hr.
  assert (Hsafe : pool_safe (λ _ : ThState, True) (map (λ _ _, True) ops) p0).
  { apply pool_safe_start; [done|]. clear.
    assert (∀ A (c : coro thread_lock ThState A), safe (λ _, True) (λ _, True) c) as H.
    { intros A c. by induction c; cbn; auto. }
    induction ops; constructor; auto. }
  assert (Hg : guarded_pool (λ _, True) injected_http_client_warning_lock warning_part warning_ok
    at_most_once (λ _, True) p).
  { eapply guarded_reach; [exact Hr|exact Hsafe|]. apply guarded_start; [done|unfold at_most_once; cbn; lia|].
    apply Forall_fmap, Forall_true. intros op. eapply guarded_post; [apply once_call|done]. }
  split; [by destruct Hg|]. intros Hfin. apply guarded_finished in Hg; [|done].
  unfold warning_ok in Hg. cbn in Hg. rewrite Hg. destruct (existsb warns ops) eqn:Hw.
  - apply existsb_exists in Hw as (op & Hin & Hop). apply list_elem_of_In, list_elem_of_lookup in Hin as [i Hi].
    assert (Hc : map calls ops !! i = Some (calls op)) by (apply list_lookup_fmap_Some; by exists op).
    destruct (finished_result _ _ _ _ _ Hr Hfin Hc) as [r Hres].
    rewrite (passing_ended (λ s, warning_emitted (caches s) = true) _ _ _ _ _ _ (Hsteady ops) Hc
      (passing_call _ _ _ _ _ _ _ _ _ _ _ Hop) Hr Hres). done.
  - assert (Hq : guarded_pool (λ _, True) injected_http_client_warning_lock warning_part
      (λ x, x.1 = false) (λ x, x.1 = false) (λ _, True) p); [|destruct Hq as [Hq _]; cbn in Hq; by rewrite Hq].
    eapply guarded_reach; [exact Hr|exact Hsafe|]. apply guarded_start; [done..|].
    apply Forall_fmap, Forall_forall. intros op Hin.
    eapply guarded_post; [apply untouched_guarded, silent_call|done]. apply not_true_iff_false. intros Hop.
    apply not_true_iff_false in Hw. apply Hw, existsb_exists. exists op. by rewrite <- list_elem_of_In.
Qed.

(** *** Demonstrations and witnesses *)

Definition demo_threads : list thread_op → pool thread_lock ThState pydict :=
  thread_pool empty_env no_dates 0 (demo_http "https://op.example/jwks") ticking demo_header toy_new_pyjwk
    demo_decode (λ _, 0%Z) (λ _, 0%Z).
Definition demo_thread (injected : bool) : thread_op :=
  ThValidate "token" (demo_config None) (Some op_address) injected.

(** Two cold threads share their fetches; two with clients of their own fetch for themselves, and
    one of them warns. *)
Example two_threads :
  let p := schedule (concat (replicate 60 [0; 1])) (demo_threads [demo_thread false; demo_thread false]) in
  results p = [Some (Ok demo_claims); Some (Ok demo_claims)] ∧
  length (sent (network (caches (shared p)))) = 2 ∧ warnings (shared p) = 0.
Proof. vm_compute. done. Qed.
Example two_injected_threads :
  let p := schedule (concat (replicate 60 [0; 1])) (demo_threads [demo_thread true; demo_thread true]) in
  results p = [Some (Ok demo_claims); Some (Ok demo_claims)] ∧
  length (sent (network (caches (shared p)))) = 4 ∧ warnings (shared p) = 1.
Proof. vm_compute. done. Qed.

Lemma thread_validate_token_sound_witness :
  token_sound empty_env (demo_http "https://op.example/jwks") demo_header toy_new_pyjwk demo_decode
    "token" (demo_config None) (Some op_address) demo_claims.
Proof.
  apply (thread_validate_token_sound empty_env no_dates 0 (demo_http "https://op.example/jwks") ticking
    demo_header toy_new_pyjwk demo_decode (λ _, 0%Z) (λ _, 0%Z)
    [ThClearJwks; demo_thread true; demo_thread false] (concat (replicate 60 [0; 1; 2])) 2
    "token" (demo_config None) (Some op_address) false demo_claims); [reflexivity|].
  vm_compute. reflexivity.
Defined.
