(* ===== verification/AioFlight.v ===== *)
(** * Single flight ([_get_cached_jwks] of [aio/token_validation.py])

    Callers of one loop that miss the cache for the same URI at the same time: the fetch lock of
    the URI's stripe lets one of them fetch, and the others find what it stored.  The number of
    requests for the URI and its cache entry are what the lock protects, see [guarded] in Coro. *)

From S2P Require Import Prelude PyStr PyValue Models Cache Url Policy HttpRetry Discovery Jwks Jwt TokenValidation Coro Cancel CacheMetrics Aio AioSafety.
From Stdlib Require Import QArith Ascii Lqa.
From stdpp Require Import gmap strings.
#[global] Close Scope Q_scope.
Open Scope string_scope.
Open Scope list_scope.
Open Scope nat_scope.
Open Scope py_scope.

Definition requests_for (uri : string) (t : TVState) : nat :=
  length (List.filter (λ u, u ≟ uri) (sent (network t))).

Lemma usable_success env r :
  usable_keys (process_jwks_response env r) = true → is_success r = true.
Proof.
  unfold process_jwks_response, parse_jwks_response. by destruct (is_success r).
Qed.

Lemma success_final r att retries :
  is_success r = true → should_retry_response r att retries = false ∧ check_no_redirect r = Ok ().
Proof.
  unfold is_success, should_retry_response, check_no_redirect, HTTP_TOO_MANY_REQUESTS,
    HTTP_INTERNAL_SERVER_ERROR, HTTP_REDIRECT_MIN, HTTP_REDIRECT_MAX. intros [H1 H2]%andb_true_iff.
  apply Z.leb_le in H1, H2. split.
  - apply andb_false_iff. left. apply orb_false_iff. split; [apply Z.eqb_neq|apply Z.leb_gt]; lia.
  - rewrite (proj2 (Z.leb_gt 300 _)) by lia. done.
Qed.

(** ** Steps on what the lock protects

    For any surface: [get] is the module's state in the state of the calls, [l] the fetch lock. *)

Definition part (uri : string) (t : TVState) : nat * option JwksCacheEntry :=
  (requests_for uri t, od_get uri (jwks_cache t)).

(** While the lock is free: at most [before] requests and no entry, or the entry of one more. *)
Definition flight_ok (clock : nat → Q) (before : nat) (x : nat * option JwksCacheEntry) : Prop :=
  match x.2 with
  | None => x.1 ≤ before
  | Some en => x.1 ≤ S before ∧ ∃ m, cached_at en = clock m
  end.

(** At any time: at most one more.  That is where a cancelled call leaves it. *)
Definition flying (clock : nat → Q) (before : nat) (x : nat * option JwksCacheEntry) : Prop :=
  x.1 ≤ S before ∧ ∀ en, x.2 = Some en → ∃ m, cached_at en = clock m.

Lemma flying_ok clock before x : flying clock before x → flight_ok clock (S before) x.
Proof. unfold flying, flight_ok. destruct x as [n [en|]]; cbn; [|by intros []]. intros [H1 H2]. split; [lia|by apply H2]. Qed.
Lemma ok_flying clock before x : flight_ok clock before x → flying clock before x.
Proof. unfold flying, flight_ok. destruct x as [n [en|]]; cbn; [|by split; [lia|]]. by intros [? ?]; split; [|intros ? [= <-]]. Qed.

Lemma touch_part uri t :
  part uri (set_jwks (memo t) (touch_cache_entry (jwks_cache t) uri) (kid_miss_last_attempt t) t) = part uri t.
Proof. unfold part. cbn. by rewrite touch_get. Qed.

(** Filing a usable answer to the one request. *)
Lemma stored_part env http clock before uri r m s k n :
  shared_inv env http s → usable_keys r = true → k ≤ before → (S k, n) = part uri s →
  flight_ok clock before (part uri (write_jwks env uri r (clock m) s).2).
Proof.
  intros Hs [Hu1 Hu2]%andb_true_iff Hle [= Hk _]. cbn [write_jwks modify fst snd].
  pose proof (apply_jwks_write env (memo s) (jwks_cache s) uri r (clock m) (kid_miss_last_attempt s)
    (inv_memo _ _ _ (tv_jwks _ _ _ Hs)) (inv_nodup _ _ _ (tv_jwks _ _ _ Hs)) Hu1 Hu2) as Hw.
  destruct (apply_jwks_cache_outcome _ _ _ _ _ _ _) as [[m' c'] k'].
  destruct Hw as (_ & _ & _ & (ttl & Hget & _) & _). unfold flight_ok, part. cbn. rewrite Hget.
  assert (Hreq : requests_for uri s ≤ S before) by lia. split; [exact Hreq|by exists m].
Qed.

(** Filing a failed one changes nothing. *)
Lemma failed_part env uri r t s :
  jwks_is_successful r = false → part uri (write_jwks env uri r t s).2 = part uri s.
Proof.
  intros Hr. cbn [write_jwks modify fst snd]. by rewrite apply_jwks_unusable by (by rewrite Hr).
Qed.

Section Steps.
Context {L St : Type} `{EqDecision L} (get : St → TVState) (set : TVState → St → St).
Context (get_set : ∀ t s, get (set t s) = t).
Context (env : string → option string) (http : nat → string → outcome HttpResponse).
Context (l : L) (uri : string) (R V : nat * option JwksCacheEntry → Prop).
#[local] Set Default Proof Using "Type get_set".

Local Abbreviation step m := (atom (L:=L) (zoom get set m)).
Local Abbreviation held := (guarded (λ s, shared_inv env http (get s)) l (λ s, part uri (get s)) R V).

(** Outside the lock the protected part stays; inside, it moves from [x]. *)
Lemma held_out {A} (m : stM TVState exn A) (Q : option _ → outcome A → Prop) :
  (∀ t, shared_inv env http t → part uri (m t).2 = part uri t ∧ Q None (m t).1) →
  held None Q (step m).
Proof.
  intros H s Hs _. destruct (H (get s) Hs) as [H1 H2]. unfold atom, zoom. cbn.
  destruct (m (get s)) as [r t]. cbn [fst snd] in *. by rewrite get_set, H1.
Qed.

Lemma held_in {A} x (m : stM TVState exn A) (Q : option _ → outcome A → Prop) :
  (∀ t, shared_inv env http t → x = part uri t → V x →
     V (part uri (m t).2) ∧ Q (Some (part uri (m t).2)) (m t).1) →
  held (Some x) Q (step m).
Proof.
  intros H s Hs HV Hx. rewrite Hx in HV. specialize (H (get s) Hs (eq_sym Hx) HV). unfold atom, zoom. cbn.
  destruct (m (get s)) as [r t]. cbn [fst snd] in *. by rewrite get_set.
Qed.

(** A step that moves nothing. *)
Lemma held_still {A} x (m : stM TVState exn A) (Q : option _ → outcome A → Prop) :
  (∀ t, shared_inv env http t → x = part uri t → part uri (m t).2 = x ∧ Q (Some x) (m t).1) →
  held (Some x) Q (step m).
Proof. intros H. apply held_in. intros t Ht Hx HV. by destruct (H t Ht Hx) as [-> ?]. Qed.

(** A reading of the clock. *)
Lemma held_now clock own (Q : option _ → outcome Q → Prop) :
  (∀ n, Q own (Ok (clock n))) → held own Q (step (now clock)).
Proof.
  intros HQ. destruct own as [x|]; [apply held_still|apply held_out].
  - intros t _ ->. split; [done|apply HQ].
  - intros t _. split; [done|apply HQ].
Qed.

(** A request adds one; nothing else of the network does. *)
Lemma held_net x {A} (m : stM net exn A) (Q : option _ → outcome A → Prop) :
  (∀ n, let k := length (List.filter (λ u, u ≟ uri) (sent (m n).2)) in
     length (List.filter (λ u, u ≟ uri) (sent n)) = x.1 → V (k, x.2) ∧ Q (Some (k, x.2)) (m n).1) →
  held (Some x) Q (step (on_net m)).
Proof.
  intros H. apply held_in. intros t _ -> _. unfold on_net, zoom. specialize (H (network t) eq_refl).
  unfold part, requests_for in *. by destruct (m (network t)) as [r n].
Qed.
End Steps.

Lemma held_bind {L St A B : Type} `{EqDecision L} {X : Type} J (l : L) (proj : St → X) R V own
    (P : option X → A → Prop) (Q : option X → outcome B → Prop) (c : coro L St A) k :
  guarded J l proj R V own (λ own r, match r with Ok a => P own a | Err e => Q own (Err e) end) c →
  (∀ own' a, P own' a → guarded J l proj R V own' Q (k a)) → guarded J l proj R V own Q (c ≫= k).
Proof. intros Hc Hk. eapply guarded_finish; [exact Hc|]. intros own' [a|e] H; [by apply Hk|exact H]. Qed.

(** Calls that keep the rule have sent at most one request when they have all ended, and one for
    each cancellation. *)
Lemma flight_pool {L St A : Type} `{EqDecision L} (get : St → TVState) env http clock (l : L) uri Qs
    (cs : list (coro L St A)) s cancelled es :
  let p := history cancelled es (start cs s) in
  od_get uri (jwks_cache (get s)) = None →
  (∀ before, Forall (guarded (λ s, shared_inv env http (get s)) l (λ s, part uri (get s))
    (flight_ok clock before) (flying clock before) None (λ own _, own = None)) cs) →
  Forall (λ Q : outcome A → Prop, Q (Err cancelled)) Qs →
  pool_safe (λ s, shared_inv env http (get s)) Qs (start cs s) → finished p →
  requests_for uri (get (shared p)) ≤ S (requests_for uri (get s) + cancels es).
Proof.
  cbn zeta. set (p := history _ _ _). intros Hnone Hcs HQs Hsafe Hfin.
  set (before := requests_for uri (get s)).
  assert (Hg : guarded_pool (λ s, shared_inv env http (get s)) l (λ s, part uri (get s))
      (flight_ok clock (before + cancels es)) (flying clock (before + cancels es)) (λ _, True) p).
  { eapply (guarded_history cancelled _ _ _ (flight_ok clock) (flying clock)); [intros ? ?; apply flying_ok|done|exact HQs|exact Hsafe|].
    intros b Hb. assert (H0 : flight_ok clock b (part uri (get s))) by (unfold part, flight_ok; cbn; by rewrite Hnone).
    split_and!; [done|by apply ok_flying|]. eapply Forall_impl; [apply Hcs|]. intros c Hc. by eapply guarded_post. }
  apply guarded_finished in Hg; [|done]. unfold flight_ok, part in Hg. cbn [fst snd] in Hg.
  destruct (od_get uri (jwks_cache (get (shared p)))); [by destruct Hg|lia].
Qed.

Section Flight.
Context (env : string → option string) (http_date : string → option Q) (wall : Q).
Context (http : nat → string → outcome HttpResponse).
Context (clock : nat → Q).
Context (hash_uri : string → Z) (nan_sleep : outcome unit).
Context (loop : nat) (uri : string) (resp : HttpResponse) (before : nat).
Context (Hhttp : ∀ n, http n uri = Ok resp).
Context (Husable : usable_keys (process_jwks_response env resp) = true).
Context (Hclock : ∀ n m, (clock n - clock m < 60)%Q).
#[local] Set Default Proof Using "Type Hhttp Husable Hclock".

Local Abbreviation L0 := (jwks_fetch_lock hash_uri loop uri).
Local Abbreviation held := (guarded (λ s, shared_inv env http (tv s)) L0 (λ s, part uri (tv s)) (flight_ok clock before) (flying clock before)).

Lemma held_count own f (Q : option _ → outcome unit → Prop) : Q own (Ok ()) → held own Q (count f).
Proof. intros HQ s Hs HV. destruct own as [x|]; [intros <-; by split|]. split; [done|exact HQ]. Qed.

(** *** The lookup *)

Lemma held_lookup_out : held None (λ own r, own = None ∧ ∃ o, r = Ok o) (aio_jwks_lookup clock uri).
Proof.
  unfold aio_jwks_lookup. apply (held_bind _ _ _ _ _ _ (λ own _, own = None)); [by apply held_out|].
  intros own [en|] ->; [|by split; [|eexists]].
  apply (held_bind _ _ _ _ _ _ (λ own _, own = None)).
  { apply (held_bind _ _ _ _ _ _ (λ own _, own = None)); [by apply held_now|]. by intros ? t ->. }
  intros own [r|] ->; [|by split; [|eexists]].
  apply (held_bind _ _ _ _ _ _ (λ own _, own = None)).
  { apply held_out; [done|]. intros t _. split; [apply touch_part|done]. }
  intros own u ->. apply (held_bind _ _ _ _ _ _ (λ own _, own = None)); [by apply held_count|].
  intros own u' ->. by split; [|eexists].
Qed.

(** Under the lock an entry is found, since no entry ages 60 seconds. *)
Lemma held_lookup_in x :
  flight_ok clock before x →
  held (Some x) (λ own r, own = Some x ∧ r = Ok (response <$> x.2)) (aio_jwks_lookup clock uri).
Proof.
  intros Hx. unfold aio_jwks_lookup.
  apply (held_bind _ _ _ _ _ _ (λ own entry, own = Some x ∧ entry = x.2 ∧
    ∀ en, entry = Some en → ttl_ok (ttl en))).
  { apply held_still; [done|]. intros t Ht ->. cbn. split_and!; [done..|]. intros en Hen.
    by destruct (inv_entries _ _ _ (tv_jwks _ _ _ Ht) uri en Hen) as (_ & _ & ?). }
  intros own entry (-> & -> & Httl). destruct x as [n [en|]]; [|done]. cbn [snd] in *.
  destruct Hx as [_ [m Hm]]. specialize (Httl en eq_refl). cbn [snd] in Hm.
  apply (held_bind _ _ _ _ _ _ (λ own hit, own = Some (n, Some en) ∧ hit = Some (response en))).
  { apply (held_bind _ _ _ _ _ _ (λ own t, own = Some (n, Some en) ∧ ∃ k, t = clock k)).
    { apply held_now; [done|]. intros k. split; [done|by exists k]. }
    intros own t [-> [k ->]]. cbn. split; [done|]. unfold is_cache_expired. rewrite Hm.
    destruct (Qle_bool _ _) eqn:E; [|done]. apply Qle_bool_iff in E. destruct Httl as [Hmin _].
    unfold MIN_CACHE_TTL_SECONDS in Hmin. specialize (Hclock k m). lra. }
  intros own hit [-> ->]. apply (held_bind _ _ _ _ _ _ (λ own _, own = Some (n, Some en))).
  { apply held_still; [done|]. intros t Ht ->. cbn [fst snd modify]. by rewrite touch_part. }
  intros own u ->. apply (held_bind _ _ _ _ _ _ (λ own _, own = Some (n, Some en))); [by apply held_count|].
  by intros own u' ->.
Qed.

(** *** The fetch *)

(** Either the one request, answered; or none. *)
Definition fetched {A} (k : nat) (p : Prop) (a : A) (own : option (nat * option JwksCacheEntry))
    (r : outcome A) : Prop :=
  (own = Some (k, None) ∧ ∃ e, r = Err e) ∨ (own = Some (S k, None) ∧ r = Ok a ∧ p).

Lemma held_fetch k :
  k ≤ before → held (Some (k, None)) (fetched k True resp) (aio_fetch env http_date wall http nan_sleep uri).
Proof.
  intros Hk. pose proof (usable_success _ _ Husable) as Hs.
  unfold aio_fetch, retry_with_backoff_async.
  apply (held_bind _ _ _ _ _ _ (λ own _, own = Some (k, None))).
  { destruct (get_retry_params env None None) as [rb|e]; [done|]. left. split; [done|by eexists]. }
  intros own [retries base] ->. destruct (Z.to_nat (retries + 1)) as [|fuel].
  { left. split; [done|by eexists]. }
  cbn [aio_attempts].
  eapply (guarded_finish _ _ _ _ _ _ (λ own r, own = Some (S k, None) ∧ r = Ok resp)).
  - apply held_net; [done|]. intros n. unfold client_get. cbn [fst snd sent length List.filter]. bd_refl.
    intros ->. rewrite Hhttp. split; [|done]. split; [cbn; lia|done].
  - intros own r [-> ->]. destruct (success_final resp 0 retries Hs) as [-> ->].
    right. done.
Qed.

Lemma held_get_jwks p k :
  k ≤ before → held (Some (k, None))
    (λ own r, ∃ d, r = Ok d ∧
       ((own = Some (k, None) ∧ jwks_is_successful d = false) ∨
        (own = Some (S k, None) ∧ d = process_jwks_response env resp ∧ upstream_fetch_attempted uri p = Ok true)))
    (aio_get_jwks env http_date wall http nan_sleep uri p).
Proof.
  intros Hk. unfold aio_get_jwks, attempt.
  eapply (guarded_finish _ _ _ _ _ _ (fetched k (validate_url_scheme (Some uri) p = Ok ())
    (process_jwks_response env resp))).
  - apply (held_bind _ _ _ _ _ _ (λ own _, own = Some (k, None) ∧ validate_url_scheme (Some uri) p = Ok ())).
    { destruct (validate_url_scheme (Some uri) p) as [[]|e]; [done|]. left. split; [done|by eexists]. }
    intros own u [-> Hv].
    apply (held_bind _ _ _ _ _ _ (λ own r, own = Some (S k, None) ∧ r = resp)).
    { eapply guarded_post; [by apply held_fetch|].
      intros own [r|e] [(-> & e' & [=])|(-> & [= ->] & _)]; [done|]. left. split; [done|by eexists]. }
    intros own r [-> ->]. by right.
  - intros own r [(-> & e & ->)|(-> & -> & Hv)].
    + eexists. split; [done|]. left. split; [done|apply handle_jwks_error_failure].
    + eexists. split; [done|]. right. split_and!; [done..|].
      unfold upstream_fetch_attempted. by rewrite Hv.
Qed.

Lemma held_cached_jwks p :
  held None (λ own _, own = None)
    (aio_get_cached_jwks env http_date wall http clock hash_uri nan_sleep loop uri p).
Proof.
  unfold aio_get_cached_jwks. apply (held_bind _ _ _ _ _ _ (λ own _, own = None)).
  { eapply guarded_post; [apply held_lookup_out|]. by intros own r (-> & o & ->). }
  intros own [r|] ->; [done|].
  apply guarded_with_lock. intros x Hx.
  apply (held_bind _ _ _ _ _ _ (λ own hit, own = Some x ∧ hit = response <$> x.2)).
  { eapply guarded_post; [by apply held_lookup_in|]. by intros own r (-> & ->). }
  intros own hit [-> ->]. destruct x as [k [en|]]; cbn [snd fmap option_fmap option_map].
  { by exists (k, Some en). }
  unfold flight_ok in Hx. cbn [fst snd] in Hx.
  apply (held_bind _ _ _ _ _ _ (λ own d,
    (own = Some (k, None) ∧ jwks_is_successful d = false) ∨
    (own = Some (S k, None) ∧ d = process_jwks_response env resp ∧
     upstream_fetch_attempted uri p = Ok true))).
  { eapply guarded_post; [by apply held_get_jwks|]. by intros own r (d & -> & H). }
  intros own d [[-> Hd]|(-> & -> & Hup)].
  - assert (Hok : flight_ok clock before (k, None)) by done.
    apply (held_bind _ _ _ _ _ _ (λ own _, own = Some (k, None))).
    { unfold count_fetch. destruct (upstream_fetch_attempted uri p) as [[]|e];
        [by apply held_count|done|by exists (k, None)]. }
    intros own _ ->. apply guarded_other_lock; [done|].
    apply (held_bind _ _ _ _ _ _ (λ own _, own = Some (k, None))); [by apply held_now|].
    intros own t ->. apply (held_bind _ _ _ _ _ _ (λ own _, own = Some (k, None))).
    + apply held_still; [done|]. intros s _ ->. by rewrite failed_part.
    + intros own u ->. by exists (k, None).
  - set (stored := λ own : option (nat * option JwksCacheEntry), ∃ y, own = Some y ∧ flight_ok clock before y).
    unfold count_fetch. rewrite Hup.
    apply (held_bind _ _ _ _ _ _ (λ own _, own = Some (S k, None))); [by apply held_count|].
    intros own _ ->. apply guarded_other_lock; [done|].
    apply (held_bind _ _ _ _ _ _ (λ own t, own = Some (S k, None) ∧ ∃ m, t = clock m)).
    { apply held_now; [done|]. intros m. split; [done|by exists m]. }
    intros own t [-> [m ->]]. apply (held_bind _ _ _ _ _ _ (λ own _, stored own)); [|by intros own u H].
    apply held_in; [done|]. intros s Hs Hk _.
    pose proof (stored_part env http clock before uri _ m s k _ Hs Husable Hx Hk) as Hok.
    split; [by apply ok_flying|]. by eexists.
Qed.
End Flight.

(** ** Properties *)

(** C12: single flight.  However many callers of one loop ask for the key set of one URI, under
    whatever policies, however their steps interleave and whichever of them are cancelled, once
    they have all ended at most one request for that URI has been sent, and one for each
    cancellation, and every successful answer is what those requests got; when the endpoint serves
    a usable key set and no entry ages out meanwhile (60 seconds is the shortest lifetime). *)
Theorem jwks_single_flight env http_date wall http clock hash_uri nan_sleep loop uri resp policies s cancelled events :
  (∀ n, http n uri = Ok resp) → usable_keys (process_jwks_response env resp) = true →
  (∀ n m, (clock n - clock m < 60)%Q) →
  aio_inv env http s → od_get uri (jwks_cache (tv s)) = None →
  let p := history cancelled events (start (map (aio_get_cached_jwks env http_date wall http clock hash_uri
             nan_sleep loop uri) policies) s) in
  finished p →
  requests_for uri (tv (shared p)) ≤ S (requests_for uri (tv s) + cancels events) ∧
  ∀ i r, results p !! i = Some (Some (Ok r)) → jwks_is_successful r = true →
    r = process_jwks_response env resp.
Proof.
  intros Hhttp Hu Hclock Hs Hnone p Hfin. subst p. set (p0 := start _ s) in *.
  set (p := history cancelled events p0) in *.
  set (kept := λ (_ : DiscoveryPolicy) (r : outcome JwksResponse), ∀ a, r = Ok a →
    jwks_is_successful a = true → admitted_keys env http uri a).
  assert (H0 : pool_safe (aio_inv env http) (map kept policies) p0).
  { apply pool_safe_start; [done|].
    clear. induction policies as [|q l IH]; constructor; [apply kept_get_cached_jwks|apply IH]. }
  assert (HQ : Forall (λ Q : outcome JwksResponse → Prop, Q (Err cancelled)) (map kept policies)).
  { apply Forall_fmap, Forall_true. by intros q a [=]. }
  split.
  - eapply (flight_pool tv); [done| |exact HQ|exact H0|done].
    intros b. apply Forall_fmap, Forall_true. intros q. by eapply held_cached_jwks.
  - intros i r Hr Hsucc. pose proof (pool_safe_history cancelled _ _ events p0 HQ H0) as H1.
    destruct (pool_safe_result _ _ _ _ _ H1 Hr) as (Q & EQ & Hpost).
    apply list_lookup_fmap_Some in EQ as (q & -> & _).
    destruct (Hpost r eq_refl Hsucc) as (_ & n & rr & Hn & ->). rewrite Hhttp in Hn.
    by injection Hn as ->.
Qed.

(** *** Witnesses *)

Definition flight_keys : HttpResponse := jwks_response [rsa_member "a" []].

Lemma jwks_single_flight_witness :
  let p := history CancelledError (replicate 12 (Turn 2) ++ [Interrupt 2] ++ concat (replicate 40 [Turn 2; Turn 0; Turn 1]))
    (start (map (aio_get_cached_jwks empty_env no_dates 0 (λ _ _, Ok flight_keys) demo_clock (λ _, 0%Z)
              (Ok ()) 0 "https://op.example/jwks")
       [default_policy; default_policy; default_policy]) (Aio initial_state zero_counters)) in
  requests_for "https://op.example/jwks" (tv (shared p)) ≤ 2.
Proof.
  cbv zeta.
  refine (proj1 (jwks_single_flight empty_env no_dates 0 (λ _ _, Ok flight_keys) demo_clock (λ _, 0%Z)
    (Ok ()) 0 "https://op.example/jwks" flight_keys [default_policy; default_policy; default_policy]
    (Aio initial_state zero_counters) CancelledError
    (replicate 12 (Turn 2) ++ [Interrupt 2] ++ concat (replicate 40 [Turn 2; Turn 0; Turn 1])) _ _ _ _ _ _)).
  - reflexivity.
  - vm_compute. reflexivity.
  - intros n m. vm_compute. reflexivity.
  - apply tv_inv_forget, initial_tv_inv.
  - reflexivity.
  - apply all_ended_finished. vm_compute. reflexivity.
Defined.
