(* ===== verification/ThreadFlight.v ===== *)
(** * Single flight between threads ([_get_cached_jwks] and [_refresh_jwks] of
      [sync/token_validation.py])

    Threads that miss the cache for the same URI at the same time send one request; threads that
    force a refresh at the same time send one each. *)

From S2P Require Import Prelude PyStr PyValue Models Cache Url Policy HttpRetry Discovery Jwks Jwt TokenValidation Coro Cancel CacheMetrics Aio AioSafety AioFlight Threads ThreadSafety.
From Stdlib Require Import QArith Ascii Lqa.
From stdpp Require Import gmap strings.
#[global] Close Scope Q_scope.
Open Scope string_scope.
Open Scope list_scope.
Open Scope nat_scope.
Open Scope py_scope.

Section ThreadFlight.
Context (env : string → option string) (http_date : string → option Q) (wall : Q).
Context (http : nat → string → outcome HttpResponse).
Context (clock : nat → Q).
Context (hash_uri : string → Z).
Context (uri : string) (resp : HttpResponse) (before : nat).
Context (Hhttp : ∀ n, http n uri = Ok resp).
Context (Husable : usable_keys (process_jwks_response env resp) = true).
Context (Hclock : ∀ n m, (clock n - clock m < 60)%Q).
#[local] Set Default Proof Using "Type Hhttp Husable Hclock".

Local Abbreviation L0 := (get_jwks_fetch_lock hash_uri uri).
Local Abbreviation held := (guarded (λ s, shared_inv env http (caches s)) L0 (λ s, part uri (caches s)) (flight_ok clock before) (flying clock before)).

(** *** The lookup *)

Lemma thread_held_lookup_out : held None (λ own r, own = None ∧ ∃ o, r = Ok o) (thread_jwks_lookup clock uri).
Proof.
  unfold thread_jwks_lookup. apply (held_bind _ _ _ _ _ _ (λ own _, own = None)); [by apply held_out|].
  intros own [en|] ->; [|by split; [|eexists]].
  apply (held_bind _ _ _ _ _ _ (λ own _, own = None)).
  { apply (held_bind _ _ _ _ _ _ (λ own _, own = None)); [by apply held_now|]. by intros ? t ->. }
  intros own [r|] ->; [|by split; [|eexists]].
  apply (held_bind _ _ _ _ _ _ (λ own _, own = None)).
  { apply held_out; [done|]. intros t _. split; [apply touch_part|done]. }
  intros own u ->. by split; [|eexists].
Qed.

(** Under the lock an entry is found, since no entry ages 60 seconds. *)
Lemma thread_held_lookup_in x :
  flight_ok clock before x →
  held (Some x) (λ own r, own = Some x ∧ r = Ok (response <$> x.2)) (thread_jwks_lookup clock uri).
Proof.
  intros Hx. unfold thread_jwks_lookup.
  apply (held_bind _ _ _ _ _ _ (λ own entry, own = Some x ∧ entry = x.2 ∧
    ∀ en, entry = Some en → ttl_ok (ttl en))).
  { apply held_still; [done|]. intros t Ht ->. cbn. split_and!; [done..|]. intros en Hen.
    by destruct (inv_entries _ _ _ (tv_jwks _ _ _ Ht) uri en Hen) as (_ & _ & ?). }
  intros own entry (-> & -> & Httl). destruct x as [n [en|]]; [|done]. cbn [snd] in *.
  destruct Hx as [_ [m Hm]]. specialize (Httl en eq_refl). cbn [snd] in Hm.
  apply (held_bind _ _ _ _ _ _ (λ own hit, own = Some (n, Some en) ∧ hit = Some (response en))).
  { apply (held_bind _ _ _ _ _ _ (λ own t, own = Some (n, Some en) ∧ ∃ k, t = clock k)).
    { apply held_now; [done|]. intros k. split; [done|by exists k]. }
    intros own t [-> [k ->]]. cbn. split; [done|]. unfold is_cache_expired. rewrite Hm.
    destruct (Qle_bool _ _) eqn:E; [|done]. apply Qle_bool_iff in E. destruct Httl as [Hmin _].
    unfold MIN_CACHE_TTL_SECONDS in Hmin. specialize (Hclock k m). lra. }
  intros own hit [-> ->]. apply (held_bind _ _ _ _ _ _ (λ own _, own = Some (n, Some en))).
  { apply held_still; [done|]. intros t Ht ->. cbn [fst snd modify]. by rewrite touch_part. }
  by intros own u ->.
Qed.

(** *** The fetch *)

(** Either the one request, answered; or none. *)
Definition fetched {A} (k : nat) (p : Prop) (a : A) (own : option (nat * option JwksCacheEntry))
    (r : outcome A) : Prop :=
  (own = Some (k, None) ∧ ∃ e, r = Err e) ∨ (own = Some (S k, None) ∧ r = Ok a ∧ p).

Lemma thread_held_fetch k :
  k ≤ before → held (Some (k, None)) (fetched k True resp) (thread_fetch env http_date wall http uri).
Proof.
  intros Hk. pose proof (usable_success _ _ Husable) as Hs.
  unfold thread_fetch, thread_retry_with_backoff.
  apply (held_bind _ _ _ _ _ _ (λ own _, own = Some (k, None))).
  { destruct (get_retry_params env None None) as [rb|e]; [done|]. left. split; [done|by eexists]. }
  intros own [retries base] ->. destruct (Z.to_nat (retries + 1)) as [|fuel].
  { left. split; [done|by eexists]. }
  cbn [thread_attempts].
  eapply (guarded_finish _ _ _ _ _ _ (λ own r, own = Some (S k, None) ∧ r = Ok resp)).
  - apply held_net; [done|]. intros n. unfold client_get. cbn [fst snd sent length List.filter]. bd_refl.
    intros ->. rewrite Hhttp. split; [|done]. split; [cbn; lia|done].
  - intros own r [-> ->]. destruct (success_final resp 0 retries Hs) as [-> ->].
    right. done.
Qed.

Lemma thread_held_get_jwks p k :
  k ≤ before → held (Some (k, None))
    (λ own r, ∃ d, r = Ok d ∧
       ((own = Some (k, None) ∧ jwks_is_successful d = false) ∨
        (own = Some (S k, None) ∧ d = process_jwks_response env resp)))
    (thread_get_jwks env http_date wall http uri p).
Proof.
  intros Hk. unfold thread_get_jwks, attempt.
  eapply (guarded_finish _ _ _ _ _ _ (fetched k True (process_jwks_response env resp))).
  - apply (held_bind _ _ _ _ _ _ (λ own _, own = Some (k, None))).
    { destruct (validate_url_scheme (Some uri) p) as [[]|e]; [done|]. left. split; [done|by eexists]. }
    intros own u ->. apply (held_bind _ _ _ _ _ _ (λ own r, own = Some (S k, None) ∧ r = resp)).
    { eapply guarded_post; [by apply thread_held_fetch|].
      intros own [r|e] [(-> & e' & [=])|(-> & [= ->] & _)]; [done|]. left. split; [done|by eexists]. }
    intros own r [-> ->]. by right.
  - intros own r [(-> & e & ->)|(-> & -> & _)].
    + eexists. split; [done|]. left. split; [done|apply handle_jwks_error_failure].
    + eexists. split; [done|]. by right.
Qed.

Lemma thread_held_cached_jwks p :
  held None (λ own _, own = None)
    (thread_get_cached_jwks env http_date wall http clock hash_uri uri p).
Proof.
  unfold thread_get_cached_jwks. apply (held_bind _ _ _ _ _ _ (λ own _, own = None)).
  { eapply guarded_post; [apply thread_held_lookup_out|]. by intros own r (-> & o & ->). }
  intros own [r|] ->; [done|].
  apply guarded_with_lock. intros x Hx.
  apply (held_bind _ _ _ _ _ _ (λ own hit, own = Some x ∧ hit = response <$> x.2)).
  { eapply guarded_post; [by apply thread_held_lookup_in|]. by intros own r (-> & ->). }
  intros own hit [-> ->]. destruct x as [k [en|]]; cbn [snd fmap option_fmap option_map].
  { by exists (k, Some en). }
  unfold flight_ok in Hx. cbn [fst snd] in Hx.
  apply (held_bind _ _ _ _ _ _ (λ own d,
    (own = Some (k, None) ∧ jwks_is_successful d = false) ∨
    (own = Some (S k, None) ∧ d = process_jwks_response env resp))).
  { eapply guarded_post; [by apply thread_held_get_jwks|]. by intros own r (d & -> & H). }
  set (stored := λ own : option (nat * option JwksCacheEntry), ∃ y, own = Some y ∧ flight_ok clock before y).
  intros own d Hd. apply (held_bind _ _ _ _ _ _ (λ own _, stored own)); [|by intros own' u Hown].
  apply guarded_other_lock; [done|]. destruct Hd as [[-> Hd]|[-> ->]].
  - apply (held_bind _ _ _ _ _ _ (λ own _, own = Some (k, None))); [by apply held_now|].
    intros own t ->. apply held_still; [done|]. intros s _ Hs. rewrite failed_part, <- Hs by done.
    split; [done|]. by exists (k, None).
  - apply (held_bind _ _ _ _ _ _ (λ own t, own = Some (S k, None) ∧ ∃ m, t = clock m)).
    { apply held_now; [done|]. intros m. split; [done|by exists m]. }
    intros own t [-> [m ->]]. apply held_in; [done|]. intros s Hs Hk _.
    pose proof (stored_part env http clock before uri _ m s k _ Hs Husable Hx Hk) as Hok.
    split; [by apply ok_flying|]. by eexists.
Qed.
End ThreadFlight.

(** ** Properties *)

(** Single flight between threads, as [jwks_single_flight] has it between coroutines. *)
Theorem thread_single_flight env http_date wall http clock hash_uri uri resp policies s order :
  (∀ n, http n uri = Ok resp) → usable_keys (process_jwks_response env resp) = true →
  (∀ n m, (clock n - clock m < 60)%Q) →
  thread_inv env http s → od_get uri (jwks_cache (caches s)) = None →
  let p := schedule order (start (map (thread_get_cached_jwks env http_date wall http clock hash_uri
             uri) policies) s) in
  finished p →
  requests_for uri (caches (shared p)) ≤ S (requests_for uri (caches s)) ∧
  ∀ i r, results p !! i = Some (Some (Ok r)) → jwks_is_successful r = true →
    r = process_jwks_response env resp.
Proof.
  intros Hhttp Hu Hclock Hs Hnone p Hfin. subst p. set (p0 := start _ s) in *.
  set (p := schedule order p0) in *. pose proof (schedule_moves order p0 : rtc moves p0 p) as Hp.
  set (kept := λ (_ : DiscoveryPolicy) (r : outcome JwksResponse), ∀ a, r = Ok a →
    jwks_is_successful a = true → admitted_keys env http uri a).
  assert (H0 : pool_safe (thread_inv env http) (map kept policies) p0).
  { apply pool_safe_start; [done|].
    clear. induction policies as [|q l IH]; constructor; [apply thread_kept_get_cached_jwks|apply IH]. }
  split.
  - pose proof (flight_pool caches env http clock (get_jwks_fetch_lock hash_uri uri) uri (map kept policies)
      (map (thread_get_cached_jwks env http_date wall http clock hash_uri uri) policies) s CancelledError
      (map Turn order)) as Hflight. cbn zeta in Hflight. rewrite history_turns in Hflight.
    rewrite cancels_turns, Nat.add_0_r in Hflight. apply Hflight; [done| | |exact H0|done].
    + intros b. apply Forall_fmap, Forall_true. intros q. by eapply thread_held_cached_jwks.
    + apply Forall_fmap, Forall_true. by intros q a [=].
  - intros i r Hr Hsucc. pose proof (pool_safe_reach _ _ _ _ Hp H0) as H1.
    destruct (pool_safe_result _ _ _ _ _ H1 Hr) as (Q & HQ & Hpost).
    apply list_lookup_fmap_Some in HQ as (q & -> & _).
    destruct (Hpost r eq_refl Hsucc) as (_ & n & rr & Hn & ->). rewrite Hhttp in Hn.
    by injection Hn as ->.
Qed.

(** *** Demonstrations *)

Definition demo_refreshes (clock : nat → Q) : pool thread_lock ThState (JwksResponse * bool) :=
  start (replicate 2 (thread_refresh_jwks empty_env no_dates 0 (λ _ _, Ok flight_keys) clock (λ _, 0%Z)
    "https://op.example/jwks" default_policy)) (Th initial_state 0).

(** Two threads that force a refresh of the same URI at the same time are not coalesced: the second
    takes its [request_time] after it has got the lock, hence after the entry it waited for was
    stamped.  Only a clock that stands still in between makes it use that entry. *)
Theorem thread_refreshes_not_coalesced :
  let both clock := schedule (concat (replicate 40 [0; 1])) (demo_refreshes clock) in
  (finished (both ticking) ∧ requests_for "https://op.example/jwks" (caches (shared (both ticking))) = 2) ∧
  (finished (both demo_clock) ∧ requests_for "https://op.example/jwks" (caches (shared (both demo_clock))) = 1).
Proof.
  cbv zeta. split; (split; [apply all_ended_finished|]); vm_compute; reflexivity.
Qed.

Lemma thread_single_flight_witness :
  let p := schedule (concat (replicate 40 [2; 0; 1]))
    (start (map (thread_get_cached_jwks empty_env no_dates 0 (λ _ _, Ok flight_keys) demo_clock (λ _, 0%Z)
              "https://op.example/jwks")
       [default_policy; default_policy; default_policy]) (Th initial_state 0)) in
  requests_for "https://op.example/jwks" (caches (shared p)) ≤ 1.
Proof.
  cbv zeta.
  refine (proj1 (thread_single_flight empty_env no_dates 0 (λ _ _, Ok flight_keys) demo_clock (λ _, 0%Z)
    "https://op.example/jwks" flight_keys [default_policy; default_policy; default_policy]
    (Th initial_state 0) (concat (replicate 40 [2; 0; 1])) _ _ _ _ _ _)).
  - reflexivity.
  - vm_compute. reflexivity.
  - intros n m. vm_compute. reflexivity.
  - apply tv_inv_forget, initial_tv_inv.
  - reflexivity.
  - apply all_ended_finished. vm_compute. reflexivity.
Defined.
