(* ===== verification/Claims.v ===== *)
(** * Claims validators ([core/claims_validation.py])

    The ready-made validators and their combinators.  A validator is the hook
    [TokenValidationConfig.claims_validator] of [Jwt.v]: it may change the claims it is given and
    may raise.  The policies an application builds from these functions are given a boolean
    meaning, and the validators are proved to implement it. *)

From S2P Require Import Prelude PyStr PyValue Models Codec Jwt.
From stdpp Require Import strings.
Open Scope string_scope.
Open Scope list_scope.
Open Scope nat_scope.
Open Scope py_scope.

(** ** The typed rejection *)

(** [ClaimsValidationError(reason, claim=claim)]. *)
Definition ClaimsRejected (reason : string) (claim : option string) : exn :=
  Exn ClaimsValidationError reason (Some "payload")
    (("reason", VStr reason) :: match claim with Some c => [("claim", VStr c)] | None => [] end) [].

(** The [reason] attribute. *)
Definition reason_of (e : exn) : string := message e.
Definition clean_reject (e : exn) : bool := isinstance e ClaimsValidationError.

(** ** Combinators *)

(** [for validator in members: validator(claims)]. *)
Fixpoint validate_all (members : list ClaimsValidator) : ClaimsValidator := λ claims,
  match members with
  | [] => (Ok (), claims)
  | f :: members' =>
      match f claims with
      | (Ok _, claims') => validate_all members' claims'
      | (Err e, claims') => (Err e, claims')
      end
  end.

Fixpoint validate_any (reasons : list string) (members : list ClaimsValidator) : ClaimsValidator :=
  λ claims,
  match members with
  | [] => (Err (ClaimsRejected ("no validator accepted the claims: " +:+ str_join "; " reasons) None),
           claims)
  | f :: members' =>
      match f claims with
      | (Ok _, claims') => (Ok (), claims')
      | (Err e, claims') =>
          if clean_reject e then validate_any (reasons ++ [reason_of e]) members' claims'
          else (Err e, claims')
      end
  end.

Definition ValueError (msg : string) : exn := mk_exn BValueError msg.

Definition combine_claims_validators (validators : list ClaimsValidator) (require : string)
    : outcome ClaimsValidator :=
  if negb (bool_decide (require ∈ ["all"; "any"])) then
    Err (ValueError ("require must be 'all' or 'any', got " +:+ str_repr require))
  else if (require ≟ "any") && (length validators =? 0) then
    Err (ValueError ("combine_claims_validators(require='any') needs at least one " +:+
                     "validator; an empty any-of set rejects every token."))
  else Ok (if require ≟ "all" then validate_all validators else validate_any [] validators).

(** ** Ready-made validators *)

(** A validator that only reads the claims. *)
Definition reading (test : pydict → outcome unit) : ClaimsValidator := λ claims,
  (test claims, claims).

Definition missing (claims : pydict) (name : string) : bool := is_none (dget name claims).

Definition require_claims (names : list string) : outcome ClaimsValidator :=
  match names with
  | [] => Err (ValueError "require_claims needs at least one claim name")
  | _ => Ok (reading (λ claims, for_each (λ name,
      raise_if (missing claims name)
        (ClaimsRejected ("required claim " +:+ str_repr name +:+ " is missing") (Some name))) names))
  end.

Definition require_claim_value (name : string) (value : pyval) : ClaimsValidator :=
  reading (λ claims,
    raise_if (match dict_get name claims with None => true | Some v => negb (py_eq v value) end)
      (ClaimsRejected ("claim " +:+ str_repr name +:+ " must equal " +:+ py_repr value) (Some name))).

Definition granted_scopes (claims : pydict) : list string :=
  let scope := dget "scope" claims in
  let raw := if is_none scope || py_eq scope (VStr "") then dget "scp" claims else scope in
  match raw with
  | VStr s => split_ws s
  | VList l => omap as_str l
  | _ => []
  end.

(** [scope in granted]. *)
Definition grants (claims : pydict) (scope : string) : bool :=
  bool_decide (scope ∈ granted_scopes claims).

Definition require_scopes (scopes : list string) : outcome ClaimsValidator :=
  match scopes with
  | [] => Err (ValueError "require_scopes needs at least one scope")
  | _ => Ok (reading (λ claims,
      let missing := List.filter (λ s, negb (grants claims s)) scopes in
      raise_if (negb (length missing =? 0))
        (ClaimsRejected ("missing required scope(s): " +:+ str_join ", " missing) (Some "scope"))))
  end.

(** ** Policies and their meaning

    What an application can build from the module, and the boolean function it stands for. *)

Inductive policy : Type :=
  | PClaims (names : list string)
  | PValue (name : string) (value : pyval)
  | PScopes (scopes : list string)
  | PAll (l : list policy)
  | PAny (l : list policy).

Fixpoint compile (p : policy) : outcome ClaimsValidator :=
  match p with
  | PClaims names => require_claims names
  | PValue name value => Ok (require_claim_value name value)
  | PScopes scopes => require_scopes scopes
  | PAll l => fs ← mapM_ok compile l; combine_claims_validators fs "all"
  | PAny l => fs ← mapM_ok compile l; combine_claims_validators fs "any"
  end.

Fixpoint satisfied (claims : pydict) (p : policy) : bool :=
  match p with
  | PClaims names => forallb (λ n, negb (is_none (dget n claims))) names
  | PValue name value =>
      match dict_get name claims with Some v => py_eq v value | None => false end
  | PScopes scopes => forallb (grants claims) scopes
  | PAll l => forallb (satisfied claims) l
  | PAny l => existsb (satisfied claims) l
  end.

(** The policies the constructors accept. *)
Fixpoint well_formed (p : policy) : bool :=
  match p with
  | PClaims names => negb (length names =? 0)
  | PValue _ _ => true
  | PScopes scopes => negb (length scopes =? 0)
  | PAll l => forallb well_formed l
  | PAny l => negb (length l =? 0) && forallb well_formed l
  end.

(** ** Tests on concrete inputs *)

Definition sample_policy : policy :=
  PAll [PScopes ["read"]; PAny [PValue "tenant" (VStr "a"); PClaims ["admin"]]].
Definition run_policy (p : policy) (claims : pydict) : outcome unit :=
  f ← compile p; (f claims).1.

Example policy_1 : run_policy sample_policy [("scope", VStr "write read"); ("tenant", VStr "a")] = Ok ().
Proof. vm_compute. reflexivity. Qed.
Example policy_2 : run_policy sample_policy [("scp", VList [VStr "read"]); ("tenant", VStr "b")] =
  Err (ClaimsRejected
    "no validator accepted the claims: claim 'tenant' must equal 'a'; required claim 'admin' is missing"
    None).
Proof. vm_compute. reflexivity. Qed.
Example policy_3 : run_policy sample_policy [("scope", VInt 1); ("scp", VList [VStr "read"])] =
  Err (ClaimsRejected "missing required scope(s): read" (Some "scope")).
Proof. vm_compute. reflexivity. Qed.

(** ** Lemmas *)

(** A validator that only reads the claims, and decides [b] on them by accepting or by a typed
    rejection. *)
Definition decides (f : ClaimsValidator) (b : pydict → bool) : Prop := ∀ claims,
  if b claims then f claims = (Ok (), claims)
  else ∃ reason claim, f claims = (Err (ClaimsRejected reason claim), claims).

Lemma clean_reject_ClaimsRejected reason claim : clean_reject (ClaimsRejected reason claim) = true.
Proof. reflexivity. Qed.

Lemma decides_raise_if b reason claim :
  decides (reading (λ claims, raise_if (negb (b claims)) (ClaimsRejected (reason claims) claim))) b.
Proof. intros claims. unfold reading. destruct (b claims); simpl; eauto. Qed.

Lemma decides_ext f b b' : (∀ claims, b claims = b' claims) → decides f b → decides f b'.
Proof. intros H Hf claims. rewrite <- H. apply Hf. Qed.

Lemma require_claim_value_decides name value :
  decides (require_claim_value name value) (λ claims, satisfied claims (PValue name value)).
Proof.
  intros claims. unfold require_claim_value, reading. cbn [satisfied].
  destruct (dict_get name claims) as [v|]; [destruct (py_eq v value)|]; simpl; eauto.
Qed.

Lemma require_claims_decides names f :
  require_claims names = Ok f → decides f (λ claims, satisfied claims (PClaims names)).
Proof.
  set (test := λ claims, for_each (λ name, raise_if (missing claims name)
    (ClaimsRejected ("required claim " +:+ str_repr name +:+ " is missing") (Some name)))).
  intros H. assert (f = reading (λ claims, test claims names)) as ->.
  { destruct names; [done|]. by injection H as <-. }
  clear H. intros claims. unfold reading. cbn [satisfied].
  induction names as [|n names IH]; [reflexivity|]. unfold test, missing in *.
  cbn [for_each forallb]. destruct (is_none (dget n claims)); simpl; [by eauto|]. exact IH.
Qed.

Lemma filter_missing (granted : string → bool) scopes :
  (length (List.filter (λ s, negb (granted s)) scopes) =? 0) = forallb granted scopes.
Proof.
  induction scopes as [|s scopes IH]; [done|]. cbn [List.filter forallb].
  by destruct (granted s).
Qed.

Lemma require_scopes_decides scopes f :
  require_scopes scopes = Ok f → decides f (λ claims, satisfied claims (PScopes scopes)).
Proof.
  set (absent := λ claims,
    List.filter (λ s, negb (grants claims s)) scopes).
  intros H. assert (f = reading (λ claims, raise_if (negb (length (absent claims) =? 0))
    (ClaimsRejected ("missing required scope(s): " +:+ str_join ", " (absent claims))
      (Some "scope")))) as ->.
  { destruct scopes; [done|]. by injection H as <-. }
  eapply decides_ext; [|apply decides_raise_if]. intros claims. unfold absent.
  by rewrite filter_missing.
Qed.

Lemma validate_all_decides fs bs :
  Forall2 decides fs bs → decides (validate_all fs) (λ claims, forallb (λ b, b claims) bs).
Proof.
  intros H claims. induction H as [|f b fs bs Hf H IH]; [done|]. cbn [validate_all forallb].
  specialize (Hf claims). destruct (b claims); simpl.
  - rewrite Hf. exact IH.
  - destruct Hf as (reason & claim & ->). eauto.
Qed.

Lemma validate_any_decides fs bs reasons :
  Forall2 decides fs bs → decides (validate_any reasons fs) (λ claims, existsb (λ b, b claims) bs).
Proof.
  intros H claims. revert reasons.
  induction H as [|f b fs bs Hf H IH]; intros reasons; cbn [validate_any existsb]; [by eauto|].
  specialize (Hf claims). destruct (b claims); simpl.
  - by rewrite Hf.
  - destruct Hf as (reason & claim & ->). rewrite clean_reject_ClaimsRejected. apply IH.
Qed.

(** [combine_claims_validators] on each of its arguments. *)
Lemma combine_all fs : combine_claims_validators fs "all" = Ok (validate_all fs).
Proof. reflexivity. Qed.
Lemma combine_any fs f :
  combine_claims_validators fs "any" = Ok f ↔ fs ≠ [] ∧ f = validate_any [] fs.
Proof. destruct fs; split; [done|by intros []|by intros [= <-]|by intros [_ ->]]. Qed.

Lemma policy_ind' (P : policy → Prop) :
  (∀ names, P (PClaims names)) → (∀ name value, P (PValue name value)) →
  (∀ scopes, P (PScopes scopes)) → (∀ l, Forall P l → P (PAll l)) →
  (∀ l, Forall P l → P (PAny l)) → ∀ p, P p.
Proof.
  intros Hc Hv Hs Hall Hany. fix IH 1. intros [names|name value|scopes|l|l];
    [apply Hc|apply Hv|apply Hs|apply Hall|apply Hany];
    (induction l as [|p l IHl]; constructor; [exact (IH p)|exact IHl]).
Qed.

Lemma compile_members l fs :
  Forall (λ p, ∀ f, compile p = Ok f → decides f (λ claims, satisfied claims p)) l →
  mapM_ok compile l = Ok fs →
  Forall2 decides fs (map (λ p claims, satisfied claims p) l).
Proof.
  rewrite mapM_ok_spec. intros HP H. induction H as [|p f l fs Hf H IH]; constructor;
    apply Forall_cons in HP as [Hp HP]; auto.
Qed.

Lemma compile_decides p f : compile p = Ok f → decides f (λ claims, satisfied claims p).
Proof.
  revert f. induction p as [names|name value|scopes|l IH|l IH] using policy_ind';
    intros f H; cbn [compile] in H.
  - by apply require_claims_decides.
  - injection H as <-. apply require_claim_value_decides.
  - by apply require_scopes_decides.
  - apply result_bind_ok in H as (fs & Hfs & H). rewrite combine_all in H. injection H as <-.
    eapply decides_ext; [|eapply validate_all_decides, compile_members; eauto].
    intros claims. cbn [satisfied]. clear. induction l as [|q l IHl]; [done|]. cbn [map forallb]. by rewrite IHl.
  - apply result_bind_ok in H as (fs & Hfs & H). apply combine_any in H as [_ ->].
    eapply decides_ext; [|eapply validate_any_decides, compile_members; eauto].
    intros claims. cbn [satisfied]. clear. induction l as [|q l IHl]; [done|]. cbn [map existsb]. by rewrite IHl.
Qed.

Lemma compile_total p : is_ok (compile p) = well_formed p.
Proof.
  assert (Hm : ∀ l, Forall (λ p, is_ok (compile p) = well_formed p) l →
    is_ok (mapM_ok compile l) = forallb well_formed l ∧
    ∀ fs, mapM_ok compile l = Ok fs → length fs = length l).
  { induction 1 as [|q l Hq H [IH1 IH2]]; cbn [mapM_ok forallb].
    - split; [done|]. by intros fs [= <-].
    - rewrite <- Hq. destruct (compile q) as [f|]; simpl; [|done]. rewrite <- IH1.
      destruct (mapM_ok compile l) as [fs|]; simpl; [|done]. split; [done|].
      intros ? [= <-]. simpl. by rewrite (IH2 fs). }
  induction p as [names|name value|scopes|l IH|l IH] using policy_ind';
    cbn [compile well_formed].
  - by destruct names.
  - done.
  - by destruct scopes.
  - destruct (Hm l IH) as [<- _]. by destruct (mapM_ok compile l).
  - destruct (Hm l IH) as [<- Hlen]. destruct (mapM_ok compile l) as [fs|] eqn:E; simpl.
    + rewrite <- (Hlen fs) by done. by destruct fs.
    + by rewrite andb_false_r.
Qed.

(** *** Arbitrary validators *)

(** All of [fs] accept, one after the other, the claims ending as [claims']. *)
Inductive accepted : list ClaimsValidator → pydict → pydict → Prop :=
  | accepted_nil claims : accepted [] claims claims
  | accepted_cons f fs claims claims1 claims2 :
      f claims = (Ok (), claims1) → accepted fs claims1 claims2 → accepted (f :: fs) claims claims2.

(** All of [fs] reject with the typed error, for the given reasons. *)
Inductive refused : list ClaimsValidator → pydict → list string → pydict → Prop :=
  | refused_nil claims : refused [] claims [] claims
  | refused_cons f fs claims claims1 claims2 e reasons :
      f claims = (Err e, claims1) → clean_reject e = true → refused fs claims1 reasons claims2 →
      refused (f :: fs) claims (reason_of e :: reasons) claims2.

Lemma validate_all_ok fs claims out :
  validate_all fs claims = (Ok (), out) ↔ accepted fs claims out.
Proof.
  revert claims. induction fs as [|f fs IH]; intros claims; cbn [validate_all].
  - split; [intros [= <-]; constructor|]. by inversion 1.
  - destruct (f claims) as [[[]|e] claims1] eqn:Ef.
    + rewrite IH. split; [by econstructor|]. inversion 1; subst. congruence.
    + split; [done|]. inversion 1; subst. congruence.
Qed.

Lemma validate_all_err fs claims e out :
  validate_all fs claims = (Err e, out) ↔
  ∃ fs1 f fs2 mid, fs = fs1 ++ f :: fs2 ∧ accepted fs1 claims mid ∧ f mid = (Err e, out).
Proof.
  revert claims. induction fs as [|f fs IH]; intros claims; cbn [validate_all].
  - split; [done|]. by intros ([] & ? & ? & ? & ? & _).
  - destruct (f claims) as [[[]|e'] claims1] eqn:Ef.
    + rewrite IH. split.
      * intros (fs1 & g & fs2 & mid & -> & H1 & H2). exists (f :: fs1), g, fs2, mid.
        split_and!; [done| |done]. by econstructor.
      * intros ([|f' fs1] & g & fs2 & mid & Heq & H1 & H2); simplify_eq/=.
        -- inversion H1; subst. congruence.
        -- inversion H1; subst. exists fs1, g, fs2, mid. split_and!; [done| |done]. congruence.
    + split.
      * intros [= -> ->]. exists [], f, fs, claims. split_and!; [done|constructor|done].
      * intros ([|f' fs1] & g & fs2 & mid & Heq & H1 & H2); simplify_eq/=.
        -- inversion H1; subst. congruence.
        -- inversion H1; subst. congruence.
Qed.

Definition all_refused (reasons : list string) : exn :=
  ClaimsRejected ("no validator accepted the claims: " +:+ str_join "; " reasons) None.

(** [validate_any] after the validators of [fs1] rejected is [validate_any] on the rest. *)
Lemma validate_any_refused fs1 fs2 claims acc reasons mid :
  refused fs1 claims reasons mid →
  validate_any acc (fs1 ++ fs2) claims = validate_any (acc ++ reasons) fs2 mid.
Proof.
  intros H. revert acc. induction H as [claims|f fs1 claims claims1 claims2 e reasons Hf He H IH];
    intros acc; [by rewrite app_nil_r|].
  cbn [app validate_any]. rewrite Hf, He, IH. by rewrite <- app_assoc.
Qed.

(** Either every validator rejects cleanly, or there is a first that does not. *)
Lemma refused_or_first fs claims :
  (∃ reasons out, refused fs claims reasons out) ∨
  (∃ fs1 f fs2 reasons mid, fs = fs1 ++ f :: fs2 ∧ refused fs1 claims reasons mid ∧
     ∀ e, (f mid).1 = Err e → clean_reject e = false).
Proof.
  revert claims. induction fs as [|f fs IH]; intros claims; [left; repeat econstructor|].
  destruct (f claims) as [[[]|e] claims1] eqn:Ef; [|destruct (clean_reject e) eqn:Ee].
  - right. exists [], f, fs, [], claims. split_and!; [done|constructor|]. by rewrite Ef.
  - destruct (IH claims1) as [(rs & out & H)|(fs1 & g & fs2 & rs & mid & -> & H1 & H2)].
    + left. exists (reason_of e :: rs), out. by econstructor.
    + right. exists (f :: fs1), g, fs2, (reason_of e :: rs), mid.
      split_and!; [done| |done]. by econstructor.
  - right. exists [], f, fs, [], claims. split_and!; [done|constructor|]. rewrite Ef.
    by intros e' [= <-].
Qed.

(** ** Properties *)

(** C38: a policy built from [require_claims], [require_claim_value], [require_scopes] and
    [combine_claims_validators], nested at will, is built exactly when no any-of set and no
    list of names is empty; the validator it builds then implements the policy's boolean meaning
    on every claim set, leaves the claims as they are, and refuses with the typed error only. *)
Theorem policy_refinement p :
  is_ok (compile p) = well_formed p ∧
  ∀ f, compile p = Ok f → ∀ claims,
    if satisfied claims p then f claims = (Ok (), claims)
    else ∃ reason claim, f claims = (Err (ClaimsRejected reason claim), claims).
Proof. split; [apply compile_total|]. intros f Hf claims. by apply (compile_decides p). Qed.

Lemma policy_refinement_witness :
  compile sample_policy = Ok (validate_all
    [reading (λ claims, raise_if (negb (length (List.filter (λ s, negb (grants claims s)) ["read"]) =? 0))
       (ClaimsRejected ("missing required scope(s): " +:+
          str_join ", " (List.filter (λ s, negb (grants claims s)) ["read"])) (Some "scope")));
     validate_any [] [require_claim_value "tenant" (VStr "a");
       reading (λ claims, for_each (λ name, raise_if (missing claims name)
         (ClaimsRejected ("required claim " +:+ str_repr name +:+ " is missing") (Some name)))
         ["admin"])]]) ∧
  ∀ f, compile sample_policy = Ok f →
    f [("scope", VStr "read"); ("admin", VBool true)] =
      (Ok (), [("scope", VStr "read"); ("admin", VBool true)]).
Proof.
  split; [reflexivity|]. intros f Hf.
  exact (proj2 (policy_refinement sample_policy) f Hf [("scope", VStr "read"); ("admin", VBool true)]).
Defined.

(** A policy as the claims validator of a configuration: claims come out of
    [validate_claims] exactly when the policy holds of them, unchanged, and a refusal reaches
    the caller as the typed error, not wrapped. *)
Theorem policy_enforced p f c claims :
  compile p = Ok f → claims_validator c = Some f →
  (∀ out, validate_claims claims c = Ok out ↔ satisfied claims p = true ∧ out = claims) ∧
  (∀ e, validate_claims claims c = Err e → clean_reject e = true).
Proof.
  intros Hf Hc. pose proof (compile_decides p f Hf claims) as Hd. unfold validate_claims.
  rewrite Hc. destruct (satisfied claims p).
  - rewrite Hd. split; [|done]. intros out. split; [by intros [= <-]|by intros [_ ->]].
  - destruct Hd as (reason & claim & ->). split; [|by intros e [= <-]].
    intros out. split; [done|]. by intros [].
Qed.

Definition sample_config (f : ClaimsValidator) : TokenValidationConfig :=
  TVConfig true (KeyOther VNone) VNone None VNone VNone None (Some f) true VNone None None.
Lemma policy_enforced_witness :
  ∃ f, compile (PScopes ["read"]) = Ok f ∧
    (∀ e, validate_claims [("scope", VStr "write")] (sample_config f) = Err e →
      clean_reject e = true).
Proof.
  eexists. split; [reflexivity|].
  exact (proj2 (policy_enforced (PScopes ["read"]) _ (sample_config _) [("scope", VStr "write")]
    eq_refl eq_refl)).
Defined.

(** [combine_claims_validators] on arbitrary validators, which may change the claims and
    raise anything.  All-of accepts when every validator accepts in turn, and otherwise raises
    what the first one to raise raised.  Any-of is decided by the first validator that does not
    reject with the typed error, by accepting or by its exception; when all reject it raises a
    typed error listing every reason in order.  Each validator sees the claims as the previous
    ones left them. *)
Theorem combine_first_decides fs claims :
  (∀ g, combine_claims_validators fs "all" = Ok g →
    (∀ out, g claims = (Ok (), out) ↔ accepted fs claims out) ∧
    (∀ e out, g claims = (Err e, out) ↔
       ∃ fs1 f fs2 mid, fs = fs1 ++ f :: fs2 ∧ accepted fs1 claims mid ∧ f mid = (Err e, out))) ∧
  (∀ g, combine_claims_validators fs "any" = Ok g →
    (∃ reasons out, refused fs claims reasons out ∧ g claims = (Err (all_refused reasons), out)) ∨
    (∃ fs1 f fs2 reasons mid, fs = fs1 ++ f :: fs2 ∧ refused fs1 claims reasons mid ∧
       (∀ e, (f mid).1 = Err e → clean_reject e = false) ∧ g claims = f mid)).
Proof.
  split.
  - intros g. rewrite combine_all. intros [= <-].
    split; intros; [apply validate_all_ok|apply validate_all_err].
  - intros g [_ ->]%combine_any.
    destruct (refused_or_first fs claims) as [(rs & out & H)|(fs1 & f & fs2 & rs & mid & -> & H & Hf)].
    + left. exists rs, out. split; [done|].
      rewrite <- (app_nil_r fs). by rewrite (validate_any_refused _ _ _ _ _ _ H).
    + right. exists fs1, f, fs2, rs, mid. split_and!; [done..|].
      rewrite (validate_any_refused _ _ _ _ _ _ H). cbn [validate_any].
      destruct (f mid) as [[[]|e] out]; [done|]. by rewrite (Hf e).
Qed.

Definition tag : ClaimsValidator := λ claims, (Ok (), dict_set "seen" (VBool true) claims).
Lemma combine_first_decides_witness :
  accepted [tag; require_claim_value "seen" (VBool true)] [] [("seen", VBool true)].
Proof.
  exact (proj1 (proj1 (proj1 (combine_first_decides
    [tag; require_claim_value "seen" (VBool true)] []) _ eq_refl) [("seen", VBool true)]) eq_refl).
Defined.
