(* ===== verification/IdToken.v ===== *)
(** * ID token rules ([core/id_token_logic.py], [sync/id_token.py])

    The rules that make a validated token an ID token: subject, authorized party, nonce,
    [auth_time] freshness, and the [at_hash] and [c_hash] bindings; and [validate_id_token], which
    applies them to what [validate_token] returns. *)

From S2P Require Import Prelude PyStr PyValue Models Url Codec Sha2 Cache Policy HttpRetry Discovery Jwks Jwt TokenValidation.
From Stdlib Require Import QArith Ascii.
From stdpp Require Import strings.
#[global] Close Scope Q_scope.
Open Scope string_scope.
Open Scope list_scope.
Open Scope nat_scope.
Open Scope py_scope.

(** [IdTokenValidationException(msg, token_part=part)]. *)
Definition IdTokenInvalid (msg part : string) : exn :=
  Exn IdTokenValidationException msg (Some part) [] [].

(** ** Arithmetic on the numbers of a claim set

    Two integers are added exactly; otherwise both are converted to floats, where an integer
    beyond the floats raises [OverflowError].  Rounding is not modelled. *)

Definition OverflowErr : exn := mk_exn BOther "int too large to convert to float".

Definition num_float (v : pyval) : outcome pyfloat :=
  match v with
  | VInt z => if Qle_bool float_overflow (inject_Z (Z.abs z)) then Err OverflowErr
              else Ok (FFin (inject_Z z))
  | VFloat f => Ok f
  | VBool b => Ok (FFin (if b then 1 else 0)%Q)
  | _ => Err (TypeErr ("unsupported operand type(s): '" +:+ type_name v +:+ "'"))
  end.

Definition num_op (fop : pyfloat → pyfloat → pyfloat) (zop : Z → Z → Z) (a b : pyval)
    : outcome pyval :=
  match a, b with
  | VInt x, VInt y => Ok (VInt (zop x y))
  | _, _ => x ← num_float a; y ← num_float b; Ok (VFloat (fop x y))
  end.
Definition num_add : pyval → pyval → outcome pyval := num_op float_add Z.add.
Definition num_sub : pyval → pyval → outcome pyval := num_op float_sub Z.sub.
(** [a > b], which is exact between an [int] and a [float]. *)
Definition num_gt (a b : pyval) : bool :=
  match as_num a, as_num b with Some x, Some y => float_lt y x | _, _ => false end.

(** ** The hash bindings *)

Definition EDDSA_ALGS : list string := ["EdDSA"; "Ed25519"].

Definition hash_for_alg (al : pyval) : outcome (bytes → bytes) :=
  if negb (truthy al) then
    Err (IdTokenInvalid "ID token header 'alg' is required to validate at_hash/c_hash" "header")
  else
    match al with
    | VStr s =>
        let normalized := strip s in
        if bool_decide (normalized ∈ EDDSA_ALGS) then Ok sha512
        else if endswith normalized "256" then Ok sha256
        else if endswith normalized "384" then Ok sha384
        else if endswith normalized "512" then Ok sha512
        else Err (IdTokenInvalid ("Unsupported ID token 'alg' " +:+ py_repr al +:+
                                  " for at_hash/c_hash validation") "header")
    | _ => Err (AttributeError al "strip")
    end.

Definition left_half (digest : bytes) : bytes := take (length digest / 2) digest.

Definition left_half_hash (value : string) (al : pyval) (field : string) : outcome string :=
  hasher ← hash_for_alg al;
  match encode_ascii value with
  | None => Err (IdTokenInvalid ("ID token " +:+ field +:+
                   " must be ASCII to compute its at_hash/c_hash") "payload")
  | Some octets => Ok (b64url (left_half (hasher octets)))
  end.

Definition hashes_equal (actual expected field : string) : outcome bool :=
  match compare_digest (text actual) (text expected) with
  | Ok b => Ok b
  | Err e => if isinstance e BTypeError
             then Err (IdTokenInvalid ("ID token " +:+ field +:+ " comparison requires ASCII values")
                         "payload")
             else Err e
  end.

(** [not isinstance(claim, str) or not _hashes_equal(claim, expected, field)] raises [e]. *)
Definition require_equal (claim : pyval) (expected field : string) (e : exn) : outcome unit :=
  match claim with
  | VStr actual => same ← hashes_equal actual expected field; raise_if (negb same) e
  | _ => Err e
  end.

(** ** The profile *)

Definition not_number (v : pyval) : bool :=
  match v with VInt _ | VFloat _ => false | _ => true end.

(** [when_given o f] runs [f] on the argument of an optional parameter that is not [None]. *)
Definition when_given {A} (o : option A) (f : A → outcome unit) : outcome unit :=
  match o with Some a => f a | None => Ok () end.

(** [clock] is [time.time()]. *)
Definition validate_id_token_claims (clock : Q) (claims : pydict) (header_alg : pyval)
    (client_id : pyval) (nonce access_token code : option string) (max_age : option Z)
    (lw : pyval) (now : option Q) : outcome unit :=
  _ ← raise_if (negb (truthy (dget "sub" claims)))
        (IdTokenInvalid "ID token missing required 'sub' claim" "payload");
  let aud := dget "aud" claims in
  let azp := dget "azp" claims in
  _ ← raise_if (match aud with VList (_ :: _ :: _) => negb (truthy azp) | _ => false end)
        (IdTokenInvalid "ID token with multiple audiences must contain an 'azp' claim" "payload");
  _ ← raise_if (negb (is_none azp) && negb (is_none client_id) && negb (py_eq azp client_id))
        (IdTokenInvalid "ID token 'azp' claim does not match the configured client_id" "payload");
  _ ← when_given nonce (λ nonce,
        require_equal (dget "nonce" claims) nonce "'nonce'"
          (IdTokenInvalid "ID token 'nonce' claim does not match the expected value" "payload"));
  _ ← when_given max_age (λ max_age,
        let auth_time := dget "auth_time" claims in
        _ ← raise_if (not_number auth_time)
              (IdTokenInvalid "ID token missing required numeric 'auth_time' claim for max_age check"
                 "payload");
        let current := VFloat (FFin (default clock now)) in
        age ← num_sub current auth_time;
        limit ← num_add (VInt max_age) lw;
        raise_if (num_gt age limit)
          (IdTokenInvalid "ID token 'auth_time' is older than the permitted max_age" "payload"));
  _ ← when_given access_token (λ access_token,
        expected_at_hash ← left_half_hash access_token header_alg "access_token";
        require_equal (dget "at_hash" claims) expected_at_hash "'at_hash'"
          (IdTokenInvalid "ID token 'at_hash' claim does not match the access token" "payload"));
  when_given code (λ code,
    expected_c_hash ← left_half_hash code header_alg "code";
    require_equal (dget "c_hash" claims) expected_c_hash "'c_hash'"
      (IdTokenInvalid "ID token 'c_hash' claim does not match the authorization code" "payload")).

(** [leeway or 0.0]. *)
Definition or_zero (lw : pyval) : pyval := if truthy lw then lw else VFloat (FFin 0).

Section IdToken.
Context (env : string → option string) (http_date : string → option Q) (wall : Q).
Context (http : nat → string → outcome HttpResponse).
Context (clock : nat → Q).
Context (get_unverified_header : string → outcome pydict).
Context {PyJWK : Type} (new_pyjwk : pydict → option pyval → outcome PyJWK).
Context (decode : nat → string → PyJWK → DecodeArgs → outcome pydict).

(** [wall] is [time.time()], here and in [validate_token]. *)
Definition validate_id_token (id_token : string) (c : TokenValidationConfig)
    (disco_doc_address : option string) (injected : bool)
    (nonce access_token code : option string) (max_age : option Z) : stM TVState exn pydict :=
  claims ← validate_token env http_date wall http clock get_unverified_header new_pyjwk decode
             id_token c disco_doc_address injected;
  '(_, header_alg) ← lift (extract_jwt_header_fields get_unverified_header id_token);
  _ ← lift (validate_id_token_claims wall claims header_alg (audience c) nonce access_token code
              max_age (or_zero (leeway c)) (Some wall));
  mret claims.
End IdToken.

(** ** Tests on concrete inputs *)

(** The [at_hash] example of OpenID Connect Core 1.0, appendix A.3. *)
Example at_hash_1 :
  left_half_hash "jHkWEdUXMU1BwAsC4vtUsZwnNvTIxEl0z9K3vx5KF0Y" (VStr "RS256") "access_token"
    = Ok "77QmUPtjPfzWtF2AnpK9RQ".
Proof. vm_compute. reflexivity. Qed.

(** ** The rules, declaratively *)

(** [claim] is the unpadded base64url text of the left half of the digest of [value] under the
    hash of [al]. *)
Definition bound_to (al : pyval) (value : string) (claim : pyval) : Prop :=
  ∃ hasher octets s, hash_for_alg al = Ok hasher ∧ encode_ascii value = Some octets ∧
    claim = VStr s ∧ sforall is_b64 s = true ∧ s = b64url (left_half (hasher octets)) ∧
    b64url_decode s = left_half (hasher octets).

Definition auth_recent (current : Q) (auth_time : pyval) (max_age : Z) (lw : pyval) : Prop :=
  not_number auth_time = false ∧
  ∃ age limit, num_sub (VFloat (FFin current)) auth_time = Ok age ∧
    num_add (VInt max_age) lw = Ok limit ∧ num_gt age limit = false.

Record id_token_ok (current : Q) (claims : pydict) (header_alg client_id : pyval)
    (nonce access_token code : option string) (max_age : option Z) (lw : pyval) : Prop := {
  ok_sub : truthy (dget "sub" claims) = true;
  ok_azp_present : ∀ l, dget "aud" claims = VList l → 1 < length l →
    truthy (dget "azp" claims) = true;
  ok_azp : dget "azp" claims ≠ VNone → client_id ≠ VNone →
    py_eq (dget "azp" claims) client_id = true;
  ok_nonce : ∀ n, nonce = Some n → dget "nonce" claims = VStr n ∧ isascii n = true;
  ok_max_age : ∀ m, max_age = Some m → auth_recent current (dget "auth_time" claims) m lw;
  ok_at_hash : ∀ t, access_token = Some t → bound_to header_alg t (dget "at_hash" claims);
  ok_c_hash : ∀ t, code = Some t → bound_to header_alg t (dget "c_hash" claims);
}.

(** ** Lemmas *)

Lemma hash_for_alg_ok al h :
  hash_for_alg al = Ok h → h = sha256 ∨ h = sha384 ∨ h = sha512.
Proof.
  unfold hash_for_alg. destruct (negb (truthy al)); [done|]. destruct al; try done.
  destruct (bool_decide _); [naive_solver|].
  destruct (endswith _ "256"); [naive_solver|]. destruct (endswith _ "384"); [naive_solver|].
  destruct (endswith _ "512"); naive_solver.
Qed.

Lemma forallb_take {A} (p : A → bool) n l : forallb p l = true → forallb p (take n l) = true.
Proof.
  revert n. induction l as [|x l IH]; intros [|n]; try done. cbn [forallb take].
  intros [Hx Hl]%andb_true_iff. by rewrite Hx, IH.
Qed.

Lemma left_half_bytes al h octets :
  hash_for_alg al = Ok h → forallb is_byte (left_half (h octets)) = true.
Proof.
  intros [->|[->| ->]]%hash_for_alg_ok; apply forallb_take;
    [apply sha256_shape|apply sha384_shape|apply sha512_shape].
Qed.

Lemma is_b64_ascii c : is_b64 c = true → is_ascii c = true.
Proof. by all_ascii c. Qed.

Lemma when_given_ok {A} (o : option A) f :
  when_given o f = Ok () ↔ ∀ a, o = Some a → f a = Ok ().
Proof. destruct o; simpl; naive_solver. Qed.

Lemma hashes_equal_ok a b field r :
  hashes_equal a b field = Ok r ↔ isascii a = true ∧ isascii b = true ∧ r = (a ≟ b).
Proof.
  unfold hashes_equal. rewrite <- !text_isascii.
  destruct (compare_digest (text a) (text b)) as [b'|e] eqn:E.
  - apply compare_digest_ok in E as (Ha & Hb & ->).
    assert ((text a ≟ text b) = (a ≟ b)) as -> by (apply bool_decide_ext, text_inj_iff).
    naive_solver.
  - split; [by destruct (isinstance _ _)|]. intros (Ha & Hb & _). unfold compare_digest in E.
    by rewrite Ha, Hb in E.
Qed.

Lemma require_equal_ok claim expected field e :
  require_equal claim expected field e = Ok () ↔ claim = VStr expected ∧ isascii expected = true.
Proof.
  unfold require_equal. destruct claim; try (split; [done|naive_solver]).
  rewrite result_bind_ok. setoid_rewrite hashes_equal_ok. setoid_rewrite raise_if_ok. split.
  - intros (r & (Ha & Hb & ->) & Hr). apply negb_false_iff, bool_decide_eq_true in Hr as ->. done.
  - intros [[= ->] Ha]. exists true. bd_refl. done.
Qed.

Lemma left_half_hash_ok value al field s :
  left_half_hash value al field = Ok s ↔
  ∃ h octets, hash_for_alg al = Ok h ∧ encode_ascii value = Some octets ∧
    s = b64url (left_half (h octets)).
Proof.
  unfold left_half_hash. rewrite result_bind_ok. split.
  - intros (h & Hh & Ho). destruct (encode_ascii value) as [octets|]; [|done].
    injection Ho as <-. eauto.
  - intros (h & octets & Hh & Ho & ->). exists h. by rewrite Ho.
Qed.

Lemma bound_to_ok value al field claim efield e :
  (expected ← left_half_hash value al field; require_equal claim expected efield e) = Ok () ↔
  bound_to al value claim.
Proof.
  rewrite result_bind_ok. setoid_rewrite left_half_hash_ok. setoid_rewrite require_equal_ok.
  unfold bound_to. split.
  - intros (s & (h & octets & Hh & Ho & ->) & -> & Ha). exists h, octets, (b64url (left_half (h octets))).
    pose proof (left_half_bytes _ _ octets Hh).
    split_and!; try done; [by apply b64url_alphabet|by apply b64url_decode_encode].
  - intros (h & octets & s & Hh & Ho & -> & Hs & -> & _). eexists.
    split; [by exists h, octets|]. split; [done|].
    eapply sforall_impl; [apply is_b64_ascii|done].
Qed.

Lemma multiple_audiences_ok aud azp :
  match aud with VList (_ :: _ :: _) => negb (truthy azp) | _ => false end = false ↔
  ∀ l, aud = VList l → 1 < length l → truthy azp = true.
Proof.
  split.
  - intros H l -> Hl. destruct l as [|? [|? l]]; simpl in *; try lia. by apply negb_false_iff.
  - intros H. destruct aud as [| | | | |l|]; try done. destruct l as [|a [|b l]]; try done.
    rewrite (H _ eq_refl); [done|simpl; lia].
Qed.

Lemma is_none_ne v : is_none v = false ↔ v ≠ VNone.
Proof. by destruct v. Qed.

Lemma azp_ok azp client_id :
  negb (is_none azp) && negb (is_none client_id) && negb (py_eq azp client_id) = false ↔
  (azp ≠ VNone → client_id ≠ VNone → py_eq azp client_id = true).
Proof.
  rewrite <- !is_none_ne. destruct (is_none azp), (is_none client_id), (py_eq azp client_id);
    simpl; naive_solver.
Qed.

Lemma auth_recent_ok current auth_time m lw e1 e2 :
  (_ ← raise_if (not_number auth_time) e1;
   age ← num_sub (VFloat (FFin current)) auth_time;
   limit ← num_add (VInt m) lw;
   raise_if (num_gt age limit) e2) = Ok () ↔ auth_recent current auth_time m lw.
Proof.
  unfold auth_recent. rewrite raise_if_seq_ok, result_bind_ok. apply and_iff_compat_l. split.
  - intros (age & Ha & (limit & Hl & Hg)%result_bind_ok). apply raise_if_ok in Hg. eauto.
  - intros (age & limit & Ha & Hl & Hg). exists age. split; [done|].
    apply result_bind_ok. exists limit. by rewrite raise_if_ok.
Qed.

(** The checks decide the rules. *)
Lemma validate_id_token_claims_ok clock claims al client_id nonce access_token code max_age lw now :
  validate_id_token_claims clock claims al client_id nonce access_token code max_age lw now = Ok () ↔
  id_token_ok (default clock now) claims al client_id nonce access_token code max_age lw.
Proof.
  unfold validate_id_token_claims. cbv zeta.
  rewrite !raise_if_seq_ok, !result_seq_ok, multiple_audiences_ok, azp_ok, !when_given_ok.
  split.
  - intros (Hsub & Haud & Hazp & Hn & Hm & Ht & H). constructor; try done.
    + by apply negb_false_iff.
    + intros n Heq. by eapply require_equal_ok, Hn.
    + intros m Heq. by eapply auth_recent_ok, Hm.
    + intros t Heq. by eapply bound_to_ok, Ht.
    + intros t Heq. by eapply bound_to_ok, H.
  - intros [Hsub Haud Hazp Hn Hm Ht Hc]. rewrite Hsub. split_and!; try done.
    + intros n Heq. by apply require_equal_ok, Hn.
    + intros m Heq. by apply auth_recent_ok, Hm.
    + intros t Heq. by apply bound_to_ok, Ht.
    + intros t Heq. by apply bound_to_ok, Hc.
Qed.

(** What the checks can raise on a header [alg] that is a string or absent and a numeric leeway:
    the profile's own exception, or the overflow of a conversion to a float. *)
Definition profile_error (e : exn) : Prop :=
  isinstance e IdTokenValidationException = true ∨ e = OverflowErr.

Definition is_number (v : pyval) : bool := match as_num v with Some _ => true | None => false end.
Definition alg_shape (v : pyval) : bool := match v with VStr _ | VNone => true | _ => false end.

Lemma profile_error_invalid msg part : profile_error (IdTokenInvalid msg part).
Proof. by left. Qed.
#[local] Hint Resolve profile_error_invalid : errors.

Lemma hash_for_alg_errors al : alg_shape al = true → errors_in profile_error (hash_for_alg al).
Proof.
  unfold hash_for_alg. destruct al as [| | | |s| |]; try done; intros _; cbv zeta.
  - apply errors_in_err. auto with errors.
  - repeat (match goal with |- context [if ?b then _ else _] => destruct b end;
      [by auto with errors|]).
    auto with errors.
Qed.

Lemma left_half_hash_errors value al field :
  alg_shape al = true → errors_in profile_error (left_half_hash value al field).
Proof.
  intros Hal. apply errors_in_bind; [by apply hash_for_alg_errors|]. intros h _.
  destruct (encode_ascii value); auto with errors.
Qed.

Lemma hashes_equal_errors a b field : errors_in profile_error (hashes_equal a b field).
Proof.
  unfold hashes_equal, compare_digest. destruct (_ && _); [auto with errors|].
  by apply errors_in_err, profile_error_invalid.
Qed.

Lemma require_equal_errors claim expected field e :
  profile_error e → errors_in profile_error (require_equal claim expected field e).
Proof.
  intros He. destruct claim; try (by apply errors_in_err).
  apply errors_in_bind; [apply hashes_equal_errors|]. auto with errors.
Qed.

Lemma num_float_errors v : is_number v = true → errors_in profile_error (num_float v).
Proof.
  destruct v; try done; intros _; cbn [num_float]; auto with errors.
  destruct (Qle_bool _ _); [|auto with errors]. apply errors_in_err. by right.
Qed.

Lemma num_op_errors fop zop a b :
  is_number a = true → is_number b = true → errors_in profile_error (num_op fop zop a b).
Proof.
  intros Ha Hb.
  assert (H : errors_in profile_error (x ← num_float a; y ← num_float b; Ok (VFloat (fop x y)))).
  { apply errors_in_bind; [by apply num_float_errors|]. intros x _.
    apply errors_in_bind; [by apply num_float_errors|]. auto with errors. }
  destruct a, b; first [exact H|apply errors_in_ok].
Qed.

Lemma not_number_is v : not_number v = false → is_number v = true.
Proof. by destruct v. Qed.

Lemma when_given_errors {A} (P : exn → Prop) (o : option A) f :
  (∀ a, errors_in P (f a)) → errors_in P (when_given o f).
Proof. intros H. destruct o; simpl; auto with errors. Qed.

Lemma validate_id_token_claims_errors clock claims al client_id nonce access_token code max_age lw now :
  alg_shape al = true → is_number lw = true →
  errors_in profile_error
    (validate_id_token_claims clock claims al client_id nonce access_token code max_age lw now).
Proof.
  intros Hal Hlw. unfold validate_id_token_claims. cbv zeta.
  do 3 (apply errors_in_bind; [apply errors_in_raise_if; auto with errors|intros _ _]).
  apply errors_in_bind; [|intros _ _].
  { apply when_given_errors. intros n. apply require_equal_errors. auto with errors. }
  apply errors_in_bind; [|intros _ _].
  { apply when_given_errors. intros m.
    apply errors_in_bind; [apply errors_in_raise_if; auto with errors|].
    intros _ Hn%raise_if_ok%not_number_is.
    apply errors_in_bind; [by apply num_op_errors|]. intros age _.
    apply errors_in_bind; [by apply num_op_errors|]. auto with errors. }
  apply errors_in_bind; [|intros _ _]; apply when_given_errors; intros t;
    (apply errors_in_bind; [by apply left_half_hash_errors|]; intros s _;
     apply require_equal_errors; auto with errors).
Qed.

(** An integer that converts to a float. *)
Definition representable (v : pyval) : bool :=
  match v with VInt z => negb (Qle_bool float_overflow (inject_Z (Z.abs z))) | _ => true end.

Lemma num_float_num v f :
  not_number v = false → representable v = true → as_num v = Some f → num_float v = Ok f.
Proof.
  destruct v; try done; cbn [representable as_num num_float]; intros _ Hr [= <-]; [|done].
  apply negb_true_iff in Hr. by rewrite Hr.
Qed.

Lemma num_sub_fin p v q :
  not_number v = false → representable v = true → as_num v = Some (FFin q) →
  num_sub (VFloat (FFin p)) v = Ok (VFloat (FFin (p - q))).
Proof.
  intros Hn Hr Hq. unfold num_sub, num_op.
  assert ((y ← num_float v; Ok (VFloat (float_sub (FFin p) y))) = Ok (VFloat (FFin (p - q)))) as H
    by by rewrite (num_float_num _ _ Hn Hr Hq).
  destruct v; exact H.
Qed.

(** The sum of two finite numbers, as the number it compares as. *)
Lemma num_add_fin m v q :
  not_number v = false → representable v = true → representable (VInt m) = true →
  as_num v = Some (FFin q) →
  ∃ w r, num_add (VInt m) v = Ok w ∧ as_num w = Some (FFin r) ∧ (r == inject_Z m + q)%Q.
Proof.
  intros Hn Hr Hm Hq. destruct v as [| |z|f| | |]; try done.
  - exists (VInt (m + z)), (inject_Z (m + z)). split_and!; [done..|].
    injection Hq as <-. by rewrite inject_Z_plus.
  - exists (VFloat (FFin (inject_Z m + q))), (inject_Z m + q)%Q. injection Hq as ->.
    unfold num_add, num_op. rewrite (num_float_num (VInt m) _ eq_refl Hm eq_refl). done.
Qed.

Lemma auth_recent_fin current v t m lw l :
  not_number v = false → not_number lw = false → as_num v = Some (FFin t) →
  as_num lw = Some (FFin l) →
  representable v = true → representable lw = true → representable (VInt m) = true →
  auth_recent current v m lw ↔ (current - t <= inject_Z m + l)%Q.
Proof.
  intros Hn Hnl Ht Hl Hr Hrl Hrm. unfold auth_recent.
  destruct (num_add_fin m lw l Hnl Hrl Hrm Hl) as (w & r & Hw & Hwr & Hr').
  rewrite (num_sub_fin current v t Hn Hr Ht), Hw. rewrite <- Hr'.
  assert (num_gt (VFloat (FFin (current - t))) w = false ↔ (current - t <= r)%Q) as Hg.
  { unfold num_gt. rewrite Hwr. cbn [as_num]. rewrite <- not_true_iff_false, float_lt_fin.
    split; [apply Qnot_lt_le|apply Qle_not_lt]. }
  split.
  - intros (_ & age & limit & [= <-] & [= <-] & H). by apply Hg.
  - intros H. split; [done|]. eexists _, _. split; [done|]. split; [done|]. by apply Hg.
Qed.

Lemma take_half {A} (l : list A) : length (take (length l / 2) l) = length l / 2.
Proof. rewrite length_take. pose proof (Nat.Div0.div_le_upper_bound (length l) 2 (length l)). lia. Qed.

Lemma bound_to_length al v claim :
  bound_to al v claim → ∃ s, claim = VStr s ∧ String.length s ∈ [22; 32; 43].
Proof.
  intros (h & octets & s & Hh & _ & -> & _ & -> & _). eexists. split; [done|].
  rewrite b64url_length by (by eapply left_half_bytes). unfold left_half. rewrite take_half.
  apply hash_for_alg_ok in Hh as [->|[->| ->]];
    rewrite ?(proj1 (sha256_shape _)), ?(proj1 (sha384_shape _)), ?(proj1 (sha512_shape _)).
  - left.
  - right. left.
  - right. right. left.
Qed.

(** ** Properties *)

(** [validate_id_token_claims] decides the ID token profile.  It succeeds exactly when the
    subject is present, several audiences come with an authorized party, an authorized party is
    the configured client, the nonce is the one sent, [auth_time] is recent enough, and the hash
    claims are the encoded left halves of the digests of the token and the code; and what it
    raises, on a header whose [alg] is a string or absent, is its own exception, except for the
    overflow of a number that no float holds. *)
Theorem id_token_claims_spec clock claims al client_id nonce access_token code max_age lw now :
  (validate_id_token_claims clock claims al client_id nonce access_token code max_age lw now = Ok () ↔
   id_token_ok (default clock now) claims al client_id nonce access_token code max_age lw) ∧
  (alg_shape al = true → is_number lw = true → ∀ e,
   validate_id_token_claims clock claims al client_id nonce access_token code max_age lw now = Err e →
   isinstance e IdTokenValidationException = true ∨ e = OverflowErr).
Proof.
  split; [apply validate_id_token_claims_ok|]. intros Hal Hlw e.
  by apply validate_id_token_claims_errors.
Qed.

Definition demo_id_claims : pydict :=
  [("sub", VStr "alice"); ("aud", VStr "app"); ("nonce", VStr "n-0S6_WzA2Mj");
   ("auth_time", VInt 1000);
   ("at_hash", VStr "77QmUPtjPfzWtF2AnpK9RQ")].
Definition demo_access_token : string := "jHkWEdUXMU1BwAsC4vtUsZwnNvTIxEl0z9K3vx5KF0Y".

Lemma id_token_claims_spec_witness :
  id_token_ok 1060 demo_id_claims (VStr "RS256") (VStr "app") (Some "n-0S6_WzA2Mj")
    (Some demo_access_token) None (Some 60%Z) (VInt 0) ∧
  ∀ e, validate_id_token_claims 1061 demo_id_claims (VStr "RS256") (VStr "app") None None None
         (Some 60%Z) (VInt 0) None = Err e →
    isinstance e IdTokenValidationException = true ∨ e = OverflowErr.
Proof.
  split.
  - apply (id_token_claims_spec 0 demo_id_claims (VStr "RS256") (VStr "app") (Some "n-0S6_WzA2Mj")
      (Some demo_access_token) None (Some 60%Z) (VInt 0) (Some 1060%Q)). vm_compute. reflexivity.
  - apply (id_token_claims_spec 1061 demo_id_claims (VStr "RS256") (VStr "app") None None None
      (Some 60%Z) (VInt 0) None); reflexivity.
Defined.

(** The [max_age] check on numbers: it passes exactly when the time since authentication is
    within [max_age] and the leeway, for every finite [auth_time]; but an [auth_time] that is not
    a number, or is positive infinity, both of which a JSON parser accepts, passes it at any
    time. *)
Theorem auth_time_window :
  (∀ current v t m lw l, not_number v = false → not_number lw = false →
    as_num v = Some (FFin t) → as_num lw = Some (FFin l) →
    representable v = true → representable lw = true → representable (VInt m) = true →
    auth_recent current v m lw ↔ (current - t <= inject_Z m + l)%Q) ∧
  (∀ clock claims al m, truthy (dget "sub" claims) = true →
    is_none (dget "azp" claims) = true → (∀ l, dget "aud" claims ≠ VList l) →
    dget "auth_time" claims ∈ [VFloat FNan; VFloat (FInf false)] →
    validate_id_token_claims clock claims al VNone None None None (Some m) (VInt 0) None = Ok ()).
Proof.
  split; [exact auth_recent_fin|].
  intros clock claims al m Hsub Hazp Haud Ht. apply validate_id_token_claims_ok.
  constructor; try done.
  - intros l Hl. by destruct (Haud l).
  - intros m' [= <-]. apply elem_of_cons in Ht as [-> |Ht]; [|apply list_elem_of_singleton in Ht as ->];
      (split; [done|]; eexists _, _; split; [done|]; split; [done|]; reflexivity).
Qed.

Lemma auth_time_window_witness :
  auth_recent 1060 (VInt 1000) 60 (VInt 0) ∧
  validate_id_token_claims (10 ^ 9) [("sub", VStr "alice"); ("auth_time", VFloat FNan)] VNone VNone
    None None None (Some 0%Z) (VInt 0) None = Ok ().
Proof.
  split.
  - apply (proj2 (proj1 auth_time_window 1060%Q (VInt 1000) 1000%Q 60%Z (VInt 0) 0%Q eq_refl eq_refl
      eq_refl eq_refl eq_refl eq_refl eq_refl)). vm_compute. discriminate.
  - apply (proj2 auth_time_window); [done|done|done|left].
Defined.

(** The hash bindings bind.  A claim that [validate_id_token_claims] accepts for an access
    token has one of the three lengths of an unpadded half digest, and two access tokens it is
    accepted for have the same left half of the digest, so that swapping the token needs a
    collision of the truncated hash. *)
Theorem at_hash_binds clock claims al cid nonce t t' code max_age lw now :
  validate_id_token_claims clock claims al cid nonce (Some t) code max_age lw now = Ok () →
  validate_id_token_claims clock claims al cid nonce (Some t') code max_age lw now = Ok () →
  (∃ s, dget "at_hash" claims = VStr s ∧ String.length s ∈ [22; 32; 43]) ∧
  isascii t = true ∧ isascii t' = true ∧
  ∃ h, hash_for_alg al = Ok h ∧ left_half (h (text t)) = left_half (h (text t')).
Proof.
  intros [_ _ _ _ _ H _]%validate_id_token_claims_ok [_ _ _ _ _ H' _]%validate_id_token_claims_ok.
  specialize (H t eq_refl). specialize (H' t' eq_refl). split; [by eapply bound_to_length|].
  destruct H as (h & o & s & Hh & Ho & Hs & _ & _ & Hd).
  destruct H' as (h' & o' & s' & Hh' & Ho' & Hs' & _ & _ & Hd').
  unfold encode_ascii in *. destruct (isascii t), (isascii t'); try done. simplify_eq.
  split_and!; try done. exists h. split; [done|congruence].
Qed.

Lemma at_hash_binds_witness :
  ∃ s, dget "at_hash" demo_id_claims = VStr s ∧ String.length s ∈ [22; 32; 43].
Proof.
  exact (proj1 (at_hash_binds 0%Q demo_id_claims (VStr "RS256") VNone None demo_access_token
    demo_access_token None None (VInt 0) None
    ltac:(vm_compute; reflexivity) ltac:(vm_compute; reflexivity))).
Defined.

(** C22: [validate_id_token] returns a claim set exactly when [validate_token] returns it and it
    satisfies the ID token profile, under the algorithm of the token's own header and the
    configured audience as the client; it leaves the caches as [validate_token] does.  So, from
    a reachable state, what it returns was also accepted by PyJWT under an admitted key. *)
Theorem validate_id_token_sound env http_date wall http clock header {PyJWK : Type} new_pyjwk decode
    jwt c addr injected nonce access_token code max_age s out s' :
  reachable env http_date wall http clock header (PyJWK:=PyJWK) new_pyjwk decode s →
  (validate_id_token env http_date wall http clock header new_pyjwk decode jwt c addr injected
     nonce access_token code max_age s = (Ok out, s') ↔
   validate_token env http_date wall http clock header new_pyjwk decode jwt c addr injected s
     = (Ok out, s') ∧
   ∃ h, header jwt = Ok h ∧
     id_token_ok wall out (dget "alg" h) (audience c) nonce access_token code max_age
       (or_zero (leeway c))) ∧
  (validate_id_token env http_date wall http clock header new_pyjwk decode jwt c addr injected
     nonce access_token code max_age s = (Ok out, s') →
   ∃ claims, token_accepted env http header new_pyjwk decode jwt c addr claims ∧
     validate_claims claims c = Ok out).
Proof.
  intros Hreach. set (run := validate_token env http_date wall http clock header new_pyjwk decode
    jwt c addr injected s).
  assert (Hiff : validate_id_token env http_date wall http clock header new_pyjwk decode jwt c addr
    injected nonce access_token code max_age s = (Ok out, s') ↔ run = (Ok out, s') ∧
    ∃ h, header jwt = Ok h ∧ id_token_ok wall out (dget "alg" h) (audience c) nonce access_token
      code max_age (or_zero (leeway c))).
  { unfold validate_id_token, mbind, stM_bind. fold run.
    destruct run as [[claims|e] s1]; [|naive_solver].
    unfold lift, extract_jwt_header_fields. destruct (header jwt) as [h|e]; cbn [mbind result_bind];
      [|naive_solver].
    destruct (validate_id_token_claims _ _ _ _ _ _ _ _ _ _) as [[]|e] eqn:Ev;
      unfold mret, stM_ret.
    - apply validate_id_token_claims_ok in Ev. naive_solver.
    - split; [done|]. intros [[= -> ->] (h' & [= <-] & Hok)].
      assert (Hv : validate_id_token_claims wall out (dget "alg" h) (audience c) nonce access_token
        code max_age (or_zero (leeway c)) (Some wall) = Ok ())
        by by apply validate_id_token_claims_ok.
      congruence. }
  split; [exact Hiff|]. intros [Hrun _]%Hiff. apply reachable_inv in Hreach.
  pose proof (triple_validate_token env http_date wall http clock header new_pyjwk decode
    jwt c addr injected s Hreach) as H. fold run in H. rewrite Hrun in H. by destruct H.
Qed.

Lemma validate_id_token_sound_witness :
  ∃ out s', validate_id_token empty_env no_dates 0 (demo_http "https://op.example/jwks") demo_clock
      demo_header toy_new_pyjwk demo_decode "token" (demo_config None) (Some op_address) false
      None None None None initial_state = (Ok out, s') ∧
    ∃ claims, token_accepted empty_env (demo_http "https://op.example/jwks") demo_header
      toy_new_pyjwk demo_decode "token" (demo_config None) (Some op_address) claims ∧
      validate_claims claims (demo_config None) = Ok out.
Proof.
  eexists _, _. split; [vm_compute; reflexivity|].
  eapply (validate_id_token_sound empty_env no_dates 0 (demo_http "https://op.example/jwks")
    demo_clock demo_header toy_new_pyjwk demo_decode "token" (demo_config None) (Some op_address)
    false None None None None initial_state _ _ (reach_init _ _ _ _ _ _ _ _)).
  vm_compute. reflexivity.
Defined.
