(* ===== verification/Callback.v ===== *)
(** * Authorization callbacks ([core/authorize_response.py], [core/state_validation.py])

    Parsing of the redirect URI an authorization server sends the browser back with, and the
    checks of its [state] (against request forgery) and [iss] (against mix-up) parameters.  The
    parameters are Unicode text ([ustr]); the redirect URI itself is a [string]. *)

From S2P Require Import Prelude PyStr PyValue Models Url Codec.
From Stdlib Require Import Ascii.
From stdpp Require Import strings.
Open Scope string_scope.
Open Scope list_scope.
Open Scope nat_scope.
Open Scope py_scope.

(** ** [int] on Unicode text *)

(** The zeros of the decimal digits beyond ASCII (Unicode 15.0): nine digits follow each. *)
Definition decimal_zeros : list Z :=
  [0x660; 0x6f0; 0x7c0; 0x966; 0x9e6; 0xa66; 0xae6; 0xb66; 0xbe6; 0xc66; 0xce6; 0xd66; 0xde6;
   0xe50; 0xed0; 0xf20; 0x1040; 0x1090; 0x17e0; 0x1810; 0x1946; 0x19d0; 0x1a80; 0x1a90; 0x1b50;
   0x1bb0; 0x1c40; 0x1c50; 0xa620; 0xa8d0; 0xa900; 0xa9d0; 0xa9f0; 0xaa50; 0xabf0; 0xff10;
   0x104a0; 0x10d30; 0x11066; 0x110f0; 0x11136; 0x111d0; 0x112f0; 0x11450; 0x114d0; 0x11650;
   0x116c0; 0x11730; 0x118e0; 0x11950; 0x11c50; 0x11d50; 0x11da0; 0x11f50; 0x16a60; 0x16ac0;
   0x16b50; 0x1d7ce; 0x1d7d8; 0x1d7e2; 0x1d7ec; 0x1d7f6; 0x1e140; 0x1e2f0; 0x1e4f0; 0x1e950;
   0x1fbf0]%Z.
(** The blanks beyond ASCII. *)
Definition is_wide_space (c : Z) : bool :=
  bool_decide (c ∈ [0x85; 0xa0; 0x1680; 0x2028; 0x2029; 0x202f; 0x205f; 0x3000]%Z) ||
  in_range 0x2000 0x200a c.

(** The ASCII character [int] reads a code point as; an unusable one becomes a question mark. *)
Definition numeral_char (c : Z) : ascii :=
  if (c <? 128)%Z then chr c
  else if is_wide_space c then " "%char
  else match List.find (λ z, in_range z (z + 9) c) decimal_zeros with
       | Some z => chr (48 + (c - z))
       | None => "?"%char
       end.
Definition int_of_ustr (u : ustr) : option Z :=
  int_of_string (String.string_of_list_ascii (map numeral_char u)).

(** ** The parsed response *)

Definition ALLOWED_SCHEMES : list string := ["https"; "http"].

Definition callback_guarded_fields : list string :=
  ["code"; "access_token"; "identity_token"; "token_type"; "expires_in"; "scope";
   "refresh_token"; "session_state"; "issuer"].

Record AuthorizeCallbackResponse : Type := Callback {
  cb_is_successful : bool;
  raw : string;
  values : list (ustr * ustr);
  cb_code : option ustr;
  cb_access_token : option ustr;
  cb_identity_token : option ustr;
  cb_token_type : option ustr;
  cb_expires_in : option Z;
  cb_scope : option ustr;
  cb_refresh_token : option ustr;
  cb_state : option ustr;
  cb_session_state : option ustr;
  cb_issuer : option ustr;
  cb_error : option ustr;
  cb_error_description : option ustr;
}.

(** Attribute access through the guard of [_GuardedResponseMixin]. *)
Definition callback_attr {A} (r : AuthorizeCallbackResponse) (name : string)
    (field : AuthorizeCallbackResponse → A) : outcome A :=
  getattribute callback_guarded_fields (cb_is_successful r) (show_text <$> cb_error r) name (field r).

(** [_PARAM_TO_FIELD]: the parameter and the field it fills. *)
Definition PARAM_TO_FIELD : list (string * string) :=
  [("code", "code"); ("access_token", "access_token"); ("id_token", "identity_token");
   ("token_type", "token_type"); ("expires_in", "expires_in"); ("scope", "scope");
   ("refresh_token", "refresh_token"); ("state", "state"); ("session_state", "session_state");
   ("iss", "issuer"); ("error", "error"); ("error_description", "error_description")].

(** The value of a field: a parameter as it is, or [expires_in] as a number. *)
Inductive field_value (V : Type) : Type := FRaw (v : V) | FInt (z : Z).
Arguments FRaw {V} v.
Arguments FInt {V} z.

(** [_map_params_to_fields].  [int] is the conversion, whose [ValueError] and [TypeError] drop the
    field. *)
Section MapParams.
Context {V : Type} (int : V → outcome Z).

Definition param_field (values : list (ustr * V)) (pf : string * string)
    : outcome (option (string * field_value V)) :=
  match alist_get (text pf.1) values with
  | None => Ok None
  | Some v =>
      if pf.2 ≟ "expires_in" then
        match int v with
        | Ok z => Ok (Some (pf.2, FInt z))
        | Err e => if isinstance e BValueError || isinstance e BTypeError then Ok None else Err e
        end
      else Ok (Some (pf.2, FRaw v))
  end.
Definition map_params_to_fields (values : list (ustr * V))
    : outcome (list (string * field_value V)) :=
  present ← mapM_ok (param_field values) PARAM_TO_FIELD;
  Ok (omap (M:=list) id present).
End MapParams.

Definition int_of_param (v : ustr) : outcome Z :=
  match int_of_ustr v with
  | Some z => Ok z
  | None => Err (ValueErr "invalid literal for int() with base 10")
  end.

Fixpoint field_get {V} (name : string) (l : list (string * field_value V)) : option (field_value V) :=
  match l with
  | [] => None
  | (n, v) :: l' => if name ≟ n then Some v else field_get name l'
  end.
Definition text_field (name : string) (l : list (string * field_value ustr)) : option ustr :=
  match field_get name l with Some (FRaw u) => Some u | _ => None end.
Definition int_field (name : string) (l : list (string * field_value ustr)) : option Z :=
  match field_get name l with Some (FInt z) => Some z | _ => None end.

(** [AuthorizeCallbackResponse(is_successful=.., raw=.., values=.., **field_values)]. *)
Definition new_callback (is_successful : bool) (raw : string) (values : list (ustr * ustr))
    (fv : list (string * field_value ustr)) : AuthorizeCallbackResponse :=
  Callback is_successful raw values (text_field "code" fv) (text_field "access_token" fv)
    (text_field "identity_token" fv) (text_field "token_type" fv) (int_field "expires_in" fv)
    (text_field "scope" fv) (text_field "refresh_token" fv) (text_field "state" fv)
    (text_field "session_state" fv) (text_field "issuer" fv) (text_field "error" fv)
    (text_field "error_description" fv).

Definition CallbackError (msg : string) : exn := mk_exn AuthorizeCallbackException msg.

(** [{k: v[0] for k, v in parse_qs(s, keep_blank_values=True).items()}]. *)
Definition flat_params (s : string) : list (ustr * ustr) :=
  map (λ kv, (kv.1, List.hd [] kv.2)) (parse_qs s).

Definition parse_authorize_callback_response (redirect_uri : pyval)
    : outcome AuthorizeCallbackResponse :=
  match redirect_uri with
  | VStr uri =>
      _ ← raise_if (negb (nonempty (strip uri))) (CallbackError "redirect_uri must be a non-empty string");
      parsed ← urlparse uri;
      _ ← raise_if (nonempty (scheme parsed) && negb (bool_decide (scheme parsed ∈ ALLOWED_SCHEMES)))
            (CallbackError ("redirect_uri scheme must be http or https, got '" +:+ scheme parsed +:+ "'"));
      let params_str := if nonempty (fragment parsed) then fragment parsed else query parsed in
      let values := flat_params params_str in
      _ ← raise_if (length values =? 0) (CallbackError "redirect_uri contains no callback parameters");
      field_values ← map_params_to_fields int_of_param values;
      _ ← raise_if (length field_values =? 0)
            (CallbackError "redirect_uri contains no recognized OAuth callback parameters");
      let has_error := match field_get "error" field_values with Some _ => true | None => false end in
      Ok (new_callback (negb has_error) uri values field_values)
  | _ => Err (CallbackError "redirect_uri must be a non-empty string")
  end.

(** ** Validation of [state] and [iss] *)

Inductive AuthorizeCallbackValidationResult : Type :=
  | SUCCESS | STATE_MISMATCH | MISSING_STATE | ERROR_RESPONSE | ISSUER_MISMATCH | MISSING_ISSUER.
#[global] Instance validation_result_eq_dec : EqDecision AuthorizeCallbackValidationResult.
Proof. solve_decision. Defined.

Record StateValidationResult : Type := Validation {
  is_valid : bool;
  validation_result : AuthorizeCallbackValidationResult;
  validation_error : option ustr;
  validation_error_description : option ustr;
}.

Definition invalid (r : AuthorizeCallbackValidationResult) (error description : string)
    : StateValidationResult := Validation false r (Some (text error)) (Some (text description)).
Definition valid : StateValidationResult := Validation true SUCCESS None None.

Definition error_response (r : AuthorizeCallbackResponse) : outcome StateValidationResult :=
  err ← callback_attr r "error" cb_error;
  description ← callback_attr r "error_description" cb_error_description;
  Ok (Validation false ERROR_RESPONSE err description).

Definition u_truthy (o : option ustr) : bool := match o with Some (_ :: _) => true | _ => false end.

(** [None] stands for any [expected_state] that is not a string. *)
Definition validate_authorize_callback_state (r : AuthorizeCallbackResponse)
    (expected_state : option ustr) : outcome StateValidationResult :=
  if negb (cb_is_successful r) then error_response r
  else if negb (u_truthy expected_state) then
    Ok (invalid MISSING_STATE "missing_state"
          "Expected state is missing or empty (session may have expired)")
  else
    state ← callback_attr r "state" cb_state;
    if negb (u_truthy state) then
      Ok (invalid MISSING_STATE "missing_state" "State parameter not present in callback")
    else
      same ← compare_digest (default [] state) (default [] expected_state);
      if negb same then
        Ok (invalid STATE_MISMATCH "state_mismatch" "State parameter does not match expected value")
      else Ok valid.

Definition validate_authorize_callback_issuer (r : AuthorizeCallbackResponse)
    (expected_issuer : option ustr) (iss_parameter_supported require : bool)
    : outcome StateValidationResult :=
  if negb (cb_is_successful r) then error_response r
  else
    let enforce := iss_parameter_supported || require in
    issuer ← callback_attr r "issuer" cb_issuer;
    match issuer with
    | Some _ =>
        if negb (u_truthy expected_issuer) || negb (bool_decide (issuer = expected_issuer)) then
          Ok (invalid ISSUER_MISMATCH "issuer_mismatch"
                ("Authorization response issuer does not match expected " +:+
                 "issuer (possible mix-up attack)"))
        else Ok valid
    | None =>
        if enforce then
          Ok (invalid MISSING_ISSUER "missing_issuer"
                ("Issuer (iss) parameter not present in callback but is " +:+
                 "required (advertised by the authorization server or " +:+
                 "explicitly required by the client)"))
        else Ok valid
    end.

(** ** Tests on concrete inputs *)

Example int_u_1 : int_of_ustr [0x663; 0x2003]%Z = Some 3%Z. Proof. reflexivity. Qed.
Example int_u_2 : int_of_ustr (text "12x") = None. Proof. reflexivity. Qed.
Example callback_1 :
  match parse_authorize_callback_response
          (VStr "https://app.example/cb?code=a+b&state=%C3%A9&state=2&expires_in=60s#") with
  | Ok r => (cb_is_successful r, cb_code r, cb_state r, cb_expires_in r)
  | Err _ => (false, None, None, None)
  end = (true, Some (text "a b"), Some [0xE9]%Z, None).
Proof. vm_compute. reflexivity. Qed.
Example callback_2 :
  parse_authorize_callback_response (VStr "https://app.example/cb?foo=1") =
    Err (CallbackError "redirect_uri contains no recognized OAuth callback parameters").
Proof. vm_compute. reflexivity. Qed.

(** ** Lemmas *)

(** *** Parameters *)

(** The first value of a repeated parameter is kept. *)
Lemma alist_get_multi_add k k' v d :
  Forall (λ kv, kv.2 ≠ []) d →
  alist_get k (map (λ kv, (kv.1, List.hd [] kv.2)) (multi_add k' v d)) =
    match alist_get k (map (λ kv, (kv.1, List.hd [] kv.2)) d) with
    | Some w => Some w
    | None => if k ≟ k' then Some v else None
    end.
Proof.
  induction 1 as [|[k0 vs] d Hvs H IH]; [done|]. cbn [multi_add].
  destruct (bool_decide_reflect (k' = k0)) as [<-|Hk]; cbn [map alist_get fst snd] in *.
  - clear IH. destruct (k ≟ k'); [by destruct vs|]. by destruct (alist_get _ _).
  - destruct (k ≟ k0); [done|exact IH].
Qed.

Lemma multi_add_nonempty k v d :
  Forall (λ kv, kv.2 ≠ []) d → Forall (λ kv : ustr * list ustr, kv.2 ≠ []) (multi_add k v d).
Proof.
  induction 1 as [|[k0 vs] d Hvs H IH]; cbn [multi_add]; [by repeat constructor|].
  case_bool_decide; constructor; try done. simpl. by destruct vs.
Qed.

Lemma flat_params_get k s : alist_get k (flat_params s) = alist_get k (parse_qsl s).
Proof.
  unfold flat_params, parse_qs. generalize (parse_qsl s) as l. intros l.
  assert (H : ∀ d : list (ustr * list ustr), Forall (λ kv, kv.2 ≠ []) d →
    alist_get k (map (λ kv, (kv.1, List.hd [] kv.2)) (foldl (λ d kv, multi_add kv.1 kv.2 d) d l)) =
    match alist_get k (map (λ kv, (kv.1, List.hd [] kv.2)) d) with
    | Some w => Some w | None => alist_get k l end).
  { induction l as [|[k' v] l IH]; intros d Hd; cbn [foldl alist_get fst snd].
    - by destruct (alist_get k (map _ d)).
    - rewrite IH by by apply multi_add_nonempty. rewrite alist_get_multi_add by done.
      clear IH. destruct (alist_get k (map _ d)); [done|]. by destruct (k ≟ k'). }
  by rewrite H.
Qed.

Lemma multi_add_cons k v d : multi_add k v d ≠ [].
Proof. destruct d as [|[k' vs] d]; cbn [multi_add]; [done|]. by destruct (k ≟ k'). Qed.

Lemma flat_params_nil s : (length (flat_params s) =? 0) = true ↔ parse_qsl s = [].
Proof.
  unfold flat_params, parse_qs. rewrite length_map, Nat.eqb_eq. generalize (parse_qsl s) as l.
  intros l. destruct l as [|[k v] l] using rev_ind; [done|]. rewrite foldl_app. cbn [foldl].
  split.
  - intros H%length_zero_iff_nil. by apply multi_add_cons in H.
  - intros H. by apply app_nil in H as [_ H].
Qed.

(** *** Fields *)

(** What [param_field] finds for one entry of the table, when [num] tells what [int] does. *)
Section Found.
Context {V : Type} (int : V → outcome Z) (num : V → option Z).

Definition found_by (values : list (ustr * V)) (pf : string * string)
    : option (string * field_value V) :=
  v ← alist_get (text pf.1) values;
  if pf.2 ≟ "expires_in" then (λ z, (pf.2, FInt z)) <$> num v else Some (pf.2, FRaw v).

Definition num_ok (v : V) : Prop :=
  match int v with
  | Ok z => num v = Some z
  | Err e => num v = None ∧ isinstance e BValueError || isinstance e BTypeError = true
  end.

Lemma param_field_found values pf :
  (∀ v, alist_get (text pf.1) values = Some v → pf.2 = "expires_in" → num_ok v) →
  param_field int values pf = Ok (found_by values pf).
Proof.
  intros H. unfold param_field, found_by. destruct (alist_get _ _) as [v|]; [|done]. cbn [mbind option_bind].
  case_bool_decide as Hn; [|done]. specialize (H v eq_refl Hn). unfold num_ok in H.
  destruct (int v) as [z|e]; [by rewrite H|]. by destruct H as [-> ->].
Qed.

Lemma map_params_found_by values :
  (∀ v, alist_get (text "expires_in") values = Some v → num_ok v) →
  map_params_to_fields int values = Ok (omap (M:=list) (found_by values) PARAM_TO_FIELD).
Proof.
  intros Hnum. unfold map_params_to_fields.
  assert (Htab : ∀ pf, pf ∈ PARAM_TO_FIELD → pf.2 = "expires_in" → pf.1 = "expires_in").
  { intros pf Hpf. unfold PARAM_TO_FIELD in Hpf. rewrite !elem_of_cons, elem_of_nil in Hpf.
    by repeat destruct Hpf as [->|Hpf]. }
  revert Htab. generalize PARAM_TO_FIELD as l. intros l Htab.
  assert (mapM_ok (param_field int values) l = Ok (map (found_by values) l)) as ->.
  { apply mapM_ok_spec. induction l as [|pf l IH]; [constructor|].
    constructor; [|apply IH; intros; apply Htab; [by right|done]].
    apply param_field_found. intros v Hv Hn. apply Hnum. rewrite <- Hv. by rewrite (Htab pf ltac:(by left) Hn). }
  cbn [mbind result_bind]. f_equal. clear Htab. induction l as [|pf l IH]; [done|]. cbn.
  destruct (found_by values pf); cbn; by rewrite <- IH.
Qed.

Lemma found_name values pf n v : found_by values pf = Some (n, v) → n = pf.2.
Proof.
  unfold found_by. destruct (alist_get _ _) as [w|]; [|done]. simpl.
  destruct (pf.2 ≟ "expires_in"); [|by intros [= <-]].
  destruct (num w); [|done]. by intros [= <-].
Qed.

Lemma field_get_found values l p n :
  NoDup l.*2 → (p, n) ∈ l → field_get n (omap (found_by values) l) = snd <$> found_by values (p, n).
Proof.
  induction l as [|[p' n'] l IH]; [by intros _ ?%not_elem_of_nil|].
  intros [Hn Hl]%NoDup_cons Hin. cbn [fmap list_fmap fst snd] in *.
  assert (Hskip : ∀ l', n ∉ l'.*2 → field_get n (omap (found_by values) l') = None).
  { induction l' as [|[p0 n0] l' IH']; [done|]. rewrite fmap_cons, not_elem_of_cons. intros [H1 H2].
    cbn. destruct (found_by values (p0, n0)) as [[m v]|] eqn:E; [|by apply IH'].
    apply found_name in E as ->. cbn. rewrite bool_decide_eq_false_2 by done. by apply IH'. }
  apply elem_of_cons in Hin as [[= <- <-]|Hin]; cbn.
  - destruct (found_by values (p, n)) as [[m v]|] eqn:E; [|by apply Hskip].
    apply found_name in E as ->. cbn. by bd_refl.
  - destruct (found_by values (p', n')) as [[m v]|] eqn:E; [|by apply IH].
    apply found_name in E as ->. cbn. rewrite bool_decide_eq_false_2; [by apply IH|].
    intros <-. apply Hn. apply list_elem_of_fmap. by exists (p, n).
Qed.
End Found.

Abbreviation found := (found_by int_of_ustr).

Lemma map_params_found values :
  map_params_to_fields int_of_param values = Ok (omap (found values) PARAM_TO_FIELD).
Proof.
  apply map_params_found_by. intros v _. unfold num_ok, int_of_param. by destruct (int_of_ustr v).
Qed.

Lemma table_NoDup : NoDup PARAM_TO_FIELD.*2.
Proof. apply (bool_decide_eq_true_1 (NoDup PARAM_TO_FIELD.*2)). vm_compute. reflexivity. Qed.

(** ** The response, declaratively *)

(** The first value of a parameter. *)
Definition first (name : string) (ps : list (ustr * ustr)) : option ustr := alist_get (text name) ps.

Definition response_of (uri : string) (vs ps : list (ustr * ustr)) : AuthorizeCallbackResponse :=
  Callback (negb (bool_decide (is_Some (first "error" ps)))) uri vs (first "code" ps)
    (first "access_token" ps) (first "id_token" ps) (first "token_type" ps)
    (first "expires_in" ps ≫= int_of_ustr) (first "scope" ps) (first "refresh_token" ps)
    (first "state" ps) (first "session_state" ps) (first "iss" ps) (first "error" ps)
    (first "error_description" ps).

(** Some recognised parameter is there; an [expires_in] that is no integer does not count. *)
Definition recognized (ps : list (ustr * ustr)) : Prop :=
  ∃ pf, pf ∈ PARAM_TO_FIELD ∧ is_Some (found ps pf).

Lemma found_ext vs ps pf :
  (∀ k, alist_get k vs = alist_get k ps) → found vs pf = found ps pf.
Proof. intros H. unfold found_by. by rewrite H. Qed.

Lemma text_field_found ps p n :
  (p, n) ∈ PARAM_TO_FIELD → n ≠ "expires_in" →
  text_field n (omap (found ps) PARAM_TO_FIELD) = first p ps.
Proof.
  intros Hin Hn. unfold text_field. rewrite (field_get_found _ ps _ p n table_NoDup Hin).
  unfold found_by, first. cbn [fst snd]. destruct (alist_get _ _); [|done].
  cbn. by rewrite bool_decide_eq_false_2.
Qed.

Lemma int_field_found ps :
  int_field "expires_in" (omap (found ps) PARAM_TO_FIELD) = first "expires_in" ps ≫= int_of_ustr.
Proof.
  unfold int_field. rewrite (field_get_found _ ps _ "expires_in" "expires_in" table_NoDup)
    by (repeat (first [left | right])).
  unfold found_by, first. cbn [fst snd]. destruct (alist_get _ _) as [v|]; [|done].
  cbn. by destruct (int_of_ustr v).
Qed.

(** Membership in a list of constants. *)
Ltac in_table := repeat (first [apply list_elem_of_here | apply list_elem_of_further]).

Lemma new_callback_response uri vs ps :
  new_callback (negb match field_get "error" (omap (found ps) PARAM_TO_FIELD) with
                     | Some _ => true | None => false end) uri vs (omap (found ps) PARAM_TO_FIELD) =
  response_of uri vs ps.
Proof.
  unfold new_callback, response_of. rewrite int_field_found.
  rewrite (text_field_found ps "code" "code"), (text_field_found ps "access_token" "access_token"),
    (text_field_found ps "id_token" "identity_token"), (text_field_found ps "token_type" "token_type"),
    (text_field_found ps "scope" "scope"), (text_field_found ps "refresh_token" "refresh_token"),
    (text_field_found ps "state" "state"), (text_field_found ps "session_state" "session_state"),
    (text_field_found ps "iss" "issuer"), (text_field_found ps "error" "error"),
    (text_field_found ps "error_description" "error_description") by (done || in_table).
  f_equal. f_equal.
  rewrite (field_get_found _ ps _ "error" "error" table_NoDup) by in_table.
  unfold found_by, first. cbn [fst snd]. by destruct (alist_get (text "error") ps).
Qed.

Lemma omap_found_nil ps :
  (length (omap (found ps) PARAM_TO_FIELD) =? 0) = false ↔ recognized ps.
Proof.
  unfold recognized. rewrite Nat.eqb_neq. generalize PARAM_TO_FIELD as l. intros l.
  induction l as [|pf l IH]; cbn [omap list_omap length].
  - split; [done|]. by intros (? & ?%not_elem_of_nil & _).
  - destruct (found ps pf) as [nv|] eqn:E.
    + split; [|done]. intros _. exists pf. split; [by left|by rewrite E].
    + rewrite IH. split.
      * intros (pf' & Hin & Hf). exists pf'. split; [by right|done].
      * intros (pf' & [->|Hin]%elem_of_cons & Hf); [by rewrite E in Hf; destruct Hf|eauto].
Qed.

Lemma omap_found_ext vs ps (l : list (string * string)) :
  (∀ k, alist_get k vs = alist_get k ps) → omap (found vs) l = omap (found ps) l.
Proof.
  intros H. induction l as [|pf l IH]; [done|]. cbn. rewrite (found_ext vs ps pf H). by rewrite IH.
Qed.

Lemma Ok_inj {A} (a b : A) : (Ok a : outcome A) = Ok b → a = b.
Proof. by intros [=]. Qed.

#[local] Opaque PARAM_TO_FIELD.

(** The query-like part the parameters are read from. *)
Definition params_str (u : ParseResult) : string :=
  if nonempty (fragment u) then fragment u else query u.
Definition callback_scheme (u : ParseResult) : Prop :=
  scheme u = "" ∨ scheme u ∈ ALLOWED_SCHEMES.

Lemma callback_scheme_ok u :
  nonempty (scheme u) && negb (bool_decide (scheme u ∈ ALLOWED_SCHEMES)) = false ↔ callback_scheme u.
Proof.
  unfold callback_scheme. rewrite andb_false_iff, nonempty_false, negb_false_iff, bool_decide_eq_true.
  done.
Qed.

Lemma recognized_nonempty ps : recognized ps → ps ≠ [].
Proof. by intros (pf & _ & [nv Hf]) ->. Qed.

Lemma parse_callback_ok uri r :
  parse_authorize_callback_response (VStr uri) = Ok r ↔
  nonempty (strip uri) = true ∧ ∃ u, urlparse uri = Ok u ∧ callback_scheme u ∧
    recognized (parse_qsl (params_str u)) ∧
    r = response_of uri (flat_params (params_str u)) (parse_qsl (params_str u)).
Proof.
  cbn [parse_authorize_callback_response]. rewrite raise_if_seq_ok, negb_false_iff, result_bind_ok.
  apply and_iff_compat_l. split.
  - intros (u & Hu & H). exists u. split; [done|]. cbv zeta in H. fold (params_str u) in H.
    rewrite !raise_if_seq_ok, callback_scheme_ok, map_params_found in H. destruct H as (Hs & Hv & H).
    cbn [mbind result_bind] in H. rewrite raise_if_seq_ok in H. destruct H as [Hf <-%Ok_inj].
    rewrite (omap_found_ext _ (parse_qsl (params_str u))) in *
      by (intros; apply flat_params_get).
    rewrite omap_found_nil in Hf. by rewrite new_callback_response.
  - intros (u & Hu & Hs & Hr & ->). exists u. split; [done|]. cbv zeta. fold (params_str u).
    rewrite !raise_if_seq_ok, callback_scheme_ok, map_params_found. split; [done|]. split.
    { apply not_true_iff_false. rewrite flat_params_nil. by apply recognized_nonempty. }
    cbn [mbind result_bind]. rewrite raise_if_seq_ok.
    rewrite (omap_found_ext _ (parse_qsl (params_str u))) by (intros; apply flat_params_get).
    rewrite omap_found_nil. cbv zeta. by rewrite new_callback_response.
Qed.

Definition callback_error (e : exn) : Prop :=
  isinstance e AuthorizeCallbackException = true ∨ is_value_error e.
Lemma callback_error_msg msg : callback_error (CallbackError msg).
Proof. by left. Qed.
#[local] Hint Resolve callback_error_msg : errors.

Lemma parse_callback_errors v :
  errors_in callback_error (parse_authorize_callback_response v).
Proof.
  unfold parse_authorize_callback_response. destruct v; try (by auto with errors).
  apply errors_in_bind; [auto with errors|intros _ _].
  apply errors_in_bind; [intros e He; right; by eapply urlparse_errors|intros u _].
  apply errors_in_bind; [auto with errors|intros _ _]. cbv zeta.
  apply errors_in_bind; [auto with errors|intros _ _].
  rewrite map_params_found. cbn [mbind result_bind].
  apply errors_in_bind; auto with errors.
Qed.

(** *** Validation *)

Lemma u_truthy_ok o : u_truthy o = true ↔ ∃ s, o = Some s ∧ s ≠ [].
Proof. destruct o as [[|c s]|]; simpl; naive_solver. Qed.

Lemma error_response_failed r :
  cb_is_successful r = false →
  error_response r = Ok (Validation false ERROR_RESPONSE (cb_error r) (cb_error_description r)).
Proof. intros H. unfold error_response, callback_attr, getattribute. by rewrite H. Qed.

Lemma state_attr r : callback_attr r "state" cb_state = Ok (cb_state r).
Proof. done. Qed.
Lemma issuer_attr r :
  cb_is_successful r = true → callback_attr r "issuer" cb_issuer = Ok (cb_issuer r).
Proof. intros H. unfold callback_attr, getattribute. by rewrite H. Qed.

(** The verdict on a [state]; [None] when the comparison raises. *)
Definition state_verdict (r : AuthorizeCallbackResponse) (expected : option ustr)
    : option AuthorizeCallbackValidationResult :=
  if negb (cb_is_successful r) then Some ERROR_RESPONSE
  else match expected, cb_state r with
       | Some ((_ :: _) as e), Some ((_ :: _) as s) =>
           if u_isascii s && u_isascii e then Some (if s ≟ e then SUCCESS else STATE_MISMATCH)
           else None
       | _, _ => Some MISSING_STATE
       end.

Lemma validate_state_verdict r expected :
  match validate_authorize_callback_state r expected with
  | Ok v => state_verdict r expected = Some (validation_result v) ∧
            is_valid v = bool_decide (validation_result v = SUCCESS)
  | Err e => state_verdict r expected = None ∧ exn_class e = BTypeError
  end.
Proof.
  unfold validate_authorize_callback_state, state_verdict.
  destruct (cb_is_successful r) eqn:Es; cbn [negb]; [|by rewrite error_response_failed].
  rewrite state_attr. destruct expected as [[|c e]|]; cbn [u_truthy negb mbind result_bind];
    [by destruct (cb_state r) as [[|]|]| |by destruct (cb_state r) as [[|]|]].
  destruct (cb_state r) as [[|d s]|]; cbn [u_truthy negb mbind result_bind default from_option id];
    [done| |done].
  unfold compare_digest. destruct (u_isascii (d :: s) && u_isascii (c :: e)); [|done].
  cbn [mbind result_bind]. by destruct ((d :: s) ≟ (c :: e)).
Qed.

(** The verdict on an [iss]. *)
Definition issuer_verdict (r : AuthorizeCallbackResponse) (expected : option ustr) (enforce : bool)
    : AuthorizeCallbackValidationResult :=
  if negb (cb_is_successful r) then ERROR_RESPONSE
  else match cb_issuer r with
       | Some i => if bool_decide (i ≠ []) && bool_decide (expected = Some i) then SUCCESS
                   else ISSUER_MISMATCH
       | None => if enforce then MISSING_ISSUER else SUCCESS
       end.

Lemma validate_issuer_verdict r expected sup req :
  ∃ v, validate_authorize_callback_issuer r expected sup req = Ok v ∧
    validation_result v = issuer_verdict r expected (sup || req) ∧
    is_valid v = bool_decide (validation_result v = SUCCESS).
Proof.
  unfold validate_authorize_callback_issuer, issuer_verdict.
  destruct (cb_is_successful r) eqn:Es; cbn [negb].
  - rewrite (issuer_attr r Es). cbn [mbind result_bind]. destruct (cb_issuer r) as [i|].
    + assert (negb (u_truthy expected) || negb (bool_decide (Some i = expected)) =
              negb (bool_decide (i ≠ []) && bool_decide (expected = Some i))) as ->.
      { destruct expected as [e|]; [|by rewrite andb_false_r].
        destruct (decide (e = i)) as [->|Hne].
        - rewrite !(bool_decide_eq_true_2 (Some i = Some i)) by done. by destruct i.
        - rewrite !(bool_decide_eq_false_2 (Some _ = Some _)) by congruence.
          by rewrite orb_true_r, andb_false_r. }
      destruct (_ && _); eexists; done.
    + destruct (sup || req); eexists; done.
  - rewrite error_response_failed by done. eexists. done.
Qed.

Lemma response_of_parse uri r :
  parse_authorize_callback_response (VStr uri) = Ok r →
  ∃ u, urlparse uri = Ok u ∧
    r = response_of uri (flat_params (params_str u)) (parse_qsl (params_str u)).
Proof. intros (_ & u & Hu & _ & _ & ->)%parse_callback_ok. by exists u. Qed.

Lemma response_of_success uri vs ps :
  cb_is_successful (response_of uri vs ps) = true ↔ first "error" ps = None.
Proof.
  cbn [response_of cb_is_successful]. rewrite negb_true_iff, bool_decide_eq_false.
  symmetry. apply eq_None_not_Some.
Qed.

Lemma state_verdict_success r expected :
  state_verdict r expected = Some SUCCESS ↔
  cb_is_successful r = true ∧ ∃ s, s ≠ [] ∧ expected = Some s ∧ cb_state r = Some s ∧
    u_isascii s = true.
Proof.
  unfold state_verdict. destruct (cb_is_successful r); cbn [negb]; [|naive_solver].
  split.
  - destruct expected as [[|c e]|], (cb_state r) as [[|d s]|]; try done.
    destruct (u_isascii (d :: s)) eqn:Ea; [|done]. destruct (u_isascii (c :: e)); [|done]. simpl.
    case_bool_decide as Heq; [|done]. rewrite Heq in *. intros _. split; [done|].
    exists (c :: e). done.
  - intros (_ & s & Hs & -> & -> & Ha). destruct s as [|c s]; [done|]. rewrite Ha. simpl.
    by bd_refl.
Qed.

Lemma issuer_verdict_success r expected enforce :
  issuer_verdict r expected enforce = SUCCESS ↔
  cb_is_successful r = true ∧
  match cb_issuer r with Some i => i ≠ [] ∧ expected = Some i | None => enforce = false end.
Proof.
  unfold issuer_verdict. destruct (cb_is_successful r); cbn [negb]; [|naive_solver].
  destruct (cb_issuer r) as [i|].
  - destruct (bool_decide _ && bool_decide _) eqn:E.
    + apply andb_true_iff in E as [H1%bool_decide_eq_true H2%bool_decide_eq_true]. done.
    + apply andb_false_iff in E. split; [done|]. intros (_ & H1 & H2).
      destruct E as [E|E]; apply bool_decide_eq_false in E; done.
  - destruct enforce; naive_solver.
Qed.

(** ** Properties *)

(** [parse_authorize_callback_response] succeeds exactly on a URL that [urlparse] reads, whose
    scheme is absent, http or https, and whose fragment (its query when the fragment is empty)
    has a recognised parameter; the response then holds the first value of each parameter, an
    [expires_in] only when it is an integer, and is successful unless there is an [error].  What
    it raises is the documented exception, or the [ValueError] of the URL parser. *)
Theorem callback_parse_spec uri r :
  (parse_authorize_callback_response (VStr uri) = Ok r ↔
   nonempty (strip uri) = true ∧ ∃ u, urlparse uri = Ok u ∧ callback_scheme u ∧
     recognized (parse_qsl (params_str u)) ∧
     r = response_of uri (flat_params (params_str u)) (parse_qsl (params_str u))) ∧
  (∀ s k, alist_get k (flat_params s) = alist_get k (parse_qsl s)) ∧
  (∀ v e, parse_authorize_callback_response v = Err e →
     isinstance e AuthorizeCallbackException = true ∨ exn_class e = BValueError).
Proof.
  split; [apply parse_callback_ok|]. split; [intros; apply flat_params_get|].
  intros v e. apply parse_callback_errors.
Qed.

Example callback_3 :
  parse_authorize_callback_response (VStr "http://[::1/cb?code=a") = Err (ValueErr "Invalid IPv6 URL").
Proof. reflexivity. Qed.

Lemma callback_parse_spec_witness :
  ∃ e, parse_authorize_callback_response (VStr "http://[::1/cb?code=a") = Err e ∧
    (isinstance e AuthorizeCallbackException = true ∨ exn_class e = BValueError).
Proof.
  exists (ValueErr "Invalid IPv6 URL"). split; [reflexivity|].
  apply (proj2 (proj2 (callback_parse_spec "" (response_of "" [] [])))
    (VStr "http://[::1/cb?code=a")). reflexivity.
Defined.

(** C24: the state check is sound and complete against forged callbacks.  On a callback parsed
    from a URL it passes exactly when there is no [error] parameter and the first [state]
    parameter is the expected one, not empty, and ASCII; otherwise the result says why, and it
    raises [TypeError] exactly when both states are there and one is not ASCII. *)
Theorem state_check_spec uri r expected :
  parse_authorize_callback_response (VStr uri) = Ok r →
  match validate_authorize_callback_state r expected with
  | Ok v => state_verdict r expected = Some (validation_result v) ∧
            is_valid v = bool_decide (validation_result v = SUCCESS)
  | Err e => state_verdict r expected = None ∧ exn_class e = BTypeError
  end ∧
  (state_verdict r expected = Some SUCCESS ↔
   ∃ u, urlparse uri = Ok u ∧ let ps := parse_qsl (params_str u) in first "error" ps = None ∧
     ∃ s, s ≠ [] ∧ expected = Some s ∧ first "state" ps = Some s ∧ u_isascii s = true).
Proof.
  intros (u & Hu & ->)%response_of_parse. split; [apply validate_state_verdict|].
  rewrite state_verdict_success, response_of_success. split.
  - intros [He Hs]. by exists u.
  - intros (u' & Hu' & H). rewrite Hu in Hu'. by injection Hu' as <-.
Qed.

Definition demo_callback : string := "https://app.example/cb?code=x&state=s1".
Lemma state_check_spec_witness :
  ∃ r, parse_authorize_callback_response (VStr demo_callback) = Ok r ∧
    state_verdict r (Some (text "s1")) = Some SUCCESS.
Proof.
  eexists. split; [vm_compute; reflexivity|].
  apply (proj2 (state_check_spec demo_callback _ (Some (text "s1")) ltac:(vm_compute; reflexivity))).
  eexists. split; [vm_compute; reflexivity|]. split; [reflexivity|].
  exists (text "s1"). split_and!; [discriminate|reflexivity..].
Defined.

(** A callback can make the state check raise: a [state] that percent-decodes to a non-ASCII
    character gives a [TypeError] instead of a mismatch, whatever state was expected. *)
Theorem state_check_raises expected :
  expected ≠ [] →
  ∃ r, parse_authorize_callback_response (VStr "https://app.example/cb?code=x&state=%C3%A9") = Ok r ∧
    ∃ e, validate_authorize_callback_state r (Some expected) = Err e ∧ exn_class e = BTypeError.
Proof.
  intros He. eexists. split; [vm_compute; reflexivity|].
  destruct expected as [|c e]; [done|]. eexists. split; [reflexivity|done].
Qed.

Lemma state_check_raises_witness :
  ∃ r, parse_authorize_callback_response (VStr "https://app.example/cb?code=x&state=%C3%A9") = Ok r ∧
    ∃ e, validate_authorize_callback_state r (Some (text "s1")) = Err e ∧ exn_class e = BTypeError.
Proof. exact (state_check_raises (text "s1") ltac:(discriminate)). Defined.

(** C25: the issuer check against mix-up.  It never raises; on a callback parsed from a URL it
    passes exactly when there is no [error] parameter and the first [iss] parameter, if any, is
    the expected issuer and not empty, and is there when the server advertises it or the caller
    requires it. *)
Theorem mixup_check_spec uri r expected supported require :
  parse_authorize_callback_response (VStr uri) = Ok r →
  ∃ v, validate_authorize_callback_issuer r expected supported require = Ok v ∧
    validation_result v = issuer_verdict r expected (supported || require) ∧
    is_valid v = bool_decide (validation_result v = SUCCESS) ∧
    (is_valid v = true ↔
     ∃ u, urlparse uri = Ok u ∧ let ps := parse_qsl (params_str u) in first "error" ps = None ∧
       match first "iss" ps with
       | Some i => i ≠ [] ∧ expected = Some i
       | None => supported = false ∧ require = false
       end).
Proof.
  intros (u & Hu & ->)%response_of_parse.
  destruct (validate_issuer_verdict (response_of uri (flat_params (params_str u))
    (parse_qsl (params_str u))) expected supported require) as (v & Hv & Hr & Hi).
  exists v. split; [done|]. split; [done|]. split; [done|].
  rewrite Hi, bool_decide_eq_true, Hr, issuer_verdict_success, response_of_success.
  cbn [response_of cb_issuer]. split.
  - intros [He H]. exists u. split; [done|]. split; [done|].
    destruct (first "iss" _); [done|]. by apply orb_false_iff.
  - intros (u' & Hu' & He & H). rewrite Hu in Hu'. injection Hu' as <-. split; [done|].
    destruct (first "iss" _); [done|]. by apply orb_false_iff.
Qed.

Lemma mixup_check_spec_witness :
  ∃ r v, parse_authorize_callback_response (VStr demo_callback) = Ok r ∧
    validate_authorize_callback_issuer r (Some (text "https://op.example")) true false = Ok v ∧
    validation_result v = issuer_verdict r (Some (text "https://op.example")) true.
Proof.
  destruct (mixup_check_spec demo_callback _ (Some (text "https://op.example")) true false
    ltac:(vm_compute; reflexivity)) as (v & Hv & Hr & _).
  eexists _, v. split; [vm_compute; reflexivity|]. split; [exact Hv|exact Hr].
Defined.
