(* ===== verification/UrlQuery.v ===== *)
(** * Query parameters added to a URL

    The dictionary of parameters and its update, the collision check, the stripping of a fragment
    and the appending of a query that the URL builders of [core/authorize_url.py] and
    [core/logout_logic.py] share, the rebuilding of a URL ([core/dpop.py]), and lemmas that say
    what the built URL parses to. *)

From S2P Require Import Prelude PyStr PyValue Models Url Codec.
From Stdlib Require Import Ascii.
From stdpp Require Import strings.
Open Scope string_scope.
Open Scope list_scope.
Open Scope nat_scope.
Open Scope py_scope.

(** ** Definitions *)

(** [d[k] = v] and [d.update(e)]. *)
Fixpoint alist_set (k v : ustr) (d : list (ustr * ustr)) : list (ustr * ustr) :=
  match d with
  | [] => [(k, v)]
  | (k', w) :: d' => if k ≟ k' then (k', v) :: d' else (k', w) :: alist_set k v d'
  end.
Definition alist_update (d e : list (ustr * ustr)) : list (ustr * ustr) :=
  foldl (λ d kv, alist_set kv.1 kv.2 d) d e.

Definition optional_param (name : string) (o : option ustr) : list (ustr * ustr) :=
  match o with Some v => [(text name, v)] | None => [] end.

(** [RESERVED & extra_params.keys()]. *)
Definition reserved_in (reserved : list string) (extra_params : list (ustr * ustr)) : list string :=
  List.filter (λ n, bool_decide (text n ∈ extra_params.*1)) reserved.

(** [parsed = urlparse(endpoint)], again without the fragment if there is one. *)
Definition strip_fragment (endpoint : string) : outcome (string * ParseResult) :=
  parsed ← urlparse endpoint;
  if nonempty (fragment parsed) then
    let endpoint := (split_once "#" endpoint).1 in
    parsed ← urlparse endpoint; Ok (endpoint, parsed)
  else Ok (endpoint, parsed).

(** The endpoint without its fragment, when there is one. *)
Definition base_endpoint (endpoint : string) : string :=
  match urlparse endpoint with
  | Ok p => if nonempty (fragment p) then (split_once "#" endpoint).1 else endpoint
  | Err _ => endpoint
  end.

(** [urllib.parse.urlunparse], for components with an authority. *)
Definition urlunparse (u : ParseResult) : string :=
  let url := if nonempty (params u) then path u +:+ String ";" (params u) else path u in
  let url := "//" +:+ (netloc u +:+
    (if nonempty url && negb (startswith url "/") then String "/" url else url)) in
  let url := if nonempty (scheme u) then scheme u +:+ String ":" url else url in
  let url := if nonempty (query u) then url +:+ String "?" (query u) else url in
  if nonempty (fragment u) then url +:+ String "#" (fragment u) else url.

(** ** Lemmas: parsing an extended URL *)

(** What a query string the library writes is made of: none of it is a delimiter of the URL
    syntax up to the query, a blank or a control character. *)
Definition tail_char (c : ascii) : bool :=
  is_quoted c || (c ≟ "&"%char) || (c ≟ "="%char) || (c ≟ "?"%char).
Definition is_dropped (c : ascii) : bool := (code c =? 9) || (code c =? 10) || (code c =? 13).

Lemma tail_char_plain c :
  tail_char c = true → negb (is_dropped c) = true ∧ (code c <=? 32) = false ∧
    c ≠ ":"%char ∧ c ≠ "#"%char ∧ c ≠ "/"%char.
Proof. all_ascii c; intros H; try discriminate H; split_and!; congruence || reflexivity. Qed.

Lemma tail_no p s :
  sforall tail_char s = true → tail_char p = false → char_in p s = false.
Proof. apply char_in_forall. Qed.

Lemma lstrip_app p s c t :
  p c = false → lstrip_p p (s +:+ String c t) = lstrip_p p s +:+ String c t.
Proof.
  intros Hc. induction s as [|d s IH].
  - change (lstrip_p p (String c t) = String c t). cbn [lstrip_p]. by rewrite Hc.
  - change (lstrip_p p (String d (s +:+ String c t)) = lstrip_p p (String d s) +:+ String c t).
    cbn [lstrip_p]. by destruct (p d).
Qed.

Lemma sfilter_app p s t : sfilter p (s +:+ t) = sfilter p s +:+ sfilter p t.
Proof.
  induction s as [|d s IH]; [done|].
  change (sfilter p (String d (s +:+ t)) = sfilter p (String d s) +:+ sfilter p t).
  cbn [sfilter]. rewrite IH. by destruct (p d).
Qed.

Lemma sfilter_all p s : sforall p s = true → sfilter p s = s.
Proof.
  induction s as [|c s IH]; [done|]. cbn [sforall sfilter]. intros [Hc Hs]%andb_true_iff.
  by rewrite Hc, IH.
Qed.

Lemma clean_url_app s c t :
  sforall tail_char (String c t) = true →
  clean_url (s +:+ String c t) = clean_url s +:+ String c t.
Proof.
  intros H. unfold clean_url.
  pose proof H as [Hc _]%andb_true_iff. apply tail_char_plain in Hc as (_ & Hc & _).
  rewrite lstrip_app by done. rewrite sfilter_app. f_equal. apply sfilter_all.
  eapply sforall_impl; [|exact H]. intros d Hd. by apply tail_char_plain in Hd as [Hd _].
Qed.

(** Cleaning a URL adds no character. *)
Lemma char_in_sfilter c p s : char_in c s = false → char_in c (sfilter p s) = false.
Proof.
  unfold char_in. rewrite !negb_false_iff. induction s as [|d s IH]; [done|].
  cbn [sforall sfilter]. intros [Hd Hs]%andb_true_iff.
  destruct (p d); cbn [sforall]; [rewrite Hd|]; by apply IH.
Qed.
Lemma char_in_lstrip c p s : char_in c s = false → char_in c (lstrip_p p s) = false.
Proof.
  unfold char_in. rewrite !negb_false_iff. induction s as [|d s IH]; [done|].
  cbn [lstrip_p]. intros H. destruct (p d); [|done]. apply IH.
  cbn [sforall] in H. by apply andb_true_iff in H as [_ H].
Qed.
Lemma char_in_clean c s : char_in c s = false → char_in c (clean_url s) = false.
Proof. intros H. by apply char_in_sfilter, char_in_lstrip. Qed.

Lemma split_once_app_r c s t :
  char_in c t = false →
  split_once c (s +:+ t) =
    match split_once c s with (a, Some r) => (a, Some (r +:+ t)) | (a, None) => (a +:+ t, None) end.
Proof.
  intros Ht. induction s as [|d s IH].
  - change (split_once c t = (t, None)). apply split_once_none. by apply negb_false_iff in Ht.
  - change (split_once c (String d (s +:+ t)) =
      match split_once c (String d s) with
      | (a, Some r) => (a, Some (r +:+ t)) | (a, None) => (a +:+ t, None) end).
    cbn [split_once]. destruct (d ≟ c); [done|]. rewrite IH.
    by destruct (split_once c s) as [a [r|]].
Qed.

(** A split at a delimiter that is there is not changed by what follows. *)
Lemma split_once_app_l c s t a b :
  split_once c s = (a, Some b) → split_once c (s +:+ t) = (a, Some (b +:+ t)).
Proof.
  revert a. induction s as [|d s IH]; intros a; [done|].
  change (split_once c (String d s) = (a, Some b) →
    split_once c (String d (s +:+ t)) = (a, Some (b +:+ t))).
  cbn [split_once]. destruct (d ≟ c); [by intros [= <- <-]|].
  destruct (split_once c s) as [a' [r|]]; [|done]. intros [= <- <-]. by rewrite (IH a').
Qed.

Lemma split_once_fst c s : char_in c (split_once c s).1 = false.
Proof.
  induction s as [|d s IH]; [done|]. cbn [split_once]. destruct (d ≟ c) eqn:E; [done|].
  destruct (split_once c s) as [a b]. unfold char_in in *. cbn [fst sforall] in *. by rewrite E.
Qed.

Lemma split_once_app_eq c s a b : split_once c s = (a, Some b) → s = a +:+ String c b.
Proof.
  revert a. induction s as [|d s IH]; intros a; [done|]. cbn [split_once].
  case_bool_decide as Hd; [by intros [= <- <-]; subst|].
  destruct (split_once c s) as [a' [r|]] eqn:E; [|done]. intros [= <- <-].
  change (String d s = String d (a' +:+ String c r)). by rewrite (IH a').
Qed.

Lemma split_scheme_app u c t :
  sforall tail_char (String c t) = true →
  split_scheme (u +:+ String c t) = ((split_scheme u).1, (split_scheme u).2 +:+ String c t).
Proof.
  intros Ht. pose proof (tail_no ":" _ Ht eq_refl) as Hcolon. destruct u as [|a u].
  - change (split_scheme (String c t) = ("", String c t)). unfold split_scheme.
    rewrite split_once_none; [done|]. by apply negb_false_iff in Hcolon.
  - change (String a u +:+ String c t) with (String a (u +:+ String c t)).
    unfold split_scheme. cbv beta iota.
    change (String a (u +:+ String c t)) with (String a u +:+ String c t).
    rewrite split_once_app_r by done.
    destruct (split_once ":" (String a u)) as [s [r|]]; [|done].
    by destruct (nonempty s && is_ascii_alpha a && sforall is_scheme_char s).
Qed.

Lemma span_not_eq p s a b : span_not p s = (a, b) → s = a +:+ b.
Proof.
  revert a. induction s as [|c s IH]; intros a; cbn [span_not]; [by intros [= <- <-]|].
  destruct (p c); [by intros [= <- <-]|]. destruct (span_not p s) as [a' b'].
  intros [= <- <-]. change (String c s = String c (a' +:+ b')). by rewrite (IH a').
Qed.

(** A span that stopped at a delimiter is not changed by what follows, and one that did not stops
    at a delimiter put after it. *)
Lemma span_not_app p s c t :
  nonempty (span_not p s).2 || p c = true →
  span_not p (s +:+ String c t) = ((span_not p s).1, (span_not p s).2 +:+ String c t).
Proof.
  induction s as [|d s IH]; intros H.
  - change (span_not p (String c t) = ("", String c t)). cbn [span_not] in *. simpl in H.
    by rewrite H.
  - change (span_not p (String d (s +:+ String c t)) =
      ((span_not p (String d s)).1, (span_not p (String d s)).2 +:+ String c t)).
    cbn [span_not] in *. destruct (p d); [done|].
    destruct (span_not p s) as [a b]. cbn [fst snd] in *. by rewrite IH.
Qed.

Lemma split_netloc_app u c t :
  nonempty (split_netloc u).2 || is_netloc_delim c = true → c ≠ "/"%char →
  split_netloc (u +:+ String c t) = ((split_netloc u).1, (split_netloc u).2 +:+ String c t).
Proof.
  intros H Hc. destruct u as [|a [|b u]].
  - change (split_netloc (String c t) = ("", String c t)). destruct t as [|d t]; [done|].
    cbn [split_netloc]. by rewrite bool_decide_eq_false_2.
  - change (split_netloc (String a (String c t)) = ("", String a (String c t))).
    cbn [split_netloc]. by rewrite (bool_decide_eq_false_2 (c = _)), andb_false_r.
  - change (split_netloc (String a (String b (u +:+ String c t))) =
      ((split_netloc (String a (String b u))).1,
       (split_netloc (String a (String b u))).2 +:+ String c t)).
    cbn [split_netloc] in *. destruct ((a ≟ "/"%char) && (b ≟ "/"%char)); [|done].
    by apply span_not_app.
Qed.

Lemma char_in_suffix c s t : char_in c (s +:+ t) = false → char_in c t = false.
Proof. rewrite char_in_app. by intros [_ H]%orb_false_iff. Qed.

Lemma split_scheme_no c u : char_in c u = false → char_in c (split_scheme u).2 = false.
Proof.
  intros H. unfold split_scheme. destruct u as [|a u]; [done|].
  destruct (split_once ":" (String a u)) as [s [r|]] eqn:Es; [|done].
  destruct (_ && _); [|done]. apply split_once_app_eq in Es. rewrite Es in H.
  change (String ":" r) with (":" +:+ r) in H. by do 2 apply char_in_suffix in H.
Qed.

Lemma split_netloc_no c u : char_in c u = false → char_in c (split_netloc u).2 = false.
Proof.
  intros H. destruct u as [|a [|b u]]; [done|done|]. cbn [split_netloc].
  destruct (_ && _); [|done]. destruct (span_not is_netloc_delim u) as [x y] eqn:Es.
  apply span_not_eq in Es as ->. cbn [snd].
  change (String a (String b (x +:+ y))) with (String a (String b "") +:+ (x +:+ y)) in H.
  by do 2 apply char_in_suffix in H.
Qed.

(** The parts of a URL without a fragment. *)
Lemma urlparse_parts e p :
  char_in "#" e = false →
  urlparse e = Ok p ↔
  let '(sch, rest) := split_scheme (clean_url e) in
  let '(net, rest) := split_netloc rest in
  check_netloc_brackets net = Ok () ∧
  let '(rest, q) := split_once "?" rest in
  let '(pth, par) := if bool_decide (sch ∈ uses_params) then splitparams rest else (rest, "") in
  p = URL sch net pth par (default "" q) "".
Proof.
  intros He. unfold urlparse. pose proof (char_in_clean "#" e He) as Hcl.
  apply split_scheme_no in Hcl. destruct (split_scheme (clean_url e)) as [sch rest].
  apply split_netloc_no in Hcl. cbn [snd] in Hcl. destruct (split_netloc rest) as [net rest'].
  rewrite result_seq_ok. apply and_iff_compat_l.
  rewrite split_once_none by (by apply negb_false_iff in Hcl).
  destruct (split_once "?" rest') as [r q].
  destruct (if bool_decide (sch ∈ uses_params) then splitparams r else (r, "")) as [pth par].
  split; [by intros [= <-]|by intros ->].
Qed.

Lemma tail_char_no_hash c t :
  sforall tail_char (String c t) = true → char_in "#" (String c t) = false.
Proof. intros H. by apply (tail_no "#" _ H). Qed.

(** A query added to a URL that has none. *)
Lemma urlparse_add_query e q p :
  char_in "#" e = false → char_in "?" e = false → sforall tail_char q = true →
  urlparse e = Ok p →
  urlparse (e +:+ String "?" q) = Ok (URL (scheme p) (netloc p) (path p) (params p) q "").
Proof.
  intros He He2 Hq Hp. assert (Ht : sforall tail_char (String "?" q) = true) by done.
  apply urlparse_parts; [by rewrite char_in_app, He, tail_char_no_hash|].
  apply urlparse_parts in Hp; [|done]. rewrite clean_url_app, split_scheme_app by done.
  pose proof (char_in_clean "?" e He2) as Hr. apply split_scheme_no, split_netloc_no in Hr.
  destruct (split_scheme (clean_url e)) as [sch rest]. cbn [fst snd] in *.
  rewrite split_netloc_app by (by rewrite ?orb_true_r).
  destruct (split_netloc rest) as [net rest']. cbn [fst snd] in *.
  destruct Hp as [Hb Hp]. split; [done|].
  rewrite split_once_none in Hp by (by apply negb_false_iff in Hr).
  rewrite split_once_app by done.
  destruct (if bool_decide (sch ∈ uses_params) then splitparams rest' else (rest', ""))
    as [pth par]. by subst p.
Qed.

(** A [?] at the end opens an empty query. *)
Lemma urlparse_open_query e p :
  char_in "#" e = false → char_in "?" e = false → urlparse (e +:+ "?") = Ok p →
  query p = "" ∧ ∃ p0, urlparse e = Ok p0 ∧ scheme p = scheme p0 ∧ netloc p = netloc p0 ∧
    path p = path p0 ∧ params p = params p0.
Proof.
  intros He He2 Hp. assert (∃ p0, urlparse e = Ok p0) as [p0 H0].
  { apply urlparse_parts in Hp; [|by rewrite char_in_app, He].
    rewrite clean_url_app, split_scheme_app in Hp by done.
    pose proof (char_in_clean "?" e He2) as Hr. apply split_scheme_no, split_netloc_no in Hr.
    destruct (split_scheme (clean_url e)) as [sch rest] eqn:Es. cbn [fst snd] in *.
    rewrite split_netloc_app in Hp by (by rewrite ?orb_true_r).
    destruct (split_netloc rest) as [net rest'] eqn:En. cbn [fst snd] in *.
    destruct Hp as [Hb _].
    destruct (if bool_decide (sch ∈ uses_params) then splitparams rest' else (rest', ""))
      as [pth par] eqn:Epp.
    exists (URL sch net pth par "" ""). apply urlparse_parts; [done|].
    rewrite Es, En. split; [done|].
    rewrite split_once_none by (by apply negb_false_iff in Hr). by rewrite Epp. }
  rewrite (urlparse_add_query e "" p0) in Hp by done. injection Hp as <-.
  split; [done|]. by exists p0.
Qed.

(** A query that is there, extended. *)
Lemma urlparse_extend_any e c t p :
  char_in "#" e = false → nonempty (query p) = true → sforall tail_char (String c t) = true →
  urlparse e = Ok p →
  urlparse (e +:+ String c t) =
    Ok (URL (scheme p) (netloc p) (path p) (params p) (query p +:+ String c t) "").
Proof.
  intros He Hq Ht Hp.
  apply urlparse_parts; [by rewrite char_in_app, He, tail_char_no_hash|].
  apply urlparse_parts in Hp; [|done]. rewrite clean_url_app, split_scheme_app by done.
  destruct (split_scheme (clean_url e)) as [sch rest]. cbn [fst snd] in *.
  destruct (split_netloc rest) as [net rest'] eqn:En. destruct Hp as [Hb Hp].
  destruct (split_once "?" rest') as [r [q0|]] eqn:Eq.
  2: { destruct (if bool_decide (sch ∈ uses_params) then splitparams r else (r, "")) as [pth par].
       by subst p. }
  rewrite split_netloc_app; [|rewrite En; by destruct rest'|by apply andb_true_iff in Ht as [(_ & _ & _ & _ & ?)%tail_char_plain _]].
  rewrite En. cbn [fst snd]. split; [done|].
  rewrite (split_once_app_l _ _ _ _ _ Eq).
  destruct (if bool_decide (sch ∈ uses_params) then splitparams r else (r, "")) as [pth par].
  by subst p.
Qed.

Lemma urlparse_extend_query e t p :
  char_in "#" e = false → nonempty (query p) = true → sforall tail_char (String "&" t) = true →
  urlparse e = Ok p →
  urlparse (e +:+ String "&" t) =
    Ok (URL (scheme p) (netloc p) (path p) (params p) (query p +:+ String "&" t) "").
Proof. apply urlparse_extend_any. Qed.

(** *** Reading the parameters back *)

Lemma split_char_app_any c s t :
  split_char c (s +:+ String c t) = split_char c s ++ split_char c t.
Proof.
  induction s as [|d s IH].
  - change (split_char c (String c t) = [""] ++ split_char c t). cbn [split_char]. by bd_refl.
  - change (split_char c (String d (s +:+ String c t)) = split_char c (String d s) ++ split_char c t).
    cbn [split_char]. rewrite IH. destruct (d ≟ c); [done|].
    destruct (split_char c s) as [|w ws] eqn:E; [|done]. exfalso. destruct s as [|e s]; [done|].
    cbn [split_char] in E. destruct (e ≟ c); [done|]. by destruct (split_char c s).
Qed.

Lemma parse_qsl_app s t : parse_qsl (s +:+ String "&" t) = parse_qsl s ++ parse_qsl t.
Proof. unfold parse_qsl. by rewrite split_char_app_any, List.filter_app, map_app. Qed.

Lemma urlencode_tail d q : urlencode d = Ok q → sforall tail_char q = true.
Proof.
  unfold urlencode. intros (fs & Hfs & [= <-])%result_bind_ok. apply mapM_ok_spec in Hfs.
  induction Hfs as [|kv f d fs Hf H IH]; [done|].
  assert (Hc : sforall tail_char f = true).
  { apply result_bind_ok in Hf as (k & Hk & (v & Hv & [= <-])%result_bind_ok).
    apply quote_plus_ok in Hk as [Hk _], Hv as [Hv _].
    assert (Himp : ∀ s, sforall is_quoted s = true → sforall tail_char s = true).
    { intros s. apply sforall_impl. intros c Hc. unfold tail_char. by rewrite Hc. }
    by rewrite !sforall_app, (Himp k), (Himp v). }
  destruct fs as [|g fs]; [done|]. cbn [str_join] in *. by rewrite !sforall_app, Hc, IH.
Qed.

Lemma alist_set_new k v d : k ∉ d.*1 → alist_set k v d = d ++ [(k, v)].
Proof.
  induction d as [|[k' w] d IH]; [done|]. cbn [alist_set fmap list_fmap fst].
  rewrite not_elem_of_cons. intros [H1 H2]. rewrite bool_decide_eq_false_2 by done.
  by rewrite IH.
Qed.

Lemma alist_update_new d e :
  NoDup e.*1 → (∀ k, k ∈ e.*1 → k ∉ d.*1) → alist_update d e = d ++ e.
Proof.
  unfold alist_update. revert d. induction e as [|[k v] e IH]; intros d He Hd; cbn [foldl fst snd].
  - by rewrite app_nil_r.
  - cbn [fmap list_fmap fst] in *. apply NoDup_cons in He as [Hk He].
    rewrite alist_set_new by (apply Hd; by left). rewrite IH; [by rewrite <- app_assoc|done|].
    intros k' Hk'. rewrite fmap_app, elem_of_app. intros [H|H].
    + by apply (Hd k'); [right|].
    + apply list_elem_of_singleton in H. cbn in H. by subst.
Qed.

Lemma reserved_in_nil reserved extra :
  negb (length (reserved_in reserved extra) =? 0) = false ↔
  ∀ n, n ∈ reserved → text n ∉ extra.*1.
Proof.
  rewrite negb_false_iff, Nat.eqb_eq. unfold reserved_in.
  induction reserved as [|n l IH]; cbn [List.filter length].
  - split; [intros _ n Hn; by apply not_elem_of_nil in Hn|done].
  - case_bool_decide as Hn; cbn [length].
    + split; [done|]. intros H. by destruct (H n ltac:(by left)).
    + rewrite IH. split.
      * intros H m [->|Hm]%elem_of_cons; auto.
      * intros H m Hm. apply H. by right.
Qed.

Lemma strip_fragment_ok ep e p :
  strip_fragment ep = Ok (e, p) ↔
  is_ok (urlparse ep) = true ∧ e = base_endpoint ep ∧ urlparse (base_endpoint ep) = Ok p.
Proof.
  unfold strip_fragment, base_endpoint.
  destruct (urlparse ep) as [p0|er] eqn:Ep; cbn [mbind result_bind is_ok]; [|naive_solver].
  destruct (nonempty (fragment p0)) eqn:Ef; [|rewrite Ep; naive_solver].
  destruct (urlparse (split_once "#" ep).1); cbn [mbind result_bind]; naive_solver.
Qed.

(** Every URL the parser reads has a parsable base, or fails in the same way. *)
Lemma strip_fragment_errors ep : errors_in is_value_error (strip_fragment ep).
Proof.
  unfold strip_fragment. apply errors_in_bind; [apply urlparse_errors|]. intros p _.
  destruct (nonempty _); [|auto with errors].
  apply errors_in_bind; [apply urlparse_errors|]. auto with errors.
Qed.

(** *** The query is the end of the URL *)

Definition str_suffix (s t : string) : Prop := ∃ pre, t = pre +:+ s.

Lemma str_suffix_trans a b c : str_suffix a b → str_suffix b c → str_suffix a c.
Proof. intros [p ->] [q ->]. exists (q +:+ p). by rewrite str_app_assoc. Qed.

Lemma split_scheme_suffix u : str_suffix (split_scheme u).2 u.
Proof.
  unfold split_scheme. destruct u as [|a u]; [by exists ""|].
  destruct (split_once ":" (String a u)) as [s [r|]] eqn:Es; [|by exists ""].
  destruct (_ && _); [|by exists ""]. apply split_once_app_eq in Es. exists (s +:+ ":").
  by rewrite Es, str_app_assoc.
Qed.

Lemma split_netloc_suffix u : str_suffix (split_netloc u).2 u.
Proof.
  destruct u as [|a [|b u]]; [by exists ""|by exists ""|]. cbn [split_netloc].
  destruct (_ && _); [|by exists ""]. destruct (span_not is_netloc_delim u) as [x y] eqn:Es.
  apply span_not_eq in Es as ->. exists (String a (String b x)). done.
Qed.

Lemma query_suffix e p :
  char_in "#" e = false → urlparse e = Ok p → str_suffix (query p) (clean_url e).
Proof.
  intros He Hp. apply urlparse_parts in Hp; [|done].
  pose proof (split_scheme_suffix (clean_url e)) as H1.
  destruct (split_scheme (clean_url e)) as [sch rest].
  pose proof (split_netloc_suffix rest) as H2. destruct (split_netloc rest) as [net rest'].
  cbn [snd] in *. destruct Hp as [_ Hp].
  destruct (split_once "?" rest') as [r [q|]] eqn:Eq;
    destruct (if bool_decide (sch ∈ uses_params) then splitparams r else (r, "")) as [pth par];
    subst p; cbn [query default].
  - apply split_once_app_eq in Eq. eapply str_suffix_trans; [|exact H1].
    eapply str_suffix_trans; [|exact H2]. exists (r +:+ "?"). by rewrite Eq, str_app_assoc.
  - exists (clean_url e). by rewrite str_app_nil.
Qed.

(** A string that ends in [c] has no end that does not. *)
Lemma suffix_last s x c :
  str_suffix s (x +:+ String c "") → nonempty s = true → ∃ s', s = s' +:+ String c "".
Proof.
  intros [pre H]. revert x H. induction pre as [|d pre IH]; intros x H Hs.
  - by exists x.
  - destruct x as [|d' x].
    + assert (pre +:+ s = "") as E by (by injection H).
      destruct pre, s; done.
    + apply (IH x); [|done]. by injection H.
Qed.

Lemma query_last e0 c p :
  char_in "#" (e0 +:+ String c "") = false → tail_char c = true →
  urlparse (e0 +:+ String c "") = Ok p → nonempty (query p) = true →
  ∃ q0, query p = q0 +:+ String c "".
Proof.
  intros Hh Hc Hp Hne. apply (suffix_last _ (clean_url e0)); [|done].
  rewrite <- clean_url_app by (by cbn; rewrite Hc). by apply query_suffix.
Qed.

(** *** A query after a delimiter that is there *)

Lemma parse_qsl_trailing s : parse_qsl (s +:+ "&") = parse_qsl s.
Proof. rewrite (parse_qsl_app s ""). apply app_nil_r. Qed.

Lemma urlencode_nonempty d q : urlencode d = Ok q → d ≠ [] → ∃ c t, q = String c t.
Proof.
  unfold urlencode. intros (fs & Hfs & [= <-])%result_bind_ok Hd. apply mapM_ok_spec in Hfs.
  destruct Hfs as [|kv f d fs Hf H]; [done|].
  apply result_bind_ok in Hf as (k & Hk & (v & Hv & [= <-])%result_bind_ok).
  destruct fs as [|g fs]; cbn [str_join]; destruct k as [|c k]; by eexists _, _.
Qed.

(** A [?] that ends the endpoint opens the query, and a [&] that ends it continues one. *)
Definition query_ready (e : string) (p : ParseResult) : Prop :=
  char_in "#" e = false ∧
  if nonempty (query p) then endswith e "?" = false
  else endswith e "&" = false ∧ (char_in "?" e = false ∨ ∃ e0, e = e0 +:+ "?" ∧ char_in "?" e0 = false).

(** *** Rebuilding a URL *)

Lemma splitparams_parts s a b : splitparams s = (a, b) →
  char_in "/" b = false ∧ char_in "/" a = char_in "/" s ∧ splitparams a = (a, "") ∧
  (nonempty b = true → splitparams (a +:+ String ";" b) = (a, b)) ∧
  (s = a ∨ s = a +:+ String ";" b).
Proof.
  revert a. induction s as [|c s IH]; intros a; cbn [splitparams];
    [intros [= <- <-]; split_and!; by eauto|].
  destruct ((c ≟ ";"%char) && negb (char_in "/" s)) eqn:Ec.
  - intros [= <- <-]. bool_prop. subst c. split_and!; [done| |done| |by right].
    + unfold char_in in *. cbn [sforall]. by bd_refl.
    + intros _. change ("" +:+ String ";" s) with (String ";" s). cbn [splitparams].
      rewrite H0. by bd_refl.
  - destruct (splitparams s) as [a' b'] eqn:Es. intros [= <- <-].
    destruct (IH a' eq_refl) as (Hb & Hs & Ha & Hab & Hor).
    assert (Hcons : ∀ t u, char_in "/" t = char_in "/" s → splitparams t = (a', u) →
              splitparams (String c t) = (String c a', u)).
    { intros t u Ht Hu. cbn [splitparams]. by rewrite Ht, Ec, Hu. }
    split_and!; [done| |by apply Hcons| |].
    + change (char_in "/" (String c "" +:+ a') = char_in "/" (String c "" +:+ s)).
      by rewrite !char_in_app, Hs.
    + intros Hne. change (String c a' +:+ String ";" b') with (String c (a' +:+ String ";" b')).
      apply Hcons; [|by apply Hab]. rewrite char_in_app, Hs.
      change (String ";" b') with (";" +:+ b'). rewrite char_in_app, Hb. by rewrite !orb_false_r.
    + destruct Hor as [->|Hor]; [by left|right]. change (String c s = String c (a' +:+ String ";" b')).
      by rewrite <- Hor.
Qed.

(** A string that is empty or starts with a slash, as the path of a URL with an authority. *)
Definition rooted (s : string) : Prop := s = "" ∨ ∃ t, s = String "/" t.

Lemma span_not_rooted s net rest :
  span_not is_netloc_delim s = (net, rest) → sforall (λ c, negb (is_netloc_delim c)) net = true ∧
  (rest = "" ∨ ∃ c t, rest = String c t ∧ is_netloc_delim c = true).
Proof.
  revert net. induction s as [|c s IH]; intros net; cbn [span_not].
  - intros [= <- <-]. split; [done|by left].
  - destruct (is_netloc_delim c) eqn:Ec.
    + intros [= <- <-]. split; [done|]. right. by exists c, s.
    + destruct (span_not is_netloc_delim s) as [a b]. intros [= <- <-].
      destruct (IH a eq_refl) as [Ha Hb]. split; [|done]. cbn [sforall]. by rewrite Ec.
Qed.

Lemma span_not_stop s t :
  sforall (λ c, negb (is_netloc_delim c)) s = true → rooted t →
  span_not is_netloc_delim (s +:+ t) = (s, t).
Proof.
  intros Hs Ht. induction s as [|c s IH].
  - destruct Ht as [->|[t' ->]]; done.
  - cbn [sforall] in Hs. apply andb_true_iff in Hs as [Hc Hs]. apply negb_true_iff in Hc.
    change (span_not is_netloc_delim (String c (s +:+ t)) = (String c s, t)).
    cbn [span_not]. by rewrite Hc, (IH Hs).
Qed.

Lemma split_once_cut c s : (split_once c s).1 = s ∨ ∃ t, s = (split_once c s).1 +:+ String c t.
Proof.
  destruct (split_once c s) as [a [b|]] eqn:E; [right; exists b; by apply split_once_app_eq|left].
  revert a E. induction s as [|d s IH]; intros a; cbn [split_once]; [by intros [= <-]|].
  destruct (d ≟ c); [done|]. destruct (split_once c s) as [a' [b'|]]; [done|].
  intros [= <-]. cbn [fst]. by rewrite <- (IH a' eq_refl).
Qed.

(** What precedes a fragment and a query: still rooted, with neither mark. *)
Lemma cut_rooted s r :
  (s = "" ∨ ∃ c t, s = String c t ∧ is_netloc_delim c = true) →
  r = (split_once "?" (split_once "#" s).1).1 →
  rooted r ∧ char_in "#" r = false ∧ char_in "?" r = false ∧ ∃ t, s = r +:+ t.
Proof.
  intros Hs ->. pose proof (split_once_fst "#" s) as H1.
  pose proof (split_once_fst "?" (split_once "#" s).1) as H2.
  pose proof (split_once_cut "#" s) as C1. pose proof (split_once_cut "?" (split_once "#" s).1) as C2.
  set (a := (split_once "#" s).1) in *. set (b := (split_once "?" a).1) in *.
  assert (Ha : ∃ t, s = a +:+ t).
  { destruct C1 as [H|[t H]]; [exists ""; by rewrite str_app_nil|by eexists]. }
  assert (Hb : ∃ t, a = b +:+ t).
  { destruct C2 as [H|[t H]]; [exists ""; by rewrite str_app_nil|by eexists]. }
  destruct Ha as [t Ht], Hb as [t' Ht']. split_and!; [| |done|].
  - destruct b as [|c b'] eqn:Eb; [by left|right].
    destruct Hs as [->|(d & v & -> & Hd)]; [by rewrite Ht' in Ht|].
    rewrite Ht' in Ht. injection Ht as <- _. unfold is_netloc_delim in Hd.
    exists b'. f_equal. destruct (d ≟ "/"%char) eqn:E1; [by apply bool_decide_eq_true in E1|].
    exfalso. apply orb_true_iff in Hd as [Hd|Hd]; apply bool_decide_eq_true in Hd; subst d.
    + unfold char_in in H2. cbn [sforall] in H2. by bd_refl.
    + rewrite Ht' in H1. by unfold char_in in H1.
  - rewrite Ht' in H1. rewrite char_in_app in H1. by apply orb_false_iff in H1 as [H1 _].
  - exists (t' +:+ t). by rewrite <- str_app_assoc, <- Ht'.
Qed.

Definition split_path (sch rest : string) : string * string :=
  if bool_decide (sch ∈ uses_params) then splitparams rest else (rest, "").
Definition join_path (pth par : string) : string :=
  if nonempty par then pth +:+ String ";" par else pth.

Lemma split_join_path sch r pth par : rooted r → split_path sch r = (pth, par) →
  rooted (join_path pth par) ∧ split_path sch (join_path pth par) = (pth, par) ∧
  ∃ t, r = join_path pth par +:+ t.
Proof.
  intros Hr. unfold split_path, join_path. case_bool_decide as Hs.
  - intros H0. destruct (splitparams_parts _ _ _ H0) as (_ & _ & H1 & H2 & H3).
    destruct (nonempty par) eqn:Ep.
    + assert (r = pth +:+ String ";" par) as ->.
      { destruct H3 as [H3|H3]; [|exact H3]. rewrite H3, H1 in H0. by injection H0 as <-. }
      split_and!; [done|done|]. exists "". by rewrite str_app_nil.
    + apply nonempty_false in Ep as ->. split_and!; [|done|].
      * destruct H3 as [<-|H3]; [done|]. rewrite H3 in Hr.
        destruct pth as [|c pth]; [by left|right].
        destruct Hr as [Hr|[t Hr]]; [done|]. injection Hr as -> _. by eexists.
      * destruct H3 as [H3|H3]; [exists ""; by rewrite str_app_nil|by exists (String ";" "")].
  - intros H. injection H as -> <-. cbn [nonempty]. split_and!; [done..|]. exists "". by rewrite str_app_nil.
Qed.

Lemma split_scheme_nonempty u sch rest :
  split_scheme u = (sch, rest) → nonempty sch = true →
  ∃ s, u = s +:+ String ":" rest ∧ sch = lower s ∧ sforall is_scheme_char s = true ∧
    match s with String c _ => is_ascii_alpha c | EmptyString => false end = true.
Proof.
  unfold split_scheme. destruct u as [|c u]; [by intros [= <- <-]|].
  destruct (split_once ":" (String c u)) as [s [r|]] eqn:Es; [|by intros [= <- <-]].
  destruct (nonempty s && is_ascii_alpha c && sforall is_scheme_char s) eqn:Eg;
    [|by intros [= <- <-]].
  intros [= <- <-] _. apply split_once_app_eq in Es. bool_prop. exists s. split_and!; try done.
  destruct s as [|d s]; [done|]. by injection Es as <- _.
Qed.

Lemma sforall_lower_scheme s : sforall is_scheme_char s = true → sforall is_scheme_char (lower s) = true.
Proof.
  unfold lower. induction s as [|c s IH]; [done|]. cbn [sforall smap].
  intros [Hc Hs]%andb_true_iff. rewrite (IH Hs), andb_true_r. revert Hc. by all_ascii c.
Qed.

Lemma split_scheme_lower s rest :
  sforall is_scheme_char s = true →
  match s with String c _ => is_ascii_alpha c | EmptyString => false end = true →
  split_scheme (lower s +:+ String ":" rest) = (lower s, rest).
Proof.
  intros Hs Ha. destruct s as [|c s]; [done|]. unfold split_scheme.
  change (lower (String c s) +:+ String ":" rest) with
    (String (lower_char c) (lower s +:+ String ":" rest)). cbv beta iota.
  change (String (lower_char c) (lower s +:+ String ":" rest)) with
    (lower (String c s) +:+ String ":" rest).
  assert (Hl := sforall_lower_scheme _ Hs). rewrite split_once_app.
  - rewrite Hl, lower_idem. assert (is_ascii_alpha (lower_char c) = true) as ->.
    { revert Ha. by all_ascii c. }
    done.
  - unfold char_in. apply negb_false_iff. eapply sforall_impl; [|exact Hl]. intros d. by all_ascii d.
Qed.

Lemma clean_url_plain s c t : s = String c t →
  (code c <=? 32) = false → sforall (λ d, negb (is_dropped d)) s = true → clean_url s = s.
Proof.
  intros -> Hc Hs. unfold clean_url. cbn [lstrip_p]. rewrite Hc. by apply sfilter_all.
Qed.

Lemma sforall_sfilter p s : sforall p (sfilter p s) = true.
Proof.
  induction s as [|c s IH]; [done|]. cbn [sfilter]. destruct (p c) eqn:E; [|done].
  cbn [sforall]. by rewrite E.
Qed.

Lemma sforall_lower_dropped s :
  sforall (λ d, negb (is_dropped d)) s = true → sforall (λ d, negb (is_dropped d)) (lower s) = true.
Proof.
  unfold lower. induction s as [|c s IH]; [done|]. cbn [sforall smap].
  intros [Hc Hs]%andb_true_iff. rewrite (IH Hs), andb_true_r. revert Hc. by all_ascii c.
Qed.

Lemma split_netloc_nonempty s net rest :
  split_netloc s = (net, rest) → nonempty net = true →
  s = "//" +:+ (net +:+ rest) ∧ sforall (λ c, negb (is_netloc_delim c)) net = true ∧
  (rest = "" ∨ ∃ c t, rest = String c t ∧ is_netloc_delim c = true).
Proof.
  destruct s as [|a [|b s]]; [by intros [= <- <-]..|]. cbn [split_netloc].
  destruct ((a ≟ "/"%char) && (b ≟ "/"%char)) eqn:E; [|by intros [= <- <-]].
  intros Hs _. bool_prop. subst. split; [|by apply (span_not_rooted s)].
  by apply span_not_eq in Hs as ->.
Qed.

(** A URL with a scheme and an authority, rebuilt without its query and fragment, parses to the
    same scheme, authority, path and parameters. *)
Lemma urlparse_urlunparse uri p :
  urlparse uri = Ok p → nonempty (scheme p) = true → nonempty (netloc p) = true →
  let bare := URL (scheme p) (netloc p) (path p) (params p) "" "" in
  urlparse (urlunparse bare) = Ok bare ∧
  char_in "?" (urlunparse bare) = false ∧ char_in "#" (urlunparse bare) = false.
Proof.
  unfold urlparse at 1. destruct (split_scheme (clean_url uri)) as [sch rest] eqn:Es.
  destruct (split_netloc rest) as [net rest'] eqn:En. intros H.
  apply result_seq_ok in H as [Hbr H].
  destruct (split_once "#" rest') as [r1 frag] eqn:E1, (split_once "?" r1) as [r q] eqn:E2.
  fold (split_path sch r) in H. destruct (split_path sch r) as [pth par] eqn:Ep.
  injection H as <-. cbn [scheme netloc path params]. intros Hsch Hnet. cbv zeta.
  destruct (split_scheme_nonempty _ _ _ Es Hsch) as (s0 & Hu & Hlow & Hsc & Hal).
  destruct (split_netloc_nonempty _ _ _ En Hnet) as (Hrest & Hdelim & Hstart).
  destruct (cut_rooted rest' r Hstart) as (Hroot & Hh & Hq & t' & Ht');
    [by rewrite E1; cbn [fst]; rewrite E2|].
  destruct (split_join_path sch r pth par Hroot Ep) as (Hroot' & Hsplit & t & Ht).
  set (tail := join_path pth par) in *.
  assert (Hclean : sforall (λ d, negb (is_dropped d)) (clean_url uri) = true) by apply sforall_sfilter.
  rewrite Hu, Hrest, Ht', Ht in Hclean.
  change (String ":" ?x) with (":" +:+ x) in Hclean. rewrite !sforall_app, !andb_true_iff in Hclean.
  destruct Hclean as (Hc1 & _ & _ & Hc2 & (Hc3 & _) & _).
  rewrite Ht, char_in_app in Hh, Hq. apply orb_false_iff in Hh as [Hh _], Hq as [Hq _].
  assert (Hun : urlunparse (URL sch net pth par "" "") = lower s0 +:+ String ":" ("//" +:+ (net +:+ tail))).
  { unfold urlunparse. cbn [scheme netloc path params query fragment]. fold (join_path pth par).
    fold tail. rewrite Hsch, <- Hlow. cbn [nonempty].
    destruct Hroot' as [Hr|[v Hr]]; rewrite Hr; [done|by destruct v]. }
  assert (Hnodelim : ∀ c, is_netloc_delim c = true → char_in c net = false).
  { intros c Hc. unfold char_in. apply negb_false_iff. eapply sforall_impl; [|exact Hdelim].
    intros d Hd. cbv beta in *. apply negb_true_iff. apply bool_decide_eq_false. intros ->.
    by rewrite Hc in Hd. }
  assert (Hcl : clean_url (lower s0 +:+ String ":" ("//" +:+ (net +:+ tail))) =
    lower s0 +:+ String ":" ("//" +:+ (net +:+ tail))).
  { destruct s0 as [|c s0]; [done|]. eapply clean_url_plain; [reflexivity| |].
    - revert Hal. clear. by all_ascii c.
    - change (String ":" ?x) with (":" +:+ x). rewrite !sforall_app.
      rewrite sforall_lower_dropped, Hc2, Hc3 by done. done. }
  rewrite Hun. split_and!.
  - unfold urlparse. rewrite Hcl, split_scheme_lower by done.
    change (split_netloc ("//" +:+ (net +:+ tail))) with (span_not is_netloc_delim (net +:+ tail)).
    rewrite span_not_stop, Hbr by done. cbn [mbind result_bind].
    rewrite (split_once_none "#") by (by apply negb_false_iff in Hh).
    rewrite (split_once_none "?") by (by apply negb_false_iff in Hq).
    fold (split_path (lower s0) tail). rewrite <- Hlow, Hsplit. done.
  - change (String ":" ?x) with (":" +:+ x). rewrite !char_in_app, Hq, (Hnodelim "?"%char) by done.
    rewrite !orb_false_r. unfold char_in. apply negb_false_iff.
    eapply sforall_impl; [|by apply sforall_lower_scheme, Hsc]. intros d. by all_ascii d.
  - change (String ":" ?x) with (":" +:+ x). rewrite !char_in_app, Hh, (Hnodelim "#"%char) by done.
    rewrite !orb_false_r. unfold char_in. apply negb_false_iff.
    eapply sforall_impl; [|by apply sforall_lower_scheme, Hsc]. intros d. by all_ascii d.
Qed.
