(* ===== verification/Logout.v ===== *)
(** * Logout ([core/logout_logic.py], [sync/logout.py], [aio/logout.py], [aio/id_token.py])

    The rules of back-channel logout tokens, applied to what [validate_token] returns; the
    end-session URL of RP-initiated logout; and the check of the state that comes back.  The
    asynchronous counterparts of logout-token and ID-token validation are here too, as calls over
    [aio_validate_token]. *)

From S2P Require Import Prelude PyStr PyValue Models Url Codec Cache Policy HttpRetry Discovery Jwks Jwt TokenValidation Coro CacheMetrics Aio AioSafety AioAlone IdToken UrlQuery.
From Stdlib Require Import QArith Ascii.
From stdpp Require Import strings.
#[global] Close Scope Q_scope.
Open Scope string_scope.
Open Scope list_scope.
Open Scope nat_scope.
Open Scope py_scope.

(** ** Logout tokens *)

Definition BACKCHANNEL_LOGOUT_EVENT : string := "http://schemas.openid.net/event/backchannel-logout".
Definition LOGOUT_TOKEN_PARAM : string := "logout_token".
Definition REQUIRED_CLAIMS : list string := ["iss"; "aud"; "iat"; "jti"; "events"].

(** [LogoutTokenValidationException(msg, token_part="payload")]. *)
Definition LogoutTokenInvalid (msg : string) : exn :=
  Exn LogoutTokenValidationException msg (Some "payload") [] [].

Definition validate_logout_token_claims (claims : pydict) : outcome unit :=
  _ ← for_each (λ required, raise_if (negb (has_key required claims))
        (LogoutTokenInvalid ("Logout token missing required '" +:+ required +:+ "' claim")))
        REQUIRED_CLAIMS;
  _ ← raise_if (has_key "nonce" claims)
        (LogoutTokenInvalid "Logout token must not contain a 'nonce' claim");
  _ ← raise_if (is_none (dget "sub" claims) && is_none (dget "sid" claims))
        (LogoutTokenInvalid "Logout token must contain at least one of 'sub' or 'sid'");
  match dget "events" claims with
  | VDict events =>
      raise_if (negb (has_key BACKCHANNEL_LOGOUT_EVENT events))
        (LogoutTokenInvalid ("Logout token 'events' claim must contain the '" +:+
                             BACKCHANNEL_LOGOUT_EVENT +:+ "' member"))
  | _ => Err (LogoutTokenInvalid "Logout token 'events' claim must be a JSON object")
  end.

Section LogoutToken.
Context (env : string → option string) (http_date : string → option Q) (wall : Q).
Context (http : nat → string → outcome HttpResponse).
Context (clock : nat → Q).
Context (get_unverified_header : string → outcome pydict).
Context {PyJWK : Type} (new_pyjwk : pydict → option pyval → outcome PyJWK).
Context (decode : nat → string → PyJWK → DecodeArgs → outcome pydict).

Definition validate_logout_token (logout_token : string) (c : TokenValidationConfig)
    (disco_doc_address : option string) (injected : bool) : stM TVState exn pydict :=
  claims ← validate_token env http_date wall http clock get_unverified_header new_pyjwk decode
             logout_token c disco_doc_address injected;
  _ ← lift (validate_logout_token_claims claims);
  mret claims.

Context (hash_key : disco_key → Z) (hash_uri : string → Z) (nan_sleep : outcome unit).

Definition aio_validate_logout_token (loop : nat) (logout_token : string)
    (c : TokenValidationConfig) (disco_doc_address : option string) (injected : bool) : C pydict :=
  claims ← aio_validate_token env http_date wall http clock get_unverified_header new_pyjwk decode
             hash_key hash_uri nan_sleep loop logout_token c disco_doc_address injected;
  _ ← pure (validate_logout_token_claims claims);
  mret claims.

(** [validate_id_token] of [aio/id_token.py]. *)
Definition aio_validate_id_token (loop : nat) (id_token : string) (c : TokenValidationConfig)
    (disco_doc_address : option string) (injected : bool)
    (nonce access_token code : option string) (max_age : option Z) : C pydict :=
  claims ← aio_validate_token env http_date wall http clock get_unverified_header new_pyjwk decode
             hash_key hash_uri nan_sleep loop id_token c disco_doc_address injected;
  '(_, header_alg) ← pure (extract_jwt_header_fields get_unverified_header id_token);
  _ ← pure (validate_id_token_claims wall claims header_alg (audience c) nonce access_token code
              max_age (or_zero (leeway c)) (Some wall));
  mret claims.
End LogoutToken.

(** ** The end-session URL *)

Definition RESERVED_END_SESSION_PARAMS : list string :=
  ["id_token_hint"; "logout_hint"; "client_id"; "post_logout_redirect_uri"; "state"; "ui_locales"].

Definition end_session_params (id_token_hint client_id post_logout_redirect_uri state logout_hint
    ui_locales : option ustr) : list (ustr * ustr) :=
  optional_param "id_token_hint" id_token_hint ++ optional_param "logout_hint" logout_hint ++
  optional_param "client_id" client_id ++
  optional_param "post_logout_redirect_uri" post_logout_redirect_uri ++
  optional_param "state" state ++ optional_param "ui_locales" ui_locales.

Definition end_session_collisions (extra_params : list (ustr * ustr)) : list string :=
  reserved_in RESERVED_END_SESSION_PARAMS extra_params.

Definition build_end_session_url (end_session_endpoint : string)
    (id_token_hint client_id post_logout_redirect_uri state logout_hint ui_locales : option ustr)
    (extra_params : list (ustr * ustr)) : outcome string :=
  _ ← raise_if (negb (nonempty (strip end_session_endpoint)))
        (ValueErr "end_session_endpoint must not be empty");
  _ ← raise_if (negb (length (end_session_collisions extra_params) =? 0))
        (ValueErr ("extra_params must not override reserved RP-Initiated Logout parameters: " +:+
                   str_join ", " (sorted_set (end_session_collisions extra_params))));
  '(endpoint, parsed) ← strip_fragment end_session_endpoint;
  match alist_update (end_session_params id_token_hint client_id post_logout_redirect_uri state
                        logout_hint ui_locales) extra_params with
  | [] => Ok endpoint
  | params =>
      query_string ← urlencode params;
      if endswith endpoint "?" || endswith endpoint "&" then Ok (endpoint +:+ query_string)
      else
        let separator := if nonempty (query parsed) then "&" else "?" in
        Ok ((endpoint +:+ separator) +:+ query_string)
  end.

(** ** The state that comes back *)

Definition LogoutStateInvalid (msg : string) : exn := mk_exn LogoutStateValidationException msg.

Definition validate_post_logout_state (expected_state returned_state : option ustr) : outcome unit :=
  match expected_state with
  | Some ((_ :: _) as expected) =>
      match returned_state with
      | Some ((_ :: _) as returned) =>
          same ← compare_digest returned expected;
          raise_if (negb same) (LogoutStateInvalid "State parameter does not match expected value")
      | _ => Err (LogoutStateInvalid "State parameter not present in post-logout redirect")
      end
  | _ => Err (LogoutStateInvalid "Expected logout state is missing or empty (session may have expired)")
  end.

(** ** Tests on concrete inputs *)

Definition demo_logout_claims : pydict :=
  [("iss", VStr "https://op.example"); ("aud", VStr "app"); ("iat", VInt 0); ("jti", VStr "1");
   ("sid", VStr "s"); ("events", VDict [(BACKCHANNEL_LOGOUT_EVENT, VDict [])])].
Example logout_1 : validate_logout_token_claims demo_logout_claims = Ok ().
Proof. reflexivity. Qed.
Example logout_2 :
  validate_logout_token_claims (("nonce", VNone) :: demo_logout_claims) =
    Err (LogoutTokenInvalid "Logout token must not contain a 'nonce' claim").
Proof. reflexivity. Qed.
Definition demo_end_session (endpoint : string) : outcome string :=
  build_end_session_url endpoint (Some (text "eyJ")) None (Some (text "https://a/out")) (Some (text "s1"))
    None None [].
Example end_session_1 : demo_end_session "https://op.example/logout?" =
  Ok "https://op.example/logout?id_token_hint=eyJ&post_logout_redirect_uri=https%3A%2F%2Fa%2Fout&state=s1".
Proof. vm_compute. reflexivity. Qed.
(** An endpoint that ends in [&] but has no query: the parameters extend the path. *)
Example end_session_2 :
  (u ← demo_end_session "https://op.example/logout&"; u ← urlparse u; Ok (query u)) = Ok "".
Proof. vm_compute. reflexivity. Qed.

(** ** Lemmas *)

Lemma validate_logout_token_claims_ok claims :
  validate_logout_token_claims claims = Ok () ↔
  (∀ n, n ∈ REQUIRED_CLAIMS → has_key n claims = true) ∧ has_key "nonce" claims = false ∧
  (dget "sub" claims ≠ VNone ∨ dget "sid" claims ≠ VNone) ∧
  ∃ events, dget "events" claims = VDict events ∧ has_key BACKCHANNEL_LOGOUT_EVENT events = true.
Proof.
  unfold validate_logout_token_claims. rewrite result_seq_ok, !raise_if_seq_ok, for_each_ok.
  assert (Hreq : (∀ n, n ∈ REQUIRED_CLAIMS → raise_if (negb (has_key n claims))
    (LogoutTokenInvalid ("Logout token missing required '" +:+ n +:+ "' claim")) = Ok ()) ↔
    ∀ n, n ∈ REQUIRED_CLAIMS → has_key n claims = true).
  { split; intros H n Hn; specialize (H n Hn); by rewrite raise_if_ok, negb_false_iff in *. }
  rewrite Hreq, andb_false_iff.
  assert (Hnone : ∀ v, is_none v = false ↔ v ≠ VNone) by (intros []; by split).
  rewrite !Hnone. do 3 (apply and_iff_compat_l).
  destruct (dget "events" claims); try (split; [done|by intros (ev & [=] & _)]).
  rewrite raise_if_ok, negb_false_iff. split; [by eexists|]. by intros (ev & [= ->] & ?).
Qed.

(** The five required claims, one by one. *)
Lemma required_claims_spelt claims :
  (∀ n, n ∈ REQUIRED_CLAIMS → has_key n claims = true) ↔
  has_key "iss" claims = true ∧ has_key "aud" claims = true ∧ has_key "iat" claims = true ∧
  has_key "jti" claims = true ∧ has_key "events" claims = true.
Proof.
  unfold REQUIRED_CLAIMS. rewrite <- Forall_forall, !Forall_cons, Forall_nil. naive_solver.
Qed.

(** The two kinds of token do not mix: an ID token for a request with a nonce has the claim a
    logout token must not have. *)
Lemma logout_not_id_token claims :
  validate_logout_token_claims claims = Ok () →
  ∀ clock al client_id nonce access_token code max_age lw now,
    validate_id_token_claims clock claims al client_id (Some nonce) access_token code max_age lw now
      ≠ Ok ().
Proof.
  intros (_ & Hn & _)%validate_logout_token_claims_ok clock al client_id nonce at_ code max_age lw now Hid.
  apply validate_id_token_claims_ok in Hid. destruct (ok_nonce _ _ _ _ _ _ _ _ _ Hid nonce eq_refl) as [Hd _].
  unfold dget in Hd. unfold has_key in Hn. by destruct (dict_get "nonce" claims).
Qed.

(** Every failure is a logout-token failure. *)
Definition logout_error (e : exn) : Prop := ∃ msg, e = LogoutTokenInvalid msg.
Lemma logout_error_intro msg : logout_error (LogoutTokenInvalid msg).
Proof. by exists msg. Qed.
#[local] Hint Resolve logout_error_intro : errors.

Lemma errors_in_for_each {A} (P : exn → Prop) (f : A → outcome unit) l :
  (∀ x, errors_in P (f x)) → errors_in P (for_each f l).
Proof. intros Hf e (l1 & x & l2 & _ & _ & Hx)%for_each_err. by eapply Hf. Qed.

Lemma validate_logout_token_claims_errors claims :
  errors_in logout_error (validate_logout_token_claims claims).
Proof.
  unfold validate_logout_token_claims.
  apply errors_in_bind; [apply errors_in_for_each; auto with errors|]. intros _ _.
  apply errors_in_bind; [auto with errors|]. intros _ _.
  apply errors_in_bind; [auto with errors|]. intros _ _.
  destruct (dget "events" claims); auto with errors.
Qed.

(** *** The end-session URL *)

Definition appended (e : string) (p : ParseResult) (q : string) : string :=
  if endswith e "?" || endswith e "&" then e +:+ q
  else (e +:+ (if nonempty (query p) then "&" else "?")) +:+ q.

(** [p'] is [p] with [ps] after its query parameters and no fragment. *)
Definition asks (p p' : ParseResult) (ps : list (ustr * ustr)) : Prop :=
  scheme p' = scheme p ∧ netloc p' = netloc p ∧ path p' = path p ∧ params p' = params p ∧
  fragment p' = "" ∧ parse_qsl (query p') = parse_qsl (query p) ++ ps.

Lemma asks_after (p : ParseResult) qs ps :
  parse_qsl qs = parse_qsl (query p) ++ ps →
  asks p (URL (scheme p) (netloc p) (path p) (params p) qs "") ps.
Proof. by intros H. Qed.

Lemma str_snoc s c t : (s +:+ String c "") +:+ t = s +:+ String c t.
Proof. by rewrite str_app_assoc. Qed.

Lemma appended_asks e p q ps :
  urlparse e = Ok p → query_ready e p → urlencode ps = Ok q → ps ≠ [] →
  ∃ p', urlparse (appended e p q) = Ok p' ∧ asks p p' ps.
Proof.
  intros Hp [Hhash Hready] Hq Hne. pose proof (urlencode_tail _ _ Hq) as Ht.
  destruct (urlencode_nonempty _ _ Hq Hne) as (c & t & Ec). apply parse_qsl_urlencode in Hq as [Hq _].
  unfold appended. destruct (nonempty (query p)) eqn:En.
  - rewrite Hready. cbn [orb]. destruct (endswith e "&") eqn:Eand.
    + apply endswith_spec in Eand as [e0 He]. rewrite Ec in *.
      eexists. split; [by apply (urlparse_extend_any _ _ _ p)|]. apply asks_after.
      rewrite He in Hp, Hhash. destruct (query_last _ _ _ Hhash eq_refl Hp En) as [q0 Hq0]. rewrite Hq0, parse_qsl_trailing, str_snoc, parse_qsl_app. by rewrite Hq.
    + rewrite str_snoc. eexists. split; [by apply (urlparse_extend_query _ _ p)|]. apply asks_after.
      by rewrite parse_qsl_app, Hq.
  - destruct Hready as [Hamp Hqm]. rewrite Hamp, orb_false_r. apply nonempty_false in En.
    destruct Hqm as [Hqm|(e0 & -> & Hqm)].
    + destruct (endswith e "?") eqn:Eq.
      { apply endswith_spec in Eq as [e0 ->]. by rewrite char_in_app, orb_true_r in Hqm. }
      rewrite str_snoc. eexists. split; [by apply (urlparse_add_query _ _ p)|]. apply asks_after.
      by rewrite En, Hq.
    + assert (endswith (e0 +:+ "?") "?" = true) as -> by (apply endswith_spec; by exists e0).
      cbn [orb]. rewrite str_snoc. rewrite char_in_app in Hhash. apply orb_false_iff in Hhash as [Hhash _].
      destruct (urlparse_open_query e0 p Hhash Hqm Hp) as (Eq & p0 & Hp0 & E1 & E2 & E3 & E4).
      eexists. split; [by apply (urlparse_add_query _ _ p0)|]. unfold asks.
      cbn [scheme netloc path params query fragment]. by rewrite Eq, Hq.
Qed.

Lemma end_session_keys k a b c d e f :
  k ∈ (end_session_params a b c d e f).*1 → ∃ n, n ∈ RESERVED_END_SESSION_PARAMS ∧ k = text n.
Proof.
  unfold end_session_params. rewrite !fmap_app, !elem_of_app.
  assert (Ho : ∀ n (o : option ustr), k ∈ (optional_param n o).*1 → k = text n).
  { intros n o. unfold optional_param. destruct o; cbn; rewrite ?elem_of_cons, elem_of_nil; naive_solver. }
  intros [H|[H|[H|[H|[H|H]]]]]; apply Ho in H; subst;
    (eexists; split; [|done]; unfold RESERVED_END_SESSION_PARAMS; repeat (first [by left|right])).
Qed.

Lemma end_session_asked extra a b c d e f :
  NoDup extra.*1 → negb (length (end_session_collisions extra) =? 0) = false →
  alist_update (end_session_params a b c d e f) extra = end_session_params a b c d e f ++ extra.
Proof.
  intros Hd Hc. unfold end_session_collisions in Hc. rewrite reserved_in_nil in Hc.
  apply alist_update_new; [done|]. intros k Hk (n & Hn & ->)%end_session_keys. by apply (Hc n).
Qed.

(** *** Running alone *)

Lemma aio_logout_alone env http_date wall http clock header {PyJWK : Type} new_pyjwk decode hash_key
    hash_uri nan_sleep loop jwt c addr injected :
  sane_backoff env → validate_endpoints (config_policy c) = true →
  (∀ address, addr = Some address → countable address (config_policy c)) →
  runs tv (λ _, True) (tv_inv env http)
    (aio_validate_logout_token env http_date wall http clock header (PyJWK:=PyJWK) new_pyjwk decode
       hash_key hash_uri nan_sleep loop jwt c addr injected)
    (validate_logout_token env http_date wall http clock header new_pyjwk decode jwt c addr injected).
Proof.
  intros Henv Hve Hc. eapply (runs_bind _ _ _ (λ _, True) _ _ (λ _, True)); [by apply same_validate_token| |].
  - intros t _. exact (any_outcome _ t).
  - intros claims _. apply runs_seq; [apply runs_pure|]. intros _. apply runs_ret.
Qed.

Lemma aio_id_token_alone env http_date wall http clock header {PyJWK : Type} new_pyjwk decode hash_key
    hash_uri nan_sleep loop jwt c addr injected nonce access_token code max_age :
  sane_backoff env → validate_endpoints (config_policy c) = true →
  (∀ address, addr = Some address → countable address (config_policy c)) →
  runs tv (λ _, True) (tv_inv env http)
    (aio_validate_id_token env http_date wall http clock header (PyJWK:=PyJWK) new_pyjwk decode
       hash_key hash_uri nan_sleep loop jwt c addr injected nonce access_token code max_age)
    (validate_id_token env http_date wall http clock header new_pyjwk decode jwt c addr injected
       nonce access_token code max_age).
Proof.
  intros Henv Hve Hc. eapply (runs_bind _ _ _ (λ _, True) _ _ (λ _, True)); [by apply same_validate_token| |].
  - intros t _. exact (any_outcome _ t).
  - intros claims _. apply runs_seq; [apply runs_pure|]. intros [k al].
    apply runs_seq; [apply runs_pure|]. intros _. apply runs_ret.
Qed.

(** ** Properties *)

(** C23: [validate_logout_token] accepts exactly the logout tokens.  From any reachable state it
    leaves the state [validate_token] leaves, and returns claims exactly when [validate_token]
    returns them and they keep the rules of Back-Channel Logout: [iss], [aud], [iat], [jti] and
    [events] are there, [nonce] is not, [sub] or [sid] is there and not null, and [events] is an
    object with the back-channel logout member.  When it fails, it is with the error of
    [validate_token], or with a logout-token error of the payload over claims that
    [validate_token] returned.  The claims it returns are those of an accepted token, and they
    never pass as an ID token for a request with a nonce. *)
Theorem validate_logout_token_sound env http_date wall http clock header {PyJWK : Type} new_pyjwk
    decode jwt c addr injected s :
  reachable env http_date wall http clock header (PyJWK:=PyJWK) new_pyjwk decode s →
  let token := validate_token env http_date wall http clock header new_pyjwk decode jwt c addr
                 injected s in
  let logout := validate_logout_token env http_date wall http clock header new_pyjwk decode jwt c
                  addr injected s in
  logout.2 = token.2 ∧
  (∀ claims, logout.1 = Ok claims ↔ token.1 = Ok claims ∧
     has_key "iss" claims = true ∧ has_key "aud" claims = true ∧ has_key "iat" claims = true ∧
     has_key "jti" claims = true ∧ has_key "events" claims = true ∧
     has_key "nonce" claims = false ∧ (dget "sub" claims ≠ VNone ∨ dget "sid" claims ≠ VNone) ∧
     ∃ events, dget "events" claims = VDict events ∧
       has_key "http://schemas.openid.net/event/backchannel-logout" events = true) ∧
  (∀ e, logout.1 = Err e → token.1 = Err e ∨
     ∃ claims msg, token.1 = Ok claims ∧
       e = Exn LogoutTokenValidationException msg (Some "payload") [] []) ∧
  (∀ claims, logout.1 = Ok claims →
     token_sound env http header new_pyjwk decode jwt c addr claims ∧
     ∀ now al client_id nonce access_token code max_age lw default_now,
       validate_id_token_claims now claims al client_id (Some nonce) access_token code max_age lw
         default_now ≠ Ok ()).
Proof.
  intros Hreach token logout.
  pose proof (triple_validate_token env http_date wall http clock header new_pyjwk decode
    jwt c addr injected s (reachable_inv _ _ _ _ _ _ _ _ _ Hreach)) as H. fold token in H.
  assert (Hrun : logout = (match token.1 with Ok v => _ ← validate_logout_token_claims v; Ok v
    | Err e => Err e end, token.2)).
  { unfold logout, validate_logout_token, mbind, stM_bind, lift, mret, stM_ret. fold token.
    destruct token as [[v|e] s1]; [|done]. simpl. by destruct (validate_logout_token_claims v). }
  rewrite Hrun. cbn [fst snd]. split; [done|]. destruct token as [[v|e] s1]; cbn [fst].
  2: { split_and!; [by intros claims; split; [|intros [? _]]|intros e' [= <-]; by left|done]. }
  assert (Hok : ∀ claims, (_ ← validate_logout_token_claims v; Ok v) = Ok claims ↔
    v = claims ∧ validate_logout_token_claims claims = Ok ()).
  { intros claims. rewrite result_bind_ok. split; [by intros ([] & ? & [= <-])|].
    intros [<- ?]. by exists (). }
  split_and!.
  - intros claims. rewrite Hok, validate_logout_token_claims_ok, required_claims_spelt. naive_solver.
  - intros e He. right. destruct (validate_logout_token_claims v) as [[]|e'] eqn:Ev; [done|].
    injection He as <-. destruct (validate_logout_token_claims_errors v e' Ev) as [msg ->].
    by exists v, msg.
  - intros claims [<- Hv]%Hok. destruct H as (_ & accepted & Hcl & Hout).
    split; [by eapply token_accepted_sound|]. intros. by apply logout_not_id_token.
Qed.

(** The end-session URL means what was asked.  It is the endpoint without its fragment when
    there is no parameter at all; otherwise, if what the endpoint ends with can take a query
    ([query_ready]), it parses to the endpoint's scheme, authority and path, and its query decodes
    to the endpoint's own parameters followed by exactly those asked for, an endpoint that ends
    in a bare [?] or [&] included. *)
Theorem end_session_url_roundtrip ep a b c d e f extra url :
  build_end_session_url ep a b c d e f extra = Ok url → NoDup extra.*1 →
  let ps := end_session_params a b c d e f ++ extra in
  nonempty (strip ep) = true ∧ (∀ n, n ∈ RESERVED_END_SESSION_PARAMS → text n ∉ extra.*1) ∧
  (ps = [] → url = base_endpoint ep) ∧
  ∃ p, urlparse (base_endpoint ep) = Ok p ∧
    (ps ≠ [] → query_ready (base_endpoint ep) p → ∃ p', urlparse url = Ok p' ∧ asks p p' ps).
Proof.
  cbv zeta. unfold build_end_session_url. rewrite !raise_if_seq_ok. intros (Hep & Hcol & H) Hnd.
  apply negb_false_iff in Hep. split; [done|]. split; [by apply reserved_in_nil|].
  apply result_bind_ok in H as ([e0 p] & (_ & -> & Hp)%strip_fragment_ok & H).
  rewrite end_session_asked in H by done. set (ps := end_session_params a b c d e f ++ extra) in *.
  destruct ps as [|kv ps'] eqn:Eps.
  - injection H as <-. split; [done|]. by exists p.
  - split; [done|]. exists p. split; [done|]. intros Hne Hready.
    apply result_bind_ok in H as (q & Hq & H).
    destruct (appended_asks _ _ _ _ Hp Hready Hq Hne) as (p' & Hp' & Hasks). exists p'.
    split; [|done]. rewrite <- Hp'. unfold appended. f_equal. revert H. cbv zeta.
    by destruct (_ || _); intros [= <-].
Qed.

(** The logout state check accepts exactly equal, non-empty, ASCII states.  Other ASCII states
    raise the logout-state exception; a state outside ASCII, which comes from the query of a
    request, raises a bare [TypeError]. *)
Theorem post_logout_state_spec expected returned :
  (validate_post_logout_state expected returned = Ok () ↔
   ∃ s, expected = Some s ∧ returned = Some s ∧ s ≠ [] ∧ u_isascii s = true) ∧
  (∀ e, validate_post_logout_state expected returned = Err e →
     isinstance e LogoutStateValidationException = true ∨
     (isinstance e BTypeError = true ∧ ∃ s t, expected = Some s ∧ returned = Some t ∧
        u_isascii t && u_isascii s = false)).
Proof.
  unfold validate_post_logout_state.
  destruct expected as [[|x expected]|]; [split; [split; [done|by intros (? & [= <-] & _ & [] & _)]|]| |
    split; [split; [done|by intros (? & [=] & _)]|]]; [intros e [= <-]; by left| |intros e [= <-]; by left].
  destruct returned as [[|y returned]|]; [split; [split; [done|by intros (? & [= <-] & [=] & _)]|]| |
    split; [split; [done|by intros (? & _ & [=] & _)]|]]; [intros e [= <-]; by left| |intros e [= <-]; by left].
  set (s := x :: expected). set (t := y :: returned). split.
  - rewrite result_bind_ok. setoid_rewrite compare_digest_ok. split.
    + intros (same & (H1 & H2 & ->) & H). apply raise_if_ok, negb_false_iff, bool_decide_eq_true in H.
      exists s. by rewrite <- H.
    + intros (u & Hs & Ht & _ & Hu). assert (t = s) as -> by congruence.
      assert (u = s) as -> by congruence. exists true. split; [|done]. split_and!; [done..|]. by bd_refl.
  - intros e. unfold compare_digest. destruct (u_isascii t && u_isascii s) eqn:Ea; cbn [mbind result_bind].
    + destruct (t ≟ s); intros [=]; subst. by left.
    + intros [= <-]. right. split; [done|]. by exists s, t.
Qed.

(** *** Witnesses *)

Definition logout_decode (n : nat) (jwt : string) (k : pydict) (a : DecodeArgs) : outcome pydict :=
  Ok demo_logout_claims.

Definition demo_validate_logout (jwks_uri : string) : outcome pydict * TVState :=
  validate_logout_token empty_env no_dates 0 (demo_http jwks_uri) demo_clock demo_header
    toy_new_pyjwk logout_decode "token" (demo_config None) (Some op_address) false initial_state.

Lemma validate_logout_token_sound_witness :
  (demo_validate_logout "https://op.example/jwks").1 = Ok demo_logout_claims ∧
  token_sound empty_env (demo_http "https://op.example/jwks") demo_header toy_new_pyjwk logout_decode
    "token" (demo_config None) (Some op_address) demo_logout_claims.
Proof.
  assert (H1 : (demo_validate_logout "https://op.example/jwks").1 = Ok demo_logout_claims)
    by (vm_compute; reflexivity).
  split; [exact H1|].
  destruct (validate_logout_token_sound empty_env no_dates 0
    (demo_http "https://op.example/jwks") demo_clock demo_header toy_new_pyjwk logout_decode "token"
    (demo_config None) (Some op_address) false initial_state) as (_ & _ & _ & H).
  - apply reach_init.
  - exact (proj1 (H demo_logout_claims H1)).
Defined.

Lemma end_session_url_roundtrip_witness :
  ∃ url p p', demo_end_session "https://op.example/logout?" = Ok url ∧
    urlparse (base_endpoint "https://op.example/logout?") = Ok p ∧ urlparse url = Ok p' ∧
    asks p p' (end_session_params (Some (text "eyJ")) None (Some (text "https://a/out"))
                 (Some (text "s1")) None None ++ []).
Proof.
  destruct (end_session_url_roundtrip "https://op.example/logout?" (Some (text "eyJ")) None
    (Some (text "https://a/out")) (Some (text "s1")) None None [] _
    ltac:(vm_compute; reflexivity) (NoDup_nil_2 (A:=ustr))) as (_ & _ & _ & p & Hp & H).
  destruct H as (p' & H1 & H2); [done| |].
  - split; [reflexivity|]. vm_compute in Hp. injection Hp as <-. split; [reflexivity|]. right.
    exists "https://op.example/logout". split; reflexivity.
  - eexists _, p, p'. split; [vm_compute; reflexivity|]. split; [exact Hp|]. split; [exact H1|exact H2].
Defined.
