(* ===== verification/AuthorizeUrl.v ===== *)
(** * Authorization requests ([core/authorize_url.py], [core/pkce.py])

    The authorization URL with its query parameters, and the PKCE verifier and challenge.  The
    URL is proved to mean what was asked, through the same parser and decoder the other end of
    the protocol uses. *)

From S2P Require Import Prelude PyStr PyValue Models Url Codec Sha2 Callback UrlQuery.
From Stdlib Require Import Ascii.
From stdpp Require Import strings.
Open Scope string_scope.
Open Scope list_scope.
Open Scope nat_scope.
Open Scope py_scope.

(** ** The authorization URL *)

Definition RESERVED_PARAMS : list string :=
  ["client_id"; "redirect_uri"; "scope"; "response_type"; "state"; "nonce"; "code_challenge";
   "code_challenge_method"].

(** The parameters of the request, before the extra ones. *)
Definition request_params (client_id redirect_uri scope response_type : ustr)
    (state nonce code_challenge code_challenge_method : option ustr) : list (ustr * ustr) :=
  [(text "client_id", client_id); (text "redirect_uri", redirect_uri); (text "scope", scope);
   (text "response_type", response_type)] ++
  optional_param "state" state ++ optional_param "nonce" nonce ++
  optional_param "code_challenge" code_challenge ++
  optional_param "code_challenge_method" code_challenge_method.

Definition collisions (extra_params : list (ustr * ustr)) : list string :=
  reserved_in RESERVED_PARAMS extra_params.

Definition is_some {A} (o : option A) : bool := match o with Some _ => true | None => false end.

Definition build_authorization_url (authorization_endpoint : string)
    (client_id redirect_uri scope response_type : ustr)
    (state nonce code_challenge code_challenge_method : option ustr)
    (extra_params : list (ustr * ustr)) : outcome string :=
  _ ← raise_if (negb (nonempty (strip authorization_endpoint)))
        (ValueErr "authorization_endpoint must not be empty");
  _ ← raise_if (negb (length (collisions extra_params) =? 0))
        (ValueErr ("extra_params must not override reserved OAuth parameters: " +:+
                   str_join ", " (sorted_set (collisions extra_params))));
  _ ← raise_if (negb (eqb (is_some code_challenge) (is_some code_challenge_method)))
        (ValueErr ("code_challenge and code_challenge_method must both be provided " +:+
                   "or both be omitted (RFC 7636 " +:+ String (char_of 167) "4.3)"));
  _ ← match code_challenge_method with
      | Some m =>
          raise_if (negb (bool_decide (m ∈ [text "S256"; text "plain"])))
            (ValueErr ("code_challenge_method must be 'S256' or 'plain', got '" +:+
                       show_text m +:+ "'"))
      | None => Ok ()
      end;
  '(endpoint, parsed) ← strip_fragment authorization_endpoint;
  let params := alist_update (request_params client_id redirect_uri scope response_type state
                  nonce code_challenge code_challenge_method) extra_params in
  let separator := if nonempty (query parsed) then "&" else "?" in
  encoded ← urlencode params;
  Ok ((endpoint +:+ separator) +:+ encoded).

(** ** PKCE *)

Definition MIN_VERIFIER_LENGTH : Z := 43.
Definition MAX_VERIFIER_LENGTH : Z := 128.
Definition DEFAULT_VERIFIER_LENGTH : Z := 128.

Definition length_error (got : Z) : exn :=
  ValueErr ("Code verifier length must be between " +:+ str_of_int MIN_VERIFIER_LENGTH +:+ " and " +:+
            str_of_int MAX_VERIFIER_LENGTH +:+ ", got " +:+ str_of_int got).
Definition length_out_of_range (n : Z) : bool :=
  (n <? MIN_VERIFIER_LENGTH)%Z || (MAX_VERIFIER_LENGTH <? n)%Z.

(** [secrets.token_urlsafe(n)] is the base64url text of [n] bytes of entropy, which the system
    provides: [token_bytes]. *)
Definition token_urlsafe (token_bytes : nat → bytes) (n : nat) : string := b64url (token_bytes n).

Definition generate_code_verifier (token_bytes : nat → bytes) (length : Z) : outcome string :=
  _ ← raise_if (length_out_of_range length) (length_error length);
  let n := Z.to_nat length in
  Ok (String.substring 0 n (token_urlsafe token_bytes n)).

Definition generate_code_challenge (verifier method : string) : outcome string :=
  let len := Z.of_nat (String.length verifier) in
  _ ← raise_if (length_out_of_range len) (length_error len);
  if method ≟ "S256" then
    match encode_ascii verifier with
    | Some octets => Ok (b64url (sha256 octets))
    | None => Err (UnicodeEncodeErr "'ascii' codec can't encode character: ordinal not in range(128)")
    end
  else if method ≟ "plain" then Ok verifier
  else Err (ValueErr ("Unsupported code challenge method: " +:+ method)).

Definition generate_pkce_pair (token_bytes : nat → bytes) (method : string) (verifier_length : Z)
    : outcome (string * string) :=
  verifier ← generate_code_verifier token_bytes verifier_length;
  challenge ← generate_code_challenge verifier method;
  Ok (verifier, challenge).

(** ** Tests on concrete inputs *)

(** The challenge of RFC 7636, appendix B. *)
Example challenge_1 :
  generate_code_challenge "dBjftJeZ4CVP-mB92K27uhbUJU1p1r_wW1gFWFOEjXk" "S256"
    = Ok "E9Melhoa2OwvFrEMTJguCHaoeK1t8URWbuGJSstw-cM".
Proof. vm_compute. reflexivity. Qed.

Definition demo_url (endpoint : string) : outcome string :=
  build_authorization_url endpoint (text "app") (text "https://a/cb") (text "openid")
    (text "code") (Some (text "s1")) None None None [].
Example url_1 : demo_url "https://op.example/authorize#top" =
  Ok "https://op.example/authorize?client_id=app&redirect_uri=https%3A%2F%2Fa%2Fcb&scope=openid&response_type=code&state=s1".
Proof. vm_compute. reflexivity. Qed.
(** An endpoint that ends in a bare [#] keeps it, and the parameters land in the fragment. *)
Example url_2 : (u ← demo_url "https://op.example/authorize#"; u ← urlparse u; Ok (query u)) = Ok "".
Proof. vm_compute. reflexivity. Qed.
(** An endpoint that ends in a bare [?] gets a second one, and the first parameter changes name. *)
Example url_3 :
  (u ← demo_url "https://op.example/authorize?"; u ← urlparse u;
   Ok (alist_get (text "client_id") (parse_qsl (query u)))) = Ok None.
Proof. vm_compute. reflexivity. Qed.

(** *** The parameters of a request *)

Lemma request_keys k a b c d e f g h :
  k ∈ (request_params a b c d e f g h).*1 → ∃ n, n ∈ RESERVED_PARAMS ∧ k = text n.
Proof.
  unfold request_params. rewrite !fmap_app, !elem_of_app. cbn [fmap list_fmap fst].
  rewrite !elem_of_cons, elem_of_nil.
  assert (Ho : ∀ n (o : option ustr), k ∈ (optional_param n o).*1 → k = text n).
  { intros n o. unfold optional_param. destruct o; cbn; rewrite ?elem_of_cons, elem_of_nil; naive_solver. }
  intros [[->|[->|[->|[->|[]]]]]|[H|[H|[H|H]]]]; [| | | |apply Ho in H..]; subst;
    (eexists; split; [|done]; unfold RESERVED_PARAMS; repeat (first [by left|right])).
Qed.

Lemma collisions_nil extra :
  negb (length (collisions extra) =? 0) = false ↔ ∀ n, n ∈ RESERVED_PARAMS → text n ∉ extra.*1.
Proof. apply reserved_in_nil. Qed.

Lemma asked_params extra a b c d e f g h :
  NoDup extra.*1 → negb (length (collisions extra) =? 0) = false →
  alist_update (request_params a b c d e f g h) extra = request_params a b c d e f g h ++ extra.
Proof.
  intros Hd Hc. rewrite collisions_nil in Hc. apply alist_update_new; [done|].
  intros k Hk (n & Hn & ->)%request_keys. by apply (Hc n).
Qed.

Definition separator_of (p : ParseResult) : string := if nonempty (query p) then "&" else "?".

(** The checks before the URL is built. *)
Definition request_ok (endpoint : string) (code_challenge code_challenge_method : option ustr)
    (extra : list (ustr * ustr)) : Prop :=
  nonempty (strip endpoint) = true ∧
  (∀ n, n ∈ RESERVED_PARAMS → text n ∉ extra.*1) ∧
  match code_challenge, code_challenge_method with
  | None, None => True
  | Some _, Some m => m = text "S256" ∨ m = text "plain"
  | _, _ => False
  end.

Lemma build_authorization_url_ok ep a b c d e f g h extra url :
  build_authorization_url ep a b c d e f g h extra = Ok url ↔
  request_ok ep g h extra ∧ is_ok (urlparse ep) = true ∧
  ∃ p q, urlparse (base_endpoint ep) = Ok p ∧
    urlencode (alist_update (request_params a b c d e f g h) extra) = Ok q ∧
    url = (base_endpoint ep +:+ separator_of p) +:+ q.
Proof.
  unfold build_authorization_url, request_ok. cbv zeta.
  rewrite !raise_if_seq_ok, result_seq_ok, negb_false_iff, collisions_nil.
  assert (Hpkce : negb (eqb (is_some g) (is_some h)) = false ∧
    match h with
    | Some m => raise_if (negb (bool_decide (m ∈ [text "S256"; text "plain"])))
        (ValueErr ("code_challenge_method must be 'S256' or 'plain', got '" +:+ show_text m +:+ "'"))
    | None => Ok () end = Ok () ↔
    match g, h with
    | None, None => True | Some _, Some m => m = text "S256" ∨ m = text "plain" | _, _ => False end).
  { destruct g, h; simpl; try naive_solver.
    rewrite raise_if_ok, negb_false_iff, bool_decide_eq_true, !elem_of_cons, elem_of_nil.
    naive_solver. }
  rewrite result_bind_ok. split.
  - intros (H1 & H2 & H3 & H4 & [e0 p] & (Hok & -> & Hp)%strip_fragment_ok & Hq).
    apply result_bind_ok in Hq as (q & Hq & [= <-]). split_and!; try tauto. by exists p, q.
  - intros ((H1 & H2 & H3) & Hok & p & q & Hp & Hq & ->). apply Hpkce in H3 as [H3 H4].
    split_and!; try done. exists (base_endpoint ep, p). split; [by apply strip_fragment_ok|].
    cbn beta iota. by rewrite Hq.
Qed.

(** *** Redirects *)

Lemma rstrip_empty p s : nonempty (rstrip_p p s) = negb (sforall p s).
Proof.
  induction s as [|c s IH]; [done|]. cbn [rstrip_p sforall].
  destruct (rstrip_p p s) as [|d r]; simpl in *.
  - symmetry in IH. apply negb_false_iff in IH. rewrite IH. by destruct (p c).
  - symmetry in IH. apply negb_true_iff in IH. by rewrite IH, andb_false_r.
Qed.

Lemma lstrip_sforall p s : sforall p (lstrip_p p s) = sforall p s.
Proof.
  induction s as [|c s IH]; [done|]. cbn [lstrip_p sforall]. destruct (p c) eqn:Hc; [done|].
  cbn [sforall]. by rewrite Hc.
Qed.

Lemma nonblank s : nonempty (strip s) = negb (sforall is_space s).
Proof. unfold strip. by rewrite rstrip_empty, lstrip_sforall. Qed.

(** *** PKCE *)

Lemma substring_prefix n s :
  n ≤ String.length s →
  String.length (String.substring 0 n s) = n ∧
  ∀ p, sforall p s = true → sforall p (String.substring 0 n s) = true.
Proof.
  revert n. induction s as [|c s IH]; intros [|n] Hn; try (by split).
  - cbn in Hn. lia.
  - cbn [String.length] in Hn. destruct (IH n) as [H1 H2]; [lia|].
    cbn [String.substring String.length]. split; [by rewrite H1|].
    intros p. cbn [sforall]. intros [Hc Hs]%andb_true_iff. by rewrite Hc, H2.
Qed.

Lemma length_in_range n : length_out_of_range n = false ↔ (43 ≤ n ≤ 128)%Z.
Proof.
  unfold length_out_of_range, MIN_VERIFIER_LENGTH, MAX_VERIFIER_LENGTH.
  rewrite orb_false_iff, !Z.ltb_ge. done.
Qed.

(** What the operating system's entropy source promises. *)
Definition entropy (token_bytes : nat → bytes) : Prop :=
  ∀ n, length (token_bytes n) = n ∧ forallb is_byte (token_bytes n) = true.

Lemma token_urlsafe_long token_bytes n :
  entropy token_bytes →
  n ≤ String.length (token_urlsafe token_bytes n) ∧
  sforall is_b64 (token_urlsafe token_bytes n) = true.
Proof.
  intros He. destruct (He n) as [Hl Hb]. unfold token_urlsafe. split; [|by apply b64url_alphabet].
  rewrite b64url_length, Hl by done.
  apply Nat.div_le_lower_bound; lia.
Qed.

Lemma generate_code_verifier_ok token_bytes len :
  entropy token_bytes → (43 ≤ len ≤ 128)%Z →
  ∃ v, generate_code_verifier token_bytes len = Ok v ∧
    Z.of_nat (String.length v) = len ∧ sforall is_b64 v = true.
Proof.
  intros He Hl. eexists. unfold generate_code_verifier. rewrite (proj2 (length_in_range len) Hl).
  split; [reflexivity|]. destruct (token_urlsafe_long token_bytes (Z.to_nat len) He) as [Hlen Hb].
  destruct (substring_prefix _ _ Hlen) as [H1 H2]. rewrite H1. split; [lia|by apply H2].
Qed.

Definition value_error (e : exn) : Prop := isinstance e BValueError = true.

Lemma generate_code_challenge_ok v m c :
  generate_code_challenge v m = Ok c ↔
  (43 ≤ Z.of_nat (String.length v) ≤ 128)%Z ∧
  (m = "plain" ∧ c = v ∨ m = "S256" ∧ isascii v = true ∧ c = b64url (sha256 (text v))).
Proof.
  unfold generate_code_challenge. cbv zeta.
  rewrite raise_if_seq_ok, length_in_range. apply and_iff_compat_l.
  case_bool_decide as Hs; [subst m|].
  - unfold encode_ascii. destruct (isascii v).
    + split; [intros [= <-]; by right|]. intros [[? _]|(_ & _ & ->)]; done.
    + split; [done|]. intros [[? _]|(_ & ? & _)]; done.
  - case_bool_decide as Hp; [subst m|].
    + split; [intros [= <-]; by left|]. intros [[_ ->]|(? & _)]; done.
    + split; [done|]. intros [[? _]|(? & _)]; done.
Qed.

Lemma generate_code_challenge_errors v m :
  errors_in value_error (generate_code_challenge v m).
Proof.
  unfold generate_code_challenge. cbv zeta. apply errors_in_bind.
  - by apply errors_in_raise_if.
  - intros _ _. destruct (m ≟ "S256").
    + unfold encode_ascii. destruct (isascii v); [apply errors_in_ok|by apply errors_in_err].
    + destruct (m ≟ "plain"); [apply errors_in_ok|by apply errors_in_err].
Qed.

Lemma b64_sha256_shape bs :
  String.length (b64url (sha256 bs)) = 43 ∧ sforall is_b64 (b64url (sha256 bs)) = true ∧
  b64url_decode (b64url (sha256 bs)) = sha256 bs.
Proof.
  destruct (sha256_shape bs) as [Hl Hb]. rewrite b64url_length, Hl by done.
  split; [reflexivity|]. split; [by apply b64url_alphabet|by apply b64url_decode_encode].
Qed.

(** ** Properties *)

(** C26: the authorization URL means what was asked.  When [build_authorization_url] returns a URL,
    the checks held (a non-blank endpoint, no extra parameter under a reserved name, challenge
    and method together and the method known); and if the endpoint, less its fragment, has no
    bare [#] or [?], the URL parses to the endpoint's scheme, authority and path with no
    fragment, and its query decodes to the endpoint's own parameters followed by exactly the
    requested ones, each with its value, whatever Unicode text the values hold. *)
Theorem authorize_url_roundtrip ep a b c d e f g h extra url :
  build_authorization_url ep a b c d e f g h extra = Ok url → NoDup extra.*1 →
  request_ok ep g h extra ∧
  ∃ p, urlparse (base_endpoint ep) = Ok p ∧
    (char_in "#" (base_endpoint ep) = false →
     (query p = "" → char_in "?" (base_endpoint ep) = false) →
     ∃ p', urlparse url = Ok p' ∧ scheme p' = scheme p ∧ netloc p' = netloc p ∧
       path p' = path p ∧ params p' = params p ∧ fragment p' = "" ∧
       parse_qsl (query p') = parse_qsl (query p) ++ request_params a b c d e f g h ++ extra).
Proof.
  intros (Hok & _ & p & q & Hp & Hq & ->)%build_authorization_url_ok Hnd. split; [done|].
  exists p. split; [done|]. intros Hhash Hqm.
  rewrite asked_params in Hq by (done || apply collisions_nil; apply Hok).
  pose proof (urlencode_tail _ _ Hq) as Ht. apply parse_qsl_urlencode in Hq as [Hq _].
  rewrite str_app_assoc. unfold separator_of. destruct (nonempty (query p)) eqn:En.
  - eexists. split; [by apply (urlparse_extend_query _ q p)|].
    cbn [scheme netloc path params query fragment]. split_and!; try done.
    by rewrite parse_qsl_app, Hq.
  - apply nonempty_false in En. eexists. split; [by apply (urlparse_add_query _ q p); auto|].
    cbn [scheme netloc path params query fragment]. split_and!; try done. by rewrite Hq, En.
Qed.

Lemma authorize_url_roundtrip_witness :
  ∃ url p p', demo_url "https://op.example/authorize?tenant=1#top" = Ok url ∧
    urlparse (base_endpoint "https://op.example/authorize?tenant=1#top") = Ok p ∧
    urlparse url = Ok p' ∧
    parse_qsl (query p') = parse_qsl (query p) ++
      request_params (text "app") (text "https://a/cb") (text "openid") (text "code")
        (Some (text "s1")) None None None ++ [].
Proof.
  destruct (authorize_url_roundtrip "https://op.example/authorize?tenant=1#top" (text "app")
    (text "https://a/cb") (text "openid") (text "code") (Some (text "s1")) None None None [] _
    ltac:(vm_compute; reflexivity) (NoDup_nil_2 (A:=ustr))) as (_ & p & Hp & H).
  destruct H as (p' & H1 & _ & _ & _ & _ & _ & H2).
  - vm_compute. reflexivity.
  - intros Hq. vm_compute in Hp. injection Hp as <-. discriminate Hq.
  - eexists _, p, p'. split; [vm_compute; reflexivity|]. split; [exact Hp|]. split; [exact H1|exact H2].
Defined.

(** The PKCE challenge.  [generate_code_challenge] succeeds exactly on a verifier of 43 to 128
    characters (ASCII for S256) and a known method; the S256 challenge is the unpadded base64url
    text of the SHA-256 digest: 43 unreserved characters that decode to the digest.  Everything
    it raises is a [ValueError].  [generate_pkce_pair] never fails on a valid length and method,
    and gives a verifier of exactly that length over the base64url alphabet. *)
Theorem pkce_spec v m :
  (∀ c, generate_code_challenge v m = Ok c ↔
    (43 ≤ Z.of_nat (String.length v) ≤ 128)%Z ∧
    (m = "plain" ∧ c = v ∨ m = "S256" ∧ isascii v = true ∧ c = b64url (sha256 (text v)))) ∧
  (∀ e, generate_code_challenge v m = Err e → isinstance e BValueError = true) ∧
  (∀ bs, String.length (b64url (sha256 bs)) = 43 ∧ sforall is_b64 (b64url (sha256 bs)) = true ∧
    b64url_decode (b64url (sha256 bs)) = sha256 bs) ∧
  (∀ token_bytes len, entropy token_bytes → (43 ≤ len ≤ 128)%Z → m = "plain" ∨ m = "S256" →
    ∃ v' c, generate_pkce_pair token_bytes m len = Ok (v', c) ∧
      Z.of_nat (String.length v') = len ∧ sforall is_b64 v' = true ∧
      c = if m ≟ "plain" then v' else b64url (sha256 (text v'))).
Proof.
  split; [intros; apply generate_code_challenge_ok|].
  split; [intros e; apply generate_code_challenge_errors|].
  split; [apply b64_sha256_shape|]. intros token_bytes len He Hl Hm.
  destruct (generate_code_verifier_ok token_bytes len He Hl) as (v' & Hv & Hlen & Hb).
  exists v', (if m ≟ "plain" then v' else b64url (sha256 (text v'))).
  split; [|done]. unfold generate_pkce_pair. rewrite Hv. cbn [mbind result_bind].
  assert (generate_code_challenge v' m = Ok (if m ≟ "plain" then v' else b64url (sha256 (text v'))))
    as ->; [|done].
  apply generate_code_challenge_ok. rewrite Hlen. split; [done|].
  destruct Hm as [-> | ->]; [by left|right]. split; [done|]. split; [by apply is_b64_isascii|done].
Qed.

Lemma pkce_spec_witness :
  entropy (λ n, repeat 7%Z n) ∧
  ∃ v c, generate_pkce_pair (λ n, repeat 7%Z n) "S256" 64 = Ok (v, c) ∧
    Z.of_nat (String.length v) = 64%Z.
Proof.
  assert (He : entropy (λ n, repeat 7%Z n)).
  { intros n. split; [apply repeat_length|]. induction n; [done|]. simpl. done. }
  split; [exact He|].
  destruct (proj2 (proj2 (proj2 (pkce_spec "" "S256"))) (λ n, repeat 7%Z n) 64%Z He
    ltac:(lia) ltac:(by right)) as (v & c & H & Hl & _).
  exists v, c. split; [exact H|exact Hl].
Defined.

(** The callback round trip.  A redirect to a plain callback URL with the parameters [ps]
    form-encoded in its query is parsed into the response those parameters stand for, whatever
    Unicode text they hold; so, when there is no error, the state check passes against the
    [state] among them, if it is not empty and ASCII, and fails against any other. *)
Theorem callback_roundtrip base p ps q :
  urlparse base = Ok p → callback_scheme p → char_in "#" base = false → char_in "?" base = false →
  urlencode ps = Ok q → recognized ps →
  let url := base +:+ String "?" q in
  let r := response_of url (flat_params q) ps in
  parse_authorize_callback_response (VStr url) = Ok r ∧
  ∀ s expected, first "error" ps = None → first "state" ps = Some s → s ≠ [] →
    u_isascii s = true → u_isascii expected = true → expected ≠ [] →
    ∃ v, validate_authorize_callback_state r (Some expected) = Ok v ∧
      (is_valid v = true ↔ expected = s).
Proof.
  intros Hp Hs Hh Hqm Hq Hrec url r.
  pose proof (urlencode_tail _ _ Hq) as Ht. apply parse_qsl_urlencode in Hq as [Hq _].
  assert (Hu : urlparse url = Ok (URL (scheme p) (netloc p) (path p) (params p) q ""))
    by by apply urlparse_add_query.
  assert (Hr : parse_authorize_callback_response (VStr url) = Ok r).
  { apply parse_callback_ok. split.
    - rewrite nonblank. apply negb_true_iff. unfold url. rewrite sforall_app. apply andb_false_r.
    - eexists. split; [exact Hu|]. unfold params_str. cbn [fragment query nonempty].
      rewrite Hq. split_and!; done. }
  split; [done|]. intros s expected He Hst Hne Ha Hae Hnee.
  pose proof (validate_state_verdict r (Some expected)) as Hv.
  assert (Hok : cb_is_successful r = true) by by apply response_of_success.
  assert (Hverdict : state_verdict r (Some expected) =
    Some (if s ≟ expected then SUCCESS else STATE_MISMATCH)).
  { unfold state_verdict. rewrite Hok. cbn [negb]. change (cb_state r) with (first "state" ps).
    rewrite Hst. destruct expected as [|x xs]; [done|]. destruct s as [|y ys]; [done|].
    by rewrite Ha, Hae. }
  destruct (validate_authorize_callback_state r (Some expected)) as [v|e].
  - exists v. split; [done|]. destruct Hv as [Hv1 ->]. rewrite Hverdict in Hv1.
    injection Hv1 as <-. rewrite bool_decide_eq_true. case_bool_decide; naive_solver.
  - destruct Hv as [Hv1 _]. by rewrite Hverdict in Hv1.
Qed.

Lemma callback_roundtrip_witness :
  let ps := [(text "code", [0x20AC]%Z); (text "state", text "a&b")] in
  ∃ q, urlencode ps = Ok q ∧
    parse_authorize_callback_response (VStr ("https://app.example/cb" +:+ String "?" q)) =
      Ok (response_of ("https://app.example/cb" +:+ String "?" q) (flat_params q) ps).
Proof.
  eexists. split; [reflexivity|].
  eapply (callback_roundtrip "https://app.example/cb" _
    [(text "code", [0x20AC]%Z); (text "state", text "a&b")]);
    [vm_compute; reflexivity|right; left|reflexivity|reflexivity|reflexivity|].
  exists ("code", "code"). split; [left|]. eexists. reflexivity.
Defined.
