(* ===== verification/Responses.v ===== *)
(** * Response models ([core/models.py])

    The dataclasses the OAuth endpoints answer with.  They all extend [BaseResponse]: an outcome,
    an error, and data attributes that the guarded-response mixin of Models.v protects, with a
    [__repr__] that redacts the attributes the class lists as secrets. *)

From S2P Require Import Prelude PyStr PyValue Codec Models.
From Stdlib Require Import Ascii.
From stdpp Require Import strings.
Open Scope string_scope.
Open Scope list_scope.
Open Scope nat_scope.
Open Scope py_scope.

(** The subclasses of [BaseResponse] for the OAuth endpoints. *)
Inductive response_class : Type :=
  | ClientCredentialsTokenResponse | AuthorizationCodeTokenResponse | RefreshTokenResponse
  | TokenIntrospectionResponse | PushedAuthorizationResponse | DeviceAuthorizationResponse
  | DeviceTokenResponse | TokenExchangeResponse | TokenRevocationResponse | UserInfoResponse
  | ClientRegistrationResponse | ClientDeleteResponse.

#[global] Instance response_class_eq_dec : EqDecision response_class.
Proof. solve_decision. Defined.

(** What a dataclass declares: its name, the data fields it adds to [is_successful] and [error] in
    their order, [_guarded_fields] and [_secret_fields]. *)
Record dataclass : Type := Dataclass {
  name_of : string;
  fields_of : list string;
  guarded_of : list string;
  secret_of : list string;
}.

Definition ClientCredentialsTokenResponse_class : dataclass := Dataclass "ClientCredentialsTokenResponse"
  ["token"]
  ["token"]
  ["token"].
Definition AuthorizationCodeTokenResponse_class : dataclass := Dataclass "AuthorizationCodeTokenResponse"
  ["token"]
  ["token"]
  ["token"].
Definition RefreshTokenResponse_class : dataclass := Dataclass "RefreshTokenResponse"
  ["token"]
  ["token"]
  ["token"].
Definition TokenIntrospectionResponse_class : dataclass := Dataclass "TokenIntrospectionResponse"
  ["claims"]
  ["claims"]
  [].
Definition PushedAuthorizationResponse_class : dataclass := Dataclass "PushedAuthorizationResponse"
  ["request_uri"; "expires_in"]
  ["request_uri"; "expires_in"]
  ["request_uri"].
Definition DeviceAuthorizationResponse_class : dataclass := Dataclass "DeviceAuthorizationResponse"
  ["device_code"; "user_code"; "verification_uri"; "verification_uri_complete"; "expires_in";
   "interval"]
  ["device_code"; "user_code"; "verification_uri"; "verification_uri_complete"; "expires_in";
   "interval"]
  ["device_code"].
Definition DeviceTokenResponse_class : dataclass := Dataclass "DeviceTokenResponse"
  ["token"; "error_code"; "interval"]
  ["token"]
  ["token"].
Definition TokenExchangeResponse_class : dataclass := Dataclass "TokenExchangeResponse"
  ["token"; "issued_token_type"]
  ["token"; "issued_token_type"]
  ["token"].
Definition TokenRevocationResponse_class : dataclass := Dataclass "TokenRevocationResponse"
  []
  []
  [].
Definition UserInfoResponse_class : dataclass := Dataclass "UserInfoResponse"
  ["claims"; "raw"]
  ["claims"; "raw"]
  [].
Definition ClientRegistrationResponse_class : dataclass := Dataclass "ClientRegistrationResponse"
  ["client_id"; "client_secret"; "client_id_issued_at"; "client_secret_expires_at";
   "registration_access_token"; "registration_client_uri"; "metadata"]
  ["client_id"; "client_secret"; "registration_access_token"; "registration_client_uri"]
  ["client_secret"; "registration_access_token"].
Definition ClientDeleteResponse_class : dataclass := Dataclass "ClientDeleteResponse"
  []
  []
  [].

Definition dataclass_of (c : response_class) : dataclass :=
  match c with
  | ClientCredentialsTokenResponse => ClientCredentialsTokenResponse_class
  | AuthorizationCodeTokenResponse => AuthorizationCodeTokenResponse_class
  | RefreshTokenResponse => RefreshTokenResponse_class
  | TokenIntrospectionResponse => TokenIntrospectionResponse_class
  | PushedAuthorizationResponse => PushedAuthorizationResponse_class
  | DeviceAuthorizationResponse => DeviceAuthorizationResponse_class
  | DeviceTokenResponse => DeviceTokenResponse_class
  | TokenExchangeResponse => TokenExchangeResponse_class
  | TokenRevocationResponse => TokenRevocationResponse_class
  | UserInfoResponse => UserInfoResponse_class
  | ClientRegistrationResponse => ClientRegistrationResponse_class
  | ClientDeleteResponse => ClientDeleteResponse_class
  end.

(** [type(self).__name__], [fields(self)], [_guarded_fields] and [_secret_fields]. *)
Definition class_name (c : response_class) : string := name_of (dataclass_of c).
Definition field_names (c : response_class) : list string := fields_of (dataclass_of c).
Definition guarded_fields (c : response_class) : list string := guarded_of (dataclass_of c).
Definition secret_fields (c : response_class) : list string := secret_of (dataclass_of c).

(** An object of such a class.  Its attributes hold whatever the provider sent, and so does the
    error of some failures. *)
Record BaseResponse : Type := Resp {
  response_type : response_class;
  is_successful : bool;
  error : pyval;
  attrs : pydict;
}.

(** The constructor: the keyword arguments, and [None] for the other fields. *)
Definition new_response (c : response_class) (ok : bool) (err : pyval) (kwargs : pydict)
    : BaseResponse :=
  Resp c ok err (map (λ f, (f, dget f kwargs)) (field_names c)).

Definition failure (c : response_class) (msg : string) : BaseResponse :=
  new_response c false (VStr msg) [].
Definition success (c : response_class) (kwargs : pydict) : BaseResponse :=
  new_response c true VNone kwargs.

(** [object.__getattribute__(r, name)] on a data field. *)
Definition raw_attr (r : BaseResponse) (name : string) : pyval := dget name (attrs r).

(** [FailedResponseAccessError] shows the error when it is truthy. *)
Definition error_text (v : pyval) : option string :=
  if truthy v then Some (py_str v) else None.

(** [r.name] and [r.error]. *)
Definition get_attr (r : BaseResponse) (name : string) : outcome pyval :=
  getattribute (guarded_fields (response_type r)) (is_successful r) (error_text (error r)) name
    (raw_attr r name).
Definition get_error (r : BaseResponse) : outcome pyval :=
  getattribute (guarded_fields (response_type r)) (is_successful r) (error_text (error r)) "error"
    (error r).

(** [BaseResponse.__repr__]. *)
Definition repr_part (c : response_class) (kv : string * pyval) : string :=
  if bool_decide (kv.1 ∈ secret_fields c) && negb (is_none kv.2)
  then kv.1 +:+ "='[REDACTED]'"
  else kv.1 +:+ "=" +:+ py_repr kv.2.
Definition response_repr (r : BaseResponse) : string :=
  class_name (response_type r) +:+ "(" +:+
  str_join ", " (map (repr_part (response_type r))
    (("is_successful", VBool (is_successful r)) :: ("error", error r) :: attrs r)) +:+ ")".

(** [BaseResponse.__eq__]: the class, then the attribute dictionaries. *)
Definition response_eq (r r' : BaseResponse) : bool :=
  (response_type r ≟ response_type r') &&
  py_eq (VDict (("is_successful", VBool (is_successful r)) :: ("error", error r) :: attrs r))
    (VDict (("is_successful", VBool (is_successful r')) :: ("error", error r') :: attrs r')).

(** ** Tests on concrete inputs *)

Example repr_1 :
  response_repr (success RefreshTokenResponse [("token", VDict [("access_token", VStr "s3cr3t")])])
  = "RefreshTokenResponse(is_successful=True, error=None, token='[REDACTED]')".
Proof. vm_compute. reflexivity. Qed.
Example repr_2 : response_repr (failure RefreshTokenResponse "no")
  = "RefreshTokenResponse(is_successful=False, error='no', token=None)".
Proof. vm_compute. reflexivity. Qed.
Example get_1 : get_attr (failure UserInfoResponse "no") "claims"
  = Err (FailedResponseAccess "claims" (Some "no")).
Proof. vm_compute. reflexivity. Qed.
Example get_2 : get_attr (failure DeviceTokenResponse "no") "error_code" = Ok VNone.
Proof. vm_compute. reflexivity. Qed.

(** ** Lemmas *)

Lemma dget_fields f fs kw :
  dget f (map (λ g, (g, dget g kw)) fs) = if bool_decide (f ∈ fs) then dget f kw else VNone.
Proof.
  induction fs as [|g fs IH]; [by rewrite bool_decide_eq_false_2 by apply not_elem_of_nil|].
  unfold dget in *. cbn [map dict_get]. destruct (decide (f = g)) as [->|Hne].
  - bd_refl. by rewrite bool_decide_eq_true_2 by (by left).
  - rewrite (bool_decide_eq_false_2 (f = g)) by done. rewrite IH.
    rewrite (bool_decide_ext (f ∈ g :: fs) (f ∈ fs)); [done|]. rewrite elem_of_cons. naive_solver.
Qed.

Lemma raw_attr_new c ok err kw f :
  f ∈ field_names c → raw_attr (new_response c ok err kw) f = dget f kw.
Proof.
  intros Hf. unfold raw_attr, new_response. cbn [attrs]. rewrite dget_fields.
  by rewrite bool_decide_eq_true_2.
Qed.

Lemma guarded_not_error c name : name ∈ guarded_fields c → name ∉ error_fields.
Proof.
  intros H. unfold error_fields. rewrite !elem_of_cons, elem_of_nil.
  destruct c; cbn in H; rewrite ?elem_of_cons, ?elem_of_nil in H; naive_solver.
Qed.

(** Reading a data field of a response: guarded fields only on success. *)
Lemma get_attr_spec r name :
  name ∉ error_fields →
  get_attr r name =
    if bool_decide (name ∈ guarded_fields (response_type r)) && negb (is_successful r)
    then Err (FailedResponseAccess name (error_text (error r)))
    else Ok (raw_attr r name).
Proof.
  intros Hn. unfold get_attr. rewrite getattribute_spec by apply guarded_not_error.
  rewrite (bool_decide_eq_false_2 (name ∈ error_fields)) by done. done.
Qed.

(** *** What a rendering shows *)

Lemma contains_app_l s t p : contains s p = true → contains (s +:+ t) p = true.
Proof.
  rewrite !contains_spec. intros (a & b & ->). exists a, (b +:+ t).
  by rewrite !str_app_assoc.
Qed.
Lemma contains_app_r s t p : contains t p = true → contains (s +:+ t) p = true.
Proof.
  rewrite !contains_spec. intros (a & b & ->). exists (s +:+ a), b. by rewrite !str_app_assoc.
Qed.
Lemma contains_refl s : contains s s = true.
Proof. apply contains_spec. exists "", "". by rewrite str_app_nil. Qed.

Lemma contains_join sep l x p : x ∈ l → contains x p = true → contains (str_join sep l) p = true.
Proof.
  intros Hx Hp. induction l as [|y l IH]; [by apply not_elem_of_nil in Hx|].
  apply elem_of_cons in Hx as [->|Hx].
  - destruct l; [done|]. cbn [str_join]. by apply contains_app_l, contains_app_l.
  - destruct l as [|z l]; [by apply not_elem_of_nil in Hx|]. cbn [str_join].
    apply contains_app_r. by apply IH.
Qed.

Lemma repr_dict_contains k v dd : dict_get k dd = Some v → contains (py_repr (VDict dd)) (py_repr v) = true.
Proof.
  intros Hk%dict_get_elem. cbn [py_repr]. apply contains_app_r, contains_app_l.
  eapply contains_join; [apply list_elem_of_fmap; by exists (k, v)|].
  by apply contains_app_r, contains_app_r, contains_refl.
Qed.

(** A field that is not a secret is shown in full. *)
Lemma repr_shows r f v :
  (f, v) ∈ attrs r → f ∉ secret_fields (response_type r) →
  contains (response_repr r) (py_repr v) = true.
Proof.
  intros Hf Hs. unfold response_repr.
  apply contains_app_r, contains_app_r, contains_app_l.
  eapply contains_join; [do 2 right; apply list_elem_of_fmap; by exists (f, v)|].
  unfold repr_part. cbn [fst snd]. rewrite bool_decide_eq_false_2 by done. cbn [andb].
  by apply contains_app_r, contains_app_r, contains_refl.
Qed.

(** ** Theorems *)

(** What [repr] and [str] show of a response does not depend on the value of a field its
    class lists as a secret: two responses that differ only in those (and agree on which of them
    are set) have the same rendering. *)
Theorem repr_redacts c ok err kw kw'
    (Hplain : ∀ f, f ∈ field_names c → f ∉ secret_fields c → dget f kw = dget f kw')
    (Hsecret : ∀ f, f ∈ secret_fields c → is_none (dget f kw) = is_none (dget f kw')) :
  response_repr (new_response c ok err kw) = response_repr (new_response c ok err kw').
Proof.
  assert (Hmap : map (repr_part c) (map (λ f, (f, dget f kw)) (field_names c)) =
                 map (repr_part c) (map (λ f, (f, dget f kw')) (field_names c))).
  { rewrite !map_map. apply map_ext_in. intros f Hf%list_elem_of_In.
    unfold repr_part. cbn [fst snd]. destruct (decide (f ∈ secret_fields c)) as [Hs|Hs].
    - rewrite (bool_decide_eq_true_2 _ Hs). rewrite <- (Hsecret f Hs). cbn [andb].
      destruct (dget f kw) eqn:E; try done. specialize (Hsecret f Hs). rewrite E in Hsecret.
      by destruct (dget f kw').
    - rewrite (bool_decide_eq_false_2 _ Hs). by rewrite (Hplain f Hf Hs). }
  unfold response_repr, new_response. cbn [response_type is_successful error attrs map].
  by rewrite Hmap.
Qed.

(** ** Witnesses *)

Lemma repr_redacts_witness :
  let kw t := [("token", VDict [("access_token", VStr t)])] in
  response_repr (success RefreshTokenResponse (kw "a")) =
  response_repr (success RefreshTokenResponse (kw "b")).
Proof.
  apply (repr_redacts RefreshTokenResponse true VNone).
  - intros f Hf Hs. by destruct (Hs Hf).
  - intros f Hf. cbn in Hf. apply list_elem_of_singleton in Hf as ->. reflexivity.
Defined.
