(* ===== verification/ClientAuth.v ===== *)
(** * Client authentication ([core/client_auth.py], [core/jwt_signing.py],
    [core/client_assertion.py], [core/mtls.py])

    The four ways a client authenticates at an endpoint of the provider: a signed assertion in
    the body ([private_key_jwt]), a certificate at the TLS layer with the client identifier in
    the body, HTTP Basic with percent-encoded credentials, and none (a public client).  The
    binding of an access token to a certificate is checked here as well.

    A form body is a dictionary of strings.  Signing ([jwt.encode]), [uuid.uuid4], the clock and
    the X.509 functions of [cryptography] are arguments; a call whose answer changes takes the
    number of the reading. *)

From S2P Require Import Prelude PyStr PyValue Url Codec Models Sha2 HttpRetry Policy Discovery Responses.
From Stdlib Require Import QArith Ascii.
From stdpp Require Import strings.
#[global] Close Scope Q_scope.
Open Scope string_scope.
Open Scope list_scope.
Open Scope nat_scope.
Open Scope py_scope.

(** ** HTTP Basic credentials *)

(** One byte under [quote] with an empty [safe] set: a space becomes [%20]. *)
Definition quote_byte_strict (c : ascii) : string :=
  if always_safe c then String c ""
  else String "%" (String (hex_upper (code c / 16)) (String (hex_upper (code c mod 16)) "")).
Fixpoint quote_bytes_strict (bs : bytes) : string :=
  match bs with [] => "" | b :: bs' => quote_byte_strict (chr b) +:+ quote_bytes_strict bs' end.

(** [urllib.parse.quote(u, safe="")]. *)
Definition quote_strict (u : ustr) : outcome string :=
  match utf8_encode u with
  | Some bs => Ok (quote_bytes_strict bs)
  | None => Err (UnicodeEncodeErr "'utf-8' codec can't encode character: surrogates not allowed")
  end.

Definition basic_auth_credentials (client_id client_secret : string) : outcome (string * string) :=
  u ← quote_strict (text client_id);
  p ← quote_strict (text client_secret);
  Ok (u, p).

(** ** Signing algorithms *)

Definition SUPPORTED_SIGNING_ALGORITHMS : list string :=
  ["ES256"; "ES384"; "ES512"; "EdDSA"; "RS256"; "RS384"; "RS512"; "PS256"; "PS384"; "PS512"].

Definition validate_signing_algorithm (algorithm context : string) : outcome unit :=
  raise_if (negb (bool_decide (algorithm ∈ SUPPORTED_SIGNING_ALGORITHMS)))
    (ValueErr ("Unsupported " +:+ context +:+ " algorithm: " +:+ algorithm +:+ ". Supported: " +:+
               py_repr (VList (strs (sorted_set SUPPORTED_SIGNING_ALGORITHMS))))).

(** ** Client assertions *)

(** A [str | bytes] argument. *)
Inductive blob : Type := Str (s : string) | Bytes (b : bytes).
Definition blob_empty (b : blob) : bool :=
  match b with Str s => negb (nonempty s) | Bytes l => match l with [] => true | _ => false end end.
(** [not value or (isinstance(value, str) and not value.strip())]. *)
Definition blank (b : blob) : bool :=
  blob_empty b || match b with Str s => negb (nonempty (strip s)) | Bytes _ => false end.

Record PrivateKeyJwt : Type := PrivateKey {
  private_key : blob;
  algorithm : string;
  pkj_kid : option string;
  audience : option string;
  lifetime : Z;
}.

Record MtlsClientAuth : Type := Mtls {
  mtls_certificate : string;
  mtls_private_key : string;
  password : option string;
  auth_method : string;
}.

Definition CLOCK_SKEW_LEEWAY_SECONDS : Z := 10.

(** [int(q)] of a float that is a number: towards zero. *)
Definition int_of_Q (q : Q) : Z := Z.quot (Qnum q) (Z.pos (Qden q)).

(** The number of a reading of the clock, of the entropy source or of the signer. *)
Definition reading : stM net exn nat := λ s,
  (Ok (reads s), Net (sent s) (slept s) (S (reads s))).

Section Assertion.
(** [time.time()], [str(uuid.uuid4())] and [jwt.encode(claims, key, algorithm, headers)]. *)
Context (wall_clock : nat → Q) (uuid4 : nat → string).
Context (encode : nat → pydict → blob → string → pydict → outcome string).

Definition time_time : stM net exn Q := n ← reading; mret (wall_clock n).
Definition new_uuid : stM net exn string := n ← reading; mret (uuid4 n).
Definition sign (claims : pydict) (key : blob) (alg : string) (headers : pydict)
    : stM net exn string := n ← reading; lift (encode n claims key alg headers).

Definition assertion_guards (client_id audience : string) (key : blob) (alg : string)
    (kid : option string) (lifetime : Z) : outcome unit :=
  for_each (λ nv, raise_if (blank nv.2) (ValueErr (nv.1 +:+ " must not be empty")))
    [("client_id", Str client_id); ("audience", Str audience); ("private_key", key)] ≫= λ _,
  validate_signing_algorithm alg "client assertion" ≫= λ _,
  raise_if (lifetime <=? CLOCK_SKEW_LEEWAY_SECONDS)%Z
    (ValueErr ("lifetime must be greater than the 10s clock-skew leeway, got " +:+
               str_of_int lifetime)) ≫= λ _,
  raise_if (match kid with Some k => negb (nonempty (strip k)) | None => false end)
    (ValueErr "kid must be non-empty when provided").

Definition assertion_claims (client_id audience jti : string) (issued_at lifetime : Z) : pydict :=
  [("iss", VStr client_id); ("sub", VStr client_id); ("aud", VStr audience); ("jti", VStr jti);
   ("iat", VInt issued_at); ("nbf", VInt issued_at); ("exp", VInt (issued_at + lifetime))].
Definition kid_header (kid : option string) : pydict :=
  match kid with Some k => [("kid", VStr k)] | None => [] end.

Definition build_client_assertion (client_id audience : string) (key : blob) (alg : string)
    (kid : option string) (lifetime : Z) : stM net exn string :=
  _ ← lift (assertion_guards client_id audience key alg kid lifetime);
  now ← time_time;
  let issued_at := (int_of_Q now - CLOCK_SKEW_LEEWAY_SECONDS)%Z in
  jti ← new_uuid;
  sign (assertion_claims client_id audience jti issued_at lifetime) key alg (kid_header kid).

Definition JWT_BEARER : string := "urn:ietf:params:oauth:client-assertion-type:jwt-bearer".

Definition apply_private_key_jwt (params : pydict) (config : PrivateKeyJwt)
    (client_id default_audience : string) : stM net exn pydict :=
  assertion ← build_client_assertion client_id
    (default default_audience (str_or (audience config) (Some default_audience)))
    (private_key config) (algorithm config) (pkj_kid config) (lifetime config);
  mret (dict_set "client_assertion" (VStr assertion)
         (dict_set "client_assertion_type" (VStr JWT_BEARER)
           (dict_set "client_id" (VStr client_id) params))).
End Assertion.

(** ** Mutual TLS *)

Definition apply_mtls_client_auth (params : pydict) (client_id : string) : pydict :=
  dict_set "client_id" (VStr client_id) params.

(** A tuple of two or three paths. *)
Definition build_httpx_cert (m : MtlsClientAuth) : list string :=
  match password m with
  | Some pw => [mtls_certificate m; mtls_private_key m; pw]
  | None => [mtls_certificate m; mtls_private_key m]
  end.

(** [endpoint] names a data attribute of the document. *)
Definition resolve_mtls_endpoint (disco : DiscoveryDocumentResponse) (endpoint : string)
    : outcome pyval :=
  aliases ← disco_attr disco "mtls_endpoint_aliases";
  match aliases with
  | VDict d =>
      let alias := dget endpoint d in
      if truthy alias then Ok alias else disco_attr disco endpoint
  | _ => disco_attr disco endpoint
  end.

Section Certificates.
(** [x509.load_pem_x509_certificate], [x509.load_der_x509_certificate] and
    [certificate.fingerprint(hashes.SHA256())]. *)
Context {Cert : Type} (load_pem load_der : bytes → outcome Cert) (fingerprint : Cert → bytes).

(** [cert.encode("utf-8") if isinstance(cert, str) else cert]. *)
Definition cert_bytes (cert : blob) : outcome bytes :=
  match cert with
  | Bytes b => Ok b
  | Str s => match utf8_encode (text s) with
             | Some b => Ok b
             | None => Err (UnicodeEncodeErr "surrogates not allowed")
             end
  end.

Definition load_certificate (cert : blob) : outcome Cert :=
  if blank cert then Err (ValueErr "certificate must not be empty")
  else
    b ← cert_bytes cert;
    match load_pem b with
    | Ok c => Ok c
    | Err e =>
        if isinstance e BValueError then
          match load_der b with
          | Ok c => Ok c
          | Err e' =>
              if isinstance e' BValueError
              then Err (ValueErr "certificate is not valid PEM or DER X.509 content") else Err e'
          end
        else Err e
    end.

Definition compute_certificate_thumbprint (cert : blob) : outcome string :=
  certificate ← load_certificate cert;
  Ok (b64url (fingerprint certificate)).

(** [read_file] is [Path(path).open("rb")] and [fh.read()]. *)
Definition certificate_thumbprint_from_file (read_file : string → outcome bytes) (path : string)
    : outcome string :=
  if negb (nonempty path) || negb (nonempty (strip path)) then Err (ValueErr "path must not be empty")
  else
    b ← read_file path;
    compute_certificate_thumbprint (Bytes b).

Definition validate_certificate_binding (claims : pydict) (cert : blob) : outcome unit :=
  match dget "cnf" claims with
  | VDict cnf =>
      match dget "x5t#S256" cnf with
      | VStr bound =>
          if negb (nonempty bound) then
            Err (CertificateBinding ("Access token 'cnf' claim has no 'x5t#S256' certificate " +:+
              "thumbprint (RFC 8705 Section 3.1)") [])
          else if negb (isascii bound) then
            Err (CertificateBinding ("Access token 'cnf[x5t#S256]' is not a valid base64url " +:+
              "thumbprint (non-ASCII characters) (RFC 8705 Section 3.1)") [])
          else
            presented ← compute_certificate_thumbprint cert;
            same ← compare_digest (text bound) (text presented);
            raise_if (negb same)
              (CertificateBinding ("Certificate binding mismatch: token 'cnf[x5t#S256]' does not " +:+
                "match the presented client certificate (RFC 8705 Section 3)") [])
      | _ => Err (CertificateBinding ("Access token 'cnf' claim has no 'x5t#S256' certificate " +:+
               "thumbprint (RFC 8705 Section 3.1)") [])
      end
  | _ => Err (CertificateBinding ("Access token is not certificate-bound: missing 'cnf' claim " +:+
           "(RFC 8705 Section 3.1)") [])
  end.
End Certificates.

(** ** Tests on concrete inputs *)

Example basic_1 : basic_auth_credentials "a:b" "p w+1" = Ok ("a%3Ab", "p%20w%2B1").
Proof. reflexivity. Qed.
Example int_of_Q_1 : int_of_Q (17 # 5) = 3%Z. Proof. reflexivity. Qed.
Example int_of_Q_2 : int_of_Q ((-17) # 5) = (-3)%Z. Proof. reflexivity. Qed.

Definition demo_key : PrivateKeyJwt := PrivateKey (Str "PEM") "ES256" (Some "k1") None 300.
Definition demo_sign (n : nat) (claims : pydict) (key : blob) (alg : string) (headers : pydict)
    : outcome string := Ok (py_repr (VDict claims)).
Definition demo_clock (n : nat) : Q := 1000%Q.
Definition demo_uuid (n : nat) : string := "id" +:+ str_of_int (Z.of_nat n).

Example assertion_1 :
  (build_client_assertion demo_clock demo_uuid demo_sign "c" "https://op/token" (Str "PEM") "ES256"
     (Some "k1") 300 (Net [] [] 0)).1
  = Ok "{'iss': 'c', 'sub': 'c', 'aud': 'https://op/token', 'jti': 'id1', 'iat': 990, 'nbf': 990, 'exp': 1290}".
Proof. vm_compute. reflexivity. Qed.
Example assertion_2 :
  (build_client_assertion demo_clock demo_uuid demo_sign "c" "https://op/token" (Str " ") "ES256"
     None 300 (Net [] [] 0)).1 = Err (ValueErr "private_key must not be empty").
Proof. vm_compute. reflexivity. Qed.
Example assertion_3 :
  is_ok (build_client_assertion demo_clock demo_uuid demo_sign "c" "https://op/token" (Str "k") "HS256"
     None 300 (Net [] [] 0)).1 = false.
Proof. vm_compute. reflexivity. Qed.

(** ** Lemmas *)

Lemma quote_byte_strict_plain c :
  sforall (λ d, always_safe d || (d ≟ "%"%char)) (quote_byte_strict c) = true.
Proof. by all_ascii c. Qed.
Lemma unquote_byte_strict c r :
  unquote_to_bytes (quote_byte_strict c +:+ r) = byte_of c :: unquote_to_bytes r.
Proof. all_ascii c; try reflexivity; destruct r as [|? [|? ?]]; reflexivity. Qed.

Lemma quote_strict_plain bs :
  sforall (λ d, always_safe d || (d ≟ "%"%char)) (quote_bytes_strict bs) = true.
Proof.
  induction bs as [|b bs IH]; [done|]. cbn [quote_bytes_strict].
  by rewrite sforall_app, quote_byte_strict_plain.
Qed.
Lemma unquote_quote_strict bs :
  forallb is_byte bs = true → unquote_to_bytes (quote_bytes_strict bs) = bs.
Proof.
  induction bs as [|b bs IH]; [done|]. cbn [forallb quote_bytes_strict].
  intros [Hb Hbs]%andb_true_iff. by rewrite unquote_byte_strict, byte_chr, IH.
Qed.

Lemma plus_to_space_none s :
  sforall (λ d, always_safe d || (d ≟ "%"%char)) s = true → plus_to_space s = s.
Proof.
  unfold plus_to_space. induction s as [|c s IH]; [done|]. cbn [sforall smap].
  intros [Hc Hs]%andb_true_iff. rewrite (IH Hs).
  f_equal. rewrite bool_decide_eq_false_2; [done|]. intros ->. discriminate Hc.
Qed.

Lemma text_scalar s : forallb is_scalar (text s) = true.
Proof.
  unfold text. induction s as [|c s IH]; [done|].
  cbn [String.list_ascii_of_string map forallb]. rewrite IH, andb_true_r. by all_ascii c.
Qed.

(** Percent-encoding of Latin-1 text: always defined, reversible, and without reserved
    characters. *)
Lemma quote_strict_text s : ∃ q, quote_strict (text s) = Ok q ∧
  unquote (plus_to_space q) = text s ∧ unquote q = text s ∧
  sforall (λ d, always_safe d || (d ≟ "%"%char)) q = true.
Proof.
  unfold quote_strict. destruct (quote_plus_scalar (text s) (text_scalar s)) as [q0 Hq0].
  unfold quote_plus in Hq0. destruct (utf8_encode (text s)) as [bs|] eqn:E; [|done].
  exists (quote_bytes_strict bs). apply utf8_decode_encode in E as [Hd Hb].
  assert (Hplain := quote_strict_plain bs). rewrite plus_to_space_none by done.
  assert (Hu : unquote (quote_bytes_strict bs) = text s).
  { unfold unquote. rewrite unquote_ascii.
    - change ("" +:+ ?s) with s. by rewrite unquote_quote_strict.
    - eapply sforall_impl; [|exact Hplain]. intros c. by all_ascii c. }
  done.
Qed.

(** The guards of an assertion, as one test. *)
Definition assertion_ok (client_id audience : string) (key : blob) (alg : string)
    (kid : option string) (lifetime : Z) : bool :=
  nonempty (strip client_id) && nonempty (strip audience) && negb (blank key) &&
  bool_decide (alg ∈ SUPPORTED_SIGNING_ALGORITHMS) && (10 <? lifetime)%Z &&
  match kid with Some k => nonempty (strip k) | None => true end.

Lemma strip_empty s : nonempty s = false → nonempty (strip s) = false.
Proof. by intros ->%nonempty_false. Qed.
Lemma blank_str s : blank (Str s) = negb (nonempty (strip s)).
Proof.
  unfold blank, blob_empty. destruct (nonempty s) eqn:E; [done|]. by rewrite (strip_empty s E).
Qed.

(** A refused assertion is a [ValueError]; an admitted one passes every guard. *)
Lemma assertion_guards_spec cid aud key alg kid lifetime :
  (assertion_ok cid aud key alg kid lifetime = true →
     assertion_guards cid aud key alg kid lifetime = Ok ()) ∧
  (assertion_ok cid aud key alg kid lifetime = false →
     ∃ e, assertion_guards cid aud key alg kid lifetime = Err e ∧ exn_class e = BValueError).
Proof.
  unfold assertion_guards, assertion_ok, validate_signing_algorithm, CLOCK_SKEW_LEEWAY_SECONDS.
  cbn [for_each fst snd]. rewrite !blank_str.
  destruct (nonempty (strip cid)), (nonempty (strip aud)), (blank key),
    (bool_decide (alg ∈ _)); cbn [negb raise_if mbind result_bind andb];
    try (split; [done|]; intros _; by eexists).
  destruct (10 <? lifetime)%Z eqn:El.
  - rewrite (proj2 (Z.leb_gt lifetime 10)) by lia. cbn.
    destruct kid as [k|]; [destruct (nonempty (strip k))|]; cbn;
      (split; [done|]; try done; intros _; by eexists).
  - rewrite (proj2 (Z.leb_le lifetime 10)) by lia. cbn. split; [done|]. intros _. by eexists.
Qed.

(** An assertion that is returned passed the guards and is what the signer made of its claims. *)
Lemma build_client_assertion_ok wall_clock uuid4 encode cid aud key alg kid lifetime s jwt s' :
  build_client_assertion wall_clock uuid4 encode cid aud key alg kid lifetime s = (Ok jwt, s') →
  assertion_ok cid aud key alg kid lifetime = true ∧ ∃ n jti issued_at,
    encode n (assertion_claims cid aud jti issued_at lifetime) key alg (kid_header kid) = Ok jwt.
Proof.
  destruct (assertion_guards_spec cid aud key alg kid lifetime) as [Hok Herr].
  unfold build_client_assertion, mbind, stM_bind, lift.
  destruct (assertion_ok cid aud key alg kid lifetime).
  - rewrite (Hok eq_refl). intros H. split; [done|]. cbn in H. injection H as H _. by do 3 eexists.
  - destruct (Herr eq_refl) as (e & -> & _). done.
Qed.

Section CertificateFacts.
Context {Cert : Type} (load_pem load_der : bytes → outcome Cert) (fingerprint : Cert → bytes).

Lemma thumbprint_shape c :
  length (fingerprint c) = 32 → forallb is_byte (fingerprint c) = true →
  nonempty (b64url (fingerprint c)) = true ∧ isascii (b64url (fingerprint c)) = true.
Proof.
  intros Hl Hb. split; [|by apply is_b64_isascii, b64url_alphabet].
  apply nonempty_true. intros H. assert (Hlen := b64url_length _ Hb). by rewrite H, Hl in Hlen.
Qed.
End CertificateFacts.

(** ** Theorems *)

(** HTTP Basic credentials survive the trip.  Any identifier and secret are encoded without
    error, into text in which the colon that joins them occurs once, between them; a server that
    splits there and form-decodes each part recovers exactly the identifier and the secret. *)
Theorem basic_auth_roundtrip client_id client_secret :
  ∃ u p, basic_auth_credentials client_id client_secret = Ok (u, p) ∧
    split_once ":" (u +:+ String ":" p) = (u, Some p) ∧
    unquote (plus_to_space u) = text client_id ∧
    unquote (plus_to_space p) = text client_secret ∧
    isascii u = true ∧ isascii p = true.
Proof.
  destruct (quote_strict_text client_id) as (u & Hu & Hdu & _ & Hpu).
  destruct (quote_strict_text client_secret) as (p & Hp & Hdp & _ & Hpp).
  exists u, p. unfold basic_auth_credentials. rewrite Hu, Hp. cbn [mbind result_bind].
  assert (Hascii : ∀ s, sforall (λ d, always_safe d || (d ≟ "%"%char)) s = true → isascii s = true).
  { intros s. apply sforall_impl. intros c. by all_ascii c. }
  split_and!; [done| |done|done|by apply Hascii|by apply Hascii].
  apply split_once_app. unfold char_in. apply negb_false_iff.
  eapply sforall_impl; [|exact Hpu]. intros c. by all_ascii c.
Qed.

(** What is signed, and when nothing is.  If the identifier, audience, key, algorithm, key
    identifier and lifetime pass the guards, exactly one JWT is signed, with that key and
    algorithm: the client is both issuer and subject, the audience is the one given, the
    identifier is a fresh reading of the generator, and the window opens ten seconds before the
    clock and closes after it.  Otherwise a [ValueError] is raised and neither the clock, the
    generator nor the signer is consulted. *)
Theorem client_assertion_spec wall_clock uuid4 encode cid aud key alg kid lifetime s :
  let n := reads s in
  let now := int_of_Q (wall_clock n) in
  let run := build_client_assertion wall_clock uuid4 encode cid aud key alg kid lifetime s in
  if assertion_ok cid aud key alg kid lifetime then
    run = (encode (2 + n) (assertion_claims cid aud (uuid4 (1 + n)) (now - 10) lifetime) key alg
             (kid_header kid), Net (sent s) (slept s) (3 + n)) ∧
    (now - 10 < now < now - 10 + lifetime)%Z ∧ alg ∉ ["none"; "HS256"; "HS384"; "HS512"]
  else ∃ e, run = (Err e, s) ∧ exn_class e = BValueError.
Proof.
  cbv zeta.
  destruct (assertion_guards_spec cid aud key alg kid lifetime) as [Hok Herr].
  unfold build_client_assertion, mbind, stM_bind, lift.
  destruct (assertion_ok cid aud key alg kid lifetime) eqn:Eg.
  - rewrite (Hok eq_refl). split; [reflexivity|]. split.
    + unfold assertion_ok in Eg. bool_prop. lia.
    + assert (Halg : bool_decide (alg ∈ SUPPORTED_SIGNING_ALGORITHMS) = true)
        by (unfold assertion_ok in Eg; rewrite !andb_true_iff in Eg; tauto).
      intros Hin. repeat (apply elem_of_cons in Hin as [->|Hin]; [discriminate Halg|]).
      by apply not_elem_of_nil in Hin.
  - destruct (Herr eq_refl) as (e & -> & He). by exists e.
Qed.

(** A certificate-bound token is accepted with exactly one certificate.  Validation returns
    iff the claims carry a confirmation whose [x5t#S256] is the thumbprint of the certificate
    presented; so two certificates accepted for the same claims have the same SHA-256
    fingerprint.  Every refusal is a [CertificateBindingError], or what loading the certificate
    raised: the constant-time comparison itself cannot fail. *)
Theorem certificate_binding_spec {Cert : Type} load_pem load_der (fingerprint : Cert → bytes)
    (Hlen : ∀ c, length (fingerprint c) = 32)
    (Hbytes : ∀ c, forallb is_byte (fingerprint c) = true) claims cert :
  let validate := validate_certificate_binding load_pem load_der fingerprint claims in
  let load := load_certificate load_pem load_der in
  (validate cert = Ok () ↔ ∃ cnf c, dget "cnf" claims = VDict cnf ∧ load cert = Ok c ∧
     dget "x5t#S256" cnf = VStr (b64url (fingerprint c))) ∧
  (∀ cert' c c', validate cert = Ok () → validate cert' = Ok () →
     load cert = Ok c → load cert' = Ok c' → fingerprint c = fingerprint c') ∧
  (∀ e, validate cert = Err e → isinstance e CertificateBindingError = true ∨ load cert = Err e).
Proof.
  cbv zeta.
  assert (Hspec : ∀ ct, validate_certificate_binding load_pem load_der fingerprint claims ct = Ok () ↔
    ∃ cnf c, dget "cnf" claims = VDict cnf ∧ load_certificate load_pem load_der ct = Ok c ∧
      dget "x5t#S256" cnf = VStr (b64url (fingerprint c))).
  { intros ct. unfold validate_certificate_binding, compute_certificate_thumbprint.
    destruct (dget "cnf" claims) as [| | | | | |cnf]; try (split; [done|naive_solver]).
    destruct (dget "x5t#S256" cnf) as [| | | |bound| |] eqn:Eb;
      try (split; [done|intros (? & ? & [= <-] & _ & ?); congruence]).
    split.
    - destruct (nonempty bound); [|done]. destruct (isascii bound); [|done]. cbn [negb].
      destruct (load_certificate load_pem load_der ct) as [c|]; [|done]. cbn [mbind result_bind].
      intros H. apply result_bind_ok in H as (same & Hsame & H).
      apply compare_digest_ok in Hsame as (_ & _ & ->).
      apply raise_if_ok, negb_false_iff, bool_decide_eq_true, text_inj in H. subst bound.
      by exists cnf, c.
    - intros (? & c & [= <-] & Hc & [= ->]%(eq_trans (eq_sym Eb))).
      destruct (thumbprint_shape fingerprint c (Hlen c) (Hbytes c)) as [Hne Ha].
      rewrite Hne, Ha, Hc. cbn [negb mbind result_bind]. unfold compare_digest.
      rewrite !text_isascii, Ha. cbn [andb]. by bd_refl. }
  split_and!; [apply Hspec| |].
  - intros ct' c c' (cnf & d1 & H1 & H2 & H3)%Hspec (cnf' & d2 & H4 & H5 & H6)%Hspec Hc Hc'.
    assert (c = d1) as -> by congruence. assert (c' = d2) as -> by congruence.
    apply b64url_inj; [done..|]. congruence.
  - intros e. unfold validate_certificate_binding, compute_certificate_thumbprint.
    destruct (dget "cnf" claims) as [| | | | | |cnf]; try (intros [= <-]; by left).
    destruct (dget "x5t#S256" cnf) as [| | | |bound| |]; try (intros [= <-]; by left).
    destruct (nonempty bound); [|intros [= <-]; by left].
    destruct (isascii bound) eqn:Ea; [|intros [= <-]; by left]. cbn [negb].
    destruct (load_certificate load_pem load_der cert) as [c|]; [|intros [= <-]; by right].
    cbn [mbind result_bind]. unfold compare_digest.
    destruct (thumbprint_shape fingerprint c (Hlen c) (Hbytes c)) as [_ Hac].
    rewrite !text_isascii, Ea, Hac. cbn [andb mbind result_bind].
    intros [_ <-]%raise_if_err. by left.
Qed.

(** Routing an endpoint through the mTLS aliases of a document admitted under a policy never
    leaves what the policy allows.  The answer is either an alias the document lists under that
    name, which passed the scheme and internal-address checks, or the document's standard
    endpoint, which passed the endpoint checks. *)
Theorem mtls_endpoint_safe r p ep v
    (Hok : disco_is_successful (process_discovery_response r (Some p)) = true)
    (Hep : ep ∈ endpoint_names)
    (Hv : resolve_mtls_endpoint (process_discovery_response r (Some p)) ep = Ok v) :
  ∃ data, document_ok r p data ∧
    ((∃ aliases, dget "mtls_endpoint_aliases" data = VDict aliases ∧ (ep, v) ∈ aliases ∧
        alias_ok p v) ∨
     (v = dget ep data ∧
        (validate_endpoints p = true → endpoint_ok data p (default "" (resp_url r)) ep))).
Proof.
  destruct (process_success_document r p Hok) as (_ & data & Hdoc & Hattrs).
  exists data. split; [done|].
  assert (Hget : ∀ name, name ∈ disco_guarded_fields → name ∉ error_fields →
    disco_attr (process_discovery_response r (Some p)) name = Ok (dget name data)).
  { intros name Hn He. rewrite disco_attr_ok by done. rewrite Hattrs, dget_fields.
    by rewrite bool_decide_eq_true_2. }
  assert (Hguard : ep ∈ disco_guarded_fields ∧ ep ∉ error_fields).
  { unfold endpoint_names in Hep.
    repeat (apply elem_of_cons in Hep as [->|Hep]; [split; compute_done|]).
    by apply not_elem_of_nil in Hep. }
  destruct Hguard as [Hg He]. assert (Hstd := Hget ep Hg He).
  assert (Hright : v = dget ep data → v = dget ep data ∧
    (validate_endpoints p = true → endpoint_ok data p (default "" (resp_url r)) ep)).
  { intros ->. split; [done|]. intros Hve. by apply (doc_endpoints _ _ _ Hdoc). }
  unfold resolve_mtls_endpoint in Hv. rewrite (Hget "mtls_endpoint_aliases"), Hstd in Hv by compute_done.
  cbn [mbind result_bind] in Hv.
  destruct (dget "mtls_endpoint_aliases" data) as [| | | | | |aliases] eqn:Ea;
    try (right; apply Hright; congruence).
  destruct (truthy (dget ep aliases)) eqn:Et; [|right; apply Hright; congruence].
  left. exists aliases. assert (v = dget ep aliases) as -> by congruence.
  assert (Hin : (ep, dget ep aliases) ∈ aliases).
  { apply dict_get_elem. unfold dget in *. by destruct (dict_get ep aliases). }
  split_and!; [done..|]. by apply (doc_aliases _ _ _ Hdoc aliases Ea ep).
Qed.

(** ** Witnesses *)

Definition demo_pem (b : bytes) : outcome bytes := Err (ValueErr "no PEM").
Definition demo_der (b : bytes) : outcome bytes := Ok b.
Definition demo_cert : blob := Bytes (text "der").
Definition demo_bound : pydict :=
  [("cnf", VDict [("x5t#S256", VStr "UFDYDSLs1HHqVd9wNAQsHgQTQf9AZuf2_zjiC3IN-Oo")])].

Lemma certificate_binding_spec_witness :
  validate_certificate_binding demo_pem demo_der sha256 demo_bound demo_cert = Ok () ∧
  ∃ cnf c, dget "cnf" demo_bound = VDict cnf ∧
    load_certificate demo_pem demo_der demo_cert = Ok c ∧
    dget "x5t#S256" cnf = VStr (b64url (sha256 c)).
Proof.
  assert (H : validate_certificate_binding demo_pem demo_der sha256 demo_bound demo_cert = Ok ())
    by (vm_compute; reflexivity).
  split; [exact H|].
  refine (proj1 (proj1 (certificate_binding_spec demo_pem demo_der sha256 _ _ demo_bound demo_cert)) H);
    intros c; apply sha256_shape.
Defined.

Definition aliased_response : HttpResponse :=
  json_response (dict_set "mtls_endpoint_aliases"
    (VDict [("token_endpoint", VStr "https://mtls.example/token")]) demo_doc).

Lemma mtls_endpoint_safe_witness :
  let d := process_discovery_response aliased_response (Some default_policy) in
  resolve_mtls_endpoint d "token_endpoint" = Ok (VStr "https://mtls.example/token") ∧
  ∃ data, document_ok aliased_response default_policy data ∧
    ((∃ aliases, dget "mtls_endpoint_aliases" data = VDict aliases ∧
        ("token_endpoint", VStr "https://mtls.example/token") ∈ aliases ∧
        alias_ok default_policy (VStr "https://mtls.example/token")) ∨
     (VStr "https://mtls.example/token" = dget "token_endpoint" data ∧
        (validate_endpoints default_policy = true →
         endpoint_ok data default_policy (default "" (resp_url aliased_response)) "token_endpoint"))).
Proof.
  cbv zeta. split; [vm_compute; reflexivity|].
  apply (mtls_endpoint_safe aliased_response default_policy "token_endpoint").
  - vm_compute. reflexivity.
  - do 2 right. left.
  - vm_compute. reflexivity.
Defined.
