(* ===== verification/Dpop.v ===== *)
(** * Proof of possession ([core/dpop.py])

    The DPoP key and its JWK and thumbprint, the proof JWT attached to a request, the access
    token hash, and the recognition of a server's nonce challenge.  Key generation, the signing
    of a JWT, [uuid.uuid4] and the clock are arguments. *)

From S2P Require Import Prelude PyStr PyValue Url Codec Json Models Sha2 HttpRetry UrlQuery ClientAuth.
From Stdlib Require Import QArith Ascii.
From stdpp Require Import strings.
#[global] Close Scope Q_scope.
Open Scope string_scope.
Open Scope list_scope.
Open Scope nat_scope.
Open Scope py_scope.

(** ** Keys *)

Definition EC_CURVES : list (string * string) :=
  [("ES256", "secp256r1"); ("ES384", "secp384r1"); ("ES512", "secp521r1")].
Definition SUPPORTED_ALGORITHMS : list string := ["ES256"; "ES384"; "ES512"; "RS256"].

(** [pub.public_numbers()] with the curve's [name] and [key_size]. *)
Inductive public_key : Type :=
  | EcPublic (curve : string) (key_size x y : Z)
  | RsaPublic (n e : Z).

(** The private key object: its public half and its PEM encoding. *)
Record key_pair : Type := KeyPair { public : public_key; pem : bytes }.

Record DPoPKey : Type := DPoP { dpop_algorithm : string; dpop_private_key : key_pair }.

Definition assoc (k : string) (l : list (string * string)) : option string :=
  snd <$> List.find (λ kv, k ≟ kv.1) l.

Section Generate.
(** [ec.generate_private_key(curve)] and [rsa.generate_private_key(65537, 2048)]. *)
Context (ec_generate : string → key_pair) (rsa_generate : Z → Z → key_pair).

(** [DPoPKey.__init__] and [generate_dpop_key]. *)
Definition generate_dpop_key (algorithm : string) : outcome DPoPKey :=
  if negb (bool_decide (algorithm ∈ SUPPORTED_ALGORITHMS)) then
    Err (ValueErr ("Unsupported DPoP algorithm: " +:+ algorithm +:+ ". Supported: " +:+
                   py_repr (VList (strs (sorted_set SUPPORTED_ALGORITHMS)))))
  else
    Ok (DPoP algorithm
      match assoc algorithm EC_CURVES with
      | Some curve => ec_generate curve
      | None => rsa_generate 65537 2048
      end).
End Generate.

(** [n.to_bytes(length, "big")], then base64url: an [OverflowError] if [n] does not fit. *)
Definition int_to_b64url (n length : Z) : outcome string :=
  if (0 <=? n)%Z && (n <? 256 ^ length)%Z then Ok (b64url (be_bytes (Z.to_nat length) n))
  else Err (mk_exn BOther "int too big to convert").

(** [n.bit_length()] of a natural number. *)
Definition bit_length (n : Z) : Z := if (n =? 0)%Z then 0 else (Z.log2 n + 1)%Z.
Definition bytes_for (bits : Z) : Z := ((bits + 7) / 8)%Z.

Definition curve_names : list (string * string) :=
  [("secp256r1", "P-256"); ("secp384r1", "P-384"); ("secp521r1", "P-521")].

Definition public_jwk (k : public_key) : outcome pydict :=
  match k with
  | EcPublic curve key_size x y =>
      match assoc curve curve_names with
      | None => Err (ValueErr ("Unsupported EC curve: " +:+ curve))
      | Some crv =>
          bx ← int_to_b64url x (bytes_for key_size);
          by' ← int_to_b64url y (bytes_for key_size);
          Ok [("kty", VStr "EC"); ("crv", VStr crv); ("x", VStr bx); ("y", VStr by')]
      end
  | RsaPublic n e =>
      bn ← int_to_b64url n (bytes_for (bit_length n));
      be ← int_to_b64url e (bytes_for (bit_length e));
      Ok [("kty", VStr "RSA"); ("n", VStr bn); ("e", VStr be)]
  end.

(** [json.dumps(members, separators=(",", ":"))] of strings that need no escape, as base64url
    text and curve names. *)
Definition json_member (kv : string * string) : string :=
  String dquote (kv.1 +:+ String dquote (String ":" (String dquote (kv.2 +:+ String dquote "")))).
Definition json_object (members : list (string * string)) : string :=
  "{" +:+ str_join "," (map json_member members) +:+ "}".

(** The required members of RFC 7638, in lexicographic order. *)
Definition thumbprint_members (jwk : pydict) : list string :=
  if py_eq (dget "kty" jwk) (VStr "EC") then ["crv"; "kty"; "x"; "y"] else ["e"; "kty"; "n"].
Definition thumbprint_input (jwk : pydict) : string :=
  json_object (map (λ m, (m, py_str (dget m jwk))) (thumbprint_members jwk)).
Definition jwk_thumbprint (k : DPoPKey) : outcome string :=
  jwk ← public_jwk (public (dpop_private_key k));
  Ok (b64url (sha256 (text (thumbprint_input jwk)))).

(** ** Proofs *)

Definition compute_ath (access_token : string) : outcome string :=
  if negb (nonempty access_token) || negb (nonempty (strip access_token)) then
    Err (ValueErr "access_token must not be empty")
  else match encode_ascii access_token with
       | Some b => Ok (b64url (sha256 b))
       | None => Err (ValueErr "access_token must contain only ASCII characters")
       end.

(** [str.upper] of an HTTP method, which is ASCII. *)
Definition upper_char (c : ascii) : ascii := if code_in 97 122 c then char_of (code c - 32) else c.
Definition upper : string → string := smap upper_char.

(** The guards, and the [htu] member: the URI without its query and fragment. *)
Definition proof_target (method uri : string) : outcome string :=
  raise_if (negb (nonempty method) || negb (nonempty (strip method)))
    (ValueErr "method must not be empty") ≫= λ _,
  raise_if (negb (nonempty uri) || negb (nonempty (strip uri)))
    (ValueErr "uri must not be empty") ≫= λ _,
  parsed ← urlparse uri;
  raise_if (negb (nonempty (scheme parsed)) || negb (nonempty (netloc parsed)))
    (ValueErr "uri must be an absolute HTTP URI") ≫= λ _,
  Ok (urlunparse (URL (scheme parsed) (netloc parsed) (path parsed) (params parsed) "" "")).

(** A header that is a string when it is present and not empty. *)
Definition given (o : option string) : option string :=
  match o with Some s => if nonempty s then Some s else None | None => None end.

Definition proof_headers (key : DPoPKey) (jwk : pydict) : pydict :=
  [("typ", VStr "dpop+jwt"); ("alg", VStr (dpop_algorithm key)); ("jwk", VDict jwk)].
Definition proof_payload (jti htm htu : string) (iat : Z) (ath nonce : option string) : pydict :=
  [("jti", VStr jti); ("htm", VStr htm); ("htu", VStr htu); ("iat", VInt iat)] ++
  match ath with Some a => [("ath", VStr a)] | None => [] end ++
  match nonce with Some n => [("nonce", VStr n)] | None => [] end.

Section Proof_.
Context (wall_clock : nat → Q) (uuid4 : nat → string).
Context (encode : nat → pydict → blob → string → pydict → outcome string).

Definition create_dpop_proof (key : DPoPKey) (method uri : string)
    (access_token nonce : option string) : stM net exn string :=
  htu ← lift (proof_target method uri);
  jwk ← lift (public_jwk (public (dpop_private_key key)));
  jti ← new_uuid uuid4;
  now ← time_time wall_clock;
  ath ← lift (match given access_token with
              | Some t => Some <$> compute_ath t
              | None => Ok None
              end);
  sign encode (proof_payload jti (upper method) htu (int_of_Q now) ath (given nonce))
    (Bytes (pem (dpop_private_key key))) (dpop_algorithm key) (proof_headers key jwk).
End Proof_.

Definition build_dpop_headers (proof : string) (access_token : option string) : outcome pydict :=
  if negb (nonempty proof) || negb (nonempty (strip proof)) then
    Err (ValueErr "proof must not be empty")
  else
    Ok (("DPoP", VStr proof) ::
        match access_token with
        | Some t => if nonempty t && nonempty (strip t)
                    then [("Authorization", VStr ("DPoP " +:+ t))] else []
        | None => []
        end).

(** A [use_dpop_nonce] challenge, in the body or in the [WWW-Authenticate] header. *)
Definition demands_nonce (r : HttpResponse) : bool :=
  match resp_json r with
  | Ok (VDict body) => py_eq (dget "error" body) (VStr "use_dpop_nonce")
  | _ => false
  end ||
  contains (default "" (header "WWW-Authenticate" r)) "use_dpop_nonce".

Definition extract_dpop_nonce (r : HttpResponse) : option string :=
  match given (header "DPoP-Nonce" r) with
  | None => None
  | Some nonce =>
      if bool_decide (resp_status r ∈ [400; 401]%Z) && demands_nonce r then Some nonce else None
  end.

(** ** Tests on concrete inputs *)

Definition demo_ec : public_key := EcPublic "secp256r1" 256 1 2.
Definition demo_dpop : DPoPKey := DPoP "ES256" (KeyPair demo_ec (text "PEM")).

Example thumbprint_1 : thumbprint_input [("kty", VStr "RSA"); ("n", VStr "AQ"); ("e", VStr "AQAB")] =
  smap (λ c, if c ≟ "'"%char then dquote else c) "{'e':'AQAB','kty':'RSA','n':'AQ'}".
Proof. vm_compute. reflexivity. Qed.
(** The example of RFC 7638, section 3.1, needs its modulus; that of RFC 9449, section 4.2, the
    hash of an access token. *)
Example ath_1 : compute_ath "Kz~8mXK1EalYznwH-LC-1fBAo.4Ljp~zsPE_NeO.gxU"
  = Ok "fUHyO2r2Z3DZ53EsNrWBb0xWXoaNy59IiKCAqksmQEo".
Proof. vm_compute. reflexivity. Qed.
Example target_1 : proof_target "get" "HTTPS://RS.example:443/a;p?x=1#f" = Ok "https://RS.example:443/a;p".
Proof. vm_compute. reflexivity. Qed.
Example target_2 : proof_target "get" "/relative" = Err (ValueErr "uri must be an absolute HTTP URI").
Proof. vm_compute. reflexivity. Qed.
Example proof_1 :
  (create_dpop_proof demo_clock demo_uuid demo_sign demo_dpop "post" "https://op/t?x=1" (Some "") (Some "n1")
     (Net [] [] 0)).1
  = Ok "{'jti': 'id0', 'htm': 'POST', 'htu': 'https://op/t', 'iat': 1000, 'nonce': 'n1'}".
Proof. vm_compute. reflexivity. Qed.
Example nonce_1 : extract_dpop_nonce
  (Response 401 [("dpop-nonce", "n1"); ("www-authenticate", "DPoP error=use_dpop_nonce")] "" (Err "") None)
  = Some "n1".
Proof. vm_compute. reflexivity. Qed.
Example nonce_2 : extract_dpop_nonce
  (Response 200 [("dpop-nonce", "n1")] "" (Ok (VDict [("error", VStr "use_dpop_nonce")])) None) = None.
Proof. vm_compute. reflexivity. Qed.

(** ** Lemmas *)

(** *** Numbers in base64url *)

Lemma be_value_snoc acc l b : be_value acc (l ++ [b]) = (256 * be_value acc l + b)%Z.
Proof. revert acc. induction l as [|a l IH]; intros acc; [done|]. apply IH. Qed.

Lemma be_value_bytes k n : (0 ≤ n < 256 ^ Z.of_nat k)%Z → be_value 0 (be_bytes k n) = n.
Proof.
  revert n. induction k as [|k IH]; intros n Hn; [cbn in *; lia|].
  cbn [be_bytes]. rewrite be_value_snoc, IH.
  - pose proof (Z.div_mod n 256 ltac:(lia)). lia.
  - rewrite Nat2Z.inj_succ, Z.pow_succ_r in Hn by lia.
    split; [apply Z.div_pos; lia|apply Z.div_lt_upper_bound; lia].
Qed.

Lemma int_to_b64url_ok n len b : int_to_b64url n len = Ok b →
  b = b64url (be_bytes (Z.to_nat len) n) ∧ be_value 0 (be_bytes (Z.to_nat len) n) = n ∧
  isascii b = true ∧ char_in dquote b = false.
Proof.
  unfold int_to_b64url. destruct ((0 <=? n)%Z && (n <? 256 ^ len)%Z) eqn:E; [|done].
  intros [= <-]. apply andb_true_iff in E as [H0 H1]. apply Z.leb_le in H0. apply Z.ltb_lt in H1.
  destruct (be_bytes_shape (Z.to_nat len) n) as [_ Hb].
  assert (Ha := b64url_alphabet _ Hb). split_and!; [done| |by apply is_b64_isascii|].
  - apply be_value_bytes. split; [done|]. destruct (decide (0 ≤ len)%Z) as [Hl|Hl].
    + by rewrite Z2Nat.id.
    + rewrite Z.pow_neg_r in H1 by lia. lia.
  - by apply (char_in_forall is_b64).
Qed.

Lemma int_to_b64url_inj n len n' len' b :
  int_to_b64url n len = Ok b → int_to_b64url n' len' = Ok b → n = n'.
Proof.
  intros (H1 & H2 & _)%int_to_b64url_ok (H3 & H4 & _)%int_to_b64url_ok.
  rewrite <- H2, <- H4. f_equal. apply b64url_inj; [apply be_bytes_shape..|congruence].
Qed.

(** *** The text that is hashed *)

Fixpoint member_fields (ms : list (string * string)) : list string :=
  match ms with
  | [] => ["}"]
  | [(k, v)] => [k; ":"; v; "}"]
  | (k, v) :: ms' => k :: ":" :: v :: "," :: member_fields ms'
  end.
Definition unquoted (kv : string * string) : Prop :=
  char_in dquote kv.1 = false ∧ char_in dquote kv.2 = false.

Lemma split_members pre ms : char_in dquote pre = false → ms ≠ [] → Forall unquoted ms →
  split_char dquote (pre +:+ (str_join "," (map json_member ms) +:+ "}")) =
    pre :: member_fields ms.
Proof.
  intros Hpre Hne Hms. revert pre Hpre Hne. induction Hms as [|[k v] ms [Hk Hv] Hms IH];
    intros pre Hpre Hne; [done|]. cbn [fst snd] in *.
  assert (Hone : ∀ rest, split_char dquote (pre +:+ (json_member (k, v) +:+ rest)) =
    pre :: k :: ":" :: v :: split_char dquote rest).
  { intros rest. unfold json_member. cbn [fst snd].
    change (String dquote ?x +:+ ?y) with (String dquote (x +:+ y)).
    rewrite split_char_app by done. f_equal. rewrite str_app_assoc.
    change (String dquote ?x +:+ ?y) with (String dquote (x +:+ y)).
    rewrite split_char_app by done. f_equal.
    change (String ":" (String dquote ?x) +:+ ?y) with (":" +:+ String dquote (x +:+ y)).
    rewrite split_char_app by done. f_equal. rewrite str_app_assoc.
    change (String dquote "" +:+ ?y) with (String dquote y). by rewrite split_char_app. }
  destruct ms as [|kv' ms].
  - cbn [map str_join]. by rewrite Hone.
  - cbn [map]. change (str_join "," (json_member (k, v) :: ?x :: ?y)) with
      ((json_member (k, v) +:+ ",") +:+ str_join "," (x :: y)).
    rewrite !str_app_assoc, Hone. cbn [map] in IH. rewrite IH by done. by destruct kv'.
Qed.

Lemma member_fields_inj ms ms' :
  ms ≠ [] → ms' ≠ [] → member_fields ms = member_fields ms' → ms = ms'.
Proof.
  revert ms'. induction ms as [|[k v] ms IH]; intros ms' Hne Hne' H; [done|].
  destruct ms' as [|[k' v'] ms']; [done|].
  destruct ms as [|kv ms], ms' as [|kv' ms'].
  - cbn in H. congruence.
  - destruct kv', ms'; cbn in H; congruence.
  - destruct kv, ms; cbn in H; congruence.
  - assert (Hcons : member_fields ((k, v) :: kv :: ms) = k :: ":" :: v :: "," :: member_fields (kv :: ms))
      by done.
    assert (Hcons' : member_fields ((k', v') :: kv' :: ms') =
      k' :: ":" :: v' :: "," :: member_fields (kv' :: ms')) by done.
    rewrite Hcons, Hcons' in H. injection H as -> -> H. f_equal. by apply IH.
Qed.

Lemma json_object_inj ms ms' :
  ms ≠ [] → ms' ≠ [] → Forall unquoted ms → Forall unquoted ms' →
  json_object ms = json_object ms' → ms = ms'.
Proof.
  intros Hne Hne' Hu Hu' H. apply (f_equal (split_char dquote)) in H. unfold json_object in H.
  rewrite !split_members in H by done. injection H as H. by apply member_fields_inj.
Qed.

(** The same key: curve and point, or modulus and exponent. *)
Definition same_public (k k' : public_key) : Prop :=
  match k, k' with
  | EcPublic c _ x y, EcPublic c' _ x' y' => c = c' ∧ x = x' ∧ y = y'
  | RsaPublic n e, RsaPublic n' e' => n = n' ∧ e = e'
  | _, _ => False
  end.

Lemma curve_name_spec c crv : assoc c curve_names = Some crv →
  char_in dquote crv = false ∧ ∀ c', assoc c' curve_names = Some crv → c' = c.
Proof.
  assert (H : ∀ x y, assoc x curve_names = Some y →
    (x = "secp256r1" ∧ y = "P-256") ∨ (x = "secp384r1" ∧ y = "P-384") ∨ (x = "secp521r1" ∧ y = "P-521")).
  { intros x y. unfold assoc, curve_names. cbn [List.find fst].
    destruct (x ≟ "secp256r1") eqn:E1; [|destruct (x ≟ "secp384r1") eqn:E2;
      [|destruct (x ≟ "secp521r1") eqn:E3; [|done]]]; bool_prop; intros [= <-]; subst; tauto. }
  intros Hc. destruct (H c crv Hc) as [[-> ->]|[[-> ->]|[-> ->]]]; (split; [done|]);
    intros c' [[-> ?]|[[-> ?]|[-> ?]]]%H; done.
Qed.

(** What is hashed determines the key. *)
Lemma thumbprint_input_inj k k' j j' :
  public_jwk k = Ok j → public_jwk k' = Ok j' → thumbprint_input j = thumbprint_input j' →
  same_public k k'.
Proof.
  assert (Hec : ∀ c s x y j, public_jwk (EcPublic c s x y) = Ok j → ∃ crv bx by',
    assoc c curve_names = Some crv ∧ int_to_b64url x (bytes_for s) = Ok bx ∧
    int_to_b64url y (bytes_for s) = Ok by' ∧
    thumbprint_input j = json_object [("crv", crv); ("kty", "EC"); ("x", bx); ("y", by')]).
  { intros c s x y j0 H. cbn [public_jwk] in H. destruct (assoc c curve_names) as [crv|]; [|done].
    apply result_bind_ok in H as (bx & Hx & H). apply result_bind_ok in H as (by' & Hy & H).
    injection H as <-. by exists crv, bx, by'. }
  assert (Hrsa : ∀ n e j, public_jwk (RsaPublic n e) = Ok j → ∃ bn be,
    int_to_b64url n (bytes_for (bit_length n)) = Ok bn ∧
    int_to_b64url e (bytes_for (bit_length e)) = Ok be ∧
    thumbprint_input j = json_object [("e", be); ("kty", "RSA"); ("n", bn)]).
  { intros n e j0 H. cbn [public_jwk] in H.
    apply result_bind_ok in H as (bn & Hn & H). apply result_bind_ok in H as (be & He & H).
    injection H as <-. by exists bn, be. }
  assert (Hq : ∀ n l b, int_to_b64url n l = Ok b → char_in dquote b = false)
    by (intros n l b (_ & _ & _ & H)%int_to_b64url_ok; exact H).
  destruct k as [c s x y|n e], k' as [c' s' x' y'|n' e'].
  - intros (crv & bx & by1 & Hc & Hx & Hy & ->)%Hec (crv' & bx' & by1' & Hc' & Hx' & Hy' & ->)%Hec H.
    destruct (curve_name_spec _ _ Hc) as [Hcq Hci], (curve_name_spec _ _ Hc') as [Hcq' _].
    apply json_object_inj in H; [|done|done|repeat constructor; eauto..].
    injection H as -> -> ->. split_and!; [symmetry; by apply Hci|by eapply int_to_b64url_inj..].
  - intros (crv & bx & by1 & Hc & Hx & Hy & ->)%Hec (bn & be & Hn & He & ->)%Hrsa H.
    destruct (curve_name_spec _ _ Hc) as [Hcq _].
    apply json_object_inj in H; [done|done|done|repeat constructor; eauto..].
  - intros (bn & be & Hn & He & ->)%Hrsa (crv & bx & by1 & Hc & Hx & Hy & ->)%Hec H.
    destruct (curve_name_spec _ _ Hc) as [Hcq _].
    apply json_object_inj in H; [done|done|done|repeat constructor; eauto..].
  - intros (bn & be & Hn & He & ->)%Hrsa (bn' & be' & Hn' & He' & ->)%Hrsa H.
    apply json_object_inj in H; [|done|done|repeat constructor; eauto..].
    injection H as -> ->. split; by eapply int_to_b64url_inj.
Qed.

(** ** Theorems *)

(** A thumbprint identifies a key.  Two DPoP keys with the same thumbprint have the same
    curve and point, or the same modulus and exponent, unless the canonical texts of their JWKs
    are a collision of SHA-256. *)
Theorem thumbprint_identifies k k' t
    (Hk : jwk_thumbprint k = Ok t) (Hk' : jwk_thumbprint k' = Ok t) :
  same_public (public (dpop_private_key k)) (public (dpop_private_key k')) ∨
  ∃ j j', public_jwk (public (dpop_private_key k)) = Ok j ∧
    public_jwk (public (dpop_private_key k')) = Ok j' ∧
    thumbprint_input j ≠ thumbprint_input j' ∧
    sha256 (text (thumbprint_input j)) = sha256 (text (thumbprint_input j')).
Proof.
  unfold jwk_thumbprint in *.
  apply result_bind_ok in Hk as (j & Hj & Hk). apply result_bind_ok in Hk' as (j' & Hj' & Hk').
  destruct (decide (thumbprint_input j = thumbprint_input j')) as [Heq|Hne].
  - left. by eapply thumbprint_input_inj.
  - right. exists j, j'. split_and!; [done..|].
    apply b64url_inj; [apply sha256_shape..|congruence].
Qed.

(** C37: what a proof of possession asserts.  A proof that is returned was signed with the key's
    own private key and algorithm over its own public JWK, for the upper-cased method and for the
    URI less its query and fragment (the text has neither mark and parses to the same scheme,
    authority, path and parameters); it has a fresh identifier, the current time, the server's
    nonce when one was given, and the SHA-256 hash of the access token exactly when one was
    given. *)
Theorem dpop_proof_spec wall_clock uuid4 encode key method uri token nonce s jwt s'
    (Hrun : create_dpop_proof wall_clock uuid4 encode key method uri token nonce s = (Ok jwt, s')) :
  ∃ p jwk ath,
    let htu := URL (scheme p) (netloc p) (path p) (params p) "" "" in
    urlparse uri = Ok p ∧ nonempty (scheme p) = true ∧ nonempty (netloc p) = true ∧
    urlparse (urlunparse htu) = Ok htu ∧
    char_in "?" (urlunparse htu) = false ∧ char_in "#" (urlunparse htu) = false ∧
    public_jwk (public (dpop_private_key key)) = Ok jwk ∧
    match given token with
    | Some t => ath = Some (b64url (sha256 (text t))) ∧ isascii t = true
    | None => ath = None
    end ∧
    encode (2 + reads s)
      (proof_payload (uuid4 (reads s)) (upper method) (urlunparse htu)
        (int_of_Q (wall_clock (1 + reads s))) ath (given nonce))
      (Bytes (pem (dpop_private_key key))) (dpop_algorithm key) (proof_headers key jwk) = Ok jwt.
Proof.
  unfold create_dpop_proof, mbind, stM_bind, lift in Hrun.
  destruct (proof_target method uri) as [htu|] eqn:Et; [|done].
  destruct (public_jwk (public (dpop_private_key key))) as [jwk|] eqn:Ej; [|done].
  cbn in Hrun. unfold proof_target in Et.
  apply raise_if_seq_ok in Et as [_ Et]. apply raise_if_seq_ok in Et as [_ Et].
  apply result_bind_ok in Et as (p & Hp & Et). apply raise_if_seq_ok in Et as [Hne Et].
  apply orb_false_iff in Hne as [Hs Hn]. apply negb_false_iff in Hs, Hn.
  destruct (urlparse_urlunparse uri p Hp Hs Hn) as (Hparse & Hq & Hf). cbv zeta in Hparse, Hq, Hf.
  exists p, jwk.
  destruct (given token) as [t|].
  - unfold compute_ath in Hrun. destruct (negb (nonempty t) || negb (nonempty (strip t))); [done|].
    unfold encode_ascii in Hrun. destruct (isascii t) eqn:Ea; [|done].
    exists (Some (b64url (sha256 (text t)))). cbv zeta. split_and!; try done.
    cbn in Hrun. injection Et as <-. by injection Hrun.
  - exists None. cbv zeta. split_and!; try done. cbn in Hrun. injection Et as <-. by injection Hrun.
Qed.

(** ** Witnesses *)

Lemma thumbprint_identifies_witness :
  ∃ t, jwk_thumbprint demo_dpop = Ok t ∧
    (same_public demo_ec demo_ec ∨
     ∃ j j', public_jwk demo_ec = Ok j ∧ public_jwk demo_ec = Ok j' ∧
       thumbprint_input j ≠ thumbprint_input j' ∧
       sha256 (text (thumbprint_input j)) = sha256 (text (thumbprint_input j'))).
Proof.
  eexists. split; [vm_compute; reflexivity|].
  eapply (thumbprint_identifies demo_dpop demo_dpop); vm_compute; reflexivity.
Defined.

Lemma dpop_proof_spec_witness : ∃ p jwk ath,
  let htu := URL (scheme p) (netloc p) (path p) (params p) "" "" in
  urlparse "https://op/t?x=1" = Ok p ∧ nonempty (scheme p) = true ∧ nonempty (netloc p) = true ∧
  urlparse (urlunparse htu) = Ok htu ∧
  char_in "?" (urlunparse htu) = false ∧ char_in "#" (urlunparse htu) = false ∧
  public_jwk (public (dpop_private_key demo_dpop)) = Ok jwk ∧
  match given (Some "tok") with
  | Some t => ath = Some (b64url (sha256 (text t))) ∧ isascii t = true
  | None => ath = None
  end ∧
  demo_sign 2
    (proof_payload (demo_uuid 0) (upper "post") (urlunparse htu)
      (int_of_Q (demo_clock 1)) ath (given None))
    (Bytes (pem (dpop_private_key demo_dpop))) (dpop_algorithm demo_dpop) (proof_headers demo_dpop jwk) =
  Ok (default "" (match (create_dpop_proof demo_clock demo_uuid demo_sign demo_dpop "post"
        "https://op/t?x=1" (Some "tok") None (Net [] [] 0)).1 with Ok j => Some j | Err _ => None end)).
Proof.
  eapply (dpop_proof_spec demo_clock demo_uuid demo_sign demo_dpop "post" "https://op/t?x=1"
    (Some "tok") None (Net [] [] 0)). vm_compute. reflexivity.
Defined.
