(* ===== verification/Grants.v ===== *)
(** * Requests to the OAuth endpoints (the [prepare_*] functions of [core/token_client_logic.py],
    [core/token_exchange_logic.py], [core/par_logic.py], [core/introspection_logic.py],
    [core/revocation_logic.py] and [core/device_auth_logic.py])

    Nine functions turn a request object into a form, headers and optional HTTP Basic
    credentials.  They share one chain of client authentication, with two differences from
    function to function that the model keeps: which client secrets count as present, and
    whether the form carries the client identifier in any case. *)

From S2P Require Import Prelude PyStr PyValue Url Codec Models HttpRetry ClientAuth Dpop.
From Stdlib Require Import QArith.
From stdpp Require Import strings.
#[global] Close Scope Q_scope.
Open Scope string_scope.
Open Scope list_scope.
Open Scope nat_scope.
Open Scope py_scope.

(** ** Request objects *)

(** The fields every request class repeats: who the client is and how it authenticates. *)
Record Client : Type := ClientFields {
  client_id : string;
  client_secret : option string;
  private_key_jwt : option PrivateKeyJwt;
  mtls : option MtlsClientAuth;
}.

Record ClientCredentialsTokenRequest : Type := CCReq {
  cc_address : string; cc_client : Client; cc_scope : option string }.
Record AuthorizationCodeTokenRequest : Type := ACReq {
  ac_address : string; ac_client : Client; ac_code : string; ac_redirect_uri : string;
  ac_code_verifier : option string; ac_scope : option string; ac_dpop_key : option DPoPKey }.
Record RefreshTokenRequest : Type := RTReq {
  rt_address : string; rt_client : Client; rt_refresh_token : string; rt_scope : option string }.
Record TokenIntrospectionRequest : Type := TIReq {
  ti_address : string; ti_client : Client; ti_token : string; ti_hint : option string }.
Record TokenRevocationRequest : Type := TRReq {
  tr_address : string; tr_client : Client; tr_token : string; tr_hint : option string }.
Record PushedAuthorizationRequest : Type := PARReq {
  par_address : string; par_client : Client; par_redirect_uri : string; par_scope : string;
  par_response_type : string; par_state : option string; par_nonce : option string;
  par_code_challenge : option string; par_code_challenge_method : option string;
  par_dpop_key : option DPoPKey; par_response_mode : option string }.
Record DeviceAuthorizationRequest : Type := DAReq {
  da_address : string; da_client : Client; da_scope : string }.
Record DeviceTokenRequest : Type := DTReq {
  dt_address : string; dt_client : Client; dt_device_code : string }.
Record TokenExchangeRequest : Type := TEReq {
  te_address : string; te_client : Client; te_subject_token : string;
  te_subject_token_type : string; te_actor_token : option string;
  te_actor_token_type : option string; te_resource : option string; te_audience : option string;
  te_scope : option string; te_requested_token_type : option string }.

(** ** Forms *)

(** [if request.x is not None: params[name] = request.x], and [if request.x:]. *)
Definition field (name : string) (o : option string) : pydict :=
  match o with Some v => [(name, VStr v)] | None => [] end.
Definition field_if (name : string) (o : option string) : pydict := field name (given o).

Definition cc_form (r : ClientCredentialsTokenRequest) : pydict :=
  ("grant_type", VStr "client_credentials") :: field "scope" (cc_scope r).
Definition ac_form (r : AuthorizationCodeTokenRequest) : pydict :=
  [("grant_type", VStr "authorization_code"); ("code", VStr (ac_code r));
   ("redirect_uri", VStr (ac_redirect_uri r))] ++
  field "code_verifier" (ac_code_verifier r) ++ field "scope" (ac_scope r).
Definition rt_form (r : RefreshTokenRequest) : pydict :=
  [("grant_type", VStr "refresh_token"); ("refresh_token", VStr (rt_refresh_token r))] ++
  field "scope" (rt_scope r).
Definition ti_form (r : TokenIntrospectionRequest) : pydict :=
  ("token", VStr (ti_token r)) :: field "token_type_hint" (ti_hint r).
Definition tr_form (r : TokenRevocationRequest) : pydict :=
  ("token", VStr (tr_token r)) :: field "token_type_hint" (tr_hint r).
Definition par_form (r : PushedAuthorizationRequest) : pydict :=
  [("client_id", VStr (client_id (par_client r))); ("redirect_uri", VStr (par_redirect_uri r));
   ("scope", VStr (par_scope r)); ("response_type", VStr (par_response_type r))] ++
  field_if "state" (par_state r) ++ field_if "nonce" (par_nonce r) ++
  field_if "code_challenge" (par_code_challenge r) ++
  field_if "code_challenge_method" (par_code_challenge_method r) ++
  field_if "response_mode" (par_response_mode r).
Definition da_form (r : DeviceAuthorizationRequest) : pydict :=
  ("client_id", VStr (client_id (da_client r))) :: field_if "scope" (Some (da_scope r)).
Definition DEVICE_GRANT_TYPE : string := "urn:ietf:params:oauth:grant-type:device_code".
Definition dt_form (r : DeviceTokenRequest) : pydict :=
  [("grant_type", VStr DEVICE_GRANT_TYPE); ("device_code", VStr (dt_device_code r));
   ("client_id", VStr (client_id (dt_client r)))].
Definition TOKEN_EXCHANGE_GRANT_TYPE : string := "urn:ietf:params:oauth:grant-type:token-exchange".
Definition te_form (r : TokenExchangeRequest) : pydict :=
  [("grant_type", VStr TOKEN_EXCHANGE_GRANT_TYPE); ("subject_token", VStr (te_subject_token r));
   ("subject_token_type", VStr (te_subject_token_type r))] ++
  field "actor_token" (te_actor_token r) ++ field "actor_token_type" (te_actor_token_type r) ++
  field_if "resource" (te_resource r) ++ field_if "audience" (te_audience r) ++
  field_if "scope" (te_scope r) ++ field_if "requested_token_type" (te_requested_token_type r).

Definition FORM_HEADERS : pydict := [("Content-Type", VStr "application/x-www-form-urlencoded")].

(** ** Validation before anything is sent *)

Definition is_some {A} (o : option A) : bool := match o with Some _ => true | None => false end.
Definition bool_of (o : option string) : bool := match o with Some s => nonempty s | None => false end.

(** [_validate_request_params] of a token exchange. *)
Definition validate_exchange (r : TokenExchangeRequest) : outcome unit :=
  let empty_given o := match o with Some s => negb (nonempty s) | None => false end in
  raise_if (negb (nonempty (client_id (te_client r)))) (ValueErr "client_id must not be empty") ≫= λ _,
  raise_if (negb (nonempty (te_subject_token r))) (ValueErr "subject_token must not be empty") ≫= λ _,
  raise_if (negb (nonempty (te_subject_token_type r)))
    (ValueErr "subject_token_type must not be empty") ≫= λ _,
  raise_if (is_some (te_actor_token r) && negb (is_some (te_actor_token_type r)))
    (ValueErr ("actor_token_type is REQUIRED when actor_token is provided " +:+
               "(RFC 8693 Section 2.1)")) ≫= λ _,
  raise_if (is_some (te_actor_token_type r) && negb (is_some (te_actor_token r)))
    (ValueErr "actor_token_type has no meaning without actor_token (RFC 8693 Section 2.1)") ≫= λ _,
  raise_if (empty_given (te_actor_token r))
    (ValueErr "actor_token must not be empty when provided") ≫= λ _,
  raise_if (empty_given (te_actor_token_type r))
    (ValueErr "actor_token_type must not be empty when provided").

Definition validate_par (r : PushedAuthorizationRequest) : outcome unit :=
  raise_if (negb (eqb (bool_of (par_code_challenge r)) (bool_of (par_code_challenge_method r))))
    (ValueErr "code_challenge and code_challenge_method must both be set or both be absent").

(** ** Client authentication *)

(** [(data, headers, auth)]. *)
Abbreviation prepared := (pydict * pydict * option (string * string))%type.

(** When a client secret counts: [is not None], truthy, or not blank. *)
Definition any_secret (s : string) : bool := true.
Definition nonempty_secret (s : string) : bool := nonempty s.
Definition nonblank_secret (s : string) : bool := nonempty s && nonempty (strip s).

Section Prepare.
Context (wall_clock : nat → Q) (uuid4 : nat → string).
Context (encode : nat → pydict → blob → string → pydict → outcome string).

(** The chain at the end of every [prepare_*] function.  [else_params] is what its last branch
    does to the form: the client identifier is added, or the branch is absent because the form
    has it already. *)
Definition authenticate (usable : string → bool) (else_params : string → pydict → pydict)
    (address : string) (c : Client) (params headers : pydict) : stM net exn prepared :=
  match private_key_jwt c with
  | Some config =>
      params ← apply_private_key_jwt wall_clock uuid4 encode params config (client_id c) address;
      mret (params, headers, None)
  | None =>
      match mtls c with
      | Some _ => mret (apply_mtls_client_auth params (client_id c), headers, None)
      | None =>
          match client_secret c with
          | Some secret =>
              if usable secret then
                auth ← lift (basic_auth_credentials (client_id c) secret);
                mret (params, headers, Some auth)
              else mret (else_params (client_id c) params, headers, None)
          | None => mret (else_params (client_id c) params, headers, None)
          end
      end
  end.

Definition add_client_id (id : string) (params : pydict) : pydict := dict_set "client_id" (VStr id) params.
Definition no_change (id : string) (params : pydict) : pydict := params.

(** [headers["DPoP"] = create_dpop_proof(request.dpop_key, "POST", address, nonce=...)]. *)
Definition form_headers (key : option DPoPKey) (address : string) (nonce : option string)
    : stM net exn pydict :=
  match key with
  | Some k =>
      proof ← create_dpop_proof wall_clock uuid4 encode k "POST" address None nonce;
      mret (FORM_HEADERS ++ [("DPoP", VStr proof)])
  | None => mret FORM_HEADERS
  end.

Definition prepare_token_request_data (r : ClientCredentialsTokenRequest) : stM net exn prepared :=
  authenticate any_secret add_client_id (cc_address r) (cc_client r) (cc_form r) FORM_HEADERS.

Definition prepare_auth_code_token_request_data (r : AuthorizationCodeTokenRequest)
    (dpop_nonce : option string) : stM net exn prepared :=
  headers ← form_headers (ac_dpop_key r) (ac_address r) dpop_nonce;
  authenticate any_secret add_client_id (ac_address r) (ac_client r) (ac_form r) headers.

Definition prepare_refresh_token_request_data (r : RefreshTokenRequest) : stM net exn prepared :=
  authenticate any_secret add_client_id (rt_address r) (rt_client r) (rt_form r) FORM_HEADERS.

Definition prepare_introspection_request_data (r : TokenIntrospectionRequest)
    : stM net exn prepared :=
  authenticate any_secret add_client_id (ti_address r) (ti_client r) (ti_form r) FORM_HEADERS.

Definition prepare_revocation_request_data (r : TokenRevocationRequest) : stM net exn prepared :=
  authenticate nonblank_secret add_client_id (tr_address r) (tr_client r) (tr_form r) FORM_HEADERS.

Definition prepare_par_request_data (r : PushedAuthorizationRequest) (dpop_nonce : option string)
    : stM net exn prepared :=
  _ ← lift (validate_par r);
  headers ← form_headers (par_dpop_key r) (par_address r) dpop_nonce;
  authenticate nonempty_secret no_change (par_address r) (par_client r) (par_form r) headers.

Definition prepare_device_auth_request_data (r : DeviceAuthorizationRequest)
    : stM net exn prepared :=
  authenticate nonempty_secret no_change (da_address r) (da_client r) (da_form r) FORM_HEADERS.

Definition prepare_device_token_request_data (r : DeviceTokenRequest) : stM net exn prepared :=
  authenticate nonempty_secret no_change (dt_address r) (dt_client r) (dt_form r) FORM_HEADERS.

Definition prepare_token_exchange_request_data (r : TokenExchangeRequest) : stM net exn prepared :=
  _ ← lift (validate_exchange r);
  authenticate nonempty_secret add_client_id (te_address r) (te_client r) (te_form r) FORM_HEADERS.

(** ** The nine requests as one type *)

Inductive oauth_request : Type :=
  | Cc (r : ClientCredentialsTokenRequest)
  | Ac (r : AuthorizationCodeTokenRequest)
  | Rt (r : RefreshTokenRequest)
  | Ti (r : TokenIntrospectionRequest)
  | Tr (r : TokenRevocationRequest)
  | Par (r : PushedAuthorizationRequest)
  | Da (r : DeviceAuthorizationRequest)
  | Dt (r : DeviceTokenRequest)
  | Te (r : TokenExchangeRequest).

Definition prepare (q : oauth_request) (nonce : option string) : stM net exn prepared :=
  match q with
  | Cc r => prepare_token_request_data r
  | Ac r => prepare_auth_code_token_request_data r nonce
  | Rt r => prepare_refresh_token_request_data r
  | Ti r => prepare_introspection_request_data r
  | Tr r => prepare_revocation_request_data r
  | Par r => prepare_par_request_data r nonce
  | Da r => prepare_device_auth_request_data r
  | Dt r => prepare_device_token_request_data r
  | Te r => prepare_token_exchange_request_data r
  end.
End Prepare.

Definition address (q : oauth_request) : string :=
  match q with
  | Cc r => cc_address r | Ac r => ac_address r | Rt r => rt_address r | Ti r => ti_address r
  | Tr r => tr_address r | Par r => par_address r | Da r => da_address r | Dt r => dt_address r
  | Te r => te_address r
  end.
Definition client (q : oauth_request) : Client :=
  match q with
  | Cc r => cc_client r | Ac r => ac_client r | Rt r => rt_client r | Ti r => ti_client r
  | Tr r => tr_client r | Par r => par_client r | Da r => da_client r | Dt r => dt_client r
  | Te r => te_client r
  end.
Definition dpop_key (q : oauth_request) : option DPoPKey :=
  match q with Ac r => ac_dpop_key r | Par r => par_dpop_key r | _ => None end.
Definition form (q : oauth_request) : pydict :=
  match q with
  | Cc r => cc_form r | Ac r => ac_form r | Rt r => rt_form r | Ti r => ti_form r
  | Tr r => tr_form r | Par r => par_form r | Da r => da_form r | Dt r => dt_form r
  | Te r => te_form r
  end.
Definition usable_secret (q : oauth_request) : string → bool :=
  match q with
  | Cc _ | Ac _ | Rt _ | Ti _ => any_secret
  | Tr _ => nonblank_secret
  | Par _ | Da _ | Dt _ | Te _ => nonempty_secret
  end.

(** ** Tests on concrete inputs *)

Definition demo_client : Client := ClientFields "app" (Some "s e") None None.
Definition public_client : Client := ClientFields "app" None None None.
Definition demo_prepare : oauth_request → result exn prepared := λ q,
  (prepare demo_clock demo_uuid demo_sign q None (Net [] [] 0)).1.

Example prepare_1 : demo_prepare (Cc (CCReq "https://op/t" demo_client (Some "a b"))) =
  Ok ([("grant_type", VStr "client_credentials"); ("scope", VStr "a b")], FORM_HEADERS,
      Some ("app", "s%20e")).
Proof. vm_compute. reflexivity. Qed.
Example prepare_2 : demo_prepare (Tr (TRReq "https://op/r" (ClientFields "app" (Some " ") None None) "t" None)) =
  Ok ([("token", VStr "t"); ("client_id", VStr "app")], FORM_HEADERS, None).
Proof. vm_compute. reflexivity. Qed.
Example prepare_3 :
  (λ p, (dget "client_assertion_type" p.1.1, p.2)) <$>
  demo_prepare (Dt (DTReq "https://op/t" (ClientFields "app" (Some "s") (Some demo_key) None) "dc")) =
  Ok (VStr JWT_BEARER, None).
Proof. vm_compute. reflexivity. Qed.
Example prepare_4 :
  is_ok (demo_prepare (Te (TEReq "https://op/t" public_client "st" "stt" (Some "at") None None None None None)))
  = false.
Proof. vm_compute. reflexivity. Qed.

(** ** What a prepared request promises *)

(** How the client of a request authenticates: the first that is configured of a key, a
    certificate and a secret the endpoint counts as present. *)
Inductive method : Type :=
  | PrivateKeyJwt_ (config : PrivateKeyJwt)
  | TlsClientAuth (config : MtlsClientAuth)
  | ClientSecretBasic (secret : string)
  | PublicClient.

Definition method_of (q : oauth_request) : method :=
  let c := client q in
  match private_key_jwt c, mtls c, client_secret c with
  | Some k, _, _ => PrivateKeyJwt_ k
  | None, Some m, _ => TlsClientAuth m
  | None, None, Some s => if usable_secret q s then ClientSecretBasic s else PublicClient
  | None, None, None => PublicClient
  end.

Definition assertion_keys : list string := ["client_assertion"; "client_assertion_type"; "client_secret"].

(** What the form and the credentials carry for a method, given what signs an assertion. *)
Definition carries (signed : pydict → blob → string → pydict → string → Prop) (q : oauth_request)
    (m : method) (params : pydict) (auth : option (string * string)) : Prop :=
  let id := client_id (client q) in
  match m with
  | PrivateKeyJwt_ k =>
      let aud := default (address q) (str_or (audience k) (Some (address q))) in
      auth = None ∧ dget "client_id" params = VStr id ∧
      dget "client_assertion_type" params = VStr JWT_BEARER ∧ has_key "client_secret" params = false ∧
      ∃ jwt jti issued_at, dget "client_assertion" params = VStr jwt ∧
        assertion_ok id aud (private_key k) (algorithm k) (pkj_kid k) (lifetime k) = true ∧
        signed (assertion_claims id aud jti issued_at (lifetime k)) (private_key k) (algorithm k)
          (kid_header (pkj_kid k)) jwt
  | TlsClientAuth _ | PublicClient =>
      auth = None ∧ dget "client_id" params = VStr id ∧
      ∀ k, k ∈ assertion_keys → has_key k params = false
  | ClientSecretBasic secret =>
      (∃ up, auth = Some up ∧ basic_auth_credentials id secret = Ok up) ∧
      ∀ k, k ∈ assertion_keys → has_key k params = false
  end.

(** The fields the RFCs have for each request beside the client's, by the name they have in the
    form, with the value the request object gives them, [None] where it gives none. *)
Definition request_fields (q : oauth_request) : list (string * option string) :=
  let filled o := match o with Some (String c s) => Some (String c s) | _ => None end in
  match q with
  | Cc (CCReq _ _ scope) => [("grant_type", Some "client_credentials"); ("scope", scope)]
  | Ac (ACReq _ _ code redirect_uri code_verifier scope _) =>
      [("grant_type", Some "authorization_code"); ("code", Some code);
       ("redirect_uri", Some redirect_uri); ("code_verifier", code_verifier); ("scope", scope)]
  | Rt (RTReq _ _ refresh_token scope) =>
      [("grant_type", Some "refresh_token"); ("refresh_token", Some refresh_token); ("scope", scope)]
  | Ti (TIReq _ _ token token_type_hint) => [("token", Some token); ("token_type_hint", token_type_hint)]
  | Tr (TRReq _ _ token token_type_hint) => [("token", Some token); ("token_type_hint", token_type_hint)]
  | Par (PARReq _ _ redirect_uri scope response_type state nonce challenge challenge_method _ mode) =>
      [("redirect_uri", Some redirect_uri); ("scope", Some scope); ("response_type", Some response_type);
       ("state", filled state); ("nonce", filled nonce); ("code_challenge", filled challenge);
       ("code_challenge_method", filled challenge_method); ("response_mode", filled mode)]
  | Da (DAReq _ _ scope) => [("scope", filled (Some scope))]
  | Dt (DTReq _ _ device_code) =>
      [("grant_type", Some "urn:ietf:params:oauth:grant-type:device_code"); ("device_code", Some device_code)]
  | Te (TEReq _ _ subject subject_type actor actor_type resource audience scope requested) =>
      [("grant_type", Some "urn:ietf:params:oauth:grant-type:token-exchange");
       ("subject_token", Some subject); ("subject_token_type", Some subject_type);
       ("actor_token", actor); ("actor_token_type", actor_type); ("resource", filled resource);
       ("audience", filled audience); ("scope", filled scope); ("requested_token_type", filled requested)]
  end.

(** ** Lemmas *)

Lemma has_key_set k k' v d : has_key k (dict_set k' v d) = (k ≟ k') || has_key k d.
Proof.
  unfold has_key. destruct (decide (k = k')) as [->|Hne].
  - rewrite dict_get_set_eq. by bd_refl.
  - rewrite dict_get_set_ne, bool_decide_eq_false_2 by done. done.
Qed.
Lemma dget_set_eq k v d : dget k (dict_set k v d) = v.
Proof. unfold dget. by rewrite dict_get_set_eq. Qed.
Lemma dget_set_ne k k' v d : k ≠ k' → dget k (dict_set k' v d) = dget k d.
Proof. intros. unfold dget. by rewrite dict_get_set_ne. Qed.

Ltac dget_sets := repeat (rewrite dget_set_eq || rewrite dget_set_ne by done).

(** Deciding which keys a form has. *)
Lemma has_key_app k d e : has_key k (d ++ e) = has_key k d || has_key k e.
Proof.
  unfold has_key. induction d as [|[k' v] d IH]; [done|]. cbn [app dict_get].
  by destruct (k ≟ k').
Qed.
Lemma has_key_cons k k' v d : has_key k ((k', v) :: d) = (k ≟ k') || has_key k d.
Proof. unfold has_key. cbn [dict_get]. by destruct (k ≟ k'). Qed.
Lemma has_key_field k name o : has_key k (field name o) = (k ≟ name) && is_some o.
Proof. unfold has_key. destruct o; cbn; [destruct (k ≟ name)|destruct (k ≟ name)]; done. Qed.

Create Rewrite HintDb keys.
#[export] Hint Rewrite has_key_set has_key_app has_key_cons has_key_field : keys.

Lemma has_key_nil k : has_key k [] = false. Proof. done. Qed.
#[export] Hint Rewrite has_key_nil : keys.

(** A form never holds a secret or an assertion; where the public branch adds nothing it has the
    client identifier already. *)
Lemma form_keys q k : k ∈ assertion_keys → has_key k (form q) = false.
Proof.
  intros Hk. unfold assertion_keys in Hk.
  destruct q; cbn [form];
    unfold cc_form, ac_form, rt_form, ti_form, tr_form, par_form, da_form, dt_form, te_form, field_if;
    autorewrite with keys;
    repeat (apply elem_of_cons in Hk as [->|Hk]; [reflexivity|]); by apply not_elem_of_nil in Hk.
Qed.

Definition form_has_id (q : oauth_request) : bool :=
  match q with Par _ | Da _ | Dt _ => true | _ => false end.
Lemma form_id q : form_has_id q = true → dget "client_id" (form q) = VStr (client_id (client q)).
Proof. by destruct q. Qed.

Section Authenticate.
Context (wall_clock : nat → Q) (uuid4 : nat → string).
Context (encode : nat → pydict → blob → string → pydict → outcome string).

(** What the chain returns, by method. *)
Definition outcome_of_chain (u : string → bool) (e : string → pydict → pydict) (addr : string)
    (c : Client) (f params : pydict) (auth : option (string * string)) (s s' : net) : Prop :=
  match private_key_jwt c, mtls c, client_secret c with
  | Some k, _, _ => auth = None ∧ ∃ jwt, params = dict_set "client_assertion" (VStr jwt)
      (dict_set "client_assertion_type" (VStr JWT_BEARER)
        (dict_set "client_id" (VStr (client_id c)) f)) ∧
      build_client_assertion wall_clock uuid4 encode (client_id c)
        (default addr (str_or (audience k) (Some addr))) (private_key k) (algorithm k) (pkj_kid k)
        (lifetime k) s = (Ok jwt, s')
  | None, Some _, _ => auth = None ∧ params = dict_set "client_id" (VStr (client_id c)) f ∧ s' = s
  | None, None, Some sec =>
      s' = s ∧
      if u sec then params = f ∧ ∃ up, auth = Some up ∧ basic_auth_credentials (client_id c) sec = Ok up
      else params = e (client_id c) f ∧ auth = None
  | None, None, None => s' = s ∧ params = e (client_id c) f ∧ auth = None
  end.

Lemma authenticate_ok u e addr c f h s params headers auth s' :
  authenticate wall_clock uuid4 encode u e addr c f h s = (Ok (params, headers, auth), s') →
  headers = h ∧ outcome_of_chain u e addr c f params auth s s'.
Proof.
  unfold authenticate, outcome_of_chain, apply_private_key_jwt, apply_mtls_client_auth, mbind,
    stM_bind, lift.
  destruct (private_key_jwt c) as [k|]; [|destruct (mtls c);
    [|destruct (client_secret c) as [sec|]; [destruct (u sec)|]]].
  - destruct (build_client_assertion _ _ _ _ _ _ _ _ _ _) as [[jwt|] s1]; [|done].
    intros H. inversion H; subst. split_and!; [done..|]. eauto.
  - intros H. by inversion H.
  - destruct (basic_auth_credentials _ _) as [up|]; [|done]. intros H. inversion H; subst.
    split_and!; [done..|]. eauto.
  - intros H. by inversion H.
  - intros H. by inversion H.
Qed.

(** Every function ends in the same chain, on its form and its headers. *)
Lemma prepare_chain q nonce s params headers auth s' :
  prepare wall_clock uuid4 encode q nonce s = (Ok (params, headers, auth), s') →
  ∃ s1, form_headers wall_clock uuid4 encode (dpop_key q) (address q) nonce s = (Ok headers, s1) ∧
    outcome_of_chain (usable_secret q) (if form_has_id q then no_change else add_client_id)
      (address q) (client q) (form q) params auth s1 s'.
Proof.
  assert (Hplain : ∀ r u e a c f, (authenticate wall_clock uuid4 encode u e a c f FORM_HEADERS) s = r →
    r = (Ok (params, headers, auth), s') →
    ∃ s1, (mret FORM_HEADERS : stM net exn pydict) s = (Ok headers, s1) ∧ outcome_of_chain u e a c f params auth s1 s').
  { intros r u e a c f <- [-> H]%authenticate_ok. by exists s. }
  assert (Hseq : ∀ (g : stM net exn pydict) u e a c f,
    (h ← g; authenticate wall_clock uuid4 encode u e a c f h) s = (Ok (params, headers, auth), s') →
    ∃ s1, g s = (Ok headers, s1) ∧ outcome_of_chain u e a c f params auth s1 s').
  { intros g u e a c f. unfold mbind, stM_bind at 1. destruct (g s) as [[h|] s1]; [|done].
    intros [-> H]%authenticate_ok. by exists s1. }
  destruct q; cbn [prepare usable_secret form_has_id address client form dpop_key]; intros H;
    try (by eapply Hplain; [reflexivity|exact H]).
  - by apply Hseq in H.
  - unfold prepare_par_request_data, mbind, stM_bind at 1, lift in H.
    destruct (validate_par r); [|done]. by apply Hseq in H.
  - unfold prepare_token_exchange_request_data, mbind, stM_bind at 1, lift in H.
    destruct (validate_exchange r); [|done]. by eapply Hplain; [reflexivity|exact H].
Qed.
End Authenticate.

(** *** The fields *)

Lemma dict_get_field k name o :
  dict_get k (field name o) = if k ≟ name then VStr <$> o else None.
Proof. destruct o; cbn; by destruct (k ≟ name). Qed.
Lemma given_filled o : given o = match o with Some (String c s) => Some (String c s) | _ => None end.
Proof. by destruct o as [[|c s]|]. Qed.

(** The form of each request holds its fields, and beside them at most the client identifier. *)
Lemma form_lookup q k :
  dict_get k (form q) = match find_map (λ ko, if k ≟ ko.1 then Some ko.2 else None) (request_fields q) with
    | Some o => VStr <$> o
    | None => if form_has_id q && (k ≟ "client_id") then Some (VStr (client_id (client q))) else None
    end.
Proof.
  destruct q as [[]|[]|[]|[]|[]|[]|[]|[]|[]]; cbn [form form_has_id client];
    unfold cc_form, ac_form, rt_form, ti_form, tr_form, par_form, da_form, dt_form, te_form, field_if,
      request_fields;
    cbn -[find_map dict_get field app]; rewrite ?given_filled;
    repeat (rewrite dict_get_app || rewrite dict_get_field || cbn [dict_get find_map fst snd app]);
    repeat (case_bool_decide; subst; try done); repeat case_match; done.
Qed.

(** Client authentication sets its own keys only. *)
Definition credential_keys : list string := ["client_id"; "client_assertion"; "client_assertion_type"].

Lemma chain_lookup wall_clock uuid4 encode u (b : bool) addr c f params auth s s' k :
  outcome_of_chain wall_clock uuid4 encode u (if b then no_change else add_client_id) addr c f params auth s s' →
  k ∉ credential_keys → dict_get k params = dict_get k f.
Proof.
  intros H Hk.
  assert (Hset : ∀ key w p, key ∈ credential_keys → dict_get k (dict_set key w p) = dict_get k p).
  { intros key w p Hkey. apply dict_get_set_ne. by intros ->. }
  assert (Helse : ∀ id, dict_get k ((if b then no_change else add_client_id) id f) = dict_get k f).
  { intros id. destruct b; [done|]. apply Hset. by left. }
  unfold outcome_of_chain in H. destruct (private_key_jwt c).
  { destruct H as (_ & jwt & -> & _). by rewrite !Hset by (unfold credential_keys; set_solver). }
  destruct (mtls c); [destruct H as (_ & -> & _); apply Hset; by left|].
  destruct (client_secret c) as [sec|]; [|by destruct H as (_ & -> & _)].
  destruct H as [_ H]. destruct (u sec); [by destruct H as [-> _]|by destruct H as [-> _]].
Qed.

(** The client identifier stays in a form that has it. *)
Lemma chain_client_id wall_clock uuid4 encode q params auth s s' :
  outcome_of_chain wall_clock uuid4 encode (usable_secret q) (if form_has_id q then no_change else add_client_id)
    (address q) (client q) (form q) params auth s s' →
  form_has_id q = true → dget "client_id" params = VStr (client_id (client q)).
Proof.
  intros H Hf. pose proof (form_id q Hf) as Hid. rewrite Hf in H. unfold outcome_of_chain, no_change in H.
  destruct (private_key_jwt (client q)); [destruct H as (_ & jwt & -> & _); by dget_sets|].
  destruct (mtls (client q)); [destruct H as (_ & -> & _); by dget_sets|].
  destruct (client_secret (client q)) as [sec|]; [|by destruct H as (_ & -> & _)].
  destruct H as [_ H]. destruct (usable_secret q sec); by destruct H as [-> _].
Qed.

(** Each field is listed once, under a name that is not the client's. *)
Lemma field_found q k o :
  (k, o) ∈ request_fields q →
  find_map (λ ko, if k ≟ ko.1 then Some ko.2 else None) (request_fields q) = Some o.
Proof.
  destruct q as [[]|[]|[]|[]|[]|[]|[]|[]|[]]; unfold request_fields; intros H;
    repeat (apply elem_of_cons in H as [[= -> ->]|H]; [reflexivity|]); by apply not_elem_of_nil in H.
Qed.
Lemma fields_not_credentials q k : k ∈ (request_fields q).*1 → k ∉ credential_keys.
Proof.
  destruct q as [[]|[]|[]|[]|[]|[]|[]|[]|[]]; unfold request_fields; cbn [fmap list_fmap fst]; intros H;
    repeat (apply elem_of_cons in H as [->|H]; [compute_done|]); by apply not_elem_of_nil in H.
Qed.

(** The credentials, by the chain. *)
Lemma chain_carries wall_clock uuid4 encode q params auth s s' :
  outcome_of_chain wall_clock uuid4 encode (usable_secret q) (if form_has_id q then no_change else add_client_id)
    (address q) (client q) (form q) params auth s s' →
  carries (λ claims key alg hdrs jwt, ∃ n, encode n claims key alg hdrs = Ok jwt) q (method_of q) params auth.
Proof.
  intros Hchain. assert (Hplain : "client_id" ∉ assertion_keys) by compute_done.
  unfold outcome_of_chain in Hchain. unfold carries, method_of.
  destruct (private_key_jwt (client q)) as [k|].
  { destruct Hchain as (-> & jwt & -> & (Hg & n & jti & ia & Hsig)%build_client_assertion_ok).
    split_and!; [done|by dget_sets..| |].
    - autorewrite with keys. rewrite form_keys by (do 2 right; by left). reflexivity.
    - exists jwt, jti, ia. split_and!; [by dget_sets|done|]. by exists n. }
  destruct (mtls (client q)).
  { destruct Hchain as (-> & -> & _). split_and!; [done|by rewrite dget_set_eq|].
    intros k Hk. autorewrite with keys. rewrite form_keys by done.
    rewrite bool_decide_eq_false_2; [done|]. by intros ->. }
  assert (Hpublic : params = (if form_has_id q then no_change else add_client_id)
      (client_id (client q)) (form q) →
    dget "client_id" params = VStr (client_id (client q)) ∧
    ∀ k, k ∈ assertion_keys → has_key k params = false).
  { intros ->. destruct (form_has_id q) eqn:Ef; unfold no_change, add_client_id.
    - split; [by apply form_id|]. intros k Hk. by apply form_keys.
    - rewrite dget_set_eq. split; [done|]. intros k Hk. autorewrite with keys.
      rewrite form_keys by done. rewrite bool_decide_eq_false_2; [done|].
      by intros ->. }
  destruct (client_secret (client q)) as [sec|]; [|by destruct Hchain as (_ & Hp & ->); split; [|apply Hpublic]].
  destruct Hchain as [_ Hchain]. destruct (usable_secret q sec).
  + destruct Hchain as (-> & up & -> & Hup). split; [by exists up|]. intros k Hk. by apply form_keys.
  + destruct Hchain as [Hp ->]. split; [done|by apply Hpublic].
Qed.

(** ** Theorems *)

(** C32: one way to authenticate per request, chosen by a fixed precedence.  Whatever of a key, a
    certificate and a secret a request configures, the prepared form and credentials carry
    exactly the first: a signed assertion for this client and audience in the form; the client
    identifier alone, for a certificate at the TLS layer; HTTP Basic credentials and no
    assertion; or the client identifier alone, for a public client.  The client secret is never
    in the form, no [Authorization] header is set, and a DPoP proof is attached exactly when the
    request has a key.  The form holds each field the RFCs have for the request with the value the
    request object gives it, is without the ones it gives no value, and holds nothing else but
    the client's own keys; the client identifier is always in the forms of a pushed request and
    of the two device requests. *)
Theorem client_authentication wall_clock uuid4 encode q nonce s params headers auth s'
    (Hrun : prepare wall_clock uuid4 encode q nonce s = (Ok (params, headers, auth), s')) :
  carries (λ claims key alg hdrs jwt, ∃ n, encode n claims key alg hdrs = Ok jwt)
    q (method_of q) params auth ∧
  (∀ k o, (k, o) ∈ request_fields q → dict_get k params = VStr <$> o) ∧
  (∀ k, has_key k params = true →
     k ∈ (request_fields q).*1 ∨ k ∈ ["client_id"; "client_assertion"; "client_assertion_type"]) ∧
  match q with Par _ | Da _ | Dt _ => dget "client_id" params = VStr (client_id (client q)) | _ => True end ∧
  has_key "Authorization" headers = false ∧ has_key "DPoP" headers = is_some (dpop_key q).
Proof.
  apply prepare_chain in Hrun as (s1 & Hhead & Hchain).
  assert (Hheaders : has_key "Authorization" headers = false ∧
                     has_key "DPoP" headers = is_some (dpop_key q)).
  { unfold form_headers, mbind, stM_bind in Hhead. destruct (dpop_key q) as [key|].
    - destruct (create_dpop_proof _ _ _ _ _ _ _ _ _) as [[proof|] s2]; [|done]. by injection Hhead as <- _.
    - by injection Hhead as <- _. }
  pose proof (λ k, chain_lookup _ _ _ _ _ _ _ _ _ _ _ _ k Hchain) as Hkept.
  split_and!; [by eapply chain_carries| | | |apply Hheaders..].
  - intros k o Hk. rewrite Hkept by (apply (fields_not_credentials q), list_elem_of_fmap; by exists (k, o)).
    rewrite form_lookup. by rewrite (field_found q k o Hk).
  - intros k Hk. destruct (decide (k ∈ credential_keys)) as [|Hno]; [by right|left].
    unfold has_key in Hk. rewrite Hkept, form_lookup in Hk by done.
    destruct (find_map _ _) as [o|] eqn:E.
    + apply find_map_some in E as ([j o'] & Hin & E). cbn [fst snd] in E. case_bool_decide; [|done]. subst j.
      apply list_elem_of_fmap. by exists (k, o').
    + destruct (form_has_id q && (k ≟ "client_id")) eqn:Eid; [|done]. apply andb_true_iff in Eid as [_ Eid].
      apply bool_decide_eq_true in Eid as ->. contradict Hno. by left.
  - pose proof (chain_client_id _ _ _ _ _ _ _ _ Hchain). by destruct q; auto.
Qed.

(** ** Witnesses *)

Definition demo_par : oauth_request :=
  Par (PARReq "https://op/par" (ClientFields "app" (Some "s") (Some demo_key) None) "https://rp/cb"
         "openid" "code" None None (Some "c") (Some "S256") (Some demo_dpop) None).

Lemma demo_par_challenge : ("code_challenge", Some "c") ∈ request_fields demo_par.
Proof. unfold demo_par, request_fields. set_solver. Qed.

Lemma client_authentication_witness : ∃ params headers auth s',
  prepare demo_clock demo_uuid demo_sign demo_par None (Net [] [] 0) = (Ok (params, headers, auth), s') ∧
  carries (λ claims key alg hdrs jwt, ∃ n, demo_sign n claims key alg hdrs = Ok jwt)
    demo_par (PrivateKeyJwt_ demo_key) params auth ∧
  dict_get "code_challenge" params = Some (VStr "c") ∧
  has_key "Authorization" headers = false.
Proof.
  eexists _, _, _, _. split; [vm_compute; reflexivity|].
  edestruct (client_authentication demo_clock demo_uuid demo_sign demo_par None (Net [] [] 0))
    as (H1 & Hf & _ & _ & H2 & _); [vm_compute; reflexivity|].
  split; [exact H1|]. split; [exact (Hf "code_challenge" _ demo_par_challenge)|exact H2].
Defined.
