(* ===== verification/Replies.v ===== *)
(** * Replies of the OAuth endpoints (the [parse_*] functions of [core/response_processors.py], the
    [process_*] functions of the logic modules, and [core/error_handlers.py])

    What each endpoint's HTTP reply becomes: a successful response with its data, or a failed one
    with an error.  A body that is not what the function expects may also raise, which the client
    functions turn into a failed response. *)

From S2P Require Import Prelude PyStr PyValue Url Codec Json Models HttpRetry Discovery Jwks Responses ClientAuth Dpop Grants.
From Stdlib Require Import QArith Ascii.
From stdpp Require Import strings.
#[global] Close Scope Q_scope.
Open Scope string_scope.
Open Scope list_scope.
Open Scope nat_scope.
Open Scope py_scope.

(** ** Reading a body *)

(** [s[:n]]. *)
Definition str_take (n : nat) (s : string) : string := String.substring 0 n s.

(** [_coerce_int]: a JSON number as an integer, a float towards zero; not a boolean, and not an
    infinity or a not-a-number, whose conversion raises. *)
Definition coerce_int (v : pyval) : option Z :=
  match v with
  | VInt z => Some z
  | VFloat (FFin q) => Some (int_of_Q q)
  | _ => None
  end.
Definition opt_int (o : option Z) : pyval := match o with Some z => VInt z | None => VNone end.

(** [what failed with status code: N. Response Content: ...]. *)
Definition status_text (what : string) (r : HttpResponse) : string :=
  what +:+ " failed with status code: " +:+ str_of_int (resp_status r).
Definition content_failure (c : response_class) (what : string) (r : HttpResponse) : BaseResponse :=
  failure c (status_text what r +:+ ". Response Content: " +:+ bytes_repr (resp_content r)).

(** ** Errors become responses ([core/error_handlers.py]) *)

Definition handle_error (c : response_class) (what : string) (e : exn) : BaseResponse :=
  if isinstance e HttpxRequestError then failure c ("Network error during " +:+ what +:+ ": " +:+ message e)
  else failure c ("Unexpected error during " +:+ what +:+ ": " +:+ message e).

Definition handle_token_error := handle_error ClientCredentialsTokenResponse "token request".
Definition handle_auth_code_token_error :=
  handle_error AuthorizationCodeTokenResponse "authorization code token exchange".
Definition handle_refresh_token_error := handle_error RefreshTokenResponse "token refresh".
Definition handle_introspection_error := handle_error TokenIntrospectionResponse "token introspection".
Definition handle_revocation_error := handle_error TokenRevocationResponse "token revocation".
Definition handle_par_error := handle_error PushedAuthorizationResponse "PAR".
Definition handle_registration_error := handle_error ClientRegistrationResponse "client registration".
Definition handle_client_delete_error := handle_error ClientDeleteResponse "client delete".
Definition handle_userinfo_error := handle_error UserInfoResponse "UserInfo request".
Definition handle_device_auth_error := handle_error DeviceAuthorizationResponse "device authorization".
Definition handle_device_token_error := handle_error DeviceTokenResponse "device token poll".
Definition handle_token_exchange_error (e : exn) : BaseResponse :=
  if isinstance e HttpxRequestError then handle_error TokenExchangeResponse "token exchange" e
  else if isinstance e BValueError then
    failure TokenExchangeResponse ("Validation error during token exchange: " +:+ message e)
  else handle_error TokenExchangeResponse "token exchange" e.

(** ** Token endpoint *)

Definition parse_token_body (c : response_class) (what : string) (r : HttpResponse)
    : outcome BaseResponse :=
  if is_success r then
    token ← json_of r;
    Ok (success c [("token", token)])
  else Ok (content_failure c what r).
Definition parse_token_response :=
  parse_token_body ClientCredentialsTokenResponse "Token generation request".
Definition parse_auth_code_token_response :=
  parse_token_body AuthorizationCodeTokenResponse "Authorization code token exchange".
Definition parse_refresh_token_response := parse_token_body RefreshTokenResponse "Token refresh".

(** [log_token_success] reads two members of the token, which raises on a value that has no
    [get]. *)
Definition log_token_success (t : BaseResponse) : outcome unit :=
  if is_successful t && truthy (raw_attr t "token") then
    match raw_attr t "token" with VDict _ => Ok () | v => Err (AttributeError v "get") end
  else Ok ().

(** [try: ... except Exception as e: return handle(e)]. *)
Definition or_handle (handle : exn → BaseResponse) (m : outcome BaseResponse) : BaseResponse :=
  match m with Ok r => r | Err e => handle e end.

Definition process_token_response (r : HttpResponse) : BaseResponse :=
  or_handle handle_token_error
    (t ← parse_token_response r; _ ← log_token_success t; Ok t).
Definition process_auth_code_token_response (r : HttpResponse) : BaseResponse :=
  or_handle handle_auth_code_token_error (parse_auth_code_token_response r).
Definition process_refresh_token_response (r : HttpResponse) : BaseResponse :=
  or_handle handle_refresh_token_error (parse_refresh_token_response r).

(** ** Introspection and revocation *)

Definition parse_introspection_response (r : HttpResponse) : outcome BaseResponse :=
  if is_success r then
    data ← json_of r;
    match data with
    | VDict _ => Ok (success TokenIntrospectionResponse [("claims", data)])
    | _ => Ok (failure TokenIntrospectionResponse
                 ("Introspection response is not a JSON object: " +:+ type_name data))
    end
  else Ok (content_failure TokenIntrospectionResponse "Token introspection" r).
Definition process_introspection_response (r : HttpResponse) : BaseResponse :=
  or_handle handle_introspection_error (parse_introspection_response r).

(** [v.get(name)]. *)
Definition py_get (v : pyval) (name : string) : outcome pyval :=
  match v with VDict d => Ok (dget name d) | _ => Err (AttributeError v "get") end.

(** A message listing what is missing. *)
Definition missing_failure (c : response_class) (what : string) (missing : list string) : BaseResponse :=
  failure c (what +:+ ": " +:+ str_join ", " missing).
Definition when (b : bool) (name : string) : list string := if b then [name] else [].

Section Text.
(** [response.text]: the body decoded with the character set httpx settles on. *)
Context (text_of : HttpResponse → string).

Definition process_revocation_response (r : HttpResponse) : BaseResponse :=
  if is_success r then success TokenRevocationResponse []
  else failure TokenRevocationResponse
    (status_text "Token revocation" r +:+ ". Response Content: " +:+
     (if nonempty (str_take 200 (text_of r)) then str_take 200 (text_of r) else "(empty)")).

(** ** Pushed authorization *)

(** [isinstance(v, int) and v > 0]: a boolean is an [int]. *)
Definition positive_int (v : pyval) : bool :=
  match v with VInt z => (0 <? z)%Z | VBool b => b | _ => false end.

Definition process_par_response (r : HttpResponse) : outcome BaseResponse :=
  if is_success r then
    match json_of r with
    | Err _ => Ok (failure PushedAuthorizationResponse "PAR response has invalid JSON body")
    | Ok data =>
        request_uri ← py_get data "request_uri";
        expires_in ← py_get data "expires_in";
        let missing := when (negb (truthy request_uri)) "request_uri" ++
                       when (negb (positive_int expires_in)) "expires_in" in
        match missing with
        | [] => Ok (success PushedAuthorizationResponse
                      [("request_uri", request_uri); ("expires_in", expires_in)])
        | _ => Ok (missing_failure PushedAuthorizationResponse
                     "PAR response missing required fields per RFC 9126 Section 2.2" missing)
        end
    end
  else Ok (failure PushedAuthorizationResponse
    (status_text "Pushed authorization request" r +:+ ". Response Content: " +:+ text_of r)).
End Text.

(** ** Device authorization *)

Definition process_device_auth_response (r : HttpResponse) : outcome BaseResponse :=
  if is_success r then
    match json_of r with
    | Err _ => Ok (failure DeviceAuthorizationResponse "Device authorization response has invalid JSON body")
    | Ok (VDict data) =>
        let expires_in := coerce_int (dget "expires_in" data) in
        let missing := when (negb (truthy (dget "device_code" data))) "device_code" ++
          when (negb (truthy (dget "user_code" data))) "user_code" ++
          when (negb (truthy (dget "verification_uri" data))) "verification_uri" ++
          when (match expires_in with Some z => (z <=? 0)%Z | None => true end) "expires_in" in
        match missing with
        | [] => Ok (success DeviceAuthorizationResponse
            [("device_code", dget "device_code" data); ("user_code", dget "user_code" data);
             ("verification_uri", dget "verification_uri" data);
             ("verification_uri_complete", dget "verification_uri_complete" data);
             ("expires_in", opt_int expires_in);
             ("interval", opt_int (coerce_int (dget "interval" data)))])
        | _ => Ok (missing_failure DeviceAuthorizationResponse
            "Device authorization response missing required fields per RFC 8628 Section 3.2" missing)
        end
    | Ok data => Ok (failure DeviceAuthorizationResponse
        ("Device authorization response is not a JSON object: " +:+ type_name data))
    end
  else Ok (content_failure DeviceAuthorizationResponse "Device authorization request" r).

Definition POLLING_ERROR_CODES : list string :=
  ["authorization_pending"; "slow_down"; "expired_token"; "access_denied"].

(** [v in frozenset(...)] of strings: a value that cannot be hashed raises. *)
Definition in_frozenset (v : pyval) (l : list string) : outcome bool :=
  match v with
  | VList _ | VDict _ => Err (TypeErr ("unhashable type: '" +:+ type_name v +:+ "'"))
  | _ => Ok (py_mem v (strs l))
  end.

Definition parse_success_response (r : HttpResponse) : BaseResponse :=
  match json_of r with
  | Err _ => failure DeviceTokenResponse "Device token response has invalid JSON body"
  | Ok (VDict data) => success DeviceTokenResponse [("token", VDict data)]
  | Ok data => failure DeviceTokenResponse
                 ("Device token response is not a JSON object: " +:+ type_name data)
  end.

Definition parse_error_response (r : HttpResponse) : outcome BaseResponse :=
  match json_of r with
  | Ok (VDict data) =>
      let error_code := dget "error" data in
      known ← in_frozenset error_code POLLING_ERROR_CODES;
      if (known : bool) then
        Ok (new_response DeviceTokenResponse false
              (default (VStr ("Device flow: " +:+ py_str error_code)) (dict_get "error_description" data))
              [("error_code", error_code); ("interval", opt_int (coerce_int (dget "interval" data)))])
      else
        Ok (failure DeviceTokenResponse
              (status_text "Device token request" r +:+ ". Error: " +:+
               py_str (default (VStr "unknown") (dict_get "error" data))))
  | _ => Ok (content_failure DeviceTokenResponse "Device token request" r)
  end.

Definition process_device_token_response (r : HttpResponse) : outcome BaseResponse :=
  if is_success r then Ok (parse_success_response r) else parse_error_response r.

(** ** Token exchange *)

Definition nonempty_str (v : pyval) : bool := match v with VStr s => nonempty s | _ => false end.

(** [_parse_error_response] of the token exchange; the dash is the source's, and the message has
    its UTF-8 bytes. *)
Definition exchange_error (r : HttpResponse) : string :=
  let raw := status_text "Token exchange" r +:+ ". Response Content: " +:+
             bytes_repr (str_take 1024 (resp_content r)) in
  match json_of r with
  | Ok (VDict data) =>
      let err := dget "error" data in
      let description := default (VStr "") (dict_get "error_description" data) in
      if truthy err then
        status_text "Token exchange" r +:+ ". Error: " +:+ py_str err +:+
        (if truthy description then " — " +:+ py_str description else "")
      else status_text "Token exchange" r +:+ ". Response: " +:+ str_take 1024 (json_dumps (VDict data))
  | _ => raw
  end.

Definition process_token_exchange_response (r : HttpResponse) : BaseResponse :=
  if is_success r then
    match json_of r with
    | Err _ => failure TokenExchangeResponse "Token exchange response has invalid JSON body"
    | Ok (VDict data) =>
        let missing := when (negb (nonempty_str (dget "access_token" data))) "access_token" ++
                       when (negb (nonempty_str (dget "token_type" data))) "token_type" in
        match missing with
        | [] => success TokenExchangeResponse
            [("token", VDict data);
             ("issued_token_type", if is_str (dget "issued_token_type" data)
                                   then dget "issued_token_type" data else VNone)]
        | _ => missing_failure TokenExchangeResponse
            "Token exchange response missing required fields per RFC 6749 Section 5.1" missing
        end
    | Ok data => failure TokenExchangeResponse
                   ("Token exchange response is not a JSON object: " +:+ type_name data)
    end
  else failure TokenExchangeResponse (exchange_error r).

(** ** UserInfo *)

Section UserInfo.
Context (text_of : HttpResponse → string).

Definition parse_userinfo_response (r : HttpResponse) : outcome BaseResponse :=
  if negb (is_success r) then Ok (content_failure UserInfoResponse "UserInfo request" r)
  else if media_type r ≟ "application/jwt" then
    Ok (success UserInfoResponse [("raw", VStr (text_of r))])
  else
    claims ← json_of r;
    Ok (success UserInfoResponse [("claims", claims)]).
Definition process_userinfo_response (r : HttpResponse) : BaseResponse :=
  or_handle handle_userinfo_error (parse_userinfo_response r).
End UserInfo.

(** The subject of the reply against the ID token's: skipped when not asked for, on a failure,
    and for a reply that is a JWT. *)
Definition validate_userinfo_sub (response : BaseResponse) (expected_sub : pyval)
    : outcome BaseResponse :=
  if is_none expected_sub || negb (is_successful response) then Ok response
  else
    raw ← get_attr response "raw";
    if negb (is_none raw) then Ok response
    else
      match raw_attr response "claims" with
      | VNone => Ok (failure UserInfoResponse
                       "UserInfo response contains no claims to validate sub against")
      | claims =>
          actual ← py_get claims "sub";
          if is_none actual then
            Ok (failure UserInfoResponse "UserInfo response is missing required 'sub' claim")
          else if py_eq actual expected_sub then Ok response
          else Ok (failure UserInfoResponse
                     ("UserInfo sub mismatch: expected '" +:+ py_str expected_sub +:+ "', got '" +:+
                      py_str actual +:+ "'"))
      end.

(** ** Tests on concrete inputs *)

Definition reply (status : Z) (body : pyval) : HttpResponse := Response status [] "" (Ok body) None.

Example coerce_1 : coerce_int (VFloat (FFin (17 # 5))) = Some 3%Z. Proof. reflexivity. Qed.
Example coerce_2 : coerce_int (VBool true) = None. Proof. reflexivity. Qed.
Example poll_1 : (λ r, (is_successful r, raw_attr r "error_code", raw_attr r "interval")) <$>
  process_device_token_response (reply 400 (VDict [("error", VStr "slow_down"); ("interval", VInt 10)]))
  = Ok (false, VStr "slow_down", VInt 10).
Proof. vm_compute. reflexivity. Qed.
Example poll_2 : process_device_token_response (reply 400 (VDict [("error", VList [])])) =
  Err (TypeErr "unhashable type: 'list'").
Proof. vm_compute. reflexivity. Qed.
(** A boolean passes for a lifetime. *)
Example par_1 : is_successful <$> process_par_response (λ _, "")
  (reply 201 (VDict [("request_uri", VStr "urn:x"); ("expires_in", VBool true)])) = Ok true.
Proof. vm_compute. reflexivity. Qed.
(** A list is a token for two of the three grants, and an error for the third. *)
Example token_1 : is_successful (process_auth_code_token_response (reply 200 (VList [VNone]))) = true.
Proof. vm_compute. reflexivity. Qed.
Example token_2 : error (process_token_response (reply 200 (VList [VNone]))) =
  VStr "Unexpected error during token request: 'list' object has no attribute 'get'".
Proof. vm_compute. reflexivity. Qed.
Example userinfo_1 : is_successful <$>
  validate_userinfo_sub (success UserInfoResponse [("claims", VDict [("sub", VStr "a")])]) (VStr "b") = Ok false.
Proof. vm_compute. reflexivity. Qed.

(** ** The replies to the nine requests *)

Definition class_of (q : oauth_request) : response_class :=
  match q with
  | Cc _ => ClientCredentialsTokenResponse | Ac _ => AuthorizationCodeTokenResponse
  | Rt _ => RefreshTokenResponse | Ti _ => TokenIntrospectionResponse
  | Tr _ => TokenRevocationResponse | Par _ => PushedAuthorizationResponse
  | Da _ => DeviceAuthorizationResponse | Dt _ => DeviceTokenResponse | Te _ => TokenExchangeResponse
  end.
Definition process (text_of : HttpResponse → string) (q : oauth_request) (r : HttpResponse)
    : outcome BaseResponse :=
  match q with
  | Cc _ => Ok (process_token_response r)
  | Ac _ => Ok (process_auth_code_token_response r)
  | Rt _ => Ok (process_refresh_token_response r)
  | Ti _ => Ok (process_introspection_response r)
  | Tr _ => Ok (process_revocation_response text_of r)
  | Par _ => process_par_response text_of r
  | Da _ => process_device_auth_response r
  | Dt _ => process_device_token_response r
  | Te _ => Ok (process_token_exchange_response r)
  end.
Definition handle (q : oauth_request) : exn → BaseResponse :=
  match q with
  | Cc _ => handle_token_error | Ac _ => handle_auth_code_token_error
  | Rt _ => handle_refresh_token_error | Ti _ => handle_introspection_error
  | Tr _ => handle_revocation_error | Par _ => handle_par_error | Da _ => handle_device_auth_error
  | Dt _ => handle_device_token_error | Te _ => handle_token_exchange_error
  end.

(** What each endpoint's body must be for a 2xx reply to count as a success. *)
Definition is_dict (v : pyval) : bool := match v with VDict _ => true | _ => false end.
Definition member (name : string) (v : pyval) : pyval :=
  match v with VDict d => dget name d | _ => VNone end.
Definition body_ok (q : oauth_request) (v : pyval) : bool :=
  match q with
  | Cc _ => is_dict v || negb (truthy v)
  | Ac _ | Rt _ | Tr _ => true
  | Ti _ | Dt _ => is_dict v
  | Par _ => truthy (member "request_uri" v) && positive_int (member "expires_in" v)
  | Da _ => truthy (member "device_code" v) && truthy (member "user_code" v) &&
            truthy (member "verification_uri" v) &&
            match coerce_int (member "expires_in" v) with Some z => (0 <? z)%Z | None => false end
  | Te _ => nonempty_str (member "access_token" v) && nonempty_str (member "token_type" v)
  end.
Definition accepted (q : oauth_request) (r : HttpResponse) : bool :=
  is_success r &&
  match q, resp_json r with
  | Tr _, _ => true
  | _, Ok v => body_ok q v
  | _, Err _ => false
  end.
(** The bodies on which a function raises instead. *)
Definition raises (q : oauth_request) (r : HttpResponse) : bool :=
  match q, resp_json r with
  | Par _, Ok v => is_success r && negb (is_dict v)
  | Dt _, Ok (VDict d) =>
      negb (is_success r) && match dget "error" d with VList _ | VDict _ => true | _ => false end
  | _, _ => false
  end.

(** ** Lemmas *)

Lemma when_nil b name l : when b name ++ l = [] ↔ b = false ∧ l = [].
Proof. unfold when. destruct b; naive_solver. Qed.

Lemma handle_failed c what e : response_type (handle_error c what e) = c ∧ is_successful (handle_error c what e) = false.
Proof. unfold handle_error. by destruct (isinstance e HttpxRequestError). Qed.
Lemma handle_class q e : response_type (handle q e) = class_of q ∧ is_successful (handle q e) = false.
Proof.
  destruct q; cbn [handle class_of]; try apply handle_failed.
  unfold handle_token_exchange_error.
  destruct (isinstance e HttpxRequestError); [apply handle_failed|].
  destruct (isinstance e BValueError); [done|apply handle_failed].
Qed.

Lemma body_ok_dict q v : match q with Par _ | Da _ | Te _ => true | _ => false end = true →
  is_dict v = false → body_ok q v = false.
Proof. by destruct q, v. Qed.

Lemma missing_spec c what (l : list string) (a : BaseResponse) :
  response_type a = c → is_successful a = true →
  let res := match l with [] => a | _ => missing_failure c what l end in
  response_type res = c ∧ is_successful res = match l with [] => true | _ => false end.
Proof. intros. by destruct l. Qed.

Lemma polling_code s : py_mem (VStr s) (strs POLLING_ERROR_CODES) = bool_decide (s ∈ POLLING_ERROR_CODES).
Proof.
  unfold py_mem, strs, POLLING_ERROR_CODES. cbn [map existsb py_eq]. rewrite !orb_false_r.
  apply eq_true_iff_eq. rewrite !orb_true_iff, !bool_decide_eq_true, !elem_of_cons, elem_of_nil. tauto.
Qed.

(** A reply that carries a polling code, and what every other failed reply becomes. *)
Definition polled (d : pydict) (s : string) : BaseResponse :=
  new_response DeviceTokenResponse false
    (default (VStr ("Device flow: " +:+ s)) (dict_get "error_description" d))
    [("error_code", VStr s); ("interval", opt_int (coerce_int (dget "interval" d)))].

Lemma polled_attrs d s : get_attr (polled d s) "error_code" = Ok (VStr s) ∧
  get_attr (polled d s) "interval" = Ok (opt_int (coerce_int (dget "interval" d))).
Proof. done. Qed.

Lemma parse_error_known r d s :
  resp_json r = Ok (VDict d) → dget "error" d = VStr s → s ∈ POLLING_ERROR_CODES →
  parse_error_response r = Ok (polled d s).
Proof.
  intros Hr Hd Hs. unfold parse_error_response, json_of. rewrite Hr, Hd.
  cbn [in_frozenset mbind result_bind]. rewrite polling_code, bool_decide_eq_true_2 by done. done.
Qed.

Lemma parse_error_cases r a : parse_error_response r = Ok a →
  is_successful a = false ∧ response_type a = DeviceTokenResponse ∧
  (get_attr a "error_code" = Ok VNone ∨
   ∃ d s, resp_json r = Ok (VDict d) ∧ dget "error" d = VStr s ∧ s ∈ POLLING_ERROR_CODES ∧
     a = polled d s).
Proof.
  intros H. unfold parse_error_response, json_of in H.
  destruct (resp_json r) as [[| | | | | |d]|m]; try (injection H as <-; by eauto).
  apply result_bind_ok in H as ([|] & Hk & H).
  - destruct (dget "error" d) as [| | | |s| |] eqn:Ee; try done. cbn [in_frozenset] in Hk.
    rewrite polling_code in Hk. injection Hk as Hk. apply bool_decide_eq_true in Hk.
    injection H as <-. split_and!; [done..|right]. by exists d, s.
  - injection H as <-. by eauto.
Qed.

(** The subject check passes exactly on a success that is a JWT or has the expected subject. *)
Lemma userinfo_sub_eq resp sub a :
  is_none sub = false → validate_userinfo_sub resp sub = Ok a → is_successful a = true →
  a = resp ∧ is_successful resp = true ∧
  (raw_attr resp "raw" ≠ VNone ∨
   ∃ d, raw_attr resp "claims" = VDict d ∧ py_eq (dget "sub" d) sub = true).
Proof.
  intros Hn. unfold validate_userinfo_sub. rewrite Hn. destruct (is_successful resp) eqn:Es; cbn [negb orb];
    [|intros [= <-]; congruence].
  unfold get_attr. rewrite Es, getattribute_ok by compute_done. cbn [mbind result_bind].
  destruct (raw_attr resp "raw") eqn:Er; cbn [is_none negb];
    try (intros H _; injection H as <-; split_and!; [done..|by left]).
  destruct (raw_attr resp "claims") as [| | | | | |d] eqn:Ec; cbn [py_get mbind result_bind]; try done;
    [by intros [= <-]|].
  destruct (is_none (dget "sub" d)); [by intros [= <-]|].
  destruct (py_eq (dget "sub" d) sub) eqn:Eq; [|by intros [= <-]].
  intros [= <-] _. split_and!; [done..|right]. by exists d.
Qed.
Lemma userinfo_sub_ok resp sub a :
  validate_userinfo_sub resp (VStr sub) = Ok a → is_successful a = true →
  a = resp ∧ is_successful resp = true ∧
  (raw_attr resp "raw" ≠ VNone ∨
   ∃ d, raw_attr resp "claims" = VDict d ∧ dget "sub" d = VStr sub).
Proof.
  intros H Ha. apply userinfo_sub_eq in H as (? & ? & H); [|done..]. split_and!; [done..|].
  destruct H as [H|(d & Hd & H%py_eq_str)]; [by left|right]. by exists d.
Qed.

(** ** Theorems *)

(** What counts as a success, endpoint by endpoint.  A reply becomes a successful response of
    the endpoint's class exactly when the status is 2xx and the body is what the endpoint
    requires: a JSON object (or an empty value) for client credentials, any JSON for the code and
    refresh grants, an object for introspection and a device token, the required members with
    usable values for a pushed request, a device authorization and an exchange, and no body for a
    revocation.  Processing raises only on a pushed request's reply that is not an object, and on
    a device error code that cannot be hashed. *)
Theorem oauth_reply_spec text_of q r :
  match process text_of q r with
  | Ok a => response_type a = class_of q ∧ is_successful a = accepted q r ∧ raises q r = false
  | Err e => raises q r = true ∧ exn_class e ∈ [BAttributeError; BTypeError]
  end.
Proof.
  destruct q; cbn [process class_of];
    unfold process_token_response, process_auth_code_token_response, process_refresh_token_response,
      process_introspection_response, process_revocation_response, process_par_response,
      process_device_auth_response, process_device_token_response, process_token_exchange_response,
      parse_token_response, parse_auth_code_token_response, parse_refresh_token_response,
      parse_token_body, parse_introspection_response, parse_success_response, parse_error_response,
      accepted, raises, json_of; cbn [class_of].
  - destruct (is_success r); [|by destruct (resp_json r)].
    destruct (resp_json r) as [v|m]; [|done]. cbn [mbind result_bind or_handle].
    unfold log_token_success, success. rewrite raw_attr_new by (by left).
    change (dget "token" [("token", v)]) with v. cbn [body_ok]. cbn [new_response is_successful andb].
    destruct (truthy v) eqn:Et; [destruct v; done|]. by rewrite orb_true_r.
  - destruct (is_success r), (resp_json r); done.
  - destruct (is_success r), (resp_json r); done.
  - destruct (is_success r), (resp_json r) as [[]|]; done.
  - destruct (is_success r), (resp_json r); done.
  - destruct (is_success r); [|by destruct (resp_json r)]. destruct (resp_json r) as [v|]; [|done].
    destruct v as [| | | | | |d]; cbn [py_get mbind result_bind];
      try (split; [done|by left]).
    cbn [body_ok member is_dict negb andb].
    destruct (truthy (dget "request_uri" d)), (positive_int (dget "expires_in" d)); done.
  - destruct (is_success r); [|by destruct (resp_json r)]. destruct (resp_json r) as [v|]; [|done].
    destruct v as [| | | | | |d]; try done. cbn [body_ok member].
    destruct (truthy (dget "device_code" d)), (truthy (dget "user_code" d)),
      (truthy (dget "verification_uri" d)), (coerce_int (dget "expires_in" d)) as [z|]; try done.
    rewrite Z.leb_antisym. by destruct (0 <? z)%Z.
  - destruct (is_success r); [by destruct (resp_json r) as [[]|]|].
    destruct (resp_json r) as [[| | | | | |d]|]; try done. cbn [negb andb].
    destruct (dget "error" d) eqn:Ee; cbn [in_frozenset mbind result_bind];
      try (split; [done|right; by left]);
      (match goal with |- context [if ?b then _ else _] => destruct b end; done).
  - destruct (is_success r); [|by destruct (resp_json r)]. destruct (resp_json r) as [v|]; [|done].
    destruct v as [| | | | | |d]; try done. cbn [body_ok member].
    destruct (nonempty_str (dget "access_token" d)), (nonempty_str (dget "token_type" d)); done.
Qed.

(** The polling protocol of the device flow.  A reply reports a polling code exactly when it
    is not a 2xx and its body is an object whose [error] is one of the four codes; the response
    is then a failure on which the code and the interval (a JSON number, coerced to an integer)
    can be read.  A success carries the token object, and nothing else does. *)
Theorem device_poll_spec r :
  (∀ c, (∃ a, process_device_token_response r = Ok a ∧ get_attr a "error_code" = Ok (VStr c)) ↔
     is_success r = false ∧ c ∈ POLLING_ERROR_CODES ∧
     ∃ d, resp_json r = Ok (VDict d) ∧ dget "error" d = VStr c) ∧
  (∀ a d c, process_device_token_response r = Ok a → resp_json r = Ok (VDict d) →
     get_attr a "error_code" = Ok (VStr c) →
     is_successful a = false ∧ get_attr a "interval" = Ok (opt_int (coerce_int (dget "interval" d)))) ∧
  (∀ v, (∃ a, process_device_token_response r = Ok a ∧ get_attr a "token" = Ok v) ↔
     is_success r = true ∧ is_dict v = true ∧ resp_json r = Ok v).
Proof.
  unfold process_device_token_response. destruct (is_success r).
  - unfold parse_success_response, json_of. split_and!.
    + intros c. split; [|by intros [? _]]. intros (a & [= <-] & H).
      by destruct (resp_json r) as [[]|].
    + intros a d c [= <-] -> H. done.
    + intros v. split.
      * intros (a & [= <-] & H). destruct (resp_json r) as [[| | | | | |d]|]; try done.
        by injection H as <-.
      * intros (_ & Hd & ->). destruct v; try done. by eexists.
  - split_and!.
    + intros c. split.
      * intros (a & (_ & _ & [H|(d & s & Hr & Hd & Hs & ->)])%parse_error_cases & Hc); [congruence|].
        rewrite (proj1 (polled_attrs d s)) in Hc. injection Hc as <-. split_and!; [done..|]. by exists d.
      * intros (_ & Hc & d & Hr & Hd). exists (polled d c).
        split; [by apply parse_error_known|apply polled_attrs].
    + intros a d c (Ha & _ & [H|(d' & s & Hr & Hd & Hs & ->)])%parse_error_cases Hr' Hc; [congruence|].
      assert (d' = d) as -> by congruence. split; [done|apply polled_attrs].
    + intros v. split; [|by intros [? _]].
      intros (a & (Ha & Ht & _)%parse_error_cases & H). rewrite get_attr_spec in H by compute_done.
      by rewrite Ha, Ht in H.
Qed.
