(* ===== verification/Registration.v ===== *)
(** * Dynamic client registration ([core/registration_logic.py])

    The bodies, headers and replies of registering a client and of reading, updating and deleting
    a registration. *)

From S2P Require Import Prelude PyStr PyValue Models HttpRetry Jwks Responses ClientAuth Grants Replies.
From stdpp Require Import strings.
Open Scope string_scope.
Open Scope list_scope.
Open Scope nat_scope.
Open Scope py_scope.

(** ** Requests *)

Definition METADATA_FIELDS : list string :=
  ["redirect_uris"; "response_types"; "grant_types"; "application_type"; "contacts";
   "client_name"; "logo_uri"; "client_uri"; "policy_uri"; "tos_uri";
   "token_endpoint_auth_method"; "scope"; "jwks_uri"].

(** The attributes that go to the body are kept by name; an absent one is [None].  [extra] is
    [extra_metadata], empty when there is none. *)
Record ClientRegistrationRequest : Type := RegReq {
  rr_address : string; rr_attrs : pydict; rr_extra : pydict;
  rr_initial_access_token : option string }.
Record ClientReadRequest : Type := ReadReq {
  rd_address : string; rd_registration_access_token : string }.
Record ClientUpdateRequest : Type := UpdReq {
  ur_address : string; ur_registration_access_token : string; ur_attrs : pydict;
  ur_extra : pydict }.
Record ClientDeleteRequest : Type := DelReq {
  dr_address : string; dr_registration_access_token : string }.

(** [body[name] = value] for the values that are not [None], and [d.update(e)]. *)
Definition set_given (request : pydict) (body : pydict) (name : string) : pydict :=
  if is_none (dget name request) then body else dict_set name (dget name request) body.
Definition dict_update (d e : pydict) : pydict := foldl (λ d kv, dict_set kv.1 kv.2 d) d e.

Definition build_client_metadata (request extra : pydict) : pydict :=
  let body := foldl (set_given request) [] METADATA_FIELDS in
  let body := set_given request body "client_id" in
  let body := set_given request body "client_secret" in
  dict_update body extra.

Definition prepare_registration_request (r : ClientRegistrationRequest) : pydict * pydict :=
  (build_client_metadata (rr_attrs r) (rr_extra r),
   [("Content-Type", VStr "application/json"); ("Accept", VStr "application/json")] ++
   match rr_initial_access_token r with
   | Some t => if nonempty t then [("Authorization", VStr ("Bearer " +:+ t))] else []
   | None => []
   end).

Definition prepare_management_headers (registration_access_token : string) : pydict :=
  [("Accept", VStr "application/json");
   ("Authorization", VStr ("Bearer " +:+ registration_access_token))].

Definition prepare_update_request (r : ClientUpdateRequest) : pydict * pydict :=
  (build_client_metadata (ur_attrs r) (ur_extra r),
   dict_set "Content-Type" (VStr "application/json")
     (prepare_management_headers (ur_registration_access_token r))).

(** ** Replies *)

Section Text.
Context (text_of : HttpResponse → string).

(** The error of the body when it is truthy, whatever its type. *)
Definition extract_error_message (r : HttpResponse) (operation : string) : pyval :=
  let plain := VStr ("Client " +:+ operation +:+ " request failed with status code: " +:+
    str_of_int (resp_status r) +:+ ". Response Content: " +:+
    (if nonempty (str_take 200 (text_of r)) then str_take 200 (text_of r) else "(empty)")) in
  match json_of r with
  | Ok (VDict data) =>
      if truthy (dget "error" data) then
        if truthy (dget "error_description" data)
        then VStr (py_str (dget "error" data) +:+ ": " +:+ py_str (dget "error_description" data))
        else dget "error" data
      else plain
  | _ => plain
  end.

Definition parse_registration_success (r : HttpResponse) : outcome BaseResponse :=
  match json_of r with
  | Err _ => Ok (failure ClientRegistrationResponse "Client registration response has invalid JSON body")
  | Ok data =>
      cid ← py_get data "client_id";
      if negb (truthy cid) then
        Ok (failure ClientRegistrationResponse
              ("Client registration response missing required field 'client_id' " +:+
               "per RFC 7591 Section 3.2.1"))
      else
        Ok (success ClientRegistrationResponse
              [("client_id", cid); ("client_secret", member "client_secret" data);
               ("client_id_issued_at", member "client_id_issued_at" data);
               ("client_secret_expires_at", member "client_secret_expires_at" data);
               ("registration_access_token", member "registration_access_token" data);
               ("registration_client_uri", member "registration_client_uri" data);
               ("metadata", data)])
  end.

Definition registration_error (r : HttpResponse) (operation : string) : BaseResponse :=
  new_response ClientRegistrationResponse false (extract_error_message r operation) [].

Definition process_registration_reply (operation : string) (r : HttpResponse) : outcome BaseResponse :=
  if is_success r then parse_registration_success r else Ok (registration_error r operation).
Definition process_registration_response := process_registration_reply "registration".
Definition process_read_response := process_registration_reply "read".
Definition process_update_response := process_registration_reply "update".

Definition process_delete_response (r : HttpResponse) : BaseResponse :=
  if is_success r then success ClientDeleteResponse []
  else new_response ClientDeleteResponse false (extract_error_message r "delete") [].
End Text.

(** ** Tests on concrete inputs *)

Example body_1 : build_client_metadata
    [("client_name", VStr "n"); ("redirect_uris", VList [VStr "u"]); ("client_id", VStr "c")]
    [("client_name", VStr "m"); ("subject_type", VStr "pairwise")]
  = [("redirect_uris", VList [VStr "u"]); ("client_name", VStr "m"); ("client_id", VStr "c");
     ("subject_type", VStr "pairwise")].
Proof. vm_compute. reflexivity. Qed.
Definition demo_registration : HttpResponse :=
  reply 201 (VDict [("client_id", VStr "c"); ("client_secret", VStr "s3cr3t")]).
(** The field is redacted; the copy of the reply is not. *)
Example leak_1 : response_repr <$> process_registration_response (λ _, "") demo_registration =
  Ok ("ClientRegistrationResponse(is_successful=True, error=None, client_id='c', " +:+
      "client_secret='[REDACTED]', client_id_issued_at=None, client_secret_expires_at=None, " +:+
      "registration_access_token=None, registration_client_uri=None, " +:+
      "metadata={'client_id': 'c', 'client_secret': 's3cr3t'})").
Proof. vm_compute. reflexivity. Qed.

(** ** Lemmas *)

Lemma dget_update k d e : NoDup e.*1 →
  dget k (dict_update d e) = match dict_get k e with Some v => v | None => dget k d end.
Proof.
  unfold dict_update. revert d. induction e as [|[k' v] e IH]; intros d; [done|].
  cbn [fmap list_fmap fst foldl dict_get snd]. intros [Hk He]%NoDup_cons. rewrite IH by done.
  case_bool_decide as Heq.
  - subst k'. destruct (dict_get k e) eqn:E; [|by rewrite dget_set_eq].
    destruct Hk. apply dict_get_elem in E. apply list_elem_of_fmap. by exists (k, p).
  - destruct (dict_get k e); [done|]. by rewrite dget_set_ne.
Qed.

Lemma dget_set_given request body name k :
  dget k (set_given request body name) =
    if (k ≟ name) && negb (is_none (dget name request)) then dget name request else dget k body.
Proof.
  unfold set_given. destruct (is_none (dget name request)); [by rewrite andb_false_r|].
  rewrite andb_true_r. case_bool_decide; subst; [by rewrite dget_set_eq|by rewrite dget_set_ne].
Qed.

Lemma dget_set_fields request fields body k :
  dget k (foldl (set_given request) body fields) =
    if bool_decide (k ∈ fields) && negb (is_none (dget k request)) then dget k request else dget k body.
Proof.
  revert body. induction fields as [|f fields IH]; intros body.
  - cbn [foldl]. by rewrite bool_decide_eq_false_2 by apply not_elem_of_nil.
  - cbn [foldl]. rewrite IH, dget_set_given.
    destruct (decide (k = f)) as [->|Hne].
    + bd_refl. rewrite (bool_decide_eq_true_2 (f ∈ f :: fields)) by (by left). cbn [andb].
      by destruct (bool_decide (f ∈ fields)), (is_none (dget f request)).
    + rewrite (bool_decide_eq_false_2 (k = f)) by done. cbn [andb].
      rewrite (bool_decide_ext (k ∈ f :: fields) (k ∈ fields)); [done|].
      rewrite elem_of_cons. naive_solver.
Qed.

Lemma sent_fields_app k :
  bool_decide (k ∈ METADATA_FIELDS ++ ["client_id"; "client_secret"]) =
  bool_decide (k ∈ METADATA_FIELDS) || (k ≟ "client_id") || (k ≟ "client_secret").
Proof.
  apply eq_true_iff_eq. rewrite !orb_true_iff, !bool_decide_eq_true, elem_of_app, !elem_of_cons, elem_of_nil.
  tauto.
Qed.

(** ** Theorems *)

(** The metadata a client sends.  A member of the body is the extra metadata's when it has
    one of that name, and otherwise the request's attribute when it is a metadata field, the
    client identifier or the client secret and is set; nothing else is sent. *)
Theorem client_metadata_spec request extra k (Hextra : NoDup extra.*1) :
  dget k (build_client_metadata request extra) =
    match dict_get k extra with
    | Some v => v
    | None =>
        if bool_decide (k ∈ METADATA_FIELDS ++ ["client_id"; "client_secret"])
        then dget k request else VNone
    end.
Proof.
  unfold build_client_metadata. rewrite dget_update by done. destruct (dict_get k extra); [done|].
  rewrite !dget_set_given, dget_set_fields, sent_fields_app.
  assert (Hnone : is_none (dget k request) = true → dget k request = VNone)
    by (by destruct (dget k request)).
  destruct (decide (k = "client_secret")) as [->|H1]; [bd_refl|
    rewrite (bool_decide_eq_false_2 (k = "client_secret")) by done;
    destruct (decide (k = "client_id")) as [->|H2]; [bd_refl|
      rewrite (bool_decide_eq_false_2 (k = "client_id")) by done]].
  - destruct (is_none (dget "client_secret" request)) eqn:E; cbn; [by rewrite Hnone|done].
  - destruct (is_none (dget "client_id" request)) eqn:E; cbn; [by rewrite Hnone|done].
  - cbn [andb]. rewrite !orb_false_r. destruct (bool_decide (k ∈ METADATA_FIELDS)); [|done].
    destruct (is_none (dget k request)) eqn:E; cbn; [by rewrite Hnone|done].
Qed.

(** The rendering of a registration shows its secrets.  The class redacts its fields
    [client_secret] and [registration_access_token], but the response also keeps the whole reply
    as [metadata], which is not redacted: whenever a successful reply issues one of the two, the
    response's [repr] contains it in clear. *)
Theorem registration_repr_leaks text_of r data k secret
    (Hstatus : is_success r = true) (Hbody : resp_json r = Ok (VDict data))
    (Hid : truthy (dget "client_id" data) = true)
    (Hk : k ∈ secret_fields ClientRegistrationResponse) (Hsecret : dict_get k data = Some (VStr secret)) :
  ∃ a, process_registration_response text_of r = Ok a ∧ is_successful a = true ∧
    raw_attr a k = VStr secret ∧ contains (response_repr a) (str_repr secret) = true.
Proof.
  unfold process_registration_response, process_registration_reply, parse_registration_success, json_of.
  rewrite Hstatus, Hbody. cbn [py_get mbind result_bind]. rewrite Hid. cbn [negb].
  eexists. split_and!; [done|done| |].
  - assert (Hd : dget k data = VStr secret) by (unfold dget; by rewrite Hsecret).
    cbn [secret_fields] in Hk. apply elem_of_cons in Hk as [->|Hk].
    + exact Hd.
    + apply list_elem_of_singleton in Hk as ->. exact Hd.
  - apply contains_spec. assert (H := repr_dict_contains _ _ _ Hsecret).
    apply contains_spec in H as (a & b & Heq).
    assert (Hmeta : contains (response_repr (success ClientRegistrationResponse
      [("client_id", dget "client_id" data); ("client_secret", member "client_secret" (VDict data));
       ("client_id_issued_at", member "client_id_issued_at" (VDict data));
       ("client_secret_expires_at", member "client_secret_expires_at" (VDict data));
       ("registration_access_token", member "registration_access_token" (VDict data));
       ("registration_client_uri", member "registration_client_uri" (VDict data));
       ("metadata", VDict data)])) (py_repr (VDict data)) = true).
    { apply (repr_shows _ "metadata"); [|compute_done]. do 6 right. by left. }
    apply contains_spec in Hmeta as (a' & b' & ->). rewrite Heq.
    exists (a' +:+ a), (b +:+ b'). rewrite !str_app_assoc. done.
Qed.

(** ** Witnesses *)

Lemma client_metadata_spec_witness :
  dget "client_name" (build_client_metadata [("client_name", VStr "n")] [("client_name", VStr "m")])
  = VStr "m".
Proof.
  rewrite (client_metadata_spec [("client_name", VStr "n")] [("client_name", VStr "m")] "client_name").
  - reflexivity.
  - repeat constructor. apply not_elem_of_nil.
Defined.

Lemma registration_repr_leaks_witness :
  ∃ a, process_registration_response (λ _, "") demo_registration = Ok a ∧ is_successful a = true ∧
    raw_attr a "client_secret" = VStr "s3cr3t" ∧
    contains (response_repr a) (str_repr "s3cr3t") = true.
Proof.
  eapply (registration_repr_leaks (λ _, "") demo_registration _ "client_secret" "s3cr3t");
    [reflexivity|reflexivity|reflexivity|by left|reflexivity].
Defined.
