(* ===== verification/Clients.v ===== *)
(** * The client functions ([sync/token_client.py], [sync/token_exchange.py], [sync/par.py],
    [sync/introspection.py], [sync/revocation.py], [sync/device_auth.py], [sync/userinfo.py],
    [sync/registration.py], [sync/http_client.py], [sync/managed_client.py], [ssl_config.py])

    The functions an application calls: prepare a request, pick an HTTP client, send under the
    retry policy, answer one DPoP nonce challenge, turn the reply into a response and any
    exception into a failed one, and close what was opened.  The state is the wire (what was
    sent, slept and read) with the clients this process holds open. *)

From S2P Require Import Prelude PyStr PyValue Models Url HttpRetry Discovery Jwks Responses ClientAuth Dpop Grants Replies Registration.
From Stdlib Require Import QArith.
From stdpp Require Import strings.
#[global] Close Scope Q_scope.
Open Scope string_scope.
Open Scope list_scope.
Open Scope nat_scope.
Open Scope py_scope.

(** ** Configuration *)

(** [get_ssl_verify]: a CA bundle, or [True] when no variable names one. *)
Definition ssl_variables : list string := ["SSL_CERT_FILE"; "CURL_CA_BUNDLE"; "REQUESTS_CA_BUNDLE"].
Definition get_ssl_verify (env : string → option string) : option string :=
  find_map (λ v, given (env v)) ssl_variables.
Definition get_timeout (env : string → option string) : outcome pyfloat :=
  to_float (default "30.0" (env "HTTP_TIMEOUT")).

(** What server certificates are verified against. *)
Inductive trust : Type := SystemTrust | CaDirectory (path : string) | CaFile (path : string).

(** ** Clients *)

(** The managed wrapper an application passes in. *)
Record HTTPClient : Type := Managed { inner : nat; owned : bool; closed : bool }.
Definition managed_client (h : HTTPClient) : outcome nat :=
  if closed h then Err (mk_exn BRuntimeError "HTTPClient has been closed") else Ok (inner h).
(** [close]: whether the inner client is closed, and the wrapper afterwards. *)
Definition managed_close (h : HTTPClient) : bool * HTTPClient :=
  (negb (closed h) && owned h, Managed (inner h) (owned h) true).

(** The [httpx.Client] a request goes through: the thread's, a managed one, or one built for the
    request that presents a certificate. *)
Inductive http_client : Type :=
  | ThreadClient
  | ManagedClient (inner : nat)
  | CertificateClient (m : MtlsClientAuth).

Record HttpRequest : Type := Request {
  req_method : string;
  req_url : string;
  req_body : pydict;
  req_headers : pydict;
  req_auth : option (string * string);
}.

(** The process: the wire, whether this thread has its client, and the clients built for a
    request and not closed yet. *)
Record transport : Type := Transport {
  wire : net;
  thread_client : bool;
  open_clients : list MtlsClientAuth;
}.

(** What the GETs of the discovery documents and key sets are answered. *)
Definition web (http : nat → http_client → HttpRequest → outcome HttpResponse) (n : nat) (url : string)
    : outcome HttpResponse := http n ThreadClient (Request "GET" url [] [] None).

(** [try: m finally: f]. *)
Definition finally {S E A} (m : stM S E A) (f : S → S) : stM S E A := λ s,
  let '(r, s') := m s in (r, f s').

Definition on_wire {A} (m : stM net exn A) : stM transport exn A :=
  zoom wire (λ w t, Transport w (thread_client t) (open_clients t)) m.

(** A discovered endpoint, as the address of a request: [default_policy] admits strings only. *)
Definition as_address (v : pyval) : outcome string :=
  match v with VStr s => Ok s | _ => Err (TypeErr "Invalid type for url") end.

Section Calls.
Context (env : string → option string) (http_date : string → option Q) (wall : Q).
Context (wall_clock : nat → Q) (uuid4 : nat → string).
Context (encode : nat → pydict → blob → string → pydict → outcome string).
Context (text_of : HttpResponse → string).
(** [Path(p).is_dir()], [ssl.create_default_context], [context.load_cert_chain] and the
    construction of a thread's [httpx.Client]. *)
Context (is_dir : string → bool) (create_default_context : trust → outcome unit).
Context (load_cert_chain : list string → outcome unit).
Context (new_client : option string → pyfloat → outcome unit).
(** The network's answer to the [n]-th request of the process. *)
Context (http : nat → http_client → HttpRequest → outcome HttpResponse).

Definition build_mtls_ssl_context (m : MtlsClientAuth) : outcome unit :=
  _ ← create_default_context
        match get_ssl_verify env with
        | Some p => if is_dir p then CaDirectory p else CaFile p
        | None => SystemTrust
        end;
  load_cert_chain (build_httpx_cert m).

Definition build_mtls_client (m : MtlsClientAuth) : stM transport exn http_client :=
  _ ← lift (build_mtls_ssl_context m);
  _ ← lift (get_timeout env);
  _ ← modify (λ t, Transport (wire t) (thread_client t) (m :: open_clients t));
  mret (CertificateClient m).

Definition get_http_client : stM transport exn http_client := λ t,
  if thread_client t then (Ok ThreadClient, t)
  else match (timeout ← get_timeout env; new_client (get_ssl_verify env) timeout) with
       | Ok _ => (Ok ThreadClient, Transport (wire t) true (open_clients t))
       | Err e => (Err e, t)
       end.

Definition close_http_client (t : transport) : transport :=
  Transport (wire t) false (open_clients t).

(** [(client, owned)]. *)
Definition resolve_http_client (m : option MtlsClientAuth) (managed : option HTTPClient)
    : stM transport exn (http_client * bool) :=
  match m, managed with
  | Some _, Some _ => mthrow (ValueErr ("Cannot combine a managed http_client with mtls: a managed " +:+
      "client cannot be guaranteed to present the mTLS client certificate. Pass one or the other."))
  | None, Some h => c ← lift (managed_client h); mret (ManagedClient c, false)
  | Some m, None => c ← build_mtls_client m; mret (c, true)
  | None, None => c ← get_http_client; mret (c, false)
  end.

(** [owned_client.close()] when there is one: the last client opened. *)
Definition close_owned (is_owned : bool) (t : transport) : transport :=
  if is_owned then Transport (wire t) (thread_client t) (tail (open_clients t)) else t.

(** One request under [@retry_with_backoff()]; every attempt sends the same request. *)
Definition send (c : http_client) (q : HttpRequest) : stM transport exn HttpResponse :=
  on_wire (retry_with_backoff http_date wall (client_get (λ n _, http n c q) (req_url q)) env None None).

(** [client.post(address, data=params, headers=headers, auth=auth)]. *)
Definition form_post (url : string) (p : prepared) : HttpRequest :=
  Request "POST" url p.1.1 p.1.2 p.2.

(** The functions with a [request.dpop_key] answer one nonce challenge with a second, re-prepared
    request; the others have no key. *)
Definition post_form (q : oauth_request) (c : http_client) (p : prepared) : stM transport exn HttpResponse :=
  response ← send c (form_post (address q) p);
  match dpop_key q, extract_dpop_nonce response with
  | Some _, Some nonce =>
      p' ← on_wire (prepare wall_clock uuid4 encode q (Some nonce));
      send c (form_post (address q) p')
  | _, _ => mret response
  end.

(** The body the nine client functions share. *)
Definition request (q : oauth_request) (managed : option HTTPClient) : stM transport exn BaseResponse :=
  try_except
    (p ← on_wire (prepare wall_clock uuid4 encode q None);
     '(c, is_owned) ← resolve_http_client (mtls (client q)) managed;
     finally
       (response ← post_form q c p;
        lift (process text_of q response))
       (close_owned is_owned))
    (λ e, mret (handle q e)).

Definition request_client_credentials_token (r : ClientCredentialsTokenRequest) := request (Cc r).
Definition request_authorization_code_token (r : AuthorizationCodeTokenRequest) := request (Ac r).
Definition refresh_token (r : RefreshTokenRequest) := request (Rt r).
Definition introspect_token (r : TokenIntrospectionRequest) := request (Ti r).
Definition revoke_token (r : TokenRevocationRequest) := request (Tr r).
Definition push_authorization_request (r : PushedAuthorizationRequest) := request (Par r).
Definition request_device_authorization (r : DeviceAuthorizationRequest) := request (Da r).
Definition poll_device_token (r : DeviceTokenRequest) := request (Dt r).
Definition exchange_token (r : TokenExchangeRequest) := request (Te r).

(** ** UserInfo *)

Record UserInfoRequest : Type := UIReq {
  ui_address : string; ui_token : string; ui_expected_sub : pyval;
  ui_dpop_key : option DPoPKey; ui_mtls : option MtlsClientAuth }.

Definition prepare_userinfo_headers (r : UserInfoRequest) (dpop_nonce : option string)
    : stM net exn pydict :=
  match ui_dpop_key r with
  | None => mret [("Authorization", VStr ("Bearer " +:+ ui_token r))]
  | Some key =>
      proof ← create_dpop_proof wall_clock uuid4 encode key "GET" (ui_address r)
                (Some (ui_token r)) dpop_nonce;
      mret [("Authorization", VStr ("DPoP " +:+ ui_token r)); ("DPoP", VStr proof)]
  end.

Definition userinfo_get (url : string) (headers : pydict) : HttpRequest :=
  Request "GET" url [] headers None.

(** The headers are prepared before the [try]. *)
Definition get_userinfo (r : UserInfoRequest) (managed : option HTTPClient)
    : stM transport exn BaseResponse :=
  headers ← on_wire (prepare_userinfo_headers r None);
  try_except
    ('(c, is_owned) ← resolve_http_client (ui_mtls r) managed;
     finally
       (response ← send c (userinfo_get (ui_address r) headers);
        response ← match ui_dpop_key r, extract_dpop_nonce response with
                   | Some _, Some nonce =>
                       headers' ← on_wire (prepare_userinfo_headers r (Some nonce));
                       send c (userinfo_get (ui_address r) headers')
                   | _, _ => mret response
                   end;
        lift (validate_userinfo_sub (process_userinfo_response text_of response) (ui_expected_sub r)))
       (close_owned is_owned))
    (λ e, mret (handle_userinfo_error e)).

(** ** Registration *)

(** [http_client.client if http_client else get_http_client()]. *)
Definition registration_client (managed : option HTTPClient) : stM transport exn http_client :=
  match managed with
  | Some h => c ← lift (managed_client h); mret (ManagedClient c)
  | None => get_http_client
  end.

Definition registration_call (q : HttpRequest) (managed : option HTTPClient)
    (process : HttpResponse → outcome BaseResponse) (handle : exn → BaseResponse)
    : stM transport exn BaseResponse :=
  try_except
    (c ← registration_client managed;
     response ← send c q;
     lift (process response))
    (λ e, mret (handle e)).

Definition register_client (r : ClientRegistrationRequest) (managed : option HTTPClient) :=
  let '(body, headers) := prepare_registration_request r in
  registration_call (Request "POST" (rr_address r) body headers None) managed
    (process_registration_response text_of) handle_registration_error.
Definition read_client (r : ClientReadRequest) (managed : option HTTPClient) :=
  registration_call (Request "GET" (rd_address r) []
      (prepare_management_headers (rd_registration_access_token r)) None) managed
    (process_read_response text_of) handle_registration_error.
Definition update_client (r : ClientUpdateRequest) (managed : option HTTPClient) :=
  let '(body, headers) := prepare_update_request r in
  registration_call (Request "PUT" (ur_address r) body headers None) managed
    (process_update_response text_of) handle_registration_error.
Definition delete_client (r : ClientDeleteRequest) (managed : option HTTPClient) :=
  registration_call (Request "DELETE" (dr_address r) []
      (prepare_management_headers (dr_registration_access_token r)) None) managed
    (λ resp, Ok (process_delete_response text_of resp)) handle_client_delete_error.
End Calls.

(** ** Tests on concrete inputs *)

Definition no_env : string → option string := λ _, None.
Definition demo_transport : transport := Transport (Net [] [] 0) false [].
Definition demo_call (http : nat → http_client → HttpRequest → outcome HttpResponse)
    (q : oauth_request) (h : option HTTPClient) : result exn BaseResponse * transport :=
  request no_env no_dates 0 demo_clock demo_uuid demo_sign (λ _, "") (λ _, false) (λ _, Ok ())
    (λ _, Ok ()) (λ _ _, Ok ()) http q h demo_transport.
Definition token_reply : HttpResponse := reply 200 (VDict [("access_token", VStr "at")]).
Definition demo_cc : oauth_request := Cc (CCReq "https://op/t" demo_client None).

Example call_1 : (λ a, (is_successful a, raw_attr a "token")) <$> (demo_call (λ _ _ _, Ok token_reply) demo_cc None).1
  = Ok (true, VDict [("access_token", VStr "at")]).
Proof. vm_compute. reflexivity. Qed.
(** A nonce challenge is answered once, with the nonce in the second proof. *)
Definition challenge : HttpResponse :=
  Response 400 [("DPoP-Nonce", "n1")] "" (Ok (VDict [("error", VStr "use_dpop_nonce")])) None.
Definition demo_ac : oauth_request :=
  Ac (ACReq "https://op/t" public_client "c" "https://rp/cb" None None (Some demo_dpop)).
Example call_2 :
  let r := demo_call (λ n _ q, if contains (py_repr (VDict (req_headers q))) "n1" then Ok token_reply else Ok challenge)
             demo_ac None in
  (is_successful <$> r.1, length (sent (wire r.2))) = (Ok true, 2).
Proof. vm_compute. reflexivity. Qed.
Example call_3 :
  let r := demo_call (λ _ _ _, Ok challenge) demo_ac None in
  (is_successful <$> r.1, length (sent (wire r.2))) = (Ok false, 2).
Proof. vm_compute. reflexivity. Qed.
Definition demo_mtls : MtlsClientAuth := Mtls "c.pem" "k.pem" None "tls_client_auth".
Definition mtls_cc : oauth_request :=
  Cc (CCReq "https://op/t" (ClientFields "app" (Some "s") None (Some demo_mtls)) None).
Example call_4 :
  let r := demo_call (λ _ c q, match c, req_auth q with CertificateClient _, None => Ok token_reply
                                | _, _ => Ok challenge end) mtls_cc None in
  (is_successful <$> r.1, open_clients r.2) = (Ok true, []).
Proof. vm_compute. reflexivity. Qed.
Example call_5 :
  let r := demo_call (λ _ _ _, Ok token_reply) mtls_cc (Some (Managed 0 false false)) in
  (is_successful <$> r.1, sent (wire r.2)) = (Ok false, []).
Proof. vm_compute. reflexivity. Qed.

(** ** Lemmas *)

(** [m] sends nothing. *)
Definition quiet {A} (m : stM net exn A) : Prop := ∀ s, sent (m s).2 = sent s.

Lemma as_address_ok v s : as_address v = Ok s → v = VStr s.
Proof. destruct v; try done. by intros [= ->]. Qed.
Lemma quiet_ret {A} (a : A) : quiet (mret a). Proof. done. Qed.
Lemma quiet_lift {A} (r : outcome A) : quiet (lift r). Proof. done. Qed.
Lemma quiet_reading : quiet reading. Proof. done. Qed.
Lemma quiet_bind {A B} (m : stM net exn A) (k : A → stM net exn B) :
  quiet m → (∀ a, quiet (k a)) → quiet (m ≫= k).
Proof.
  intros Hm Hk s. unfold mbind, stM_bind. specialize (Hm s).
  destruct (m s) as [[a|e] s1]; [by rewrite Hk|done].
Qed.

Create HintDb quiet.
#[export] Hint Resolve quiet_ret quiet_lift quiet_reading quiet_bind : quiet.

Section Quiet.
Context (wall_clock : nat → Q) (uuid4 : nat → string).
Context (encode : nat → pydict → blob → string → pydict → outcome string).

Lemma quiet_assertion cid aud key alg kid lifetime :
  quiet (build_client_assertion wall_clock uuid4 encode cid aud key alg kid lifetime).
Proof. unfold build_client_assertion, time_time, new_uuid, sign. auto 20 with quiet. Qed.

Lemma quiet_proof key method uri token nonce :
  quiet (create_dpop_proof wall_clock uuid4 encode key method uri token nonce).
Proof. unfold create_dpop_proof, time_time, new_uuid, sign. auto 30 with quiet. Qed.
End Quiet.
#[export] Hint Resolve quiet_assertion quiet_proof : quiet.

Lemma quiet_authenticate wc uuid enc u e addr c f h : quiet (authenticate wc uuid enc u e addr c f h).
Proof.
  unfold authenticate, apply_private_key_jwt. destruct (private_key_jwt c); [auto with quiet|].
  destruct (mtls c); [auto with quiet|]. destruct (client_secret c) as [s|]; [|auto with quiet].
  destruct (u s); auto with quiet.
Qed.
Lemma quiet_form_headers wc uuid enc key addr nonce : quiet (form_headers wc uuid enc key addr nonce).
Proof. unfold form_headers. destruct key; auto with quiet. Qed.
#[export] Hint Resolve quiet_authenticate quiet_form_headers : quiet.

(** Preparing a request sends nothing. *)
Lemma quiet_prepare wc uuid enc q nonce : quiet (prepare wc uuid enc q nonce).
Proof.
  destruct q; cbn [prepare]; unfold prepare_token_request_data, prepare_auth_code_token_request_data,
    prepare_refresh_token_request_data, prepare_introspection_request_data,
    prepare_revocation_request_data, prepare_par_request_data, prepare_device_auth_request_data,
    prepare_device_token_request_data, prepare_token_exchange_request_data; auto 10 with quiet.
Qed.

Lemma stM_bind_run {S E A B} (m : stM S E A) (k : A → stM S E B) s :
  (m ≫= k) s = match m s with (Ok a, s') => k a s' | (Err e, s') => (Err e, s') end.
Proof. done. Qed.

(** What a computation on the wire leaves alone. *)
Lemma on_wire_spec {A} (m : stM net exn A) t :
  on_wire m t = ((m (wire t)).1, Transport (m (wire t)).2 (thread_client t) (open_clients t)).
Proof. unfold on_wire, zoom. by destruct (m (wire t)). Qed.

(** [m] leaves the open clients as they were, and sends only to [url]. *)
Definition scoped {A} (url : string) (m : stM transport exn A) : Prop := ∀ t,
  open_clients (m t).2 = open_clients t ∧ ∃ n, sent (wire (m t).2) = replicate n url ++ sent (wire t).

Lemma scoped_ret {A} url (a : A) : scoped url (mret a).
Proof. intros t. split; [done|]. by exists 0. Qed.
Lemma scoped_lift {A} url (r : outcome A) : scoped url (lift r).
Proof. intros t. split; [done|]. by exists 0. Qed.
Lemma scoped_quiet {A} url (m : stM net exn A) : quiet m → scoped url (on_wire m).
Proof. intros Hm t. rewrite on_wire_spec. split; [done|]. exists 0. apply Hm. Qed.
Lemma scoped_bind {A B} url (m : stM transport exn A) (k : A → stM transport exn B) :
  scoped url m → (∀ a, scoped url (k a)) → scoped url (m ≫= k).
Proof.
  intros Hm Hk t. unfold mbind, stM_bind. destruct (Hm t) as (Ho & n & Hn).
  destruct (m t) as [[a|e] t1]; [|by eauto]. cbn [snd] in *.
  destruct (Hk a t1) as (Ho' & n' & Hn'). rewrite Ho'. split; [done|].
  exists (n' + n). by rewrite Hn', Hn, replicate_add, app_assoc.
Qed.
Lemma scoped_try {A} url (m : stM transport exn A) h :
  scoped url m → (∀ e, scoped url (h e)) → scoped url (try_except m h).
Proof.
  intros Hm Hh t. unfold try_except. destruct (Hm t) as (Ho & n & Hn).
  destruct (m t) as [[a|e] t1]; [by eauto|]. cbn [snd] in *.
  destruct (Hh e t1) as (Ho' & n' & Hn'). rewrite Ho'. split; [done|].
  exists (n' + n). by rewrite Hn', Hn, replicate_add, app_assoc.
Qed.
Create HintDb client.
#[export] Hint Resolve scoped_ret scoped_lift scoped_bind scoped_try : client.

(** The client a request must go through. *)
Definition right_client (m : option MtlsClientAuth) (managed : option HTTPClient) (c : http_client) : Prop :=
  match m, managed with
  | Some m, None => c = CertificateClient m
  | None, Some h => closed h = false ∧ c = ManagedClient (inner h)
  | None, None => c = ThreadClient
  | Some _, Some _ => False
  end.

Section CallFacts.
Context (env : string → option string) (http_date : string → option Q) (wall : Q).
Context (wall_clock : nat → Q) (uuid4 : nat → string).
Context (encode : nat → pydict → blob → string → pydict → outcome string).
Context (text_of : HttpResponse → string).
Context (is_dir : string → bool) (create_default_context : trust → outcome unit).
Context (load_cert_chain : list string → outcome unit).
Context (new_client : option string → pyfloat → outcome unit).
Context (http : nat → http_client → HttpRequest → outcome HttpResponse).

Let send_ := send env http_date wall http.
Let resolve_ := resolve_http_client env is_dir create_default_context load_cert_chain new_client.
Let prepare_ := prepare wall_clock uuid4 encode.
Let post_ := post_form env http_date wall wall_clock uuid4 encode http.
Let request_ := request env http_date wall wall_clock uuid4 encode text_of is_dir
  create_default_context load_cert_chain new_client http.

Lemma scoped_send c q : scoped (req_url q) (send_ c q).
Proof.
  intros t. unfold send_, send. rewrite on_wire_spec. split; [done|]. cbn [snd wire]. apply retry_sent.
Qed.

Lemma send_answer c q t r t' : send_ c q t = (Ok r, t') → ∃ n, http n c q = Ok r.
Proof.
  unfold send_, send. rewrite on_wire_spec. intros [= H _].
  destruct (retry_with_backoff _ _ _ _ _ _ (wire t)) as [r0 s0] eqn:E. cbn in H. subst r0.
  by apply retry_answer in E.
Qed.

(** Resolving a client sends nothing; what it opens, and only that, is closed again. *)
Lemma resolve_spec m managed t :
  match resolve_ m managed t with
  | (Ok (c, o), t') => right_client m managed c ∧ wire t' = wire t ∧
      ∀ t2, open_clients t2 = open_clients t' → open_clients (close_owned o t2) = open_clients t
  | (Err _, t') => wire t' = wire t ∧ open_clients t' = open_clients t
  end.
Proof.
  unfold resolve_, resolve_http_client. destruct m as [m|], managed as [h|]; cbn [right_client].
  - done.
  - unfold build_mtls_client, mbind, stM_bind, lift, modify.
    destruct (build_mtls_ssl_context _ _ _ _ m); [|done]. destruct (get_timeout env); [|done].
    split_and!; [done..|]. intros t2 H. unfold close_owned. cbn [open_clients] in *. by rewrite H.
  - unfold mbind, stM_bind, lift, managed_client. by destruct (closed h).
  - unfold mbind, stM_bind, get_http_client. destruct (thread_client t); [done|].
    by destruct (get_timeout env ≫= _).
Qed.

(** A body run with a resolved client. *)
Lemma with_client_scoped {A} m managed url (body : http_client → stM transport exn A) t :
  (∀ c, scoped url (body c)) →
  let run := ('(c, o) ← resolve_ m managed; finally (body c) (close_owned o)) t in
  open_clients run.2 = open_clients t ∧
  (∃ n, sent (wire run.2) = replicate n url ++ sent (wire t)) ∧
  (∀ a, run.1 = Ok a → ∃ c t1, right_client m managed c ∧ (body c t1).1 = Ok a) ∧
  (is_some m && is_some managed = true → is_ok run.1 = false ∧ wire run.2 = wire t).
Proof.
  intros Hbody. cbv zeta. unfold mbind, stM_bind. pose proof (resolve_spec m managed t) as Hr.
  destruct (resolve_ m managed t) as [[[c o]|e] t1].
  - destruct Hr as (Hc & Hw & Hclose). unfold finally. specialize (Hbody c t1) as (Ho & n & Hn).
    destruct (body c t1) as [r t2] eqn:Eb. cbn [fst snd] in *. split_and!.
    + by apply Hclose.
    + exists n. rewrite <- Hw, <- Hn. by destruct o.
    + intros a ->. exists c, t1. by rewrite Eb.
    + intros Hboth. by destruct m, managed.
  - destruct Hr as [Hw Ho]. cbn [fst snd]. rewrite Hw, Ho. split_and!; [done|by exists 0|done|done].
Qed.

Lemma scoped_post q c p : scoped (address q) (post_ q c p).
Proof.
  unfold post_, post_form. apply scoped_bind; [apply (scoped_send c (form_post (address q) p))|].
  intros r. destruct (dpop_key q); [|apply scoped_ret].
  destruct (extract_dpop_nonce r); [|apply scoped_ret].
  apply scoped_bind; [apply scoped_quiet, quiet_prepare|].
  intros p'. apply (scoped_send c (form_post (address q) p')).
Qed.

(** The reply a form was answered with: to the first request, or to the one that carries the
    nonce the first reply asked for. *)
Definition answered (q : oauth_request) (c : http_client) (p : prepared) (r : HttpResponse) : Prop :=
  ∃ n r1, http n c (form_post (address q) p) = Ok r1 ∧
  ((r = r1 ∧ (dpop_key q = None ∨ extract_dpop_nonce r1 = None)) ∨
   ∃ nonce n' p' s s', dpop_key q ≠ None ∧ extract_dpop_nonce r1 = Some nonce ∧
     prepare_ q (Some nonce) s = (Ok p', s') ∧ http n' c (form_post (address q) p') = Ok r).

Lemma post_answered q c p t r t' : post_ q c p t = (Ok r, t') → answered q c p r.
Proof.
  unfold post_, post_form, mbind, stM_bind. fold send_.
  destruct (send_ c (form_post (address q) p) t) as [[r1|] t1] eqn:E1; [|done].
  apply send_answer in E1 as [n Hn]. intros H. exists n, r1. split; [done|].
  destruct (dpop_key q) as [key|]; [|left; injection H as -> _; by eauto].
  destruct (extract_dpop_nonce r1) as [nonce|] eqn:Ex; [|left; injection H as -> _; by eauto].
  right. rewrite on_wire_spec in H.
  destruct (prepare wall_clock uuid4 encode q (Some nonce) (wire t1)) as [[p'|] w] eqn:Ep; [|done].
  apply send_answer in H as [n' Hn']. by exists nonce, n', p', (wire t1), w.
Qed.

(** The whole call, whether or not the form could be prepared. *)
Lemma request_spec q managed t :
  ∃ a t', request_ q managed t = (Ok a, t') ∧
    open_clients t' = open_clients t ∧
    (∃ n, sent (wire t') = replicate n (address q) ++ sent (wire t)) ∧
    ((∃ e, a = handle q e) ∨
     ∃ p w c r, prepare_ q None (wire t) = (Ok p, w) ∧ right_client (mtls (client q)) managed c ∧
       answered q c p r ∧ process text_of q r = Ok a) ∧
    (is_some (mtls (client q)) && is_some managed = true ∨ is_ok (prepare_ q None (wire t)).1 = false →
     (∃ e, a = handle q e) ∧ sent (wire t') = sent (wire t)).
Proof.
  unfold request_, request, try_except, mbind at 1, stM_bind at 1. rewrite on_wire_spec. fold prepare_.
  pose proof (quiet_prepare wall_clock uuid4 encode q None (wire t)) as Hquiet. fold prepare_ in Hquiet.
  destruct (prepare_ q None (wire t)) as [[p|e] w] eqn:Ep; cbn [fst snd] in *.
  - set (t0 := Transport w (thread_client t) (open_clients t)).
    assert (Hbody : ∀ c, scoped (address q) (response ← post_ q c p; lift (process text_of q response))).
    { intros c. apply scoped_bind; [apply scoped_post|intros r; apply scoped_lift]. }
    destruct (with_client_scoped (mtls (client q)) managed (address q) _ t0 Hbody) as (Ho & Hs & Ha & Hb).
    fold post_ resolve_. revert Ho Hs Ha Hb.
    destruct (mbind (M:=stM transport exn) _ (resolve_ (mtls (client q)) managed) t0) as [[a|e] t'];
      cbn [fst snd is_ok]; intros Ho Hs Ha Hb.
    + exists a, t'. unfold t0 in *. cbn [wire open_clients] in *. rewrite Hquiet in Hs.
      split_and!; [done..| |].
      * right. destruct (Ha a eq_refl) as (c & t1 & Hc & H). unfold mbind, stM_bind in H.
        destruct (post_ q c p t1) as [[r|] t2] eqn:E; [|done]. apply post_answered in E.
        by exists p, w, c, r.
      * intros [H|[=]]. by destruct (Hb H).
    + exists (handle q e), t'. unfold t0 in *. cbn [wire open_clients] in *. rewrite Hquiet in Hs.
      split_and!; [done..|by left; exists e|].
      intros [H|[=]]. split; [by exists e|]. destruct (Hb H) as [_ ->]. cbn [wire]. done.
  - exists (handle q e). eexists. split_and!; [done|done| | |].
    + exists 0. cbn [wire]. by rewrite Hquiet.
    + left. by exists e.
    + intros _. split; [by exists e|]. by cbn [wire].
Qed.
End CallFacts.

Section UserInfoFacts.
Context (env : string → option string) (http_date : string → option Q) (wall : Q).
Context (wall_clock : nat → Q) (uuid4 : nat → string).
Context (encode : nat → pydict → blob → string → pydict → outcome string).
Context (text_of : HttpResponse → string).
Context (is_dir : string → bool) (create_default_context : trust → outcome unit).
Context (load_cert_chain : list string → outcome unit).
Context (new_client : option string → pyfloat → outcome unit).
Context (http : nat → http_client → HttpRequest → outcome HttpResponse).

Let headers_ := prepare_userinfo_headers wall_clock uuid4 encode.

Lemma quiet_userinfo_headers r nonce : quiet (headers_ r nonce).
Proof. unfold headers_, prepare_userinfo_headers. destruct (ui_dpop_key r); auto with quiet. Qed.

(** A failure to prepare the headers is a [ValueError] or what encoding the key raised, and can
    only come from a DPoP proof. *)
Lemma userinfo_headers_plain r nonce s :
  ui_dpop_key r = None →
  headers_ r nonce s = (Ok [("Authorization", VStr ("Bearer " +:+ ui_token r))], s).
Proof. intros H. unfold headers_, prepare_userinfo_headers. by rewrite H. Qed.

(** The reply the claims were read from. *)
Definition userinfo_answer (r : UserInfoRequest) (c : http_client) (headers : pydict)
    (reply : HttpResponse) : Prop :=
  ∃ n h, http n c (userinfo_get (ui_address r) h) = Ok reply ∧
    (h = headers ∨ ui_dpop_key r ≠ None ∧ ∃ nonce s s', headers_ r (Some nonce) s = (Ok h, s')).

Lemma get_userinfo_run r managed t :
  let run := get_userinfo env http_date wall wall_clock uuid4 encode text_of is_dir
    create_default_context load_cert_chain new_client http r managed t in
  match headers_ r None (wire t) with
  | (Err e, w) => run = (Err e, Transport w (thread_client t) (open_clients t))
  | (Ok headers, w) => ∃ a t', run = (Ok a, t') ∧ open_clients t' = open_clients t ∧
      (∃ n, sent (wire t') = replicate n (ui_address r) ++ sent (wire t)) ∧
      (is_successful a = true → ∃ c reply, right_client (ui_mtls r) managed c ∧
         userinfo_answer r c headers reply ∧
         validate_userinfo_sub (process_userinfo_response text_of reply) (ui_expected_sub r) = Ok a)
  end.
Proof.
  cbv zeta. unfold get_userinfo. rewrite stM_bind_run, on_wire_spec. fold headers_.
  pose proof (quiet_userinfo_headers r None (wire t)) as Hquiet.
  destruct (headers_ r None (wire t)) as [[headers|e] w] eqn:Eh; cbn [fst snd] in *; [|done].
  set (t0 := Transport w (thread_client t) (open_clients t)).
  match goal with |- context [try_except (resolve_http_client ?e ?d ?cc ?l ?n _ _ ≫= _) ?h t0] =>
    pose (body := λ c, (response ← send env http_date wall http c (userinfo_get (ui_address r) headers);
        response ← match ui_dpop_key r, extract_dpop_nonce response with
                   | Some _, Some nonce =>
                       headers' ← on_wire (headers_ r (Some nonce));
                       send env http_date wall http c (userinfo_get (ui_address r) headers')
                   | _, _ => mret response
                   end;
        lift (validate_userinfo_sub (process_userinfo_response text_of response) (ui_expected_sub r)))
      : stM transport exn BaseResponse) end.
  assert (Hbody : ∀ c, scoped (ui_address r) (body c)).
  { intros c. apply scoped_bind; [apply (scoped_send _ _ _ _ c (userinfo_get (ui_address r) headers))|].
    intros r1. apply scoped_bind; [|intros r2; apply scoped_lift].
    destruct (ui_dpop_key r); [|apply scoped_ret].
    destruct (extract_dpop_nonce r1); [|apply scoped_ret].
    apply scoped_bind; [apply scoped_quiet, quiet_userinfo_headers|].
    intros h. apply (scoped_send _ _ _ _ c (userinfo_get (ui_address r) h)). }
  destruct (with_client_scoped env is_dir create_default_context load_cert_chain new_client
    (ui_mtls r) managed (ui_address r) body t0 Hbody) as (Ho & Hs & Ha & _).
  unfold try_except. revert Ho Hs Ha. subst body. cbv beta.
  destruct (mbind (M:=stM transport exn) _ (resolve_http_client env is_dir create_default_context
    load_cert_chain new_client (ui_mtls r) managed) t0) as [[a|e] t'];
    cbn [fst snd]; unfold t0; cbn [wire open_clients]; rewrite Hquiet; intros Ho Hs Ha.
  - exists a, t'. split_and!; [done..|]. intros _.
    destruct (Ha a eq_refl) as (c & t1 & Hc & H). exists c. unfold mbind, stM_bind in H.
    destruct (send env http_date wall http c _ t1) as [[r1|] t2] eqn:E1; [|done].
    apply send_answer in E1 as [n Hn].
    assert (Hplain : (validate_userinfo_sub (process_userinfo_response text_of r1) (ui_expected_sub r) = Ok a) →
      ∃ reply, right_client (ui_mtls r) managed c ∧ userinfo_answer r c headers reply ∧
        validate_userinfo_sub (process_userinfo_response text_of reply) (ui_expected_sub r) = Ok a).
    { intros Hv. exists r1. split_and!; [done| |done]. exists n, headers. split; [done|by left]. }
    destruct (ui_dpop_key r) as [key|] eqn:Ek; [|by apply Hplain].
    destruct (extract_dpop_nonce r1) as [nonce|] eqn:Ex; [|by apply Hplain].
    rewrite on_wire_spec in H.
    destruct (headers_ r (Some nonce) (wire t2)) as [[h|] w2] eqn:Eh2; [|done]. cbn [fst snd] in H.
    destruct (send env http_date wall http c (userinfo_get (ui_address r) h) _) as [[r2|] t3] eqn:E2; [|done].
    apply send_answer in E2 as [n2 Hn2]. exists r2. split_and!; [done| |done].
    exists n2, h. split; [done|right]. rewrite Ek. split; [done|]. by exists nonce, (wire t2), w2.
  - exists (handle_userinfo_error e), t'. split_and!; [done..|].
    intros H. destruct (handle_failed UserInfoResponse "UserInfo request" e) as [_ Hf].
    unfold handle_userinfo_error in H. congruence.
Qed.
End UserInfoFacts.

(** A successful UserInfo response is either the text of a JWT or the JSON of a 2xx reply. *)
Lemma process_userinfo_ok text_of reply :
  let a := process_userinfo_response text_of reply in
  is_successful a = true → is_success reply = true ∧
  if media_type reply ≟ "application/jwt"
  then raw_attr a "raw" = VStr (text_of reply) ∧ raw_attr a "claims" = VNone
  else raw_attr a "raw" = VNone ∧ resp_json reply = Ok (raw_attr a "claims").
Proof.
  cbv zeta. unfold process_userinfo_response, parse_userinfo_response, json_of.
  destruct (is_success reply); cbn [negb]; [|done].
  destruct (media_type reply ≟ "application/jwt"); [done|].
  destruct (resp_json reply) as [v|m]; done.
Qed.

(** ** Theorems *)

(** The client functions of the nine OAuth endpoints never raise, and clean up.  Every call
    returns a response; the clients open afterwards are those open before; everything sent went
    to the request's own address.  A success was prepared from this request, sent through the
    client the request calls for (the certificate's when it configures mutual TLS), and is what
    the endpoint's reply, the one to the nonce-carrying retry if the first asked for a nonce, was
    turned into.  A request that cannot be prepared, or that combines mutual TLS with a managed
    client, fails without sending anything. *)
Theorem oauth_requests_total env http_date wall wall_clock uuid4 encode text_of is_dir
    create_default_context load_cert_chain new_client http q managed t :
  let prep := prepare wall_clock uuid4 encode q None (wire t) in
  ∃ a t', request env http_date wall wall_clock uuid4 encode text_of is_dir create_default_context
      load_cert_chain new_client http q managed t = (Ok a, t') ∧
    open_clients t' = open_clients t ∧
    (∃ n, sent (wire t') = replicate n (address q) ++ sent (wire t)) ∧
    (is_successful a = true → ∃ p w c r, prep = (Ok p, w) ∧
       right_client (mtls (client q)) managed c ∧
       answered wall_clock uuid4 encode http q c p r ∧ process text_of q r = Ok a) ∧
    (is_some (mtls (client q)) && is_some managed = true ∨ is_ok prep.1 = false →
       is_successful a = false ∧ sent (wire t') = sent (wire t)).
Proof.
  cbv zeta. destruct (request_spec env http_date wall wall_clock uuid4 encode text_of is_dir
    create_default_context load_cert_chain new_client http q managed t)
    as (a & t' & Heq & Ho & Hs & Ha & Hr).
  exists a, t'. split_and!; [done..| |].
  - intros Hok. destruct Ha as [[e ->]|Ha]; [|done]. destruct (handle_class q e). congruence.
  - intros H. destruct (Hr H) as [[e ->] Hsent]. split; [apply handle_class|done].
Qed.

(** A UserInfo success is about the expected subject.  When the caller gives the subject of
    its ID token and [get_userinfo] answers with success, the reply was a 2xx obtained through the
    client the request calls for, and either it is a JWT, which the caller has to decode and
    check, or its claims are a JSON object whose [sub] is exactly the expected one.  The call
    sends only to the request's address and closes what it opened; it raises only when the DPoP
    proof of its first request cannot be made, before anything is sent. *)
Theorem userinfo_sub_checked env http_date wall wall_clock uuid4 encode text_of is_dir
    create_default_context load_cert_chain new_client http r managed t :
  match get_userinfo env http_date wall wall_clock uuid4 encode text_of is_dir
    create_default_context load_cert_chain new_client http r managed t with
  | (Err e, t') => ui_dpop_key r ≠ None ∧ sent (wire t') = sent (wire t) ∧
      (prepare_userinfo_headers wall_clock uuid4 encode r None (wire t)).1 = Err e
  | (Ok a, t') => open_clients t' = open_clients t ∧
      (∃ n, sent (wire t') = replicate n (ui_address r) ++ sent (wire t)) ∧
      ∀ sub, ui_expected_sub r = VStr sub → is_successful a = true →
        ∃ c headers reply, right_client (ui_mtls r) managed c ∧
          userinfo_answer wall_clock uuid4 encode http r c headers reply ∧ is_success reply = true ∧
          ((media_type reply = "application/jwt" ∧ raw_attr a "raw" = VStr (text_of reply)) ∨
           ∃ d, resp_json reply = Ok (VDict d) ∧ raw_attr a "claims" = VDict d ∧
             dget "sub" d = VStr sub)
  end.
Proof.
  pose proof (get_userinfo_run env http_date wall wall_clock uuid4 encode text_of is_dir
    create_default_context load_cert_chain new_client http r managed t) as H. cbv zeta in H.
  pose proof (quiet_userinfo_headers wall_clock uuid4 encode r None (wire t)) as Hq.
  destruct (prepare_userinfo_headers wall_clock uuid4 encode r None (wire t)) as [[h|e] w] eqn:Eh.
  - destruct H as (a & t' & -> & Ho & Hs & Hv). split_and!; [done..|].
    intros sub Hsub Hok. destruct (Hv Hok) as (c & reply & Hc & Hans & Hval).
    rewrite Hsub in Hval. apply userinfo_sub_ok in Hval as (-> & Hsucc & Hor); [|done].
    destruct (process_userinfo_ok text_of reply Hsucc) as [Hst Hbody].
    exists c, h, reply. split_and!; [done..|].
    destruct (media_type reply ≟ "application/jwt") eqn:Em; cbn in Em.
    + left. apply bool_decide_eq_true in Em. destruct Hbody as [Hraw _]. done.
    + right. destruct Hbody as [Hraw Hjson]. destruct Hor as [Hr|(d & Hd & Hds)]; [done|].
      exists d. by rewrite Hjson, Hd.
  - rewrite H. split_and!; [|exact Hq|done]. intros Hnone.
    by rewrite (userinfo_headers_plain _ _ _ r None (wire t) Hnone) in Eh.
Qed.
