(* ===== verification/Lifecycle.v ===== *)
(** * The shared asynchronous client ([aio/http_client.py])

    [get_async_http_client] and [close_async_http_client] cut at every reading and writing of
    [_state], with the two locks of the file, which are not of one kind.
    [_async_client_creation_lock] is a [threading.Lock]: it excludes any two threads.
    [_cleanup_lock] is an [asyncio.Lock]: a lock among the tasks of one event loop.  It binds to the
    loop on which it is first waited for, raises [RuntimeError] where it is waited for on another
    one, and is not safe for threads; so it is a lock here for the tasks of one loop only,
    [CleanupLock loop], what it does between loops is not modelled, and the theorems about closing
    are about programs that close on one loop, whatever the number of threads and loops on which
    they get clients.  AioClients, where clients are never closed under way, takes the first
    function as one step.

    Parameters: [new_client], the constructor of [httpx.AsyncClient], and [aclose], how the closing
    of the n-th client made ends once it has been marked closed, which [httpx] does first. *)

From S2P Require Import Prelude PyStr PyValue Models Url HttpRetry Clients Coro Rely.
From Stdlib Require Import QArith.
From stdpp Require Import relations strings.
#[global] Close Scope Q_scope.
Open Scope string_scope.
Open Scope list_scope.
Open Scope nat_scope.

(** The client in [_state], and for each client ever made whether it is open. *)
Record Slot : Type := ClientSlot { client : option nat; open_clients : list bool }.
(** [_async_client_creation_lock], for all threads, and [_cleanup_lock], as the tasks of one event
    loop see it. *)
Inductive client_lock : Type := CreationLock | CleanupLock (loop : nat).
#[global] Instance client_lock_eq_dec : EqDecision client_lock.
Proof. solve_decision. Defined.

Abbreviation LC := (coro client_lock Slot).

Definition open_client (s : Slot) : Slot :=
  ClientSlot (Some (length (open_clients s))) (open_clients s ++ [true]).
Definition mark_closed (i : nat) (s : Slot) : Slot := ClientSlot (client s) (<[i := false]> (open_clients s)).
Definition clear_slot (s : Slot) : Slot := ClientSlot None (open_clients s).

(** What a program does with the slot; a close is a coroutine, run by some event loop. *)
Inductive client_op : Type := GetClient | CloseClient (loop : nat).

Section Steps.
Context (env : string → option string) (new_client : option string → pyfloat → outcome unit)
  (aclose : nat → outcome unit).

Definition read_state : LC (option nat) := atom (gets client).

(** [_state["client"]] is read anew for the result. *)
Definition get_async_http_client_steps : LC (option nat) :=
  c ← read_state;
  match c with
  | Some _ => read_state
  | None =>
      with_lock CreationLock
        (c ← read_state;
         match c with
         | Some _ => read_state
         | None =>
             _ ← pure (timeout ← get_timeout env; new_client (get_ssl_verify env) timeout);
             _ ← atom (modify open_client);
             read_state
         end)
  end.

(** On the event loop [loop]. *)
Definition close_async_http_client (loop : nat) : LC (option nat) :=
  c ← read_state;
  match c with
  | None => mret None
  | Some _ =>
      with_lock (CleanupLock loop)
        (c ← read_state;
         match c with
         | None => mret None
         | Some _ =>
             c ← read_state;
             match c with
             | None => mthrow (AttributeError VNone "aclose")
             | Some i =>
                 _ ← atom (modify (mark_closed i));
                 _ ← atom (mret ());
                 _ ← pure (aclose i);
                 _ ← atom (modify clear_slot);
                 mret None
             end
         end)
  end.

(** For tests, after a close. *)
Definition reset_async_http_client : LC unit := with_lock CreationLock (atom (modify clear_slot)).

Definition client_call (op : client_op) : LC (option nat) :=
  match op with GetClient => get_async_http_client_steps | CloseClient loop => close_async_http_client loop end.

Definition client_pool (ops : list client_op) : pool client_lock Slot (option nat) :=
  start (map client_call ops) (ClientSlot None []).
End Steps.

(** ** The invariant and what each lock allows

    [home] is the event loop on which the program closes. *)

(** Only the client in the slot is open, and it is the last one made. *)
Definition slot_ok (s : Slot) : Prop :=
  (∀ i, client s = Some i → length (open_clients s) = S i) ∧
  (∀ i, open_clients s !! i = Some true → client s = Some i).

(** Clients are made and closed, and stay closed. *)
Definition clients_grow (s s' : Slot) : Prop :=
  ∀ i b, open_clients s !! i = Some b → ∃ b', open_clients s' !! i = Some b' ∧ (b' = true → b = true).

(** Without the creation lock no client is made, and the slot can only be emptied; without the
    cleanup lock of [home] the client in the slot stays there, as it is. *)
Definition client_rely (home : nat) (l : client_lock) (s s' : Slot) : Prop :=
  match l with
  | CreationLock => (client s' = client s ∨ client s' = None) ∧ length (open_clients s') = length (open_clients s)
  | CleanupLock loop => loop = home →
      ∀ i, client s = Some i → client s' = Some i ∧ open_clients s' !! i = open_clients s !! i
  end.

#[global] Instance clients_grow_pre : PreOrder clients_grow.
Proof.
  split.
  - intros s i b Hb. by exists b.
  - intros s1 s2 s3 H1 H2 i b Hb. destruct (H1 i b Hb) as (b1 & Hb1 & ?).
    destruct (H2 i b1 Hb1) as (b2 & Hb2 & ?). exists b2. split; [done|]. auto.
Qed.
#[global] Instance client_rely_pre home l : PreOrder (client_rely home l).
Proof.
  destruct l; split; cbn; unfold Reflexive, Transitive; cbn.
  - intros s. split; [by left|done].
  - intros s1 s2 s3 [H1 H2] [H3 H4]. split; [|congruence]. destruct H3 as [-> | ->]; [done|by right].
  - intros s _ i Hi. done.
  - intros s1 s2 s3 H1 H2 Hl i Hi. destruct (H1 Hl i Hi) as [Hi2 <-]. by apply H2.
Qed.

Abbreviation client_relied home := (relied slot_ok clients_grow (client_rely home)).

(** *** Steps *)

Lemma read_relied home own last (Q : list (client_lock * Slot) → Slot → outcome (option nat) → Prop) :
  (∀ s, slot_ok s → clients_grow last s → up_to_date (client_rely home) own s → Q (refresh s own) s (Ok (client s))) →
  client_relied home own last Q read_state.
Proof.
  intros H s HV HG Hu. split_and!; [done|reflexivity|by intros l _|]. by apply H.
Qed.

Lemma open_ok home loop s :
  slot_ok s → client s = None →
  slot_ok (open_client s) ∧ clients_grow s (open_client s) ∧ client_rely home (CleanupLock loop) s (open_client s).
Proof.
  intros [_ H2] Hc. split_and!.
  - split; cbn.
    + intros i [= <-]. rewrite length_app. cbn. lia.
    + intros i Hi. apply lookup_app_Some in Hi as [Hi|[Hle Hi]]; [by rewrite (H2 i Hi) in Hc|].
      apply list_lookup_singleton_Some in Hi as [Hi _]. f_equal. lia.
  - intros i b Hb. exists b. split; [|done]. cbn. by apply lookup_app_l_Some.
  - intros _ i Hi. congruence.
Qed.

Lemma mark_ok home i s :
  slot_ok s → slot_ok (mark_closed i s) ∧ clients_grow s (mark_closed i s) ∧
    client_rely home CreationLock s (mark_closed i s).
Proof.
  intros [H1 H2]. split_and!.
  - split; cbn; [intros j; rewrite length_insert; apply H1|]. intros j Hj.
    destruct (decide (i = j)) as [<-|Hne]; [|rewrite list_lookup_insert_ne in Hj by done; by apply H2].
    destruct (decide (i < length (open_clients s))) as [Hlt|Hge].
    + by rewrite list_lookup_insert_eq in Hj.
    + rewrite list_insert_ge in Hj by lia. by apply H2.
  - intros j b Hb. cbn. destruct (decide (i = j)) as [<-|Hne].
    + exists false. split; [|done]. apply list_lookup_insert_eq. by eapply lookup_lt_Some.
    + exists b. by rewrite list_lookup_insert_ne.
  - cbn. by rewrite length_insert; split; [left|].
Qed.

Lemma clear_ok home i s :
  slot_ok s → client s = Some i → open_clients s !! i = Some false →
  slot_ok (clear_slot s) ∧ clients_grow s (clear_slot s) ∧ client_rely home CreationLock s (clear_slot s).
Proof.
  intros [H1 H2] Hc Hi. split_and!; [|intros j b Hb; by exists b|by cbn; split; [right|]].
  split; cbn; [done|]. intros j Hj. pose proof (H2 j Hj). by simplify_eq.
Qed.

(** *** The calls *)

Section Calls.
Context (env : string → option string) (new_client : option string → pyfloat → outcome unit)
  (aclose : nat → outcome unit) (home : nat).

(** A client that was handed out had been made. *)
Definition get_post (last : Slot) (r : outcome (option nat)) : Prop :=
  ∀ i, r = Ok (Some i) → i < length (open_clients last).

(** Once the slot has been closed, nothing is open. *)
Definition close_post (last : Slot) (r : outcome (option nat)) : Prop :=
  match r with
  | Ok c => c = None ∧ ∀ i, open_clients last !! i ≠ Some true
  | Err e => ∃ i, aclose i = Err e
  end.

Lemma slot_made s i : slot_ok s → client s = Some i → i < length (open_clients s).
Proof. intros [H1 _] Hc. rewrite (H1 i Hc). lia. Qed.
Lemma slot_empty s : slot_ok s → client s = None → ∀ i, open_clients s !! i ≠ Some true.
Proof. intros [_ H2] Hc i Hi. by rewrite (H2 i Hi) in Hc. Qed.

Lemma read_made own last :
  client_relied home own last (λ own' last r, own'.*1 = own.*1 ∧ get_post last r) read_state.
Proof.
  apply read_relied. intros s HV _ _. split; [apply refresh_locks|]. intros i [= Hi]. by apply slot_made.
Qed.

Lemma get_relied s0 :
  client_relied home [] s0 (λ own last r, own.*1 = [] ∧ get_post last r)
    (get_async_http_client_steps env new_client).
Proof.
  unfold get_async_http_client_steps. apply (relied_bind _ _ _ _ _ (λ own _ _, own = [])); [by apply read_relied|].
  intros own s1 [i|] ->; [apply (read_made [])|].
  apply (relied_with_lock _ _ _ CreationLock []); [apply not_elem_of_nil|]. intros s2 _ _ _.
  apply (relied_bind _ _ _ _ _ (λ own last c, own = [(CreationLock, last)] ∧ c = client last)).
  { by apply read_relied. }
  intros own s3 c [-> ->]. destruct (client s3) as [i|] eqn:Ec; [apply (read_made [(CreationLock, s3)])|].
  destruct (timeout ← get_timeout env; new_client (get_ssl_verify env) timeout) as [[]|e]; [|by split].
  intros s4 HV4 _ Hu4. assert (client s4 = None) as Hc4.
  { destruct (Hu4 CreationLock s3 ltac:(by left)) as [[->| ->] _]; done. }
  destruct (open_ok home home s4 HV4 Hc4) as (H1 & H2 & _). split_and!; [done|done| |].
  { intros [|loop] Hno; [contradict Hno; by left|]. by apply open_ok. }
  apply (read_made [(CreationLock, open_client s4)]).
Qed.

(** Holding the cleanup lock, a step need only keep what the creation lock is for. *)
Lemma home_held (own : list client_lock) s s' :
  client_rely home CreationLock s s' → CleanupLock home ∈ own → ∀ l, l ∉ own → client_rely home l s s'.
Proof. intros Hc Hh [|loop] Hl; [exact Hc|]. intros ->. by contradict Hl. Qed.

Lemma close_relied s0 :
  client_relied home [] s0 (λ own last r, own.*1 = [] ∧ close_post last r) (close_async_http_client aclose home).
Proof.
  unfold close_async_http_client.
  apply (relied_bind _ _ _ _ _ (λ own last c, own = [] ∧ slot_ok last ∧ c = client last)); [by apply read_relied|].
  intros own s1 c (-> & HV1 & ->). destruct (client s1) as [i|] eqn:Ec; [|by split; [|split; [|apply slot_empty]]].
  apply (relied_with_lock _ _ _ (CleanupLock home) []); [apply not_elem_of_nil|]. intros s2 _ _ _.
  apply (relied_bind _ _ _ _ _ (λ own last c, own = [(CleanupLock home, last)] ∧ slot_ok last ∧ c = client last));
    [by apply read_relied|].
  intros own s3 c (-> & HV3 & ->). destruct (client s3) as [j|] eqn:Ec3; [|by split; [|split; [|apply slot_empty]]].
  apply (relied_bind _ _ _ _ _ (λ own last c, own = [(CleanupLock home, last)] ∧ c = Some j ∧ client last = Some j)).
  { apply read_relied. intros s4 _ _ Hu. destruct (Hu (CleanupLock home) s3 ltac:(by left) eq_refl j Ec3) as [-> _]. done. }
  intros own s4 c (-> & -> & Hc4).
  intros s5 HV5 _ Hu5. destruct (mark_ok home j s5 HV5) as (H1 & H2 & H3). split_and!; [done|done| |].
  { apply home_held; [exact H3|by left]. }
  destruct (Hu5 (CleanupLock home) s4 ltac:(by left) eq_refl j Hc4) as [Hc5 _].
  assert (Hm : client (mark_closed j s5) = Some j ∧ open_clients (mark_closed j s5) !! j = Some false).
  { split; [done|]. cbn. apply list_lookup_insert_eq. by apply slot_made. }
  intros s6 HV6 _ Hu6. split_and!; [done|reflexivity|by intros l _|].
  destruct (aclose j) as [[]|e] eqn:Ea; [|by split; [|exists j]].
  intros s7 HV7 _ Hu7. destruct Hm as [Hm1 Hm2].
  destruct (Hu6 (CleanupLock home) _ ltac:(by left) eq_refl j Hm1) as [H6 H6']. cbn [snd modify] in H6'. rewrite Hm2 in H6'.
  destruct (Hu7 (CleanupLock home) _ ltac:(by left) eq_refl j H6) as [H7 H7']. cbn [snd mret stM_ret] in H7'. rewrite H6' in H7'.
  destruct (clear_ok home j s7 HV7 H7 H7') as (K1 & K2 & K3). split_and!; [done|done| |].
  { apply home_held; [exact K3|by left]. }
  split; [done|]. split; [done|]. by apply slot_empty.
Qed.
End Calls.

(** ** Properties *)

Definition client_post aclose (op : client_op) : Slot → outcome (option nat) → Prop :=
  match op with GetClient => get_post | CloseClient _ => close_post aclose end.
Definition closes_on (home : nat) (ops : list client_op) : Prop :=
  ∀ loop, CloseClient loop ∈ ops → loop = home.

Lemma client_call_relied env new_client aclose home op s0 :
  (∀ loop, op = CloseClient loop → loop = home) →
  client_relied home [] s0 (λ own last r, own.*1 = [] ∧ client_post aclose op last r)
    (client_call env new_client aclose op).
Proof. destruct op as [|loop]; [intros _; apply get_relied|]. intros H. rewrite (H loop eq_refl). apply close_relied. Qed.

Lemma client_pool_relied env new_client aclose home ops p :
  closes_on home ops → rtc moves (client_pool env new_client aclose ops) p →
  relied_pool slot_ok clients_grow (client_rely home) (map (client_post aclose) ops) p.
Proof.
  intros Hon Hr. eapply (relied_reach slot_ok clients_grow (client_rely home)); [exact Hr|].
  apply (relied_start slot_ok clients_grow (client_rely home)); [split; cbn; [done|by intros i]|].
  apply Forall2_fmap, Forall_Forall2_diag, Forall_forall. intros op Hop. apply client_call_relied.
  intros loop ->. by apply Hon.
Qed.

(** C13: the shared asynchronous client under every schedule of calls that get it, from any number
    of threads and event loops, and calls that close it, all on one event loop.  At any moment only the client in the slot can be open,
    so none is leaked; a client that a call was handed had been made; a close fails only with what
    [aclose] raised; and when one returns, every client made before it was called is closed. *)
Theorem client_lifecycle env new_client aclose home ops order order' :
  closes_on home ops →
  let p0 := schedule order (client_pool env new_client aclose ops) in
  let p := schedule order' p0 in
  (∀ i, open_clients (shared p) !! i = Some true → client (shared p) = Some i) ∧
  (∀ n i, ops !! n = Some GetClient → results p !! n = Some (Some (Ok (Some i))) →
     i < length (open_clients (shared p))) ∧
  (∀ n loop e, ops !! n = Some (CloseClient loop) → results p !! n = Some (Some (Err e)) → ∃ i, aclose i = Err e) ∧
  (∀ n loop c, ops !! n = Some (CloseClient loop) → results p !! n = Some (Some (Ok c)) → n ∉ order →
     c = None ∧ ∀ i, i < length (open_clients (shared p0)) → open_clients (shared p) !! i = Some false).
Proof.
  intros Hon. cbn zeta. set (start := client_pool env new_client aclose ops). set (p0 := schedule order start).
  set (p := schedule order' p0).
  assert (H0 : relied_pool slot_ok clients_grow (client_rely home) (map (client_post aclose) ops) p0)
    by (apply (client_pool_relied env new_client); [done|apply schedule_moves]).
  assert (Hmoves : rtc moves p0 p) by apply schedule_moves.
  assert (Hp : relied_pool slot_ok clients_grow (client_rely home) (map (client_post aclose) ops) p)
    by by eapply (relied_reach slot_ok clients_grow (client_rely home)).
  assert (Hres : ∀ n op r, ops !! n = Some op → results p !! n = Some (Some r) →
    ∃ last, client_post aclose op last r ∧ clients_grow last (shared p)).
  { intros n op r Hop Hr. destruct (relied_result slot_ok clients_grow (client_rely home) _ _ _ _ Hp Hr) as (Q & last & HQ & Hpost & HG).
    apply list_lookup_fmap_Some in HQ as (op' & -> & Hop'). simplify_eq. by exists last. }
  split_and!.
  - destruct Hp as [[_ H] _]. exact H.
  - intros n i Hop Hr. destruct (Hres n _ _ Hop Hr) as (last & Hpost & HG).
    specialize (Hpost i eq_refl). apply lookup_lt_is_Some in Hpost as [b Hb].
    destruct (HG i b Hb) as (b' & Hb' & _). by eapply lookup_lt_Some.
  - intros n loop e Hop Hr. by destruct (Hres n _ _ Hop Hr) as (last & Hpost & _).
  - intros n loop c Hop Hr Hn.
    assert (Ht : tasks p0 !! n = Some (client_call env new_client aclose (CloseClient loop), [])).
    { unfold p0. rewrite schedule_still by done. apply list_lookup_fmap_Some.
      eexists. split; [done|]. apply list_lookup_fmap_Some. by exists (CloseClient loop). }
    assert (loop = home) as -> by (apply Hon; by eapply list_elem_of_lookup_2).
    pose proof (relied_restart slot_ok clients_grow (client_rely home) _ _ _ _ _ H0 Ht
      (client_call_relied _ _ _ home (CloseClient home) _ ltac:(by intros loop [= ->]))) as H1.
    eapply (relied_reach slot_ok clients_grow (client_rely home)) in H1; [|exact Hmoves].
    destruct (relied_result slot_ok clients_grow (client_rely home) _ _ _ _ H1 Hr) as (Q & last & HQ & Hpost & HG).
    rewrite list_lookup_insert_eq in HQ by (rewrite length_map; by eapply lookup_lt_Some).
    injection HQ as <-. destruct Hpost as [[-> Hclosed] H2]. split; [done|]. intros i Hi.
    apply lookup_lt_is_Some in Hi as [b Hb]. destruct (H2 i b Hb) as (b1 & Hb1 & _).
    destruct (HG i b1 Hb1) as (b2 & Hb2 & Hle). rewrite Hb2. f_equal.
    destruct b2; [|done]. specialize (Hclosed i). rewrite Hb1, (Hle eq_refl) in Hclosed. done.
Qed.

(** *** Gets alone *)

(** No client yet, or the one client. *)
Definition one_client (s : Slot) : Prop := s = ClientSlot None [] ∨ s = ClientSlot (Some 0) [true].
Definition slot_stays (s s' : Slot) : Prop := client s = Some 0 → s' = s.
Definition creators (l : client_lock) (s s' : Slot) : Prop :=
  match l with CreationLock => s' = s | CleanupLock _ => True end.

#[global] Instance slot_stays_pre : PreOrder slot_stays.
Proof.
  split; [by intros s|]. intros s1 s2 s3 H1 H2 Hc. rewrite <- (H1 Hc). apply H2. by rewrite (H1 Hc).
Qed.
#[global] Instance creators_pre l : PreOrder (creators l).
Proof. destruct l; split; cbn; unfold Reflexive, Transitive; cbn; (done || congruence). Qed.

(** Every get that returns, returns the one client; one that fails, failed to make it. *)
Definition singleton_post (made : outcome unit) (last : Slot) (r : outcome (option nat)) : Prop :=
  match r with
  | Ok c => c = Some 0 ∧ last = ClientSlot (Some 0) [true]
  | Err e => made = Err e
  end.

Lemma get_singleton env new_client s0 :
  relied one_client slot_stays creators [] s0
    (λ own last r, own.*1 = [] ∧
       singleton_post (timeout ← get_timeout env; new_client (get_ssl_verify env) timeout) last r)
    (get_async_http_client_steps env new_client).
Proof.
  set (made := timeout ← get_timeout env; new_client (get_ssl_verify env) timeout).
  assert (Hsee : ∀ own last, relied one_client slot_stays creators own last (λ own' last r,
    own' = refresh last own ∧ one_client last ∧ r = Ok (client last)) read_state).
  { intros own last s HV _ Hu. split_and!; [done|reflexivity|by intros l _|done..]. }
  assert (Hagain : ∀ own last, last = ClientSlot (Some 0) [true] →
    relied one_client slot_stays creators own last
      (λ own' last r, own'.*1 = own.*1 ∧ singleton_post made last r) read_state).
  { intros own last -> s HV HG Hu. rewrite (HG eq_refl). split_and!; [by right|reflexivity|by intros l _|].
    split; [apply refresh_locks|done]. }
  unfold get_async_http_client_steps.
  apply (relied_bind _ _ _ _ _ (λ own last c, own = [] ∧ one_client last ∧ c = client last)).
  { eapply relied_post; [apply Hsee|]. intros own last r (-> & HV & ->). done. }
  intros own s1 c (-> & [->| ->] & ->); cbn [client]; [|by apply (Hagain [])].
  apply (relied_with_lock _ _ _ CreationLock []); [apply not_elem_of_nil|]. intros s2 _ _ _.
  apply (relied_bind _ _ _ _ _ (λ own last c, own = [(CreationLock, last)] ∧ one_client last ∧ c = client last)).
  { eapply relied_post; [apply Hsee|]. intros own last r (-> & HV & ->). done. }
  intros own s3 c (-> & Hs3 & ->). destruct Hs3 as [->| ->]; cbn [client]; [|by apply (Hagain [(CreationLock, _)])].
  fold made. destruct made as [[]|e]; [|done].
  intros s4 _ _ Hu4. pose proof (Hu4 CreationLock _ ltac:(by left)) as Hs4. cbn in Hs4. subst s4.
  split_and!; [by right|by intros [=]| |by apply (Hagain [(CreationLock, _)])].
  intros [] Hno; [|done]. contradict Hno. by left.
Qed.

(** Without a close, every call of any thread gets the same client, the only one made and open. *)
Theorem client_singleton env new_client aclose gets order n :
  let p := schedule order (client_pool env new_client aclose (replicate gets GetClient)) in
  (∀ c, results p !! n = Some (Some (Ok c)) → c = Some 0 ∧ shared p = ClientSlot (Some 0) [true]) ∧
  (∀ e, results p !! n = Some (Some (Err e)) →
     (timeout ← get_timeout env; new_client (get_ssl_verify env) timeout) = Err e).
Proof.
  cbn zeta. set (p := schedule order _). set (post := singleton_post (timeout ← get_timeout env; new_client (get_ssl_verify env) timeout)).
  assert (Hp : relied_pool one_client slot_stays creators (replicate gets post) p).
  { eapply (relied_reach one_client slot_stays creators); [apply schedule_moves|].
    apply (relied_start one_client slot_stays creators); [by left|]. unfold client_pool.
    induction gets as [|k IH]; constructor; [apply get_singleton|done]. }
  assert (Hres : ∀ r, results p !! n = Some (Some r) → ∃ last, post last r ∧ slot_stays last (shared p)).
  { intros r Hr. destruct (relied_result one_client slot_stays creators _ _ _ _ Hp Hr) as (Q & last & HQ & Hpost & HG).
    apply lookup_replicate in HQ as [-> _]. by exists last. }
  split.
  - intros c Hr. destruct (Hres _ Hr) as (last & [-> ->] & HG). by rewrite (HG eq_refl).
  - intros e Hr. by destruct (Hres _ Hr) as (last & Hpost & _).
Qed.

(** *** Closing under way *)

Definition demo_clients : list client_op → pool client_lock Slot (option nat) :=
  client_pool (λ _, None) (λ _ _, Ok ()) (λ _, Ok ()).

(** A close empties the slot only when it is over, and a get reads the slot twice.  So a get that
    runs while a close waits for [aclose] is handed the client being closed; and one that is
    interrupted between its two readings returns [None]. *)
Theorem close_races :
  (let made := schedule (replicate 20 0) (demo_clients [GetClient; CloseClient 0; GetClient]) in
   let closing := schedule (replicate 5 1 ++ replicate 20 2) made in
   results closing = [Some (Ok (Some 0)); None; Some (Ok (Some 0))] ∧ open_clients (shared closing) = [false]) ∧
  (let made := schedule (replicate 20 0) (demo_clients [GetClient; CloseClient 0; GetClient]) in
   results (schedule ([2] ++ replicate 20 1 ++ [2]) made) = [Some (Ok (Some 0)); Some (Ok None); Some (Ok None)]).
Proof. vm_compute. done. Qed.

(** ** Witness *)

(** Two gets, and a close started after the first one. *)
Lemma client_lifecycle_witness :
  let p := schedule (replicate 30 1 ++ replicate 30 2) (schedule (replicate 20 0)
             (demo_clients [GetClient; CloseClient 0; GetClient])) in
  results p = [Some (Ok (Some 0)); Some (Ok None); Some (Ok (Some 1))] ∧
  open_clients (shared p) !! 0 = Some false.
Proof.
  split; [vm_compute; reflexivity|].
  destruct (client_lifecycle (λ _, None) (λ _ _, Ok ()) (λ _, Ok ()) 0 [GetClient; CloseClient 0; GetClient]
    (replicate 20 0) (replicate 30 1 ++ replicate 30 2)) as (_ & _ & _ & H).
  - intros loop Hl. repeat (apply elem_of_cons in Hl as [Hl|Hl]; [by simplify_eq|]). by apply not_elem_of_nil in Hl.
  - refine (proj2 (H 1 0 None eq_refl _ _) 0 _); [vm_compute; reflexivity| |vm_compute; lia].
    intros Hin. vm_compute in Hin. repeat (apply elem_of_cons in Hin as [Hin|Hin]; [done|]). by apply not_elem_of_nil in Hin.
Defined.
