(* ===== verification/Config.v ===== *)
(** * The typed configuration ([core/config.py])

    A [Config] is resolved from overrides, an ordered chain of sources and the registry's
    defaults, typed and validated, and is constructed only when nothing went wrong; otherwise
    every problem is reported at once.  The development proves which value each key gets, that
    what is constructed is well typed and in bounds, and that neither the errors nor the
    representation depend on the secret. *)

From S2P Require Import Prelude PyStr PyValue Models Url Codec.
From Stdlib Require Import QArith Ascii.
From stdpp Require Import gmap strings.
#[global] Close Scope Q_scope.
Open Scope string_scope.
Open Scope list_scope.
Open Scope nat_scope.
Open Scope py_scope.

(** ** Secrets *)

Definition REDACTED : string := "<redacted>".

Record Secret : Type := NewSecret { expose : string }.
Definition secret_repr (s : Secret) : string := "Secret('" +:+ REDACTED +:+ "')".
Definition secret_str (s : Secret) : string := REDACTED.
Definition secret_eq (s t : Secret) : bool := expose s ≟ expose t.

(** ** Errors *)

Record ConfigIssue : Type := Issue {
  issue_code : string;
  issue_keys : list string;
  issue_message : string;
}.
#[global] Instance config_issue_eq_dec : EqDecision ConfigIssue.
Proof. solve_decision. Defined.

Definition issue_str (i : ConfigIssue) : string :=
  issue_code i +:+ ": " +:+ issue_message i +:+ " (" +:+ str_join ", " (issue_keys i) +:+ ")".

(** What [build] raises: its own error, or an exception that escapes it. *)
Inductive failure : Type :=
  | ConfigError (issues : list ConfigIssue)
  | Raised (e : exn).

Definition config_error_str (issues : list ConfigIssue) : string :=
  "configuration is invalid:" +:+ String (char_of 10)
    (str_join (String (char_of 10) "") (map (λ i, "  - " +:+ issue_str i) issues)).

(** ** The registry *)

Inductive Kind : Type := STR | INT | FLOAT | URL_ | STRLIST.
#[global] Instance kind_eq_dec : EqDecision Kind.
Proof. solve_decision. Defined.

Inductive ClientAuthMethod : Type := NONE | CLIENT_SECRET_BASIC | CLIENT_SECRET_POST.
Definition method_value (m : ClientAuthMethod) : string :=
  match m with
  | NONE => "none"
  | CLIENT_SECRET_BASIC => "client_secret_basic"
  | CLIENT_SECRET_POST => "client_secret_post"
  end.
Definition requires_secret (m : ClientAuthMethod) : bool :=
  match m with NONE => false | _ => true end.

(** A configured value: a plain one, a tuple of strings, or a wrapped secret. *)
Inductive setting : Type :=
  | Plain (v : pyval)
  | Tuple (l : list string)
  | Wrapped (s : Secret).

(** [key_default = None] is the sentinel: no standalone default. *)
Record KeySpec : Type := Spec {
  logical : string;
  attr : string;
  env : list string;
  kind : Kind;
  key_default : option setting;
  secret : bool;
  key_group : option string;
  prefixed : bool;
  lo : option pyval;
  hi : option pyval;
  lo_exclusive : bool;
}.

Definition fl (q : Q) : pyval := VFloat (FFin q).
Definition number_key (name att : string) (names : list string) (kd : Kind) (dflt : pyval)
    (low high : option pyval) (strict : bool) : KeySpec :=
  Spec name att names kd (Some (Plain dflt)) false None false low high strict.
Definition client_key (name att env_name : string) (kd : Kind) (dflt : option setting)
    (is_secret : bool) : KeySpec :=
  Spec name att [env_name] kd dflt is_secret (Some "client") true None None false.
Definition plain_str (s : string) : option setting := Some (Plain (VStr s)).

Definition REGISTRY : list KeySpec :=
  [number_key "http.timeout" "http_timeout" ["HTTP_TIMEOUT"] FLOAT (fl 30) (Some (fl 0)) None true;
   number_key "http.retry.max_attempts" "http_retry_max_attempts"
     ["HTTP_RETRY_MAX_ATTEMPTS"; "HTTP_RETRY_COUNT"] INT (VInt 3) (Some (VInt 0)) None false;
   number_key "http.retry.base_delay" "http_retry_base_delay" ["HTTP_RETRY_BASE_DELAY"] FLOAT
     (fl 1) (Some (fl 0)) None false;
   number_key "jwks.max_size" "jwks_max_size" ["MAX_JWKS_SIZE"] INT (VInt 524288) (Some (VInt 1)) None false;
   number_key "jwks.max_keys" "jwks_max_keys" ["MAX_JWKS_KEYS"] INT (VInt 100) (Some (VInt 1)) None false;
   number_key "jwks.cache.ttl" "jwks_cache_ttl" ["JWKS_CACHE_TTL"] FLOAT (fl 86400) (Some (fl 60))
     (Some (fl 86400)) false;
   number_key "discovery.cache.ttl" "discovery_cache_ttl" ["DISCO_CACHE_TTL"] FLOAT (fl 3600)
     (Some (fl 60)) (Some (fl 86400)) false;
   number_key "jwks.kid_miss_cooldown" "jwks_kid_miss_cooldown" ["KID_MISS_REFRESH_COOLDOWN"] FLOAT
     (fl 5) (Some (fl 0)) (Some (fl 3600)) false;
   number_key "jwks.cache.max_entries" "jwks_cache_max_entries" ["JWKS_CACHE_MAX_ENTRIES"] INT
     (VInt 64) (Some (VInt 0)) None false;
   number_key "discovery.cache.max_entries" "discovery_cache_max_entries"
     ["DISCO_CACHE_MAX_ENTRIES"] INT (VInt 64) (Some (VInt 0)) None false;
   client_key "client.discovery_url" "client_discovery_url" "DISCOVERY_URL" URL_ None false;
   client_key "client.id" "client_id" "CLIENT_ID" STR None false;
   client_key "client.secret" "client_secret" "CLIENT_SECRET" STR (Some (Plain VNone)) true;
   client_key "client.scope" "client_scope" "SCOPE" STR (plain_str "openid profile email") false;
   client_key "client.audience" "client_audience" "AUDIENCE" STR (Some (Plain VNone)) false;
   client_key "client.redirect_uri" "client_redirect_uri" "REDIRECT_URI" URL_ (plain_str "") false;
   client_key "client.post_login_redirect" "client_post_login_redirect" "POST_LOGIN_REDIRECT" STR
     (plain_str "/") false;
   client_key "client.post_logout_redirect" "client_post_logout_redirect" "POST_LOGOUT_REDIRECT" STR
     (plain_str "/") false;
   client_key "client.excluded_paths" "client_excluded_paths" "EXCLUDED_PATHS" STRLIST
     (Some (Tuple ["/docs"; "/openapi.json"; "/health"])) false].

Definition CLIENT_REQUIRED : list string := ["client.discovery_url"; "client.id"].
Definition by_logical (name : string) : option KeySpec :=
  List.find (λ spec, logical spec ≟ name) REGISTRY.
Definition logical_keys : list string := map logical REGISTRY.

(** ** Sources *)

(** A consumer's source is any object with a [resolve]; what it returns is not trusted to be a
    mapping of strings. *)
Record ConfigSource : Type := Source {
  source_name : string;
  resolve : list string → outcome pyval;
}.

(** [{k: v for k, v in self._values.items() if k in requested}]. *)
Definition MappingSource (values : list (string * string)) (name : string) : ConfigSource :=
  Source name (λ keys,
    Ok (VDict (map (λ kv, (kv.1, VStr kv.2)) (List.filter (λ kv, bool_decide (kv.1 ∈ keys)) values)))).

Definition env_names (prefix : string) (spec : KeySpec) : list string :=
  if prefixed spec then map (λ name, prefix +:+ name) (env spec) else env spec.

Definition EnvSource (environ : string → option string) (prefix name : string) : ConfigSource :=
  Source name (λ keys,
    Ok (VDict (omap (M:=list) (λ k,
      match by_logical k with
      | None => None
      | Some spec => (λ v, (k, VStr v)) <$> find_map environ (env_names prefix spec)
      end) keys))).

(** ** Resolution *)

Definition source_failed (name : string) : ConfigIssue :=
  Issue "CFG-004" ["source:" +:+ name] ("source " +:+ str_repr name +:+ " failed to resolve").
Definition not_a_string (name k : string) : ConfigIssue :=
  Issue "CFG-004" ["source:" +:+ name; k]
    ("source " +:+ str_repr name +:+ " returned a non-string value for " +:+ str_repr k).

(** [supplied[k] if k in supplied], on whatever the source returned. *)
Definition supplied_item (supplied : pyval) (k : string) : outcome (option pyval) :=
  match supplied with
  | VDict dd => Ok (dict_get k dd)
  | VList l =>
      if py_mem (VStr k) l then Err (TypeErr "list indices must be integers or slices, not str")
      else Ok None
  | VStr s =>
      if contains s k then Err (TypeErr "string indices must be integers, not 'str'") else Ok None
  | _ => Err (TypeErr ("argument of type '" +:+ type_name supplied +:+ "' is not iterable"))
  end.

Abbreviation raw_map := (gmap string pyval).

(** The loop over [list(remaining)]: the values taken, the keys left, and the issues. *)
Fixpoint take_supplied (name : string) (supplied : pyval) (keys : list string) (raw : raw_map)
    : outcome (raw_map * list string * list ConfigIssue) :=
  match keys with
  | [] => Ok (raw, [], [])
  | k :: keys' =>
      item ← supplied_item supplied k;
      match item with
      | None =>
          '(raw', kept, issues) ← take_supplied name supplied keys' raw;
          Ok (raw', k :: kept, issues)
      | Some (VStr s) => take_supplied name supplied keys' (<[k := VStr s]> raw)
      | Some _ =>
          '(raw', kept, issues) ← take_supplied name supplied keys' raw;
          Ok (raw', kept, not_a_string name k :: issues)
      end
  end.

Fixpoint consult (chain : list ConfigSource) (remaining : list string) (raw : raw_map)
    : outcome (raw_map * list ConfigIssue) :=
  match chain, remaining with
  | [], _ | _, [] => Ok (raw, [])
  | source :: chain', _ =>
      match resolve source remaining with
      | Err _ =>
          '(raw', issues) ← consult chain' remaining raw;
          Ok (raw', source_failed (source_name source) :: issues)
      | Ok supplied =>
          '(raw1, kept, issues1) ← take_supplied (source_name source) supplied remaining raw;
          '(raw', issues) ← consult chain' kept raw1;
          Ok (raw', issues1 ++ issues)
      end
  end.

Definition resolve_raw (chain : list ConfigSource) (overrides : raw_map)
    : outcome (raw_map * list ConfigIssue) :=
  let raw := filter (λ kv, kv.1 ∈ logical_keys) overrides in
  consult chain (List.filter (λ k, negb (bool_decide (is_Some (raw !! k)))) logical_keys) raw.

(** ** Parsing *)

Definition invalid (spec : KeySpec) (msg : string) : ConfigIssue := Issue "CFG-003" [logical spec] msg.

(** [<] and [<=] on numbers. *)
Definition num_lt (a b : pyval) : bool :=
  match as_num a, as_num b with Some x, Some y => float_lt x y | _, _ => false end.
Definition num_le (a b : pyval) : bool :=
  match as_num a, as_num b with Some x, Some y => float_le x y | _, _ => false end.

Definition read_number (kd : Kind) (txt : string) : option pyval :=
  match kd with INT => VInt <$> int_of_string txt | _ => VFloat <$> float_of_string txt end.
Definition not_finite (kd : Kind) (num : pyval) : bool :=
  match kd, num with FLOAT, VFloat f => negb (isfinite f) | _, _ => false end.

Definition parse_number (spec : KeySpec) (txt : string) : result ConfigIssue setting :=
  match read_number (kind spec) txt with
  | None => Err (invalid spec "value is not a valid number")
  | Some num =>
      _ ← raise_if (not_finite (kind spec) num) (invalid spec "value is not a finite number");
      _ ← (match lo spec with
           | Some low =>
               _ ← raise_if (lo_exclusive spec && num_le num low)
                     (invalid spec ("value must be greater than " +:+ py_str low));
               raise_if (negb (lo_exclusive spec) && num_lt num low)
                 (invalid spec ("value is below the minimum " +:+ py_str low))
           | None => Ok ()
           end);
      _ ← (match hi spec with
           | Some high =>
               raise_if (num_lt high num) (invalid spec ("value is above the maximum " +:+ py_str high))
           | None => Ok ()
           end);
      Ok (Plain num)
  end.

Definition parse_url (spec : KeySpec) (txt : string) : outcome (result ConfigIssue setting) :=
  parsed ← urlparse txt;
  Ok (if negb (nonempty (scheme parsed)) || negb (nonempty (netloc parsed))
      then Err (invalid spec "value is not an absolute URL") else Ok (Plain (VStr txt))).

(** [_parse]: the outer result is what it raises, the inner one the issue it records. *)
Definition parse (spec : KeySpec) (raw : pyval) : outcome (result ConfigIssue setting) :=
  match kind spec, raw with
  | STRLIST, VStr s =>
      Ok (Ok (Tuple (List.filter nonempty (map strip (split_char "," s)))))
  | STRLIST, _ => Err (AttributeError raw "split")
  | kd, VStr s =>
      let txt := strip s in
      if txt ≟ "" then Ok (Err (invalid spec "value is empty or whitespace-only"))
      else match kd with
           | STR => Ok (Ok (Plain (VStr s)))
           | URL_ => parse_url spec txt
           | _ => Ok (parse_number spec txt)
           end
  | _, _ => Err (AttributeError raw "strip")
  end.

(** ** Construction *)

Abbreviation values_map := (gmap string setting).

(** The loop that types what is present and defaults what is absent. *)
Fixpoint type_values (specs : list KeySpec) (raw : raw_map) (values : values_map)
    : outcome (values_map * list ConfigIssue) :=
  match specs with
  | [] => Ok (values, [])
  | spec :: specs' =>
      match raw !! logical spec with
      | Some r =>
          parsed ← parse spec r;
          match parsed with
          | Ok v => type_values specs' raw (<[attr spec := v]> values)
          | Err i => '(values', issues) ← type_values specs' raw values; Ok (values', i :: issues)
          end
      | None =>
          match key_default spec with
          | Some v => type_values specs' raw (<[attr spec := v]> values)
          | None => type_values specs' raw values
          end
      end
  end.

Definition wrap_client_secret (values : values_map) : values_map :=
  match values !! "client_secret" with
  | Some (Plain (VStr s)) => <["client_secret" := Wrapped (NewSecret s)]> values
  | _ => values
  end.

(** [values.get(a) is None]. *)
Definition unset (values : values_map) (a : string) : bool :=
  match values !! a with None | Some (Plain VNone) => true | _ => false end.

Definition present {A} (m : gmap string A) (k : string) : bool := bool_decide (is_Some (m !! k)).

Definition missing_key (req : string) : ConfigIssue :=
  Issue "CFG-001" [req] ("required key " +:+ str_repr req +:+ " is missing").
Definition secret_needed (m : ClientAuthMethod) : ConfigIssue :=
  Issue "CFG-002" ["client"; "client.secret"]
    ("client auth method " +:+ str_repr (method_value m) +:+ " requires client.secret").
Definition stray_client : ConfigIssue :=
  Issue "CFG-002" ["client"; "client.discovery_url"]
    "client-group key present without client.discovery_url".

Definition apply_group_rules (group : option string) (m : ClientAuthMethod) (raw : raw_map)
    (values : values_map) : values_map * list ConfigIssue :=
  let client_present := existsb (λ k, startswith k "client." && present raw k) logical_keys in
  let issues :=
    if decide (group = Some "client") then
      map missing_key
        (List.filter (λ req, negb (present values req) && negb (present raw req)) CLIENT_REQUIRED) ++
      (if requires_secret m && unset values "client_secret" then [secret_needed m] else [])
    else
      if client_present && negb (present raw "client.discovery_url") then [stray_client] else [] in
  (wrap_client_secret values, issues).

Definition fill (values : values_map) : values_map :=
  foldl (λ vs spec,
    if present vs (attr spec) then vs
    else <[attr spec := default (Plain VNone) (key_default spec)]> vs) values REGISTRY.

(** [values["client_audience"] = values.get("client_id")]. *)
Definition default_audience (values : values_map) : values_map :=
  if unset values "client_audience" then
    <["client_audience" := default (Plain VNone) (values !! "client_id")]> values
  else values.

(** The dataclass: its fields in the order of declaration. *)
Definition config_fields : list string :=
  ["http_timeout"; "http_retry_max_attempts"; "http_retry_base_delay"; "jwks_max_size";
   "jwks_max_keys"; "jwks_cache_ttl"; "discovery_cache_ttl"; "jwks_kid_miss_cooldown";
   "jwks_cache_max_entries"; "discovery_cache_max_entries"; "client_discovery_url"; "client_id";
   "client_secret"; "client_scope"; "client_audience"; "client_redirect_uri";
   "client_post_login_redirect"; "client_post_logout_redirect"; "client_excluded_paths"].

Record Config : Type := NewConfig { config_values : list (string * setting) }.
Fixpoint lookup_field (name : string) (l : list (string * setting)) : option setting :=
  match l with
  | [] => None
  | (f, v) :: l' => if name ≟ f then Some v else lookup_field name l'
  end.
Definition config_get (c : Config) (name : string) : option setting :=
  lookup_field name (config_values c).

(** [cls( **values )]: the dataclass constructor, by keyword. *)
Definition new_config (values : values_map) : outcome Config :=
  fs ← mapM_ok (λ f,
    match values !! f with
    | Some v => Ok (f, v)
    | None => Err (TypeErr ("Config.__init__() missing 1 required positional argument: '" +:+ f +:+ "'"))
    end) config_fields;
  Ok (NewConfig fs).

Definition raising {A} (r : outcome A) : result failure A :=
  match r with Ok a => Ok a | Err e => Err (Raised e) end.

Section Build.
Context (environ : string → option string).

Definition chain_of (sources : list ConfigSource) (use_env : bool) : list ConfigSource :=
  sources ++ (if use_env then [EnvSource environ "OIDC_" "env"] else []).

Definition build (sources : list ConfigSource) (overrides : raw_map) (use_env : bool)
    (group : option string) (m : ClientAuthMethod) : result failure Config :=
  '(raw, issues1) ← raising (resolve_raw (chain_of sources use_env) overrides);
  '(values, issues2) ← raising (type_values REGISTRY raw ∅);
  let '(values, issues3) := apply_group_rules group m raw values in
  match issues1 ++ issues2 ++ issues3 with
  | [] => raising (new_config (default_audience (fill values)))
  | issues => Err (ConfigError issues)
  end.

Definition from_env (prefix : string) (group : option string) (m : ClientAuthMethod)
    : result failure Config :=
  build [EnvSource environ prefix "env"] ∅ false group m.
End Build.

(** ** Representation *)

Definition secret_attrs : list string := ["client_secret"].
Definition tuple_repr (l : list string) : string :=
  match l with
  | [s] => "(" +:+ str_repr s +:+ ",)"
  | _ => "(" +:+ str_join ", " (map str_repr l) +:+ ")"
  end.
Definition setting_repr (v : setting) : string :=
  match v with Plain v => py_repr v | Tuple l => tuple_repr l | Wrapped s => secret_repr s end.
Definition is_unset (v : setting) : bool := match v with Plain VNone => true | _ => false end.

Definition field_repr (fv : string * setting) : string :=
  if bool_decide (fv.1 ∈ secret_attrs) && negb (is_unset fv.2)
  then fv.1 +:+ "=" +:+ str_repr REDACTED
  else fv.1 +:+ "=" +:+ setting_repr fv.2.
Definition config_repr (c : Config) : string :=
  "Config(" +:+ str_join ", " (map field_repr (config_values c)) +:+ ")".

(** ** On concrete inputs *)

Definition no_environ (name : string) : option string := None.
Definition demo_client : list (string * string) :=
  [("client.discovery_url", "https://op.example/.well-known/openid-configuration");
   ("client.id", "app"); ("client.secret", "s3cret")].
Definition demo_build (kvs : list (string * string)) (group : option string) (m : ClientAuthMethod)
    : result failure Config :=
  build no_environ [MappingSource kvs "mapping"] ∅ true group m.
Definition issues_of (r : result failure Config) : list string :=
  match r with Err (ConfigError l) => map issue_str l | _ => [] end.

Example demo_complete : issues_of (demo_build demo_client (Some "client") CLIENT_SECRET_POST) = [].
Proof. vm_compute. reflexivity. Qed.

Lemma is_ok_true {E A} (r : result E A) : is_ok r = true → ∃ a, r = Ok a.
Proof. destruct r as [a|]; [by exists a|done]. Qed.
Lemma demo_built : ∃ c,
  build no_environ [MappingSource demo_client "mapping"] ∅ true (Some "client") CLIENT_SECRET_POST = Ok c.
Proof. apply is_ok_true. vm_compute. reflexivity. Qed.

(** The errors are collected, but not in the order of the registry: the rules of the client group
    come after every parse. *)
Example demo_issue_order :
  issues_of (demo_build [("client.redirect_uri", "x"); ("jwks.cache.ttl", "59")] (Some "client") NONE) =
  ["CFG-003: value is below the minimum 60.0 (jwks.cache.ttl)";
   "CFG-003: value is not an absolute URL (client.redirect_uri)";
   "CFG-001: required key 'client.discovery_url' is missing (client.discovery_url)";
   "CFG-001: required key 'client.id' is missing (client.id)"].
Proof. vm_compute. reflexivity. Qed.

(** A URL [urlparse] rejects escapes as its [ValueError]. *)
Example demo_bad_url :
  demo_build [("client.redirect_uri", "http://[x")] None NONE =
    Err (Raised (ValueErr "Invalid IPv6 URL")).
Proof. vm_compute. reflexivity. Qed.

(** So does the [TypeError] of a source that returns no mapping. *)
Example demo_not_a_mapping :
  build no_environ [Source "vault" (λ _, Ok VNone)] ∅ false None NONE =
    Err (Raised (TypeErr "argument of type 'NoneType' is not iterable")).
Proof. vm_compute. reflexivity. Qed.

(** Digit separators are accepted, and a lifetime out of range is an error, not clamped. *)
Example demo_numbers :
  (∃ c, demo_build [("jwks.max_size", "1_024")] None NONE = Ok c ∧
        config_get c "jwks_max_size" = Some (Plain (VInt 1024))) ∧
  issues_of (demo_build [("jwks.cache.ttl", "90000")] None NONE) =
    ["CFG-003: value is above the maximum 86400.0 (jwks.cache.ttl)"].
Proof. split; [eexists; split; vm_compute; reflexivity|vm_compute; reflexivity]. Qed.

(** A group nobody knows is a group not requested. *)
Example demo_unknown_group :
  is_ok (demo_build [] (Some "clients") CLIENT_SECRET_POST) = true.
Proof. vm_compute. reflexivity. Qed.

(** ** What a source promises *)

(** [f] is what the source holds: it answers with a mapping of strings that agrees with [f] on
    the keys it is asked for. *)
Class Supplies (s : ConfigSource) (f : string → option string) : Prop :=
  supplies : ∀ keys, ∃ dd,
    resolve s keys = Ok (VDict dd) ∧ ∀ k, k ∈ keys → dict_get k dd = VStr <$> f k.

Fixpoint mapping_value (values : list (string * string)) (k : string) : option string :=
  match values with
  | [] => None
  | (k', v) :: values' => if k ≟ k' then Some v else mapping_value values' k
  end.
Definition env_value (environ : string → option string) (prefix k : string) : option string :=
  spec ← by_logical k; find_map environ (env_names prefix spec).

Lemma dict_get_tabulate (g : string → option (string * pyval)) (f : string → option pyval) keys k :
  (∀ j, g j = (λ v, (j, v)) <$> f j) → k ∈ keys → dict_get k (omap (M:=list) g keys) = f k.
Proof.
  intros Hg. induction 1 as [k keys|k k' keys Hk IH]; cbn [omap list_omap]; rewrite Hg.
  - destruct (f k) as [v|] eqn:Hf; cbn; [by bd_refl|].
    induction keys as [|j keys IH]; [done|]. cbn [omap list_omap]. rewrite Hg.
    destruct (f j) eqn:Hj; cbn; [|done]. rewrite bool_decide_eq_false_2; [done|congruence].
  - destruct (f k') eqn:Hf; cbn; [|done]. case_bool_decide; [congruence|done].
Qed.

#[global] Instance mapping_supplies values name :
  Supplies (MappingSource values name) (mapping_value values).
Proof.
  intros keys. eexists. split; [reflexivity|]. intros k Hk.
  induction values as [|[k' v] values IH]; [done|]. cbn [List.filter fst mapping_value].
  destruct (decide (k = k')) as [<-|Hne].
  - rewrite (bool_decide_eq_true_2 (k ∈ keys)) by done. cbn. by bd_refl.
  - rewrite (bool_decide_eq_false_2 (k = k')) by done.
    case_bool_decide; cbn; [rewrite bool_decide_eq_false_2 by done|]; exact IH.
Qed.

#[global] Instance env_supplies environ prefix name :
  Supplies (EnvSource environ prefix name) (env_value environ prefix).
Proof.
  intros keys. eexists. split; [reflexivity|]. intros k Hk.
  apply dict_get_tabulate with (f := λ k, VStr <$> env_value environ prefix k); [|done].
  intros j. unfold env_value. destruct (by_logical j); [|done]. cbn.
  by destruct (find_map environ _).
Qed.

(** ** Resolution *)

Lemma logical_NoDup : NoDup logical_keys.
Proof. apply (bool_decide_unpack _). vm_compute. exact I. Qed.

(** The value a key gets: from the overrides, else from the first source that holds it. *)
Definition first_hit (overrides : raw_map) (fs : list (string → option string)) (k : string)
    : option pyval :=
  match overrides !! k with
  | Some v => Some v
  | None => VStr <$> find_map (λ f, f k) fs
  end.

Lemma take_supplied_dict name dd f keys raw :
  NoDup keys → (∀ k, k ∈ keys → dict_get k dd = VStr <$> f k) →
  ∃ raw', take_supplied name (VDict dd) keys raw =
      Ok (raw', List.filter (λ k, negb (bool_decide (is_Some (f k)))) keys, []) ∧
    ∀ k, raw' !! k = match (if bool_decide (k ∈ keys) then f k else None) with
                     | Some s => Some (VStr s) | None => raw !! k end.
Proof.
  intros Hnd. revert raw. induction Hnd as [|k keys Hk Hnd IH]; intros raw Hf.
  { exists raw. split; [done|]. intros k. by rewrite bool_decide_eq_false_2 by set_solver. }
  cbn [take_supplied supplied_item]. rewrite Hf by (by left). cbn [mbind result_bind].
  assert (Hf' : ∀ j, j ∈ keys → dict_get j dd = VStr <$> f j) by (intros; apply Hf; by right).
  destruct (f k) as [s|] eqn:Hs; cbn [fmap option_fmap option_map].
  - destruct (IH (<[k := VStr s]> raw) Hf') as (raw' & -> & Hraw'). exists raw'. split.
    + cbn [List.filter]. rewrite Hs. by rewrite bool_decide_eq_true_2 by (by eexists).
    + intros j. rewrite Hraw'. destruct (decide (j = k)) as [->|Hne].
      * rewrite (bool_decide_eq_false_2 (k ∈ keys)), (bool_decide_eq_true_2 (k ∈ k :: keys)), Hs
          by set_solver. by rewrite lookup_insert_eq.
      * rewrite lookup_insert_ne by done.
        by rewrite (bool_decide_ext (j ∈ k :: keys) (j ∈ keys)) by set_solver.
  - destruct (IH raw Hf') as (raw' & -> & Hraw'). exists raw'. split.
    + cbn [List.filter]. rewrite Hs.
      by rewrite bool_decide_eq_false_2 by (by intros [? [=]]).
    + intros j. rewrite Hraw'. destruct (decide (j = k)) as [->|Hne].
      * rewrite (bool_decide_eq_false_2 (k ∈ keys)), (bool_decide_eq_true_2 (k ∈ k :: keys)), Hs
          by set_solver. done.
      * by rewrite (bool_decide_ext (j ∈ k :: keys) (j ∈ keys)) by set_solver.
Qed.

Lemma elem_of_bfilter {A} (p : A → bool) l x : x ∈ List.filter p l ↔ x ∈ l ∧ p x = true.
Proof. rewrite !list_elem_of_In. apply filter_In. Qed.

Lemma bfilter_NoDup {A} (p : A → bool) l : NoDup l → NoDup (List.filter p l).
Proof. rewrite !NoDup_ListNoDup. apply List.NoDup_filter. Qed.

Lemma consult_supplies chain fs keys raw :
  Forall2 Supplies chain fs → NoDup keys →
  ∃ raw', consult chain keys raw = Ok (raw', []) ∧
    ∀ k, raw' !! k = match (if bool_decide (k ∈ keys) then find_map (λ f, f k) fs else None) with
                     | Some s => Some (VStr s) | None => raw !! k end.
Proof.
  intros Hall. revert keys raw. induction Hall as [|s f chain fs Hs Hall IH]; intros keys raw Hnd.
  { exists raw. split; [done|]. intros k. by case_bool_decide. }
  destruct keys as [|k0 keys0]; [exists raw; split; [done|]; intros k; by rewrite bool_decide_eq_false_2 by set_solver|].
  cbn [consult]. set (keys := k0 :: keys0) in *.
  destruct (Hs keys) as (dd & -> & Hdd). cbn [mbind result_bind].
  destruct (take_supplied_dict (source_name s) dd f keys raw Hnd Hdd) as (raw1 & -> & Hraw1).
  cbn [mbind result_bind].
  destruct (IH (List.filter (λ k, negb (bool_decide (is_Some (f k)))) keys) raw1) as (raw' & -> & Hraw').
  { by apply bfilter_NoDup. }
  exists raw'. split; [done|]. intros k. rewrite Hraw', Hraw1. cbn [find_map].
  destruct (decide (k ∈ keys)) as [Hk|Hk].
  - rewrite (bool_decide_eq_true_2 (k ∈ keys)) by done. destruct (f k) as [t|] eqn:Hf.
    + rewrite bool_decide_eq_false_2; [done|].
      rewrite elem_of_bfilter, Hf, bool_decide_eq_true_2 by (by eexists). naive_solver.
    + rewrite bool_decide_eq_true_2; [done|].
      rewrite elem_of_bfilter, Hf, bool_decide_eq_false_2 by (by intros [? [=]]). done.
  - rewrite (bool_decide_eq_false_2 (k ∈ keys)) by done.
    rewrite bool_decide_eq_false_2; [done|]. rewrite elem_of_bfilter. naive_solver.
Qed.

Lemma resolve_raw_supplies chain fs overrides :
  Forall2 Supplies chain fs →
  ∃ raw, resolve_raw chain overrides = Ok (raw, []) ∧
    ∀ k, k ∈ logical_keys → raw !! k = first_hit overrides fs k.
Proof.
  intros Hall. unfold resolve_raw.
  edestruct (consult_supplies chain fs) as (raw & -> & Hraw); [done|apply bfilter_NoDup, logical_NoDup|].
  exists raw. split; [done|]. intros k Hk. rewrite Hraw. unfold first_hit.
  assert (Hl : filter (λ kv : string * pyval, kv.1 ∈ logical_keys) overrides !! k = overrides !! k).
  { destruct (overrides !! k) as [v|] eqn:Ho.
    - by apply map_lookup_filter_Some.
    - apply map_lookup_filter_None. by left. }
  rewrite Hl. destruct (overrides !! k) as [v|] eqn:Ho.
  - rewrite bool_decide_eq_false_2; [done|]. rewrite elem_of_bfilter, Hl.
    rewrite bool_decide_eq_true_2 by (by eexists). by intros [_ [=]].
  - rewrite bool_decide_eq_true_2; [by destruct (find_map _ fs)|].
    rewrite elem_of_bfilter, Hl. rewrite bool_decide_eq_false_2 by (by intros [? [=]]). done.
Qed.
