(* ===== verification/ConfigSpec.v ===== *)
(** * The construction of a configuration, specified

    A configuration as a function of the raw value each key gets: which issues are reported, and
    what each key ends up as.  [build] is proved equal to it. *)

From S2P Require Import Prelude PyStr PyValue Models Url Codec Config.
From Stdlib Require Import QArith Ascii.
From stdpp Require Import gmap strings.
#[global] Close Scope Q_scope.
Open Scope string_scope.
Open Scope list_scope.
Open Scope nat_scope.
Open Scope py_scope.

(** ** Typing the values *)

(** What the raw value of a key, [hit (logical spec)], means: the issue it records, or the value
    it stands for. *)
Definition issue_of (hit : string → option pyval) (spec : KeySpec) : option ConfigIssue :=
  r ← hit (logical spec); match parse spec r with Ok (Err i) => Some i | _ => None end.
Definition value_of (hit : string → option pyval) (spec : KeySpec) : option setting :=
  match hit (logical spec) with
  | Some r => match parse spec r with Ok (Ok v) => Some v | _ => None end
  | None => key_default spec
  end.

(** What parsing the value raises. *)
Definition raise_of (hit : string → option pyval) (spec : KeySpec) : option exn :=
  r ← hit (logical spec); match parse spec r with Err e => Some e | Ok _ => None end.

Lemma attr_NoDup : NoDup (map attr REGISTRY).
Proof. apply (bool_decide_unpack _). vm_compute. exact I. Qed.

Lemma config_fields_attrs : config_fields = map attr REGISTRY.
Proof. reflexivity. Qed.

Definition set_opt {A} (a : string) (o : option A) (m : gmap string A) : gmap string A :=
  match o with Some v => <[a := v]> m | None => m end.

Lemma set_opt_ne {A} a b (o : option A) m : b ≠ a → set_opt a o m !! b = m !! b.
Proof. destruct o; cbn; intros; [by rewrite lookup_insert_ne|done]. Qed.

Lemma set_opt_eq {A} a (o : option A) m :
  set_opt a o m !! a = match o with Some v => Some v | None => m !! a end.
Proof. destruct o; cbn; [by rewrite lookup_insert_eq|done]. Qed.

(** One round of the loop. *)
Lemma type_values_cons spec specs raw values :
  type_values (spec :: specs) raw values =
    (_ ← (match raw !! logical spec with Some r => _ ← parse spec r; Ok () | None => Ok () end);
     '(values', issues) ← type_values specs raw (set_opt (attr spec) (value_of (raw !!.) spec) values);
     Ok (values', option_list (issue_of (raw !!.) spec) ++ issues)).
Proof.
  assert (Hid : ∀ vs, type_values specs raw vs =
    ('(values', issues) ← type_values specs raw vs; Ok (values', option_list None ++ issues))).
  { intros vs. by destruct (type_values specs raw vs) as [[]|]. }
  cbn [type_values]. unfold issue_of, value_of. destruct (raw !! logical spec) as [r|]; cbn.
  - destruct (parse spec r) as [[v|i]|e]; [apply Hid|done..].
  - destruct (key_default spec); apply Hid.
Qed.

Lemma type_values_spec specs raw values :
  NoDup (map attr specs) →
  match type_values specs raw values with
  | Ok (values', issues) =>
      issues = omap (M:=list) (issue_of (raw !!.)) specs ∧
      (∀ spec, spec ∈ specs → values' !! attr spec =
         match value_of (raw !!.) spec with Some v => Some v | None => values !! attr spec end) ∧
      (∀ a, a ∉ map attr specs → values' !! a = values !! a) ∧
      find_map (raise_of (raw !!.)) specs = None
  | Err e => find_map (raise_of (raw !!.)) specs = Some e
  end.
Proof.
  revert values. induction specs as [|spec specs IH]; intros values.
  { intros _. cbn. repeat split; intros; set_solver. }
  intros [Hspec Hnd]%NoDup_cons. rewrite type_values_cons. cbn [find_map].
  assert (Hr : raise_of (raw !!.) spec =
    match (match raw !! logical spec with Some r => _ ← parse spec r; Ok () | None => Ok () end) with
    | Err e => Some e | Ok _ => None end).
  { unfold raise_of. destruct (raw !! logical spec) as [r|]; [|done]. cbn. by destruct (parse spec r). }
  rewrite Hr. destruct (match raw !! logical spec with Some r => _ | None => _ end) as [[]|e];
    cbn [mbind result_bind]; [|done].
  specialize (IH (set_opt (attr spec) (value_of (raw !!.) spec) values) Hnd).
  destruct (type_values specs raw _) as [[values' issues]|e]; cbn [mbind result_bind]; [|exact IH].
  destruct IH as (-> & Hin & Hout & Hok). split_and!; [|..|exact Hok].
  - cbn [omap list_omap]. by destruct (issue_of _ spec).
  - intros spec0 [->|H0]%elem_of_cons; [rewrite Hout by done; apply set_opt_eq|].
    rewrite Hin, set_opt_ne by first [done | intros Heq; apply Hspec; rewrite <- Heq;
      by apply list_elem_of_fmap_2]. done.
  - intros a Ha. cbn in Ha. rewrite Hout, set_opt_ne by set_solver. done.
Qed.

(** ** What a text means for a key

    Stated by the kind of the key, apart from how [parse] goes about it; a text that means nothing
    is an issue, unless [urlparse] raises. *)

Definition in_bounds (spec : KeySpec) (q : Q) : Prop :=
  (∀ low b, lo spec = Some low → as_num low = Some (FFin b) →
     if lo_exclusive spec then (b < q)%Q else (b <= q)%Q) ∧
  (∀ high b, hi spec = Some high → as_num high = Some (FFin b) → (q <= b)%Q).

Inductive means (spec : KeySpec) (s : string) : setting → Prop :=
  | means_str : kind spec = STR → strip s ≠ "" → means spec s (Plain (VStr s))
  | means_int z : kind spec = INT → int_of_string (strip s) = Some z → in_bounds spec (inject_Z z) →
      means spec s (Plain (VInt z))
  | means_float q : kind spec = FLOAT → float_of_string (strip s) = Some (FFin q) → in_bounds spec q →
      means spec s (Plain (VFloat (FFin q)))
  | means_url p : kind spec = URL_ → urlparse (strip s) = Ok p → scheme p ≠ "" → netloc p ≠ "" →
      means spec s (Plain (VStr (strip s)))
  | means_list : kind spec = STRLIST →
      means spec s (Tuple (List.filter nonempty (map strip (split_char "," s)))).

(** The bounds of a key are finite numbers. *)
Definition finite_bound (o : option pyval) : bool :=
  match o with None => true | Some v => match as_num v with Some (FFin _) => true | _ => false end end.
Definition finite_bounds (spec : KeySpec) : bool := finite_bound (lo spec) && finite_bound (hi spec).
Lemma registry_bounds spec : spec ∈ REGISTRY → finite_bounds spec = true.
Proof.
  assert (H : forallb finite_bounds REGISTRY = true) by reflexivity.
  rewrite forallb_forall in H. intros Hs. by apply H, list_elem_of_In.
Qed.

Lemma and_iff (A B C D : Prop) : (A ↔ B) → (C ↔ D) → A ∧ C ↔ B ∧ D.
Proof. tauto. Qed.

Lemma num_lt_Q v w a b : as_num v = Some (FFin a) → as_num w = Some (FFin b) → num_lt v w = true ↔ (a < b)%Q.
Proof.
  intros Hv Hw. unfold num_lt. rewrite Hv, Hw. cbn [float_lt]. rewrite negb_true_iff, <- not_true_iff_false, Qle_bool_iff.
  split; [apply Qnot_le_lt|apply Qlt_not_le].
Qed.
Lemma num_le_Q v w a b : as_num v = Some (FFin a) → as_num w = Some (FFin b) → num_le v w = true ↔ (a <= b)%Q.
Proof.
  intros Hv Hw. unfold num_le. rewrite Hv, Hw. unfold float_le. rewrite orb_true_iff. cbn [float_lt float_eq].
  rewrite negb_true_iff, <- not_true_iff_false, Qle_bool_iff, Qeq_bool_iff, (Qle_lteq a b).
  split; (intros [?|?]; [left|by right]); [by apply Qnot_le_lt|by apply Qlt_not_le].
Qed.

Lemma bounds_checked spec num q :
  finite_bounds spec = true → as_num num = Some (FFin q) →
  in_bounds spec q ↔
  (∀ low, lo spec = Some low → lo_exclusive spec && num_le num low = false ∧
     negb (lo_exclusive spec) && num_lt num low = false) ∧
  (∀ high, hi spec = Some high → num_lt high num = false).
Proof.
  intros [Hlo Hhi]%andb_true_iff Hq. unfold in_bounds. apply and_iff.
  - destruct (lo spec) as [low|]; [|naive_solver]. cbn in Hlo. destruct (as_num low) as [[| |b]|] eqn:Hb; try done.
    pose proof (num_le_Q num low q b Hq Hb) as H1. pose proof (num_lt_Q num low q b Hq Hb) as H2.
    destruct (lo_exclusive spec); cbn [andb negb].
    + split; [intros H low' [= <-]; split; [|done]|intros H low' b' [= <-] Hb'].
      * apply not_true_iff_false. rewrite H1. by apply Qlt_not_le, (H low).
      * simplify_eq. destruct (H low eq_refl) as [H3%not_true_iff_false _]. rewrite H1 in H3. by apply Qnot_le_lt.
    + split; [intros H low' [= <-]; split; [done|]|intros H low' b' [= <-] Hb'].
      * apply not_true_iff_false. rewrite H2. by apply Qle_not_lt, (H low).
      * simplify_eq. destruct (H low eq_refl) as [_ H3%not_true_iff_false]. rewrite H2 in H3. by apply Qnot_lt_le.
  - destruct (hi spec) as [high|]; [|naive_solver]. cbn in Hhi. destruct (as_num high) as [[| |b]|] eqn:Hb; try done.
    pose proof (num_lt_Q high num b q Hb Hq) as H1.
    split; [intros H high' [= <-]|intros H high' b' [= <-] Hb'].
    + apply not_true_iff_false. rewrite H1. by apply Qle_not_lt, (H high).
    + simplify_eq. specialize (H high eq_refl). apply not_true_iff_false in H. rewrite H1 in H. by apply Qnot_lt_le.
Qed.

Lemma parse_number_checks spec txt v :
  parse_number spec txt = Ok v ↔
  ∃ num, read_number (kind spec) txt = Some num ∧ not_finite (kind spec) num = false ∧
    (∀ low, lo spec = Some low → lo_exclusive spec && num_le num low = false ∧
       negb (lo_exclusive spec) && num_lt num low = false) ∧
    (∀ high, hi spec = Some high → num_lt high num = false) ∧ v = Plain num.
Proof.
  unfold parse_number. destruct (read_number (kind spec) txt) as [num|]; [|naive_solver].
  rewrite raise_if_seq_ok, !result_seq_ok. split.
  - intros (Hf & Hl & Hh & [= <-]). exists num. split_and!; [done..| | |done].
    + intros low Hlow. rewrite Hlow in Hl. by rewrite raise_if_seq_ok, raise_if_ok in Hl.
    + intros high Hhigh. rewrite Hhigh in Hh. by rewrite raise_if_ok in Hh.
  - intros (num' & [= <-] & Hf & Hl & Hh & ->). split_and!; [done| | |done].
    + destruct (lo spec) as [low|]; [|done]. rewrite raise_if_seq_ok, raise_if_ok. by apply Hl.
    + destruct (hi spec) as [high|]; [|done]. rewrite raise_if_ok. by apply Hh.
Qed.

(** [parse] finds the meaning. *)
Lemma parse_number_means spec s v :
  finite_bounds spec = true → kind spec = INT ∨ kind spec = FLOAT →
  parse_number spec (strip s) = Ok v ↔ means spec s v.
Proof.
  intros Hb Hk. rewrite parse_number_checks. split.
  - intros (num & Hn & Hf & Hl & Hh & ->). destruct Hk as [Hk|Hk]; rewrite Hk in Hn, Hf; cbn [read_number] in Hn.
    + destruct (int_of_string (strip s)) as [z|] eqn:E; [|done]. injection Hn as <-. apply means_int; [done..|].
      by apply (bounds_checked spec (VInt z)).
    + destruct (float_of_string (strip s)) as [[| |q]|] eqn:E; try done; injection Hn as <-; try discriminate Hf.
      apply means_float; [done..|]. by apply (bounds_checked spec (VFloat (FFin q))).
  - intros [Hk' _|z Hk' E Hz|q Hk' E Hq|? Hk' _ _ _|Hk']; try (exfalso; destruct Hk; congruence).
    + exists (VInt z). rewrite Hk'. cbn [read_number]. rewrite E.
      by apply (bounds_checked spec (VInt z)) in Hz as [Hl Hh].
    + exists (VFloat (FFin q)). rewrite Hk'. cbn [read_number]. rewrite E.
      by apply (bounds_checked spec (VFloat (FFin q))) in Hq as [Hl Hh].
Qed.

Lemma means_filled spec s v : means spec s v → kind spec ≠ STRLIST → strip s ≠ "".
Proof.
  intros [? Hs|z _ E _|q _ E _|p _ E Hs _|?] Hk Hempty; [done|rewrite Hempty in E; discriminate E..| |done].
  rewrite Hempty in E. vm_compute in E. injection E as <-. done.
Qed.

Lemma parse_means spec s v :
  finite_bounds spec = true → parse spec (VStr s) = Ok (Ok v) ↔ means spec s v.
Proof.
  intros Hb. unfold parse. destruct (decide (strip s = "")) as [Hs|Hs].
  { rewrite bool_decide_eq_true_2 by done. destruct (kind spec) eqn:Hk;
      try (split; [done|intros Hm; by destruct (means_filled _ _ _ Hm ltac:(congruence))]).
    split; [intros [= <-]; by apply means_list|]. intros []; congruence. }
  rewrite bool_decide_eq_false_2 by done. destruct (kind spec) eqn:Hk.
  - split; [intros [= <-]; by apply means_str|]. intros []; congruence.
  - rewrite <- (parse_number_means spec s v) by auto. split; [by intros [= <-]|by intros ->].
  - rewrite <- (parse_number_means spec s v) by auto. split; [by intros [= <-]|by intros ->].
  - unfold parse_url. rewrite result_bind_ok. split.
    + intros (p & Hp & [= H]). destruct (negb _ || negb _) eqn:E; [discriminate|]. injection H as <-.
      apply orb_false_iff in E as [E1%negb_false_iff E2%negb_false_iff].
      apply (means_url _ _ p); [done..| |]; intros Hn; by rewrite Hn in *.
    + intros [?|? ?|? ?|p ? Hp H1 H2|?]; try congruence. exists p. split; [done|].
      destruct (scheme p); [done|]. by destruct (netloc p).
  - split; [intros [= <-]; by apply means_list|]. intros []; congruence.
Qed.

(** It raises only what [urlparse] raises, and on what is no text. *)
Lemma parse_raises spec s e :
  parse spec (VStr s) = Err e ↔ kind spec = URL_ ∧ strip s ≠ "" ∧ urlparse (strip s) = Err e.
Proof.
  unfold parse. destruct (decide (strip s = "")) as [Hs|Hs].
  { rewrite bool_decide_eq_true_2 by done. split; [by destruct (kind spec)|by intros (_ & ? & _)]. }
  rewrite bool_decide_eq_false_2 by done. destruct (kind spec); try by split; [|intros (? & _)].
  unfold parse_url. destruct (urlparse (strip s)); cbn [mbind result_bind]; naive_solver.
Qed.
Lemma parse_no_text spec r : is_str r = false → ∃ e, parse spec r = Err e.
Proof. unfold parse. destruct (kind spec), r; try done; by eexists. Qed.

(** Every issue is a CFG-003 of that key, with one of these messages. *)
Definition messages (spec : KeySpec) : list string :=
  ["value is not a valid number"; "value is not a finite number";
   "value is empty or whitespace-only"; "value is not an absolute URL"] ++
  (match lo spec with
   | Some low => ["value must be greater than " +:+ py_str low; "value is below the minimum " +:+ py_str low]
   | None => []
   end) ++
  (match hi spec with Some high => ["value is above the maximum " +:+ py_str high] | None => [] end).

Definition known_issue (spec : KeySpec) (i : ConfigIssue) : Prop :=
  i ∈ map (invalid spec) (messages spec).

Lemma known_message spec msg : msg ∈ messages spec → known_issue spec (invalid spec msg).
Proof. apply list_elem_of_fmap_2. Qed.

Lemma parse_number_issue spec txt : errors_in (known_issue spec) (parse_number spec txt).
Proof.
  unfold parse_number. destruct (read_number (kind spec) txt) as [num|].
  - apply errors_in_bind; [apply errors_in_raise_if, known_message; unfold messages; set_solver|intros [] _].
    apply errors_in_bind; [|intros [] _; apply errors_in_bind; [|intros [] _; apply errors_in_ok]].
    + destruct (lo spec) as [low|] eqn:Hlo; [|apply errors_in_ok].
      apply errors_in_bind; [|intros [] _]; apply errors_in_raise_if, known_message;
        unfold messages; rewrite Hlo; set_solver.
    + destruct (hi spec) as [high|] eqn:Hhi; [|apply errors_in_ok].
      apply errors_in_raise_if, known_message. unfold messages. rewrite Hhi. set_solver.
  - apply errors_in_err, known_message. unfold messages. set_solver.
Qed.

Lemma parse_issue spec r i : parse spec r = Ok (Err i) → known_issue spec i.
Proof.
  assert (Hb : known_issue spec (invalid spec "value is empty or whitespace-only")).
  { apply known_message. unfold messages. set_solver. }
  unfold parse. destruct (kind spec), r as [| | | |s| |]; try discriminate;
    try (case_bool_decide; [by intros [= <-]|]); try discriminate.
  3: { intros (parsed & _ & H1)%result_bind_ok. destruct (negb _ || negb _); [|discriminate].
       injection H1 as <-. apply known_message. unfold messages. set_solver. }
  all: intros [= Hp]; pose proof (parse_number_issue spec (strip s)) as He; by apply He.
Qed.

(** ** The group rules, on raw values *)

Definition given (hit : string → option pyval) (k : string) : bool := bool_decide (is_Some (hit k)).
Definition usable_secret (hit : string → option pyval) : bool :=
  match hit "client.secret" with Some (VStr s) => strip s ≠? "" | _ => false end.

Definition group_issues (hit : string → option pyval) (group : option string)
    (m : ClientAuthMethod) : list ConfigIssue :=
  if decide (group = Some "client") then
    map missing_key (List.filter (λ req, negb (given hit req)) CLIENT_REQUIRED) ++
    (if requires_secret m && negb (usable_secret hit) then [secret_needed m] else [])
  else if existsb (λ k, startswith k "client." && given hit k) logical_keys
          && negb (given hit "client.discovery_url") then [stray_client]
  else [].

(** [values] is what [type_values] makes of [hit]. *)
Definition typed_from (hit : string → option pyval) (values : values_map) : Prop :=
  (∀ spec, spec ∈ REGISTRY → values !! attr spec = value_of hit spec) ∧
  (∀ a, a ∉ map attr REGISTRY → values !! a = None).

Ltac in_registry := unfold REGISTRY; repeat (first [apply list_elem_of_here | apply list_elem_of_further]).

Lemma typed_at hit values name spec :
  typed_from hit values → by_logical name = Some spec → values !! attr spec = value_of hit spec.
Proof.
  intros [H _] Hb. apply H. unfold by_logical in Hb. apply find_some in Hb as [Hb _].
  by apply list_elem_of_In.
Qed.

(** The specification of a key of the registry, by its name. *)
Definition the_spec (name : string) : KeySpec :=
  default (client_key name name "" STR None false) (by_logical name).

Lemma parse_str spec s :
  kind spec = STR →
  parse spec (VStr s) = Ok (if strip s ≟ "" then Err (invalid spec "value is empty or whitespace-only")
                            else Ok (Plain (VStr s))).
Proof. unfold parse. intros ->. by destruct (strip s ≟ ""). Qed.

Lemma unset_secret hit values :
  typed_from hit values → (∀ r, hit "client.secret" = Some r → ∃ p, parse (the_spec "client.secret") r = Ok p) →
  unset values "client_secret" = negb (usable_secret hit).
Proof.
  intros Hv Hp. unfold unset, usable_secret.
  pose proof (typed_at hit values "client.secret" (the_spec "client.secret") Hv eq_refl) as Hs.
  change (attr (the_spec "client.secret")) with "client_secret" in Hs. rewrite Hs.
  unfold value_of. change (logical (the_spec "client.secret")) with "client.secret".
  destruct (hit "client.secret") as [r|]; [|done]. destruct (Hp r eq_refl) as [p Hr].
  destruct r; try discriminate. rewrite parse_str by done. by case_bool_decide.
Qed.

Lemma group_rules_spec hit raw values group m :
  typed_from hit values → (∀ k, k ∈ logical_keys → raw !! k = hit k) →
  (∀ r, hit "client.secret" = Some r → ∃ p, parse (the_spec "client.secret") r = Ok p) →
  apply_group_rules group m raw values = (wrap_client_secret values, group_issues hit group m).
Proof.
  intros Hv Hraw Hp. unfold apply_group_rules, group_issues.
  assert (Hg : ∀ k, k ∈ logical_keys → present raw k = given hit k).
  { intros k Hk. unfold present, given. by rewrite Hraw. }
  assert (Hn : ∀ k, k ∉ map attr REGISTRY → present values k = false).
  { intros k Hk. unfold present. rewrite (proj2 Hv k Hk). by apply bool_decide_eq_false_2; intros [? [=]]. }
  f_equal. destruct (decide (group = Some "client")).
  - rewrite (unset_secret hit) by done. do 2 f_equal. unfold CLIENT_REQUIRED. cbn [List.filter].
    rewrite !Hn, !Hg by (apply (bool_decide_unpack _); vm_compute; exact I). done.
  - rewrite Hg by (apply (bool_decide_unpack _); vm_compute; exact I).
    enough (∀ l, (∀ k, k ∈ l → k ∈ logical_keys) →
      existsb (λ k, startswith k "client." && present raw k) l =
      existsb (λ k, startswith k "client." && given hit k) l) as -> by done.
    intros l. induction l as [|k l IH]; intros Hl; [done|]. cbn [existsb].
    rewrite IH, Hg; [done|apply Hl; by left|]. intros j Hj. apply Hl. by right.
Qed.

(** ** Finishing the construction *)

Definition wrap_secret (v : setting) : setting :=
  match v with Plain (VStr s) => Wrapped (NewSecret s) | _ => v end.
Definition configured (hit : string → option pyval) (spec : KeySpec) : setting :=
  default (Plain VNone) (value_of hit spec).

(** The value of a key in the finished configuration. *)
Definition final (hit : string → option pyval) (spec : KeySpec) : setting :=
  if attr spec ≟ "client_secret" then wrap_secret (configured hit spec)
  else if (attr spec ≟ "client_audience") && is_unset (configured hit spec)
  then configured hit (the_spec "client.id")
  else configured hit spec.

Lemma wrap_lookup values a :
  wrap_client_secret values !! a =
    if a ≟ "client_secret" then wrap_secret <$> values !! a else values !! a.
Proof.
  unfold wrap_client_secret. case_bool_decide as Ha; subst.
  - destruct (values !! "client_secret") as [[[]| |]|] eqn:E; rewrite ?E; try done.
    by rewrite lookup_insert_eq.
  - destruct (values !! "client_secret") as [[[]| |]|]; try done. by rewrite lookup_insert_ne.
Qed.

Lemma fill_lookup specs values a :
  foldl (λ vs spec, if present vs (attr spec) then vs
    else <[attr spec := default (Plain VNone) (key_default spec)]> vs) values specs !! a =
  match values !! a with
  | Some v => Some v
  | None => (λ spec, default (Plain VNone) (key_default spec)) <$> List.find (λ spec, attr spec ≟ a) specs
  end.
Proof.
  revert values. induction specs as [|spec specs IH]; intros values; cbn [foldl List.find].
  { by destruct (values !! a). }
  rewrite IH. unfold present. destruct (decide (attr spec = a)) as [<-|Hne].
  - bd_refl. destruct (values !! attr spec) eqn:E.
    + rewrite bool_decide_eq_true_2 by (by eexists). by rewrite E.
    + rewrite bool_decide_eq_false_2 by (by intros [? [=]]). by rewrite lookup_insert_eq.
  - rewrite (bool_decide_eq_false_2 (attr spec = a)) by done.
    case_bool_decide; [done|]. by rewrite lookup_insert_ne.
Qed.

Lemma lookup_field_spec names (vs : list (string * setting)) (values : values_map) f :
  Forall2 (λ f fv, ∃ v, values !! f = Some v ∧ fv = (f, v)) names vs →
  f ∈ names → lookup_field f vs = values !! f.
Proof.
  induction 1 as [|g fv names vs (v & Hv & ->) H IH]; [set_solver|].
  intros Hf. cbn. case_bool_decide; [by subst|]. apply IH. set_solver.
Qed.

Lemma new_config_ok (values : values_map) :
  (∀ f, f ∈ config_fields → is_Some (values !! f)) →
  ∃ c, new_config values = Ok c ∧ config_values c = omap (M:=list) (λ f, (λ v, (f, v)) <$> values !! f) config_fields ∧
    ∀ f, f ∈ config_fields → config_get c f = values !! f.
Proof.
  intros H. unfold new_config.
  destruct (mapM_ok_total (λ f, match values !! f with
    | Some v => Ok (f, v)
    | None => Err (TypeErr ("Config.__init__() missing 1 required positional argument: '" +:+ f +:+ "'"))
    end) config_fields) as [vs Hvs].
  { intros f Hf. destruct (H f Hf) as [v ->]. by eexists. }
  rewrite Hvs. exists (NewConfig vs). apply mapM_ok_spec in Hvs.
  assert (Hall : Forall2 (λ f fv, ∃ v, values !! f = Some v ∧ fv = (f, v)) config_fields vs).
  { eapply Forall2_impl; [exact Hvs|]. intros f fv. cbv beta.
    destruct (values !! f) as [v|]; [|discriminate]. intros [= <-]. by exists v. }
  split_and!; [done| |intros f; by apply lookup_field_spec].
  cbn [config_values]. clear -Hall. induction Hall as [|f fv fs vs (v & Hv & ->) Hall IH]; [done|].
  cbn [omap list_omap]. by rewrite Hv, IH.
Qed.

Lemma find_attr specs spec :
  NoDup (map attr specs) → spec ∈ specs → List.find (λ s, attr s ≟ attr spec) specs = Some spec.
Proof.
  induction specs as [|s specs IH]; [set_solver|]. intros [Hs Hnd]%NoDup_cons Hin. cbn [List.find].
  case_bool_decide as Ha.
  - apply elem_of_cons in Hin as [->|Hin]; [done|]. destruct Hs. rewrite Ha. by apply list_elem_of_fmap_2.
  - apply elem_of_cons in Hin as [->|Hin]; [done|]. by apply IH.
Qed.

(** Every value that is given parses. *)
Definition all_parse (hit : string → option pyval) : Prop :=
  ∀ spec r, spec ∈ REGISTRY → hit (logical spec) = Some r → ∃ v, parse spec r = Ok (Ok v).

Lemma all_parse_default hit spec :
  all_parse hit → spec ∈ REGISTRY → value_of hit spec = None → key_default spec = None.
Proof.
  intros Hall Hspec. unfold value_of. destruct (hit (logical spec)) as [r|] eqn:Hr; [|done].
  by destruct (Hall spec r Hspec Hr) as [v ->].
Qed.

Lemma filled_at hit values spec :
  typed_from hit values → all_parse hit → spec ∈ REGISTRY →
  fill (wrap_client_secret values) !! attr spec =
    Some (if attr spec ≟ "client_secret" then wrap_secret (configured hit spec) else configured hit spec).
Proof.
  intros Hv Htot Hspec. unfold fill. rewrite fill_lookup, wrap_lookup, (proj1 Hv spec Hspec).
  rewrite (find_attr REGISTRY spec attr_NoDup Hspec). unfold configured.
  pose proof (all_parse_default hit spec Htot Hspec) as Hd. destruct (value_of hit spec) as [v|].
  - by case_bool_decide.
  - cbn [fmap option_fmap option_map default]. rewrite Hd by done. by case_bool_decide.
Qed.

Lemma audience_attr : attr (the_spec "client.audience") = "client_audience".
Proof. reflexivity. Qed.
Lemma id_attr : attr (the_spec "client.id") = "client_id".
Proof. reflexivity. Qed.
Lemma the_spec_elem name spec : by_logical name = Some spec → spec ∈ REGISTRY.
Proof. unfold by_logical. intros [Hs _]%find_some. by apply list_elem_of_In. Qed.

Lemma audience_spec spec : spec ∈ REGISTRY → attr spec = "client_audience" → spec = the_spec "client.audience".
Proof.
  intros Hspec Heq. pose proof (find_attr REGISTRY spec attr_NoDup Hspec) as Hf. rewrite Heq in Hf.
  vm_compute in Hf. injection Hf as <-. reflexivity.
Qed.

Lemma finished hit values spec :
  typed_from hit values → all_parse hit → spec ∈ REGISTRY →
  default_audience (fill (wrap_client_secret values)) !! attr spec = Some (final hit spec).
Proof.
  intros Hv Htot Hspec. unfold default_audience, unset, final.
  pose proof (filled_at hit values (the_spec "client.audience") Hv Htot (the_spec_elem "client.audience" _ eq_refl)) as Ha.
  pose proof (filled_at hit values (the_spec "client.id") Hv Htot (the_spec_elem "client.id" _ eq_refl)) as Hi.
  rewrite audience_attr in Ha. rewrite id_attr in Hi. rewrite bool_decide_eq_false_2 in Ha, Hi by done.
  rewrite Ha, Hi. destruct (decide (attr spec = "client_audience")) as [Heq|Hne].
  - rewrite (audience_spec spec Hspec Heq), audience_attr, (bool_decide_eq_true_2 ("client_audience" = "client_audience")) by done.
    rewrite (bool_decide_eq_false_2 ("client_audience" = "client_secret")) by done.
    unfold is_unset. cbn [andb default from_option id].
    destruct (configured hit (the_spec "client.audience")) as [[]| |];
      rewrite ?lookup_insert_eq, ?Ha; done.
  - rewrite (bool_decide_eq_false_2 (attr spec = "client_audience")) by done. cbn [andb].
    assert (Hf : fill (wrap_client_secret values) !! attr spec = Some (if attr spec ≟ "client_secret"
      then wrap_secret (configured hit spec) else configured hit spec)) by (by apply filled_at).
    destruct (configured hit (the_spec "client.audience")) as [[]| |];
      rewrite ?lookup_insert_ne by done; rewrite Hf; by case_bool_decide.
Qed.

Lemma finish hit values :
  typed_from hit values → all_parse hit →
  new_config (default_audience (fill (wrap_client_secret values))) =
    Ok (NewConfig (map (λ spec, (attr spec, final hit spec)) REGISTRY)).
Proof.
  intros Hv Htot. destruct (new_config_ok (default_audience (fill (wrap_client_secret values))))
    as (c & -> & Hc & _).
  - intros f Hf. rewrite config_fields_attrs in Hf.
    apply list_elem_of_fmap in Hf as (spec & -> & Hspec). rewrite (finished hit) by done. by eexists.
  - f_equal. destruct c as [l]. cbn [config_values] in Hc. subst l. f_equal. rewrite config_fields_attrs.
    assert (Hall : ∀ spec, spec ∈ REGISTRY → spec ∈ REGISTRY) by done. revert Hall.
    generalize REGISTRY at 1 3 4 as specs. induction specs as [|spec specs IH]; intros Hall; [done|].
    cbn [map omap list_omap]. rewrite (finished hit) by (try apply Hall; first [done|by left]).
    cbn [fmap option_fmap option_map]. f_equal. apply IH. intros s Hs. apply Hall. by right.
Qed.

(** ** What [build] does, once the raw values are known *)

Lemma hit_ext hit hit' spec :
  hit (logical spec) = hit' (logical spec) →
  issue_of hit spec = issue_of hit' spec ∧ value_of hit spec = value_of hit' spec ∧
  raise_of hit spec = raise_of hit' spec.
Proof. unfold issue_of, value_of, raise_of. by intros ->. Qed.

Lemma logical_elem spec : spec ∈ REGISTRY → logical spec ∈ logical_keys.
Proof. apply list_elem_of_fmap_2. Qed.

Definition expected_issues (hit : string → option pyval) (group : option string)
    (m : ClientAuthMethod) : list ConfigIssue :=
  omap (M:=list) (issue_of hit) REGISTRY ++ group_issues hit group m.

(** The specification of a construction from the raw values [hit] and the issues of the sources:
    the first key whose value makes the parser raise, else all the issues, else every key's
    finished value. *)
Definition config_spec (hit : string → option pyval) (issues1 : list ConfigIssue)
    (group : option string) (m : ClientAuthMethod) : result failure Config :=
  match find_map (raise_of hit) REGISTRY with
  | Some e => Err (Raised e)
  | None =>
      match issues1 ++ expected_issues hit group m with
      | [] => Ok (NewConfig (map (λ spec, (attr spec, final hit spec)) REGISTRY))
      | issues => Err (ConfigError issues)
      end
  end.

Lemma find_map_none {A B} (f : A → option B) l : find_map f l = None ↔ ∀ x, x ∈ l → f x = None.
Proof.
  induction l as [|x l IH]; cbn [find_map]; [set_solver|]. destruct (f x) eqn:Hx.
  - split; [done|]. intros H. rewrite H in Hx by (by left). done.
  - rewrite IH. split; [|intros H y Hy; apply H; by right].
    intros H y [->|Hy]%elem_of_cons; auto.
Qed.

Lemma no_raise hit :
  find_map (raise_of hit) REGISTRY = None →
  ∀ spec r, spec ∈ REGISTRY → hit (logical spec) = Some r → ∃ p, parse spec r = Ok p.
Proof.
  rewrite find_map_none. intros H spec r Hspec Hr. specialize (H spec Hspec). unfold raise_of in H.
  rewrite Hr in H. cbn in H. destruct (parse spec r) as [p|]; [by exists p|done].
Qed.

Lemma no_issue_total hit :
  omap (M:=list) (issue_of hit) REGISTRY = [] → find_map (raise_of hit) REGISTRY = None → all_parse hit.
Proof.
  intros Hnil Hok spec r Hspec Hr. destruct (no_raise hit Hok spec r Hspec Hr) as [[v|i] Hp]; [by exists v|].
  exfalso. assert (i ∈ omap (M:=list) (issue_of hit) REGISTRY) as Hi.
  { apply list_elem_of_omap. exists spec. split; [done|]. unfold issue_of. rewrite Hr. cbn. by rewrite Hp. }
  rewrite Hnil in Hi. by apply not_elem_of_nil in Hi.
Qed.

Lemma find_map_ext {A B} (f g : A → option B) l :
  (∀ x, x ∈ l → f x = g x) → find_map f l = find_map g l.
Proof.
  induction l as [|x l IH]; intros H; [done|]. cbn [find_map].
  rewrite (H x) by (by left). rewrite IH; [done|]. intros y Hy. apply H. by right.
Qed.

Lemma omap_ext_elem {A B} (f g : A → option B) (l : list A) :
  (∀ x, x ∈ l → f x = g x) → omap (M:=list) f l = omap (M:=list) g l.
Proof.
  induction l as [|x l IH]; intros H; [done|]. cbn [omap list_omap].
  rewrite (H x) by (by left). rewrite IH; [done|]. intros y Hy. apply H. by right.
Qed.

Lemma secret_elem : the_spec "client.secret" ∈ REGISTRY.
Proof. by apply (the_spec_elem "client.secret"). Qed.
Lemma secret_logical : logical (the_spec "client.secret") = "client.secret".
Proof. reflexivity. Qed.
Lemma parses_secret hit :
  (∀ spec r, spec ∈ REGISTRY → hit (logical spec) = Some r → ∃ p, parse spec r = Ok p) →
  ∀ r, hit "client.secret" = Some r → ∃ p, parse (the_spec "client.secret") r = Ok p.
Proof. intros H r Hr. apply H; [apply secret_elem|by rewrite secret_logical]. Qed.

Lemma raising_bind {A B} (r : outcome A) (k : A → result failure B) :
  raising r ≫= k = match r with Ok a => k a | Err e => Err (Raised e) end.
Proof. by destruct r. Qed.

(** [build] without its binds. *)
Lemma build_eq environ sources overrides use_env group m :
  build environ sources overrides use_env group m =
  match resolve_raw (chain_of environ sources use_env) overrides with
  | Err e => Err (Raised e)
  | Ok (raw, issues1) =>
      match type_values REGISTRY raw ∅ with
      | Err e => Err (Raised e)
      | Ok (values, issues2) =>
          let '(values, issues3) := apply_group_rules group m raw values in
          match issues1 ++ issues2 ++ issues3 with
          | [] => raising (new_config (default_audience (fill values)))
          | issues => Err (ConfigError issues)
          end
      end
  end.
Proof.
  unfold build. rewrite raising_bind. destruct (resolve_raw _ _) as [[raw issues1]|e]; [|reflexivity].
  rewrite raising_bind. by destruct (type_values REGISTRY raw ∅) as [[values issues2]|e].
Qed.

Lemma build_resolved environ sources overrides use_env group m raw issues1 hit :
  resolve_raw (chain_of environ sources use_env) overrides = Ok (raw, issues1) →
  (∀ k, k ∈ logical_keys → raw !! k = hit k) →
  build environ sources overrides use_env group m = config_spec hit issues1 group m.
Proof.
  intros Hres Hraw. unfold config_spec, expected_issues. rewrite build_eq.
  destruct (resolve_raw (chain_of environ sources use_env) overrides) as [[raw' is']|]; [|done].
  injection Hres as -> ->.
  assert (Hext : ∀ spec, spec ∈ REGISTRY → issue_of (raw !!.) spec = issue_of hit spec ∧
    value_of (raw !!.) spec = value_of hit spec ∧ raise_of (raw !!.) spec = raise_of hit spec).
  { intros spec Hspec. by apply hit_ext, Hraw, logical_elem. }
  pose proof (type_values_spec REGISTRY raw ∅ attr_NoDup) as Ht.
  rewrite (find_map_ext _ (raise_of hit)) in Ht by (intros; by apply Hext).
  destruct (type_values REGISTRY raw ∅) as [[values issues2]|e]; [|by rewrite Ht].
  destruct Ht as (Hi2 & Hin & Hout & Hok). rewrite Hok.
  rewrite (omap_ext_elem _ (issue_of hit)) in Hi2 by (intros; by apply Hext).
  assert (Hv : typed_from hit values).
  { split; [|intros a Ha; by rewrite Hout].
    intros spec Hspec. rewrite Hin by done. rewrite (proj1 (proj2 (Hext spec Hspec))).
    destruct (value_of hit spec); [done|apply lookup_empty]. }
  rewrite (group_rules_spec hit); [|done..|by apply parses_secret, no_raise].
  rewrite <- Hi2. destruct (issues1 ++ issues2 ++ group_issues hit group m) as [|i l] eqn:Hall; [|done].
  apply app_nil in Hall as [_ [Hnil _]%app_nil].
  assert (Htot : all_parse hit) by (apply no_issue_total; [congruence|done]).
  by rewrite (finish hit).
Qed.

(** What one key of a configuration comes to, given what the sources and overrides have for it: the
    value its text means; the issue when it means nothing; the exception [urlparse] raises, or
    that of a value that is no text; and its default when there is nothing. *)
Definition key_outcome (hit : string → option pyval) (spec : KeySpec) : Prop :=
  match hit (logical spec) with
  | None => value_of hit spec = key_default spec ∧ issue_of hit spec = None ∧ raise_of hit spec = None
  | Some (VStr s) =>
      (∀ v, value_of hit spec = Some v ↔ means spec s v) ∧
      (∀ e, raise_of hit spec = Some e ↔ kind spec = URL_ ∧ strip s ≠ "" ∧ urlparse (strip s) = Err e) ∧
      (is_Some (issue_of hit spec) ↔ raise_of hit spec = None ∧ ¬ ∃ v, means spec s v) ∧
      (∀ i, issue_of hit spec = Some i → issue_code i = "CFG-003" ∧ issue_keys i = [logical spec])
  | Some _ => value_of hit spec = None ∧ issue_of hit spec = None ∧ is_Some (raise_of hit spec)
  end.

Lemma key_outcome_parse hit spec : spec ∈ REGISTRY → key_outcome hit spec.
Proof.
  intros Hspec. pose proof (λ s v, parse_means spec s v (registry_bounds spec Hspec)) as Hm.
  unfold key_outcome, value_of, issue_of, raise_of.
  destruct (hit (logical spec)) as [r|]; cbn [mbind option_bind]; [|done].
  destruct (is_str r) eqn:Er.
  - destruct r as [| | | |s| |]; try discriminate Er. specialize (Hm s). pose proof (parse_raises spec s) as He.
    pose proof (parse_issue spec (VStr s)) as Hi. destruct (parse spec (VStr s)) as [[v|i]|e].
    + split_and!; [intros w; rewrite <- Hm; naive_solver|intros e; rewrite <- He; naive_solver| |done].
      split; [by intros [? ?]|]. intros [_ Hno]. destruct Hno. exists v. by apply Hm.
    + split_and!; [intros w; rewrite <- Hm; naive_solver|intros e; rewrite <- He; naive_solver| |].
      * split; [intros _; split; [done|]|by eexists]. by intros [v Hv%Hm].
      * intros j [= <-]. pose proof (Hi i eq_refl) as (msg & -> & _)%list_elem_of_fmap. done.
    + split_and!; [intros w; rewrite <- Hm; naive_solver|intros e'; rewrite <- He; naive_solver| |done].
      by split; [intros [? ?]|intros [? _]].
  - destruct (parse_no_text spec r Er) as [e He]. rewrite He. destruct r; try discriminate Er; by split_and!; try by eexists.
Qed.

(** C30: What a configuration is made of, for sources that keep their promise, as the in-process
    mapping and the environment do (a [Supplies] source answers every question with a mapping of
    texts).  What a key is given is the override, else what the first source in the chain has for
    it.  [key_outcome] says what that comes to, for every key of the registry: the value its text
    means for a key of that kind and those bounds, an issue of that key when it means nothing, an
    exception when [urlparse] refuses it or it is no text, the default when nothing is given.
    Construction raises the first such exception, in the order of the registry; otherwise it
    reports all the issues at once, those of the keys in the order of the registry and then those
    of the group, which are not merged into that order; and otherwise it succeeds, with every
    key's value, the client secret wrapped, and the audience falling back to the client id. *)
Theorem config_build_spec environ sources fs overrides (use_env : bool) group m :
  Forall2 Supplies sources fs →
  let hit := first_hit overrides (fs ++ (if use_env then [env_value environ "OIDC_"] else [])) in
  build environ sources overrides use_env group m = config_spec hit [] group m ∧
  ∀ spec, spec ∈ REGISTRY → key_outcome hit spec.
Proof.
  intros Hall. assert (Hchain : Forall2 Supplies (chain_of environ sources use_env)
    (fs ++ (if use_env then [env_value environ "OIDC_"] else []))).
  { apply Forall2_app; [done|]. destruct use_env; repeat constructor. apply env_supplies. }
  destruct (resolve_raw_supplies _ _ overrides Hchain) as (raw & Hraw & Hhit).
  split; [by apply (build_resolved _ _ _ _ _ _ raw)|]. intros spec. apply key_outcome_parse.
Qed.

(** The issues are not in the order of the registry, which spec/config.md asks for: the missing
    identifier of the client comes after the invalid redirect address, a later key. *)
Theorem issues_out_of_order :
  let sources := [MappingSource [("client.discovery_url", "https://op.example/d"); ("client.redirect_uri", "x")] "m"] in
  issues_of (build no_environ sources ∅ true (Some "client") NONE) =
    ["CFG-003: value is not an absolute URL (client.redirect_uri)";
     "CFG-001: required key 'client.id' is missing (client.id)"] ∧
  List.filter (λ k, bool_decide (k ∈ ["client.redirect_uri"; "client.id"])) logical_keys =
    ["client.id"; "client.redirect_uri"].
Proof. split; vm_compute; reflexivity. Qed.

Lemma config_build_spec_witness :
  let hit := first_hit ∅ [mapping_value demo_client; env_value no_environ "OIDC_"] in
  build no_environ [MappingSource demo_client "m"] ∅ true (Some "client") CLIENT_SECRET_POST =
    config_spec hit [] (Some "client") CLIENT_SECRET_POST ∧
  ∀ v, value_of hit (the_spec "client.id") = Some v ↔ means (the_spec "client.id") "app" v.
Proof.
  assert (H : Forall2 Supplies [MappingSource demo_client "m"] [mapping_value demo_client]).
  { repeat constructor. apply mapping_supplies. }
  destruct (config_build_spec no_environ _ _ ∅ true (Some "client") CLIENT_SECRET_POST H) as [H1 H2].
  split; [exact H1|]. specialize (H2 (the_spec "client.id") (the_spec_elem "client.id" _ eq_refl)).
  unfold key_outcome in H2. exact (proj1 H2).
Defined.
