(* ===== verification/ConfigTyped.v ===== *)
(** * Configurations are well typed and keep their secret

    What every constructed configuration satisfies, whatever its sources return; and that neither
    the errors nor the representation tell one secret from another. *)

From S2P Require Import Prelude PyStr PyValue Models Url Codec Config ConfigSpec.
From Stdlib Require Import QArith Ascii.
From stdpp Require Import gmap strings.
#[global] Close Scope Q_scope.
Open Scope string_scope.
Open Scope list_scope.
Open Scope nat_scope.
Open Scope py_scope.

(** ** What is constructed is well typed *)

Definition within (spec : KeySpec) (num : pyval) : bool :=
  (match lo spec with
   | Some low => if lo_exclusive spec then num_lt low num else num_le low num
   | None => true
   end) &&
  (match hi spec with Some high => num_le num high | None => true end).

Definition absolute_url (s : string) : bool :=
  match urlparse s with
  | Ok parsed => nonempty (scheme parsed) && nonempty (netloc parsed)
  | Err _ => false
  end.

(** A setting of the type and in the range its key demands.  [None] and the empty URL occur only
    as defaults; only the secret is wrapped. *)
Definition setting_ok (spec : KeySpec) (v : setting) : bool :=
  match kind spec, v with
  | INT, Plain (VInt z) => within spec (VInt z)
  | FLOAT, Plain (VFloat (FFin q)) => within spec (fl q)
  | STR, Plain (VStr s) => negb (secret spec) && (strip s ≠? "")
  | STR, Wrapped s => secret spec && (strip (expose s) ≠? "")
  | URL_, Plain (VStr u) => absolute_url u || (u ≟ "")
  | STR, Plain VNone | URL_, Plain VNone =>
      match key_default spec with None | Some (Plain VNone) => true | _ => false end
  | STRLIST, Tuple l => forallb nonempty l
  | _, _ => false
  end.

Lemma num_lt_le a b p q :
  as_num a = Some (FFin p) → as_num b = Some (FFin q) → num_lt a b = negb (num_le b a).
Proof.
  intros Ha Hb. unfold num_lt, num_le. rewrite Ha, Hb. unfold float_le, float_lt, float_eq.
  destruct (Qle_bool q p) eqn:Hqp, (Qle_bool p q) eqn:Hpq, (Qeq_bool q p) eqn:Heq; try done; exfalso.
  - assert (q == p)%Q as H by (apply Qle_antisym; by apply Qle_bool_iff).
    apply Qeq_bool_iff in H. congruence.
  - apply Qeq_bool_iff in Heq. assert (Qle_bool q p = true); [|congruence].
    apply Qle_bool_iff. rewrite Heq. apply Qle_refl.
  - apply Qeq_bool_iff in Heq. assert (Qle_bool q p = true); [|congruence].
    apply Qle_bool_iff. rewrite Heq. apply Qle_refl.
  - assert (Hf : ∀ x y : Q, Qle_bool x y = false → (y < x)%Q).
    { intros x y H. apply Qnot_le_lt. intros H'%Qle_bool_iff. congruence. }
    apply (Qlt_irrefl p). eapply Qlt_trans; by apply Hf.
Qed.

Definition finite_num (o : option pyval) : bool :=
  match o with Some v => match as_num v with Some (FFin _) => true | _ => false end | None => true end.

Definition own_value (spec : KeySpec) (v : setting) : setting :=
  if secret spec then wrap_secret v else v.

(** The registry's own values: finite bounds, and defaults that need no excuse. *)
Definition spec_ok (spec : KeySpec) : bool :=
  finite_num (lo spec) && finite_num (hi spec) &&
  (bool_decide (kind spec = STR) || negb (secret spec)) &&
  setting_ok spec (own_value spec (default (Plain VNone) (key_default spec))).
Lemma registry_ok spec : spec ∈ REGISTRY → spec_ok spec = true.
Proof.
  intros H%list_elem_of_In. revert spec H. apply forallb_forall. vm_compute. reflexivity.
Qed.

Lemma within_checks spec num p :
  spec_ok spec = true → as_num num = Some (FFin p) →
  (∀ low, lo spec = Some low → lo_exclusive spec && num_le num low = false ∧
    negb (lo_exclusive spec) && num_lt num low = false) →
  (∀ high, hi spec = Some high → num_lt high num = false) →
  within spec num = true.
Proof.
  unfold spec_ok, within, finite_num. intros Hok Hp Hlo Hhi. bool_prop.
  apply andb_true_iff. split.
  - destruct (lo spec) as [low|]; [|done]. destruct (as_num low) as [[| |q]|] eqn:Hq; try done.
    destruct (Hlo low eq_refl) as [Hex Hin]. destruct (lo_exclusive spec); cbn [negb andb] in *.
    + by rewrite (num_lt_le low num q p), Hex.
    + rewrite (num_lt_le num low p q) in Hin by done. by apply negb_false_iff.
  - destruct (hi spec) as [high|]; [|done]. destruct (as_num high) as [[| |q]|] eqn:Hq; try done.
    specialize (Hhi high eq_refl). rewrite (num_lt_le high num q p) in Hhi by done.
    by apply negb_false_iff.
Qed.

Lemma parse_number_ok spec txt v :
  spec_ok spec = true → kind spec = INT ∨ kind spec = FLOAT →
  parse_number spec txt = Ok v → setting_ok spec v = true.
Proof.
  unfold parse_number. intros Hok Hk H. destruct (read_number (kind spec) txt) as [num|] eqn:Hn; [|done].
  peel_ok. injection H as <-.
  assert (Hlo : ∀ low, lo spec = Some low → lo_exclusive spec && num_le num low = false ∧
    negb (lo_exclusive spec) && num_lt num low = false).
  { intros low Hl. rewrite Hl in *. peel_ok. done. }
  assert (Hhi : ∀ high, hi spec = Some high → num_lt high num = false).
  { intros high Hh. rewrite Hh in *. peel_ok. done. }
  unfold setting_ok, read_number in *. destruct Hk as [Hk|Hk]; rewrite Hk in *.
  - destruct (int_of_string txt); simplify_eq/=. by eapply within_checks.
  - destruct (float_of_string txt) as [f|]; simplify_eq/=.
    destruct f; try discriminate. by eapply within_checks.
Qed.

Lemma parse_ok spec r v :
  spec_ok spec = true → parse spec r = Ok (Ok v) → setting_ok spec (own_value spec v) = true.
Proof.
  intros Hok H. assert (Hsec : kind spec ≠ STR → secret spec = false).
  { intros Hk. unfold spec_ok in Hok. bool_prop. rewrite (bool_decide_eq_false_2 (kind spec = STR)) in * by done.
    by apply negb_true_iff. }
  unfold own_value. destruct (decide (kind spec = STR)) as [Hk|Hk].
  - destruct r as [| | | |s| |]; try (unfold parse in H; rewrite Hk in H; discriminate).
    rewrite parse_str in H by done. case_bool_decide as Hs; [discriminate|]. injection H as <-.
    unfold setting_ok. rewrite Hk. destruct (secret spec); cbn; by rewrite bool_decide_eq_false_2.
  - rewrite Hsec by done. unfold parse in H.
    destruct (kind spec) eqn:Hkind, r as [| | | |s| |]; try discriminate; try done;
      try (case_bool_decide; [discriminate|]).
    + injection H as H. apply (parse_number_ok _ (strip s)); [done|by left|done].
    + injection H as H. apply (parse_number_ok _ (strip s)); [done|by right|done].
    + unfold parse_url in H. apply result_bind_ok in H as (parsed & Hu & [= H]).
      destruct (negb _ || negb _) eqn:E; [discriminate|]. injection H as <-. bool_prop.
      unfold setting_ok, absolute_url. rewrite Hkind, Hu. by apply orb_true_iff; left; apply andb_true_iff.
    + injection H as <-. unfold setting_ok. rewrite Hkind. apply forallb_forall.
      intros t [_ Ht]%filter_In. exact Ht.
Qed.

Lemma configured_ok hit spec :
  spec ∈ REGISTRY → all_parse hit → setting_ok spec (own_value spec (configured hit spec)) = true.
Proof.
  intros Hspec Htot. pose proof (registry_ok spec Hspec) as Hok. unfold configured, value_of.
  assert (Hd : setting_ok spec (own_value spec (default (Plain VNone) (key_default spec))) = true).
  { unfold spec_ok in Hok. by bool_prop. }
  destruct (hit (logical spec)) as [r|] eqn:Hr; [|done].
  destruct (Htot spec r Hspec Hr) as [v Hp]. rewrite Hp. by apply (parse_ok _ r).
Qed.

Lemma secret_attr spec : spec ∈ REGISTRY → secret spec = (attr spec ≟ "client_secret").
Proof.
  intros H%list_elem_of_In. revert spec H.
  enough (H : forallb (λ spec, eqb (secret spec) (attr spec ≟ "client_secret")) REGISTRY = true).
  { intros spec Hs. apply eqb_prop. by apply (proj1 (forallb_forall _ _) H). }
  vm_compute. reflexivity.
Qed.

Lemma final_ok hit spec : spec ∈ REGISTRY → all_parse hit → setting_ok spec (final hit spec) = true.
Proof.
  intros Hspec Htot. pose proof (configured_ok hit spec Hspec Htot) as Hok. unfold final, own_value in *.
  rewrite (secret_attr spec Hspec) in Hok. case_bool_decide as Hs; [done|].
  case_bool_decide as Ha; cbn [andb]; [|done].
  destruct (is_unset (configured hit spec)) eqn:Hu; [|done].
  rewrite (audience_spec spec Hspec Ha).
  exact (configured_ok hit (the_spec "client.id") (the_spec_elem "client.id" _ eq_refl) Htot).
Qed.

Lemma lookup_field_map {A} (name : A → string) (f : A → setting) l x :
  NoDup (map name l) → x ∈ l → lookup_field (name x) (map (λ y, (name y, f y)) l) = Some (f x).
Proof.
  induction l as [|y l IH]; [set_solver|]. intros [Hy Hnd]%NoDup_cons Hx. cbn [map lookup_field].
  apply elem_of_cons in Hx as [->|Hx]; [by bd_refl|]. case_bool_decide as Heq; [|by apply IH].
  destruct Hy. rewrite <- Heq. by apply list_elem_of_fmap_2.
Qed.

Lemma config_get_final c hit spec :
  config_values c = map (λ spec, (attr spec, final hit spec)) REGISTRY → spec ∈ REGISTRY →
  config_get c (attr spec) = Some (final hit spec).
Proof. intros Hc Hspec. unfold config_get. rewrite Hc. apply lookup_field_map; [apply attr_NoDup|done]. Qed.

(** A given string value of the client group, as it ends up. *)
Lemma given_value hit name :
  all_parse hit → the_spec name ∈ REGISTRY → given hit (logical (the_spec name)) = true →
  ∃ r v, hit (logical (the_spec name)) = Some r ∧ parse (the_spec name) r = Ok (Ok v) ∧
    configured hit (the_spec name) = v.
Proof.
  unfold given, configured, value_of. intros Hall Hspec [r Hr]%bool_decide_eq_true.
  destruct (Hall _ r Hspec Hr) as [v Hv]. exists r, v. by rewrite Hr, Hv.
Qed.

Lemma nil_map_filter {A B} (f : A → B) p l : map f (List.filter p l) = [] → ∀ x, x ∈ l → p x = false.
Proof.
  intros H x Hx. destruct (p x) eqn:Hp; [|done]. apply map_eq_nil in H.
  assert (Hin : x ∈ List.filter p l) by (by apply elem_of_bfilter). rewrite H in Hin. by apply not_elem_of_nil in Hin.
Qed.

Lemma group_issues_nil hit m :
  group_issues hit (Some "client") m = [] →
  given hit "client.discovery_url" = true ∧ given hit "client.id" = true ∧
  (requires_secret m = true → usable_secret hit = true).
Proof.
  unfold group_issues. rewrite decide_True by done. intros [Hreq Hsec]%app_nil.
  pose proof (nil_map_filter _ _ _ Hreq) as H. split_and!.
  - apply negb_false_iff, H. by left.
  - apply negb_false_iff, H. right. by left.
  - intros Hm. rewrite Hm in Hsec. cbn [andb] in Hsec. destruct (usable_secret hit); [done|discriminate].
Qed.

Definition url_of (c : Config) (u : string) : Prop :=
  config_get c "client_discovery_url" = Some (Plain (VStr u)) ∧ absolute_url u = true.
Definition id_of (c : Config) (i : string) : Prop :=
  config_get c "client_id" = Some (Plain (VStr i)) ∧ strip i ≠ "".
Definition secret_of (c : Config) (s : Secret) : Prop :=
  config_get c "client_secret" = Some (Wrapped s) ∧ strip (expose s) ≠ "".

(** What a requested client group guarantees. *)
Record client_complete (c : Config) (m : ClientAuthMethod) : Prop := {
  cc_url : ∃ u, url_of c u;
  cc_id : ∃ i, id_of c i;
  cc_secret : requires_secret m = true → ∃ s, secret_of c s;
}.

(** The finished value of a key of the client group other than the audience. *)
Lemma final_plain hit name spec :
  by_logical name = Some spec → attr spec ≠ "client_secret" → attr spec ≠ "client_audience" →
  final hit spec = configured hit spec.
Proof. intros _ Hs Ha. unfold final. by rewrite !bool_decide_eq_false_2 by done. Qed.

Lemma parse_url_ok spec r v :
  kind spec = URL_ → parse spec r = Ok (Ok v) → ∃ u, v = Plain (VStr u) ∧ absolute_url u = true.
Proof.
  unfold parse. intros -> Hp. destruct r as [| | | |s| |]; try discriminate.
  case_bool_decide; [discriminate|]. unfold parse_url in Hp.
  apply result_bind_ok in Hp as (parsed & Hparsed & [= Hp]).
  destruct (negb _ || negb _) eqn:E; [discriminate|]. injection Hp as <-. bool_prop.
  exists (strip s). split; [done|]. unfold absolute_url. rewrite Hparsed. by apply andb_true_iff.
Qed.

Lemma parse_str_ok spec r v :
  kind spec = STR → parse spec r = Ok (Ok v) → ∃ s, r = VStr s ∧ v = Plain (VStr s) ∧ strip s ≠ "".
Proof.
  intros Hk Hp. destruct r as [| | | |s| |]; try (unfold parse in Hp; rewrite Hk in Hp; discriminate).
  rewrite parse_str in Hp by done. case_bool_decide; [discriminate|]. injection Hp as <-. by exists s.
Qed.

Lemma client_group hit c m :
  all_parse hit → config_values c = map (λ spec, (attr spec, final hit spec)) REGISTRY →
  group_issues hit (Some "client") m = [] → client_complete c m.
Proof.
  intros Hall Hc (Hu & Hi & Hs)%group_issues_nil.
  assert (Hget : ∀ name spec, by_logical name = Some spec → config_get c (attr spec) = Some (final hit spec)).
  { intros name spec Hb. by apply config_get_final, (the_spec_elem name). }
  split.
  - destruct (given_value hit "client.discovery_url" Hall (the_spec_elem "client.discovery_url" _ eq_refl) Hu)
      as (r & v & _ & Hp & Hv). apply parse_url_ok in Hp as (u & -> & Hu'); [|done].
    exists u. split; [|done]. etrans; [exact (Hget "client.discovery_url" _ eq_refl)|].
    f_equal. etrans; [by apply (final_plain hit "client.discovery_url")|exact Hv].
  - destruct (given_value hit "client.id" Hall (the_spec_elem "client.id" _ eq_refl) Hi)
      as (r & v & _ & Hp & Hv). apply parse_str_ok in Hp as (i & -> & -> & Hi'); [|done].
    exists i. split; [|done]. etrans; [exact (Hget "client.id" _ eq_refl)|].
    f_equal. etrans; [by apply (final_plain hit "client.id")|exact Hv].
  - intros Hm. specialize (Hs Hm). unfold usable_secret in Hs.
    destruct (hit "client.secret") as [[| | | |s| |]|] eqn:Hr; try discriminate.
    apply negb_true_iff, bool_decide_eq_false in Hs. exists (NewSecret s). split; [|done].
    etrans; [exact (Hget "client.secret" _ eq_refl)|]. f_equal.
    change (wrap_secret (configured hit (the_spec "client.secret")) = Wrapped (NewSecret s)).
    unfold configured, value_of. rewrite secret_logical, Hr, parse_str by done.
    by rewrite bool_decide_eq_false_2.
Qed.

Lemma config_spec_ok hit is1 group m c :
  config_spec hit is1 group m = Ok c →
  group_issues hit group m = [] ∧ all_parse hit ∧
  config_values c = map (λ spec, (attr spec, final hit spec)) REGISTRY.
Proof.
  unfold config_spec, expected_issues. destruct (find_map (raise_of hit) REGISTRY) eqn:Hr; [discriminate|].
  destruct (is1 ++ _) eqn:Hall; [|discriminate]. intros [= <-].
  apply app_nil in Hall as [_ [Hnil Hg]%app_nil]. split_and!; [done|by apply no_issue_total|done].
Qed.

Lemma build_ok environ sources overrides use_env group m c :
  build environ sources overrides use_env group m = Ok c →
  ∃ hit, group_issues hit group m = [] ∧ all_parse hit ∧
    config_values c = map (λ spec, (attr spec, final hit spec)) REGISTRY.
Proof.
  intros Hb. destruct (resolve_raw (chain_of environ sources use_env) overrides) as [[raw is1]|e] eqn:Hres.
  - exists (raw !!.). apply (config_spec_ok _ is1). rewrite <- Hb. by rewrite (build_resolved _ _ _ _ _ _ raw is1 (raw !!.)).
  - rewrite build_eq, Hres in Hb. discriminate.
Qed.

(** C29: Whatever the sources do (raise, return anything at all), a configuration that is
    constructed is well typed: every key of the registry has a setting of its kind, numbers are
    finite and within the registry's bounds, URLs are absolute or the default, list items are
    not empty and only the secret is wrapped; and when the client group was requested its
    required keys are there, the secret included if the authentication method needs it. *)
Theorem config_typed environ sources overrides use_env group m c :
  build environ sources overrides use_env group m = Ok c →
  (∀ spec, spec ∈ REGISTRY → ∃ v, config_get c (attr spec) = Some v ∧ setting_ok spec v = true) ∧
  (group = Some "client" → client_complete c m).
Proof.
  intros (hit & Hg & Hall & Hc)%build_ok. split.
  - intros spec Hspec. exists (final hit spec). split; [by apply config_get_final|by apply final_ok].
  - intros ->. by apply (client_group hit).
Qed.

Lemma config_typed_witness : ∃ c,
  build no_environ [MappingSource demo_client "mapping"] ∅ true (Some "client") CLIENT_SECRET_POST = Ok c ∧
  client_complete c CLIENT_SECRET_POST.
Proof.
  destruct demo_built as [c E]. exists c. split; [exact E|].
  exact (proj2 (config_typed no_environ [MappingSource demo_client "mapping"] ∅ true (Some "client")
    CLIENT_SECRET_POST c E) eq_refl).
Defined.

(** ** Errors name keys, not values *)

(** Every issue a construction can report, from the names of its sources, the registry and the
    authentication method alone. *)
Definition catalogue (names : list string) (m : ClientAuthMethod) : list ConfigIssue :=
  map source_failed names ++ flat_map (λ n, map (not_a_string n) logical_keys) names ++
  flat_map (λ spec, map (invalid spec) (messages spec)) REGISTRY ++
  map missing_key CLIENT_REQUIRED ++ [secret_needed m; stray_client].

Lemma elem_of_flat_map {A B} (f : A → list B) l y : y ∈ flat_map f l ↔ ∃ x, x ∈ l ∧ y ∈ f x.
Proof.
  rewrite list_elem_of_In, in_flat_map. setoid_rewrite list_elem_of_In. naive_solver.
Qed.

Lemma take_supplied_issues name supplied keys raw raw' kept issues :
  take_supplied name supplied keys raw = Ok (raw', kept, issues) →
  kept ⊆ keys ∧ ∀ i, i ∈ issues → i ∈ map (not_a_string name) keys.
Proof.
  revert raw raw' kept issues. induction keys as [|k keys IH]; intros raw raw' kept issues; cbn [take_supplied].
  { intros [= <- <- <-]. set_solver. }
  intros (item & _ & H1)%result_bind_ok.
  destruct item as [[| | | |s| |]|];
    try (apply result_bind_ok in H1 as ([[raw1 kept1] issues1] & H1 & [= <- <- <-]));
    apply IH in H1 as [Hk Hi]; split; cbn [map]; set_solver.
Qed.

Lemma consult_issues all chain keys raw raw' issues :
  consult chain keys raw = Ok (raw', issues) → keys ⊆ all →
  ∀ i, i ∈ issues → i ∈ map source_failed (map source_name chain) ++
    flat_map (λ n, map (not_a_string n) all) (map source_name chain).
Proof.
  revert keys raw raw' issues. induction chain as [|s chain IH]; intros keys raw raw' issues.
  { intros [= <- <-]. set_solver. }
  destruct keys as [|k0 keys0]; [intros [= <- <-]; set_solver|]. cbn [consult]. set (keys := k0 :: keys0).
  intros H Hkeys i Hi. cbn [map flat_map]. destruct (resolve s keys) as [supplied|e].
  - apply result_bind_ok in H as ([[raw1 kept] issues1] & H1 & H).
    apply result_bind_ok in H as ([raw2 issues2] & H2 & [= <- <-]).
    apply take_supplied_issues in H1 as [Hk Hi1]. apply elem_of_app in Hi as [Hi|Hi].
    + apply Hi1, list_elem_of_fmap in Hi as (k & -> & Hk'). apply elem_of_app. right. apply elem_of_app. left.
      apply list_elem_of_fmap_2, Hkeys, Hk'.
    + specialize (IH _ _ _ _ H2 ltac:(set_solver) i Hi). set_solver.
  - apply result_bind_ok in H as ([raw2 issues2] & H2 & [= <- <-]).
    apply elem_of_cons in Hi as [->|Hi]; [set_solver|].
    specialize (IH _ _ _ _ H2 Hkeys i Hi). set_solver.
Qed.

Lemma expected_known hit group m names i : i ∈ expected_issues hit group m → i ∈ catalogue names m.
Proof.
  unfold expected_issues, catalogue. intros [Hi|Hi]%elem_of_app.
  - apply list_elem_of_omap in Hi as (spec & Hspec & Hi). unfold issue_of in Hi.
    destruct (hit (logical spec)) as [r|]; [|done]. cbn in Hi.
    destruct (parse spec r) as [[v|j]|] eqn:Hp; simplify_eq.
    do 2 (apply elem_of_app; right). apply elem_of_app. left. apply elem_of_flat_map.
    exists spec. split; [done|]. by apply (parse_issue _ r).
  - do 3 (apply elem_of_app; right). unfold group_issues in Hi. destruct (decide _).
    + apply elem_of_app in Hi as [Hi|Hi].
      * apply list_elem_of_fmap in Hi as (req & -> & [Hreq _]%elem_of_bfilter).
        apply elem_of_app. left. by apply list_elem_of_fmap_2.
      * apply elem_of_app. right. destruct (_ && _); [|by apply not_elem_of_nil in Hi].
        apply list_elem_of_singleton in Hi as ->. by left.
    + apply elem_of_app. right. destruct (_ && _); [|by apply not_elem_of_nil in Hi].
      apply list_elem_of_singleton in Hi as ->. right. by left.
Qed.

(** No error carries a configured value: every issue a construction reports is one of a
    catalogue computed from the registry, the sources' names and the authentication method. *)
Theorem config_errors_catalogued environ sources overrides use_env group m issues :
  build environ sources overrides use_env group m = Err (ConfigError issues) →
  ∀ i, i ∈ issues → i ∈ catalogue (map source_name (chain_of environ sources use_env)) m.
Proof.
  intros Hb i Hi. destruct (resolve_raw (chain_of environ sources use_env) overrides) as [[raw is1]|e] eqn:Hres;
    [|rewrite build_eq, Hres in Hb; discriminate].
  rewrite (build_resolved _ _ _ _ _ _ raw is1 (raw !!.)) in Hb by done. unfold config_spec in Hb.
  destruct (find_map _ REGISTRY); [discriminate|].
  assert (Hin : i ∈ is1 ++ expected_issues (raw !!.) group m).
  { destruct (is1 ++ _); [discriminate|]. by injection Hb as <-. }
  apply elem_of_app in Hin as [Hin|Hin]; [|by apply (expected_known (raw !!.) group)].
  unfold catalogue. rewrite app_assoc. apply elem_of_app. left.
  apply (consult_issues logical_keys _ _ _ _ _ Hres); [|done].
  intros k [Hk _]%elem_of_bfilter. exact Hk.
Qed.

Lemma config_errors_catalogued_witness : ∃ issues,
  build no_environ [MappingSource [("client.id", "")] "mapping"] ∅ true None NONE = Err (ConfigError issues) ∧
  ∀ i, i ∈ issues → i ∈ catalogue ["mapping"; "env"] NONE.
Proof.
  eexists. split; [vm_compute; reflexivity|].
  apply (config_errors_catalogued no_environ [MappingSource [("client.id", "")] "mapping"] ∅ true None NONE).
  vm_compute. reflexivity.
Defined.

(** ** One secret is as good as another *)

Definition SECRET : string := "client.secret".

(** Raw values of a key that differ at most in the text of the secret. *)
Definition alike (k : string) (o1 o2 : option pyval) : Prop :=
  o1 = o2 ∨ (k = SECRET ∧ ∃ s1 s2, o1 = Some (VStr s1) ∧ o2 = Some (VStr s2) ∧ strip s1 ≠ "" ∧ strip s2 ≠ "").

#[global] Instance alike_equiv k : Equivalence (alike k).
Proof.
  split.
  - intros o. by left.
  - intros o1 o2 [->|(? & s1 & s2 & ? & ? & ? & ?)]; [by left|right; split; [done|by exists s2, s1]].
  - intros o1 o2 o3 [->|(? & s1 & s2 & ? & -> & ? & ?)] H23; [done|].
    destruct H23 as [<-|(_ & s2' & s3 & ? & ? & ? & ?)]; right; (split; [done|]);
      [by exists s1, s2|by exists s1, s3].
Qed.

Lemma alike_some k o1 o2 : alike k o1 o2 → is_Some o1 ↔ is_Some o2.
Proof. intros [->|(_ & s1 & s2 & -> & -> & _)]; [done|]. split; by eexists. Qed.

Definition hits_alike (h1 h2 : string → option pyval) : Prop := ∀ k, alike k (h1 k) (h2 k).
Definition raw_alike (m1 m2 : raw_map) : Prop := hits_alike (m1 !!.) (m2 !!.).

(** What a program can see of a construction: the representation, or the error. *)
Definition shown (r : result failure Config) : result (string + exn) string :=
  match r with
  | Ok c => Ok (config_repr c)
  | Err (ConfigError l) => Err (inl (config_error_str l))
  | Err (Raised e) => Err (inr e)
  end.

Lemma hits_alike_ne h1 h2 k : hits_alike h1 h2 → k ≠ SECRET → h1 k = h2 k.
Proof. intros H Hk. by destruct (H k) as [?|[? _]]. Qed.

Lemma secret_spec spec : spec ∈ REGISTRY → logical spec = SECRET → spec = the_spec SECRET.
Proof.
  intros H%list_elem_of_In. revert spec H.
  enough (H : Forall (λ spec, logical spec = SECRET → spec = the_spec SECRET) REGISTRY).
  { intros spec Hs. apply (proj1 (List.Forall_forall _ _) H spec Hs). }
  repeat (constructor; [first [discriminate|reflexivity]|]). constructor.
Qed.

Lemma nonblank_secret_final h s :
  h SECRET = Some (VStr s) → strip s ≠ "" →
  issue_of h (the_spec SECRET) = None ∧ raise_of h (the_spec SECRET) = None ∧
  final h (the_spec SECRET) = Wrapped (NewSecret s).
Proof.
  intros Hh Hs.
  assert (Hp : parse (the_spec SECRET) (VStr s) = Ok (Ok (Plain (VStr s)))).
  { rewrite parse_str by done. by rewrite bool_decide_eq_false_2. }
  assert (Hl : h (logical (the_spec SECRET)) = Some (VStr s)) by exact Hh.
  unfold issue_of, raise_of. rewrite Hl. cbn [mbind option_bind]. rewrite Hp. split_and!; [done..|].
  change (wrap_secret (configured h (the_spec SECRET)) = Wrapped (NewSecret s)).
  unfold configured, value_of. by rewrite Hl, Hp.
Qed.

Lemma final_ext h1 h2 spec :
  h1 (logical spec) = h2 (logical spec) → h1 "client.id" = h2 "client.id" →
  final h1 spec = final h2 spec.
Proof.
  intros H Hid. unfold final, configured.
  destruct (hit_ext _ _ _ H) as (_ & -> & _).
  assert (value_of h1 (the_spec "client.id") = value_of h2 (the_spec "client.id")) as ->; [|done].
  by apply (hit_ext h1 h2 (the_spec "client.id")).
Qed.

Lemma spec_alike h1 h2 spec :
  hits_alike h1 h2 → spec ∈ REGISTRY →
  issue_of h1 spec = issue_of h2 spec ∧ raise_of h1 spec = raise_of h2 spec ∧
  field_repr (attr spec, final h1 spec) = field_repr (attr spec, final h2 spec).
Proof.
  intros Hh Hspec. assert (Hid : h1 "client.id" = h2 "client.id") by (by apply hits_alike_ne).
  destruct (Hh (logical spec)) as [Heq|(Hk & s1 & s2 & H1 & H2 & Hs1 & Hs2)].
  - destruct (hit_ext h1 h2 spec Heq) as (-> & _ & ->). by rewrite (final_ext h1 h2).
  - apply secret_spec in Hk; [|done]. subst spec. change (logical (the_spec SECRET)) with SECRET in *.
    destruct (nonblank_secret_final h1 s1 H1 Hs1) as (-> & -> & ->).
    by destruct (nonblank_secret_final h2 s2 H2 Hs2) as (-> & -> & ->).
Qed.

Lemma group_issues_alike h1 h2 group m :
  hits_alike h1 h2 → group_issues h1 group m = group_issues h2 group m.
Proof.
  intros Hh. assert (Hg : ∀ k, given h1 k = given h2 k).
  { intros k. unfold given. apply bool_decide_ext, (alike_some k), Hh. }
  assert (Hs : usable_secret h1 = usable_secret h2).
  { unfold usable_secret. change "client.secret" with SECRET.
    destruct (Hh SECRET) as [->|(_ & s1 & s2 & -> & -> & ? & ?)]; [done|].
    by rewrite !bool_decide_eq_false_2. }
  assert (He : ∀ l, existsb (λ k, startswith k "client." && given h1 k) l =
                    existsb (λ k, startswith k "client." && given h2 k) l).
  { induction l as [|k l IH]; [done|]. cbn [existsb]. by rewrite IH, Hg. }
  unfold group_issues. rewrite Hs, He, Hg. destruct (decide _); [|done].
  unfold CLIENT_REQUIRED. cbn [List.filter]. by rewrite !Hg.
Qed.

Lemma config_spec_alike h1 h2 is1 group m :
  hits_alike h1 h2 → shown (config_spec h1 is1 group m) = shown (config_spec h2 is1 group m).
Proof.
  intros Hh. unfold config_spec, expected_issues.
  rewrite (find_map_ext (raise_of h1) (raise_of h2)) by (intros; by apply spec_alike).
  rewrite (omap_ext_elem (issue_of h1) (issue_of h2)) by (intros; by apply spec_alike).
  rewrite (group_issues_alike h1 h2) by done.
  destruct (find_map _ REGISTRY); [done|]. destruct (is1 ++ _); [|done].
  unfold shown, config_repr. cbn [config_values]. rewrite !map_map. do 4 f_equal.
  apply map_ext_in. intros spec Hspec%list_elem_of_In. by apply spec_alike.
Qed.

(** *** Resolution *)

Definition items_alike (k : string) (r1 r2 : outcome (option pyval)) : Prop :=
  match r1, r2 with
  | Ok o1, Ok o2 => alike k o1 o2
  | Err e1, Err e2 => e1 = e2
  | _, _ => False
  end.
Definition supplied_alike (s1 s2 : pyval) : Prop :=
  ∀ k, items_alike k (supplied_item s1 k) (supplied_item s2 k).

(** Two sources that differ at most in the secret they hold. *)
Definition source_alike (a b : ConfigSource) : Prop :=
  source_name a = source_name b ∧
  ∀ keys, match resolve a keys, resolve b keys with
          | Ok s1, Ok s2 => supplied_alike s1 s2
          | Err _, Err _ => True
          | _, _ => False
          end.

Lemma raw_alike_insert m1 m2 k v1 v2 :
  raw_alike m1 m2 → alike k (Some v1) (Some v2) → raw_alike (<[k := v1]> m1) (<[k := v2]> m2).
Proof.
  intros Hm Hv j. destruct (decide (j = k)) as [->|Hne].
  - by rewrite !lookup_insert_eq.
  - rewrite !lookup_insert_ne by done. apply Hm.
Qed.

Lemma take_supplied_alike name s1 s2 keys m1 m2 :
  supplied_alike s1 s2 → raw_alike m1 m2 →
  match take_supplied name s1 keys m1, take_supplied name s2 keys m2 with
  | Ok (m1', kept1, is1), Ok (m2', kept2, is2) => raw_alike m1' m2' ∧ kept1 = kept2 ∧ is1 = is2
  | Err e1, Err e2 => e1 = e2
  | _, _ => False
  end.
Proof.
  intros Hs. revert m1 m2. induction keys as [|k keys IH]; intros m1 m2 Hm; cbn [take_supplied]; [done|].
  specialize (Hs k). unfold items_alike in Hs.
  destruct (supplied_item s1 k) as [o1|e1], (supplied_item s2 k) as [o2|e2]; try done;
    cbn [mbind result_bind].
  destruct Hs as [->|(-> & t1 & t2 & -> & -> & ? & ?)].
  - specialize (IH m1 m2 Hm) as IHm. destruct o2 as [[| | | |s| |]|];
      [..|by apply IH, raw_alike_insert| | |];
      destruct (take_supplied name s1 keys m1) as [[[? ?] ?]|], (take_supplied name s2 keys m2) as [[[? ?] ?]|];
      cbn [mbind result_bind]; try done; destruct IHm as (? & -> & ->); done.
  - apply IH, raw_alike_insert; [done|]. right. split; [done|]. by exists t1, t2.
Qed.

Lemma consult_alike chain1 chain2 keys m1 m2 :
  Forall2 source_alike chain1 chain2 → raw_alike m1 m2 →
  match consult chain1 keys m1, consult chain2 keys m2 with
  | Ok (m1', is1), Ok (m2', is2) => raw_alike m1' m2' ∧ is1 = is2
  | Err e1, Err e2 => e1 = e2
  | _, _ => False
  end.
Proof.
  intros Hall. revert keys m1 m2. induction Hall as [|a b chain1 chain2 [Hn Hr] Hall IH]; intros keys m1 m2 Hm; [done|].
  destruct keys as [|k0 keys0]; [done|]. cbn [consult]. set (keys := k0 :: keys0).
  specialize (Hr keys). destruct (resolve a keys) as [s1|], (resolve b keys) as [s2|]; try done; rewrite Hn.
  - pose proof (take_supplied_alike (source_name b) s1 s2 keys m1 m2 Hr Hm) as Ht.
    destruct (take_supplied _ s1 keys m1) as [[[m1' kept1] is1]|],
      (take_supplied _ s2 keys m2) as [[[m2' kept2] is2]|]; try done; cbn [mbind result_bind].
    destruct Ht as (Hm' & -> & ->). specialize (IH kept2 m1' m2' Hm').
    destruct (consult chain1 kept2 m1') as [[? ?]|], (consult chain2 kept2 m2') as [[? ?]|];
      cbn [mbind result_bind]; try done. by destruct IH as [? ->].
  - specialize (IH keys m1 m2 Hm).
    destruct (consult chain1 keys m1) as [[? ?]|], (consult chain2 keys m2) as [[? ?]|];
      cbn [mbind result_bind]; try done. by destruct IH as [? ->].
Qed.

Lemma filter_logical_lookup (m : raw_map) k :
  filter (λ kv : string * pyval, kv.1 ∈ logical_keys) m !! k = if bool_decide (k ∈ logical_keys) then m !! k else None.
Proof.
  case_bool_decide as Hk.
  - destruct (m !! k) as [v|] eqn:Hm; [by apply map_lookup_filter_Some|].
    apply map_lookup_filter_None. by left.
  - apply map_lookup_filter_None. right. by intros v _ Hin.
Qed.

Lemma resolve_raw_alike chain1 chain2 ov1 ov2 :
  Forall2 source_alike chain1 chain2 → raw_alike ov1 ov2 →
  match resolve_raw chain1 ov1, resolve_raw chain2 ov2 with
  | Ok (m1', is1), Ok (m2', is2) => raw_alike m1' m2' ∧ is1 = is2
  | Err e1, Err e2 => e1 = e2
  | _, _ => False
  end.
Proof.
  intros Hall Hov. unfold resolve_raw.
  set (f1 := filter _ ov1). set (f2 := filter _ ov2).
  assert (Hf : raw_alike f1 f2).
  { intros k. unfold f1, f2. rewrite !filter_logical_lookup. case_bool_decide; [apply Hov|by left]. }
  assert (Hrem : List.filter (λ k, negb (bool_decide (is_Some (f1 !! k)))) logical_keys =
                 List.filter (λ k, negb (bool_decide (is_Some (f2 !! k)))) logical_keys).
  { apply filter_ext. intros k. f_equal. apply bool_decide_ext, (alike_some k), Hf. }
  rewrite Hrem. by apply consult_alike.
Qed.

(** Environments that differ at most in the variable of the secret. *)
Definition env_alike (env1 env2 : string → option string) : Prop :=
  (∀ name, name ≠ "OIDC_CLIENT_SECRET" → env1 name = env2 name) ∧
  alike SECRET (VStr <$> env1 "OIDC_CLIENT_SECRET") (VStr <$> env2 "OIDC_CLIENT_SECRET").

Lemma find_map_names (env1 env2 : string → option string) names :
  (∀ name, name ≠ "OIDC_CLIENT_SECRET" → env1 name = env2 name) →
  "OIDC_CLIENT_SECRET" ∉ names → find_map env1 names = find_map env2 names.
Proof. intros He Hn. apply find_map_ext. intros name Hin. apply He. by intros ->. Qed.

Lemma other_names spec :
  spec ∈ REGISTRY → spec = the_spec SECRET ∨ "OIDC_CLIENT_SECRET" ∉ env_names "OIDC_" spec.
Proof.
  intros H%list_elem_of_In. revert spec H.
  enough (H : Forall (λ spec, spec = the_spec SECRET ∨ "OIDC_CLIENT_SECRET" ∉ env_names "OIDC_" spec) REGISTRY).
  { intros spec Hs. apply (proj1 (List.Forall_forall _ _) H spec Hs). }
  repeat (constructor; [first [by left|right; apply (bool_decide_unpack _); vm_compute; exact I]|]). constructor.
Qed.

Lemma env_value_alike env1 env2 k :
  env_alike env1 env2 →
  alike k (VStr <$> env_value env1 "OIDC_" k) (VStr <$> env_value env2 "OIDC_" k).
Proof.
  intros [He Hsec]. unfold env_value. destruct (by_logical k) as [spec|] eqn:Hb; [|by left].
  cbn [mbind option_bind].
  assert (Hk : logical spec = k).
  { unfold by_logical in Hb. apply find_some in Hb as [_ Hb]. by apply bool_decide_eq_true in Hb. }
  destruct (other_names spec (the_spec_elem k spec Hb)) as [->|Hn].
  - change (logical (the_spec SECRET)) with SECRET in Hk. subst k.
    change (env_names "OIDC_" (the_spec SECRET)) with ["OIDC_CLIENT_SECRET"]. cbn [find_map].
    by destruct (env1 "OIDC_CLIENT_SECRET"), (env2 "OIDC_CLIENT_SECRET").
  - left. f_equal. by apply find_map_names.
Qed.

Lemma dict_get_tabulate_out (g : string → option (string * pyval)) keys k :
  (∀ j p, g j = Some p → p.1 = j) → k ∉ keys → dict_get k (omap (M:=list) g keys) = None.
Proof.
  intros Hg. induction keys as [|j keys IH]; intros Hk; [done|]. cbn [omap list_omap].
  apply not_elem_of_cons in Hk as [Hne Hk]. destruct (g j) as [[j' v]|] eqn:Hj; [|by apply IH].
  apply Hg in Hj. cbn in Hj. subst j'. cbn [dict_get]. rewrite bool_decide_eq_false_2 by done. by apply IH.
Qed.

Lemma env_source_alike env1 env2 name :
  env_alike env1 env2 → source_alike (EnvSource env1 "OIDC_" name) (EnvSource env2 "OIDC_" name).
Proof.
  intros He. split; [done|]. intros keys k. cbn [resolve EnvSource supplied_item items_alike].
  destruct (decide (k ∈ keys)) as [Hk|Hk].
  - assert (Hget : ∀ environ, dict_get k (omap (M:=list) (λ k, match by_logical k with
        | None => None
        | Some spec => (λ v, (k, VStr v)) <$> find_map environ (env_names "OIDC_" spec)
        end) keys) = VStr <$> env_value environ "OIDC_" k).
    { intros environ. apply dict_get_tabulate with (f := λ k, VStr <$> env_value environ "OIDC_" k); [|done].
      intros j. unfold env_value. destruct (by_logical j); [|done]. cbn. by destruct (find_map environ _). }
    rewrite !Hget. by apply env_value_alike.
  - left. rewrite !dict_get_tabulate_out; [done| |done| |done];
      intros j p Hj; destruct (by_logical j) as [spec|]; try done;
      [destruct (find_map env2 _)|destruct (find_map env1 _)]; by simplify_eq/=.
Qed.

(** C31: The secret does not show.  Two constructions whose overrides, sources and environments
    differ at most in the (non-blank) client secret have the same outcome as far as anyone can
    see: the same error text, the same escaping exception, or configurations with the same
    representation. *)
Theorem config_keeps_secret env1 env2 sources1 sources2 ov1 ov2 use_env group m :
  env_alike env1 env2 → Forall2 source_alike sources1 sources2 → raw_alike ov1 ov2 →
  shown (build env1 sources1 ov1 use_env group m) = shown (build env2 sources2 ov2 use_env group m).
Proof.
  intros He Hs Hov.
  assert (Hchain : Forall2 source_alike (chain_of env1 sources1 use_env) (chain_of env2 sources2 use_env)).
  { apply Forall2_app; [done|]. destruct use_env; [|constructor].
    constructor; [by apply env_source_alike|constructor]. }
  pose proof (resolve_raw_alike _ _ ov1 ov2 Hchain Hov) as Hr.
  destruct (resolve_raw (chain_of env1 _ _) ov1) as [[m1 is1]|e1] eqn:H1,
    (resolve_raw (chain_of env2 _ _) ov2) as [[m2 is2]|e2] eqn:H2; try done.
  - destruct Hr as [Hm ->].
    rewrite (build_resolved _ _ _ _ _ _ m1 is2 (m1 !!.)), (build_resolved _ _ _ _ _ _ m2 is2 (m2 !!.)) by done.
    by apply config_spec_alike.
  - rewrite !build_eq, H1, H2. by rewrite Hr.
Qed.

Lemma config_keeps_secret_witness :
  let env s := λ name, if name ≟ "OIDC_CLIENT_SECRET" then Some s else None in
  env_alike (env "one") (env "two") ∧
  shown (build (env "one") [] ∅ true None NONE) = shown (build (env "two") [] ∅ true None NONE).
Proof.
  intros env.
  assert (He : env_alike (env "one") (env "two")).
  { split; [intros name Hn; unfold env; by rewrite !bool_decide_eq_false_2 by done|].
    right. split; [reflexivity|]. exists "one", "two". done. }
  split; [exact He|]. exact (config_keeps_secret _ _ [] [] ∅ ∅ true None NONE He (proj2 (Forall2_nil _) I) (λ k, or_introl eq_refl)).
Defined.
