(* ===== verification/Jar.v ===== *)
(** * JWT-secured authorization requests ([core/jar.py])

    The request object of RFC 9101: the parameters of an authorization request as the claims of a
    signed JWT, and the authorization URL that carries it.  Signing, [uuid4] and the clock are the
    arguments of ClientAuth. *)

From S2P Require Import Prelude PyStr PyValue Models Url Codec HttpRetry Callback UrlQuery AuthorizeUrl ClientAuth.
From Stdlib Require Import QArith Ascii.
From stdpp Require Import strings.
#[global] Close Scope Q_scope.
Open Scope string_scope.
Open Scope list_scope.
Open Scope nat_scope.
Open Scope py_scope.

(** ** The request object *)

Definition RESERVED_CLAIMS : list string :=
  ["iss"; "aud"; "iat"; "nbf"; "exp"; "jti"; "client_id"; "response_type"; "redirect_uri"; "scope";
   "state"; "nonce"; "code_challenge"; "code_challenge_method"].

(** The parameters under validation; [scope], [state] and [nonce] are not validated. *)
Record RequestParams : Type := Params {
  rp_private_key : blob;
  rp_algorithm : string;
  rp_client_id : string;
  rp_audience : string;
  rp_redirect_uri : string;
  rp_response_type : string;
  rp_lifetime : Z;
  rp_code_challenge : option string;
  rp_code_challenge_method : option string;
  rp_kid : option string;
  rp_extra_claims : pydict;
}.

(** [set(extra_claims) & _RESERVED_CLAIMS]. *)
Definition claim_collisions (extra : pydict) : list string :=
  List.filter (λ n, bool_decide (n ∈ extra.*1)) RESERVED_CLAIMS.
Definition empty_given (o : option string) : bool :=
  match o with Some v => negb (nonempty v) | None => false end.

Definition validate_request_params (p : RequestParams) : outcome unit :=
  for_each (λ nv, raise_if (blob_empty nv.2) (ValueErr (nv.1 +:+ " must not be empty")))
    [("private_key", rp_private_key p); ("client_id", Str (rp_client_id p));
     ("audience", Str (rp_audience p)); ("redirect_uri", Str (rp_redirect_uri p));
     ("response_type", Str (rp_response_type p))] ≫= λ _,
  validate_signing_algorithm (rp_algorithm p) "JAR" ≫= λ _,
  raise_if (rp_lifetime p <=? 0)%Z
    (ValueErr ("lifetime must be positive, got " +:+ str_of_int (rp_lifetime p))) ≫= λ _,
  raise_if (negb (eqb (is_some (rp_code_challenge p)) (is_some (rp_code_challenge_method p))))
    (ValueErr "code_challenge and code_challenge_method must both be provided or both omitted") ≫= λ _,
  for_each (λ nv, raise_if (empty_given nv.2) (ValueErr (nv.1 +:+ " must be non-empty when provided")))
    [("code_challenge", rp_code_challenge p); ("code_challenge_method", rp_code_challenge_method p);
     ("kid", rp_kid p)] ≫= λ _,
  raise_if (negb (length (claim_collisions (rp_extra_claims p)) =? 0))
    (ValueErr ("extra_claims cannot override reserved claims: " +:+
               py_repr (VList (strs (sorted_set (claim_collisions (rp_extra_claims p))))))).

Definition optional_claim (name : string) (o : option string) : pydict :=
  match o with Some v => [(name, VStr v)] | None => [] end.
(** [d.update(e)]. *)
Definition dict_update (d e : pydict) : pydict := foldl (λ d kv, dict_set kv.1 kv.2 d) d e.

Definition request_claims (client_id audience redirect_uri scope response_type : string)
    (state nonce code_challenge code_challenge_method : option string) (lifetime : Z)
    (extra : pydict) (now : Z) (jti : string) : pydict :=
  let claims :=
    [("iss", VStr client_id); ("aud", VStr audience); ("iat", VInt now); ("nbf", VInt now);
     ("exp", VInt (now + lifetime)); ("jti", VStr jti); ("client_id", VStr client_id);
     ("response_type", VStr response_type); ("redirect_uri", VStr redirect_uri); ("scope", VStr scope)] in
  let claims := dict_update claims
    (optional_claim "state" state ++ optional_claim "nonce" nonce ++
     optional_claim "code_challenge" code_challenge ++
     optional_claim "code_challenge_method" code_challenge_method) in
  dict_update claims extra.

Definition request_headers (kid : option string) : pydict :=
  dict_update [("typ", VStr "oauth-authz-req+jwt")] (kid_header kid).

Section Create.
Context (wall_clock : nat → Q) (uuid4 : nat → string).
Context (encode : nat → pydict → blob → string → pydict → outcome string).

Definition create_request_object (key : blob) (alg client_id audience redirect_uri scope
    response_type : string) (state nonce code_challenge code_challenge_method : option string)
    (lifetime : Z) (kid : option string) (extra : pydict) : stM net exn string :=
  _ ← lift (validate_request_params (Params key alg client_id audience redirect_uri response_type
        lifetime code_challenge code_challenge_method kid extra));
  now ← time_time wall_clock;
  jti ← new_uuid uuid4;
  sign encode (request_claims client_id audience redirect_uri scope response_type state nonce
      code_challenge code_challenge_method lifetime extra (int_of_Q now) jti)
    key alg (request_headers kid).
End Create.

(** ** The authorization URL *)

Definition jar_params (client_id request_object : ustr) (scope response_type : option ustr)
    : list (ustr * ustr) :=
  [(text "client_id", client_id); (text "request", request_object)] ++
  optional_param "scope" scope ++ optional_param "response_type" response_type.

Definition build_jar_authorization_url (authorization_endpoint : string)
    (client_id request_object : ustr) (scope response_type : option ustr) : outcome string :=
  parsed ← urlparse authorization_endpoint;
  let separator := if nonempty (query parsed) then "&" else "?" in
  encoded ← urlencode (jar_params client_id request_object scope response_type);
  Ok ((authorization_endpoint +:+ separator) +:+ encoded).

(** ** On concrete inputs *)

Definition demo_object (extra : pydict) : stM net exn string :=
  create_request_object demo_clock demo_uuid demo_sign (Str "PEM") "ES256" "app" "https://op.example"
    "https://app/cb" "openid" "code" (Some "s1") None None None 300 (Some "k1") extra.

Example object_1 :
  (demo_object [("acr", VStr "high")] (Net [] [] 0)).1 = Ok
   ("{'iss': 'app', 'aud': 'https://op.example', 'iat': 1000, 'nbf': 1000, 'exp': 1300, 'jti': 'id1', "
    +:+ "'client_id': 'app', 'response_type': 'code', 'redirect_uri': 'https://app/cb', 'scope': 'openid', "
    +:+ "'state': 's1', 'acr': 'high'}").
Proof. vm_compute. reflexivity. Qed.
Example object_2 :
  (demo_object [("iss", VStr "evil"); ("aud", VStr "x")] (Net [] [] 0)).1 =
    Err (ValueErr "extra_claims cannot override reserved claims: ['aud', 'iss']").
Proof. vm_compute. reflexivity. Qed.
Example jar_url_1 :
  build_jar_authorization_url "https://op.example/authorize?t=1" (text "app") (text "x.y.z") (Some (text "openid")) None
  = Ok "https://op.example/authorize?t=1&client_id=app&request=x.y.z&scope=openid".
Proof. vm_compute. reflexivity. Qed.
(** An endpoint with a fragment swallows the request object: the URL has no query at all. *)
Example jar_url_fragment :
  ∃ url p, build_jar_authorization_url "https://op.example/authorize#top" (text "app") (text "x.y.z") None None
    = Ok url ∧ urlparse url = Ok p ∧ query p = "" ∧ fragment p = "top?client_id=app&request=x.y.z".
Proof. do 2 eexists. split; [vm_compute; reflexivity|]. split; [vm_compute; reflexivity|done]. Qed.

(** ** Lemmas *)

Lemma dict_update_get d e k :
  NoDup e.*1 → dict_get k (dict_update d e) = match dict_get k e with Some v => Some v | None => dict_get k d end.
Proof.
  unfold dict_update. revert d. induction e as [|[j v] e IH]; intros d; cbn [foldl fmap list_fmap fst snd]; [done|].
  intros [Hj He]%NoDup_cons. rewrite IH by done. cbn [dict_get]. case_bool_decide as Hk; [subst k|].
  - rewrite dict_get_set_eq. destruct (dict_get j e) as [w|] eqn:Hw; [|done].
    destruct Hj. apply list_elem_of_fmap. exists (j, w). split; [done|]. by apply dict_get_elem.
  - by rewrite dict_get_set_ne.
Qed.


(** What the caller asked for, as claims. *)
Definition asked_claims (client_id audience redirect_uri scope response_type : string)
    (state nonce code_challenge code_challenge_method : option string) (lifetime now : Z) (jti : string)
    : pydict :=
  [("iss", VStr client_id); ("aud", VStr audience); ("iat", VInt now); ("nbf", VInt now);
   ("exp", VInt (now + lifetime)); ("jti", VStr jti); ("client_id", VStr client_id);
   ("response_type", VStr response_type); ("redirect_uri", VStr redirect_uri); ("scope", VStr scope)] ++
  optional_claim "state" state ++ optional_claim "nonce" nonce ++
  optional_claim "code_challenge" code_challenge ++ optional_claim "code_challenge_method" code_challenge_method.

Lemma asked_keys a b c d e f g h i l n j : (asked_claims a b c d e f g h i l n j).*1 ⊆ RESERVED_CLAIMS.
Proof.
  unfold asked_claims. destruct f, g, h, i; apply (bool_decide_unpack _); vm_compute; exact I.
Qed.

Lemma claim_collisions_nil extra :
  claim_collisions extra = [] ↔ ∀ k, k ∈ RESERVED_CLAIMS → k ∉ extra.*1.
Proof.
  unfold claim_collisions. split.
  - intros H k Hk Hin. assert (Hf : k ∈ List.filter (λ n, bool_decide (n ∈ extra.*1)) RESERVED_CLAIMS).
    { rewrite list_elem_of_In, filter_In, <- list_elem_of_In. split; [done|]. by apply bool_decide_eq_true. }
    rewrite H in Hf. by apply not_elem_of_nil in Hf.
  - intros H. destruct (List.filter _ RESERVED_CLAIMS) as [|k l] eqn:E; [done|].
    assert (Hk : In k (List.filter (λ n, bool_decide (n ∈ extra.*1)) RESERVED_CLAIMS)) by (rewrite E; by left).
    apply filter_In in Hk as [Hk Hin]. apply bool_decide_eq_true in Hin. destruct (H k); [by apply list_elem_of_In|done].
Qed.

(** Nothing an extra claim says changes what was asked. *)
Lemma request_claims_get a b c d e f g h i l extra n j k :
  NoDup extra.*1 → claim_collisions extra = [] →
  dict_get k (request_claims a b c d e f g h i l extra n j) =
    dict_get k (asked_claims a b c d e f g h i l n j ++ extra).
Proof.
  intros Hnd Hcol. unfold request_claims. rewrite dict_update_get, dict_get_app by done.
  unfold asked_claims. set (opts := optional_claim "state" f ++ _).
  set (base := [("iss", VStr a); _; _; _; _; _; _; _; _; _]).
  rewrite (dict_update_get base opts k), (dict_get_app k base opts)
    by (unfold opts; destruct f, g, h, i; apply (bool_decide_unpack _); vm_compute; exact I).
  assert (Hdis : ∀ v w, dict_get k opts = Some v → dict_get k base = Some w → False).
  { intros v w Hv%dict_get_elem Hw%dict_get_elem.
    apply (list_elem_of_fmap_2 fst) in Hv, Hw. cbn [fst] in *.
    assert (Hall : Forall (λ x, x ∉ base.*1) opts.*1); [|by apply (proj1 (Forall_forall _ _) Hall k)].
    unfold opts, base. destruct f, g, h, i; apply (bool_decide_unpack _); vm_compute; exact I. }
  destruct (dict_get k extra) as [v|] eqn:Hx.
  2: { destruct (dict_get k opts) as [v|], (dict_get k base) as [w|]; try reflexivity. by destruct (Hdis v w). }
  destruct (match dict_get k base with Some v0 => Some v0 | None => dict_get k opts end) as [w|] eqn:Hw; [|done].
  exfalso. apply (proj1 (claim_collisions_nil extra) Hcol k).
  - apply (asked_keys a b c d e f g h i l n j). apply list_elem_of_fmap. exists (k, w). split; [done|].
    apply dict_get_elem. unfold asked_claims. fold opts. fold base. by rewrite dict_get_app.
  - apply list_elem_of_fmap. exists (k, v). split; [done|]. by apply dict_get_elem.
Qed.

(** The checks on a request object, as one test. *)
Definition object_ok (p : RequestParams) : bool :=
  negb (blob_empty (rp_private_key p)) && nonempty (rp_client_id p) && nonempty (rp_audience p) &&
  nonempty (rp_redirect_uri p) && nonempty (rp_response_type p) &&
  bool_decide (rp_algorithm p ∈ SUPPORTED_SIGNING_ALGORITHMS) && (0 <? rp_lifetime p)%Z &&
  eqb (is_some (rp_code_challenge p)) (is_some (rp_code_challenge_method p)) &&
  negb (empty_given (rp_code_challenge p)) && negb (empty_given (rp_code_challenge_method p)) &&
  negb (empty_given (rp_kid p)) && (length (claim_collisions (rp_extra_claims p)) =? 0).

(** A [ValueError]. *)
Definition refuses {A} (r : outcome A) : Prop := ∃ e, r = Err e ∧ exn_class e = BValueError.

(** One guard at a time: a failed one ends the case. *)
Ltac one_guard b := destruct b; cbn [negb andb raise_if mbind result_bind]; try (by eexists).

Lemma validate_request_params_spec p :
  if object_ok p then validate_request_params p = Ok () else refuses (validate_request_params p).
Proof.
  destruct p as [key alg cid aud uri rt lt ch m kid extra].
  unfold object_ok, validate_request_params, validate_signing_algorithm, refuses.
  cbn [rp_private_key rp_algorithm rp_client_id rp_audience rp_redirect_uri rp_response_type rp_lifetime
       rp_code_challenge rp_code_challenge_method rp_kid rp_extra_claims for_each fst snd blob_empty].
  rewrite Z.leb_antisym.
  one_guard (blob_empty key). one_guard (nonempty cid). one_guard (nonempty aud). one_guard (nonempty uri).
  one_guard (nonempty rt). one_guard (bool_decide (alg ∈ SUPPORTED_SIGNING_ALGORITHMS)). one_guard (0 <? lt)%Z.
  one_guard (eqb (is_some ch) (is_some m)). one_guard (empty_given ch). one_guard (empty_given m).
  one_guard (empty_given kid). by one_guard (length (claim_collisions extra) =? 0).
Qed.

(** The request object says what was asked, and nothing an extra claim says changes it.  A
    request object is signed exactly when the arguments pass the checks, with the given key,
    algorithm, [typ] and [kid]; its claims are those asked for, under a validity window that
    starts now and is not empty, and then the extra claims.  Otherwise a [ValueError] is raised
    before the clock, the entropy source and the signer are consulted. *)
Theorem request_object_spec wall_clock uuid4 encode key alg cid aud uri scope rt st nonce ch m lt kid extra s :
  NoDup extra.*1 →
  let create := create_request_object wall_clock uuid4 encode key alg cid aud uri scope rt st nonce ch m
                  lt kid extra s in
  let now := int_of_Q (wall_clock (reads s)) in
  if object_ok (Params key alg cid aud uri rt lt ch m kid extra) then
    (0 < lt)%Z ∧ ∃ claims,
      create = (encode (2 + reads s) claims key alg (request_headers kid),
                Net (sent s) (slept s) (3 + reads s)) ∧
      ∀ k, dict_get k claims =
        dict_get k (asked_claims cid aud uri scope rt st nonce ch m lt now (uuid4 (1 + reads s)) ++ extra)
  else ∃ e, create = (Err e, s) ∧ exn_class e = BValueError.
Proof.
  intros Hnd create now. pose proof (validate_request_params_spec (Params key alg cid aud uri rt lt ch m kid extra)) as H.
  unfold create, create_request_object, mbind, stM_bind, lift.
  destruct (object_ok _) eqn:Hok.
  - rewrite H. unfold object_ok in Hok.
    cbn [rp_private_key rp_algorithm rp_client_id rp_audience rp_redirect_uri rp_response_type rp_lifetime
         rp_code_challenge rp_code_challenge_method rp_kid rp_extra_claims] in Hok. bool_prop.
    split; [by apply Z.ltb_lt|]. eexists. split; [reflexivity|]. intros k. apply request_claims_get; [done|].
    by apply length_zero_iff_nil, Nat.eqb_eq.
  - destruct H as (e & -> & He). by exists e.
Qed.

Lemma request_object_spec_witness :
  NoDup ([("acr", VStr "high")] : pydict).*1 ∧ ∃ claims s',
  demo_object [("acr", VStr "high")] (Net [] [] 0) = (demo_sign 2 claims (Str "PEM") "ES256" (request_headers (Some "k1")), s')
  ∧ dict_get "iss" claims = Some (VStr "app") ∧ dict_get "acr" claims = Some (VStr "high").
Proof.
  assert (Hnd : NoDup ([("acr", VStr "high")] : pydict).*1) by (apply (bool_decide_unpack _); vm_compute; exact I).
  split; [exact Hnd|].
  destruct (request_object_spec demo_clock demo_uuid demo_sign (Str "PEM") "ES256" "app" "https://op.example"
    "https://app/cb" "openid" "code" (Some "s1") None None None 300 (Some "k1") _ (Net [] [] 0) Hnd)
    as (_ & claims & Hc & Hk).
  exists claims. eexists. split; [exact Hc|]. by rewrite !Hk.
Defined.

(** What the URL of a signed request asks for; the endpoint must have no fragment. *)
Lemma jar_url_roundtrip ep cid obj scope rt url :
  build_jar_authorization_url ep cid obj scope rt = Ok url → char_in "#" ep = false →
  ∃ p, urlparse ep = Ok p ∧
    ((query p = "" → char_in "?" ep = false) →
     ∃ p', urlparse url = Ok p' ∧ scheme p' = scheme p ∧ netloc p' = netloc p ∧ path p' = path p ∧
       fragment p' = "" ∧ parse_qsl (query p') = parse_qsl (query p) ++ jar_params cid obj scope rt).
Proof.
  unfold build_jar_authorization_url. intros (p & Hp & H)%result_bind_ok Hhash. exists p. split; [done|].
  intros Hqm. cbv zeta in H. apply result_bind_ok in H as (q & Hq & [= <-]).
  pose proof (urlencode_tail _ _ Hq) as Ht. apply parse_qsl_urlencode in Hq as [Hq _].
  rewrite str_app_assoc. destruct (nonempty (query p)) eqn:En.
  - eexists. split; [by apply (urlparse_extend_query _ q p)|]. cbn [scheme netloc path query fragment].
    split_and!; try done. by rewrite parse_qsl_app, Hq.
  - apply nonempty_false in En. eexists. split; [by apply (urlparse_add_query _ q p); auto|].
    cbn [scheme netloc path query fragment]. split_and!; try done. by rewrite Hq, En.
Qed.
