(* ===== verification/Jarm.v ===== *)
(** * JWT-secured authorization responses ([core/jarm.py], [sync/jarm.py])

    JARM carries the authorization response as a signed JWT in one [response] parameter.  The
    value is extracted from the callback, the provider's issuer, keys and algorithms come from the
    caller or from discovery, the algorithm is selected by default denial, and the verified claims
    become a callback response.

    A claim keeps its dynamic type, so the response here holds [pyval]s where Callback's holds
    text.  A token is handed to PyJWT as the UTF-8 bytes it encodes it to first. *)

From S2P Require Import Prelude PyStr PyValue Models Url Codec Policy HttpRetry Discovery Jwks Jwt TokenValidation Callback.
From Stdlib Require Import QArith Ascii.
From stdpp Require Import strings.
#[global] Close Scope Q_scope.
Open Scope string_scope.
Open Scope list_scope.
Open Scope nat_scope.
Open Scope py_scope.

Definition JARM_RESPONSE_PARAM : string := "response".
Definition PARAM_TO_FIELD_KEYS : list string := PARAM_TO_FIELD.*1.
Definition JARM_REQUIRED_CLAIMS : list string := ["iss"; "aud"; "exp"].
Definition ERROR_CLAIM : string := "error".

Definition JarmError (msg : string) : exn := mk_exn JarmValidationException msg.

(** ** The response parameter *)

Definition extract_response_param (params_str : string) : outcome (option ustr) :=
  match alist_get (text JARM_RESPONSE_PARAM) (parse_qs params_str) with
  | None | Some [] => Ok None
  | Some [v] => Ok (Some v)
  | Some _ => Err (JarmError ("callback carries multiple 'response' parameters; refusing to resolve " +:+
                              "JARM parameter pollution by position"))
  end.

(** The fragment, then the query. *)
Definition response_places (parsed : ParseResult) : list string := [fragment parsed; query parsed].
Definition given_param (o : option ustr) : bool := match o with Some (_ :: _) => true | _ => false end.

Fixpoint any_response (places : list string) : outcome bool :=
  match places with
  | [] => Ok false
  | s :: places' =>
      if negb (nonempty s) then any_response places'
      else
        match extract_response_param s with
        | Ok o => if given_param o then Ok true else any_response places'
        | Err e => if isinstance e JarmValidationException then Ok true else Err e
        end
  end.

Definition is_jarm_response (redirect_uri : pyval) : outcome bool :=
  match redirect_uri with
  | VStr uri =>
      if negb (nonempty (strip uri)) then Ok false
      else parsed ← urlparse uri; any_response (response_places parsed)
  | _ => Ok false
  end.

Fixpoint first_response (places : list string) : outcome ustr :=
  match places with
  | [] => Err (JarmError "redirect_uri contains no JARM 'response' parameter")
  | s :: places' =>
      if negb (nonempty s) then first_response places'
      else
        o ← extract_response_param s;
        match o with
        | Some ((_ :: _) as v) => Ok v
        | _ => first_response places'
        end
  end.

Definition extract_jarm_response_jwt (redirect_uri : pyval) : outcome ustr :=
  match redirect_uri with
  | VStr uri =>
      _ ← raise_if (negb (nonempty (strip uri))) (JarmError "redirect_uri must be a non-empty string");
      parsed ← urlparse uri;
      first_response (response_places parsed)
  | _ => Err (JarmError "redirect_uri must be a non-empty string")
  end.

(** ** The algorithm *)

(** [str.upper] on Latin-1; the two letters whose capitals are beyond it stay, the sharp s becomes
    two letters. *)
Definition upper_char (c : ascii) : string :=
  if code c =? 223 then "SS"
  else if code_in 97 122 c || (code_in 224 254 c && negb (code c =? 247))
  then String (char_of (code c - 32)) "" else String c "".
Fixpoint upper (s : string) : string :=
  match s with EmptyString => EmptyString | String c s' => upper_char c +:+ upper s' end.

(** [sorted(l)], for a message: strings by their order, numbers by their value; values of other or
    different types do not compare. *)
Fixpoint insert_by (le : pyval → pyval → bool) (v : pyval) (l : list pyval) : list pyval :=
  match l with
  | [] => [v]
  | w :: l' => if le v w then v :: l else w :: insert_by le v l'
  end.
Definition str_le (v w : pyval) : bool :=
  match v, w with VStr s, VStr t => match String.compare s t with Gt => false | _ => true end | _, _ => true end.
Definition num_le (v w : pyval) : bool :=
  match as_num v, as_num w with Some x, Some y => float_le x y | _, _ => true end.
Definition is_num (v : pyval) : bool := match as_num v with Some _ => true | None => false end.
Definition py_sorted (v : pyval) : outcome pyval :=
  l ← py_iter v;
  if forallb is_str l then Ok (VList (foldr (insert_by str_le) [] l))
  else if forallb is_num l then Ok (VList (foldr (insert_by num_le) [] l))
  else match l with
       | [_] => Ok (VList l)
       | _ => Err (TypeErr "'<' not supported between instances")
       end.

Definition select_jarm_algorithm (header_alg allowed_algs : pyval) : outcome string :=
  match header_alg with
  | VStr h =>
      _ ← raise_if (negb (nonempty h)) (JarmError "JARM response JWT header has no 'alg' value");
      let alg := strip h in
      _ ← raise_if (lower alg ≟ "none")
            (JarmError "JARM response JWT uses 'alg=none'; an unsigned response is not permitted");
      _ ← raise_if (startswith (upper alg) "HS")
            (JarmError ("JARM response JWT uses symmetric algorithm '" +:+ alg +:+
                        "'; only asymmetric signatures are permitted"));
      _ ← raise_if (negb (truthy allowed_algs))
            (JarmError ("No allowed JARM signing algorithms configured " +:+
                        "(authorization_signing_alg_values_supported is required)"));
      member ← py_contains allowed_algs (VStr alg);
      if negb member then
        shown ← py_sorted allowed_algs;
        Err (JarmError ("JARM response JWT algorithm '" +:+ alg +:+ "' is not in the allowed set " +:+
                        py_repr shown))
      else Ok alg
  | _ => Err (JarmError "JARM response JWT header has no 'alg' value")
  end.

(** ** The claims *)

(** [int(v)]. *)
Definition int_of_value (v : pyval) : outcome Z :=
  match v with
  | VInt z => Ok z
  | VBool b => Ok (if b then 1 else 0)%Z
  | VFloat (FFin q) => Ok (Z.quot (Qnum q) (Z.pos (Qden q)))
  | VFloat FNan => Err (ValueErr "cannot convert float NaN to integer")
  | VFloat (FInf _) => Err (mk_exn BOther "cannot convert float infinity to integer")
  | VStr s =>
      match int_of_string s with
      | Some z => Ok z
      | None => Err (ValueErr "invalid literal for int() with base 10")
      end
  | _ => Err (TypeErr ("int() argument must be a string, a bytes-like object or a real number, not '" +:+
                       type_name v +:+ "'"))
  end.

(** A callback response built from claims: the keyword arguments of the dataclass by field. *)
Record JarmResponse : Type := NewJarmResponse {
  jr_is_successful : bool;
  jr_raw : ustr;
  jr_values : list (string * string);
  jr_fields : list (string * field_value pyval);
}.
Definition field_pyval (o : option (field_value pyval)) : pyval :=
  match o with Some (FRaw v) => v | Some (FInt z) => VInt z | None => VNone end.
Definition jr_field (r : JarmResponse) (name : string) : pyval := field_pyval (field_get name (jr_fields r)).
(** Attribute access, through the guard. *)
Definition jr_attr (r : JarmResponse) (name : string) : outcome pyval :=
  getattribute callback_guarded_fields (jr_is_successful r)
    (if truthy (jr_field r "error") then Some (py_str (jr_field r "error")) else None)
    name (jr_field r name).

Definition claim_params (claims : pydict) : list (ustr * pyval) := map (λ kv, (text kv.1, kv.2)) claims.

(** [{p: str(claims[p]) for p in params if p in claims and claims[p] is not None}]. *)
Definition claim_values (claims : pydict) (params : list string) : list (string * string) :=
  omap (M:=list) (λ param,
    match dict_get param claims with
    | Some v => if is_none v then None else Some (param, py_str v)
    | None => None
    end) params.

Definition build_authorize_response_from_claims (claims : pydict) (raw : ustr) : outcome JarmResponse :=
  field_values ← map_params_to_fields int_of_value (claim_params claims);
  _ ← raise_if (length field_values =? 0)
        (JarmError "JARM response JWT contains no recognized authorization-response claims");
  let values := claim_values claims PARAM_TO_FIELD_KEYS in
  let has_error := bool_decide (ERROR_CLAIM ∈ values.*1) in
  Ok (NewJarmResponse (negb has_error) raw values field_values).

(** The bytes PyJWT makes of a token. *)
Definition token_bytes (jwt : ustr) : string :=
  String.string_of_list_ascii (map chr (default [] (utf8_encode jwt))).

Section Jarm.
Context (env : string → option string) (http_date : string → option Q) (wall : Q).
Context (http : nat → string → outcome HttpResponse).
Context (get_unverified_header : string → outcome pydict).
Context {PyJWK : Type} (new_pyjwk : pydict → option pyval → outcome PyJWK).
Context (decode : string → PyJWK → DecodeArgs → outcome pydict).

Definition extract_jarm_header (response_jwt : ustr) : outcome (pyval * pyval) :=
  match extract_jwt_header_fields get_unverified_header (token_bytes response_jwt) with
  | Ok header => Ok header
  | Err e => if isinstance e JwtPyJWTError
             then Err (JarmError "JARM 'response' value is not a well-formed JWT") else Err e
  end.

Definition decode_jarm_claims (response_jwt : ustr) (key : pydict) (algs : list pyval) (iss aud leeway : pyval)
    : outcome pydict :=
  claims ← decode_and_validate_jwt new_pyjwk decode (token_bytes response_jwt) (KeyDict key) algs aud iss
             None leeway VNone;
  let missing := List.filter (λ c, negb (has_key c claims)) JARM_REQUIRED_CLAIMS in
  _ ← raise_if (negb (length missing =? 0))
        (JarmError ("JARM response JWT is missing mandatory claim(s): " +:+ str_join ", " missing));
  Ok claims.

(** ** The synchronous orchestration *)

(** The key set at a [jwks_uri] of any type. *)
Definition fetch_jwks (uri : pyval) (policy : DiscoveryPolicy) : stM net exn JwksResponse :=
  match uri with
  | VStr u => get_jwks env http_date wall http u (Some policy)
  | _ => mret (handle_jwks_error (AttributeError uri "decode"))
  end.

Definition no_jarm_address : exn :=
  Configuration ("disco_doc_address is required for JARM processing unless issuer, " +:+
                 "jwks, and algorithms are all supplied (offline mode)").

(** The discovery mode. *)
Definition discover_jarm_context (address : string) (issuer : option string)
    (algorithms : option (list pyval)) (require_https : bool) : stM net exn (pyval * pyval * JwksResponse) :=
  let policy := policy_with_https require_https in
  d ← get_discovery_document env http_date wall http address (Some policy);
  _ ← lift (validate_disco_response d);
  resolved_issuer ← lift (match issuer with
                          | Some ((String _ _) as iss) => Ok (VStr iss)
                          | _ => disco_attr d "issuer"
                          end);
  _ ← lift (raise_if (negb (truthy resolved_issuer))
        (Configuration "Discovery document does not advertise an issuer; cannot validate JARM"));
  allowed_algs ← lift (match algorithms with
                       | Some ((_ :: _) as algs) => Ok (VList algs)
                       | _ => disco_attr d "authorization_signing_alg_values_supported"
                       end);
  uri ← lift (validate_jwks_uri d);
  r ← fetch_jwks uri policy;
  _ ← lift (validate_jwks_response r);
  mret (resolved_issuer, allowed_algs, r).

Definition resolve_jarm_context (disco_doc_address issuer : option string) (jwks : option JwksResponse)
    (algorithms : option (list pyval)) (require_https : bool)
    : stM net exn (pyval * pyval * JwksResponse) :=
  match issuer, jwks, algorithms with
  | Some iss, Some keys, Some algs =>
      _ ← lift (validate_jwks_response keys);
      mret (VStr iss, VList algs, keys)
  | _, _, _ =>
      match disco_doc_address with
      | None => mthrow no_jarm_address
      | Some address => discover_jarm_context address issuer algorithms require_https
      end
  end.

(** [response_keys.keys or []], on a validated response. *)
Definition process_jarm_response (response : string) (client_id : string)
    (disco_doc_address issuer : option string) (jwks : option JwksResponse)
    (algorithms : option (list pyval)) (require_https : bool) (leeway : pyval) (is_jwt : bool)
    : stM net exn JarmResponse :=
  response_jwt ← (if is_jwt then mret (text response) else lift (extract_jarm_response_jwt (VStr response)));
  '(iss, allowed_algs, r) ← resolve_jarm_context disco_doc_address issuer jwks algorithms require_https;
  '(kid, header_alg) ← lift (extract_jarm_header response_jwt);
  selected ← lift (select_jarm_algorithm header_alg allowed_algs);
  keys ← lift (jwks_get_keys r);
  '(key_dict, _) ← lift (find_key_by_kid kid (keys_or_nil keys) (VStr selected));
  claims ← lift (decode_jarm_claims response_jwt key_dict [VStr selected] iss (VStr client_id) leeway);
  lift (build_authorize_response_from_claims claims response_jwt).
End Jarm.

(** ** On concrete inputs *)

Example alg_1 : select_jarm_algorithm (VStr " PS256 ") (VList (strs ["PS256"; "ES256"])) = Ok "PS256".
Proof. vm_compute. reflexivity. Qed.
Example alg_2 : select_jarm_algorithm (VStr "hs256") (VList (strs ["hs256"])) =
  Err (JarmError ("JARM response JWT uses symmetric algorithm 'hs256'; only asymmetric signatures are permitted")).
Proof. vm_compute. reflexivity. Qed.
Example alg_3 : select_jarm_algorithm (VStr "RS256") (VList (strs ["PS256"; "ES256"])) =
  Err (JarmError "JARM response JWT algorithm 'RS256' is not in the allowed set ['ES256', 'PS256']").
Proof. vm_compute. reflexivity. Qed.
Example extract_1 : extract_jarm_response_jwt (VStr "https://app/cb?response=a#response=b") = Ok (text "b").
Proof. vm_compute. reflexivity. Qed.
Example extract_2 : is_ok (extract_jarm_response_jwt (VStr "https://app/cb?response=a&response=b")) = false.
Proof. vm_compute. reflexivity. Qed.
(** A URL [urlparse] rejects escapes as a bare [ValueError]. *)
Example extract_3 : extract_jarm_response_jwt (VStr "https://[x?response=a") = Err (ValueErr "Invalid IPv6 URL").
Proof. vm_compute. reflexivity. Qed.
(** A claim set with nothing but the mandatory claims is a successful response without a code. *)
Example claims_1 :
  ∃ r, build_authorize_response_from_claims
         [("iss", VStr "https://op"); ("aud", VStr "app"); ("exp", VInt 9)] (text "j") = Ok r ∧
       jr_is_successful r = true ∧ jr_attr r "code" = Ok VNone.
Proof. eexists. split; [vm_compute; reflexivity|]. split; vm_compute; reflexivity. Qed.
(** An infinite [expires_in] raises an [OverflowError]. *)
Example claims_2 :
  build_authorize_response_from_claims [("code", VStr "c"); ("expires_in", VFloat (FInf false))] (text "j") =
    Err (mk_exn BOther "cannot convert float infinity to integer").
Proof. vm_compute. reflexivity. Qed.

(** ** Extraction *)

Lemma any_first_response places :
  match any_response places, first_response places with
  | Ok true, Ok v => v ≠ []
  | Ok true, Err e | Ok false, Err e => exn_class e = JarmValidationException
  | Err e, Err e' => e = e'
  | _, _ => False
  end.
Proof.
  induction places as [|s places IH]; [done|]. cbn [any_response first_response].
  destruct (nonempty s); cbn [negb]; [|exact IH].
  unfold extract_response_param.
  destruct (alist_get _ _) as [[|v [|v' l]]|]; cbn [mbind result_bind given_param]; try exact IH.
  - destruct v; [exact IH|done].
  - done.
Qed.

(** What is detected as a JARM response is what is extracted.  For a callback URL that parses,
    extraction succeeds, with a non-empty value, or refuses a duplicated parameter exactly when
    [is_jarm_response] says so; when it says no, extraction raises the JARM exception; and when
    the URL does not parse both raise the same error. *)
Theorem jarm_detection_agrees v :
  match is_jarm_response v, extract_jarm_response_jwt v with
  | Ok true, Ok jwt => jwt ≠ []
  | Ok true, Err e | Ok false, Err e => exn_class e = JarmValidationException
  | Err e, Err e' => e = e'
  | _, _ => False
  end.
Proof.
  unfold is_jarm_response, extract_jarm_response_jwt. destruct v as [| | | |uri| |]; try done.
  destruct (nonempty (strip uri)); cbn [negb raise_if mbind result_bind]; [|done].
  destruct (urlparse uri) as [parsed|e]; cbn [mbind result_bind]; [|done].
  apply any_first_response.
Qed.

(** ** The algorithm *)

(** What an admitted algorithm has gone through. *)
Record algorithm_admitted (header_alg allowed : pyval) (alg : string) : Prop := {
  aa_header : ∃ h, header_alg = VStr h ∧ h ≠ "" ∧ alg = strip h;
  aa_signed : lower alg ≠ "none";
  aa_asymmetric : startswith (upper alg) "HS" = false;
  aa_allowed : py_contains allowed (VStr alg) = Ok true;
}.

Lemma select_jarm_algorithm_ok h allowed alg :
  select_jarm_algorithm h allowed = Ok alg ↔ algorithm_admitted h allowed alg ∧ truthy allowed = true.
Proof.
  unfold select_jarm_algorithm. destruct h as [| | | |h| |]; try (split; [done|by intros [[(? & [=] & _)] _]]).
  cbv zeta. rewrite !raise_if_seq_ok, bool_decide_eq_false, !negb_false_iff, result_bind_ok. split.
  - intros (H1 & H2 & H3 & H4 & member & Hm & H). destruct member; cbn [negb] in H.
    + injection H as <-. split; [|done]. split; [|done..]. exists h. by apply nonempty_true in H1.
    + apply result_bind_ok in H as (? & _ & [=]).
  - intros [[(h' & [= <-] & Hne & ->) H2 H3 H4] Ht]. split_and!; try done.
    + by apply nonempty_true.
    + exists true. by rewrite H4.
Qed.

(** ** The response *)

Lemma claim_params_get k claims : alist_get (text k) (claim_params claims) = dict_get k claims.
Proof.
  induction claims as [|[j v] claims IH]; [done|]. cbn.
  rewrite (bool_decide_ext (text k = text j) (k = j)) by apply text_inj_iff. by case_bool_decide.
Qed.

Definition claim_num (v : pyval) : option Z := match int_of_value v with Ok z => Some z | Err _ => None end.

(** [expires_in] does not overflow. *)
Definition expires_fits (claims : pydict) : Prop :=
  ∀ neg, dict_get "expires_in" claims ≠ Some (VFloat (FInf neg)).

Lemma claim_num_ok v : (∀ neg, v ≠ VFloat (FInf neg)) → num_ok int_of_value claim_num v.
Proof.
  unfold num_ok, claim_num. intros H. destruct v as [| | |[| |]|s| |]; try done; try (by destruct (H neg)).
  cbn. by destruct (int_of_string s).
Qed.

(** The value a field takes from the claims. *)
Definition claim_field (claims : pydict) (param field : string) : pyval :=
  match dict_get param claims with
  | None => VNone
  | Some v => if field ≟ "expires_in" then match claim_num v with Some z => VInt z | None => VNone end else v
  end.

Record response_of_claims (claims : pydict) (raw : ustr) (r : JarmResponse) : Prop := {
  rc_raw : jr_raw r = raw;
  rc_fields : ∀ param field, (param, field) ∈ PARAM_TO_FIELD → jr_field r field = claim_field claims param field;
  rc_success : jr_is_successful r = true ↔ dget "error" claims = VNone;
  rc_values : ∀ param s, (param, s) ∈ jr_values r ↔
    param ∈ PARAM_TO_FIELD_KEYS ∧ ∃ v, dict_get param claims = Some v ∧ v ≠ VNone ∧ s = py_str v;
}.

Lemma elem_of_values claims l param s :
  (param, s) ∈ claim_values claims l ↔
  param ∈ l ∧ ∃ v, dict_get param claims = Some v ∧ v ≠ VNone ∧ s = py_str v.
Proof.
  unfold claim_values. rewrite list_elem_of_omap. split.
  - intros (p & Hp & H). destruct (dict_get p claims) as [v|] eqn:E; [|done].
    destruct (is_none v) eqn:En; [done|]. injection H as <- <-. split; [done|]. exists v.
    split_and!; [done| |done]. by intros ->.
  - intros (Hp & v & Hv & Hn & ->). exists param. split; [done|]. rewrite Hv. by destruct v.
Qed.

Lemma success_claim claims :
  "error" ∉ (claim_values claims PARAM_TO_FIELD_KEYS).*1 ↔ dget "error" claims = VNone.
Proof.
  assert (Hk : "error" ∈ PARAM_TO_FIELD_KEYS) by (apply (bool_decide_unpack _); vm_compute; exact I).
  revert Hk. generalize PARAM_TO_FIELD_KEYS as keys. intros keys Hk. unfold dget. split.
  - intros Hn. destruct (dict_get "error" claims) as [v|] eqn:E; [|done]. cbn [default from_option id].
    destruct (decide (is_none v = true)) as [Hv|Hv]; [by destruct v|]. destruct Hn.
    apply list_elem_of_fmap. exists ("error", py_str v). split; [done|]. apply elem_of_values.
    split; [done|]. exists v. split_and!; [done| |done]. by intros ->.
  - intros Hn Hin. apply list_elem_of_fmap in Hin as ([p s] & Heq & Hin). cbn in Heq. subst p.
    apply elem_of_values in Hin as (_ & v & Hv & Hne & _). rewrite Hv in Hn. by apply Hne.
Qed.

Lemma overflow_raises claims table fv :
  ("expires_in", "expires_in") ∈ table →
  mapM_ok (param_field int_of_value (claim_params claims)) table = Ok fv → expires_fits claims.
Proof.
  intros Hin Hp neg Hneg. apply mapM_ok_spec in Hp.
  apply list_elem_of_lookup_1 in Hin as [i Hi].
  destruct (Forall2_lookup_l _ _ _ _ _ Hp Hi) as (y & _ & Hy). unfold param_field in Hy.
  cbn [fst snd] in Hy. by rewrite claim_params_get, Hneg in Hy.
Qed.

(** The fields of the response, when the conversion does not overflow. *)
Lemma map_claims claims fv :
  map_params_to_fields int_of_value (claim_params claims) = Ok fv →
  fv = omap (M:=list) (found_by claim_num (claim_params claims)) PARAM_TO_FIELD.
Proof.
  intros Hfv. assert (Hfit : expires_fits claims).
  { unfold map_params_to_fields in Hfv. apply result_bind_ok in Hfv as (present & Hp & _).
    apply (overflow_raises claims PARAM_TO_FIELD present); [in_table|done]. }
  rewrite (map_params_found_by int_of_value claim_num) in Hfv; [congruence|].
  intros v Hv. rewrite claim_params_get in Hv. apply claim_num_ok. intros neg ->. by apply (Hfit neg).
Qed.

Lemma field_of_claims claims param field :
  (param, field) ∈ PARAM_TO_FIELD →
  field_pyval (field_get field (omap (M:=list) (found_by claim_num (claim_params claims)) PARAM_TO_FIELD)) =
    claim_field claims param field.
Proof.
  intros Hin. rewrite (field_get_found claim_num _ _ param field table_NoDup Hin).
  unfold found_by, claim_field. cbn [fst snd]. rewrite claim_params_get.
  destruct (dict_get param claims) as [v|]; [|done]. cbn [mbind option_bind].
  case_bool_decide; [|done]. by destruct (claim_num v).
Qed.

Lemma build_response_ok claims raw r :
  build_authorize_response_from_claims claims raw = Ok r → response_of_claims claims raw r.
Proof.
  unfold build_authorize_response_from_claims. cbv zeta. intros (fv & Hfv & H)%result_bind_ok.
  apply result_bind_ok in H as (_ & _ & H).
  assert (r = NewJarmResponse (negb (bool_decide (ERROR_CLAIM ∈ (claim_values claims PARAM_TO_FIELD_KEYS).*1)))
    raw (claim_values claims PARAM_TO_FIELD_KEYS) fv) as -> by congruence.
  apply map_claims in Hfv. clear H. split; cbn [jr_raw jr_fields jr_is_successful jr_values]; [done| | |].
  - intros param field Hin. unfold jr_field. cbn [jr_fields]. rewrite Hfv. by apply field_of_claims.
  - rewrite negb_true_iff, bool_decide_eq_false. apply success_claim.
  - intros param s. apply elem_of_values.
Qed.

(** A claim set with the mandatory claims always has a recognized one: its issuer. *)
Lemma mandatory_recognized claims :
  has_key "iss" claims = true →
  omap (M:=list) (found_by claim_num (claim_params claims)) PARAM_TO_FIELD ≠ [].
Proof.
  intros [v Hv]%has_key_spec Hnil.
  pose proof (field_get_found claim_num (claim_params claims) _ "iss" "issuer" table_NoDup ltac:(in_table)) as H.
  rewrite Hnil in H. unfold found_by in H. cbn [fst snd] in H. rewrite claim_params_get, Hv in H. discriminate.
Qed.

(** ** Soundness *)

Section Facts.
Context (env : string → option string) (http_date : string → option Q) (wall : Q).
Context (http : nat → string → outcome HttpResponse).
Context (get_unverified_header : string → outcome pydict).
Context {PyJWK : Type} (new_pyjwk : pydict → option pyval → outcome PyJWK).
Context (decode : string → PyJWK → DecodeArgs → outcome pydict).

(** Where the issuer, the algorithms and the keys come from: the caller, or a discovery document
    and a key set that were admitted under the policy. *)
Definition context_from (address issuer : option string) (jwks : option JwksResponse)
    (algorithms : option (list pyval)) (https : bool) (iss algs : pyval) (r : JwksResponse) : Prop :=
  (∃ i al, issuer = Some i ∧ jwks = Some r ∧ algorithms = Some al ∧ iss = VStr i ∧ algs = VList al ∧
     jwks_is_successful r = true ∧ has_keys (jwks_keys r) = true) ∨
  (∃ addr d uri, address = Some addr ∧ admitted_doc http addr (policy_with_https https) d ∧
     dget "jwks_uri" (disco_attrs d) = VStr uri ∧ admitted_keys env http uri r ∧ has_keys (jwks_keys r) = true ∧
     safe_url (policy_with_https https) uri ∧ truthy iss = true ∧
     iss = (match issuer with Some ((String _ _) as i) => VStr i | _ => dget "issuer" (disco_attrs d) end) ∧
     algs = (match algorithms with Some ((_ :: _) as al) => VList al
             | _ => dget "authorization_signing_alg_values_supported" (disco_attrs d) end)).

Lemma fetch_jwks_ok uri p s r s' :
  fetch_jwks env http_date wall http uri p s = (Ok r, s') → jwks_is_successful r = true →
  ∃ u, uri = VStr u ∧ admitted_keys env http u r ∧ safe_url p u.
Proof.
  unfold fetch_jwks. destruct uri as [| | | |u| |]; try (intros [= <- <-]; discriminate).
  destruct (get_jwks_spec env http_date wall http u (Some p) s) as (d & s1 & Hg & _ & Hok & _).
  rewrite Hg. intros [= <- <-] Hs. exists u. by destruct (Hok Hs).
Qed.

Lemma discover_jarm_context_ok addr issuer algorithms https s iss algs r s' :
  discover_jarm_context env http_date wall http addr issuer algorithms https s = (Ok (iss, algs, r), s') →
  context_from (Some addr) issuer None algorithms https iss algs r.
Proof.
  unfold discover_jarm_context. cbv zeta. set (p := policy_with_https https).
  intros (d & s1 & Hd & H)%stM_bind_ok.
  destruct (get_discovery_document_spec env http_date wall http addr (Some p) s) as (d' & s1' & Hg & _ & Hok & _).
  assert (d' = d) as -> by congruence. clear Hg Hd.
  apply stM_bind_ok in H as ([] & s2 & [Hv ->]%lift_ok & H). apply validate_disco_response_ok in Hv.
  specialize (Hok Hv). cbn [default from_option id] in Hok.
  assert (Hattr : ∀ name, name ∉ error_fields → disco_attr d name = Ok (dget name (disco_attrs d))).
  { intros name. apply (admitted_doc_attr http addr p d name Hok). }
  apply stM_bind_ok in H as (iss' & s3 & [Hiss ->]%lift_ok & H).
  apply stM_bind_ok in H as ([] & s4 & [Ht ->]%lift_ok & H). apply raise_if_ok, negb_false_iff in Ht.
  apply stM_bind_ok in H as (algs' & s5 & [Halgs ->]%lift_ok & H).
  apply stM_bind_ok in H as (uri & s6 & [Huri ->]%lift_ok & H).
  apply stM_bind_ok in H as (r' & s7 & Hr & H).
  apply stM_bind_ok in H as ([] & s8 & [Hj ->]%lift_ok & H). injection H as -> -> -> _.
  apply validate_jwks_response_ok in Hj as [Hj Hk].
  apply (validate_jwks_uri_ok http addr p d uri Hok) in Huri.
  destruct (fetch_jwks_ok _ _ _ _ _ Hr Hj) as (u & -> & Hadm & Hsafe).
  right. exists addr, d, u. split_and!; try done.
  - destruct issuer as [[|c i]|]; try congruence; rewrite Hattr in Hiss by (apply (bool_decide_unpack _); exact I); congruence.
  - destruct algorithms as [[|a l]|]; try congruence; rewrite Hattr in Halgs by (apply (bool_decide_unpack _); exact I); congruence.
Qed.

Lemma resolve_jarm_context_ok address issuer jwks algorithms https s iss algs r s' :
  resolve_jarm_context env http_date wall http address issuer jwks algorithms https s = (Ok (iss, algs, r), s') →
  context_from address issuer jwks algorithms https iss algs r.
Proof.
  assert (Honline : ∀ s, (match address with
      | None => mthrow no_jarm_address
      | Some address => discover_jarm_context env http_date wall http address issuer algorithms https end) s
      = (Ok (iss, algs, r), s') → context_from address issuer jwks algorithms https iss algs r).
  { intros t. destruct address as [addr|]; [|done].
    intros [(? & ? & _ & [=] & _)|H]%discover_jarm_context_ok. by right. }
  unfold resolve_jarm_context. destruct issuer as [i|], jwks as [keys|], algorithms as [al|]; try apply Honline.
  intros ([] & s1 & [Hv ->]%lift_ok & H)%stM_bind_ok. injection H as <- <- <- _.
  apply validate_jwks_response_ok in Hv as [? ?]. left. by exists i, al.
Qed.

(** What an accepted response has gone through. *)
Record jarm_accepted (response client_id : string) (address issuer : option string)
    (jwks : option JwksResponse) (algorithms : option (list pyval)) (https : bool) (leeway : pyval)
    (is_jwt : bool) (r : JarmResponse) : Prop := {
  ja_jwt : if is_jwt then jr_raw r = text response else extract_jarm_response_jwt (VStr response) = Ok (jr_raw r);
  ja_checked : ∃ iss algs keys headers alg w claims,
    context_from address issuer jwks algorithms https iss algs keys ∧
    get_unverified_header (token_bytes (jr_raw r)) = Ok headers ∧
    algorithm_admitted (dget "alg" headers) algs alg ∧
    w ∈ keys_or_nil (jwks_keys keys) ∧
    find_key_by_kid (dget "kid" headers) (keys_or_nil (jwks_keys keys)) (VStr alg) = Ok (as_dict w, effective_alg w (VStr alg)) ∧
    verified_by new_pyjwk decode (token_bytes (jr_raw r)) (KeyDict (as_dict w)) [VStr alg] (VStr client_id) iss
      None leeway claims ∧
    (∀ c, c ∈ JARM_REQUIRED_CLAIMS → has_key c claims = true) ∧
    response_of_claims claims (jr_raw r) r;
}.

Lemma decode_jarm_claims_ok jwt key algs iss aud leeway claims :
  decode_jarm_claims new_pyjwk decode jwt key algs iss aud leeway = Ok claims →
  verified_by new_pyjwk decode (token_bytes jwt) (KeyDict key) algs aud iss None leeway claims ∧
  ∀ c, c ∈ JARM_REQUIRED_CLAIMS → has_key c claims = true.
Proof.
  unfold decode_jarm_claims. cbv zeta. intros (claims' & Hd & H)%result_bind_ok.
  apply result_bind_ok in H as ([] & Hm & [= ->]). apply raise_if_ok, negb_false_iff, Nat.eqb_eq, length_zero_iff_nil in Hm.
  apply decode_and_validate_ok in Hd as (_ & _ & _ & Hv & _). split; [done|].
  intros c Hc. destruct (has_key c claims) eqn:Hk; [done|]. exfalso.
  assert (Hin : c ∈ List.filter (λ c, negb (has_key c claims)) JARM_REQUIRED_CLAIMS).
  { rewrite list_elem_of_In, filter_In, <- list_elem_of_In. by rewrite Hk. }
  rewrite Hm in Hin. by apply not_elem_of_nil in Hin.
Qed.

(** What follows once the context is known. *)
Lemma jarm_checked response client_id address issuer jwks algorithms https leeway (is_jwt : bool)
    jwt iss algs keys kid header_alg alg ks kd (al : pyval) claims r :
  (if is_jwt then jwt = text response else extract_jarm_response_jwt (VStr response) = Ok jwt) →
  context_from address issuer jwks algorithms https iss algs keys →
  extract_jarm_header get_unverified_header jwt = Ok (kid, header_alg) →
  select_jarm_algorithm header_alg algs = Ok alg → jwks_get_keys keys = Ok ks →
  find_key_by_kid kid (keys_or_nil ks) (VStr alg) = Ok (kd, al) →
  decode_jarm_claims new_pyjwk decode jwt kd [VStr alg] iss (VStr client_id) leeway = Ok claims →
  build_authorize_response_from_claims claims jwt = Ok r →
  jarm_accepted response client_id address issuer jwks algorithms https leeway is_jwt r.
Proof.
  intros Hjwt Hctx Hh Ha Hks Hkey Hc Hr.
  assert (Hks' : ks = jwks_keys keys).
  { destruct Hctx as [(? & ? & _ & _ & _ & _ & _ & Hs & _)|(? & ? & ? & _ & _ & _ & [Hs _] & _)];
      rewrite jwks_get_keys_ok in Hks by done; congruence. }
  subst ks. apply select_jarm_algorithm_ok in Ha as [Ha _]. apply decode_jarm_claims_ok in Hc as [Hv Hreq].
  apply build_response_ok in Hr. pose proof (rc_raw _ _ _ Hr) as Hraw.
  unfold extract_jarm_header, extract_jwt_header_fields in Hh.
  destruct (get_unverified_header (token_bytes jwt)) as [headers|e] eqn:Hhd; cbn [mbind result_bind] in Hh;
    [|by destruct (isinstance e _)].
  injection Hh as <- <-. pose proof Hkey as Hfound. apply find_key_inv in Hfound as (w & Hw & Hsel & _).
  unfold select_key in Hsel. apply result_bind_ok in Hsel as ([] & _ & [= <- <-]).
  split.
  - rewrite Hraw. by destruct is_jwt.
  - rewrite Hraw. exists iss, algs, keys, headers, alg, w, claims. by split_and!.
Qed.
End Facts.

(** C27: A JARM response that is accepted was verified.  The token is the sole [response] parameter
    of the callback (or the response itself), its issuer, algorithms and keys are the caller's
    or those of documents admitted under the policy, its algorithm is signed, asymmetric and in
    the allowed list, the key is one of the set's, chosen by the token's header, PyJWT verified
    it with that key and algorithm for this client and that issuer, it has the mandatory
    claims, and the response is what the claims say, unsuccessful exactly when they hold an
    error. *)
Theorem process_jarm_sound env http_date wall http header {PyJWK : Type}
    (new_pyjwk : pydict → option pyval → outcome PyJWK) decode
    response client_id address issuer jwks algorithms https leeway is_jwt s r s' :
  process_jarm_response env http_date wall http header new_pyjwk decode response client_id address issuer
    jwks algorithms https leeway is_jwt s = (Ok r, s') →
  jarm_accepted env http header new_pyjwk decode response client_id address issuer jwks algorithms https
    leeway is_jwt r.
Proof.
  unfold process_jarm_response. intros (jwt & s1 & Hjwt & H)%stM_bind_ok.
  apply stM_bind_ok in H as ([[iss algs] keys] & s2 & Hctx & H). apply resolve_jarm_context_ok in Hctx.
  apply stM_bind_ok in H as ([kid header_alg] & s3 & [Hh ->]%lift_ok & H).
  apply stM_bind_ok in H as (alg & s4 & [Ha ->]%lift_ok & H).
  apply stM_bind_ok in H as (ks & s5 & [Hks ->]%lift_ok & H).
  apply stM_bind_ok in H as ([kd al] & s6 & [Hkey ->]%lift_ok & H).
  apply stM_bind_ok in H as (claims & s7 & [Hc ->]%lift_ok & [Hr ->]%lift_ok).
  eapply jarm_checked; try done. destruct is_jwt; [by injection Hjwt as <- _|by apply lift_ok in Hjwt as [? _]].
Qed.

Definition jarm_header (_ : string) : outcome pydict := Ok [("alg", VStr "RS256")].
Definition jarm_decode (_ : string) (_ : pydict) (_ : DecodeArgs) : outcome pydict :=
  Ok [("iss", VStr "https://op.example"); ("aud", VStr "app"); ("exp", VInt 9); ("code", VStr "c0")].
Definition offline_keys : JwksResponse := JwksResp true None (Some [key_a]) None.
Definition jarm_run (s : net) : outcome JarmResponse * net :=
  process_jarm_response empty_env no_dates 0 (demo_http "https://op.example/jwks") jarm_header toy_new_pyjwk
    jarm_decode "https://app/cb#response=h.p.s" "app" None (Some "https://op.example") (Some offline_keys)
    (Some [VStr "RS256"]) true VNone false s.

Lemma process_jarm_sound_witness :
  ∃ r s', jarm_run (Net [] [] 0) = (Ok r, s') ∧ jr_field r "code" = VStr "c0" ∧
  jarm_accepted empty_env (demo_http "https://op.example/jwks") jarm_header toy_new_pyjwk jarm_decode
    "https://app/cb#response=h.p.s" "app" None (Some "https://op.example") (Some offline_keys)
    (Some [VStr "RS256"]) true VNone false r.
Proof.
  destruct (jarm_run (Net [] [] 0)) as [[r|e] s'] eqn:H; [|by vm_compute in H].
  exists r, s'. split; [done|]. split.
  - assert (Hc : (match fst (jarm_run (Net [] [] 0)) with Ok r => jr_field r "code" | Err _ => VNone end) = VStr "c0")
      by (vm_compute; reflexivity).
    by rewrite H in Hc.
  - unfold jarm_run in H. exact (process_jarm_sound _ _ _ _ _ _ _ _ _ _ _ _ _ _ _ _ _ _ _ H).
Defined.
