(* ===== verification/Fapi.v ===== *)
(** * FAPI 2.0 profile checks ([core/fapi.py])

    Three checks, of an authorization request, a client's configuration and a discovery document,
    each of which collects the violations it finds.  A document's metadata is read as it arrived,
    so a value of the wrong type raises. *)

From S2P Require Import Prelude PyStr PyValue Models Url Discovery Jwt.
From stdpp Require Import strings.
Open Scope string_scope.
Open Scope list_scope.
Open Scope nat_scope.
Open Scope py_scope.

Definition FAPI2_ALLOWED_SIGNING_ALGORITHMS : list string := ["ES256"; "PS256"].
Definition FAPI2_ALLOWED_AUTH_METHODS : list string :=
  ["private_key_jwt"; "self_signed_tls_client_auth"; "tls_client_auth"].
Definition FAPI2_REQUIRED_PKCE_METHOD : string := "S256".
Definition FAPI2_REQUIRED_RESPONSE_TYPE : string := "code".

(** [is_compliant] is derived in [__post_init__] and cannot be passed. *)
Record FAPIValidationResult : Type := FapiResult { violations : list string; is_compliant : bool }.
Definition new_result (vs : list string) : FAPIValidationResult := FapiResult vs (length vs =? 0).

(** [if b: violations.append(msg)]. *)
Definition violation (b : bool) (msg : string) : list string := if b then [msg] else [].

Definition given_str (o : option string) : bool := match o with Some s => nonempty s | None => false end.

(** The [redirect_uri] checks. *)
Definition redirect_violations (redirect_uri : pyval) : outcome (list string) :=
  match redirect_uri with
  | VStr uri =>
      parsed ← urlparse (strip uri);
      Ok (if lower (scheme parsed) ≠? "https" then ["redirect_uri must use HTTPS, got '" +:+ uri +:+ "'"]
          else violation (negb (given_str (hostname parsed)))
                 ("redirect_uri must have a host, got '" +:+ uri +:+ "'"))
  | _ => Ok ["redirect_uri must be a string"]
  end.

Definition validate_fapi_authorization_request (response_type : string)
    (code_challenge code_challenge_method : option string) (redirect_uri : pyval) (use_par : bool)
    (algorithm : option string) : outcome FAPIValidationResult :=
  let before :=
    violation (response_type ≠? FAPI2_REQUIRED_RESPONSE_TYPE)
      ("response_type must be 'code', got '" +:+ response_type +:+ "'") ++
    violation (match code_challenge with Some c => negb (nonempty c && nonempty (strip c)) | None => true end)
      "PKCE code_challenge is required" ++
    match code_challenge_method with
    | None => ["PKCE code_challenge_method is required"]
    | Some m => violation (m ≠? FAPI2_REQUIRED_PKCE_METHOD) ("PKCE method must be 'S256', got '" +:+ m +:+ "'")
    end ++
    violation (negb use_par) "PAR (Pushed Authorization Requests) is required" in
  uri ← redirect_violations redirect_uri;
  let after :=
    match algorithm with
    | Some a => violation (negb (bool_decide (a ∈ FAPI2_ALLOWED_SIGNING_ALGORITHMS)))
                  ("Algorithm '" +:+ a +:+ "' not allowed; use " +:+
                   str_join ", " FAPI2_ALLOWED_SIGNING_ALGORITHMS)
    | None => []
    end in
  Ok (new_result (before ++ uri ++ after)).

Definition validate_fapi_client_config (auth_method : option string) (use_dpop use_mtls : bool)
    : FAPIValidationResult :=
  new_result
    (match auth_method with
     | None => ["Client authentication is required (confidential client)"]
     | Some m => violation (negb (bool_decide (m ∈ FAPI2_ALLOWED_AUTH_METHODS)))
                   ("Auth method '" +:+ m +:+ "' is not FAPI 2.0 compliant; use " +:+
                    str_join ", " FAPI2_ALLOWED_AUTH_METHODS)
     end ++
     violation (negb use_dpop && negb use_mtls) "Sender-constrained tokens required (enable DPoP or mTLS)").

(** ** The discovery document *)

(** [v is not None and x not in v]. *)
Definition lacks (v : pyval) (x : string) : outcome bool :=
  if is_none v then Ok false else b ← py_contains v (VStr x); Ok (negb b).

Definition hashable (v : pyval) : bool := match v with VList _ | VDict _ => false | _ => true end.

(** Whether [set(v) & names] has an element. *)
Definition meets (v : pyval) (names : list string) : outcome bool :=
  l ← py_iter v;
  match List.find (λ w, negb (hashable w)) l with
  | Some w => Err (TypeErr ("unhashable type: '" +:+ type_name w +:+ "'"))
  | None => Ok (existsb (λ w, py_mem w (strs names)) l)
  end.

(** [if v is None: violations.append(absent) elif not set(v) & names: violations.append(weak)]. *)
Definition needs_one (v : pyval) (names : list string) (absent weak : string) : outcome (list string) :=
  if is_none v then Ok [absent] else b ← meets v names; Ok (violation (negb b) weak).

Definition validate_fapi_discovery (d : DiscoveryDocumentResponse) : outcome FAPIValidationResult :=
  if negb (disco_is_successful d) then Ok (new_result ["Discovery document fetch failed"])
  else
    grants ← disco_attr d "grant_types_supported";
    no_code_grant ← lacks grants "authorization_code";
    response_types ← disco_attr d "response_types_supported";
    no_code_type ← lacks response_types "code";
    auth_methods ← disco_attr d "token_endpoint_auth_methods_supported";
    auth ← needs_one auth_methods FAPI2_ALLOWED_AUTH_METHODS
      ("token_endpoint_auth_methods_supported not advertised; " +:+
       "RFC 8414 default is client_secret_basic, which FAPI 2.0 prohibits")
      ("Server does not support FAPI-compliant client auth (private_key_jwt or tls_client_auth)");
    algs ← disco_attr d "id_token_signing_alg_values_supported";
    signing ← needs_one algs FAPI2_ALLOWED_SIGNING_ALGORITHMS
      ("id_token_signing_alg_values_supported not advertised; " +:+
       "OIDC Discovery default is RS256, which FAPI 2.0 prohibits")
      ("Server does not support FAPI-compliant signing algorithms (" +:+
       str_join ", " FAPI2_ALLOWED_SIGNING_ALGORITHMS +:+ ")");
    pkce_methods ← disco_attr d "code_challenge_methods_supported";
    no_s256 ← lacks pkce_methods "S256";
    Ok (new_result
      (violation no_code_grant "Server does not support authorization_code grant type" ++
       violation no_code_type ("Server does not support 'code' response type " +:+
                               "(authorization code flow required)") ++
       auth ++ signing ++
       violation no_s256 ("Server does not support S256 PKCE " +:+
                          "(FAPI 2.0 requires code_challenge_methods_supported to include S256)"))).

(** ** On concrete inputs *)

Definition fapi_request (uri : string) : outcome FAPIValidationResult :=
  validate_fapi_authorization_request "code" (Some "c") (Some "S256") (VStr uri) true (Some "PS256").
Definition server_doc (attrs : pydict) : DiscoveryDocumentResponse := DiscoResponse true None None None [] attrs None.
Definition fapi_metadata : pydict :=
  [("token_endpoint_auth_methods_supported", VList [VStr "private_key_jwt"]);
   ("id_token_signing_alg_values_supported", VList [VStr "RS256"; VStr "PS256"])].

Example fapi_1 : is_compliant <$> fapi_request " HTTPS://rp.example/cb " = Ok true.
Proof. vm_compute. reflexivity. Qed.
Example fapi_2 : violations <$> fapi_request "https:///cb" = Ok ["redirect_uri must have a host, got 'https:///cb'"].
Proof. vm_compute. reflexivity. Qed.
(** A redirect URI that does not parse raises. *)
Example fapi_3 : fapi_request "https://[x/cb" = Err (ValueErr "Invalid IPv6 URL").
Proof. vm_compute. reflexivity. Qed.
(** A server that says nothing of PKCE, of PAR and of sender-constrained tokens is compliant. *)
Example fapi_4 : is_compliant <$> validate_fapi_discovery (server_doc fapi_metadata) = Ok true.
Proof. vm_compute. reflexivity. Qed.
(** A string of grants is searched for a substring. *)
Example fapi_5 :
  is_compliant <$> validate_fapi_discovery
    (server_doc (("grant_types_supported", VStr "no_authorization_code_here") :: fapi_metadata)) = Ok true.
Proof. vm_compute. reflexivity. Qed.
Example fapi_6 :
  validate_fapi_discovery (server_doc [("token_endpoint_auth_methods_supported", VList [VList []])]) =
    Err (TypeErr "unhashable type: 'list'").
Proof. vm_compute. reflexivity. Qed.

(** ** The profile *)

Lemma compliant_iff vs : is_compliant (new_result vs) = true ↔ vs = [].
Proof. cbn. destruct vs; naive_solver. Qed.
Lemma violation_nil b msg : violation b msg = [] ↔ b = false.
Proof. by destruct b. Qed.
Lemma app_nil_iff {A} (l k : list A) : l ++ k = [] ↔ l = [] ∧ k = [].
Proof. split; [apply app_eq_nil|by intros [-> ->]]. Qed.

(** What the profile asks of a redirect URI. *)
Definition https_with_host (v : pyval) : Prop :=
  ∃ s u h, v = VStr s ∧ urlparse (strip s) = Ok u ∧ lower (scheme u) = "https" ∧ hostname u = Some h ∧ h ≠ "".

Lemma redirect_violations_spec v :
  match redirect_violations v with
  | Ok vs => vs = [] ↔ https_with_host v
  | Err e => ∃ s, v = VStr s ∧ urlparse (strip s) = Err e
  end.
Proof.
  unfold redirect_violations, https_with_host.
  destruct v as [| | | |s| |]; try (split; [done|by intros (? & ? & ? & [=] & _)]).
  destruct (urlparse (strip s)) as [u|e] eqn:Hu; cbn [mbind result_bind]; [|by exists s].
  case_bool_decide as Hs; cbn [negb].
  - rewrite violation_nil, negb_false_iff. unfold given_str. destruct (hostname u) as [h|] eqn:Hh.
    + rewrite nonempty_true. split; [intros Hne; by exists s, u, h|].
      intros (s' & u' & h' & [= <-] & Hu' & _ & Hh' & Hne). rewrite Hu in Hu'. injection Hu' as <-. congruence.
    + split; [done|]. intros (s' & u' & h' & [= <-] & Hu' & _ & Hh' & Hne). rewrite Hu in Hu'. injection Hu' as <-.
      congruence.
  - split; [done|]. intros (s' & u' & h' & [= <-] & Hu' & Hs' & _). rewrite Hu in Hu'. injection Hu' as <-. done.
Qed.

Record fapi_request_ok (response_type : string) (challenge method : option string) (redirect_uri : pyval)
    (use_par : bool) (algorithm : option string) : Prop := {
  fr_type : response_type = "code";
  fr_challenge : ∃ c, challenge = Some c ∧ strip c ≠ "";
  fr_method : method = Some "S256";
  fr_par : use_par = true;
  fr_uri : https_with_host redirect_uri;
  fr_alg : ∀ a, algorithm = Some a → a = "ES256" ∨ a = "PS256";
}.

Lemma strip_nonempty c : nonempty c && nonempty (strip c) = nonempty (strip c).
Proof. by destruct c. Qed.

Lemma fapi_request_iff rt c m uri par alg :
  match validate_fapi_authorization_request rt c m uri par alg with
  | Ok r => is_compliant r = true ↔ fapi_request_ok rt c m uri par alg
  | Err e => ∃ s, uri = VStr s ∧ urlparse (strip s) = Err e
  end.
Proof.
  unfold validate_fapi_authorization_request. cbv zeta. pose proof (redirect_violations_spec uri) as Huri.
  destruct (redirect_violations uri) as [vs|e]; cbn [mbind result_bind]; [|done].
  rewrite compliant_iff, !app_nil_iff, Huri, !violation_nil, !negb_false_iff, bool_decide_eq_true.
  split.
  - intros ((-> & Hc & Hm & ->) & Hu & Ha). split; try done.
    + destruct c as [c|]; [|done]. rewrite negb_false_iff, strip_nonempty, nonempty_true in Hc. by exists c.
    + destruct m as [m|]; [|done]. apply violation_nil, negb_false_iff, bool_decide_eq_true in Hm. by rewrite Hm.
    + intros a ->. apply violation_nil, negb_false_iff, bool_decide_eq_true in Ha. unfold FAPI2_ALLOWED_SIGNING_ALGORITHMS in Ha.
      apply elem_of_cons in Ha as [->|Ha]; [by left|]. apply list_elem_of_singleton in Ha. by right.
  - intros [-> (c' & -> & Hc) -> -> Hu Ha]. split_and!; try done.
    + rewrite negb_false_iff, strip_nonempty. by apply nonempty_true.
    + destruct alg as [a|]; [|done]. apply violation_nil, negb_false_iff, bool_decide_eq_true.
      by destruct (Ha a eq_refl) as [->| ->]; apply (bool_decide_unpack _).
Qed.

(** The metadata a document lists under a name. *)
Definition listed (o : option (list string)) : pyval := match o with Some l => VList (strs l) | None => VNone end.
Definition FAPI_METADATA : list string :=
  ["grant_types_supported"; "response_types_supported"; "token_endpoint_auth_methods_supported";
   "id_token_signing_alg_values_supported"; "code_challenge_methods_supported"].

(** What the check asks of the metadata, [supported] being the default where it is absent; that the
    default of the PKCE methods holds [S256] is this check's own choice. *)
Record fapi_server_ok (meta : string → option (list string)) : Prop := {
  fs_grant : "authorization_code" ∈ default ["authorization_code"] (meta "grant_types_supported");
  fs_type : "code" ∈ default ["code"] (meta "response_types_supported");
  fs_auth : ∃ m, m ∈ default ["client_secret_basic"] (meta "token_endpoint_auth_methods_supported") ∧
    m ∈ FAPI2_ALLOWED_AUTH_METHODS;
  fs_alg : ∃ a, a ∈ default ["RS256"] (meta "id_token_signing_alg_values_supported") ∧
    a ∈ FAPI2_ALLOWED_SIGNING_ALGORITHMS;
  fs_pkce : "S256" ∈ default ["S256"] (meta "code_challenge_methods_supported");
}.

Lemma lacks_listed o x : ∃ b, lacks (listed o) x = Ok b ∧ (b = false ↔ x ∈ default [x] o).
Proof.
  unfold lacks. destruct o as [l|]; cbn [listed is_none py_contains mbind result_bind default from_option id].
  - eexists. split; [done|]. rewrite negb_false_iff, py_mem_strs. split; [|by exists x].
    by intros (s & [= <-] & ?).
  - exists false. split; [done|]. split; [|done]. intros _. apply elem_of_cons. by left.
Qed.

Lemma meets_strs l names : meets (VList (strs l)) names = Ok (existsb (λ w, py_mem w (strs names)) (strs l)).
Proof.
  unfold meets. cbn [py_iter mbind result_bind].
  destruct (List.find _ (strs l)) as [w|] eqn:Hf; [|done].
  apply find_some in Hf as [Hin Hw]. apply in_map_iff in Hin as (s & <- & _). done.
Qed.

Lemma needs_one_listed o names absent weak dflt : dflt ∉ names →
  ∃ vs, needs_one (listed o) names absent weak = Ok vs ∧ (vs = [] ↔ ∃ m, m ∈ default [dflt] o ∧ m ∈ names).
Proof.
  intros Hd. unfold needs_one. destruct o as [l|]; cbn [listed is_none default from_option id].
  - rewrite meets_strs. cbn [mbind result_bind]. eexists. split; [done|].
    rewrite violation_nil, negb_false_iff, existsb_exists. split.
    + intros (w & Hin & Hw). apply in_map_iff in Hin as (s & <- & Hs%list_elem_of_In).
      apply py_mem_strs in Hw as (? & [= <-] & ?). by exists s.
    + intros (m & Hm & Hn). exists (VStr m). rewrite py_mem_strs. split; [|by exists m].
      apply in_map_iff. exists m. by rewrite <- list_elem_of_In.
  - eexists. split; [done|]. split; [done|]. intros (m & Hm%list_elem_of_singleton & Hn). congruence.
Qed.

Lemma fapi_discovery_iff d meta :
  disco_is_successful d = true → (∀ name, name ∈ FAPI_METADATA → dget name (disco_attrs d) = listed (meta name)) →
  ∃ r, validate_fapi_discovery d = Ok r ∧ (is_compliant r = true ↔ fapi_server_ok meta).
Proof.
  intros Hok Hmeta.
  assert (Hattr : ∀ name, name ∈ FAPI_METADATA → name ∉ error_fields → disco_attr d name = Ok (listed (meta name))).
  { intros name Hin Hne. rewrite disco_attr_ok by done. by rewrite Hmeta. }
  unfold validate_fapi_discovery. rewrite Hok. cbn [negb].
  rewrite !Hattr by (apply (bool_decide_unpack _); exact I). cbn [mbind result_bind].
  destruct (lacks_listed (meta "grant_types_supported") "authorization_code") as (b1 & -> & H1).
  destruct (lacks_listed (meta "response_types_supported") "code") as (b2 & -> & H2). cbn [mbind result_bind].
  match goal with |- context [needs_one (listed (meta "token_endpoint_auth_methods_supported")) ?n ?a ?w] =>
    destruct (needs_one_listed (meta "token_endpoint_auth_methods_supported") n a w "client_secret_basic")
      as (v1 & -> & H3); [apply (bool_decide_unpack _); exact I|] end. cbn [mbind result_bind].
  match goal with |- context [needs_one (listed (meta "id_token_signing_alg_values_supported")) ?n ?a ?w] =>
    destruct (needs_one_listed (meta "id_token_signing_alg_values_supported") n a w "RS256")
      as (v2 & -> & H4); [apply (bool_decide_unpack _); exact I|] end. cbn [mbind result_bind].
  destruct (lacks_listed (meta "code_challenge_methods_supported") "S256") as (b3 & -> & H5). cbn [mbind result_bind].
  eexists. split; [done|]. rewrite compliant_iff, !app_nil_iff, !violation_nil, H1, H2, H3, H4, H5.
  split; [intros (? & ? & ? & ? & ?); by split|by intros [? ? ? ? ?]].
Qed.

(** The FAPI 2.0 checks decide the profile.  An authorization request is reported compliant
    exactly when it is a code request with a challenge, the S256 method, PAR, an HTTPS redirect
    URI with a host and an admitted algorithm (and only a redirect URI that does not parse
    raises); a client, when it authenticates by an admitted method and constrains its tokens; a
    document whose metadata are lists, when it was fetched and each list, or the default of an
    absent one, holds what the profile needs. *)
Theorem fapi_checks_decide :
  (∀ rt c m uri par alg,
    match validate_fapi_authorization_request rt c m uri par alg with
    | Ok r => is_compliant r = true ↔ fapi_request_ok rt c m uri par alg
    | Err e => ∃ s, uri = VStr s ∧ urlparse (strip s) = Err e
    end) ∧
  (∀ method dpop mtls, is_compliant (validate_fapi_client_config method dpop mtls) = true ↔
    (∃ m, method = Some m ∧ m ∈ FAPI2_ALLOWED_AUTH_METHODS) ∧ dpop || mtls = true) ∧
  (∀ d r, disco_is_successful d = false → validate_fapi_discovery d = Ok r → is_compliant r = false) ∧
  (∀ d meta, disco_is_successful d = true →
    (∀ name, name ∈ FAPI_METADATA → dget name (disco_attrs d) = listed (meta name)) →
    ∃ r, validate_fapi_discovery d = Ok r ∧ (is_compliant r = true ↔ fapi_server_ok meta)).
Proof.
  split_and!; [exact fapi_request_iff| | |exact fapi_discovery_iff].
  - intros method dpop mtls. unfold validate_fapi_client_config. rewrite compliant_iff, app_nil_iff, violation_nil.
    destruct method as [m|].
    + rewrite violation_nil, negb_false_iff, bool_decide_eq_true. destruct dpop, mtls; naive_solver.
    + split; [by intros [? _]|]. by intros [(? & [=] & _) _].
  - intros d r H. unfold validate_fapi_discovery. rewrite H. by intros [= <-].
Qed.

Lemma fapi_checks_decide_witness :
  ∃ r, validate_fapi_discovery (server_doc fapi_metadata) = Ok r ∧ is_compliant r = true.
Proof.
  destruct fapi_checks_decide as (_ & _ & _ & H).
  destruct (H (server_doc fapi_metadata) (λ name,
      if name ≟ "token_endpoint_auth_methods_supported" then Some ["private_key_jwt"]
      else if name ≟ "id_token_signing_alg_values_supported" then Some ["RS256"; "PS256"] else None))
    as (r & Hr & Hc).
  - reflexivity.
  - intros name Hin. unfold FAPI_METADATA in Hin. rewrite !elem_of_cons in Hin.
    destruct Hin as [->|[->|[->|[->|[->|Hin]]]]]; [reflexivity..|]. by apply not_elem_of_nil in Hin.
  - exists r. split; [exact Hr|]. apply Hc. split.
    + apply (bool_decide_unpack _). exact I.
    + apply (bool_decide_unpack _). exact I.
    + exists "private_key_jwt". split; apply (bool_decide_unpack _); exact I.
    + exists "PS256". split; apply (bool_decide_unpack _); exact I.
    + apply (bool_decide_unpack _). exact I.
Defined.
