(* ===== verification/Identity.v ===== *)
(** * Claims identities and principals ([identity.py])

    A principal and an identity hold Python lists of claims, which are shared by reference: the
    store is the lists that exist, a reference is a place in it, and a list that is extended is
    extended for everyone who holds it.  A claim itself is never changed. *)

From S2P Require Import Prelude PyStr PyValue Models.
From stdpp Require Import strings.
Open Scope string_scope.
Open Scope list_scope.
Open Scope nat_scope.
Open Scope py_scope.

(** ** Claims *)

Record Claim : Type := NewClaim {
  claim_type : string;
  value : string;
  value_type : string;
  claim_issuer : string;
  original_issuer : string;
  properties : pydict;
}.

Definition xml_string : string := "http://www.w3.org/2001/XMLSchema#string".
Definition LOCAL_AUTHORITY : string := "LOCAL AUTHORITY".

(** [o or s]. *)
Definition or_else (o : option string) (s : string) : string :=
  match o with Some ((String _ _) as t) => t | _ => s end.

(** [Claim.__init__]. *)
Definition make_claim (type v vtype : string) (issuer original : option string) : Claim :=
  let issuer := or_else issuer LOCAL_AUTHORITY in
  NewClaim type v vtype issuer (or_else original issuer) [].

Definition claim_str (c : Claim) : string := claim_type c +:+ ": " +:+ value c.
Definition claim_repr (c : Claim) : string :=
  "Claim(claim_type='" +:+ claim_type c +:+ "', value='" +:+ value c +:+ "', issuer='" +:+ claim_issuer c +:+ "')".

Inductive ClaimType : Type :=
  | Name | NameIdentifier | Role | Email | GivenName | Surname | DateOfBirth | Country | Gender
  | HomePhone | MobilePhone | PostalCode | StateOrProvince | StreetAddress | Webpage.
#[export] Instance ClaimType_eq_dec : EqDecision ClaimType.
Proof. solve_decision. Defined.

Definition soap : string := "http://schemas.xmlsoap.org/ws/2005/05/identity/claims/".
Definition ClaimType_value (t : ClaimType) : string :=
  match t with
  | Name => soap +:+ "name"
  | NameIdentifier => soap +:+ "nameidentifier"
  | Role => "http://schemas.microsoft.com/ws/2008/06/identity/claims/role"
  | Email => soap +:+ "emailaddress"
  | GivenName => soap +:+ "givenname"
  | Surname => soap +:+ "surname"
  | DateOfBirth => soap +:+ "dateofbirth"
  | Country => soap +:+ "country"
  | Gender => soap +:+ "gender"
  | HomePhone => soap +:+ "homephone"
  | MobilePhone => soap +:+ "mobilephone"
  | PostalCode => soap +:+ "postalcode"
  | StateOrProvince => soap +:+ "stateorprovince"
  | StreetAddress => soap +:+ "streetaddress"
  | Webpage => soap +:+ "webpage"
  end.

(** ** Lists by reference *)

Abbreviation ref := nat.
Abbreviation store := (list (list Claim)).
Definition read (σ : store) (r : ref) : list Claim := default [] (σ !! r).
Definition alloc (l : list Claim) (σ : store) : ref * store := (length σ, σ ++ [l]).
(** [a.extend(b)]; extending a list with itself doubles it. *)
Definition extend (a b : ref) (σ : store) : store := <[a := read σ a ++ read σ b]> σ.

(** ** Identities *)

Record ClaimsIdentity : Type := NewIdentity {
  identity_claims : ref;
  authentication_type : option string;
  name_type_claim : string;
  role_type_claim : string;
}.
Definition claims_identity (claims : ref) (auth : option string) : ClaimsIdentity :=
  NewIdentity claims auth (ClaimType_value Name) (ClaimType_value Role).

(** An [Identity]: the class of this module, or an application's own. *)
Inductive Identity : Type := OfClaims (i : ClaimsIdentity) | Custom (id : nat).

Definition of_type (t : string) (c : Claim) : bool := claim_type c ≟ t.
Definition first_of (t : string) (l : list Claim) : option Claim := List.find (of_type t) l.
Definition all_of (t : string) (l : list Claim) : list Claim := List.filter (of_type t) l.

Definition identity_name (i : ClaimsIdentity) (σ : store) : option string :=
  value <$> first_of (name_type_claim i) (read σ (identity_claims i)).
Definition is_authenticated (i : ClaimsIdentity) : bool :=
  match authentication_type i with Some _ => true | None => false end.
Definition identity_find_first (i : ClaimsIdentity) (t : string) (σ : store) : option Claim :=
  first_of t (read σ (identity_claims i)).
Definition identity_find_all (i : ClaimsIdentity) (t : string) (σ : store) : list Claim :=
  all_of t (read σ (identity_claims i)).

(** ** Principals *)

Record ClaimsPrincipal : Type := Principal { identity : option Identity; principal_claims : ref }.

(** [if isinstance(identity, ClaimsIdentity): claims.extend(identity.claims)]. *)
Definition merge (claims : ref) (i : option Identity) (σ : store) : store :=
  match i with Some (OfClaims ci) => extend claims (identity_claims ci) σ | _ => σ end.

(** [claims or []]: an empty list of the caller is not kept, any other is. *)
Definition own_claims (claims : option ref) (σ : store) : ref * store :=
  match claims with
  | Some r => if length (read σ r) =? 0 then alloc [] σ else (r, σ)
  | None => alloc [] σ
  end.

Definition claims_principal (i : option Identity) (claims : option ref) (σ : store) : ClaimsPrincipal * store :=
  let '(r, σ) := own_claims claims σ in (Principal i r, merge r i σ).

Definition add_identity (p : ClaimsPrincipal) (i : Identity) (σ : store) : ClaimsPrincipal * store :=
  (Principal (Some i) (principal_claims p), merge (principal_claims p) (Some i) σ).

Definition has_claim (p : ClaimsPrincipal) (t : string) (v : option string) (σ : store) : bool :=
  existsb (λ c, of_type t c && match v with None => true | Some v => value c ≟ v end) (read σ (principal_claims p)).
Definition is_in_role (p : ClaimsPrincipal) (role : string) (σ : store) : bool :=
  has_claim p (ClaimType_value Role) (Some role) σ.
Definition find_first (p : ClaimsPrincipal) (t : string) (σ : store) : option Claim :=
  first_of t (read σ (principal_claims p)).
Definition find_all (p : ClaimsPrincipal) (t : string) (σ : store) : list Claim :=
  all_of t (read σ (principal_claims p)).

(** ** From a token *)

(** [Claim(claim_type=t, value=str(v), issuer=issuer)]. *)
Definition token_claim (issuer t : string) (v : pyval) : Claim :=
  make_claim t (py_str v) xml_string (Some issuer) None.

(** One entry of the claim set: one claim, or one for each member of a list. *)
Definition entry_claims (issuer : string) (kv : string * pyval) : list Claim :=
  match kv.2 with
  | VList vs => map (token_claim issuer kv.1) vs
  | v => [token_claim issuer kv.1 v]
  end.

Definition token_issuer (token_claims : pydict) : string :=
  match dict_get "iss" token_claims with Some v => py_str v | None => LOCAL_AUTHORITY end.

Definition to_principal (token_claims : pydict) (auth : string) (σ : store) : ClaimsPrincipal * store :=
  let issuer := token_issuer token_claims in
  let '(r, σ) := alloc (concat (map (entry_claims issuer) token_claims)) σ in
  claims_principal (Some (OfClaims (claims_identity r (Some auth)))) None σ.

(** ** On concrete inputs *)

Definition demo_token : pydict :=
  [("iss", VStr "https://op.example"); ("sub", VStr "u1"); ("roles", VList [VStr "admin"; VStr "dev"])].
Definition demo_principal : ClaimsPrincipal := (to_principal demo_token "Bearer" []).1.
Definition demo_store : store := (to_principal demo_token "Bearer" []).2.

Example principal_1 : has_claim demo_principal "roles" (Some "dev") demo_store = true.
Proof. vm_compute. reflexivity. Qed.
(** The roles of a token are not the principal's roles, and it has no name. *)
Example principal_2 :
  is_in_role demo_principal "admin" demo_store = false ∧
  (match identity demo_principal with Some (OfClaims i) => identity_name i demo_store | _ => None end) = None.
Proof. split; vm_compute; reflexivity. Qed.
(** Nor is the identity's own role type consulted. *)
Example principal_3 :
  let σ := [[make_claim "role" "admin" xml_string None None]] in
  let '(p, σ) := claims_principal (Some (OfClaims (NewIdentity 0 (Some "Bearer") "name" "role"))) None σ in
  is_in_role p "admin" σ = false ∧ has_claim p "role" (Some "admin") σ = true.
Proof. split; vm_compute; reflexivity. Qed.
(** A list that is extended with itself is doubled. *)
Example principal_4 :
  let σ := [[make_claim "a" "1" xml_string None None]] in
  let '(p, σ) := claims_principal (Some (OfClaims (claims_identity 0 None))) (Some 0) σ in
  length (find_all p "a" σ) = 2.
Proof. vm_compute. reflexivity. Qed.
Example claim_1 : claim_str (token_claim "" "sub" (VInt 7)) = "sub: 7" ∧ claim_issuer (token_claim "" "sub" (VInt 7)) = LOCAL_AUTHORITY.
Proof. split; vm_compute; reflexivity. Qed.

(** ** The store *)

Lemma read_alloc l σ : read (alloc l σ).2 (alloc l σ).1 = l.
Proof. unfold read, alloc. cbn [fst snd]. by rewrite lookup_app_r, Nat.sub_diag. Qed.
Lemma read_alloc_old l σ r : r < length σ → read (alloc l σ).2 r = read σ r.
Proof. intros H. unfold read, alloc. cbn [snd]. by rewrite lookup_app_l. Qed.
Lemma length_alloc l σ : length (alloc l σ).2 = S (length σ).
Proof. unfold alloc. cbn [snd]. rewrite length_app. cbn. lia. Qed.
Lemma length_extend a b σ : length (extend a b σ) = length σ.
Proof. apply length_insert. Qed.
Lemma read_extend a b σ : a < length σ → read (extend a b σ) a = read σ a ++ read σ b.
Proof. intros H. unfold read at 1, extend. by rewrite list_lookup_insert_eq. Qed.
Lemma read_extend_ne a b σ r : r ≠ a → read (extend a b σ) r = read σ r.
Proof. intros H. unfold read at 1, extend. by rewrite list_lookup_insert_ne. Qed.

Lemma length_merge r i σ : length (merge r i σ) = length σ.
Proof. destruct i as [[]|]; cbn; [apply length_extend|done..]. Qed.
Lemma read_merge_ne r i σ r' : r' ≠ r → read (merge r i σ) r' = read σ r'.
Proof. intros H. destruct i as [[]|]; cbn; [by apply read_extend_ne|done..]. Qed.

(** The claims an identity brings. *)
Definition brought (i : option Identity) (σ : store) : list Claim :=
  match i with Some (OfClaims ci) => read σ (identity_claims ci) | _ => [] end.
Lemma read_merge r i σ : r < length σ → read (merge r i σ) r = read σ r ++ brought i σ.
Proof. intros H. destruct i as [[]|]; cbn; [by apply read_extend|by rewrite app_nil_r..]. Qed.

(** An identity's list exists. *)
Definition exists_in (i : option Identity) (σ : store) : Prop :=
  match i with Some (OfClaims ci) => identity_claims ci < length σ | _ => True end.
Lemma brought_alloc l i σ : exists_in i σ → brought i (alloc l σ).2 = brought i σ.
Proof. destruct i as [[]|]; cbn; [|done..]. by apply read_alloc_old. Qed.
Lemma brought_merge_ne r i j σ :
  (∀ ci, i = Some (OfClaims ci) → identity_claims ci ≠ r) → brought i (merge r j σ) = brought i σ.
Proof. intros H. destruct i as [[]|]; cbn; [|done..]. apply read_merge_ne. by apply H. Qed.

(** A principal with a list of its own: the identity's claims, and nothing else changes. *)
Lemma principal_fresh i claims σ :
  exists_in i σ → match claims with Some r => read σ r = [] | None => True end →
  let '(p, σ') := claims_principal i claims σ in
  identity p = i ∧ principal_claims p = length σ ∧ length σ' = S (length σ) ∧
  read σ' (principal_claims p) = brought i σ ∧ ∀ r, r < length σ → read σ' r = read σ r.
Proof.
  intros Hi Hc. unfold claims_principal.
  assert (own_claims claims σ = alloc [] σ) as ->.
  { destruct claims as [r|]; [|done]. cbn. by rewrite Hc. }
  cbn [alloc]. change (length σ, σ ++ [[]]) with (alloc [] σ). cbn [identity principal_claims].
  assert (Hl : length σ < length (σ ++ [[]])) by (rewrite length_app; cbn; lia).
  split_and!; [done|done| | |].
  - rewrite length_merge, length_app. cbn. lia.
  - rewrite read_merge by done. pose proof (read_alloc [] σ) as Hr. cbn [alloc fst snd] in Hr. rewrite Hr.
    apply (brought_alloc [] i σ Hi).
  - intros r Hr. rewrite read_merge_ne by lia. by apply (read_alloc_old [] σ).
Qed.

(** A principal on a caller's list: the list is the principal's, and grows for the caller. *)
Lemma principal_shared i r σ :
  r < length σ → read σ r ≠ [] →
  let '(p, σ') := claims_principal i (Some r) σ in
  identity p = i ∧ principal_claims p = r ∧ length σ' = length σ ∧
  read σ' r = read σ r ++ brought i σ ∧ ∀ r', r' ≠ r → read σ' r' = read σ r'.
Proof.
  intros Hr Hne. unfold claims_principal.
  assert (own_claims (Some r) σ = (r, σ)) as ->.
  { cbn. destruct (length (read σ r) =? 0) eqn:E; [|done]. by apply Nat.eqb_eq, length_zero_iff_nil in E. }
  cbn [identity principal_claims]. split_and!; [done..|apply length_merge|by apply read_merge|].
  intros r' H. by apply read_merge_ne.
Qed.

(** ** Queries *)

Definition carries (l : list Claim) (t : string) (v : option string) : Prop :=
  ∃ c, c ∈ l ∧ claim_type c = t ∧ ∀ w, v = Some w → value c = w.

Lemma has_claim_iff p t v σ : has_claim p t v σ = true ↔ carries (read σ (principal_claims p)) t v.
Proof.
  unfold has_claim, carries, of_type. rewrite existsb_exists. split.
  - intros (c & Hin & [Ht Hv]%andb_true_iff). exists c. rewrite list_elem_of_In.
    apply bool_decide_eq_true in Ht. split_and!; [done..|]. intros w ->. by apply bool_decide_eq_true in Hv.
  - intros (c & Hin & Ht & Hv). exists c. rewrite <- list_elem_of_In, andb_true_iff, bool_decide_eq_true.
    split_and!; [done..|]. destruct v as [w|]; [|done]. by apply bool_decide_eq_true, Hv.
Qed.

(** What an entry of a claim set says. *)
Definition says (w : pyval) (v : string) : Prop :=
  match w with VList vs => ∃ u, u ∈ vs ∧ py_str u = v | _ => py_str w = v end.

Lemma entry_claims_iff issuer t w c :
  c ∈ entry_claims issuer (t, w) ↔ ∃ v, says w v ∧ c = make_claim t v xml_string (Some issuer) None.
Proof.
  unfold entry_claims, token_claim. cbn [fst snd].
  destruct w as [| | | | |vs|]; try (rewrite list_elem_of_singleton; cbn [says]; naive_solver).
  rewrite list_elem_of_In, in_map_iff. cbn [says]. setoid_rewrite <- list_elem_of_In. naive_solver.
Qed.

Lemma token_claims_iff issuer d c :
  c ∈ concat (map (entry_claims issuer) d) ↔
  ∃ t w v, (t, w) ∈ d ∧ says w v ∧ c = make_claim t v xml_string (Some issuer) None.
Proof.
  rewrite list_elem_of_In, in_concat. split.
  - intros (l & Hl & Hc). apply in_map_iff in Hl as ([t w] & <- & Hin).
    rewrite <- !list_elem_of_In in *. apply entry_claims_iff in Hc as (v & ? & ?). by exists t, w, v.
  - intros (t & w & v & Hin & Hs & ->). exists (entry_claims issuer (t, w)).
    rewrite in_map_iff, <- list_elem_of_In, entry_claims_iff. split; [|by exists v].
    exists (t, w). by rewrite <- list_elem_of_In.
Qed.

Lemma token_carries issuer d t v :
  carries (concat (map (entry_claims issuer) d)) t v ↔ ∃ w u, (t, w) ∈ d ∧ says w u ∧ (∀ x, v = Some x → u = x).
Proof.
  unfold carries. setoid_rewrite token_claims_iff. split.
  - intros (c & (t' & w & u & Hin & Hs & ->) & Ht & Hv). cbn in Ht, Hv. subst t'. by exists w, u.
  - intros (w & u & Hin & Hs & Hv). exists (make_claim t u xml_string (Some issuer) None).
    split_and!; [by exists t, w, u|done..].
Qed.

Lemma to_principal_store d auth σ :
  let '(p, σ') := to_principal d auth σ in
  let held := concat (map (entry_claims (token_issuer d)) d) in
  identity p = Some (OfClaims (claims_identity (length σ) (Some auth))) ∧
  read σ' (principal_claims p) = held ∧ read σ' (length σ) = held ∧
  principal_claims p = S (length σ) ∧ ∀ r, r < length σ → read σ' r = read σ r.
Proof.
  unfold to_principal. cbv zeta. set (held := concat _). cbn [alloc].
  change (σ ++ [held]) with (alloc held σ).2. set (ci := claims_identity (length σ) (Some auth)).
  pose proof (length_alloc held σ) as Hl. pose proof (read_alloc held σ) as Hr. cbn [alloc fst] in Hr.
  pose proof (principal_fresh (Some (OfClaims ci)) None (alloc held σ).2) as H. revert H.
  destruct (claims_principal (Some (OfClaims ci)) None (alloc held σ).2) as [p σ'].
  intros H. destruct H as (Hi & Hp & _ & Hc & Ho); [unfold exists_in, ci, claims_identity, identity_claims; rewrite Hl; lia|done|].
  rewrite Hl in Hp, Ho. cbn [brought] in Hc. unfold ci in Hc. cbn [claims_identity identity_claims] in Hc.
  split_and!; [done|by rewrite Hc|rewrite Ho by lia; exact Hr|done|].
  intros r Hlt. rewrite Ho by lia. by apply read_alloc_old.
Qed.

(** The principal made of a claim set answers for exactly that claim set.  It has a claim of a
    type and value exactly when the token says so, in a value or in a member of a list; it is in
    a role exactly when the token says so under the one role URI; all its claims carry the
    token's issuer; its identity is authenticated, holds the same claims in a list of its own,
    and no list that existed before has changed. *)
Theorem principal_of_token d auth σ :
  let '(p, σ') := to_principal d auth σ in
  (∀ t v, has_claim p t (Some v) σ' = true ↔ ∃ w, (t, w) ∈ d ∧ says w v) ∧
  (∀ t, has_claim p t None σ' = true ↔ ∃ w v, (t, w) ∈ d ∧ says w v) ∧
  (∀ role, is_in_role p role σ' = true ↔ ∃ w, (ClaimType_value Role, w) ∈ d ∧ says w role) ∧
  (∀ c, c ∈ read σ' (principal_claims p) →
     claim_issuer c = or_else (Some (token_issuer d)) LOCAL_AUTHORITY ∧ original_issuer c = claim_issuer c) ∧
  (∃ i, identity p = Some (OfClaims i) ∧ is_authenticated i = true ∧
     identity_claims i ≠ principal_claims p ∧
     (∀ t, identity_find_all i t σ' = find_all p t σ') ∧ (∀ t, identity_find_first i t σ' = find_first p t σ')) ∧
  (∀ r, r < length σ → read σ' r = read σ r).
Proof.
  pose proof (to_principal_store d auth σ) as H. destruct (to_principal d auth σ) as [p σ'].
  destruct H as (Hi & Hc & Hl & Hp & Ho). cbv zeta in *.
  assert (Hv : ∀ t v, has_claim p t (Some v) σ' = true ↔ ∃ w, (t, w) ∈ d ∧ says w v).
  { intros t v. rewrite has_claim_iff, Hc, token_carries. split.
    - intros (w & u & Hin & Hs & Hx). rewrite (Hx v eq_refl) in Hs. by exists w.
    - intros (w & Hin & Hs). exists w, v. split_and!; [done..|]. by intros x [= ->]. }
  split_and!; [exact Hv| |by intros role; apply Hv| | |exact Ho].
  - intros t. rewrite has_claim_iff, Hc, token_carries. naive_solver.
  - intros c. rewrite Hc. intros (t & w & v & _ & _ & ->)%token_claims_iff. unfold make_claim. cbn.
    split; [done|]. by destruct (token_issuer d).
  - eexists. split; [exact Hi|]. split; [done|]. split; [rewrite Hp; cbn; lia|].
    unfold identity_find_all, find_all, identity_find_first, find_first. cbn [claims_identity identity_claims].
    rewrite Hc, Hl. done.
Qed.

(** Principals do not share claims, unless the caller gives them the same non-empty list.
    Two principals made one after the other with no claims of the caller's, or with a list that
    is empty, have each the claims of their own identity.  Made on one non-empty list they hold
    that list itself: each then has every claim of both identities, roles included, and so does
    the caller's list. *)
Theorem principals_share_claims i1 i2 claims σ :
  exists_in i1 σ → exists_in i2 σ → match claims with Some r => r < length σ | None => True end →
  let '(p1, σ1) := claims_principal i1 claims σ in
  let '(p2, σ2) := claims_principal i2 claims σ1 in
  match claims with
  | Some r =>
      (read σ r = [] → read σ2 (principal_claims p1) = brought i1 σ ∧ read σ2 (principal_claims p2) = brought i2 σ) ∧
      (read σ r ≠ [] → principal_claims p1 = r ∧ principal_claims p2 = r ∧
         read σ2 r = (read σ r ++ brought i1 σ) ++ brought i2 σ1 ∧
         (∀ t v, carries (brought i1 σ) t v → has_claim p2 t v σ2 = true) ∧
         (∀ t v, carries (brought i2 σ) t v → has_claim p1 t v σ2 = true))
  | None => read σ2 (principal_claims p1) = brought i1 σ ∧ read σ2 (principal_claims p2) = brought i2 σ
  end.
Proof.
  intros H1 H2 Hr.
  assert (Hsep : match claims with Some r => read σ r = [] | None => True end →
    let '(p1, σ1) := claims_principal i1 claims σ in let '(p2, σ2) := claims_principal i2 claims σ1 in
    read σ2 (principal_claims p1) = brought i1 σ ∧ read σ2 (principal_claims p2) = brought i2 σ).
  { intros He. pose proof (principal_fresh i1 claims σ H1 He) as F1.
    destruct (claims_principal i1 claims σ) as [p1 σ1]. destruct F1 as (_ & Hp1 & Hl1 & Hc1 & Ho1).
    pose proof (principal_fresh i2 claims σ1) as F2. destruct (claims_principal i2 claims σ1) as [p2 σ2].
    destruct F2 as (_ & Hp2 & _ & Hc2 & Ho2).
    - destruct i2 as [[]|]; cbn in *; [lia|done..].
    - destruct claims as [r|]; [|done]. by rewrite Ho1.
    - rewrite Ho2 by lia. split; [done|]. rewrite Hc2.
      destruct i2 as [[ci|]|]; cbn in *; [|done..]. by apply Ho1. }
  destruct claims as [r|]; [|by apply Hsep].
  destruct (decide (read σ r = [])) as [He|Hne].
  { specialize (Hsep He). destruct (claims_principal i1 (Some r) σ) as [p1 σ1].
    destruct (claims_principal i2 (Some r) σ1) as [p2 σ2]. split; [done|by intros ?]. }
  clear Hsep. pose proof (principal_shared i1 r σ Hr Hne) as F1.
  destruct (claims_principal i1 (Some r) σ) as [p1 σ1]. destruct F1 as (_ & Hp1 & Hl1 & Hc1 & Ho1).
  assert (Hne1 : read σ1 r ≠ []) by (rewrite Hc1; by intros [? _]%app_eq_nil).
  pose proof (principal_shared i2 r σ1 ltac:(lia) Hne1) as F2.
  destruct (claims_principal i2 (Some r) σ1) as [p2 σ2]. destruct F2 as (_ & Hp2 & _ & Hc2 & _).
  split; [by intros ?|]. intros _. rewrite Hc1 in Hc2. split_and!; [done..| |].
  - intros t v (c & Hin & Hm). apply has_claim_iff. rewrite Hp2, Hc2. exists c. split; [|done].
    rewrite !elem_of_app. auto.
  - intros t v (c & Hin & Hm). apply has_claim_iff. rewrite Hp1, Hc2. exists c. split; [|done].
    rewrite !elem_of_app. right. destruct i2 as [[ci|]|]; cbn in *; [|done..].
    destruct (decide (identity_claims ci = r)) as [Hd|Hd]; [|by rewrite Ho1].
    rewrite Hd in *. rewrite Hc1, elem_of_app. by left.
Qed.

(** An identity that replaces another adds its claims to the principal and takes none away: the
    principal keeps every claim of every identity it ever had. *)
Theorem add_identity_accumulates p i σ :
  principal_claims p < length σ →
  let '(p', σ') := add_identity p i σ in
  identity p' = Some i ∧ principal_claims p' = principal_claims p ∧
  read σ' (principal_claims p') = read σ (principal_claims p) ++ brought (Some i) σ ∧
  (∀ t v, has_claim p t v σ = true → has_claim p' t v σ' = true).
Proof.
  intros H. unfold add_identity. cbn [identity principal_claims].
  assert (Hr := read_merge (principal_claims p) (Some i) σ H). split_and!; [done..|].
  intros t v. rewrite !has_claim_iff. cbn [principal_claims]. rewrite Hr.
  intros (c & Hin & Hm). exists c. split; [|done]. rewrite elem_of_app. auto.
Qed.

Definition admin_store : store :=
  [[make_claim "tenant" "t" xml_string None None];
   [make_claim (ClaimType_value Role) "admin" xml_string None None]; []].
Definition an_identity (r : ref) : option Identity := Some (OfClaims (claims_identity r (Some "Bearer"))).

(** A guest made on the list an administrator was made on is an administrator. *)
Lemma principals_share_claims_witness :
  let '(p1, σ1) := claims_principal (an_identity 1) (Some 0) admin_store in
  let '(p2, σ2) := claims_principal (an_identity 2) (Some 0) σ1 in
  is_in_role p2 "admin" σ2 = true.
Proof.
  pose proof (principals_share_claims (an_identity 1) (an_identity 2) (Some 0) admin_store) as H.
  destruct (claims_principal (an_identity 1) (Some 0) admin_store) as [p1 σ1].
  destruct (claims_principal (an_identity 2) (Some 0) σ1) as [p2 σ2].
  destruct H as (_ & H); [cbn; lia..|]. destruct H as (_ & _ & _ & H & _); [done|].
  apply H. exists (make_claim (ClaimType_value Role) "admin" xml_string None None).
  split; [apply list_elem_of_singleton; reflexivity|]. split; [reflexivity|]. intros w [= <-]. reflexivity.
Defined.
