(* ===== verification/Bearer.v ===== *)
(** * The FastAPI resource server ([fastapi_identity_model/middleware.py], [ws.py],
    [dependencies.py])

    The middleware and the WebSocket authenticator validate a bearer token with the asynchronous
    [validate_token] and turn its outcome into an admission or a refusal; the dependencies read
    what an admitted request carries.  Starlette's request is the few parts the code reads. *)

From S2P Require Import Prelude PyStr PyValue Models HttpRetry Jwks Jwt TokenValidation Coro Cancel CacheMetrics Aio AioSafety Identity.
From Stdlib Require Import QArith Ascii.
From stdpp Require Import strings.
#[global] Close Scope Q_scope.
Open Scope string_scope.
Open Scope list_scope.
Open Scope nat_scope.
Open Scope py_scope.

(** ** Token types *)

Definition BEARER_HEADER_PART_COUNT : nat := 2.
Definition ID_TOKEN_ONLY_CLAIMS : list string := ["nonce"; "at_hash"; "c_hash"].
Definition DEFAULT_ACCESS_TOKEN_MARKER_CLAIMS : list string := ["scope"; "scp"].
Definition GENERIC_401_DETAIL : string := "Invalid or unauthorized token".
Definition UPSTREAM_FETCH_FAILURE_PREFIXES : list string :=
  ["Network error during discovery"; "Network error during JWKS"].

Definition is_upstream_fetch_failure (e : exn) : bool :=
  existsb (startswith (message e)) UPSTREAM_FETCH_FAILURE_PREFIXES.

Definition any_claim (names : list string) (claims : pydict) : bool :=
  existsb (λ c, has_key c claims) names.

Definition evaluate_token_type (claims : pydict) (require_marker : bool) (markers : list string) : option string :=
  if any_claim ID_TOKEN_ONLY_CLAIMS claims then Some "ID token cannot be used as an access token"
  else if require_marker && negb (any_claim markers claims)
  then Some "Access token required; presented token lacks an access-token marker claim"
  else None.

(** ** Settings *)

(** What both entry points are built with. *)
Record Guard : Type := NewGuard {
  discovery_url : string;
  guard_audience : string;
  custom_claims_validator : option ClaimsValidator;
  require_access_token_marker : bool;
  access_token_marker_claims : list string;
}.

(** The constructors' checks. *)
Definition check_guard (who : string) (audience : option string) (marker : bool) (markers : list string)
    : outcome unit :=
  _ ← raise_if (match audience with Some (String _ _) => false | _ => true end)
        (mk_exn BValueError (who +:+ " requires a non-empty 'audience'; a " +:+
           "None/empty audience skips aud enforcement for aud-less tokens."));
  raise_if (marker && (length markers =? 0))
    (mk_exn BValueError ("require_access_token_marker=True needs a non-empty " +:+
       "access_token_marker_claims; an empty set rejects every token.")).

Record TokenValidationMiddleware : Type := Middleware { mw_guard : Guard; excluded_paths : list string }.

Definition default_excluded_paths : list string := ["/docs"; "/docs/oauth2-redirect"; "/openapi.json"; "/health"].

Definition new_middleware (url : string) (audience : option string) (excluded : option (list string))
    (validator : option ClaimsValidator) (marker : bool) (markers : list string)
    : outcome TokenValidationMiddleware :=
  _ ← check_guard "TokenValidationMiddleware" audience marker markers;
  Ok (Middleware (NewGuard url (default "" audience) validator marker markers)
        (default default_excluded_paths excluded)).

Definition token_config (g : Guard) : TokenValidationConfig :=
  TVConfig true (KeyOther VNone) (VStr (guard_audience g)) None VNone VNone None
    (custom_claims_validator g) true VNone None None.

(** ** Paths *)

(** [entry[:-2]]. *)
Fixpoint drop_last2 (s : string) : string :=
  match s with
  | String c ((String _ (String _ _)) as s') => String c (drop_last2 s')
  | _ => ""
  end.

Definition path_matches (path entry : string) : bool :=
  if endswith entry "/*" then
    let prefix := rstrip_char "/" (drop_last2 entry) in
    nonempty prefix && ((path ≟ prefix) || startswith path (prefix +:+ "/"))
  else path ≟ entry.
Definition is_excluded (m : TokenValidationMiddleware) (path : string) : bool :=
  existsb (path_matches path) (excluded_paths m).

(** ** HTTP *)

Record JSONResponse : Type := Json { status : Z; detail : string; www_authenticate : bool }.
Definition unauthorized (d : string) : JSONResponse := Json 401 d true.

(** What is read of a request. *)
Record Request : Type := NewRequest { req_method : string; req_path : string; authorization : option string }.

(** What an admitted request carries in its [state]. *)
Record RequestState : Type := Authenticated { user : ClaimsPrincipal * store; state_claims : pydict; state_token : string }.
Definition admit_claims (claims : pydict) (token : string) : RequestState :=
  Authenticated (to_principal claims "Bearer" []) claims token.

Definition bearer_parts (header : string) : option string :=
  match split_ws header with
  | [scheme; token] => if lower scheme ≟ "bearer" then Some token else None
  | _ => None
  end.

Definition extract_bearer_token (r : Request) : JSONResponse + string :=
  match authorization r with
  | Some ((String _ _) as header) =>
      match bearer_parts header with
      | Some token => inr token
      | None => inl (unauthorized "Invalid Authorization header format. Expected: Bearer <token>")
      end
  | _ => inl (unauthorized "Missing Authorization header")
  end.

(** The middleware's [except] clauses, in order. *)
Definition http_failure (e : exn) : JSONResponse :=
  if isinstance e PyIdentityModelException then
    if isinstance e NetworkException || is_upstream_fetch_failure e
    then Json 503 "Authentication temporarily unavailable" false
    else unauthorized GENERIC_401_DETAIL
  else if isinstance e JwtInvalidTokenError then unauthorized GENERIC_401_DETAIL
  else Json 500 "Internal server error during authentication" false.

Definition wrong_token_type_error (g : Guard) (claims : pydict) : option string :=
  evaluate_token_type claims (require_access_token_marker g) (access_token_marker_claims g).

Definition http_accept (g : Guard) (token : string) (claims : pydict) : JSONResponse + RequestState :=
  match wrong_token_type_error g claims with
  | Some reason => inl (unauthorized reason)
  | None => inr (admit_claims claims token)
  end.

(** ** WebSockets *)

Record WebSocketException : Type := Close { close_code : Z; reason : string }.
Definition WS_POLICY_VIOLATION : Z := 1008.
Definition WS_TRY_AGAIN_LATER : Z := 1013.
Definition WS_INTERNAL_ERROR : Z := 1011.
Definition GENERIC_REJECT_REASON : string := "Invalid or unauthorized token".

(** The header, and what [query_params.get] answers. *)
Record WebSocket : Type := NewSocket { ws_authorization : option string; query_params : string → option string }.

Definition extract_ws_token (w : WebSocket) (query_param : string) : option string :=
  match ws_authorization w with
  | Some header => bearer_parts header
  | None => match query_params w query_param with
            | Some ((String _ _) as token) => Some token
            | _ => None
            end
  end.

Definition ws_failure (e : exn) : WebSocketException :=
  if isinstance e PyIdentityModelException then
    if isinstance e NetworkException || is_upstream_fetch_failure e
    then Close WS_TRY_AGAIN_LATER "Authentication temporarily unavailable"
    else Close WS_POLICY_VIOLATION GENERIC_REJECT_REASON
  else if isinstance e JwtInvalidTokenError then Close WS_POLICY_VIOLATION GENERIC_REJECT_REASON
  else Close WS_INTERNAL_ERROR "Internal error during authentication".

Definition ws_accept (g : Guard) (token : string) (claims : pydict) : WebSocketException + RequestState :=
  match evaluate_token_type claims (require_access_token_marker g) (access_token_marker_claims g) with
  | Some _ => inl (Close WS_POLICY_VIOLATION GENERIC_REJECT_REASON)
  | None => inr (admit_claims claims token)
  end.

Section Serving.
Context (env : string → option string) (http_date : string → option Q) (wall : Q).
Context (http : nat → string → outcome HttpResponse).
Context (clock : nat → Q).
Context (get_unverified_header : string → outcome pydict).
Context {PyJWK : Type} (new_pyjwk : pydict → option pyval → outcome PyJWK).
Context (decode : nat → string → PyJWK → DecodeArgs → outcome pydict).
Context (hash_key : disco_key → Z) (hash_uri : string → Z) (nan_sleep : outcome unit).

Let validate := aio_validate_token env http_date wall http clock get_unverified_header new_pyjwk decode
  hash_key hash_uri nan_sleep.

(** [_authenticate]: a refusal, or the state the request goes on with. *)
Definition authenticate (loop : nat) (g : Guard) (token : string) : C (JSONResponse + RequestState) :=
  attempt
    (claims ← validate loop token (token_config g) (Some (discovery_url g)) false;
     mret (http_accept g token claims))
    (λ e, mret (inl (http_failure e))).

(** [dispatch]: the response, or the request goes on, with a state unless it was not validated. *)
Definition dispatch (loop : nat) (m : TokenValidationMiddleware) (r : Request)
    : C (JSONResponse + option RequestState) :=
  if (req_method r ≟ "OPTIONS") || is_excluded m (req_path r) then mret (inr None)
  else match extract_bearer_token r with
       | inl refusal => mret (inl refusal)
       | inr token =>
           auth ← authenticate loop (mw_guard m) token;
           mret (match auth with inl refusal => inl refusal | inr st => inr (Some st) end)
       end.

(** The dependency [build_ws_authenticator] returns. *)
Definition authenticate_websocket (loop : nat) (g : Guard) (query_param : string) (w : WebSocket)
    : C (WebSocketException + RequestState) :=
  match extract_ws_token w query_param with
  | Some ((String _ _) as token) =>
      attempt
        (claims ← validate loop token (token_config g) (Some (discovery_url g)) false;
         mret (ws_accept g token claims))
        (λ e, mret (inl (ws_failure e)))
  | _ => mret (inl (Close WS_POLICY_VIOLATION "Missing or malformed bearer token"))
  end.

(** A server: HTTP requests, WebSocket handshakes and calls of the library itself, on any loops. *)
Inductive served : Type :=
  | ServedHttp (r : JSONResponse + option RequestState)
  | ServedSocket (r : WebSocketException + RequestState)
  | ServedCall (claims : pydict).

Inductive demand : Type :=
  | HttpRequest (loop : nat) (m : TokenValidationMiddleware) (r : Request)
  | SocketHandshake (loop : nat) (g : Guard) (query_param : string) (w : WebSocket)
  | LibraryCall (loop : nat) (op : aio_op).

Definition serve (d : demand) : C served :=
  match d with
  | HttpRequest loop m r => a ← dispatch loop m r; mret (ServedHttp a)
  | SocketHandshake loop g q w => a ← authenticate_websocket loop g q w; mret (ServedSocket a)
  | LibraryCall loop op =>
      claims ← aio_call env http_date wall http clock get_unverified_header new_pyjwk decode hash_key hash_uri
                 nan_sleep (loop, op);
      mret (ServedCall claims)
  end.

Definition server (demands : list demand) : pool lock AioState served :=
  start (map serve demands) (Aio initial_state zero_counters).
End Serving.

(** ** The dependencies *)

Record HTTPException : Type := Http { http_status : Z; http_detail : string; http_www_authenticate : bool }.
Definition not_authenticated : HTTPException := Http 401 "Not authenticated" true.

(** [request.state], which has the three attributes once the middleware has set them. *)
Definition get_current_user (st : option RequestState) : result HTTPException (ClaimsPrincipal * store) :=
  match st with Some s => Ok (user s) | None => Err not_authenticated end.
Definition get_claims (st : option RequestState) : result HTTPException pydict :=
  match st with Some s => Ok (state_claims s) | None => Err not_authenticated end.
Definition get_token (st : option RequestState) : result HTTPException string :=
  match st with Some s => Ok (state_token s) | None => Err not_authenticated end.

(** [identity.find_first] and [identity.find_all]; those of an application's own identity are
    parameters. *)
Definition get_claim_value (own : nat → string → option Claim) (type : string) (u : ClaimsPrincipal * store)
    : option string :=
  match identity u.1 with
  | None => None
  | Some (OfClaims i) => value <$> identity_find_first i type u.2
  | Some (Custom n) => value <$> own n type
  end.
Definition get_claim_values (own : nat → string → list Claim) (type : string) (u : ClaimsPrincipal * store)
    : list string :=
  match identity u.1 with
  | None => []
  | Some (OfClaims i) => map value (identity_find_all i type u.2)
  | Some (Custom n) => map value (own n type)
  end.

Definition require_claim (type : string) (v : option string) (u : ClaimsPrincipal * store)
    : result HTTPException unit :=
  if negb (has_claim u.1 type v u.2) then
    Err (Http 403
      (match v with
       | None => "Required claim '" +:+ type +:+ "' not found"
       | Some v => "Required claim '" +:+ type +:+ "' with value '" +:+ v +:+ "' not found"
       end) false)
  else Ok ().

(** [claims.get("scope") or claims.get("scp")]. *)
Definition raw_scopes (claims : pydict) : pyval :=
  if truthy (dget "scope" claims) then dget "scope" claims else dget "scp" claims.
Definition scopes_of (raw : pyval) : list string :=
  match raw with
  | VStr s => split_ws s
  | VList l => omap (M:=list) as_str l
  | _ => []
  end.
Definition require_scope (scope : string) (claims : pydict) : result HTTPException unit :=
  if bool_decide (scope ∈ scopes_of (raw_scopes claims)) then Ok ()
  else Err (Http 403 ("Required scope '" +:+ scope +:+ "' not found") false).

(** ** On concrete inputs *)

Definition demo_guard : Guard := NewGuard op_address "api" None false DEFAULT_ACCESS_TOKEN_MARKER_CLAIMS.
Definition demo_mw : TokenValidationMiddleware := Middleware demo_guard ["/docs/*"; "/health"; "/*"].
Definition demo_server (http : nat → string → outcome HttpResponse)
    (decode : nat → string → pydict → DecodeArgs → outcome pydict) : list demand → pool lock AioState served :=
  server empty_env no_dates 0 http ticking demo_header toy_new_pyjwk decode (λ _, 0%Z) (λ _, 0%Z) (Ok ()).
Definition serve_alone http decode (d : demand) : option (outcome served) :=
  match results (schedule (replicate 60 0) (demo_server http decode [d])) with [r] => r | _ => None end.
Definition op_http : nat → string → outcome HttpResponse := demo_http "https://op.example/jwks".

Example path_1 : map (is_excluded demo_mw) ["/health"; "/health/db"; "/docs"; "/docs/a"; "/docsx"; "/x"] =
  [true; false; true; true; false; false].
Proof. vm_compute. reflexivity. Qed.
Example bearer_1 :
  match serve_alone op_http demo_decode (HttpRequest 0 demo_mw (NewRequest "GET" "/me" (Some " bearer  token "))) with
  | Some (Ok (ServedHttp (inr (Some st)))) =>
      (state_claims st, require_claim "sub" (Some "alice") (user st), require_claim "sub" (Some "bob") (user st))
  | _ => ([], Ok (), Ok ())
  end = (demo_claims, Ok (), Err (Http 403 "Required claim 'sub' with value 'bob' not found" false)).
Proof. vm_compute. reflexivity. Qed.
(** The HTTP refusal of an ID token says what it refuses; the WebSocket's does not. *)
Definition id_token_decode (_ : nat) (_ : string) (_ : pydict) (_ : DecodeArgs) : outcome pydict :=
  Ok [("nonce", VStr "n")].
Example bearer_2 :
  serve_alone op_http id_token_decode (HttpRequest 0 demo_mw (NewRequest "GET" "/me" (Some "Bearer token"))) =
    Some (Ok (ServedHttp (inl (unauthorized "ID token cannot be used as an access token")))) ∧
  serve_alone op_http id_token_decode (SocketHandshake 0 demo_guard "access_token" (NewSocket (Some "Bearer token") (λ _, None))) =
    Some (Ok (ServedSocket (inl (Close 1008 "Invalid or unauthorized token")))).
Proof. split; vm_compute; reflexivity. Qed.
(** A provider that cannot be reached is a 503; one that answers 503 is a bad token. *)
Definition down_http (_ : nat) (_ : string) : outcome HttpResponse := Err (mk_exn HttpxRequestError "refused").
Definition busy_http (_ : nat) (_ : string) : outcome HttpResponse := Ok (Response 503 [] "" (Ok VNone) None).
Example bearer_3 :
  let call h := serve_alone h demo_decode (HttpRequest 0 demo_mw (NewRequest "GET" "/me" (Some "Bearer token"))) in
  call down_http = Some (Ok (ServedHttp (inl (Json 503 "Authentication temporarily unavailable" false)))) ∧
  call busy_http = Some (Ok (ServedHttp (inl (unauthorized GENERIC_401_DETAIL)))).
Proof. split; vm_compute; reflexivity. Qed.
Example socket_1 : extract_ws_token (NewSocket (Some "Basic x") (λ _, Some "t")) "access_token" = None.
Proof. vm_compute. reflexivity. Qed.
Example scope_1 : require_scope "b" [("scope", VStr ""); ("scp", VList [VStr "a"; VInt 1; VStr "b"])] = Ok ().
Proof. vm_compute. reflexivity. Qed.

(** ** Paths *)

(** An entry excludes itself; one that ends in a star, its prefix and the paths under it. *)
Definition excluded_by (entry path : string) : Prop :=
  if endswith entry "/*"
  then ∃ prefix, prefix = rstrip_char "/" (drop_last2 entry) ∧ prefix ≠ "" ∧
         (path = prefix ∨ ∃ rest, path = prefix +:+ "/" +:+ rest)
  else path = entry.

Lemma path_matches_iff path entry : path_matches path entry = true ↔ excluded_by entry path.
Proof.
  unfold path_matches, excluded_by. destruct (endswith entry "/*"); [|apply bool_decide_eq_true].
  cbv zeta. set (prefix := rstrip_char "/" (drop_last2 entry)).
  rewrite andb_true_iff, orb_true_iff, nonempty_true, bool_decide_eq_true, startswith_spec.
  setoid_rewrite str_app_assoc. naive_solver.
Qed.

Lemma is_excluded_iff m path : is_excluded m path = true ↔ ∃ entry, entry ∈ excluded_paths m ∧ excluded_by entry path.
Proof.
  unfold is_excluded. rewrite existsb_exists. setoid_rewrite <- list_elem_of_In.
  by setoid_rewrite path_matches_iff.
Qed.

(** ** Admission *)

(** The request goes on without a token. *)
Definition unguarded (m : TokenValidationMiddleware) (r : Request) : Prop :=
  req_method r = "OPTIONS" ∨ ∃ entry, entry ∈ excluded_paths m ∧ excluded_by entry (req_path r).

(** Claims the guard takes for those of an access token. *)
Definition access_claims (g : Guard) (claims : pydict) : Prop :=
  (∀ c, c ∈ ID_TOKEN_ONLY_CLAIMS → dict_get c claims = None) ∧
  (require_access_token_marker g = true → ∃ c, c ∈ access_token_marker_claims g ∧ has_key c claims = true).

Lemma any_claim_false names claims : any_claim names claims = false ↔ ∀ c, c ∈ names → dict_get c claims = None.
Proof.
  unfold any_claim. rewrite <- not_true_iff_false, existsb_exists. setoid_rewrite <- list_elem_of_In. split.
  - intros H c Hc. destruct (dict_get c claims) as [v|] eqn:E; [|done]. destruct H. exists c. split; [done|].
    apply has_key_spec. by exists v.
  - intros H (c & Hc & [v Hv]%has_key_spec). rewrite (H c Hc) in Hv. done.
Qed.

Lemma token_type_ok g claims :
  evaluate_token_type claims (require_access_token_marker g) (access_token_marker_claims g) = None ↔
  access_claims g claims.
Proof.
  unfold evaluate_token_type, access_claims. rewrite <- any_claim_false.
  destruct (any_claim ID_TOKEN_ONLY_CLAIMS claims); [split; [done|by intros [? _]]|].
  destruct (require_access_token_marker g); cbn [andb]; [|naive_solver].
  unfold any_claim. destruct (existsb _ _) eqn:E; cbn [negb].
  - apply existsb_exists in E as (c & Hc & Hk). rewrite <- list_elem_of_In in Hc. naive_solver.
  - split; [done|]. intros [_ H]. destruct (H eq_refl) as (c & Hc & Hk).
    apply not_true_iff_false in E. destruct E. apply existsb_exists. exists c. by rewrite <- list_elem_of_In.
Qed.

Lemma bearer_parts_some header token : bearer_parts header = Some token → header ≠ "".
Proof. by intros H ->. Qed.

(** The refusals there are. *)
Definition HTTP_REFUSALS : list JSONResponse :=
  [unauthorized "Missing Authorization header";
   unauthorized "Invalid Authorization header format. Expected: Bearer <token>";
   unauthorized GENERIC_401_DETAIL;
   unauthorized "ID token cannot be used as an access token";
   unauthorized "Access token required; presented token lacks an access-token marker claim";
   Json 503 "Authentication temporarily unavailable" false;
   Json 500 "Internal server error during authentication" false].
Definition WS_REFUSALS : list WebSocketException :=
  [Close WS_POLICY_VIOLATION "Missing or malformed bearer token"; Close WS_POLICY_VIOLATION GENERIC_REJECT_REASON;
   Close WS_TRY_AGAIN_LATER "Authentication temporarily unavailable";
   Close WS_INTERNAL_ERROR "Internal error during authentication"].

Lemma http_failure_listed e : http_failure e ∈ HTTP_REFUSALS.
Proof.
  unfold http_failure. destruct (isinstance e PyIdentityModelException); [destruct (_ || _)|destruct (isinstance e _)];
    unfold HTTP_REFUSALS; set_solver.
Qed.
Lemma ws_failure_listed e : ws_failure e ∈ WS_REFUSALS.
Proof.
  unfold ws_failure. destruct (isinstance e PyIdentityModelException); [destruct (_ || _)|destruct (isinstance e _)];
    unfold WS_REFUSALS; set_solver.
Qed.
Lemma wrong_type_listed g claims r : wrong_token_type_error g claims = Some r → unauthorized r ∈ HTTP_REFUSALS.
Proof.
  unfold wrong_token_type_error, evaluate_token_type. destruct (any_claim _ _); [|destruct (_ && _)];
    intros [= <-]; unfold HTTP_REFUSALS; set_solver.
Qed.

Section Admission.
Context (env : string → option string) (http_date : string → option Q) (wall : Q).
Context (http : nat → string → outcome HttpResponse).
Context (clock : nat → Q).
Context (get_unverified_header : string → outcome pydict).
Context {PyJWK : Type} (new_pyjwk : pydict → option pyval → outcome PyJWK).
Context (decode : nat → string → PyJWK → DecodeArgs → outcome pydict).
Context (hash_key : disco_key → Z) (hash_uri : string → Z) (nan_sleep : outcome unit).

(** The token was validated for the guard's audience against its provider, its claims are those
    of an access token, and the request carries them and their principal. *)
Definition admitted_by (g : Guard) (token : string) (st : RequestState) : Prop :=
  token_sound env http get_unverified_header new_pyjwk decode token (token_config g) (Some (discovery_url g))
    (state_claims st) ∧
  access_claims g (state_claims st) ∧
  st = admit_claims (state_claims st) token.

Definition http_post (m : TokenValidationMiddleware) (r : Request) (a : JSONResponse + option RequestState) : Prop :=
  match a with
  | inl refusal => refusal ∈ HTTP_REFUSALS
  | inr None => unguarded m r
  | inr (Some st) => ¬ unguarded m r ∧ ∃ header token, authorization r = Some header ∧
      bearer_parts header = Some token ∧ admitted_by (mw_guard m) token st
  end.

Definition ws_post (g : Guard) (q : string) (w : WebSocket) (a : WebSocketException + RequestState) : Prop :=
  match a with
  | inl refusal => refusal ∈ WS_REFUSALS
  | inr st => ∃ token, extract_ws_token w q = Some token ∧ admitted_by g token st
  end.

Definition serve_post (d : demand) (r : outcome served) : Prop :=
  match d with
  | HttpRequest _ m req => ∃ a, r = Ok (ServedHttp a) ∧ http_post m req a
  | SocketHandshake _ g q w => ∃ a, r = Ok (ServedSocket a) ∧ ws_post g q w a
  | LibraryCall loop op =>
      ∀ claims, r = Ok (ServedCall claims) → call_post env http get_unverified_header new_pyjwk decode (loop, op) (Ok claims)
  end.

Let J := aio_inv env http.
Let authenticate_ := authenticate env http_date wall http clock get_unverified_header new_pyjwk decode
  hash_key hash_uri nan_sleep.

Lemma safe_authenticate loop g token :
  safe J (λ r, ∃ a, r = Ok a ∧
      match a with inl refusal => refusal ∈ HTTP_REFUSALS | inr st => admitted_by g token st end)
    (authenticate_ loop g token).
Proof.
  unfold authenticate_, authenticate, attempt. eapply safe_finish; [eapply safe_finish; [apply kept_validate_token|]|].
  - instantiate (1 := λ r, match r with
      | Ok (inl refusal) => refusal ∈ HTTP_REFUSALS | Ok (inr st) => admitted_by g token st | Err _ => True end).
    intros [claims|e] Hc; cbn [safe]; [|done]. specialize (Hc claims eq_refl). unfold mret, coro_ret. cbn [safe].
    unfold http_accept. destruct (wrong_token_type_error g claims) as [reason|] eqn:Hw.
    + by eapply wrong_type_listed.
    + apply token_type_ok in Hw. by split_and!.
  - intros [a|e] Hr; unfold mret, coro_ret; cbn [safe].
    + exists a. split; [done|]. by destruct a.
    + exists (inl (http_failure e)). split; [done|]. apply http_failure_listed.
Qed.

Lemma safe_dispatch loop m r :
  safe J (λ o, ∃ a, o = Ok a ∧ http_post m r a)
    (dispatch env http_date wall http clock get_unverified_header new_pyjwk decode hash_key hash_uri nan_sleep loop m r).
Proof.
  unfold dispatch. destruct ((req_method r ≟ "OPTIONS") || is_excluded m (req_path r)) eqn:Hex.
  - exists (inr None). split; [done|]. cbn [http_post]. unfold unguarded. rewrite <- is_excluded_iff.
    apply orb_true_iff in Hex as [Hm|Hm]; [left; by apply bool_decide_eq_true in Hm|by right].
  - assert (Hg : ¬ unguarded m r).
    { unfold unguarded. rewrite <- is_excluded_iff. apply orb_false_iff in Hex as [Hm ->].
      apply bool_decide_eq_false in Hm. by intros [H|H]. }
    unfold extract_bearer_token.
    destruct (authorization r) as [[|c h]|] eqn:Ha;
      [exists (inl (unauthorized "Missing Authorization header")); split; [done|]; cbn; set_solver| |
       exists (inl (unauthorized "Missing Authorization header")); split; [done|]; cbn; set_solver].
    destruct (bearer_parts (String c h)) as [token|] eqn:Hb; cbn [safe].
    + eapply safe_finish; [apply safe_authenticate|]. intros o (a & -> & Hpost).
      destruct a as [refusal|st]; cbn.
      * by exists (inl refusal).
      * exists (inr (Some st)). split; [done|]. split; [done|]. by exists (String c h), token.
    + exists (inl (unauthorized "Invalid Authorization header format. Expected: Bearer <token>")).
      split; [done|]. cbn. set_solver.
Qed.

Lemma safe_websocket loop g q w :
  safe J (λ o, ∃ a, o = Ok a ∧ ws_post g q w a)
    (authenticate_websocket env http_date wall http clock get_unverified_header new_pyjwk decode hash_key hash_uri
       nan_sleep loop g q w).
Proof.
  unfold authenticate_websocket.
  destruct (extract_ws_token w q) as [[|c t]|] eqn:Ht;
    [eexists; split; [done|]; cbn; unfold WS_REFUSALS; set_solver| |
     eexists; split; [done|]; cbn; unfold WS_REFUSALS; set_solver].
  unfold attempt. eapply safe_finish; [eapply safe_finish; [apply kept_validate_token|]|].
  - instantiate (1 := λ r, match r with
      | Ok (inl refusal) => refusal ∈ WS_REFUSALS | Ok (inr st) => admitted_by g (String c t) st | Err _ => True end).
    intros [claims|e] Hc; cbn [safe]; [|done]. specialize (Hc claims eq_refl). unfold mret, coro_ret. cbn [safe].
    unfold ws_accept. destruct (evaluate_token_type _ _ _) as [reason|] eqn:Hw.
    + unfold WS_REFUSALS. set_solver.
    + apply token_type_ok in Hw. by split_and!.
  - intros [a|e] Hr; unfold mret, coro_ret; cbn [safe].
    + exists a. split; [done|]. destruct a; [done|]. cbn. rewrite Ht. by exists (String c t).
    + exists (inl (ws_failure e)). split; [done|]. apply ws_failure_listed.
Qed.

Lemma safe_serve d :
  safe J (serve_post d)
    (serve env http_date wall http clock get_unverified_header new_pyjwk decode hash_key hash_uri nan_sleep d).
Proof.
  destruct d as [loop m r|loop g q w|loop op]; cbn [serve].
  - eapply safe_finish; [apply safe_dispatch|]. intros o (a & -> & Hp). cbn. by exists a.
  - eapply safe_finish; [apply safe_websocket|]. intros o (a & -> & Hp). cbn. by exists a.
  - eapply safe_finish; [apply safe_call|]. intros [claims|e] Hp; cbn; [|by intros ? [=]].
    by intros ? [= <-].
Qed.
End Admission.

(** C5: What reaches the application was authenticated.  However many requests, handshakes and
    library calls a server interleaves, on any loops, and whichever of them are cancelled, by a
    client that goes away for instance, none of its entry points raises anything but that
    cancellation; a request goes on without a token only for the method OPTIONS or an excluded
    path (the path itself or, for a starred entry, a path under it); one that goes on with a state
    presented a bearer token that was validated for the guard's audience against its provider,
    whose claims have none of the three ([nonce], [at_hash], [c_hash]) by which the middleware
    tells an ID token, and one of the guard's access-token markers where it requires one (where
    it does not, an ID token that carries none of the three passes, as the comment over the
    markers says), and carries exactly those claims, their principal and that token; a handshake
    the same; and every refusal is one of the listed ones. *)
Theorem bearer_admission env http_date wall http clock header {PyJWK : Type} new_pyjwk decode hash_key hash_uri
    nan_sleep demands cancelled events i d r :
  demands !! i = Some d →
  results (history cancelled events (server env http_date wall http clock header (PyJWK:=PyJWK) new_pyjwk decode hash_key
             hash_uri nan_sleep demands)) !! i = Some (Some r) →
  (Interrupt i ∈ events ∧ r = Err cancelled) ∨ serve_post env http header new_pyjwk decode d r.
Proof.
  intros Hd Hr.
  set (post := λ j d r, (Interrupt j ∈ events ∧ r = Err cancelled) ∨ serve_post env http header new_pyjwk decode d r).
  assert (Hp : pool_safe (aio_inv env http) (imap post demands)
    (history cancelled events (server env http_date wall http clock header new_pyjwk decode hash_key hash_uri nan_sleep demands))).
  { apply pool_safe_interrupted.
    - intros j Q Hj HQ. rewrite list_lookup_imap in HQ. destruct (demands !! j) as [d'|]; [|done].
      injection HQ as <-. by left.
    - apply pool_safe_start; [apply tv_inv_forget, initial_tv_inv|]. apply Forall2_lookup. intros j.
      rewrite list_lookup_imap, list_lookup_fmap. destruct (demands !! j) as [d'|]; constructor.
      eapply safe_post; [apply safe_serve|]. by right. }
  destruct (pool_safe_result _ _ _ _ _ Hp Hr) as (Q & HQ & Hpost).
  rewrite list_lookup_imap, Hd in HQ. by injection HQ as <-.
Qed.

(** The same verdict, on the two transports. *)
Definition agree (a : JSONResponse + RequestState) (b : WebSocketException + RequestState) : Prop :=
  match a, b with
  | inr st, inr st' => st = st'
  | inl refusal, inl close =>
      (status refusal, close_code close) ∈ [(401%Z, WS_POLICY_VIOLATION); (503%Z, WS_TRY_AGAIN_LATER); (500%Z, WS_INTERNAL_ERROR)]
  | _, _ => False
  end.

Lemma failures_agree e : agree (inl (http_failure e)) (inl (ws_failure e)).
Proof.
  cbn [agree]. unfold http_failure, ws_failure.
  destruct (isinstance e PyIdentityModelException); [destruct (_ || _)|destruct (isinstance e _)]; cbn; set_solver.
Qed.
Lemma accepts_agree g token claims : agree (http_accept g token claims) (ws_accept g token claims).
Proof. unfold http_accept, wrong_token_type_error, ws_accept. destruct (evaluate_token_type _ _ _); cbn; set_solver. Qed.

(** The two transports decide alike.  From any state, for one guard and one token, the
    middleware and the WebSocket authenticator leave the same state and either both admit with
    the same claims, principal and token, or both refuse, a 401 where the other closes with 1008, a
    503 with 1013 and a 500 with 1011. *)
Theorem transports_agree env http_date wall http clock header {PyJWK : Type} new_pyjwk decode hash_key hash_uri
    nan_sleep loop g q w token held s :
  token ≠ "" → extract_ws_token w q = Some token →
  match run held (authenticate env http_date wall http clock header (PyJWK:=PyJWK) new_pyjwk decode hash_key
                    hash_uri nan_sleep loop g token) s,
        run held (authenticate_websocket env http_date wall http clock header new_pyjwk decode hash_key hash_uri
                    nan_sleep loop g q w) s with
  | Some (Ok a, held1, s1), Some (Ok b, held2, s2) => agree a b ∧ held1 = held2 ∧ s1 = s2
  | None, None => True
  | _, _ => False
  end.
Proof.
  intros Hne Hw. unfold authenticate, authenticate_websocket. rewrite Hw. destruct token as [|c t]; [done|].
  unfold attempt, mbind, coro_bind. rewrite !run_finish.
  destruct (run held (aio_validate_token _ _ _ _ _ _ _ _ _ _ _ _ _ _ _ _) s) as [[[r held'] s']|]; [|done].
  destruct r as [claims|e]; cbn [run]; (split_and!; [|done..]); [apply accepts_agree|apply failures_agree].
Qed.

Definition demo_request : demand := HttpRequest 0 demo_mw (NewRequest "GET" "/me" (Some "Bearer token")).
Definition demo_demands : list demand :=
  [demo_request; SocketHandshake 1 demo_guard "access_token" (NewSocket None (λ _, Some "token")); LibraryCall 0 OpClearJwks].

Lemma bearer_admission_witness :
  ∃ st, serve_post empty_env op_http demo_header toy_new_pyjwk demo_decode demo_request (Ok (ServedHttp (inr (Some st)))) ∧
    state_claims st = demo_claims.
Proof.
  exists (admit_claims demo_claims "token"). split; [|reflexivity].
  destruct (bearer_admission empty_env no_dates 0 op_http ticking demo_header toy_new_pyjwk demo_decode (λ _, 0%Z) (λ _, 0%Z)
    (Ok ()) demo_demands CancelledError (replicate 9 (Turn 1) ++ [Interrupt 1] ++ concat (replicate 60 [Turn 0; Turn 1; Turn 2])) 0
    demo_request (Ok (ServedHttp (inr (Some (admit_claims demo_claims "token")))))) as [[_ [=]]|H];
    [reflexivity|vm_compute; reflexivity|exact H].
Defined.

Lemma transports_agree_witness :
  match run [] (authenticate empty_env no_dates 0 op_http ticking demo_header toy_new_pyjwk demo_decode (λ _, 0%Z)
                  (λ _, 0%Z) (Ok ()) 0 demo_guard "token") (Aio initial_state zero_counters),
        run [] (authenticate_websocket empty_env no_dates 0 op_http ticking demo_header toy_new_pyjwk demo_decode
                  (λ _, 0%Z) (λ _, 0%Z) (Ok ()) 0 demo_guard "access_token" (NewSocket (Some "Bearer token") (λ _, None)))
          (Aio initial_state zero_counters) with
  | Some (Ok a, held1, s1), Some (Ok b, held2, s2) => agree a b ∧ held1 = held2 ∧ s1 = s2
  | None, None => True
  | _, _ => False
  end.
Proof. apply transports_agree; [discriminate|reflexivity]. Defined.
