(* ===== verification/AioJarm.v ===== *)
(** * JARM on the asynchronous surface ([aio/jarm.py])

    The orchestration of Jarm with the asynchronous fetches.  Soundness is kept among other calls,
    and a call alone is the synchronous one. *)

From S2P Require Import Prelude PyStr PyValue Models Url Codec Policy HttpRetry Discovery Jwks Jwt TokenValidation Coro CacheMetrics Aio AioSafety AioAlone Callback Jarm.
From Stdlib Require Import QArith.
From stdpp Require Import strings.
#[global] Close Scope Q_scope.
Open Scope string_scope.
Open Scope list_scope.
Open Scope nat_scope.
Open Scope py_scope.

Section AioJarm.
Context (env : string → option string) (http_date : string → option Q) (wall : Q).
Context (http : nat → string → outcome HttpResponse).
Context (get_unverified_header : string → outcome pydict).
Context {PyJWK : Type} (new_pyjwk : pydict → option pyval → outcome PyJWK).
Context (decode : string → PyJWK → DecodeArgs → outcome pydict).
Context (nan_sleep : outcome unit).

Let get_document := aio_get_discovery_document env http_date wall http nan_sleep.

Definition aio_fetch_jwks (uri : pyval) (policy : DiscoveryPolicy) : C JwksResponse :=
  match uri with
  | VStr u => aio_get_jwks env http_date wall http nan_sleep u policy
  | _ => mret (handle_jwks_error (AttributeError uri "decode"))
  end.

Definition aio_discover_jarm_context (address : string) (issuer : option string)
    (algorithms : option (list pyval)) (require_https : bool) : C (pyval * pyval * JwksResponse) :=
  let policy := policy_with_https require_https in
  d ← get_document address policy;
  _ ← pure (validate_disco_response d);
  resolved_issuer ← pure (match issuer with
                          | Some ((String _ _) as iss) => Ok (VStr iss)
                          | _ => disco_attr d "issuer"
                          end);
  _ ← pure (raise_if (negb (truthy resolved_issuer))
        (Configuration "Discovery document does not advertise an issuer; cannot validate JARM"));
  allowed_algs ← pure (match algorithms with
                       | Some ((_ :: _) as algs) => Ok (VList algs)
                       | _ => disco_attr d "authorization_signing_alg_values_supported"
                       end);
  uri ← pure (validate_jwks_uri d);
  r ← aio_fetch_jwks uri policy;
  _ ← pure (validate_jwks_response r);
  mret (resolved_issuer, allowed_algs, r).

Definition aio_resolve_jarm_context (disco_doc_address issuer : option string) (jwks : option JwksResponse)
    (algorithms : option (list pyval)) (require_https : bool) : C (pyval * pyval * JwksResponse) :=
  match issuer, jwks, algorithms with
  | Some iss, Some keys, Some algs =>
      _ ← pure (validate_jwks_response keys);
      mret (VStr iss, VList algs, keys)
  | _, _, _ =>
      match disco_doc_address with
      | None => mthrow no_jarm_address
      | Some address => aio_discover_jarm_context address issuer algorithms require_https
      end
  end.

Definition aio_process_jarm_response (response client_id : string)
    (disco_doc_address issuer : option string) (jwks : option JwksResponse)
    (algorithms : option (list pyval)) (require_https : bool) (leeway : pyval) (is_jwt : bool) : C JarmResponse :=
  response_jwt ← (if is_jwt then mret (text response) else pure (extract_jarm_response_jwt (VStr response)));
  '(iss, allowed_algs, r) ← aio_resolve_jarm_context disco_doc_address issuer jwks algorithms require_https;
  '(kid, header_alg) ← pure (extract_jarm_header get_unverified_header response_jwt);
  selected ← pure (select_jarm_algorithm header_alg allowed_algs);
  keys ← pure (jwks_get_keys r);
  '(key_dict, _) ← pure (find_key_by_kid kid (keys_or_nil keys) (VStr selected));
  claims ← pure (decode_jarm_claims new_pyjwk decode response_jwt key_dict [VStr selected] iss (VStr client_id) leeway);
  pure (build_authorize_response_from_claims claims response_jwt).

(** ** A call alone *)

Section Alone.
Context (Hbackoff : sane_backoff env).
#[local] Set Default Proof Using "Type Hbackoff".
Lemma jarm_document a p : same_net (get_document a p) (get_discovery_document env http_date wall http a (Some p)).
Proof. by apply same_get_discovery_document. Qed.
Lemma jarm_jwks u p : same_net (aio_fetch_jwks u p) (fetch_jwks env http_date wall http u p).
Proof.
  unfold aio_fetch_jwks, fetch_jwks. destruct u; try apply same_net_ret. by apply same_get_jwks.
Qed.

Lemma same_jarm response client_id address issuer jwks algorithms https leeway is_jwt :
  same_net (aio_process_jarm_response response client_id address issuer jwks algorithms https leeway is_jwt)
    (process_jarm_response env http_date wall http get_unverified_header new_pyjwk decode response client_id
       address issuer jwks algorithms https leeway is_jwt).
Proof.
  assert (Hctx : same_net (aio_resolve_jarm_context address issuer jwks algorithms https)
    (resolve_jarm_context env http_date wall http address issuer jwks algorithms https)).
  { unfold aio_resolve_jarm_context, resolve_jarm_context, aio_discover_jarm_context, discover_jarm_context.
    destruct issuer, jwks, algorithms, address;
      repeat first [apply same_net_bind; [|intros ?]|apply same_net_pure|apply same_net_ret|apply jarm_throw
                   |apply jarm_document|apply jarm_jwks]. }
  unfold aio_process_jarm_response, process_jarm_response.
  apply same_net_bind; [destruct is_jwt; [apply same_net_ret|apply same_net_pure]|]. intros jwt.
  apply same_net_bind; [exact Hctx|]. intros [[iss algs] r].
  apply same_net_bind; [apply same_net_pure|]. intros [kd al].
  apply same_net_bind; [apply same_net_pure|]. intros selected.
  apply same_net_bind; [apply same_net_pure|]. intros ks.
  apply same_net_bind; [apply same_net_pure|]. intros [key al'].
  apply same_net_bind; [apply same_net_pure|]. intros claims. apply same_net_pure.
Qed.
End Alone.

(** ** A call among others *)

Local Abbreviation kept c P := (keeps (aio_inv env http) c P).

Lemma kept_fetch_jwks uri p :
  kept (aio_fetch_jwks uri p) (λ r, jwks_is_successful r = true →
    ∃ u, uri = VStr u ∧ admitted_keys env http u r ∧ safe_url p u).
Proof.
  unfold aio_fetch_jwks. destruct uri as [| | | |u| |]; try (apply keeps_ret; by rewrite handle_jwks_error_failure).
  eapply keeps_post; [apply kept_get_jwks_safe|]. intros r Hr Hs. exists u. split; auto.
Qed.

Lemma kept_pure_bind {A B} (r : outcome A) (k : A → C B) (P : B → Prop) :
  (∀ a, r = Ok a → kept (k a) P) → kept (pure r ≫= k) P.
Proof. intros H. eapply keeps_bind; [apply (keeps_pure _ _ (λ a, r = Ok a)); by intros a|exact H]. Qed.

Lemma kept_discover_jarm addr issuer algorithms https :
  kept (aio_discover_jarm_context addr issuer algorithms https) (λ c,
    context_from env http (Some addr) issuer None algorithms https c.1.1 c.1.2 c.2).
Proof.
  unfold aio_discover_jarm_context. cbv zeta. set (p := policy_with_https https).
  eapply keeps_bind; [apply kept_get_discovery_document|]. intros d Hd.
  apply kept_pure_bind. intros [] Hv. apply validate_disco_response_ok in Hv. specialize (Hd Hv).
  assert (Hattr : ∀ name, name ∉ error_fields → disco_attr d name = Ok (dget name (disco_attrs d))).
  { intros name. apply (admitted_doc_attr http addr p d name Hd). }
  apply kept_pure_bind. intros iss Hiss.
  apply kept_pure_bind. intros [] Ht. apply raise_if_ok, negb_false_iff in Ht.
  apply kept_pure_bind. intros algs Halgs.
  apply kept_pure_bind. intros uri Huri. apply (validate_jwks_uri_ok http addr p d uri Hd) in Huri.
  eapply keeps_bind; [apply kept_fetch_jwks|]. intros r Hr.
  apply kept_pure_bind. intros [] Hj. apply validate_jwks_response_ok in Hj as [Hj Hk].
  destruct (Hr Hj) as (u & -> & Hadm & Hsafe). apply keeps_ret. cbn [fst snd].
  right. exists addr, d, u. split_and!; try done.
  - destruct issuer as [[|c i]|]; try congruence; rewrite Hattr in Hiss by (apply (bool_decide_unpack _); exact I); congruence.
  - destruct algorithms as [[|a l]|]; try congruence; rewrite Hattr in Halgs by (apply (bool_decide_unpack _); exact I); congruence.
Qed.

Lemma kept_process_jarm response client_id address issuer jwks algorithms https leeway is_jwt :
  kept (aio_process_jarm_response response client_id address issuer jwks algorithms https leeway is_jwt)
    (jarm_accepted env http get_unverified_header new_pyjwk decode response client_id address issuer jwks algorithms
       https leeway is_jwt).
Proof.
  unfold aio_process_jarm_response.
  eapply (keeps_bind _ _ _ (λ jwt, if is_jwt then jwt = text response
                                   else extract_jarm_response_jwt (VStr response) = Ok jwt)).
  { destruct is_jwt; [by apply keeps_ret|by apply keeps_pure]. }
  intros jwt Hjwt.
  eapply (keeps_bind _ _ _ (λ c, context_from env http address issuer jwks algorithms https c.1.1 c.1.2 c.2)).
  { unfold aio_resolve_jarm_context.
    assert (Honline : kept (match address with
        | None => mthrow no_jarm_address
        | Some address => aio_discover_jarm_context address issuer algorithms https end)
        (λ c, context_from env http address issuer jwks algorithms https c.1.1 c.1.2 c.2)).
    { destruct address as [addr|]; [|apply keeps_throw]. eapply keeps_post; [apply kept_discover_jarm|].
      intros c [(? & ? & _ & [=] & _)|H]. by right. }
    destruct issuer as [i|], jwks as [keys|], algorithms as [al|]; try exact Honline.
    apply kept_pure_bind. intros [] Hv. apply keeps_ret. apply validate_jwks_response_ok in Hv as [? ?].
    left. by exists i, al. }
  intros [[iss algs] keys] Hctx. cbn [fst snd] in Hctx.
  apply kept_pure_bind. intros [kid header_alg] Hh.
  apply kept_pure_bind. intros alg Ha.
  apply kept_pure_bind. intros ks Hks.
  apply kept_pure_bind. intros [kd al] Hkey.
  apply kept_pure_bind. intros claims Hc.
  apply keeps_pure. intros r Hr. by eapply jarm_checked.
Qed.

Section Tidy.
Context (Hbackoff : finite_backoff env).
Lemma tidy_process_jarm n response client_id address issuer jwks algorithms https leeway is_jwt :
  tidy n (aio_process_jarm_response response client_id address issuer jwks algorithms https leeway is_jwt).
Proof using Hbackoff.
  assert (Hdoc : ∀ a p, tidy n (get_document a p)) by (intros; by apply tidy_get_discovery_document).
  assert (Hkeys : ∀ u p, tidy n (aio_fetch_jwks u p)).
  { intros u p. unfold aio_fetch_jwks. destruct u; try apply balanced_ret. by apply tidy_get_jwks. }
  unfold aio_process_jarm_response, aio_resolve_jarm_context, aio_discover_jarm_context. tidy.
Qed.
End Tidy.
End AioJarm.
