(* ===== verification/AioClients.v ===== *)
(** * The asynchronous client functions ([aio/token_client.py], [aio/token_exchange.py],
    [aio/par.py], [aio/introspection.py], [aio/revocation.py], [aio/device_auth.py],
    [aio/userinfo.py], [aio/registration.py], [aio/http_client.py], [aio/managed_client.py])

    The calls of Clients cut where another call may move: preparing a request, picking a client,
    every attempt, every sleep and the closing of a client of one's own is a step.  The state
    is the one the asynchronous [validate_token] works on, with the singleton client and the
    clients opened for one request.  The synchronous names of Clients are the functions both
    surfaces share: the requests, their preparation and the processing of replies. *)

From S2P Require Import Prelude PyStr PyValue Models Url HttpRetry Discovery Jwks Jwt TokenValidation Responses ClientAuth Dpop Grants Replies Registration Clients Coro CacheMetrics Aio AioSafety AioAlone Jarm AioJarm.
From Stdlib Require Import QArith.
From stdpp Require Import strings.
#[global] Close Scope Q_scope.
Open Scope string_scope.
Open Scope list_scope.
Open Scope nat_scope.
Open Scope py_scope.

(** ** State *)

(** The module states of the asynchronous surface: caches and wire, whether the singleton client
    exists, and the clients built for one request, by the order they were opened, [None] once
    closed. *)
Record AppState : Type := App {
  aio : AioState;
  singleton : bool;
  own_clients : list (option MtlsClientAuth);
}.
Definition set_aio (a : AioState) (s : AppState) : AppState := App a (singleton s) (own_clients s).
Abbreviation AC := (coro lock AppState).
Definition on_aio {A} (c : C A) : AC A := embed aio set_aio c.

Definition async_closed : exn := mk_exn BRuntimeError "AsyncHTTPClient has been closed".
Definition async_managed_client (h : HTTPClient) : outcome nat := if closed h then Err async_closed else Ok (inner h).
(** [close]: whether the inner client is closed, and the wrapper afterwards. *)
Definition async_managed_close (h : HTTPClient) : bool * HTTPClient :=
  (negb (closed h) && owned h, Managed (inner h) (owned h) true).

Section AioCalls.
Context (env : string → option string) (http_date : string → option Q) (wall : Q).
Context (wall_clock : nat → Q) (uuid4 : nat → string).
Context (encode : nat → pydict → blob → string → pydict → outcome string).
Context (text_of : HttpResponse → string).
Context (is_dir : string → bool) (create_default_context : trust → outcome unit).
Context (load_cert_chain : list string → outcome unit).
Context (new_client : option string → pyfloat → outcome unit).
Context (http : nat → http_client → HttpRequest → outcome HttpResponse).
Context (nan_sleep : outcome unit).

(** [get_async_http_client], whose creation is guarded by a lock of threads: one step. *)
Definition get_async_http_client : stM AppState exn http_client := λ s,
  if singleton s then (Ok ThreadClient, s)
  else match (timeout ← get_timeout env; new_client (get_ssl_verify env) timeout) with
       | Ok _ => (Ok ThreadClient, App (aio s) true (own_clients s))
       | Err e => (Err e, s)
       end.

Definition aio_build_mtls_client (m : MtlsClientAuth) : stM AppState exn (http_client * option nat) := λ s,
  match (_ ← build_mtls_ssl_context env is_dir create_default_context load_cert_chain m; get_timeout env) with
  | Ok _ => (Ok (CertificateClient m, Some (length (own_clients s))),
             App (aio s) (singleton s) (own_clients s ++ [Some m]))
  | Err e => (Err e, s)
  end.

(** The client, and the place of one that the caller must close. *)
Definition resolve_async_http_client (m : option MtlsClientAuth) (managed : option HTTPClient)
    : stM AppState exn (http_client * option nat) :=
  match m, managed with
  | Some _, Some _ => mthrow (ValueErr ("Cannot combine a managed http_client with mtls: a managed " +:+
      "client cannot be guaranteed to present the mTLS client certificate. Pass one or the other."))
  | None, Some h => c ← lift (async_managed_client h); mret (ManagedClient c, None)
  | Some m, None => aio_build_mtls_client m
  | None, None => c ← get_async_http_client; mret (c, None)
  end.

(** [if owned_client is not None: await owned_client.aclose()]. *)
Definition aclose (own : option nat) : AC unit :=
  match own with
  | None => mret ()
  | Some i => atom (modify (λ s, App (aio s) (singleton s) (<[i := None]> (own_clients s))))
  end.

(** [try: c finally: aclose(own)]. *)
Definition closing {A} (own : option nat) (c : AC A) : AC A :=
  finish (λ r, finish (λ _, Ret r) (aclose own)) c.

(** One request under [@retry_with_backoff_async()]. *)
Definition aio_send (c : http_client) (q : HttpRequest) : C HttpResponse :=
  retry_with_backoff_async env http_date wall nan_sleep
    (on_aio_net (client_get (λ n _, http n c q) (req_url q))) None None.

Definition aio_post_form (q : oauth_request) (c : http_client) (p : prepared) : C HttpResponse :=
  response ← aio_send c (form_post (address q) p);
  match dpop_key q, extract_dpop_nonce response with
  | Some _, Some nonce =>
      p' ← on_aio_net (prepare wall_clock uuid4 encode q (Some nonce));
      aio_send c (form_post (address q) p')
  | _, _ => mret response
  end.

(** The body the nine client functions share. *)
Definition aio_request (q : oauth_request) (managed : option HTTPClient) : AC BaseResponse :=
  attempt
    (p ← on_aio (on_aio_net (prepare wall_clock uuid4 encode q None));
     '(c, own) ← atom (resolve_async_http_client (mtls (client q)) managed);
     closing own
       (on_aio (response ← aio_post_form q c p;
                pure (process text_of q response))))
    (λ e, mret (handle q e)).

Definition aio_request_client_credentials_token (r : ClientCredentialsTokenRequest) := aio_request (Cc r).
Definition aio_request_authorization_code_token (r : AuthorizationCodeTokenRequest) := aio_request (Ac r).
Definition aio_refresh_token (r : RefreshTokenRequest) := aio_request (Rt r).
Definition aio_introspect_token (r : TokenIntrospectionRequest) := aio_request (Ti r).
Definition aio_revoke_token (r : TokenRevocationRequest) := aio_request (Tr r).
Definition aio_push_authorization_request (r : PushedAuthorizationRequest) := aio_request (Par r).
Definition aio_request_device_authorization (r : DeviceAuthorizationRequest) := aio_request (Da r).
Definition aio_poll_device_token (r : DeviceTokenRequest) := aio_request (Dt r).
Definition aio_exchange_token (r : TokenExchangeRequest) := aio_request (Te r).

(** ** UserInfo *)

Definition aio_fetch_userinfo (r : UserInfoRequest) (headers : pydict) (c : http_client) : C BaseResponse :=
  response ← aio_send c (userinfo_get (ui_address r) headers);
  response ← match ui_dpop_key r, extract_dpop_nonce response with
             | Some _, Some nonce =>
                 headers' ← on_aio_net (prepare_userinfo_headers wall_clock uuid4 encode r (Some nonce));
                 aio_send c (userinfo_get (ui_address r) headers')
             | _, _ => mret response
             end;
  pure (validate_userinfo_sub (process_userinfo_response text_of response) (ui_expected_sub r)).

Definition aio_get_userinfo (r : UserInfoRequest) (managed : option HTTPClient) : AC BaseResponse :=
  headers ← on_aio (on_aio_net (prepare_userinfo_headers wall_clock uuid4 encode r None));
  attempt
    ('(c, own) ← atom (resolve_async_http_client (ui_mtls r) managed);
     closing own (on_aio (aio_fetch_userinfo r headers c)))
    (λ e, mret (handle_userinfo_error e)).

(** ** Registration *)

Definition async_registration_client (managed : option HTTPClient) : stM AppState exn http_client :=
  match managed with
  | Some h => c ← lift (async_managed_client h); mret (ManagedClient c)
  | None => get_async_http_client
  end.

Definition aio_registration_call (q : HttpRequest) (managed : option HTTPClient)
    (process : HttpResponse → outcome BaseResponse) (handle : exn → BaseResponse) : AC BaseResponse :=
  attempt
    (c ← atom (async_registration_client managed);
     on_aio (response ← aio_send c q;
             pure (process response)))
    (λ e, mret (handle e)).

Definition aio_register_client (r : ClientRegistrationRequest) (managed : option HTTPClient) :=
  let '(body, headers) := prepare_registration_request r in
  aio_registration_call (Request "POST" (rr_address r) body headers None) managed
    (process_registration_response text_of) handle_registration_error.
Definition aio_read_client (r : ClientReadRequest) (managed : option HTTPClient) :=
  aio_registration_call (Request "GET" (rd_address r) []
      (prepare_management_headers (rd_registration_access_token r)) None) managed
    (process_read_response text_of) handle_registration_error.
Definition aio_update_client (r : ClientUpdateRequest) (managed : option HTTPClient) :=
  let '(body, headers) := prepare_update_request r in
  aio_registration_call (Request "PUT" (ur_address r) body headers None) managed
    (process_update_response text_of) handle_registration_error.
Definition aio_delete_client (r : ClientDeleteRequest) (managed : option HTTPClient) :=
  aio_registration_call (Request "DELETE" (dr_address r) []
      (prepare_management_headers (dr_registration_access_token r)) None) managed
    (λ resp, Ok (process_delete_response text_of resp)) handle_client_delete_error.
End AioCalls.

(** ** A call alone is the synchronous call *)

(** What the synchronous module calls the process. *)
Definition process_of (s : AppState) : transport :=
  Transport (network (tv (aio s))) (singleton s) (omap id (rev (own_clients s))).

Lemma aio_set_aio a s : aio (set_aio a s) = a.
Proof. done. Qed.
Lemma set_aio_aio s : set_aio (aio s) s = s.
Proof. by destruct s. Qed.
Lemma set_aio_set_aio a b s : set_aio a (set_aio b s) = set_aio a s.
Proof. done. Qed.

Lemma run_on_aio {A} (c : C A) held s :
  run held (on_aio c) s =
  match run held c (aio s) with Some (r, held', a) => Some (r, held', set_aio a s) | None => None end.
Proof. apply run_embed; [apply aio_set_aio|apply set_aio_aio|apply set_aio_set_aio]. Qed.

Lemma on_wire_bind {A B} (m : stM net exn A) (k : A → stM net exn B) t :
  on_wire (m ≫= k) t = (on_wire m ≫= λ a, on_wire (k a)) t.
Proof. unfold on_wire, zoom, mbind, stM_bind. by destruct (m (wire t)) as [[a|e] w]. Qed.

(** Both surfaces close what was opened for the call. *)
Definition bracket {A} (m : option MtlsClientAuth) (managed : option HTTPClient) env is_dir dctx chain new_client
    (k : http_client → C A) : AC A :=
  '(c, own) ← atom (resolve_async_http_client env is_dir dctx chain new_client m managed);
  closing own (on_aio (k c)).

Local Abbreviation alike c m := (runs process_of no_lock (λ _, True) c m).

Lemma alike_on_aio {A} (c : C A) m : same_net c m → alike (on_aio c) (on_wire m).
Proof.
  intros H held s _ _. rewrite run_on_aio. destruct (H held (aio s) ltac:(done) I) as (a & -> & Ha).
  exists (set_aio a s). rewrite on_wire_spec. unfold on_net, zoom in *. cbn [process_of wire].
  destruct (m (network (tv (aio s)))) as [r w]. cbn [fst snd] in *. split; [done|].
  unfold process_of. cbn [aio set_aio singleton own_clients]. by rewrite Ha.
Qed.

Lemma omap_rev_app (l : list (option MtlsClientAuth)) o :
  omap (M:=list) id (rev (l ++ [o])) = option_list o ++ omap (M:=list) id (rev l).
Proof. rewrite rev_app_distr. by destruct o. Qed.

Section Same.
Context (env : string → option string) (http_date : string → option Q) (wall : Q).
Context (wall_clock : nat → Q) (uuid4 : nat → string).
Context (encode : nat → pydict → blob → string → pydict → outcome string).
Context (text_of : HttpResponse → string).
Context (is_dir : string → bool) (create_default_context : trust → outcome unit).
Context (load_cert_chain : list string → outcome unit).
Context (new_client : option string → pyfloat → outcome unit).
Context (http : nat → http_client → HttpRequest → outcome HttpResponse).
Context (nan_sleep : outcome unit).
Context (Hbackoff : sane_backoff env).
#[local] Set Default Proof Using "Type Hbackoff".

Let resolve_ := resolve_http_client env is_dir create_default_context load_cert_chain new_client.
Let send_ c q := retry_with_backoff http_date wall (client_get (λ n _, http n c q) (req_url q)) env None None.

Definition not_closed (managed : option HTTPClient) : Prop :=
  match managed with Some h => closed h = false | None => True end.

Lemma alike_bracket {A} m managed (k : http_client → C A) (k' : http_client → stM net exn A) :
  not_closed managed → (∀ c, same_net (k c) (k' c)) →
  alike (bracket m managed env is_dir create_default_context load_cert_chain new_client k)
    ('(c, o) ← resolve_ m managed; finally (on_wire (k' c)) (close_owned o)).
Proof.
  intros Hopen Hk held s _ _.
  assert (Hshared : ∀ c s, ∃ s', run held (closing None (on_aio (k c))) s =
      Some ((finally (on_wire (k' c)) (close_owned false) (process_of s)).1, held, s') ∧
      process_of s' = (finally (on_wire (k' c)) (close_owned false) (process_of s)).2).
  { intros c t. unfold closing. rewrite run_finish. destruct (alike_on_aio _ _ (Hk c) held t ltac:(done) I)
      as (t' & -> & Ht). exists t'. unfold finally. cbn. by destruct (on_wire (k' c) (process_of t)). }
  unfold bracket, resolve_, resolve_http_client, resolve_async_http_client, mbind, coro_bind, stM_bind, atom.
  cbn [run finish]. destruct m as [m|], managed as [h|].
  - by exists s.
  - unfold aio_build_mtls_client, build_mtls_client, mbind, stM_bind, lift, modify.
    destruct (build_mtls_ssl_context env is_dir create_default_context load_cert_chain m); cbn [mbind result_bind];
      [|by exists s].
    destruct (get_timeout env); [|by exists s]. cbn [run finish fst snd].
    set (s1 := App _ _ _). unfold closing. rewrite run_finish.
    assert (Hp1 : process_of s1 = Transport (wire (process_of s)) (thread_client (process_of s))
      (m :: open_clients (process_of s))).
    { unfold process_of, s1. cbn [aio singleton own_clients wire thread_client open_clients]. by rewrite omap_rev_app. }
    rewrite <- Hp1. destruct (Hk (CertificateClient m) held (aio s1) ltac:(done) I) as (av & Hrun & Ha).
    rewrite run_on_aio, Hrun. cbn [run finish aclose atom modify fst snd].
    unfold mret, stM_ret, finally. rewrite on_wire_spec. cbn [fst snd].
    eexists. split; [unfold on_net, zoom; by destruct (k' _ _)|]. unfold close_owned, on_net, zoom in *.
    destruct (k' (CertificateClient m) (network (tv (aio s1)))) as [r w] eqn:Ek. cbn [fst snd] in *.
    unfold process_of at 2 3. cbn [wire thread_client open_clients]. rewrite Ek.
    unfold process_of. cbn [aio set_aio singleton own_clients s1].
    rewrite insert_app_r_alt, Nat.sub_diag by done. cbn [list_insert]. rewrite !omap_rev_app. cbn. rewrite Ha. f_equal. by rewrite omap_rev_app.
  - unfold managed_client, async_managed_client, mbind, stM_bind, lift, mret, stM_ret. cbn in Hopen. rewrite Hopen.
    cbn [run finish fst snd]. apply Hshared.
  - unfold get_async_http_client, get_http_client, mbind, stM_bind, mret, stM_ret. cbn [process_of thread_client].
    destruct (singleton s) eqn:Hs; cbn [run finish fst snd].
    + apply (Hshared ThreadClient s).
    + destruct (result_bind _ _ _); [|by exists s]. cbn [run finish fst snd].
      set (s1 := App _ _ _). apply (Hshared ThreadClient s1).
Qed.
Lemma same_net_send c q : same_net (aio_send env http_date wall http nan_sleep c q) (send_ c q).
Proof.
  unfold aio_send, send_, retry_with_backoff_async, retry_with_backoff.
  eapply runs_ext; [|intros t _; symmetry; apply on_net_bind].
  eapply (runs_bind _ _ _ (λ _, True) _ _ (λ rb, ∃ q, rb.2 = FFin q ∧ (0 <= q)%Q)).
  - eapply runs_ext; [apply runs_pure|]. by intros [] _.
  - intros t _. unfold on_net, zoom, lift. destruct (get_retry_params env None None) as [[r b]|e] eqn:Ep; [|done].
    split; [done|]. by eapply Hbackoff.
  - intros [retries base] (x & Hx & Hpos). cbn [snd] in Hx. subst base. by eapply (same_attempts env).
Qed.

(** The exchanges, on the wire. *)
Definition post_net (q : oauth_request) (c : http_client) (p : prepared) : stM net exn HttpResponse :=
  response ← send_ c (form_post (address q) p);
  match dpop_key q, extract_dpop_nonce response with
  | Some _, Some nonce =>
      p' ← prepare wall_clock uuid4 encode q (Some nonce);
      send_ c (form_post (address q) p')
  | _, _ => mret response
  end.
Definition userinfo_net (r : UserInfoRequest) (headers : pydict) (c : http_client) : stM net exn BaseResponse :=
  response ← send_ c (userinfo_get (ui_address r) headers);
  response ← match ui_dpop_key r, extract_dpop_nonce response with
             | Some _, Some nonce =>
                 headers' ← prepare_userinfo_headers wall_clock uuid4 encode r (Some nonce);
                 send_ c (userinfo_get (ui_address r) headers')
             | _, _ => mret response
             end;
  lift (validate_userinfo_sub (process_userinfo_response text_of response) (ui_expected_sub r)).

Lemma same_net_post q c p :
  same_net (aio_post_form env http_date wall wall_clock uuid4 encode http nan_sleep q c p) (post_net q c p).
Proof.
  apply same_net_bind; [apply same_net_send|]. intros r. destruct (dpop_key q); [|apply same_net_ret].
  destruct (extract_dpop_nonce r); [|apply same_net_ret].
  apply same_net_bind; [apply same_net_step|]. intros p'. apply same_net_send.
Qed.

Lemma same_net_userinfo r headers c :
  same_net (aio_fetch_userinfo env http_date wall wall_clock uuid4 encode text_of http nan_sleep r headers c)
    (userinfo_net r headers c).
Proof.
  apply same_net_bind; [apply same_net_send|]. intros a.
  apply same_net_bind; [|intros a'; apply same_net_pure].
  destruct (ui_dpop_key r); [|apply same_net_ret]. destruct (extract_dpop_nonce a); [|apply same_net_ret].
  apply same_net_bind; [apply same_net_step|]. intros h. apply same_net_send.
Qed.

(** What the synchronous functions do on the wire is the same computation. *)
Lemma send_on_wire c q t : send env http_date wall http c q t = on_wire (send_ c q) t.
Proof. done. Qed.

Lemma post_on_wire q c p t :
  post_form env http_date wall wall_clock uuid4 encode http q c p t = on_wire (post_net q c p) t.
Proof.
  unfold post_net. rewrite on_wire_bind. unfold post_form, mbind, stM_bind. rewrite send_on_wire.
  destruct (on_wire (send_ c (form_post (address q) p)) t) as [[r|e] t1]; [|done].
  destruct (dpop_key q); [|by destruct t1]. destruct (extract_dpop_nonce r); [|by destruct t1].
  symmetry. apply on_wire_bind.
Qed.

Lemma finally_ext {A} (m m' : stM transport exn A) f t : m t = m' t → finally m f t = finally m' f t.
Proof. unfold finally. by intros ->. Qed.

Lemma process_on_wire {A B} (m : stM transport exn A) (n : stM net exn A) (f : A → outcome B) t :
  (∀ t, m t = on_wire n t) → on_wire (a ← n; lift (f a)) t = (a ← m; lift (f a)) t.
Proof.
  intros H. rewrite on_wire_bind. unfold mbind, stM_bind. rewrite H.
  destruct (on_wire n t) as [[a|e] t1]; [|done]. by destruct t1.
Qed.

Lemma alike_request q managed :
  not_closed managed →
  alike (aio_request env http_date wall wall_clock uuid4 encode text_of is_dir create_default_context load_cert_chain
           new_client http nan_sleep q managed)
    (request env http_date wall wall_clock uuid4 encode text_of is_dir create_default_context load_cert_chain
       new_client http q managed).
Proof.
  intros Hopen. unfold aio_request, request. apply runs_attempt; [|intros e; apply runs_ret].
  apply runs_seq; [apply alike_on_aio, same_net_step|]. intros p.
  eapply runs_ext; [apply (alike_bracket _ _ (λ c, _) (λ c, r ← post_net q c p; lift (process text_of q r)) Hopen)|].
  - intros c. apply same_net_bind; [apply same_net_post|]. intros r. apply same_net_pure.
  - intros t _. unfold mbind at 1 3, stM_bind at 1 3. unfold resolve_.
    destruct (resolve_http_client _ _ _ _ _ _ _ t) as [[[c o]|e] t1]; [|done].
    apply finally_ext, process_on_wire. intros t2. apply post_on_wire.
Qed.

Lemma alike_userinfo r managed :
  not_closed managed →
  alike (aio_get_userinfo env http_date wall wall_clock uuid4 encode text_of is_dir create_default_context
           load_cert_chain new_client http nan_sleep r managed)
    (get_userinfo env http_date wall wall_clock uuid4 encode text_of is_dir create_default_context load_cert_chain
       new_client http r managed).
Proof.
  intros Hopen. unfold aio_get_userinfo, get_userinfo.
  apply runs_seq; [apply alike_on_aio, same_net_step|]. intros headers.
  apply runs_attempt; [|intros e; apply runs_ret].
  eapply runs_ext; [apply (alike_bracket _ _ (λ c, _) (userinfo_net r headers) Hopen)|].
  - intros c. apply same_net_userinfo.
  - intros t _. unfold mbind at 1 2, stM_bind at 1 2. unfold resolve_.
    destruct (resolve_http_client _ _ _ _ _ _ _ t) as [[[c o]|e] t1]; [|done].
    apply finally_ext. unfold userinfo_net. rewrite on_wire_bind, !stM_bind_run, send_on_wire.
    destruct (on_wire (send_ c _) t1) as [[a|e] t2]; [|done].
    apply process_on_wire. intros t3. destruct (ui_dpop_key r); [|by destruct t3].
    destruct (extract_dpop_nonce a); [|by destruct t3]. rewrite on_wire_bind. done.
Qed.

Lemma alike_registration q managed process handle :
  not_closed managed →
  alike (aio_registration_call env http_date wall new_client http nan_sleep q managed process handle)
    (registration_call env http_date wall new_client http q managed process handle).
Proof.
  intros Hopen. unfold aio_registration_call, registration_call. apply runs_attempt; [|intros e; apply runs_ret].
  apply runs_seq.
  - apply runs_atom. intros s. unfold async_registration_client, registration_client. destruct managed as [h|].
    + cbn in Hopen. unfold managed_client, async_managed_client, mbind, stM_bind, lift, mret, stM_ret. by rewrite Hopen.
    + unfold get_async_http_client, get_http_client. cbn [process_of thread_client].
      unfold process_of. destruct s as [a [] l]; [done|]. cbn [singleton aio own_clients thread_client wire open_clients].
      by destruct (_ ≫= _).
  - intros c. eapply runs_ext; [apply (alike_on_aio _ (r ← send_ c q; lift (process r)))|].
    + apply same_net_bind; [apply same_net_send|]. intros r. apply same_net_pure.
    + intros t _. apply process_on_wire. intros t1. apply send_on_wire.
Qed.
End Same.

(** ** Calls among others *)

Section Among.
Context (env : string → option string) (http_date : string → option Q) (wall : Q).
Context (wall_clock : nat → Q) (uuid4 : nat → string).
Context (encode : nat → pydict → blob → string → pydict → outcome string).
Context (text_of : HttpResponse → string).
Context (is_dir : string → bool) (create_default_context : trust → outcome unit).
Context (load_cert_chain : list string → outcome unit).
Context (new_client : option string → pyfloat → outcome unit).
Context (http : nat → http_client → HttpRequest → outcome HttpResponse).
Context (nan_sleep : outcome unit).

Let J := aio_inv env (web http).
Let JA := λ s : AppState, J (aio s).
Local Abbreviation kept c P := (keeps J c P).
Local Abbreviation kept_app c P := (keeps JA c P).

Lemma kept_on_aio {A} (c : C A) (P : A → Prop) : kept c P → kept_app (on_aio c) P.
Proof. intros H. by apply (safe_embed aio set_aio aio_set_aio J). Qed.

Lemma kept_wire {A} (m : stM net exn A) (P : A → Prop) :
  (∀ s a s', m s = (Ok a, s') → P a) → kept (on_aio_net m) P.
Proof. apply kept_net. Qed.

Lemma kept_send c q :
  kept (aio_send env http_date wall http nan_sleep c q) (λ r, ∃ n, http n c q = Ok r).
Proof.
  unfold aio_send, retry_with_backoff_async. eapply (keeps_bind _ _ _ (λ _, True)); [by apply keeps_pure|].
  intros [retries base] _. apply kept_attempts, kept_wire. intros s a s' [= <- _]. by eexists.
Qed.

Lemma kept_post q c p :
  kept (aio_post_form env http_date wall wall_clock uuid4 encode http nan_sleep q c p)
    (answered wall_clock uuid4 encode http q c p).
Proof.
  unfold aio_post_form. eapply keeps_bind; [apply kept_send|]. intros r1 [n Hn]. unfold answered.
  destruct (dpop_key q) as [key|] eqn:Hk; [|apply keeps_ret; exists n, r1; by eauto].
  destruct (extract_dpop_nonce r1) as [nonce|] eqn:Hx; [|apply keeps_ret; exists n, r1; by eauto].
  eapply (keeps_bind _ _ _ (λ p', ∃ s s', prepare wall_clock uuid4 encode q (Some nonce) s = (Ok p', s'))).
  { apply kept_wire. intros s a s' H. by eauto. }
  intros p' (s & s' & Hp). eapply keeps_post; [apply kept_send|]. intros r [n' Hn'].
  exists n, r1. split; [done|]. right. by exists nonce, n', p', s, s'.
Qed.

Lemma kept_userinfo r headers c :
  kept (aio_fetch_userinfo env http_date wall wall_clock uuid4 encode text_of http nan_sleep r headers c)
    (λ a, ∃ reply, userinfo_answer wall_clock uuid4 encode http r c headers reply ∧
       validate_userinfo_sub (process_userinfo_response text_of reply) (ui_expected_sub r) = Ok a).
Proof.
  unfold aio_fetch_userinfo. eapply keeps_bind; [apply kept_send|]. intros r1 [n Hn].
  eapply (keeps_bind _ _ _ (userinfo_answer wall_clock uuid4 encode http r c headers)).
  - unfold userinfo_answer. destruct (ui_dpop_key r) as [key|] eqn:Hk; [|apply keeps_ret; exists n, headers; by eauto].
    destruct (extract_dpop_nonce r1) as [nonce|] eqn:Hx; [|apply keeps_ret; exists n, headers; by eauto].
    eapply (keeps_bind _ _ _ (λ h, ∃ s s', prepare_userinfo_headers wall_clock uuid4 encode r (Some nonce) s = (Ok h, s'))).
    { apply kept_wire. intros s a s' H. by eauto. }
    intros h (s & s' & Hh). eapply keeps_post; [apply kept_send|]. intros r' [n' Hn'].
    exists n', h. split; [done|]. right. split; [done|]. by exists nonce, s, s'.
  - intros reply Hans. apply keeps_pure. intros a Ha. by exists reply.
Qed.

(** Picking a client, and what follows with it. *)
Lemma kept_bracket {A} m managed (k : http_client → C A) (P : A → Prop) :
  (∀ c, right_client m managed c → kept (k c) P) →
  kept_app (bracket m managed env is_dir create_default_context load_cert_chain new_client k) P.
Proof.
  intros Hk. unfold bracket.
  eapply (keeps_bind _ _ _ (λ co, right_client m managed co.1)).
  - apply keeps_atom. intros s Hs. unfold resolve_async_http_client. destruct m as [m|], managed as [h|]; cbn [right_client].
    + done.
    + unfold aio_build_mtls_client. by destruct (_ ≫= _).
    + unfold async_managed_client, mbind, stM_bind, lift, mret, stM_ret. by destruct (closed h).
    + unfold mbind, stM_bind, get_async_http_client. destruct (singleton s); [done|]. by destruct (_ ≫= _).
  - intros [c own] Hc. cbn [fst] in Hc. unfold closing. eapply safe_finish; [apply kept_on_aio, (Hk c Hc)|].
    intros r Hr. destruct own as [i|]; cbn; [|done]. intros s Hs. by split.
Qed.

(** What a client function promises among any other calls. *)
Definition request_post (q : oauth_request) (managed : option HTTPClient) (o : outcome BaseResponse) : Prop :=
  ∃ a, o = Ok a ∧ (is_successful a = true → ∃ p s s' c r,
    prepare wall_clock uuid4 encode q None s = (Ok p, s') ∧ right_client (mtls (client q)) managed c ∧
    answered wall_clock uuid4 encode http q c p r ∧ process text_of q r = Ok a).

Lemma safe_request q managed :
  safe JA (request_post q managed)
    (aio_request env http_date wall wall_clock uuid4 encode text_of is_dir create_default_context load_cert_chain
       new_client http nan_sleep q managed).
Proof.
  unfold aio_request, attempt. eapply safe_finish.
  - eapply (keeps_bind _ _ _ (λ p, ∃ s s', prepare wall_clock uuid4 encode q None s = (Ok p, s'))).
    + apply kept_on_aio, kept_wire. intros s a s' H. by eauto.
    + intros p (s & s' & Hp). apply (kept_bracket _ _ _ (λ a, ∃ p s s' c r,
        prepare wall_clock uuid4 encode q None s = (Ok p, s') ∧ right_client (mtls (client q)) managed c ∧
        answered wall_clock uuid4 encode http q c p r ∧ process text_of q r = Ok a)).
      intros c Hc. eapply keeps_bind; [apply kept_post|]. intros r Hr. apply keeps_pure. intros a Ha.
      by exists p, s, s', c, r.
  - intros [a|e] Ho; cbn.
    + exists a. split; [done|]. intros _. by apply Ho.
    + exists (handle q e). split; [done|]. destruct (handle_class q e). congruence.
Qed.

Definition userinfo_post (r : UserInfoRequest) (managed : option HTTPClient) (o : outcome BaseResponse) : Prop :=
  match o with
  | Err e => ui_dpop_key r ≠ None
  | Ok a => is_successful a = true → ∃ c headers reply, right_client (ui_mtls r) managed c ∧
      userinfo_answer wall_clock uuid4 encode http r c headers reply ∧
      validate_userinfo_sub (process_userinfo_response text_of reply) (ui_expected_sub r) = Ok a
  end.

Lemma safe_userinfo r managed :
  safe JA (userinfo_post r managed)
    (aio_get_userinfo env http_date wall wall_clock uuid4 encode text_of is_dir create_default_context load_cert_chain
       new_client http nan_sleep r managed).
Proof.
  unfold aio_get_userinfo. eapply safe_finish with (Q := λ o, ∀ e, o = Err e → ui_dpop_key r ≠ None).
  - apply (safe_embed aio set_aio aio_set_aio J). intros s Hs. split.
    + unfold zoom, on_net. cbn. unfold J, aio_inv, on_net, zoom in *.
      destruct (prepare_userinfo_headers wall_clock uuid4 encode r None (network (tv s))) as [h n]. cbn.
      by destruct Hs.
    + intros e. unfold zoom, on_net. cbn. unfold zoom.
      destruct (prepare_userinfo_headers wall_clock uuid4 encode r None (network (tv s))) as [[h|e'] n] eqn:Eh;
        [done|]. cbn. intros _ Hn.
      by rewrite (userinfo_headers_plain wall_clock uuid4 encode r None _ Hn) in Eh.
  - intros [headers|e] Hh; [|by apply (Hh e)]. unfold attempt. eapply safe_finish.
    + apply (kept_bracket _ _ _ (λ a, ∃ c headers reply, right_client (ui_mtls r) managed c ∧
        userinfo_answer wall_clock uuid4 encode http r c headers reply ∧
        validate_userinfo_sub (process_userinfo_response text_of reply) (ui_expected_sub r) = Ok a)).
      intros c Hc. eapply keeps_post; [apply kept_userinfo|]. intros a (reply & Hans & Ha). by exists c, headers, reply.
    + intros [a|e] Ho; [cbn; intros _; by apply Ho|]. unfold mret, coro_ret. cbn [safe userinfo_post].
      unfold handle_userinfo_error. by destruct (handle_failed UserInfoResponse "UserInfo request" e) as [_ ->].
Qed.
End Among.

(** ** Every schedule ends *)

Section TidyClients.
Context (env : string → option string) (http_date : string → option Q) (wall : Q).
Context (wall_clock : nat → Q) (uuid4 : nat → string).
Context (encode : nat → pydict → blob → string → pydict → outcome string).
Context (text_of : HttpResponse → string).
Context (is_dir : string → bool) (create_default_context : trust → outcome unit).
Context (load_cert_chain : list string → outcome unit).
Context (new_client : option string → pyfloat → outcome unit).
Context (http : nat → http_client → HttpRequest → outcome HttpResponse).
Context (nan_sleep : outcome unit).
Context (Hbackoff : finite_backoff env).
#[local] Set Default Proof Using "Type Hbackoff".

Lemma tidy_on_aio {A} n (c : C A) : tidy n c → tidy n (on_aio c).
Proof. apply balanced_embed. Qed.
#[local] Hint Resolve tidy_on_aio : tidy.

Lemma tidy_send n c q : tidy n (aio_send env http_date wall http nan_sleep c q).
Proof.
  unfold aio_send, retry_with_backoff_async. apply balanced_pure_bind. intros [retries base] Hp.
  eapply (tidy_attempts env); [done|tidy|by eapply Hbackoff].
Qed.
#[local] Hint Resolve tidy_send : tidy.

Lemma tidy_post n q c p :
  tidy n (aio_post_form env http_date wall wall_clock uuid4 encode http nan_sleep q c p).
Proof. unfold aio_post_form. tidy. Qed.
Lemma tidy_fetch_userinfo n r h c :
  tidy n (aio_fetch_userinfo env http_date wall wall_clock uuid4 encode text_of http nan_sleep r h c).
Proof. unfold aio_fetch_userinfo. tidy. Qed.
#[local] Hint Resolve tidy_post tidy_fetch_userinfo : tidy.

Lemma tidy_closing {A} n own (c : AC A) : tidy n c → tidy n (closing own c).
Proof.
  intros Hc. unfold closing. apply balanced_finish; [done|]. intros r.
  apply balanced_finish; [destruct own; cbn; auto with tidy|]. intros _. apply balanced_pure.
Qed.
#[local] Hint Resolve tidy_closing : tidy.

Lemma tidy_request n q managed :
  tidy n (aio_request env http_date wall wall_clock uuid4 encode text_of is_dir create_default_context load_cert_chain
            new_client http nan_sleep q managed).
Proof. unfold aio_request. tidy; apply tidy_closing, tidy_on_aio; tidy. Qed.
Lemma tidy_userinfo n r managed :
  tidy n (aio_get_userinfo env http_date wall wall_clock uuid4 encode text_of is_dir create_default_context
            load_cert_chain new_client http nan_sleep r managed).
Proof. unfold aio_get_userinfo. tidy. Qed.
Lemma tidy_registration n q managed process handle :
  tidy n (aio_registration_call env http_date wall new_client http nan_sleep q managed process handle).
Proof. unfold aio_registration_call. tidy. apply tidy_on_aio. tidy. Qed.
End TidyClients.

(** ** Pools of client calls *)

(** A call of the application, of a client function or of the token validation. *)
Inductive app_call : Type :=
  | CallRequest (q : oauth_request) (managed : option HTTPClient)
  | CallUserinfo (r : UserInfoRequest) (managed : option HTTPClient)
  | CallRegister (r : ClientRegistrationRequest) (managed : option HTTPClient)
  | CallRead (r : ClientReadRequest) (managed : option HTTPClient)
  | CallUpdate (r : ClientUpdateRequest) (managed : option HTTPClient)
  | CallDelete (r : ClientDeleteRequest) (managed : option HTTPClient)
  | CallJarm (response client_id : string) (address issuer : option string) (jwks : option JwksResponse)
      (algorithms : option (list pyval)) (https : bool) (leeway : pyval) (is_jwt : bool)
  | CallLibrary (loop : nat) (op : aio_op).
Inductive app_result : Type :=
  | Responded (a : BaseResponse) | Processed (r : JarmResponse) | Returned (claims : pydict).

Section Pools.
Context (env : string → option string) (http_date : string → option Q) (wall : Q).
Context (clock wall_clock : nat → Q) (uuid4 : nat → string).
Context (get_unverified_header : string → outcome pydict).
Context {PyJWK : Type} (new_pyjwk : pydict → option pyval → outcome PyJWK).
Context (decode : nat → string → PyJWK → DecodeArgs → outcome pydict).
Context (decode_response : string → PyJWK → DecodeArgs → outcome pydict).
Context (hash_key : disco_key → Z) (hash_uri : string → Z) (nan_sleep : outcome unit).
Context (encode : nat → pydict → blob → string → pydict → outcome string).
Context (text_of : HttpResponse → string).
Context (is_dir : string → bool) (create_default_context : trust → outcome unit).
Context (load_cert_chain : list string → outcome unit).
Context (new_client : option string → pyfloat → outcome unit).
Context (http : nat → http_client → HttpRequest → outcome HttpResponse).

Let requested := aio_request env http_date wall wall_clock uuid4 encode text_of is_dir create_default_context
  load_cert_chain new_client http nan_sleep.
Let userinfo := aio_get_userinfo env http_date wall wall_clock uuid4 encode text_of is_dir create_default_context
  load_cert_chain new_client http nan_sleep.

Definition made (c : app_call) : AC app_result :=
  match c with
  | CallRequest q m => a ← requested q m; mret (Responded a)
  | CallUserinfo r m => a ← userinfo r m; mret (Responded a)
  | CallRegister r m =>
      a ← aio_register_client env http_date wall text_of new_client http nan_sleep r m; mret (Responded a)
  | CallRead r m => a ← aio_read_client env http_date wall text_of new_client http nan_sleep r m; mret (Responded a)
  | CallUpdate r m => a ← aio_update_client env http_date wall text_of new_client http nan_sleep r m; mret (Responded a)
  | CallDelete r m => a ← aio_delete_client env http_date wall text_of new_client http nan_sleep r m; mret (Responded a)
  | CallJarm response client_id address issuer jwks algorithms https leeway is_jwt =>
      r ← on_aio (aio_process_jarm_response env http_date wall (web http) get_unverified_header new_pyjwk
                    decode_response nan_sleep response client_id address issuer jwks algorithms https leeway is_jwt);
      mret (Processed r)
  | CallLibrary loop op =>
      claims ← on_aio (aio_call env http_date wall (web http) clock get_unverified_header new_pyjwk decode hash_key
                         hash_uri nan_sleep (loop, op));
      mret (Returned claims)
  end.

Definition app_start : AppState := App (Aio initial_state zero_counters) false [].
Definition app_pool (calls : list app_call) : pool lock AppState app_result := start (map made calls) app_start.

(** What each call promises about its end. *)
Definition made_post (c : app_call) (o : outcome app_result) : Prop :=
  match c with
  | CallRequest q m => ∃ a, o = Ok (Responded a) ∧ request_post wall_clock uuid4 encode text_of http q m (Ok a)
  | CallUserinfo r m =>
      match o with
      | Ok a => ∃ b, a = Responded b ∧ userinfo_post wall_clock uuid4 encode text_of http r m (Ok b)
      | Err _ => ui_dpop_key r ≠ None
      end
  | CallRegister _ _ | CallRead _ _ | CallUpdate _ _ | CallDelete _ _ => ∃ a, o = Ok (Responded a)
  | CallJarm response client_id address issuer jwks algorithms https leeway is_jwt => ∀ r, o = Ok (Processed r) →
      jarm_accepted env (web http) get_unverified_header new_pyjwk decode_response response client_id address issuer
        jwks algorithms https leeway is_jwt r
  | CallLibrary loop op => ∀ claims, o = Ok (Returned claims) →
      call_post env (web http) get_unverified_header new_pyjwk decode (loop, op) (Ok claims)
  end.

Let JA := λ s : AppState, aio_inv env (web http) (aio s).

Lemma safe_registration q m process handle :
  safe JA (λ o, ∃ a, o = Ok a)
    (aio_registration_call env http_date wall new_client http nan_sleep q m process handle).
Proof.
  unfold aio_registration_call, attempt. eapply safe_finish; [|intros [a|e] _; by eexists].
  apply (keeps_bind _ _ _ (λ _, True) (λ _, True)).
  - apply keeps_atom. intros s Hs. unfold async_registration_client. destruct m as [h|].
    + unfold async_managed_client, mbind, stM_bind, lift, mret, stM_ret. by destruct (closed h).
    + unfold get_async_http_client. destruct (singleton s); [done|]. by destruct (_ ≫= _).
  - intros c _. apply (kept_on_aio env http). eapply keeps_bind; [apply kept_send|]. intros r _. by apply keeps_pure.
Qed.

Lemma safe_made c : safe JA (made_post c) (made c).
Proof.
  destruct c as [q m|r m|r m|r m|r m|r m|? ? ? ? ? ? ? ? ?|loop op]; cbn [made made_post].
  - eapply safe_finish; [apply safe_request|]. intros o Ho. destruct Ho as (a & -> & Ha). cbn.
    exists a. split; [done|]. by exists a.
  - eapply safe_finish; [apply safe_userinfo|]. intros [a|e] Ho; [|done]. by exists a.
  - unfold aio_register_client. destruct (prepare_registration_request r).
    eapply safe_finish; [apply safe_registration|]. intros o [a ->]. by exists a.
  - eapply safe_finish; [apply safe_registration|]. intros o [a ->]. by exists a.
  - unfold aio_update_client. destruct (prepare_update_request r).
    eapply safe_finish; [apply safe_registration|]. intros o [a ->]. by exists a.
  - eapply safe_finish; [apply safe_registration|]. intros o [a ->]. by exists a.
  - eapply safe_finish; [apply (kept_on_aio env http), kept_process_jarm|].
    intros [r|e] Ho; cbn; [|by intros ? [=]]. intros ? [= <-]. by apply Ho.
  - eapply safe_finish.
    + apply (safe_embed aio set_aio aio_set_aio (aio_inv env (web http))), safe_call.
    + intros [claims|e] Ho; cbn; [|by intros ? [=]]. by intros ? [= <-].
Qed.

Lemma tidy_made (Hbackoff : finite_backoff env) c : tidy 0 (made c).
Proof.
  destruct c as [q m|r m|r m|r m|r m|r m|? ? ? ? ? ? ? ? ?|loop op]; cbn [made]; (apply balanced_bind; [|intros a; apply balanced_ret]).
  - by apply tidy_request.
  - by apply tidy_userinfo.
  - unfold aio_register_client. destruct (prepare_registration_request r). by apply tidy_registration.
  - by apply tidy_registration.
  - unfold aio_update_client. destruct (prepare_update_request r). by apply tidy_registration.
  - by apply tidy_registration.
  - by apply balanced_embed, tidy_process_jarm.
  - by apply balanced_embed, tidy_call.
Qed.
End Pools.

(** An asynchronous client call alone is the synchronous call.  When the retry delay of the
    environment can be slept and a managed client passed in is open, [aio_request] (the nine
    OAuth functions), [aio_get_userinfo] and the registration functions, run with no other call
    in progress, end with the result of the synchronous function, with the same requests sent,
    sleeps and readings, the singleton created when the thread's client is, and the clients
    opened for the call closed; no lock is left held. *)
Theorem aio_client_alone env http_date wall wall_clock uuid4 encode text_of is_dir create_default_context
    load_cert_chain new_client http nan_sleep managed held s :
  sane_backoff env → not_closed managed →
  (∀ q, let sync := request env http_date wall wall_clock uuid4 encode text_of is_dir create_default_context
          load_cert_chain new_client http q managed (process_of s) in
    ∃ s', run held (aio_request env http_date wall wall_clock uuid4 encode text_of is_dir create_default_context
                      load_cert_chain new_client http nan_sleep q managed) s = Some (sync.1, held, s') ∧
      process_of s' = sync.2) ∧
  (∀ r, let sync := get_userinfo env http_date wall wall_clock uuid4 encode text_of is_dir create_default_context
          load_cert_chain new_client http r managed (process_of s) in
    ∃ s', run held (aio_get_userinfo env http_date wall wall_clock uuid4 encode text_of is_dir create_default_context
                      load_cert_chain new_client http nan_sleep r managed) s = Some (sync.1, held, s') ∧
      process_of s' = sync.2) ∧
  (∀ q process handle,
    let sync := registration_call env http_date wall new_client http q managed process handle (process_of s) in
    ∃ s', run held (aio_registration_call env http_date wall new_client http nan_sleep q managed process handle) s
        = Some (sync.1, held, s') ∧ process_of s' = sync.2).
Proof.
  intros Hb Hm. split_and!; intros; cbv zeta.
  - by apply alike_request.
  - by apply alike_userinfo.
  - by apply alike_registration.
Qed.

(** C15: Client calls end, whatever runs beside them.  Unless the environment sets an infinite retry
    delay, in a pool of any number of client calls, validations and cache clears no call waits
    forever: every schedule that cannot go on has ended every call, and every reachable state can
    be brought to such an end.  A client call that ended returned a response and did not raise,
    but for one case, a UserInfo request with a DPoP key whose proof cannot be made; and a success is what the endpoint itself answered, through the client the
    request calls for, to what this request was prepared as; a JARM response that was accepted
    was verified as by the synchronous function. *)
Theorem aio_clients_total env http_date wall clock wall_clock uuid4 header {PyJWK : Type} new_pyjwk decode
    decode_response hash_key hash_uri nan_sleep encode text_of is_dir create_default_context load_cert_chain new_client
    http calls order :
  finite_backoff env →
  let p := schedule order (app_pool env http_date wall clock wall_clock uuid4 header (PyJWK:=PyJWK) new_pyjwk decode decode_response
             hash_key hash_uri nan_sleep encode text_of is_dir create_default_context load_cert_chain new_client
             http calls) in
  (∀ i c o, calls !! i = Some c → results p !! i = Some (Some o) →
     made_post env wall_clock uuid4 header new_pyjwk decode decode_response encode text_of http c o) ∧
  (¬ ∃ f : nat → pool lock AppState app_result, f 0 = p ∧ ∀ n, moves (f n) (f (S n))) ∧
  ((¬ ∃ p', moves p p') → finished p) ∧
  ∃ p', rtc moves p p' ∧ finished p'.
Proof.
  intros Hb p. split; [|split].
  - intros i c o Hc Hr.
    assert (Hp : pool_safe (λ s : AppState, aio_inv env (web http) (aio s))
      (map (made_post env wall_clock uuid4 header new_pyjwk decode decode_response encode text_of http) calls) p).
    { eapply pool_safe_reach; [apply schedule_moves|]. apply pool_safe_start; [apply tv_inv_forget, initial_tv_inv|].
      clear. induction calls as [|c cs IH]; constructor; [apply safe_made|apply IH]. }
    destruct (pool_safe_result _ _ _ _ _ Hp Hr) as (Q & HQ & Hpost).
    apply list_lookup_fmap_Some in HQ as (c' & -> & Hc'). rewrite Hc in Hc'. by injection Hc' as <-.
  - intros (f & _ & Hf). exact (no_infinite_schedule f Hf).
  - eapply (balanced_pool_ends rank 2); [|apply schedule_moves].
    apply Forall_fmap, Forall_true. intros c. by apply tidy_made.
Qed.

(** *** Witnesses *)

Definition client_web (n : nat) (c : http_client) (q : HttpRequest) : outcome HttpResponse :=
  if req_method q ≟ "POST" then Ok token_reply else demo_http "https://op.example/jwks" n (req_url q).
Definition demo_app : list app_call → pool lock AppState app_result :=
  app_pool empty_env no_dates 0 ticking demo_clock demo_uuid demo_header toy_new_pyjwk demo_decode jarm_decode (λ _, 0%Z)
    (λ _, 0%Z) (Ok ()) demo_sign (λ _, "") (λ _, false) (λ _, Ok ()) (λ _, Ok ()) (λ _ _, Ok ()) client_web.
Definition demo_calls : list app_call :=
  [CallRequest mtls_cc None; CallRequest demo_cc None; CallLibrary 0 AioSafety.demo_call;
   CallJarm "h.p.s" "app" (Some op_address) None None (Some [VStr "RS256"]) true VNone true].

Example app_1 :
  let p := schedule (concat (replicate 60 [0; 1; 2; 3])) (demo_app demo_calls) in
  (λ r, match r with Some (Ok (Responded a)) => Some (is_successful a)
        | Some (Ok (Processed r)) => Some (jr_is_successful r)
        | Some (Ok (Returned _)) => None | _ => Some false end) <$> results p = [Some true; Some true; None; Some true] ∧
  own_clients (shared p) = [None] ∧ singleton (shared p) = true.
Proof. split; vm_compute; done. Qed.

Lemma aio_clients_total_witness :
  ∃ p', rtc moves (demo_app demo_calls) p' ∧ finished p'.
Proof.
  apply (aio_clients_total empty_env no_dates 0 ticking demo_clock demo_uuid demo_header toy_new_pyjwk demo_decode jarm_decode
    (λ _, 0%Z) (λ _, 0%Z) (Ok ()) demo_sign (λ _, "") (λ _, false) (λ _, Ok ()) (λ _, Ok ()) (λ _ _, Ok ()) client_web
    demo_calls [] empty_env_backoff).
Defined.

Lemma aio_client_alone_witness :
  let sync := request empty_env no_dates 0 demo_clock demo_uuid demo_sign (λ _, "") (λ _, false) (λ _, Ok ())
    (λ _, Ok ()) (λ _ _, Ok ()) client_web mtls_cc None (process_of app_start) in
  is_successful <$> sync.1 = Ok true ∧
  ∃ s', run [] (aio_request empty_env no_dates 0 demo_clock demo_uuid demo_sign (λ _, "") (λ _, false) (λ _, Ok ())
    (λ _, Ok ()) (λ _ _, Ok ()) client_web (Ok ()) mtls_cc None) app_start = Some (sync.1, [], s') ∧
  process_of s' = sync.2.
Proof.
  split; [vm_compute; reflexivity|].
  apply (aio_client_alone empty_env no_dates 0 demo_clock demo_uuid demo_sign (λ _, "") (λ _, false) (λ _, Ok ())
    (λ _, Ok ()) (λ _ _, Ok ()) client_web (Ok ()) None [] app_start empty_env_sane I).
Defined.
