(* ===== verification/Rp.v ===== *)
(** * The FastAPI relying party ([fastapi_identity_model/rp.py], [config.py])

    The login router: [/login] starts a flow and remembers it in the session, [/callback] uses it
    up and writes the identity, [/logout] forgets both.  All protocol work is done by the library:
    the asynchronous discovery, token and UserInfo calls, [validate_token], the callback parser
    and the authorization URL.

    A request has its own session, the dictionary its middleware decoded from the cookie, and a
    handler answers with the session it leaves.  The code of a callback reaches the token request
    through [code_text], the representation of a [ustr] as the [string] the request holds; the
    members of a remembered flow are read as the strings [/login] put there. *)

From S2P Require Import Prelude PyStr PyValue Models Url Codec Policy HttpRetry Discovery Jwks Jwt TokenValidation Callback UrlQuery AuthorizeUrl Responses ClientAuth Dpop Grants Replies Clients Coro CacheMetrics Aio AioSafety AioClients.
From Stdlib Require Import QArith Ascii.
From stdpp Require Import strings.
#[global] Close Scope Q_scope.
Open Scope string_scope.
Open Scope list_scope.
Open Scope nat_scope.
Open Scope py_scope.

(** ** Settings *)

Record OIDCSettings : Type := Settings {
  op_url : string;
  rp_client_id : string;
  redirect_uri : string;
  rp_client_secret : option string;
  rp_scope : string;
  rp_audience : string;
  post_login_redirect : string;
  post_logout_redirect : string;
  rp_excluded_paths : list string;
}.

Definition default_rp_excluded_paths : list string := ["/docs"; "/docs/oauth2-redirect"; "/openapi.json"; "/health"].

(** [OIDCSettings(..)] with its [__post_init__]. *)
Definition new_settings (url client_id redirect : string) (secret : option string) (scope : string)
    (audience : option string) (login logout : string) (excluded : list string) : outcome OIDCSettings :=
  _ ← raise_if (negb (nonempty url)) (ValueErr "OIDCSettings requires a non-empty discovery_url");
  _ ← raise_if (negb (nonempty client_id)) (ValueErr "OIDCSettings requires a non-empty client_id");
  Ok (Settings url client_id redirect secret scope (default client_id audience) login logout excluded).

Definition required_env (environ : string → option string) (prefix name : string) : outcome string :=
  match environ (prefix +:+ name) with
  | Some ((String _ _) as v) => Ok v
  | _ => Err (ValueErr ("Missing required env var " +:+ prefix +:+ name))
  end.

Definition settings_from_env (environ : string → option string) (prefix : string) : outcome OIDCSettings :=
  let get name := environ (prefix +:+ name) in
  url ← required_env environ prefix "DISCOVERY_URL";
  client_id ← required_env environ prefix "CLIENT_ID";
  new_settings url client_id (default "" (get "REDIRECT_URI")) (get "CLIENT_SECRET")
    (default "openid profile email" (get "SCOPE")) (get "AUDIENCE")
    (default "/" (get "POST_LOGIN_REDIRECT")) (default "/" (get "POST_LOGOUT_REDIRECT"))
    (match get "EXCLUDED_PATHS" with
     | Some ((String _ _) as paths) => List.filter nonempty (map strip (split_char ","%char paths))
     | _ => default_rp_excluded_paths
     end).

(** ** Replies *)

(** FastAPI's [HTTPException], and what a route answers: a redirect, one of those, or an exception
    that is no [HTTPException], which is the server's failure. *)
Record HttpStop : Type := Stop { stop_status : Z; stop_detail : string }.
Inductive answer : Type := Redirect (url : string) (status : Z) | Refused (h : HttpStop) | Crashed (e : exn).

(** A part of a route: it may stop with an [HTTPException], or raise. *)
Definition RP (A : Type) : Type := AC (HttpStop + A).
#[export] Instance rp_ret : MRet RP := λ A a, Ret (Ok (inr a)).
#[export] Instance rp_bind : MBind RP := λ A B f m,
  finish (λ r, match r with Ok (inr a) => f a | Ok (inl h) => Ret (Ok (inl h)) | Err e => Ret (Err e) end) m.
Definition stop {A} (h : HttpStop) : RP A := Ret (Ok (inl h)).
Definition raises {A} (r : outcome A) : RP A := Ret (match r with Ok a => Ok (inr a) | Err e => Err e end).
Definition stop_if (b : bool) (h : HttpStop) : RP unit := if b then stop h else mret ().
Definition call {A} (c : AC A) : RP A :=
  finish (λ r, Ret (match r with Ok a => Ok (inr a) | Err e => Err e end)) c.
(** [try: c except PyIdentityModelException: raise h]. *)
Definition call_or {A} (h : HttpStop) (c : AC A) : RP A :=
  finish (λ r, Ret (match r with
                    | Ok a => Ok (inr a)
                    | Err e => if isinstance e PyIdentityModelException then Ok (inl h) else Err e
                    end)) c.

(** ** Paths and keys *)

Definition OIDC_ROUTER_PATHS : list string := ["/login"; "/callback"; "/logout"].
Definition oidc_public_paths (prefix : string) : list string :=
  let base := rstrip_char "/" prefix in
  let base := if nonempty base && negb (startswith base "/") then "/" +:+ base else base in
  map (λ route, base +:+ route) OIDC_ROUTER_PATHS.

Definition flow_key (session_key : string) : string := session_key +:+ ".flow".

Definition WELL_KNOWN_SUFFIX : string := "/.well-known/openid-configuration".
(** [base[:-len(suffix)]] when [base] ends with the suffix. *)
Definition drop_suffix (s suffix : string) : string :=
  if endswith s suffix then String.substring 0 (String.length s - String.length suffix) s else s.
Definition expected_issuer (discovery_url : string) : string :=
  rstrip_char "/" (drop_suffix (rstrip_char "/" discovery_url) WELL_KNOWN_SUFFIX).

Definition STATE_TOKEN_BYTES : nat := 32.

(** [(v or "").rstrip("/")]. *)
Definition issuer_base (v : pyval) : outcome string :=
  if negb (truthy v) then Ok ""
  else match v with VStr s => Ok (rstrip_char "/" s) | _ => Err (AttributeError v "rstrip") end.

Definition bad_gateway (d : string) : HttpStop := Stop 502 d.
Definition require_endpoint (v : pyval) (name : string) : RP pyval :=
  if negb (truthy v) then stop (bad_gateway ("Provider discovery is missing '" +:+ name +:+ "'")) else mret v.

(** [/login] remembers strings. *)
Definition flow_text (name : string) (flow : pydict) : option string := as_str (dget name flow).
Definition flow_members : list string := ["state"; "nonce"; "code_verifier"].

Definition no_flow : HttpStop := Stop 400 "No active login flow in session".
Definition exchange_failed : HttpStop := Stop 400 "Authorization code exchange failed".
Definition token_refused : HttpStop := Stop 401 "ID token validation failed".
Definition no_session : exn := mk_exn BRuntimeError ("SessionMiddleware is required by the OIDC router but is not " +:+
  "installed. Add: app.add_middleware(SessionMiddleware, secret_key=...)").

Definition id_token_config (st : OIDCSettings) (iss : pyval) : TokenValidationConfig :=
  TVConfig true (KeyOther VNone) (VStr (rp_client_id st)) None iss VNone
    (Some [("verify_exp", VBool true); ("require", VList (strs ["sub"; "iat"; "exp"]))])
    None true VNone None None.

(** ** The routes *)

(** What [build_oidc_router] is given. *)
Record Router : Type := NewRouter {
  settings : OIDCSettings; session_key : string; store_tokens : bool; wants_userinfo : bool }.
#[global] Instance OIDCSettings_eq_dec : EqDecision OIDCSettings.
Proof. solve_decision. Defined.
#[global] Instance Router_eq_dec : EqDecision Router.
Proof. solve_decision. Defined.
Definition build_oidc_router (st : OIDCSettings) (key : string) (store fetch : bool) : outcome Router :=
  _ ← raise_if (negb (nonempty (redirect_uri st))) (ValueErr
        ("build_oidc_router requires settings.redirect_uri (the provider " +:+
         "callback URL); it is only optional for resource-server-only setups."));
  Ok (NewRouter st key store fetch).

(** The session of a request, when its middleware is installed. *)
Abbreviation session := (option pydict).

Section Routes.
Context (env : string → option string) (http_date : string → option Q) (wall : Q).
Context (clock wall_clock : nat → Q) (uuid4 : nat → string).
Context (get_unverified_header : string → outcome pydict).
Context {PyJWK : Type} (new_pyjwk : pydict → option pyval → outcome PyJWK).
Context (decode : nat → string → PyJWK → DecodeArgs → outcome pydict).
Context (hash_key : disco_key → Z) (hash_uri : string → Z) (nan_sleep : outcome unit).
Context (encode : nat → pydict → blob → string → pydict → outcome string).
Context (text_of : HttpResponse → string).
Context (is_dir : string → bool) (create_default_context : trust → outcome unit).
Context (load_cert_chain : list string → outcome unit).
Context (new_client : option string → pyfloat → outcome unit).
Context (http : nat → http_client → HttpRequest → outcome HttpResponse).
Context (code_text : ustr → string) (replace_query : string → string → string).

Let requested := aio_request env http_date wall wall_clock uuid4 encode text_of is_dir create_default_context
  load_cert_chain new_client http nan_sleep.
Let get_userinfo := aio_get_userinfo env http_date wall wall_clock uuid4 encode text_of is_dir create_default_context
  load_cert_chain new_client http nan_sleep.
Let validate header := aio_validate_token env http_date wall (web http) clock header new_pyjwk decode hash_key hash_uri
  nan_sleep.

Definition discover (st : OIDCSettings) : RP DiscoveryDocumentResponse :=
  disco ← call (on_aio (aio_get_discovery_document env http_date wall (web http) nan_sleep (op_url st) default_policy));
  _ ← stop_if (negb (disco_is_successful disco)) (bad_gateway "Identity provider discovery failed");
  base ← raises (issuer_base (dget "issuer" (disco_attrs disco)));
  _ ← stop_if (base ≠? expected_issuer (op_url st)) (bad_gateway "Identity provider configuration error");
  mret disco.

(** [token_bytes i] is the entropy of the request's [i]-th draw. *)
Definition login_flow (token_bytes : nat → nat → bytes) (verifier : string) : pydict :=
  [("state", VStr (token_urlsafe (token_bytes 1) STATE_TOKEN_BYTES));
   ("nonce", VStr (token_urlsafe (token_bytes 2) STATE_TOKEN_BYTES)); ("code_verifier", VStr verifier)].

(** The endpoint, the verifier and its challenge. *)
Definition prepare_login (token_bytes : nat → nat → bytes) (st : OIDCSettings) : RP (string * string * string) :=
  disco ← discover st;
  endpoint ← require_endpoint (dget "authorization_endpoint" (disco_attrs disco)) "authorization_endpoint";
  endpoint ← raises (as_address endpoint);
  '(verifier, challenge) ← raises (generate_pkce_pair (token_bytes 0) "S256" DEFAULT_VERIFIER_LENGTH);
  mret (endpoint, verifier, challenge).

Definition login_url (token_bytes : nat → nat → bytes) (st : OIDCSettings) (endpoint challenge : string)
    : outcome string :=
  let token i := text (token_urlsafe (token_bytes i) STATE_TOKEN_BYTES) in
  build_authorization_url endpoint (text (rp_client_id st)) (text (redirect_uri st)) (text (rp_scope st)) (text "code")
    (Some (token 1)) (Some (token 2)) (Some (text challenge)) (Some (text "S256")) [].

Definition ended_as (r : outcome (HttpStop + string * Z)) : answer :=
  match r with Ok (inr (url, status)) => Redirect url status | Ok (inl h) => Refused h | Err e => Crashed e end.

Definition login (token_bytes : nat → nat → bytes) (r : Router) (s : session) : AC (answer * session) :=
  match s with
  | None => mret (Crashed no_session, None)
  | Some d =>
      finish (λ p, match p with
        | Ok (inr (endpoint, verifier, challenge)) =>
            mret (ended_as ((λ url, inr (url, 302%Z)) <$> login_url token_bytes (settings r) endpoint challenge),
                  Some (dict_set (flow_key (session_key r)) (VDict (login_flow token_bytes verifier)) d))
        | Ok (inl h) => mret (Refused h, Some d)
        | Err e => mret (Crashed e, Some d)
        end) (prepare_login token_bytes (settings r))
  end.

(** [settings.client_secret or None]. *)
Definition given_secret (st : OIDCSettings) : option string :=
  match rp_client_secret st with Some ((String _ _) as s) => Some s | _ => None end.
Definition code_request (st : OIDCSettings) (endpoint code : string) (verifier : option string) : oauth_request :=
  Ac (ACReq endpoint (ClientFields (rp_client_id st) (given_secret st) None None) code (redirect_uri st) verifier
        None None).

(** The warning reads [tok.error], which a successful response refuses. *)
Definition exchange_code (st : OIDCSettings) (disco : DiscoveryDocumentResponse) (code : string)
    (verifier : option string) : RP pyval :=
  endpoint ← require_endpoint (dget "token_endpoint" (disco_attrs disco)) "token_endpoint";
  endpoint ← raises (as_address endpoint);
  tok ← call (requested (code_request st endpoint code verifier) None);
  if negb (is_successful tok) || negb (truthy (raw_attr tok "token")) then
    _ ← raises (get_error tok);
    stop exchange_failed
  else mret (raw_attr tok "token").

(** A value that is no string reaches PyJWT, which does not read it. *)
Definition validate_value (loop : nat) (id_token : pyval) (c : TokenValidationConfig) (address : string) : AC pydict :=
  match id_token with
  | VStr jwt => on_aio (validate get_unverified_header loop jwt c (Some address) false)
  | _ => on_aio (validate not_a_token loop "" c (Some address) false)
  end.

Definition validate_id_token (loop : nat) (st : OIDCSettings) (disco : DiscoveryDocumentResponse)
    (id_token expected_nonce : pyval) : RP pydict :=
  iss ← require_endpoint (dget "issuer" (disco_attrs disco)) "issuer";
  claims ← call_or token_refused (validate_value loop id_token (id_token_config st iss) (op_url st));
  _ ← stop_if (negb (py_eq (dget "nonce" claims) expected_nonce)) (Stop 401 "Nonce mismatch");
  mret claims.

Definition fetch_userinfo (disco : DiscoveryDocumentResponse) (access_token expected_sub : pyval) : RP pyval :=
  let endpoint := dget "userinfo_endpoint" (disco_attrs disco) in
  if negb (truthy access_token) || negb (truthy endpoint) then mret (VDict [])
  else
    address ← raises (as_address endpoint);
    ui ← call (get_userinfo (UIReq address (py_str access_token) VNone None None) None);
    if negb (is_successful ui) then mret (VDict [])
    else
      let claims := if truthy (raw_attr ui "claims") then raw_attr ui "claims" else VDict [] in
      if is_none expected_sub then mret claims
      else
        sub ← raises (py_get claims "sub");
        _ ← stop_if (negb (py_eq sub expected_sub)) (Stop 401 "UserInfo subject does not match ID token subject");
        mret claims.

(** What is written under the session key. *)
Definition session_data (store : bool) (claims : pydict) (userinfo access_token refresh_token id_token : pyval) : pydict :=
  [("sub", dget "sub" claims); ("claims", VDict claims); ("userinfo", userinfo)] ++
  (if store then [("tokens", VDict [("access_token", access_token); ("refresh_token", refresh_token);
                                    ("id_token", id_token)])] else []).

(** From the parsed callback on. *)
Definition redeem (loop : nat) (r : Router) (flow : pydict) (code : ustr) : RP pydict :=
  let st := settings r in
  disco ← discover st;
  token ← exchange_code st disco (code_text code) (flow_text "code_verifier" flow);
  id_token ← raises (py_get token "id_token");
  access_token ← raises (py_get token "access_token");
  _ ← stop_if (negb (truthy id_token)) (Stop 401 "Provider did not return an ID token");
  claims ← validate_id_token loop st disco id_token (dget "nonce" flow);
  userinfo ← (if wants_userinfo r then fetch_userinfo disco access_token (dget "sub" claims) else mret (VDict []));
  refresh_token ← raises (py_get token "refresh_token");
  mret (session_data (store_tokens r) claims userinfo access_token refresh_token id_token).

Definition checked_callback (flow : pydict) (callback_url : string) : RP ustr :=
  cb ← call_or (Stop 400 "Malformed authorization response") (pure (parse_authorize_callback_response (VStr callback_url)));
  _ ← stop_if (negb (cb_is_successful cb)) (Stop 400 "Authorization request failed");
  verdict ← raises (validate_authorize_callback_state cb (text <$> flow_text "state" flow));
  _ ← stop_if (negb (is_valid verdict)) (Stop 400 "State mismatch (possible CSRF)");
  match cb_code cb with
  | None => stop (Stop 400 "Authorization response missing code")
  | Some code => mret code
  end.

Definition read_flow (flow : pyval) : RP pydict :=
  if negb (truthy flow) then stop no_flow
  else match flow with
       | VDict d => if forallb (λ m, has_key m d) flow_members then mret d else stop no_flow
       | _ => raises (Err (AttributeError flow "keys"))
       end.

Definition callback (loop : nat) (r : Router) (callback_url : string) (s : session) : AC (answer * session) :=
  match s with
  | None => mret (Crashed no_session, None)
  | Some d =>
      let rest := dict_del (flow_key (session_key r)) d in
      finish (λ o, match o with
        | Ok (inr data) => mret (Redirect (post_login_redirect (settings r)) 302,
                                 Some (dict_set (session_key r) (VDict data) rest))
        | Ok (inl h) => mret (Refused h, Some rest)
        | Err e => mret (Crashed e, Some rest)
        end)
        (flow ← read_flow (dget (flow_key (session_key r)) d);
         code ← checked_callback flow callback_url;
         redeem loop r flow code)
  end.

(** [body] is the decoded body of the POST. *)
Definition callback_form_post (loop : nat) (r : Router) (url body : string) (s : session) : AC (answer * session) :=
  match urlencode (parse_qsl body) with
  | Ok params => callback loop r (replace_query url params) s
  | Err e => mret (Crashed e, s)
  end.

Definition logout (r : Router) (s : session) : AC (answer * session) :=
  match s with
  | None => mret (Crashed no_session, None)
  | Some d => mret (Redirect (post_logout_redirect (settings r)) 303,
                    Some (dict_del (flow_key (session_key r)) (dict_del (session_key r) d)))
  end.
End Routes.

(** ** A site: its routes, and the calls of the library beside them *)

Inductive demand : Type :=
  | GetLogin (r : Router) (token_bytes : nat → nat → bytes) (s : session)
  | GetCallback (loop : nat) (r : Router) (callback_url : string) (s : session)
  | PostCallback (loop : nat) (r : Router) (url body : string) (s : session)
  | PostLogout (r : Router) (s : session)
  | OtherCall (c : app_call).
Inductive served : Type := Page (rep : answer) (s : session) | Done (a : app_result).

Section Site.
Context (env : string → option string) (http_date : string → option Q) (wall : Q).
Context (clock wall_clock : nat → Q) (uuid4 : nat → string).
Context (get_unverified_header : string → outcome pydict).
Context {PyJWK : Type} (new_pyjwk : pydict → option pyval → outcome PyJWK).
Context (decode : nat → string → PyJWK → DecodeArgs → outcome pydict).
Context (decode_response : string → PyJWK → DecodeArgs → outcome pydict).
Context (hash_key : disco_key → Z) (hash_uri : string → Z) (nan_sleep : outcome unit).
Context (encode : nat → pydict → blob → string → pydict → outcome string).
Context (text_of : HttpResponse → string).
Context (is_dir : string → bool) (create_default_context : trust → outcome unit).
Context (load_cert_chain : list string → outcome unit).
Context (new_client : option string → pyfloat → outcome unit).
Context (http : nat → http_client → HttpRequest → outcome HttpResponse).
Context (code_text : ustr → string) (replace_query : string → string → string).

Definition serve (d : demand) : AC served :=
  match d with
  | GetLogin r tb s => '(rep, s) ← login env http_date wall nan_sleep http tb r s; mret (Page rep s)
  | GetCallback loop r url s =>
      '(rep, s) ← callback env http_date wall clock wall_clock uuid4 get_unverified_header new_pyjwk decode hash_key
                    hash_uri nan_sleep encode text_of is_dir create_default_context load_cert_chain new_client http
                    code_text loop r url s;
      mret (Page rep s)
  | PostCallback loop r url body s =>
      '(rep, s) ← callback_form_post env http_date wall clock wall_clock uuid4 get_unverified_header new_pyjwk decode
                    hash_key hash_uri nan_sleep encode text_of is_dir create_default_context load_cert_chain
                    new_client http code_text replace_query loop r url body s;
      mret (Page rep s)
  | PostLogout r s => '(rep, s) ← logout r s; mret (Page rep s)
  | OtherCall c =>
      a ← made env http_date wall clock wall_clock uuid4 get_unverified_header new_pyjwk decode decode_response hash_key
            hash_uri nan_sleep encode text_of is_dir create_default_context load_cert_chain new_client http c;
      mret (Done a)
  end.

Definition site (demands : list demand) : pool lock AppState served := start (map serve demands) app_start.

(** *** What a login rests on *)

Local Abbreviation JA := (λ s : AppState, aio_inv env (web http) (aio s)).
Local Abbreviation requested := (request_post wall_clock uuid4 encode text_of http).

(** The document the router discovers names the issuer its URL implies. *)
Definition trusted_op (st : OIDCSettings) (disco : DiscoveryDocumentResponse) : Prop :=
  admitted_doc (web http) (op_url st) default_policy disco ∧
  ∃ base, issuer_base (dget "issuer" (disco_attrs disco)) = Ok base ∧ base = expected_issuer (op_url st).

(** The token dictionary is what the token endpoint answered to this code and verifier. *)
Definition exchanged (st : OIDCSettings) (disco : DiscoveryDocumentResponse) (code : string) (verifier : option string)
    (token : pyval) : Prop :=
  ∃ endpoint a, dget "token_endpoint" (disco_attrs disco) = VStr endpoint ∧
    is_successful a = true ∧ raw_attr a "token" = token ∧
    requested (code_request st endpoint code verifier) None (Ok a).

Definition verified (st : OIDCSettings) (disco : DiscoveryDocumentResponse) (id_token nonce : pyval) (claims : pydict)
    : Prop :=
  ∃ jwt iss, id_token = VStr jwt ∧ dget "issuer" (disco_attrs disco) = VStr iss ∧
    token_sound env (web http) get_unverified_header new_pyjwk decode jwt (id_token_config st (VStr iss))
      (Some (op_url st)) claims ∧
    py_eq (dget "nonce" claims) nonce = true.

(** The UserInfo claims are none, or those of a reply that is about the same subject. *)
Definition about_subject (claims : pydict) (userinfo : pyval) : Prop :=
  userinfo = VDict [] ∨
  (∃ q ui, is_successful ui = true ∧ userinfo_post wall_clock uuid4 encode text_of http q None (Ok ui) ∧
     userinfo = (if truthy (raw_attr ui "claims") then raw_attr ui "claims" else VDict [])) ∧
  (dget "sub" claims ≠ VNone → ∃ d, userinfo = VDict d ∧ py_eq (dget "sub" d) (dget "sub" claims) = true).

Definition redeemed (r : Router) (flow : pydict) (code : ustr) (data : pydict) : Prop :=
  ∃ disco token claims userinfo, trusted_op (settings r) disco ∧
    exchanged (settings r) disco (code_text code) (flow_text "code_verifier" flow) (VDict token) ∧
    verified (settings r) disco (dget "id_token" token) (dget "nonce" flow) claims ∧
    about_subject claims userinfo ∧ (wants_userinfo r = false → userinfo = VDict []) ∧
    data = session_data (store_tokens r) claims userinfo (dget "access_token" token) (dget "refresh_token" token)
             (dget "id_token" token).

(** The callback answers the flow. *)
Definition answers (flow : pydict) (url : string) (code : ustr) : Prop :=
  ∃ cb state, parse_authorize_callback_response (VStr url) = Ok cb ∧ cb_is_successful cb = true ∧
    dget "state" flow = VStr state ∧ state ≠ "" ∧ cb_state cb = Some (text state) ∧ cb_code cb = Some code.

(** What [/login] leaves. *)
Definition started (r : Router) (tb : nat → nat → bytes) (d d' : pydict) (rep : answer) : Prop :=
  ∃ disco endpoint verifier challenge, trusted_op (settings r) disco ∧
    dget "authorization_endpoint" (disco_attrs disco) = VStr endpoint ∧
    generate_pkce_pair (tb 0) "S256" DEFAULT_VERIFIER_LENGTH = Ok (verifier, challenge) ∧
    d' = dict_set (flow_key (session_key r)) (VDict (login_flow tb verifier)) d ∧
    match login_url tb (settings r) endpoint challenge with
    | Ok url => rep = Redirect url 302
    | Err e => rep = Crashed e
    end.

Definition not_redirected (rep : answer) : Prop := match rep with Redirect _ _ => False | _ => True end.

Definition login_post (r : Router) (tb : nat → nat → bytes) (s : session) (rep : answer) (s' : session) : Prop :=
  match s with
  | None => rep = Crashed no_session ∧ s' = None
  | Some d => ∃ d', s' = Some d' ∧ (started r tb d d' rep ∨ d' = d ∧ not_redirected rep)
  end.

Definition callback_post (r : Router) (url : string) (s : session) (rep : answer) (s' : session) : Prop :=
  match s with
  | None => rep = Crashed no_session ∧ s' = None
  | Some d =>
      let rest := dict_del (flow_key (session_key r)) d in
      (∃ flow code data, dict_get (flow_key (session_key r)) d = Some (VDict flow) ∧ answers flow url code ∧
         redeemed r flow code data ∧ rep = Redirect (post_login_redirect (settings r)) 302 ∧
         s' = Some (dict_set (session_key r) (VDict data) rest)) ∨
      s' = Some rest ∧ not_redirected rep
  end.

Definition page_post (d : demand) (rep : answer) (s' : session) : Prop :=
  match d with
  | GetLogin r tb s => login_post r tb s rep s'
  | GetCallback _ r url s => callback_post r url s rep s'
  | PostCallback _ r url body s =>
      match urlencode (parse_qsl body) with
      | Ok params => callback_post r (replace_query url params) s rep s'
      | Err e => rep = Crashed e ∧ s' = s
      end
  | PostLogout r s =>
      match s with
      | None => rep = Crashed no_session ∧ s' = None
      | Some d => rep = Redirect (post_logout_redirect (settings r)) 303 ∧
                  s' = Some (dict_del (flow_key (session_key r)) (dict_del (session_key r) d))
      end
  | OtherCall _ => False
  end.

(** What a demand promises about its end. *)
Definition serve_post (d : demand) (o : outcome served) : Prop :=
  match d with
  | OtherCall c => ∀ a, o = Ok (Done a) →
      made_post env wall_clock uuid4 get_unverified_header new_pyjwk decode decode_response encode text_of http c (Ok a)
  | _ => ∃ rep s', o = Ok (Page rep s') ∧ page_post d rep s'
  end.

(** *** Parts of a route *)

(** A part that goes on, goes on with [P]. *)
Definition goes_on {A} (c : RP A) (P : A → Prop) : Prop := safe JA (λ o, ∀ a, o = Ok (inr a) → P a) c.

Lemma goes_on_bind {A B} (c : RP A) (k : A → RP B) (P : A → Prop) (Q : B → Prop) :
  goes_on c P → (∀ a, P a → goes_on (k a) Q) → goes_on (c ≫= k) Q.
Proof.
  intros Hc Hk. eapply safe_finish; [exact Hc|]. intros [[h|a]|e] Hr; [by intros ? [=]|by apply Hk, Hr|by intros ? [=]].
Qed.
Lemma goes_on_ret {A} (a : A) (P : A → Prop) : P a → goes_on (mret a) P.
Proof. by intros HP ? [= <-]. Qed.
Lemma goes_on_stop {A} h (P : A → Prop) : goes_on (stop h) P.
Proof. by intros ? [=]. Qed.
Lemma goes_on_raises {A} (r : outcome A) : goes_on (raises r) (λ a, r = Ok a).
Proof. intros a. destruct r; cbn; [by intros [= <-]|done]. Qed.
Lemma goes_on_stop_if b h : goes_on (stop_if b h) (λ _, b = false).
Proof. destruct b; [apply goes_on_stop|by apply goes_on_ret]. Qed.
Lemma goes_on_call {A} (c : AC A) (P : A → Prop) : keeps JA c P → goes_on (call c) P.
Proof. intros H. eapply safe_finish; [exact H|]. intros [a|e] Hr; cbn; [|by intros ? [=]]. intros ? [= <-]. by apply Hr. Qed.
Lemma goes_on_call_or {A} h (c : AC A) (P : A → Prop) : keeps JA c P → goes_on (call_or h c) P.
Proof.
  intros H. eapply safe_finish; [exact H|]. intros [a|e] Hr a'; [intros [= <-]; by apply Hr|].
  by destruct (isinstance e PyIdentityModelException).
Qed.
Lemma goes_on_require v name : goes_on (require_endpoint v name) (λ w, w = v ∧ truthy v = true).
Proof. unfold require_endpoint. destruct (truthy v) eqn:E; [by apply goes_on_ret|apply goes_on_stop]. Qed.
Lemma goes_on_post {A} (c : RP A) (P Q : A → Prop) : goes_on c P → (∀ a, P a → Q a) → goes_on c Q.
Proof. intros Hc HQ. eapply safe_post; [exact Hc|]. intros r Hr a ->. by apply HQ, Hr. Qed.
Lemma goes_on_if {A} (b : bool) (c1 c2 : RP A) (P : A → Prop) :
  (b = true → goes_on c1 P) → (b = false → goes_on c2 P) → goes_on (if b then c1 else c2) P.
Proof. destruct b; auto. Qed.
Ltac part H := eapply goes_on_bind; [H|].

Lemma goes_on_discover st : goes_on (discover env http_date wall nan_sleep http st) (trusted_op st).
Proof.
  unfold discover. part ltac:(eapply goes_on_call, (kept_on_aio env http), kept_get_discovery_document).
  intros disco Hd. part ltac:(apply goes_on_stop_if). intros [] Hs%negb_false_iff.
  part ltac:(apply goes_on_raises). intros base Hb. part ltac:(apply goes_on_stop_if). intros [] He.
  apply goes_on_ret. split; [by apply Hd|]. exists base. split; [done|].
  apply negb_false_iff, bool_decide_eq_true in He. done.
Qed.


Lemma goes_on_exchange st disco code verifier :
  goes_on (exchange_code env http_date wall wall_clock uuid4 nan_sleep encode text_of is_dir create_default_context
             load_cert_chain new_client http st disco code verifier) (exchanged st disco code verifier).
Proof.
  unfold exchange_code. part ltac:(apply goes_on_require). intros v [-> _].
  part ltac:(apply goes_on_raises). intros endpoint He%as_address_ok.
  part ltac:(apply (goes_on_call _ (λ a, request_post wall_clock uuid4 encode text_of http
    (code_request st endpoint code verifier) None (Ok a))); eapply safe_post;
    [apply safe_request|intros r Hr a Ha; by rewrite <- Ha]).
  intros tok Htok. apply goes_on_if.
  - intros _. part ltac:(apply goes_on_raises). intros e _. apply goes_on_stop.
  - intros [Hs%negb_false_iff _]%orb_false_iff. apply goes_on_ret. by exists endpoint, tok.
Qed.

Lemma goes_on_validate loop st disco id_token nonce :
  goes_on (validate_id_token env http_date wall clock get_unverified_header new_pyjwk decode hash_key hash_uri nan_sleep
             http loop st disco id_token nonce)
    (λ claims, (∃ base, issuer_base (dget "issuer" (disco_attrs disco)) = Ok base) →
       verified st disco id_token nonce claims).
Proof.
  unfold validate_id_token. part ltac:(apply goes_on_require). intros iss [-> Ht].
  part ltac:(apply (goes_on_call_or _ _ (λ claims, ∃ jwt, id_token = VStr jwt ∧
    token_sound env (web http) get_unverified_header new_pyjwk decode jwt
      (id_token_config st (dget "issuer" (disco_attrs disco))) (Some (op_url st)) claims))).
  - unfold validate_value. destruct id_token as [| | | |jwt| |];
      apply (kept_on_aio env http); (eapply keeps_post; [apply kept_validate_token|]); intros claims H;
      try (by destruct (no_token_sound _ _ _ _ _ _ _ _ (eq_refl : perform_disco (id_token_config st _) = true) H)).
    by exists jwt.
  - intros claims (jwt & -> & Hsound). part ltac:(apply goes_on_stop_if). intros [] Hn%negb_false_iff.
    apply goes_on_ret. intros [base Hb]. unfold issuer_base in Hb. rewrite Ht in Hb. cbn [negb] in Hb.
    destruct (dget "issuer" (disco_attrs disco)) as [| | | |iss| |] eqn:Ei; try done. by exists jwt, iss.
Qed.

Lemma goes_on_userinfo disco access_token claims :
  goes_on (fetch_userinfo env http_date wall wall_clock uuid4 nan_sleep encode text_of is_dir create_default_context
             load_cert_chain new_client http disco access_token (dget "sub" claims)) (about_subject claims).
Proof.
  unfold fetch_userinfo. apply goes_on_if; [intros _; apply goes_on_ret; by left|intros _].
  part ltac:(apply goes_on_raises). intros address _.
  set (q := UIReq _ _ _ _ _).
  part ltac:(apply (goes_on_call _ (λ a, userinfo_post wall_clock uuid4 encode text_of http q None (Ok a)));
    eapply safe_post; [apply safe_userinfo|intros r Hr a Ha; by rewrite <- Ha]).
  intros ui Hui. apply goes_on_if; [intros _; apply goes_on_ret; by left|intros Hs%negb_false_iff].
  cbv zeta. set (info := if truthy (raw_attr ui "claims") then _ else _).
  assert (Hinfo : ∃ q ui, is_successful ui = true ∧ userinfo_post wall_clock uuid4 encode text_of http q None (Ok ui) ∧
     info = (if truthy (raw_attr ui "claims") then raw_attr ui "claims" else VDict [])) by (by exists q, ui).
  destruct (is_none (dget "sub" claims)) eqn:Esub.
  - apply goes_on_ret. right. split; [exact Hinfo|]. intros Hne. by destruct (dget "sub" claims).
  - part ltac:(apply goes_on_raises). intros sub Hsub. part ltac:(apply goes_on_stop_if).
    intros [] Heq%negb_false_iff. apply goes_on_ret. right. split; [exact Hinfo|]. intros _.
    destruct info as [| | | | | |d]; try done. injection Hsub as <-. by exists d.
Qed.

Lemma goes_on_redeem loop r flow code :
  goes_on (redeem env http_date wall clock wall_clock uuid4 get_unverified_header new_pyjwk decode hash_key hash_uri
             nan_sleep encode text_of is_dir create_default_context load_cert_chain new_client http code_text loop r flow
             code) (redeemed r flow code).
Proof.
  unfold redeem. part ltac:(apply goes_on_discover). intros disco Hop.
  part ltac:(apply goes_on_exchange). intros token Htok.
  part ltac:(apply goes_on_raises). intros id_token Hid. destruct token as [| | | | | |token]; try done.
  injection Hid as <-. part ltac:(apply goes_on_raises). intros at_ [= <-].
  part ltac:(apply goes_on_stop_if). intros [] _. part ltac:(apply goes_on_validate). intros claims Hv.
  part ltac:(apply (goes_on_if _ _ _ (λ u, about_subject claims u ∧ (wants_userinfo r = false → u = VDict [])));
    [intros Hw; eapply goes_on_post; [apply goes_on_userinfo|]; intros u Hu; split; [done|congruence]
    |intros _; apply goes_on_ret; split; [by left|done]]).
  intros userinfo [Hu Hw]. part ltac:(apply goes_on_raises). intros rt [= <-]. apply goes_on_ret.
  exists disco, token, claims, userinfo. split; [done|]. destruct Hop as (_ & base & Hb & _). split; [done|].
  split; [apply Hv; by exists base|]. done.
Qed.

Lemma goes_on_checked flow url : goes_on (checked_callback flow url) (answers flow url).
Proof.
  unfold checked_callback.
  part ltac:(apply (goes_on_call_or _ _ (λ cb, parse_authorize_callback_response (VStr url) = Ok cb)), keeps_pure; done).
  intros cb Hcb. part ltac:(apply goes_on_stop_if). intros [] Hs%negb_false_iff.
  part ltac:(apply goes_on_raises). intros verdict Hv. part ltac:(apply goes_on_stop_if). intros [] Hok%negb_false_iff.
  destruct (cb_code cb) as [code|] eqn:Ec; [|apply goes_on_stop]. apply goes_on_ret.
  pose proof (validate_state_verdict cb (text <$> flow_text "state" flow)) as H. rewrite Hv in H.
  destruct H as [Hr Hi]. rewrite Hok in Hi. symmetry in Hi. apply bool_decide_eq_true in Hi. rewrite Hi in Hr.
  apply state_verdict_success in Hr as (_ & s & Hne & Heq & Hst & _).
  apply fmap_Some in Heq as (state & Hf & ->). unfold flow_text in Hf.
  destruct (dget "state" flow) as [| | | |st| |] eqn:Est; try done. injection Hf as ->.
  exists cb, state. split_and!; try done. by intros ->.
Qed.

Lemma goes_on_flow v : goes_on (read_flow v) (λ d, v = VDict d).
Proof.
  unfold read_flow. apply goes_on_if; [intros _; apply goes_on_stop|intros _].
  destruct v as [| | | | | |d]; try (eapply goes_on_post; [apply goes_on_raises|done]).
  apply goes_on_if; intros _; [by apply goes_on_ret|apply goes_on_stop].
Qed.

(** *** The routes *)

Local Abbreviation paged Q := (λ o : outcome (answer * session), ∃ rep s', o = Ok (rep, s') ∧ Q rep s').

Lemma safe_login r tb s :
  safe JA (paged (login_post r tb s)) (login env http_date wall nan_sleep http tb r s).
Proof.
  unfold login, login_post. destruct s as [d|]; [|by eexists _, _].
  eapply (safe_finish _ (λ o, ∀ p, o = Ok (inr p) → ∃ disco endpoint verifier challenge, p = (endpoint, verifier, challenge) ∧
    trusted_op (settings r) disco ∧ dget "authorization_endpoint" (disco_attrs disco) = VStr endpoint ∧
    generate_pkce_pair (tb 0) "S256" DEFAULT_VERIFIER_LENGTH = Ok (verifier, challenge))).
  - unfold prepare_login. part ltac:(apply goes_on_discover). intros disco Hop.
    part ltac:(apply goes_on_require). intros v [-> _]. part ltac:(apply goes_on_raises). intros endpoint He%as_address_ok.
    part ltac:(apply goes_on_raises). intros [verifier challenge] Hp. apply goes_on_ret.
    by exists disco, endpoint, verifier, challenge.
  - intros [[h|p]|e] Ho; [|destruct (Ho p eq_refl) as (disco & endpoint & verifier & challenge & -> & H)|];
      eexists _, _; (split; [done|]); eexists; (split; [done|]); [by right|left|by right].
    exists disco, endpoint, verifier, challenge. destruct H as (? & ? & ?). split_and!; try done.
    by destruct (login_url tb (settings r) endpoint challenge).
Qed.

Lemma safe_callback loop r url s :
  safe JA (paged (callback_post r url s))
    (callback env http_date wall clock wall_clock uuid4 get_unverified_header new_pyjwk decode hash_key hash_uri nan_sleep
       encode text_of is_dir create_default_context load_cert_chain new_client http code_text loop r url s).
Proof.
  unfold callback, callback_post. destruct s as [d|]; [|by eexists _, _].
  eapply (safe_finish _ (λ o, ∀ data, o = Ok (inr data) → ∃ flow code, dget (flow_key (session_key r)) d = VDict flow ∧
    answers flow url code ∧ redeemed r flow code data)).
  - part ltac:(apply goes_on_flow). intros flow Hf. part ltac:(apply goes_on_checked). intros code Hc.
    eapply goes_on_post; [apply goes_on_redeem|]. intros data Hr. by exists flow, code.
  - intros [[h|data]|e] Ho; [|destruct (Ho data eq_refl) as (flow & code & Hf & H)|];
      eexists _, _; (split; [done|]); [by right|left|by right].
    exists flow, code, data. destruct H. split_and!; try done. unfold dget in Hf.
    by destruct (dict_get _ d) as [v|]; cbn in Hf; [subst v|].
Qed.

Definition replayed_post (r : Router) (url body : string) (s : session) (rep : answer) (s' : session) : Prop :=
  match urlencode (parse_qsl body) with
  | Ok params => callback_post r (replace_query url params) s rep s'
  | Err e => rep = Crashed e ∧ s' = s
  end.
Lemma safe_form_post loop r url body s :
  safe JA (paged (replayed_post r url body s))
    (callback_form_post env http_date wall clock wall_clock uuid4 get_unverified_header new_pyjwk decode hash_key
       hash_uri nan_sleep encode text_of is_dir create_default_context load_cert_chain new_client http code_text
       replace_query loop r url body s).
Proof.
  unfold callback_form_post, replayed_post. destruct (urlencode (parse_qsl body)); [apply safe_callback|by eexists _, _].
Qed.

Lemma safe_page {A} (Q : A → session → Prop) (c : AC (A * session)) (k : A → session → served) (Q' : outcome served → Prop) :
  safe JA (λ o, ∃ a s', o = Ok (a, s') ∧ Q a s') c → (∀ a s', Q a s' → Q' (Ok (k a s'))) →
  safe JA Q' ('(a, s') ← c; mret (k a s')).
Proof. intros Hc HQ. eapply safe_finish; [exact Hc|]. intros o (a & s' & -> & H). by apply HQ. Qed.

Lemma safe_route d : safe JA (serve_post d) (serve d).
Proof.
  destruct d as [r tb s|loop r url s|loop r url body s|r s|c]; cbn [serve serve_post page_post].
  - eapply (safe_page _ _ Page); [apply safe_login|]. intros rep s' H. by exists rep, s'.
  - eapply (safe_page _ _ Page); [apply safe_callback|]. intros rep s' H. by exists rep, s'.
  - eapply (safe_page _ _ Page); [apply safe_form_post|]. intros rep s' H. by exists rep, s'.
  - unfold logout. destruct s as [d|]; by eexists _, _.
  - eapply safe_finish; [apply safe_made|]. intros [a|e] Ho a'; [|done]. by intros [= <-].
Qed.

(** *** The sessions of a site

    A cookie the browser holds: empty at first; the application sets keys of its own; a request
    that presents one to the router, among any others, is answered with the next.  A cookie may be
    presented again and again, by anyone who holds it. *)

Definition presented (r : Router) (d : demand) : session :=
  match d with
  | GetLogin r' _ s | GetCallback _ r' _ s | PostCallback _ r' _ _ s | PostLogout r' s =>
      if bool_decide (r' = r) then s else None
  | OtherCall _ => None
  end.

Inductive issued (r : Router) : pydict → Prop :=
  | issued_empty : issued r []
  | issued_app k v d : issued r d → k ≠ session_key r → k ≠ flow_key (session_key r) → issued r (dict_set k v d)
  | issued_page demands order i d s rep s' :
      demands !! i = Some d → presented r d = Some s → issued r s →
      results (schedule order (site demands)) !! i = Some (Some (Ok (Page rep (Some s')))) → issued r s'.

(** What a router's own entries of a session are. *)
Definition flow_of_login (v : pyval) : Prop :=
  ∃ tb verifier challenge, generate_pkce_pair (tb 0) "S256" DEFAULT_VERIFIER_LENGTH = Ok (verifier, challenge) ∧
    v = VDict (login_flow tb verifier).
Definition identity_of_login (r : Router) (v : pyval) : Prop :=
  ∃ tb verifier challenge url code data,
    generate_pkce_pair (tb 0) "S256" DEFAULT_VERIFIER_LENGTH = Ok (verifier, challenge) ∧
    v = VDict data ∧ answers (login_flow tb verifier) url code ∧ redeemed r (login_flow tb verifier) code data.

Definition session_ok (r : Router) (d : pydict) : Prop :=
  (∀ v, dict_get (flow_key (session_key r)) d = Some v → flow_of_login v) ∧
  (∀ v, dict_get (session_key r) d = Some v → identity_of_login r v).

Lemma site_safe demands order :
  pool_safe JA (map serve_post demands) (schedule order (site demands)).
Proof.
  eapply pool_safe_reach; [apply schedule_moves|]. apply pool_safe_start; [apply tv_inv_forget, initial_tv_inv|].
  induction demands as [|d ds IH]; constructor; [apply safe_route|apply IH].
Qed.

Lemma site_result demands order i d o :
  demands !! i = Some d → results (schedule order (site demands)) !! i = Some (Some o) → serve_post d o.
Proof.
  intros Hd Ho. destruct (pool_safe_result _ _ _ _ _ (site_safe demands order) Ho) as (Q & HQ & Hpost).
  apply list_lookup_fmap_Some in HQ as (d' & -> & Hd'). rewrite Hd in Hd'. by injection Hd' as <-.
Qed.

Lemma flow_key_ne k : k ≠ flow_key k.
Proof. induction k as [|c k IH]; [done|]. by intros [= H]. Qed.
Lemma deleted k d v : dict_get k (dict_del k d) ≠ Some v.
Proof.
  unfold dict_del. induction d as [|[k0 w] d IH]; [done|]. cbn [List.filter fst].
  destruct (decide (k0 = k)) as [->|Hne].
  - by rewrite (bool_decide_eq_true_2 (k = k)).
  - rewrite (bool_decide_eq_false_2 (k0 = k)) by done. cbn [negb dict_get].
    by rewrite (bool_decide_eq_false_2 (k = k0)) by done.
Qed.
Lemma dict_get_del k k' v d : dict_get k (dict_del k' d) = Some v → dict_get k d = Some v.
Proof.
  unfold dict_del. induction d as [|[k0 w] d IH]; [done|]. cbn [List.filter dict_get fst].
  destruct (decide (k0 = k')) as [->|Hne].
  - rewrite (bool_decide_eq_true_2 (k' = k')) by done. cbn [negb]. intros H. destruct (k ≟ k') eqn:E; [|by apply IH].
    apply bool_decide_eq_true in E as ->. destruct (deleted k' d _ H).
  - rewrite (bool_decide_eq_false_2 (k0 = k')) by done. cbn [negb dict_get]. by destruct (k ≟ k0); [|apply IH].
Qed.

Lemma session_ok_set r k v d : k ≠ session_key r → k ≠ flow_key (session_key r) → session_ok r d →
  session_ok r (dict_set k v d).
Proof. intros H1 H2 [Hf Hi]. split; intros w; rewrite dict_get_set_ne by done; [apply Hf|apply Hi]. Qed.
Lemma session_ok_del r k d : session_ok r d → session_ok r (dict_del k d).
Proof. intros [Hf Hi]. split; intros w Hw%dict_get_del; [by apply Hf|by apply Hi]. Qed.

Lemma login_post_ok r tb d rep d' : session_ok r d → login_post r tb (Some d) rep (Some d') → session_ok r d'.
Proof.
  intros [Hf Hi] (d'' & [= <-] & [H|[-> _]]); [|done].
  destruct H as (disco & endpoint & verifier & challenge & _ & _ & Hp & -> & _). split; intros v.
  - rewrite dict_get_set_eq. intros [= <-]. by exists tb, verifier, challenge.
  - rewrite dict_get_set_ne by apply flow_key_ne. apply Hi.
Qed.
Lemma callback_post_ok r url d rep d' : session_ok r d → callback_post r url (Some d) rep (Some d') → session_ok r d'.
Proof.
  intros Hok [(flow & code & data & Hflow & Ha & Hr & _ & [= ->])|[[= ->] _]]; [|by apply session_ok_del].
  pose proof (session_ok_del r (flow_key (session_key r)) d Hok) as [Hf Hi]. split; intros v.
  - rewrite dict_get_set_ne by (apply not_eq_sym, flow_key_ne). apply Hf.
  - rewrite dict_get_set_eq. intros [= <-]. destruct Hok as [Hf' _].
    destruct (Hf' _ Hflow) as (tb & verifier & challenge & Hp & [= ->]).
    by exists tb, verifier, challenge, url, code, data.
Qed.

Lemma page_post_ok r dem d rep d' :
  presented r dem = Some d → page_post dem rep (Some d') → session_ok r d → session_ok r d'.
Proof.
  intros Hd Hp Hok. destruct dem as [r' tb s|loop r' url s|loop r' url body s|r' s|c]; cbn in Hd; try done;
    case_bool_decide as Hr; try done; subst r' s; cbn [page_post] in Hp.
  - by eapply login_post_ok.
  - by eapply callback_post_ok.
  - destruct (urlencode _); [by eapply callback_post_ok|by destruct Hp as [_ [= ->]]].
  - destruct Hp as [_ [= ->]]. by apply session_ok_del, session_ok_del.
Qed.

(** C4: Whoever is logged in logged in here.  In every session a browser can come by at this router,
    from an empty one through any number of requests in any interleaving with other requests and
    library calls, replays of old cookies included, an identity under the session key was written
    by a callback that carried the state of a flow one of the router's logins had started, whose
    code was exchanged with that login's PKCE verifier at the provider named by the settings, and
    whose ID token was verified for this client and carries that login's nonce; the UserInfo
    claims beside it are none or about the same subject.  Under the flow key there is nothing but
    the flow of a login. *)
Theorem session_identity_sound r d :
  issued r d →
  (∀ v, dict_get (session_key r) d = Some v → identity_of_login r v) ∧
  (∀ v, dict_get (flow_key (session_key r)) d = Some v → flow_of_login v).
Proof.
  intros H. enough (session_ok r d) as [? ?] by done. induction H as [|k v d _ IH H1 H2|demands order i d s rep s' Hd Hs _ IH Hr].
  - done.
  - by apply session_ok_set.
  - pose proof (site_result _ _ _ _ _ Hd Hr) as H.
    destruct d; try done; destruct H as (rep' & s'' & [= <- <-] & Hp); by eapply page_post_ok.
Qed.

(** *** Every schedule ends *)

Context (Hbackoff : finite_backoff env).
#[local] Set Default Proof Using "Type Hbackoff".

Lemma tidy_rp_bind {A B} n (c : RP A) (k : A → RP B) : tidy n c → (∀ a, tidy n (k a)) → tidy n (c ≫= k).
Proof.
  intros Hc Hk. apply balanced_finish; [done|]. intros [[h|a]|e]; [apply balanced_pure|apply Hk|apply balanced_pure].
Qed.
Lemma tidy_raises {A} n (r : outcome A) : tidy n (raises r).
Proof. apply balanced_pure. Qed.
Lemma tidy_mret {A} n (a : A) : tidy n (mret a : RP A).
Proof. apply balanced_pure. Qed.
Lemma tidy_stop {A} n h : tidy n (stop h : RP A).
Proof. apply balanced_pure. Qed.
Lemma tidy_stop_if n b h : tidy n (stop_if b h).
Proof. destruct b; apply balanced_pure. Qed.
Lemma tidy_rp_call {A} n (c : AC A) : tidy n c → tidy n (call c).
Proof. intros Hc. apply balanced_finish; [done|]. intros [a|e]; apply balanced_pure. Qed.
Lemma tidy_call_or {A} n h (c : AC A) : tidy n c → tidy n (call_or h c).
Proof. intros Hc. apply balanced_finish; [done|]. intros [a|e]; apply balanced_pure. Qed.
Lemma tidy_require n v name : tidy n (require_endpoint v name).
Proof. unfold require_endpoint. destruct (truthy v); apply balanced_pure. Qed.
Ltac tidy_route := repeat first
  [ apply tidy_rp_bind; [|intros ?] | apply tidy_raises | apply tidy_mret | apply tidy_stop | apply tidy_stop_if
  | apply tidy_require | apply tidy_rp_call | apply tidy_call_or | apply balanced_if | apply balanced_embed
  | apply tidy_get_discovery_document | apply tidy_request | apply tidy_userinfo | apply tidy_validate_token | done ].

Lemma tidy_rp_discover n st : tidy n (discover env http_date wall nan_sleep http st).
Proof. unfold discover. tidy_route. Qed.

Lemma tidy_redeem loop r flow code :
  tidy 0 (redeem env http_date wall clock wall_clock uuid4 get_unverified_header new_pyjwk decode hash_key hash_uri
            nan_sleep encode text_of is_dir create_default_context load_cert_chain new_client http code_text loop r flow
            code).
Proof.
  unfold redeem. apply tidy_rp_bind; [apply tidy_rp_discover|intros disco].
  apply tidy_rp_bind; [unfold exchange_code; tidy_route|intros token].
  apply tidy_rp_bind; [tidy_route|intros id_token]. unfold validate_id_token, validate_value, fetch_userinfo.
  tidy_route. destruct id_token; tidy_route.
Qed.

Lemma tidy_callback loop r url s :
  tidy 0 (callback env http_date wall clock wall_clock uuid4 get_unverified_header new_pyjwk decode hash_key hash_uri
       nan_sleep encode text_of is_dir create_default_context load_cert_chain new_client http code_text loop r url s).
Proof.
  unfold callback. destruct s as [d|]; [|apply balanced_pure].
  apply balanced_finish; [|intros [[h|a]|e]; apply balanced_pure].
  apply tidy_rp_bind; [|intros flow; apply tidy_rp_bind; [|intros code; apply tidy_redeem]].
  - unfold read_flow. tidy_route. destruct (dget _ d); tidy_route.
  - unfold checked_callback. tidy_route. destruct (cb_code _); tidy_route.
Qed.

Lemma tidy_page {A} (c : AC (A * session)) (k : A → session → served) : tidy 0 c → tidy 0 ('(a, s) ← c; mret (k a s)).
Proof. intros Hc. apply balanced_bind; [done|]. intros [a s]. apply balanced_ret. Qed.

Lemma tidy_login tb r s : tidy 0 (login env http_date wall nan_sleep http tb r s).
Proof.
  unfold login. destruct s as [d|]; [|apply balanced_pure].
  apply balanced_finish; [|intros [[h|[[a b] c]]|e]; apply balanced_pure].
  unfold prepare_login. apply tidy_rp_bind; [apply tidy_rp_discover|intros disco]. tidy_route.
  by match goal with p : _ * _ |- _ => destruct p end.
Qed.
Lemma tidy_form_post loop r url body s :
  tidy 0 (callback_form_post env http_date wall clock wall_clock uuid4 get_unverified_header new_pyjwk decode hash_key
            hash_uri nan_sleep encode text_of is_dir create_default_context load_cert_chain new_client http code_text
            replace_query loop r url body s).
Proof. unfold callback_form_post. destruct (urlencode _); [apply tidy_callback|apply balanced_pure]. Qed.

Lemma tidy_route_end d : tidy 0 (serve d).
Proof.
  destruct d as [r tb s|loop r url s|loop r url body s|r s|c]; cbn [serve]; try apply (tidy_page _ Page).
  - apply tidy_login.
  - apply tidy_callback.
  - apply tidy_form_post.
  - unfold logout. destruct s; apply balanced_pure.
  - apply balanced_bind; [by apply tidy_made|]. intros a. apply balanced_ret.
Qed.

(** C16: Every request to the routes is answered, by what its part of the protocol allows.  Among any
    other requests and library calls, each request that ended has a reply and the session it
    leaves: a login either redirects with a fresh flow remembered (or fails to build the URL) or
    leaves the session alone; a callback always uses the flow up, and either redirects with an
    identity that flow, the callback and the provider's answers account for, or leaves nothing;
    logout forgets both entries; without a session middleware all fail.  And no request waits
    forever: no schedule is infinite, and one that cannot go on has answered everything. *)
Theorem site_answers demands order :
  let p := schedule order (site demands) in
  (∀ i d o, demands !! i = Some d → results p !! i = Some (Some o) → serve_post d o) ∧
  (¬ ∃ f : nat → pool lock AppState served, f 0 = p ∧ ∀ n, moves (f n) (f (S n))) ∧
  ((¬ ∃ p', moves p p') → finished p) ∧
  ∃ p', rtc moves p p' ∧ finished p'.
Proof.
  intros p. split; [|split].
  - intros i d o Hd Ho. by eapply site_result.
  - intros (f & _ & Hf). exact (no_infinite_schedule f Hf).
  - eapply (balanced_pool_ends rank 2); [|apply schedule_moves].
    apply Forall_fmap, Forall_true. intros d. by apply tidy_route_end.
Qed.
End Site.

(** ** On concrete inputs *)

Definition demo_settings : OIDCSettings :=
  Settings op_address "app" "https://app.example/auth/callback" (Some "") "openid" "app" "/home" "/bye"
    default_rp_excluded_paths.
Definition demo_router (fetch : bool) : Router := NewRouter demo_settings "oidc" false fetch.
Definition demo_entropy (i n : nat) : bytes := replicate n (Z.of_nat i).
Definition demo_flow : pydict :=
  match generate_pkce_pair (demo_entropy 0) "S256" 128 with Ok (v, _) => login_flow demo_entropy v | Err _ => [] end.
Definition demo_identity : pydict := [("sub", VStr "alice"); ("nonce", dget "nonce" demo_flow)].

(** The provider: its document, its keys, a token reply with [id_token], and [userinfo]. *)
Definition op_web (token : pyval) (userinfo : HttpResponse) (n : nat) (c : http_client) (q : HttpRequest) : outcome HttpResponse :=
  if req_method q ≟ "POST" then Ok (reply 200 token)
  else if req_url q ≟ "https://op.example/userinfo" then Ok userinfo
  else if req_url q ≟ op_address then
    Ok (json_response (demo_doc ++ [("authorization_endpoint", VStr "https://op.example/authorize");
                                    ("userinfo_endpoint", VStr "https://op.example/userinfo")]))
  else demo_http "https://op.example/jwks" n (req_url q).
Definition demo_site (header : string → outcome pydict) (token : pyval) (userinfo : HttpResponse)
    : list demand → pool lock AppState served :=
  site empty_env no_dates 0 ticking demo_clock demo_uuid header toy_new_pyjwk (λ _ _ _ _, Ok demo_identity) (λ _ _ _, Ok [])
    (λ _, 0%Z) (λ _, 0%Z) (Ok ()) demo_sign (λ _, "") (λ _, false) (λ _, Ok ()) (λ _, Ok ()) (λ _ _, Ok ())
    (op_web token userinfo) show_text (λ url q, url +:+ "?" +:+ q).
Definition good_token : pyval := VDict [("id_token", VStr "h.p.s"); ("access_token", VStr "at")].
Definition alice_claims (sub : string) : pyval := VDict [("sub", VStr sub); ("name", VStr "Alice")].
Definition alice_info (sub : string) : HttpResponse := reply 200 (alice_claims sub).
Definition no_info : HttpResponse := reply 404 VNone.
Definition jwt_info : HttpResponse := Response 200 [("content-type", "application/jwt")] "" (Ok VNone) None.
Definition good_callback : string :=
  "https://app.example/auth/callback?code=c1&state=" +:+ py_str (dget "state" demo_flow).
Definition alone (p : pool lock AppState served) : option (outcome served) :=
  match results (schedule (replicate 80 0) p) with [r] => r | _ => None end.
Definition back (fetch : bool) (s : pydict) : demand := GetCallback 0 (demo_router fetch) good_callback (Some s).

Definition kept_identity (o : option (outcome served)) : option (pyval + answer) :=
  match o with
  | Some (Ok (Page rep (Some s))) => Some (match dict_get "oidc" s with Some v => inl v | None => inr rep end)
  | _ => None
  end.
Definition remembered : pydict := [("oidc.flow", VDict demo_flow)].
Definition logged_in (userinfo : pyval) : pyval :=
  VDict [("sub", VStr "alice"); ("claims", VDict demo_identity); ("userinfo", userinfo)].

Example rp_1 :
  match alone (demo_site demo_header good_token no_info [GetLogin (demo_router true) demo_entropy (Some [])]) with
  | Some (Ok (Page (Redirect _ 302) (Some s))) => s
  | _ => []
  end = remembered.
Proof. vm_compute. reflexivity. Qed.
(** UserInfo is optional, but not about someone else; a reply that is a JWT has no claims, and
    ends the login. *)
Example rp_2 :
  let back info d := kept_identity (alone (demo_site demo_header good_token info [back true d])) in
  back (alice_info "alice") remembered = Some (inl (logged_in (alice_claims "alice"))) ∧
  back (alice_info "bob") remembered =
    Some (inr (Refused (Stop 401 "UserInfo subject does not match ID token subject"))) ∧
  back no_info remembered = Some (inl (logged_in (VDict []))) ∧
  back jwt_info remembered = Some (inr (Refused (Stop 401 "UserInfo subject does not match ID token subject"))) ∧
  back (alice_info "alice") [] = Some (inr (Refused no_flow)).
Proof. split_and!; vm_compute; reflexivity. Qed.
(** A token reply without a token is the server's failure: the warning reads an error the response
    does not have.  So is an ID token PyJWT cannot read. *)
Example rp_3 :
  let back header token :=
    match alone (demo_site header token no_info [back true remembered]) with
    | Some (Ok (Page (Crashed e) (Some []))) => Some (exn_class e)
    | _ => None
    end in
  back demo_header (VDict []) = Some SuccessfulResponseAccessError ∧ back not_a_token good_token = Some JwtDecodeError.
Proof. split; vm_compute; reflexivity. Qed.
(** The flow is popped from the session of the answer; the cookie that held it still redeems. *)
Example rp_4 :
  let p := schedule (concat (replicate 80 [0; 1]))
             (demo_site demo_header good_token no_info [back false remembered; back false remembered]) in
  map kept_identity (results p) = [Some (inl (logged_in (VDict []))); Some (inl (logged_in (VDict [])))].
Proof. vm_compute. reflexivity. Qed.
Example rp_5 : oidc_public_paths "auth/" = ["/auth/login"; "/auth/callback"; "/auth/logout"] ∧
  is_ok (settings_from_env (λ k, if String.eqb k "OIDC_CLIENT_ID" then None else Some "x") "OIDC_") = false ∧
  rp_excluded_paths <$> settings_from_env (λ _, Some " /a, ,/b") "OIDC_" = Ok ["/a"; "/b"].
Proof. split_and!; vm_compute; reflexivity. Qed.
(** *** Witnesses *)

Lemma site_answers_witness :
  ∃ p', rtc moves (demo_site demo_header good_token no_info [back false remembered; back true []]) p' ∧ finished p'.
Proof.
  apply (site_answers empty_env no_dates 0 ticking demo_clock demo_uuid demo_header toy_new_pyjwk
    (λ _ _ _ _, Ok demo_identity) (λ _ _ _, Ok []) (λ _, 0%Z) (λ _, 0%Z) (Ok ()) demo_sign (λ _, "") (λ _, false)
    (λ _, Ok ()) (λ _, Ok ()) (λ _ _, Ok ()) (op_web good_token no_info) show_text (λ url q, url +:+ "?" +:+ q)
    empty_env_backoff [back false remembered; back true []] []).
Defined.

Abbreviation demo_issued := (issued empty_env no_dates 0 ticking demo_clock demo_uuid demo_header toy_new_pyjwk
    (λ _ _ _ _, Ok demo_identity) (λ _ _ _, Ok []) (λ _, 0%Z) (λ _, 0%Z) (Ok ()) demo_sign (λ _, "") (λ _, false)
    (λ _, Ok ()) (λ _, Ok ()) (λ _ _, Ok ()) (op_web good_token no_info) show_text (λ url q, url +:+ "?" +:+ q)
    (demo_router false)).
Lemma demo_session_issued : demo_issued [("oidc", logged_in (VDict []))].
Proof.
  eapply (issued_page _ _ _ _ _ _ _ _ _ _ _ _ _ _ _ _ _ _ _ _ _ _ _ [back false remembered] (replicate 80 0) 0);
    [reflexivity|vm_compute; reflexivity| |vm_compute; reflexivity].
  eapply (issued_page _ _ _ _ _ _ _ _ _ _ _ _ _ _ _ _ _ _ _ _ _ _ _ [GetLogin (demo_router false) demo_entropy (Some [])]
    (replicate 80 0) 0); [reflexivity|vm_compute; reflexivity|apply issued_empty|vm_compute; reflexivity].
Qed.

Lemma session_identity_sound_witness :
  demo_issued [("oidc", logged_in (VDict []))] ∧
  identity_of_login empty_env demo_clock demo_uuid demo_header toy_new_pyjwk (λ _ _ _ _, Ok demo_identity) demo_sign
    (λ _, "") (op_web good_token no_info) show_text (demo_router false) (logged_in (VDict [])).
Proof.
  split; [apply demo_session_issued|].
  destruct (session_identity_sound empty_env no_dates 0 ticking demo_clock demo_uuid demo_header toy_new_pyjwk
    (λ _ _ _ _, Ok demo_identity) (λ _ _ _, Ok []) (λ _, 0%Z) (λ _, 0%Z) (Ok ()) demo_sign (λ _, "") (λ _, false)
    (λ _, Ok ()) (λ _, Ok ()) (λ _ _, Ok ()) (op_web good_token no_info) show_text (λ url q, url +:+ "?" +:+ q)
    (demo_router false) _ demo_session_issued) as [H _].
  by apply H.
Defined.
