(* ===== verification/TokenManager.v ===== *)
(** * The token manager of the FastAPI package ([fastapi_identity_model/token_manager.py])

    A pair of tokens that is renewed shortly before the access token expires.  The manager's
    asyncio lock lets one caller at a time renew.  What it promises is that the renewals form a
    chain: every grant presents the refresh token the one before it left, however many callers
    ask at once.

    Between two awaits the event loop runs one call only, so the test of the stored token is one
    step.  A refresh token that is no string is presented as its text. *)

From S2P Require Import Prelude PyStr PyValue Models Url Policy HttpRetry Discovery Jwks Jwt TokenValidation Responses ClientAuth Grants Replies Clients Coro CacheMetrics Aio AioSafety AioClients Rp.
From Stdlib Require Import QArith.
From stdpp Require Import strings relations.
#[global] Close Scope Q_scope.
Open Scope string_scope.
Open Scope list_scope.
Open Scope nat_scope.
Open Scope py_scope.

(** ** Dates

    A date is the number of seconds since 1970. *)

Definition OverflowError (msg : string) : exn := mk_exn BOther msg.
Definition date_min : Q := inject_Z (-62135596800).
Definition date_end : Q := inject_Z 253402300800.
Definition delta_days : Z := 1000000000.

Definition round_half_even (q : Q) : Z :=
  let n := (Qnum q / Zpos (Qden q))%Z in
  match Qcompare (q - inject_Z n) (1 # 2) with
  | Lt => n
  | Gt => (n + 1)%Z
  | Eq => if Z.even n then n else (n + 1)%Z
  end.

Definition checked_delta (q : Q) : outcome Q :=
  if Qle_bool (inject_Z (86400 * (1 - delta_days))) q && negb (Qle_bool (inject_Z (86400 * delta_days)) q)
  then Ok q else Err (OverflowError "days must have magnitude <= 999999999").

(** [timedelta(seconds=v)]: a float counts to the microsecond. *)
Definition timedelta (v : pyval) : outcome Q :=
  match v with
  | VInt n => checked_delta (inject_Z n)
  | VBool b => checked_delta (if b then 1 else 0)
  | VFloat (FFin q) => checked_delta (round_half_even (q * inject_Z 1000000) # 1000000)
  | VFloat FNan => Err (ValueErr "cannot convert float NaN to integer")
  | VFloat (FInf _) => Err (OverflowError "cannot convert float infinity to integer")
  | _ => Err (TypeErr ("unsupported type for timedelta seconds component: " +:+ type_name v))
  end.

Definition checked_date (q : Q) : outcome Q :=
  if Qle_bool date_min q && negb (Qle_bool date_end q) then Ok q else Err (OverflowError "date value out of range").

(** [now + timedelta(seconds=expires_in)], or no expiry. *)
Definition expiry (now : Q) (expires_in : pyval) : outcome (option Q) :=
  match expires_in with
  | VNone => Ok None
  | v => d ← timedelta v; t ← checked_date (now + d)%Q; Ok (Some t)
  end.

(** ** State *)

Record Tokens : Type := NewTokens { access : pyval; refresh : pyval; expires_at : option Q }.
Record ManagerSettings : Type := NewManager {
  tm_discovery_url : string; tm_client_id : string; tm_client_secret : option string; refresh_before_seconds : Z }.
Definition no_tokens : Tokens := NewTokens VNone VNone None.

(** The application, a manager's tokens, and how often its clock was read. *)
Record Managed : Type := NewManaged { app : AppState; tokens : Tokens; now_reads : nat }.
Definition set_app (a : AppState) (s : Managed) : Managed := NewManaged a (tokens s) (now_reads s).
Definition set_managed_tokens (t : Tokens) (s : Managed) : Managed := NewManaged (app s) t (now_reads s).

Inductive manager_lock : Type := RefreshLock | Library (l : lock).
#[global] Instance manager_lock_eq_dec : EqDecision manager_lock.
Proof. solve_decision. Defined.

Abbreviation TM := (coro manager_lock Managed).
Definition on_app {A} (c : AC A) : TM A := relock Library (embed app set_app c).

Section Manager.
Context (env : string → option string) (http_date : string → option Q) (wall : Q).
Context (wall_clock : nat → Q) (uuid4 : nat → string) (now : nat → Q) (nan_sleep : outcome unit).
Context (encode : nat → pydict → blob → string → pydict → outcome string).
Context (text_of : HttpResponse → string).
Context (is_dir : string → bool) (create_default_context : trust → outcome unit).
Context (load_cert_chain : list string → outcome unit).
Context (new_client : option string → pyfloat → outcome unit).
Context (http : nat → http_client → HttpRequest → outcome HttpResponse).
Context (st : ManagerSettings).

(** [datetime.now(UTC)]. *)
Definition datetime_now : stM Managed exn Q := λ s,
  (Ok (now (now_reads s)), NewManaged (app s) (tokens s) (S (now_reads s))).

(** The tokens are replaced before the expiry is worked out. *)
Definition set_tokens (a r expires_in : pyval) : stM Managed exn unit :=
  _ ← modify (λ s, set_managed_tokens (NewTokens a r (expires_at (tokens s))) s);
  e ← (if is_none expires_in then mret None else (t ← datetime_now; lift (expiry t expires_in)));
  modify (λ s, set_managed_tokens (NewTokens (access (tokens s)) (refresh (tokens s)) e) s).

(** Whether tokens that expire at [e] are within the window at [t]. *)
Definition within_window (e : option Q) (t : Q) : outcome bool :=
  match e with
  | None => Ok false
  | Some e =>
      d ← timedelta (VInt (refresh_before_seconds st));
      threshold ← checked_date (e - d)%Q;
      Ok (Qle_bool threshold t)
  end.
Definition is_token_expired : stM Managed exn bool :=
  e ← gets (λ s, expires_at (tokens s));
  match e with
  | None => mret false
  | Some _ => t ← datetime_now; lift (within_window e t)
  end.

(** [self._access_token and not self.is_token_expired()]: the token that can be used, if any. *)
Definition current_token : stM Managed exn (option pyval) :=
  a ← gets (λ s, access (tokens s));
  if negb (truthy a) then mret None
  else expired ← is_token_expired; mret (if expired : bool then None else Some a).

Definition or_text (e : pyval) (otherwise : string) : string := if truthy e then py_str e else otherwise.

Definition resolve_token_endpoint : TM string :=
  disco ← on_app (on_aio (aio_get_discovery_document env http_date wall (web http) nan_sleep (tm_discovery_url st)
                            default_policy));
  let endpoint := dget "token_endpoint" (disco_attrs disco) in
  if negb (disco_is_successful disco) || negb (truthy endpoint) then
    e ← pure (disco_get_error disco);
    mthrow (mk_exn PyIdentityModelException ("Discovery failed while refreshing token: " +:+
              or_text (match e with Some m => VStr m | None => VNone end) "no token endpoint"))
  else pure (as_address endpoint).

Definition refresh_request (endpoint : string) (r : pyval) : oauth_request :=
  Rt (RTReq endpoint (ClientFields (tm_client_id st) (tm_client_secret st) None None) (py_str r) None).

(** The token dictionary of a renewal that can be used. *)
Definition renewed_token (response : BaseResponse) : outcome pyval :=
  let token := raw_attr response "token" in
  if negb (is_successful response) || negb (truthy token) then
    e ← get_error response;
    Err (mk_exn PyIdentityModelException ("Token refresh failed: " +:+ or_text e "no token in response"))
  else
    a ← py_get token "access_token";
    if negb (truthy a) then
      Err (mk_exn PyIdentityModelException "Token refresh succeeded but no access token returned")
    else Ok token.

Definition store_renewal (token : pyval) : stM Managed exn pyval :=
  a ← lift (py_get token "access_token");
  r ← lift (py_get token "refresh_token");
  old ← gets (λ s, refresh (tokens s));
  e ← lift (py_get token "expires_in");
  _ ← set_tokens a (if truthy r then r else old) e;
  gets (λ s, access (tokens s)).

Definition no_refresh_token : exn :=
  mk_exn PyIdentityModelException "Token expired and no refresh token available".

(** Under the lock. *)
Definition renew : TM pyval :=
  r ← atom (gets (λ s, refresh (tokens s)));
  if negb (truthy r) then mthrow no_refresh_token
  else
    endpoint ← resolve_token_endpoint;
    r ← atom (gets (λ s, refresh (tokens s)));
    response ← on_app (aio_request env http_date wall wall_clock uuid4 encode text_of is_dir create_default_context
                         load_cert_chain new_client http nan_sleep (refresh_request endpoint r) None);
    token ← pure (renewed_token response);
    atom (store_renewal token).

Definition get_access_token : TM pyval :=
  hit ← atom current_token;
  match hit with
  | Some t => mret t
  | None =>
      with_lock RefreshLock
        (hit ← atom current_token;
         match hit with Some t => mret t | None => renew end)
  end.
End Manager.

(** ** Callers *)

Inductive manager_call : Type := GetAccess | SetTokens (a r expires_in : pyval) | Beside (c : app_call).
Inductive manager_result : Type := Token (v : pyval) | Stored | Other (a : app_result).

Section Callers.
Context (env : string → option string) (http_date : string → option Q) (wall : Q).
Context (clock wall_clock : nat → Q) (uuid4 : nat → string) (now : nat → Q).
Context (get_unverified_header : string → outcome pydict).
Context {PyJWK : Type} (new_pyjwk : pydict → option pyval → outcome PyJWK).
Context (decode : nat → string → PyJWK → DecodeArgs → outcome pydict).
Context (decode_response : string → PyJWK → DecodeArgs → outcome pydict).
Context (hash_key : disco_key → Z) (hash_uri : string → Z) (nan_sleep : outcome unit).
Context (encode : nat → pydict → blob → string → pydict → outcome string).
Context (text_of : HttpResponse → string).
Context (is_dir : string → bool) (create_default_context : trust → outcome unit).
Context (load_cert_chain : list string → outcome unit).
Context (new_client : option string → pyfloat → outcome unit).
Context (http : nat → http_client → HttpRequest → outcome HttpResponse).
Context (st : ManagerSettings).

Local Abbreviation asked := (get_access_token env http_date wall wall_clock uuid4 now nan_sleep encode text_of is_dir
  create_default_context load_cert_chain new_client http st).

Definition manage (c : manager_call) : TM manager_result :=
  match c with
  | GetAccess => t ← asked; mret (Token t)
  | SetTokens a r e => _ ← atom (set_tokens now a r e); mret Stored
  | Beside c =>
      a ← on_app (made env http_date wall clock wall_clock uuid4 get_unverified_header new_pyjwk decode decode_response
                    hash_key hash_uri nan_sleep encode text_of is_dir create_default_context load_cert_chain new_client
                    http c);
      mret (Other a)
  end.

Definition manager_start (x : Tokens) : Managed := NewManaged app_start x 0.
Definition manager_pool (x : Tokens) (calls : list manager_call) : pool manager_lock Managed manager_result :=
  start (map manage calls) (manager_start x).

(** *** Renewals *)

Local Abbreviation JM := (λ s : Managed, aio_inv env (web http) (aio (app s))).

(** [y] is what a refresh grant with the refresh token of [x] left: the endpoint of the provider's
    document answered it with a token dictionary.  The old refresh token is kept when the answer has
    none, the old expiry when it cannot be worked out. *)
Definition renewed (x y : Tokens) : Prop :=
  ∃ disco endpoint a token, admitted_doc (web http) (tm_discovery_url st) default_policy disco ∧
    dget "token_endpoint" (disco_attrs disco) = VStr endpoint ∧
    request_post wall_clock uuid4 encode text_of http (refresh_request st endpoint (refresh x)) None (Ok a) ∧
    is_successful a = true ∧ raw_attr a "token" = VDict token ∧ truthy (refresh x) = true ∧
    access y = dget "access_token" token ∧ truthy (access y) = true ∧
    refresh y = (if truthy (dget "refresh_token" token) then dget "refresh_token" token else refresh x) ∧
    ∃ n, expires_at y = match expiry (now n) (dget "expires_in" token) with Ok e => e | Err _ => expires_at x end.

(** The tokens can be found wanting, or usable. *)
Definition due (x : Tokens) : Prop :=
  truthy (access x) = false ∨ ∃ n, within_window st (expires_at x) (now n) = Ok true.
Definition usable (x : Tokens) : Prop :=
  truthy (access x) = true ∧ ∃ n, within_window st (expires_at x) (now n) = Ok false.

Section Owned.
Context (V : Tokens → Prop) (Hrenewed : ∀ x y, V x → due x → renewed x y → V y).
Local Abbreviation owned := (guarded JM RefreshLock tokens V V).
Local Abbreviation served := (λ t : pyval, ∃ x, V x ∧ access x = t ∧ truthy t = true).
#[local] Set Default Proof Using "Type".

Lemma owned_bind {A B} own (P : option Tokens → A → Prop) (Q : option Tokens → outcome B → Prop) (c : TM A) k :
  owned own (λ own r, match r with Ok a => P own a | Err e => Q own (Err e) end) c →
  (∀ own' a, P own' a → owned own' Q (k a)) → owned own Q (c ≫= k).
Proof. intros Hc Hk. eapply guarded_finish; [exact Hc|]. intros own' [a|e] H; [by apply Hk|exact H]. Qed.

(** A step that leaves the tokens. *)
Lemma owned_read {A} own (m : stM Managed exn A) (Q : option Tokens → outcome A → Prop) :
  (∀ s, tokens (m s).2 = tokens s ∧ (V (tokens s) → (∀ x, own = Some x → tokens s = x) → Q own (m s).1)) →
  owned own Q (atom m).
Proof.
  intros H s Hs HV. destruct (H s) as [Ht HQ]. rewrite Ht. destruct own as [x|].
  - intros <-. split; [done|]. apply HQ; [done|]. by intros x [= <-].
  - split; [done|]. by apply HQ.
Qed.

Lemma owned_app {A} own (Q : outcome A → Prop) (c : AC A) :
  safe (λ s : AppState, aio_inv env (web http) (aio s)) Q c → owned own (λ o r, o = own ∧ Q r) (on_app c).
Proof. intros H. unfold on_app. by apply (guarded_lift Library app set_app (λ s, aio_inv env (web http) (aio s))). Qed.

Lemma is_token_expired_run s :
  tokens (is_token_expired now st s).2 = tokens s ∧
  ∀ b, (is_token_expired now st s).1 = Ok b → ∃ n, within_window st (expires_at (tokens s)) (now n) = Ok b.
Proof.
  unfold is_token_expired, mbind, stM_bind, gets. destruct (expires_at (tokens s)) as [e|] eqn:He; cbn.
  - split; [done|]. intros b Hb. by exists (now_reads s).
  - split; [done|]. intros b [= <-]. by exists 0.
Qed.

Lemma current_token_run s :
  tokens (current_token now st s).2 = tokens s ∧
  match (current_token now st s).1 with
  | Ok (Some t) => usable (tokens s) ∧ t = access (tokens s)
  | Ok None => due (tokens s)
  | Err _ => True
  end.
Proof.
  unfold current_token, mbind, stM_bind, gets. destruct (truthy (access (tokens s))) eqn:Ha; cbn [negb].
  - destruct (is_token_expired_run s) as [Ht Hr].
    destruct (is_token_expired now st s) as [[b|e] s']; cbn [fst snd] in *; [|done]. split; [exact Ht|].
    destruct (Hr b eq_refl) as [n Hn]. destruct b; cbn; [right; by exists n|]. split; [|done]. split; [done|by exists n].
  - split; [done|]. by left.
Qed.

Lemma set_tokens_run a r e s :
  let s' := (set_tokens now a r e s).2 in
  access (tokens s') = a ∧ refresh (tokens s') = r ∧
  (∃ n, expires_at (tokens s') = match expiry (now n) e with Ok t => t | Err _ => expires_at (tokens s) end) ∧
  ((set_tokens now a r e s).1 = Ok () ∨ ∃ err, (set_tokens now a r e s).1 = Err err).
Proof.
  unfold set_tokens, mbind, stM_bind, modify. destruct (is_none e) eqn:He; cbn [mret stM_ret].
  - destruct e; try done. cbn. split_and!; [done..| |by left]. by exists 0.
  - cbn. destruct (expiry (now (now_reads s)) e) as [t|err] eqn:E; cbn; (split_and!; [done..| |]);
      [exists (now_reads s); by rewrite E|by left|exists (now_reads s); by rewrite E|right; by exists err].
Qed.

Lemma owned_renew x :
  V x → due x →
  owned (Some x) (λ own r, ∃ y, own = Some y ∧ V y ∧ ∀ t, r = Ok t → access y = t ∧ truthy t = true)
    (renew env http_date wall wall_clock uuid4 now nan_sleep encode text_of is_dir create_default_context load_cert_chain
       new_client http st).
Proof using Hrenewed.
  intros HV Hdue. unfold renew.
  set (Post := λ (own : option Tokens) (r : outcome pyval), ∃ y, own = Some y ∧ V y ∧ _).
  assert (Hfail : ∀ e, Post (Some x) (Err e)) by (intros e; exists x; split_and!; done).
  apply (owned_bind _ (λ own r, own = Some x ∧ r = refresh x)).
  { apply owned_read. intros s. split; [done|]. intros _ H. cbn. by rewrite (H x eq_refl). }
  intros own r [-> ->]. destruct (truthy (refresh x)) eqn:Hr; cbn [negb]; [|apply Hfail].
  apply (owned_bind _ (λ own endpoint, own = Some x ∧ ∃ disco,
    admitted_doc (web http) (tm_discovery_url st) default_policy disco ∧
    dget "token_endpoint" (disco_attrs disco) = VStr endpoint)).
  { unfold resolve_token_endpoint.
    apply (owned_bind _ (λ own d, own = Some x ∧ (disco_is_successful d = true →
      admitted_doc (web http) (tm_discovery_url st) default_policy d))).
    { eapply guarded_post; [apply owned_app, (kept_on_aio env http), kept_get_discovery_document|].
      intros own [d|e] [-> H]; [|apply Hfail]. split; [done|]. by apply H. }
    intros own d [-> Hd]. destruct (negb (disco_is_successful d) || negb _) eqn:Eb.
    - apply (owned_bind _ (λ own _, own = Some x)); [destruct (disco_get_error d); [done|apply Hfail]|].
      intros own e ->. apply Hfail.
    - apply orb_false_iff in Eb as [Hs%negb_false_iff _]. cbn.
      destruct (as_address (dget "token_endpoint" (disco_attrs d))) as [endpoint|e] eqn:Ea; [|apply Hfail].
      split; [done|]. exists d. split; [by apply Hd|by apply as_address_ok]. }
  intros own endpoint (-> & disco & Hdisco & Hend).
  apply (owned_bind _ (λ own r, own = Some x ∧ r = refresh x)).
  { apply owned_read. intros s. split; [done|]. intros _ H. cbn. by rewrite (H x eq_refl). }
  intros own r [-> ->].
  apply (owned_bind _ (λ own a, own = Some x ∧
    request_post wall_clock uuid4 encode text_of http (refresh_request st endpoint (refresh x)) None (Ok a))).
  { eapply guarded_post; [apply owned_app, safe_request|]. intros own r [-> H].
    destruct r as [a|e]; [done|]. by destruct H as (a & [=] & _). }
  intros own a [-> Ha].
  apply (owned_bind _ (λ own t, own = Some x ∧ renewed_token a = Ok t)).
  { cbn. destruct (renewed_token a) as [t|e] eqn:Et; [done|apply Hfail]. }
  intros own t [-> Ht]. unfold renewed_token in Ht.
  destruct (negb (is_successful a) || negb (truthy (raw_attr a "token"))) eqn:Es; [by destruct (get_error a)|].
  apply orb_false_iff in Es as [Hs%negb_false_iff _]. destruct (raw_attr a "token") as [| | | | | |token] eqn:Etok; try done.
  cbn [py_get mbind result_bind] in Ht. destruct (truthy (dget "access_token" token)) eqn:Hacc; [|done]. injection Ht as <-.
  intros s HJ HVs Hx. set (new := if truthy (dget "refresh_token" token) then dget "refresh_token" token else refresh x).
  pose proof (set_tokens_run (dget "access_token" token) new (dget "expires_in" token) s) as Hset. cbv zeta in Hset.
  assert (Hrun : store_renewal now (VDict token) s =
    match set_tokens now (dget "access_token" token) new (dget "expires_in" token) s with
    | (Ok _, s') => (Ok (access (tokens s')), s')
    | (Err e, s') => (Err e, s')
    end) by (unfold store_renewal, mbind, stM_bind, lift, gets; cbn; by rewrite Hx).
  rewrite Hrun. destruct (set_tokens now _ new _ s) as [o s'] eqn:E. cbn [fst snd] in Hset.
  destruct Hset as (H1 & H2 & H3 & H4).
  assert (HVy : V (tokens s')).
  { eapply Hrenewed; [exact HV|exact Hdue|]. exists disco, endpoint, a, token. rewrite H1, H2. subst new.
    split_and!; try done. by rewrite <- Hx. }
  destruct o as [[]|e]; cbn [fst snd guarded]; (split; [done|]); exists (tokens s'); split_and!; try done.
  intros t [= <-]. by rewrite H1.
Qed.

Lemma owned_get : owned None (guarded_end (λ r, ∀ t, r = Ok t → served t)) asked.
Proof using Hrenewed.
  unfold get_access_token. apply (owned_bind _ (λ own hit, own = None ∧ ∀ t, hit = Some t → served t)).
  { apply owned_read. intros s. destruct (current_token_run s) as [Ht Hr]. split; [done|]. intros HV _.
    destruct (current_token now st s) as [[[t|]|e] s']; cbn in *; [|done..]. split; [done|]. intros t' [= <-].
    destruct Hr as [[Hu _] ->]. by exists (tokens s). }
  intros own hit [-> Hhit]. destruct hit as [t|].
  { split; [done|]. intros t' [= <-]. by apply Hhit. }
  cbn [with_lock guarded]. rewrite bool_decide_eq_true_2 by done. split; [done|]. intros x HV.
  eapply (guarded_finish _ _ _ _ _ _ (λ own r, ∃ y, own = Some y ∧ V y ∧ ∀ t, r = Ok t → access y = t ∧ truthy t = true)).
  - apply (owned_bind _ (λ own hit, own = Some x ∧
      match hit with Some t => access x = t ∧ truthy t = true | None => due x end)).
    { apply owned_read. intros s. destruct (current_token_run s) as [Ht Hr]. split; [done|]. intros _ Hx.
      specialize (Hx x eq_refl). rewrite Hx in *.
      destruct (current_token now st s) as [[[t|]|e] s']; cbn in *; [| |by exists x].
      - destruct Hr as [[Hu _] ->]. done.
      - done. }
    intros own [t|] [-> Hr]; [|by apply owned_renew].
    exists x. split_and!; try done. by intros t' [= <-].
  - intros own r (y & -> & HVy & Hr). cbn [guarded]. rewrite bool_decide_eq_true_2 by done.
    split; [by exists y|]. split; [done|]. intros t Ht. destruct (Hr t Ht). by exists y.
Qed.

Lemma owned_manage c : (∀ a r e, c ≠ SetTokens a r e) →
  owned None (guarded_end (λ o, ∀ t, o = Ok (Token t) → served t)) (manage c).
Proof using Hrenewed.
  intros Hc. destruct c as [|a r e|c]; cbn [manage]; [|by destruct (Hc a r e)|].
  - eapply guarded_finish; [apply owned_get|]. intros own [t|e] [-> H]; (split; [done|]); [|done].
    intros t' [= <-]. by apply H.
  - eapply guarded_finish; [apply owned_app, safe_made|]. intros own [a|e] [-> H]; (split; [done|]); done.
Qed.
End Owned.

(** *** The rest of the application is left in order *)

Local Abbreviation calm c := (safe JM (λ _, True) c).
Lemma calm_bind {A B} (c : TM A) (k : A → TM B) : calm c → (∀ a, calm (k a)) → calm (c ≫= k).
Proof. intros Hc Hk. eapply safe_finish; [exact Hc|]. by intros [a|e] _; [apply Hk|]. Qed.
Lemma calm_atom {A} (m : stM Managed exn A) : (∀ s, app (m s).2 = app s) → calm (atom m : TM A).
Proof. intros H s Hs. split; [|done]. by rewrite H. Qed.
Lemma calm_app {A} (Q : outcome A → Prop) (c : AC A) :
  safe (λ s : AppState, aio_inv env (web http) (aio s)) Q c → calm (on_app c).
Proof.
  intros H. apply (safe_relock Library). eapply safe_post; [|done].
  by apply (safe_embed app set_app (λ _ _, eq_refl) (λ s, aio_inv env (web http) (aio s))).
Qed.
Lemma current_token_app s : app (current_token now st s).2 = app s.
Proof.
  unfold current_token, is_token_expired, mbind, stM_bind, gets. destruct (negb _); [done|].
  destruct (expires_at (tokens s)); [|done]. unfold datetime_now, lift. by destruct (within_window st).
Qed.
Lemma set_tokens_app a r e s : app (set_tokens now a r e s).2 = app s.
Proof.
  unfold set_tokens, mbind, stM_bind, modify. destruct (is_none e); [done|]. cbn. by destruct (expiry _ _).
Qed.
Lemma store_renewal_app token s : app (store_renewal now token s).2 = app s.
Proof.
  unfold store_renewal, mbind, stM_bind, lift, gets. destruct token; try done. cbn.
  set (new := if truthy _ then _ else _). pose proof (set_tokens_app (dget "access_token" d) new (dget "expires_in" d) s) as H.
  by destruct (set_tokens now _ new _ s) as [[]].
Qed.

Lemma calm_renew :
  calm (renew env http_date wall wall_clock uuid4 now nan_sleep encode text_of is_dir create_default_context
          load_cert_chain new_client http st).
Proof.
  unfold renew. apply calm_bind; [by apply calm_atom|intros r]. destruct (negb _); [done|].
  apply calm_bind.
  { unfold resolve_token_endpoint.
    apply calm_bind; [eapply calm_app, (kept_on_aio env http), kept_get_discovery_document|intros d].
    destruct (_ || _); [|done]. by apply calm_bind. }
  intros endpoint. apply calm_bind; [by apply calm_atom|intros r'].
  apply calm_bind; [eapply calm_app, safe_request|intros a].
  apply calm_bind; [done|intros t]. apply calm_atom, store_renewal_app.
Qed.

Lemma calm_manage c : calm (manage c).
Proof.
  destruct c as [|a r e|c]; cbn [manage]; (apply calm_bind; [|done]).
  - apply calm_bind; [apply calm_atom, current_token_app|intros [t|]; [done|]].
    cbn [with_lock safe]. apply (safe_finish _ (λ _, True)); [|done].
    apply calm_bind; [apply calm_atom, current_token_app|intros [t|]; [done|apply calm_renew]].
  - apply calm_atom, set_tokens_app.
  - eapply calm_app, safe_made.
Qed.

(** *** What callers can rely on *)

Lemma manager_owned V x calls order :
  (∀ x y, V x → due x → renewed x y → V y) → V x → Forall (λ c, ∀ a r e, c ≠ SetTokens a r e) calls →
  guarded_pool JM RefreshLock tokens V V (λ o, ∀ t, o = Ok (Token t) → ∃ x, V x ∧ access x = t ∧ truthy t = true)
    (schedule order (manager_pool x calls)).
Proof.
  intros HV Hx Hcalls. apply (guarded_reach _ _ _ _ _ (map (λ _ _, True) calls)) with (p := manager_pool x calls).
  - apply schedule_moves.
  - apply pool_safe_start; [apply tv_inv_forget, initial_tv_inv|].
    clear. induction calls as [|c cs IH]; constructor; [apply calm_manage|apply IH].
  - apply guarded_start; [done..|]. apply Forall_fmap. eapply Forall_impl; [exact Hcalls|]. intros c Hc.
    by apply owned_manage.
Qed.

(** C14: However many callers ask for the token at once, the renewals form a chain.  In every state
    of every interleaving with other calls of the library, the tokens of the manager come from the
    initial ones by successive refresh grants, each of which presented the refresh token its
    predecessor left, and was made when the tokens before it were due; so a rotated refresh token is
    not presented a second time by a renewal that is kept.  A token a caller gets is not empty and
    was the access token of one of them.  When what a renewal brings does not fall due again, the tokens are renewed
    at most once, and all callers get the old token or a token of that one renewal.  The
    application must not replace the tokens meanwhile. *)
Theorem refresh_chain x calls order :
  Forall (λ c, ∀ a r e, c ≠ SetTokens a r e) calls →
  let p := schedule order (manager_pool x calls) in
  let renewal := λ y z, due y ∧ renewed y z in
  (rtc renewal x (tokens (shared p)) ∧
   ∀ i t, results p !! i = Some (Some (Ok (Token t))) →
     truthy t = true ∧ ∃ y, rtc renewal x y ∧ access y = t) ∧
  ((∀ y, renewed x y → ¬ due y) →
   (tokens (shared p) = x ∨ renewal x (tokens (shared p))) ∧
   ∀ i t, results p !! i = Some (Some (Ok (Token t))) → t = access x ∨ ∃ y, renewed x y ∧ t = access y).
Proof.
  intros Hcalls p renewal. split.
  - destruct (manager_owned (rtc renewal x) x calls order) as (HV & Hp); [|done..|].
    { intros y z Hy Hd Hr. by eapply rtc_r. }
    split; [exact HV|]. intros i t Hi.
    destruct (guarded_result _ _ _ _ _ _ _ _ _ (conj HV Hp) Hi t eq_refl) as (y & Hy & Ha & Ht). split; [done|by exists y].
  - intros Hlive. destruct (manager_owned (λ y, y = x ∨ renewal x y) x calls order) as (HV & Hp); [|by left|done|].
    { intros y z [->|[_ Hy]] Hd Hr; [by right|]. by destruct (Hlive y Hy). }
    split; [exact HV|]. intros i t Hi.
    destruct (guarded_result _ _ _ _ _ _ _ _ _ (conj HV Hp) Hi t eq_refl) as (y & [->|[_ Hy]] & Ha & Ht); [by left|].
    right. by exists y.
Qed.

(** *** Every schedule ends *)

Definition manager_rank (l : manager_lock) : nat := match l with RefreshLock => 0 | Library l => 1 + rank l end.
Local Abbreviation orderly n c := (balanced manager_rank 3 n c).

Lemma orderly_app {A} n (c : AC A) : n ≤ 1 → tidy 0 c → orderly n (on_app c).
Proof.
  intros Hn Hc. apply (balanced_relock Library rank manager_rank 2 1 n); [by intros ?? [=]|done|done|].
  by apply balanced_embed.
Qed.

Context (Hbackoff : finite_backoff env).
#[local] Set Default Proof Using "Type Hbackoff".

Lemma orderly_renew :
  orderly 1 (renew env http_date wall wall_clock uuid4 now nan_sleep encode text_of is_dir create_default_context
               load_cert_chain new_client http st).
Proof.
  unfold renew. apply balanced_bind; [apply balanced_atom|intros r].
  apply balanced_if; [apply balanced_throw|]. apply balanced_bind.
  { unfold resolve_token_endpoint. apply balanced_bind.
    - apply orderly_app; [done|]. apply balanced_embed. by apply tidy_get_discovery_document.
    - intros d. apply balanced_if; [|apply balanced_pure].
      apply balanced_bind; [apply balanced_pure|intros e; apply balanced_throw]. }
  intros endpoint. apply balanced_bind; [apply balanced_atom|intros r'].
  apply balanced_bind; [apply orderly_app; [done|]; by apply tidy_request|intros a].
  apply balanced_bind; [apply balanced_pure|intros t; apply balanced_atom].
Qed.

Lemma orderly_manage c : orderly 0 (manage c).
Proof.
  destruct c as [|a r e|c]; cbn [manage]; (apply balanced_bind; [|intros a'; apply balanced_ret]).
  - unfold get_access_token. apply balanced_bind; [apply balanced_atom|intros [t|]; [apply balanced_ret|]].
    apply balanced_with_lock; [cbn; lia..|].
    apply balanced_bind; [apply balanced_atom|intros [t|]; [apply balanced_ret|apply orderly_renew]].
  - apply balanced_atom.
  - apply orderly_app; [lia|]. by apply tidy_made.
Qed.

Lemma manager_ends x calls order :
  let p := schedule order (manager_pool x calls) in
  ((¬ ∃ p', moves p p') → finished p) ∧ ∃ p', rtc moves p p' ∧ finished p'.
Proof.
  eapply (balanced_pool_ends manager_rank 3); [|apply schedule_moves].
  apply Forall_fmap, Forall_true. intros c. by apply orderly_manage.
Qed.
End Callers.

(** ** On concrete inputs *)

Definition demo_manager : ManagerSettings := NewManager op_address "app" None 300.
Definition stale : Tokens := NewTokens (VStr "stale") (VStr "r1") (Some 0%Q).
Definition refreshed (token : pyval) (n : nat) (c : http_client) (q : HttpRequest) : outcome HttpResponse :=
  if req_method q ≟ "POST" then Ok (reply 200 token) else demo_http "https://op.example/jwks" n (req_url q).
Definition fresh_token : pydict :=
  [("access_token", VStr "fresh"); ("refresh_token", VStr "r2"); ("expires_in", VInt 3600)].
Definition demo_managed (token : pyval) : Tokens → list manager_call → pool manager_lock Managed manager_result :=
  manager_pool empty_env no_dates 0 ticking demo_clock demo_uuid (λ _, 1000%Q) demo_header toy_new_pyjwk demo_decode
    (λ _ _ _, Ok []) (λ _, 0%Z) (λ _, 0%Z) (Ok ()) demo_sign (λ _, "") (λ _, false) (λ _, Ok ()) (λ _, Ok ())
    (λ _ _, Ok ()) (refreshed token) demo_manager.
Definition token_posts (p : pool manager_lock Managed manager_result) : nat :=
  length (List.filter (λ u, u ≟ "https://op.example/token") (sent (network (tv (aio (app (shared p))))))).
Definition outcomes (p : pool manager_lock Managed manager_result) : list (option (string + option exc)) :=
  (λ r, match r with
        | Some (Ok (Token (VStr t))) => Some (inl t)
        | Some (Err e) => Some (inr (Some (exn_class e)))
        | _ => Some (inr None)
        end) <$> results p.

(** Five callers, one grant. *)
Example manager_1 :
  let p := schedule (concat (replicate 40 [3; 1; 4; 0; 2])) (demo_managed (VDict fresh_token) stale (replicate 5 GetAccess)) in
  outcomes p = replicate 5 (Some (inl "fresh")) ∧ token_posts p = 1 ∧
  tokens (shared p) = NewTokens (VStr "fresh") (VStr "r2") (Some 4600%Q).
Proof. split_and!; vm_compute; reflexivity. Qed.
(** A lifetime that is a string: the caller gets a [TypeError], the tokens are replaced, the old
    expiry stays, and the next caller renews again. *)
Example manager_2 :
  let p := schedule (concat (replicate 40 [0; 1]))
             (demo_managed (VDict (dict_set "expires_in" (VStr "3600") fresh_token)) stale [GetAccess; GetAccess]) in
  outcomes p = [Some (inr (Some BTypeError)); Some (inr (Some BTypeError))] ∧ token_posts p = 2 ∧
  tokens (shared p) = NewTokens (VStr "fresh") (VStr "r2") (Some 0%Q).
Proof. split_and!; vm_compute; reflexivity. Qed.
(** A reply without a token, or a document without an endpoint, is reported as a response read
    wrongly. *)
Example manager_3 :
  outcomes (schedule (replicate 40 0) (demo_managed (VDict []) stale [GetAccess])) =
    [Some (inr (Some SuccessfulResponseAccessError))].
Proof. vm_compute. reflexivity. Qed.
(** Tokens the application sets while a grant is under way are lost. *)
Example manager_4 :
  let p := schedule (replicate 8 0 ++ 1 :: replicate 40 0)
             (demo_managed (VDict fresh_token) stale [GetAccess; SetTokens (VStr "new") (VStr "n1") VNone]) in
  refresh (tokens (shared p)) = VStr "r2".
Proof. vm_compute. reflexivity. Qed.
Example delta_1 : timedelta (VFloat (FFin (5 # 2000000))) = Ok (2 # 1000000)%Q ∧
  is_ok (timedelta (VInt 86400000000000)) = false.
Proof. split; vm_compute; reflexivity. Qed.

(** *** Witnesses *)

Definition demo_renewed : Tokens → Tokens → Prop :=
  renewed demo_clock demo_uuid (λ _, 1000%Q) demo_sign (λ _, "") (refreshed (VDict fresh_token)) demo_manager.

Lemma demo_renewal y : demo_renewed stale y → y = NewTokens (VStr "fresh") (VStr "r2") (Some (1000 + 3600)%Q).
Proof.
  intros (disco & endpoint & a & token & _ & _ & (a' & [= <-] & Hpost) & Hs & Ht & _ & Ha & _ & Hr & n & He).
  destruct (Hpost Hs) as (p & s & s' & c & r & _ & _ & (m & r1 & H1 & [[-> _]|(nonce & _ & _ & _ & _ & Hk & _)]) & Hproc); [|done].
  injection H1 as <-. injection Hproc as <-. injection Ht as <-. destruct y. cbn in *. by subst.
Qed.

Lemma refresh_chain_witness :
  let p := schedule (concat (replicate 40 [1; 0; 2])) (demo_managed (VDict fresh_token) stale (replicate 3 GetAccess)) in
  outcomes p = replicate 3 (Some (inl "fresh")) ∧
  (tokens (shared p) = stale ∨ demo_renewed stale (tokens (shared p))).
Proof.
  split; [vm_compute; reflexivity|].
  destruct (refresh_chain empty_env no_dates 0 ticking demo_clock demo_uuid (λ _, 1000%Q) demo_header toy_new_pyjwk
    demo_decode (λ _ _ _, Ok []) (λ _, 0%Z) (λ _, 0%Z) (Ok ()) demo_sign (λ _, "") (λ _, false) (λ _, Ok ())
    (λ _, Ok ()) (λ _ _, Ok ()) (refreshed (VDict fresh_token)) demo_manager stale (replicate 3 GetAccess)
    (concat (replicate 40 [1; 0; 2]))) as [_ Honce].
  - by repeat constructor.
  - destruct Honce as [[Hx|[_ Hx]] _]; [|by left|by right].
    intros y ->%demo_renewal [[=]|[n Hn]]. vm_compute in Hn. done.
Defined.
