(* ===== verification/Harness.v ===== *)
(** * The conformance relying party ([conformance/app.py])

    The application that drives the library through the OpenID conformance tests: it discovers a
    provider, registers a client, starts authorization requests (plain, by request object, or
    pushed as FAPI 2.0 has it), completes them in its callback, and logs out.  All protocol work is
    the library's; what is here is the order of its calls, the dictionaries between them, and what
    each route answers.

    The state is the library's, the clients of the process, and [Stores], the application's
    globals.  A route is a computation over it that answers a [reply] or raises what the framework
    turns into a server failure; routes run one after the other. *)

From S2P Require Import Prelude PyStr PyValue Models Url Codec Json Policy HttpRetry Discovery Jwks Jwt TokenValidation Callback UrlQuery AuthorizeUrl Responses ClientAuth Dpop Grants Replies Registration Clients Jar Jarm Logout.
From Stdlib Require Import QArith Ascii.
From stdpp Require Import strings.
#[global] Close Scope Q_scope.
Open Scope string_scope.
Open Scope list_scope.
Open Scope nat_scope.
Open Scope py_scope.

(** ** Log files *)

(** A character of the class [[A-Za-z0-9._-]]. *)
Definition is_path_char (c : ascii) : bool :=
  code_in 65 90 c || code_in 97 122 c || code_in 48 57 c ||
  (c ≟ "."%char) || (c ≟ "_"%char) || (c ≟ "-"%char).
Definition sanitize_path_component (value fallback : string) : string :=
  let safe := smap (λ c, if is_path_char c then c else "_"%char) value in
  if negb (nonempty safe) || sforall (λ c, c ≟ "."%char) safe then fallback else safe.

(** A path is its segments.  [resolve] follows the symbolic links of an absolute path. *)
Fixpoint is_relative_to (p base : list string) : bool :=
  match base, p with
  | [], _ => true
  | b :: base', s :: p' => (b ≟ s) && is_relative_to p' base'
  | _ :: _, [] => false
  end.
Definition unsafe_log_path (profile test_name : string) : exn :=
  ValueErr ("refusing unsafe RP log path (profile=" +:+ str_repr profile +:+ ", test=" +:+ str_repr test_name +:+ ")").
Definition rp_log_path (resolve : list string → list string) (log_base : list string) (profile test_name : string)
    : outcome (list string) :=
  let base := resolve log_base in
  let safe_profile := sanitize_path_component profile "default" in
  let safe_test := sanitize_path_component test_name "unknown" in
  let candidate := resolve (base ++ [safe_profile; safe_test +:+ ".log"]) in
  if is_relative_to candidate base then Ok candidate else Err (unsafe_log_path profile test_name).

(** ** Replies *)

Inductive content : Type :=
  | Html (body : string)
  | Json (v : pyval)
  | Media (body : string) (media_type : option string)
  | RedirectTo (url : string).
Record reply : Type := Reply { reply_status : Z; reply_content : content; reply_headers : list (string * string) }.

Definition html_reply (status : Z) (body : string) : reply := Reply status (Html body) [].
Definition json_reply (status : Z) (d : pydict) : reply := Reply status (Json (VDict d)) [].
Definition error_reply (status : Z) (err : string) (detail : pyval) : reply :=
  json_reply status [("error", VStr err); ("detail", detail)].
Definition redirect_reply (url : string) : reply := Reply 302 (RedirectTo url) [].

(** [html.escape]. *)
Definition html_escape_char (c : ascii) : string :=
  if c ≟ "&"%char then "&amp;"
  else if c ≟ "<"%char then "&lt;"
  else if c ≟ ">"%char then "&gt;"
  else if c ≟ dquote then "&quot;"
  else if c ≟ "'"%char then "&#x27;"
  else String c "".
Fixpoint html_escape (s : string) : string :=
  match s with EmptyString => EmptyString | String c s' => html_escape_char c +:+ html_escape s' end.

(** [<h1>title</h1><p>text</p>]. *)
Definition page (title text : string) : string := "<h1>" +:+ title +:+ "</h1><p>" +:+ text +:+ "</p>".
Definition paragraph (label : string) (v : pyval) : string :=
  "<p>" +:+ label +:+ ": " +:+ html_escape (py_str v) +:+ "</p>".

(** ** The application's globals *)

Record AuthSession : Type := Session {
  ses_issuer : string;
  ses_state : string;
  ses_nonce : string;
  ses_code_verifier : option string;
  ses_client_id : string;
  ses_client_secret : pyval;
  ses_redirect_uri : string;
  ses_skip_userinfo : bool;
  ses_id_token : pyval;
  ses_end_session_endpoint : pyval;
  ses_test_name : string;
  ses_profile : string;
  ses_fapi2 : bool;
  ses_dpop_key : option DPoPKey;
  ses_mtls : bool;
  ses_jarm : bool;
  ses_disco_address : string;
  ses_result : pydict;
}.
(** [AuthSession(issuer=issuer, state="", nonce="")] with a result. *)
Definition bare_session (issuer : string) (result : pydict) : AuthSession :=
  Session issuer "" "" None "" (VStr "") "" false (VStr "") (VStr "") "" "" false None false false "" result.
Definition with_result (f : pydict → pydict) (s : AuthSession) : AuthSession :=
  Session (ses_issuer s) (ses_state s) (ses_nonce s) (ses_code_verifier s) (ses_client_id s)
    (ses_client_secret s) (ses_redirect_uri s) (ses_skip_userinfo s) (ses_id_token s)
    (ses_end_session_endpoint s) (ses_test_name s) (ses_profile s) (ses_fapi2 s) (ses_dpop_key s)
    (ses_mtls s) (ses_jarm s) (ses_disco_address s) (f (ses_result s)).
Definition with_logout (id_token endpoint : pyval) (s : AuthSession) : AuthSession :=
  Session (ses_issuer s) (ses_state s) (ses_nonce s) (ses_code_verifier s) (ses_client_id s)
    (ses_client_secret s) (ses_redirect_uri s) (ses_skip_userinfo s) id_token endpoint (ses_test_name s)
    (ses_profile s) (ses_fapi2 s) (ses_dpop_key s) (ses_mtls s) (ses_jarm s) (ses_disco_address s) (ses_result s).

Record FlowContext : Type := NewFlow { fc_issuer : string; fc_client_id : string; fc_disco_address : string }.
Record LogoutContext : Type := NewLogout {
  lc_end_session_endpoint : pyval; lc_id_token : pyval; lc_client_id : string }.

(** A state parameter is looked up as the text it decodes to. *)
Record Stores : Type := NewStores {
  request_objects : gmap string string;
  sessions : gmap ustr AuthSession;
  test_results : gmap string AuthSession;
  last_flow_context : option FlowContext;
  last_logout_context : option LogoutContext;
  expected_logout_state : option string;
  registered_client : option (pyval * pyval);
}.
Definition no_stores : Stores := NewStores ∅ ∅ ∅ None None None None.

Definition put_request_object (id jwt : string) (s : Stores) : Stores :=
  NewStores (<[id := jwt]> (request_objects s)) (sessions s) (test_results s) (last_flow_context s)
    (last_logout_context s) (expected_logout_state s) (registered_client s).
Definition put_session (se : AuthSession) (s : Stores) : Stores :=
  NewStores (request_objects s) (<[text (ses_state se) := se]> (sessions s)) (test_results s)
    (last_flow_context s) (last_logout_context s) (expected_logout_state s) (registered_client s).
Definition pop_session (state : ustr) (s : Stores) : Stores :=
  NewStores (request_objects s) (delete state (sessions s)) (test_results s) (last_flow_context s)
    (last_logout_context s) (expected_logout_state s) (registered_client s).
Definition put_test_result (test_id : string) (se : AuthSession) (s : Stores) : Stores :=
  NewStores (request_objects s) (sessions s) (<[test_id := se]> (test_results s)) (last_flow_context s)
    (last_logout_context s) (expected_logout_state s) (registered_client s).
Definition set_flow_context (c : FlowContext) (s : Stores) : Stores :=
  NewStores (request_objects s) (sessions s) (test_results s) (Some c) (last_logout_context s)
    (expected_logout_state s) (registered_client s).
Definition set_logout_context (c : LogoutContext) (s : Stores) : Stores :=
  NewStores (request_objects s) (sessions s) (test_results s) (last_flow_context s) (Some c)
    (expected_logout_state s) (registered_client s).
Definition set_logout_state (o : option string) (s : Stores) : Stores :=
  NewStores (request_objects s) (sessions s) (test_results s) (last_flow_context s) (last_logout_context s)
    o (registered_client s).
Definition set_registered (id secret : pyval) (s : Stores) : Stores :=
  NewStores (request_objects s) (sessions s) (test_results s) (last_flow_context s) (last_logout_context s)
    (expected_logout_state s) (Some (id, secret)).

(** [_store_test_result]: a [test_id] in a result is a string. *)
Definition store_test_result (se : AuthSession) (s : Stores) : Stores :=
  match dget "test_id" (ses_result se) with
  | VStr ((String _ _) as test_id) => put_test_result test_id se s
  | _ => s
  end.

(** The globals set when the module is imported: the addresses, the generated keys and the mutual
    TLS certificate. *)
Record AppConfig : Type := NewApp {
  RP_BASE_URL : string;
  RP_INTERNAL_BASE_URL : string;
  rp_private_key_pem : blob;
  rp_jwks : pyval;
  rp_kid : string;
  FAPI2_CLIENT_KEY : DPoPKey;
  FAPI2_MTLS_CERT_PATH : string;
  FAPI2_MTLS_KEY_PATH : string;
  FAPI2_MTLS_JWKS : pyval;
}.
Definition FAPI2_CLIENT_KID : string := "fapi2-rp-key-1".
Definition FAPI2_SCOPE : string := "openid".
Definition FAPI2_ID_TOKEN_ALGS : list string := ["PS256"; "ES256"; "EdDSA"].
Definition FAPI2_RESOURCE_PATH : string := "open-banking/v1.1/accounts".

(** Everything a route reads and writes: the library's state, whether this thread and the
    application have their clients, the clients built for one request, the globals. *)
Record Harness : Type := NewHarness {
  h_tv : TVState;
  h_thread_client : bool;
  h_open_clients : list MtlsClientAuth;
  h_http_client : option HTTPClient;
  stores : Stores;
}.
Definition initial_harness : Harness := NewHarness initial_state false [] None no_stores.
Definition set_stores (x : Stores) (s : Harness) : Harness :=
  NewHarness (h_tv s) (h_thread_client s) (h_open_clients s) (h_http_client s) x.

Definition on_tv {A} (m : stM TVState exn A) : stM Harness exn A :=
  zoom h_tv (λ t s, NewHarness t (h_thread_client s) (h_open_clients s) (h_http_client s) (stores s)) m.
Definition on_transport {A} (m : stM transport exn A) : stM Harness exn A :=
  zoom (λ s, Transport (network (h_tv s)) (h_thread_client s) (h_open_clients s))
    (λ t s, NewHarness (set_network (wire t) (h_tv s)) (thread_client t) (open_clients t) (h_http_client s) (stores s)) m.

(** *** Routes

    A route may answer early. *)

Definition Route (A : Type) : Type := stM Harness exn (reply + A).
#[export] Instance route_ret : MRet Route := λ A a s, (Ok (inr a), s).
#[export] Instance route_bind : MBind Route := λ A B f m s,
  match m s with
  | (Ok (inr a), s') => f a s'
  | (Ok (inl r), s') => (Ok (inl r), s')
  | (Err e, s') => (Err e, s')
  end.
Definition answer {A} (r : reply) : Route A := λ s, (Ok (inl r), s).
Definition answer_if (b : bool) (r : reply) : Route unit := if b then answer r else mret ().
Definition io {A} (m : stM Harness exn A) : Route A := λ s,
  match m s with (Ok a, s') => (Ok (inr a), s') | (Err e, s') => (Err e, s') end.
Definition raises {A} (r : outcome A) : Route A := io (lift r).
Definition reads {A} (f : Stores → A) : Route A := io (gets (λ s, f (stores s))).
Definition writes (f : Stores → Stores) : Route unit := io (modify (λ s, set_stores (f (stores s)) s)).
(** [try: m except e: h e]. *)
Definition attempt {A} (m : Route A) (h : exn → Route A) : Route A := λ s,
  match m s with (Err e, s') => h e s' | done => done end.

(** [flag.lower() == "true"], [f"{o}"] of an optional string. *)
Definition is_true (flag : string) : bool := lower flag ≟ "true".
Definition show_option (o : option string) : string := default "None" o.
Definition option_value (o : option string) : pyval := match o with Some s => VStr s | None => VNone end.
(** [v or ""]. *)
Definition or_empty (v : pyval) : pyval := if truthy v then v else VStr "".

(** [s.rsplit(sub, 1)[0]]. *)
Fixpoint before_last (sub s : string) : option string :=
  match s with
  | EmptyString => None
  | String c s' =>
      match before_last sub s' with
      | Some r => Some (String c r)
      | None => if startswith s sub then Some EmptyString else None
      end
  end.

(** The queries of the routes. *)
Record AuthorizeQuery : Type := NewAuthorize {
  q_issuer : string; q_client_id : string; q_client_secret : string; q_test_id : string;
  q_test_name : string; q_profile : string; q_use_pkce : string; q_skip_userinfo : string;
  q_use_request_uri : string; q_scope : string; q_fapi2 : string; q_jarm : string; q_mtls : string }.

(** What a request draws: the bytes of its [i]-th use of [secrets], and a key pair. *)
Record Fresh : Type := NewFresh { fresh_bytes : nat → nat → bytes; fresh_key : string → key_pair }.
Definition fresh_token (f : Fresh) (i n : nat) : string := token_urlsafe (fresh_bytes f i) n.

(** A callback's response: parsed from its parameters, or built from the claims of a JARM token. *)
Inductive callback_response : Type :=
  | Plain (r : AuthorizeCallbackResponse)
  | Signed (r : JarmResponse).

(** A claim as the text a validator compares; one of another type equals no non-empty text. *)
Definition claim_text (v : pyval) : option ustr :=
  match v with VNone => None | VStr s => Some (text s) | _ => Some [] end.
Definition as_callback (cb : callback_response) : AuthorizeCallbackResponse :=
  match cb with
  | Plain r => r
  | Signed r =>
      let t name := claim_text (jr_field r name) in
      Callback (jr_is_successful r) (show_text (jr_raw r)) [] (t "code") (t "access_token") (t "identity_token")
        (t "token_type") None (t "scope") (t "refresh_token") (t "state") (t "session_state") (t "issuer")
        (t "error") (t "error_description")
  end.
(** [cb_response.state] as a key of [sessions]: an unhashable claim raises, another one that is no
    string is no key. *)
Definition state_key (cb : callback_response) : outcome (option ustr) :=
  match cb with
  | Plain r => Ok (cb_state r)
  | Signed r =>
      match jr_field r "state" with
      | VStr s => Ok (Some (text s))
      | VList _ | VDict _ => Err (TypeErr ("unhashable type: '" +:+ type_name (jr_field r "state") +:+ "'"))
      | _ => Ok None
      end
  end.

(** [AuthorizeCallbackValidationResult.value]. *)
Definition result_value (r : AuthorizeCallbackValidationResult) : string :=
  match r with
  | SUCCESS => "success" | STATE_MISMATCH => "state_mismatch" | MISSING_STATE => "missing_state"
  | ERROR_RESPONSE => "error_response" | ISSUER_MISMATCH => "issuer_mismatch"
  | MISSING_ISSUER => "missing_issuer"
  end.

(** ** The routes *)

Section Routes.
Context (env : string → option string) (http_date : string → option Q) (wall : Q).
Context (clock wall_clock : nat → Q) (uuid4 : nat → string).
Context (get_unverified_header : string → outcome pydict).
Context {PyJWK : Type} (new_pyjwk : pydict → option pyval → outcome PyJWK).
Context (decode : nat → string → PyJWK → DecodeArgs → outcome pydict).
Context (encode : nat → pydict → blob → string → pydict → outcome string).
Context (text_of : HttpResponse → string).
Context (is_dir : string → bool) (create_default_context : trust → outcome unit).
Context (load_cert_chain : list string → outcome unit).
Context (new_client : option string → pyfloat → outcome unit).
(** [httpx.Client(verify=False, timeout=..)]: the client it makes. *)
Context (insecure_client : pyfloat → outcome nat).
Context (http : nat → http_client → HttpRequest → outcome HttpResponse).
(** The code of a callback, as the form of the token request holds it. *)
Context (code_text : ustr → string).
Context (app : AppConfig).

Let requested (q : oauth_request) (managed : option HTTPClient) : Route BaseResponse :=
  io (on_transport (request env http_date wall wall_clock uuid4 encode text_of is_dir create_default_context
    load_cert_chain new_client http q managed)).
Let userinfo_call (r : UserInfoRequest) (managed : option HTTPClient) : stM Harness exn BaseResponse :=
  on_transport (get_userinfo env http_date wall wall_clock uuid4 encode text_of is_dir create_default_context
    load_cert_chain new_client http r managed).
Let validate header := validate_token env http_date wall (web http) clock header new_pyjwk decode.

(** [_get_http_client]. *)
Definition shared_http_client : Route HTTPClient := λ s,
  match h_http_client s with
  | Some h => (Ok (inr h), s)
  | None =>
      match (timeout ← get_timeout env; insecure_client timeout) with
      | Ok i => (Ok (inr (Managed i true false)),
                 NewHarness (h_tv s) (h_thread_client s) (h_open_clients s) (Some (Managed i true false)) (stores s))
      | Err e => (Err e, s)
      end
  end.

(** The GETs of a managed client. *)
Definition op_web (h : HTTPClient) (n : nat) (url : string) : outcome HttpResponse :=
  http n (ManagedClient (inner h)) (Request "GET" url [] [] None).
Definition harness_policy : DiscoveryPolicy := policy_with_https false.
Definition get_discovery (h : HTTPClient) (address : string) : Route DiscoveryDocumentResponse :=
  io (on_tv (on_net (get_discovery_document env http_date wall (op_web h) address (Some harness_policy)))).

Definition raise {A} (e : exn) : Route A := λ s, (Err e, s).

(** *** Before the redirect *)

(** [if test_id: test_results[test_id] = ..]. *)
Definition record_error (test_id issuer err : string) : Route unit :=
  writes (λ x, if nonempty test_id then
    put_test_result test_id (bare_session issuer
      [("test_id", VStr test_id); ("status", VStr "error"); ("error", VStr err)]) x else x).

(** How [/discover], [/register] and [/authorize] begin; [/register] has no [test_id]. *)
Definition begin (h : HTTPClient) (test_id issuer : string)
    : Route (DiscoveryEndpoint * DiscoveryDocumentResponse) :=
  match parse_discovery_url issuer with
  | Ok ep =>
      disco ← get_discovery h (ep_url ep);
      if negb (disco_is_successful disco) then
        err ← raises (disco_get_error disco);
        _ ← record_error test_id issuer ("discovery_failed: " +:+ show_option err);
        answer (error_reply 502 "discovery_failed" (option_value err))
      else mret (ep, disco)
  | Err e =>
      if isinstance e ConfigurationException then
        _ ← record_error test_id issuer ("invalid_issuer: " +:+ message e);
        answer (error_reply 400 "invalid_issuer" (VStr "Invalid issuer URL"))
      else raise e
  end.

Definition discover (issuer test_id : string) : Route reply :=
  h ← shared_http_client;
  '(_, disco) ← begin h test_id issuer;
  iss ← raises (disco_attr disco "issuer");
  _ ← writes (λ x, if nonempty test_id then
        put_test_result test_id (bare_session issuer
          [("test_id", VStr test_id); ("status", VStr "success"); ("issuer", iss)]) x else x);
  mret (json_reply 200 [("status", VStr "ok"); ("issuer", iss)]).

Definition registration_request (endpoint : string) : ClientRegistrationRequest :=
  RegReq endpoint
    [("redirect_uris", VList [VStr (RP_BASE_URL app +:+ "/callback")]);
     ("client_name", VStr "py-identity-model-dynamic-rp");
     ("grant_types", VList [VStr "authorization_code"]); ("response_types", VList [VStr "code"]);
     ("token_endpoint_auth_method", VStr "client_secret_basic")]
    [("jwks", rp_jwks app); ("request_object_signing_alg", VStr "RS256")] None.

Definition register (issuer : string) : Route reply :=
  h ← shared_http_client;
  '(_, disco) ← begin h "" issuer;
  endpoint ← raises (disco_attr disco "registration_endpoint");
  if negb (truthy endpoint) then
    answer (error_reply 400 "registration_not_supported" (VStr "OP discovery has no registration_endpoint"))
  else
    endpoint ← raises (as_address endpoint);
    response ← io (on_transport (register_client env http_date wall text_of new_client http
                 (registration_request endpoint) (Some h)));
    if negb (is_successful response) then
      err ← raises (get_error response);
      answer (error_reply 400 "registration_failed" err)
    else
      id ← raises (get_attr response "client_id");
      secret ← raises (get_attr response "client_secret");
      _ ← writes (set_registered (or_empty id) (or_empty secret));
      mret (json_reply 200 [("status", VStr "ok"); ("client_id", id)]).

(** The secret of a registered client, which its caller cannot know. *)
Definition known_secret (x : Stores) (q : AuthorizeQuery) : pyval :=
  match registered_client x with
  | Some (id, secret) =>
      if py_eq (VStr (q_client_id q)) id && truthy secret then secret else VStr (q_client_secret q)
  | None => VStr (q_client_secret q)
  end.

(** The document's issuer against the one asked for. *)
Definition issuer_mismatch (disco_issuer : pyval) (issuer : string) : string :=
  "Issuer mismatch: discovery document issuer '" +:+ py_str disco_issuer +:+ "' does not match expected '" +:+
  issuer +:+ "'".
Definition missing_issuer : string := "Discovery document missing required 'issuer' field".
Definition check_issuer (disco : DiscoveryDocumentResponse) (test_id issuer : string) : Route unit :=
  iss ← raises (disco_attr disco "issuer");
  if negb (truthy iss) then
    _ ← record_error test_id issuer ("missing_issuer: " +:+ missing_issuer);
    answer (error_reply 502 "missing_issuer" (VStr missing_issuer))
  else if negb (py_eq iss (VStr issuer)) then
    _ ← record_error test_id issuer ("issuer_mismatch: " +:+ issuer_mismatch iss issuer);
    answer (error_reply 502 "issuer_mismatch" (VStr (issuer_mismatch iss issuer)))
  else mret ().

Definition missing_authorization_endpoint : reply :=
  error_reply 502 "missing_endpoint" (VStr "Discovery document missing authorization_endpoint").
Definition callback_uri : string := RP_BASE_URL app +:+ "/callback".

(** A session goes under its state, its flow becomes the last one, and the browser is sent away. *)
Definition start_flow (test_id issuer disco_address auth_url : string) (se : AuthSession) : Route reply :=
  let se := if nonempty test_id then with_result (dict_set "test_id" (VStr test_id)) se else se in
  _ ← writes (put_session se);
  _ ← writes (set_flow_context (NewFlow issuer (ses_client_id se) disco_address));
  mret (redirect_reply auth_url).

(** [urlencode] of a dictionary, after a separator. *)
Definition with_query (endpoint separator : string) (params : list (string * ustr)) : outcome string :=
  q ← urlencode (map (λ kv, (text kv.1, kv.2)) params);
  Ok (endpoint +:+ separator +:+ q).

(** The URL by request object: signed, kept under an identifier, and named. *)
Definition request_uri_url (f : Fresh) (q : AuthorizeQuery) (endpoint state nonce : string)
    (challenge : option string) : Route string :=
  object ← io (on_tv (on_net (create_request_object wall_clock uuid4 encode (rp_private_key_pem app) "RS256"
             (q_client_id q) (q_issuer q) callback_uri (q_scope q) "code" (Some state) (Some nonce) challenge
             ((λ _, "S256") <$> challenge) 300 (Some (rp_kid app)) [])));
  let obj_id := fresh_token f 3 16 in
  _ ← writes (put_request_object obj_id object);
  raises (with_query endpoint (if contains endpoint "?" then "&" else "?")
    [("client_id", text (q_client_id q));
     ("request_uri", text (RP_INTERNAL_BASE_URL app +:+ "/request-object/" +:+ obj_id));
     ("scope", text (q_scope q)); ("response_type", text "code")]).

Definition plain_url (q : AuthorizeQuery) (endpoint state nonce : string) (challenge : option string)
    : outcome string :=
  build_authorization_url endpoint (text (q_client_id q)) (text callback_uri) (text (q_scope q)) (text "code")
    (Some (text state)) (Some (text nonce)) (text <$> challenge) ((λ _, text "S256") <$> challenge) [].

(** The authorization request that is not FAPI 2.0's; [disco.issuer] is [q_issuer q] by then. *)
Definition authorize_plain (f : Fresh) (q : AuthorizeQuery) (secret : pyval) (ep : DiscoveryEndpoint)
    (disco : DiscoveryDocumentResponse) : Route reply :=
  let state := fresh_token f 0 32 in
  let nonce := fresh_token f 1 32 in
  pkce ← raises (if is_true (q_use_pkce q)
                 then Some <$> generate_pkce_pair (fresh_bytes f 2) "S256" DEFAULT_VERIFIER_LENGTH else Ok None);
  endpoint ← raises (disco_attr disco "authorization_endpoint");
  if is_none endpoint then answer missing_authorization_endpoint
  else
    endpoint ← raises (as_address endpoint);
    auth_url ← (if is_true (q_use_request_uri q)
                then request_uri_url f q endpoint state nonce (snd <$> pkce)
                else raises (plain_url q endpoint state nonce (snd <$> pkce)));
    start_flow (q_test_id q) (q_issuer q) (ep_url ep) auth_url
      (Session (q_issuer q) state nonce (fst <$> pkce) (q_client_id q) secret callback_uri
         (is_true (q_skip_userinfo q)) (VStr "") (VStr "") (q_test_name q) (q_profile q) false None false false "" []).

(** *** FAPI 2.0 *)

Definition fapi2_public_jwk : outcome pydict :=
  jwk ← public_jwk (public (dpop_private_key (FAPI2_CLIENT_KEY app)));
  Ok (dict_set "alg" (VStr "ES256") (dict_set "use" (VStr "sig") (dict_set "kid" (VStr FAPI2_CLIENT_KID) jwk))).
Definition fapi2_private_key_jwt (audience : string) : PrivateKeyJwt :=
  PrivateKey (Bytes (pem (dpop_private_key (FAPI2_CLIENT_KEY app)))) "ES256" (Some FAPI2_CLIENT_KID)
    (Some audience) 300.
Definition fapi2_mtls_auth : MtlsClientAuth :=
  Mtls (FAPI2_MTLS_CERT_PATH app) (FAPI2_MTLS_KEY_PATH app) None "self_signed_tls_client_auth".

(** How a client of the profile authenticates: by certificate, or by a signed assertion. *)
Definition fapi2_client (id issuer : string) (mtls : bool) : Client :=
  if mtls then ClientFields id None None (Some fapi2_mtls_auth)
  else ClientFields id None (Some (fapi2_private_key_jwt issuer)) None.

Definition no_par_endpoint : string := "OP does not advertise a pushed_authorization_request_endpoint".

(** [disco.issuer or issuer] is [q_issuer q], whose equality [authorize] has checked. *)
Definition authorize_fapi2 (h : HTTPClient) (f : Fresh) (q : AuthorizeQuery) (ep : DiscoveryEndpoint)
    (disco : DiscoveryDocumentResponse) : Route reply :=
  let mtls := is_true (q_mtls q) in
  let jarm := is_true (q_jarm q) in
  let issuer := q_issuer q in
  par_endpoint ← raises (if mtls then resolve_mtls_endpoint disco "pushed_authorization_request_endpoint"
                         else disco_attr disco "pushed_authorization_request_endpoint");
  if negb (truthy par_endpoint) then
    _ ← record_error (q_test_id q) issuer ("par_not_supported: " +:+ no_par_endpoint);
    answer (error_reply 400 "par_not_supported" (VStr no_par_endpoint))
  else
    endpoint ← raises (disco_attr disco "authorization_endpoint");
    if is_none endpoint then answer missing_authorization_endpoint
    else
      let state := fresh_token f 0 32 in
      let nonce := fresh_token f 1 32 in
      '(verifier, challenge) ← raises (generate_pkce_pair (fresh_bytes f 2) "S256" DEFAULT_VERIFIER_LENGTH);
      key ← raises (if mtls then Ok None
                    else Some <$> generate_dpop_key (fresh_key f) (λ _ _, fresh_key f "RSA") "ES256");
      address ← raises (as_address par_endpoint);
      par ← requested (Par (PARReq address (fapi2_client (q_client_id q) issuer mtls) callback_uri FAPI2_SCOPE "code"
               (Some state) (Some nonce) (Some challenge) (Some "S256") key (if jarm then Some "jwt" else None)))
             (if mtls then None else Some h);
      uri ← raises (if is_successful par then get_attr par "request_uri" else Ok VNone);
      if negb (truthy uri) then
        err ← raises (get_error par);
        _ ← record_error (q_test_id q) issuer ("par_failed: " +:+ py_str err);
        answer (error_reply 400 "par_failed" err)
      else
        auth_url ← raises (with_query (py_str endpoint) "?"
          [("client_id", text (q_client_id q)); ("request_uri", text (py_str uri))]);
        start_flow (q_test_id q) issuer (ep_url ep) auth_url
          (Session issuer state nonce (Some verifier) (q_client_id q) (VStr "") callback_uri
             (is_true (q_skip_userinfo q)) (VStr "") (VStr "") (q_test_name q) (q_profile q) true key mtls jarm
             (ep_url ep) []).

Definition authorize (f : Fresh) (q : AuthorizeQuery) : Route reply :=
  h ← shared_http_client;
  secret ← reads (λ x, known_secret x q);
  '(ep, disco) ← begin h (q_test_id q) (q_issuer q);
  _ ← check_issuer disco (q_test_id q) (q_issuer q);
  if is_true (q_fapi2 q) || is_true (q_jarm q) || is_true (q_mtls q)
  then authorize_fapi2 h f q ep disco
  else authorize_plain f q secret ep disco.

(** *** The callback *)

(** An error recorded as the session's result, and the page that shows it. *)
Definition failed (err : string) : AuthSession → AuthSession :=
  with_result (λ d, dict_set "error" (VStr err) (dict_set "status" (VStr "error") d)).
Definition reject {A} (se : AuthSession) (err : string) (status : Z) (body : string) : Route A :=
  _ ← writes (store_test_result (failed err se));
  answer (html_reply status body).

Definition fetch_and_validate_discovery (h : HTTPClient) (se : AuthSession)
    : Route (DiscoveryDocumentResponse * DiscoveryEndpoint) :=
  let issuer := ses_issuer se in
  match parse_discovery_url issuer with
  | Err e =>
      if isinstance e ConfigurationException then
        reject se ("invalid_issuer: " +:+ message e) 400 (page "Invalid Issuer" "Discovery URL is invalid")
      else raise e
  | Ok ep =>
      disco ← get_discovery h (ep_url ep);
      if negb (disco_is_successful disco) then
        err ← raises (disco_get_error disco);
        reject se ("discovery_failed: " +:+ show_option err) 502
          (page "Discovery Failed" (html_escape (show_option err)))
      else
        iss ← raises (disco_attr disco "issuer");
        if negb (truthy iss) then
          reject se ("missing_issuer: " +:+ missing_issuer) 502
            (page "Missing Issuer" (html_escape missing_issuer))
        else if negb (py_eq iss (VStr issuer)) then
          reject se ("issuer_mismatch: " +:+ issuer_mismatch iss issuer) 502
            (page "Issuer Mismatch" (html_escape (issuer_mismatch iss issuer)))
        else mret (disco, ep)
  end.

Definition validate_fapi2_callback_issuer (cb : callback_response) (disco : DiscoveryDocumentResponse)
    (se : AuthSession) : Route unit :=
  if negb (ses_fapi2 se) then mret ()
  else
    iss ← raises (disco_attr disco "issuer");
    verdict ← raises (validate_authorize_callback_issuer (as_callback cb) (claim_text iss) false true);
    let value := result_value (validation_result verdict) in
    if is_valid verdict then mret ()
    else reject se ("iss_validation: " +:+ value) 400
           (page "Issuer (RFC 9207) Validation Failed" (html_escape value)).

Definition client_for_session (se : AuthSession) (h : HTTPClient) : option HTTPClient :=
  if ses_mtls se then None else Some h.

(** The token request of a session.  A registered secret of another type than a string makes the
    library's authentication fail ([exchange_code]). *)
Definition session_client (se : AuthSession) : Client :=
  if ses_mtls se then ClientFields (ses_client_id se) None None (Some fapi2_mtls_auth)
  else if ses_fapi2 se then
    ClientFields (ses_client_id se) None (Some (fapi2_private_key_jwt (ses_issuer se))) None
  else ClientFields (ses_client_id se)
         (match ses_client_secret se with VStr ((String _ _) as s) => Some s | _ => None end) None None.
Definition build_auth_code_token_request (se : AuthSession) (disco : DiscoveryDocumentResponse) (code : string)
    : outcome AuthorizationCodeTokenRequest :=
  endpoint ← (if ses_mtls se then or_empty <$> resolve_mtls_endpoint disco "token_endpoint"
              else disco_attr disco "token_endpoint");
  address ← as_address endpoint;
  Ok (ACReq address (session_client se) code (ses_redirect_uri se) (ses_code_verifier se) None
        (if ses_fapi2 se && negb (ses_mtls se) then ses_dpop_key se else None)).

Definition not_quotable (se : AuthSession) : bool :=
  negb (ses_mtls se) && negb (ses_fapi2 se) && truthy (ses_client_secret se) && negb (is_str (ses_client_secret se)).
Definition exchange_code (h : HTTPClient) (se : AuthSession) (disco : DiscoveryDocumentResponse) (code : string)
    : Route BaseResponse :=
  r ← raises (build_auth_code_token_request se disco code);
  if not_quotable se then mret (handle (Ac r) (TypeErr "quote_from_bytes() expected bytes"))
  else requested (Ac r) (client_for_session se h).

(** An access token in a header; a DPoP proof is made of a string only. *)
Definition presented (key : option DPoPKey) (access_token : pyval) : outcome string :=
  match access_token, key with
  | VStr s, _ => Ok s
  | v, Some _ => Err (AttributeError v "strip")
  | v, None => Ok (py_str v)
  end.
Definition resource_key (se : AuthSession) : option DPoPKey :=
  if ses_fapi2 se && negb (ses_mtls se) then ses_dpop_key se else None.
Definition resource_mtls (se : AuthSession) : option MtlsClientAuth :=
  if ses_mtls se then Some fapi2_mtls_auth else None.

(** [try: userinfo_call except PyIdentityModelException]: its text, or the response. *)
Definition caught_userinfo (r : UserInfoRequest) (managed : option HTTPClient) : Route (string + BaseResponse) :=
  io (try_except (a ← userinfo_call r managed; mret (inr a))
        (λ e, if isinstance e PyIdentityModelException then mret (inl (message e)) else mthrow e)).

(** The session comes back because a tolerated exception is noted in its result. *)
Definition fetch_userinfo (h : HTTPClient) (se : AuthSession) (disco : DiscoveryDocumentResponse)
    (access_token expected_sub : pyval) : Route (AuthSession * pyval) :=
  endpoint ← raises (disco_attr disco "userinfo_endpoint");
  if negb (truthy access_token) || negb (truthy endpoint) || ses_skip_userinfo se then mret (se, VDict [])
  else
    endpoint ← raises (if ses_mtls se then resolve_mtls_endpoint disco "userinfo_endpoint" else Ok endpoint);
    address ← raises (as_address endpoint);
    token ← raises (presented (resource_key se) access_token);
    ui ← caught_userinfo (UIReq address token expected_sub (resource_key se) (resource_mtls se))
           (client_for_session se h);
    match ui with
    | inl msg => mret (with_result (dict_set "userinfo_error" (VStr msg)) se, VDict [])
    | inr ui =>
        if is_successful ui then
          claims ← raises (get_attr ui "claims");
          mret (se, if truthy claims then claims else VDict [])
        else
          err ← raises (get_error ui);
          reject se ("userinfo_validation: " +:+ py_str err) 400
            (page "UserInfo Validation Failed" (html_escape (py_str err)))
    end.

Definition id_token_validation_params (se : AuthSession) : pydict * option (list pyval) :=
  if ses_fapi2 se then
    ([("verify_exp", VBool true); ("require", VList (strs ["sub"; "iat"; "exp"; "aud"]))],
     Some (strs FAPI2_ID_TOKEN_ALGS))
  else ([("verify_exp", VBool true); ("require", VList (strs ["sub"; "iat"]))], None).
Definition id_token_config (se : AuthSession) (iss : pyval) : TokenValidationConfig :=
  TVConfig true (KeyOther VNone) (VStr (ses_client_id se)) (id_token_validation_params se).2 iss VNone
    (Some (id_token_validation_params se).1) None false VNone None None.

(** A value that is no string reaches PyJWT, which does not read it. *)
Definition validate_value (id_token : pyval) (c : TokenValidationConfig) (address : string) : Route pydict :=
  io (on_tv match id_token with
            | VStr jwt => validate get_unverified_header jwt c (Some address) false
            | _ => validate not_a_token "" c (Some address) false
            end).

(** The audiences of a token, and those that are not the client. *)
Definition aud_values (claims : pydict) : list pyval :=
  match dget "aud" claims with VList l => l | v => [v] end.
Definition untrusted_audiences (se : AuthSession) (claims : pydict) : list pyval :=
  List.filter (λ a, negb (py_eq a (VStr (ses_client_id se)))) (aud_values claims).
Definition validate_fapi2_audience (se : AuthSession) (claims : pydict) : Route unit :=
  let untrusted := untrusted_audiences se claims in
  if negb (ses_fapi2 se) || (length untrusted =? 0) then mret ()
  else
    let shown := py_repr (VList untrusted) in
    reject se ("untrusted_audience: " +:+ shown) 400 (page "Untrusted Audience" (html_escape shown)).

(** [if id_token_jwt: ..]: without an ID token there are no claims, and nothing is checked. *)
Definition check_id_token (se : AuthSession) (disco : DiscoveryDocumentResponse) (ep : DiscoveryEndpoint)
    (id_token : pyval) : Route pydict :=
  if negb (truthy id_token) then mret []
  else
    iss ← raises (disco_attr disco "issuer");
    claims ← attempt (validate_value id_token (id_token_config se iss) (ep_url ep))
      (λ e, if isinstance e TokenValidationException
            then reject se ("id_token_validation: " +:+ message e) 400
                   (page "ID Token Validation Failed" (html_escape (message e)))
            else raise e);
    let got := dget "nonce" claims in
    if negb (py_eq got (VStr (ses_nonce se))) then
      reject se ("nonce_mismatch: expected=" +:+ ses_nonce se +:+ ", got=" +:+ py_str got) 400
        (page "Nonce Mismatch" ("Expected: " +:+ html_escape (ses_nonce se) +:+ ", Got: " +:+ html_escape (py_str got)))
    else
      _ ← validate_fapi2_audience se claims;
      mret claims.

(** The request to the accounts endpoint, whose outcome is only logged. *)
Definition resource_address (se : AuthSession) (disco : DiscoveryDocumentResponse) : outcome string :=
  if ses_mtls se then
    endpoint ← resolve_mtls_endpoint disco "token_endpoint";
    mtls_token ← as_address (or_empty endpoint);
    Ok (rstrip_char "/" (default mtls_token (before_last "/token" mtls_token)) +:+ "/" +:+ FAPI2_RESOURCE_PATH)
  else Ok (rstrip_char "/" (ses_issuer se) +:+ "/" +:+ FAPI2_RESOURCE_PATH).
Definition fetch_fapi2_resource (h : HTTPClient) (se : AuthSession) (disco : DiscoveryDocumentResponse)
    (access_token : pyval) : Route unit :=
  if negb (ses_fapi2 se && truthy access_token) then mret ()
  else if negb (ses_mtls se) && negb (is_some (ses_dpop_key se)) then mret ()
  else
    address ← raises (resource_address se disco);
    token ← raises (presented (resource_key se) access_token);
    _ ← caught_userinfo (UIReq address token VNone (resource_key se) (resource_mtls se)) (client_for_session se h);
    mret ().

(** A JARM token is verified for the last flow started: its state is inside it. *)
Definition process_jarm (h : HTTPClient) (request_url : string) (ctx : option FlowContext) : Route JarmResponse :=
  io (on_tv (λ t,
    let '(r, n) := process_jarm_response env http_date wall (op_web h) get_unverified_header new_pyjwk
      (decode (decodes t)) request_url (default "" (fc_client_id <$> ctx)) (fc_disco_address <$> ctx) None None None
      false (VInt 0) false (network t) in
    (r, set_decodes (S (decodes t)) (set_network n t)))).
Definition parse_callback (h : HTTPClient) (request_url : string) : Route callback_response :=
  attempt
    (jarm ← raises (is_jarm_response (VStr request_url));
     if jarm : bool then
       ctx ← reads last_flow_context;
       r ← process_jarm h request_url ctx;
       mret (Signed r)
     else
       r ← raises (parse_authorize_callback_response (VStr request_url));
       mret (Plain r))
    (λ e,
      if isinstance e JarmValidationException || isinstance e TokenValidationException
      then answer (html_reply 400 (page "JARM Validation Failed" (html_escape (message e))))
      else if isinstance e PyIdentityModelException
      then answer (html_reply 400 (page "Callback Error" "Failed to parse callback"))
      else raise e).

(** [cb_response.code], as the request holds it: a claim of another type as its text. *)
Definition callback_code (cb : callback_response) : outcome (option string) :=
  match cb with
  | Plain r => code ← callback_attr r "code" cb_code; Ok (fmap (M:=option) code_text code)
  | Signed r =>
      code ← jr_attr r "code";
      Ok (if is_none code then None else Some (py_str code))
  end.

Definition success_page (claims : pydict) (userinfo : pydict) : string :=
  let claim name := default (VStr "N/A") (dict_get name claims) in
  "<h1>Authentication Successful</h1>" +:+
  str_join (String (char_of 10) "")
    ([paragraph "Subject" (claim "sub"); paragraph "Issuer" (claim "iss")] ++
     (if length userinfo =? 0 then []
      else "<h2>UserInfo Claims</h2>" :: map (λ kv, paragraph (html_escape kv.1) kv.2) userinfo)).

(** From the exchange on; first the result of a session that ended well. *)
Definition completed (claims : pydict) (userinfo access_token : pyval) : AuthSession → AuthSession :=
  with_result (λ d, dict_set "access_token" access_token (dict_set "userinfo_claims" userinfo
    (dict_set "id_token_claims" (VDict claims) (dict_set "status" (VStr "success") d)))).
Definition redeem (h : HTTPClient) (se : AuthSession) (disco : DiscoveryDocumentResponse) (ep : DiscoveryEndpoint)
    (code : string) : Route reply :=
  tok ← exchange_code h se disco code;
  if negb (is_successful tok) then
    err ← raises (get_error tok);
    reject se ("token_exchange: " +:+ py_str err) 400 (page "Token Exchange Failed" (html_escape (py_str err)))
  else
    token ← raises (get_attr tok "token");
    if is_none token then
      reject se "missing_token_data" 502 (page "Token Error" "Token response missing token data")
    else
      id_token ← raises (py_get token "id_token");
      access_token ← raises (py_get token "access_token");
      claims ← check_id_token se disco ep id_token;
      '(se, userinfo) ← fetch_userinfo h se disco access_token (dget "sub" claims);
      _ ← fetch_fapi2_resource h se disco access_token;
      end_session ← raises (disco_attr disco "end_session_endpoint");
      _ ← writes (set_logout_context (NewLogout (or_empty end_session) (or_empty id_token) (ses_client_id se)));
      _ ← writes (store_test_result (completed claims userinfo access_token
            (with_logout (or_empty id_token) (or_empty end_session) se)));
      userinfo ← raises (match userinfo with
                         | VDict d => Ok d
                         | v => if truthy v then Err (AttributeError v "items") else Ok []
                         end);
      mret (html_reply 200 (success_page claims userinfo)).

(** A session taken out of [sessions], and the response that named it. *)
Definition complete (h : HTTPClient) (cb : callback_response) (se : AuthSession) : Route reply :=
  verdict ← raises (validate_authorize_callback_state (as_callback cb) (Some (text (ses_state se))));
  let value := result_value (validation_result verdict) in
  if negb (is_valid verdict) then
    reject se ("state_validation: " +:+ value) 400 (page "State Validation Failed" (html_escape value))
  else if negb (cb_is_successful (as_callback cb)) then
    let shown o := default "None" (show_text <$> o) in
    let err := shown (cb_error (as_callback cb)) in
    let description := shown (cb_error_description (as_callback cb)) in
    _ ← writes (store_test_result (with_result (dict_set "error_description" (VStr description)) (failed err se)));
    answer (html_reply 400 (page "OP Error" (html_escape err +:+ ": " +:+ html_escape description)))
  else
    '(disco, ep) ← fetch_and_validate_discovery h se;
    _ ← validate_fapi2_callback_issuer cb disco se;
    endpoint ← raises (disco_attr disco "token_endpoint");
    if is_none endpoint then
      reject se "missing_token_endpoint" 502
        (page "Discovery Error" "Discovery document missing token_endpoint")
    else
      code ← raises (callback_code cb);
      match code with
      | None => reject se "missing_code" 400 (page "Callback Error" "Authorization callback missing code parameter")
      | Some code => redeem h se disco ep code
      end.

Definition handle_callback (request_url : string) : Route reply :=
  h ← shared_http_client;
  cb ← parse_callback h request_url;
  key ← raises (state_key cb);
  known ← reads (λ x, k ← key; pair k <$> sessions x !! k);
  match known with
  | None => answer (html_reply 400 (page "Error" "Unknown or missing state parameter"))
  | Some (k, se) =>
      _ ← writes (pop_session k);
      complete h cb se
  end.

(** The POST of a form, as a query; the items are the form's, in their order. *)
Definition callback_post (form_items : list (ustr * ustr)) : Route reply :=
  params ← raises (urlencode form_items);
  handle_callback (RP_BASE_URL app +:+ "/callback?" +:+ params).

(** *** Logout *)

Definition backchannel_config (ctx : FlowContext) : TokenValidationConfig :=
  TVConfig true (KeyOther VNone) (VStr (fc_client_id ctx)) None (VStr (fc_issuer ctx)) VNone None None false VNone
    None None.
Definition receive_backchannel_logout (logout_token : option string) : Route reply :=
  match given logout_token with
  | None => mret (error_reply 400 "invalid_request" (VStr "missing logout_token"))
  | Some token =>
      ctx ← reads last_flow_context;
      match ctx with
      | None => mret (error_reply 400 "no_flow_context" (VStr "no prior auth flow"))
      | Some ctx =>
          attempt
            (_ ← io (on_tv (validate_logout_token env http_date wall (web http) clock get_unverified_header new_pyjwk
                   decode token (backchannel_config ctx) (Some (fc_disco_address ctx)) false));
             mret (json_reply 200 [("status", VStr "ok")]))
            (λ e,
              if isinstance e PyIdentityModelException
              then mret (error_reply 400 "invalid_logout_token" (VStr (message e)))
              else if isinstance e JwtPyJWTError
              then mret (error_reply 400 "invalid_logout_token" (VStr "malformed token"))
              else raise e)
      end
  end.
Definition backchannel_logout (logout_token : option string) : Route reply :=
  r ← receive_backchannel_logout logout_token;
  mret (Reply (reply_status r) (reply_content r)
          (reply_headers r ++ [("Cache-Control", "no-cache, no-store"); ("Pragma", "no-cache")])).

(** [s or None] of a remembered value. *)
Definition hint (v : pyval) : option ustr := if truthy v then Some (text (py_str v)) else None.
Definition logout (f : Fresh) (send_state : string) : Route reply :=
  ctx ← reads last_logout_context;
  match ctx with
  | Some c =>
      if negb (truthy (lc_end_session_endpoint c)) then
        mret (error_reply 400 "no_logout_context" (VStr "no completed login flow with an end_session_endpoint"))
      else
        let state := if is_true send_state then Some (fresh_token f 0 32) else None in
        _ ← writes (set_logout_state state);
        url ← raises (build_end_session_url (py_str (lc_end_session_endpoint c)) (hint (lc_id_token c))
                (hint (VStr (lc_client_id c))) (Some (text (RP_BASE_URL app +:+ "/post-logout-callback")))
                (text <$> state) None None []);
        mret (redirect_reply url)
  | None =>
      mret (error_reply 400 "no_logout_context" (VStr "no completed login flow with an end_session_endpoint"))
  end.

Definition post_logout_callback (state : option ustr) : Route reply :=
  expected ← reads expected_logout_state;
  match validate_post_logout_state (text <$> expected) state with
  | Ok _ => mret (html_reply 200 (page "Logout Successful" "State validated."))
  | Err e =>
      if isinstance e LogoutStateValidationException
      then mret (html_reply 400 (page "Logout State Validation Failed" (html_escape (message e))))
      else raise e
  end.

(** *** The rest *)

Definition health : Route reply :=
  mret (json_reply 200 [("status", VStr "ok"); ("service", VStr "conformance-rp")]).
Definition clear_cache : Route reply :=
  _ ← io (on_tv clear_discovery_cache);
  _ ← io (on_tv clear_jwks_cache);
  mret (json_reply 200 [("status", VStr "ok"); ("cleared", VList [VStr "discovery"; VStr "jwks"])]).
Definition fapi2_jwks : Route reply :=
  jwk ← raises fapi2_public_jwk;
  mret (json_reply 200 [("keys", VList [VDict jwk])]).
Definition fapi2_mtls_jwks : Route reply := mret (Reply 200 (Json (FAPI2_MTLS_JWKS app)) []).
Definition request_object (obj_id : string) : Route reply :=
  jwt ← reads (λ x, given (request_objects x !! obj_id));
  mret match jwt with
       | None => Reply 404 (Media "not found" None) []
       | Some jwt => Reply 200 (Media jwt (Some "application/oauth-authz-req+jwt")) []
       end.
Definition get_result (test_id : string) : Route reply :=
  found ← reads (λ x, test_results x !! test_id);
  mret match found with
       | Some se => json_reply 200 (ses_result se)
       | None => json_reply 404 [("error", VStr "not_found")]
       end.

(** *** Any request *)

Inductive http_request : Type :=
  | GetHealth | PostClearCache | GetFapi2Jwks | GetFapi2MtlsJwks
  | GetDiscover (issuer test_id : string)
  | GetRegister (issuer : string)
  | GetRequestObject (obj_id : string)
  | GetAuthorize (f : Fresh) (q : AuthorizeQuery)
  | GetCallback (url : string)
  | PostCallback (form_items : list (ustr * ustr))
  | PostBackchannelLogout (logout_token : option string)
  | GetLogout (f : Fresh) (send_state : string)
  | GetPostLogoutCallback (state : option ustr)
  | GetResults (test_id : string).

Definition route (r : http_request) : Route reply :=
  match r with
  | GetHealth => health
  | PostClearCache => clear_cache
  | GetFapi2Jwks => fapi2_jwks
  | GetFapi2MtlsJwks => fapi2_mtls_jwks
  | GetDiscover issuer test_id => discover issuer test_id
  | GetRegister issuer => register issuer
  | GetRequestObject obj_id => request_object obj_id
  | GetAuthorize f q => authorize f q
  | GetCallback url => handle_callback url
  | PostCallback items => callback_post items
  | PostBackchannelLogout token => backchannel_logout token
  | GetLogout f send_state => logout f send_state
  | GetPostLogoutCallback state => post_logout_callback state
  | GetResults test_id => get_result test_id
  end.

(** What the framework sends: the early answer is as good as the last one. *)
Definition serve (r : http_request) : stM Harness exn reply := λ s,
  match route r s with
  | (Ok (inl rep), s') | (Ok (inr rep), s') => (Ok rep, s')
  | (Err e, s') => (Err e, s')
  end.

(** The states a sequence of requests brings about, the crashed ones included. *)
Inductive reached : Harness → Prop :=
  | reached_start : reached initial_harness
  | reached_request r s : reached s → reached (serve r s).2.
End Routes.

(** ** On concrete inputs *)

Definition demo_entropy (i n : nat) : bytes := replicate n (Z.of_nat i).
Definition demo_pair (curve : string) : key_pair := KeyPair (EcPublic "secp256r1" 256 1 2) (text "PEM").
Definition demo_fresh : Fresh := NewFresh demo_entropy demo_pair.
Definition demo_app : AppConfig :=
  NewApp "https://rp.example" "https://rp.internal" (Str "PEM") (VDict []) "k1" (DPoP "ES256" (demo_pair "")) "c.pem"
    "k.pem" (VDict []).
Definition demo_state : string := fresh_token demo_fresh 0 32.
Definition demo_nonce : string := fresh_token demo_fresh 1 32.
Definition demo_id_claims : pydict :=
  [("iss", VStr "https://op.example"); ("sub", VStr "alice"); ("aud", VStr "app"); ("nonce", VStr demo_nonce)].
Definition demo_token : pydict := [("id_token", VStr "h.p.s"); ("access_token", VStr "at")].
Definition demo_endpoints : pydict :=
  [("authorization_endpoint", VStr "https://op.example/authorize"); ("userinfo_endpoint", VStr "https://op.example/userinfo");
   ("end_session_endpoint", VStr "https://op.example/bye");
   ("pushed_authorization_request_endpoint", VStr "https://op.example/par")].

(** A provider with a token reply and a reply to pushed requests. *)
Definition demo_op (token : pydict) (pushed : HttpResponse) (n : nat) (c : http_client) (q : HttpRequest)
    : outcome HttpResponse :=
  if req_url q ≟ "https://op.example/par" then Ok pushed
  else if req_method q ≟ "POST" then Ok (Replies.reply 200 (VDict token))
  else if req_url q ≟ "https://op.example/userinfo" then
    Ok (Replies.reply 200 (VDict [("sub", VStr "alice"); ("name", VStr "<b>Alice</b>")]))
  else if req_url q ≟ op_address then Ok (json_response (demo_doc ++ demo_endpoints))
  else demo_http "https://op.example/jwks" n (req_url q).
Definition par_ok : HttpResponse := Replies.reply 201 (VDict [("request_uri", VStr "urn:x"); ("expires_in", VInt 60)]).
Definition ps256_header (_ : string) : outcome pydict := Ok [("kid", VStr "a"); ("alg", VStr "PS256")].

Definition demo_serve (header : string → outcome pydict) (token : pydict) (pushed : HttpResponse)
    : http_request → stM Harness exn reply :=
  serve empty_env no_dates 0 demo_clock ClientAuth.demo_clock demo_uuid header toy_new_pyjwk
    (λ _ _ _ _, Ok demo_id_claims) demo_sign (λ _, "") (λ _, false) (λ _, Ok ()) (λ _, Ok ()) (λ _ _, Ok ())
    (λ _, Ok 7) (demo_op token pushed) show_text demo_app.
Fixpoint demo_run (step : http_request → stM Harness exn reply) (rs : list http_request) (s : Harness)
    : list (outcome Z) * Harness :=
  match rs with
  | [] => ([], s)
  | r :: rs' =>
      let '(o, s') := step r s in
      let '(os, s'') := demo_run step rs' s' in
      ((reply_status <$> o) :: os, s'')
  end.
Definition demo_query (fapi2 jarm : string) : AuthorizeQuery :=
  NewAuthorize "https://op.example" "app" "" "t1" "" "" "true" "false" "false" "openid" fapi2 jarm "false".
Definition demo_back (params : string) : http_request :=
  GetCallback ("https://rp.example/callback?" +:+ params +:+ "&state=" +:+ demo_state).
Definition recorded (name : string) (s : Harness) : option pyval :=
  dget name ∘ ses_result <$> test_results (stores s) !! "t1".
Definition demo_login (header : string → outcome pydict) (token : pydict) (query : AuthorizeQuery) (params : string)
    : list (outcome Z) * Harness :=
  demo_run (demo_serve header token par_ok) [GetAuthorize demo_fresh query; demo_back params; demo_back params]
    initial_harness.

(** A login, and the replay of its callback. *)
Example harness_1 :
  let '(os, s) := demo_login demo_header demo_token (demo_query "" "") "code=c1" in
  (os, recorded "status" s, recorded "id_token_claims" s) =
    ([Ok 302; Ok 200; Ok 400]%Z, Some (VStr "success"), Some (VDict demo_id_claims)).
Proof. vm_compute. reflexivity. Qed.
(** A token reply without an ID token is a successful login without claims. *)
Example harness_2 :
  let '(os, s) := demo_login demo_header [("access_token", VStr "at")] (demo_query "" "") "code=c1" in
  (os, recorded "status" s, recorded "id_token_claims" s) =
    ([Ok 302; Ok 200; Ok 400]%Z, Some (VStr "success"), Some (VDict [])).
Proof. vm_compute. reflexivity. Qed.
(** A flow that asked for a signed response takes an unsigned one. *)
Example harness_3 :
  let '(os, s) := demo_login ps256_header demo_token (demo_query "true" "true") "code=c1&iss=https://op.example" in
  (os, recorded "status" s) = ([Ok 302; Ok 200; Ok 400]%Z, Some (VStr "success")).
Proof. vm_compute. reflexivity. Qed.
(** An error of the provider is recorded as a failed state check. *)
Example harness_4 :
  let '(os, s) := demo_login demo_header demo_token (demo_query "" "") "error=access_denied" in
  (os, recorded "error" s, recorded "error_description" s) =
    ([Ok 302; Ok 400; Ok 400]%Z, Some (VStr "state_validation: error_response"), Some VNone).
Proof. vm_compute. reflexivity. Qed.
(** An ID token PyJWT cannot read: a server failure, the flow is gone and nothing is recorded. *)
Example harness_5 :
  let '(os, s) := demo_login not_a_token demo_token (demo_query "" "") "code=c1" in
  (os, recorded "status" s) =
    ([Ok 302; Err (mk_exn JwtDecodeError "Invalid token type. Token must be a <class 'bytes'>"); Ok 400]%Z, None).
Proof. vm_compute. reflexivity. Qed.
(** The RS256 token of a FAPI 2.0 flow is refused; without an issuer the callback is. *)
Example harness_6 :
  let '(os, s) := demo_login demo_header demo_token (demo_query "true" "") "code=c1&iss=https://op.example" in
  let '(os', s') := demo_login ps256_header demo_token (demo_query "true" "") "code=c1" in
  (os, os', recorded "error" s') =
    ([Ok 302; Ok 400; Ok 400]%Z, [Ok 302; Ok 400; Ok 400]%Z, Some (VStr "iss_validation: missing_issuer")).
Proof. vm_compute. reflexivity. Qed.
(** The state of a logout may be left out of the request; the page it comes back to wants one. *)
Example harness_7 :
  (demo_run (demo_serve demo_header demo_token par_ok)
    [GetAuthorize demo_fresh (demo_query "" ""); demo_back "code=c1"; GetLogout demo_fresh "false";
     GetPostLogoutCallback None; GetLogout demo_fresh "true"; GetPostLogoutCallback (Some (text demo_state));
     GetPostLogoutCallback (Some (text demo_state))] initial_harness).1 =
    [Ok 302; Ok 200; Ok 302; Ok 400; Ok 302; Ok 200; Ok 200]%Z.
Proof. vm_compute. reflexivity. Qed.
Example harness_8 :
  sanitize_path_component "../../etc" "x" = ".._.._etc" ∧ sanitize_path_component ".." "x" = "x" ∧
  rp_log_path id ["var"; "logs"] ".." "a/b" = Ok ["var"; "logs"; "default"; "a_b.log"].
Proof. split_and!; vm_compute; reflexivity. Qed.
