(* ===== verification/HarnessSafety.v ===== *)
(** * What the conformance relying party guarantees

    Three groups of facts about the routes of Harness: a page shows the text it was given and has
    the tags of its template only; a callback ends a flow at most once, and its recorded result
    agrees with its answer; and a login that is reported rests on a flow this application began, a
    code its provider exchanged and, when there is one, a validated ID token. *)

From S2P Require Import Prelude PyStr PyValue Models Url Codec Json Policy HttpRetry Discovery Jwks Jwt TokenValidation Callback UrlQuery AuthorizeUrl Responses ClientAuth Dpop Grants Replies Registration Clients Jar Jarm Logout Harness.
From Stdlib Require Import QArith Ascii.
From stdpp Require Import strings.
#[global] Close Scope Q_scope.
Open Scope string_scope.
Open Scope list_scope.
Open Scope nat_scope.
Open Scope py_scope.

(** ** How a browser reads a page

    Tags, and the characters between them, with the character references [html.escape] writes. *)

Inductive html_token : Type := Tag (name : string) | Shown (c : ascii).
Inductive html_mode : Type := InText | InTag (read : string) | InReference (left : nat).
Definition references : list (string * ascii) :=
  [("amp;", "&"%char); ("lt;", "<"%char); ("gt;", ">"%char); ("quot;", dquote); ("#x27;", "'"%char)].
Fixpoint begins_with (p s : string) : bool :=
  match p with
  | EmptyString => true
  | String c p' => match s with EmptyString => false | String d s' => (c ≟ d) && begins_with p' s' end
  end.
Fixpoint html_tokens (m : html_mode) (s : string) : list html_token :=
  match s with
  | EmptyString => match m with InTag name => [Tag name] | _ => [] end
  | String c s' =>
      match m with
      | InReference (S (S n)) => html_tokens (InReference (S n)) s'
      | InReference _ => html_tokens InText s'
      | InTag name => if c ≟ ">"%char then Tag name :: html_tokens InText s'
                      else html_tokens (InTag (name +:+ String c "")) s'
      | InText =>
          if c ≟ "<"%char then html_tokens (InTag "") s'
          else if c ≟ "&"%char then
            match List.find (λ r, begins_with r.1 s') references with
            | Some (r, shown) => Shown shown :: html_tokens (InReference (String.length r)) s'
            | None => Shown c :: html_tokens InText s'
            end
          else Shown c :: html_tokens InText s'
      end
  end.
Definition shown_text (s : string) : list html_token := map Shown (String.list_ascii_of_string s).

Lemma html_tokens_char c s :
  html_tokens InText (html_escape_char c +:+ s) = Shown c :: html_tokens InText s.
Proof.
  unfold html_escape_char.
  destruct (bool_decide_reflect (c = "&"%char)) as [->|H1]; [reflexivity|].
  destruct (bool_decide_reflect (c = "<"%char)) as [->|H2]; [reflexivity|].
  destruct (bool_decide_reflect (c = ">"%char)) as [->|H3]; [reflexivity|].
  destruct (bool_decide_reflect (c = dquote)) as [->|H4]; [reflexivity|].
  destruct (bool_decide_reflect (c = "'"%char)) as [->|H5]; [reflexivity|].
  change (String c "" +:+ s) with (String c s). cbn [html_tokens].
  rewrite !bool_decide_eq_false_2 by done. reflexivity.
Qed.
Lemma html_tokens_escape s t :
  html_tokens InText (html_escape s +:+ t) = shown_text s ++ html_tokens InText t.
Proof.
  induction s as [|c s IH]; [reflexivity|]. cbn [html_escape]. rewrite str_app_assoc, html_tokens_char, IH. reflexivity.
Qed.

(** A text that ends outside of a tag and has the template's tags only. *)
Definition page_tags : list string := ["h1"; "/h1"; "h2"; "/h2"; "p"; "/p"].
Definition of_template (t : html_token) : Prop := match t with Tag name => name ∈ page_tags | Shown _ => True end.
Definition tame (s : string) : Prop :=
  ∃ l, Forall of_template l ∧ ∀ rest, html_tokens InText (s +:+ rest) = l ++ html_tokens InText rest.

Lemma tame_app a b : tame a → tame b → tame (a +:+ b).
Proof.
  intros (l & Hl & Ha) (l' & Hl' & Hb). exists (l ++ l'). split; [by apply Forall_app|].
  intros rest. by rewrite str_app_assoc, Ha, Hb, app_assoc.
Qed.
Lemma tame_escape s : tame (html_escape s).
Proof.
  exists (shown_text s). split; [|apply html_tokens_escape]. unfold shown_text. apply Forall_fmap, Forall_true. done.
Qed.
Lemma tame_nil : tame "".
Proof. by exists []. Qed.
Lemma tame_join sep l : tame sep → Forall tame l → tame (str_join sep l).
Proof.
  intros Hs Hl. induction Hl as [|a l Ha Hl IH]; [apply tame_nil|].
  destruct l; [done|]. cbn [str_join]. apply tame_app; [by apply tame_app|done].
Qed.
(** A literal is checked by computing. *)
Lemma tame_literal s :
  (∀ rest, html_tokens InText (s +:+ rest) = html_tokens InText s ++ html_tokens InText rest) →
  forallb (λ t, match t with Tag name => bool_decide (name ∈ page_tags) | Shown _ => true end) (html_tokens InText s) = true →
  tame s.
Proof.
  intros Hs Hl. exists (html_tokens InText s). split; [|exact Hs].
  apply forallb_Forall' in Hl. eapply Forall_impl; [exact Hl|]. intros [name|c]; [|done]. apply bool_decide_eq_true.
Qed.
Ltac literal := apply tame_literal; [intros ?; reflexivity|reflexivity].

Lemma tame_page title t : tame title → tame t → tame (page title t).
Proof.
  intros Ht Hx. unfold page. repeat apply tame_app; [literal|done|literal|done|literal].
Qed.
Lemma tame_paragraph label v : tame label → tame (paragraph label v).
Proof.
  intros Hl. unfold paragraph. repeat apply tame_app; [literal|done|literal|apply tame_escape|literal].
Qed.
Lemma tame_success claims userinfo : tame (success_page claims userinfo).
Proof.
  unfold success_page. apply tame_app; [literal|]. apply tame_join; [literal|].
  apply Forall_app. split.
  - repeat constructor; apply tame_paragraph; literal.
  - destruct (_ =? 0); [constructor|]. constructor; [literal|]. apply Forall_fmap, Forall_true.
    intros [k v]. apply tame_paragraph, tame_escape.
Qed.
Lemma tame_result_value r : tame (html_escape (result_value r)).
Proof. apply tame_escape. Qed.

(** What is asked of a reply. *)
Definition tame_reply (r : reply) : Prop := match reply_content r with Html body => tame body | _ => True end.

(** ** Reasoning about routes

    Every call of the library keeps its invariant and leaves the application's globals alone. *)

Section Safety.
Context (env : string → option string) (http_date : string → option Q) (wall : Q).
Context (clock wall_clock : nat → Q) (uuid4 : nat → string).
Context (header : string → outcome pydict).
Context {PyJWK : Type} (new_pyjwk : pydict → option pyval → outcome PyJWK).
Context (decode : nat → string → PyJWK → DecodeArgs → outcome pydict).
Context (encode : nat → pydict → blob → string → pydict → outcome string).
Context (text_of : HttpResponse → string).
Context (is_dir : string → bool) (create_default_context : trust → outcome unit).
Context (load_cert_chain : list string → outcome unit).
Context (new_client : option string → pyfloat → outcome unit).
Context (insecure_client : pyfloat → outcome nat).
Context (http : nat → http_client → HttpRequest → outcome HttpResponse).
Context (code_text : ustr → string).
Context (app : AppConfig).

Local Abbreviation Inv := (tv_inv env (web http)).

(** [m], begun with the globals [x], ends as [Q] says. *)
Definition obeys {A} (x : Stores) (m : Route A) (Q : outcome (reply + A) → Stores → Prop) : Prop := ∀ s,
  Inv (h_tv s) → stores s = x → match m s with (r, s') => Inv (h_tv s') ∧ Q r (stores s') end.

(** A part that goes on leaves the globals as they are and its value satisfies [P]; [R] is about an
    early answer. *)
Definition checked {A} (x : Stores) (R : reply → Stores → Prop) (P : A → Prop) (r : outcome (reply + A))
    (x' : Stores) : Prop :=
  match r with
  | Ok (inr a) => x' = x ∧ P a
  | Ok (inl rep) => R rep x'
  | Err _ => x' = x
  end.
Definition checks {A} (x : Stores) (R : reply → Stores → Prop) (m : Route A) (P : A → Prop) : Prop :=
  obeys x m (checked x R P).

Lemma obeys_post {A} x (m : Route A) (Q Q' : outcome (reply + A) → Stores → Prop) :
  obeys x m Q → (∀ r x', Q r x' → Q' r x') → obeys x m Q'.
Proof. intros H HQ s Hi Hs. specialize (H s Hi Hs). destruct (m s) as [r s']. destruct H; auto. Qed.
Lemma obeys_after {A B} x R (m : Route A) (k : A → Route B) P (Q : outcome (reply + B) → Stores → Prop) :
  checks x R m P → (∀ a, P a → obeys x (k a) Q) → (∀ rep x', R rep x' → Q (Ok (inl rep)) x') →
  (∀ e, Q (Err e) x) → obeys x (m ≫= k) Q.
Proof.
  intros Hm Hk HR HE s Hi Hs. specialize (Hm s Hi Hs). unfold mbind, route_bind.
  destruct (m s) as [[[rep|a]|e] s']; cbn [checked] in Hm; destruct Hm as [Hi' H].
  - auto.
  - destruct H as [H HP]. by apply (Hk a HP s').
  - rewrite H. auto.
Qed.
Lemma obeys_seq {A B} x (m : Route A) (k : A → Route B) Q1 (Q : outcome (reply + B) → Stores → Prop) :
  obeys x m Q1 → (∀ a x1, Q1 (Ok (inr a)) x1 → obeys x1 (k a) Q) →
  (∀ rep x1, Q1 (Ok (inl rep)) x1 → Q (Ok (inl rep)) x1) → (∀ e x1, Q1 (Err e) x1 → Q (Err e) x1) →
  obeys x (m ≫= k) Q.
Proof.
  intros Hm Hk HR HE s Hi Hs. specialize (Hm s Hi Hs). unfold mbind, route_bind.
  destruct (m s) as [[[rep|a]|e] s']; destruct Hm as [Hi' H]; [auto| |auto]. by apply (Hk a _ H s').
Qed.
Lemma obeys_writes {B} x f (k : () → Route B) (Q : outcome (reply + B) → Stores → Prop) :
  obeys (f x) (k ()) Q → obeys x (writes f ≫= k) Q.
Proof. intros Hk s Hi Hs. apply (Hk (set_stores (f (stores s)) s)); [done|]. by rewrite <- Hs. Qed.
Lemma obeys_ret {A} x (a : A) (Q : outcome (reply + A) → Stores → Prop) : Q (Ok (inr a)) x → obeys x (mret a) Q.
Proof. by intros HQ s Hi <-. Qed.
Lemma obeys_answer {A} x rep (Q : outcome (reply + A) → Stores → Prop) : Q (Ok (inl rep)) x → obeys x (answer rep) Q.
Proof. by intros HQ s Hi <-. Qed.

Lemma checks_bind {A B} x R (m : Route A) (k : A → Route B) P Q :
  checks x R m P → (∀ a, P a → checks x R (k a) Q) → checks x R (m ≫= k) Q.
Proof. intros Hm Hk. by eapply obeys_after. Qed.
Lemma checks_post {A} x R (m : Route A) (P Q : A → Prop) : checks x R m P → (∀ a, P a → Q a) → checks x R m Q.
Proof. intros H HP. eapply obeys_post; [exact H|]. intros [[rep|a]|e] x' Hr; [done| |done]. destruct Hr as [-> Ha]. split; auto. Qed.
Lemma checks_weaken {A} x (R R' : reply → Stores → Prop) (m : Route A) P :
  checks x R m P → (∀ rep x', R rep x' → R' rep x') → checks x R' m P.
Proof. intros H HR. eapply obeys_post; [exact H|]. intros [[rep|a]|e] x' Hr; [|done..]. by apply HR. Qed.
Lemma checks_ret {A} x R (a : A) (P : A → Prop) : P a → checks x R (mret a) P.
Proof. intros HP. by apply obeys_ret. Qed.
Lemma checks_raise {A} x R e (P : A → Prop) : checks x R (raise e) P.
Proof. by intros s Hi <-. Qed.
Lemma checks_if {A} x R (b : bool) (m1 m2 : Route A) P :
  (b = true → checks x R m1 P) → (b = false → checks x R m2 P) → checks x R (if b then m1 else m2) P.
Proof. destruct b; auto. Qed.
Lemma checks_raises {A} x R (r : outcome A) : checks x R (raises r) (λ a, r = Ok a).
Proof. intros s Hi <-. by destruct r. Qed.
Lemma checks_reads {A} x R (f : Stores → A) : checks x R (reads f) (λ a, a = f x).
Proof. by intros s Hi <-. Qed.
Lemma checks_attempt {A} x R (m : Route A) h P :
  checks x R m P → (∀ e, checks x R (h e) P) → checks x R (attempt m h) P.
Proof.
  intros Hm Hh s Hi Hs. specialize (Hm s Hi Hs). unfold attempt. destruct (m s) as [[[rep|a]|e] s']; [done..|].
  destruct Hm. by apply Hh.
Qed.
Lemma checks_tv {A} x R (m : stM TVState exn A) P : triple Inv m P → checks x R (io (on_tv m)) P.
Proof.
  intros Hm s Hi <-. specialize (Hm (h_tv s) Hi). unfold io, on_tv, zoom.
  destruct (m (h_tv s)) as [[a|e] t]; [|done]. by destruct Hm.
Qed.
Lemma checks_net {A} x R (m : stM net exn A) (P : A → Prop) :
  (∀ s a s', m s = (Ok a, s') → P a) → checks x R (io (on_tv (on_net m))) P.
Proof. intros HP. apply checks_tv, io_net; [apply tv_inv_io|exact HP]. Qed.
Lemma transport_kept {A} (m : stM transport exn A) (P : outcome A → Prop) :
  (∀ t r t', m t = (r, t') → P r) → ∀ s, Inv (h_tv s) →
  match on_transport m s with (r, s') => Inv (h_tv s') ∧ stores s' = stores s ∧ P r end.
Proof.
  intros HP s Hi. unfold on_transport, zoom. destruct (m _) as [r t] eqn:Em. split_and!; [by apply inv_network|done|].
  by eapply HP.
Qed.
Lemma checks_transport {A} x R (m : stM transport exn A) (P : A → Prop) :
  (∀ t a t', m t = (Ok a, t') → P a) → checks x R (io (on_transport m)) P.
Proof.
  intros HP s Hi <-. pose proof (transport_kept m (λ r, ∀ a, r = Ok a → P a) ltac:(naive_solver) s Hi) as H.
  unfold io. destruct (on_transport m s) as [[a|e] s']; cbn [checked]; naive_solver.
Qed.
Lemma checks_http_client x R : checks x R (shared_http_client env insecure_client) (λ _, True).
Proof.
  intros s Hi <-. unfold shared_http_client. destruct (h_http_client s); [done|]. by destruct (_ ≫= _).
Qed.

(** A step, and what it established. *)
Ltac step H := eapply checks_bind; [H|].

(** *** Discovery *)

Definition op_document (h : HTTPClient) (ep : DiscoveryEndpoint) (disco : DiscoveryDocumentResponse) : Prop :=
  admitted_doc (op_web http h) (ep_url ep) harness_policy disco.

Lemma checks_discovery x R h address :
  checks x R (get_discovery env http_date wall http h address)
    (λ d, disco_is_successful d = true → admitted_doc (op_web http h) address harness_policy d).
Proof.
  apply checks_net. intros s d s' H.
  destruct (get_discovery_document_spec env http_date wall (op_web http h) address (Some harness_policy) s)
    as (d' & s'' & Heq & _ & Hd & _). rewrite H in Heq. by injection Heq as <- <-.
Qed.
Lemma op_document_attr h ep d name v :
  op_document h ep d → name ∉ error_fields → disco_attr d name = Ok v → dget name (disco_attrs d) = v.
Proof. intros Hd Hn. rewrite (admitted_doc_attr _ _ _ _ _ Hd) by done. by intros [= <-]. Qed.

(** A callback refused: an answer of the server or the client's fault, recorded as the session's
    error. *)
Definition refused (x : Stores) (se : AuthSession) (rep : reply) (x' : Stores) : Prop :=
  (reply_status rep = 400 ∨ reply_status rep = 502)%Z ∧ tame_reply rep ∧
  ∃ err, x' = store_test_result (failed err se) x.

Lemma checks_reject {A} x se err status body (P : A → Prop) :
  (status = 400 ∨ status = 502)%Z → tame body → checks x (refused x se) (reject se err status body) P.
Proof.
  intros Hs Hb. apply obeys_writes, obeys_answer. split_and!; [done..|]. by exists err.
Qed.
Ltac rejected :=
  apply checks_reject; [by (left + right)|apply tame_page; [literal|first [apply tame_escape|literal|idtac]]].

Lemma checks_session_discovery x h se :
  checks x (refused x se) (fetch_and_validate_discovery env http_date wall http h se)
    (λ de, parse_discovery_url (ses_issuer se) = Ok de.2 ∧ op_document h de.2 de.1 ∧
           dget "issuer" (disco_attrs de.1) = VStr (ses_issuer se)).
Proof.
  unfold fetch_and_validate_discovery. destruct (parse_discovery_url (ses_issuer se)) as [ep|e] eqn:Ep.
  - step ltac:(apply checks_discovery). intros d Hd. apply checks_if; intros Hs.
    + step ltac:(apply checks_raises). intros err _. rejected.
    + apply negb_false_iff in Hs. specialize (Hd Hs). step ltac:(apply checks_raises). intros iss Hi.
      eapply op_document_attr in Hi; [|exact Hd|compute_done].
      apply checks_if; intros _; [rejected|]. apply checks_if; intros He; [rejected|].
      apply negb_false_iff, py_eq_str in He. apply checks_ret. cbn. split_and!; [done..|congruence].
  - apply checks_if; intros _; [rejected|apply checks_raise].
Qed.

(** *** The callback's response *)

(** A refusal before any flow is known. *)
Definition unanswered (x : Stores) (rep : reply) (x' : Stores) : Prop :=
  reply_status rep = 400%Z ∧ tame_reply rep ∧ x' = x.

(** Parsed from an unsigned URL, or accepted as JARM has it for the last flow begun. *)
Definition parsed (x : Stores) (url : string) (cb : callback_response) : Prop :=
  match cb with
  | Plain r => is_jarm_response (VStr url) = Ok false ∧ parse_authorize_callback_response (VStr url) = Ok r
  | Signed r => is_jarm_response (VStr url) = Ok true ∧ ∃ h n ctx, last_flow_context x = Some ctx ∧
      jarm_accepted env (op_web http h) header new_pyjwk (decode n) url (fc_client_id ctx)
        (Some (fc_disco_address ctx)) None None None false (VInt 0) false r
  end.

Lemma checks_jarm x R h url :
  checks x R (process_jarm env http_date wall header new_pyjwk decode http h url (last_flow_context x))
    (λ r, ∃ h n ctx, last_flow_context x = Some ctx ∧
       jarm_accepted env (op_web http h) header new_pyjwk (decode n) url (fc_client_id ctx)
         (Some (fc_disco_address ctx)) None None None false (VInt 0) false r).
Proof.
  unfold process_jarm. apply checks_tv. intros t Hi.
  destruct (process_jarm_response _ _ _ _ _ _ _ _ _ _ _ _ _ _ _ _ (network t)) as [[r|e] n] eqn:Hp.
  - split; [by apply (tv_inv_io env (web http) t n (warning_emitted t))|].
    apply process_jarm_sound in Hp. exists h, (decodes t).
    destruct (last_flow_context x) as [ctx|]; [by exists ctx|].
    destruct (ja_checked _ _ _ _ _ _ _ _ _ _ _ _ _ _ _ Hp) as (iss & algs & keys & hs & al & w & cl & Hc & _).
    destruct Hc as [(? & ? & Hc & _)|(? & ? & ? & Hc & _)]; cbn in Hc; discriminate Hc.
  - by apply (tv_inv_io env (web http) t n (warning_emitted t)).
Qed.

Lemma checks_parse x h url :
  checks x (unanswered x) (parse_callback env http_date wall header new_pyjwk decode http h url) (parsed x url).
Proof.
  unfold parse_callback. apply checks_attempt.
  - step ltac:(apply checks_raises). intros [] Hj.
    + step ltac:(apply checks_reads). intros ctx ->. step ltac:(apply checks_jarm). intros r Hr. by apply checks_ret.
    + step ltac:(apply checks_raises). intros r Hr. by apply checks_ret.
  - intros e. apply checks_if; intros _; [|apply checks_if; intros _; [|apply checks_raise]];
      apply obeys_answer; (split_and!; [done| |done]); apply tame_page; try literal. apply tame_escape.
Qed.

(** *** The issuer of a FAPI 2.0 callback *)

Lemma checks_callback_issuer x se h ep disco cb :
  op_document h ep disco → dget "issuer" (disco_attrs disco) = VStr (ses_issuer se) →
  checks x (refused x se) (validate_fapi2_callback_issuer cb disco se)
    (λ _, ses_fapi2 se = true → cb_issuer (as_callback cb) = Some (text (ses_issuer se))).
Proof.
  intros Hd Hiss. unfold validate_fapi2_callback_issuer. apply checks_if; intros Hf.
  { apply checks_ret. apply negb_true_iff in Hf. congruence. }
  step ltac:(apply checks_raises). intros iss Hi. eapply op_document_attr in Hi; [|exact Hd|compute_done].
  rewrite Hiss in Hi. subst iss. step ltac:(apply checks_raises). intros v Hv.
  apply checks_if; intros Hok; [|rejected].
  apply checks_ret. intros _. unfold validate_authorize_callback_issuer in Hv.
  destruct (cb_is_successful (as_callback cb)) eqn:Hs; cbn [negb] in Hv.
  - unfold callback_attr in Hv. rewrite Hs, getattribute_ok in Hv by (done || compute_done).
    cbn [mbind result_bind] in Hv. destruct (cb_issuer (as_callback cb)) as [i|]; [|by injection Hv as <-].
    destruct (negb _ || negb _) eqn:E; [by injection Hv as <-|]. apply orb_false_iff in E as [_ E].
    apply negb_false_iff, bool_decide_eq_true in E. exact E.
  - unfold error_response, callback_attr in Hv.
    apply result_bind_ok in Hv as (? & _ & Hv). apply result_bind_ok in Hv as (? & _ & [= <-]). done.
Qed.

(** *** The code *)

(** A response made of the endpoint's reply to the request, or to the one repeated with its nonce. *)
Definition answered_request (q : oauth_request) (managed : option HTTPClient) (a : BaseResponse) : Prop :=
  ∃ p w w' c reply, prepare wall_clock uuid4 encode q None w = (Ok p, w') ∧
    right_client (mtls (client q)) managed c ∧
    answered wall_clock uuid4 encode http q c p reply ∧ process text_of q reply = Ok a.

(** The token dictionary is what the provider's token endpoint answered to this session's code. *)
Definition exchanged (h : HTTPClient) (se : AuthSession) (disco : DiscoveryDocumentResponse) (code : string)
    (token : pyval) : Prop :=
  ∃ r a, build_auth_code_token_request app se disco code = Ok r ∧ is_successful a = true ∧
    raw_attr a "token" = token ∧ answered_request (Ac r) (client_for_session se h) a.

Lemma checks_exchange x R h se disco code :
  checks x R (exchange_code env http_date wall wall_clock uuid4 encode text_of is_dir create_default_context
                load_cert_chain new_client http app h se disco code)
    (λ a, is_successful a = true → exchanged h se disco code (raw_attr a "token")).
Proof.
  unfold exchange_code. step ltac:(apply checks_raises). intros r Hr. apply checks_if; intros _.
  { apply checks_ret. rewrite (proj2 (handle_class (Ac r) _)). done. }
  apply checks_transport. intros t a t' H Hok.
  destruct (request_spec env http_date wall wall_clock uuid4 encode text_of is_dir create_default_context
    load_cert_chain new_client http (Ac r) (client_for_session se h) t)
    as (a' & t'' & Heq & _ & _ & Ha & _).
  rewrite H in Heq. injection Heq as <- <-. exists r, a. split_and!; [done..|].
  destruct Ha as [[e ->]|(p & w & c & reply & Ha)]; [by rewrite (proj2 (handle_class (Ac r) e)) in Hok|].
  exists p, (wire t), w, c, reply. exact Ha.
Qed.

(** *** The ID token *)

(** No ID token and no claims; or claims PyJWT accepted for this client, from the session's issuer,
    with the session's nonce and, under FAPI 2.0, for no other audience. *)
Definition identified (se : AuthSession) (ep : DiscoveryEndpoint) (id_token : pyval) (claims : pydict) : Prop :=
  (truthy id_token = false ∧ claims = []) ∨
  ∃ jwt, id_token = VStr jwt ∧
    token_sound env (web http) header new_pyjwk decode jwt (id_token_config se (VStr (ses_issuer se)))
      (Some (ep_url ep)) claims ∧
    dget "nonce" claims = VStr (ses_nonce se) ∧
    (ses_fapi2 se = true → ∀ a, a ∈ aud_values claims → a = VStr (ses_client_id se)).

Lemma checks_validate x R id_token c address :
  perform_disco c = true →
  checks x R (validate_value env http_date wall clock header new_pyjwk decode http id_token c address)
    (λ claims, ∃ jwt, id_token = VStr jwt ∧
       token_sound env (web http) header new_pyjwk decode jwt c (Some address) claims).
Proof.
  intros Hp. unfold validate_value. apply checks_tv.
  assert (Hv : ∀ hd jwt, triple Inv
    (validate_token env http_date wall (web http) clock hd new_pyjwk decode jwt c (Some address) false)
    (token_sound env (web http) hd new_pyjwk decode jwt c (Some address))).
  { intros hd jwt. eapply triple_post; [apply triple_validate_token|]. intros out (claims & Ha & Ho).
    by eapply token_accepted_sound. }
  destruct id_token;
    try (eapply triple_post; [apply Hv|]; intros a H; by destruct (no_token_sound _ _ _ _ _ _ _ _ Hp H)).
  eapply triple_post; [apply Hv|]. intros a H. by eexists.
Qed.

Lemma checks_audience x se claims :
  checks x (refused x se) (validate_fapi2_audience se claims)
    (λ _, ses_fapi2 se = true → ∀ a, a ∈ aud_values claims → a = VStr (ses_client_id se)).
Proof.
  unfold validate_fapi2_audience. apply checks_if; intros H; [|rejected].
  apply checks_ret. intros Hf a Ha. apply orb_true_iff in H as [H|H]; [by rewrite Hf in H|].
  apply Nat.eqb_eq, length_zero_iff_nil in H. apply py_eq_str.
  destruct (py_eq a (VStr (ses_client_id se))) eqn:E; [done|]. exfalso.
  assert (Hin : a ∈ untrusted_audiences se claims).
  { unfold untrusted_audiences. rewrite list_elem_of_In, filter_In, <- list_elem_of_In. by rewrite E. }
  rewrite H in Hin. by apply not_elem_of_nil in Hin.
Qed.

Lemma checks_id_token x se h disco ep id_token :
  op_document h ep disco → dget "issuer" (disco_attrs disco) = VStr (ses_issuer se) →
  checks x (refused x se)
    (check_id_token env http_date wall clock header new_pyjwk decode http se disco ep id_token)
    (identified se ep id_token).
Proof.
  intros Hd Hiss. unfold check_id_token. apply checks_if; intros Ht.
  { apply checks_ret. left. split; [by apply negb_true_iff|done]. }
  step ltac:(apply checks_raises). intros iss Hi. eapply op_document_attr in Hi; [|exact Hd|compute_done].
  rewrite Hiss in Hi. subst iss.
  step ltac:(apply checks_attempt; [by apply checks_validate|]).
  { intros e. apply checks_if; intros _; [rejected|apply checks_raise]. }
  intros claims (jwt & -> & Hs). apply checks_if; intros Hn.
  - apply checks_reject; [by left|]. apply tame_page; [literal|].
    repeat apply tame_app; (apply tame_escape || literal).
  - apply negb_false_iff, py_eq_str in Hn. step ltac:(apply checks_audience). intros [] Ha.
    apply checks_ret. right. exists jwt. exact (conj eq_refl (conj Hs (conj Hn Ha))).
Qed.

(** *** UserInfo *)

Definition userinfo_read (r : UserInfoRequest) (managed : option HTTPClient) (a : BaseResponse) : Prop :=
  ∃ c headers reply, right_client (ui_mtls r) managed c ∧
    userinfo_answer wall_clock uuid4 encode http r c headers reply ∧
    validate_userinfo_sub (process_userinfo_response text_of reply) (ui_expected_sub r) = Ok a.

Lemma checks_userinfo_call x R r managed :
  checks x R (caught_userinfo env http_date wall wall_clock uuid4 encode text_of is_dir create_default_context
                load_cert_chain new_client http r managed)
    (λ ui, match ui with inl _ => True | inr a => is_successful a = true → userinfo_read r managed a end).
Proof.
  unfold caught_userinfo. intros s Hi <-.
  pose proof (transport_kept (get_userinfo env http_date wall wall_clock uuid4 encode text_of is_dir
    create_default_context load_cert_chain new_client http r managed)
    (λ o, ∀ a, o = Ok a → is_successful a = true → userinfo_read r managed a)) as H.
  unfold io, try_except, mbind, stM_bind, mret, stM_ret, mthrow, stM_throw.
  specialize (H ltac:(clear; intros t o t' Hrun a -> Hok;
    pose proof (get_userinfo_run env http_date wall wall_clock uuid4 encode text_of is_dir
      create_default_context load_cert_chain new_client http r managed t) as Hspec; cbv zeta in Hspec;
    destruct (prepare_userinfo_headers wall_clock uuid4 encode r None (wire t)) as [[hs|e] w];
    [destruct Hspec as (a' & t'' & Heq & _ & _ & Hv); rewrite Hrun in Heq; injection Heq as <- <-;
     destruct (Hv Hok) as (c & reply & Hc); by exists c, hs, reply|by rewrite Hrun in Hspec]) s Hi).
  destruct (on_transport _ s) as [[a|e] s']; cbn [checked]; destruct H as (Hi' & Hs & H).
  - split_and!; [done..|by apply H].
  - destruct (isinstance e _); done.
Qed.

(** The UserInfo claims are none, or those of a reply about the ID token's subject. *)
Definition about_subject (se : AuthSession) (h : HTTPClient) (claims : pydict) (userinfo : pyval) : Prop :=
  userinfo = VDict [] ∨
  (∃ r a, ui_expected_sub r = dget "sub" claims ∧ is_successful a = true ∧
     userinfo_read r (client_for_session se h) a ∧ raw_attr a "claims" = userinfo) ∧
  (is_none (dget "sub" claims) = false →
   ∃ d, userinfo = VDict d ∧ py_eq (dget "sub" d) (dget "sub" claims) = true).

Lemma userinfo_read_about se h claims r a :
  ui_expected_sub r = dget "sub" claims → is_successful a = true →
  userinfo_read r (client_for_session se h) a →
  about_subject se h claims (if truthy (raw_attr a "claims") then raw_attr a "claims" else VDict []).
Proof.
  intros Hsub Hok Hread. destruct (truthy (raw_attr a "claims")) eqn:Ht; [right|by left].
  split; [by exists r, a|]. intros Hn. destruct Hread as (c & hs & reply & _ & _ & Hv). rewrite Hsub in Hv.
  apply userinfo_sub_eq in Hv as (-> & Hs & [Hr|Hd]); [| |done..].
  - exfalso. apply process_userinfo_ok in Hs as [_ Hm]. destruct (_ ≟ _).
    + destruct Hm as [_ Hc]. by rewrite Hc in Ht.
    + by destruct Hm as [Hm _].
  - done.
Qed.

(** The session, or the session with the exception it noted. *)
Definition noted (se se' : AuthSession) : Prop :=
  se' = se ∨ ∃ msg, se' = with_result (dict_set "userinfo_error" (VStr msg)) se.

Lemma checks_userinfo x h ep se disco access_token claims :
  op_document h ep disco →
  checks x (refused x se)
    (fetch_userinfo env http_date wall wall_clock uuid4 encode text_of is_dir create_default_context
       load_cert_chain new_client http app h se disco access_token (dget "sub" claims))
    (λ su, noted se su.1 ∧ about_subject se h claims su.2 ∧ (truthy su.2 = true ∨ su.2 = VDict [])).
Proof.
  intros Hd. unfold fetch_userinfo. step ltac:(apply checks_raises). intros endpoint _.
  apply checks_if; intros _. { apply checks_ret. split_and!; [by left..|by right]. }
  step ltac:(apply checks_raises). intros e' _. step ltac:(apply checks_raises). intros address _.
  step ltac:(apply checks_raises). intros token _. step ltac:(apply checks_userinfo_call). intros [msg|ui] Hui.
  { apply checks_ret. split_and!; [right; by exists msg|by left|by right]. }
  apply checks_if; intros Hok.
  - step ltac:(apply checks_raises). intros cl Hcl. apply checks_ret. split; [by left|]. cbn [snd].
    split; [|destruct (truthy cl) eqn:Ht; [by left|by right]]. unfold get_attr in Hcl. rewrite Hok in Hcl. rewrite getattribute_ok in Hcl by compute_done.
    injection Hcl as <-. eapply userinfo_read_about; [|done|by apply Hui]. done.
  - step ltac:(apply checks_raises). intros err _. rejected.
Qed.

Lemma checks_resource x R h se disco access_token :
  checks x R (fetch_fapi2_resource env http_date wall wall_clock uuid4 encode text_of is_dir
     create_default_context load_cert_chain new_client http app h se disco access_token) (λ _, True).
Proof.
  unfold fetch_fapi2_resource. apply checks_if; intros _; [by apply checks_ret|].
  apply checks_if; intros _; [by apply checks_ret|].
  step ltac:(apply checks_raises). intros address _. step ltac:(apply checks_raises). intros token _.
  step ltac:(apply checks_userinfo_call). intros ui _. by apply checks_ret.
Qed.

(** *** From the exchange on *)

(** What a login that is reported rests on. *)
Record redeemed (se : AuthSession) (cb : callback_response) (token claims : pydict) (userinfo : pyval) : Prop := {
  rd_document : ∃ h ep disco code,
    parse_discovery_url (ses_issuer se) = Ok ep ∧ op_document h ep disco ∧
    dget "issuer" (disco_attrs disco) = VStr (ses_issuer se) ∧
    callback_code code_text cb = Ok (Some code) ∧ exchanged h se disco code (VDict token) ∧
    identified se ep (dget "id_token" token) claims ∧ about_subject se h claims userinfo;
  rd_issuer : ses_fapi2 se = true → cb_issuer (as_callback cb) = Some (text (ses_issuer se));
  rd_successful : cb_is_successful (as_callback cb) = true;
}.

(** The globals after it: the login is what a logout is for, and the session's result. *)
Definition recorded_login (se : AuthSession) (token claims : pydict) (userinfo end_session : pyval) (x : Stores) : Stores :=
  store_test_result
    (completed claims userinfo (dget "access_token" token)
       (with_logout (or_empty (dget "id_token" token)) (or_empty end_session) se))
    (set_logout_context (NewLogout (or_empty end_session) (or_empty (dget "id_token" token)) (ses_client_id se)) x).

(** How a session taken out of the store ends: refused, logged in, or with an exception, before
    the login was recorded or, when the UserInfo claims are no dictionary, after. *)
Definition ended (x : Stores) (se : AuthSession) (cb : callback_response) (r : outcome (reply + reply)) (x' : Stores) : Prop :=
  match r with
  | Ok (inl rep) => refused x se rep x'
  | Ok (inr rep) => ∃ se' token claims userinfo end_session, noted se se' ∧
      redeemed se cb token claims (VDict userinfo) ∧
      x' = recorded_login se' token claims (VDict userinfo) end_session x ∧
      rep = html_reply 200 (success_page claims userinfo)
  | Err e => x' = x ∨ ∃ se' token claims userinfo end_session, noted se se' ∧
      redeemed se cb token claims userinfo ∧ x' = recorded_login se' token claims userinfo end_session x
  end.

Lemma py_get_ok v name w : py_get v name = Ok w → ∃ d, v = VDict d ∧ w = dget name d.
Proof. destruct v as [| | | | | |d]; try done. intros [= <-]. by exists d. Qed.


Lemma ended_reject x se cb err status body :
  (status = 400 ∨ status = 502)%Z → tame body → obeys x (reject se err status body) (ended x se cb).
Proof. intros Hs Hb. apply obeys_writes, obeys_answer. split_and!; [done..|]. by exists err. Qed.
(** A step that goes on, or ends the session. *)
Local Ltac onward H := eapply (obeys_after _ (refused _ _)); [H| |done|by intros ?; left].
Local Ltac ended_here :=
  apply ended_reject; [by (left + right)|apply tame_page; [literal|first [apply tame_escape|literal]]].

Lemma redeem_ended x h se disco ep cb code :
  parse_discovery_url (ses_issuer se) = Ok ep → op_document h ep disco →
  dget "issuer" (disco_attrs disco) = VStr (ses_issuer se) →
  (ses_fapi2 se = true → cb_issuer (as_callback cb) = Some (text (ses_issuer se))) →
  callback_code code_text cb = Ok (Some code) → cb_is_successful (as_callback cb) = true →
  obeys x (redeem env http_date wall clock wall_clock uuid4 header new_pyjwk decode encode text_of is_dir
             create_default_context load_cert_chain new_client http app h se disco ep code) (ended x se cb).
Proof.
  intros Hep Hd Hiss Hf Hcode Hcb. unfold redeem.
  onward ltac:(apply checks_exchange). intros tok Htok.
  destruct (is_successful tok) eqn:Hok; cbn [negb]; cycle 1.
  { onward ltac:(apply checks_raises). intros err _.
    ended_here. }
  specialize (Htok Hok). onward ltac:(apply checks_raises). intros token Ht.
  unfold get_attr in Ht. rewrite Hok, getattribute_ok in Ht by compute_done. injection Ht as <-.
  destruct (is_none (raw_attr tok "token")).
  { ended_here. }
  onward ltac:(apply checks_raises). intros id_token (d & Hdt & ->)%py_get_ok.
  onward ltac:(apply checks_raises). intros access_token (d' & Hdt' & ->)%py_get_ok.
  rewrite Hdt in Hdt'. injection Hdt' as <-. rewrite Hdt in Htok.
  onward ltac:(by eapply checks_id_token). intros claims Hid.
  onward ltac:(by eapply checks_userinfo). intros [se' userinfo] (Hn & Hui & Htr). cbn [fst snd] in *.
  onward ltac:(apply checks_resource). intros _ _.
  onward ltac:(apply checks_raises). intros end_session _.
  apply obeys_writes, obeys_writes.
  assert (Hred : redeemed se cb d claims userinfo) by (split; [by exists h, ep, disco, code|done..]).
  eapply obeys_after; [apply (checks_raises _ (λ _ _, False))| |done|].
  - intros ui Hu. apply obeys_ret. exists se', d, claims, ui, end_session.
    assert (userinfo = VDict ui) as ->; [|done].
    destruct userinfo; destruct Htr as [Htr|Htr]; try discriminate Htr; try rewrite Htr in Hu; try discriminate Hu;
      congruence.
  - intros e. right. by exists se', d, claims, userinfo, end_session.
Qed.

Lemma state_verdict cb se v :
  validate_authorize_callback_state cb se = Ok v → is_valid v = true → cb_is_successful cb = true.
Proof.
  unfold validate_authorize_callback_state. destruct (cb_is_successful cb); [done|]. cbn [negb].
  unfold error_response, callback_attr. intros (? & _ & Hv)%result_bind_ok.
  by apply result_bind_ok in Hv as (? & _ & [= <-]).
Qed.

Lemma complete_ended x h cb se :
  obeys x (complete env http_date wall clock wall_clock uuid4 header new_pyjwk decode encode text_of is_dir
             create_default_context load_cert_chain new_client http code_text app h cb se) (ended x se cb).
Proof.
  unfold complete. onward ltac:(apply checks_raises). intros v Hv.
  destruct (is_valid v) eqn:Hok; cbn [negb]; [|ended_here].
  rewrite (state_verdict _ _ _ Hv Hok). cbn [negb].
  onward ltac:(apply checks_session_discovery). intros [disco ep] (Hep & Hd & Hiss). cbn [fst snd] in *.
  onward ltac:(by eapply checks_callback_issuer). intros [] Hf.
  onward ltac:(apply checks_raises). intros endpoint _. destruct (is_none endpoint); [ended_here|].
  onward ltac:(apply checks_raises). intros [code|] Hcode; [|ended_here].
  apply redeem_ended; [done..|]. exact (state_verdict _ _ _ Hv Hok).
Qed.

(** *** The callback *)

(** How a callback ends: before a flow is known, with the globals as they were; or as the flow its
    state names does, that flow having been taken out first. *)
Definition answered_callback (x : Stores) (url : string) (r : outcome (reply + reply)) (x' : Stores) : Prop :=
  (∃ rep, r = Ok (inl rep) ∧ unanswered x rep x') ∨ (∃ e, r = Err e ∧ x' = x) ∨
  ∃ cb u se, parsed x url cb ∧ state_key cb = Ok (Some u) ∧ sessions x !! u = Some se ∧
    ended (pop_session u x) se cb r x'.

Lemma callback_answered x url :
  obeys x (handle_callback env http_date wall clock wall_clock uuid4 header new_pyjwk decode encode text_of is_dir
             create_default_context load_cert_chain new_client insecure_client http code_text app url)
    (answered_callback x url).
Proof.
  unfold handle_callback.
  assert (HE : ∀ e, answered_callback x url (Err e) x) by (intros e; right; left; by exists e).
  assert (HR : ∀ rep x', unanswered x rep x' → answered_callback x url (Ok (inl rep)) x')
    by (intros rep x' H; left; by exists rep).
  eapply obeys_after; [apply checks_http_client| |exact HR|exact HE]. intros h _.
  eapply obeys_after; [apply checks_parse| |exact HR|exact HE]. intros cb Hcb.
  eapply obeys_after; [apply checks_raises| |exact HR|exact HE]. intros key Hkey.
  eapply obeys_after; [apply checks_reads| |exact HR|exact HE]. intros known ->.
  destruct key as [u|]; cbn [mbind option_bind].
  - destruct (sessions x !! u) as [se|] eqn:Hs; cbn [fmap option_fmap option_map].
    + apply obeys_writes. eapply obeys_post; [apply complete_ended|]. intros r x' Hr. right; right. by exists cb, u, se.
    + apply obeys_answer, HR. split_and!; [done| |done]. apply tame_page; literal.
  - apply obeys_answer, HR. split_and!; [done| |done]. apply tame_page; literal.
Qed.

(** *** The flows begun *)

(** Where [/authorize] sent the browser: a pushed request was accepted, with the session's state,
    nonce and challenge; or the URL, or the object it names, carries them. *)
Definition pushed (h : HTTPClient) (se : AuthSession) (challenge : string) : Prop :=
  ∃ address mode par, is_successful par = true ∧
    answered_request (Par (PARReq address (fapi2_client app (ses_client_id se) (ses_issuer se) (ses_mtls se))
      (callback_uri app) FAPI2_SCOPE "code" (Some (ses_state se)) (Some (ses_nonce se)) (Some challenge)
      (Some "S256") (ses_dpop_key se) mode)) (client_for_session se h) par.

(** A session [/authorize] left: its state and nonce are fresh, its provider is the one asked for,
    whose document names it; a FAPI 2.0 session has a verifier, was pushed, and is bound to a DPoP
    key unless it is bound to the client's certificate. *)
Record begun (se : AuthSession) : Prop := {
  bg_fresh : ∃ f, ses_state se = fresh_token f 0 32 ∧ ses_nonce se = fresh_token f 1 32 ∧
    ∀ v, ses_code_verifier se = Some v →
      ∃ c, generate_pkce_pair (fresh_bytes f 2) "S256" DEFAULT_VERIFIER_LENGTH = Ok (v, c) ∧
           (ses_fapi2 se = true → ∃ h, pushed h se c);
  bg_provider : ∃ h ep disco, parse_discovery_url (ses_issuer se) = Ok ep ∧ op_document h ep disco ∧
    dget "issuer" (disco_attrs disco) = VStr (ses_issuer se);
  bg_fapi2 : ses_fapi2 se = true → is_Some (ses_code_verifier se) ∧ is_some (ses_dpop_key se) = negb (ses_mtls se);
}.
Lemma begun_result se g : begun se → begun (with_result g se).
Proof. by intros [H1 H2 H3]. Qed.

Definition flow_of (se : AuthSession) (ctx : FlowContext) : Prop :=
  fc_issuer ctx = ses_issuer se ∧ fc_client_id ctx = ses_client_id se ∧
  ∃ ep, parse_discovery_url (ses_issuer se) = Ok ep ∧ fc_disco_address ctx = ep_url ep.

(** What a route does to the flows: nothing, or it begins one. *)
Definition same_flows (x x' : Stores) : Prop :=
  sessions x' = sessions x ∧ last_flow_context x' = last_flow_context x.
Definition new_flow (x x' : Stores) : Prop :=
  ∃ se ctx, begun se ∧ flow_of se ctx ∧ sessions x' = <[text (ses_state se) := se]> (sessions x) ∧
    last_flow_context x' = Some ctx.
Definition early (x : Stores) (rep : reply) (x' : Stores) : Prop := tame_reply rep ∧ same_flows x x'.
Definition settled (begins : bool) (x : Stores) (r : outcome (reply + reply)) (x' : Stores) : Prop :=
  (same_flows x x' ∨ begins = true ∧ new_flow x x' ∧ ∃ url, r = Ok (inr (redirect_reply url))) ∧
  match r with Ok (inl rep) | Ok (inr rep) => tame_reply rep | Err _ => True end.

Lemma settled_early b x rep x' : early x rep x' → settled b x (Ok (inl rep)) x'.
Proof. intros [Ht Hs]. split; [by left|done]. Qed.
Lemma settled_err b x e : settled b x (Err e) x.
Proof. split; [by left|done]. Qed.
(** A step that goes on, or answers early. *)
Local Ltac settling H := eapply (obeys_after _ (early _)); [H| |apply settled_early|apply settled_err].

Lemma checks_record {A} x test_id issuer err rep (P : A → Prop) :
  tame_reply rep → checks x (early x) (_ ← record_error test_id issuer err; answer rep) P.
Proof. intros Ht. apply obeys_writes, obeys_answer. split; [done|]. by destruct (nonempty test_id). Qed.

Lemma checks_begin x h test_id issuer :
  checks x (early x) (begin env http_date wall http h test_id issuer)
    (λ ed, parse_discovery_url issuer = Ok ed.1 ∧ op_document h ed.1 ed.2).
Proof.
  unfold begin. destruct (parse_discovery_url issuer) as [ep|e] eqn:Ep.
  - step ltac:(apply checks_discovery). intros d Hd. apply checks_if; intros Hs.
    + step ltac:(apply checks_raises). intros err _. by apply checks_record.
    + apply negb_false_iff in Hs. apply checks_ret. split; [done|]. by apply Hd.
  - apply checks_if; intros _; [by apply checks_record|apply checks_raise].
Qed.
Lemma checks_issuer x h ep disco test_id issuer :
  op_document h ep disco →
  checks x (early x) (check_issuer disco test_id issuer) (λ _, dget "issuer" (disco_attrs disco) = VStr issuer).
Proof.
  intros Hd. unfold check_issuer. step ltac:(apply checks_raises). intros iss Hi.
  eapply op_document_attr in Hi; [|exact Hd|compute_done].
  apply checks_if; intros _; [by apply checks_record|]. apply checks_if; intros He; [by apply checks_record|].
  apply negb_false_iff, py_eq_str in He. apply checks_ret. congruence.
Qed.

Lemma start_flow_settled x test_id issuer address url se ep :
  begun se → issuer = ses_issuer se → parse_discovery_url issuer = Ok ep → address = ep_url ep →
  obeys x (start_flow test_id issuer address url se) (settled true x).
Proof.
  intros Hb -> Hep ->. unfold start_flow. apply obeys_writes, obeys_writes, obeys_ret. split; [right; split_and!; [done| |by exists url]|done].
  set (se' := if nonempty test_id then _ else se).
  assert (Hse : begun se' ∧ ses_issuer se' = ses_issuer se ∧ ses_client_id se' = ses_client_id se).
  { unfold se'. destruct (nonempty test_id); [|done]. split_and!; [by apply begun_result|done..]. }
  destruct Hse as (Hb' & Hi & Hc). eexists se', _. split_and!; [done| |done..].
  split_and!; cbn; [done..|]. rewrite Hi. by exists ep.
Qed.

(** The part that makes the URL keeps the flows. *)
Definition keeping (x : Stores) {A} (r : outcome (reply + A)) (x' : Stores) : Prop :=
  same_flows x x' ∧ match r with Ok (inl rep) => False | _ => True end.
Lemma settled_from b x x1 r x' : same_flows x x1 → settled b x1 r x' → settled b x r x'.
Proof.
  intros [H1 H2] [H Ht]. split; [|done]. destruct H as [[H3 H4]|(Hb' & (se & ctx & Hb & Hf & H3 & H4) & Hu)].
  - left. split; congruence.
  - right. split_and!; [done| |done]. exists se, ctx. split_and!; [done..| |done]. by rewrite H3, H1.
Qed.
Lemma keeping_checks {A} x (m : Route A) P : checks x (λ _ _, False) m P → obeys x m (keeping x).
Proof.
  intros H. eapply obeys_post; [exact H|]. intros [[rep|a]|e] x' Hr; [done|..]; [destruct Hr as [-> _]|rewrite Hr]; done.
Qed.
Lemma request_uri_keeps x f q endpoint state nonce challenge :
  obeys x (request_uri_url wall_clock uuid4 encode app f q endpoint state nonce challenge) (keeping x).
Proof.
  unfold request_uri_url.
  eapply (obeys_after _ (λ _ _, False)); [by apply (checks_net _ _ _ (λ _, True))| |done|done]. intros object _.
  apply obeys_writes. eapply obeys_post; [eapply keeping_checks, checks_raises|]. intros r x' [[H1 H2] H]. split; [|done].
  by split.
Qed.

Lemma authorize_plain_settled x f q secret h ep disco :
  parse_discovery_url (q_issuer q) = Ok ep → op_document h ep disco →
  dget "issuer" (disco_attrs disco) = VStr (q_issuer q) →
  obeys x (authorize_plain wall_clock uuid4 encode app f q secret ep disco) (settled true x).
Proof.
  intros Hep Hd Hiss. unfold authorize_plain. settling ltac:(apply checks_raises). intros pkce Hp.
  settling ltac:(apply checks_raises). intros endpoint _.
  destruct (is_none endpoint); [by apply obeys_answer, settled_early|].
  settling ltac:(apply checks_raises). intros address _. eapply (obeys_seq _ _ _ (keeping x)).
  - destruct (is_true (q_use_request_uri q)); [apply request_uri_keeps|eapply keeping_checks, checks_raises].
  - intros url x1 [Hs _]. eapply obeys_post; [|intros r x'; by apply settled_from].
    apply (start_flow_settled _ _ _ _ _ _ ep); try done. split; cbn -[generate_pkce_pair].
    + exists f. split_and!; [done..|]. intros v Hv.
      destruct (is_true (q_use_pkce q)); [|by injection Hp as <-].
      destruct (generate_pkce_pair _ _ _) as [[v' c]|e]; [|done]. injection Hp as <-.
      injection Hv as <-. by exists c.
    + by exists h, ep, disco.
    + done.
  - intros rep x1 [_ []].
  - intros e x1 [Hs _]. split; [by left|done].
Qed.

Lemma checks_requested x R q managed :
  checks x R (io (on_transport (request env http_date wall wall_clock uuid4 encode text_of is_dir create_default_context
                load_cert_chain new_client http q managed)))
    (λ a, is_successful a = true → answered_request q managed a).
Proof.
  apply checks_transport. intros t a t' H Hok.
  destruct (request_spec env http_date wall wall_clock uuid4 encode text_of is_dir create_default_context
    load_cert_chain new_client http q managed t) as (a' & t'' & Heq & _ & _ & Ha & _).
  rewrite H in Heq. injection Heq as <- <-.
  destruct Ha as [[e ->]|(p & w & c & reply & Ha)]; [by rewrite (proj2 (handle_class q e)) in Hok|].
  exists p, (wire t), w, c, reply. exact Ha.
Qed.

Lemma authorize_fapi2_settled x h f q ep disco :
  parse_discovery_url (q_issuer q) = Ok ep → op_document h ep disco →
  dget "issuer" (disco_attrs disco) = VStr (q_issuer q) →
  obeys x (authorize_fapi2 env http_date wall wall_clock uuid4 encode text_of is_dir create_default_context
             load_cert_chain new_client http app h f q ep disco) (settled true x).
Proof.
  intros Hep Hd Hiss. unfold authorize_fapi2. settling ltac:(apply checks_raises). intros par_endpoint _.
  destruct (negb (truthy par_endpoint)).
  { eapply obeys_post; [by apply (checks_record _ _ _ _ _ (λ _, False))|].
    intros [[rep|rep]|e] x' H; [by apply settled_early|by destruct H|rewrite H; apply settled_err]. }
  settling ltac:(apply checks_raises). intros endpoint _.
  destruct (is_none endpoint); [by apply obeys_answer, settled_early|].
  settling ltac:(apply checks_raises). intros [verifier challenge] Hg.
  settling ltac:(apply checks_raises). intros key Hk. settling ltac:(apply checks_raises). intros address _.
  settling ltac:(apply checks_requested). intros par Hpar. settling ltac:(apply checks_raises). intros uri Huri.
  destruct (negb (truthy uri)) eqn:Ht.
  { settling ltac:(apply checks_raises). intros err _.
    eapply obeys_post; [by apply (checks_record _ _ _ _ _ (λ _, False))|].
    intros [[rep|rep]|e] x' H; [by apply settled_early|by destruct H|rewrite H; apply settled_err]. }
  destruct (is_successful par) eqn:Hok; [|by injection Huri as <-].
  settling ltac:(apply checks_raises). intros url _.
  apply (start_flow_settled _ _ _ _ _ _ ep); try done. split; cbn -[generate_pkce_pair].
  - exists f. split_and!; [done..|]. intros v [= <-]. exists challenge. split; [done|]. intros _.
    exists h, address, (if is_true (q_jarm q) then Some "jwt" else None), par. split; [done|]. by apply Hpar.
  - by exists h, ep, disco.
  - intros _. split; [done|]. destruct (is_true (q_mtls q)); [by injection Hk as <-|].
    by destruct (generate_dpop_key _ _ _); [injection Hk as <-|].
Qed.

Lemma authorize_settled x f q :
  obeys x (authorize env http_date wall wall_clock uuid4 encode text_of is_dir create_default_context
             load_cert_chain new_client insecure_client http app f q) (settled true x).
Proof.
  unfold authorize. settling ltac:(apply checks_http_client). intros h _.
  settling ltac:(apply checks_reads). intros secret _.
  settling ltac:(apply checks_begin). intros [ep disco] [Hep Hd]. cbn [fst snd] in *.
  settling ltac:(by eapply checks_issuer). intros [] Hiss.
  destruct (_ || _); [by eapply authorize_fapi2_settled|by eapply authorize_plain_settled].
Qed.

(** *** The other routes leave the flows alone *)

Lemma discover_settled x issuer test_id :
  obeys x (discover env http_date wall insecure_client http issuer test_id) (settled false x).
Proof.
  unfold discover. settling ltac:(apply checks_http_client). intros h _.
  settling ltac:(apply checks_begin). intros [ep disco] _. settling ltac:(apply checks_raises). intros iss _.
  apply obeys_writes, obeys_ret. split; [left|done]. by destruct (nonempty test_id).
Qed.
Lemma register_settled x issuer :
  obeys x (register env http_date wall text_of new_client insecure_client http app issuer) (settled false x).
Proof.
  unfold register. settling ltac:(apply checks_http_client). intros h _.
  settling ltac:(apply checks_begin). intros [ep disco] _. settling ltac:(apply checks_raises). intros endpoint _.
  destruct (negb _); [by apply obeys_answer, settled_early|]. settling ltac:(apply checks_raises). intros address _.
  settling ltac:(by apply (checks_transport _ _ _ (λ _, True))). intros a _. destruct (negb _).
  - settling ltac:(apply checks_raises). intros err _. by apply obeys_answer, settled_early.
  - settling ltac:(apply checks_raises). intros id _. settling ltac:(apply checks_raises). intros secret _.
    apply obeys_writes, obeys_ret. by split; [left|].
Qed.

(** A logout token is accepted for the last flow begun, by the rules of [validate_logout_token]. *)
Definition logout_accepted (x : Stores) (token : string) : Prop :=
  ∃ ctx claims, last_flow_context x = Some ctx ∧ validate_logout_token_claims claims = Ok () ∧
    token_sound env (web http) header new_pyjwk decode token (backchannel_config ctx)
      (Some (fc_disco_address ctx)) claims.
Definition logged_out (x : Stores) (token : option string) (r : outcome (reply + reply)) (x' : Stores) : Prop :=
  x' = x ∧ match r with
           | Ok (inl _) => False
           | Ok (inr rep) => tame_reply rep ∧ reply_headers rep = [] ∧
               (reply_status rep = 400%Z ∨ reply_status rep = 200%Z ∧ ∃ t, token = Some t ∧ logout_accepted x t)
           | Err e => isinstance e PyIdentityModelException = false ∧ isinstance e JwtPyJWTError = false
           end.

Lemma backchannel_settled x token :
  obeys x (receive_backchannel_logout env http_date wall clock header new_pyjwk decode http token) (logged_out x token).
Proof.
  unfold receive_backchannel_logout. destruct token as [token|]; [|by apply obeys_ret; split; [|split_and!; [| |left]]].
  cbn [given]. destruct (nonempty token); [|by apply obeys_ret; split; [|split_and!; [| |left]]].
  intros s Hi Hs. unfold mbind, route_bind, reads, io at 1, gets. rewrite Hs.
  destruct (last_flow_context x) as [ctx|] eqn:Hctx; [|by split; [|split; [|split_and!; [| |left]]]].
  unfold attempt, io, on_tv, zoom.
  pose proof (triple_validate_token env http_date wall (web http) clock header new_pyjwk decode token
    (backchannel_config ctx) (Some (fc_disco_address ctx)) false (h_tv s) Hi) as Hv.
  unfold validate_logout_token, mbind, stM_bind, lift, mret, stM_ret, route_ret.
  destruct (validate_token _ _ _ _ _ _ _ _ _ _ _ _ (h_tv s)) as [[claims|e] t].
  - destruct Hv as (Hi' & accepted & Ha & Ho). destruct (validate_logout_token_claims claims) as [[]|e] eqn:El.
    + split; [done|]. split; [done|]. split_and!; [done..|]. right. split; [done|]. exists token. split; [done|].
      exists ctx, claims. split_and!; [done..|]. by eapply token_accepted_sound.
    + destruct (isinstance e PyIdentityModelException) eqn:E1; [by split; [|split; [|split_and!; [| |left]]]|].
      destruct (isinstance e JwtPyJWTError) eqn:E2; by split; [|split; [|first [split_and!; [| |left]|idtac]]].
  - destruct (isinstance e PyIdentityModelException) eqn:E1; [by split; [|split; [|split_and!; [| |left]]]|].
    destruct (isinstance e JwtPyJWTError) eqn:E2; by split; [|split; [|first [split_and!; [| |left]|idtac]]].
Qed.

(** *** Any route *)

Local Abbreviation served := (serve env http_date wall clock wall_clock uuid4 header new_pyjwk decode encode text_of
  is_dir create_default_context load_cert_chain new_client insecure_client http code_text app).
Local Abbreviation reach := (reached env http_date wall clock wall_clock uuid4 header new_pyjwk decode encode text_of
  is_dir create_default_context load_cert_chain new_client insecure_client http code_text app).
Local Abbreviation routed := (route env http_date wall clock wall_clock uuid4 header new_pyjwk decode encode text_of
  is_dir create_default_context load_cert_chain new_client insecure_client http code_text app).

(** The URL a callback is read from. *)
Definition callback_url (r : http_request) : option string :=
  match r with
  | GetCallback url => Some url
  | PostCallback items =>
      match urlencode items with Ok p => Some (RP_BASE_URL app +:+ "/callback?" +:+ p) | Err _ => None end
  | _ => None
  end.

Lemma route_callback x r url : callback_url r = Some url → obeys x (routed r) (answered_callback x url).
Proof.
  destruct r; try done; cbn [callback_url route].
  - intros [= ->]. apply callback_answered.
  - destruct (urlencode form_items) as [p|] eqn:Ep; [|done]. intros [= <-]. unfold callback_post.
    eapply (obeys_after _ (λ _ _, False)); [apply checks_raises| |done|intros e; right; left; by exists e].
    intros p' Hp. rewrite Ep in Hp. injection Hp as <-. apply callback_answered.
Qed.

Lemma settled_ret b x x' r : same_flows x x' → tame_reply r → settled b x (Ok (inr r)) x'.
Proof. by split; [left|]. Qed.
Lemma checks_clear x R (m : stM TVState exn ()) :
  (∀ t, ∃ t', m t = (Ok (), t') ∧ tv_step env http_date wall (web http) clock header new_pyjwk decode t t') →
  checks x R (io (on_tv m)) (λ _, True).
Proof.
  intros Hm. apply checks_tv. intros t Hi. destruct (Hm t) as (t' & -> & H). split; [|done]. by eapply tv_step_inv.
Qed.
Definition begins_flow (r : http_request) : bool := match r with GetAuthorize _ _ => true | _ => false end.
Lemma route_other x r : callback_url r = None → obeys x (routed r) (settled (begins_flow r) x).
Proof.
  destruct r; cbn [callback_url route begins_flow]; intros Hr; try discriminate Hr.
  - by apply obeys_ret, settled_ret.
  - unfold clear_cache.
    settling ltac:(apply (checks_clear _ _ clear_discovery_cache); intros t; eexists; split; [reflexivity|apply step_clear_discovery]).
    intros [] _.
    settling ltac:(apply (checks_clear _ _ clear_jwks_cache); intros t; eexists; split; [reflexivity|apply step_clear_jwks]).
    intros [] _. by apply obeys_ret, settled_ret.
  - unfold fapi2_jwks. settling ltac:(apply checks_raises). intros jwk _. by apply obeys_ret, settled_ret.
  - by apply obeys_ret, settled_ret.
  - apply discover_settled.
  - apply register_settled.
  - unfold request_object. settling ltac:(apply checks_reads). intros [jwt|] _; by apply obeys_ret, settled_ret.
  - apply authorize_settled.
  - unfold callback_post. destruct (urlencode form_items) as [p|] eqn:Ep; [done|].
    settling ltac:(apply checks_raises). intros p Hp. congruence.
  - unfold backchannel_logout. eapply obeys_seq; [apply backchannel_settled| | |].
    + intros rep x1 [-> [Ht _]]. apply obeys_ret, settled_ret; [done|exact Ht].
    + intros rep x1 [_ []].
    + intros e x1 [-> _]. apply settled_err.
  - unfold logout. settling ltac:(apply checks_reads). intros [c|] _; [|by apply obeys_ret, settled_ret].
    destruct (negb _); [by apply obeys_ret, settled_ret|]. apply obeys_writes.
    set (x1 := set_logout_state _ x). apply (obeys_post x1 _ (settled false x1)); [|intros r x'; by apply settled_from].
    settling ltac:(apply checks_raises). intros url _. by apply obeys_ret, settled_ret.
  - unfold post_logout_callback. settling ltac:(apply checks_reads). intros expected _.
    destruct (validate_post_logout_state _ _) as [|e].
    + apply obeys_ret, settled_ret; [done|]. apply tame_page; literal.
    + destruct (isinstance e _); [|intros st Hi <-; split; [done|apply settled_err]].
      apply obeys_ret, settled_ret; [done|]. apply tame_page; [literal|apply tame_escape].
  - unfold get_result. settling ltac:(apply checks_reads). intros [se|] _; by apply obeys_ret, settled_ret.
Qed.

(** *** What holds in every state *)

Definition flows_ok (x : Stores) : Prop :=
  (∀ u se, sessions x !! u = Some se → u = text (ses_state se) ∧ begun se) ∧
  ∀ ctx, last_flow_context x = Some ctx → ∃ se, begun se ∧ flow_of se ctx.

Lemma stored_flows se x : same_flows x (store_test_result se x).
Proof. unfold store_test_result. by destruct (dget _ _) as [| | | |[]| |]. Qed.
Lemma recorded_flows se token claims userinfo end_session x :
  same_flows x (recorded_login se token claims userinfo end_session x).
Proof.
  unfold recorded_login. match goal with |- same_flows _ (store_test_result ?s ?y) => pose proof (stored_flows s y) as [H1 H2] end.
  split; [by rewrite H1|by rewrite H2].
Qed.
Lemma ended_flows x se cb r x' : ended x se cb r x' → same_flows x x'.
Proof.
  destruct r as [[rep|rep]|e]; cbn [ended].
  - intros (_ & _ & err & ->). apply stored_flows.
  - intros (se' & token & claims & ui & es & _ & _ & -> & _). apply recorded_flows.
  - intros [->|(se' & token & claims & ui & es & _ & _ & ->)]; [done|apply recorded_flows].
Qed.

(** A callback leaves the flows as they are, or takes out the one its state names. *)
Lemma callback_flows x url r x' :
  answered_callback x url r x' →
  last_flow_context x' = last_flow_context x ∧
  (sessions x' = sessions x ∨ ∃ u se, sessions x !! u = Some se ∧ sessions x' = delete u (sessions x)).
Proof.
  intros [(rep & _ & _ & _ & ->)|[(e & _ & ->)|(cb & u & se & _ & _ & Hu & H)]]; [by split; [|left]..|].
  apply ended_flows in H as [H1 H2]. rewrite H1, H2. split; [done|right]. by exists u, se.
Qed.

Definition merged (r : outcome (reply + reply)) : outcome reply :=
  match r with Ok (inl rep) | Ok (inr rep) => Ok rep | Err e => Err e end.
Lemma served_obeys r s Q :
  obeys (stores s) (routed r) Q → Inv (h_tv s) →
  match served r s with (o, s') => Inv (h_tv s') ∧ ∃ ro, merged ro = o ∧ Q ro (stores s') end.
Proof.
  intros H Hi. specialize (H s Hi eq_refl). unfold serve.
  destruct (routed r s) as [[[rep|rep]|e] s']; destruct H as [Hi' HQ]; (split; [done|]); eexists; by split; [|exact HQ].
Qed.

Lemma served_settled r s :
  callback_url r = None → Inv (h_tv s) → settled (begins_flow r) (stores s) (inr <$> (served r s).1) (stores (served r s).2).
Proof.
  intros Hr Hi. pose proof (served_obeys r s _ (route_other (stores s) r Hr) Hi) as H.
  destruct (served r s) as [o s']. destruct H as (_ & ro & <- & Hf & Ht). split; [|by destruct ro as [[rep|rep]|e]].
  destruct Hf as [Hf|(Hb & Hn & url & ->)]; [by left|right]. split_and!; [done..|by exists url].
Qed.
Lemma served_callback r s url :
  callback_url r = Some url → Inv (h_tv s) →
  ∃ ro, merged ro = (served r s).1 ∧ answered_callback (stores s) url ro (stores (served r s).2).
Proof.
  intros Hr Hi. pose proof (served_obeys r s _ (route_callback (stores s) r url Hr) Hi) as H.
  destruct (served r s) as [o s']. destruct H as (_ & ro & <- & Ha). by exists ro.
Qed.
Lemma served_inv r s : Inv (h_tv s) → Inv (h_tv (served r s).2).
Proof.
  intros Hi. destruct (callback_url r) as [url|] eqn:Hr.
  - pose proof (served_obeys r s _ (route_callback (stores s) r url Hr) Hi) as H.
    destruct (served r s) as [o s']. by destruct H.
  - pose proof (served_obeys r s _ (route_other (stores s) r Hr) Hi) as H.
    destruct (served r s) as [o s']. by destruct H.
Qed.

Lemma flows_ok_change x x' :
  flows_ok x → last_flow_context x' = last_flow_context x →
  (∀ u se, sessions x' !! u = Some se → sessions x !! u = Some se) → flows_ok x'.
Proof. intros [H1 H2] Hl Hs. split; [intros u se Hu; by apply H1, Hs|by rewrite Hl]. Qed.

Lemma reached_inv s : reach s → Inv (h_tv s) ∧ flows_ok (stores s).
Proof.
  induction 1 as [|r s _ [Hi Hf]].
  - split; [apply initial_tv_inv|]. split; [intros u se H; cbn in H; by rewrite lookup_empty in H|done].
  - split; [by apply served_inv|]. destruct (callback_url r) as [url|] eqn:Hr.
    + destruct (served_callback r s url Hr Hi) as (ro & _ & Ha). apply callback_flows in Ha as [Hl Hs].
      eapply flows_ok_change; [exact Hf|exact Hl|]. intros u se. destruct Hs as [->|(u' & se' & _ & ->)]; [done|].
      intros [_ Hu]%lookup_delete_Some. exact Hu.
    + destruct (served_settled r s Hr Hi) as [[[H1 H2]|(_ & (se & ctx & Hb & Hfl & H1 & H2) & _)] _].
      * eapply flows_ok_change; [exact Hf|exact H2|]. by rewrite H1.
      * split; [|rewrite H2; intros c [= <-]; by exists se]. rewrite H1. intros u se' Hu.
        apply lookup_insert_Some in Hu as [[<- <-]|[_ Hu]]; [done|]. by apply Hf.
Qed.

(** ** Properties *)

(** C6: what a callback of the conformance relying party comes to.  In every state a sequence of
    requests can bring about, a callback, by GET or by POST, either is answered 400 (or crashes) and
    changes none of the application's globals, or it names by its state a flow this application
    began, which is taken out of the store first.  That flow then ends in one of three ways.  It is
    refused with 400 or 502 and the refusal is recorded as its result.  Or it is a login, answered
    200 and recorded, and then the provider's document is admitted under the policy and names the
    flow's issuer, the code of the callback was exchanged at its token endpoint under the flow's
    verifier and client authentication, the ID token, if there is one, was accepted by PyJWT for
    this client with the flow's nonce, the UserInfo claims are about its subject, and a FAPI 2.0
    callback names the issuer.  Or an exception escapes, before anything is recorded or after the
    login was. *)
Theorem callback_outcomes r url s o s' :
  reach s → callback_url r = Some url → served r s = (o, s') →
  let x := stores s in
  match o with
  | Ok rep => reply_status rep = 400%Z ∧ stores s' = x
  | Err _ => stores s' = x
  end ∨
  ∃ cb u se, parsed x url cb ∧ state_key cb = Ok (Some u) ∧ sessions x !! u = Some se ∧
    u = text (ses_state se) ∧ begun se ∧
    let x1 := pop_session u x in
    (∃ rep err, o = Ok rep ∧ (reply_status rep = 400 ∨ reply_status rep = 502)%Z ∧
       stores s' = store_test_result (failed err se) x1) ∨
    (∃ se' token claims userinfo end_session, noted se se' ∧ redeemed se cb token claims (VDict userinfo) ∧
       o = Ok (html_reply 200 (success_page claims userinfo)) ∧
       stores s' = recorded_login se' token claims (VDict userinfo) end_session x1) ∨
    (∃ e, o = Err e ∧ (stores s' = x1 ∨
       ∃ se' token claims userinfo end_session, noted se se' ∧ redeemed se cb token claims userinfo ∧
         stores s' = recorded_login se' token claims userinfo end_session x1)).
Proof.
  intros [Hi Hf]%reached_inv Hr Hs x.
  destruct (served_callback r s url Hr Hi) as (ro & Ho & Ha). rewrite Hs in Ho, Ha. cbn [fst snd] in Ho, Ha. subst o.
  destruct Ha as [(rep & -> & Hst & _ & ->)|[(e & -> & ->)|(cb & u & se & Hp & Hk & Hu & H)]]; [by left..|right].
  destruct (proj1 Hf u se Hu) as [Hst Hb]. exists cb, u, se. split_and!; [done..|].
  destruct ro as [[rep|rep]|e]; cbn [ended] in H.
  - left. destruct H as (Hc & _ & err & Hx). by exists rep, err.
  - right; left. destruct H as (se' & token & claims & ui & es & Hn & Hred & Hx & ->). by exists se', token, claims, ui, es.
  - right; right. by exists e.
Qed.

(** C19: what a page shows.  Every page an application in any state answers has no tags but the
    headings and paragraphs of its templates, whatever came from the provider, the token or the
    browser; and an escaped text is read back by a browser as that very text. *)
Theorem pages_show_text r s rep s' body :
  reach s → served r s = (Ok rep, s') → reply_content rep = Html body →
  (∀ name, Tag name ∈ html_tokens InText body → name ∈ page_tags) ∧
  ∀ t rest, html_tokens InText (html_escape t +:+ rest) = shown_text t ++ html_tokens InText rest.
Proof.
  intros [Hi _]%reached_inv Hs Hb. split; [|apply html_tokens_escape].
  assert (Ht : tame_reply rep).
  { destruct (callback_url r) as [url|] eqn:Hr.
    - destruct (served_callback r s url Hr Hi) as (ro & Ho & Ha). rewrite Hs in Ho, Ha. cbn [fst snd] in *.
      destruct Ha as [(rep' & -> & _ & Ht & _)|[(e & -> & _)|(cb & u & se & _ & _ & _ & H)]]; [by injection Ho as <-|done|].
      destruct ro as [[rep'|rep']|e]; [injection Ho as <-; apply H|injection Ho as <-|done].
      destruct H as (se' & token & claims & ui & es & _ & _ & _ & ->). apply tame_success.
    - destruct (served_settled r s Hr Hi) as [_ Ht]. by rewrite Hs in Ht. }
  unfold tame_reply in Ht. rewrite Hb in Ht. destruct Ht as (l & Hl & Ht). specialize (Ht "").
  rewrite str_app_nil in Ht. rewrite Ht. cbn [html_tokens]. rewrite app_nil_r. intros name Hin.
  rewrite Forall_forall in Hl. exact (Hl _ Hin).
Qed.

(** *** One login per flow *)

Fixpoint serve_all (rs : list http_request) (s : Harness) : list (outcome reply) * Harness :=
  match rs with
  | [] => ([], s)
  | r :: rs' => let '(o, s1) := served r s in let '(os, s2) := serve_all rs' s1 in (o :: os, s2)
  end.
Definition is_login (ro : http_request * outcome reply) : bool :=
  is_some (callback_url ro.1) && match ro.2 with Ok rep => (reply_status rep =? 200)%Z | Err _ => false end.
Definition is_authorize (ro : http_request * outcome reply) : bool :=
  match ro.1 with GetAuthorize _ _ => true | _ => false end &&
  match ro.2 with Ok rep => (reply_status rep =? 302)%Z | Err _ => false end.
Definition count {A} (p : A → bool) (l : list A) : nat := length (List.filter p l).
Definition open_flows (s : Harness) : nat := size (sessions (stores s)).

Lemma count_cons {A} (p : A → bool) a l : count p (a :: l) = Nat.b2n (p a) + count p l.
Proof. unfold count. cbn. by destruct (p a). Qed.

(** A login uses up the flow it is the login of. *)
Lemma callback_accounts x url ro x' :
  answered_callback x url ro x' →
  Nat.b2n (match merged ro with Ok rep => (reply_status rep =? 200)%Z | Err _ => false end) + size (sessions x')
    ≤ size (sessions x).
Proof.
  intros [(rep & -> & Hs & _ & ->)|[(e & -> & ->)|(cb & u & se & _ & _ & Hu & H)]]; [cbn [merged]; by rewrite Hs|done|].
  destruct (ended_flows _ _ _ _ _ H) as [Hx _]. rewrite Hx. cbn [pop_session sessions].
  rewrite map_size_delete, Hu. assert (Hne : size (sessions x) ≠ 0).
  { intros Hz. apply map_size_empty_inv in Hz. by rewrite Hz, lookup_empty in Hu. }
  assert (Hb : ∀ b, Nat.b2n b ≤ 1) by (by intros []; cbn; lia). specialize (Hb (match merged ro with
    Ok rep => (reply_status rep =? 200)%Z | Err _ => false end)). lia.
Qed.
Lemma served_accounts r s :
  Inv (h_tv s) →
  Nat.b2n (is_login (r, (served r s).1)) + open_flows (served r s).2
    ≤ Nat.b2n (is_authorize (r, (served r s).1)) + open_flows s.
Proof.
  intros Hi. unfold is_login, is_authorize, open_flows. cbn [fst snd].
  destruct (callback_url r) as [url|] eqn:Hr; cbn [is_some andb].
  - destruct (served_callback r s url Hr Hi) as (ro & <- & Ha). apply callback_accounts in Ha. lia.
  - destruct (served_settled r s Hr Hi) as [[[-> _]|(Hb & (se & ctx & _ & _ & -> & _) & url & Hu)] _]; [apply Nat.le_add_l|].
    destruct r; try discriminate Hb. destruct (served _ s).1 as [rep|]; [|discriminate Hu].
    injection Hu as ->. change (reply_status (redirect_reply url) =? 302)%Z with true. cbn [Nat.b2n andb].
    rewrite map_size_insert. destruct (sessions (stores s) !! text (ses_state se)); unfold id; lia.
Qed.

(** C17: a flow logs in at most once.  Whatever requests an application is sent, from any state it
    can be in, the callbacks answered 200 and the flows still open are no more than the flows its
    [/authorize] began with a redirect and those that were open: no callback is a login twice, and
    no login is without a flow of its own. *)
Theorem one_login_per_flow rs s os s' :
  reach s → serve_all rs s = (os, s') →
  count is_login (zip rs os) + open_flows s' ≤ count is_authorize (zip rs os) + open_flows s.
Proof.
  revert s os. induction rs as [|r rs IH]; intros s os Hs; cbn [serve_all].
  - intros [= <- <-]. done.
  - destruct (reached_inv s Hs) as [Hi _]. pose proof (served_accounts r s Hi) as Hc.
    assert (Hs1 : reach (served r s).2) by by apply reached_request.
    destruct (served r s) as [o s1]. cbn [fst snd] in Hc, Hs1.
    destruct (serve_all rs s1) as [os1 s2] eqn:Hrs. intros [= <- <-]. cbn [zip zip_with].
    rewrite !count_cons. specialize (IH s1 os1 Hs1 Hrs). lia.
Qed.

(** A back-channel logout is acknowledged on a validated token only.  In every state a sequence
    of requests can bring about, [/backchannel-logout] changes none of the application's globals and
    answers 200 or 400, both never to be cached, or an exception outside the library's and PyJWT's
    escapes; and 200 is answered for a token PyJWT accepted with the keys of a provider whose flow
    this application began, for that flow's client and issuer, whose claims are a logout token's. *)
Theorem backchannel_sound token s o s' :
  reach s → served (PostBackchannelLogout token) s = (o, s') →
  stores s' = stores s ∧
  match o with
  | Ok rep => reply_headers rep = [("Cache-Control", "no-cache, no-store"); ("Pragma", "no-cache")] ∧
      (reply_status rep = 400%Z ∨ reply_status rep = 200%Z ∧
       ∃ t se ctx claims, token = Some t ∧ begun se ∧ flow_of se ctx ∧ last_flow_context (stores s) = Some ctx ∧
         validate_logout_token_claims claims = Ok () ∧
         token_sound env (web http) header new_pyjwk decode t (backchannel_config ctx) (Some (fc_disco_address ctx)) claims)
  | Err e => isinstance e PyIdentityModelException = false ∧ isinstance e JwtPyJWTError = false
  end.
Proof.
  intros [Hi [_ Hf]]%reached_inv Hs. unfold serve in Hs. cbn [route] in Hs. unfold backchannel_logout in Hs.
  pose proof (backchannel_settled (stores s) token s Hi eq_refl) as H. unfold mbind at 1, route_bind in Hs.
  destruct (receive_backchannel_logout _ _ _ _ _ _ _ _ _ s) as [[[rep|rep]|e] s1]; injection Hs as <- <-;
    destruct H as (_ & Hx & H); [done| |done].
  split; [done|]. destruct H as (_ & Hh & Hst). cbn [reply_headers reply_status]. rewrite Hh. split; [done|].
  destruct Hst as [Hst|(Hst & t & Ht & ctx & claims & Hc & Hl & Hsound)]; [by left|right]. split; [done|].
  destruct (Hf ctx Hc) as (se & Hb & Hfl). by exists t, se, ctx, claims.
Qed.
End Safety.

(** ** On concrete inputs *)

Local Abbreviation demo_reached := (reached empty_env no_dates 0 demo_clock ClientAuth.demo_clock demo_uuid demo_header
  toy_new_pyjwk (λ _ _ _ _, Ok demo_id_claims) demo_sign (λ _, "") (λ _, false) (λ _, Ok ()) (λ _, Ok ())
  (λ _ _, Ok ()) (λ _, Ok 7) (demo_op demo_token par_ok) show_text demo_app).
Local Abbreviation demo_step := (demo_serve demo_header demo_token par_ok).
Definition demo_begun : Harness := (demo_step (GetAuthorize demo_fresh (demo_query "" "")) initial_harness).2.
Lemma demo_begun_reached : demo_reached demo_begun.
Proof. apply reached_request, reached_start. Defined.

(** A login: the callback of the flow just begun is answered 200. *)
Lemma callback_outcomes_witness :
  (demo_step (demo_back "code=c1") demo_begun).1 =
    Ok (html_reply 200 (success_page demo_id_claims [("sub", VStr "alice"); ("name", VStr "<b>Alice</b>")])) ∧
  ∃ url, callback_url demo_app (demo_back "code=c1") = Some url ∧
    (∃ cb u se, parsed empty_env demo_header toy_new_pyjwk (λ _ _ _ _, Ok demo_id_claims)
       (demo_op demo_token par_ok) (stores demo_begun) url cb ∧ sessions (stores demo_begun) !! u = Some se).
Proof.
  split; [vm_compute; reflexivity|].
  eexists. split; [reflexivity|].
  destruct (callback_outcomes empty_env no_dates 0 demo_clock ClientAuth.demo_clock demo_uuid demo_header
    toy_new_pyjwk (λ _ _ _ _, Ok demo_id_claims) demo_sign (λ _, "") (λ _, false) (λ _, Ok ()) (λ _, Ok ())
    (λ _ _, Ok ()) (λ _, Ok 7) (demo_op demo_token par_ok) show_text demo_app
    (demo_back "code=c1") _ demo_begun (Ok (html_reply 200 (success_page demo_id_claims
      [("sub", VStr "alice"); ("name", VStr "<b>Alice</b>")]))) (demo_step (demo_back "code=c1") demo_begun).2
    demo_begun_reached eq_refl ltac:(vm_compute; reflexivity)) as [[H _]|(cb & u & se & Hp & _ & Hs & _)].
  - discriminate H.
  - exists cb, u, se. exact (conj Hp Hs).
Defined.

(** The page of that login, with the markup of the provider's claim shown as text. *)
Lemma pages_show_text_witness :
  let '(o, s') := demo_step (demo_back "code=c1") demo_begun in
  ∃ rep body, o = Ok rep ∧ reply_content rep = Html body ∧ Tag "b" ∉ html_tokens InText body.
Proof.
  destruct (demo_step (demo_back "code=c1") demo_begun) as [o s'] eqn:Hs.
  assert (Ho : o = Ok (html_reply 200 (success_page demo_id_claims
    [("sub", VStr "alice"); ("name", VStr "<b>Alice</b>")]))).
  { change o with (o, s').1. rewrite <- Hs. vm_compute. reflexivity. }
  subst o. eexists _, _. split; [reflexivity|]. split; [reflexivity|]. intros Hin.
  destruct (pages_show_text _ _ _ _ _ _ _ _ _ _ _ _ _ _ _ _ _ _ _ _ _ _ _ _ demo_begun_reached Hs eq_refl) as [H _].
  apply H in Hin. revert Hin. apply (bool_decide_eq_false_1 _). vm_compute. reflexivity.
Defined.

(** Two callbacks of one flow. *)
Lemma one_login_per_flow_witness :
  let '(os, s') := serve_all empty_env no_dates 0 demo_clock ClientAuth.demo_clock demo_uuid demo_header
    toy_new_pyjwk (λ _ _ _ _, Ok demo_id_claims) demo_sign (λ _, "") (λ _, false) (λ _, Ok ()) (λ _, Ok ())
    (λ _ _, Ok ()) (λ _, Ok 7) (demo_op demo_token par_ok) show_text demo_app
    [demo_back "code=c1"; demo_back "code=c1"] demo_begun in
  count (is_login demo_app) (zip [demo_back "code=c1"; demo_back "code=c1"] os) + open_flows s' ≤ 0 + 1.
Proof.
  destruct (serve_all _ _ _ _ _ _ _ _ _ _ _ _ _ _ _ _ _ _ _ _ _) as [os s'] eqn:Hs.
  pose proof (one_login_per_flow _ _ _ _ _ _ _ _ _ _ _ _ _ _ _ _ _ _ _ _ _ _ _ demo_begun_reached Hs) as H.
  etransitivity; [exact H|]. apply Nat.add_le_mono.
  - assert (Hos : os = (serve_all empty_env no_dates 0 demo_clock ClientAuth.demo_clock demo_uuid demo_header
      toy_new_pyjwk (λ _ _ _ _, Ok demo_id_claims) demo_sign (λ _, "") (λ _, false) (λ _, Ok ()) (λ _, Ok ())
      (λ _ _, Ok ()) (λ _, Ok 7) (demo_op demo_token par_ok) show_text demo_app
      [demo_back "code=c1"; demo_back "code=c1"] demo_begun).1) by by rewrite Hs.
    rewrite Hos. vm_compute. done.
  - vm_compute. done.
Defined.

(** A logout token for the flow just begun. *)
Definition logout_serve : http_request → stM Harness exn reply :=
  serve empty_env no_dates 0 demo_clock ClientAuth.demo_clock demo_uuid demo_header toy_new_pyjwk
    (λ _ _ _ _, Ok demo_logout_claims) demo_sign (λ _, "") (λ _, false) (λ _, Ok ()) (λ _, Ok ()) (λ _ _, Ok ())
    (λ _, Ok 7) (demo_op demo_token par_ok) show_text demo_app.
Definition logout_begun : Harness := (logout_serve (GetAuthorize demo_fresh (demo_query "" "")) initial_harness).2.
Lemma backchannel_sound_witness :
  let '(o, s') := logout_serve (PostBackchannelLogout (Some "h.p.s")) logout_begun in
  reply_status <$> o = Ok 200%Z ∧ stores s' = stores logout_begun ∧
  ∃ ctx claims, last_flow_context (stores logout_begun) = Some ctx ∧
    token_sound empty_env (web (demo_op demo_token par_ok)) demo_header toy_new_pyjwk
      (λ _ _ _ _, Ok demo_logout_claims) "h.p.s" (backchannel_config ctx) (Some (fc_disco_address ctx)) claims.
Proof.
  destruct (logout_serve (PostBackchannelLogout (Some "h.p.s")) logout_begun) as [o s'] eqn:Hs.
  assert (Ho : reply_status <$> o = Ok 200%Z).
  { change o with (o, s').1. rewrite <- Hs. vm_compute. reflexivity. }
  split; [exact Ho|].
  destruct (backchannel_sound _ _ _ _ _ _ _ _ _ _ _ _ _ _ _ _ _ _ _ _ _ _ _
    (reached_request _ _ _ _ _ _ _ _ _ _ _ _ _ _ _ _ _ _ _ _ _ (reached_start _ _ _ _ _ _ _ _ _ _ _ _ _ _ _ _ _ _ _)) Hs)
    as [Hx H].
  split; [exact Hx|]. destruct o as [rep|]; [|discriminate Ho].
  destruct H as [_ [H|(_ & t & se & ctx & claims & Ht & _ & _ & Hc & _ & Hsound)]].
  - cbn in Ho. rewrite H in Ho. discriminate Ho.
  - exists ctx, claims. injection Ht as <-. exact (conj Hc Hsound).
Defined.
