(* ===== verification/Relay.v ===== *)
(** * The conformance application over the FastAPI router ([conformance/app_fastapi.py])

    It re-implements no login: for every [/authorize] it builds an application around
    [build_oidc_router], asks that application's [/login] for its redirect, and keeps the client,
    whose cookie jar holds the session, under the redirect's state.  [/callback] takes the client
    out again and replays the request into the router; the router's verdict is the answer.

    Its routes are coroutines, each on the event loop's calls of Rp and Aio, over the library's
    state, the open flows and the results.  A router's request is answered by [Rp.login] and
    [Rp.callback]; the client in front of it sees the status, the location and the detail of the
    answer, and raises the exception of a route that fails.  [location_of] is the header Starlette
    makes of a redirect, [client_url] the address the router reads for a path of the client,
    [session_page] what is read back of a value the page [/session] shows. *)

From S2P Require Import Prelude PyStr PyValue Models Url Codec Policy HttpRetry Discovery Jwks Jwt TokenValidation Callback UrlQuery AuthorizeUrl Responses ClientAuth Dpop Grants Replies Clients Coro CacheMetrics Aio AioSafety AioClients Rp Harness.
From Stdlib Require Import QArith Ascii.
From stdpp Require Import strings.
#[global] Close Scope Q_scope.
Open Scope string_scope.
Open Scope list_scope.
Open Scope nat_scope.
Open Scope py_scope.

(** ** State *)

Record FlowSession : Type := NewFlowSession {
  fs_router : Router; fs_jar : session; fs_issuer : string; fs_test_id : string; fs_test_name : string;
  fs_profile : string; fs_result : pydict }.
Record RelayState : Type := NewRelay {
  relay_app : AppState; flows : gmap ustr FlowSession; relay_results : gmap string pydict }.
Definition set_relay_app (a : AppState) (s : RelayState) : RelayState := NewRelay a (flows s) (relay_results s).
Definition relay_start : RelayState := NewRelay app_start ∅ ∅.

Abbreviation RC := (coro lock RelayState).
Definition on_router {A} (c : AC A) : RC A := embed relay_app set_relay_app c.

Definition put_flow (state : ustr) (f : FlowSession) (s : RelayState) : RelayState :=
  NewRelay (relay_app s) (<[state := f]> (flows s)) (relay_results s).
Definition put_result (test_id : string) (result : pydict) (s : RelayState) : RelayState :=
  NewRelay (relay_app s) (flows s) (<[test_id := result]> (relay_results s)).
(** [_pop_flow]. *)
Definition pop_flow (state : option ustr) : stM RelayState exn (option FlowSession) := λ s,
  match state with
  | Some ((_ :: _) as u) => (Ok (flows s !! u), NewRelay (relay_app s) (delete u (flows s)) (relay_results s))
  | _ => (Ok None, s)
  end.

Definition store_flow_result (f : FlowSession) (result : pydict) (s : RelayState) : RelayState :=
  if nonempty (fs_test_id f) then
    put_result (fs_test_id f)
      (if has_key "test_id" result then result else dict_set "test_id" (VStr (fs_test_id f)) result) s
  else s.
Definition record_failure (test_id err : string) (s : RelayState) : RelayState :=
  if nonempty test_id then
    put_result test_id [("test_id", VStr test_id); ("status", VStr "error"); ("error", VStr err)] s
  else s.

Definition DEFAULT_SCOPE : string := "openid profile email address phone".
Definition HTTP_FOUND : Z := 302.

(** [request.query_params.get("state")], [dict(parse_qsl(..)).get("state")]: the last of the name. *)
Definition last_state (params : list (ustr * ustr)) : option ustr := alist_get (text "state") (List.rev params).
(** [parse_qs(urlparse(location).query).get("state", [])]: blank values are left out. *)
Definition state_values (location : string) : outcome (list ustr) :=
  u ← urlparse location;
  Ok (map snd (List.filter (λ kv, (kv.1 ≟ text "state") && negb (length kv.2 =? 0)) (parse_qsl (query u)))).

(** What the client sees of the router's answer. *)
Record seen : Type := Seen { status_code : Z; location : string; error_detail : string }.

(** The dictionary of an optional claim. *)
Definition dict_or_empty (v : pyval) : pyval := if truthy v then v else VDict [].

Section Relay.
Context (env : string → option string) (http_date : string → option Q) (wall : Q).
Context (clock wall_clock : nat → Q) (uuid4 : nat → string).
Context (get_unverified_header : string → outcome pydict).
Context {PyJWK : Type} (new_pyjwk : pydict → option pyval → outcome PyJWK).
Context (decode : nat → string → PyJWK → DecodeArgs → outcome pydict).
Context (hash_key : disco_key → Z) (hash_uri : string → Z) (nan_sleep : outcome unit).
Context (encode : nat → pydict → blob → string → pydict → outcome string).
Context (text_of : HttpResponse → string).
Context (is_dir : string → bool) (create_default_context : trust → outcome unit).
Context (load_cert_chain : list string → outcome unit).
Context (new_client : option string → pyfloat → outcome unit).
Context (http : nat → http_client → HttpRequest → outcome HttpResponse).
Context (code_text : ustr → string) (replace_query : string → string → string).
Context (location_of client_url : string → string) (session_page : pyval → outcome pyval).
Context (BASE_URL : string) (loop : nat).

Definition see (a : Rp.answer) : outcome seen :=
  match a with
  | Redirect url status => Ok (Seen status (location_of url) "")
  | Refused h => Ok (Seen (stop_status h) "" (stop_detail h))
  | Crashed e => Err e
  end.

(** [_build_test_app(OIDCSettings(..))]. *)
Definition test_router (address client_id : string) (secret : option string) (scope : string) (fetch : bool)
    : outcome Router :=
  st ← new_settings address client_id (BASE_URL +:+ "/callback") secret scope None "/" "/" default_rp_excluded_paths;
  build_oidc_router st "oidc" true fetch.

(** [client.get("/login")] with an empty jar. *)
Definition drive_login (tb : nat → nat → bytes) (r : Router) : RC (seen * session) :=
  '(a, s) ← on_router (login env http_date wall nan_sleep http tb r (Some []));
  v ← pure (see a);
  mret (v, s).

(** What [/discover] and [/authorize] begin with. *)
Definition with_issuer (test_id issuer : string) (k : DiscoveryEndpoint → RC reply) : RC reply :=
  match parse_discovery_url issuer with
  | Ok ep => k ep
  | Err e =>
      if isinstance e ConfigurationException then
        _ ← atom (modify (record_failure test_id ("invalid_issuer: " +:+ message e)));
        mret (error_reply 400 "invalid_issuer" (VStr "Invalid issuer URL"))
      else mthrow e
  end.
Definition refuse (test_id err detail recorded : string) : RC reply :=
  _ ← atom (modify (record_failure test_id recorded));
  mret (error_reply 502 err (VStr detail)).

Definition relay_discover (issuer test_id : string) (tb : nat → nat → bytes) : RC reply :=
  with_issuer test_id issuer (λ ep,
    r ← pure (test_router (ep_url ep) "conformance-rp" None "openid profile email" true);
    '(v, _) ← drive_login tb r;
    if (status_code v =? HTTP_FOUND)%Z then
      _ ← atom (modify (λ s, if nonempty test_id then
            put_result test_id [("test_id", VStr test_id); ("status", VStr "success"); ("issuer", VStr issuer)] s
          else s));
      mret (json_reply 200 [("status", VStr "ok"); ("issuer", VStr issuer)])
    else refuse test_id "discovery_failed" (error_detail v) ("discovery_failed: " +:+ error_detail v)).

Definition relay_authorize (q : AuthorizeQuery) (tb : nat → nat → bytes) : RC reply :=
  with_issuer (q_test_id q) (q_issuer q) (λ ep,
    r ← pure (test_router (ep_url ep) (q_client_id q)
                (if nonempty (q_client_secret q) then Some (q_client_secret q) else None) (q_scope q)
                (negb (is_true (q_skip_userinfo q))));
    '(v, jar) ← drive_login tb r;
    if (status_code v =? HTTP_FOUND)%Z then
      states ← pure (state_values (location v));
      match states with
      | [] => refuse (q_test_id q) "missing_state" "No state in auth URL" "missing_state_in_authorization_url"
      | state :: _ =>
          let f := NewFlowSession r jar (q_issuer q) (q_test_id q) (q_test_name q) (q_profile q)
            (if nonempty (q_test_id q) then [("test_id", VStr (q_test_id q))] else []) in
          _ ← atom (modify (put_flow state f));
          mret (redirect_reply (location v))
      end
    else refuse (q_test_id q) "login_failed" (error_detail v) ("login_failed: " +:+ error_detail v)).

(** The claims of a dictionary, as the page shows them. *)
Definition shown_login (claims userinfo : pyval) : outcome reply :=
  match claims, userinfo with
  | VDict c, VDict u => Ok (html_reply 200 (success_page c u))
  | VDict _, v => Err (AttributeError v "items")
  | v, _ => Err (AttributeError v "get")
  end.
Definition router_rejected (v : seen) : string :=
  "router_rejected (" +:+ str_of_int (status_code v) +:+ "): " +:+ error_detail v.

Definition finish_callback (f : FlowSession) (v : seen) (s : session) : RC reply :=
  if (status_code v =? HTTP_FOUND)%Z then
    data ← pure (match s with
                 | Some d => session_page (dict_or_empty (dget "oidc" d))
                 | None => Err no_session
                 end);
    claims ← pure (dict_or_empty <$> py_get data "claims");
    userinfo ← pure (dict_or_empty <$> py_get data "userinfo");
    tokens ← pure (dict_or_empty <$> py_get data "tokens");
    access_token ← pure (py_get tokens "access_token");
    _ ← atom (modify (store_flow_result f
          (dict_set "access_token" access_token (dict_set "userinfo_claims" userinfo
            (dict_set "id_token_claims" claims (dict_set "status" (VStr "success") (fs_result f)))))));
    pure (shown_login claims userinfo)
  else
    _ ← atom (modify (store_flow_result f
          (dict_set "error" (VStr (router_rejected v)) (dict_set "status" (VStr "error") (fs_result f)))));
    mret (html_reply (status_code v) (page "Login Rejected" (html_escape (error_detail v)))).

(** Both callbacks: [replay] sends the request on to the router. *)
Definition relay_callback (state : option ustr) (replay : FlowSession → AC (Rp.answer * session)) : RC reply :=
  f ← atom (pop_flow state);
  match f with
  | None => mret (html_reply 400 (page "Error" "Unknown or missing state parameter"))
  | Some f =>
      '(a, s) ← on_router (replay f);
      v ← pure (see a);
      finish_callback f v s
  end.
Definition routed_callback (url : string) (f : FlowSession) : AC (Rp.answer * session) :=
  callback env http_date wall clock wall_clock uuid4 get_unverified_header new_pyjwk decode hash_key hash_uri nan_sleep
    encode text_of is_dir create_default_context load_cert_chain new_client http code_text loop (fs_router f) url
    (fs_jar f).
Definition relay_callback_get (q : string) : RC reply :=
  relay_callback (last_state (parse_qsl q)) (routed_callback (client_url ("/callback?" +:+ q))).
(** [body] is the decoded body of the POST, as in Rp. *)
Definition relay_callback_post (body : string) : RC reply :=
  relay_callback (last_state (parse_qsl body)) (λ f,
    callback_form_post env http_date wall clock wall_clock uuid4 get_unverified_header new_pyjwk decode hash_key hash_uri
      nan_sleep encode text_of is_dir create_default_context load_cert_chain new_client http code_text replace_query loop
      (fs_router f) (client_url "/callback") body (fs_jar f)).

(** The flows are closed one after the other, and other requests may run in between. *)
Fixpoint drop_flows (states : list ustr) : RC unit :=
  match states with
  | [] => mret ()
  | u :: states' =>
      _ ← atom (λ s : RelayState,
            match flows s !! u with
            | Some _ => (Ok (), NewRelay (relay_app s) (delete u (flows s)) (relay_results s))
            | None => (Err (mk_exn BKeyError (str_repr (show_text u))), s)
            end);
      drop_flows states'
  end.
Definition relay_clear_cache : RC reply :=
  states ← atom (gets (λ s, map fst (map_to_list (flows s))));
  _ ← drop_flows states;
  _ ← on_router (on_aio (aio_clear_discovery_cache loop));
  _ ← on_router (on_aio (aio_clear_jwks_cache loop));
  mret (json_reply 200 [("status", VStr "ok"); ("cleared", VList [VStr "discovery"; VStr "jwks"])]).

Definition relay_health : RC reply :=
  mret (json_reply 200 [("status", VStr "ok"); ("service", VStr "conformance-rp-fastapi")]).
Definition relay_result (test_id : string) : RC reply :=
  found ← atom (gets (λ s, relay_results s !! test_id));
  mret match found with
       | Some result => json_reply 200 result
       | None => json_reply 404 [("error", VStr "not_found")]
       end.

Inductive relay_request : Type :=
  | RelayHealth | RelayClearCache
  | RelayDiscover (issuer test_id : string) (token_bytes : nat → nat → bytes)
  | RelayAuthorize (q : AuthorizeQuery) (token_bytes : nat → nat → bytes)
  | RelayGetCallback (q : string)
  | RelayPostCallback (body : string)
  | RelayResults (test_id : string).
Definition relay (r : relay_request) : RC reply :=
  match r with
  | RelayHealth => relay_health
  | RelayClearCache => relay_clear_cache
  | RelayDiscover issuer test_id tb => relay_discover issuer test_id tb
  | RelayAuthorize q tb => relay_authorize q tb
  | RelayGetCallback q => relay_callback_get q
  | RelayPostCallback body => relay_callback_post body
  | RelayResults test_id => relay_result test_id
  end.
Definition relay_pool (rs : list relay_request) : pool lock RelayState reply := start (map relay rs) relay_start.
End Relay.

(** ** On concrete inputs *)

Definition demo_relay (header : string → outcome pydict) (token : pyval) : list relay_request → pool lock RelayState reply :=
  relay_pool empty_env no_dates 0 ticking ClientAuth.demo_clock demo_uuid header toy_new_pyjwk (λ _ _ _ _, Ok demo_identity)
    (λ _, 0%Z) (λ _, 0%Z) (Ok ()) demo_sign (λ _, "") (λ _, false) (λ _, Ok ()) (λ _, Ok ()) (λ _ _, Ok ())
    (Rp.op_web token (alice_info "alice")) show_text (λ url q, url +:+ "?" +:+ q)
    id (λ path, "https://app.example" +:+ path) Ok "https://app.example" 0.
Definition relay_back : relay_request := RelayGetCallback ("code=c1&state=" +:+ py_str (dget "state" demo_flow)).
Definition one_by_one (n : nat) : list nat := concat (map (replicate 120) (seq 0 n)).
Definition relay_log (header : string → outcome pydict) (token : pyval) (order : list nat) (rs : list relay_request)
    : list (option (outcome Z)) * option pyval :=
  let p := schedule order (demo_relay header token rs) in
  (map (λ o, match o with Some r => Some (reply_status <$> r) | None => None end) (results p), dget "error" <$> relay_results (shared p) !! "t1").

(** A login and its replay. *)
Example relay_1 :
  relay_log demo_header good_token (one_by_one 3) [RelayAuthorize (demo_query "" "") Rp.demo_entropy; relay_back; relay_back] =
  ([Some (Ok 302); Some (Ok 200); Some (Ok 400)]%Z, Some VNone).
Proof. vm_compute. reflexivity. Qed.
(** Two callbacks of one flow at the same time: one finds it. *)
Example relay_2 :
  relay_log demo_header good_token (replicate 120 0 ++ concat (replicate 120 [1; 2]))
    [RelayAuthorize (demo_query "" "") Rp.demo_entropy; relay_back; relay_back] =
  ([Some (Ok 302); Some (Ok 200); Some (Ok 400)]%Z, Some VNone).
Proof. vm_compute. reflexivity. Qed.
(** Without an ID token the router refuses, which the other application does not (harness_2). *)
Example relay_3 :
  relay_log demo_header (VDict [("access_token", VStr "at")]) (one_by_one 2)
    [RelayAuthorize (demo_query "" "") Rp.demo_entropy; relay_back] =
  ([Some (Ok 302); Some (Ok 401)]%Z, Some (VStr "router_rejected (401): Provider did not return an ID token")).
Proof. vm_compute. reflexivity. Qed.
(** Should the closing of a client let other requests run: a callback takes the flow that /clear-cache
    is about to close. *)
Example relay_4 :
  (relay_log demo_header good_token (replicate 120 0 ++ [1] ++ replicate 120 2 ++ replicate 120 1)
     [RelayAuthorize (demo_query "" "") Rp.demo_entropy; RelayClearCache; relay_back]).1 =
  [Some (Ok 302%Z); Some (Err (mk_exn BKeyError (str_repr (py_str (dget "state" demo_flow))))); Some (Ok 200%Z)].
Proof. vm_compute. reflexivity. Qed.
