(* ===== verification/RelaySafety.v ===== *)
(** * What the conformance application over the router guarantees

    In any interleaving of its requests: a page that reports a login, and a recorded success, rest
    on the router's own login for the flow of that callback; a refusal is the router's; and every
    request ends. *)

From S2P Require Import Prelude PyStr PyValue Models Url Codec Policy HttpRetry Discovery Jwks Jwt TokenValidation Callback UrlQuery AuthorizeUrl Responses ClientAuth Dpop Grants Replies Clients Coro CacheMetrics Aio AioSafety AioClients Rp Harness Relay.
From Stdlib Require Import QArith Ascii.
From stdpp Require Import strings relations.
#[global] Close Scope Q_scope.
Open Scope string_scope.
Open Scope list_scope.
Open Scope nat_scope.
Open Scope py_scope.

(** ** Two facts about one call *)

Section Both.
Context {L : Type} `{EqDecision L} {S : Type}.
Lemma safe_any {A} (c : coro L S A) : safe (λ _, True) (λ _, True) c.
Proof. induction c as [r|u k IH|l c IH|l c IH|]; cbn; auto. Qed.
Lemma safe_both {A} (J : S → Prop) (Q Q' : outcome A → Prop) (c : coro L S A) :
  safe J Q c → safe (λ _, True) Q' c → safe J (λ o, Q o ∧ Q' o) c.
Proof.
  induction c as [r|u k IH|l c IH|l c IH|]; cbn; [done| |by apply IH|by apply IH|done].
  intros Hc Hc' s Hs. destruct (Hc s Hs) as [Hu Hk], (Hc' s I) as [_ Hk']. split; [done|]. by apply IH.
Qed.
End Both.

(** ** The statuses of the router *)

Definition refusal_status (h : HttpStop) : Prop := stop_status h ∈ [400; 401; 502]%Z.
Ltac refusal := apply list_elem_of_In; cbn; auto.
Definition refused_well {A} (o : outcome (HttpStop + A)) : Prop :=
  match o with Ok (inl h) => refusal_status h | _ => True end.
Definition refusing {A} (c : RP A) : Prop := safe (λ _ : AppState, True) refused_well c.

Lemma refusing_bind {A B} (c : RP A) (k : A → RP B) : refusing c → (∀ a, refusing (k a)) → refusing (c ≫= k).
Proof. intros Hc Hk. eapply safe_finish; [exact Hc|]. by intros [[h|a]|e] Hr; [|apply Hk|]. Qed.
Lemma refusing_call {A} (c : AC A) : refusing (call c).
Proof. eapply safe_finish; [apply safe_any|]. by intros [a|e] _. Qed.
Lemma refusing_call_or {A} h (c : AC A) : refusal_status h → refusing (call_or h c).
Proof.
  intros Hh. eapply safe_finish; [apply safe_any|]. intros [a|e] _; cbn [safe]; [done|].
  by destruct (isinstance e PyIdentityModelException).
Qed.
Lemma refusing_raises {A} (r : outcome A) : refusing (Rp.raises r).
Proof. by destruct r. Qed.
Lemma refusing_ret {A} (a : A) : refusing (mret a).
Proof. done. Qed.
Lemma refusing_stop {A} h : refusal_status h → refusing (stop h : RP A).
Proof. done. Qed.
Lemma refusing_stop_if b h : refusal_status h → refusing (stop_if b h).
Proof. by destruct b. Qed.
Lemma refusing_require v name : refusing (require_endpoint v name).
Proof. unfold require_endpoint. destruct (truthy v); [done|]. apply refusing_stop. refusal. Qed.
Lemma refusing_if {A} (b : bool) (c1 c2 : RP A) : refusing c1 → refusing c2 → refusing (if b then c1 else c2).
Proof. by destruct b. Qed.
Ltac refusals := repeat first
  [ apply refusing_bind; [|intros ?] | apply refusing_call | apply refusing_raises | apply refusing_ret
  | apply refusing_require | apply refusing_if
  | first [apply refusing_call_or | apply refusing_stop_if | apply refusing_stop]; refusal ].

Definition proper (o : outcome (Rp.answer * session)) : Prop :=
  ∀ h s, o = Ok (Refused h, s) → refusal_status h.

Section Safety.
Context (env : string → option string) (http_date : string → option Q) (wall : Q).
Context (clock wall_clock : nat → Q) (uuid4 : nat → string).
Context (get_unverified_header : string → outcome pydict).
Context {PyJWK : Type} (new_pyjwk : pydict → option pyval → outcome PyJWK).
Context (decode : nat → string → PyJWK → DecodeArgs → outcome pydict).
Context (hash_key : disco_key → Z) (hash_uri : string → Z) (nan_sleep : outcome unit).
Context (encode : nat → pydict → blob → string → pydict → outcome string).
Context (text_of : HttpResponse → string).
Context (is_dir : string → bool) (create_default_context : trust → outcome unit).
Context (load_cert_chain : list string → outcome unit).
Context (new_client : option string → pyfloat → outcome unit).
Context (http : nat → http_client → HttpRequest → outcome HttpResponse).
Context (code_text : ustr → string) (replace_query : string → string → string).
Context (location_of client_url : string → string) (session_page : pyval → outcome pyval).
Context (BASE_URL : string) (loop : nat).

Lemma proper_login tb r s : safe (λ _, True) proper (login env http_date wall nan_sleep http tb r s).
Proof.
  unfold login. destruct s as [d|]; [|by intros ? ? [=]].
  apply (safe_finish _ refused_well).
  - unfold prepare_login, Rp.discover. refusals. by match goal with p : _ * _ |- _ => destruct p end.
  - intros [[h|[[a b] c]]|e] Ho h' s'; cbn; [by intros [= -> _]| |by intros [=]].
    by destruct (login_url _ _ _ _).
Qed.
Lemma proper_callback r url s :
  safe (λ _, True) proper
    (callback env http_date wall clock wall_clock uuid4 get_unverified_header new_pyjwk decode hash_key hash_uri nan_sleep
       encode text_of is_dir create_default_context load_cert_chain new_client http code_text loop r url s).
Proof.
  unfold callback. destruct s as [d|]; [|by intros ? ? [=]].
  apply (safe_finish _ refused_well).
  - apply refusing_bind; [|intros flow; apply refusing_bind; [|intros code]].
    + unfold read_flow. refusals. destruct (dget _ d); refusals.
    + unfold checked_callback. refusals. destruct (cb_code _); refusals.
    + unfold Rp.redeem, Rp.discover, Rp.exchange_code, Rp.validate_id_token, Rp.fetch_userinfo. refusals.
  - by intros [[h|a]|e] Ho h' s' [= -> _].
Qed.
Lemma proper_form_post r url body s :
  safe (λ _, True) proper
    (callback_form_post env http_date wall clock wall_clock uuid4 get_unverified_header new_pyjwk decode hash_key hash_uri
       nan_sleep encode text_of is_dir create_default_context load_cert_chain new_client http code_text replace_query loop
       r url body s).
Proof. unfold callback_form_post. destruct (urlencode _); [apply proper_callback|by intros ? ? [=]]. Qed.
(** ** What is promised *)

Local Abbreviation router := (test_router BASE_URL).

(** A flow [/authorize] opened: its router is for the issuer's discovery address, and its jar holds
    what a login of that router left that redirected the browser. *)
Definition opened (f : FlowSession) : Prop :=
  ∃ ep id secret scope fetch tb d url, parse_discovery_url (fs_issuer f) = Ok ep ∧
    router (ep_url ep) id secret scope fetch = Ok (fs_router f) ∧
    fs_jar f = Some d ∧ started http (fs_router f) tb [] d (Redirect url 302).

(** The claims and the UserInfo a page shows are those of a login of the flow's router: the callback
    at [url] answered the flow, and its code was redeemed for that identity. *)
Definition login_of (f : FlowSession) (url : string) (claims userinfo : pyval) : Prop :=
  ∃ tb verifier challenge code data shown,
    generate_pkce_pair (tb 0) "S256" DEFAULT_VERIFIER_LENGTH = Ok (verifier, challenge) ∧
    answers (login_flow tb verifier) url code ∧
    redeemed env wall_clock uuid4 get_unverified_header new_pyjwk decode encode text_of http code_text (fs_router f)
      (login_flow tb verifier) code data ∧
    session_page (VDict data) = Ok shown ∧
    dict_or_empty <$> py_get shown "claims" = Ok claims ∧ dict_or_empty <$> py_get shown "userinfo" = Ok userinfo.

(** A recorded result: a failure, a discovery the router trusted, or a login. *)
Definition founded (result : pydict) : Prop :=
  dget "status" result = VStr "error" ∨
  (∃ issuer ep r disco, result = [("test_id", dget "test_id" result); ("status", VStr "success"); ("issuer", VStr issuer)] ∧
     parse_discovery_url issuer = Ok ep ∧ op_url (settings r) = ep_url ep ∧ trusted_op http (settings r) disco) ∨
  ∃ f url, opened f ∧ login_of f url (dget "id_token_claims" result) (dget "userinfo_claims" result).

Definition relay_inv (s : RelayState) : Prop :=
  aio_inv env (web http) (aio (relay_app s)) ∧
  (∀ u f, flows s !! u = Some f → opened f) ∧
  ∀ t result, relay_results s !! t = Some result → founded result.

(** What a callback at the router's [url] answers. *)
Definition callback_answer (url : string) (rep : reply) : Prop :=
  rep = html_reply 400 (page "Error" "Unknown or missing state parameter") ∨
  ∃ f, opened f ∧
    ((∃ h, refusal_status h ∧
        rep = html_reply (stop_status h) (page "Login Rejected" (html_escape (stop_detail h)))) ∨
     ∃ claims userinfo, login_of f url (VDict claims) (VDict userinfo) ∧
        rep = html_reply 200 (success_page claims userinfo)).
Definition relay_post (r : relay_request) (rep : reply) : Prop :=
  match r with
  | RelayGetCallback q => callback_answer (client_url ("/callback?" +:+ q)) rep
  | RelayPostCallback body => rep = html_reply 400 (page "Error" "Unknown or missing state parameter") ∨
      ∃ params, urlencode (parse_qsl body) = Ok params ∧
        callback_answer (replace_query (client_url "/callback") params) rep
  | RelayAuthorize q tb => reply_status rep = 400%Z ∨ reply_status rep = 502%Z ∨
      ∃ f url, opened f ∧ fs_issuer f = q_issuer q ∧ rep = redirect_reply (location_of url)
  | RelayDiscover issuer _ _ => reply_status rep = 400%Z ∨ reply_status rep = 502%Z ∨
      ∃ ep r disco, rep = json_reply 200 [("status", VStr "ok"); ("issuer", VStr issuer)] ∧
        parse_discovery_url issuer = Ok ep ∧ op_url (settings r) = ep_url ep ∧ trusted_op http (settings r) disco
  | RelayResults _ => reply_status rep = 404%Z ∨ ∃ result, rep = json_reply 200 result ∧ founded result
  | RelayClearCache | RelayHealth => reply_status rep = 200%Z
  end.

(** ** Why *)

Local Abbreviation kept := (keeps relay_inv).

Lemma kept_router {A} (c : AC A) (Q : outcome A → Prop) :
  safe (λ s, aio_inv env (web http) (aio s)) Q c → safe relay_inv Q (on_router c).
Proof.
  induction c as [r|u k IH|l c IH|l c IH|]; cbn; [done| |done..].
  intros H s (Ha & Hf & Hr). destruct (H (relay_app s) Ha) as [Hu Hk]. split; [done|]. by apply IH.
Qed.
Lemma kept_writes f (P : () → Prop) : (∀ s, relay_inv s → relay_inv (f s)) → P () → kept (atom (modify f) : RC ()) P.
Proof. intros H HP s Hs. split; [by apply H|]. by intros [] _. Qed.

Lemma put_result_inv test_id result s : founded result → relay_inv s → relay_inv (put_result test_id result s).
Proof.
  intros Hg (Ha & Hf & Hr). split_and!; [done..|]. intros t g. cbn. intros [[_ <-]|[_ H]]%lookup_insert_Some; [done|].
  by eapply Hr.
Qed.
Lemma record_failure_inv test_id err s : relay_inv s → relay_inv (record_failure test_id err s).
Proof. unfold record_failure. destruct (nonempty test_id); [|done]. intros. apply put_result_inv; [by left|done]. Qed.
Lemma store_flow_inv f result s :
  (∀ v, founded (dict_set "test_id" v result)) → founded result → relay_inv s → relay_inv (store_flow_result f result s).
Proof.
  intros H1 H2. unfold store_flow_result. destruct (nonempty _); [|done].
  apply put_result_inv. by destruct (has_key "test_id" result).
Qed.

(** The router for an issuer, and what its login answered. *)
Lemma router_settings address id secret scope fetch r :
  router address id secret scope fetch = Ok r →
  op_url (settings r) = address ∧ session_key r = "oidc".
Proof.
  unfold test_router, new_settings, raise_if. destruct (negb (nonempty address)); [done|]. cbn.
  destruct (negb (nonempty id)); [done|]. cbn. unfold build_oidc_router, raise_if.
  destruct (negb _); [done|]. by intros [= <-].
Qed.

Lemma kept_login tb r :
  kept (drive_login env http_date wall nan_sleep http location_of tb r)
    (λ vs, (∃ url d, vs.1 = Seen 302 (location_of url) "" ∧ vs.2 = Some d ∧ started http r tb [] d (Redirect url 302)) ∨
           refusal_status (Stop (status_code vs.1) (error_detail vs.1))).
Proof.
  unfold drive_login. eapply (safe_finish _ _ _ _ _ (kept_router _ _ (safe_both _ _ _ _
    (safe_login env http_date wall nan_sleep http r tb (Some [])) (proper_login tb r (Some []))))).
  intros o ((rep & s' & -> & (d & -> & Hl)) & Hp). cbn [fst snd].
  destruct rep as [url status|h|e]; cbn; intros a Ha; [injection Ha as <-..|done]; cbn.
  - left. destruct Hl as [Hs|[_ []]]. pose proof Hs as (disco & ep & v & c & _ & _ & _ & _ & H).
    destruct (login_url _ _ _ _) as [u|]; [|done]. injection H as -> ->. by exists u, d.
  - right. specialize (Hp _ _ eq_refl). by destruct h.
Qed.

Lemma kept_with_issuer test_id issuer k (Q : reply → Prop) :
  (∀ ep, parse_discovery_url issuer = Ok ep → kept (k ep) Q) →
  (∀ rep, reply_status rep = 400%Z → Q rep) → kept (with_issuer test_id issuer k) Q.
Proof.
  intros Hk HQ. unfold with_issuer. destruct (parse_discovery_url issuer) as [ep|e]; [by apply Hk|].
  destruct (isinstance e ConfigurationException); [|apply keeps_throw].
  eapply keeps_bind; [by apply (kept_writes _ (λ _, True)), I; apply record_failure_inv|]. intros _ _.
  by apply keeps_ret, HQ.
Qed.
Lemma kept_refuse test_id err detail recorded (Q : reply → Prop) :
  (∀ rep, reply_status rep = 502%Z → Q rep) → kept (refuse test_id err detail recorded) Q.
Proof.
  intros HQ. unfold refuse. eapply keeps_bind; [apply (kept_writes _ (λ _, True)); [apply record_failure_inv|done]|].
  intros _ _. by apply keeps_ret, HQ.
Qed.
Lemma refused_not_found v : refusal_status (Stop (status_code v) (error_detail v)) → (status_code v =? HTTP_FOUND)%Z = false.
Proof.
  unfold refusal_status. cbn. intros H. apply Z.eqb_neq. intros E. rewrite E in H.
  by apply list_elem_of_In in H as [H|[H|[H|[]]]].
Qed.

Lemma kept_relay_discover issuer test_id tb :
  kept (relay_discover env http_date wall nan_sleep http location_of BASE_URL issuer test_id tb)
    (relay_post (RelayDiscover issuer test_id tb)).
Proof.
  unfold relay_discover. apply kept_with_issuer; [|by left]. intros ep Hep.
  apply keeps_pure_bind. intros r Hr. apply router_settings in Hr as [Hu _].
  eapply keeps_bind; [apply kept_login|]. intros [v jar] H. cbn [fst snd] in H. destruct H as [(url & d & -> & _ & Hs)|Hv].
  - destruct Hs as (disco & _ & _ & _ & Hop & _). cbn [status_code].
    change (302 =? HTTP_FOUND)%Z with true. cbn match.
    eapply keeps_bind; [apply (kept_writes _ (λ _, True)); [|done]|].
    + intros s Hs. destruct (nonempty test_id); [|done]. apply put_result_inv; [|done]. right; left.
      exists issuer, ep, r, disco. split_and!; [done..|congruence|done].
    + intros _ _. apply keeps_ret. right; right. exists ep, r, disco. split_and!; [done..|congruence|done].
  - rewrite (refused_not_found v Hv). apply kept_refuse. by right; left.
Qed.

Lemma kept_relay_authorize q tb :
  kept (relay_authorize env http_date wall nan_sleep http location_of BASE_URL q tb)
    (relay_post (RelayAuthorize q tb)).
Proof.
  unfold relay_authorize. apply kept_with_issuer; [|by left]. intros ep Hep.
  apply keeps_pure_bind. intros r Hr.
  eapply keeps_bind; [apply kept_login|]. intros [v jar] H. cbn [fst snd] in H. destruct H as [(url & d & -> & -> & Hs)|Hv].
  - cbn [status_code location]. change (302 =? HTTP_FOUND)%Z with true. cbn match.
    apply keeps_pure_bind. intros [|state states] _; [apply kept_refuse; by right; left|].
    set (f := NewFlowSession _ _ _ _ _ _ _).
    assert (Hf : opened f) by (by eexists ep, _, _, _, _, tb, d, url).
    eapply keeps_bind; [apply (kept_writes _ (λ _, True)); [|done]|].
    + intros s (Ha & Hfl & Hres). split_and!; [done| |done]. intros u f'. cbn.
      intros [[_ <-]|[_ H]]%lookup_insert_Some; [done|]. by eapply Hfl.
    + intros _ _. apply keeps_ret. right; right. by exists f, url.
  - rewrite (refused_not_found v Hv). apply kept_refuse. by right; left.
Qed.

(** The session a callback of an opened flow leaves, and the verdict it goes with. *)
Lemma opened_callback f url rep s' :
  opened f →
  Rp.callback_post env wall_clock uuid4 get_unverified_header new_pyjwk decode encode text_of http code_text
    (fs_router f) url (fs_jar f) rep s' →
  (∃ tb verifier challenge code data d' to,
     generate_pkce_pair (tb 0) "S256" DEFAULT_VERIFIER_LENGTH = Ok (verifier, challenge) ∧
     answers (login_flow tb verifier) url code ∧
     redeemed env wall_clock uuid4 get_unverified_header new_pyjwk decode encode text_of http code_text (fs_router f)
       (login_flow tb verifier) code data ∧
     rep = Redirect to 302 ∧ s' = Some d' ∧ dget "oidc" d' = VDict data ∧ data ≠ []) ∨ not_redirected rep.
Proof.
  intros (ep & id & secret & scope & fetch & tb & d & u & _ & Hr & Hj & Hs) Hc. rewrite Hj in Hc.
  destruct Hc as [(flow & code & data & Hfl & Ha & Hred & -> & ->)|[_ H]]; [left|by right].
  destruct Hs as (disco & endpoint & verifier & challenge & _ & _ & Hp & -> & _).
  rewrite dict_get_set_eq in Hfl. injection Hfl as <-.
  exists tb, verifier, challenge, code, data. do 2 eexists. split_and!; [done..| |].
  - apply router_settings in Hr as [_ <-]. unfold dget. by rewrite dict_get_set_eq.
  - destruct Hred as (? & ? & ? & ? & _ & _ & _ & _ & _ & ->). done.
Qed.

Lemma founded_login f url claims userinfo result :
  opened f → login_of f url claims userinfo →
  dget "id_token_claims" result = claims → dget "userinfo_claims" result = userinfo → founded result.
Proof. intros Hf Hl <- <-. right; right. by exists f, url. Qed.
Lemma founded_failure result : dget "status" result = VStr "error" → founded result.
Proof. by left. Qed.
Ltac looked_up := unfold dget; repeat first [rewrite dict_get_set_eq; reflexivity|rewrite dict_get_set_ne by done].

Lemma kept_finish f url v s :
  opened f →
  ((∃ tb verifier challenge code data d',
     generate_pkce_pair (tb 0) "S256" DEFAULT_VERIFIER_LENGTH = Ok (verifier, challenge) ∧
     answers (login_flow tb verifier) url code ∧
     redeemed env wall_clock uuid4 get_unverified_header new_pyjwk decode encode text_of http code_text (fs_router f)
       (login_flow tb verifier) code data ∧
     s = Some d' ∧ dget "oidc" d' = VDict data ∧ data ≠ []) ∧ status_code v = HTTP_FOUND ∨
   refusal_status (Stop (status_code v) (error_detail v))) →
  kept (finish_callback session_page f v s) (callback_answer url).
Proof.
  intros Hf [[(tb & verifier & challenge & code & data & d' & Hp & Ha & Hred & -> & Hd & Hne) Hst]|Hv];
    unfold finish_callback.
  - rewrite Hst, Z.eqb_refl, Hd. assert (dict_or_empty (VDict data) = VDict data) as -> by by destruct data.
    apply keeps_pure_bind. intros shown Hsh. apply keeps_pure_bind. intros claims Hc.
    apply keeps_pure_bind. intros userinfo Hu. apply keeps_pure_bind. intros tokens _.
    apply keeps_pure_bind. intros access_token _.
    assert (Hl : login_of f url claims userinfo) by (by exists tb, verifier, challenge, code, data, shown).
    eapply keeps_bind; [apply (kept_writes _ (λ _, True)); [|done]|].
    + intros s Hs. apply store_flow_inv; [intros w|..|done]; (eapply founded_login; [exact Hf|exact Hl|looked_up..]).
    + intros _ _. apply keeps_pure. intros rep Hrep. right. exists f. split; [done|right].
      unfold shown_login in Hrep. destruct claims; try discriminate Hrep. destruct userinfo; try discriminate Hrep.
      injection Hrep as <-. by eexists _, _.
  - rewrite (refused_not_found v Hv).
    eapply keeps_bind; [apply (kept_writes _ (λ _, True)); [|done]|].
    + intros s0 Hs. apply store_flow_inv; [intros w|..|done]; apply founded_failure; looked_up.
    + intros _ _. apply keeps_ret. right. exists f. split; [done|left]. by exists (Stop (status_code v) (error_detail v)).
Qed.

Lemma kept_pop state :
  kept (atom (pop_flow state) : RC (option FlowSession)) (λ o, ∀ f, o = Some f → opened f).
Proof.
  intros s (Ha & Hf & Hr). unfold pop_flow. destruct state as [[|c u]|]; cbn.
  - split; [done|]. by intros ? [= <-].
  - split; [|intros ? [= <-] f; apply Hf]. split_and!; [done| |done]. intros v f H. cbn in H. apply lookup_delete_Some in H as [_ H]. by eapply Hf.
  - split; [done|]. by intros ? [= <-].
Qed.

Lemma kept_callback state url replay :
  (∀ f, opened f → safe (λ s, aio_inv env (web http) (aio s))
     (λ o, ∃ rep s', o = Ok (rep, s') ∧
        Rp.callback_post env wall_clock uuid4 get_unverified_header new_pyjwk decode encode text_of http code_text
          (fs_router f) url (fs_jar f) rep s') (replay f)) →
  (∀ f, safe (λ _, True) proper (replay f)) →
  kept (relay_callback location_of session_page state replay) (callback_answer url).
Proof.
  intros Hreplay Hproper. unfold relay_callback. eapply keeps_bind; [apply kept_pop|].
  intros [f|] Hf; [|by apply keeps_ret; left]. specialize (Hf f eq_refl).
  eapply (safe_finish _ _ _ _ _ (kept_router _ _ (safe_both _ _ _ _ (Hreplay f Hf) (Hproper f)))).
  intros o ((rep & s' & -> & Hp) & Hrefused). apply keeps_pure_bind. intros v Hv.
  apply opened_callback in Hp; [|done]. apply kept_finish; [done|].
  destruct Hp as [(tb & verifier & challenge & code & data & d' & to & Hp & Ha & Hred & -> & -> & Hd & Hne)|Hn].
  - left. injection Hv as <-. split; [|done]. by exists tb, verifier, challenge, code, data, d'.
  - right. destruct rep as [to status|h|e]; [done| |done]. injection Hv as <-.
    specialize (Hrefused _ _ eq_refl). by destruct h.
Qed.

Lemma kept_drop states : kept (drop_flows states) (λ _, True).
Proof.
  induction states as [|u states IH]; cbn [drop_flows]; [done|].
  eapply (keeps_bind _ _ _ (λ _, True)); [|by intros _ _].
  intros s (Ha & Hf & Hr). destruct (flows s !! u); cbn; (split; [|done]); split_and!; try done.
  intros v f0 H. cbn in H. apply lookup_delete_Some in H as [_ H]. by eapply Hf.
Qed.
Lemma kept_library {A} (c : C A) :
  safe (aio_inv env (web http)) (λ _, True) c → safe relay_inv (λ _, True) (on_router (on_aio c)).
Proof. intros H. by apply kept_router, (safe_embed aio set_aio aio_set_aio (aio_inv env (web http))). Qed.
Lemma kept_clear :
  kept (relay_clear_cache loop) (relay_post RelayClearCache).
Proof.
  unfold relay_clear_cache. eapply (keeps_bind _ _ _ (λ _, True)); [by apply keeps_atom|]. intros states _.
  eapply keeps_bind; [apply kept_drop|]. intros _ _.
  eapply (keeps_bind _ _ _ (λ _, True)).
  { eapply safe_post; [|by intros ?]. apply kept_library. unfold aio_clear_discovery_cache.
    eapply safe_post; [apply (keeps_with_lock _ _ _ (λ _, True)), kept_modify; intros t Ht; by apply inv_disco_empty|done]. }
  intros _ _. eapply (keeps_bind _ _ _ (λ _, True)).
  { eapply safe_post; [|by intros ?]. apply kept_library. unfold aio_clear_jwks_cache.
    eapply safe_post; [apply (keeps_with_lock _ _ _ (λ _, True))|done].
    eapply keeps_bind; [|intros _ _; apply (kept_cooldown _ _ (λ _, ∅))].
    apply kept_modify. intros t Ht. by apply inv_jwks_empty. }
  intros _ _. by apply keeps_ret.
Qed.

Lemma kept_results test_id : kept (relay_result test_id) (relay_post (RelayResults test_id)).
Proof.
  unfold relay_result. eapply (keeps_bind _ _ _ (λ o, ∀ result, o = Some result → founded result)).
  - intros s Hs. split; [done|]. intros o [= <-] result H. by eapply Hs.
  - intros [result|] H; apply keeps_ret; [right; exists result; split; [done|by apply H]|by left].
Qed.

Local Abbreviation served := (relay env http_date wall clock wall_clock uuid4 get_unverified_header new_pyjwk decode
  hash_key hash_uri nan_sleep encode text_of is_dir create_default_context load_cert_chain new_client http code_text
  replace_query location_of client_url session_page BASE_URL loop).

Lemma kept_relay r : kept (served r) (relay_post r).
Proof.
  destruct r as [| |issuer test_id tb|q tb|q|body|test_id]; cbn [relay].
  - by apply keeps_ret.
  - apply kept_clear.
  - apply kept_relay_discover.
  - apply kept_relay_authorize.
  - apply kept_callback; [intros f _; apply safe_callback|intros f; apply proper_callback].
  - unfold relay_callback_post, relay_post. destruct (urlencode (parse_qsl body)) as [params|e] eqn:Eq.
    + eapply keeps_post; [apply (kept_callback _ (replace_query (client_url "/callback") params))|].
      * intros f _. eapply safe_post; [apply safe_form_post|]. intros o (rep & s' & -> & H). exists rep, s'.
        split; [done|]. unfold replayed_post in H. by rewrite Eq in H.
      * intros f. apply proper_form_post.
      * intros rep H. right. by exists params.
    + unfold relay_callback. eapply (keeps_bind _ _ _ (λ _, True)); [eapply keeps_post; [apply kept_pop|done]|].
      intros [f|] _; [|by apply keeps_ret; left]. unfold callback_form_post. rewrite Eq. done.
  - apply kept_results.
Qed.

Local Abbreviation pool_of requests := (start (map served requests) relay_start).

Lemma relay_safe requests order :
  pool_safe relay_inv (map (λ r o, ∀ rep, o = Ok rep → relay_post r rep) requests) (schedule order (pool_of requests)).
Proof.
  eapply pool_safe_reach; [apply schedule_moves|]. apply pool_safe_start.
  - split; [apply tv_inv_forget, initial_tv_inv|]. split; [intros u f H|intros t g H]; cbn in H; by rewrite lookup_empty in H.
  - induction requests as [|r rs IH]; constructor; [apply kept_relay|apply IH].
Qed.

(** *** Every schedule ends *)

Context (Hbackoff : finite_backoff env).
#[local] Set Default Proof Using "Type Hbackoff".

Lemma tidy_bind_router {A B} (c : AC A) (k : A → RC B) : tidy 0 c → (∀ a, tidy 0 (k a)) → tidy 0 (on_router c ≫= k).
Proof. intros Hc Hk. apply balanced_bind; [by apply balanced_embed|exact Hk]. Qed.
Ltac tidy_relay := repeat first
  [ apply tidy_bind_router; [|intros ?] | apply balanced_bind; [|intros ?] | apply balanced_ret | apply balanced_throw
  | apply balanced_pure | apply balanced_atom | apply balanced_if
  | match goal with |- balanced _ _ _ (match ?x with _ => _ end) => destruct x end ].

Lemma tidy_relay_call r : tidy 0 (served r).
Proof.
  destruct r as [| |issuer test_id tb|q tb|q|body|test_id]; cbn [relay].
  - apply balanced_ret.
  - unfold relay_clear_cache. apply balanced_bind; [apply balanced_atom|intros states].
    apply balanced_bind; [induction states; cbn [drop_flows]; tidy_relay; done|intros _].
    apply tidy_bind_router; [apply balanced_embed; unfold aio_clear_discovery_cache; tidy|intros _].
    apply tidy_bind_router; [apply balanced_embed; unfold aio_clear_jwks_cache; tidy|intros _]. apply balanced_ret.
  - unfold relay_discover, with_issuer, refuse, drive_login. tidy_relay. by apply tidy_login.
  - unfold relay_authorize, with_issuer, refuse, drive_login. tidy_relay. by apply tidy_login.
  - unfold relay_callback_get, relay_callback, finish_callback. tidy_relay. by apply tidy_callback.
  - unfold relay_callback_post, relay_callback, finish_callback. tidy_relay. by apply tidy_form_post.
  - unfold relay_result. tidy_relay.
Qed.

End Safety.

(** ** On concrete inputs *)

Definition demo_requests : list relay_request := [RelayAuthorize (demo_query "" "") Rp.demo_entropy; relay_back].
Definition login_page : reply := html_reply 200 (success_page demo_identity [("sub", VStr "alice"); ("name", VStr "Alice")]).

